(* ===== verification/_CoqProject ===== *)
-Q . S2P
Prelude.v
Kernel.v
RangeTree.v
RangeTreeProofs.v
RangeTreeProps.v
Folio.v
Channel.v
Migration.v
MigrationProps.v
Policy.v
PolicyProps.v
System.v
SystemProps.v
Exchange.v
ExchangeProps.v
ModArith.v
Mrg.v
MrgProofs.v
MrgTable.v
MrgSkip.v
Kronecker.v
KroneckerProofs.v
GeneratorProps.v
BTree.v
BTreeArrays.v
BTreeNode.v
BTreeAlloc.v
BTreeTree.v
BTreeFind.v
BTreeInsert.v
BTreeMap.v
BTreeMerge.v
BTreeShare.v
BTreeShareRight.v
BTreeDelete.v
BTreeRebalance.v
BTreeRemove.v
BTreeMemory.v
BTreeWalk.v
BTreeRange.v
BTreeProps.v
BTreeBench.v
Balloon.v
BalloonProps.v
Graph500.v
Graph.v
SeqCsrProofs.v
Omp.v
OmpBitmap.v
OmpBitmapProofs.v
OmpCsr.v
OmpCsrBuild.v
OmpLevels.v
OmpQueue.v
OmpCsrSearch.v
OmpCsrBottom.v
OmpCsrProofs.v
SeqListProofs.v
VerifyProofs.v
DriverProofs.v
Graph500Props.v
OmpCsrProps.v
XsBench.v
XsNumbers.v
XsGrid.v
XsBenchProofs.v
XsSort.v
XsBenchProps.v
Target.v
Sysfs.v
TargetProofs.v
SysfsProofs.v
TargetProps.v
Wait.v
