(* ===== verification/Prelude.v ===== *)
(** * Demeter: a verification development

    The repository holds the artifact of Demeter, a tiered-memory manager for
    virtual machines: a kernel patch (src/patch/demeter.patch) with the range
    tree that tracks access frequency, the policy, migration and balloon code,
    and the workloads it is evaluated with (src/workload), among them the
    Graph500 benchmark and a B+ tree.

    ** Parts and files

    - Prelude: machine integers ([u64], [u32], [s32]), outcomes ([res], with a
      fault for every way the C code can stop), arrays with checked bounds, the
      loops of the source as combinators with invariant rules, hint databases.
    - Kernel: what Demeter uses of Linux.  The maple tree and the allocator are
      not part of the repository: they are type classes ([MapleTree], [Kmalloc])
      with their documented laws ([MapleLaws], [KmallocLaws]).  Either may run out
      of memory: theorems about splitting and about the threads have that as an
      outcome ([oom], [unless_oom]), and only the construction of a tree assumes it
      away ([MapleNoOom], [KmallocNoOom]).  List and first-free instances show the
      laws can hold.
    - RangeTree: mm/demeter/range_tree.h of the patch, with the heap of ranges.
      RangeTreeProofs relates the tree to the list of its ranges ([rt_repr]) and
      proves each operation against a function on lists; RangeTreeProps states
      the properties: a splitting pass refines [split_list] or stops in BUG()
      because memory ran out, counting is exact, a pass preserves coverage and
      bounds the loss of counts, and every sequence of operations keeps the
      invariant and, with enough memory, cannot fault.
    - Folio, Channel: what the threads of mm/demeter/core.c share.  Folio has the
      LRU, reference counts and isolation statistics as an interface
      ([FolioOps], [FolioLaws]) with [manage_folio] and [unmanage_folio] on top;
      Channel the per-CPU message buffers of mm/demeter/mpsc.h.
    - Migration: the migration thread.  MigrationProps: a request is handled
      without a fault and exactly the handled folios are put back.
    - Policy: the policy thread: samples, ranking, isolation, requests.
      PolicyProps: exact sample accounting, balanced requests, and two faults of
      the code (a miss counted as received, an index that wraps around).
    - System: the state of a target and all threads, as a step relation labelled
      with the exchange requests that are sent ([sys_step], [sys_run]).
      SystemProps: an invariant over every interleaving with the references leaked
      so far ([leaks], a function of the requests), which handlers cannot fault and
      how that of a split request can, and that draining the channels puts every
      folio back.
    - Target: creating and stopping a target (mm/demeter/core.c) with its task
      reference, channels, threads and perf events, and the throttling thread.
      Sysfs: the files and directories that control targets (mm/demeter/sysfs.c)
      and the life of the module; Wait: [select2] and [select3] of
      kernel/trace/ring_buffer.c.  TargetProofs and SysfsProofs carry the lemmas,
      TargetProps the properties: a failed creation leaves at most disabled events,
      creating and stopping restores the state, the directories own the targets
      under every interleaving and unloading gives all back; and a read of freed
      memory and a thread that leaves too early.  Wait also proves that no wake-up
      is lost.
    - Exchange: the exchange of two isolated folios (mm/exchange.c) in a state and
      fault monad over folio records, pages, page tables and the page cache.
      The reverse map is an argument: try_to_migrate may leave mappings, and
      remove_migration_ptes resolves entries only where the destination's reverse
      map finds them.  ExchangeProps: for anonymous folios that were unmapped
      completely ([migrate_complete]) no outcome changes what a process sees, every
      number of workers in every order swaps a page, flags are exchanged exactly;
      and the failures after which mappings, contents or results are wrong.  The
      folio interface of the threads abstracts from this operation: [folio_exchange]
      is an operation of [FolioOps] there, with a law on references and the LRU.
    - ModArith, Mrg, MrgTable, Kronecker: the Graph500 generator
      (src/workload/graph500/generator).  ModArith has both arithmetic headers as
      instances of one interface; Mrg the generator and its transition matrices;
      MrgTable the 24 x 256 matrices of mrg_transitions.c; Kronecker the edge
      generator.  MrgProofs, MrgSkip and KroneckerProofs carry the lemmas and
      GeneratorProps the properties: skipping by a 192-bit exponent is that many
      steps, the table is the generated one, rejection sampling ends within nine
      draws, scrambling permutes the vertices, ranges of edges are total and
      independent of the division of work.
    - Graph500: the programs around the generator: the kernels of
      seq-csr/seq-csr.c ([SeqCsr]) and seq-list/seq-list.c ([SeqList]), the
      validation of verify.c ([Verify]), [run_bfs] and [main] of graph500.c
      ([Driver]); [Kernel] is the interface of graph500.h.  Graph has the theory
      they share: graphs, distances, breadth-first trees ([bfs_ok],
      [bfs_tree_of]) and the search with a queue.  SeqCsrProofs and
      SeqListProofs prove the construction and the search of each kernel,
      VerifyProofs that the validation accepts exactly the breadth-first trees,
      DriverProofs the sampling of roots and the driver against [KernelLaws],
      which both sequential kernels discharge, and the OpenMP one for schedules that
      are [OmpPrompt].  Graph500Props states the properties: rows
      are sorted neighbour lists, searches are breadth first, the kernels agree,
      validation is sound and complete, the benchmark as a whole never fails on
      a generated graph with an edge; and the roots that are not the vertices
      drawn.
    - Omp: teams of OpenMP threads.  A thread is a tree of atomic accesses to the
      shared state ([proc]); between two barriers a team runs them in an order
      given by a schedule; the number of threads, the division of a shared loop,
      the thread of a [single] region and the schedule are an interface ([Omp],
      [OmpLaws]), so that theorems hold for all of them; [OmpPrompt] says that no
      thread makes a second access after a barrier before every other has made one.
      Threads that would wait at different barriers are the fault [Diverged].
      The proof rules are of the rely-guarantee kind ([wp], [par_wp], [returns]).
    - OmpBitmap, OmpCsr: omp-csr/bitmap.h and omp-csr/omp-csr.c, the kernel that the
      evaluation runs: rows built with atomic additions, and a search that
      goes top down over a queue or bottom up over a bitmap.  OmpBitmapProofs has
      the bits, OmpCsrBuild the construction, OmpLevels the levels of a search,
      OmpQueue the queue that threads append blocks to, OmpCsrSearch the steps top
      down, OmpCsrBottom those bottom up, OmpCsrProofs the search as a whole.
      OmpCsrProps: the rows are those of the sequential kernel, the search is
      breadth first under every schedule unless the threads part; that they can
      part, because a counter is reset while others still read it; and that
      bitmaps of large graphs are too small.
    - XsBench: the cross-section lookups of src/workload/xsbench: random numbers,
      materials, the grids of nuclides with their union or hash bins, lookups of events
      and of particle histories, the kernel that sorts its samples, and [xs_main].
      Doubles are binary64 numbers of the Standard Library's [SpecFloat], so results
      are compared bit for bit; [qsort] is an interface that leaves the order of equal
      elements open ([Qsort], [QsortLaws]).  XsNumbers has the order of doubles and the
      generator, XsGrid the searches and the union, XsBenchProofs materials, lookups
      and reductions, XsSort the quicksort, whose tasks run one at a time in any order.
      XsBenchProps: unionized and nuclide grids and both kernels give one checksum under
      all schedules, skipping ahead is exact; and an overflow the evaluation runs into.
    - BTree: the B+ tree of src/workload/btree/btree1.c, in a state and fault
      monad over slabs of nodes and records with their free lists.  BTreeArrays,
      BTreeNode, BTreeAlloc and BTreeTree carry the arrays, nodes, allocation
      and the tree a heap represents; BTreeFind, BTreeInsert, BTreeMap and
      BTreeMemory search, insertion, the map it refines and what memory suffices;
      BTreeMerge, BTreeShare, BTreeShareRight, BTreeDelete, BTreeRebalance and
      BTreeRemove deletion; BTreeWalk and BTreeRange the walks over the leaves.
      BTreeProps: every sequence of operations refines a finite map, nodes keep
      their type, the height is logarithmic, ranges are exact.  BTreeBench has
      the random numbers and the steps of [real_main].
    - Balloon: the balloon driver mm/demeter/balloon.c of the patch, with the
      page allocator, the virtqueues and the list of ballooned pages as an
      interface ([BalloonEnv], [BalloonLaws]); the allocator prefers a node but may
      take a page of another.  BalloonProps: accounts that agree with the host and
      the allocator under every interleaving ([vb_step]), targets that are reached
      when the kernel is calm ([BalloonCalm]) and pages are left ([alloc_above]),
      and two faults of the deflation (an overrun of its message, a size read
      outside the lock).

    ** Conventions

    Machine words are [Z] with the wrap-around written out.  Loops run on fuel
    only where the source's bound is not syntactic, and each fuel is proved
    sufficient by the theorem that uses the loop: the number of entries for a
    pass over the tree, 32 bits for [mrg_power], 8 bytes for a word of
    [mrg_skip], 63 halvings for an edge, 9 draws for a rejection sequence, the
    messages and retries for a channel, the folios for a migration request, the
    pages for a walk over an area, the buffers for a ring of buffer heads, the
    addresses of the heap for a walk over a B+ tree, the runs of a work item for
    a balloon, the vertices for a search and for a way up a search tree, the
    length of the block for a list of neighbours, the time of the next arrival for
    a wait, three levels of directories; in the OpenMP kernel one attempt per thread
    and one more to raise [maxvtx], 65 attempts to set a bit in a word of 64, the
    words of a bitmap, the bits of a word, and the vertices for the levels; in XSBench
    64 bits of a skip, the length of a grid for a search, that of a part for a
    partition and the depth of quicksort, and twice that of the array for its tasks.
    [Fault OutOfFuel] is thus never returned in the situations the theorems describe.

    The random choice of a search root and what the kernel and the C library
    provide are arguments with named laws.  Assumptions about a run, which no
    documentation promises, are classes or hypotheses of their own and named in the
    comment of every property that needs them: that memory suffices ([MapleNoOom],
    [KmallocNoOom], and [MallocNoOom] for the workloads, up to 2^63 bytes an object),
    that unmapping succeeds ([migrate_complete]), that the balloon's kernel is calm
    ([BalloonCalm], [alloc_above]), that the throttling parameters describe a pulse
    ([throttle_pulse]).

    ** Not modelled

    The hash map of the patch (vendored), its vectors (unused), the system calls of
    mm/exchange.c, clock statistics and log messages; the contents of the channels
    when a target is stopped (Target and System are not composed); the early return
    of a policy thread as a step of Sysfs (TargetProps shows what it does);
    [destroy_tree], option parsing and timing of the B+ tree benchmark; files,
    statistics and output of Graph500, its floating-point generator, its MPI and XMT
    variants and an earlier OpenMP one (omp-csr-old.c); the OpenMP pragmas of verify.c
    and graph500.c, which are modelled as one thread, and with which the omp-csr
    binary is compiled; OpenMP's weak memory (the accesses of a team are interleaved)
    and the overlap in time of the sorting tasks of XSBench, which work on separate
    parts; the order of the initializers in XSBench's grid_init_do_not_profile, one of
    which reads a field that C does not promise to be set yet; the options, messages and binary files of
    XSBench, and that its hash grid agrees with the others; the remaining
    vendored workloads, which are C++ or numerical, and the scripts.
*)
From stdpp Require Import base numbers list gmap sorting.
From Stdlib Require Import ZArith Lia.

Open Scope Z_scope.

(** Linear arithmetic with divisions and remainders by constants. *)
Ltac dlia := Z.to_euclidean_division_equations; lia.

(** ** Machine integers *)

Declare Scope cword_scope.
Delimit Scope cword_scope with cw.

(** Reduction of a mathematical integer to an unsigned [w]-bit C integer. *)
Definition wrap (w x : Z) : Z := x mod 2 ^ w.

Definition u64 (x : Z) : Z := wrap 64 x.
Definition u32 (x : Z) : Z := wrap 32 x.

(** Conversion to a signed 32-bit [int], two's complement. *)
Definition s32 (x : Z) : Z := (x + 2 ^ 31) mod 2 ^ 32 - 2 ^ 31.

Definition ULONG_MAX : Z := 2 ^ 64 - 1.

Notation "x +u y" := (u64 (x + y)) (at level 50, left associativity) : cword_scope.
Notation "x -u y" := (u64 (x - y)) (at level 50, left associativity) : cword_scope.
Notation "x *u y" := (u64 (x * y)) (at level 40, left associativity) : cword_scope.

Definition is_u64 (x : Z) : Prop := 0 <= x < 2 ^ 64.

Lemma wrap_small w x : 0 <= x < 2 ^ w -> wrap w x = x.
Proof. intros; unfold wrap; now apply Z.mod_small. Qed.

Lemma wrap_range w x : 0 <= w -> 0 <= wrap w x < 2 ^ w.
Proof. intros; apply Z.mod_pos_bound, Z.pow_pos_nonneg; lia. Qed.

Lemma u64_small x : is_u64 x -> u64 x = x.
Proof. apply wrap_small. Qed.

Lemma u64_range x : is_u64 (u64 x).
Proof. now apply (wrap_range 64). Qed.

Lemma s32_small x : - 2 ^ 31 <= x < 2 ^ 31 -> s32 x = x.
Proof. intros; unfold s32; rewrite Z.mod_small; lia. Qed.

Lemma s32_u64 x : s32 (u64 x) = s32 x.
Proof.
  unfold s32, u64, wrap. f_equal.
  rewrite <- Zplus_mod_idemp_l, Z.mod_mod_divide.
  - now rewrite Zplus_mod_idemp_l.
  - now exists (2 ^ 32).
Qed.

(** A difference of two small unsigned words, taken modulo [2^64] and then
    truncated to [int], is the signed difference. *)
Lemma s32_u64_sub x y :
  0 <= x < 2 ^ 31 -> 0 <= y < 2 ^ 31 -> s32 (u64 (x - y)) = x - y.
Proof. intros. rewrite s32_u64. apply s32_small. lia. Qed.

(** ** Outcomes

    A C computation either returns or stops in a fault: an access outside an
    array, a dereference of [NULL] or of a freed object, a [BUG()]/[BUG_ON()]
    or failed [assert], an [exit()], a signed overflow, a division by zero, a lock
    taken twice, threads of a team that take different ways through a parallel
    region, or (in the model only) exhausted fuel. *)

Inductive fault :=
  | OutOfBounds
  | BadPointer
  | BugOn
  | AssertFailed
  | ExitFailure
  | IntOverflow
  | DivByZero
  | Deadlock
  | Diverged
  | OutOfFuel.

Inductive res (A : Type) :=
  | Ok (a : A)
  | Fault (f : fault).
Arguments Ok {A} a.
Arguments Fault {A} f.

#[export] Instance fault_eq_dec : EqDecision fault.
Proof. solve_decision. Defined.

#[export] Instance res_ret : MRet res := fun A a => Ok a.
#[export] Instance res_bind : MBind res := fun A B k m =>
  match m with Ok a => k a | Fault f => Fault f end.

Definition is_ok {A} (m : res A) : bool :=
  match m with Ok _ => true | Fault _ => false end.

(** The result of an [int] operation. *)
Definition i32 (x : Z) : res Z := if decide (- 2 ^ 31 <= x < 2 ^ 31) then Ok x else Fault IntOverflow.

(** A guard of the source ([BUG_ON], [assert], a bounds check). *)
Definition check (b : bool) (f : fault) : res unit :=
  if b then Ok tt else Fault f.

Definition of_option {A} (f : fault) (o : option A) : res A :=
  match o with Some a => Ok a | None => Fault f end.

Lemma bind_Ok {A B} (m : res A) (k : A -> res B) b :
  m ≫= k = Ok b <-> exists a, m = Ok a /\ k a = Ok b.
Proof.
  destruct m as [a|f]; simpl; split.
  - intros H; now exists a.
  - intros (a' & [= <-] & H); exact H.
  - discriminate.
  - intros (a' & H & _); discriminate.
Qed.

Lemma check_Ok b f u : check b f = Ok u <-> b = true.
Proof. destruct b, u; simpl; split; congruence. Qed.

Lemma of_option_Ok {A} f (o : option A) a : of_option f o = Ok a <-> o = Some a.
Proof. destruct o; simpl; split; congruence. Qed.

(** Splits every hypothesis that says a sequence of steps returned. *)
Ltac ok_inv :=
  repeat match goal with
  | H : (_ ≫= _) = Ok _ |- _ =>
      apply bind_Ok in H; let a := fresh "a" in let Ha := fresh "Ha" in
      destruct H as (a & Ha & H)
  | H : check _ _ = Ok _ |- _ => apply check_Ok in H
  | H : of_option _ _ = Ok _ |- _ => apply of_option_Ok in H
  | H : Ok _ = Ok _ |- _ => injection H as H
  | H : mret _ = Ok _ |- _ => injection H as H
  | H : Fault _ = Ok _ |- _ => discriminate H
  end.

(** ** Arrays indexed by C integers *)

Definition aread {A} (a : list A) (i : Z) : res A :=
  if decide (0 <= i) then of_option OutOfBounds (a !! Z.to_nat i)
  else Fault OutOfBounds.

Definition awrite {A} (a : list A) (i : Z) (x : A) : res (list A) :=
  if decide (0 <= i < Z.of_nat (length a)) then Ok (<[Z.to_nat i := x]> a)
  else Fault OutOfBounds.

Definition zlen {A} (a : list A) : Z := Z.of_nat (length a).

Lemma zlen_nonneg {A} (a : list A) : 0 <= zlen a.
Proof. unfold zlen; lia. Qed.

Lemma zlen_app {A} (a b : list A) : zlen (a ++ b) = zlen a + zlen b.
Proof. unfold zlen; rewrite length_app; lia. Qed.

Lemma zlen_cons {A} (x : A) a : zlen (x :: a) = 1 + zlen a.
Proof. unfold zlen; simpl; lia. Qed.

Lemma zlen_nil {A} : zlen ([] : list A) = 0.
Proof. reflexivity. Qed.

Lemma aread_Ok {A} (a : list A) i x :
  aread a i = Ok x <-> 0 <= i /\ a !! Z.to_nat i = Some x.
Proof.
  unfold aread. case_decide.
  - rewrite of_option_Ok. tauto.
  - split; [discriminate | intros [? _]; contradiction].
Qed.

Lemma aread_in_bounds {A} (a : list A) i :
  0 <= i < zlen a -> exists x, aread a i = Ok x /\ a !! Z.to_nat i = Some x.
Proof.
  intros Hi. unfold zlen in Hi.
  destruct (lookup_lt_is_Some_2 a (Z.to_nat i)) as [x Hx]; [lia|].
  exists x. rewrite aread_Ok. repeat split; auto with lia.
Qed.

Lemma awrite_in_bounds {A} (a : list A) i x :
  0 <= i < zlen a -> awrite a i x = Ok (<[Z.to_nat i := x]> a).
Proof. unfold awrite, zlen; intros; case_decide; [reflexivity | lia]. Qed.

Lemma awrite_Ok {A} (a : list A) i x b :
  awrite a i x = Ok b <-> 0 <= i < zlen a /\ b = <[Z.to_nat i := x]> a.
Proof. unfold awrite, zlen; case_decide; split; intuition congruence. Qed.

(** Filtering by conditions that agree on a list. *)
Lemma filter_same {A} (P Q : A -> Prop) `{!forall x, Decision (P x), !forall x, Decision (Q x)} (l : list A) :
  Forall (fun x => P x <-> Q x) l -> filter P l = filter Q l.
Proof.
  induction 1 as [|x l Hx _ IH]; [done|]. rewrite !filter_cons, IH. do 2 case_decide; tauto || done.
Qed.

(** Sorted lists by their entries. *)
Lemma StronglySorted_lookup {A} (R : A -> A -> Prop) l :
  StronglySorted R l <-> forall i j x y, (i < j)%nat -> l !! i = Some x -> l !! j = Some y -> R x y.
Proof.
  split.
  - induction 1 as [|a l Hs IH Ha]; intros i j x y Hij Hi Hj; [done|]. destruct j as [|j]; [lia|]. destruct i as [|i].
    + injection Hi as ->. rewrite Forall_forall in Ha. eapply Ha, list_elem_of_lookup_2, Hj.
    + eapply (IH i j); [lia|exact Hi|exact Hj].
  - induction l as [|a l IH]; intros H; constructor.
    + apply IH. intros i j x y Hij. apply (H (S i) (S j)). lia.
    + apply Forall_lookup. intros j y Hj. apply (H 0%nat (S j)); [lia|done|done].
Qed.

Lemma sorted_NoDup (l : list Z) : StronglySorted Z.lt l -> NoDup l.
Proof.
  induction 1 as [|x l Hss IH Hx]; constructor; auto.
  intros Hin. rewrite Forall_forall in Hx. specialize (Hx x Hin). lia.
Qed.

(** ** Loops *)

Section loops.
Context {St : Type}.

(** [for (i = lo; i < lo + n; i++) body] *)
Fixpoint for_n (n : nat) (i : Z) (body : Z -> St -> res St) (s : St) : res St :=
  match n with
  | O => Ok s
  | S n => body i s ≫= for_n n (i + 1) body
  end.

Definition for_range (lo hi : Z) (body : Z -> St -> res St) (s : St) : res St :=
  for_n (Z.to_nat (hi - lo)) lo body s.

(** [for (i = hi; i > lo; i--) body] *)
Definition for_down (hi lo : Z) (body : Z -> St -> res St) (s : St) : res St :=
  for_n (Z.to_nat (hi - lo)) 0 (fun k => body (hi - k)) s.

(** [while (cond) body] *)
Fixpoint while_loop (fuel : nat) (cond : St -> res bool) (body : St -> res St)
    (s : St) : res St :=
  match fuel with
  | O => Fault OutOfFuel
  | S fuel =>
      c ← cond s;
      if (c : bool) then body s ≫= while_loop fuel cond body else Ok s
  end.

Lemma for_n_inv (P : Z -> St -> Prop) n lo body s :
  P lo s ->
  (forall i s, lo <= i < lo + Z.of_nat n -> P i s ->
     exists s', body i s = Ok s' /\ P (i + 1) s') ->
  exists s', for_n n lo body s = Ok s' /\ P (lo + Z.of_nat n) s'.
Proof.
  revert lo s; induction n as [|n IH]; intros lo s H0 Hstep; simpl.
  - exists s. split; [done|]. now replace (lo + Z.of_nat 0) with lo by lia.
  - destruct (Hstep lo s) as (s1 & -> & H1); [lia|done|]. simpl.
    destruct (IH (lo + 1) s1 H1) as (s2 & -> & H2).
    { intros i s' Hi. apply Hstep. lia. }
    exists s2. split; [done|]. now replace (lo + Z.of_nat (S n)) with (lo + 1 + Z.of_nat n) by lia.
Qed.

(** Total correctness of a counting loop from an invariant. *)
Lemma for_range_inv (P : Z -> St -> Prop) lo hi body s :
  lo <= hi ->
  P lo s ->
  (forall i s, lo <= i < hi -> P i s -> exists s', body i s = Ok s' /\ P (i + 1) s') ->
  exists s', for_range lo hi body s = Ok s' /\ P hi s'.
Proof.
  intros Hle H0 Hstep. unfold for_range.
  destruct (for_n_inv P (Z.to_nat (hi - lo)) lo body s H0) as (s' & -> & H').
  - intros i s' Hi. apply Hstep. lia.
  - exists s'. split; [done|]. now replace (lo + Z.of_nat (Z.to_nat (hi - lo))) with hi in H' by lia.
Qed.

Lemma for_down_inv (P : Z -> St -> Prop) hi lo body s :
  lo <= hi ->
  P hi s ->
  (forall i s, lo < i <= hi -> P i s -> exists s', body i s = Ok s' /\ P (i - 1) s') ->
  exists s', for_down hi lo body s = Ok s' /\ P lo s'.
Proof.
  intros Hle H0 Hstep. unfold for_down.
  destruct (for_n_inv (fun k => P (hi - k)) (Z.to_nat (hi - lo)) 0
              (fun k => body (hi - k)) s) as (s' & -> & H').
  - now rewrite Z.sub_0_r.
  - intros k s' Hk Hp. destruct (Hstep (hi - k) s') as (s2 & -> & ?); [lia|done|].
    exists s2. split; [done|]. now replace (hi - (k + 1)) with (hi - k - 1) by lia.
  - exists s'. split; [done|].
    now replace (hi - (0 + Z.of_nat (Z.to_nat (hi - lo)))) with lo in H' by lia.
Qed.

(** Total correctness of a [while] loop: an invariant and a measure that
    every iteration lowers; the fuel only has to exceed the measure. *)
Lemma while_loop_inv (P : St -> Prop) (m : St -> nat) fuel cond body s :
  P s -> (m s < fuel)%nat ->
  (forall s, P s -> exists c, cond s = Ok c /\
     (c = true -> exists s', body s = Ok s' /\ P s' /\ (m s' < m s)%nat)) ->
  exists s', while_loop fuel cond body s = Ok s' /\ P s' /\ cond s' = Ok false.
Proof.
  revert s; induction fuel as [|fuel IH]; intros s Hs Hm Hstep; [lia|]. simpl.
  destruct (Hstep s Hs) as (c & Hc & Hb). rewrite Hc. simpl.
  destruct c.
  - destruct (Hb eq_refl) as (s1 & -> & Hs1 & Hm1). simpl. apply IH; auto. lia.
  - exists s. auto.
Qed.
End loops.

(** Two loops whose bodies do the same. *)
Lemma for_n_both {St} (P : St -> Prop) n lo (f g : Z -> St -> res St) s :
  P s -> (forall k s, lo <= k < lo + Z.of_nat n -> P s -> exists s', f k s = Ok s' /\ g k s = Ok s' /\ P s') ->
  exists s', for_n n lo f s = Ok s' /\ for_n n lo g s = Ok s' /\ P s'.
Proof.
  revert lo s. induction n as [|n IH]; intros lo s Hs Hb; [now exists s|]. cbn [for_n]. destruct (Hb lo s ltac:(lia) Hs) as (s1 & -> & -> & Hs1).
  cbn [mbind res_bind]. apply IH; [done|]. intros k s2 Hk. apply Hb. lia.
Qed.

Lemma for_range_both {St} (P : St -> Prop) lo hi (f g : Z -> St -> res St) s :
  P s -> (forall k s, lo <= k < hi -> P s -> exists s', f k s = Ok s' /\ g k s = Ok s' /\ P s') ->
  exists s', for_range lo hi f s = Ok s' /\ for_range lo hi g s = Ok s' /\ P s'.
Proof. intros Hs Hb. apply for_n_both; [done|]. intros k s1 Hk. apply Hb. lia. Qed.

(** ** Hints shared by the components *)

Create HintDb demeter.
Create Rewrite HintDb zlen.
#[export] Hint Rewrite @zlen_app @zlen_cons @zlen_nil : zlen.
#[export] Hint Resolve u64_range zlen_nonneg : demeter.
#[export] Hint Extern 1 (is_u64 _) => unfold is_u64 in *; lia : demeter.
