(* ===== verification/Kernel.v ===== *)
(** Services of the Linux kernel that the Demeter module calls but that are not
    part of the repository: the maple tree, [kmalloc] and the error-value
    conventions of [linux/err.h].

    The maple tree and the allocator are interfaces (type classes): their
    operations are parameters, their laws are the documented behaviour of
    [lib/maple_tree.c] and [kmalloc].  Every client is proved against the
    interface; [ListMaple] and [SupKmalloc] are instances that satisfy it and
    on which the development is evaluated.  The macros [TRY] and [UNWRAP] are
    Demeter's own (mm/demeter/error.h). *)
From S2P Require Import Prelude.
From stdpp Require Import base numbers list gmap sorting.
From Stdlib Require Import ZArith Lia.
Open Scope Z_scope.

(** ** Error values *)

Definition ENOMEM : Z := 12.
Definition EAGAIN : Z := 11.
Definition EFAULT : Z := 14.
Definition EEXIST : Z := 17.
Definition EINVAL : Z := 22.
Definition ENOTSUPP : Z := 524.
Definition MAX_ERRNO : Z := 4095.

(** [(ulong)(v) >= (ulong)(-MAX_ERRNO)] *)
Definition IS_ERR_VALUE (v : Z) : bool := u64 (- MAX_ERRNO) <=? u64 v.

(** [TRY(val)]: [inl e] is the early return of [e] from the calling function,
    [inr v] goes on with [v]. *)
Definition TRY (is_pointer : bool) (v : Z) : Z + Z :=
  if IS_ERR_VALUE v || (is_pointer && (v =? 0))
  then inl (if v =? 0 then - EFAULT else v) else inr v.

(** [UNWRAP(val)]: [BUG()] on an error value or a null pointer. *)
Definition UNWRAP (is_pointer : bool) (v : Z) : res Z :=
  if IS_ERR_VALUE v || (is_pointer && (v =? 0)) then Fault BugOn else Ok v.

Lemma IS_ERR_VALUE_small v : 0 <= v < 2 ^ 64 - 4095 -> IS_ERR_VALUE v = false.
Proof.
  intros. unfold IS_ERR_VALUE. rewrite (u64_small v) by (unfold is_u64; lia).
  apply Z.leb_gt. assert (u64 (- MAX_ERRNO) = 2 ^ 64 - 4095) as -> by reflexivity. lia.
Qed.

Lemma UNWRAP_small b v : 0 < v < 2 ^ 64 - 4095 -> UNWRAP b v = Ok v.
Proof.
  intros. unfold UNWRAP. rewrite IS_ERR_VALUE_small by lia.
  destruct (Z.eqb_spec v 0); [lia|]. now rewrite andb_false_r.
Qed.

Lemma TRY_pointer v : 0 < v < 2 ^ 64 - MAX_ERRNO -> TRY true v = inr v.
Proof.
  unfold MAX_ERRNO. intros. unfold TRY. rewrite IS_ERR_VALUE_small by lia.
  destruct (Z.eqb_spec v 0); [lia|done].
Qed.

Lemma UNWRAP_zero : UNWRAP false 0 = Ok 0.
Proof. reflexivity. Qed.

(** ** The maple tree: a map from disjoint index ranges to pointers *)

Record mt_ent := MtEnt { e_first : Z; e_last : Z; e_ptr : Z }.

#[export] Instance mt_ent_eq_dec : EqDecision mt_ent.
Proof. solve_decision. Defined.

Definition ent_before (a b : mt_ent) : Prop := e_last a < e_first b.

Definition ent_ok (e : mt_ent) : Prop :=
  0 <= e_first e <= e_last e /\ e_last e <= ULONG_MAX /\ e_ptr e <> 0.

(** The contract of the tree, on the list of its entries in index order. *)

Definition ml_sorted (es : list mt_ent) : Prop :=
  StronglySorted ent_before es /\ Forall ent_ok es.

Fixpoint ml_find (es : list mt_ent) (index max : Z) : option mt_ent :=
  match es with
  | [] => None
  | e :: es => if e_last e <? index then ml_find es index max
               else if e_first e <=? max then Some e else None
  end.

Definition ent_at (index : Z) (e : mt_ent) : bool :=
  (e_first e <=? index) && (index <=? e_last e).

Definition ml_at (es : list mt_ent) (index : Z) : option mt_ent :=
  List.find (ent_at index) es.

Definition ml_erase (es : list mt_ent) (index : Z) : list mt_ent :=
  List.filter (fun e => negb (ent_at index e)) es.

Fixpoint ml_insert (es : list mt_ent) (x : mt_ent) : list mt_ent :=
  match es with
  | [] => [x]
  | e :: es => if e_first x <? e_first e then x :: e :: es else e :: ml_insert es x
  end.

Definition ml_overlaps (es : list mt_ent) (first last : Z) : bool :=
  existsb (fun e => (e_first e <=? last) && (first <=? e_last e)) es.

Class MapleTree := {
  mt : Type;
  mt_entries : mt -> list mt_ent;
  mt_init : mt;
  mtree_insert_range : mt -> Z -> Z -> Z -> mt * Z;
  mtree_erase : mt -> Z -> mt * Z;
  mt_find : mt -> Z -> Z -> Z * Z;
}.

Class MapleLaws (M : MapleTree) : Prop := {
  mt_sorted t : ml_sorted (mt_entries t);
  mt_init_spec : mt_entries mt_init = [];
  (** -EINVAL on an invalid request, -EEXIST on an occupied range; else 0 and
      the entry is stored, or -ENOMEM and nothing happens. *)
  mtree_insert_range_spec t first last p :
    let '(t', err) := mtree_insert_range t first last p in
    if negb (ent_at 0 (MtEnt 0 first 0) && (first <=? last) && (last <=? ULONG_MAX))
       || (p =? 0)
    then t' = t /\ err = - EINVAL
    else if ml_overlaps (mt_entries t) first last
    then t' = t /\ err = - EEXIST
    else (t' = t /\ err = - ENOMEM) \/
         (mt_entries t' = ml_insert (mt_entries t) (MtEnt first last p) /\ err = 0);
  (** The entry stored at the index, or NULL; the whole range is erased. *)
  mtree_erase_spec t index :
    mt_entries (mtree_erase t index).1 = ml_erase (mt_entries t) index /\
    (mtree_erase t index).2 =
      match ml_at (mt_entries t) index with Some e => e_ptr e | None => 0 end;
  (** First entry at or after the index; the index moves behind it. *)
  mt_find_spec t index max :
    mt_find t index max =
      match ml_find (mt_entries t) index max with
      | Some e => (e_ptr e, u64 (e_last e + 1))
      | None => (0, index)
      end;
}.

(** No allocation of the tree fails. *)
Class MapleNoOom (M : MapleTree) : Prop := {
  mtree_insert_no_oom t first last p :
    (mtree_insert_range t first last p).2 <> - ENOMEM;
}.

Section maple.
Context {M : MapleTree}.

(** [mt_find_after] is [mt_find] but for an index that has wrapped to 0. *)
Definition mt_find_after (t : mt) (index max : Z) : Z * Z :=
  if index =? 0 then (0, index) else mt_find t index max.

(** [mt_for_each(tree, entry, index, ULONG_MAX) body], from index 0, over a
    tree that the body leaves alone; the fuel is one more than the number of
    entries, see [mt_for_each_spec]. *)
Fixpoint mt_for_each_go {St} (fuel : nat) (t : mt) (entry index : Z)
    (body : Z -> St -> res St) (s : St) : res St :=
  match fuel with
  | O => Fault OutOfFuel
  | S fuel =>
      if entry =? 0 then Ok s else
      s ← body entry s;
      let '(entry, index) := mt_find_after t index ULONG_MAX in
      mt_for_each_go fuel t entry index body s
  end.

Definition mt_for_each {St} (t : mt) (body : Z -> St -> res St) (s : St) : res St :=
  let '(entry, index) := mt_find t 0 ULONG_MAX in
  mt_for_each_go (S (length (mt_entries t))) t entry index body s.

Fixpoint fold_res {A St} (f : A -> St -> res St) (l : list A) (s : St) : res St :=
  match l with
  | [] => Ok s
  | x :: l => f x s ≫= fold_res f l
  end.

Context {ML : MapleLaws M}.

Lemma ml_find_skip es1 es2 index max :
  Forall (fun e => e_last e < index) es1 ->
  ml_find (es1 ++ es2) index max = ml_find es2 index max.
Proof.
  induction 1 as [|e es1 He _ IH]; [done|]. simpl.
  destruct (Z.ltb_spec (e_last e) index); [exact IH | lia].
Qed.

Lemma ml_sorted_app es1 es2 :
  ml_sorted (es1 ++ es2) <->
  ml_sorted es1 /\ ml_sorted es2 /\
  (forall a b, a ∈ es1 -> b ∈ es2 -> ent_before a b).
Proof.
  unfold ml_sorted. rewrite StronglySorted_app, Forall_app. naive_solver.
Qed.

Lemma ml_sorted_cons e es :
  ml_sorted (e :: es) <-> ent_ok e /\ ml_sorted es /\ (forall b, b ∈ es -> ent_before e b).
Proof.
  unfold ml_sorted. rewrite StronglySorted_cons, Forall_cons, Forall_forall. naive_solver.
Qed.

Lemma ml_sorted_mid es1 e es2 :
  ml_sorted (es1 ++ e :: es2) ->
  ent_ok e /\ ml_sorted (es1 ++ es2) /\
  (forall a, a ∈ es1 -> ent_before a e) /\ (forall b, b ∈ es2 -> ent_before e b).
Proof.
  rewrite !ml_sorted_app, ml_sorted_cons. intros (? & (? & ? & ?) & Hb).
  split_and!; auto; set_solver.
Qed.

(** An index inside an entry of a sorted list is inside no other entry. *)
Lemma ent_at_mid es1 e es2 index :
  ml_sorted (es1 ++ e :: es2) -> ent_at index e = true ->
  Forall (fun e => ent_at index e = false) (es1 ++ es2).
Proof.
  intros Hs He. destruct (ml_sorted_mid _ _ _ Hs) as (Hok & [_ Hoks] & H1 & H2).
  unfold ent_at in *. apply andb_true_iff in He as [? ?].
  apply Forall_app in Hoks as [Ho1 Ho2]. rewrite Forall_forall in Ho1, Ho2.
  apply Forall_app_2; apply Forall_forall; intros x Hx.
  - specialize (H1 x Hx). specialize (Ho1 x Hx). unfold ent_before, ent_ok in *. lia.
  - specialize (H2 x Hx). specialize (Ho2 x Hx). unfold ent_before, ent_ok in *. lia.
Qed.

Lemma ml_at_mid es1 e es2 index :
  ml_sorted (es1 ++ e :: es2) -> ent_at index e = true ->
  ml_at (es1 ++ e :: es2) index = Some e.
Proof.
  intros Hs He. pose proof (ent_at_mid _ _ _ _ Hs He) as HF.
  apply Forall_app in HF as [HF _]. clear Hs.
  induction HF as [|x es1 Hx _ IH]; unfold ml_at in *; simpl; [now rewrite He | now rewrite Hx].
Qed.

Lemma ml_erase_id es index :
  Forall (fun e => ent_at index e = false) es -> ml_erase es index = es.
Proof.
  induction 1 as [|x es Hx _ IH]; unfold ml_erase in *; simpl; [done|].
  rewrite Hx. simpl. now rewrite IH.
Qed.

Lemma ml_erase_mid es1 e es2 index :
  ml_sorted (es1 ++ e :: es2) -> ent_at index e = true ->
  ml_erase (es1 ++ e :: es2) index = es1 ++ es2.
Proof.
  intros Hs He. pose proof (ent_at_mid _ _ _ _ Hs He) as HF.
  apply Forall_app in HF as [HF1 HF2]. unfold ml_erase.
  rewrite List.filter_app. simpl. rewrite He. simpl.
  f_equal; now apply ml_erase_id.
Qed.

Lemma ml_insert_mid es1 x es2 :
  ml_sorted (es1 ++ es2) -> ent_ok x ->
  (forall a, a ∈ es1 -> ent_before a x) -> (forall b, b ∈ es2 -> ent_before x b) ->
  ml_insert (es1 ++ es2) x = es1 ++ x :: es2.
Proof.
  intros [_ Hok] Hx H1 H2. apply Forall_app in Hok as [Ho1 Ho2].
  induction es1 as [|e es1 IH]; simpl.
  - destruct es2 as [|b es2]; [done|]. simpl.
    specialize (H2 b ltac:(set_solver)). unfold ent_before, ent_ok in *.
    now destruct (Z.ltb_spec (e_first x) (e_first b)); [|lia].
  - apply Forall_cons in Ho1 as [He Ho1].
    specialize (H1 e ltac:(set_solver)) as Hb. unfold ent_before, ent_ok in *.
    destruct (Z.ltb_spec (e_first x) (e_first e)); [lia|].
    rewrite IH; auto. intros a Ha. apply H1. set_solver.
Qed.

Lemma ml_overlaps_mid es1 x es2 :
  (forall a, a ∈ es1 -> ent_before a x) -> (forall b, b ∈ es2 -> ent_before x b) ->
  ml_overlaps (es1 ++ es2) (e_first x) (e_last x) = false.
Proof.
  intros H1 H2. apply not_true_is_false. unfold ml_overlaps.
  rewrite existsb_exists. intros (e & He & Hc). apply list_elem_of_In in He.
  apply andb_true_iff in Hc as [? ?]. unfold ent_before in *.
  apply elem_of_app in He as [He|He]; [specialize (H1 e He)|specialize (H2 e He)]; lia.
Qed.

(** Storing an entry into a gap of the tree: it is stored, or memory has run out. *)
Lemma mtree_insert_range_gap t es1 x es2 :
  mt_entries t = es1 ++ es2 -> ent_ok x ->
  (forall a, a ∈ es1 -> ent_before a x) -> (forall b, b ∈ es2 -> ent_before x b) ->
  (exists t', mtree_insert_range t (e_first x) (e_last x) (e_ptr x) = (t', 0) /\
              mt_entries t' = es1 ++ x :: es2) \/
  mtree_insert_range t (e_first x) (e_last x) (e_ptr x) = (t, - ENOMEM).
Proof.
  intros Ht Hx H1 H2.
  pose proof (mtree_insert_range_spec t (e_first x) (e_last x) (e_ptr x)) as Hs.
  pose proof (mt_sorted t) as Hsort. rewrite Ht in Hs, Hsort.
  destruct (mtree_insert_range _ _ _ _) as [t' err]. simpl in *.
  rewrite ml_overlaps_mid in Hs by auto.
  replace (ent_at 0 _) with true in Hs
    by (unfold ent_ok in Hx; unfold ent_at; simpl; lia).
  destruct (Z.leb_spec (e_first x) (e_last x)); [|unfold ent_ok in Hx; lia].
  destruct (Z.leb_spec (e_last x) ULONG_MAX); [|unfold ent_ok in Hx; lia].
  destruct (Z.eqb_spec (e_ptr x) 0); [unfold ent_ok in Hx; lia|]. simpl in Hs.
  destruct Hs as [[-> ->]|[He ->]]; [by right|left]. exists t'. split; [done|].
  rewrite He. destruct x. now apply ml_insert_mid.
Qed.

Lemma mtree_erase_mid t es1 e es2 index :
  mt_entries t = es1 ++ e :: es2 -> ent_at index e = true ->
  exists t', mtree_erase t index = (t', e_ptr e) /\ mt_entries t' = es1 ++ es2.
Proof.
  intros Ht He. pose proof (mt_sorted t) as Hsort.
  pose proof (mtree_erase_spec t index) as [Hs1 Hs2]. rewrite Ht in Hs1, Hs2, Hsort.
  rewrite ml_erase_mid in Hs1 by done. rewrite ml_at_mid in Hs2 by done.
  destruct (mtree_erase t index) as [t' p]. simpl in *. subst p. now exists t'.
Qed.

(** The cursor behind an entry finds the next entry of the list. *)
Lemma mt_find_after_next t es1 e es2 :
  mt_entries t = es1 ++ e :: es2 ->
  mt_find_after t (u64 (e_last e + 1)) ULONG_MAX =
    match es2 with
    | [] => (0, u64 (e_last e + 1))
    | n :: _ => (e_ptr n, u64 (e_last n + 1))
    end.
Proof.
  intros Ht. pose proof (mt_sorted t) as Hs. rewrite Ht in Hs.
  assert (Forall (fun x => e_last x < e_last e + 1) (es1 ++ [e])) as Hbefore.
  { apply Forall_forall. intros x Hx.
    destruct (ml_sorted_mid _ _ _ Hs) as (Hok & _ & H1 & _).
    apply elem_of_app in Hx as [Hx| ->%list_elem_of_singleton]; [|lia].
    specialize (H1 x Hx). unfold ent_before, ent_ok in *. lia. }
  destruct (ml_sorted_mid _ _ _ Hs) as (Hok & [_ Hoks] & _ & H2).
  apply Forall_app in Hoks as [_ Hoks]. unfold mt_find_after.
  destruct (decide (e_last e = ULONG_MAX)) as [Hm|Hm].
  - rewrite Hm. replace (u64 (ULONG_MAX + 1)) with 0 by reflexivity. simpl.
    destruct es2 as [|n es2]; [done|].
    specialize (H2 n ltac:(set_solver)). apply Forall_cons in Hoks as [Hn _].
    unfold ent_before, ent_ok in *. lia.
  - rewrite (u64_small (e_last e + 1)) by (unfold ent_ok, is_u64, ULONG_MAX in *; lia).
    destruct (Z.eqb_spec (e_last e + 1) 0) as [?|_]; [unfold ent_ok in Hok; lia|].
    rewrite mt_find_spec, Ht, (cons_middle e es1 es2), app_assoc, ml_find_skip by done.
    destruct es2 as [|n es2]; [done|]. simpl.
    specialize (H2 n ltac:(set_solver)). apply Forall_cons in Hoks as [Hn _].
    unfold ent_before, ent_ok in *.
    destruct (Z.ltb_spec (e_last n) (e_last e + 1)) as [?|_]; [lia|].
    now destruct (Z.leb_spec (e_first n) ULONG_MAX); [|lia].
Qed.

Lemma mt_find_first t :
  mt_find t 0 ULONG_MAX =
    match mt_entries t with
    | [] => (0, 0)
    | n :: _ => (e_ptr n, u64 (e_last n + 1))
    end.
Proof.
  rewrite mt_find_spec. pose proof (mt_sorted t) as [_ Hok].
  destruct (mt_entries t) as [|n es]; [done|]. simpl.
  apply Forall_cons in Hok as [Hn _]. unfold ent_ok in Hn.
  destruct (Z.ltb_spec (e_last n) 0); [lia|].
  now destruct (Z.leb_spec (e_first n) ULONG_MAX); [|lia].
Qed.

Lemma mt_entry_ptr t es1 e es2 : mt_entries t = es1 ++ e :: es2 -> e_ptr e <> 0.
Proof.
  intros Ht. pose proof (mt_sorted t) as Hs. rewrite Ht in Hs.
  now apply ml_sorted_mid in Hs as ((_ & _ & ?) & _).
Qed.

Lemma mt_for_each_go_spec {St} t (body : Z -> St -> res St) es1 e es2 fuel s :
  mt_entries t = es1 ++ e :: es2 -> (length es2 < fuel)%nat ->
  mt_for_each_go (S fuel) t (e_ptr e) (u64 (e_last e + 1)) body s =
    fold_res (fun e => body (e_ptr e)) (e :: es2) s.
Proof.
  revert es1 e es2 s. induction fuel as [|fuel IH]; intros es1 e es2 s Ht Hf; [lia|].
  change (mt_for_each_go (S (S fuel)) t (e_ptr e) (u64 (e_last e + 1)) body s) with
    (if e_ptr e =? 0 then Ok s else
     s ← body (e_ptr e) s;
     let '(entry, index) := mt_find_after t (u64 (e_last e + 1)) ULONG_MAX in
     mt_for_each_go (S fuel) t entry index body s).
  destruct (Z.eqb_spec (e_ptr e) 0) as [H0|_]; [now apply mt_entry_ptr in Ht|].
  simpl fold_res. destruct (body (e_ptr e) s) as [s1|]; [|done]. simpl mbind.
  rewrite (mt_find_after_next _ _ _ _ Ht). destruct es2 as [|n es2].
  - done.
  - apply (IH (es1 ++ [e])).
    + now rewrite <- app_assoc.
    + simpl in Hf. lia.
Qed.

Lemma mt_for_each_spec {St} t (body : Z -> St -> res St) s :
  mt_for_each t body s = fold_res (fun e => body (e_ptr e)) (mt_entries t) s.
Proof.
  unfold mt_for_each. rewrite mt_find_first. destruct (mt_entries t) as [|e es] eqn:Ht; [done|].
  apply (mt_for_each_go_spec t body [] e es); [done|]. simpl. lia.
Qed.
End maple.

(** ** [kmalloc]: the address of an object outside the set of live ones *)

Class Kmalloc := { kmalloc : gset Z -> option Z }.

Class KmallocLaws (K : Kmalloc) : Prop := {
  kmalloc_fresh used p : kmalloc used = Some p -> p ∉ used /\ 0 < p < 2 ^ 64 - 4095;
}.

(** Room for this many live objects; above it the allocator may fail. *)
Definition KMALLOC_ROOM : Z := 2 ^ 16.

Class KmallocNoOom (K : Kmalloc) : Prop := {
  kmalloc_no_oom used : Z.of_nat (size used) < KMALLOC_ROOM -> is_Some (kmalloc used);
}.

(** Memory runs out: a node of some tree, or an object although there is room, is
    refused. *)
Definition oom (M : MapleTree) (K : Kmalloc) : Prop :=
  (exists t first last p, (mtree_insert_range t first last p).2 = - ENOMEM) \/
  (exists used, Z.of_nat (size used) < KMALLOC_ROOM /\ kmalloc used = None).

Lemma no_oom (M : MapleTree) (K : Kmalloc) : MapleNoOom M -> KmallocNoOom K -> ~ oom M K.
Proof.
  intros HM HK [(t & first & last & p & H)|(used & Hu & H)].
  - by apply (mtree_insert_no_oom t first last p).
  - destruct (kmalloc_no_oom used Hu) as [p Hp]. congruence.
Qed.

(** A computation that ends as [P] says, unless memory runs out and [UNWRAP] stops
    the kernel. *)
Definition unless_oom {M : MapleTree} {K : Kmalloc} {A} (P : A -> Prop) (r : res A) : Prop :=
  (exists a, r = Ok a /\ P a) \/ (r = Fault BugOn /\ oom M K).

Lemma unless_oom_Ok {M : MapleTree} {K : Kmalloc} {A} (P : A -> Prop) r :
  MapleNoOom M -> KmallocNoOom K -> unless_oom P r -> exists a, r = Ok a /\ P a.
Proof. intros HM HK [H|[_ H]]; [done|]. by apply no_oom in H. Qed.

(** ** An instance of the maple tree on lists *)

Module ListMaple.
Definition ent_okb (e : mt_ent) : bool :=
  (0 <=? e_first e) && (e_first e <=? e_last e) && (e_last e <=? ULONG_MAX)
  && negb (e_ptr e =? 0).

Fixpoint sortedb (es : list mt_ent) : bool :=
  match es with
  | [] => true
  | e :: es => ent_okb e && forallb (fun b => e_last e <? e_first b) es && sortedb es
  end.

Definition entries (t : list mt_ent) : list mt_ent := if sortedb t then t else [].

Definition insert_range (t : list mt_ent) (first last p : Z) : list mt_ent * Z :=
  if negb (ent_at 0 (MtEnt 0 first 0) && (first <=? last) && (last <=? ULONG_MAX))
     || (p =? 0)
  then (t, - EINVAL)
  else if ml_overlaps (entries t) first last then (t, - EEXIST)
  else (ml_insert (entries t) (MtEnt first last p), 0).

Definition erase (t : list mt_ent) (index : Z) : list mt_ent * Z :=
  (ml_erase (entries t) index,
   match ml_at (entries t) index with Some e => e_ptr e | None => 0 end).

Definition find (t : list mt_ent) (index max : Z) : Z * Z :=
  match ml_find (entries t) index max with
  | Some e => (e_ptr e, u64 (e_last e + 1))
  | None => (0, index)
  end.

#[export] Instance M : MapleTree :=
  {| mt := list mt_ent; mt_entries := entries; mt_init := [];
     mtree_insert_range := insert_range; mtree_erase := erase; mt_find := find |}.

Lemma ent_okb_spec e : ent_okb e = true <-> ent_ok e.
Proof. unfold ent_okb, ent_ok. lia. Qed.

Lemma sortedb_spec es : sortedb es = true <-> ml_sorted es.
Proof.
  induction es as [|e es IH]; simpl.
  - split; [|done]. intros _. split; constructor.
  - rewrite ml_sorted_cons, !andb_true_iff, ent_okb_spec, IH, forallb_forall.
    setoid_rewrite list_elem_of_In. setoid_rewrite Z.ltb_lt. unfold ent_before. tauto.
Qed.

Lemma entries_sorted t : ml_sorted (entries t).
Proof.
  unfold entries. destruct (sortedb t) eqn:Ht.
  - now apply sortedb_spec.
  - split; constructor.
Qed.

Lemma entries_id t : ml_sorted t -> entries t = t.
Proof. intros Ht%sortedb_spec. unfold entries. now rewrite Ht. Qed.

Lemma elem_of_ml_insert es x e : e ∈ ml_insert es x <-> e = x \/ e ∈ es.
Proof.
  induction es as [|y es IH]; simpl; [set_solver|].
  destruct (e_first x <? e_first y); set_solver.
Qed.

Lemma ml_sorted_insert es x :
  ml_sorted es -> ent_ok x -> ml_overlaps es (e_first x) (e_last x) = false ->
  ml_sorted (ml_insert es x).
Proof.
  intros Hs Hx Ho. induction es as [|e es IH]; simpl.
  - split; repeat constructor; apply Hx.
  - apply ml_sorted_cons in Hs as (He & Hs & Hb).
    unfold ml_overlaps in Ho. simpl in Ho. apply orb_false_iff in Ho as [Hoe Ho].
    unfold ent_before, ent_ok in *.
    destruct (Z.ltb_spec (e_first x) (e_first e)).
    + rewrite !ml_sorted_cons. split_and!; auto; try lia.
      intros b [-> |Hb']%elem_of_cons; unfold ent_before; [lia|].
      specialize (Hb b Hb'). lia.
    + rewrite ml_sorted_cons. split_and!; auto.
      intros b [-> |Hb']%elem_of_ml_insert; unfold ent_before; [lia|auto].
Qed.

Lemma ml_sorted_erase es index : ml_sorted es -> ml_sorted (ml_erase es index).
Proof.
  induction es as [|e es IH]; intros Hs; [done|].
  apply ml_sorted_cons in Hs as (He & Hs & Hb). unfold ml_erase in *. simpl.
  destruct (ent_at index e); simpl; [auto|].
  rewrite ml_sorted_cons. split_and!; auto.
  intros b Hb'%list_elem_of_In%List.filter_In. apply Hb, list_elem_of_In, Hb'.
Qed.

#[export] Instance laws : MapleLaws M.
Proof.
  split; simpl.
  - apply entries_sorted.
  - done.
  - intros t first last p. unfold insert_range.
    destruct (negb _ || _) eqn:Hv; [done|].
    destruct (ml_overlaps _ _ _) eqn:Ho; [done|]. right. split; [|done].
    apply entries_id, ml_sorted_insert; auto using entries_sorted.
    unfold ent_at, ent_ok in *. simpl in *. lia.
  - intros t index. split; [|done]. apply entries_id, ml_sorted_erase, entries_sorted.
  - done.
Qed.

#[export] Instance no_oom : MapleNoOom M.
Proof.
  split. intros t first last p. simpl. unfold insert_range.
  repeat case_match; simpl; discriminate.
Qed.
End ListMaple.

(** ** An instance of the allocator: the first free address *)

Module SupKmalloc.
Fixpoint first_free (n : nat) (p : Z) (used : gset Z) : option Z :=
  match n with
  | O => None
  | S n => if decide (p ∈ used) then first_free n (p + 1) used else Some p
  end.

#[export] Instance K : Kmalloc := {| kmalloc used :=
  if Z.of_nat (size used) <? KMALLOC_ROOM
  then first_free (S (size used)) 1 used else None |}.

Lemma first_free_Some n p used q :
  first_free n p used = Some q -> q ∉ used /\ p <= q < p + Z.of_nat n.
Proof.
  revert p; induction n as [|n IH]; intros p H; simpl in H; [done|].
  case_decide; [apply IH in H; split; [tauto|lia]|]. injection H as <-. split; [done|lia].
Qed.

Lemma first_free_None n p used :
  first_free n p used = None -> forall q, p <= q < p + Z.of_nat n -> q ∈ used.
Proof.
  revert p; induction n as [|n IH]; intros p H q Hq; simpl in H; [lia|].
  case_decide; [|done]. destruct (decide (q = p)) as [->|]; [done|].
  apply (IH (p + 1)); [done|lia].
Qed.

#[export] Instance laws : KmallocLaws K.
Proof.
  split. intros used p. unfold kmalloc, K.
  destruct (Z.ltb_spec (Z.of_nat (size used)) KMALLOC_ROOM); [|done].
  intros [? Hp]%first_free_Some. split; [done|]. unfold KMALLOC_ROOM in *. lia.
Qed.

#[export] Instance no_oom : KmallocNoOom K.
Proof.
  split. intros used Hs. unfold kmalloc, K. rewrite (proj2 (Z.ltb_lt _ _) Hs).
  destruct (first_free _ _ _) as [p|] eqn:H; [eauto|].
  exfalso. set (n := S (size used)) in *.
  assert (list_to_set (seqZ 1 (Z.of_nat n)) ⊆ used) as Hsub.
  { intros q Hq. apply elem_of_list_to_set, elem_of_seqZ in Hq.
    apply (first_free_None _ _ _ H). lia. }
  apply subseteq_size in Hsub. rewrite size_list_to_set in Hsub by apply NoDup_seqZ.
  rewrite length_seqZ in Hsub. lia.
Qed.
End SupKmalloc.
