(* ===== verification/RangeTreeProofs.v ===== *)
(** Correctness of the range tree: rounding, counting, and the refinement of
    [rt_split] to its list specification, from which the coverage, ordering,
    size and access-count properties follow. *)
From S2P Require Import Prelude Kernel RangeTree.
From stdpp Require Import base numbers list gmap sorting.
From Stdlib Require Import ZArith Lia.
Open Scope Z_scope.

(** ** Rounding to the granularity *)

Definition aligned (x : Z) : Prop := x mod RTREE_GRANULARITY = 0.

Lemma land_high_mask x : is_u64 x ->
  Z.land x (u64 (Z.lnot (RTREE_GRANULARITY - 1))) = RTREE_GRANULARITY * (x / RTREE_GRANULARITY).
Proof.
  intros Hx.
  assert (u64 (Z.lnot (RTREE_GRANULARITY - 1)) = Z.shiftl (Z.ones 43) 21) as -> by reflexivity.
  change RTREE_GRANULARITY with (2 ^ 21).
  rewrite <- Z.shiftr_div_pow2, Z.mul_comm, <- Z.shiftl_mul_pow2 by lia.
  apply Z.bits_inj'. intros n Hn. rewrite Z.land_spec, !Z.shiftl_spec by lia.
  destruct (Z.lt_ge_cases n 21).
  - rewrite !(Z.testbit_neg_r _ (n - 21)) by lia. now rewrite andb_false_r.
  - rewrite Z.shiftr_spec, Z.sub_add by lia. destruct (Z.lt_ge_cases n 64).
    + rewrite Z.ones_spec_low by lia. now rewrite andb_true_r.
    + replace x with (x mod 2 ^ 64) by (apply Z.mod_small, Hx).
      rewrite Z.mod_pow2_bits_high by lia. done.
Qed.

Lemma round_down_eq x : is_u64 x ->
  round_down x RTREE_GRANULARITY = RTREE_GRANULARITY * (x / RTREE_GRANULARITY).
Proof. apply land_high_mask. Qed.

Lemma round_up_eq x : 0 < x <= 2 ^ 64 - RTREE_GRANULARITY ->
  round_up x RTREE_GRANULARITY = RTREE_GRANULARITY * ((x - 1) / RTREE_GRANULARITY + 1).
Proof.
  intros Hx. unfold round_up. rewrite (u64_small (x - 1)) by (unfold is_u64, RTREE_GRANULARITY in *; lia).
  assert (Z.lor (x - 1) (RTREE_GRANULARITY - 1) =
          RTREE_GRANULARITY * ((x - 1) / RTREE_GRANULARITY) + (RTREE_GRANULARITY - 1)) as ->.
  { change RTREE_GRANULARITY with (2 ^ 21). change (2 ^ 21 - 1) with (Z.ones 21).
    rewrite <- Z.shiftr_div_pow2, Z.mul_comm, <- Z.shiftl_mul_pow2 by lia.
    rewrite Z.add_nocarry_lxor, Z.lxor_lor.
    all: apply Z.bits_inj'; intros n Hn;
      rewrite ?Z.lor_spec, ?Z.land_spec, ?Z.shiftl_spec, ?Z.bits_0 by lia;
      destruct (Z.lt_ge_cases n 21);
      [rewrite !(Z.testbit_neg_r _ (n - 21)) by lia
      |rewrite ?Z.ones_spec_high, ?Z.shiftr_spec, ?Z.sub_add by lia];
      rewrite ?Z.ones_spec_low, ?orb_true_r, ?orb_false_r, ?andb_false_r by lia; done. }
  unfold RTREE_GRANULARITY in *. rewrite u64_small; unfold is_u64; dlia.
Qed.

Lemma aligned_mul k : aligned (RTREE_GRANULARITY * k).
Proof. unfold aligned, RTREE_GRANULARITY. dlia. Qed.

Lemma aligned_div x : aligned x -> x = RTREE_GRANULARITY * (x / RTREE_GRANULARITY).
Proof. unfold aligned, RTREE_GRANULARITY. dlia. Qed.

(** ** Specification of a splitting pass on the list of ranges *)

Definition range_ok (r : mrange) : Prop :=
  aligned (start r) /\ aligned (end_ r) /\ 0 <= start r < end_ r /\
  end_ r <= ULONG_MAX /\ is_u64 (nr_access r).

Definition size_of (r : mrange) : Z := end_ r - start r.

Definition halve (r : mrange) : mrange := set_nr_access (nr_access r / 2) r.

Definition wants_split (thresh : Z) (prev next : option mrange) (c : mrange) : bool :=
  (2 * RTREE_GRANULARITY <=? size_of c) && (thresh <=? nr_access c)
  && (1 <=? rt_split_score thresh prev next c).

(** The middle of the range, rounded down to the granularity. *)
Definition split_mid (c : mrange) : Z :=
  RTREE_GRANULARITY * ((start c + size_of c / 2) / RTREE_GRANULARITY).

Definition left_piece (age : Z) (c : mrange) : mrange :=
  Mrange (start c) (split_mid c) age (nr_access c / 2) 0 0.
Definition right_piece (age : Z) (c : mrange) : mrange :=
  Mrange (split_mid c) (end_ c) age (nr_access c / 2) 0 0.

Record pass := Pass { p_out : list mrange; p_age : Z; p_len : Z; p_min : Z }.

Fixpoint split_list (thresh age len mn : Z) (prev : option mrange) (l : list mrange)
    : pass :=
  match l with
  | [] => Pass [] age len mn
  | c :: rest =>
      if len <? RTREE_MAX_SIZE then
        if wants_split thresh prev (head rest) c then
          let age := u64 (age + 1) in
          let l := left_piece age c in
          let r := right_piece age c in
          let p := split_list thresh age (len + 1)
                     (Z.min mn (Z.min (size_of l) (size_of r))) (Some r) rest in
          Pass (l :: r :: p_out p) (p_age p) (p_len p) (p_min p)
        else
          let p := split_list thresh age len mn (Some c) rest in
          Pass (c :: p_out p) (p_age p) (p_len p) (p_min p)
      else Pass (c :: rest) age len mn
  end.

Lemma split_mid_bounds c : range_ok c -> 2 * RTREE_GRANULARITY <= size_of c ->
  start c < split_mid c < end_ c /\ aligned (split_mid c).
Proof.
  intros (Ha & Hb & ? & ? & ?) Hsz. split; [|apply aligned_mul].
  apply aligned_div in Ha. apply aligned_div in Hb.
  unfold split_mid, size_of, RTREE_GRANULARITY in *. dlia.
Qed.

Lemma pieces_ok age c : range_ok c -> 2 * RTREE_GRANULARITY <= size_of c ->
  range_ok (left_piece age c) /\ range_ok (right_piece age c).
Proof.
  intros Hc Hsz. destruct (split_mid_bounds c Hc Hsz) as [? ?].
  destruct Hc as (? & ? & ? & ? & ?). unfold range_ok, is_u64 in *. simpl.
  split_and!; auto; try lia; dlia.
Qed.

Lemma mrange_show_unit_ok n l : 1 <= l -> exists u, mrange_show_unit (S n) l = Ok u.
Proof.
  intros Hl. induction n as [|n IH].
  - exists 1. simpl. change (1 ≪ (Z.of_nat 0 * 10)) with 1.
    destruct (Z.ltb_spec l 1); [lia|done].
  - remember (S n) as m. cbn [mrange_show_unit].
    destruct (_ <? _); eauto.
Qed.

Lemma mrange_show_ok r : range_ok r -> mrange_show r = Ok tt.
Proof.
  intros (_ & _ & ? & ? & _). unfold mrange_show.
  rewrite u64_small by (unfold is_u64, ULONG_MAX in *; lia).
  destruct (mrange_show_unit_ok 4 (end_ r - start r)) as [u ->]; [lia|done].
Qed.

(** ** The representation of a list of ranges *)

Section proofs.
Context {M : MapleTree} {ML : MapleLaws M}.
Context {K : Kmalloc} {KL : KmallocLaws K}.
Implicit Types s : rt_state M.
Implicit Types h : gmap Z mrange.

Definition ent_repr h (e : mt_ent) (r : mrange) : Prop :=
  h !! e_ptr e = Some r /\ e_first e = start r /\ e_last e = end_ r - 1 /\ range_ok r.

Definition ptrs (es : list mt_ent) : list Z := e_ptr <$> es.

Definition heap_repr h (es : list mt_ent) (rs : list mrange) : Prop :=
  Forall2 (ent_repr h) es rs /\ NoDup (ptrs es) /\ dom h = list_to_set (ptrs es).

Definition rt_repr s (rs : list mrange) : Prop :=
  heap_repr (heap s) (mt_entries (tree (rt s))) rs /\ len (rt s) = zlen rs.

Lemma ent_repr_frame h h' e r :
  h' !! e_ptr e = h !! e_ptr e -> ent_repr h e r -> ent_repr h' e r.
Proof. unfold ent_repr. intros ->. done. Qed.

Lemma Forall2_ent_frame h h' es rs :
  (forall p, p ∈ ptrs es -> h' !! p = h !! p) ->
  Forall2 (ent_repr h) es rs -> Forall2 (ent_repr h') es rs.
Proof.
  intros Hf. induction 1 as [|e r es rs He _ IH]; constructor.
  - eapply ent_repr_frame; [|done]. apply Hf. set_solver.
  - apply IH. intros p Hp. apply Hf. set_solver.
Qed.

Lemma ent_repr_ok h e r : ent_repr h e r -> e_ptr e <> 0 -> ent_ok e.
Proof.
  intros (_ & ? & ? & _ & _ & ? & ? & _) Hp. unfold ent_ok. lia.
Qed.

Lemma heap_repr_size h es rs : heap_repr h es rs -> size (dom h) = length es.
Proof.
  intros (_ & Hn & ->). rewrite size_list_to_set by done. unfold ptrs. apply length_fmap.
Qed.

Lemma deref_mid h es1 e es2 rs1 c rs2 :
  length es1 = length rs1 -> heap_repr h (es1 ++ e :: es2) (rs1 ++ c :: rs2) ->
  Forall2 (ent_repr h) es1 rs1 /\ ent_repr h e c /\ Forall2 (ent_repr h) es2 rs2.
Proof.
  intros Hl (HF & _ & _). apply Forall2_app_inv in HF as [H1 H2]; [|done].
  apply Forall2_cons in H2 as [? ?]. done.
Qed.

(** Allocating a range and storing it into a gap of the tree. *)
Lemma insert_new_gap (t : mt) h es1 es2 a b ag nr :
  mt_entries t = es1 ++ es2 -> Z.of_nat (size (dom h)) < KMALLOC_ROOM ->
  0 <= a < b -> b <= ULONG_MAX ->
  (forall x, x ∈ es1 -> e_last x < a) -> (forall x, x ∈ es2 -> b <= e_first x) ->
  unless_oom (fun '(r, t', h') => h' = <[r := Mrange a b ag nr 0 0]> h /\
    r ∉ dom h /\ r <> 0 /\ mt_entries t' = es1 ++ MtEnt a (b - 1) r :: es2)
    (insert_new t h a b ag nr).
Proof.
  intros Ht Hroom Hab Hb H1 H2. unfold insert_new, mrange_new.
  destruct (kmalloc (dom h)) as [r|] eqn:Hr; [|right; split; [done|right; eauto]].
  destruct (kmalloc_fresh _ _ Hr) as [Hfresh Hrange].
  rewrite UNWRAP_small by done. simpl.
  rewrite u64_small by (unfold is_u64, ULONG_MAX in *; lia).
  destruct (mtree_insert_range_gap t es1 (MtEnt a (b - 1) r) es2) as [(t' & Hi & He)|Hi].
  - done.
  - unfold ent_ok; simpl; lia.
  - intros x Hx. specialize (H1 x Hx). unfold ent_before. simpl. lia.
  - intros x Hx. specialize (H2 x Hx). unfold ent_before. simpl. lia.
  - left. simpl in Hi. rewrite Hi. simpl. eexists. split; [done|]. split_and!; auto; lia.
  - right. simpl in Hi. rewrite Hi. split; [done|]. left. exists t, a, (b - 1), r. by rewrite Hi.
Qed.

Lemma insert_new_Ok {NO : MapleNoOom M} {KN : KmallocNoOom K} (t : mt) h es1 es2 a b ag nr :
  mt_entries t = es1 ++ es2 -> Z.of_nat (size (dom h)) < KMALLOC_ROOM ->
  0 <= a < b -> b <= ULONG_MAX ->
  (forall x, x ∈ es1 -> e_last x < a) -> (forall x, x ∈ es2 -> b <= e_first x) ->
  exists r t', insert_new t h a b ag nr = Ok (r, t', <[r := Mrange a b ag nr 0 0]> h) /\
    r ∉ dom h /\ r <> 0 /\ mt_entries t' = es1 ++ MtEnt a (b - 1) r :: es2.
Proof.
  intros. destruct (unless_oom_Ok _ _ _ _ (insert_new_gap t h es1 es2 a b ag nr ltac:(done) ltac:(done) ltac:(done) ltac:(done) ltac:(done) ltac:(done)))
    as ([[r t'] h'] & H' & -> & ?). by exists r, t'.
Qed.

Lemma split_edges_ok c : range_ok c -> 2 * RTREE_GRANULARITY <= size_of c ->
  split_edges c = Ok [start c; split_mid c; end_ c].
Proof.
  intros Hc Hsz. destruct (split_mid_bounds c Hc Hsz) as [Hm _].
  destruct Hc as (_ & _ & ? & ? & _). unfold split_edges, RTREE_SPLIT_N.
  replace (Z.to_nat 2) with 2%nat by done. simpl.
  unfold for_range. replace (Z.to_nat (2 - 1)) with 1%nat by done. simpl for_n.
  unfold size_of, ULONG_MAX in *. rewrite Z.mul_1_l.
  rewrite (u64_small (end_ c - start c)) by (unfold is_u64; lia).
  rewrite (u64_small ((end_ c - start c) / 2)) by (unfold is_u64; dlia).
  rewrite u64_small by (unfold is_u64; dlia).
  rewrite round_down_eq by (unfold is_u64; dlia). fold (size_of c). fold (split_mid c).
  unfold awrite, aread. simpl. destruct (Z.leb_spec (split_mid c) (start c)); [lia|done].
Qed.

(** The heap after two allocations and the release of the old object. *)
Lemma heap_repr_split h es1 e es2 rs1 c rs2 e1 e2 m1 m2 :
  length es1 = length rs1 -> heap_repr h (es1 ++ e :: es2) (rs1 ++ c :: rs2) ->
  e_ptr e1 ∉ dom h -> e_ptr e2 ∉ dom (<[e_ptr e1 := m1]> h) ->
  e_first e1 = start m1 -> e_last e1 = end_ m1 - 1 -> range_ok m1 ->
  e_first e2 = start m2 -> e_last e2 = end_ m2 - 1 -> range_ok m2 ->
  heap_repr (mrange_drop (<[e_ptr e2 := m2]> (<[e_ptr e1 := m1]> h)) (e_ptr e))
    (es1 ++ e1 :: e2 :: es2) (rs1 ++ m1 :: m2 :: rs2).
Proof.
  intros Hlen Hr Hf1 Hf2 ? ? ? ? ? ?.
  destruct (deref_mid _ _ _ _ _ _ _ Hlen Hr) as (HF1 & Hc & HF2).
  destruct Hr as (_ & Hnd & Hdom). unfold ptrs in *.
  rewrite fmap_app, fmap_cons in Hnd, Hdom. rewrite dom_insert_L in Hf2.
  apply NoDup_app in Hnd as (Hn1 & Hn12 & Hn2). apply NoDup_cons in Hn2 as [Hne Hn2].
  assert (forall p, p ∈ ptrs es1 \/ p ∈ ptrs es2 ->
     mrange_drop (<[e_ptr e2 := m2]> (<[e_ptr e1 := m1]> h)) (e_ptr e) !! p = h !! p) as Hframe.
  { intros p Hp. unfold ptrs, mrange_drop in *.
    assert (p ∈ dom h /\ p <> e_ptr e) as [? ?] by (rewrite Hdom; set_solver).
    rewrite lookup_delete_ne, !lookup_insert_ne by set_solver. done. }
  split; [|split].
  - apply Forall2_app; [|repeat apply Forall2_cons_2].
    + eapply Forall2_ent_frame; [|done]. auto.
    + unfold mrange_drop. split; [|done]. rewrite lookup_delete_ne, lookup_insert_ne by set_solver.
      apply lookup_insert_eq.
    + unfold mrange_drop. split; [|done]. rewrite lookup_delete_ne by set_solver.
      apply lookup_insert_eq.
    + eapply Forall2_ent_frame; [|done]. auto.
  - unfold ptrs. rewrite fmap_app, !fmap_cons. apply NoDup_app.
    rewrite !NoDup_cons, elem_of_cons. set_solver.
  - unfold mrange_drop. rewrite dom_delete_L, !dom_insert_L, Hdom. unfold ptrs.
    rewrite fmap_app, !fmap_cons. set_solver.
Qed.

(** Replacing one range by its two pieces. *)
Lemma rt_split_range_spec s es1 e es2 rs1 c rs2 :
  mt_entries (tree (rt s)) = es1 ++ e :: es2 -> length es1 = length rs1 ->
  rt_repr s (rs1 ++ c :: rs2) -> 2 * RTREE_GRANULARITY <= size_of c ->
  len (rt s) < RTREE_MAX_SIZE ->
  let a := u64 (rt_age (rt s) + 1) in
  unless_oom (fun '(p, s') => exists e1 e2, p = e_ptr e2 /\
    mt_entries (tree (rt s')) = es1 ++ e1 :: e2 :: es2 /\
    rt_repr s' (rs1 ++ left_piece a c :: right_piece a c :: rs2) /\
    rt_age (rt s') = a /\
    min_range (rt s') = Z.min (min_range (rt s))
                          (Z.min (size_of (left_piece a c)) (size_of (right_piece a c))))
    (rt_split_range (e_ptr e) c s).
Proof.
  intros Hes Hlen [Hr Hl] Hsz Hmax a. rewrite Hes in Hr.
  destruct (deref_mid _ _ _ _ _ _ _ Hlen Hr) as (HF1 & Hc & HF2).
  pose proof (heap_repr_size _ _ _ Hr) as Hsize.
  destruct Hc as (Hce & Hcf & Hcl & Hcok).
  destruct (split_mid_bounds c Hcok Hsz) as [Hm Hma].
  destruct (pieces_ok a c Hcok Hsz) as [Hlok Hrok].
  pose proof (mt_sorted (tree (rt s))) as Hs. rewrite Hes in Hs.
  destruct (ml_sorted_mid _ _ _ Hs) as (Hok & _ & Hb1 & Hb2).
  destruct Hr as (_ & Hnd & Hdom).
  assert (Z.of_nat (length (es1 ++ e :: es2)) < RTREE_MAX_SIZE) as Hn.
  { rewrite Hl in Hmax. unfold zlen in Hmax. apply Forall2_length in HF1, HF2.
    rewrite !length_app in *. simpl in *. lia. }
  pose proof Hcok as (_ & _ & Hse & Hend & _).
  unfold rt_split_range.
  destruct (mtree_erase_mid (tree (rt s)) es1 e es2 (start c)) as (t0 & -> & Ht0).
  { done. } { unfold ent_at. lia. }
  rewrite Z.eqb_refl. simpl check. simpl mbind at 1.
  rewrite split_edges_ok by done. simpl mbind at 1. unfold for_range, RTREE_SPLIT_N.
  change (Z.to_nat (2 - 0)) with 2%nat. simpl for_n.
  fold a. change (nr_access c / RTREE_SPLIT_N) with (nr_access c / 2).
  destruct (insert_new_gap t0 (heap s) es1 es2 (start c) (split_mid c) a (nr_access c / 2))
    as [([[r1 t1] h1] & Hi1 & -> & Hf1 & Hz1 & Ht1)|[Hi1 Hoom]];
    [done|unfold KMALLOC_ROOM, RTREE_MAX_SIZE in *; lia|lia|lia| | | |].
  { intros x Hx. specialize (Hb1 x Hx). unfold ent_before in Hb1. lia. }
  { intros x Hx. specialize (Hb2 x Hx). unfold ent_before in Hb2. lia. }
  2: { right. by rewrite Hi1. }
  rewrite Hi1. simpl mbind. rewrite lookup_insert_eq. simpl mbind.
  fold (left_piece a c). rewrite mrange_show_ok by done. simpl mbind.
  destruct (insert_new_gap t1 (<[r1 := left_piece a c]> (heap s))
              (es1 ++ [MtEnt (start c) (split_mid c - 1) r1]) es2
              (split_mid c) (end_ c) a (nr_access c / 2))
    as [([[r2 t2] h2] & Hi2 & -> & Hf2 & Hz2 & Ht2)|[Hi2 Hoom]]; [by rewrite <- app_assoc| |lia|lia| | | |].
  { rewrite dom_insert_L, size_union, size_singleton by set_solver.
    unfold KMALLOC_ROOM, RTREE_MAX_SIZE in *. lia. }
  { intros x [Hx| ->%list_elem_of_singleton]%elem_of_app; simpl; [|lia].
    specialize (Hb1 x Hx). unfold ent_before in Hb1. lia. }
  { intros x Hx. specialize (Hb2 x Hx). unfold ent_before in Hb2. lia. }
  2: { right. by rewrite Hi2. }
  rewrite Hi2. simpl mbind. rewrite lookup_insert_eq. simpl mbind.
  fold (right_piece a c). rewrite mrange_show_ok by done. simpl mbind.
  left. eexists. split; [done|].
  exists (MtEnt (start c) (split_mid c - 1) r1), (MtEnt (split_mid c) (end_ c - 1) r2).
  split; [done|]. simpl. rewrite <- app_assoc in Ht2. split_and!; [done| |done|].
  - split; simpl.
    + rewrite Ht2. apply (heap_repr_split (heap s) es1 e es2 rs1 c rs2
        (MtEnt (start c) (split_mid c - 1) r1) (MtEnt (split_mid c) (end_ c - 1) r2)); try done.
      split; [|done]. apply Forall2_app; [done|]. constructor; [|done]. repeat split; apply Hcok || done.
    + rewrite Hl, u64_small; [autorewrite with zlen; lia|].
      unfold RTREE_MAX_SIZE, zlen, is_u64 in *. lia.
  - unfold size_of. simpl. rewrite !u64_small by (unfold is_u64, ULONG_MAX in *; lia).
    unfold ULONG_MAX in *. lia.
Qed.

(** *** Decay of the access counts *)

Lemma fold_update_spec (f : mrange -> mrange) es rs h :
  (forall r, range_ok r -> range_ok (f r) /\ start (f r) = start r /\ end_ (f r) = end_ r) ->
  NoDup (ptrs es) -> Forall2 (ent_repr h) es rs ->
  exists h', fold_res (fun e h => m ← of_option BadPointer (h !! e_ptr e);
                                  Ok (<[e_ptr e := f m]> h)) es h = Ok h' /\
    Forall2 (ent_repr h') es (f <$> rs) /\ dom h' = dom h /\
    (forall p, p ∉ ptrs es -> h' !! p = h !! p).
Proof.
  intros Hf Hnd HF. revert h HF Hnd. induction es as [|e es IH] in rs |- *; intros h HF Hnd.
  - apply Forall2_nil_inv_l in HF as ->. exists h. split_and!; auto.
  - apply Forall2_cons_inv_l in HF as (r & rs' & He & HF & ->).
    unfold ptrs in *. rewrite fmap_cons, NoDup_cons in Hnd. destruct Hnd as [Hne Hnd].
    destruct He as (Hh & H1 & H2 & Hok). simpl fold_res. rewrite Hh. simpl.
    destruct (IH rs' (<[e_ptr e := f r]> h)) as (h' & -> & HF' & Hd & Hfr); [|done|].
    { eapply Forall2_ent_frame; [|done]. intros p Hp. apply lookup_insert_ne. intros <-.
      done. }
    exists h'. destruct (Hf r Hok) as (? & Hs & He). split_and!; [done| | |].
    + constructor; [|done]. split_and!; [|congruence|congruence|done].
      rewrite Hfr by done. apply lookup_insert_eq.
    + rewrite Hd, dom_insert_L. assert (e_ptr e ∈ dom h) by (apply elem_of_dom; eauto). set_solver.
    + intros p Hp. rewrite Hfr by set_solver. apply lookup_insert_ne. set_solver.
Qed.

Lemma halve_ok r : range_ok r ->
  range_ok (halve r) /\ start (halve r) = start r /\ end_ (halve r) = end_ r.
Proof.
  intros (? & ? & ? & ? & ?). unfold range_ok, is_u64 in *. simpl.
  split_and!; auto; try lia; dlia.
Qed.

Lemma rt_decay_spec s rs : rt_repr s rs ->
  exists s', rt_decay s = Ok s' /\ rt s' = rt s /\ rt_repr s' (halve <$> rs).
Proof.
  intros [(HF & Hnd & Hd) Hl]. unfold rt_decay. rewrite mt_for_each_spec.
  destruct (fold_update_spec halve _ _ _ halve_ok Hnd HF) as (h' & Hfold & HF' & Hd' & _).
  unfold halve in Hfold at 1. rewrite Hfold. simpl. eexists. split; [done|].
  split; [done|]. split; simpl.
  - split; [done|]. split; [done|]. congruence.
  - rewrite Hl. unfold zlen. now rewrite length_fmap.
Qed.

(** *** The loop *)

Definition ptr_of (e : option mt_ent) : Z := from_option e_ptr 0 e.

Lemma deref_opt_at s es rs i :
  Forall2 (ent_repr (heap s)) es rs -> Forall (fun e => e_ptr e <> 0) es ->
  deref_opt s (ptr_of (es !! i)) = Ok (rs !! i) /\ show_opt (rs !! i) = Ok tt.
Proof.
  intros HF Hp. destruct (es !! i) as [e|] eqn:He.
  - destruct (Forall2_lookup_l _ _ _ _ _ HF He) as (r & Hr & Hh & _ & _ & Hok).
    rewrite Hr. simpl. unfold deref_opt, deref.
    rewrite Forall_lookup in Hp. specialize (Hp _ _ He).
    destruct (Z.eqb_spec (e_ptr e) 0); [done|]. rewrite Hh. split; [done|]. now apply mrange_show_ok.
  - apply lookup_ge_None in He. rewrite (Forall2_length _ _ _ HF) in He.
    apply lookup_ge_None in He. rewrite He. done.
Qed.

Lemma rt_split_body_skip thresh s e es2 es1 rs1 c rs2 :
  mt_entries (tree (rt s)) = es1 ++ e :: es2 -> length es1 = length rs1 ->
  rt_repr s (rs1 ++ c :: rs2) ->
  rt_split_body thresh (e_ptr e) (ptr_of (head es2)) (ptr_of (last es1)) s =
    if wants_split thresh (last rs1) (head rs2) c
    then rt_split_range (e_ptr e) c s else Ok (e_ptr e, s).
Proof.
  intros Hes Hlen [Hr _]. rewrite Hes in Hr.
  destruct (deref_mid _ _ _ _ _ _ _ Hlen Hr) as (HF1 & Hc & HF2).
  destruct Hc as (Hce & _ & _ & Hcok).
  pose proof (mt_sorted (tree (rt s))) as [_ Hok]. rewrite Hes in Hok.
  apply Forall_app in Hok as [Hok1 [_ Hok2]%Forall_cons].
  assert (forall es, Forall ent_ok es -> Forall (fun e => e_ptr e <> 0) es) as Himp.
  { intros es Hes'. eapply Forall_impl; [exact Hes'|]. intros x (_ & _ & ?). done. }
  destruct (deref_opt_at s es1 rs1 (pred (length es1)) HF1 (Himp _ Hok1)) as [Hp1 Hp2].
  destruct (deref_opt_at s es2 rs2 0 HF2 (Himp _ Hok2)) as [Hn1 Hn2].
  rewrite <- last_lookup in Hp1. rewrite Hlen, <- last_lookup in Hp1, Hp2.
  rewrite <- (head_lookup es2), <- (head_lookup rs2) in Hn1. rewrite <- (head_lookup rs2) in Hn2.
  unfold rt_split_body, deref. rewrite Hce. simpl mbind at 1.
  pose proof Hcok as (_ & _ & ? & ? & _).
  rewrite u64_small by (unfold is_u64, ULONG_MAX in *; lia).
  unfold wants_split. fold (size_of c). unfold RTREE_SPLIT_N.
  destruct (Z.ltb_spec (size_of c) (2 * RTREE_GRANULARITY)) as [Hlt|Hge].
  { now rewrite (proj2 (Z.leb_gt _ _) Hlt). }
  rewrite (proj2 (Z.leb_le _ _) Hge).
  destruct (Z.ltb_spec (nr_access c) thresh) as [Hlt|Hge'].
  { now rewrite (proj2 (Z.leb_gt _ _) Hlt). }
  rewrite (proj2 (Z.leb_le _ _) Hge'). rewrite Hp1. simpl mbind. rewrite Hn1. simpl mbind.
  destruct (Z.ltb_spec (rt_split_score thresh (last rs1) (head rs2) c) 1) as [Hlt|Hge''].
  { now rewrite (proj2 (Z.leb_gt _ _) Hlt). }
  rewrite (proj2 (Z.leb_le _ _) Hge''). simpl. rewrite Hp2. simpl.
  rewrite mrange_show_ok by done. simpl. rewrite Hn2. done.
Qed.

(** Where the cursor stands while the ranges [es] are still to be visited:
    behind the second of them, or behind the only one. *)
Definition cursor (es : list mt_ent) (index : Z) : Prop :=
  match es with
  | [] => True
  | c :: rest => index = u64 (e_last (default c (head rest)) + 1)
  end.

Lemma cursor_next (t : mt) es1 c rest index :
  mt_entries t = es1 ++ rest -> (rest = [] -> exists e0 c', es1 = e0 ++ [c'] /\ e_last c' = e_last c) ->
  cursor (c :: rest) index ->
  exists index', mt_find_after t index ULONG_MAX = (ptr_of (rest !! 1%nat), index') /\
                 cursor rest index'.
Proof.
  intros Ht Hnil Hc. simpl in Hc. subst index. destruct rest as [|n rest]; simpl.
  - destruct (Hnil eq_refl) as (e0 & c' & -> & <-). rewrite app_nil_r in Ht.
    rewrite (mt_find_after_next t e0 c' []) by done. eauto.
  - rewrite (mt_find_after_next t es1 n rest) by done.
    destruct rest as [|n2 rest]; simpl; eauto.
Qed.

Lemma last_snoc2 {A} (l : list A) x y : last (l ++ [x; y]) = Some y.
Proof. rewrite (app_assoc l [x] [y] : l ++ [x; y] = _). apply last_snoc. Qed.

(** The second piece ends where the range it comes from ended. *)
Lemma split_last_ent s s' es1 rs1 e1 e2 c r a :
  mt_entries (tree (rt s)) = es1 ++ [c] ->
  mt_entries (tree (rt s')) = (es1 ++ [e1; e2]) ++ [] ->
  length es1 = length rs1 ->
  rt_repr s (rs1 ++ [r]) ->
  rt_repr s' ((rs1 ++ [left_piece a r; right_piece a r]) ++ []) ->
  e_last e2 = e_last c.
Proof.
  rewrite !app_nil_r. intros Hes Hes' Hlen [(HF & _) _] [(HF' & _) _].
  rewrite Hes in HF. rewrite Hes' in HF'.
  apply Forall2_app_inv in HF as [_ [(_ & _ & -> & _) _]%Forall2_cons]; [|done].
  apply Forall2_app_inv in HF' as [_ [_ [(_ & _ & -> & _) _]%Forall2_cons]%Forall2_cons]; done.
Qed.

Lemma rt_split_loop_spec thresh fuel es1 rs1 es rs s index :
  mt_entries (tree (rt s)) = es1 ++ es -> length es1 = length rs1 ->
  rt_repr s (rs1 ++ rs) -> (length es < fuel)%nat -> cursor es index ->
  let p := split_list thresh (rt_age (rt s)) (len (rt s)) (min_range (rt s)) (last rs1) rs in
  unless_oom (fun s' => rt_repr s' (rs1 ++ p_out p) /\ rt_age (rt s') = p_age p /\
      len (rt s') = p_len p /\ min_range (rt s') = p_min p)
    (rt_split_loop fuel thresh (ptr_of (es !! 0%nat)) (ptr_of (es !! 1%nat))
      (ptr_of (last es1)) index s).
Proof.
  revert es1 rs1 es rs s index. induction fuel as [|fuel IH];
    intros es1 rs1 es rs s index Hes Hlen Hr Hfuel Hcur; [lia|].
  assert (length es = length rs) as Hlen'.
  { destruct Hr as [(HF & _) _]. rewrite Hes in HF. apply Forall2_length in HF.
    rewrite !length_app in HF. lia. }
  destruct es as [|c es]; destruct rs as [|r rs]; try done.
  { left. simpl. eauto 10. }
  simpl in Hlen', Hfuel. injection Hlen' as Hlen'. simpl.
  pose proof (mt_entry_ptr _ _ _ _ Hes) as Hp.
  destruct (Z.eqb_spec (e_ptr c) 0) as [?|_]; [done|]. simpl.
  destruct (Z.ltb_spec (len (rt s)) RTREE_MAX_SIZE) as [Hmax|]; [|left; simpl; eauto 10].
  rewrite <- (head_lookup es).
  rewrite (rt_split_body_skip _ _ _ _ _ _ _ _ Hes Hlen Hr).
  destruct (wants_split thresh (last rs1) (head rs) r) eqn:Hw.
  - unfold wants_split in Hw. apply andb_true_iff in Hw as [[Hsz _]%andb_true_iff _].
    apply Z.leb_le in Hsz.
    destruct (rt_split_range_spec s es1 c es rs1 r rs Hes Hlen Hr Hsz Hmax)
      as [([q s'] & -> & e1 & e2 & -> & Hes' & Hr' & Ha & Hm)|[-> Hoom]]; [|by right].
    simpl mbind. set (a := u64 (rt_age (rt s) + 1)) in *.
    rewrite (app_assoc es1 [e1; e2] es : es1 ++ e1 :: e2 :: es = _) in Hes'.
    rewrite (app_assoc rs1 [left_piece a r; right_piece a r] rs
             : rs1 ++ left_piece a r :: right_piece a r :: rs = _) in Hr'.
    assert (length (es1 ++ [e1; e2]) = length (rs1 ++ [left_piece a r; right_piece a r]))
      as Hlen2 by (rewrite !length_app; simpl; lia).
    assert (len (rt s') = len (rt s) + 1) as Hl'.
    { destruct Hr as [_ ->], Hr' as [_ ->]. autorewrite with zlen. lia. }
    destruct (cursor_next (tree (rt s')) (es1 ++ [e1; e2]) c es index) as (index' & -> & Hcur');
      [done| |done|].
    { intros ->. exists (es1 ++ [e1]), e2. rewrite <- app_assoc. split; [done|].
      symmetry in Hlen'. apply nil_length_inv in Hlen' as ->.
      apply (split_last_ent s s' es1 rs1 e1 e2 c r a Hes Hes' Hlen Hr Hr'). }
    assert (ptr_of (head es) = ptr_of (es !! 0%nat)) as -> by (by destruct es).
    destruct (IH (es1 ++ [e1; e2]) (rs1 ++ [left_piece a r; right_piece a r]) es rs s' index')
      as [(s2 & Hs2 & Hr2 & Ht2)|[Hs2 Hoom]]; auto; [lia| |]; rewrite last_snoc2 in Hs2; simpl in Hs2; rewrite Hs2;
      [left|by right].
    rewrite last_snoc2, Ha, Hl', Hm in Hr2, Ht2. rewrite <- app_assoc in Hr2. by exists s2.
  - simpl mbind.
    destruct (cursor_next (tree (rt s)) (es1 ++ [c]) c es index) as (index' & -> & Hcur');
      [by rewrite <- app_assoc|intros ->; by exists es1, c|done|].
    assert (ptr_of (head es) = ptr_of (es !! 0%nat)) as -> by (by destruct es).
    destruct (IH (es1 ++ [c]) (rs1 ++ [r]) es rs s index') as [(s2 & Hs2 & Hr2 & Ht2)|[Hs2 Hoom]];
      rewrite <- ?app_assoc; auto; [rewrite !length_app; simpl; lia|lia| |]; rewrite last_snoc in Hs2; simpl in Hs2; rewrite Hs2;
      [left|by right].
    rewrite last_snoc in Hr2, Ht2. rewrite <- app_assoc in Hr2. by exists s2.
Qed.

(** *** Creation and insertion *)

Definition covers (r : mrange) (a : Z) : Prop := start r <= a < end_ r.

Definition covered (rs : list mrange) (a : Z) : Prop := exists r, r ∈ rs /\ covers r a.

Lemma rt_repr_ok s rs : rt_repr s rs -> Forall range_ok rs.
Proof.
  intros [(HF & _) _]. induction HF as [|e r es rs (_ & _ & _ & ?) _ IH]; constructor; auto.
Qed.

(** A splitting pass is [split_list] on the halved access counts. *)
Lemma rt_split_spec s rs rtree_split_thresh num_online_cpus :
  rt_repr s rs ->
  let p := split_list (u64 (rtree_split_thresh * num_online_cpus)) (rt_age (rt s))
             (len (rt s)) (min_range (rt s)) None (halve <$> rs) in
  unless_oom (fun s' => rt_repr s' (p_out p) /\ rt_age (rt s') = p_age p /\
      len (rt s') = p_len p /\ min_range (rt s') = p_min p)
    (rt_split rtree_split_thresh num_online_cpus s).
Proof.
  intros Hr p. unfold rt_split.
  destruct (rt_decay_spec s rs Hr) as (s1 & -> & Hrt & Hr1). simpl mbind.
  rewrite mt_find_first. set (es := mt_entries (tree (rt s1))).
  assert (exists index, cursor es index /\
    (let '(curr, index) := match es with [] => (0, 0) | n :: _ => (e_ptr n, u64 (e_last n + 1)) end in
     let '(next, index) := mt_find_after (tree (rt s1)) index ULONG_MAX in
     (curr, next, index)) = (ptr_of (es !! 0%nat), ptr_of (es !! 1%nat), index)) as (index & Hc & Hf).
  { subst es. destruct (mt_entries (tree (rt s1))) as [|c es] eqn:Hes; simpl.
    - exists 0. done.
    - rewrite (mt_find_after_next _ [] c es Hes). destruct es as [|n es]; simpl; eauto. }
  destruct (match es with [] => _ | n :: _ => _ end) as [curr i0].
  destruct (mt_find_after _ i0 _) as [next i1]. injection Hf as -> -> ->.
  destruct (rt_split_loop_spec (u64 (rtree_split_thresh * num_online_cpus)) (S (length es))
              [] [] es (halve <$> rs) s1 index) as [(s2 & ? & ?)|?]; auto; [left|by right].
  exists s2. subst p. by rewrite <- Hrt.
Qed.

Lemma ml_sorted_at es i e :
  ml_sorted es -> es !! i = Some e ->
  ent_ok e /\ (forall j a, (j < i)%nat -> es !! j = Some a -> ent_before a e) /\
  (forall j b, (i < j)%nat -> es !! j = Some b -> ent_before e b).
Proof.
  intros Hs He. rewrite <- (take_drop_middle _ _ _ He) in Hs.
  destruct (ml_sorted_mid _ _ _ Hs) as (? & _ & H1 & H2). split_and!; [done| |].
  - intros j a Hj Ha. apply H1. apply list_elem_of_lookup. exists j.
    by rewrite lookup_take_lt by lia.
  - intros j b Hj Hb. apply H2. apply list_elem_of_lookup. exists (j - S i)%nat.
    rewrite lookup_drop. by replace (S i + (j - S i))%nat with j by lia.
Qed.

Lemma ml_find_at es i e index :
  ml_sorted es -> es !! i = Some e -> e_first e <= index <= e_last e ->
  ml_find es index ULONG_MAX = Some e.
Proof.
  intros Hs He Hi. destruct (ml_sorted_at es i e Hs He) as (Hok & Hb & _).
  rewrite <- (take_drop_middle _ _ _ He), ml_find_skip.
  - simpl. unfold ent_ok in Hok. destruct (Z.ltb_spec (e_last e) index); [lia|].
    by destruct (Z.leb_spec (e_first e) ULONG_MAX); [|lia].
  - apply Forall_lookup. intros j a Ha. apply lookup_take_Some in Ha as [Ha Hj].
    specialize (Hb j a Hj Ha). unfold ent_before in Hb. lia.
Qed.

Lemma Forall2_update h es rs i e r r' :
  Forall2 (ent_repr h) es rs -> NoDup (ptrs es) -> es !! i = Some e -> rs !! i = Some r ->
  range_ok r' -> start r' = start r -> end_ r' = end_ r ->
  Forall2 (ent_repr (<[e_ptr e := r']> h)) es (<[i := r']> rs).
Proof.
  intros HF Hnd He Hr Hok Hs Hend. apply Forall2_same_length_lookup_2.
  { rewrite length_insert. by eapply Forall2_length. }
  intros j x y Hx Hy. destruct (decide (i = j)) as [<-|Hij].
  - rewrite He in Hx. injection Hx as <-.
    rewrite list_lookup_insert_eq in Hy by (by eapply lookup_lt_Some). injection Hy as <-.
    destruct (Forall2_lookup_lr _ _ _ _ _ _ HF He Hr) as (_ & ? & ? & _).
    split_and!; [apply lookup_insert_eq|congruence|congruence|done].
  - rewrite list_lookup_insert_ne in Hy by done.
    eapply ent_repr_frame; [|by eapply Forall2_lookup_lr]. apply lookup_insert_ne. intros Heq.
    apply Hij, (NoDup_lookup (ptrs es) i j (e_ptr e)); [done| |];
      unfold ptrs; rewrite list_lookup_fmap; [by rewrite He|rewrite Hx; simpl; congruence].
Qed.

Lemma rt_count_hit_spec s rs i r addr :
  rt_repr s rs -> rs !! i = Some r -> covers r addr ->
  exists s', rt_count s addr = Ok (0, s') /\ rt s' = rt s /\
    rt_repr s' (<[i := set_nr_access (u64 (nr_access r + 1)) r]> rs).
Proof.
  intros [Hr Hl] Hi Hc. destruct Hr as (HF & Hnd & Hd).
  destruct (Forall2_lookup_r _ _ _ _ _ HF Hi) as (e & He & Hh & H1 & H2 & Hok).
  pose proof (mt_sorted (tree (rt s))) as Hs. set (es := mt_entries (tree (rt s))) in *.
  destruct (ml_sorted_at es i e Hs He) as (Hoke & Hb & Hoth).
  unfold covers in Hc. unfold rt_count. rewrite mt_find_spec. fold es.
  rewrite (ml_find_at es i e addr) by (auto; lia).
  destruct (Z.eqb_spec (e_ptr e) 0) as [?|_]; [by destruct Hoke as (_ & _ & ?)|].
  unfold deref. rewrite Hh. simpl mbind.
  destruct (Z.ltb_spec addr (start r)); [lia|].
  eexists. split; [done|]. split; [done|]. split; simpl.
  - split; [|split; [done|]].
    + eapply Forall2_update; eauto. destruct Hok as (? & ? & ? & ? & _).
      pose proof (u64_range (nr_access r + 1)). unfold range_ok, is_u64 in *. simpl.
      split_and!; auto; lia.
    + transitivity (dom (heap s)); [|done]. rewrite dom_insert_L.
      assert (e_ptr e ∈ dom (heap s)) by (apply elem_of_dom; eauto). set_solver.
  - unfold zlen in *. by rewrite length_insert.
Qed.

Lemma ml_find_none es index :
  ml_sorted es -> (forall e, e ∈ es -> ~ e_first e <= index <= e_last e) ->
  match ml_find es index ULONG_MAX with Some e => index < e_first e /\ e ∈ es | None => True end.
Proof.
  intros Hs Hn. induction es as [|e es IH]; simpl; [done|].
  apply ml_sorted_cons in Hs as (Hok & Hs & _).
  destruct (Z.ltb_spec (e_last e) index).
  - destruct (ml_find es index ULONG_MAX) as [x|] eqn:Hx; [|done].
    assert (index < e_first x /\ x ∈ es) as [? ?] by (apply IH; set_solver). set_solver.
  - destruct (Z.leb_spec (e_first e) ULONG_MAX); [|done].
    specialize (Hn e ltac:(set_solver)). set_solver by lia.
Qed.

Lemma rt_count_miss_spec s rs addr :
  rt_repr s rs -> ~ covered rs addr -> rt_count s addr = Ok (PEBS_DISCARDED_ERROR, s).
Proof.
  intros [(HF & _ & _) _] Hn. unfold rt_count. rewrite mt_find_spec.
  pose proof (mt_sorted (tree (rt s))) as Hs. set (es := mt_entries (tree (rt s))) in *.
  assert (forall e, e ∈ es -> exists r, r ∈ rs /\ ent_repr (heap s) e r) as Hall.
  { intros e (j & Hj)%list_elem_of_lookup.
    destruct (Forall2_lookup_l _ _ _ _ _ HF Hj) as (r & Hr & ?).
    exists r. split; [|done]. apply list_elem_of_lookup. eauto. }
  pose proof (ml_find_none es addr Hs) as Hf.
  destruct (ml_find es addr ULONG_MAX) as [e|]; [|done].
  destruct Hf as [Hlt He].
  { intros x Hx Hc. destruct (Hall x Hx) as (r & Hr & _ & ? & ? & _).
    apply Hn. exists r. unfold covers. split; [done|lia]. }
  destruct (Hall e He) as (r & Hr & Hh & Hf & _).
  destruct (Z.eqb_spec (e_ptr e) 0); [done|]. unfold deref. rewrite Hh. simpl.
  by destruct (Z.ltb_spec addr (start r)); [|lia].
Qed.

Lemma rt_init_spec {NO : MapleNoOom M} {KN : KmallocNoOom K} a b :
  is_u64 a -> 0 < b <= 2 ^ 64 - RTREE_GRANULARITY ->
  round_down a RTREE_GRANULARITY < round_up b RTREE_GRANULARITY <= ULONG_MAX ->
  let r := Mrange (round_down a RTREE_GRANULARITY) (round_up b RTREE_GRANULARITY) 0 0 0 0 in
  exists s, rt_init ∅ a b = Ok s /\ rt_repr s [r] /\
    rt_age (rt s) = 0 /\ min_range (rt s) = size_of r.
Proof.
  intros Ha Hb Hab r. unfold rt_init.
  pose proof (round_down_eq a Ha) as Hd. pose proof (round_up_eq b Hb) as Hu.
  set (lo := round_down a RTREE_GRANULARITY) in *. set (hi := round_up b RTREE_GRANULARITY) in *.
  assert (0 <= lo) by (rewrite Hd; unfold is_u64, RTREE_GRANULARITY in *; dlia).
  destruct (insert_new_Ok mt_init ∅ [] [] lo hi 0 0) as (p & t & -> & Hp & ? & Ht);
    [apply mt_init_spec|done|lia|lia|set_solver|set_solver|].
  simpl. eexists. split; [done|]. split_and!; [|done|].
  - split; [|done]. simpl. rewrite Ht. simpl. split; [|split].
    + constructor; [|constructor]. split_and!; [apply lookup_insert_eq|done|done|].
      unfold range_ok. simpl. split_and!; try done; try lia;
      unfold aligned; rewrite ?Hd, ?Hu; apply aligned_mul.
    + apply NoDup_singleton.
    + rewrite dom_insert_L, dom_empty_L. unfold ptrs. simpl. set_solver.
  - simpl. unfold size_of. simpl. apply u64_small. unfold is_u64, ULONG_MAX in *. lia.
Qed.

Lemma heap_repr_insert h es1 es2 rs1 rs2 e m :
  length es1 = length rs1 -> heap_repr h (es1 ++ es2) (rs1 ++ rs2) -> e_ptr e ∉ dom h ->
  e_first e = start m -> e_last e = end_ m - 1 -> range_ok m ->
  heap_repr (<[e_ptr e := m]> h) (es1 ++ e :: es2) (rs1 ++ m :: rs2).
Proof.
  intros Hlen (HF & Hnd & Hdom) Hf ? ? ?. unfold ptrs in *.
  rewrite fmap_app in Hnd, Hdom.
  assert (forall p, p ∈ ptrs es1 \/ p ∈ ptrs es2 -> <[e_ptr e := m]> h !! p = h !! p) as Hframe.
  { intros p Hp. unfold ptrs in *. apply lookup_insert_ne. rewrite Hdom in Hf. set_solver. }
  apply Forall2_app_inv in HF as [HF1 HF2]; [|done].
  split; [|split].
  - apply Forall2_app; [|apply Forall2_cons_2].
    + eapply Forall2_ent_frame; [|done]. auto.
    + split; [|done]. apply lookup_insert_eq.
    + eapply Forall2_ent_frame; [|done]. auto.
  - unfold ptrs. rewrite fmap_app, fmap_cons, <- Permutation_middle.
    apply NoDup_cons. rewrite Hdom in Hf. set_solver.
  - rewrite dom_insert_L, Hdom. unfold ptrs. rewrite fmap_app, fmap_cons. set_solver.
Qed.

(** Inserting a range into a gap between the managed ranges. *)
Lemma rt_insert_spec {NO : MapleNoOom M} {KN : KmallocNoOom K} s rs1 rs2 a b :
  rt_repr s (rs1 ++ rs2) -> zlen (rs1 ++ rs2) < RTREE_MAX_SIZE ->
  is_u64 a -> 0 < b <= 2 ^ 64 - RTREE_GRANULARITY ->
  let r := Mrange (round_down a RTREE_GRANULARITY) (round_up b RTREE_GRANULARITY)
             (rt_age (rt s)) 0 0 0 in
  start r < end_ r <= ULONG_MAX ->
  (forall x, x ∈ rs1 -> end_ x <= start r) -> (forall x, x ∈ rs2 -> end_ r <= start x) ->
  exists s', rt_insert s a b = Ok s' /\ rt_repr s' (rs1 ++ r :: rs2) /\
    rt_age (rt s') = rt_age (rt s) /\ min_range (rt s') = min_range (rt s).
Proof.
  intros [Hr Hl] Hn Ha Hb r Hlt H1 H2. unfold rt_insert.
  pose proof (round_down_eq a Ha) as Hd. pose proof (round_up_eq b Hb) as Hu.
  subst r. simpl in Hlt, H1, H2.
  set (lo := round_down a RTREE_GRANULARITY) in *. set (hi := round_up b RTREE_GRANULARITY) in *.
  assert (0 <= lo) by (rewrite Hd; unfold is_u64, RTREE_GRANULARITY in *; dlia).
  pose proof (heap_repr_size _ _ _ Hr) as Hsz. pose proof Hr as (HF & _ & _).
  apply Forall2_app_inv_r in HF as (es1 & es2 & HF1 & HF2 & Hes).
  pose proof (Forall2_length _ _ _ HF1) as Hlen. rewrite Hes in Hr, Hsz.
  destruct (insert_new_Ok (tree (rt s)) (heap s) es1 es2 lo hi (rt_age (rt s)) 0)
    as (p & t & -> & Hp & ? & Ht); [done| |lia|lia| | |].
  { pose proof (Forall2_length _ _ _ HF2). unfold zlen, KMALLOC_ROOM, RTREE_MAX_SIZE in *.
    rewrite length_app in *. lia. }
  { intros x (j & Hj)%list_elem_of_lookup.
    destruct (Forall2_lookup_l _ _ _ _ _ HF1 Hj) as (y & Hy & _ & _ & -> & _).
    specialize (H1 y (list_elem_of_lookup_2 _ _ _ Hy)). lia. }
  { intros x (j & Hj)%list_elem_of_lookup.
    destruct (Forall2_lookup_l _ _ _ _ _ HF2 Hj) as (y & Hy & _ & -> & _).
    specialize (H2 y (list_elem_of_lookup_2 _ _ _ Hy)). lia. }
  simpl mbind. eexists. split; [done|]. split_and!; [|done|done]. split; simpl.
  - rewrite Ht. apply (heap_repr_insert _ es1 es2 rs1 rs2 (MtEnt lo (hi - 1) p)); try done.
    unfold range_ok. simpl. split_and!; try done; try lia;
    unfold aligned; rewrite ?Hd, ?Hu; apply aligned_mul.
  - rewrite Hl, u64_small.
    + autorewrite with zlen. lia.
    + unfold RTREE_MAX_SIZE, zlen, is_u64 in *. lia.
Qed.
End proofs.
