(* ===== verification/RangeTreeProps.v ===== *)
(** Properties of the range tree of Demeter: refinement of the splitting pass,
    exactness of the sample counting, what a pass preserves, the invariant of
    every run of the policy thread, and the comparison used for ranking. *)
From S2P Require Import Prelude Kernel RangeTree RangeTreeProofs.
From stdpp Require Import base numbers list gmap sorting.
From Stdlib Require Import ZArith Lia.
Open Scope Z_scope.

(** ** What the list specification preserves *)

Definition total_access (rs : list mrange) : Z := foldr (fun r n => nr_access r + n) 0 rs.

Lemma covered_cons r rs a : covered (r :: rs) a <-> covers r a \/ covered rs a.
Proof. unfold covered. set_solver. Qed.

Lemma covers_pieces ag c a : range_ok c -> 2 * RTREE_GRANULARITY <= size_of c ->
  covers (left_piece ag c) a \/ covers (right_piece ag c) a <-> covers c a.
Proof.
  intros Hc Hsz. destruct (split_mid_bounds c Hc Hsz) as [? _].
  unfold covers. simpl. lia.
Qed.

Lemma wants_split_size thresh prev next c :
  wants_split thresh prev next c = true -> 2 * RTREE_GRANULARITY <= size_of c.
Proof. unfold wants_split. lia. Qed.

(** Case analysis of one step of [split_list]. *)
Ltac split_cases :=
  simpl;
  match goal with |- context [?x <? RTREE_MAX_SIZE] =>
    destruct (Z.ltb_spec x RTREE_MAX_SIZE); simpl
  end;
  [ match goal with |- context [wants_split ?t ?p ?n ?c] =>
      let Hw := fresh "Hw" in
      destruct (wants_split t p n c) eqn:Hw; simpl;
      [ apply wants_split_size in Hw |]
    end |]; try done.

Section lists.
Context (thresh : Z).

Lemma split_list_covered l age len mn prev a :
  Forall range_ok l -> covered (p_out (split_list thresh age len mn prev l)) a <-> covered l a.
Proof.
  intros Hl. induction Hl as [|c l Hc Hl IH] in age, len, mn, prev |- *; [done|].
  split_cases.
  - rewrite !covered_cons, IH, <- (covers_pieces (u64 (age + 1)) c a) by done. tauto.
  - by rewrite !covered_cons, IH.
Qed.

Lemma split_list_length l age len mn prev :
  let p := split_list thresh age len mn prev l in
  p_len p = len + (zlen (p_out p) - zlen l) /\ len <= p_len p <= Z.max len RTREE_MAX_SIZE.
Proof.
  induction l as [|c l IH] in age, len, mn, prev |- *; simpl.
  - unfold zlen. simpl. lia.
  - split_cases; autorewrite with zlen.
    + specialize (IH (u64 (age + 1)) (len + 1)
        (Z.min mn (Z.min (size_of (left_piece (u64 (age + 1)) c))
                         (size_of (right_piece (u64 (age + 1)) c))))
        (Some (right_piece (u64 (age + 1)) c))). simpl in IH. lia.
    + specialize (IH age len mn (Some c)). simpl in IH. lia.
    + lia.
Qed.

(** Every split loses at most one access, by the rounding of the halves. *)
Lemma split_list_access l age len mn prev :
  let p := split_list thresh age len mn prev l in
  total_access (p_out p) <= total_access l <=
    total_access (p_out p) + (zlen (p_out p) - zlen l).
Proof.
  induction l as [|c l IH] in age, len, mn, prev |- *; simpl.
  - unfold zlen. simpl. lia.
  - split_cases; autorewrite with zlen.
    + specialize (IH (u64 (age + 1)) (len + 1)
        (Z.min mn (Z.min (size_of (left_piece (u64 (age + 1)) c))
                         (size_of (right_piece (u64 (age + 1)) c))))
        (Some (right_piece (u64 (age + 1)) c))). simpl in IH.
      set (n := nr_access c) in *. dlia.
    + specialize (IH age len mn (Some c)). simpl in IH. lia.
    + lia.
Qed.

Lemma split_list_min l age len mn prev :
  Forall range_ok l -> Forall (fun r => mn <= size_of r) l -> RTREE_GRANULARITY <= mn ->
  let p := split_list thresh age len mn prev l in
  Forall (fun r => p_min p <= size_of r) (p_out p) /\ RTREE_GRANULARITY <= p_min p <= mn.
Proof.
  intros Hl. induction Hl as [|c l Hc Hl IH] in age, len, mn, prev |- *; intros Hmn Hg; simpl.
  - split; [constructor|lia].
  - apply Forall_cons in Hmn as [Hmc Hmn]. split_cases.
    + destruct (split_mid_bounds c Hc Hw) as [Hm Ha].
      destruct Hc as (Hs & He & _ & _ & _). apply aligned_div in Ha, Hs, He.
      set (sl := size_of (left_piece _ c)). set (sr := size_of (right_piece _ c)).
      assert (RTREE_GRANULARITY <= sl /\ RTREE_GRANULARITY <= sr) as [? ?].
      { subst sl sr. unfold size_of, RTREE_GRANULARITY in *. simpl. lia. }
      destruct (IH (u64 (age + 1)) (len + 1) (Z.min mn (Z.min sl sr))
                   (Some (right_piece (u64 (age + 1)) c))) as [HF Hp]; [|lia|].
      { eapply Forall_impl; [done|]. simpl. lia. }
      split; [|lia]. repeat constructor; [subst sl; lia|subst sr; lia|done].
    + destruct (IH age len mn (Some c)) as [HF Hp]; [done..|].
      split; [|lia]. constructor; [lia|done].
    + split; [|lia]. by constructor.
Qed.
End lists.

(** ** The operations of the tree *)

Section ops.
Context {M : MapleTree} {ML : MapleLaws M}.
Context {K : Kmalloc} {KL : KmallocLaws K}.
Implicit Types s : rt_state M.

(** C14: one splitting pass of the range tree refines [split_list]: it never runs
    out of fuel, and the ranges, the age, the length and the smallest size it
    leaves are those of the list specification applied to the halved access
    counts; the one way it can fail is that memory runs out in the middle, for a
    new range or for a node of the tree, which stops the kernel ([UNWRAP]). *)
Theorem rt_split_refines s rs rtree_split_thresh num_online_cpus :
  rt_repr s rs ->
  let p := split_list (u64 (rtree_split_thresh * num_online_cpus)) (rt_age (rt s))
             (len (rt s)) (min_range (rt s)) None (halve <$> rs) in
  (exists s', rt_split rtree_split_thresh num_online_cpus s = Ok s' /\
     rt_repr s' (p_out p) /\ rt_age (rt s') = p_age p /\
     len (rt s') = p_len p /\ min_range (rt s') = p_min p) \/
  (rt_split rtree_split_thresh num_online_cpus s = Fault BugOn /\ oom M K).
Proof. apply rt_split_spec. Qed.

(** C23: counting a sample is exact.  If the address lies in a managed range,
    that range's counter goes up by one (modulo 2^64) and every other range,
    the shape of the tree and its totals are unchanged; if it lies in none,
    nothing changes and the error counter's index is returned. *)
Theorem rt_count_exact s rs addr :
  rt_repr s rs ->
  (forall i r, rs !! i = Some r -> covers r addr ->
     exists s', rt_count s addr = Ok (0, s') /\ rt s' = rt s /\
       rt_repr s' (<[i := set_nr_access (u64 (nr_access r + 1)) r]> rs)) /\
  (~ covered rs addr -> rt_count s addr = Ok (PEBS_DISCARDED_ERROR, s)).
Proof. intros Hr. split; [intros; by apply rt_count_hit_spec|by apply rt_count_miss_spec]. Qed.

(** What a pass keeps, in one lemma for the theorems below. *)
Lemma rt_split_keeps s rs th n :
  rt_repr s rs ->
  unless_oom (fun s' => exists rs', rt_repr s' rs' /\
    (forall a, covered rs' a <-> covered rs a) /\
    zlen rs <= zlen rs' <= Z.max (zlen rs) RTREE_MAX_SIZE /\
    total_access rs' <= total_access (halve <$> rs) <= total_access rs' + (zlen rs' - zlen rs) /\
    (Forall (fun r => min_range (rt s) <= size_of r) rs -> RTREE_GRANULARITY <= min_range (rt s) ->
     Forall (fun r => min_range (rt s') <= size_of r) rs' /\ RTREE_GRANULARITY <= min_range (rt s')))
    (rt_split th n s).
Proof.
  intros Hr. destruct (rt_split_spec s rs th n Hr) as [(s' & Hs & Hr' & _ & Hl & Hm)|?]; [left|by right].
  exists s'. split; [done|]. eexists. split; [done|].
  set (thresh := u64 (th * n)) in *.
  assert (Forall range_ok (halve <$> rs)) as Hok.
  { apply Forall_fmap. eapply Forall_impl; [by eapply rt_repr_ok|].
    intros r Hrok. simpl. by apply halve_ok. }
  assert (zlen (halve <$> rs) = zlen rs) as Hz by (unfold zlen; by rewrite length_fmap).
  pose proof (split_list_length thresh (halve <$> rs) (rt_age (rt s)) (len (rt s))
                (min_range (rt s)) None) as Hlens.
  destruct Hr as [_ Hlen]. simpl in Hlens. split_and!.
  - intros a. rewrite split_list_covered by done. unfold covered. set_solver.
  - lia.
  - lia.
  - apply split_list_access.
  - rewrite <- Hz. apply split_list_access.
  - intros HF Hg. rewrite Hm.
    destruct (split_list_min thresh (halve <$> rs) (rt_age (rt s)) (len (rt s))
                (min_range (rt s)) None Hok) as [? ?]; [by apply Forall_fmap|done|].
    split; [done|lia].
Qed.

(** while memory lasts, a splitting pass manages exactly the same addresses as
    before, only adds ranges and never beyond [RTREE_MAX_SIZE], and loses at most one
    access per split on top of the decay. *)
Theorem rt_split_preserves {NO : MapleNoOom M} {KN : KmallocNoOom K} s rs th n :
  rt_repr s rs ->
  exists s' rs', rt_split th n s = Ok s' /\ rt_repr s' rs' /\
    (forall a, covered rs' a <-> covered rs a) /\
    zlen rs <= zlen rs' <= Z.max (zlen rs) RTREE_MAX_SIZE /\
    total_access rs' <= total_access (halve <$> rs) <= total_access rs' + (zlen rs' - zlen rs).
Proof.
  intros Hr. destruct (unless_oom_Ok _ _ _ _ (rt_split_keeps s rs th n Hr)) as (s' & ? & rs' & ? & ? & ? & ? & _).
  exists s', rs'. done.
Qed.

(** as long as [min_range] is a lower bound of the sizes of the ranges and
    at least the granularity, a splitting pass keeps it so. *)
Theorem rt_split_min_range {NO : MapleNoOom M} {KN : KmallocNoOom K} s rs th n :
  rt_repr s rs ->
  Forall (fun r => min_range (rt s) <= size_of r) rs -> RTREE_GRANULARITY <= min_range (rt s) ->
  exists s' rs', rt_split th n s = Ok s' /\ rt_repr s' rs' /\
    Forall (fun r => min_range (rt s') <= size_of r) rs' /\ RTREE_GRANULARITY <= min_range (rt s').
Proof.
  intros Hr Hf Hg. destruct (unless_oom_Ok _ _ _ _ (rt_split_keeps s rs th n Hr)) as (s' & ? & rs' & ? & _ & _ & _ & Hm).
  destruct (Hm Hf Hg). exists s', rs'. done.
Qed.

(** *** Runs of the policy thread: any sequence of counts and passes *)

Inductive rt_step : rt_state M -> rt_state M -> Prop :=
  | step_count s s' addr v : rt_count s addr = Ok (v, s') -> rt_step s s'
  | step_split s s' th n : rt_split th n s = Ok s' -> rt_step s s'.

Definition count_ok s rs addr : Prop :=
  exists v s' rs', rt_count s addr = Ok (v, s') /\ rt_repr s' rs' /\
    zlen rs' = zlen rs /\ (forall a, covered rs' a <-> covered rs a).

Lemma rt_count_keeps s rs addr : rt_repr s rs -> count_ok s rs addr.
Proof.
  intros Hr. destruct (decide (Exists (fun r => start r <= addr < end_ r) rs)) as [Hex|Hno].
  - apply Exists_exists in Hex as (r & (i & Hi)%list_elem_of_lookup & Hc).
    destruct (rt_count_hit_spec s rs i r addr Hr Hi Hc) as (s' & Hs & _ & Hr').
    eexists _, s', _. split; [done|]. split; [done|]. split.
    { unfold zlen. by rewrite length_insert. }
    intros a. unfold covered. split; intros (x & (j & Hj)%list_elem_of_lookup & Hx).
    + apply list_lookup_insert_Some in Hj as [(<- & <- & _)|[_ Hj]].
      * exists r. split; [by eapply list_elem_of_lookup_2|done].
      * exists x. split; [by eapply list_elem_of_lookup_2|done].
    + destruct (decide (i = j)) as [<-|Hij].
      * rewrite Hi in Hj. injection Hj as <-.
        exists (set_nr_access (u64 (nr_access r + 1)) r). split; [|exact Hx].
        apply (list_elem_of_lookup_2 _ i). apply list_lookup_insert_eq. by eapply lookup_lt_Some.
      * exists x. split; [|done]. apply (list_elem_of_lookup_2 _ j).
        by rewrite list_lookup_insert_ne.
  - eexists _, s, rs. split; [|done]. apply (rt_count_miss_spec s rs addr Hr).
    intros (x & Hx & Hc). apply Hno, Exists_exists. eauto.
Qed.

(** in every state reachable by counting samples and splitting, the tree
    still represents well-formed disjoint aligned ranges over exactly the
    initial addresses, within the size limit, and no further operation can
    fault while memory lasts. *)
Theorem rt_run_invariant {NO : MapleNoOom M} {KN : KmallocNoOom K} s0 rs0 s :
  rt_repr s0 rs0 -> zlen rs0 <= RTREE_MAX_SIZE -> rtc rt_step s0 s ->
  exists rs, rt_repr s rs /\ (forall a, covered rs a <-> covered rs0 a) /\
    zlen rs0 <= zlen rs <= RTREE_MAX_SIZE /\
    (forall addr, is_ok (rt_count s addr) = true) /\
    (forall th n, is_ok (rt_split th n s) = true).
Proof.
  intros Hr0 Hmax Hrun.
  assert (exists rs, rt_repr s rs /\ (forall a, covered rs a <-> covered rs0 a) /\
    zlen rs0 <= zlen rs <= RTREE_MAX_SIZE) as (rs & Hr & Hc & Hl).
  { induction Hrun as [s|s1 s2 s3 Hstep _ IH] in rs0, Hr0, Hmax |- *.
    { exists rs0. split; [done|]. split; [done|lia]. }
    assert (exists rs, rt_repr s2 rs /\ (forall a, covered rs a <-> covered rs0 a) /\
      zlen rs0 <= zlen rs <= RTREE_MAX_SIZE) as (rs & Hr & Hc & Hl).
    { destruct Hstep as [s1 s2 addr v Hs|s1 s2 th n Hs].
      - destruct (rt_count_keeps s1 rs0 addr Hr0) as (v' & s' & rs & Hs' & Hr & Hz & Hc).
        rewrite Hs in Hs'. injection Hs' as <- <-. exists rs. split; [done|]. split; [done|lia].
      - destruct (rt_split_keeps s1 rs0 th n Hr0) as [(s' & Hs' & rs & Hr & Hc & Hz & _)|[? _]]; [|congruence].
        rewrite Hs in Hs'. injection Hs' as <-. exists rs. split; [done|]. split; [done|lia]. }
    destruct (IH rs Hr) as (rs' & Hr' & Hc' & Hl'); [lia|].
    exists rs'. split; [done|]. split; [|lia]. intros a. by rewrite Hc', Hc. }
  exists rs. split_and!; try done; try lia.
  - intros addr. destruct (rt_count_keeps s rs addr Hr) as (v & s' & _ & -> & _). done.
  - intros th n. by destruct (unless_oom_Ok _ _ _ _ (rt_split_keeps s rs th n Hr)) as (s' & -> & _).
Qed.
End ops.

(** ** The ranking order *)

(** Frequency, then access count, then age. *)
Definition rank_lt (a b : mrange) : Prop :=
  mrange_freq a < mrange_freq b \/
  mrange_freq a = mrange_freq b /\
    (nr_access a < nr_access b \/ nr_access a = nr_access b /\ age a < age b).

Definition small_counts (r : mrange) : Prop :=
  range_ok r /\ nr_access r < 2 ^ 31 /\ 0 <= age r < 2 ^ 31.

Lemma mrange_freq_small r : small_counts r -> 0 <= mrange_freq r < 2 ^ 31.
Proof.
  intros ((Hs & He & ? & ? & ?) & ? & _). apply aligned_div in Hs, He.
  unfold mrange_freq, is_u64, ULONG_MAX, RTREE_GRANULARITY in *.
  rewrite (u64_small (nr_access r * _)), (u64_small (end_ r - start r + 1)) by (unfold is_u64; lia).
  split; [apply Z.div_pos; lia|]. apply Z.div_lt_upper_bound; [lia|]. nia.
Qed.

(** on ranges with fewer than 2^31 accesses and splits, the comparison of
    [rt_rank] is the lexicographic order by frequency, access count and age:
    negative exactly when the first range ranks below the second, zero exactly
    when they tie. *)
Theorem rt_rank_cmp_order a b :
  small_counts a -> small_counts b ->
  (rt_rank_cmp a b < 0 <-> rank_lt a b) /\ (0 < rt_rank_cmp a b <-> rank_lt b a).
Proof.
  intros Ha Hb. pose proof (mrange_freq_small a Ha). pose proof (mrange_freq_small b Hb).
  destruct Ha as ((_ & _ & _ & _ & [? _]) & ? & ?), Hb as ((_ & _ & _ & _ & [? _]) & ? & ?).
  assert (forall x y, 0 <= x < 2 ^ 31 -> 0 <= y < 2 ^ 31 -> u64 (x - y) = 0 <-> x = y) as Hz.
  { intros x y ? ?. unfold u64, wrap. split; [|intros ->; by rewrite Z.sub_diag]. dlia. }
  unfold rt_rank_cmp, rank_lt.
  destruct (Z.eqb_spec (u64 (mrange_freq a - mrange_freq b)) 0) as [Hf|Hf]; simpl.
  - rewrite Hz in Hf by lia.
    destruct (Z.eqb_spec (u64 (nr_access a - nr_access b)) 0) as [Hn|Hn]; simpl.
    + rewrite Hz in Hn by lia. rewrite s32_u64_sub by lia. lia.
    + rewrite Hz in Hn by lia. rewrite s32_u64_sub by lia. lia.
  - rewrite Hz in Hf by lia. rewrite s32_u64_sub by lia. lia.
Qed.

(** without that bound the truncation to [int] reverses the order: a hot
    range can rank below a range that was never accessed. *)
Theorem rt_rank_cmp_truncates :
  exists hot cold, range_ok hot /\ range_ok cold /\
    nr_access cold = 0 /\ rank_lt cold hot /\ rt_rank_cmp hot cold < 0.
Proof.
  exists (Mrange 0 RTREE_GRANULARITY 0 (2 ^ 32) 0 0), (Mrange 0 RTREE_GRANULARITY 0 0 0 0).
  split_and!; try (vm_compute; done); try (vm_compute; split; done).
  left. vm_compute. done.
Qed.

(** ** Witnesses on the list instance of the interfaces *)

#[local] Existing Instances ListMaple.M ListMaple.laws ListMaple.no_oom
  SupKmalloc.K SupKmalloc.laws SupKmalloc.no_oom.

Module Demo.
Definition hot : mrange := Mrange 4294967296 4303355904 0 400 0 0.
Definition cold : mrange := Mrange 8589934592 8598323200 0 0 0 0.
Definition state : rt_state ListMaple.M :=
  RtState (RangeTree (M := ListMaple.M) 2 0 8388608
             [MtEnt 4294967296 4303355903 1; MtEnt 8589934592 8598323199 2])
          {[1 := hot; 2 := cold]}.

Definition refusing : Kmalloc := {| kmalloc _ := None |}.
Lemma refusing_laws : KmallocLaws refusing.
Proof. split. done. Qed.

Lemma repr : rt_repr state [hot; cold].
Proof.
  split; [|done]. split; [|split].
  - repeat constructor; vm_compute; try done; split; done.
  - apply (bool_decide_unpack _). vm_compute. done.
  - apply (bool_decide_unpack _). vm_compute. done.
Qed.
End Demo.

(** The same machine, with an allocator that refuses. *)
Lemma rt_split_refines_witness :
  (exists s', rt_split 15 4 Demo.state = Ok s' /\ len (rt s') = 3) /\
  rt_split (K := Demo.refusing) 15 4 Demo.state = Fault BugOn /\ oom ListMaple.M Demo.refusing.
Proof.
  assert (is_ok (rt_split 15 4 Demo.state) = true) as Hok by (vm_compute; reflexivity).
  assert (is_ok (rt_split (K := Demo.refusing) 15 4 Demo.state) = false) as Hbad by (vm_compute; reflexivity).
  split.
  - destruct (rt_split_refines Demo.state _ 15 4 Demo.repr) as [(s' & H & _ & _ & Hl & _)|[H _]]; [|rewrite H in Hok; discriminate Hok].
    exists s'. split; [exact H|]. rewrite Hl. vm_compute. reflexivity.
  - destruct (rt_split_refines (K := Demo.refusing) (KL := Demo.refusing_laws) Demo.state _ 15 4 Demo.repr) as [(s' & H & _)|H]; [rewrite H in Hbad; discriminate Hbad|exact H].
Defined.

Lemma rt_count_exact_witness :
  exists s', rt_count Demo.state 4294967300 = Ok (0, s') /\
    rt_count Demo.state 12 = Ok (PEBS_DISCARDED_ERROR, Demo.state).
Proof.
  destruct (proj1 (rt_count_exact Demo.state _ 4294967300 Demo.repr) 0%nat Demo.hot eq_refl)
    as (s' & H & _); [vm_compute; split; done|].
  exists s'. split; [exact H|].
  apply (proj2 (rt_count_exact Demo.state _ 12 Demo.repr)).
  intros (r & Hr & Hc). unfold covers in Hc.
  apply elem_of_cons in Hr as [->|Hr]; [simpl in Hc; lia|].
  apply list_elem_of_singleton in Hr as ->. simpl in Hc. lia.
Defined.

Lemma rt_split_preserves_witness :
  exists s' rs', rt_split 15 4 Demo.state = Ok s' /\ rt_repr s' rs' /\ covered rs' 4294967300.
Proof.
  destruct (rt_split_preserves Demo.state _ 15 4 Demo.repr) as (s' & rs' & ? & ? & Hc & _).
  exists s', rs'. split; [done|]. split; [done|]. apply Hc.
  exists Demo.hot. split; [apply list_elem_of_here|]. vm_compute. split; done.
Defined.

Lemma rt_split_min_range_witness :
  exists s' rs', rt_split 15 4 Demo.state = Ok s' /\ rt_repr s' rs' /\
    RTREE_GRANULARITY <= min_range (rt s').
Proof.
  destruct (rt_split_min_range Demo.state _ 15 4 Demo.repr) as (s' & rs' & ? & ? & _ & ?).
  - repeat constructor; vm_compute; done.
  - vm_compute. done.
  - exists s', rs'. done.
Defined.

Lemma rt_run_invariant_witness :
  exists s, rtc rt_step Demo.state s /\ (forall th n, is_ok (rt_split th n s) = true).
Proof.
  assert (is_ok (rt_count Demo.state 4294967300) = true) as Hok by (vm_compute; reflexivity).
  destruct (rt_count Demo.state 4294967300) as [[v s]|f] eqn:E; [clear Hok|discriminate Hok].
  assert (rtc rt_step Demo.state s) as Hrun by (eapply rtc_once, step_count, E).
  exists s. split; [exact Hrun|].
  destruct (rt_run_invariant Demo.state _ s Demo.repr ltac:(vm_compute; done) Hrun)
    as (rs & _ & _ & _ & _ & H). exact H.
Defined.

Lemma rt_rank_cmp_order_witness :
  rt_rank_cmp Demo.cold Demo.hot < 0 /\ rank_lt Demo.cold Demo.hot.
Proof.
  assert (rt_rank_cmp Demo.cold Demo.hot < 0) as H by (vm_compute; reflexivity).
  split; [exact H|]. apply (rt_rank_cmp_order Demo.cold Demo.hot); [| |exact H];
    unfold small_counts, range_ok; vm_compute; repeat split; done.
Defined.
