(* ===== verification/Folio.v ===== *)
(** Folios as Demeter sees them.  Isolation from the LRU, reference counts, the
    isolation statistics and the exchange of two isolated folios are code of the
    kernel outside the modelled files: the operations of [FolioOps], with the
    documented behaviour the policy and migration threads rely on in
    [FolioLaws].  [manage_folio] and [unmanage_folio] of mm/demeter/core.c are
    translated on top of them. *)
From S2P Require Import Prelude Kernel.
From stdpp Require Import base numbers list gmap.
From Stdlib Require Import ZArith Lia.
Open Scope Z_scope.

(** A folio is its address.  The attributes of a folio that is in use do not
    change: page frame number, node, size, and which LRU it belongs to. *)
Class FolioOps := {
  mem : Type;
  folio_pfn : Z -> Z;
  folio_nid : Z -> Z;
  folio_nr_pages : Z -> Z;
  folio_is_file_lru : Z -> Z;
  folio_test_anon : mem -> Z -> bool;
  on_lru : mem -> Z -> bool;
  (** references other than those of page tables and page cache, which move
      with the contents when two folios are exchanged *)
  refs : mem -> Z -> Z;
  (** [NR_ISOLATED_ANON + file] of a node *)
  nr_isolated : mem -> Z -> Z -> Z;
  folio_get : mem -> Z -> mem;
  folio_put : mem -> Z -> mem;
  folio_isolate_lru : mem -> Z -> bool * mem;
  folio_putback_lru : mem -> Z -> mem;
  node_stat_mod : mem -> Z -> Z -> Z -> mem;
  folio_exchange_isolated : mem -> Z -> Z -> Z * mem;
}.

(** [1] at [f] and [0] elsewhere *)
Definition at_folio (f g : Z) : Z := if g =? f then 1 else 0.

Class FolioLaws (F : FolioOps) : Prop := {
  folio_nr_pages_pos f : 1 <= folio_nr_pages f;
  folio_get_spec m f :
    (forall g, on_lru (folio_get m f) g = on_lru m g) /\
    (forall g, refs (folio_get m f) g = refs m g + at_folio f g) /\
    (forall n k, nr_isolated (folio_get m f) n k = nr_isolated m n k);
  folio_put_spec m f :
    (forall g, on_lru (folio_put m f) g = on_lru m g) /\
    (forall g, refs (folio_put m f) g = refs m g - at_folio f g) /\
    (forall n k, nr_isolated (folio_put m f) n k = nr_isolated m n k);
  (** mm/vmscan.c: true if the folio was on an LRU; it is then off it and has
      one more reference. *)
  folio_isolate_lru_spec m f :
    let '(b, m') := folio_isolate_lru m f in
    b = on_lru m f /\
    (forall g, on_lru m' g = on_lru m g && negb (g =? f)) /\
    (forall g, refs m' g = refs m g + (if b then at_folio f g else 0)) /\
    (forall n k, nr_isolated m' n k = nr_isolated m n k);
  (** mm/vmscan.c: back on an LRU, the reference of the isolation dropped. *)
  folio_putback_lru_spec m f :
    (forall g, on_lru (folio_putback_lru m f) g = on_lru m g || (g =? f)) /\
    (forall g, refs (folio_putback_lru m f) g = refs m g - at_folio f g) /\
    (forall n k, nr_isolated (folio_putback_lru m f) n k = nr_isolated m n k);
  node_stat_mod_spec m n k d :
    (forall g, on_lru (node_stat_mod m n k d) g = on_lru m g) /\
    (forall g, refs (node_stat_mod m n k d) g = refs m g) /\
    (forall n' k', nr_isolated (node_stat_mod m n k d) n' k' =
       nr_isolated m n' k' + (if (n' =? n) && (k' =? k) then d else 0));
  (** Exchanging two isolated folios, successfully or not, leaves both isolated
      and referenced (for anonymous folios, the only ones exchanged, this is a
      theorem of ExchangeProps). *)
  folio_exchange_isolated_spec m f g :
    let '(err, m') := folio_exchange_isolated m f g in
    (forall h, on_lru m' h = on_lru m h) /\
    (forall h, refs m' h = refs m h) /\
    (forall n k, nr_isolated m' n k = nr_isolated m n k);
}.

Section folio.
Context {F : FolioOps}.

(** [node_stat_mod_folio(folio, NR_ISOLATED_ANON + folio_is_file_lru(folio), d)] *)
Definition stat_mod_folio (m : mem) (folio d : Z) : mem :=
  node_stat_mod m (folio_nid folio) (folio_is_file_lru folio) d.

(** Result, memory, and the list with the folio added. *)
Definition manage_folio (m : mem) (managed : list Z) (folio : Z) : Z * mem * list Z :=
  let m := folio_get m folio in
  let '(b, m) := folio_isolate_lru m folio in
  if negb b then (- EAGAIN, folio_put m folio, managed)
  else
    let managed := managed ++ [folio] in
    let m := stat_mod_folio m folio (folio_nr_pages folio) in
    (0, folio_put m folio, managed).

(** [list_for_each_entry_safe]: every folio is unlinked and put back. *)
Fixpoint unmanage_folio (m : mem) (managed : list Z) : mem * list Z :=
  match managed with
  | [] => (m, [])
  | folio :: next =>
      let m := stat_mod_folio m folio (- folio_nr_pages folio) in
      let m := folio_putback_lru m folio in
      unmanage_folio m next
  end.
End folio.

(** ** Accounting *)

Section accounting.
Context {F : FolioOps} {FL : FolioLaws F}.

Definition count (l : list Z) (g : Z) : Z := foldr (fun f n => at_folio f g + n) 0 l.

(** Pages of the folios of [l] on node [n] and LRU [k]. *)
Definition pages (l : list Z) (n k : Z) : Z :=
  foldr (fun f s => (if (n =? folio_nid f) && (k =? folio_is_file_lru f)
                     then folio_nr_pages f else 0) + s) 0 l.

Lemma count_app a b g : count (a ++ b) g = count a g + count b g.
Proof. induction a; simpl; [done|]. lia. Qed.

Lemma pages_app a b n k : pages (a ++ b) n k = pages a n k + pages b n k.
Proof. induction a; simpl; [done|]. lia. Qed.

Lemma count_nonneg l g : 0 <= count l g.
Proof. induction l as [|f l IH]; simpl; [done|]. unfold at_folio. case_match; lia. Qed.

Lemma count_0 l g : count l g = 0 <-> g ∉ l.
Proof.
  induction l as [|f l IH]; simpl; [set_solver|]. pose proof (count_nonneg l g).
  unfold at_folio. destruct (Z.eqb_spec g f); set_solver by lia.
Qed.

#[export] Instance count_perm : Proper (Permutation ==> eq ==> eq) count.
Proof. intros l l' H g ? <-. induction H; simpl; lia. Qed.

#[export] Instance pages_perm : Proper (Permutation ==> eq ==> eq ==> eq) pages.
Proof. intros l l' H n ? <- k ? <-. induction H; simpl; lia. Qed.

(** [m'] is [m] with the folios of [l] isolated (each listed once) and one more
    reference to each folio of [lk]. *)
Definition isolated_with (lk : list Z) (m m' : mem) (l : list Z) : Prop :=
  NoDup l /\ Forall (fun f => on_lru m f = true) l /\
  (forall g, on_lru m' g = on_lru m g && bool_decide (g ∉ l)) /\
  (forall g, refs m' g = refs m g + count l g + count lk g) /\
  (forall n k, nr_isolated m' n k = nr_isolated m n k + pages l n k).

Notation isolated_from := (isolated_with []).

Lemma isolated_from_nil m m' :
  (forall g, on_lru m' g = on_lru m g) -> (forall g, refs m' g = refs m g) ->
  (forall n k, nr_isolated m' n k = nr_isolated m n k) -> isolated_from m m' [].
Proof.
  intros H1 H2 H3. split; [constructor|]. split; [constructor|]. split_and!; intros.
  - rewrite H1, bool_decide_true by set_solver. by rewrite andb_true_r.
  - rewrite H2. simpl. lia.
  - rewrite H3. simpl. lia.
Qed.

#[export] Instance isolated_with_perm lk m m' :
  Proper (Permutation ==> iff) (isolated_with lk m m').
Proof.
  assert (forall l l', l ≡ₚ l' -> isolated_with lk m m' l -> isolated_with lk m m' l') as H.
  { intros l l' Hp (H1 & H2 & H3 & H4 & H5). split; [by rewrite <- Hp|].
    split; [by rewrite <- Hp|]. split_and!; intros.
    - rewrite H3. f_equal. apply bool_decide_ext. by rewrite Hp.
    - by rewrite <- Hp.
    - by rewrite <- Hp. }
  intros l l' Hp. split; by apply H.
Qed.

(** Managing a folio isolates it or changes nothing. *)
Lemma manage_folio_spec lk m0 m l folio :
  isolated_with lk m0 m l ->
  let '(err, m', l') := manage_folio m l folio in
  isolated_with lk m0 m' l' /\
  ((err = 0 /\ l' = l ++ [folio]) \/ (err = - EAGAIN /\ l' = l)).
Proof.
  intros (Hnd & Hon & Hlru & Hrefs & Hst). unfold manage_folio.
  pose proof (folio_get_spec m folio) as (G1 & G2 & G3).
  pose proof (folio_isolate_lru_spec (folio_get m folio) folio) as HI.
  destruct (folio_isolate_lru (folio_get m folio) folio) as [b m1].
  destruct HI as (Hb & I1 & I2 & I3). rewrite G1 in Hb.
  destruct b; simpl.
  - set (m2 := stat_mod_folio m1 folio (folio_nr_pages folio)).
    pose proof (node_stat_mod_spec m1 (folio_nid folio) (folio_is_file_lru folio)
                  (folio_nr_pages folio)) as (S1 & S2 & S3).
    pose proof (folio_put_spec m2 folio) as (P1 & P2 & P3).
    rewrite Hlru in Hb. symmetry in Hb. apply andb_true_iff in Hb as [Hb0 Hb1].
    apply bool_decide_eq_true in Hb1.
    split; [|by left]. split_and!.
    + apply NoDup_app. split_and!; [done|set_solver|apply NoDup_singleton].
    + apply Forall_app. split; [done|]. by apply Forall_singleton.
    + intros g. rewrite P1. unfold m2, stat_mod_folio. rewrite S1, I1, G1, Hlru, <- andb_assoc.
      f_equal. destruct (Z.eqb_spec g folio) as [->|]; simpl.
      * rewrite andb_false_r. symmetry. apply bool_decide_eq_false. set_solver.
      * rewrite andb_true_r. apply bool_decide_ext. set_solver.
    + intros g. rewrite P2. unfold m2, stat_mod_folio. rewrite S2, I2, G2, Hrefs, count_app.
      simpl. lia.
    + intros n k. rewrite P3. unfold m2, stat_mod_folio. rewrite S3, I3, G3, Hst, pages_app.
      simpl. lia.
  - pose proof (folio_put_spec m1 folio) as (P1 & P2 & P3).
    rewrite Hlru in Hb. split; [|by right]. split; [done|]. split; [done|]. split_and!.
    + intros g. rewrite P1, I1, G1, Hlru. destruct (Z.eqb_spec g folio) as [->|]; simpl.
      * by rewrite <- Hb.
      * by rewrite andb_true_r.
    + intros g. rewrite P2, I2, G2, Hrefs. lia.
    + intros n k. by rewrite P3, I3, G3, Hst.
Qed.

(** Unmanaging puts back exactly the listed folios. *)
Lemma unmanage_folio_spec lk m0 m l rest :
  isolated_with lk m0 m (l ++ rest) ->
  let '(m', l') := unmanage_folio m l in isolated_with lk m0 m' rest /\ l' = [].
Proof.
  induction l as [|f l IH] in m |- *; intros H; simpl; [done|].
  apply IH. clear IH. destruct H as (Hnd & Hon & Hlru & Hrefs & Hst).
  simpl in *. apply NoDup_cons in Hnd as [Hf Hnd]. apply Forall_cons in Hon as [Hof Hon].
  set (m1 := stat_mod_folio m f (- folio_nr_pages f)).
  pose proof (node_stat_mod_spec m (folio_nid f) (folio_is_file_lru f)
                (- folio_nr_pages f)) as (S1 & S2 & S3).
  pose proof (folio_putback_lru_spec m1 f) as (P1 & P2 & P3).
  split; [done|]. split; [done|]. split_and!.
  - intros g. rewrite P1. unfold m1, stat_mod_folio. rewrite S1, Hlru.
    destruct (Z.eqb_spec g f) as [->|]; simpl.
    + rewrite orb_true_r, Hof. simpl. symmetry. by apply bool_decide_eq_true.
    + rewrite orb_false_r. f_equal. apply bool_decide_ext. set_solver.
  - intros g. rewrite P2. unfold m1, stat_mod_folio. rewrite S2, Hrefs. lia.
  - intros n k. rewrite P3. unfold m1, stat_mod_folio. rewrite S3, Hst.
    destruct ((n =? folio_nid f) && (k =? folio_is_file_lru f)); lia.
Qed.

(** Exchanging leaves the isolated set as it is. *)
Lemma exchange_isolated_with lk m0 m l f g :
  isolated_with lk m0 m l -> isolated_with lk m0 (snd (folio_exchange_isolated m f g)) l.
Proof.
  intros (H1 & H2 & H3 & H4 & H5).
  pose proof (folio_exchange_isolated_spec m f g) as H.
  destruct (folio_exchange_isolated m f g) as [err m']. destruct H as (E1 & E2 & E3). simpl.
  split; [done|]. split; [done|]. split_and!; intros.
  - by rewrite E1.
  - by rewrite E2.
  - by rewrite E3.
Qed.

(** A reference taken by the walk, and dropped. *)
Lemma folio_get_isolated lk m0 m l f :
  isolated_with lk m0 m l -> isolated_with (f :: lk) m0 (folio_get m f) l.
Proof.
  intros (H1 & H2 & H3 & H4 & H5). pose proof (folio_get_spec m f) as (G1 & G2 & G3).
  split; [done|]. split; [done|]. split_and!; intros.
  - by rewrite G1.
  - rewrite G2, H4. simpl. lia.
  - by rewrite G3.
Qed.

Lemma folio_put_isolated lk m0 m l f :
  isolated_with (f :: lk) m0 m l -> isolated_with lk m0 (folio_put m f) l.
Proof.
  intros (H1 & H2 & H3 & H4 & H5). pose proof (folio_put_spec m f) as (G1 & G2 & G3).
  split; [done|]. split; [done|]. split_and!; intros.
  - by rewrite G1.
  - rewrite G2, H4. simpl. lia.
  - by rewrite G3.
Qed.

(** Managing a folio when others are isolated too. *)
Lemma manage_folio_rest lk m0 m l rest folio :
  isolated_with lk m0 m (l ++ rest) ->
  let '(err, m', l') := manage_folio m l folio in
  isolated_with lk m0 m' (l' ++ rest) /\
  ((err = 0 /\ l' = l ++ [folio]) \/ (err = - EAGAIN /\ l' = l)).
Proof.
  intros H.
  assert (isolated_with lk m0 m (rest ++ l)) as H' by (by rewrite Permutation_app_comm).
  pose proof (manage_folio_spec lk m0 m (rest ++ l) folio H') as Hs.
  unfold manage_folio in *.
  destruct (folio_isolate_lru (folio_get m folio) folio) as [[] m1]; simpl in *; destruct Hs as [Hs _].
  - split; [|by left]. by rewrite (Permutation_app_comm _ rest), (assoc_L (++)).
  - split; [|by right]. by rewrite (Permutation_app_comm _ rest).
Qed.
End accounting.

Notation isolated_from := (isolated_with []).
