(* ===== verification/Channel.v ===== *)
(** Channels between the threads of Demeter (mm/demeter/mpsc.h): a ring buffer of
    the kernel with one buffer per CPU.  A channel is the list of its buffers,
    each the list of its messages from the oldest.  The buffers hold 1 MiB, far
    more than the messages in flight: overwriting is not modelled. *)
From S2P Require Import Prelude.
From stdpp Require Import base numbers list gmap.
From Stdlib Require Import ZArith Lia.
Open Scope Z_scope.

Definition MPSC_RETRY : Z := 2.

Section mpsc.
Context {Msg St : Type}.

(** [mpsc_send] from a thread running on [cpu]. *)
Definition mpsc_send (chan : list (list Msg)) (cpu : Z) (x : Msg) : res (list (list Msg)) :=
  q ← aread chan cpu;
  awrite chan cpu (q ++ [x]).

(** [mpsc_recv_cpu] on one CPU's buffer: the oldest message, or -EAGAIN. *)
Definition mpsc_recv_cpu (q : list Msg) : option (Msg * list Msg) :=
  match q with [] => None | x :: q => Some (x, q) end.

(** The inner loop of [mpsc_for_each] over one CPU's buffer.  The body returns
    whether it leaves the loops with [goto].  Producers do not run in between:
    every receipt shortens the buffer and [MPSC_RETRY] failures end the loop. *)
Fixpoint mpsc_drain (fuel : nat) (fail : Z) (body : Msg -> St -> res (bool * St))
    (q : list Msg) (s : St) : res (bool * list Msg * St) :=
  if fail <? MPSC_RETRY then
    match fuel with
    | O => Fault OutOfFuel
    | S fuel =>
        match mpsc_recv_cpu q with
        | None => mpsc_drain fuel (fail + 1) body q s
        | Some (x, q) =>
            '(out, s) ← body x s;
            if (out : bool) then Ok (true, q, s) else mpsc_drain fuel fail body q s
        end
    end
  else Ok (false, q, s).

(** [for_each_online_cpu] around it; [chan] has one buffer per online CPU. *)
Fixpoint mpsc_for_each (body : Msg -> St -> res (bool * St)) (chan : list (list Msg)) (s : St)
    : res (list (list Msg) * St) :=
  match chan with
  | [] => Ok ([], s)
  | q :: chan =>
      '(out, q, s) ← mpsc_drain (length q + Z.to_nat MPSC_RETRY) 0 body q s;
      if (out : bool) then Ok (q :: chan, s)
      else '(chan, s) ← mpsc_for_each body chan s; Ok (q :: chan, s)
  end.
End mpsc.

(** ** Draining a channel *)

Section mpsc_props.
Context {Msg St : Type} (body : Msg -> St -> res (bool * St)).

(** The messages handled one by one until the body leaves the loop. *)
Fixpoint run (l : list Msg) (s : St) : res (bool * list Msg * St) :=
  match l with
  | [] => Ok (false, [], s)
  | x :: l => '(out, s) ← body x s; if (out : bool) then Ok (true, l, s) else run l s
  end.

Lemma mpsc_drain_run fuel fail q s :
  0 <= fail <= MPSC_RETRY -> (length q + Z.to_nat (MPSC_RETRY - fail) <= fuel)%nat ->
  (q <> [] -> fail < MPSC_RETRY) ->
  mpsc_drain fuel fail body q s = run q s.
Proof.
  induction fuel as [|fuel IH] in fail, q, s |- *; intros Hf Hl Hq; unfold MPSC_RETRY in *;
    cbn [mpsc_drain]; destruct (Z.ltb_spec fail MPSC_RETRY) as [H|H]; unfold MPSC_RETRY in *;
    destruct q as [|x q]; cbn [mpsc_recv_cpu run]; simpl in Hl; try lia; try done.
  - rewrite IH; [done|lia|simpl; lia|done].
  - destruct (body x s) as [[[] s']|]; cbn [mbind res_bind]; [done| |done].
    apply IH; [lia|lia|done].
  - exfalso. specialize (Hq ltac:(done)). lia.
Qed.

Lemma run_app a b s :
  run (a ++ b) s = '(out, r, s) ← run a s;
    if (out : bool) then Ok (true, r ++ b, s) else run b s.
Proof.
  induction a as [|x a IH] in s |- *; [done|]. cbn [app run].
  destruct (body x s) as [[[] s']|]; cbn [mbind res_bind]; done.
Qed.

(** Draining all buffers is one run over their concatenation. *)
Lemma mpsc_for_each_run chan s out rest s' :
  run (concat chan) s = Ok (out, rest, s') ->
  exists chan', mpsc_for_each body chan s = Ok (chan', s') /\ concat chan' = rest.
Proof.
  induction chan as [|q chan IH] in s |- *; cbn [concat mpsc_for_each]; intros H.
  { injection H as <- <- <-. by exists []. }
  rewrite run_app in H. rewrite mpsc_drain_run by (unfold MPSC_RETRY; lia).
  assert (forall q s r s', run q s = Ok (false, r, s') -> r = []) as Hnil.
  { clear. induction q as [|x q IHq]; intros s r s'; cbn [run]; [by intros [= <- <-]|].
    destruct (body x s) as [[[] s1]|]; cbn [mbind res_bind]; [done|apply IHq|done]. }
  destruct (run q s) as [[[out1 r1] s1]|] eqn:E; cbn [mbind res_bind] in *; [|done].
  destruct out1.
  - injection H as <- <- <-. exists (r1 :: chan). done.
  - apply Hnil in E as ->. destruct (IH s1 H) as (chan' & -> & Hc). cbn [mbind res_bind].
    exists ([] :: chan'). done.
Qed.

Lemma mpsc_for_each_length chan s chan' s' :
  mpsc_for_each body chan s = Ok (chan', s') -> length chan' = length chan.
Proof.
  induction chan as [|q chan IH] in s, chan', s' |- *; cbn [mpsc_for_each]; [by intros [= <- _]|].
  destruct (mpsc_drain _ _ _ _ _) as [[[[] q1] s1]|]; cbn [mbind res_bind]; [by intros [= <- _]| |done].
  destruct (mpsc_for_each body chan s1) as [[c1 s2]|] eqn:E; cbn [mbind res_bind]; [|done].
  intros [= <- _]. simpl. f_equal. by eapply IH.
Qed.
End mpsc_props.

(** ** Messages in flight, up to their order *)

Section chan_perm.
Context {Msg : Type}.
Implicit Types chan : list (list Msg).

Lemma mpsc_recv_perm chan i x q :
  chan !! i = Some (x :: q) -> concat chan ≡ₚ x :: concat (<[i := q]> chan).
Proof.
  intros H. induction chan as [|q' chan IH] in i, H |- *; [done|]. destruct i as [|i]; simpl in *.
  - by injection H as ->.
  - rewrite (IH i H). by rewrite Permutation_middle.
Qed.

Lemma mpsc_send_spec chan cpu x :
  0 <= cpu < zlen chan ->
  exists chan', mpsc_send chan cpu x = Ok chan' /\ zlen chan' = zlen chan /\
    concat chan' ≡ₚ x :: concat chan.
Proof.
  intros Hc. unfold mpsc_send, zlen in *.
  destruct (lookup_lt_is_Some_2 chan (Z.to_nat cpu)) as [q Hq]; [lia|].
  assert (aread chan cpu = Ok q) as -> by (apply aread_Ok; split; [lia|done]).
  cbn [mbind res_bind]. rewrite awrite_in_bounds by (unfold zlen; lia).
  eexists. split; [reflexivity|]. rewrite length_insert. split; [done|].
  clear Hc. generalize dependent (Z.to_nat cpu). intros i Hi.
  induction chan as [|q' chan IH] in i, Hi |- *; [done|]. destruct i as [|i]; simpl in *.
  - injection Hi as ->. rewrite <- app_assoc. simpl. by rewrite Permutation_middle.
  - rewrite (IH i Hi). by rewrite Permutation_middle.
Qed.

Lemma mpsc_send_last chan cpu x chan' :
  mpsc_send chan cpu x = Ok chan' -> chan' !! Z.to_nat cpu ≫= last = Some x.
Proof.
  unfold mpsc_send. destruct (aread chan cpu) as [q|] eqn:E; cbn [mbind res_bind]; [|done].
  apply aread_Ok in E as [Hc E]. apply lookup_lt_Some in E.
  rewrite awrite_in_bounds by (unfold zlen; lia). intros [= <-].
  rewrite list_lookup_insert_eq by lia. apply last_snoc.
Qed.
End chan_perm.

