(* ===== verification/Migration.v ===== *)
(** The migration thread of Demeter (mm/demeter/core.c): pairs of isolated
    folios are exchanged until one of the two lists of a request is empty, folios
    that cannot be moved are blacklisted for a while, and what was handled is put
    back on the LRU; the remaining folios go back to the policy thread with the
    acknowledgement, which puts them back in [policy_handle_exch_rsps].

    An intrusive kernel list is the list of the folios linked into it, from
    [head->next] on; the blacklist (a flat hash map from u64 to u64) is a finite
    map. *)
From S2P Require Import Prelude Kernel Folio.
From stdpp Require Import base numbers list gmap.
From Stdlib Require Import ZArith Lia.
Open Scope Z_scope.

Definition MIGRATION_BSET_BACKOFF : Z := 128.

(** Local state of [migration_handle_req]. *)
Record migration := Migration {
  promotion : list Z;
  demotion : list Z;
  promotion_done : list Z;
  demotion_done : list Z;
  bset : gmap Z Z;
  success : Z;
  failure : Z;
  blacklist : Z;
}.

(** [CHECK_INSERTED(HashMapU64U64_insert(bset, &e), true, ...)] with the entry
    [{pfn, 0}]: inserting an existing key is a failed check. *)
Definition bset_insert (b : gmap Z Z) (pfn : Z) : res (gmap Z Z) :=
  _ ← check (bool_decide (b !! pfn = None)) AssertFailed;
  Ok (<[pfn := 0]> b).

(** A blacklisted folio: one more refusal, and off the list after the backoff.
    The result is the set and the counter. *)
Definition bset_backoff (b : gmap Z Z) (pfn val blacklist : Z) : gmap Z Z * Z :=
  let val := u64 (val + 1) in
  if MIGRATION_BSET_BACKOFF <? val then (delete pfn b, u64 (blacklist - 1))
  else (<[pfn := val]> b, blacklist).

Section migration.
Context {F : FolioOps}.

(** One iteration, with [folio0] and [folio1] at the heads of the lists. *)
Definition migration_pair (m : mem) (folio0 : Z) (p : list Z) (folio1 : Z) (d : list Z)
    (st : migration) : res (mem * migration) :=
  let '(Migration _ _ pd dd b su fa bl) := st in
  let pfn := folio_pfn folio0 in
  match b !! pfn with
  | Some val =>
      let '(b, bl) := bset_backoff b pfn val bl in
      Ok (m, Migration p (folio1 :: d) (pd ++ [folio0]) dd b su fa bl)
  | None =>
  if negb (folio_test_anon m folio0) then
    b ← bset_insert b pfn;
    Ok (m, Migration p (folio1 :: d) (pd ++ [folio0]) dd b su fa (u64 (bl + 1)))
  else
  let pfn := folio_pfn folio1 in
  match b !! pfn with
  | Some val =>
      let '(b, bl) := bset_backoff b pfn val bl in
      Ok (m, Migration (folio0 :: p) d pd (dd ++ [folio1]) b su fa bl)
  | None =>
  if negb (folio_test_anon m folio1) then
    b ← bset_insert b pfn;
    Ok (m, Migration (folio0 :: p) d pd (dd ++ [folio1]) b su fa (u64 (bl + 1)))
  else
  let '(err, m) := folio_exchange_isolated m folio0 folio1 in
  let fa := if err =? 0 then fa else u64 (fa + 1) in
  if err =? - ENOTSUPP then
    b ← bset_insert b (folio_pfn folio0);
    Ok (m, Migration p (folio1 :: d) (pd ++ [folio0]) dd b su fa (u64 (bl + 1)))
  else if err =? - ENOTSUPP + 1 then
    b ← bset_insert b (folio_pfn folio1);
    Ok (m, Migration (folio0 :: p) d pd (dd ++ [folio1]) b su fa (u64 (bl + 1)))
  else
    let su := if err =? 0 then u64 (su + 1) else su in
    Ok (m, Migration p d (pd ++ [folio0]) (dd ++ [folio1]) b su fa bl)
  end end.

(** [while (!list_empty(p) && !list_empty(d))] *)
Fixpoint migration_loop (fuel : nat) (m : mem) (st : migration) : res (mem * migration) :=
  match promotion st, demotion st with
  | folio0 :: p, folio1 :: d =>
      match fuel with
      | O => Fault OutOfFuel
      | S fuel =>
          '(m, st) ← migration_pair m folio0 p folio1 d st;
          migration_loop fuel m st
      end
  | _, _ => Ok (m, st)
  end.

(** The request's two lists keep what was not handled; an iteration handles at
    least one folio, which bounds the loop. *)
Definition migration_handle_req (m : mem) (p d : list Z) (b : gmap Z Z)
    : res (mem * list Z * list Z * gmap Z Z) :=
  '(m, st) ← migration_loop (length p + length d) m (Migration p d [] [] b 0 0 0);
  let '(m, _) := unmanage_folio m (promotion_done st) in
  let '(m, _) := unmanage_folio m (demotion_done st) in
  Ok (m, promotion st, demotion st, bset st).
End migration.
