(* ===== verification/MigrationProps.v ===== *)
(** Properties of the migration thread: handling a request is total, keeps the
    order of the lists, never trips the blacklist checks, and puts back exactly
    the folios it handled. *)
From S2P Require Import Prelude Kernel Folio Migration.
From stdpp Require Import base numbers list gmap.
From Stdlib Require Import ZArith Lia.
Open Scope Z_scope.

Section migration_props.
Context {F : FolioOps} {FL : FolioLaws F}.

(** ** Handling one request *)

Definition bset_ok (b : gmap Z Z) : Prop :=
  map_Forall (fun _ v => 0 <= v <= MIGRATION_BSET_BACKOFF) b.

Lemma bset_insert_Ok b pfn : b !! pfn = None -> bset_insert b pfn = Ok (<[pfn := 0]> b).
Proof. intros H. unfold bset_insert. by rewrite bool_decide_true. Qed.

Lemma bset_insert_ok b pfn : bset_ok b -> bset_ok (<[pfn := 0]> b).
Proof. intros H. apply map_Forall_insert_2; [by unfold MIGRATION_BSET_BACKOFF|done]. Qed.

Lemma bset_backoff_ok b pfn val bl :
  bset_ok b -> b !! pfn = Some val -> bset_ok (fst (bset_backoff b pfn val bl)).
Proof.
  intros Hb Hv. unfold bset_backoff. pose proof (Hb _ _ Hv) as Hr. simpl in Hr.
  unfold MIGRATION_BSET_BACKOFF in *.
  rewrite (u64_small (val + 1)) by (unfold is_u64; lia).
  destruct (Z.ltb_spec 128 (val + 1)); simpl.
  - by apply map_Forall_delete.
  - apply map_Forall_insert_2; [unfold MIGRATION_BSET_BACKOFF; lia|done].
Qed.

(** What an iteration keeps: the order of each list, the blacklist's bounds and
    the set of isolated folios; what it does: handle at least one folio. *)
Definition pair_ok (m : mem) (st : migration) (m' : mem) (st' : migration) : Prop :=
  promotion_done st' ++ promotion st' = promotion_done st ++ promotion st /\
  demotion_done st' ++ demotion st' = demotion_done st ++ demotion st /\
  (bset_ok (bset st) -> bset_ok (bset st')) /\
  (forall lk m0 l, isolated_with lk m0 m l -> isolated_with lk m0 m' l).

Lemma migration_pair_spec m f0 p f1 d st :
  promotion st = f0 :: p -> demotion st = f1 :: d ->
  exists m' st', migration_pair m f0 p f1 d st = Ok (m', st') /\ pair_ok m st m' st' /\
    (length (promotion st') + length (demotion st') < length (promotion st) + length (demotion st))%nat.
Proof.
  intros Hp Hd. destruct st as [p0 d0 pd dd b su fa bl]. simpl in *. subst p0 d0.
  unfold migration_pair. cbv zeta.
  pose proof (bset_backoff_ok b) as Hback.
  destruct (b !! folio_pfn f0) as [v|] eqn:E0.
  { specialize (Hback (folio_pfn f0) v bl). destruct (bset_backoff b _ v bl) as [b' bl'].
    eexists _, _. split; [reflexivity|]. unfold pair_ok; simpl.
    rewrite <- app_assoc. split; [|lia]. split_and!; auto. }
  destruct (folio_test_anon m f0); simpl.
  2: { rewrite bset_insert_Ok by done. simpl. eexists _, _. split; [reflexivity|].
       unfold pair_ok; simpl. rewrite <- app_assoc. split; [|lia]. split_and!; auto using bset_insert_ok. }
  destruct (b !! folio_pfn f1) as [v|] eqn:E1.
  { specialize (Hback (folio_pfn f1) v bl). destruct (bset_backoff b _ v bl) as [b' bl'].
    eexists _, _. split; [reflexivity|]. unfold pair_ok; simpl.
    rewrite <- app_assoc. split; [|lia]. split_and!; auto. }
  destruct (folio_test_anon m f1); simpl.
  2: { rewrite bset_insert_Ok by done. simpl. eexists _, _. split; [reflexivity|].
       unfold pair_ok; simpl. rewrite <- app_assoc. split; [|lia]. split_and!; auto using bset_insert_ok. }
  pose proof (fun lk m0 l => exchange_isolated_with lk m0 m l f0 f1) as Hex.
  destruct (folio_exchange_isolated m f0 f1) as [err m']. simpl in Hex.
  destruct (err =? - ENOTSUPP); [|destruct (err =? - ENOTSUPP + 1)];
    rewrite ?bset_insert_Ok by done; simpl; eexists _, _; (split; [reflexivity|]);
    unfold pair_ok; simpl; rewrite <- ?app_assoc; (split; [|lia]);
    split_and!; auto using bset_insert_ok.
Qed.

Lemma pair_ok_trans m1 s1 m2 s2 m3 s3 :
  pair_ok m1 s1 m2 s2 -> pair_ok m2 s2 m3 s3 -> pair_ok m1 s1 m3 s3.
Proof.
  intros (A1 & A2 & A3 & A4) (B1 & B2 & B3 & B4). unfold pair_ok.
  split_and!; [congruence|congruence|auto|auto].
Qed.

Lemma migration_loop_spec fuel m st :
  (length (promotion st) + length (demotion st) <= fuel)%nat ->
  exists m' st', migration_loop fuel m st = Ok (m', st') /\ pair_ok m st m' st' /\
    (promotion st' = [] \/ demotion st' = []).
Proof.
  assert (forall m st, pair_ok m st m st) as Hrefl by (intros; unfold pair_ok; auto).
  induction fuel as [|fuel IH] in m, st |- *; intros Hf;
    destruct (promotion st) as [|f0 p] eqn:Hp; destruct (demotion st) as [|f1 d] eqn:Hd;
    simpl in Hf; try lia;
    try (exists m, st; cbn [migration_loop]; rewrite Hp, ?Hd; by auto).
  cbn [migration_loop]. rewrite Hp, Hd.
  destruct (migration_pair_spec m f0 p f1 d st Hp Hd) as (m1 & st1 & -> & H1 & Hlen).
  cbn [mbind res_bind]. rewrite Hp, Hd in Hlen. simpl in Hlen.
  destruct (IH m1 st1) as (m2 & st2 & -> & H2 & Hend); [lia|].
  exists m2, st2. split; [done|]. split; [by eapply pair_ok_trans|done].
Qed.

Lemma migration_handle_req_spec m p d b :
  exists m' p0 p' d0 d' b', migration_handle_req m p d b = Ok (m', p', d', b') /\
    p = p0 ++ p' /\ d = d0 ++ d' /\ (p' = [] \/ d' = []) /\ (bset_ok b -> bset_ok b') /\
    (forall lk m0 rest, isolated_with lk m0 m (p ++ d ++ rest) ->
       isolated_with lk m0 m' (p' ++ d' ++ rest)).
Proof.
  unfold migration_handle_req.
  destruct (migration_loop_spec (length p + length d) m (Migration p d [] [] b 0 0 0))
    as (m1 & st & -> & (Hp & Hd & Hb & Hi) & Hend); [done|].
  cbn [mbind res_bind]. simpl in Hp, Hd, Hb.
  pose proof (fun lk m0 => unmanage_folio_spec lk m0 m1 (promotion_done st)) as Hu1.
  destruct (unmanage_folio m1 (promotion_done st)) as [m2 ?].
  pose proof (fun lk m0 => unmanage_folio_spec lk m0 m2 (demotion_done st)) as Hu2.
  destruct (unmanage_folio m2 (demotion_done st)) as [m3 ?].
  exists m3, (promotion_done st), (promotion st), (demotion_done st), (demotion st), (bset st).
  split; [done|]. split; [done|]. split; [done|]. split; [done|]. split; [done|].
  intros lk m0 rest Hm. apply Hi in Hm.
  assert (isolated_with lk m0 m1 (promotion_done st ++ (demotion_done st ++
            (promotion st ++ demotion st ++ rest)))) as Hm1.
  { eapply isolated_with_perm; [|exact Hm]. rewrite <- Hp, <- Hd. solve_Permutation. }
  apply Hu1 in Hm1 as [Hm1 _]. apply Hu2 in Hm1 as [Hm1 _]. done.
Qed.

(** C3: handling an exchange request always terminates without tripping a
    blacklist check.  It handles a prefix of each list in order until one of
    them is empty, keeps every backoff counter within the limit, and puts the
    handled folios back: of all folios isolated before, exactly the unhandled
    ones are still isolated, whatever the exchanges returned. *)
Theorem migration_handle_req_correct lk m0 m p d b rest :
  bset_ok b -> isolated_with lk m0 m (p ++ d ++ rest) ->
  exists m' p0 p' d0 d' b', migration_handle_req m p d b = Ok (m', p', d', b') /\
    p = p0 ++ p' /\ d = d0 ++ d' /\ (p' = [] \/ d' = []) /\ bset_ok b' /\
    isolated_with lk m0 m' (p' ++ d' ++ rest).
Proof.
  intros Hb Hm.
  destruct (migration_handle_req_spec m p d b)
    as (m' & p0 & p' & d0 & d' & b' & H & Hp & Hd & Hend & Hb' & Hi).
  exists m', p0, p', d0, d', b'. split_and!; auto.
Qed.


(** Several folios managed one by one. *)
Fixpoint manage_all (m : mem) (l cands : list Z) : mem * list Z :=
  match cands with
  | [] => (m, l)
  | f :: cands => let '(_, m, l) := manage_folio m l f in manage_all m l cands
  end.

Lemma manage_all_spec m0 m l rest cands :
  isolated_from m0 m (l ++ rest) ->
  let '(m', l') := manage_all m l cands in isolated_from m0 m' (l' ++ rest).
Proof.
  induction cands as [|f cands IH] in m, l |- *; intros H; simpl; [done|].
  pose proof (manage_folio_rest [] m0 m l rest f H) as Hs.
  destruct (manage_folio m l f) as [[err m1] l1]. destruct Hs as [Hs _]. by apply IH.
Qed.
End migration_props.

(** ** An instance of the folio interface, and witnesses *)

Module ListFolios.
(** LRU membership, references and statistics as functions; folio 7 is not
    anonymous, exchanging with folio 9 fails on its side, other pairs succeed. *)
Record memory := Memory { m_lru : Z -> bool; m_refs : Z -> Z; m_stat : Z -> Z -> Z }.

#[export] Instance F : FolioOps := {|
  mem := memory;
  folio_pfn f := f;
  folio_nid f := f mod 2;
  folio_nr_pages _ := 1;
  folio_is_file_lru _ := 0;
  folio_test_anon _ f := negb (f =? 7);
  on_lru := m_lru;
  refs := m_refs;
  nr_isolated := m_stat;
  folio_get m f := Memory (m_lru m) (fun g => m_refs m g + at_folio f g) (m_stat m);
  folio_put m f := Memory (m_lru m) (fun g => m_refs m g - at_folio f g) (m_stat m);
  folio_isolate_lru m f :=
    (m_lru m f, Memory (fun g => m_lru m g && negb (g =? f))
       (fun g => m_refs m g + (if m_lru m f then at_folio f g else 0)) (m_stat m));
  folio_putback_lru m f :=
    Memory (fun g => m_lru m g || (g =? f)) (fun g => m_refs m g - at_folio f g) (m_stat m);
  node_stat_mod m n k d :=
    Memory (m_lru m) (m_refs m)
      (fun n' k' => m_stat m n' k' + (if (n' =? n) && (k' =? k) then d else 0));
  folio_exchange_isolated m f g := (if g =? 9 then - ENOTSUPP + 1 else 0, m);
|}.

#[export] Instance laws : FolioLaws F.
Proof. split; [intros; simpl; lia|..]; intros; simpl; split_and!; done. Qed.

Definition m : mem := Memory (fun f => (0 <? f) && (f <? 20)) (fun _ => 1) (fun _ _ => 0).

Lemma isolated : isolated_from m (fst (manage_all m [] [7; 8; 9; 10])) [7; 8; 9; 10].
Proof.
  pose proof (manage_all_spec m m [] [] [7; 8; 9; 10]) as H.
  destruct (manage_all m [] [7; 8; 9; 10]) as [m' l] eqn:E. simpl.
  assert (l = [7; 8; 9; 10]) as -> by (by injection E as _ <-).
  apply H. by apply isolated_from_nil.
Qed.
End ListFolios.

#[local] Existing Instances ListFolios.F ListFolios.laws.

Lemma migration_handle_req_correct_witness :
  exists m' p' d' b',
    migration_handle_req (fst (manage_all ListFolios.m [] [7; 8; 9; 10])) [7; 8] [9; 10] ∅ =
      Ok (m', p', d', b') /\
    (p' = [] \/ d' = []) /\ isolated_from ListFolios.m m' (p' ++ d' ++ []).
Proof.
  destruct (migration_handle_req_correct [] ListFolios.m
              (fst (manage_all ListFolios.m [] [7; 8; 9; 10])) [7; 8] [9; 10] ∅ [])
    as (m' & p0 & p' & d0 & d' & b' & H & _ & _ & He & _ & Hi).
  - apply map_Forall_empty.
  - apply ListFolios.isolated.
  - exists m', p', d', b'. split; [exact H|]. split; [exact He|exact Hi].
Defined.

