(* ===== verification/Policy.v ===== *)
(** The policy thread of Demeter (mm/demeter/core.c, mm/demeter/range_tree.h):
    accounting of access samples, ranking the ranges, and choosing and isolating the folios of an exchange request.

    Outside code is a parameter: the memory areas of the process and what
    [follow_page] finds at an address, [sort_r] of lib/sort.c, the results of
    [kmem_cache_alloc] and the pages available on a node. *)
From S2P Require Import Prelude Kernel RangeTree Folio Channel.
From stdpp Require Import base numbers list gmap.
From Stdlib Require Import ZArith Lia.
Open Scope Z_scope.

Definition MPSC_MAX_BATCH : Z := 16384.

(** ** Samples *)

Record perf_sample := PerfSample { sm_pid : Z; sm_addr : Z }.

(** The fields of [struct mm_struct] the policy reads. *)
Record mm_struct := MmStruct {
  mmap_legacy_base : Z; mmap_base : Z;
  start_code : Z; end_data : Z; start_brk : Z }.

Section samples.
Context {M : MapleTree} {K : Kmalloc}.

Definition policy_handle_sample_one (pid : Z) (mm : mm_struct) (s : perf_sample)
    (rt : rt_state M) : res (Z * rt_state M) :=
  let vaddr := sm_addr s in
  if vaddr =? 0 then Ok (PEBS_DISCARDED_NULL, rt)
  else if negb (sm_pid s =? pid) then Ok (PEBS_DISCARDED_PID, rt)
  else if negb ((mmap_legacy_base mm <=? vaddr) && (vaddr <? mmap_base mm))
  then Ok (PEBS_DISCARDED_IGNORE, rt)
  else if (start_code mm <=? vaddr) && (vaddr <? Z.max (end_data mm) (start_brk mm))
  then Ok (PEBS_DISCARDED_IGNORE, rt)
  else
    '(v, rt) ← rt_count rt vaddr;
    match TRY false v with
    | inl err => Ok (err, rt)
    | inr _ => Ok (0, rt)
    end.

(** Counters: samples received, and discarded by reason. *)
Record counts := Counts { rcv : Z; dis : list Z }.

Definition sample_body (pid : Z) (mm : mm_struct) (s : perf_sample)
    (st : counts * rt_state M) : res (bool * (counts * rt_state M)) :=
  let '(c, rt) := st in
  '(err, rt) ← policy_handle_sample_one pid mm s rt;
  c ← (if err =? 0 then Ok (Counts (rcv c + 1) (dis c))
       else n ← aread (dis c) (Z.max err 0);
            d ← awrite (dis c) (Z.max err 0) (n + 1);
            Ok (Counts (rcv c) d));
  d0 ← aread (dis c) 0;
  Ok (MPSC_MAX_BATCH <? rcv c + d0, (c, rt)).

Definition policy_handle_samples (pid : Z) (mm : mm_struct) (samplech : list (list perf_sample))
    (rt : rt_state M) : res (list (list perf_sample) * counts * rt_state M) :=
  let c := Counts 0 (replicate (Z.to_nat (PEBS_DISCARDED_IGNORE + 1)) 0) in
  '(ch, (c, rt)) ← mpsc_for_each (sample_body pid mm) samplech (c, rt);
  Ok (ch, c, rt).
End samples.

(** ** Ranking and isolation *)

(** [sort_r] of lib/sort.c, with the comparison of the caller. *)
Class Sort := { sort_r : (Z -> Z -> Z) -> list Z -> list Z }.

Class SortLaws (S : Sort) : Prop := {
  sort_r_perm cmp l : sort_r cmp l ≡ₚ l;
}.

Definition NUMA_NO_NODE : Z := -1.
Definition PAGE_SIZE : Z := 4096.

Record vm_area_struct := Vma { vm_start : Z; vm_end : Z }.

(** An upper bound on the pages of the address space. *)
Definition area_pages (vs : list vm_area_struct) : Z :=
  foldr (fun v n => (vm_end v - vm_start v) `max` 0 / PAGE_SIZE + 1 + n) 0 vs.

Section policy.
Context {M : MapleTree} {K : Kmalloc} {F : FolioOps} {SR : Sort}.
(** The areas of the address space in order, the folio mapped at an address of an
    area, and the two nodes. *)
Context (vmas : list vm_area_struct) (follow_page : vm_area_struct -> Z -> option Z).
Context (FMEM_NID SMEM_NID : Z).

(** [vma_for_each]: the areas [vma_find] yields, those that meet the range. *)
Definition vma_for_each (a b : Z) : list vm_area_struct :=
  List.filter (fun v => (a <? vm_end v) && (vm_start v <? b)) vmas.

(** The address loop of [folio_for_each]: past a hole by a page, past a folio by
    its size.  Addresses are far below 2^64. *)
Fixpoint folio_addrs (fuel : nat) (v : vm_area_struct) (addr e : Z) : list Z :=
  if addr <? e then
    match fuel with
    | O => []
    | S fuel =>
        match follow_page v addr with
        | None => folio_addrs fuel v (addr + PAGE_SIZE) e
        | Some folio => folio :: folio_addrs fuel v (addr + folio_nr_pages folio * PAGE_SIZE) e
        end
    end
  else [].

(** The folios the loop visits in one area; every step is at least a page. *)
Definition folio_for_each (v : vm_area_struct) (a b : Z) : list Z :=
  let addr := Z.max a (vm_start v) in
  let e := Z.min b (vm_end v) in
  folio_addrs (Z.to_nat ((e - addr) / PAGE_SIZE + 1)) v addr e.

(** Both loops: the folios visited in a range.  The bodies change LRU membership
    and reference counts but no page table. *)
Definition walk (a b : Z) : list Z := v ← vma_for_each a b; folio_for_each v a b.

(** The folio loop of [rt_rank] for one range; the reference to the folio is taken
    and dropped around the body. *)
Definition rank_range (m : mem) (r : mrange) : mrange :=
  fold_left (fun r folio =>
    let nid := if folio_test_anon m folio then folio_nid folio else NUMA_NO_NODE in
    Mrange (start r) (end_ r) (age r) (nr_access r)
      (u64 (in_fmem r + (if nid =? FMEM_NID then 1 else 0)))
      (u64 (in_smem r + (if nid =? SMEM_NID then 1 else 0))))
    (walk (start r) (end_ r)) r.

(** The cooling loop: the number of ranges to consider. *)
Fixpoint rank_cool (n : nat) (i : Z) (s : rt_state M) (out : list Z) (len0 : Z) : res Z :=
  match n with
  | O => Ok len0
  | S n =>
      p ← aread out (len (rt s) - 1 - i);
      r ← deref s p;
      if rt_should_cool (rt s) r then rank_cool n (i + 1) s out len0
      else Ok (len (rt s) - i)
  end.

(** Two ranges compared by address, for [sort_r]; the array holds valid ranges. *)
Definition cmp_at (s : rt_state M) (a b : Z) : Z :=
  match heap s !! a, heap s !! b with
  | Some ra, Some rb => rt_rank_cmp ra rb
  | _, _ => 0
  end.

(** [out] is the array of [RTREE_MAX_SIZE] pointers; the first [len] entries are
    sorted. *)
Definition rt_rank (m : mem) (s : rt_state M) (out : list Z) (len0 : Z)
    : res (rt_state M * list Z * Z) :=
  '(s, out, _) ← mt_for_each (tree (rt s))
    (fun p '(s, out, i) =>
       out ← awrite out i p;
       r ← deref s p;
       Ok (RtState (rt s) (<[p := rank_range m r]> (heap s)), out, i + 1)) (s, out, 0);
  let n := Z.to_nat (len (rt s)) in
  let out := sort_r (cmp_at s) (take n out) ++ drop n out in
  l ← rank_cool n 0 s out len0;
  Ok (s, out, l).

(** [rt_isolate]: the walk holds a reference to the folio it visits, dropped
    when it moves on and not on the early return.  The count is an [int]: a range
    has fewer than 2^31 folios. *)
Fixpoint isolate_walk (m : mem) (folios : list Z) (nid need success : Z) (l : list Z)
    : mem * list Z * Z :=
  match folios with
  | [] => (m, l, success)
  | folio :: folios =>
      let m := folio_get m folio in
      if negb (folio_nid folio =? nid) then
        isolate_walk (folio_put m folio) folios nid need success l
      else
        let '(err, m, l) := manage_folio m l folio in
        let success := success + (if err =? 0 then 1 else 0) in
        if need <=? success then (m, l, success)
        else isolate_walk (folio_put m folio) folios nid need success l
  end.

Definition rt_isolate (m : mem) (r : mrange) (nid need : Z) (l : list Z) : mem * list Z * Z :=
  isolate_walk m (walk (start r) (end_ r)) nid need 0 l.

(** The thresholds: ranges [0, s) belong in slow memory, [f, rlen) in fast. *)
Definition thresholds (s : rt_state M) (mrs : list Z) (rlen fmem_cap smem_cap : Z)
    : res (Z * Z) :=
  '(sp, f, _, _) ←
    for_range 0 rlen (fun i '(sp, f, fmem, smem) =>
      pp ← aread mrs i; p ← deref s pp;
      qp ← aread mrs (rlen - 1 - i); q ← deref s qp;
      let smem := u64 (smem + u64 (in_smem p + in_smem p)) in
      let sp := if smem <? smem_cap then sp + 1 else sp in
      let fmem := u64 (fmem + u64 (in_smem q + in_smem q)) in
      let f := if (fmem <? fmem_cap) && (0 <? nr_access q) then f - 1 else f in
      Ok (sp, f, fmem, smem)) (0, rlen, 0, 0);
  Ok (sp, f).

(** [for (ulong i = rlen - 1; i >= f; --i)]: the index wraps around below 0. *)
Fixpoint promote_loop (fuel : nat) (s : rt_state M) (mrs : list Z) (i f : Z)
    (m : mem) (promo : list Z) (candidates : Z) : res (mem * list Z * Z) :=
  if f <=? i then
    match fuel with
    | O => Fault OutOfFuel
    | S fuel =>
        p ← aread mrs i; r ← deref s p;
        let '(m, promo, got) := rt_isolate m r SMEM_NID ULONG_MAX promo in
        promote_loop fuel s mrs (u64 (i - 1)) f m promo (u64 (candidates + got))
    end
  else Ok (m, promo, candidates).

(** [for (ulong i = 0; matched < candidates && i < f; i++)] *)
Fixpoint demote_loop (n : nat) (s : rt_state M) (mrs : list Z) (i f : Z)
    (m : mem) (demo : list Z) (candidates matched : Z) : res (mem * list Z * Z) :=
  match n with
  | O => Ok (m, demo, matched)
  | S n =>
      if (matched <? candidates) && (i <? f) then
        p ← aread mrs i; r ← deref s p;
        let '(m, demo, got) := rt_isolate m r FMEM_NID (candidates - matched) demo in
        demote_loop n s mrs (i + 1) f m demo candidates (matched + got)
      else Ok (m, demo, matched)
  end.

Definition show_all (s : rt_state M) (mrs : list Z) : res unit :=
  for_range 0 (len (rt s)) (fun i _ => p ← aread mrs i; r ← deref s p; mrange_show r) tt.

(** [promo_head] and [demo_head] are what the two calls of [kmem_cache_alloc] for the
    list heads return.  The result is the return value, the state and, when a
    request is sent, its promotion and demotion lists.  The fuel of the promotion
    loop exceeds the number of ranges: the loop ends or leaves the array before. *)
Definition policy_send_exch_reqs (rtree_exch_thresh fmem_cap smem_cap promo_head demo_head : Z)
    (s : rt_state M) (mrs : list Z) (m : mem)
    : res (Z * rt_state M * list Z * mem * option (list Z * list Z)) :=
  if rtree_exch_thresh <? min_range (rt s) then Ok (- EAGAIN, s, mrs, m, None) else
  match TRY true promo_head with
  | inl err => Ok (err, s, mrs, m, None)
  | inr _ =>
  match TRY true demo_head with
  | inl err => Ok (err, s, mrs, m, None)
  | inr _ =>
  '(s, mrs, rlen) ← rt_rank m s mrs (len (rt s));
  '(sp, f) ← thresholds s mrs rlen fmem_cap smem_cap;
  _ ← show_all s mrs;
  '(m, promo, candidates) ←
    promote_loop (S (length mrs)) s mrs (u64 (rlen - 1)) f m [] 0;
  '(m, demo, matched) ← demote_loop (Z.to_nat f) s mrs 0 f m [] candidates 0;
  Ok (0, s, mrs, m, Some (promo, demo))
  end end.
End policy.
