(* ===== verification/PolicyProps.v ===== *)
(** Properties of the policy thread: draining channels, exact accounting of
    samples, isolation of folios with its reference counts, and the exchange
    requests, including the index that leaves the array when every range belongs
    in fast memory. *)
From S2P Require Import Prelude Kernel RangeTree RangeTreeProofs RangeTreeProps.
From S2P Require Import Folio Channel Migration MigrationProps Policy.
From stdpp Require Import base numbers list gmap sorting.
From Stdlib Require Import ZArith Lia.
Open Scope Z_scope.

(** ** Samples *)

(** Why a sample is discarded before the tree is looked at; 0 if it is not. *)
Definition verdict (pid : Z) (mm : mm_struct) (s : perf_sample) : Z :=
  if sm_addr s =? 0 then PEBS_DISCARDED_NULL
  else if negb (sm_pid s =? pid) then PEBS_DISCARDED_PID
  else if negb ((mmap_legacy_base mm <=? sm_addr s) && (sm_addr s <? mmap_base mm))
  then PEBS_DISCARDED_IGNORE
  else if (start_code mm <=? sm_addr s) && (sm_addr s <? Z.max (end_data mm) (start_brk mm))
  then PEBS_DISCARDED_IGNORE
  else 0.

Definition count_addr (addr : Z) (rs : list mrange) : list mrange :=
  (fun r => if (start r <=? addr) && (addr <? end_ r)
            then set_nr_access (u64 (nr_access r + 1)) r else r) <$> rs.

(** The effect of one sample on the ranges. *)
Definition count_one (pid : Z) (mm : mm_struct) (rs : list mrange) (s : perf_sample) : list mrange :=
  if verdict pid mm s =? 0 then count_addr (sm_addr s) rs else rs.

Definition nr_verdict (pid : Z) (mm : mm_struct) (k : Z) (l : list perf_sample) : Z :=
  zlen (List.filter (fun s => verdict pid mm s =? k) l).

Section samples.
Context {M : MapleTree} {ML : MapleLaws M}.
Context {K : Kmalloc} {KL : KmallocLaws K}.
Implicit Types s : rt_state M.

(** Ranges of a tree do not overlap. *)
Lemma rt_repr_disjoint s rs i j r r' a :
  rt_repr s rs -> rs !! i = Some r -> rs !! j = Some r' -> covers r a -> covers r' a -> i = j.
Proof.
  intros [(HF & _ & _) _] Hi Hj Hr Hr'.
  destruct (Forall2_lookup_r _ _ _ _ _ HF Hi) as (e & He & _ & E1 & E2 & _).
  destruct (Forall2_lookup_r _ _ _ _ _ HF Hj) as (e' & He' & _ & E1' & E2' & _).
  pose proof (mt_sorted (tree (rt s))) as [Hs _].
  unfold covers in *. destruct (Nat.lt_trichotomy i j) as [H|[H|H]]; [|done|]; exfalso.
  - pose proof (proj1 (StronglySorted_lookup _ _) Hs _ _ _ _ H He He') as Hb. unfold ent_before in Hb. lia.
  - pose proof (proj1 (StronglySorted_lookup _ _) Hs _ _ _ _ H He' He) as Hb. unfold ent_before in Hb. lia.
Qed.

Lemma rt_count_addr s rs addr :
  rt_repr s rs ->
  exists v s', rt_count s addr = Ok (v, s') /\ rt_repr s' (count_addr addr rs) /\
    (v = 0 \/ v = PEBS_DISCARDED_ERROR) /\ (v = 0 <-> covered rs addr).
Proof.
  intros Hr. destruct (decide (Exists (fun r => start r <= addr < end_ r) rs)) as [Hex|Hno].
  - apply Exists_exists in Hex as (r & Hin & Hc). pose proof Hin as (i & Hi)%list_elem_of_lookup.
    destruct (rt_count_hit_spec s rs i r addr Hr Hi Hc) as (s' & Hs & _ & Hr').
    exists 0, s'. split; [done|]. split; [|split; [by left|split; [by exists r|done]]].
    assert (count_addr addr rs = <[i := set_nr_access (u64 (nr_access r + 1)) r]> rs) as ->; [|done].
    apply list_eq. intros j. unfold count_addr. rewrite list_lookup_fmap.
    destruct (decide (i = j)) as [<-|Hij].
    + rewrite list_lookup_insert_eq by (by eapply lookup_lt_Some). rewrite Hi. simpl.
      rewrite (proj2 (Z.leb_le _ _)), (proj2 (Z.ltb_lt _ _)) by lia. done.
    + rewrite list_lookup_insert_ne by done. destruct (rs !! j) as [r'|] eqn:Hj; [|done]. simpl.
      destruct (Z.leb_spec (start r') addr), (Z.ltb_spec addr (end_ r')); simpl; try done.
      exfalso. apply Hij. apply (rt_repr_disjoint s rs i j r r' addr Hr Hi Hj Hc). by split.
  - assert (~ covered rs addr) as Hnc.
    { intros (x & Hx & Hc). apply Hno, Exists_exists. eauto. }
    exists PEBS_DISCARDED_ERROR, s. split; [by apply (rt_count_miss_spec s rs)|].
    split; [|split; [by right|split; [done|by intros]]].
    assert (count_addr addr rs = rs) as ->; [|done].
    unfold count_addr. rewrite <- (list_fmap_id rs) at 2. apply list_fmap_ext.
    intros i r Hi. destruct (Z.leb_spec (start r) addr), (Z.ltb_spec addr (end_ r)); simpl; try done.
    exfalso. apply Hnc. exists r. split; [by eapply list_elem_of_lookup_2|by split].
Qed.

(** A sample that passes the filters is reported as received whether or not a
    range contains it: the code [rt_count] returns for a miss is not an error
    for [TRY]. *)
Lemma sample_one_spec pid mm x s rs :
  rt_repr s rs ->
  exists s', policy_handle_sample_one pid mm x s = Ok (verdict pid mm x, s') /\
    rt_repr s' (count_one pid mm rs x).
Proof.
  intros Hr. unfold policy_handle_sample_one, count_one, verdict.
  destruct (sm_addr x =? 0); [by exists s|].
  destruct (negb (sm_pid x =? pid)); [by exists s|].
  destruct (negb _); [by exists s|].
  destruct (_ && _); [by exists s|].
  destruct (rt_count_addr s rs (sm_addr x) Hr) as (v & s' & -> & Hr' & Hv & _).
  cbn [mbind res_bind]. exists s'. split; [|done].
  by destruct Hv as [-> | ->].
Qed.

Lemma verdict_cases pid mm x :
  verdict pid mm x = 0 \/ verdict pid mm x = 1 \/ verdict pid mm x = 2 \/ verdict pid mm x = 4.
Proof. unfold verdict. repeat case_match; auto. Qed.

Lemma nr_verdict_cons pid mm k x l :
  nr_verdict pid mm k (x :: l) = (if verdict pid mm x =? k then 1 else 0) + nr_verdict pid mm k l.
Proof. unfold nr_verdict. simpl. case_match; autorewrite with zlen; lia. Qed.

(** Counters of the samples of [l], on top of [n] received. *)
Definition counts_of (pid : Z) (mm : mm_struct) (n a1 a2 a3 a4 : Z) (l : list perf_sample) : counts :=
  Counts (n + nr_verdict pid mm 0 l)
    [0; a1 + nr_verdict pid mm 1 l; a2 + nr_verdict pid mm 2 l; a3; a4 + nr_verdict pid mm 4 l].

Lemma sample_body_spec pid mm x n a1 a2 a3 a4 s rs :
  rt_repr s rs ->
  exists s', sample_body pid mm x (Counts n [0; a1; a2; a3; a4], s) =
      Ok (MPSC_MAX_BATCH <? rcv (counts_of pid mm n a1 a2 a3 a4 [x]),
          (counts_of pid mm n a1 a2 a3 a4 [x], s')) /\
    rt_repr s' (count_one pid mm rs x).
Proof.
  intros Hr. destruct (sample_one_spec pid mm x s rs Hr) as (s' & Hs & Hr').
  exists s'. split; [|done]. unfold sample_body. rewrite Hs. cbn [mbind res_bind].
  unfold counts_of. rewrite !nr_verdict_cons.
  destruct (verdict_cases pid mm x) as [->|[->|[->| ->]]];
    unfold nr_verdict; simpl; rewrite ?Z.add_0_r; done.
Qed.

(** The run over a list of samples: a prefix is consumed, until the batch is
    full. *)
Lemma samples_run pid mm l n a1 a2 a3 a4 s rs :
  rt_repr s rs -> n <= MPSC_MAX_BATCH ->
  exists out used rest s',
    run (sample_body pid mm) l (Counts n [0; a1; a2; a3; a4], s) =
      Ok (out, rest, (counts_of pid mm n a1 a2 a3 a4 used, s')) /\
    l = used ++ rest /\ rt_repr s' (foldl (count_one pid mm) rs used) /\
    n + nr_verdict pid mm 0 used <= MPSC_MAX_BATCH + 1 /\
    (rest = [] \/ n + nr_verdict pid mm 0 used = MPSC_MAX_BATCH + 1).
Proof.
  induction l as [|x l IH] in n, a1, a2, a4, s, rs |- *; intros Hr Hn; cbn [run].
  { exists false, [], [], s. unfold counts_of, nr_verdict. simpl. rewrite ?Z.add_0_r.
    unfold zlen. simpl. split_and!; try done; try lia. by left. }
  destruct (sample_body_spec pid mm x n a1 a2 a3 a4 s rs Hr) as (s1 & -> & Hr1).
  cbn [mbind res_bind].
  assert (nr_verdict pid mm 0 [x] <= 1) as H1.
  { rewrite nr_verdict_cons. change (nr_verdict pid mm 0 []) with 0. case_match; lia. }
  destruct (Z.ltb_spec MPSC_MAX_BATCH (rcv (counts_of pid mm n a1 a2 a3 a4 [x]))) as [Hb|Hb];
    simpl in Hb.
  - exists true, [x], l, s1. split_and!; [done..|lia|]. right. lia.
  - destruct (IH (n + nr_verdict pid mm 0 [x]) (a1 + nr_verdict pid mm 1 [x])
                 (a2 + nr_verdict pid mm 2 [x]) (a4 + nr_verdict pid mm 4 [x]) s1 _ Hr1 Hb)
      as (out & used & rest & s2 & E & -> & Hr2 & Hle & Hend).
    exists out, (x :: used), rest, s2.
    assert (forall k, nr_verdict pid mm k (x :: used) =
              nr_verdict pid mm k [x] + nr_verdict pid mm k used) as Hadd.
    { intros k. rewrite !nr_verdict_cons. change (nr_verdict pid mm k []) with 0. lia. }
    split; [|split; [done|split; [done|rewrite !Hadd; split; [lia|]; destruct Hend; [by left|right; lia]]]].
    unfold counts_of in *. rewrite !Hadd, !Z.add_assoc. exact E.
Qed.

(** Counting keeps the shape of the ranges. *)
Lemma count_one_shape pid mm rs l :
  (fun r => (start r, end_ r)) <$> foldl (count_one pid mm) rs l = (fun r => (start r, end_ r)) <$> rs.
Proof.
  induction l as [|x l IH] in rs |- *; [done|]. simpl. rewrite IH. unfold count_one, count_addr.
  case_match; [|done]. rewrite <- list_fmap_compose. apply list_fmap_ext.
  intros i r _. simpl. by case_match.
Qed.

Lemma same_shape_covered rs rs' a :
  (fun r => (start r, end_ r)) <$> rs' = (fun r => (start r, end_ r)) <$> rs ->
  covered rs' a -> covered rs a.
Proof.
  intros H (r & Hr & Hc).
  assert ((start r, end_ r) ∈ (fun r => (start r, end_ r)) <$> rs) as Hin
    by (rewrite <- H; apply list_elem_of_fmap; by exists r).
  apply list_elem_of_fmap in Hin as (r' & [= E1 E2] & Hr'). exists r'.
  split; [done|]. unfold covers in *. lia.
Qed.

(** What the other threads rely on. *)
Lemma policy_handle_samples_keeps pid mm chan s rs :
  rt_repr s rs ->
  exists chan' c s' rs', policy_handle_samples pid mm chan s = Ok (chan', c, s') /\
    rt_repr s' rs' /\ zlen rs' = zlen rs /\ (forall a, covered rs' a <-> covered rs a).
Proof.
  intros Hr. unfold policy_handle_samples.
  destruct (samples_run pid mm (concat chan) 0 0 0 0 0 s rs Hr)
    as (out & used & rest & s' & Hrun & _ & Hr' & _); [done|].
  destruct (mpsc_for_each_run _ _ _ _ _ _ Hrun) as (chan' & Hm & _).
  eexists chan', _, s', _. split; [|split; [exact Hr'|split]].
  - change (replicate (Z.to_nat (PEBS_DISCARDED_IGNORE + 1)) 0) with [0; 0; 0; 0; 0].
    by rewrite Hm.
  - pose proof (f_equal length (count_one_shape pid mm rs used)) as Hl.
    rewrite !length_fmap in Hl. unfold zlen. by rewrite Hl.
  - intros a. split; apply same_shape_covered; [|symmetry]; apply count_one_shape.
Qed.

(** C6: sample accounting is exact.  Draining the sample channel consumes a
    prefix of the samples in order, all of them or until one more than
    [MPSC_MAX_BATCH] was received; every consumed sample is counted in exactly
    one class, received or discarded by reason; and the access counts of the
    ranges change by exactly the received samples that fall in them.  (A sample
    outside every range is received all the same: class 3 stays empty.) *)
Theorem policy_samples_accounting pid mm chan s rs :
  rt_repr s rs ->
  exists used chan' s',
    policy_handle_samples pid mm chan s =
      Ok (chan', Counts (nr_verdict pid mm 0 used)
                   [0; nr_verdict pid mm 1 used; nr_verdict pid mm 2 used; 0;
                    nr_verdict pid mm 4 used], s') /\
    concat chan = used ++ concat chan' /\
    rt_repr s' (foldl (count_one pid mm) rs used) /\
    zlen used = nr_verdict pid mm 0 used + nr_verdict pid mm 1 used +
                nr_verdict pid mm 2 used + nr_verdict pid mm 4 used /\
    (concat chan' = [] \/ nr_verdict pid mm 0 used = MPSC_MAX_BATCH + 1).
Proof.
  intros Hr. unfold policy_handle_samples.
  destruct (samples_run pid mm (concat chan) 0 0 0 0 0 s rs Hr)
    as (out & used & rest & s' & Hrun & Hl & Hr' & _ & Hend); [done|].
  destruct (mpsc_for_each_run _ _ _ _ _ _ Hrun) as (chan' & Hm & Hc).
  exists used, chan', s'. split; [|split; [by rewrite Hc|split; [done|split]]].
  - change (replicate (Z.to_nat (PEBS_DISCARDED_IGNORE + 1)) 0) with [0; 0; 0; 0; 0].
    rewrite Hm. done.
  - clear. induction used as [|x l IH]; [done|]. rewrite !nr_verdict_cons, zlen_cons.
    destruct (verdict_cases pid mm x) as [->|[->|[->| ->]]]; simpl; lia.
  - rewrite Hc. destruct Hend as [->|Hend]; [by left|by right].
Qed.

(** a sample of the traced process inside the mapped regions that no range
    contains is reported as received: [rt_count] signals the miss with a
    positive code, which the error macro lets through. *)
Theorem policy_sample_miss_received pid mm x s rs :
  rt_repr s rs -> verdict pid mm x = 0 -> ~ covered rs (sm_addr x) ->
  rt_count s (sm_addr x) = Ok (PEBS_DISCARDED_ERROR, s) /\
  policy_handle_sample_one pid mm x s = Ok (0, s).
Proof.
  intros Hr Hv Hc. split; [by apply (rt_count_miss_spec s rs)|].
  revert Hv. unfold verdict, policy_handle_sample_one.
  repeat (case_match; [discriminate|]). intros _.
  rewrite (rt_count_miss_spec s rs _ Hr Hc). done.
Qed.
End samples.

(** ** Isolation *)

Section isolation.
Context {F : FolioOps} {FL : FolioLaws F}.

(** What a walk that isolates folios of node [nid] does: [added] is appended to
    the list, and the reference of the walk is left on the folio it stopped at. *)
Definition isolates (lk : list Z) (m0 : mem) (nid need : Z) (rest l : list Z)
    (result : mem * list Z * Z) (success : Z) : Prop :=
  let '(m', l', got) := result in
  exists added leak, l' = l ++ added /\ got = success + zlen added /\
    Forall (fun f => folio_nid f = nid) added /\
    isolated_with (leak ++ lk) m0 m' (l' ++ rest) /\
    ((leak = [] /\ got < need) \/ (exists f, leak = [f] /\ last added = Some f /\ got = need)).

Lemma isolate_walk_spec lk m0 m folios nid need success l rest :
  isolated_with lk m0 m (l ++ rest) -> success < need ->
  isolates lk m0 nid need rest l (isolate_walk m folios nid need success l) success /\
  snd (isolate_walk m folios nid need success l) <= success + zlen folios.
Proof.
  induction folios as [|f folios IH] in m, success, l |- *; intros Hm Hs; cbn [isolate_walk].
  { split; [|cbn [snd]; unfold zlen; simpl; lia]. exists [], []. rewrite app_nil_r, zlen_nil.
    split_and!; [done|lia|constructor|done|left; by split]. }
  apply (folio_get_isolated _ _ _ _ f) in Hm. rewrite zlen_cons.
  destruct (Z.eqb_spec (folio_nid f) nid) as [Hn|Hn]; cbn [negb].
  2: { apply folio_put_isolated in Hm. destruct (IH _ _ _ Hm Hs) as [H1 H2]. split; [done|lia]. }
  pose proof (manage_folio_rest _ _ _ _ _ f Hm) as Hman.
  destruct (manage_folio (folio_get m f) l f) as [[err m1] l1].
  destruct Hman as [Hm1 [[-> ->]|[-> ->]]]; cbn [Z.eqb].
  - destruct (Z.leb_spec need (success + 1)).
    + split; [|cbn [snd]; pose proof (zlen_nonneg folios); lia]. exists [f], [f].
      split_and!; [done|by unfold zlen|by apply Forall_singleton|done|right; exists f; split_and!; [done|done|lia]].
    + apply folio_put_isolated in Hm1. destruct (IH _ (success + 1) _ Hm1) as [H1 H2]; [lia|].
      split; [|lia]. destruct (isolate_walk _ folios nid need (success + 1) (l ++ [f])) as [[m2 l2] got].
      destruct H1 as (added & leak & -> & -> & Hf & Hi & He).
      exists (f :: added), leak. rewrite <- !app_assoc in *. rewrite zlen_cons. simpl.
      split_and!; [done|lia|by constructor|done|].
      destruct He as [[-> ?]|(g & -> & Hg & ?)]; [left; split; [done|lia]|right; exists g].
      split_and!; [done|by rewrite last_cons, Hg|lia].
  - rewrite Z.add_0_r. destruct (Z.leb_spec need success); [lia|].
    apply folio_put_isolated in Hm1. destruct (IH _ success _ Hm1) as [H1 H2]; [lia|]. split; [done|lia].
Qed.
End isolation.

(** ** Ranking *)

Section requests.
Context {M : MapleTree} {ML : MapleLaws M}.
Context {K : Kmalloc} {KL : KmallocLaws K}.
Context {F : FolioOps} {FL : FolioLaws F} {SR : Sort} {SL : SortLaws SR}.
Context (vmas : list vm_area_struct) (follow_page : vm_area_struct -> Z -> option Z).
Context (FMEM_NID SMEM_NID : Z).
Implicit Types s : rt_state M.

Notation walk := (walk vmas follow_page).
Notation rank_range := (rank_range vmas follow_page FMEM_NID SMEM_NID).
Notation rt_rank := (rt_rank vmas follow_page FMEM_NID SMEM_NID).
Notation promote_loop := (promote_loop vmas follow_page SMEM_NID).
Notation demote_loop := (demote_loop vmas follow_page FMEM_NID).
Notation policy_send_exch_reqs := (policy_send_exch_reqs vmas follow_page FMEM_NID SMEM_NID).

(** *** The walk over a range *)

(** The fuel of the address loop is enough: more makes no difference. *)
Lemma folio_addrs_enough fuel1 fuel2 v addr e :
  e - addr <= Z.of_nat fuel1 * PAGE_SIZE -> e - addr <= Z.of_nat fuel2 * PAGE_SIZE ->
  folio_addrs follow_page fuel1 v addr e = folio_addrs follow_page fuel2 v addr e.
Proof.
  unfold PAGE_SIZE. induction fuel1 as [|fuel1 IH] in fuel2, addr |- *; intros H1 H2.
  { destruct fuel2; cbn [folio_addrs]; destruct (Z.ltb_spec addr e); lia || done. }
  destruct fuel2 as [|fuel2]; cbn [folio_addrs]; destruct (Z.ltb_spec addr e);
    [lia|done| |done].
  destruct (follow_page v addr) as [f|]; unfold PAGE_SIZE; [|apply IH; lia].
  pose proof (folio_nr_pages_pos f). f_equal. apply IH; lia.
Qed.

(** Unfolding of the loop of [folio_for_each]. *)
Lemma folio_for_each_fuel fuel v a b :
  Z.min b (vm_end v) - Z.max a (vm_start v) <= Z.of_nat fuel * PAGE_SIZE ->
  folio_for_each follow_page v a b =
    folio_addrs follow_page fuel v (Z.max a (vm_start v)) (Z.min b (vm_end v)).
Proof.
  intros H. apply folio_addrs_enough; [|done]. unfold PAGE_SIZE.
  pose proof (Z.div_mod (Z.min b (vm_end v) - Z.max a (vm_start v)) 4096). dlia.
Qed.

Lemma folio_addrs_length fuel v addr e :
  (length (folio_addrs follow_page fuel v addr e) <= fuel)%nat.
Proof.
  induction fuel as [|fuel IH] in addr |- *; cbn [folio_addrs]; destruct (addr <? e);
    simpl; try lia. destruct (follow_page v addr); simpl; [specialize (IH (addr + folio_nr_pages z * PAGE_SIZE))|
    specialize (IH (addr + PAGE_SIZE))]; lia.
Qed.

Lemma walk_length a b : zlen (walk a b) <= area_pages vmas.
Proof.
  unfold Policy.walk, vma_for_each. induction vmas as [|v vs IH]; [done|].
  assert (zlen (folio_for_each follow_page v a b) <=
          (vm_end v - vm_start v) `max` 0 / PAGE_SIZE + 1) as Hv.
  { unfold folio_for_each, zlen. pose proof (folio_addrs_length
      (Z.to_nat ((Z.min b (vm_end v) - Z.max a (vm_start v)) / PAGE_SIZE + 1))
      v (Z.max a (vm_start v)) (Z.min b (vm_end v))).
    unfold PAGE_SIZE in *. dlia. }
  pose proof (Z.div_pos ((vm_end v - vm_start v) `max` 0) PAGE_SIZE ltac:(lia) ltac:(done)).
  simpl. destruct (_ && _); [|lia]. rewrite bind_cons, zlen_app. lia.
Qed.

Lemma rank_range_keeps m r :
  start (rank_range m r) = start r /\ end_ (rank_range m r) = end_ r /\
  age (rank_range m r) = age r /\ nr_access (rank_range m r) = nr_access r.
Proof.
  unfold Policy.rank_range. generalize (walk (start r) (end_ r)). intros l.
  induction l as [|f l IH] in r |- *; simpl; [done|]. rewrite !(proj1 (IH _)).
  destruct (IH (Mrange (start r) (end_ r) (age r) (nr_access r)
      (u64 (in_fmem r + (if (if folio_test_anon m f then folio_nid f else NUMA_NO_NODE) =? FMEM_NID then 1 else 0)))
      (u64 (in_smem r + (if (if folio_test_anon m f then folio_nid f else NUMA_NO_NODE) =? SMEM_NID then 1 else 0)))))
    as (_ & H2 & H3 & H4).
  simpl in *. split_and!; congruence.
Qed.

Lemma rank_range_ok m r : range_ok r ->
  range_ok (rank_range m r) /\ start (rank_range m r) = start r /\ end_ (rank_range m r) = end_ r.
Proof.
  intros Hr. destruct (rank_range_keeps m r) as (H1 & H2 & H3 & H4).
  split_and!; [|done..]. unfold range_ok in *. by rewrite H1, H2, H4.
Qed.

(** The fold of [rt_rank]: the array receives the pointers, the heap the ranks. *)
Lemma rank_fold m s es out i h h' :
  fold_res (fun e h => r ← of_option BadPointer (h !! e_ptr e);
                       Ok (<[e_ptr e := rank_range m r]> h)) es h = Ok h' ->
  0 <= i -> i + zlen es <= zlen out ->
  fold_res (fun e '(s, out, i) =>
      out ← awrite out i (e_ptr e);
      r ← deref s (e_ptr e);
      Ok (RtState (rt s) (<[e_ptr e := rank_range m r]> (heap s)), out, i + 1))
    es (RtState (rt s) h, out, i) =
  Ok (RtState (rt s) h', take (Z.to_nat i) out ++ ptrs es ++ drop (Z.to_nat (i + zlen es)) out,
      i + zlen es).
Proof.
  induction es as [|e es IH] in out, i, h |- *; intros Hf Hi Hlen; cbn [fold_res] in *.
  { injection Hf as ->. rewrite zlen_nil, Z.add_0_r. simpl. by rewrite take_drop. }
  rewrite zlen_cons in *. pose proof (zlen_nonneg es).
  rewrite awrite_in_bounds by lia. cbn [mbind res_bind].
  change (deref (RtState (rt s) h) (e_ptr e)) with (of_option BadPointer (h !! e_ptr e)).
  destruct (of_option BadPointer (h !! e_ptr e)) as [r|]; cbn [mbind res_bind rt heap] in *; [|done].
  rewrite (IH _ _ _ Hf) by (unfold zlen in *; rewrite ?length_insert; lia).
  f_equal. f_equal; [f_equal|lia]. simpl ptrs. unfold zlen in *.
  replace (Z.to_nat (i + 1)) with (S (Z.to_nat i)) by lia.
  rewrite (take_S_r _ _ (e_ptr e)) by (apply list_lookup_insert_eq; lia).
  rewrite take_insert_ge by lia. rewrite <- app_assoc. simpl. f_equal. f_equal. f_equal.
  rewrite drop_insert_lt by lia. f_equal. lia.
Qed.

(** The first [n] entries of the array point to ranges of [rs]. *)
Definition valid_array s (mrs : list Z) (n : Z) (rs : list mrange) : Prop :=
  forall i, 0 <= i < n -> exists p r, aread mrs i = Ok p /\ deref s p = Ok r /\ r ∈ rs.

Lemma rank_cool_spec n i s out len0 rs :
  valid_array s out (len (rt s)) rs -> 0 <= i -> i + Z.of_nat n = len (rt s) ->
  exists l, rank_cool n i s out len0 = Ok l /\ (l = len0 \/ 1 <= l <= len (rt s)).
Proof.
  intros Hv. induction n as [|n IH] in i |- *; intros Hi Hn; cbn [rank_cool]; [eauto|].
  destruct (Hv (len (rt s) - 1 - i)) as (p & r & -> & Hr & _); [lia|].
  cbn [mbind res_bind]. rewrite Hr. cbn [mbind res_bind].
  destruct (rt_should_cool (rt s) r); [apply IH; lia|]. eexists. split; [done|]. right. lia.
Qed.

Lemma rt_rank_spec m s rs out :
  rt_repr s rs -> zlen rs <= zlen out ->
  exists s' out' l, rt_rank m s out (len (rt s)) = Ok (s', out', l) /\ rt s' = rt s /\
    rt_repr s' (rank_range m <$> rs) /\ zlen out' = zlen out /\
    valid_array s' out' (len (rt s)) (rank_range m <$> rs) /\
    0 <= l <= len (rt s) /\ (0 < len (rt s) -> 0 < l).
Proof.
  intros [(HF & Hnd & Hd) Hl] Hlen. unfold Policy.rt_rank. rewrite mt_for_each_spec.
  destruct (fold_update_spec (rank_range m) _ _ _ (rank_range_ok m) Hnd HF) as (h' & Hfold & HF' & Hd' & _).
  assert (zlen (mt_entries (tree (rt s))) = zlen rs) as Hz
    by (unfold zlen; by rewrite (Forall2_length _ _ _ HF)).
  pose proof (rank_fold m s _ out 0 _ _ Hfold ltac:(lia) ltac:(lia)) as Hrf.
  replace (RtState (rt s) (heap s)) with s in Hrf by (by destruct s). rewrite Hrf. clear Hrf.
  cbn [mbind res_bind]. set (s' := RtState (rt s) h').
  set (es := mt_entries (tree (rt s))) in *. simpl rt.
  assert (rt_repr s' (rank_range m <$> rs)) as Hr'.
  { split; [split; [done|split; [done|simpl; by rewrite Hd']]|]. simpl. rewrite Hl.
    unfold zlen. by rewrite length_fmap. }
  rewrite Hl. set (out1 := take (Z.to_nat 0) out ++ ptrs es ++ drop (Z.to_nat (0 + zlen es)) out).
  assert (length (ptrs es) = Z.to_nat (zlen rs)) as Hpl
    by (unfold ptrs; rewrite length_fmap; unfold zlen in *; lia).
  assert (take (Z.to_nat (zlen rs)) out1 = ptrs es) as Ht.
  { unfold out1. simpl. rewrite <- Hpl. apply take_app_length. }
  rewrite Ht. set (sorted := sort_r (cmp_at s') (ptrs es)).
  pose proof (sort_r_perm (cmp_at s') (ptrs es)) as Hp. fold sorted in Hp.
  set (out2 := sorted ++ drop (Z.to_nat (zlen rs)) out1).
  assert (valid_array s' out2 (zlen rs) (rank_range m <$> rs)) as Hv.
  { intros i Hi. pose proof (Permutation_length Hp) as Hsl.
    destruct (lookup_lt_is_Some_2 sorted (Z.to_nat i)) as [p Hpi]; [lia|].
    exists p. assert (p ∈ ptrs es) as Hin by (rewrite <- Hp; by eapply list_elem_of_lookup_2).
    apply list_elem_of_fmap in Hin as (e & -> & (j & Hj)%list_elem_of_lookup).
    destruct (Forall2_lookup_l _ _ _ _ _ HF' Hj) as (r & Hr & Hh & _).
    exists r. split_and!.
    - apply aread_Ok. split; [lia|]. unfold out2. rewrite lookup_app_l; [done|]. lia.
    - unfold deref. simpl. by rewrite Hh.
    - by eapply list_elem_of_lookup_2. }
  destruct (rank_cool_spec (Z.to_nat (zlen rs)) 0 s' out2 (zlen rs) (rank_range m <$> rs))
    as (l & Hc & Hlr); [simpl; by rewrite Hl|lia|simpl; rewrite Hl; unfold zlen; lia|].
  rewrite Hc. cbn [mbind res_bind]. exists s', out2, l. simpl in Hlr. rewrite Hl in Hlr.
  pose proof (zlen_nonneg rs). split_and!; try done; try lia.
  unfold out2, out1, zlen. rewrite !length_app, length_drop, !length_app, !length_drop, length_take.
  rewrite (Permutation_length Hp). unfold zlen in *. lia.
Qed.

(** *** Thresholds *)

Lemma thresholds_spec s mrs rlen fc sc rs n :
  valid_array s mrs n rs -> 0 <= rlen <= n ->
  exists sp f, thresholds s mrs rlen fc sc = Ok (sp, f) /\ 0 <= f <= rlen /\
    (0 < fc -> Forall (fun r => 0 < nr_access r /\ in_smem r = 0) rs -> f = 0).
Proof.
  intros Hv Hr. unfold thresholds.
  match goal with |- context [for_range 0 rlen ?b ?a] =>
    destruct (for_range_inv (fun i st => let '(_, f, fmem, _) := st in
        rlen - i <= f <= rlen /\
        (0 < fc -> Forall (fun r => 0 < nr_access r /\ in_smem r = 0) rs ->
         f = rlen - i /\ fmem = 0)) 0 rlen b a) as ([[[sp f] fmem] smem] & -> & Hf) end;
    [lia|split; [lia|intros; lia]| |].
  - intros i [[[sp f] fmem] smem] Hi (Hf & Hall).
    destruct (Hv i) as (p & r & -> & Hd & Hin); [lia|]. cbn [mbind res_bind].
    rewrite Hd. cbn [mbind res_bind].
    destruct (Hv (rlen - 1 - i)) as (q & r' & -> & Hd' & Hin'); [lia|]. cbn [mbind res_bind].
    rewrite Hd'. cbn [mbind res_bind]. eexists. split; [reflexivity|]. split.
    + case_match; lia.
    + intros Hfc HF. destruct (Hall Hfc HF) as [-> ->]. rewrite Forall_forall in HF.
      destruct (HF r' Hin') as [Hn Hs]. rewrite Hs.
      change (u64 (0 + u64 (0 + 0))) with 0.
      rewrite (proj2 (Z.ltb_lt 0 fc)), (proj2 (Z.ltb_lt 0 (nr_access r'))) by lia. simpl.
      split; [lia|done].
  - cbn [mbind res_bind]. exists sp, f. destruct Hf as [Hf Hall]. split; [done|].
    split; [lia|]. intros Hfc HF. destruct (Hall Hfc HF). lia.
Qed.

Lemma show_all_spec s mrs rs :
  valid_array s mrs (len (rt s)) rs -> Forall range_ok rs -> 0 <= len (rt s) ->
  show_all s mrs = Ok tt.
Proof.
  intros Hv Hok Hl. unfold show_all.
  match goal with |- for_range 0 ?n ?b ?a = _ =>
    destruct (for_range_inv (fun _ _ => True) 0 n b a Hl I) as ([] & H & _); [|exact H] end.
  intros i [] Hi _. destruct (Hv i Hi) as (p & r & -> & Hd & Hin). cbn [mbind res_bind].
  rewrite Hd. cbn [mbind res_bind]. rewrite Forall_forall in Hok.
  rewrite mrange_show_ok by auto. eauto.
Qed.

(** *** The promotion loop *)

(** With [f] at least 1 the loop ends; every folio of the list is on slow memory. *)
Lemma promote_loop_spec lk rest k fuel s mrs i f m0 m promo n rs :
  area_pages vmas < 2 ^ 31 ->
  valid_array s mrs n rs -> 1 <= f -> i < n -> n < 2 ^ 64 -> Z.of_nat k = Z.max 0 (i + 1 - f) ->
  0 <= i -> (k < fuel)%nat ->
  isolated_with lk m0 m (promo ++ rest) -> Forall (fun x => folio_nid x = SMEM_NID) promo ->
  exists m' promo', promote_loop fuel s mrs i f m promo (u64 (zlen promo)) =
      Ok (m', promo', u64 (zlen promo')) /\
    isolated_with lk m0 m' (promo' ++ rest) /\ Forall (fun x => folio_nid x = SMEM_NID) promo'.
Proof.
  intros Hw Hv Hf Hi Hn. induction k as [|k IH] in fuel, i, m, promo, Hi |- *;
    intros Hk Hi0 Hfuel Hm HF; (destruct fuel as [|fuel]; [lia|]); cbn [Policy.promote_loop].
  { destruct (Z.leb_spec f i); [lia|]. exists m, promo. done. }
  destruct (Z.leb_spec f i); [|lia].
  destruct (Hv i) as (p & r & -> & Hd & _); [lia|]. cbn [mbind res_bind]. rewrite Hd.
  cbn [mbind res_bind]. unfold rt_isolate.
  destruct (isolate_walk_spec lk m0 m (walk (start r) (end_ r)) SMEM_NID ULONG_MAX 0 promo rest Hm)
    as [Hs Hle]; [done|].
  destruct (isolate_walk m (walk (start r) (end_ r)) SMEM_NID ULONG_MAX 0 promo) as [[m1 l1] got].
  destruct Hs as (added & leak & -> & -> & HFa & Hiso & He). simpl in Hle.
  pose proof (walk_length (start r) (end_ r)). unfold ULONG_MAX in *.
  assert (leak = []) as -> by (destruct He as [[-> _]|(g & -> & _ & Hg)]; [done|lia]).
  assert (u64 (i - 1) = i - 1) as -> by (apply u64_small; unfold is_u64; lia).
  assert (u64 (u64 (zlen promo) + (0 + zlen added)) = u64 (zlen (promo ++ added))) as ->.
  { rewrite zlen_app. unfold u64, wrap. rewrite Zplus_mod_idemp_l. f_equal. }
  apply IH; try done; try lia. by apply Forall_app.
Qed.

(** With [f] zero the index wraps below the array. *)
Lemma promote_loop_wraps k fuel s mrs i m promo c n rs :
  valid_array s mrs n rs -> zlen mrs < 2 ^ 64 - 1 -> i < n -> Z.of_nat k = i + 1 -> 0 <= i + 1 ->
  (k < fuel)%nat ->
  promote_loop fuel s mrs (u64 i) 0 m promo c = Fault OutOfBounds.
Proof.
  intros Hv Hmrs. induction k as [|k IH] in fuel, i, m, promo, c |- *;
    intros Hi Hk Hi0 Hfuel; (destruct fuel as [|fuel]; [lia|]); cbn [Policy.promote_loop];
    pose proof (u64_range i) as [Hu _]; rewrite (proj2 (Z.leb_le 0 (u64 i))) by lia.
  - assert (i = -1) as -> by lia. change (u64 (-1)) with (2 ^ 64 - 1).
    assert (aread mrs (2 ^ 64 - 1) = Fault OutOfBounds) as ->; [|done].
    unfold aread. rewrite decide_True by lia.
    rewrite lookup_ge_None_2; [done|]. unfold zlen in Hmrs. lia.
  - destruct (Hv i) as (p & r & Hp & Hd & _); [lia|].
    assert (u64 i = i) as Hui.
    { apply u64_small. apply aread_Ok in Hp as [_ Hp]. apply lookup_lt_Some in Hp.
      unfold zlen in Hmrs. unfold is_u64. lia. }
    rewrite Hui, Hp. cbn [mbind res_bind]. rewrite Hd. cbn [mbind res_bind].
    destruct (rt_isolate vmas follow_page m r SMEM_NID ULONG_MAX promo) as [[m1 l1] got].
    apply IH; lia.
Qed.

(** *** The demotion loop *)

(** Demotion candidates are isolated until they match; the walk that reaches the
    number keeps its reference to the last folio. *)
Lemma demote_loop_spec lk0 rest k s mrs i f m0 m demo c n rs :
  valid_array s mrs n rs -> f <= n -> 0 <= i -> zlen demo < c ->
  isolated_with lk0 m0 m (demo ++ rest) -> Forall (fun x => folio_nid x = FMEM_NID) demo ->
  exists m' demo' lk, demote_loop k s mrs i f m demo c (zlen demo) = Ok (m', demo', zlen demo') /\
    isolated_with (lk ++ lk0) m0 m' (demo' ++ rest) /\ Forall (fun x => folio_nid x = FMEM_NID) demo' /\
    ((zlen demo' < c /\ lk = []) \/ (zlen demo' = c /\ exists g, lk = [g] /\ last demo' = Some g)).
Proof.
  intros Hv Hf. induction k as [|k IH] in i, m, demo |- *; intros Hi Hc Hm HF;
    cbn [Policy.demote_loop].
  { exists m, demo, []. split_and!; auto. }
  destruct (Z.ltb_spec (zlen demo) c), (Z.ltb_spec i f); simpl; try lia;
    try (exists m, demo, []; split_and!; by auto).
  destruct (Hv i) as (p & r & -> & Hd & _); [lia|]. cbn [mbind res_bind]. rewrite Hd.
  cbn [mbind res_bind]. unfold rt_isolate.
  destruct (isolate_walk_spec lk0 m0 m (walk (start r) (end_ r)) FMEM_NID (c - zlen demo) 0 demo rest Hm)
    as [Hs _]; [lia|].
  destruct (isolate_walk m (walk (start r) (end_ r)) FMEM_NID (c - zlen demo) 0 demo) as [[m1 l1] got].
  destruct Hs as (added & leak & -> & -> & HFa & Hiso & He).
  assert (zlen demo + (0 + zlen added) = zlen (demo ++ added)) as -> by (rewrite zlen_app; lia).
  assert (Forall (fun x => folio_nid x = FMEM_NID) (demo ++ added)) as HF1 by (by apply Forall_app).
  destruct He as [[-> He]|(g & -> & Hg & He)].
  - apply IH; [lia|rewrite zlen_app; lia|done|done].
  - assert (zlen (demo ++ added) = c) as Hz by (rewrite zlen_app; lia).
    exists m1, (demo ++ added), [g]. split_and!; [|done|done|right; split; [done|exists g; split; [done|by rewrite last_app, Hg]]].
    destruct k as [|k]; cbn [Policy.demote_loop]; [done|]. rewrite Hz, Z.ltb_irrefl. done.
Qed.

(** *** The request *)

(** The reference a walk keeps when it stops early: once there are as many demotions
    as candidates (the number of promotions, an [unsigned long]), the last folio
    demoted. *)
Definition leaked_by (promo demo : list Z) : list Z :=
  if u64 (zlen promo) =? zlen demo then match last demo with Some f => [f] | None => [] end else [].

(** What sending a request achieves, with the folios of [rest] isolated before. *)
Definition request_sent (lk0 : list Z) (m0 : mem) (rest : list Z) (m' : mem) (promo demo : list Z) : Prop :=
  Forall (fun f => folio_nid f = SMEM_NID) promo /\
  Forall (fun f => folio_nid f = FMEM_NID) demo /\
  zlen demo <= zlen promo /\
  isolated_with (leaked_by promo demo ++ lk0) m0 m' (demo ++ promo ++ rest).

(** Both outcomes past the guards: the threshold is positive and the request is
    sent, or it is zero and the promotion loop leaves the array. *)
Lemma policy_send_cases exch_thresh fc sc ph dh s rs mrs m lk0 m0 rest :
  rt_repr s rs -> zlen rs <= zlen mrs -> zlen mrs < 2 ^ 64 - 1 -> area_pages vmas < 2 ^ 31 ->
  min_range (rt s) <= exch_thresh -> 0 < ph < 2 ^ 64 - MAX_ERRNO -> 0 < dh < 2 ^ 64 - MAX_ERRNO ->
  isolated_with lk0 m0 m rest ->
  exists s' mrs' rlen sp f,
    rt_rank m s mrs (len (rt s)) = Ok (s', mrs', rlen) /\ rt s' = rt s /\
    rt_repr s' (rank_range m <$> rs) /\ zlen mrs' = zlen mrs /\
    thresholds s' mrs' rlen fc sc = Ok (sp, f) /\
    (0 < fc -> Forall (fun r => 0 < nr_access r /\ in_smem r = 0) (rank_range m <$> rs) -> f = 0) /\
    ((1 <= f /\ exists m' promo demo,
        policy_send_exch_reqs exch_thresh fc sc ph dh s mrs m = Ok (0, s', mrs', m', Some (promo, demo)) /\
        request_sent lk0 m0 rest m' promo demo) \/
     (f = 0 /\ policy_send_exch_reqs exch_thresh fc sc ph dh s mrs m = Fault OutOfBounds)).
Proof.
  intros Hr Hlen Hmrs Hw Hmin Hph Hdh Hm. unfold Policy.policy_send_exch_reqs.
  rewrite (proj2 (Z.ltb_ge _ _)) by lia. rewrite !TRY_pointer by done.
  destruct (rt_rank_spec m s rs mrs Hr Hlen)
    as (s' & mrs' & rlen & Hrank & Hrt & Hr' & Hz & Hv & Hrl & Hrl0).
  destruct (thresholds_spec s' mrs' rlen fc sc _ _ Hv) as (sp & f & Hth & Hf & Hf0); [lia|].
  exists s', mrs', rlen, sp, f. do 6 (split; [done|]).
  rewrite Hrank. cbn [mbind res_bind]. rewrite Hth. cbn [mbind res_bind].
  pose proof (rt_repr_ok _ _ Hr') as Hok. pose proof Hr as [_ Hlrs]. pose proof (zlen_nonneg rs).
  rewrite (show_all_spec s' mrs' (rank_range m <$> rs)) by (rewrite ?Hrt; done || lia).
  cbn [mbind res_bind].
  destruct (Z.eq_dec f 0) as [->|Hfn].
  { right. split; [done|].
    rewrite (promote_loop_wraps (Z.to_nat rlen) (S (length mrs')) s' mrs' (rlen - 1) m [] 0 _ _ Hv);
      [done|lia|lia|lia|lia|unfold zlen in *; lia]. }
  left. split; [lia|].
  assert (u64 (rlen - 1) = rlen - 1) as -> by (apply u64_small; unfold is_u64; lia).
  destruct (promote_loop_spec lk0 rest (Z.to_nat (rlen - f)) (S (length mrs')) s' mrs' (rlen - 1) f
              m0 m [] (len (rt s)) _ Hw Hv) as (m1 & promo & Hp & Hi1 & HF1);
    [lia|lia|lia|lia|lia|unfold zlen in *; lia|done|constructor|].
  change (u64 (zlen [])) with 0 in Hp. rewrite Hp. cbn [mbind res_bind].
  pose proof (zlen_nonneg promo). pose proof (u64_range (zlen promo)) as Hu.
  assert (u64 (zlen promo) <= zlen promo) as Hule by (unfold u64, wrap; apply Z.mod_le; lia).
  pose proof (@zlen_nil Z).
  destruct (Z.eq_dec (u64 (zlen promo)) 0) as [Hu0|Hu0].
  - assert (demote_loop (Z.to_nat f) s' mrs' 0 f m1 [] (u64 (zlen promo)) 0 = Ok (m1, [], 0)) as ->.
    { rewrite Hu0. by destruct (Z.to_nat f). }
    cbn [mbind res_bind]. exists m1, promo, []. split; [done|]. split_and!; try done; try lia.
    unfold leaked_by. by destruct (_ =? _).
  - destruct (demote_loop_spec lk0 (promo ++ rest) (Z.to_nat f) s' mrs' 0 f m0 m1 []
                (u64 (zlen promo)) _ _ Hv) as (m2 & demo & lk & Hdl & Hi2 & HF2 & He);
      [lia|lia|unfold is_u64 in Hu; lia|done|constructor|].
    change (zlen []) with 0 in Hdl. rewrite Hdl. cbn [mbind res_bind].
    exists m2, promo, demo. split; [done|]. unfold is_u64 in Hu. split_and!; try done; try lia.
    assert (leaked_by promo demo = lk) as ->; [|done].
    unfold leaked_by. destruct He as [[Hlt ->]|[-> (g & -> & ->)]]; [|by rewrite Z.eqb_refl].
    by destruct (Z.eqb_spec (u64 (zlen promo)) (zlen demo)); [lia|].
Qed.

(** C5: an exchange request is balanced.  When the smallest range is not above the
    exchange threshold, the two list heads were allocated, the address space has
    fewer than 2^31 pages and the fast-memory threshold leaves at least one range
    below it, sending a request terminates without faulting; every promoted folio
    is on the slow node, every demoted one on the fast node, there are never more
    demotions than promotions, both lists are isolated from the LRU, and every
    reference taken for it is dropped or belongs to a folio of the lists, with one
    exception: if the two lists have the same nonzero length, the walk's reference
    to the last demoted folio is never dropped. *)
Theorem policy_send_balanced exch_thresh fc sc ph dh s rs mrs m :
  rt_repr s rs -> zlen rs <= zlen mrs -> zlen mrs < 2 ^ 64 - 1 -> area_pages vmas < 2 ^ 31 ->
  min_range (rt s) <= exch_thresh -> 0 < ph < 2 ^ 64 - MAX_ERRNO -> 0 < dh < 2 ^ 64 - MAX_ERRNO ->
  (forall s' mrs' rlen sp f, rt_rank m s mrs (len (rt s)) = Ok (s', mrs', rlen) ->
     thresholds s' mrs' rlen fc sc = Ok (sp, f) -> 1 <= f) ->
  exists s' mrs' m' promo demo,
    policy_send_exch_reqs exch_thresh fc sc ph dh s mrs m = Ok (0, s', mrs', m', Some (promo, demo)) /\
    Forall (fun f => folio_nid f = SMEM_NID) promo /\
    Forall (fun f => folio_nid f = FMEM_NID) demo /\
    zlen demo <= zlen promo /\
    isolated_with (leaked_by promo demo) m m' (demo ++ promo) /\
    (0 < zlen promo < 2 ^ 64 -> zlen demo = zlen promo -> exists f, leaked_by promo demo = [f] /\ last demo = Some f) /\
    (zlen promo < 2 ^ 64 -> zlen demo < zlen promo -> leaked_by promo demo = []).
Proof.
  intros Hr Hlen Hmrs Hw Hmin Hph Hdh Hthr.
  destruct (policy_send_cases exch_thresh fc sc ph dh s rs mrs m [] m [] Hr Hlen Hmrs Hw Hmin Hph Hdh)
    as (s' & mrs' & rlen & sp & f & Hrank & _ & _ & _ & Hth & _ & Hc); [by apply isolated_from_nil|].
  specialize (Hthr _ _ _ _ _ Hrank Hth).
  destruct Hc as [(_ & m' & promo & demo & H & Hp & Hd & Hle & Hi)|[? _]]; [|lia].
  rewrite !app_nil_r in Hi. exists s', mrs', m', promo, demo. split_and!; try done.
  - intros Hz Heq. unfold leaked_by. rewrite u64_small, Heq, Z.eqb_refl by (unfold is_u64; lia).
    destruct (last demo) as [g|] eqn:Hg; [by exists g|]. apply last_None in Hg as ->. unfold zlen in *. simpl in *. lia.
  - intros Hz Hlt. unfold leaked_by. pose proof (zlen_nonneg demo). rewrite u64_small by (unfold is_u64; lia).
    by destruct (Z.eqb_spec (zlen promo) (zlen demo)); [lia|].
Qed.

(** C40: when everything already is in fast memory and every range has been
    accessed, the promotion loop runs past the beginning of the array: the
    unsigned index wraps around and is used out of bounds. *)
Theorem policy_send_out_of_bounds exch_thresh fc sc ph dh s rs mrs m :
  rt_repr s rs -> zlen rs <= zlen mrs -> zlen mrs < 2 ^ 64 - 1 -> area_pages vmas < 2 ^ 31 ->
  min_range (rt s) <= exch_thresh -> 0 < ph < 2 ^ 64 - MAX_ERRNO -> 0 < dh < 2 ^ 64 - MAX_ERRNO ->
  0 < fc -> Forall (fun r => 0 < nr_access r /\ in_smem r = 0) (rank_range m <$> rs) ->
  policy_send_exch_reqs exch_thresh fc sc ph dh s mrs m = Fault OutOfBounds.
Proof.
  intros Hr Hlen Hmrs Hw Hmin Hph Hdh Hfc Hall.
  destruct (policy_send_cases exch_thresh fc sc ph dh s rs mrs m [] m [] Hr Hlen Hmrs Hw Hmin Hph Hdh)
    as (s' & mrs' & rlen & sp & f & _ & _ & _ & _ & _ & Hf0 & Hc); [by apply isolated_from_nil|].
  destruct Hc as [[? _]|[_ H]]; [|done]. specialize (Hf0 Hfc Hall). lia.
Qed.
End requests.

(** ** Witnesses *)

Module InsertionSort.
Fixpoint insert (cmp : Z -> Z -> Z) (x : Z) (l : list Z) : list Z :=
  match l with
  | [] => [x]
  | y :: l => if cmp x y <=? 0 then x :: y :: l else y :: insert cmp x l
  end.

#[export] Instance S : Sort := {| sort_r cmp l := foldr (insert cmp) [] l |}.

Lemma insert_perm cmp x l : insert cmp x l ≡ₚ x :: l.
Proof.
  induction l as [|y l IH]; simpl; [done|]. destruct (cmp x y <=? 0); [done|].
  rewrite IH. apply Permutation_swap.
Qed.

#[export] Instance laws : SortLaws S.
Proof.
  split. intros cmp l. simpl. induction l as [|x l IH]; simpl; [done|].
  by rewrite insert_perm, IH.
Qed.
End InsertionSort.

#[local] Existing Instances ListMaple.M ListMaple.laws ListMaple.no_oom
  SupKmalloc.K SupKmalloc.laws SupKmalloc.no_oom
  ListFolios.F ListFolios.laws InsertionSort.S InsertionSort.laws.

Module PolicyDemo.
Import RangeTreeProps.Demo.
Definition mm : mm_struct := MmStruct 4096 (2 ^ 47) 8192 12288 12288.

(** The hot range maps two folios of the slow node 1, the cold range three of
    the fast node 0. *)
Definition vmas : list vm_area_struct :=
  [Vma (start hot) (start hot + 8192); Vma (start cold - 4096) (start cold + 16384)].
Definition follow_page (v : vm_area_struct) (addr : Z) : option Z :=
  let i := (addr - vm_start v) / PAGE_SIZE in
  (if vm_start v =? start hot then [3; 5] else [6; 8; 10; 12]) !! Z.to_nat i.

Definition mrs : list Z := replicate 4 0.

(** A tree whose only range was accessed and has nothing in slow memory. *)
Definition hot_state : rt_state ListMaple.M :=
  RtState (RangeTree (M := ListMaple.M) 1 0 8388608 [MtEnt 4294967296 4303355903 1])
          {[1 := hot]}.

Lemma hot_repr : rt_repr hot_state [hot].
Proof.
  split; [|done]. split; [|split].
  - repeat constructor; vm_compute; try done; split; done.
  - apply (bool_decide_unpack _). vm_compute. done.
  - apply (bool_decide_unpack _). vm_compute. done.
Qed.

(** The threshold of the example is positive. *)
Definition threshold_positive : bool :=
  match rt_rank vmas follow_page 0 1 ListFolios.m state mrs 2 with
  | Ok (s', mrs', rlen) =>
      match thresholds s' mrs' rlen 1000 1000 with Ok (_, f) => 1 <=? f | Fault _ => true end
  | Fault _ => true
  end.

Lemma threshold_ok s' mrs' rlen sp f :
  rt_rank vmas follow_page 0 1 ListFolios.m state mrs 2 = Ok (s', mrs', rlen) ->
  thresholds s' mrs' rlen 1000 1000 = Ok (sp, f) -> 1 <= f.
Proof.
  intros H1 H2. assert (threshold_positive = true) as H by (vm_compute; reflexivity).
  unfold threshold_positive in H. rewrite H1, H2 in H. by apply Z.leb_le.
Qed.
End PolicyDemo.

Lemma policy_samples_accounting_witness :
  exists chan' s', policy_handle_samples 42 PolicyDemo.mm
      [[PerfSample 42 4294967300; PerfSample 7 4294967300]; [PerfSample 42 0]] RangeTreeProps.Demo.state =
    Ok (chan', Counts 1 [0; 1; 1; 0; 0], s').
Proof.
  destruct (policy_samples_accounting 42 PolicyDemo.mm
      [[PerfSample 42 4294967300; PerfSample 7 4294967300]; [PerfSample 42 0]]
      RangeTreeProps.Demo.state _ RangeTreeProps.Demo.repr)
    as (used & chan' & s' & H & Hc & _ & _ & He).
  assert (concat chan' = []) as Hn.
  { destruct He as [He|He]; [exact He|]. exfalso.
    assert (nr_verdict 42 PolicyDemo.mm 0 used <= zlen used) as Hle.
    { unfold nr_verdict, zlen. pose proof (List.filter_length_le
        (fun s => verdict 42 PolicyDemo.mm s =? 0) used). lia. }
    apply (f_equal (@length _)) in Hc. rewrite length_app in Hc. simpl in Hc.
    unfold MPSC_MAX_BATCH, zlen in *. lia. }
  rewrite Hn, app_nil_r in Hc. subst used. exists chan', s'. exact H.
Defined.

Lemma policy_sample_miss_received_witness :
  policy_handle_sample_one 42 PolicyDemo.mm (PerfSample 42 20000) RangeTreeProps.Demo.state =
    Ok (0, RangeTreeProps.Demo.state).
Proof.
  apply (policy_sample_miss_received 42 PolicyDemo.mm (PerfSample 42 20000)
           RangeTreeProps.Demo.state _ RangeTreeProps.Demo.repr); [reflexivity|].
  intros (r & Hr & Hc). unfold covers in Hc.
  apply elem_of_cons in Hr as [->|Hr]; [simpl in Hc; lia|].
  apply list_elem_of_singleton in Hr as ->. simpl in Hc. lia.
Defined.

Lemma policy_send_balanced_witness :
  exists s' mrs' m' promo demo,
    policy_send_exch_reqs PolicyDemo.vmas PolicyDemo.follow_page 0 1 (2 ^ 30) 1000 1000 16 32 RangeTreeProps.Demo.state
      PolicyDemo.mrs ListFolios.m = Ok (0, s', mrs', m', Some (promo, demo)) /\
    zlen demo <= zlen promo.
Proof.
  destruct (policy_send_balanced PolicyDemo.vmas PolicyDemo.follow_page 0 1 (2 ^ 30) 1000 1000 16 32 RangeTreeProps.Demo.state _
              PolicyDemo.mrs ListFolios.m RangeTreeProps.Demo.repr)
    as (s' & mrs' & m' & promo & demo & H & _ & _ & Hle & _).
  - vm_compute. discriminate.
  - vm_compute. reflexivity.
  - vm_compute. reflexivity.
  - vm_compute. discriminate.
  - vm_compute. split; reflexivity.
  - vm_compute. split; reflexivity.
  - exact PolicyDemo.threshold_ok.
  - exists s', mrs', m', promo, demo. split; [exact H|exact Hle].
Defined.

Lemma policy_send_out_of_bounds_witness :
  policy_send_exch_reqs [] PolicyDemo.follow_page 0 1 (2 ^ 30) 1000 1000 16 32 PolicyDemo.hot_state
    PolicyDemo.mrs ListFolios.m = Fault OutOfBounds.
Proof.
  apply (policy_send_out_of_bounds [] PolicyDemo.follow_page 0 1 (2 ^ 30) 1000 1000 16 32 PolicyDemo.hot_state _
           PolicyDemo.mrs ListFolios.m PolicyDemo.hot_repr).
  - vm_compute. discriminate.
  - vm_compute. reflexivity.
  - vm_compute. reflexivity.
  - vm_compute. discriminate.
  - vm_compute. split; reflexivity.
  - vm_compute. split; reflexivity.
  - reflexivity.
  - repeat constructor.
Defined.
