(* ===== verification/System.v ===== *)
(** The threads of Demeter together (mm/demeter/core.c): the shared state of a
    target, the message handlers of the policy and the migration thread on top of
    the components, and the interleavings of the threads as a step relation.

    Handlers take one message atomically: the threads share only the channels
    and the folios, and a folio is in the lists of one thread at a time. *)
From S2P Require Import Prelude Kernel RangeTree Folio Channel Migration Policy.
From stdpp Require Import base numbers list gmap.
From Stdlib Require Import ZArith Lia.
Open Scope Z_scope.

(** A request and its response carry the addresses of two list heads. *)
Record exch := Exch { ex_promotion : Z; ex_demotion : Z }.

(** What does not change while a target is managed: module parameters, the
    process and the nodes. *)
Record config := Config {
  rtree_split_thresh : Z; rtree_exch_thresh : Z; num_online_cpus : Z;
  victim : Z; FMEM_NID : Z; SMEM_NID : Z }.

Definition RMT_INITIAL_SIZE_FACTOR : Z := 2.

(** [ALIGN(x, a)] and [ALIGN_DOWN(x, a)] for a power of two. *)
Definition ALIGN (x a : Z) : Z := Z.land (u64 (x + (a - 1))) (Z.lnot (a - 1)).
Definition ALIGN_DOWN (x a : Z) : Z := Z.land x (Z.lnot (a - 1)).

Section system.
Context {M : MapleTree} {K : Kmalloc} {F : FolioOps} {SR : Sort}.
Context (cfg : config).

(** [lists]: the list heads allocated from [list_head_cache]; the four channels;
    the blacklist of the migration thread; the tree and the array of ranges of
    the policy thread. *)
Record sys := Sys {
  s_mem : mem;
  lists : gmap Z (list Z);
  excg_req : list (list exch);
  excg_rsp : list (list exch);
  splt_req : list (list Z);
  samplech : list (list perf_sample);
  s_bset : gmap Z Z;
  s_rt : rt_state M;
  s_mrs : list Z;
}.

Definition set_excg_req (ch : list (list exch)) (s : sys) : sys :=
  Sys (s_mem s) (lists s) ch (excg_rsp s) (splt_req s) (samplech s) (s_bset s) (s_rt s) (s_mrs s).
Definition set_excg_rsp (ch : list (list exch)) (s : sys) : sys :=
  Sys (s_mem s) (lists s) (excg_req s) ch (splt_req s) (samplech s) (s_bset s) (s_rt s) (s_mrs s).
Definition set_splt_req (ch : list (list Z)) (s : sys) : sys :=
  Sys (s_mem s) (lists s) (excg_req s) (excg_rsp s) ch (samplech s) (s_bset s) (s_rt s) (s_mrs s).
Definition set_samplech (ch : list (list perf_sample)) (s : sys) : sys :=
  Sys (s_mem s) (lists s) (excg_req s) (excg_rsp s) (splt_req s) ch (s_bset s) (s_rt s) (s_mrs s).
Definition set_rt (rt : rt_state M) (s : sys) : sys :=
  Sys (s_mem s) (lists s) (excg_req s) (excg_rsp s) (splt_req s) (samplech s) (s_bset s) rt (s_mrs s).
Definition set_bset (b : gmap Z Z) (s : sys) : sys :=
  Sys (s_mem s) (lists s) (excg_req s) (excg_rsp s) (splt_req s) (samplech s) b (s_rt s) (s_mrs s).
Definition set_mrs (mrs : list Z) (s : sys) : sys :=
  Sys (s_mem s) (lists s) (excg_req s) (excg_rsp s) (splt_req s) (samplech s) (s_bset s) (s_rt s) mrs.
Definition set_folios (m : mem) (ls : gmap Z (list Z)) (s : sys) : sys :=
  Sys m ls (excg_req s) (excg_rsp s) (splt_req s) (samplech s) (s_bset s) (s_rt s) (s_mrs s).

Definition the_list (s : sys) (head : Z) : res (list Z) := of_option BadPointer (lists s !! head).

(** ** The migration thread *)

(** [migration_handle_req] and [migration_send_ack] for one request. *)
Definition migration_body (cpu : Z) (req : exch) (s : sys) : res (bool * sys) :=
  p ← the_list s (ex_promotion req);
  d ← the_list s (ex_demotion req);
  '(m, p, d, b) ← migration_handle_req (s_mem s) p d (s_bset s);
  rsp ← mpsc_send (excg_rsp s) cpu req;
  Ok (false, set_excg_rsp rsp (set_bset b
               (set_folios m (<[ex_demotion req := d]> (<[ex_promotion req := p]> (lists s))) s))).

Definition migration_handle_requests (cpu : Z) (s : sys) : res sys :=
  '(ch, s) ← mpsc_for_each (migration_body cpu) (excg_req s) s;
  Ok (set_excg_req ch s).

(** ** The policy thread *)

(** One response: the folios left are put back and the two heads freed. *)
Definition policy_rsp_body (rsp : exch) (s : sys) : res (bool * sys) :=
  p ← the_list s (ex_promotion rsp);
  d ← the_list s (ex_demotion rsp);
  let '(m, _) := unmanage_folio (s_mem s) p in
  let '(m, _) := unmanage_folio m d in
  Ok (false, set_folios m (delete (ex_promotion rsp) (delete (ex_demotion rsp) (lists s))) s).

Definition policy_handle_exch_rsps (s : sys) : res sys :=
  '(ch, s) ← mpsc_for_each policy_rsp_body (excg_rsp s) s;
  Ok (set_excg_rsp ch s).

(** [kmem_cache_alloc(list_head_cache)]: NULL when there is no memory. *)
Definition kmem_cache_alloc (used : gset Z) : Z := default 0 (kmalloc used).

(** [policy_send_exch_reqs] in the state of the target: the two heads are
    allocated first, a head whose pair could not be allocated stays behind, and
    the request is sent from [cpu]. *)
Definition policy_send (vmas : list vm_area_struct) (follow_page : vm_area_struct -> Z -> option Z)
    (node_avail_pages : Z -> Z) (cpu : Z) (s : sys) : res (Z * sys) :=
  let ph := kmem_cache_alloc (dom (lists s)) in
  let dh := kmem_cache_alloc ({[ph]} ∪ dom (lists s)) in
  '(ret, rt, mrs, m, out) ←
    policy_send_exch_reqs vmas follow_page (FMEM_NID cfg) (SMEM_NID cfg) (rtree_exch_thresh cfg)
      (node_avail_pages (FMEM_NID cfg)) (node_avail_pages (SMEM_NID cfg)) ph dh
      (s_rt s) (s_mrs s) (s_mem s);
  match out with
  | None =>
      Ok (ret, if (min_range (RangeTree.rt (s_rt s)) <=? rtree_exch_thresh cfg)
                  && negb (ph =? 0) && (dh =? 0)
               then set_folios (s_mem s) (<[ph := []]> (lists s)) s else s)
  | Some (promo, demo) =>
      let s := set_mrs mrs (set_rt rt (set_folios m (<[dh := demo]> (<[ph := promo]> (lists s))) s)) in
      req ← mpsc_send (excg_req s) cpu (Exch ph dh);
      Ok (ret, set_excg_req req s)
  end.

(** One split request: a splitting pass and, if it split, an exchange request. *)
Definition policy_split_body (vmas : list vm_area_struct)
    (follow_page : vm_area_struct -> Z -> option Z) (node_avail_pages : Z -> Z) (cpu : Z)
    (id : Z) (s : sys) : res (bool * sys) :=
  rt ← rt_split (rtree_split_thresh cfg) (num_online_cpus cfg) (s_rt s);
  let diff := u64 (len (RangeTree.rt rt) - len (RangeTree.rt (s_rt s))) in
  let s := set_rt rt s in
  if diff =? 0 then Ok (false, s)
  else '(_, s) ← policy_send vmas follow_page node_avail_pages cpu s; Ok (false, s).

Definition policy_handle_splt_reqs (vmas : list vm_area_struct)
    (follow_page : vm_area_struct -> Z -> option Z) (node_avail_pages : Z -> Z) (cpu : Z)
    (s : sys) : res sys :=
  '(ch, s) ← mpsc_for_each (policy_split_body vmas follow_page node_avail_pages cpu) (splt_req s) s;
  Ok (set_splt_req ch s).

(** What [worker_policy] sets up: a range for the heap and one for the mappings. *)
Definition policy_init (totalram mem_unit start_brk mmap_base : Z) : res (rt_state M) :=
  let coverage := u64 (RMT_INITIAL_SIZE_FACTOR * ALIGN (u64 (totalram * mem_unit)) (2 ^ 30)) in
  let start := ALIGN_DOWN start_brk (2 ^ 30) in
  rt ← rt_init ∅ start (u64 (start + coverage));
  let end_ := ALIGN mmap_base (2 ^ 30) in
  rt ← rt_insert rt (u64 (end_ - coverage)) end_;
  _ ← check (negb (len (RangeTree.rt rt) =? 0)) BugOn;
  Ok rt.

(** ** Interleavings *)

(** The exchange request that is new in the channel of [cpu], if there is one: its
    promotion and its demotion list. *)
Definition sent (cpu : Z) (s s' : sys) : list (list Z * list Z) :=
  if decide (length (concat (excg_req s')) = length (concat (excg_req s))) then [] else
  match excg_req s' !! Z.to_nat cpu ≫= last with
  | Some req => [(default [] (lists s' !! ex_promotion req), default [] (lists s' !! ex_demotion req))]
  | None => []
  end.

(** A step, with the exchange requests it sends. *)
Inductive sys_step : sys -> list (list Z * list Z) -> sys -> Prop :=
  (** the overflow handler of a perf event *)
  | step_overflow s cpu x ch :
      mpsc_send (samplech s) cpu x = Ok ch -> sys_step s [] (set_samplech ch s)
  (** the main thread, every split period *)
  | step_main s cpu id ch :
      mpsc_send (splt_req s) cpu id = Ok ch -> sys_step s [] (set_splt_req ch s)
  | step_samples s mm ch c rt :
      policy_handle_samples (victim cfg) mm (samplech s) (s_rt s) = Ok (ch, c, rt) ->
      sys_step s [] (set_rt rt (set_samplech ch s))
  | step_split s i id q vmas follow_page avail cpu out s' :
      splt_req s !! i = Some (id :: q) -> area_pages vmas < 2 ^ 31 ->
      0 <= cpu < num_online_cpus cfg ->
      policy_split_body vmas follow_page avail cpu id
        (set_splt_req (<[i := q]> (splt_req s)) s) = Ok (out, s') ->
      sys_step s (sent cpu s s') s'
  | step_respond s i rsp q out s' :
      excg_rsp s !! i = Some (rsp :: q) ->
      policy_rsp_body rsp (set_excg_rsp (<[i := q]> (excg_rsp s)) s) = Ok (out, s') ->
      sys_step s [] s'
  | step_migrate s i req q cpu out s' :
      excg_req s !! i = Some (req :: q) -> 0 <= cpu < num_online_cpus cfg ->
      migration_body cpu req (set_excg_req (<[i := q]> (excg_req s)) s) = Ok (out, s') ->
      sys_step s [] s'.

(** Runs, with all requests sent on the way, the latest first. *)
Inductive sys_run (s0 : sys) : list (list Z * list Z) -> sys -> Prop :=
  | run_start : sys_run s0 [] s0
  | run_step reqs s sent s' : sys_run s0 reqs s -> sys_step s sent s' -> sys_run s0 (sent ++ reqs) s'.
End system.

Arguments sys M {F}.
