(* ===== verification/SystemProps.v ===== *)
(** Properties of the threads together: an invariant over every interleaving that
    ties the folios off the LRU to the requests in flight, freedom from faults of
    the handlers, and that draining the channels puts every folio back. *)
From S2P Require Import Prelude Kernel RangeTree RangeTreeProofs RangeTreeProps.
From S2P Require Import Folio Channel Migration MigrationProps Policy PolicyProps System.
From stdpp Require Import base numbers list gmap.
From Stdlib Require Import ZArith Lia.
Open Scope Z_scope.

(** ** Requests and responses in flight *)

Definition heads (es : list exch) : list Z := es ≫= (fun e => [ex_promotion e; ex_demotion e]).

(** The folios linked into the lists with the given heads. *)
Definition contents (ls : gmap Z (list Z)) (hs : list Z) : list Z :=
  hs ≫= (fun h => default [] (ls !! h)).

Lemma heads_cons e es : heads (e :: es) = ex_promotion e :: ex_demotion e :: heads es.
Proof. done. Qed.

Lemma heads_app es es' : heads (es ++ es') = heads es ++ heads es'.
Proof. apply bind_app. Qed.

#[export] Instance heads_perm : Proper (Permutation ==> Permutation) heads.
Proof. intros a b H. by apply bind_Permutation. Qed.

Lemma contents_cons ls h hs : contents ls (h :: hs) = default [] (ls !! h) ++ contents ls hs.
Proof. done. Qed.

#[export] Instance contents_perm ls : Proper (Permutation ==> Permutation) (contents ls).
Proof. intros a b H. by apply bind_Permutation. Qed.

(** Only the lists of [hs] matter. *)
Lemma contents_ext ls ls' hs :
  (forall h, h ∈ hs -> ls' !! h = ls !! h) -> contents ls' hs = contents ls hs.
Proof.
  intros H. induction hs as [|x hs IH]; [done|].
  rewrite !contents_cons, IH by set_solver. by rewrite H by set_solver.
Qed.

Lemma contents_insert ls h l hs : h ∉ hs -> contents (<[h := l]> ls) hs = contents ls hs.
Proof. intros Hh. apply contents_ext. intros x Hx. apply lookup_insert_ne. set_solver. Qed.

Lemma contents_delete ls h hs : h ∉ hs -> contents (delete h ls) hs = contents ls hs.
Proof. intros Hh. apply contents_ext. intros x Hx. apply lookup_delete_ne. set_solver. Qed.

(** The lists [ls] belong to the heads [hs]; others are empty. *)
Definition owned (ls : gmap Z (list Z)) (hs : list Z) : Prop :=
  NoDup hs /\ (forall h, h ∈ hs -> is_Some (ls !! h)) /\
  (forall h l, ls !! h = Some l -> h ∈ hs \/ l = []).

#[export] Instance owned_perm ls : Proper (Permutation ==> iff) (owned ls).
Proof.
  assert (forall a b, a ≡ₚ b -> owned ls a -> owned ls b) as H.
  { intros a b Hp (H1 & H2 & H3). split; [by rewrite <- Hp|]. split.
    - intros h. rewrite <- Hp. apply H2.
    - intros h l. rewrite <- Hp. apply H3. }
  intros a b Hp. split; by apply H.
Qed.

(** Two fresh heads. *)
Lemma owned_add ls hs p d lp ld :
  owned ls hs -> p ∉ hs -> d ∉ hs -> p <> d -> owned (<[d := ld]> (<[p := lp]> ls)) (p :: d :: hs).
Proof.
  intros (H1 & H2 & H3) Hp Hd Hne. split; [rewrite !NoDup_cons; set_solver|]. split.
  - intros h. rewrite !lookup_insert_is_Some', !elem_of_cons. naive_solver.
  - intros h l. rewrite !lookup_insert_Some, !elem_of_cons. naive_solver.
Qed.

(** The two heads of a message replaced, or freed. *)
Lemma owned_update ls hs p d lp ld :
  owned ls (p :: d :: hs) -> owned (<[d := ld]> (<[p := lp]> ls)) (p :: d :: hs).
Proof.
  intros (H1 & H2 & H3). split; [done|]. split.
  - intros h Hh. rewrite !lookup_insert_is_Some'. auto.
  - intros h l. rewrite !lookup_insert_Some. set_solver.
Qed.

Lemma owned_remove ls hs p d :
  owned ls (p :: d :: hs) -> owned (delete p (delete d ls)) hs.
Proof.
  intros (H1 & H2 & H3). rewrite !NoDup_cons in H1. split; [apply H1|]. split.
  - intros h Hh. rewrite !lookup_delete_ne by set_solver. apply H2. set_solver.
  - intros h l. rewrite !lookup_delete_Some. intros (? & ? & Hl). apply H3 in Hl. set_solver.
Qed.

Section system.
Context {M : MapleTree} {ML : MapleLaws M}.
Context {K : Kmalloc} {KL : KmallocLaws K}.
Context {F : FolioOps} {FL : FolioLaws F} {SR : Sort} {SL : SortLaws SR}.
Context (cfg : config) (m0 : mem) (rs0 : list mrange).
Implicit Types s : sys M.

Definition in_flight s : list exch := concat (excg_req s) ++ concat (excg_rsp s).

(** The references leaked with the requests of a run. *)
Definition leaks (reqs : list (list Z * list Z)) : list Z := reqs ≫= (fun '(promo, demo) => leaked_by promo demo).

(** The invariant, for the messages [msgs] in flight: every list head in use
    belongs to one request or response; the folios off the LRU are those of their
    lists, each in one place, and nothing else is referenced but the folios of
    [lk]; the blacklist and the tree are well formed and the
    tree covers what it did at first; the array of the policy thread holds every
    range. *)
Definition inv_msgs (lk : list Z) (msgs : list exch) s : Prop :=
  owned (lists s) (heads msgs) /\
  isolated_with lk m0 (s_mem s) (contents (lists s) (heads msgs)) /\
  bset_ok (s_bset s) /\
  (exists rs, rt_repr (s_rt s) rs /\ (forall a, covered rs a <-> covered rs0 a) /\
     zlen rs <= RTREE_MAX_SIZE) /\
  zlen (s_mrs s) = RTREE_MAX_SIZE /\
  zlen (excg_req s) = num_online_cpus cfg /\ zlen (excg_rsp s) = num_online_cpus cfg.

Definition sys_inv (lk : list Z) s : Prop := inv_msgs lk (in_flight s) s.

Lemma inv_msgs_perm lk msgs msgs' s : msgs ≡ₚ msgs' -> inv_msgs lk msgs s -> inv_msgs lk msgs' s.
Proof. intros Hp (H1 & H2 & H3). rewrite Hp in H1, H2. by split. Qed.

Definition on_cpu (cpu : Z) : Prop := 0 <= cpu < num_online_cpus cfg.

Lemma the_list_Ok s h : is_Some (lists s !! h) -> exists l, the_list s h = Ok l /\ lists s !! h = Some l.
Proof. intros [l Hl]. exists l. unfold the_list. by rewrite Hl. Qed.

(** Taking a message out of a channel. *)
Lemma recv_req_inv lk s i req q :
  sys_inv lk s -> excg_req s !! i = Some (req :: q) ->
  let s' := set_excg_req (<[i := q]> (excg_req s)) s in
  inv_msgs lk (req :: concat (excg_req s') ++ concat (excg_rsp s')) s'.
Proof.
  intros Hinv Hi s'. apply (inv_msgs_perm lk (in_flight s)).
  { unfold in_flight. by rewrite (mpsc_recv_perm _ _ _ _ Hi). }
  unfold inv_msgs, s', zlen. simpl. by rewrite length_insert.
Qed.

Lemma recv_rsp_inv lk s i rsp q :
  sys_inv lk s -> excg_rsp s !! i = Some (rsp :: q) ->
  let s' := set_excg_rsp (<[i := q]> (excg_rsp s)) s in inv_msgs lk (rsp :: in_flight s') s'.
Proof.
  intros Hinv Hi s'. apply (inv_msgs_perm lk (in_flight s)).
  { unfold in_flight. rewrite (mpsc_recv_perm _ _ _ _ Hi). by rewrite <- Permutation_middle. }
  unfold inv_msgs, s', zlen. simpl. by rewrite length_insert.
Qed.

(** ** The handlers *)

(** The migration thread handles a request without a fault and sends the lists
    on. *)
Lemma migration_body_inv lk cpu req l s :
  on_cpu cpu -> inv_msgs lk (req :: l ++ concat (excg_rsp s)) s ->
  exists s', migration_body cpu req s = Ok (false, s') /\
    inv_msgs lk (l ++ concat (excg_rsp s')) s' /\ excg_req s' = excg_req s.
Proof.
  intros Hcpu (Hown & Hiso & Hb & Hrt & Hmrs & Hq & Hr). unfold migration_body.
  rewrite heads_cons in *. set (hs := heads (l ++ concat (excg_rsp s))) in *.
  pose proof Hown as (Hnd & Hsome & _).
  destruct (the_list_Ok s (ex_promotion req)) as (p & -> & Hp); [apply Hsome; set_solver|].
  destruct (the_list_Ok s (ex_demotion req)) as (d & -> & Hd); [apply Hsome; set_solver|].
  cbn [mbind res_bind].
  destruct (migration_handle_req_spec (s_mem s) p d (s_bset s))
    as (m' & p0 & p' & d0 & d' & b' & -> & _ & _ & _ & Hb' & Hi). cbn [mbind res_bind].
  destruct (mpsc_send_spec (excg_rsp s) cpu req) as (ch & -> & Hch & Hperm);
    [unfold on_cpu in Hcpu; lia|].
  cbn [mbind res_bind]. eexists. split; [reflexivity|]. split; [|done].
  rewrite !NoDup_cons in Hnd. destruct Hnd as (Hn1 & Hn2 & _). simpl.
  apply (inv_msgs_perm lk (req :: l ++ concat (excg_rsp s))).
  { rewrite Hperm. by rewrite <- Permutation_middle. }
  split; [rewrite heads_cons; by apply owned_update|]. split.
  { rewrite heads_cons. fold hs. simpl. rewrite !contents_cons in *.
    rewrite !contents_insert by set_solver.
    rewrite lookup_insert_ne, !lookup_insert_eq by set_solver. simpl.
    rewrite Hp, Hd in Hiso. simpl in Hiso. by apply Hi. }
  split; [by apply Hb'|]. split; [done|]. split; [done|]. split; [done|]. simpl. by rewrite Hch.
Qed.

(** The policy thread puts back what a response carries and frees its heads. *)
Lemma policy_rsp_body_inv lk rsp msgs s :
  inv_msgs lk (rsp :: msgs) s ->
  exists s', policy_rsp_body rsp s = Ok (false, s') /\ inv_msgs lk msgs s' /\
    excg_req s' = excg_req s /\ excg_rsp s' = excg_rsp s.
Proof.
  intros (Hown & Hiso & Hrest). unfold policy_rsp_body.
  rewrite heads_cons in *. set (hs := heads msgs) in *. pose proof Hown as (Hnd & Hsome & _).
  destruct (the_list_Ok s (ex_promotion rsp)) as (p & -> & Hp); [apply Hsome; set_solver|].
  destruct (the_list_Ok s (ex_demotion rsp)) as (d & -> & Hd); [apply Hsome; set_solver|].
  cbn [mbind res_bind]. rewrite !contents_cons, Hp, Hd in Hiso. simpl in Hiso.
  pose proof (unmanage_folio_spec lk m0 (s_mem s) p _ Hiso) as Hu1.
  destruct (unmanage_folio (s_mem s) p) as [m1 ?]. destruct Hu1 as [Hu1 _].
  pose proof (unmanage_folio_spec lk m0 m1 d _ Hu1) as Hu2.
  destruct (unmanage_folio m1 d) as [m2 ?]. destruct Hu2 as [Hu2 _].
  eexists. split; [reflexivity|]. split; [|done].
  rewrite !NoDup_cons in Hnd. destruct Hnd as (Hn1 & Hn2 & _).
  split; [by apply owned_remove|]. split; [|done].
  simpl. by rewrite !contents_delete by set_solver.
Qed.

(** Replacing the tree and the array keeps the rest. *)
Lemma set_rt_inv lk s rt rs :
  sys_inv lk s -> rt_repr rt rs -> (forall a, covered rs a <-> covered rs0 a) ->
  zlen rs <= RTREE_MAX_SIZE -> sys_inv lk (set_rt rt s).
Proof.
  intros (H1 & H2 & H3 & _ & H5) Hr Hc Hz. split; [done|]. split; [done|]. split; [done|].
  split; [by exists rs|done].
Qed.

Lemma kmem_cache_alloc_cases used :
  kmem_cache_alloc used = 0 \/
  (0 < kmem_cache_alloc used < 2 ^ 64 - MAX_ERRNO /\ kmem_cache_alloc used ∉ used).
Proof.
  unfold kmem_cache_alloc. destruct (kmalloc used) as [p|] eqn:E; [|by left]. right.
  destruct (kmalloc_fresh _ _ E). done.
Qed.

(** A head allocated without its pair stays behind, empty. *)
Lemma leaked_head_inv lk s ph :
  sys_inv lk s -> ph ∉ dom (lists s) -> sys_inv lk (set_folios (s_mem s) (<[ph := []]> (lists s)) s).
Proof.
  intros ((Hnd & Hsome & Hrest) & Hiso & Hr) Hp. set (hs := heads (in_flight s)) in *.
  assert (ph ∉ hs) as Hn by (intros H; apply Hp, elem_of_dom, Hsome, H).
  split; [|split; [|done]].
  - split; [done|]. split.
    + intros h Hh. simpl. rewrite lookup_insert_is_Some'. right. by apply Hsome.
    + intros h l. simpl. rewrite lookup_insert_Some. intros [[_ <-]|[_ Hl]]; [by right|eauto].
  - simpl. change (heads (in_flight (set_folios _ _ s))) with hs.
    by rewrite contents_insert.
Qed.

(** The state after a request was sent. *)
Lemma request_sent_inv s ph dh m' promo demo lk rt' mrs' ch rs :
  owned (lists s) (heads (in_flight s)) -> bset_ok (s_bset s) ->
  (forall a, covered rs a <-> covered rs0 a) -> zlen rs <= RTREE_MAX_SIZE ->
  zlen (s_mrs s) = RTREE_MAX_SIZE -> zlen (excg_req s) = num_online_cpus cfg ->
  zlen (excg_rsp s) = num_online_cpus cfg ->
  ph ∉ dom (lists s) -> dh ∉ {[ph]} ∪ dom (lists s) ->
  (exists f, rt_repr rt' (f <$> rs) /\ (forall r, start (f r) = start r /\ end_ (f r) = end_ r)) ->
  zlen mrs' = zlen (s_mrs s) ->
  request_sent (FMEM_NID cfg) (SMEM_NID cfg) lk m0 (contents (lists s) (heads (in_flight s))) m' promo demo ->
  zlen ch = zlen (excg_req s) -> concat ch ≡ₚ Exch ph dh :: concat (excg_req s) ->
  sys_inv (leaked_by promo demo ++ lk) (set_excg_req ch (set_mrs mrs' (set_rt rt'
             (set_folios m' (<[dh := demo]> (<[ph := promo]> (lists s))) s)))).
Proof.
  intros Hown Hb Hc Hz Hmrs Hq Hrsp Hfp Hfd (f & Hr & Hf) Hz' (_ & _ & _ & Hiso) Hch Hperm.
  set (hs := heads (in_flight s)) in *. set (s' := set_excg_req _ _).
  assert (heads (in_flight s') ≡ₚ ph :: dh :: hs) as Hh.
  { unfold in_flight, s'. simpl. rewrite Hperm. done. }
  pose proof Hown as (_ & Hsome & _).
  assert (ph ∉ hs) as Hp by (intros H; apply Hfp, elem_of_dom, Hsome, H).
  assert (dh ∉ hs) as Hd by (intros H; apply Hfd, elem_of_union_r, elem_of_dom, Hsome, H).
  split; [rewrite Hh; apply owned_add; set_solver|]. split; [|split; [done|split; [|split]]].
  - rewrite Hh, !contents_cons. simpl.
    rewrite !contents_insert by set_solver.
    rewrite lookup_insert_ne, !lookup_insert_eq by set_solver. simpl.
    eapply isolated_with_perm; [|exact Hiso]. solve_Permutation.
  - exists (f <$> rs). split; [done|]. split; [|unfold zlen in *; by rewrite length_fmap].
    intros a. rewrite <- Hc. unfold covered, covers. setoid_rewrite list_elem_of_fmap. split.
    + intros (r & (r' & -> & Hin) & Hx). exists r'. destruct (Hf r') as [<- <-]. done.
    + intros (r & Hin & Hx). exists (f r). destruct (Hf r) as [-> ->]. eauto.
  - simpl. lia.
  - simpl. lia.
Qed.

(** No range is left below the fast-memory threshold. *)
Definition threshold_zero (vmas : list vm_area_struct) (follow_page : vm_area_struct -> Z -> option Z)
    (avail : Z -> Z) (rt : rt_state M) s : Prop :=
  exists rt' mrs rlen sp,
    rt_rank vmas follow_page (FMEM_NID cfg) (SMEM_NID cfg) (s_mem s) rt (s_mrs s) (len (RangeTree.rt rt)) =
      Ok (rt', mrs, rlen) /\
    thresholds rt' mrs rlen (avail (FMEM_NID cfg)) (avail (SMEM_NID cfg)) = Ok (sp, 0).

Lemma sent_none cpu s s' : excg_req s' = excg_req s -> sent cpu s s' = [].
Proof. intros H. unfold sent. rewrite H. by rewrite decide_True. Qed.

(** Sending a request keeps the invariant, or the promotion loop leaves the
    array. *)
Lemma policy_send_inv lk vmas follow_page avail cpu s :
  area_pages vmas < 2 ^ 31 -> on_cpu cpu -> sys_inv lk s ->
  (exists ret s', policy_send cfg vmas follow_page avail cpu s = Ok (ret, s') /\
     sys_inv (leaks (sent cpu s s') ++ lk) s') \/
  policy_send cfg vmas follow_page avail cpu s = Fault OutOfBounds /\
    threshold_zero vmas follow_page avail (s_rt s) s.
Proof.
  intros Hw Hcpu Hinv. unfold policy_send.
  pose proof (kmem_cache_alloc_cases (dom (lists s))) as Hph.
  set (ph := kmem_cache_alloc (dom (lists s))) in *.
  pose proof (kmem_cache_alloc_cases ({[ph]} ∪ dom (lists s))) as Hdh.
  set (dh := kmem_cache_alloc ({[ph]} ∪ dom (lists s))) in *.
  destruct (Z.leb_spec (min_range (RangeTree.rt (s_rt s))) (rtree_exch_thresh cfg)) as [Hmin|Hmin].
  2: { left. unfold policy_send_exch_reqs. rewrite (proj2 (Z.ltb_lt _ _)) by lia.
       cbn [mbind res_bind]. eexists _, _. split; [reflexivity|].
       cbn [andb]. by rewrite sent_none. }
  destruct Hph as [Hph|[Hph Hfp]].
  { left. unfold policy_send_exch_reqs. rewrite (proj2 (Z.ltb_ge _ _)) by lia. rewrite Hph.
    cbn -[set_folios]. eexists _, _. split; [reflexivity|]. by rewrite sent_none. }
  destruct Hdh as [Hdh|[Hdh Hfd]].
  { left. unfold policy_send_exch_reqs. rewrite (proj2 (Z.ltb_ge _ _)) by lia.
    rewrite TRY_pointer by done. rewrite Hdh. change (TRY true 0) with (@inl Z Z (- EFAULT)).
    cbn -[set_folios]. destruct (Z.eqb_spec ph 0) as [?|Hne]; [lia|]. cbn -[set_folios].
    eexists _, _. split; [reflexivity|]. rewrite sent_none by done. by apply leaked_head_inv. }
  destruct Hinv as (Hown & Hiso & Hb & (rs & Hr & Hc & Hz) & Hmrs & Hq & Hrsp).
  destruct (policy_send_cases vmas follow_page (FMEM_NID cfg) (SMEM_NID cfg) (rtree_exch_thresh cfg)
      (avail (FMEM_NID cfg)) (avail (SMEM_NID cfg)) ph dh (s_rt s) rs (s_mrs s) (s_mem s) lk m0 _
      Hr ltac:(lia) ltac:(rewrite Hmrs; done) Hw Hmin Hph Hdh Hiso)
    as (rt' & mrs' & rlen & sp & f & Hrank & Hrt & Hr' & Hz' & Hth & _ & Hcases).
  destruct Hcases as [(_ & m' & promo & demo & -> & Hsent)|[-> ->]]; [left|right; split; [done|by exists rt', mrs', rlen, sp]].
  cbn [mbind res_bind]. simpl.
  destruct (mpsc_send_spec (excg_req s) cpu (Exch ph dh)) as (ch & Esend & Hch & Hperm);
    [unfold on_cpu in Hcpu; lia|].
  rewrite Esend. cbn [mbind res_bind]. eexists _, _. split; [reflexivity|].
  set (s' := set_excg_req ch _). assert (sent cpu s s' = [(promo, demo)]) as ->.
  { unfold sent. rewrite decide_False.
    - simpl. rewrite (mpsc_send_last _ _ _ _ Esend). simpl.
      rewrite lookup_insert_ne, !lookup_insert_eq by set_solver. done.
    - simpl. apply Permutation_length in Hperm. simpl in Hperm. lia. }
  unfold leaks. cbn [mbind list_bind]. rewrite app_nil_r.
  apply (request_sent_inv s ph dh m' promo demo lk rt' mrs' ch rs); try done.
  eexists. split; [exact Hr'|]. intros r.
  destruct (rank_range_keeps vmas follow_page (FMEM_NID cfg) (SMEM_NID cfg) (s_mem s) r) as (? & ? & _).
  done.
Qed.

(** One split request: handled, or stopped by the promotion loop or because memory
    ran out. *)
Definition split_outcome lk vmas follow_page avail cpu s (r : res (bool * sys M)) : Prop :=
  (exists s', r = Ok (false, s') /\ sys_inv (leaks (sent cpu s s') ++ lk) s') \/
  (r = Fault OutOfBounds /\ exists rt, rt_split (rtree_split_thresh cfg) (num_online_cpus cfg) (s_rt s) = Ok rt /\
     threshold_zero vmas follow_page avail rt s) \/
  (r = Fault BugOn /\ rt_split (rtree_split_thresh cfg) (num_online_cpus cfg) (s_rt s) = Fault BugOn /\ oom M K).

Lemma policy_split_body_inv lk vmas follow_page avail cpu id s :
  area_pages vmas < 2 ^ 31 -> on_cpu cpu -> sys_inv lk s ->
  split_outcome lk vmas follow_page avail cpu s (policy_split_body cfg vmas follow_page avail cpu id s).
Proof.
  intros Hw Hcpu Hinv. pose proof Hinv as (_ & _ & _ & (rs & Hr & Hc & Hz) & _).
  unfold policy_split_body, split_outcome.
  destruct (rt_split_keeps (s_rt s) rs (rtree_split_thresh cfg) (num_online_cpus cfg) Hr)
    as [(rt' & -> & rs' & Hr' & Hc' & Hz' & _)|[-> Hoom]]; [|by right; right]. cbn [mbind res_bind].
  assert (sys_inv lk (set_rt rt' s)) as Hinv'.
  { apply (set_rt_inv lk s rt' rs'); [done|done| |lia]. intros a. by rewrite Hc', Hc. }
  destruct (_ =? 0); [left; eexists; split; [done|]; by rewrite sent_none|].
  destruct (policy_send_inv lk vmas follow_page avail cpu _ Hw Hcpu Hinv') as [(ret & s' & -> & Hs')|[-> H0]];
    [left|right; left]; cbn [mbind res_bind]; eauto.
Qed.

Lemma policy_handle_samples_inv lk mm s :
  sys_inv lk s ->
  exists ch c rt, policy_handle_samples (victim cfg) mm (samplech s) (s_rt s) = Ok (ch, c, rt) /\
    sys_inv lk (set_rt rt (set_samplech ch s)).
Proof.
  intros Hinv. pose proof Hinv as (_ & _ & _ & (rs & Hr & Hc & Hz) & _).
  destruct (policy_handle_samples_keeps (victim cfg) mm (samplech s) (s_rt s) rs Hr)
    as (ch & c & rt' & rs' & -> & Hr' & Hz' & Hc').
  exists ch, c, rt'. split; [done|]. apply (set_rt_inv lk (set_samplech ch s) rt' rs'); [done|done| |lia].
  intros a. by rewrite Hc', Hc.
Qed.

Lemma sys_step_inv lk s reqs s' : sys_step cfg s reqs s' -> sys_inv lk s -> sys_inv (leaks reqs ++ lk) s'.
Proof.
  intros Hstep Hinv. destruct Hstep as [s cpu x ch H|s cpu id ch H|s mm ch c rt H
    |s i id q vmas fp avail cpu out s' Hi Hw Hcpu H|s i rsp q out s' Hi H|s i req q cpu out s' Hi Hcpu H].
  - done.
  - done.
  - destruct (policy_handle_samples_inv lk mm s Hinv) as (? & ? & ? & H' & Hinv'). rewrite H in H'. by injection H' as <- <- <-.
  - destruct (policy_split_body_inv lk vmas fp avail cpu id (set_splt_req (<[i := q]> (splt_req s)) s)
                Hw Hcpu Hinv) as [(s1 & H1 & Hinv1)|[[H1 _]|[H1 _]]]; [|congruence..].
    assert (s1 = s') as <- by congruence. exact Hinv1.
  - destruct (policy_rsp_body_inv _ _ _ _ (recv_rsp_inv lk s i rsp q Hinv Hi)) as (s1 & H1 & Hinv1 & E1 & E2).
    assert (s1 = s') as <- by congruence. unfold sys_inv, in_flight in *. by rewrite E1, E2.
  - destruct (migration_body_inv _ cpu _ _ _ Hcpu (recv_req_inv lk s i req q Hinv Hi))
      as (s1 & H1 & Hinv1 & E1).
    assert (s1 = s') as <- by congruence. unfold sys_inv, in_flight in *. by rewrite E1.
Qed.

(** The state in which the threads start. *)
Definition initial (rt : rt_state M) (b : gmap Z Z) : sys M :=
  let n := Z.to_nat (num_online_cpus cfg) in
  Sys m0 ∅ (replicate n []) (replicate n []) (replicate n []) (replicate n []) b rt
    (replicate (Z.to_nat RTREE_MAX_SIZE) 0).

Lemma concat_replicate_nil {A} n : concat (replicate n (@nil A)) = [].
Proof. induction n; done. Qed.

Lemma reachable_inv rt b reqs s :
  rt_repr rt rs0 -> zlen rs0 <= RTREE_MAX_SIZE -> bset_ok b -> 0 <= num_online_cpus cfg ->
  sys_run cfg (initial rt b) reqs s -> sys_inv (leaks reqs) s.
Proof.
  intros Hr Hz Hb Hn Hrun. induction Hrun as [|reqs s sent s' _ IH Hs].
  - unfold sys_inv, inv_msgs, in_flight, initial.
    cbn [excg_req excg_rsp lists s_mem s_bset s_rt s_mrs]. rewrite !concat_replicate_nil.
    cbn [app heads].
    split; [|split; [|split; [done|split; [by exists rs0|]]]].
    + split; [constructor|]. split; [intros h ?%elem_of_nil; done|]. intros h l Hl. by apply (lookup_empty_Some h l) in Hl.
    + by apply isolated_from_nil.
    + unfold zlen. rewrite !length_replicate. unfold RTREE_MAX_SIZE. lia.
  - unfold leaks in *. rewrite bind_app. by apply (sys_step_inv _ s).
Qed.

(** ** The properties *)

(** C1: over every interleaving of the threads (sampling, split requests, the
    policy thread, the migration thread), from the initial state of a policy whose
    tree is well formed and has at most as many ranges as the array, and as long as
    the address spaces walked have fewer than 2^31 pages: the list heads
    belong to exactly one request or response in flight; the folios off the LRU
    are exactly those linked into these lists, each once, with matching isolation
    statistics; the references that were not there at first are one per folio of
    the lists and one to the last demoted folio of each request sent whose lists
    had the same length ([leaked_by]); and the tree still covers the same
    addresses.  The handlers of samples, responses and exchange requests cannot
    fault at their next message.  That of a split request stops only in two ways: the promotion loop runs out of
    the array, and then the fast-memory threshold has reached the first range; or
    memory runs out while ranges are split. *)
Theorem system_invariant rt b reqs s :
  rt_repr rt rs0 -> zlen rs0 <= RTREE_MAX_SIZE -> bset_ok b -> 0 <= num_online_cpus cfg ->
  sys_run cfg (initial rt b) reqs s ->
  NoDup (heads (in_flight s)) /\
  isolated_with (leaks reqs) m0 (s_mem s) (contents (lists s) (heads (in_flight s))) /\
  (exists rs, rt_repr (s_rt s) rs /\ (forall a, covered rs a <-> covered rs0 a)) /\
  (forall i req q cpu, excg_req s !! i = Some (req :: q) -> on_cpu cpu ->
     is_ok (migration_body cpu req (set_excg_req (<[i := q]> (excg_req s)) s)) = true) /\
  (forall i rsp q, excg_rsp s !! i = Some (rsp :: q) ->
     is_ok (policy_rsp_body rsp (set_excg_rsp (<[i := q]> (excg_rsp s)) s)) = true) /\
  (forall mm, is_ok (policy_handle_samples (victim cfg) mm (samplech s) (s_rt s)) = true) /\
  (forall vmas follow_page avail cpu id, area_pages vmas < 2 ^ 31 -> on_cpu cpu ->
     let split := rt_split (rtree_split_thresh cfg) (num_online_cpus cfg) (s_rt s) in
     match policy_split_body cfg vmas follow_page avail cpu id s with
     | Ok _ => True
     | Fault OutOfBounds => exists rt', split = Ok rt' /\ threshold_zero vmas follow_page avail rt' s
     | Fault BugOn => split = Fault BugOn /\ oom M K
     | Fault _ => False
     end).
Proof.
  intros Hr Hz Hb Hn Hrun. pose proof (reachable_inv rt b reqs s Hr Hz Hb Hn Hrun) as Hinv.
  pose proof Hinv as ((Hnd & _) & Hiso & _ & (rs & Hrs & Hc & _) & _).
  split_and!; [done|done|by exists rs| | | |].
  - intros i req q cpu Hi Hcpu.
    by destruct (migration_body_inv _ cpu _ _ _ Hcpu (recv_req_inv _ s i req q Hinv Hi)) as (? & -> & _).
  - intros i rsp q Hi.
    by destruct (policy_rsp_body_inv _ _ _ _ (recv_rsp_inv _ s i rsp q Hinv Hi)) as (? & -> & _).
  - intros mm. by destruct (policy_handle_samples_inv _ mm s Hinv) as (? & ? & ? & -> & _).
  - intros vmas fp avail cpu id Hw Hcpu split.
    by destruct (policy_split_body_inv _ vmas fp avail cpu id s Hw Hcpu Hinv) as [(? & -> & _)|[[-> H]|[-> H]]].
Qed.

(** Draining the requests, and the responses. *)
Lemma migration_run lk cpu l s :
  on_cpu cpu -> inv_msgs lk (l ++ concat (excg_rsp s)) s ->
  exists s', run (migration_body cpu) l s = Ok (false, [], s') /\
    inv_msgs lk (concat (excg_rsp s')) s' /\ excg_req s' = excg_req s.
Proof.
  intros Hcpu. induction l as [|req l IH] in s |- *; intros Hinv; cbn [run]; [by exists s|].
  destruct (migration_body_inv lk cpu req l s Hcpu Hinv) as (s1 & -> & Hinv1 & E). cbn [mbind res_bind].
  destruct (IH s1 Hinv1) as (s2 & H2 & Hinv2 & E2). exists s2. by rewrite E2.
Qed.

Lemma policy_rsp_run lk l s :
  inv_msgs lk l s ->
  exists s', run policy_rsp_body l s = Ok (false, [], s') /\ inv_msgs lk [] s' /\
    excg_req s' = excg_req s /\ excg_rsp s' = excg_rsp s.
Proof.
  induction l as [|rsp l IH] in s |- *; intros Hinv; cbn [run]; [by exists s|].
  destruct (policy_rsp_body_inv lk rsp l s Hinv) as (s1 & -> & Hinv1 & E1 & E2). cbn [mbind res_bind].
  destruct (IH s1 Hinv1) as (s2 & H2 & Hinv2 & E3 & E4). exists s2. by rewrite E3, E4.
Qed.

(** C2: nothing is lost: from any state reached by a policy that started with a
    well-formed tree of at most as many ranges as the array holds, and walked address
    spaces of fewer than 2^31 pages, once the migration thread has
    drained the requests and the policy thread the responses, which neither can
    fail to do, no message is left, every list is empty, LRU membership and
    isolation statistics are those of the beginning, and the references are those
    of the beginning but for the ones the walks of the policy thread have leaked:
    one to the last demoted folio of every request sent so far whose promotion and
    demotion lists had the same length. *)
Theorem system_drains rt b reqs s cpu :
  rt_repr rt rs0 -> zlen rs0 <= RTREE_MAX_SIZE -> bset_ok b -> 0 <= num_online_cpus cfg ->
  sys_run cfg (initial rt b) reqs s -> on_cpu cpu ->
  exists s1 s2, migration_handle_requests cpu s = Ok s1 /\ policy_handle_exch_rsps s1 = Ok s2 /\
    in_flight s2 = [] /\ (forall h l, lists s2 !! h = Some l -> l = []) /\
    (forall g, on_lru (s_mem s2) g = on_lru m0 g) /\
    (forall n k, nr_isolated (s_mem s2) n k = nr_isolated m0 n k) /\
    (forall g, refs (s_mem s2) g = refs m0 g + count (leaks reqs) g).
Proof.
  intros Hr Hz Hb Hn Hrun Hcpu. pose proof (reachable_inv rt b reqs s Hr Hz Hb Hn Hrun) as Hinv.
  destruct (migration_run _ cpu _ s Hcpu Hinv) as (s1 & H1 & Hinv1 & _).
  destruct (mpsc_for_each_run _ _ _ _ _ _ H1) as (ch1 & E1 & Hc1).
  destruct (policy_rsp_run (leaks reqs) (concat (excg_rsp s1)) (set_excg_req ch1 s1)) as (s2 & H2 & Hinv2 & Ereq & Ersp).
  { pose proof (mpsc_for_each_length _ _ _ _ _ E1) as Hlen.
    destruct Hinv as (_ & _ & _ & _ & _ & Hq & _). unfold inv_msgs, zlen in *. simpl.
    rewrite Hlen, Hq. split_and!; apply Hinv1 || done. }
  destruct (mpsc_for_each_run _ _ _ _ _ _ H2) as (ch2 & E2 & Hc2).
  exists (set_excg_req ch1 s1), (set_excg_rsp ch2 s2). unfold migration_handle_requests, policy_handle_exch_rsps.
  rewrite E1. cbn [mbind res_bind]. split; [done|].
  replace (excg_rsp (set_excg_req ch1 s1)) with (excg_rsp s1) by done. rewrite E2.
  destruct Hinv2 as ((_ & _ & Hl) & (_ & _ & Hlru & Hrefs & Hst) & _).
  split; [done|]. unfold in_flight. simpl. rewrite Ereq. simpl. rewrite Hc1, Hc2. simpl.
  split_and!; [done| | | |].
  - intros h l Hh. apply Hl in Hh as [Hh|Hh]; [by apply elem_of_nil in Hh|done].
  - intros g. rewrite Hlru. simpl. apply andb_true_r.
  - intros n k. rewrite Hst. simpl. lia.
  - intros g. rewrite Hrefs. simpl. lia.
Qed.
End system.

(** ** The initial tree *)

Section init.
Context {M : MapleTree} {ML : MapleLaws M} {NO : MapleNoOom M}.
Context {K : Kmalloc} {KL : KmallocLaws K} {KN : KmallocNoOom K}.

Lemma ALIGN_DOWN_eq x : ALIGN_DOWN x (2 ^ 30) = x / 2 ^ 30 * 2 ^ 30.
Proof.
  unfold ALIGN_DOWN. change (2 ^ 30 - 1) with (Z.ones 30).
  rewrite <- Z.ldiff_land, Z.ldiff_ones_r by lia.
  by rewrite Z.shiftr_div_pow2, Z.shiftl_mul_pow2 by lia.
Qed.

Lemma ALIGN_eq x : 0 <= x < 2 ^ 64 - 2 ^ 30 -> ALIGN x (2 ^ 30) = (x + (2 ^ 30 - 1)) / 2 ^ 30 * 2 ^ 30.
Proof.
  intros. unfold ALIGN. rewrite u64_small by (unfold is_u64; lia).
  fold (ALIGN_DOWN (x + (2 ^ 30 - 1)) (2 ^ 30)). apply ALIGN_DOWN_eq.
Qed.

(** the policy thread starts with a well-formed tree of two ranges, twice
    the size of memory rounded up to gigabytes: one from the start of the heap
    upwards, one that ends above the base of the mappings, provided that memory
    is not empty, the heap lies below the mappings by more than both ranges and
    nothing wraps around. *)
Theorem policy_init_covers totalram mem_unit start_brk mmap_base :
  0 < totalram -> 0 < mem_unit -> 0 <= start_brk -> mmap_base < 2 ^ 62 ->
  start_brk + 4 * (totalram * mem_unit) + 2 ^ 32 <= mmap_base ->
  exists rt cov, policy_init totalram mem_unit start_brk mmap_base = Ok rt /\
    2 * (totalram * mem_unit) <= cov /\
    rt_repr rt [Mrange (ALIGN_DOWN start_brk (2 ^ 30)) (ALIGN_DOWN start_brk (2 ^ 30) + cov) 0 0 0 0;
                Mrange (ALIGN mmap_base (2 ^ 30) - cov) (ALIGN mmap_base (2 ^ 30)) 0 0 0 0] /\
    ALIGN_DOWN start_brk (2 ^ 30) <= start_brk /\ mmap_base <= ALIGN mmap_base (2 ^ 30).
Proof.
  intros Ht Hu Hs Hm Hgap.
  assert (0 < totalram * mem_unit) as Hpos by nia. unfold policy_init.
  rewrite (u64_small (totalram * mem_unit)) by (unfold is_u64; lia).
  set (ram := totalram * mem_unit) in *.
  rewrite (ALIGN_eq ram), ALIGN_DOWN_eq, (ALIGN_eq mmap_base) by lia.
  set (gb := (ram + (2 ^ 30 - 1)) / 2 ^ 30). set (lo := start_brk / 2 ^ 30).
  set (hi := (mmap_base + (2 ^ 30 - 1)) / 2 ^ 30).
  unfold RMT_INITIAL_SIZE_FACTOR.
  assert (1 <= gb /\ ram <= gb * 2 ^ 30 <= ram + 2 ^ 30) as [Hgb Hram] by (subst gb; dlia).
  assert (0 <= lo /\ lo * 2 ^ 30 <= start_brk) as [Hlo Hlo'] by (subst lo; dlia).
  assert (mmap_base <= hi * 2 ^ 30 <= mmap_base + 2 ^ 30) as Hhi by (subst hi; dlia).
  rewrite (u64_small (2 * (gb * 2 ^ 30))) by (unfold is_u64; lia).
  set (cov := 2 * (gb * 2 ^ 30)) in *.
  rewrite (u64_small (lo * 2 ^ 30 + cov)), (u64_small (hi * 2 ^ 30 - cov))
    by (unfold is_u64; lia).
  assert (forall k, 0 <= k * 2 ^ 30 < 2 ^ 63 -> round_down (k * 2 ^ 30) RTREE_GRANULARITY = k * 2 ^ 30) as Hrd.
  { intros k Hk. rewrite round_down_eq by (unfold is_u64; lia). unfold RTREE_GRANULARITY. dlia. }
  assert (forall k, 0 < k * 2 ^ 30 < 2 ^ 63 -> round_up (k * 2 ^ 30) RTREE_GRANULARITY = k * 2 ^ 30) as Hru.
  { intros k Hk. rewrite round_up_eq by (unfold RTREE_GRANULARITY; lia). unfold RTREE_GRANULARITY. dlia. }
  assert (lo * 2 ^ 30 + cov = (lo + 2 * gb) * 2 ^ 30) as Hc1 by lia.
  assert (hi * 2 ^ 30 - cov = (hi - 2 * gb) * 2 ^ 30) as Hc2 by lia.
  destruct (rt_init_spec (lo * 2 ^ 30) (lo * 2 ^ 30 + cov)) as (rt1 & -> & Hr1 & Hage1 & _);
    [unfold is_u64; lia|unfold RTREE_GRANULARITY; lia
    |rewrite Hc1, Hrd, Hru by lia; unfold ULONG_MAX; lia|].
  cbn [mbind res_bind].
  destruct (rt_insert_spec rt1 [_] [] (hi * 2 ^ 30 - cov) (hi * 2 ^ 30) Hr1) as (rt2 & -> & Hr2 & _);
    [done|unfold is_u64; lia|unfold RTREE_GRANULARITY; lia
    |simpl; rewrite Hc2, Hrd, Hru by lia; unfold ULONG_MAX; lia
    |intros x ->%list_elem_of_singleton; simpl; rewrite Hc1, Hc2, Hrd, Hru by lia; lia
    |intros x ?%elem_of_nil; done|].
  cbn [mbind res_bind]. pose proof Hr2 as [_ Hl2]. rewrite Hl2. cbn [mbind res_bind].
  exists rt2, cov. simpl in Hr2. rewrite Hage1, Hc1, Hc2, !Hrd, !Hru in Hr2 by lia.
  rewrite Hc1, Hc2. split; [done|]. split; [lia|]. split; [exact Hr2|]. lia.
Qed.
End init.

(** ** Witnesses *)

#[local] Existing Instances ListMaple.M ListMaple.laws ListMaple.no_oom
  SupKmalloc.K SupKmalloc.laws SupKmalloc.no_oom
  ListFolios.F ListFolios.laws InsertionSort.S InsertionSort.laws.

Module SystemDemo.
Import RangeTreeProps.Demo.

Definition cfg : config := Config 15 (2 ^ 30) 2 42 0 1.
Definition start_state : sys ListMaple.M := initial cfg ListFolios.m state ∅.

(** A split request arrives and is handled: the hot range is split and an
    exchange request is sent. *)
Definition splitting : res (bool * sys ListMaple.M) :=
  match mpsc_send (splt_req start_state) 1 7 with
  | Ok ch => policy_split_body cfg PolicyDemo.vmas PolicyDemo.follow_page (fun _ => 1000) 0 7
               (set_splt_req (<[1%nat := []]> ch) (set_splt_req ch start_state))
  | Fault f => Fault f
  end.

Lemma splitting_sends :
  match splitting with Ok (_, s) => length (concat (excg_req s)) | Fault _ => 0%nat end = 1%nat.
Proof. vm_compute. reflexivity. Qed.

Lemma reachable : exists reqs s, sys_run cfg start_state reqs s /\ length (concat (excg_req s)) = 1%nat.
Proof.
  pose proof splitting_sends as H. destruct splitting as [[b s]|] eqn:E; [|discriminate H].
  unfold splitting in E. destruct (mpsc_send (splt_req start_state) 1 7) as [ch|] eqn:Ec; [|discriminate E].
  eexists _, s. split; [|exact H].
  eapply run_step; [eapply run_step; [apply run_start|by apply step_main with (cpu := 1) (id := 7)]|].
  apply (step_split cfg _ 1 7 [] PolicyDemo.vmas PolicyDemo.follow_page (fun _ => 1000) 0 b);
    [|vm_compute; reflexivity|simpl; lia|exact E].
  vm_compute in Ec. injection Ec as <-. reflexivity.
Qed.
End SystemDemo.

Lemma system_invariant_witness :
  exists reqs s, sys_run SystemDemo.cfg SystemDemo.start_state reqs s /\
    length (concat (excg_req s)) = 1%nat /\
    forall i req q, excg_req s !! i = Some (req :: q) ->
      is_ok (migration_body 0 req (set_excg_req (<[i := q]> (excg_req s)) s)) = true.
Proof.
  destruct SystemDemo.reachable as (reqs & s & Hs & Hl). exists reqs, s. split; [exact Hs|]. split; [exact Hl|].
  intros i req q Hi.
  destruct (system_invariant SystemDemo.cfg ListFolios.m _ _ ∅ reqs s RangeTreeProps.Demo.repr)
    as (_ & _ & _ & H & _).
  - vm_compute. discriminate.
  - apply map_Forall_empty.
  - vm_compute. discriminate.
  - exact Hs.
  - apply H; [exact Hi|]. unfold on_cpu. simpl. lia.
Defined.

Lemma system_drains_witness :
  exists reqs s s1 s2, length (concat (excg_req s)) = 1%nat /\
    migration_handle_requests 1 s = Ok s1 /\ policy_handle_exch_rsps s1 = Ok s2 /\
    (forall g, on_lru (s_mem s2) g = on_lru ListFolios.m g) /\
    (forall g, refs (s_mem s2) g = refs ListFolios.m g + count (leaks reqs) g).
Proof.
  destruct SystemDemo.reachable as (reqs & s & Hs & Hl).
  destruct (system_drains SystemDemo.cfg ListFolios.m _ _ ∅ reqs s 1 RangeTreeProps.Demo.repr)
    as (s1 & s2 & H1 & H2 & _ & _ & H3 & _ & H4).
  - vm_compute. discriminate.
  - apply map_Forall_empty.
  - vm_compute. discriminate.
  - exact Hs.
  - unfold on_cpu. simpl. lia.
  - exists reqs, s, s1, s2. split; [exact Hl|]. split; [exact H1|]. split; [exact H2|]. split; [exact H3|exact H4].
Defined.

Lemma policy_init_covers_witness :
  exists rt cov, policy_init 262144 4096 (93824992231424) 140737488351232 = Ok rt /\
    2 * 2 ^ 30 <= cov.
Proof.
  destruct (policy_init_covers 262144 4096 93824992231424 140737488351232)
    as (rt & cov & H & Hc & _); [lia|lia|lia|lia|lia|].
  exists rt, cov. split; [exact H|lia].
Defined.
