(* ===== verification/Exchange.v ===== *)
(** The exchange of two folios (mm/exchange.c): locking, checks, unmapping, the
    swap of mappings, file-system private data, contents and flags, and the
    mapping of each folio where the other was.

    Kernel code the file calls is a parameter ([ExchangeEnv]): bit positions,
    page-cache and buffer-head callbacks, and the reverse map.  A page is its
    frame number, with its 512 words; a page-table entry maps a page or is the
    migration entry of one; references of a folio other than those of page tables
    are its [fl_refs].  The pins on anon_vma structures, the deferred-split
    queue of large folios, the TLB and log messages are left out. *)
From S2P Require Import Prelude Kernel.
From stdpp Require Import base numbers list gmap.
From Stdlib Require Import ZArith Lia.
Open Scope Z_scope.

Inductive migrate_mode := MIGRATE_ASYNC | MIGRATE_SYNC_LIGHT | MIGRATE_SYNC | MIGRATE_SYNC_NO_COPY.
Inductive parallel_mode := PARALLEL_SINGLE | PARALLEL_2THREAD | PARALLEL_4THREAD | PARALLEL_8THREAD.

#[export] Instance migrate_mode_eq_dec : EqDecision migrate_mode.
Proof. solve_decision. Defined.

(** [a_ops->migrate_folio]: NULL, one of the three known functions, another. *)
Inductive migrate_fn := fn_none | migrate_folio | buffer_migrate_folio | filemap_migrate_folio | fn_other.

Inductive pageflag :=
  | PG_writeback | PG_referenced | PG_uptodate | PG_dirty | PG_waiters | PG_active
  | PG_workingset | PG_error | PG_swapcache | PG_checked | PG_private | PG_mappedtodisk
  | PG_readahead | PG_swapbacked | PG_unevictable | PG_young | PG_idle | PG_mlocked.

#[export] Instance pageflag_eq_dec : EqDecision pageflag.
Proof. solve_decision. Defined.

Inductive vm_event :=
  | FOLIO_EXCHANGE | FOLIO_EXCHANGE_SUCCESS | FOLIO_EXCHANGE_FAILED
  | FOLIO_EXCHANGE_FAILED_LOCK | FOLIO_EXCHANGE_FAILED_SUPPORT | FOLIO_EXCHANGE_FAILED_MOVE.

Inductive stat_item :=
  | NR_SHMEM | NR_SHMEM_THPS | NR_SWAPCACHE | NR_FILE_DIRTY | NR_ZONE_WRITE_PENDING.

Record folio := Folio {
  fl_flags : Z; fl_mapping : Z; fl_index : Z; fl_private : Z;
  fl_refs : Z; fl_memcg : Z; fl_locked : bool }.

Inductive pte := Present (pfn : Z) | Migration (pfn : Z).

#[export] Instance pte_eq_dec : EqDecision pte.
Proof. solve_decision. Defined.

Record buffer_head := BufferHead { b_folio : Z; b_this_page : Z; b_locked : bool }.

(** [stats]: the changes made to the counters of an lruvec (group and zone) or,
    with group 0, of a zone. *)
Record world := World {
  folios : gmap Z folio;
  pages : gmap Z (list Z);
  ptes : gmap Z pte;
  i_pages : gmap (Z * Z) Z;
  buffers : gmap Z buffer_head;
  events : list vm_event;
  stats : list (Z * Z * stat_item * Z);
}.

Definition PAGE_SIZE : Z := 4096.
Definition EPERM : Z := 1.
Definition EBUSY : Z := 16.

Class ExchangeEnv := {
  CONFIG_DEBUG_VM : bool;
  CONFIG_PAGE_IDLE_FLAG : bool;
  PG : pageflag -> Z;
  (** first page frame, number of pages and zone of a folio *)
  folio_page : Z -> Z;
  folio_nr_pages : Z -> Z;
  folio_zone : Z -> Z;
  folio_test_pmd_mappable : Z -> bool;
  (** the address space of a folio, 0 for none *)
  folio_mapping : folio -> Z;
  folio_index : folio -> Z;
  a_ops_migrate_folio : Z -> migrate_fn;
  mapping_unmovable : Z -> bool;
  mapping_can_writeback : Z -> bool;
  folio_expected_refs : Z -> folio -> Z;
  writeout : Z -> Z -> world -> Z * world;
  filemap_release_folio : Z -> world -> bool * world;
  buffer_migrate_lock_buffers : Z -> world -> bool * world;
  try_to_free_buffers : Z -> world -> world;
  (** PF_MEMALLOC of the current task *)
  memalloc : bool;
  (** the reverse map: the addresses that a folio with this mapping, index and
      number of pages can be mapped at *)
  rmap : Z -> Z -> Z -> Z -> bool;
  (** walks the reverse map of a folio: the folio, its mapping and index *)
  try_to_migrate : Z -> Z -> Z -> gmap Z pte -> gmap Z pte;
  (** walks the reverse map of the destination: the source and its index, the
      destination, its mapping and index *)
  remove_migration_ptes : Z -> Z -> Z -> Z -> Z -> gmap Z pte -> gmap Z pte;
  (** the order in which the workers of a page run *)
  schedule : list (Z * Z) -> list (Z * Z);
}.

(** ** Computations on the world *)

Definition X (A : Type) : Type := world -> res (A * world).

#[export] Instance X_ret : MRet X := fun A a w => Ok (a, w).
#[export] Instance X_bind : MBind X := fun A B k c w => '(a, w) ← c w; k a w.

Definition fail {A} (f : fault) : X A := fun _ => Fault f.
Definition put (g : world -> world) : X unit := fun w => Ok (tt, g w).
Definition call {A} (g : world -> A * world) : X A := fun w => Ok (g w).
Definition gets {A} (g : world -> A) : X A := fun w => Ok (g w, w).

Definition set_folios (v : gmap Z folio) (w : world) : world :=
  World v (pages w) (ptes w) (i_pages w) (buffers w) (events w) (stats w).
Definition set_pages (v : gmap Z (list Z)) (w : world) : world :=
  World (folios w) v (ptes w) (i_pages w) (buffers w) (events w) (stats w).
Definition set_ptes (v : gmap Z pte) (w : world) : world :=
  World (folios w) (pages w) v (i_pages w) (buffers w) (events w) (stats w).
Definition set_i_pages (v : gmap (Z * Z) Z) (w : world) : world :=
  World (folios w) (pages w) (ptes w) v (buffers w) (events w) (stats w).
Definition set_buffers (v : gmap Z buffer_head) (w : world) : world :=
  World (folios w) (pages w) (ptes w) (i_pages w) v (events w) (stats w).

Definition get_folio (f : Z) : X folio :=
  fun w => v ← of_option BadPointer (folios w !! f); Ok (v, w).
Definition set_folio (f : Z) (v : folio) : X unit := put (fun w => set_folios (<[f := v]> (folios w)) w).
Definition update_folio (f : Z) (g : folio -> folio) : X unit := v ← get_folio f; set_folio f (g v).

Definition count_vm_event (e : vm_event) : X unit :=
  put (fun w => World (folios w) (pages w) (ptes w) (i_pages w) (buffers w) (e :: events w) (stats w)).
Definition mod_state (memcg zone : Z) (i : stat_item) (d : Z) : X unit :=
  put (fun w => World (folios w) (pages w) (ptes w) (i_pages w) (buffers w) (events w)
                  ((memcg, zone, i, d) :: stats w)).

Fixpoint loop_n (n : nat) (i : Z) (body : Z -> X unit) : X unit :=
  match n with
  | O => mret tt
  | S n => _ ← body i; loop_n n (i + 1) body
  end.

(** [for (i = 0; i < n; i++) body] *)
Definition loop (n : Z) (body : Z -> X unit) : X unit := loop_n (Z.to_nat n) 0 body.

Definition with_flags (v : Z) (f : folio) : folio :=
  Folio v (fl_mapping f) (fl_index f) (fl_private f) (fl_refs f) (fl_memcg f) (fl_locked f).
Definition with_mapping (v i : Z) (f : folio) : folio :=
  Folio (fl_flags f) v i (fl_private f) (fl_refs f) (fl_memcg f) (fl_locked f).
Definition with_private (v : Z) (f : folio) : folio :=
  Folio (fl_flags f) (fl_mapping f) (fl_index f) v (fl_refs f) (fl_memcg f) (fl_locked f).
Definition with_refs (v : Z) (f : folio) : folio :=
  Folio (fl_flags f) (fl_mapping f) (fl_index f) (fl_private f) v (fl_memcg f) (fl_locked f).
Definition with_memcg (v : Z) (f : folio) : folio :=
  Folio (fl_flags f) (fl_mapping f) (fl_index f) (fl_private f) (fl_refs f) v (fl_locked f).
Definition with_locked (v : bool) (f : folio) : folio :=
  Folio (fl_flags f) (fl_mapping f) (fl_index f) (fl_private f) (fl_refs f) (fl_memcg f) v.

(** The lowest bit of [mapping] marks an anonymous folio. *)
Definition folio_test_anon (f : folio) : bool := Z.testbit (fl_mapping f) 0.

Section exchange.
Context {E : ExchangeEnv}.

Definition test_flag (n : pageflag) (f : folio) : bool := Z.testbit (fl_flags f) (PG n).

(** [VM_BUG_ON_FOLIO(cond, ...)]: without CONFIG_DEBUG_VM the condition is not
    evaluated at all. *)
Definition VM_BUG_ON (cond : X bool) : X unit :=
  if CONFIG_DEBUG_VM then c ← cond; if (c : bool) then fail BugOn else mret tt else mret tt.

(** [folio] holds page [p]. *)
Definition in_folio (f p : Z) : bool := (folio_page f <=? p) && (p <? folio_page f + folio_nr_pages f).

Definition maps_folio (f : Z) (e : pte) : bool :=
  match e with Present p => in_folio f p | Migration _ => false end.

Definition folio_mapcount (f : Z) (w : world) : Z :=
  Z.of_nat (size (filter (fun '(_, e) => maps_folio f e = true) (ptes w))).
Definition folio_mapped (f : Z) (w : world) : bool := 0 <? folio_mapcount f w.

Definition folio_ref_count (f : Z) : X Z :=
  v ← get_folio f; n ← gets (folio_mapcount f); mret (fl_refs v + n).

(** ** Flags *)

(** [swapbits(a, b, mask)] *)
Definition swapbits (a b mask : Z) : Z * Z :=
  let diff := Z.land (Z.lxor a b) mask in
  (Z.lxor a diff, Z.lxor b diff).

(** [FOLIO_SWAP_FLAG(name)] *)
Definition folio_swap_flag (n : pageflag) (l r : Z) : X unit :=
  fl ← get_folio l; fr ← get_folio r;
  let '(a, b) := swapbits (fl_flags fl) (fl_flags fr) (Z.shiftl 1 (PG n)) in
  _ ← update_folio l (with_flags a);
  update_folio r (with_flags b).

(** The flags [folio_exchange_flags] swaps, in order. *)
Definition exchanged_flags : list pageflag :=
  [PG_error; PG_referenced; PG_uptodate; PG_active; PG_unevictable; PG_workingset; PG_checked;
   PG_mappedtodisk] ++ (if CONFIG_PAGE_IDLE_FLAG then [PG_young; PG_idle] else []) ++
  [PG_writeback; PG_readahead].

Fixpoint swap_flags (ns : list pageflag) (l r : Z) : X unit :=
  match ns with
  | [] => mret tt
  | n :: ns => _ ← folio_swap_flag n l r; swap_flags ns l r
  end.

Definition folio_set_waiters (f : Z) : X unit :=
  update_folio f (fun v => with_flags (Z.lor (fl_flags v) (Z.shiftl 1 (PG PG_waiters))) v).

Definition folio_exchange_flags (old new : Z) : X unit :=
  _ ← swap_flags exchanged_flags old new;
  _ ← folio_set_waiters old;
  _ ← folio_set_waiters new;
  a ← get_folio old; b ← get_folio new;
  _ ← update_folio old (with_memcg (fl_memcg b));
  update_folio new (with_memcg (fl_memcg a)).

(** ** Contents *)

Definition get_page (p : Z) : X (list Z) :=
  fun w => v ← of_option BadPointer (pages w !! p); Ok (v, w).
Definition set_word (p i x : Z) : X unit := fun w =>
  v ← of_option BadPointer (pages w !! p);
  v ← awrite v i x;
  Ok (tt, set_pages (<[p := v]> (pages w)) w).
Definition get_word (p i : Z) : X Z := fun w =>
  v ← of_option BadPointer (pages w !! p); x ← aread v i; Ok (x, w).

(** [swap(old[i], new[i])] *)
Definition swap_word (old new i : Z) : X unit :=
  tmp ← get_word old i;
  y ← get_word new i;
  _ ← set_word old i y;
  set_word new i tmp.

Definition exchange_data_single (old new : Z) : X unit :=
  loop (PAGE_SIZE / 8) (swap_word old new).

(** A work item: offset and size in bytes. *)
Definition exchange_data_parallel_work_fn (old new : Z) (work : Z * Z) : X unit :=
  loop (work.2 / 8) (fun i => swap_word old new (work.1 / 8 + i)).

Fixpoint run_works (old new : Z) (works : list (Z * Z)) : X unit :=
  match works with
  | [] => mret tt
  | work :: works => _ ← exchange_data_parallel_work_fn old new work; run_works old new works
  end.

Definition works (nworkers : Z) : list (Z * Z) :=
  let chunk_size := PAGE_SIZE / nworkers in
  (fun i => (i * chunk_size, chunk_size)) <$> seqZ 0 nworkers.

Definition exchange_data_parallel (old new nworkers : Z) : X unit :=
  run_works old new (schedule (works nworkers)).

Definition exchange_page (par : parallel_mode) (old new : Z) : X unit :=
  match par with
  | PARALLEL_SINGLE => exchange_data_single old new
  | PARALLEL_2THREAD => exchange_data_parallel old new 2
  | PARALLEL_4THREAD => exchange_data_parallel old new 4
  | PARALLEL_8THREAD => exchange_data_parallel old new 8
  end.

Definition folio_exchange_data (old new : Z) (par : parallel_mode) : X unit :=
  _ ← VM_BUG_ON (mret (negb (folio_nr_pages old =? folio_nr_pages new)));
  loop (folio_nr_pages old) (fun i => exchange_page par (folio_page old + i) (folio_page new + i)).

(** ** Mappings *)

Definition folio_ref_add (f n : Z) : X unit := update_folio f (fun v => with_refs (fl_refs v + n) v).

(** The reference count includes the page-table mappings. *)
Definition set_ref_count (f n : Z) : X unit :=
  k ← gets (folio_mapcount f); update_folio f (with_refs (n - k)).

(** [folio_ref_freeze(f, expected)]: 0 if the count is the expected one. *)
Definition folio_ref_freeze (f expected : Z) : X bool :=
  n ← folio_ref_count f;
  if n =? expected then _ ← set_ref_count f 0; mret true else mret false.

(** [swap(old->index, new->index); swap(old->mapping, new->mapping)] *)
Definition swap_mapping (old new : Z) : X unit :=
  a ← get_folio old; b ← get_folio new;
  _ ← update_folio old (with_mapping (fl_mapping b) (fl_index b));
  update_folio new (with_mapping (fl_mapping a) (fl_index a)).

Definition mapping_of (f : Z) : X Z := v ← get_folio f; mret (folio_mapping v).

Definition folio_exchange_mapping_anon_anon (old new : Z) : X unit :=
  _ ← VM_BUG_ON (m ← mapping_of old; mret (negb (m =? 0)));
  _ ← VM_BUG_ON (m ← mapping_of new; mret (negb (m =? 0)));
  _ ← swap_mapping old new;
  folio_swap_flag PG_swapbacked old new.

Definition moved (ma za mb zb : Z) (i : stat_item) (nr : Z) : X unit :=
  _ ← mod_state ma za i (- nr); mod_state mb zb i nr.

(** The tests are on [new], which has taken the place of [old]. *)
Definition folio_exchange_mapping_update_stats (old new : Z) : X unit :=
  let nr := folio_nr_pages old in
  _ ← VM_BUG_ON (mret (negb (nr =? folio_nr_pages new)));
  if folio_zone old =? folio_zone new then mret tt else
  a ← get_folio old; b ← get_folio new;
  let move := moved (fl_memcg a) (folio_zone old) (fl_memcg b) (folio_zone new) in
  _ ← (if test_flag PG_swapbacked b && negb (test_flag PG_swapcache b) then
         _ ← move NR_SHMEM nr;
         if folio_test_pmd_mappable new then move NR_SHMEM_THPS nr else mret tt
       else mret tt);
  _ ← (if test_flag PG_swapcache b then move NR_SWAPCACHE nr else mret tt);
  if test_flag PG_dirty b && mapping_can_writeback (folio_mapping b) then
    _ ← mod_state (fl_memcg a) (folio_zone old) NR_FILE_DIRTY (- nr);
    _ ← mod_state 0 (folio_zone old) NR_ZONE_WRITE_PENDING (- nr);
    _ ← mod_state (fl_memcg b) (folio_zone new) NR_FILE_DIRTY nr;
    mod_state 0 (folio_zone new) NR_ZONE_WRITE_PENDING nr
  else mret tt.

(** [xas_store] of the folio into the slots of its entries, from [index] on. *)
Definition xas_store_entries (mapping index f nr : Z) : X unit :=
  v ← get_folio f;
  loop (if test_flag PG_swapbacked v then nr else 1)
    (fun i => put (fun w => set_i_pages (<[(mapping, index + i) := f]> (i_pages w)) w)).

Definition folio_exchange_mapping_file_anon (file anon : Z) : X unit :=
  _ ← VM_BUG_ON (m ← mapping_of anon; mret (negb (m =? 0)));
  mapping ← mapping_of file;
  _ ← VM_BUG_ON (mret (mapping =? 0));
  _ ← VM_BUG_ON (mret (mapping_unmovable mapping));
  v ← get_folio file;
  let expected_refs := folio_expected_refs mapping v in
  let nr := folio_nr_pages file in
  _ ← VM_BUG_ON (mret (negb (nr =? folio_nr_pages anon)));
  let index := folio_index v in
  _ ← VM_BUG_ON (b ← folio_ref_freeze file expected_refs; mret (negb b));
  _ ← folio_ref_add anon nr;
  _ ← swap_mapping file anon;
  _ ← folio_swap_flag PG_swapbacked file anon;
  _ ← folio_swap_flag PG_dirty file anon;
  _ ← xas_store_entries mapping index anon nr;
  _ ← set_ref_count file (expected_refs - nr);
  folio_exchange_mapping_update_stats file anon.

Definition folio_exchange_mapping_file_file (old new : Z) : X unit :=
  old_mapping ← mapping_of old;
  _ ← VM_BUG_ON (mret (old_mapping =? 0));
  _ ← VM_BUG_ON (mret (mapping_unmovable old_mapping));
  a ← get_folio old;
  let old_expected_refs := folio_expected_refs old_mapping a in
  new_mapping ← mapping_of new;
  _ ← VM_BUG_ON (mret (new_mapping =? 0));
  _ ← VM_BUG_ON (mret (mapping_unmovable new_mapping));
  b ← get_folio new;
  let new_expected_refs := folio_expected_refs new_mapping b in
  let nr := folio_nr_pages old in
  _ ← VM_BUG_ON (mret (negb (nr =? folio_nr_pages new)));
  let old_index := folio_index a in
  let new_index := folio_index b in
  _ ← VM_BUG_ON (c ← folio_ref_freeze old old_expected_refs; mret (negb c));
  _ ← VM_BUG_ON (c ← folio_ref_freeze new old_expected_refs; mret (negb c));
  _ ← swap_mapping old new;
  _ ← folio_swap_flag PG_swapbacked old new;
  _ ← folio_swap_flag PG_dirty old new;
  _ ← xas_store_entries old_mapping old_index new nr;
  _ ← xas_store_entries new_mapping new_index old nr;
  _ ← set_ref_count new new_expected_refs;
  _ ← set_ref_count old old_expected_refs;
  _ ← folio_exchange_mapping_update_stats old new;
  folio_exchange_mapping_update_stats new old.

Definition folio_exchange_mapping (old new : Z) : X unit :=
  old_mapping ← mapping_of old;
  new_mapping ← mapping_of new;
  if negb (old_mapping =? 0) then
    if negb (new_mapping =? 0) then folio_exchange_mapping_file_file old new
    else folio_exchange_mapping_file_anon old new
  else
    if negb (new_mapping =? 0) then folio_exchange_mapping_file_anon new old
    else folio_exchange_mapping_anon_anon old new.

(** ** Private data of file systems *)

Definition get_bh (b : Z) : X buffer_head :=
  fun w => v ← of_option BadPointer (buffers w !! b); Ok (v, w).
Definition set_bh (b : Z) (v : buffer_head) : X unit :=
  put (fun w => set_buffers (<[b := v]> (buffers w)) w).

(** [do { body } while ((bh = bh->b_this_page) != head)] over the ring of buffers
    of a folio; the ring has at most as many buffers as there are. *)
Fixpoint bh_ring (fuel : nat) (head : Z) (body : Z -> X unit) (bh : Z) : X unit :=
  match fuel with
  | O => fail OutOfFuel
  | S fuel =>
      _ ← body bh;
      v ← get_bh bh;
      if b_this_page v =? head then mret tt else bh_ring fuel head body (b_this_page v)
  end.

Definition for_each_bh (head : Z) (body : Z -> X unit) : X unit :=
  n ← gets (fun w => size (buffers w)); bh_ring n head body head.

Definition buffer_migrate_unlock_buffers (head : Z) : X unit :=
  for_each_bh head (fun b => v ← get_bh b; set_bh b (BufferHead (b_folio v) (b_this_page v) false)).

(** The private pointer, cleared with its flag and its reference; 0 without
    private data. *)
Definition folio_detach_private (f : Z) : X Z :=
  v ← get_folio f;
  if test_flag PG_private v then
    _ ← set_folio f (with_refs (fl_refs v - 1) (with_private 0
          (with_flags (Z.clearbit (fl_flags v) (PG PG_private)) v)));
    mret (fl_private v)
  else mret 0.

Definition folio_attach_private (f p : Z) : X unit :=
  update_folio f (fun v => with_refs (fl_refs v + 1) (with_private p
    (with_flags (Z.setbit (fl_flags v) (PG PG_private)) v))).

(** The buffers of [private] are redirected to [f]; the loop sets the head again
    and again. *)
Definition move_private (f mapping private : Z) : X unit :=
  _ ← VM_BUG_ON (mret (mapping =? 0));
  _ ← folio_attach_private f private;
  match a_ops_migrate_folio mapping with
  | fn_none | filemap_migrate_folio => mret tt
  | buffer_migrate_folio =>
      for_each_bh private (fun _ =>
        v ← get_bh private; set_bh private (BufferHead f (b_this_page v) (b_locked v)))
  | migrate_folio | fn_other => fail BugOn
  end.

Definition folio_exchange_fs_private (old new : Z) : X unit :=
  old_mapping ← mapping_of old;
  new_mapping ← mapping_of new;
  old_private ← folio_detach_private old;
  new_private ← folio_detach_private new;
  _ ← (if old_private =? 0 then mret tt else move_private new new_mapping old_private);
  if new_private =? 0 then mret tt else move_private old old_mapping new_private.

(** Error and whether the buffers were locked. *)
Definition folio_exchange_fs_prepare (f : Z) (mode : migrate_mode) : X (Z * bool) :=
  mapping ← mapping_of f;
  if mapping =? 0 then mret (0, false) else
  v ← get_folio f;
  match a_ops_migrate_folio mapping with
  | fn_none =>
      if test_flag PG_dirty v then
        match mode with
        | MIGRATE_SYNC | MIGRATE_SYNC_NO_COPY =>
            err ← call (writeout mapping f); mret (err, false)
        | _ => mret (- EBUSY, false)
        end
      else
        b ← call (filemap_release_folio f);
        if (b : bool) then mret (0, false)
        else mret (if decide (mode = MIGRATE_SYNC) then - EAGAIN else - EBUSY, false)
  | migrate_folio | filemap_migrate_folio => mret (0, false)
  | buffer_migrate_folio =>
      let head := if test_flag PG_private v then fl_private v else 0 in
      if head =? 0 then mret (0, false) else
      n ← folio_ref_count f;
      if negb (folio_expected_refs mapping v =? n) then mret (- EAGAIN, false) else
      b ← call (buffer_migrate_lock_buffers head);
      if (b : bool) then mret (0, true) else mret (- EAGAIN, false)
  | fn_other => fail BugOn
  end.

Definition folio_exchange_fs_finish (f : Z) (lock_acquired : bool) : X unit :=
  mapping ← mapping_of f;
  if mapping =? 0 then mret tt else
  match a_ops_migrate_folio mapping with
  | fn_none | migrate_folio | filemap_migrate_folio => mret tt
  | buffer_migrate_folio =>
      v ← get_folio f;
      if lock_acquired
      then buffer_migrate_unlock_buffers (if test_flag PG_private v then fl_private v else 0)
      else mret tt
  | fn_other => fail BugOn
  end.

(** ** The exchange *)

(** An error, or the folio locked.  [mine] are the folios this task has locked;
    waiting for another task ends with the lock taken. *)
Definition folio_exchange_lock (mine : list Z) (f : Z) (mode : migrate_mode) : X (Z + Z) :=
  v ← get_folio f;
  if negb (fl_locked v) then _ ← update_folio f (with_locked true); mret (inr f)
  else if decide (mode = MIGRATE_ASYNC) then mret (inl (- EAGAIN))
  else if memalloc then mret (inl (- EPERM))
  else if decide (mode = MIGRATE_SYNC_LIGHT) then
    if negb (test_flag PG_uptodate v) then mret (inl (- EAGAIN))
    else if decide (f ∈ mine) then fail Deadlock else mret (inr f)
  else if decide (f ∈ mine) then fail Deadlock else mret (inr f).

Definition folio_unlock (f : Z) : X unit := update_folio f (with_locked false).

(** The checks after waiting for writeback. *)
Definition supported_checks (f : Z) : X bool :=
  v ← get_folio f;
  if (fl_mapping v =? 0) && test_flag PG_private v
  then _ ← put (try_to_free_buffers f); mret false else
  if test_flag PG_mlocked v then mret false else
  let mapping := folio_mapping v in
  if negb (mapping =? 0) && mapping_unmovable mapping then mret false else
  n ← folio_ref_count f;
  k ← gets (folio_mapcount f);
  mret (folio_expected_refs mapping v + k =? n).

Definition folio_wait_writeback (f : Z) : X unit :=
  update_folio f (fun v => with_flags (Z.clearbit (fl_flags v) (PG PG_writeback)) v).

Definition folio_exchange_supported (f : Z) (mode : migrate_mode) : X bool :=
  n ← folio_ref_count f;
  if n =? 1 then mret false else
  v ← get_folio f;
  if test_flag PG_writeback v then
    match mode with
    | MIGRATE_SYNC | MIGRATE_SYNC_NO_COPY => _ ← folio_wait_writeback f; supported_checks f
    | _ => mret false
    end
  else supported_checks f.

(** The folio whose mappings were replaced by migration entries, 0 for none. *)
Definition folio_exchange_unmap (f : Z) : X Z :=
  v ← get_folio f;
  b ← gets (folio_mapped f);
  if negb (fl_mapping v =? 0) && b then
    _ ← VM_BUG_ON (mret (negb (fl_locked v)));
    _ ← put (fun w => set_ptes (try_to_migrate f (fl_mapping v) (fl_index v) (ptes w)) w);
    mret f
  else mret 0.

Definition folio_exchange_remap (src dst : Z) : X unit :=
  if src =? 0 then mret tt else
  let dst := if dst =? 0 then src else dst in
  s ← get_folio src; d ← get_folio dst;
  put (fun w => set_ptes
    (remove_migration_ptes src (fl_index s) dst (fl_mapping d) (fl_index d) (ptes w)) w).

Definition folio_exchange_move (old new : Z) (mode : migrate_mode) (par : parallel_mode) : X Z :=
  _ ← VM_BUG_ON (v ← get_folio old; mret (negb (fl_locked v)));
  _ ← VM_BUG_ON (v ← get_folio new; mret (negb (fl_locked v)));
  if negb (bool_decide (mode = MIGRATE_SYNC)) && negb (bool_decide (mode = MIGRATE_ASYNC))
  then mret (- EINVAL) else
  '(rc, old_locked) ← folio_exchange_fs_prepare old mode;
  if negb (rc =? 0) then _ ← folio_exchange_fs_finish old old_locked; mret rc else
  '(rc, new_locked) ← folio_exchange_fs_prepare new mode;
  if negb (rc =? 0) then
    _ ← folio_exchange_fs_finish new new_locked;
    _ ← folio_exchange_fs_finish old old_locked; mret rc
  else
  _ ← folio_exchange_mapping old new;
  _ ← folio_exchange_fs_private old new;
  _ ← folio_exchange_data old new par;
  _ ← folio_exchange_flags old new;
  _ ← folio_exchange_fs_finish new old_locked;
  _ ← folio_exchange_fs_finish old new_locked;
  mret rc.

(** The part between locking and unlocking.  The destinations are set whatever
    [folio_exchange_move] returned. *)
Definition exchange_locked (old new : Z) (mode : migrate_mode) (par : parallel_mode) : X Z :=
  b ← folio_exchange_supported old mode;
  if negb b then _ ← count_vm_event FOLIO_EXCHANGE_FAILED_SUPPORT; mret (- ENOTSUPP) else
  b ← folio_exchange_supported new mode;
  if negb b then _ ← count_vm_event FOLIO_EXCHANGE_FAILED_SUPPORT; mret (- ENOTSUPP + 1) else
  old_unmapped ← folio_exchange_unmap old;
  new_unmapped ← folio_exchange_unmap new;
  err ← folio_exchange_move old new mode par;
  _ ← (if err =? 0 then mret tt else count_vm_event FOLIO_EXCHANGE_FAILED_MOVE);
  _ ← folio_exchange_remap new_unmapped old;
  _ ← folio_exchange_remap old_unmapped new;
  mret err.

Definition folio_exchange_parallel_isolated (old new : Z) (mode : migrate_mode) (par : parallel_mode)
    : X Z :=
  old_locked ← folio_exchange_lock [] old mode;
  match old_locked with
  | inl err => _ ← count_vm_event FOLIO_EXCHANGE_FAILED_LOCK; mret err
  | inr old_ptr =>
      new_locked ← folio_exchange_lock [old] new mode;
      match new_locked with
      | inl _ =>
          _ ← count_vm_event FOLIO_EXCHANGE_FAILED_LOCK;
          _ ← folio_unlock old; mret (s32 old_ptr)
      | inr _ =>
          err ← exchange_locked old new mode par;
          _ ← folio_unlock new;
          _ ← folio_unlock old; mret err
      end
  end.

Definition folio_exchange_isolated (old new : Z) (mode : migrate_mode) : X Z :=
  _ ← count_vm_event FOLIO_EXCHANGE;
  err ← folio_exchange_parallel_isolated old new mode PARALLEL_SINGLE;
  _ ← count_vm_event (if err =? 0 then FOLIO_EXCHANGE_SUCCESS else FOLIO_EXCHANGE_FAILED);
  mret err.
End exchange.
