(* ===== verification/ExchangeProps.v ===== *)
(** Properties of the exchange of two folios: contents are swapped whatever the
    number of workers and their order, flags are swapped bit by bit, and for
    anonymous folios no outcome of an exchange changes what a process sees, if
    their unmapping succeeds; but a failed move loses mappings, and a mapping the
    unmapping missed sees the other folio. *)
From S2P Require Import Prelude Kernel Exchange.
From stdpp Require Import base numbers list gmap.
From Stdlib Require Import ZArith Lia.
Open Scope Z_scope.

(** What the exchange relies on. *)
Class ExchangeLaws (E : ExchangeEnv) : Prop := {
  PG_range n : 0 <= PG n < 64;
  PG_distinct : NoDup (PG <$> [PG_writeback; PG_referenced; PG_uptodate; PG_dirty; PG_waiters;
    PG_active; PG_workingset; PG_error; PG_checked; PG_private; PG_mappedtodisk; PG_readahead;
    PG_swapbacked; PG_unevictable; PG_young; PG_idle; PG_mlocked]);
  (** both are the owner's private flag *)
  PG_swapcache_alias : PG PG_swapcache = PG PG_checked;
  nr_pages_pos f : 1 <= folio_nr_pages f;
  (** mm/util.c: anonymous folios have a mapping only in the swap cache *)
  folio_mapping_anon f :
    folio_test_anon f = true -> test_flag PG_swapcache f = false -> folio_mapping f = 0;
  (** mm/rmap.c: some mappings of the folio that the reverse map finds become
      migration entries; it is only tried *)
  try_to_migrate_spec f m i ps x :
    try_to_migrate f m i ps !! x = ps !! x \/
    exists p, ps !! x = Some (Present p) /\ in_folio f p = true /\
      rmap m i (folio_nr_pages f) x = true /\ try_to_migrate f m i ps !! x = Some (Migration p);
  (** mm/migrate.c: the migration entries of [src] at the addresses that the
      reverse map of [dst] finds become mappings of [dst]; a page of a large folio
      is placed by its offset from the index of [src], so that the two must agree *)
  remove_migration_ptes_spec src j dst m i ps x :
    folio_nr_pages src = folio_nr_pages dst -> folio_nr_pages src = 1 \/ j = i ->
    remove_migration_ptes src j dst m i ps !! x =
      match ps !! x with
      | Some (Migration p) =>
          Some (if in_folio src p && rmap m i (folio_nr_pages dst) x
                then Present (p - folio_page src + folio_page dst) else Migration p)
      | e => e
      end;
  (** every queued work runs once *)
  schedule_perm l : schedule l ≡ₚ l;
}.

(** Trying succeeds: no mapping of the folio that the reverse map finds is left. *)
Definition migrate_complete {E : ExchangeEnv} : Prop :=
  forall f m i ps x p, try_to_migrate f m i ps !! x = Some (Present p) -> in_folio f p = true ->
    rmap m i (folio_nr_pages f) x = false.

(** ** Words and pages *)

Section data.
Context {E : ExchangeEnv}.

Fixpoint swap_seq (old new : Z) (ixs : list Z) : X unit :=
  match ixs with
  | [] => mret tt
  | i :: ixs => _ ← swap_word old new i; swap_seq old new ixs
  end.

Lemma swap_seq_app old new ixs js w :
  swap_seq old new (ixs ++ js) w = (swap_seq old new ixs ≫= (fun _ => swap_seq old new js)) w.
Proof.
  induction ixs as [|i ixs IH] in w |- *; [done|]. simpl. unfold mbind, X_bind in *.
  destruct (swap_word old new i w) as [[[] w1]|]; simpl; [|done]. apply IH.
Qed.

Lemma loop_n_seq old new n k i w :
  loop_n n i (fun i => swap_word old new (k + i)) w = swap_seq old new (seqZ (k + i) (Z.of_nat n)) w.
Proof.
  induction n as [|n IH] in i, w |- *; [done|]. rewrite seqZ_cons by lia. simpl.
  unfold mbind, X_bind. destruct (swap_word old new (k + i) w) as [[[] w1]|]; simpl; [|done].
  rewrite IH. f_equal. f_equal; lia.
Qed.

Definition work_words (work : Z * Z) : list Z := seqZ (work.1 / 8) (work.2 / 8).

Lemma run_works_seq old new ws w :
  Forall (fun work => 0 <= work.2) ws ->
  run_works old new ws w = swap_seq old new (ws ≫= work_words) w.
Proof.
  intros Hws. induction Hws as [|work ws Hw _ IH] in w |- *; [done|].
  rewrite bind_cons, swap_seq_app. simpl. unfold mbind, X_bind, exchange_data_parallel_work_fn, loop.
  rewrite loop_n_seq, Z.add_0_r, Z2Nat.id by (apply Z.div_pos; lia). fold (work_words work).
  destruct (swap_seq old new (work_words work) w) as [[[] w1]|]; simpl; [|done]. apply IH.
Qed.

(** The words of [is] swapped between two pages. *)
Definition mixed (ixs : list Z) (x y : list Z) : list Z :=
  imap (fun i a => if bool_decide (Z.of_nat i ∈ ixs) then default a (y !! i) else a) x.

Lemma length_mixed ixs x y : length (mixed ixs x y) = length x.
Proof. apply length_imap. Qed.

Lemma lookup_mixed ixs x y i :
  length x = length y ->
  mixed ixs x y !! i = if bool_decide (Z.of_nat i ∈ ixs) then y !! i else x !! i.
Proof.
  intros Hl. unfold mixed. rewrite list_lookup_imap. case_bool_decide.
  - destruct (y !! i) eqn:Ey; simpl; destruct (x !! i) eqn:Ex; simpl; try done.
    + apply lookup_lt_Some in Ey. apply lookup_ge_None in Ex. lia.
    + apply lookup_ge_None in Ey. apply lookup_lt_Some in Ex. lia.
  - destruct (x !! i); done.
Qed.

(** Pages [old] and [new] with contents [x] and [y]. *)
Definition with_pages (old new : Z) (x y : list Z) (w : world) : world :=
  set_pages (<[new := y]> (<[old := x]> (pages w))) w.

Lemma swap_word_spec old new i x y w :
  old <> new -> 0 <= i < zlen x -> length x = length y ->
  exists a b, x !! Z.to_nat i = Some a /\ y !! Z.to_nat i = Some b /\
    swap_word old new i (with_pages old new x y w) =
    Ok (tt, with_pages old new (<[Z.to_nat i := b]> x) (<[Z.to_nat i := a]> y) w).
Proof.
  intros Hne Hi Hl.
  destruct (aread_in_bounds x i Hi) as (a & Ha & Hxa).
  destruct (aread_in_bounds y i) as (b & Hb & Hyb); [unfold zlen in *; lia|].
  exists a, b. split; [done|]. split; [done|].
  assert (pages (with_pages old new x y w) !! old = Some x) as Hold
    by (simpl; by rewrite lookup_insert_ne, lookup_insert_eq).
  assert (pages (with_pages old new x y w) !! new = Some y) as Hnew by (simpl; by rewrite lookup_insert_eq).
  unfold swap_word, mbind, X_bind, get_word, set_word. rewrite Hold.
  simpl of_option. cbn [mbind res_bind]. rewrite Ha. cbn [mbind res_bind]. rewrite Hnew.
  simpl of_option. cbn [mbind res_bind]. rewrite Hb.
  cbn [mbind res_bind]. rewrite Hold. simpl of_option. cbn [mbind res_bind].
  rewrite awrite_in_bounds by done. cbn [mbind res_bind]. simpl pages.
  rewrite lookup_insert_ne, lookup_insert_eq by done. simpl of_option. cbn [mbind res_bind].
  rewrite awrite_in_bounds by (unfold zlen in *; lia). cbn [mbind res_bind].
  unfold with_pages, set_pages. simpl. do 3 f_equal.
  rewrite (insert_insert_ne _ old new) by done. by rewrite !insert_insert_eq.
Qed.

Lemma mixed_snoc ixs i x y b :
  length x = length y -> Z.of_nat i ∉ ixs -> y !! i = Some b ->
  <[i := b]> (mixed ixs x y) = mixed (Z.of_nat i :: ixs) x y.
Proof.
  intros Hl Hi Hb. apply list_eq. intros j. rewrite lookup_mixed by done.
  destruct (decide (i = j)) as [<-|Hij].
  - rewrite list_lookup_insert_eq by (rewrite length_mixed; apply lookup_lt_Some in Hb; lia).
    rewrite bool_decide_true by set_solver. done.
  - rewrite list_lookup_insert_ne, lookup_mixed by done.
    rewrite (bool_decide_ext (Z.of_nat j ∈ Z.of_nat i :: ixs) (Z.of_nat j ∈ ixs)); [done|].
    rewrite elem_of_cons. split; [intros [?|?]; [lia|done]|by right].
Qed.

Lemma mixed_not_in ixs x y i : length x = length y -> Z.of_nat i ∉ ixs -> mixed ixs x y !! i = x !! i.
Proof. intros Hl Hi. rewrite lookup_mixed by done. by rewrite bool_decide_false. Qed.

Lemma swap_seq_mixed old new ixs done_ x y w :
  old <> new -> length x = length y -> NoDup (ixs ++ done_) -> Forall (fun i => 0 <= i < zlen x) ixs ->
  swap_seq old new ixs (with_pages old new (mixed done_ x y) (mixed done_ y x) w) =
  Ok (tt, with_pages old new (mixed (rev ixs ++ done_) x y) (mixed (rev ixs ++ done_) y x) w).
Proof.
  intros Hne Hl. induction ixs as [|i ixs IH] in done_ |- *; intros Hnd HF; [done|].
  apply Forall_cons in HF as [Hi HF]. simpl in Hnd. apply NoDup_cons in Hnd as [Hin Hnd].
  assert (Z.of_nat (Z.to_nat i) = i) as Hzi by lia.
  assert (Z.of_nat (Z.to_nat i) ∉ done_) as Hid by (rewrite Hzi; set_solver).
  cbn [swap_seq]. unfold mbind, X_bind.
  destruct (swap_word_spec old new i (mixed done_ x y) (mixed done_ y x) w) as (a & b & Ha & Hb & ->);
    [done|unfold zlen in *; by rewrite length_mixed|by rewrite !length_mixed|].
  cbn [mbind res_bind].
  rewrite mixed_not_in in Ha by done. rewrite mixed_not_in in Hb by done.
  rewrite !mixed_snoc by done. rewrite Hzi. rewrite IH; [|apply NoDup_app; apply NoDup_app in Hnd;
    destruct Hnd as (N1 & N2 & N3); split_and!; [done|set_solver|apply NoDup_cons; set_solver]|done].
  simpl. by rewrite <- !app_assoc.
Qed.

(** Swapping every word once swaps the pages. *)
Lemma swap_seq_all old new ixs x y w :
  old <> new -> length x = length y -> ixs ≡ₚ seqZ 0 (zlen x) ->
  pages w !! old = Some x -> pages w !! new = Some y ->
  swap_seq old new ixs w = Ok (tt, with_pages old new y x w).
Proof.
  intros Hne Hl Hp Hx Hy.
  assert (with_pages old new (mixed [] x y) (mixed [] y x) w = w) as Hw.
  { assert (forall x y : list Z, length x = length y -> mixed [] x y = x) as Hm.
    { intros x' y' Hl'. apply list_eq. intros i. rewrite lookup_mixed by done.
      rewrite bool_decide_false by set_solver. done. }
    rewrite !Hm by done. unfold with_pages. destruct w. unfold set_pages. simpl in *. f_equal.
    rewrite (insert_id _ old x) by done. by rewrite insert_id. }
  assert (forall x' y' : list Z, length x' = length y' -> length x' = length x ->
            mixed (rev ixs ++ []) x' y' = y') as Hall.
  { intros x' y' Hl' Hlx. apply list_eq. intros i. rewrite lookup_mixed by done. case_bool_decide as Hi; [done|].
    destruct (decide (i < length x')%nat).
    - exfalso. apply Hi. rewrite app_nil_r, <- Permutation_rev, Hp.
      apply elem_of_seqZ. unfold zlen. lia.
    - rewrite !lookup_ge_None_2 by lia. done. }
  rewrite <- Hw at 1. rewrite swap_seq_mixed; [|done|done| |].
  - by rewrite !Hall.
  - rewrite app_nil_r, Hp. apply NoDup_seqZ.
  - apply Forall_forall. intros i. rewrite Hp, elem_of_seqZ. unfold zlen. lia.
Qed.

Context {EL : ExchangeLaws E}.

Lemma works_words n : n = 2 \/ n = 4 \/ n = 8 -> works n ≫= work_words = seqZ 0 512.
Proof. intros [->|[->| ->]]; vm_compute; reflexivity. Qed.

Lemma exchange_data_parallel_seq old new n w :
  n = 2 \/ n = 4 \/ n = 8 ->
  exists ixs, ixs ≡ₚ seqZ 0 512 /\ exchange_data_parallel old new n w = swap_seq old new ixs w.
Proof.
  intros Hn. exists (schedule (works n) ≫= work_words). split.
  - rewrite <- (works_words n Hn). apply bind_Permutation, schedule_perm.
  - unfold exchange_data_parallel. apply run_works_seq. rewrite schedule_perm.
    unfold works. apply Forall_fmap, Forall_forall. intros i _. simpl.
    apply Z.div_pos; [done|]. destruct Hn as [->|[->| ->]]; lia.
Qed.

(** Every mode swaps the two pages. *)
Lemma exchange_page_spec par old new x y w :
  old <> new -> length x = 512%nat -> length y = 512%nat ->
  pages w !! old = Some x -> pages w !! new = Some y ->
  exchange_page par old new w = Ok (tt, with_pages old new y x w).
Proof.
  intros Hne Hx Hy Hox Hny.
  assert (forall ixs, ixs ≡ₚ seqZ 0 512 -> swap_seq old new ixs w = Ok (tt, with_pages old new y x w)) as Hs.
  { intros ixs Hp. apply swap_seq_all; [done|lia| |done|done]. by replace (zlen x) with 512 by (unfold zlen; lia). }
  destruct par; cbn [exchange_page]; [|
    match goal with |- exchange_data_parallel _ _ ?n _ = _ =>
      destruct (exchange_data_parallel_seq old new n w) as (ixs & Hp & ->); [auto|by apply Hs] end..].
  unfold exchange_data_single, loop.
  change (swap_word old new) with (fun i => swap_word old new (0 + i)).
  rewrite loop_n_seq. by apply Hs.
Qed.

(** Pages [i, i + k) of two folios exchanged. *)
Definition swap_range (po pn i k : Z) (pg : gmap Z (list Z)) (p : Z) : option (list Z) :=
  if (po + i <=? p) && (p <? po + i + k) then pg !! (p - po + pn)
  else if (pn + i <=? p) && (p <? pn + i + k) then pg !! (p - pn + po)
  else pg !! p.

Definition page_ok (pg : gmap Z (list Z)) (p : Z) : Prop := exists x, pg !! p = Some x /\ length x = 512%nat.

Lemma exchange_pages_spec par po pn n i w :
  po + i + Z.of_nat n <= pn + i \/ pn + i + Z.of_nat n <= po + i ->
  (forall j, i <= j < i + Z.of_nat n -> page_ok (pages w) (po + j) /\ page_ok (pages w) (pn + j)) ->
  exists pg, loop_n n i (fun i => exchange_page par (po + i) (pn + i)) w = Ok (tt, set_pages pg w) /\
    forall p, pg !! p = swap_range po pn i (Z.of_nat n) (pages w) p.
Proof.
  induction n as [|n IH] in i, w |- *; intros Hd Hok.
  { exists (pages w). split; [by destruct w|]. intros p. unfold swap_range.
    destruct (Z.leb_spec (po + i) p), (Z.ltb_spec p (po + i + Z.of_nat 0)); simpl; try lia;
    destruct (Z.leb_spec (pn + i) p), (Z.ltb_spec p (pn + i + Z.of_nat 0)); simpl; done || lia. }
  destruct (Hok i) as [(x & Hx & Lx) (y & Hy & Ly)]; [lia|].
  cbn [loop_n]. unfold mbind, X_bind. rewrite (exchange_page_spec par _ _ x y w); [|lia|done..].
  cbn [mbind res_bind].
  destruct (IH (i + 1) (with_pages (po + i) (pn + i) y x w)) as (pg & Hl & Hpg).
  { lia. }
  { intros j Hj. destruct (Hok j) as [(x' & Hx' & Lx') (y' & Hy' & Ly')]; [lia|]. simpl.
    split; [exists x'|exists y']; (split; [|done]); rewrite !lookup_insert_ne by lia; done. }
  rewrite Hl. exists pg. split; [done|]. intros p. rewrite Hpg. unfold swap_range. simpl.
  replace (po + (i + 1) + Z.of_nat n) with (po + i + Z.of_nat (S n)) by lia.
  replace (pn + (i + 1) + Z.of_nat n) with (pn + i + Z.of_nat (S n)) by lia.
  destruct (Z.eq_dec p (po + i)) as [->|Hpo].
  { rewrite (proj2 (Z.leb_gt (po + (i + 1)) (po + i))) by lia. simpl.
    rewrite (proj2 (Z.leb_le (po + i) (po + i))), (proj2 (Z.ltb_lt (po + i) (po + i + Z.of_nat (S n)))) by lia.
    simpl. replace (po + i - po + pn) with (pn + i) by lia.
    destruct (Z.leb_spec (pn + (i + 1)) (po + i)), (Z.ltb_spec (po + i) (pn + i + Z.of_nat (S n)));
      simpl; try lia; rewrite lookup_insert_ne, lookup_insert_eq by lia; done. }
  destruct (Z.eq_dec p (pn + i)) as [->|Hpn].
  { replace (pn + i - po + pn) with (pn + pn + i - po) by lia.
    destruct (Z.leb_spec (po + (i + 1)) (pn + i)), (Z.ltb_spec (pn + i) (po + i + Z.of_nat (S n)));
      simpl; try lia;
    rewrite (proj2 (Z.leb_gt (pn + (i + 1)) (pn + i))) by lia; simpl; rewrite lookup_insert_eq;
    destruct (Z.leb_spec (po + i) (pn + i)); simpl; try lia;
    rewrite (proj2 (Z.leb_le (pn + i) (pn + i))), (proj2 (Z.ltb_lt (pn + i) (pn + i + Z.of_nat (S n)))) by lia;
    simpl; replace (pn + i - pn + po) with (po + i) by lia; done. }
  destruct (Z.leb_spec (po + (i + 1)) p), (Z.leb_spec (po + i) p), (Z.ltb_spec p (po + i + Z.of_nat (S n)));
    simpl; try lia;
  destruct (Z.leb_spec (pn + (i + 1)) p), (Z.leb_spec (pn + i) p), (Z.ltb_spec p (pn + i + Z.of_nat (S n)));
    simpl; try lia; by rewrite !lookup_insert_ne by lia.
Qed.

(** C24: exchanging a page with two, four or eight workers, in whatever order the
    workers run, does the same as exchanging it word by word: the contents of the
    two pages are swapped and nothing else changes. *)
Theorem exchange_page_modes par old new w x y :
  old <> new -> length x = 512%nat -> length y = 512%nat ->
  pages w !! old = Some x -> pages w !! new = Some y ->
  exchange_page par old new w = exchange_data_single old new w /\
  exchange_page par old new w = Ok (tt, set_pages (<[new := x]> (<[old := y]> (pages w))) w).
Proof.
  intros Hne Hx Hy Hox Hny. rewrite (exchange_page_spec par old new x y w) by done. split; [|done].
  symmetry. by apply (exchange_page_spec PARALLEL_SINGLE).
Qed.
End data.

(** ** Two folios of a world *)

Section two_folios.
Context {E : ExchangeEnv} {EL : ExchangeLaws E}.
Context (old new : Z) (Hne : old <> new) (w0 : world).

(** [w0] with the records of the two folios, the pages, the page tables and the
    events given. *)
Definition W (a b : folio) (pg : gmap Z (list Z)) (pt : gmap Z pte) (ev : list vm_event) : world :=
  World (<[new := b]> (<[old := a]> (folios w0))) pg pt (i_pages w0) (buffers w0) ev (stats w0).

Lemma get_old a b pg pt ev : get_folio old (W a b pg pt ev) = Ok (a, W a b pg pt ev).
Proof. unfold get_folio. simpl. by rewrite lookup_insert_ne, lookup_insert_eq. Qed.

Lemma get_new a b pg pt ev : get_folio new (W a b pg pt ev) = Ok (b, W a b pg pt ev).
Proof. unfold get_folio. simpl. by rewrite lookup_insert_eq. Qed.

Lemma W_set_old v a b pg pt ev :
  set_folios (<[old := v]> (folios (W a b pg pt ev))) (W a b pg pt ev) = W v b pg pt ev.
Proof.
  unfold set_folios, W. simpl. f_equal.
  rewrite insert_insert_ne by done. by rewrite insert_insert_eq.
Qed.

Lemma W_set_new v a b pg pt ev :
  set_folios (<[new := v]> (folios (W a b pg pt ev))) (W a b pg pt ev) = W a v pg pt ev.
Proof. unfold set_folios, W. simpl. f_equal. by rewrite insert_insert_eq. Qed.

Lemma set_old v a b pg pt ev : set_folio old v (W a b pg pt ev) = Ok (tt, W v b pg pt ev).
Proof. unfold set_folio, put. by rewrite W_set_old. Qed.

Lemma set_new v a b pg pt ev : set_folio new v (W a b pg pt ev) = Ok (tt, W a v pg pt ev).
Proof. unfold set_folio, put. by rewrite W_set_new. Qed.

Lemma upd_old g a b pg pt ev : update_folio old g (W a b pg pt ev) = Ok (tt, W (g a) b pg pt ev).
Proof. unfold update_folio, mbind, X_bind. rewrite get_old. cbn [mbind res_bind]. apply set_old. Qed.

Lemma upd_new g a b pg pt ev : update_folio new g (W a b pg pt ev) = Ok (tt, W a (g b) pg pt ev).
Proof. unfold update_folio, mbind, X_bind. rewrite get_new. cbn [mbind res_bind]. apply set_new. Qed.

(** Symbolic execution of a sequence on such a world. *)
Ltac run_step :=
  first [ rewrite get_old | rewrite get_new | rewrite upd_old | rewrite upd_new
        | rewrite set_old | rewrite set_new ]; cbn [mbind res_bind].
Ltac run_x := unfold mbind, X_bind, mret, X_ret; cbn [mbind res_bind]; repeat run_step.

(** *** Flags *)

Lemma swapbits_spec (a b k i : Z) :
  0 <= k -> 0 <= i ->
  Z.testbit (swapbits a b (Z.shiftl 1 k)).1 i = (if i =? k then Z.testbit b i else Z.testbit a i) /\
  Z.testbit (swapbits a b (Z.shiftl 1 k)).2 i = (if i =? k then Z.testbit a i else Z.testbit b i).
Proof.
  intros Hk Hi. unfold swapbits. simpl. rewrite !Z.lxor_spec, !Z.land_spec, !Z.lxor_spec.
  rewrite Z.shiftl_spec by lia. destruct (Z.eqb_spec i k) as [->|Hik].
  - rewrite Z.sub_diag. simpl. destruct (Z.testbit a k), (Z.testbit b k); done.
  - assert (Z.testbit 1 (i - k) = false) as ->.
    { change 1 with (2 ^ 0). apply Z.pow2_bits_false. lia. }
    rewrite !andb_false_r, !xorb_false_r. done.
Qed.

Lemma swap_flag_run n a b pg pt ev :
  exists x y, folio_swap_flag n old new (W a b pg pt ev) =
      Ok (tt, W (with_flags x a) (with_flags y b) pg pt ev) /\
    forall i, 0 <= i ->
      Z.testbit x i = (if i =? PG n then Z.testbit (fl_flags b) i else Z.testbit (fl_flags a) i) /\
      Z.testbit y i = (if i =? PG n then Z.testbit (fl_flags a) i else Z.testbit (fl_flags b) i).
Proof.
  unfold folio_swap_flag. run_x.
  pose proof (swapbits_spec (fl_flags a) (fl_flags b) (PG n)) as Hs.
  destruct (swapbits _ _ _) as [x y]. run_x. exists x, y. split; [done|].
  intros i Hi. apply Hs; [|done]. apply PG_range.
Qed.

Lemma swap_flags_run ns a b pg pt ev :
  NoDup (PG <$> ns) ->
  exists x y, swap_flags ns old new (W a b pg pt ev) =
      Ok (tt, W (with_flags x a) (with_flags y b) pg pt ev) /\
    forall i, 0 <= i ->
      Z.testbit x i = (if bool_decide (i ∈ PG <$> ns) then Z.testbit (fl_flags b) i
                       else Z.testbit (fl_flags a) i) /\
      Z.testbit y i = (if bool_decide (i ∈ PG <$> ns) then Z.testbit (fl_flags a) i
                       else Z.testbit (fl_flags b) i).
Proof.
  induction ns as [|n ns IH] in a, b |- *; intros Hnd.
  { exists (fl_flags a), (fl_flags b). split; [by destruct a, b|]. intros i _.
    by rewrite bool_decide_false by set_solver. }
  rewrite fmap_cons in Hnd. apply NoDup_cons in Hnd as [Hn Hnd].
  cbn [swap_flags]. unfold mbind, X_bind.
  destruct (swap_flag_run n a b pg pt ev) as (x1 & y1 & -> & H1). cbn [mbind res_bind].
  destruct (IH (with_flags x1 a) (with_flags y1 b) Hnd) as (x & y & -> & H2).
  exists x, y. split; [done|]. intros i Hi. destruct (H1 i Hi) as [E1 E2].
  destruct (H2 i Hi) as [E3 E4]. simpl in E3, E4. rewrite E3, E4, E1, E2.
  rewrite fmap_cons. destruct (Z.eqb_spec i (PG n)) as [->|Hin].
  - rewrite bool_decide_false by done. by rewrite bool_decide_true by set_solver.
  - rewrite (bool_decide_ext (i ∈ PG n :: (PG <$> ns)) (i ∈ PG <$> ns)); [by case_bool_decide|].
    rewrite elem_of_cons. naive_solver.
Qed.

Lemma PG_inj n m : n <> PG_swapcache -> m <> PG_swapcache -> PG n = PG m -> n = m.
Proof.
  intros Hn Hm Heq. pose proof PG_distinct as Hd. rewrite NoDup_alt in Hd.
  set (L := [PG_writeback; PG_referenced; PG_uptodate; PG_dirty; PG_waiters;
    PG_active; PG_workingset; PG_error; PG_checked; PG_private; PG_mappedtodisk; PG_readahead;
    PG_swapbacked; PG_unevictable; PG_young; PG_idle; PG_mlocked]) in *.
  assert (forall k, k <> PG_swapcache -> k ∈ L) as Hin by (intros []; [unfold L; set_solver..]).
  pose proof (Hin n Hn) as (i & Hi)%list_elem_of_lookup.
  pose proof (Hin m Hm) as (j & Hj)%list_elem_of_lookup.
  assert (i = j) as <-; [|congruence].
  apply (Hd i j (PG n)); rewrite list_lookup_fmap; [by rewrite Hi|by rewrite Hj, Heq].
Qed.

Lemma exchanged_flags_NoDup : NoDup (PG <$> exchanged_flags).
Proof.
  apply NoDup_fmap_2_strong.
  - intros x y Hx Hy. apply PG_inj; intros ->; revert Hx Hy; unfold exchanged_flags;
      destruct CONFIG_PAGE_IDLE_FLAG; set_solver.
  - unfold exchanged_flags. destruct CONFIG_PAGE_IDLE_FLAG; apply (bool_decide_unpack _); reflexivity.
Qed.

(** The flags of a folio after the exchange with one that had [theirs]. *)
Definition flags_after (mine theirs : Z) (i : Z) : bool :=
  if i =? PG PG_waiters then true
  else if bool_decide (i ∈ PG <$> exchanged_flags) then Z.testbit theirs i else Z.testbit mine i.

Lemma set_waiters_bits x i :
  0 <= i -> Z.testbit (Z.lor x (Z.shiftl 1 (PG PG_waiters))) i =
    if i =? PG PG_waiters then true else Z.testbit x i.
Proof.
  intros Hi. pose proof (PG_range PG_waiters). rewrite Z.lor_spec, Z.shiftl_spec by lia.
  destruct (Z.eqb_spec i (PG PG_waiters)) as [->|Hn].
  - rewrite Z.sub_diag. apply orb_true_r.
  - change 1 with (2 ^ 0). rewrite Z.pow2_bits_false by lia. apply orb_false_r.
Qed.

Lemma exchange_flags_run a b pg pt ev :
  exists x y, folio_exchange_flags old new (W a b pg pt ev) =
      Ok (tt, W (with_memcg (fl_memcg b) (with_flags x a)) (with_memcg (fl_memcg a) (with_flags y b))
                pg pt ev) /\
    forall i, 0 <= i -> Z.testbit x i = flags_after (fl_flags a) (fl_flags b) i /\
                        Z.testbit y i = flags_after (fl_flags b) (fl_flags a) i.
Proof.
  unfold folio_exchange_flags. unfold mbind, X_bind.
  destruct (swap_flags_run exchanged_flags a b pg pt ev exchanged_flags_NoDup) as (x & y & -> & H).
  cbn [mbind res_bind]. unfold folio_set_waiters. run_x. simpl.
  eexists _, _. split; [reflexivity|]. intros i Hi. destruct (H i Hi) as [H1 H2].
  rewrite !set_waiters_bits by done. unfold flags_after. by rewrite H1, H2.
Qed.

(** *** Anonymous folios *)

Definition anon_ok (f : folio) : Prop :=
  folio_test_anon f = true /\ test_flag PG_swapcache f = false /\ test_flag PG_private f = false.

Lemma anon_mapping f : anon_ok f -> folio_mapping f = 0 /\ fl_mapping f <> 0.
Proof.
  intros (H1 & H2 & _). split; [by apply folio_mapping_anon|].
  intros H. unfold folio_test_anon in H1. by rewrite H in H1.
Qed.

Lemma VM_BUG_ON_pass (c : X bool) w : c w = Ok (false, w) -> VM_BUG_ON c w = Ok (tt, w).
Proof.
  intros H. unfold VM_BUG_ON. destruct CONFIG_DEBUG_VM; [|done].
  unfold mbind, X_bind. by rewrite H.
Qed.

Lemma mapping_old a b pg pt ev :
  mapping_of old (W a b pg pt ev) = Ok (folio_mapping a, W a b pg pt ev).
Proof. unfold mapping_of. by run_x. Qed.

Lemma mapping_new a b pg pt ev :
  mapping_of new (W a b pg pt ev) = Ok (folio_mapping b, W a b pg pt ev).
Proof. unfold mapping_of. by run_x. Qed.

(** What a folio takes over from the other, and what it keeps. *)
Definition became (a b a' : folio) : Prop :=
  fl_mapping a' = fl_mapping b /\ fl_index a' = fl_index b /\
  fl_refs a' = fl_refs a /\ fl_locked a' = fl_locked a /\ fl_private a' = fl_private a.

(** Exchanging only the swap-backed flag and the mapping. *)
Lemma exchange_mapping_run a b pg pt ev :
  anon_ok a -> anon_ok b ->
  exists a' b', folio_exchange_mapping old new (W a b pg pt ev) = Ok (tt, W a' b' pg pt ev) /\
    became a b a' /\ became b a b' /\ anon_ok a' /\ anon_ok b' /\
    fl_memcg a' = fl_memcg a /\ fl_memcg b' = fl_memcg b /\
    forall i, 0 <= i ->
      Z.testbit (fl_flags a') i =
        (if i =? PG PG_swapbacked then Z.testbit (fl_flags b) i else Z.testbit (fl_flags a) i) /\
      Z.testbit (fl_flags b') i =
        (if i =? PG PG_swapbacked then Z.testbit (fl_flags a) i else Z.testbit (fl_flags b) i).
Proof.
  intros Ha Hb. destruct (anon_mapping a Ha) as [Ma _], (anon_mapping b Hb) as [Mb _].
  unfold folio_exchange_mapping. unfold mbind, X_bind.
  rewrite mapping_old. cbn [mbind res_bind]. rewrite mapping_new. cbn [mbind res_bind].
  rewrite Ma, Mb. cbn [Z.eqb negb].
  unfold folio_exchange_mapping_anon_anon. unfold mbind, X_bind.
  rewrite (VM_BUG_ON_pass _ (W a b pg pt ev)) by (rewrite mapping_old, Ma; done). cbn [mbind res_bind].
  rewrite (VM_BUG_ON_pass _ (W a b pg pt ev)) by (rewrite mapping_new, Mb; done). cbn [mbind res_bind].
  unfold swap_mapping. run_x.
  destruct (swap_flag_run PG_swapbacked (with_mapping (fl_mapping b) (fl_index b) a)
    (with_mapping (fl_mapping a) (fl_index a) b) pg pt ev) as (x & y & -> & H).
  eexists _, _. split; [reflexivity|]. simpl in H.
  assert (forall n, n = PG_swapcache \/ n = PG_private -> PG n =? PG PG_swapbacked = false) as Hd.
  { intros n Hn. apply Z.eqb_neq. intros Heq.
    destruct Hn as [->| ->]; rewrite ?PG_swapcache_alias in Heq; by apply PG_inj in Heq. }
  pose proof (fun n => proj1 (PG_range n)) as Hpos.
  destruct Ha as (A1 & A2 & A3), Hb as (B1 & B2 & B3). unfold test_flag in *.
  split_and!; try done; (split; [done|]; split; unfold test_flag; simpl);
    destruct (H _ (Hpos PG_swapcache)) as [S1 S2], (H _ (Hpos PG_private)) as [P1 P2];
    rewrite ?S1, ?S2, ?P1, ?P2, Hd by auto; done.
Qed.

Lemma exchange_fs_private_run a b pg pt ev :
  anon_ok a -> anon_ok b ->
  folio_exchange_fs_private old new (W a b pg pt ev) = Ok (tt, W a b pg pt ev).
Proof.
  intros (_ & _ & Ha) (_ & _ & Hb). unfold folio_exchange_fs_private. unfold mbind, X_bind.
  rewrite mapping_old. cbn [mbind res_bind]. rewrite mapping_new. cbn [mbind res_bind].
  unfold folio_detach_private. unfold mbind, X_bind. rewrite get_old. cbn [mbind res_bind].
  rewrite Ha. unfold mret, X_ret. cbn [mbind res_bind]. rewrite get_new. cbn [mbind res_bind].
  rewrite Hb. done.
Qed.

Lemma disjoint_ranges :
  folio_nr_pages old = folio_nr_pages new ->
  (forall p, in_folio old p = true -> in_folio new p = false) ->
  folio_page old + folio_nr_pages old <= folio_page new \/
  folio_page new + folio_nr_pages old <= folio_page old.
Proof.
  intros Hnr Hdis. pose proof (nr_pages_pos old).
  destruct (Z_le_gt_dec (folio_page old + folio_nr_pages old) (folio_page new)); [by left|].
  destruct (Z_le_gt_dec (folio_page new + folio_nr_pages old) (folio_page old)); [by right|].
  exfalso. set (p := Z.max (folio_page old) (folio_page new)).
  assert (in_folio old p = true) as H1.
  { unfold in_folio, p. rewrite (proj2 (Z.leb_le _ _)), (proj2 (Z.ltb_lt _ _)) by lia. done. }
  apply Hdis in H1. revert H1. unfold in_folio, p.
  rewrite (proj2 (Z.leb_le _ _)), (proj2 (Z.ltb_lt _ _)) by lia. done.
Qed.

Lemma exchange_data_run par a b pg pt ev :
  folio_nr_pages old = folio_nr_pages new ->
  (forall p, in_folio old p = true -> in_folio new p = false) ->
  (forall p, in_folio old p = true \/ in_folio new p = true -> page_ok pg p) ->
  exists pg', folio_exchange_data old new par (W a b pg pt ev) = Ok (tt, W a b pg' pt ev) /\
    forall p, pg' !! p = swap_range (folio_page old) (folio_page new) 0 (folio_nr_pages old) pg p.
Proof.
  intros Hnr Hdis Hok. unfold folio_exchange_data. unfold mbind, X_bind.
  rewrite VM_BUG_ON_pass by (rewrite Hnr, Z.eqb_refl; done). cbn [mbind res_bind].
  pose proof (nr_pages_pos old) as Hpos. unfold loop.
  assert (forall f j, 0 <= j < folio_nr_pages f -> in_folio f (folio_page f + j) = true) as Hin.
  { intros f j Hj. unfold in_folio. rewrite (proj2 (Z.leb_le _ _)), (proj2 (Z.ltb_lt _ _)) by lia. done. }
  destruct (exchange_pages_spec par (folio_page old) (folio_page new) (Z.to_nat (folio_nr_pages old)) 0
              (W a b pg pt ev)) as (pg' & -> & Hpg).
  - rewrite Z2Nat.id by lia. pose proof (disjoint_ranges Hnr Hdis). lia.
  - intros j Hj. simpl. split; apply Hok; [left|right]; apply Hin; lia.
  - exists pg'. split; [done|]. intros p. rewrite Hpg, Z2Nat.id by lia. done.
Qed.

Lemma fs_prepare_old mode a b pg pt ev :
  anon_ok a -> folio_exchange_fs_prepare old mode (W a b pg pt ev) = Ok ((0, false), W a b pg pt ev).
Proof.
  intros Ha. destruct (anon_mapping a Ha) as [Ma _]. unfold folio_exchange_fs_prepare.
  unfold mbind, X_bind. rewrite mapping_old. cbn [mbind res_bind]. by rewrite Ma.
Qed.

Lemma fs_prepare_new mode a b pg pt ev :
  anon_ok b -> folio_exchange_fs_prepare new mode (W a b pg pt ev) = Ok ((0, false), W a b pg pt ev).
Proof.
  intros Hb. destruct (anon_mapping b Hb) as [Mb _]. unfold folio_exchange_fs_prepare.
  unfold mbind, X_bind. rewrite mapping_new. cbn [mbind res_bind]. by rewrite Mb.
Qed.

Lemma fs_finish_old l a b pg pt ev :
  anon_ok a -> folio_exchange_fs_finish old l (W a b pg pt ev) = Ok (tt, W a b pg pt ev).
Proof.
  intros Ha. destruct (anon_mapping a Ha) as [Ma _]. unfold folio_exchange_fs_finish.
  unfold mbind, X_bind. rewrite mapping_old. cbn [mbind res_bind]. by rewrite Ma.
Qed.

Lemma fs_finish_new l a b pg pt ev :
  anon_ok b -> folio_exchange_fs_finish new l (W a b pg pt ev) = Ok (tt, W a b pg pt ev).
Proof.
  intros Hb. destruct (anon_mapping b Hb) as [Mb _]. unfold folio_exchange_fs_finish.
  unfold mbind, X_bind. rewrite mapping_new. cbn [mbind res_bind]. by rewrite Mb.
Qed.

Lemma flags_after_anon a b x m :
  anon_ok a -> anon_ok b -> (forall i, 0 <= i -> Z.testbit x i = flags_after (fl_flags a) (fl_flags b) i) ->
  anon_ok (with_memcg m (with_flags x a)).
Proof.
  intros (A1 & A2 & A3) (_ & B2 & _) Hx. unfold test_flag in *.
  pose proof (fun n => proj1 (PG_range n)) as Hpos.
  split; [done|]. unfold test_flag. simpl. rewrite !Hx by done. unfold flags_after. split.
  - rewrite (proj2 (Z.eqb_neq _ _)) by (rewrite PG_swapcache_alias; intros H; by apply PG_inj in H).
    by case_bool_decide.
  - rewrite (proj2 (Z.eqb_neq _ _)) by (intros H; by apply PG_inj in H).
    rewrite bool_decide_false; [done|]. intros (n & Hn & Hin)%list_elem_of_fmap.
    apply PG_inj in Hn; [|done|]; [subst n|intros ->]; revert Hin; unfold exchanged_flags;
      destruct CONFIG_PAGE_IDLE_FLAG; set_solver.
Qed.

(** The move succeeds and swaps everything. *)
Lemma exchange_move_run mode par a b pg pt ev :
  mode = MIGRATE_SYNC \/ mode = MIGRATE_ASYNC ->
  anon_ok a -> anon_ok b -> fl_locked a = true -> fl_locked b = true ->
  folio_nr_pages old = folio_nr_pages new ->
  (forall p, in_folio old p = true -> in_folio new p = false) ->
  (forall p, in_folio old p = true \/ in_folio new p = true -> page_ok pg p) ->
  exists a' b' pg', folio_exchange_move old new mode par (W a b pg pt ev) = Ok (0, W a' b' pg' pt ev) /\
    became a b a' /\ became b a b' /\ fl_memcg a' = fl_memcg b /\ fl_memcg b' = fl_memcg a /\
    forall p, pg' !! p = swap_range (folio_page old) (folio_page new) 0 (folio_nr_pages old) pg p.
Proof.
  intros Hmode Ha Hb La Lb Hnr Hdis Hok. unfold folio_exchange_move. unfold mbind, X_bind.
  rewrite (VM_BUG_ON_pass _ (W a b pg pt ev)) by (run_x; by rewrite La). cbn [mbind res_bind].
  rewrite (VM_BUG_ON_pass _ (W a b pg pt ev)) by (run_x; by rewrite Lb). cbn [mbind res_bind].
  assert (negb (bool_decide (mode = MIGRATE_SYNC)) && negb (bool_decide (mode = MIGRATE_ASYNC)) = false) as ->
    by (by destruct Hmode as [->| ->]).
  rewrite fs_prepare_old by done. cbn [mbind res_bind Z.eqb negb].
  rewrite fs_prepare_new by done. cbn [mbind res_bind Z.eqb negb].
  destruct (exchange_mapping_run a b pg pt ev Ha Hb)
    as (a1 & b1 & -> & Ba & Bb & Ha1 & Hb1 & Ma & Mb & _). cbn [mbind res_bind].
  rewrite exchange_fs_private_run by done. cbn [mbind res_bind].
  destruct (exchange_data_run par a1 b1 pg pt ev Hnr Hdis Hok) as (pg' & -> & Hpg). cbn [mbind res_bind].
  destruct (exchange_flags_run a1 b1 pg' pt ev) as (x & y & -> & Hxy). cbn [mbind res_bind].
  set (a2 := with_memcg _ _). set (b2 := with_memcg _ _).
  assert (anon_ok a2) as Ha2 by (apply (flags_after_anon a1 b1); [done|done|apply Hxy]).
  assert (anon_ok b2) as Hb2 by (apply (flags_after_anon b1 a1); [done|done|intros; by apply Hxy]).
  rewrite fs_finish_new by done. cbn [mbind res_bind]. rewrite fs_finish_old by done. cbn [mbind res_bind].
  exists a2, b2, pg'. split; [done|]. split; [done|]. split; [done|]. simpl. done.
Qed.

(** *** Page tables *)

(** The reverse map of folio [f] whose record is [v] finds [x]. *)
Definition rmap_of (f : Z) (v : folio) (x : Z) : bool := rmap (fl_mapping v) (fl_index v) (folio_nr_pages f) x.

(** All mappings of a folio are in its reverse map. *)
Definition mapped_in_rmap (f : Z) (v : folio) (pt : gmap Z pte) : Prop :=
  forall x p, pt !! x = Some (Present p) -> in_folio f p = true -> rmap_of f v x = true.

Definition rem (s d : Z) (v : folio) (x : Z) (e : pte) : pte :=
  match e with
  | Migration p => if in_folio s p && rmap_of d v x then Present (p - folio_page s + folio_page d) else e
  | _ => e
  end.

Lemma not_mapped f w x p :
  folio_mapped f w = false -> ptes w !! x = Some (Present p) -> in_folio f p = false.
Proof.
  unfold folio_mapped, folio_mapcount. intros Hm Hx. apply Z.ltb_ge in Hm.
  destruct (in_folio f p) eqn:Hp; [exfalso|done].
  assert (size (filter (fun '(_, e) => maps_folio f e = true) (ptes w)) = 0%nat) as Hs by lia.
  apply map_size_empty_inv in Hs.
  assert (filter (fun '(_, e) => maps_folio f e = true) (ptes w) !! x = Some (Present p)) as Hf.
  { apply map_lookup_filter_Some. split; [done|]. simpl. done. }
  rewrite Hs in Hf. by apply lookup_empty_Some in Hf.
Qed.

(** Unmapping: tried when there is a mapping; 0 if there was none. *)
Definition unmapped (f : Z) (v : folio) (pt : gmap Z pte) (src : Z) (pt' : gmap Z pte) : Prop :=
  src = f /\ pt' = try_to_migrate f (fl_mapping v) (fl_index v) pt \/
  src = 0 /\ pt' = pt /\ forall x p, pt !! x = Some (Present p) -> in_folio f p = false.

Lemma unmap_run f v a b pg pt ev :
  (f = old /\ v = a \/ f = new /\ v = b) -> anon_ok v -> fl_locked v = true ->
  exists src pt', folio_exchange_unmap f (W a b pg pt ev) = Ok (src, W a b pg pt' ev) /\
    unmapped f v pt src pt'.
Proof.
  intros Hf Hv Hl. destruct (anon_mapping v Hv) as [_ Mv].
  assert (get_folio f (W a b pg pt ev) = Ok (v, W a b pg pt ev)) as Hg
    by (destruct Hf as [[-> ->]|[-> ->]]; [apply get_old|apply get_new]).
  unfold folio_exchange_unmap. unfold mbind, X_bind. rewrite Hg. cbn [mbind res_bind].
  unfold gets. cbn [mbind res_bind]. rewrite (proj2 (Z.eqb_neq _ _) Mv). cbn [negb andb].
  destruct (folio_mapped f (W a b pg pt ev)) eqn:Hm.
  - rewrite VM_BUG_ON_pass by (by rewrite Hl). cbn [mbind res_bind].
    eexists f, _. split; [reflexivity|by left].
  - exists 0, pt. split; [done|]. right. split; [done|]. split; [done|].
    intros x p. by apply (not_mapped f (W a b pg pt ev)).
Qed.

(** An entry is left alone or becomes a migration entry, which it does if it can
    and trying succeeds. *)
Lemma unmapped_entry f v pt src pt' x :
  unmapped f v pt src pt' ->
  pt' !! x = pt !! x \/
  exists p, pt !! x = Some (Present p) /\ in_folio f p = true /\ pt' !! x = Some (Migration p).
Proof.
  intros [[_ ->]|(_ & -> & _)]; [|by left].
  destruct (try_to_migrate_spec f (fl_mapping v) (fl_index v) pt x) as [H|(p & H1 & H2 & _ & H3)]; [by left|eauto].
Qed.

Definition mig (f : Z) (e : pte) : pte :=
  match e with Present p => if in_folio f p then Migration p else e | _ => e end.

Lemma unmapped_all f v pt src pt' x :
  migrate_complete -> mapped_in_rmap f v pt -> unmapped f v pt src pt' -> pt' !! x = mig f <$> pt !! x.
Proof.
  intros Hc Hr Hu. destruct (unmapped_entry f v pt src pt' x Hu) as [H|(p & H1 & H2 & H3)];
    [|by rewrite H3, H1; simpl; rewrite H2].
  rewrite H. destruct (pt !! x) as [[p|p]|] eqn:Ex; try done. simpl. destruct (in_folio f p) eqn:Hp; [|done].
  destruct Hu as [[_ ->]|(_ & _ & Hn)]; [|by rewrite (Hn x p) in Hp].
  pose proof (Hc _ _ _ _ _ _ H Hp) as Hx. specialize (Hr x p Ex Hp). unfold rmap_of in Hr. congruence.
Qed.

(** Migration entries of the folio can only come from [src]. *)
Lemma unmapped_none f v pt src pt' :
  unmapped f v pt src pt' -> (forall x p, pt !! x = Some (Migration p) -> in_folio f p = false) ->
  src = f \/ src = 0 /\ forall x p, pt' !! x = Some (Migration p) -> in_folio f p = false.
Proof. intros [[-> _]|(-> & -> & _)] Hn; [by left|by right]. Qed.

Lemma remap_run (f d : Z) vf vd src a b pg pt ev :
  (f = old /\ d = new /\ vf = a /\ vd = b \/ f = new /\ d = old /\ vf = b /\ vd = a) ->
  f <> 0 -> d <> 0 -> folio_nr_pages old = folio_nr_pages new ->
  folio_nr_pages old = 1 \/ fl_index a = fl_index b ->
  (src = f \/ src = 0 /\ forall x p, pt !! x = Some (Migration p) -> in_folio f p = false) ->
  exists pt', folio_exchange_remap src d (W a b pg pt ev) = Ok (tt, W a b pg pt' ev) /\
    forall x, pt' !! x = rem f d vd x <$> pt !! x.
Proof.
  intros Hfd Hf Hd Hnr Hi Hs. unfold folio_exchange_remap. destruct Hs as [->|[-> Hn]].
  - rewrite (proj2 (Z.eqb_neq _ _) Hf), (proj2 (Z.eqb_neq _ _) Hd). unfold mbind, X_bind.
    assert (get_folio f (W a b pg pt ev) = Ok (vf, W a b pg pt ev) /\
            get_folio d (W a b pg pt ev) = Ok (vd, W a b pg pt ev)) as [Ef Ed]
      by (destruct Hfd as [(-> & -> & -> & ->)|(-> & -> & -> & ->)]; by rewrite get_old, get_new).
    rewrite Ef. cbn [mbind res_bind]. rewrite Ed. cbn [mbind res_bind].
    eexists. split; [reflexivity|]. intros x. rewrite remove_migration_ptes_spec.
    + simpl ptes. by destruct (pt !! x) as [[p|p]|].
    + by destruct Hfd as [(-> & -> & -> & ->)|(-> & -> & -> & ->)].
    + destruct Hfd as [(-> & -> & -> & ->)|(-> & -> & -> & ->)]; rewrite <- ?Hnr;
        destruct Hi as [->| ->]; auto.
  - exists pt. split; [done|]. intros x. destruct (pt !! x) as [[p|p]|] eqn:Ex; try done. simpl.
    by rewrite (Hn x p).
Qed.

(** The page that takes the place of [p]. *)
Definition other (p : Z) : Z :=
  if in_folio old p then p - folio_page old + folio_page new
  else if in_folio new p then p - folio_page new + folio_page old else p.

Definition no_migration (pt : gmap Z pte) : Prop :=
  forall x p, pt !! x = Some (Migration p) -> in_folio old p = false /\ in_folio new p = false.

(** Unmapping both folios, and an entry afterwards. *)
Definition unmapped_both (a b : folio) (pt : gmap Z pte) (so sn : Z) (pt2 : gmap Z pte) : Prop :=
  exists pt1, unmapped old a pt so pt1 /\ unmapped new b pt1 sn pt2.

Lemma unmapped_both_entry a b pt so sn pt2 x :
  migrate_complete -> mapped_in_rmap old a pt -> mapped_in_rmap new b pt ->
  unmapped_both a b pt so sn pt2 -> pt2 !! x = mig new <$> (mig old <$> pt !! x).
Proof.
  intros Hc Ha Hb (pt1 & H1 & H2). rewrite (unmapped_all new b pt1 sn pt2 x Hc); [|clear x; intros x p Hx|done].
  - by rewrite (unmapped_all old a pt so pt1 x Hc).
  - apply (Hb x p). destruct (unmapped_entry old a pt so pt1 x H1) as [<-|(? & _ & _ & ?)]; [done|congruence].
Qed.

(** Remapping after unmapping, with the records the folios have then. *)
Lemma remap_both_run a0 b0 so sn a b pg pt pt2 ev :
  old <> 0 -> new <> 0 -> folio_nr_pages old = folio_nr_pages new ->
  folio_nr_pages old = 1 \/ fl_index a = fl_index b ->
  (forall p, in_folio old p = true -> in_folio new p = false) -> no_migration pt ->
  unmapped_both a0 b0 pt so sn pt2 ->
  exists pt', (folio_exchange_remap sn old ≫= (fun _ => folio_exchange_remap so new)) (W a b pg pt2 ev) =
      Ok (tt, W a b pg pt' ev) /\
    forall x, pt' !! x = rem old new b x <$> (rem new old a x <$> pt2 !! x).
Proof.
  intros Ho0 Hn0 Hnr Hi Hdis Hnm (pt1 & H1 & H2). unfold mbind, X_bind.
  destruct (remap_run new old b a sn a b pg pt2 ev) as (pt3 & -> & H3); [by right|done..| |].
  { apply (unmapped_none new b0 pt1 sn pt2 H2). intros x p Hx.
    destruct (unmapped_entry old a0 pt so pt1 x H1) as [E1|(q & _ & Hq & E1)]; rewrite E1 in Hx.
    - by apply (Hnm x).
    - injection Hx as ->. by apply Hdis. }
  cbn [mbind res_bind].
  destruct (remap_run old new a b so a b pg pt3 ev) as (pt4 & -> & H4); [by left|done..| |].
  { destruct (unmapped_none old a0 pt so pt1 H1) as [->|[-> Hso]]; [intros x p Hx; by apply (Hnm x)|by left|].
    right. split; [done|]. intros x p Hx. rewrite H3 in Hx.
    destruct (unmapped_entry new b0 pt1 sn pt2 x H2) as [E2|(q & _ & Hq & E2)]; rewrite E2 in Hx.
    - destruct (pt1 !! x) as [[q|q]|] eqn:Ex; simpl in Hx; try done.
      pose proof (Hso x q Ex). case_match; congruence.
    - simpl in Hx. case_match; [done|]. injection Hx as ->.
      destruct (in_folio old p) eqn:Hp; [|done]. by rewrite (Hdis p Hp) in Hq. }
  exists pt4. split; [done|]. intros x. by rewrite H4, H3.
Qed.

(** *** The checks *)

Lemma get_folio_run f v w : folios w !! f = Some v -> get_folio f w = Ok (v, w).
Proof. intros H. unfold get_folio. by rewrite H. Qed.

Lemma ref_count_run f v w :
  folios w !! f = Some v -> folio_ref_count f w = Ok (fl_refs v + folio_mapcount f w, w).
Proof. intros H. unfold folio_ref_count, mbind, X_bind. by rewrite (get_folio_run f v). Qed.

Lemma supported_checks_run f v w :
  folios w !! f = Some v -> anon_ok v -> exists r, supported_checks f w = Ok (r, w).
Proof.
  intros Hf Hv. destruct (anon_mapping v Hv) as [M0 M1]. unfold supported_checks, mbind, X_bind.
  rewrite (get_folio_run f v) by done. cbn [mbind res_bind].
  rewrite (proj2 (Z.eqb_neq _ _) M1). cbn [andb].
  destruct (test_flag PG_mlocked v); [by exists false|]. rewrite M0. cbn [Z.eqb negb andb].
  rewrite (ref_count_run f v) by done. cbn [mbind res_bind]. eauto.
Qed.

(** The checks change at most the writeback flag, waiting for it to clear. *)
Lemma supported_run f v w mode :
  folios w !! f = Some v -> anon_ok v ->
  exists r v', folio_exchange_supported f mode w = Ok (r, set_folios (<[f := v']> (folios w)) w) /\
    anon_ok v' /\ exists x, v' = with_flags x v.
Proof.
  intros Hf Hv. unfold folio_exchange_supported, mbind, X_bind.
  assert (set_folios (<[f := v]> (folios w)) w = w) as Hid
    by (rewrite insert_id by done; by destruct w).
  assert (exists x, v = with_flags x v) as Hself by (exists (fl_flags v); by destruct v).
  rewrite (ref_count_run f v) by done. cbn [mbind res_bind].
  case_match; [exists false, v; by rewrite Hid|].
  rewrite (get_folio_run f v) by done. cbn [mbind res_bind].
  destruct (test_flag PG_writeback v); [|destruct (supported_checks_run f v w Hf Hv) as (r & ->);
    exists r, v; by rewrite Hid].
  set (v' := with_flags (Z.clearbit (fl_flags v) (PG PG_writeback)) v).
  assert (anon_ok v') as Hv'.
  { destruct Hv as (H1 & H2 & H3). split; [done|]. unfold test_flag in *. simpl.
    pose proof (PG_range PG_writeback).
    rewrite !Z.clearbit_neq, H2, H3; [done| |]; intros Heq; rewrite ?PG_swapcache_alias in Heq;
      by apply PG_inj in Heq. }
  assert (folio_wait_writeback f w = Ok (tt, set_folios (<[f := v']> (folios w)) w)) as Hwait.
  { unfold folio_wait_writeback, update_folio, mbind, X_bind.
    rewrite (get_folio_run f v) by done. done. }
  destruct mode; try (exists false, v; by rewrite Hid);
    rewrite Hwait; cbn [mbind res_bind];
    (destruct (supported_checks_run f v' (set_folios (<[f := v']> (folios w)) w)) as (r & ->);
      [simpl; apply lookup_insert_eq|done|]); exists r, v'; eauto.
Qed.

Lemma supported_old mode a b pg pt ev :
  anon_ok a ->
  exists r a', folio_exchange_supported old mode (W a b pg pt ev) = Ok (r, W a' b pg pt ev) /\
    anon_ok a' /\ exists x, a' = with_flags x a.
Proof.
  intros Ha. destruct (supported_run old a (W a b pg pt ev) mode) as (r & a' & H & Hr);
    [simpl; by rewrite lookup_insert_ne, lookup_insert_eq|done|].
  exists r, a'. split; [|done]. by rewrite H, W_set_old.
Qed.

Lemma supported_new mode a b pg pt ev :
  anon_ok b ->
  exists r b', folio_exchange_supported new mode (W a b pg pt ev) = Ok (r, W a b' pg pt ev) /\
    anon_ok b' /\ exists x, b' = with_flags x b.
Proof.
  intros Hb. destruct (supported_run new b (W a b pg pt ev) mode) as (r & b' & H & Hr);
    [simpl; by rewrite lookup_insert_eq|done|].
  exists r, b'. split; [|done]. by rewrite H, W_set_new.
Qed.

(** *** The exchange of locked folios *)

(** Records that stay with their folio whatever happens. *)
Definition kept (a a' : folio) : Prop :=
  fl_refs a' = fl_refs a /\ fl_locked a' = fl_locked a /\ fl_private a' = fl_private a.

(** The two folios have swapped mapping and index. *)
Definition remapped (a b a' b' : folio) : Prop :=
  fl_mapping a' = fl_mapping b /\ fl_index a' = fl_index b /\
  fl_mapping b' = fl_mapping a /\ fl_index b' = fl_index a.

Lemma exchange_locked_run mode par a b pg pt ev :
  mode = MIGRATE_SYNC \/ mode = MIGRATE_ASYNC ->
  old <> 0 -> new <> 0 -> anon_ok a -> anon_ok b -> fl_locked a = true -> fl_locked b = true ->
  folio_nr_pages old = folio_nr_pages new -> folio_nr_pages old = 1 \/ fl_index a = fl_index b ->
  (forall p, in_folio old p = true -> in_folio new p = false) ->
  (forall p, in_folio old p = true \/ in_folio new p = true -> page_ok pg p) -> no_migration pt ->
  exists err a' b' pg' pt' ev',
    exchange_locked old new mode par (W a b pg pt ev) = Ok (err, W a' b' pg' pt' ev') /\
    kept a a' /\ kept b b' /\
    ((err = - ENOTSUPP \/ err = - ENOTSUPP + 1) /\ pt' = pt /\ pg' = pg \/
     err = 0 /\ remapped a b a' b' /\
     (forall p, pg' !! p = swap_range (folio_page old) (folio_page new) 0 (folio_nr_pages old) pg p) /\
     exists so sn pt2, unmapped_both a b pt so sn pt2 /\
       forall x, pt' !! x = rem old new b' x <$> (rem new old a' x <$> pt2 !! x)).
Proof.
  intros Hmode Ho Hn Ha Hb La Lb Hnr Hi Hdis Hok Hnm. unfold exchange_locked, mbind, X_bind.
  destruct (supported_old mode a b pg pt ev Ha) as (r1 & a1 & -> & Ha1 & x1 & ->). cbn [mbind res_bind].
  destruct r1; cbn [negb].
  2: { eexists (- ENOTSUPP), _, b, pg, pt, _. split; [reflexivity|]. split; [done|]. split; [done|]. auto. }
  destruct (supported_new mode (with_flags x1 a) b pg pt ev Hb) as (r2 & b1 & -> & Hb1 & x2 & ->).
  cbn [mbind res_bind]. destruct r2; cbn [negb].
  2: { eexists (- ENOTSUPP + 1), _, _, pg, pt, _. split; [reflexivity|]. split; [done|]. split; [done|]. auto. }
  destruct (unmap_run old (with_flags x1 a) (with_flags x1 a) (with_flags x2 b) pg pt ev)
    as (so & pt1 & -> & H1); [by left|done|done|]. cbn [mbind res_bind].
  destruct (unmap_run new (with_flags x2 b) (with_flags x1 a) (with_flags x2 b) pg pt1 ev)
    as (sn & pt2 & -> & H2); [by right|done|done|]. cbn [mbind res_bind].
  assert (unmapped_both a b pt so sn pt2) as Hu by (by exists pt1).
  destruct (exchange_move_run mode par (with_flags x1 a) (with_flags x2 b) pg pt2 ev Hmode Ha1 Hb1 La Lb Hnr Hdis Hok)
    as (a2 & b2 & pg' & -> & (E1 & E2 & E3 & E4 & E5) & (G1 & G2 & G3 & G4 & G5) & _ & _ & Hpg).
  cbn [mbind res_bind Z.eqb]. unfold mret, X_ret. cbn [mbind res_bind].
  destruct (remap_both_run a b so sn a2 b2 pg' pt pt2 ev Ho Hn Hnr) as (pt' & Hr & Hpt');
    [simpl in *; destruct Hi as [?|Hi]; [by left|right; congruence]|done..|].
  unfold mbind, X_bind in Hr.
  destruct (folio_exchange_remap sn old (W a2 b2 pg' pt2 ev)) as [[[] w1]|]; cbn [mbind res_bind] in *; [|done].
  rewrite Hr. cbn [mbind res_bind]. exists 0, a2, b2, pg', pt', ev. split; [done|]. simpl in *.
  split; [done|]. split; [done|]. right. split; [done|]. split; [done|]. split; [exact Hpg|].
  by exists so, sn, pt2.
Qed.

(** With everything unmapped and the reverse maps swapped, every mapping moves to
    the other folio. *)
Lemma exchanged_entry a b a' b' pt so sn pt2 x :
  migrate_complete -> mapped_in_rmap old a pt -> mapped_in_rmap new b pt -> no_migration pt ->
  folio_nr_pages old = folio_nr_pages new ->
  (forall p, in_folio old p = true -> in_folio new p = false) ->
  unmapped_both a b pt so sn pt2 -> remapped a b a' b' ->
  rem old new b' x <$> (rem new old a' x <$> pt2 !! x) =
    (fun e => match e with Present p => Present (other p) | Migration p => Migration p end) <$> pt !! x.
Proof.
  intros Hc Ha Hb Hnm Hnr Hdis Hu (M1 & I1 & M2 & I2).
  rewrite (unmapped_both_entry a b pt so sn pt2 x Hc Ha Hb Hu).
  destruct (pt !! x) as [[p|p]|] eqn:Ex; [| |done]; simpl; f_equal.
  - unfold other. destruct (in_folio old p) eqn:Hp; simpl.
    + rewrite (Hdis p Hp). simpl. rewrite Hp. pose proof (Ha x p Ex Hp) as Hx. unfold rmap_of in *.
      by rewrite M2, I2, <- Hnr, Hx.
    + destruct (in_folio new p) eqn:Hq; simpl; [|done]. rewrite Hq. pose proof (Hb x p Ex Hq) as Hx.
      unfold rmap_of in *. by rewrite M1, I1, Hnr, Hx.
  - destruct (Hnm x p Ex) as [H1 H2]. rewrite H2. simpl. by rewrite H1.
Qed.

(** Without a swap of the reverse maps, a mapping of [old] is resolved only where
    [new] could be mapped. *)
Lemma stranded_entry a b pt so sn pt2 x p :
  migrate_complete -> mapped_in_rmap old a pt -> mapped_in_rmap new b pt ->
  (forall p, in_folio old p = true -> in_folio new p = false) ->
  unmapped_both a b pt so sn pt2 -> pt !! x = Some (Present p) ->
  rem old new b x <$> (rem new old a x <$> pt2 !! x) =
    Some (if in_folio old p then if rmap_of new b x then Present (other p) else Migration p
          else if in_folio new p then if rmap_of old a x then Present (other p) else Migration p
          else Present p).
Proof.
  intros Hc Ha Hb Hdis Hu Ex. rewrite (unmapped_both_entry a b pt so sn pt2 x Hc Ha Hb Hu), Ex. unfold other. simpl.
  destruct (in_folio old p) eqn:Hp; simpl.
  - rewrite (Hdis p Hp). simpl. rewrite Hp. by destruct (rmap_of new b x).
  - destruct (in_folio new p) eqn:Hq; simpl; [|done]. rewrite Hq. destruct (rmap_of old a x); simpl; [done|].
    by rewrite Hp.
Qed.
End two_folios.

(** ** The properties *)

Section properties.
Context {E : ExchangeEnv} {EL : ExchangeLaws E}.

(** What a process sees at an address: the contents of the mapped page. *)
Definition view (w : world) (x : Z) : option (list Z) :=
  match ptes w !! x with Some (Present p) => pages w !! p | _ => None end.

(** Two different anonymous folios of the same size, of one page or at the same
    offset, with all their pages, not under migration and not in the swap cache,
    without private data, mapped only where their reverse maps say. *)
Record exchangeable (old new : Z) (a b : folio) (w : world) : Prop := {
  ex_ne : old <> new;
  ex_old : old <> 0;
  ex_new : new <> 0;
  ex_a : folios w !! old = Some a;
  ex_b : folios w !! new = Some b;
  ex_anon_a : anon_ok a;
  ex_anon_b : anon_ok b;
  ex_size : folio_nr_pages old = folio_nr_pages new;
  ex_disjoint p : in_folio old p = true -> in_folio new p = false;
  ex_pages p : in_folio old p = true \/ in_folio new p = true -> page_ok (pages w) p;
  ex_no_migration : no_migration old new (ptes w);
  ex_offset : folio_nr_pages old = 1 \/ fl_index a = fl_index b;
  ex_rmap_a : mapped_in_rmap old a (ptes w);
  ex_rmap_b : mapped_in_rmap new b (ptes w);
}.

Lemma W_id old new a b w :
  folios w !! old = Some a -> folios w !! new = Some b ->
  W old new w a b (pages w) (ptes w) (events w) = w.
Proof.
  intros Ha Hb. unfold W. rewrite (insert_id _ old) by done. rewrite insert_id by done. by destruct w.
Qed.

Lemma count_event_run old new w a b pg pt ev e :
  count_vm_event e (W old new w a b pg pt ev) = Ok (tt, W old new w a b pg pt (e :: ev)).
Proof. done. Qed.

(** Taking the lock of an unlocked folio, or waiting for it. *)
Lemma lock_sync f v mine w :
  memalloc = false -> f ∉ mine -> folios w !! f = Some v ->
  folio_exchange_lock mine f MIGRATE_SYNC w = Ok (inr f, set_folios (<[f := with_locked true v]> (folios w)) w).
Proof.
  intros Hm Hf Hv. unfold folio_exchange_lock, mbind, X_bind. rewrite (get_folio_run f v) by done.
  cbn [mbind res_bind]. destruct (fl_locked v) eqn:Hl; cbn [negb].
  - rewrite decide_False by done. rewrite Hm. rewrite !decide_False by done. unfold mret, X_ret.
    rewrite insert_id; [by destruct w|]. rewrite Hv. destruct v. simpl in *. by rewrite Hl.
  - unfold update_folio, mbind, X_bind. by rewrite (get_folio_run f v) by done.
Qed.

Lemma swap_range_other old new pg p :
  folio_nr_pages old = folio_nr_pages new ->
  (forall p, in_folio old p = true -> in_folio new p = false) ->
  swap_range (folio_page old) (folio_page new) 0 (folio_nr_pages old) pg (other old new p) = pg !! p.
Proof.
  intros Hnr Hdis. pose proof (disjoint_ranges old new Hnr Hdis) as Hd. clear Hdis.
  unfold swap_range, other, in_folio in *. rewrite !Z.add_0_r.
  rewrite <- Hnr in *. set (n := folio_nr_pages old) in *.
  set (po := folio_page old) in *. set (pn := folio_page new) in *.
  destruct (Z.leb_spec po p), (Z.ltb_spec p (po + n)); simpl;
    repeat match goal with |- context [?x <=? ?y] => destruct (Z.leb_spec x y); simpl
                         | |- context [?x <? ?y] => destruct (Z.ltb_spec x y); simpl end;
    simpl in *; try lia; f_equal; try lia.
Qed.

(** The exchange as the migration thread asks for it. *)
Lemma exchange_sync_run old new a b w :
  memalloc = false -> exchangeable old new a b w ->
  exists err w' a' b', folio_exchange_isolated old new MIGRATE_SYNC w = Ok (err, w') /\
    folios w' !! old = Some a' /\ folios w' !! new = Some b' /\
    fl_refs a' = fl_refs a /\ fl_refs b' = fl_refs b /\ fl_locked a' = false /\ fl_locked b' = false /\
    i_pages w' = i_pages w /\
    ((err = - ENOTSUPP \/ err = - ENOTSUPP + 1) /\ ptes w' = ptes w /\ pages w' = pages w \/
     err = 0 /\ remapped a b a' b' /\
     (forall p, pages w' !! p = swap_range (folio_page old) (folio_page new) 0 (folio_nr_pages old) (pages w) p) /\
     exists so sn pt2, unmapped_both old new a b (ptes w) so sn pt2 /\
       forall x, ptes w' !! x = rem old new b' x <$> (rem new old a' x <$> pt2 !! x)).
Proof.
  intros Hm [Hne Ho Hn Ha Hb Aa Ab Hnr Hdis Hok Hnm Hi _ _].
  unfold folio_exchange_isolated, folio_exchange_parallel_isolated, mbind, X_bind.
  set (ev := FOLIO_EXCHANGE :: events w).
  assert (count_vm_event FOLIO_EXCHANGE w = Ok (tt, W old new w a b (pages w) (ptes w) ev)) as ->.
  { unfold ev. rewrite <- (count_event_run old new w a b). by rewrite W_id. }
  cbn [mbind res_bind].
  rewrite (lock_sync old a); [|done|apply not_elem_of_nil|unfold W; simpl folios; by rewrite lookup_insert_ne, lookup_insert_eq].
  cbn [mbind res_bind].
  rewrite W_set_old by done.
  rewrite (lock_sync new b); [|done|intros ?%list_elem_of_singleton; congruence|unfold W; simpl folios; by rewrite lookup_insert_eq].
  cbn [mbind res_bind].
  rewrite W_set_new.
  destruct (exchange_locked_run old new Hne w MIGRATE_SYNC PARALLEL_SINGLE (with_locked true a)
      (with_locked true b) (pages w) (ptes w) ev)
    as (err & a' & b' & pg' & pt' & ev' & -> & (R1 & R2 & _) & (T1 & T2 & _) & Hres);
    [by left|done..|].
  cbn [mbind res_bind]. unfold folio_unlock. rewrite upd_new by done. cbn [mbind res_bind].
  rewrite upd_old by done. cbn [mbind res_bind]. unfold mret, X_ret. cbn [mbind res_bind].
  rewrite count_event_run. cbn [mbind res_bind].
  eexists err, _, (with_locked false a'), (with_locked false b'). split; [reflexivity|].
  simpl folios. simpl ptes. simpl pages. simpl i_pages.
  split_and!; try done; [by rewrite lookup_insert_ne, lookup_insert_eq|by rewrite lookup_insert_eq].
Qed.

(** C4: exchanging two anonymous folios in mode MIGRATE_SYNC, the migration
    thread's, from a task without PF_MEMALLOC, does not change what a process
    sees, provided that try_to_migrate, which the code does not check, leaves no
    mapping of either folio behind.  The folios are different and of the same size
    (one page, or large and at the same offset), not in the swap cache, without
    private data and not already under migration, and mapped only where their
    reverse maps say.  The exchange returns without a fault; whatever it returns,
    every address that was mapped is mapped and shows the same contents, both
    folios keep their references and are unlocked, and the page cache is
    untouched.  It returns 0 and then every mapping of a page of one folio has
    become a mapping of the same page of the other, or it returns -ENOTSUPP or
    -ENOTSUPP + 1, the two errors the caller distinguishes, and the mappings and
    the pages are as before. *)
Theorem exchange_preserves_contents old new a b w :
  memalloc = false -> migrate_complete -> exchangeable old new a b w ->
  exists err w' a' b', folio_exchange_isolated old new MIGRATE_SYNC w = Ok (err, w') /\
    (forall x, view w' x = view w x) /\
    (forall x p, ptes w !! x = Some (Present p) ->
       ptes w' !! x = Some (Present (if err =? 0 then other old new p else p))) /\
    (err = 0 \/ (err = - ENOTSUPP \/ err = - ENOTSUPP + 1) /\ forall p, pages w' !! p = pages w !! p) /\
    folios w' !! old = Some a' /\ folios w' !! new = Some b' /\
    fl_refs a' = fl_refs a /\ fl_refs b' = fl_refs b /\ fl_locked a' = false /\ fl_locked b' = false /\
    (err = 0 -> fl_mapping a' = fl_mapping b /\ fl_mapping b' = fl_mapping a) /\
    i_pages w' = i_pages w.
Proof.
  intros Hm Hc Hex. pose proof Hex as [_ _ _ _ _ _ _ Hnr Hdis _ Hnm _ Hra Hrb].
  destruct (exchange_sync_run old new a b w Hm Hex)
    as (err & w' & a' & b' & H & Fa & Fb & Ra & Rb & La & Lb & Hip & Hres).
  exists err, w', a', b'. split; [exact H|].
  destruct Hres as [(Herr & Ept & Epg)|(-> & Hmap & Hpg & so & sn & pt2 & Hu & Hpt)].
  - assert (err <> 0) as Hne by (destruct Herr as [->| ->]; done).
    split_and!; try done.
    + intros x. unfold view. by rewrite Ept, Epg.
    + intros x p Hx. by rewrite Ept, (proj2 (Z.eqb_neq _ _) Hne).
    + right. split; [done|]. intros p. by rewrite Epg.
  - assert (forall x p, ptes w !! x = Some (Present p) -> ptes w' !! x = Some (Present (other old new p))) as Hmove.
    { intros x p Hx. by rewrite Hpt, (exchanged_entry old new a b a' b' (ptes w) so sn pt2), Hx. }
    split_and!; try done; [|by left|].
    + intros x. unfold view. destruct (ptes w !! x) as [[p|p]|] eqn:Ex.
      * rewrite (Hmove x p Ex), Hpg. by apply swap_range_other.
      * by rewrite Hpt, (exchanged_entry old new a b a' b' (ptes w) so sn pt2), Ex.
      * by rewrite Hpt, (exchanged_entry old new a b a' b' (ptes w) so sn pt2), Ex.
    + intros _. destruct Hmap as (? & _ & ? & _). done.
Qed.

(** Nothing checks that the unmapping succeeded: a mapping that try_to_migrate
    leaves in place shows the contents of the other folio after a successful
    exchange. *)
Theorem exchange_missed_mapping old new a b w w' x p :
  memalloc = false -> exchangeable old new a b w -> in_folio old p = true ->
  try_to_migrate old (fl_mapping a) (fl_index a) (ptes w) !! x = Some (Present p) ->
  folio_exchange_isolated old new MIGRATE_SYNC w = Ok (0, w') ->
  ptes w' !! x = Some (Present p) /\ view w' x = pages w !! other old new p.
Proof.
  intros Hm Hex Hp Hleft Hrun. pose proof Hex as [_ _ _ _ _ _ _ Hnr Hdis _ _ _ _ _].
  destruct (exchange_sync_run old new a b w Hm Hex)
    as (err & w1 & a' & b' & H & _ & _ & _ & _ & _ & _ & _ & Hres).
  rewrite Hrun in H. injection H as <- <-.
  destruct Hres as [([?|?] & _)|(_ & _ & Hpg & so & sn & pt2 & (pt1 & H1 & H2) & Hpt)]; [done..|].
  assert (pt1 !! x = Some (Present p)) as E1.
  { destruct H1 as [[_ ->]|(_ & -> & Hn)]; [done|].
    destruct (try_to_migrate_spec old (fl_mapping a) (fl_index a) (ptes w) x) as [<-|(? & _ & _ & _ & ?)];
      [done|congruence]. }
  assert (pt2 !! x = Some (Present p)) as E2.
  { destruct (unmapped_entry new b pt1 sn pt2 x H2) as [->|(q & Hq & Hin & _)]; [done|].
    rewrite E1 in Hq. injection Hq as <-. by rewrite (Hdis p Hp) in Hin. }
  assert (ptes w' !! x = Some (Present p)) as Ex by (by rewrite Hpt, E2).
  split; [done|]. unfold view. rewrite Ex, Hpg. rewrite <- (swap_range_other old new) by done. f_equal.
  unfold other. rewrite Hp. assert (in_folio new (p - folio_page old + folio_page new) = true) as Hn.
  { unfold in_folio in *. rewrite <- Hnr. apply andb_true_iff in Hp as [?%Z.leb_le ?%Z.ltb_lt].
    apply andb_true_iff. split; [apply Z.leb_le|apply Z.ltb_lt]; lia. }
  rewrite Hn. assert (in_folio old (p - folio_page old + folio_page new) = false) as ->; [|lia].
  apply not_true_is_false. intros Ho%Hdis. congruence.
Qed.

(** A folio that passes the checks. *)
Definition ready (f : Z) (v : folio) (w : world) : Prop :=
  test_flag PG_writeback v = false /\ test_flag PG_mlocked v = false /\
  fl_refs v = folio_expected_refs 0 v /\ fl_refs v + folio_mapcount f w <> 1.

Lemma supported_ready f v w mode :
  folios w !! f = Some v -> anon_ok v -> ready f v w -> folio_exchange_supported f mode w = Ok (true, w).
Proof.
  intros Hf Hv (H1 & H2 & H3 & H4). destruct (anon_mapping v Hv) as [M0 M1].
  unfold folio_exchange_supported, supported_checks, mbind, X_bind.
  rewrite (ref_count_run f v) by done. cbn [mbind res_bind]. rewrite (proj2 (Z.eqb_neq _ _) H4).
  rewrite (get_folio_run f v) by done. cbn [mbind res_bind]. rewrite H1.
  rewrite (get_folio_run f v) by done. cbn [mbind res_bind].
  rewrite (proj2 (Z.eqb_neq _ _) M1), H2, M0. cbn [Z.eqb negb andb].
  rewrite (ref_count_run f v) by done. cbn [mbind res_bind]. unfold gets, mret, X_ret. cbn [mbind res_bind].
  by rewrite H3, Z.eqb_refl.
Qed.

Lemma lock_free f v mine mode w :
  folios w !! f = Some v -> fl_locked v = false ->
  folio_exchange_lock mine f mode w = Ok (inr f, set_folios (<[f := with_locked true v]> (folios w)) w).
Proof.
  intros Hv Hl. unfold folio_exchange_lock, update_folio, mbind, X_bind.
  rewrite (get_folio_run f v) by done. cbn [mbind res_bind]. rewrite Hl. cbn [negb].
  by rewrite (get_folio_run f v).
Qed.

(** The mode is refused. *)
Lemma move_refused old new w par a b pg pt ev :
  old <> new -> fl_locked a = true -> fl_locked b = true ->
  folio_exchange_move old new MIGRATE_SYNC_LIGHT par (W old new w a b pg pt ev) = Ok (- EINVAL, W old new w a b pg pt ev).
Proof.
  intros Hne Ha Hb. unfold folio_exchange_move, mbind, X_bind.
  rewrite (VM_BUG_ON_pass _ (W old new w a b pg pt ev)) by (rewrite get_old by done; simpl; by rewrite Ha). cbn [mbind res_bind].
  rewrite (VM_BUG_ON_pass _ (W old new w a b pg pt ev)) by (rewrite get_new; simpl; by rewrite Hb). done.
Qed.

(** C32: when the move is refused after two anonymous folios have passed all checks
    and were unmapped (here for its mode, MIGRATE_SYNC_LIGHT), the exchange reports the error but does not undo the
    unmapping.  The migration entries of each folio are sought where the other one
    can be mapped, for the destination is set although mapping and index were not
    swapped.  So, if unmapping left no mapping behind, every mapping of a page of
    either folio is lost: it stays a migration entry, with both folios unlocked
    and nobody left to resolve it, or, where the reverse map of the other folio
    has the same address, it becomes a mapping of the other folio's page, whose
    contents have not moved. *)
Theorem exchange_failed_move_strands_entries old new a b w :
  migrate_complete -> exchangeable old new a b w -> fl_locked a = false -> fl_locked b = false ->
  ready old (with_locked true a) w -> ready new (with_locked true b) w ->
  exists w', folio_exchange_isolated old new MIGRATE_SYNC_LIGHT w = Ok (- EINVAL, w') /\
    pages w' = pages w /\ folios w' !! old = Some a /\ folios w' !! new = Some b /\
    (forall x p, ptes w !! x = Some (Present p) ->
       ptes w' !! x = Some (if in_folio old p then if rmap_of new b x then Present (other old new p) else Migration p
                            else if in_folio new p then if rmap_of old a x then Present (other old new p) else Migration p
                            else Present p)).
Proof.
  intros Hc [Hne Ho Hn Ha Hb Aa Ab Hnr Hdis Hok Hnm Hi Hra Hrb] La Lb Ra Rb.
  unfold folio_exchange_isolated, folio_exchange_parallel_isolated, mbind, X_bind.
  set (ev := FOLIO_EXCHANGE :: events w). set (pt := ptes w) in *. set (pg := pages w) in *.
  assert (count_vm_event FOLIO_EXCHANGE w = Ok (tt, W old new w a b pg pt ev)) as ->.
  { unfold ev. rewrite <- (count_event_run old new w a b). by unfold pg, pt; rewrite W_id. }
  cbn [mbind res_bind].
  rewrite (lock_free old a); [|unfold W; simpl folios; by rewrite lookup_insert_ne, lookup_insert_eq|done].
  rewrite W_set_old by done. cbn [mbind res_bind].
  rewrite (lock_free new b); [|unfold W; simpl folios; by rewrite lookup_insert_eq|done].
  rewrite W_set_new. cbn [mbind res_bind].
  set (a1 := with_locked true a). set (b1 := with_locked true b).
  unfold exchange_locked, mbind, X_bind.
  rewrite (supported_ready old a1); [|unfold W; simpl folios; by rewrite lookup_insert_ne, lookup_insert_eq|done|exact Ra].
  cbn [mbind res_bind negb].
  rewrite (supported_ready new b1); [|unfold W; simpl folios; by rewrite lookup_insert_eq|done|exact Rb].
  cbn [mbind res_bind negb].
  destruct (unmap_run old new Hne w old a1 a1 b1 pg pt ev) as (so & pt1 & -> & H1);
    [by left|done|done|]. cbn [mbind res_bind].
  destruct (unmap_run old new Hne w new b1 a1 b1 pg pt1 ev) as (sn & pt2 & -> & H2);
    [by right|done|done|]. cbn [mbind res_bind].
  rewrite move_refused by done.
  cbn [mbind res_bind]. change (- EINVAL =? 0) with false. cbv iota. rewrite count_event_run. cbn [mbind res_bind].
  assert (unmapped_both old new a b pt so sn pt2) as Hu by (by exists pt1).
  destruct (remap_both_run old new Hne w a b so sn a1 b1 pg pt pt2 (FOLIO_EXCHANGE_FAILED_MOVE :: ev) Ho Hn Hnr Hi
    Hdis Hnm Hu) as (pt' & Hr & Hpt').
  unfold mbind, X_bind in Hr.
  destruct (folio_exchange_remap sn old _) as [[[] w1]|]; cbn [mbind res_bind] in *; [|done].
  rewrite Hr. cbn [mbind res_bind]. unfold mret, X_ret. cbn [mbind res_bind].
  unfold folio_unlock. rewrite upd_new by done. cbn [mbind res_bind].
  rewrite upd_old by done. cbn [mbind res_bind]. rewrite count_event_run. cbn [mbind res_bind].
  eexists. split; [reflexivity|]. split; [done|]. unfold a1, b1. simpl folios. simpl ptes.
  split; [rewrite lookup_insert_ne, lookup_insert_eq by done; by destruct a; simpl in *; subst|].
  split; [rewrite lookup_insert_eq; by destruct b; simpl in *; subst|].
  intros x p Hx. rewrite Hpt'. by apply (stranded_entry old new a b pt so sn pt2).
Qed.

(** when the second folio's lock cannot be taken without waiting, the
    exchange returns the low 32 bits of the address of the first folio as its
    error code. *)
Theorem exchange_lock_failure_result old new a b w :
  old <> new -> folios w !! old = Some a -> folios w !! new = Some b ->
  fl_locked a = false -> fl_locked b = true ->
  exists w', folio_exchange_isolated old new MIGRATE_ASYNC w = Ok (s32 old, w') /\
    pages w' = pages w /\ ptes w' = ptes w.
Proof.
  intros Hne Ha Hb La Lb.
  unfold folio_exchange_isolated, folio_exchange_parallel_isolated, mbind, X_bind.
  set (ev := FOLIO_EXCHANGE :: events w).
  assert (count_vm_event FOLIO_EXCHANGE w = Ok (tt, W old new w a b (pages w) (ptes w) ev)) as ->.
  { unfold ev. rewrite <- (count_event_run old new w a b). by rewrite W_id. }
  cbn [mbind res_bind].
  rewrite (lock_free old a); [|unfold W; simpl folios; by rewrite lookup_insert_ne, lookup_insert_eq|done].
  rewrite W_set_old by done. cbn [mbind res_bind].
  assert (folio_exchange_lock [old] new MIGRATE_ASYNC
            (W old new w (with_locked true a) b (pages w) (ptes w) ev) =
          Ok (inl (- EAGAIN), W old new w (with_locked true a) b (pages w) (ptes w) ev)) as ->.
  { unfold folio_exchange_lock, mbind, X_bind. rewrite get_new. cbn [mbind res_bind]. by rewrite Lb. }
  cbn [mbind res_bind]. rewrite count_event_run. cbn [mbind res_bind]. unfold folio_unlock.
  rewrite upd_old by done. cbn [mbind res_bind]. unfold mret, X_ret. cbn [mbind res_bind].
  rewrite count_event_run. cbn [mbind res_bind].
  eexists. split; [reflexivity|]. done.
Qed.

(** with debugging checks, exchanging two file folios whose reference counts
    are as expected but differ stops the kernel: the second folio is frozen with
    the count expected for the first. *)
Theorem exchange_file_file_bug old new a b w :
  CONFIG_DEBUG_VM = true -> old <> new ->
  folios w !! old = Some a -> folios w !! new = Some b ->
  folio_mapping a <> 0 -> folio_mapping b <> 0 ->
  mapping_unmovable (folio_mapping a) = false -> mapping_unmovable (folio_mapping b) = false ->
  folio_nr_pages old = folio_nr_pages new ->
  folio_mapcount old w = 0 -> folio_mapcount new w = 0 ->
  fl_refs a = folio_expected_refs (folio_mapping a) a ->
  fl_refs b = folio_expected_refs (folio_mapping b) b -> fl_refs a <> fl_refs b ->
  folio_exchange_mapping old new w = Fault BugOn.
Proof.
  intros Hdbg Hne Ha Hb Ma Mb Ua Ub Hnr Ka Kb Ea Eb Hrefs.
  assert (w = W old new w a b (pages w) (ptes w) (events w)) as HW by (by rewrite W_id).
  set (w0 := w) in HW at 2. rewrite HW. clear HW.
  set (pg := pages w). set (pt := ptes w). set (ev := events w).
  assert (forall a' b', folio_mapcount old (W old new w0 a' b' pg pt ev) = 0 /\
                        folio_mapcount new (W old new w0 a' b' pg pt ev) = 0) as Hk by done.
  assert (forall (c : X bool) w, c w = Ok (true, w) -> VM_BUG_ON c w = Fault BugOn) as Hbug.
  { intros c w1 Hc. unfold VM_BUG_ON, mbind, X_bind. rewrite Hdbg, Hc. done. }
  unfold folio_exchange_mapping, mbind, X_bind.
  rewrite mapping_old by done. cbn [mbind res_bind]. rewrite mapping_new by done. cbn [mbind res_bind].
  rewrite (proj2 (Z.eqb_neq _ _) Ma), (proj2 (Z.eqb_neq _ _) Mb). cbn [negb].
  unfold folio_exchange_mapping_file_file, mbind, X_bind.
  rewrite mapping_old by done. cbn [mbind res_bind].
  rewrite VM_BUG_ON_pass by (by rewrite (proj2 (Z.eqb_neq _ _) Ma)). cbn [mbind res_bind].
  rewrite VM_BUG_ON_pass by (by rewrite Ua). cbn [mbind res_bind].
  rewrite get_old by done. cbn [mbind res_bind]. rewrite mapping_new by done. cbn [mbind res_bind].
  rewrite VM_BUG_ON_pass by (by rewrite (proj2 (Z.eqb_neq _ _) Mb)). cbn [mbind res_bind].
  rewrite VM_BUG_ON_pass by (by rewrite Ub). cbn [mbind res_bind].
  rewrite get_new. cbn [mbind res_bind].
  rewrite VM_BUG_ON_pass by (by rewrite Hnr, Z.eqb_refl). cbn [mbind res_bind].
  rewrite <- Ea, <- Eb.
  match goal with |- VM_BUG_ON ?c ?w1 ≫= _ = _ =>
    assert (VM_BUG_ON c w1 = Ok (tt, W old new w0 (with_refs 0 a) b pg pt ev)) as -> end.
  { unfold VM_BUG_ON, folio_ref_freeze, folio_ref_count, set_ref_count, gets, mbind, X_bind, mret, X_ret.
    rewrite Hdbg, get_old by done. cbn [mbind res_bind].
    rewrite (proj1 (Hk a b)), Z.add_0_r, Z.eqb_refl. cbn [mbind res_bind].
    rewrite (proj1 (Hk a b)), upd_old by done. done. }
  cbn [mbind res_bind].
  match goal with |- VM_BUG_ON ?c ?w1 ≫= _ = _ => rewrite (Hbug c w1) end; [done|].
  unfold folio_ref_freeze, folio_ref_count, gets, mbind, X_bind, mret, X_ret.
  rewrite get_new. cbn [mbind res_bind].
  rewrite (proj2 (Hk (with_refs 0 a) b)), Z.add_0_r, (proj2 (Z.eqb_neq _ _)) by congruence. done.
Qed.

(** exchanging flags is exact: each of the exchanged flags of a folio becomes
    that of the other, the waiters flag is set on both so that those blocked on a
    migration entry are woken, every other flag stays, and the memory control
    groups are swapped. *)
Theorem folio_exchange_flags_exact old new a b w :
  old <> new -> folios w !! old = Some a -> folios w !! new = Some b ->
  exists x y, folio_exchange_flags old new w =
      Ok (tt, set_folios (<[new := with_memcg (fl_memcg a) (with_flags y b)]>
                         (<[old := with_memcg (fl_memcg b) (with_flags x a)]> (folios w))) w) /\
    forall i, 0 <= i ->
      Z.testbit x i = (if i =? PG PG_waiters then true
                       else if bool_decide (i ∈ PG <$> exchanged_flags)
                       then Z.testbit (fl_flags b) i else Z.testbit (fl_flags a) i) /\
      Z.testbit y i = (if i =? PG PG_waiters then true
                       else if bool_decide (i ∈ PG <$> exchanged_flags)
                       then Z.testbit (fl_flags a) i else Z.testbit (fl_flags b) i).
Proof.
  intros Hne Ha Hb.
  destruct (exchange_flags_run old new Hne w a b (pages w) (ptes w) (events w)) as (x & y & H & Hxy).
  rewrite W_id in H by done. exists x, y. split; [exact H|exact Hxy].
Qed.
End properties.

(** ** An instance, and witnesses *)

Module SmallEnv.
(** Folios of one page with the number of the folio; every folio is anonymous or
    belongs to the address space 64. *)
Definition pg (n : pageflag) : Z :=
  match n with
  | PG_writeback => 1 | PG_referenced => 2 | PG_uptodate => 3 | PG_dirty => 4 | PG_waiters => 7
  | PG_active => 8 | PG_workingset => 9 | PG_error => 10 | PG_swapcache => 12 | PG_checked => 12
  | PG_private => 15 | PG_mappedtodisk => 17 | PG_readahead => 18 | PG_swapbacked => 19
  | PG_unevictable => 20 | PG_mlocked => 21 | PG_young => 24 | PG_idle => 25
  end.

(** One anon_vma maps its folios at even addresses, the other at odd ones. *)
Definition rm (mapping index nr x : Z) : bool := Bool.eqb (Z.even x) (Z.odd (mapping / 1024)).

#[export] Instance E : ExchangeEnv := {|
  CONFIG_DEBUG_VM := true;
  CONFIG_PAGE_IDLE_FLAG := true;
  PG := pg;
  folio_page f := f;
  folio_nr_pages _ := 1;
  folio_zone f := f mod 2;
  folio_test_pmd_mappable _ := false;
  folio_mapping f := if folio_test_anon f then 0 else fl_mapping f;
  folio_index f := fl_index f;
  a_ops_migrate_folio _ := migrate_folio;
  mapping_unmovable _ := false;
  mapping_can_writeback _ := true;
  folio_expected_refs m f := 1 + (if m =? 0 then 0 else 1) + (if Z.testbit (fl_flags f) 15 then 1 else 0);
  writeout _ _ w := (- EAGAIN, w);
  filemap_release_folio _ w := (false, w);
  buffer_migrate_lock_buffers _ w := (false, w);
  try_to_free_buffers _ w := w;
  memalloc := false;
  rmap := rm;
  try_to_migrate f m i ps := map_imap (fun x e => Some
    match e with
    | Present p => if (f <=? p) && (p <? f + 1) && rm m i 1 x then Migration p else e
    | _ => e
    end) ps;
  remove_migration_ptes s _ d m i ps := map_imap (fun x e => Some
    match e with
    | Migration p => if (s <=? p) && (p <? s + 1) && rm m i 1 x then Present (p - s + d) else e
    | _ => e
    end) ps;
  schedule l := rev l;
|}.

#[export] Instance laws : ExchangeLaws E.
Proof.
  split.
  - intros []; vm_compute; split; done.
  - apply (bool_decide_unpack _). vm_compute. done.
  - done.
  - intros f. simpl. lia.
  - intros f Hf _. simpl. by rewrite Hf.
  - intros f m i ps x. simpl. rewrite map_lookup_imap. destruct (ps !! x) as [[p|p]|]; simpl; [|by left..].
    unfold in_folio. simpl. destruct (_ && _) eqn:H; [|by left]. apply andb_true_iff in H as [H1 H2].
    right. by exists p.
  - intros s j d m i ps x _ _. simpl. rewrite map_lookup_imap. by destruct (ps !! x) as [[p|p]|].
  - intros l. simpl. symmetry. apply Permutation_rev.
Qed.

Lemma complete : migrate_complete (E := E).
Proof.
  intros f m i ps x p. simpl. rewrite map_lookup_imap. unfold in_folio. simpl.
  destruct (ps !! x) as [[q|q]|]; simpl; try done.
  destruct (_ && _) eqn:H; [done|]. intros [= <-] Hq. by rewrite Hq in H.
Qed.

Definition a : folio := Folio 4 1025 7 0 1 11 false.
Definition b : folio := Folio 256 2049 9 0 1 22 false.
Definition w : world :=
  World {[1 := a; 2 := b]} {[1 := replicate 512 5; 2 := replicate 512 6]}
    {[100 := Present 1; 101 := Present 2; 102 := Present 1]} ∅ ∅ [] [].

Lemma mapped_at x p :
  ptes w !! x = Some (Present p) -> (x = 100 /\ p = 1) \/ (x = 101 /\ p = 2) \/ (x = 102 /\ p = 1).
Proof.
  intros Hx. unfold w in Hx. simpl in Hx.
  apply lookup_insert_Some in Hx as [[<- [= <-]]|[_ Hx]]; [by left|].
  apply lookup_insert_Some in Hx as [[<- [= <-]]|[_ Hx]]; [by right; left|].
  apply lookup_singleton_Some in Hx as [<- [= <-]]. by right; right.
Qed.

Lemma ready_to_exchange : exchangeable 1 2 a b w.
Proof.
  split; try done; try (split; vm_compute; done).
  - intros p. unfold in_folio. simpl. destruct (Z.leb_spec 1 p), (Z.ltb_spec p (1 + 1)); simpl; try done.
    intros _. destruct (Z.leb_spec 2 p); [lia|done].
  - intros p Hp. assert (p = 1 \/ p = 2) as [->| ->].
    { unfold in_folio in Hp. simpl in Hp.
      destruct Hp as [Hp|Hp]; apply andb_true_iff in Hp as [H1 H2];
        apply Z.leb_le in H1; apply Z.ltb_lt in H2; lia. }
    + exists (replicate 512 5). done.
    + exists (replicate 512 6). done.
  - intros x p Hx. unfold w in Hx. simpl in Hx.
    repeat (apply lookup_insert_Some in Hx as [[_ Hx]|[_ Hx]]; [done|]).
    apply lookup_singleton_Some in Hx as [_ Hx]. done.
  - by left.
  - intros x p Hx. apply mapped_at in Hx as [[-> ->]|[[-> ->]|[-> ->]]]; done.
  - intros x p Hx. apply mapped_at in Hx as [[-> ->]|[[-> ->]|[-> ->]]]; done.
Qed.

(** Two file folios of different reference counts. *)
Definition fa : folio := Folio 0 64 7 0 2 11 false.
Definition fb : folio := Folio 32768 64 9 0 3 22 false.
Definition wf : world := World {[1 := fa; 2 := fb]} ∅ ∅ ∅ ∅ [] [].
End SmallEnv.

#[local] Existing Instances SmallEnv.E SmallEnv.laws.

Lemma exchange_page_modes_witness :
  exchange_page PARALLEL_4THREAD 1 2 SmallEnv.w = exchange_data_single 1 2 SmallEnv.w.
Proof.
  apply (exchange_page_modes PARALLEL_4THREAD 1 2 SmallEnv.w (replicate 512 5) (replicate 512 6));
    [discriminate|reflexivity|reflexivity|reflexivity|reflexivity].
Defined.

Lemma exchange_preserves_contents_witness :
  exists err w', folio_exchange_isolated 1 2 MIGRATE_SYNC SmallEnv.w = Ok (err, w') /\ err = 0 /\
    view w' 100 = view SmallEnv.w 100 /\ ptes w' !! 100 = Some (Present 2).
Proof.
  destruct (exchange_preserves_contents (E := SmallEnv.E) 1 2 SmallEnv.a SmallEnv.b SmallEnv.w eq_refl
              SmallEnv.complete SmallEnv.ready_to_exchange) as (err & w' & a' & b' & H & Hv & Hp & _).
  exists err, w'. split; [exact H|].
  assert (match folio_exchange_isolated 1 2 MIGRATE_SYNC SmallEnv.w with
          | Ok (e, _) => e =? 0 | Fault _ => false end = true) as He by (vm_compute; reflexivity).
  rewrite H in He. apply Z.eqb_eq in He. split; [exact He|]. split; [apply Hv|].
  rewrite (Hp 100 1 eq_refl), He. reflexivity.
Defined.

Lemma exchange_failed_move_strands_entries_witness :
  exists w', folio_exchange_isolated 1 2 MIGRATE_SYNC_LIGHT SmallEnv.w = Ok (- EINVAL, w') /\
    ptes w' !! 100 = Some (Migration 1) /\ view w' 100 = None /\ view SmallEnv.w 100 = Some (replicate 512 5).
Proof.
  destruct (exchange_failed_move_strands_entries 1 2 SmallEnv.a SmallEnv.b SmallEnv.w
              SmallEnv.complete SmallEnv.ready_to_exchange eq_refl eq_refl) as (w' & H & _ & _ & _ & Hv).
  - repeat split; vm_compute; discriminate.
  - repeat split; vm_compute; discriminate.
  - pose proof (Hv 100 1 eq_refl) as E. exists w'. split; [exact H|]. split; [exact E|].
    split; [unfold view; rewrite E|]; reflexivity.
Defined.

(** An environment in which trying to migrate does nothing. *)
Module LazyEnv.
Definition E : ExchangeEnv := {|
  CONFIG_DEBUG_VM := true; CONFIG_PAGE_IDLE_FLAG := true; PG := SmallEnv.pg; folio_page f := f;
  folio_nr_pages _ := 1; folio_zone f := f mod 2; folio_test_pmd_mappable _ := false;
  folio_mapping := folio_mapping (ExchangeEnv := SmallEnv.E); folio_index f := fl_index f;
  a_ops_migrate_folio _ := migrate_folio; mapping_unmovable _ := false; mapping_can_writeback _ := true;
  folio_expected_refs := folio_expected_refs (ExchangeEnv := SmallEnv.E);
  writeout _ _ w := (- EAGAIN, w); filemap_release_folio _ w := (false, w);
  buffer_migrate_lock_buffers _ w := (false, w); try_to_free_buffers _ w := w; memalloc := false;
  rmap := SmallEnv.rm; try_to_migrate _ _ _ ps := ps;
  remove_migration_ptes := remove_migration_ptes (ExchangeEnv := SmallEnv.E);
  schedule l := rev l;
|}.

Lemma laws : ExchangeLaws E.
Proof.
  pose proof SmallEnv.laws as [H1 H2 H3 H4 H5 H6 H7 H8]. split; [exact H1|exact H2|exact H3|exact H4|exact H5| |exact H7|exact H8].
  intros. by left.
Qed.

Lemma lazy_ready : exchangeable (E := E) 1 2 SmallEnv.a SmallEnv.b SmallEnv.w.
Proof. destruct SmallEnv.ready_to_exchange. by split. Qed.
End LazyEnv.

Lemma exchange_missed_mapping_witness :
  exists w', folio_exchange_isolated (E := LazyEnv.E) 1 2 MIGRATE_SYNC SmallEnv.w = Ok (0, w') /\
    view w' 100 = Some (replicate 512 6) /\ view SmallEnv.w 100 = Some (replicate 512 5).
Proof.
  destruct (folio_exchange_isolated (E := LazyEnv.E) 1 2 MIGRATE_SYNC SmallEnv.w) as [[err w']|] eqn:H.
  2: { assert (is_ok (folio_exchange_isolated (E := LazyEnv.E) 1 2 MIGRATE_SYNC SmallEnv.w) = true) as Hok
         by (vm_compute; reflexivity). rewrite H in Hok. discriminate Hok. }
  assert (match folio_exchange_isolated (E := LazyEnv.E) 1 2 MIGRATE_SYNC SmallEnv.w with
          | Ok (e, _) => e =? 0 | Fault _ => false end = true) as He by (vm_compute; reflexivity).
  rewrite H in He. apply Z.eqb_eq in He. subst err.
  exists w'. split; [reflexivity|]. split; [|reflexivity].
  destruct (exchange_missed_mapping (E := LazyEnv.E) (EL := LazyEnv.laws) 1 2 SmallEnv.a SmallEnv.b SmallEnv.w w' 100 1)
    as [_ Hv]; [reflexivity|exact LazyEnv.lazy_ready|reflexivity|reflexivity|exact H|].
  rewrite Hv. reflexivity.
Defined.

Lemma exchange_lock_failure_result_witness :
  exists w', folio_exchange_isolated 4294967296 2 MIGRATE_ASYNC
      (set_folios {[4294967296 := SmallEnv.a; 2 := with_locked true SmallEnv.b]} SmallEnv.w) = Ok (0, w').
Proof.
  destruct (exchange_lock_failure_result 4294967296 2 SmallEnv.a (with_locked true SmallEnv.b)
    (set_folios {[4294967296 := SmallEnv.a; 2 := with_locked true SmallEnv.b]} SmallEnv.w))
    as (w' & H & _); [discriminate|reflexivity..|].
  exists w'. exact H.
Defined.

Lemma exchange_file_file_bug_witness :
  folio_exchange_mapping 1 2 SmallEnv.wf = Fault BugOn.
Proof.
  apply (exchange_file_file_bug (E := SmallEnv.E) 1 2 SmallEnv.fa SmallEnv.fb);
    first [reflexivity|discriminate|vm_compute; discriminate].
Defined.

Lemma folio_exchange_flags_exact_witness :
  exists x y, folio_exchange_flags 1 2 SmallEnv.w =
      Ok (tt, set_folios (<[2 := with_memcg 11 (with_flags y SmallEnv.b)]>
                         (<[1 := with_memcg 22 (with_flags x SmallEnv.a)]> (folios SmallEnv.w))) SmallEnv.w) /\
    Z.testbit x 8 = true.
Proof.
  destruct (folio_exchange_flags_exact 1 2 SmallEnv.a SmallEnv.b SmallEnv.w)
    as (x & y & H & Hb); [discriminate|reflexivity|reflexivity|].
  exists x, y. split; [exact H|]. rewrite (proj1 (Hb 8 ltac:(lia))). reflexivity.
Defined.
