(* ===== verification/ModArith.v ===== *)
(** Modular arithmetic of the Graph500 generator (generator/mod_arith_64bit.h,
    generator/mod_arith_32bit.h): sums and products modulo the Mersenne prime
    2^31 - 1 on machine words, with the assertions of the source.  The two
    headers are two instances of one interface, [ModOps]; [ModLaws] says what
    the generator relies on: on reduced operands no assertion fires, nothing
    wraps around and the result is the reduced mathematical value.

    The source's [uint_fast32_t] is at least 32 bits wide and 64 bits on the
    x86-64 targets of the repository.  [Arith64] uses 64 bits; [Arith32] takes
    the width as a parameter and is proved for every width from 32 to 64. *)
From S2P Require Import Prelude.
From stdpp Require Import base numbers list.
From Stdlib Require Import ZArith Lia.
Open Scope Z_scope.

(** 0x7FFFFFFF *)
Definition P31 : Z := 2147483647.

(** [assert (a <= 0x7FFFFFFE)] *)
Definition assert_reduced (a : Z) : res unit := check (a <=? 2147483646) AssertFailed.

Definition reduced (a : Z) : Prop := 0 <= a < P31.

Lemma mod_reduced a : reduced (a mod P31).
Proof. now apply Z.mod_pos_bound. Qed.

Lemma assert_reduced_Ok a : reduced a -> assert_reduced a = Ok tt.
Proof. unfold reduced, P31, assert_reduced, check. intros. case_match; [done|lia]. Qed.

(** ** The interface *)

Class ModOps := {
  mod_add : Z -> Z -> res Z;
  mod_mul : Z -> Z -> res Z;
  mod_mac : Z -> Z -> Z -> res Z;
  mod_mac2 : Z -> Z -> Z -> Z -> Z -> res Z;
  mod_mac3 : Z -> Z -> Z -> Z -> Z -> Z -> Z -> res Z;
  mod_mac4 : Z -> Z -> Z -> Z -> Z -> Z -> Z -> Z -> Z -> res Z;
  mod_mul_x : Z -> res Z;
  mod_mul_y : Z -> res Z;
  mod_mac_y : Z -> Z -> res Z;
}.

(** The multipliers of the generator. *)
Definition MRG_X : Z := 107374182.
Definition MRG_Y : Z := 104480.

Class ModLaws (O : ModOps) := {
  mod_add_ok a b : reduced a -> reduced b -> mod_add a b = Ok ((a + b) mod P31);
  mod_mul_ok a b : reduced a -> reduced b -> mod_mul a b = Ok ((a * b) mod P31);
  mod_mac_ok sum a b : reduced sum -> reduced a -> reduced b ->
    mod_mac sum a b = Ok ((a * b + sum) mod P31);
  mod_mac2_ok sum a b c d : reduced sum -> reduced a -> reduced b -> reduced c -> reduced d ->
    mod_mac2 sum a b c d = Ok ((a * b + c * d + sum) mod P31);
  mod_mac3_ok sum a b c d e f : reduced sum -> reduced a -> reduced b -> reduced c ->
    reduced d -> reduced e -> reduced f ->
    mod_mac3 sum a b c d e f = Ok ((a * b + c * d + e * f + sum) mod P31);
  mod_mac4_ok sum a b c d e f g h : reduced sum -> reduced a -> reduced b -> reduced c ->
    reduced d -> reduced e -> reduced f -> reduced g -> reduced h ->
    mod_mac4 sum a b c d e f g h = Ok ((a * b + c * d + e * f + g * h + sum) mod P31);
  mod_mul_x_ok a : reduced a -> mod_mul_x a = Ok ((a * MRG_X) mod P31);
  mod_mul_y_ok a : reduced a -> mod_mul_y a = Ok ((a * MRG_Y) mod P31);
  mod_mac_y_ok sum a : reduced sum -> reduced a -> mod_mac_y sum a = Ok ((a * MRG_Y + sum) mod P31);
}.

(** A product of reduced numbers leaves room in 64 bits for four of them. *)
Lemma reduced_mul a b : reduced a -> reduced b -> 0 <= a * b <= 2147483646 * 2147483646.
Proof. unfold reduced, P31. nia. Qed.

(** Discharges the assertions on reduced operands and bounds their products. *)
Ltac mod_guards :=
  rewrite ?assert_reduced_Ok by done; simpl.
Ltac mod_bounds :=
  repeat match goal with
  | |- context [?a * ?b] =>
      lazymatch goal with
      | _ : 0 <= a * b <= _ |- _ => fail
      | Ha : reduced a, Hb : reduced b |- _ => pose proof (reduced_mul a b Ha Hb)
      end
  end.

(** ** generator/mod_arith_64bit.h *)

Module Arith64.
Definition mod_add (a b : Z) : res Z :=
  _ ← assert_reduced a;
  _ ← assert_reduced b;
  Ok (u64 (a + b) mod 2147483647).

Definition mod_mul (a b : Z) : res Z :=
  _ ← assert_reduced a;
  _ ← assert_reduced b;
  Ok (u64 (a * b) mod 2147483647).

Definition mod_mac (sum a b : Z) : res Z :=
  _ ← assert_reduced sum;
  _ ← assert_reduced a;
  _ ← assert_reduced b;
  Ok (u64 (u64 (a * b) + sum) mod 2147483647).

Definition mod_mac2 (sum a b c d : Z) : res Z :=
  _ ← assert_reduced sum;
  _ ← assert_reduced a;
  _ ← assert_reduced b;
  _ ← assert_reduced c;
  _ ← assert_reduced d;
  Ok (u64 (u64 (u64 (a * b) + u64 (c * d)) + sum) mod 2147483647).

Definition mod_mac3 (sum a b c d e f : Z) : res Z :=
  _ ← assert_reduced sum;
  _ ← assert_reduced a;
  _ ← assert_reduced b;
  _ ← assert_reduced c;
  _ ← assert_reduced d;
  _ ← assert_reduced e;
  _ ← assert_reduced f;
  Ok (u64 (u64 (u64 (u64 (a * b) + u64 (c * d)) + u64 (e * f)) + sum) mod 2147483647).

Definition mod_mac4 (sum a b c d e f g h : Z) : res Z :=
  _ ← assert_reduced sum;
  _ ← assert_reduced a;
  _ ← assert_reduced b;
  _ ← assert_reduced c;
  _ ← assert_reduced d;
  _ ← assert_reduced e;
  _ ← assert_reduced f;
  _ ← assert_reduced g;
  _ ← assert_reduced h;
  Ok (u64 (u64 (u64 (u64 (u64 (a * b) + u64 (c * d)) + u64 (e * f)) + u64 (g * h)) + sum)
      mod 2147483647).

Definition mod_mul_x (a : Z) : res Z := mod_mul a 107374182.

Definition mod_mul_y (a : Z) : res Z := mod_mul a 104480.

Definition mod_mac_y (sum a : Z) : res Z := mod_mac sum a 104480.

#[export] Instance ops : ModOps :=
  {| ModArith.mod_add := mod_add; ModArith.mod_mul := mod_mul; ModArith.mod_mac := mod_mac;
     ModArith.mod_mac2 := mod_mac2; ModArith.mod_mac3 := mod_mac3;
     ModArith.mod_mac4 := mod_mac4; ModArith.mod_mul_x := mod_mul_x;
     ModArith.mod_mul_y := mod_mul_y; ModArith.mod_mac_y := mod_mac_y |}.

(** Nothing of these sums wraps around 2^64. *)
Ltac exact64 :=
  mod_bounds;
  unfold reduced, P31 in *;
  repeat match goal with
    |- context [u64 ?x] => rewrite (u64_small x) by (unfold is_u64; lia) end;
  reflexivity.

#[export] Instance laws : ModLaws ops.
Proof.
  assert (reduced MRG_X /\ reduced MRG_Y) as [? ?] by (unfold reduced, P31, MRG_X, MRG_Y; lia).
  split; intros; simpl.
  - unfold mod_add. mod_guards. exact64.
  - unfold mod_mul. mod_guards. exact64.
  - unfold mod_mac. mod_guards. exact64.
  - unfold mod_mac2. mod_guards. exact64.
  - unfold mod_mac3. mod_guards. exact64.
  - unfold mod_mac4. mod_guards. exact64.
  - unfold mod_mul_x, mod_mul. fold MRG_X. mod_guards. exact64.
  - unfold mod_mul_y, mod_mul. fold MRG_Y. mod_guards. exact64.
  - unfold mod_mac_y, mod_mac. fold MRG_Y. mod_guards. exact64.
Qed.
End Arith64.

(** ** generator/mod_arith_32bit.h *)

Module Arith32.
Section width.
(** Width of [uint_fast32_t]. *)
Context (fw : Z).

Definition ufast (x : Z) : Z := wrap fw x.

(** [int_fast32_t]: signed arithmetic must not overflow. *)
Definition sfast (x : Z) : res Z :=
  if decide (- 2 ^ (fw - 1) <= x < 2 ^ (fw - 1)) then Ok x else Fault IntOverflow.

Definition mod_add (a b : Z) : res Z :=
  _ ← assert_reduced a;
  _ ← assert_reduced b;
  let x := ufast (a + b) in
  Ok (if 2147483647 <=? x then ufast (x - 2147483647) else x).

Definition mod_mul (a b : Z) : res Z :=
  _ ← assert_reduced a;
  _ ← assert_reduced b;
  let temp := u64 (a * b) in
  let temp2 := ufast (ufast (Z.land temp 2147483647) + ufast (Z.shiftr temp 31)) in
  Ok (if 2147483647 <=? temp2 then ufast (temp2 - 2147483647) else temp2).

Definition mod_mac (sum a b : Z) : res Z :=
  _ ← assert_reduced sum;
  _ ← assert_reduced a;
  _ ← assert_reduced b;
  let temp := u64 (u64 (a * b) + sum) in
  let temp2 := ufast (ufast (Z.land temp 2147483647) + ufast (Z.shiftr temp 31)) in
  Ok (if 2147483647 <=? temp2 then ufast (temp2 - 2147483647) else temp2).

Definition mod_mac2 (sum a b c d : Z) : res Z :=
  _ ← assert_reduced sum;
  _ ← assert_reduced a;
  _ ← assert_reduced b;
  _ ← assert_reduced c;
  _ ← assert_reduced d;
  m ← mod_mac sum a b;
  mod_mac m c d.

Definition mod_mac3 (sum a b c d e f : Z) : res Z :=
  _ ← assert_reduced sum;
  _ ← assert_reduced a;
  _ ← assert_reduced b;
  _ ← assert_reduced c;
  _ ← assert_reduced d;
  _ ← assert_reduced e;
  _ ← assert_reduced f;
  m ← mod_mac sum a b;
  mod_mac2 m c d e f.

Definition mod_mac4 (sum a b c d e f g h : Z) : res Z :=
  _ ← assert_reduced sum;
  _ ← assert_reduced a;
  _ ← assert_reduced b;
  _ ← assert_reduced c;
  _ ← assert_reduced d;
  _ ← assert_reduced e;
  _ ← assert_reduced f;
  _ ← assert_reduced g;
  _ ← assert_reduced h;
  m ← mod_mac2 sum a b c d;
  mod_mac2 m e f g h.

(** C division truncates; the operands here are not negative. *)
Definition mod_mul_x (a : Z) : res Z :=
  let q := 20 in
  let r := 7 in
  sa ← sfast a;
  let result := Z.quot sa q in
  rq ← sfast (result * q);
  dif ← sfast (sa - rq);
  hi ← sfast (107374182 * dif);
  lo ← sfast (result * r);
  result ← sfast (hi - lo);
  result ← sfast (result + (if result <? 0 then 2147483647 else 0));
  expect ← mod_mul a 107374182;
  _ ← check (ufast result =? expect) AssertFailed;
  Ok (ufast result).

Definition mod_mul_y (a : Z) : res Z :=
  let q := 20554 in
  let r := 1727 in
  sa ← sfast a;
  let result := Z.quot sa q in
  rq ← sfast (result * q);
  dif ← sfast (sa - rq);
  hi ← sfast (104480 * dif);
  lo ← sfast (result * r);
  result ← sfast (hi - lo);
  result ← sfast (result + (if result <? 0 then 2147483647 else 0));
  expect ← mod_mul a 104480;
  _ ← check (ufast result =? expect) AssertFailed;
  Ok (ufast result).

Definition mod_mac_y (sum a : Z) : res Z :=
  m ← mod_mul_y a;
  result ← mod_add sum m;
  expect ← mod_mac sum a 104480;
  _ ← check (result =? expect) AssertFailed;
  Ok result.

#[export] Instance ops : ModOps :=
  {| ModArith.mod_add := mod_add; ModArith.mod_mul := mod_mul; ModArith.mod_mac := mod_mac;
     ModArith.mod_mac2 := mod_mac2; ModArith.mod_mac3 := mod_mac3;
     ModArith.mod_mac4 := mod_mac4; ModArith.mod_mul_x := mod_mul_x;
     ModArith.mod_mul_y := mod_mul_y; ModArith.mod_mac_y := mod_mac_y |}.

Context (Hfw : 32 <= fw <= 64).

Lemma pow_fw : 2 ^ 32 <= 2 ^ fw /\ 2 ^ 31 <= 2 ^ (fw - 1).
Proof. split; apply Z.pow_le_mono_r; lia. Qed.

Lemma ufast_small x : 0 <= x < 2 ^ 32 -> ufast x = x.
Proof. intros. pose proof pow_fw. apply wrap_small. lia. Qed.

Lemma sfast_small x : - 2 ^ 31 <= x < 2 ^ 31 -> sfast x = Ok x.
Proof. intros. pose proof pow_fw. unfold sfast. case_decide; [done|lia]. Qed.

(** Folding the high bits onto the low ones reduces modulo 2^31 - 1. *)
Lemma fold_mersenne t :
  0 <= t < 2 ^ 62 ->
  let t2 := ufast (ufast (Z.land t 2147483647) + ufast (Z.shiftr t 31)) in
  (if 2147483647 <=? t2 then ufast (t2 - 2147483647) else t2) =
    t mod P31 \/ t = (2 ^ 31 - 1) * 2 ^ 31 + (2 ^ 31 - 1).
Proof.
  intros Ht. change 2147483647 with (Z.ones 31) at 1.
  rewrite Z.land_ones, Z.shiftr_div_pow2 by lia.
  pose proof (Z.div_mod t (2 ^ 31) ltac:(lia)) as Hdm.
  pose proof (Z.mod_pos_bound t (2 ^ 31) ltac:(lia)) as Hm.
  assert (0 <= t / 2 ^ 31 < 2 ^ 31) as Hd.
  { split; [apply Z.div_pos; lia|apply Z.div_lt_upper_bound; lia]. }
  set (hi := t / 2 ^ 31) in *. set (lo := t mod 2 ^ 31) in *.
  rewrite (ufast_small hi), (ufast_small lo), (ufast_small (lo + hi)) by lia. simpl.
  unfold P31. destruct (Z.leb_spec 2147483647 (lo + hi)).
  - rewrite ufast_small by lia.
    destruct (Z.eq_dec (lo + hi) (2 * 2147483647)); [right; lia|left].
    apply (Z.mod_unique _ _ (hi + 1)); lia.
  - left. apply (Z.mod_unique _ _ hi); lia.
Qed.

Lemma mod_mac_exact sum a b :
  reduced sum -> reduced a -> reduced b -> mod_mac sum a b = Ok ((a * b + sum) mod P31).
Proof.
  intros. unfold mod_mac. mod_guards. mod_bounds. unfold reduced, P31 in *.
  rewrite (u64_small (a * b)), u64_small by (unfold is_u64; lia).
  destruct (fold_mersenne (a * b + sum)) as [->|]; [lia|done|lia].
Qed.

Lemma mod_mul_exact a b : reduced a -> reduced b -> mod_mul a b = Ok ((a * b) mod P31).
Proof.
  intros. unfold mod_mul. mod_guards. mod_bounds. unfold reduced, P31 in *.
  rewrite (u64_small (a * b)) by (unfold is_u64; lia).
  destruct (fold_mersenne (a * b)) as [->|]; [lia|done|lia].
Qed.

Lemma mod_add_exact a b : reduced a -> reduced b -> mod_add a b = Ok ((a + b) mod P31).
Proof.
  intros. unfold mod_add. mod_guards. unfold reduced, P31 in *.
  rewrite (ufast_small (a + b)) by lia. f_equal.
  destruct (Z.leb_spec 2147483647 (a + b)).
  - rewrite ufast_small by lia. apply (Z.mod_unique _ _ 1); lia.
  - symmetry. apply Z.mod_small. lia.
Qed.

(** Schrage's method: [m (a mod q) - (a / q) r], corrected by the modulus, is
    [m a] reduced when [P31 = m q + r] with [r < q]. *)
Lemma schrage m q r a :
  P31 = m * q + r -> 0 < r < q -> 0 < m -> reduced a ->
  let t := m * (a - a / q * q) - a / q * r in
  - P31 < t < P31 /\
  t + (if t <? 0 then P31 else 0) = (m * a) mod P31.
Proof.
  intros HP Hr Hm Ha t.
  assert (0 <= a - a / q * q < q) as Hmod.
  { rewrite Z.mul_comm, <- Z.mod_eq by lia. apply Z.mod_pos_bound. lia. }
  assert (0 <= a / q) by (apply Z.div_pos; unfold reduced in *; lia).
  unfold reduced in Ha.
  assert (a / q * r < P31) by nia.
  assert (m * (a - a / q * q) < P31) by nia.
  assert (0 <= m * (a - a / q * q)) by nia.
  assert (m * a = t + P31 * (a / q)) as Heq by (unfold t; rewrite HP; ring).
  assert (0 <= a / q * r) by nia.
  split; [unfold t; lia|]. rewrite Heq.
  destruct (Z.ltb_spec t 0).
  - apply (Z.mod_unique _ _ (a / q - 1)); lia.
  - apply (Z.mod_unique _ _ (a / q)); [|lia]. unfold t in *. lia.
Qed.

Lemma mod_mul_x_exact a : reduced a -> mod_mul_x a = Ok ((a * MRG_X) mod P31).
Proof.
  intros Ha. destruct (schrage MRG_X 20 7 a) as [Ht Hv]; [done|lia|done|done|].
  assert (0 <= a / 20 * 20 <= a /\ a - a / 20 * 20 < 20 /\ 0 <= a / 20 * 7 < P31)
    by (unfold reduced, P31 in *; dlia).
  unfold mod_mul_x. rewrite (sfast_small a) by (unfold reduced, P31 in *; lia). simpl.
  rewrite Z.quot_div_nonneg by (unfold reduced in *; lia).
  unfold MRG_X, reduced, P31 in *.
  do 4 (rewrite sfast_small by lia; simpl).
  rewrite sfast_small by lia. simpl.
  rewrite Hv, (Z.mul_comm 107374182 a).
  pose proof (mod_reduced (a * 107374182)) as Hm. unfold reduced, P31 in Hm.
  rewrite sfast_small by lia. simpl.
  rewrite mod_mul_exact by (unfold reduced, P31; lia). simpl. unfold P31.
  rewrite ufast_small by lia. unfold check. by rewrite Z.eqb_refl.
Qed.

Lemma mod_mul_y_exact a : reduced a -> mod_mul_y a = Ok ((a * MRG_Y) mod P31).
Proof.
  intros Ha. destruct (schrage MRG_Y 20554 1727 a) as [Ht Hv]; [done|lia|done|done|].
  assert (0 <= a / 20554 * 20554 <= a /\ a - a / 20554 * 20554 < 20554 /\
          0 <= a / 20554 * 1727 < P31)
    by (unfold reduced, P31 in *; dlia).
  unfold mod_mul_y. rewrite (sfast_small a) by (unfold reduced, P31 in *; lia). simpl.
  rewrite Z.quot_div_nonneg by (unfold reduced in *; lia).
  unfold MRG_Y, reduced, P31 in *.
  do 4 (rewrite sfast_small by lia; simpl).
  rewrite sfast_small by lia. simpl.
  rewrite Hv, (Z.mul_comm 104480 a).
  pose proof (mod_reduced (a * 104480)) as Hm. unfold reduced, P31 in Hm.
  rewrite sfast_small by lia. simpl.
  rewrite mod_mul_exact by (unfold reduced, P31; lia). simpl. unfold P31.
  rewrite ufast_small by lia. unfold check. by rewrite Z.eqb_refl.
Qed.

Lemma mod_mac2_exact sum a b c d :
  reduced sum -> reduced a -> reduced b -> reduced c -> reduced d ->
  mod_mac2 sum a b c d = Ok ((a * b + c * d + sum) mod P31).
Proof.
  intros. unfold mod_mac2. mod_guards.
  rewrite mod_mac_exact by done. simpl. rewrite mod_mac_exact by auto using mod_reduced.
  rewrite Zplus_mod_idemp_r. do 2 f_equal. ring.
Qed.

#[export] Instance laws : ModLaws ops.
Proof.
  split; intros; simpl.
  - by apply mod_add_exact.
  - by apply mod_mul_exact.
  - by apply mod_mac_exact.
  - by apply mod_mac2_exact.
  - unfold mod_mac3. mod_guards. rewrite mod_mac_exact by done. simpl.
    rewrite mod_mac2_exact by auto using mod_reduced.
    rewrite Zplus_mod_idemp_r. do 2 f_equal. ring.
  - unfold mod_mac4. mod_guards. rewrite mod_mac2_exact by done. simpl.
    rewrite mod_mac2_exact by auto using mod_reduced.
    rewrite Zplus_mod_idemp_r. do 2 f_equal. ring.
  - by apply mod_mul_x_exact.
  - by apply mod_mul_y_exact.
  - unfold mod_mac_y. rewrite mod_mul_y_exact by done. simpl.
    rewrite mod_add_exact by auto using mod_reduced. simpl.
    rewrite mod_mac_exact by (done || (unfold reduced, P31; lia)). simpl.
    rewrite Zplus_mod_idemp_r, Z.add_comm. unfold check. by rewrite Z.eqb_refl.
Qed.
End width.
End Arith32.

(** ** The two headers agree *)

(** on reduced operands the 64-bit and the 32-bit header compute the same
    values: the exact sums of products modulo 2^31 - 1, without wrap-around or
    signed overflow and with no assertion firing, Schrage's method for the two
    multipliers included, for every width of [uint_fast32_t] the 32-bit code can
    meet. *)
Theorem mod_arith_headers_agree fw sum a b c d e f g h :
  32 <= fw <= 64 ->
  Forall reduced [sum; a; b; c; d; e; f; g; h] ->
  Arith64.mod_mac4 sum a b c d e f g h = Arith32.mod_mac4 fw sum a b c d e f g h /\
  Arith64.mod_mac4 sum a b c d e f g h = Ok ((a * b + c * d + e * f + g * h + sum) mod P31) /\
  Arith64.mod_mac3 sum a b c d e f = Arith32.mod_mac3 fw sum a b c d e f /\
  Arith64.mod_mac2 sum a b c d = Arith32.mod_mac2 fw sum a b c d /\
  Arith64.mod_mac sum a b = Arith32.mod_mac fw sum a b /\
  Arith64.mod_mul a b = Arith32.mod_mul fw a b /\
  Arith64.mod_add a b = Arith32.mod_add fw a b /\
  Arith64.mod_mul_x a = Arith32.mod_mul_x fw a /\
  Arith64.mod_mul_x a = Ok ((a * 107374182) mod P31) /\
  Arith64.mod_mul_y a = Arith32.mod_mul_y fw a /\
  Arith64.mod_mac_y sum a = Arith32.mod_mac_y fw sum a /\
  Arith64.mod_mac_y sum a = Ok ((a * 104480 + sum) mod P31).
Proof.
  intros Hw HF. rewrite !Forall_cons in HF.
  destruct HF as (? & ? & ? & ? & ? & ? & ? & ? & ? & _).
  pose proof Arith64.laws as L64. pose proof (Arith32.laws fw Hw) as L32.
  destruct L64, L32. simpl in *.
  split_and!; try (etrans; [|symmetry]; by auto); by auto.
Qed.

Lemma mod_arith_headers_agree_witness :
  Arith64.mod_mul_x 2147483646 = Arith32.mod_mul_x 32 2147483646.
Proof.
  destruct (mod_arith_headers_agree 32 0 2147483646 1 2 3 4 5 6 7) as
    (_ & _ & _ & _ & _ & _ & _ & H & _); [lia| |exact H].
  repeat constructor; vm_compute; done.
Defined.
