(* ===== verification/Mrg.v ===== *)
(** The splittable multiple recursive generator of Graph500
    (generator/splittable_mrg.c): five numbers modulo 2^31 - 1, one step
    [z' = x z1 + y z5], and transition matrices that jump many steps at once.
    A matrix is stored by its bottom row [s t u v w] with a cache [a b c d] of
    the entries of its first column; the rest of it follows from those.

    The operations are written against the interface [ModOps] of the modular
    arithmetic, so that they are verified for both headers.  [table] is the
    [mrg_skip_matrices] array, a parameter of [mrg_skip] here and the data of
    mrg_transitions.c in MrgTable. *)
From S2P Require Import Prelude ModArith.
From stdpp Require Import base numbers list.
From Stdlib Require Import ZArith Lia.
Open Scope Z_scope.

Record mrg_transition_matrix := Mat {
  m_s : Z; m_t : Z; m_u : Z; m_v : Z; m_w : Z;
  m_a : Z; m_b : Z; m_c : Z; m_d : Z }.

Record mrg_state := MrgState { z1 : Z; z2 : Z; z3 : Z; z4 : Z; z5 : Z }.

Section mrg.
Context {MO : ModOps}.

(** The cache fields of the argument are overwritten. *)
Definition mrg_update_cache (p : mrg_transition_matrix) : res mrg_transition_matrix :=
  x ← mod_mul_x (m_s p);
  a ← mod_add x (m_t p);
  x ← mod_mul_x a;
  b ← mod_add x (m_u p);
  x ← mod_mul_x b;
  c ← mod_add x (m_v p);
  x ← mod_mul_x c;
  d ← mod_add x (m_w p);
  Ok (Mat (m_s p) (m_t p) (m_u p) (m_v p) (m_w p) a b c d).

Definition mrg_make_identity : res mrg_transition_matrix :=
  mrg_update_cache (Mat 0 0 0 0 1 0 0 0 0).

Definition mrg_make_A : res mrg_transition_matrix :=
  mrg_update_cache (Mat 0 0 0 1 0 0 0 0 0).

Definition mrg_multiply (m n : mrg_transition_matrix) : res mrg_transition_matrix :=
  x ← mod_mul (m_s m) (m_d n); x ← mod_mac x (m_t m) (m_c n);
  x ← mod_mac x (m_u m) (m_b n); x ← mod_mac x (m_v m) (m_a n);
  rs ← mod_mac x (m_w m) (m_s n);
  x ← mod_mul (m_s m) (m_s n); x ← mod_mul_y x;
  x ← mod_mac x (m_t m) (m_w n); x ← mod_mac x (m_u m) (m_v n);
  x ← mod_mac x (m_v m) (m_u n);
  rt ← mod_mac x (m_w m) (m_t n);
  x ← mod_mul (m_s m) (m_a n); x ← mod_mac x (m_t m) (m_s n); x ← mod_mul_y x;
  x ← mod_mac x (m_u m) (m_w n); x ← mod_mac x (m_v m) (m_v n);
  ru ← mod_mac x (m_w m) (m_u n);
  x ← mod_mul (m_s m) (m_b n); x ← mod_mac x (m_t m) (m_a n);
  x ← mod_mac x (m_u m) (m_s n); x ← mod_mul_y x;
  x ← mod_mac x (m_v m) (m_w n);
  rv ← mod_mac x (m_w m) (m_v n);
  x ← mod_mul (m_s m) (m_c n); x ← mod_mac x (m_t m) (m_b n);
  x ← mod_mac x (m_u m) (m_a n); x ← mod_mac x (m_v m) (m_s n); x ← mod_mul_y x;
  rw ← mod_mac x (m_w m) (m_w n);
  mrg_update_cache (Mat rs rt ru rv rw 0 0 0 0).

(** The [while (exponent > 0)] loop; [fuel] bounds the bits of the exponent. *)
Fixpoint mrg_power_loop (fuel : nat) (exponent : Z)
    (current_power_of_2 result : mrg_transition_matrix) : res mrg_transition_matrix :=
  if 0 <? exponent then
    match fuel with
    | O => Fault OutOfFuel
    | S fuel =>
        result ← (if exponent mod 2 =? 1 then mrg_multiply result current_power_of_2
                  else Ok result);
        current_power_of_2 ← mrg_multiply current_power_of_2 current_power_of_2;
        mrg_power_loop fuel (exponent / 2) current_power_of_2 result
    end
  else Ok result.

(** [exponent] is a 32-bit [unsigned int]: 32 halvings suffice. *)
Definition mrg_power (m : mrg_transition_matrix) (exponent : Z)
    : res mrg_transition_matrix :=
  id ← mrg_make_identity;
  mrg_power_loop 32 exponent m id.

Definition mrg_apply_transition (mat : mrg_transition_matrix) (st : mrg_state)
    : res mrg_state :=
  let '(Mat s t u v w a b c d) := mat in
  let '(MrgState z1 z2 z3 z4 z5) := st in
  p ← mod_mul d z1; q ← mod_mac4 0 s z2 a z3 b z4 c z5;
  o1 ← mod_mac_y p q;
  p ← mod_mac2 0 c z1 w z2; q ← mod_mac3 0 s z3 a z4 b z5;
  o2 ← mod_mac_y p q;
  p ← mod_mac3 0 b z1 v z2 w z3; q ← mod_mac2 0 s z4 a z5;
  o3 ← mod_mac_y p q;
  p ← mod_mac4 0 a z1 u z2 v z3 w z4; q ← mod_mul s z5;
  o4 ← mod_mac_y p q;
  p ← mod_mac3 0 s z1 t z2 u z3;
  o5 ← mod_mac2 p v z4 w z5;
  Ok (MrgState o1 o2 o3 o4 o5).

Definition mrg_step (mat : mrg_transition_matrix) (state : mrg_state) : res mrg_state :=
  mrg_apply_transition mat state.

Definition mrg_orig_step (state : mrg_state) : res mrg_state :=
  x ← mod_mul_x (z1 state);
  new_elt ← mod_mac_y x (z5 state);
  Ok (MrgState new_elt (z1 state) (z2 state) (z3 state) (z4 state)).

(** One of the three loops of [mrg_skip]: at most eight bytes. *)
Fixpoint mrg_skip_word (fuel : nat) (table : list (list mrg_transition_matrix))
    (byte_index exponent : Z) (state : mrg_state) : res mrg_state :=
  if exponent =? 0 then Ok state
  else match fuel with
  | O => Fault OutOfFuel
  | S fuel =>
      let val := Z.land exponent 255 in
      state ← (if negb (val =? 0) then
                 row ← aread table byte_index;
                 mat ← aread row val;
                 mrg_step mat state
               else Ok state);
      mrg_skip_word fuel table (byte_index + 1) (Z.shiftr exponent 8) state
  end.

Definition mrg_skip (table : list (list mrg_transition_matrix)) (state : mrg_state)
    (exponent_high exponent_middle exponent_low : Z) : res mrg_state :=
  state ← mrg_skip_word 8 table 0 exponent_low state;
  state ← mrg_skip_word 8 table 8 exponent_middle state;
  mrg_skip_word 8 table 16 exponent_high state.

Definition mrg_get_uint_orig (state : mrg_state) : res (Z * mrg_state) :=
  state ← mrg_orig_step state;
  Ok (z1 state, state).

Definition mrg_seed (seed : list Z) : res mrg_state :=
  s0 ← aread seed 0;
  s1 ← aread seed 1;
  s2 ← aread seed 2;
  s3 ← aread seed 3;
  s4 ← aread seed 4;
  Ok (MrgState s0 s1 s2 s3 s4).

(** The rows [dump_mrg_powers] writes for one byte: the identity, the
    transition itself and its powers 2..255. *)
Fixpoint dump_powers (n : nat) (j : Z) (transition : mrg_transition_matrix)
    : res (list mrg_transition_matrix) :=
  match n with
  | O => Ok []
  | S n =>
      m ← mrg_power transition j;
      rest ← dump_powers n (j + 1) transition;
      Ok (m :: rest)
  end.

Definition dump_byte (transition : mrg_transition_matrix)
    : res (list mrg_transition_matrix) :=
  m ← mrg_make_identity;
  rest ← dump_powers 254 2 transition;
  Ok (m :: transition :: rest).

Fixpoint dump_bytes (n : nat) (transition : mrg_transition_matrix)
    : res (list (list mrg_transition_matrix)) :=
  match n with
  | O => Ok []
  | S n =>
      row ← dump_byte transition;
      rest ← (match n with
              | O => Ok []
              | S _ => next ← mrg_power transition 256; dump_bytes n next
              end);
      Ok (row :: rest)
  end.

(** The table written to mrg_transitions.c, 192 / 8 bytes of exponent. *)
Definition dump_mrg_powers : res (list (list mrg_transition_matrix)) :=
  A ← mrg_make_A;
  dump_bytes 24 A.
End mrg.

(** generator/utils.c: five nonzero values in range from two 64-bit numbers. *)
Definition make_mrg_seed (userseed1 userseed2 : Z) : list Z :=
  [ u32 (u32 (Z.land userseed1 1073741823) + 1);
    u32 (u32 (Z.land (Z.shiftr userseed1 30) 1073741823) + 1);
    u32 (u32 (Z.land userseed2 1073741823) + 1);
    u32 (u32 (Z.land (Z.shiftr userseed2 30) 1073741823) + 1);
    u32 (u32 (u32 (u64 (Z.shiftl (Z.shiftr userseed2 60) 4)) + u32 (Z.shiftr userseed1 60)) + 1) ].
