(* ===== verification/MrgProofs.v ===== *)
(** Correctness of the generator's transition matrices: multiplication composes
    transitions, a power is an iterated step, and applying the matrix of the
    n-th power of A is the same as n original steps. *)
From S2P Require Import Prelude ModArith Mrg.
From stdpp Require Import base numbers list.
From Stdlib Require Import ZArith Zdiv Lia Setoid.
Open Scope Z_scope.

(** ** The linear algebra over the integers *)

(** Congruence modulo 2^31 - 1. *)
Notation eqp := (eqm P31).

#[export] Existing Instances eqm_setoid Zplus_eqm Zminus_eqm Zmult_eqm.

Lemma eqp_mod x : eqp (x mod P31) x.
Proof. unfold eqm. apply Z.mod_mod. done. Qed.

Lemma eqp_ring x y : x = y -> eqp x y.
Proof. by intros ->. Qed.

Lemma eqp_reduced x y : reduced x -> reduced y -> eqp x y -> x = y.
Proof. unfold eqm, reduced. intros. by rewrite <- (Z.mod_small x P31), <- (Z.mod_small y P31). Qed.

(** The bottom row of a transition matrix and the first column it determines. *)
Record core := Core { c_s : Z; c_t : Z; c_u : Z; c_v : Z; c_w : Z }.

Definition col_a (k : core) : Z := MRG_X * c_s k + c_t k.
Definition col_b (k : core) : Z := MRG_X * col_a k + c_u k.
Definition col_c (k : core) : Z := MRG_X * col_b k + c_v k.
Definition col_d (k : core) : Z := MRG_X * col_c k + c_w k.

Definition zapply (k : core) (z : mrg_state) : mrg_state :=
  let '(MrgState z1 z2 z3 z4 z5) := z in
  let '(Core s t u v w) := k in
  let a := col_a k in let b := col_b k in let c := col_c k in let d := col_d k in
  MrgState
    (d * z1 + MRG_Y * (s * z2 + a * z3 + b * z4 + c * z5))
    (c * z1 + w * z2 + MRG_Y * (s * z3 + a * z4 + b * z5))
    (b * z1 + v * z2 + w * z3 + MRG_Y * (s * z4 + a * z5))
    (a * z1 + u * z2 + v * z3 + w * z4 + MRG_Y * (s * z5))
    (s * z1 + t * z2 + u * z3 + v * z4 + w * z5).

Definition zmul (m n : core) : core :=
  let '(Core s t u v w) := m in
  let '(Core s2 t2 u2 v2 w2) := n in
  let a2 := col_a n in let b2 := col_b n in let c2 := col_c n in let d2 := col_d n in
  Core (s * d2 + t * c2 + u * b2 + v * a2 + w * s2)
       (MRG_Y * (s * s2) + t * w2 + u * v2 + v * u2 + w * t2)
       (MRG_Y * (s * a2 + t * s2) + u * w2 + v * v2 + w * u2)
       (MRG_Y * (s * b2 + t * a2 + u * s2) + v * w2 + w * v2)
       (MRG_Y * (s * c2 + t * b2 + u * a2 + v * s2) + w * w2).

Definition zstep (z : mrg_state) : mrg_state :=
  MrgState (MRG_X * z1 z + MRG_Y * z5 z) (z1 z) (z2 z) (z3 z) (z4 z).

Definition core_id : core := Core 0 0 0 0 1.
Definition core_A : core := Core 0 0 0 1 0.

Ltac core_ring :=
  unfold zapply, zmul, zstep, core_id, core_A, col_d, col_c, col_b, col_a; simpl;
  f_equal; ring.

Lemma zapply_id z : zapply core_id z = z.
Proof. destruct z. core_ring. Qed.

Lemma zapply_A z : zapply core_A z = zstep z.
Proof. destruct z. core_ring. Qed.

(** The matrices determined by their bottom row are closed under products. *)
Lemma zapply_mul m n z : zapply (zmul m n) z = zapply m (zapply n z).
Proof. destruct m, n, z. core_ring. Qed.

Lemma zmul_assoc m n k : zmul m (zmul n k) = zmul (zmul m n) k.
Proof. destruct m, n, k. core_ring. Qed.

Lemma zmul_id_l m : zmul core_id m = m.
Proof. destruct m. core_ring. Qed.

#[global] Arguments zmul : simpl never.
#[global] Arguments zapply : simpl never.
#[global] Arguments core_id : simpl never.

(** Powers of A. *)
Fixpoint cpow (n : nat) : core :=
  match n with O => core_id | S n => zmul core_A (cpow n) end.

Lemma cpow_add a b : cpow (a + b) = zmul (cpow a) (cpow b).
Proof.
  induction a as [|a IH]; simpl.
  - by rewrite zmul_id_l.
  - by rewrite IH, zmul_assoc.
Qed.

Lemma zapply_cpow n z : zapply (cpow n) z = Nat.iter n zstep z.
Proof.
  induction n as [|n IH]; simpl.
  - apply zapply_id.
  - by rewrite zapply_mul, IH, zapply_A.
Qed.

(** ** Congruence of states and matrices *)

Definition st_ok (z : mrg_state) : Prop :=
  reduced (z1 z) /\ reduced (z2 z) /\ reduced (z3 z) /\ reduced (z4 z) /\ reduced (z5 z).

Definition st_eqp (x y : mrg_state) : Prop :=
  eqp (z1 x) (z1 y) /\ eqp (z2 x) (z2 y) /\ eqp (z3 x) (z3 y) /\ eqp (z4 x) (z4 y) /\
  eqp (z5 x) (z5 y).

Definition core_eqp (x y : core) : Prop :=
  eqp (c_s x) (c_s y) /\ eqp (c_t x) (c_t y) /\ eqp (c_u x) (c_u y) /\ eqp (c_v x) (c_v y) /\
  eqp (c_w x) (c_w y).

#[export] Instance st_eqp_equiv : Equivalence st_eqp.
Proof.
  split.
  - intros x. unfold st_eqp. split_and!; reflexivity.
  - intros x y (? & ? & ? & ? & ?). unfold st_eqp. split_and!; by symmetry.
  - intros x y z (? & ? & ? & ? & ?) (? & ? & ? & ? & ?). unfold st_eqp. split_and!; by etrans.
Qed.

#[export] Instance core_eqp_equiv : Equivalence core_eqp.
Proof.
  split.
  - intros x. unfold core_eqp. split_and!; reflexivity.
  - intros x y (? & ? & ? & ? & ?). unfold core_eqp. split_and!; by symmetry.
  - intros x y z (? & ? & ? & ? & ?) (? & ? & ? & ? & ?). unfold core_eqp. split_and!; by etrans.
Qed.

Lemma st_eqp_reduced x y : st_ok x -> st_ok y -> st_eqp x y -> x = y.
Proof.
  destruct x, y. intros (? & ? & ? & ? & ?) (? & ? & ? & ? & ?) (? & ? & ? & ? & ?).
  simpl in *. f_equal; by apply eqp_reduced.
Qed.

(** Rewrites with every congruence between a variable and an expression. *)
Ltac eqp_subst :=
  repeat match goal with H : eqp ?x _ |- _ => is_var x; rewrite H; clear H end.

#[export] Instance zapply_proper : Proper (core_eqp ==> st_eqp ==> st_eqp) zapply.
Proof.
  intros [s t u v w] [s' t' u' v' w'] (Hs & Ht & Hu & Hv & Hw)
    [a b c d e] [a' b' c' d' e'] (Ha & Hb & Hc & Hd & He).
  simpl in *. unfold zapply, st_eqp, col_d, col_c, col_b, col_a. simpl.
  split_and!; eqp_subst; reflexivity.
Qed.

#[export] Instance zmul_proper : Proper (core_eqp ==> core_eqp ==> core_eqp) zmul.
Proof.
  intros [s t u v w] [s' t' u' v' w'] (Hs & Ht & Hu & Hv & Hw)
    [a b c d e] [a' b' c' d' e'] (Ha & Hb & Hc & Hd & He).
  simpl in *. unfold zmul, core_eqp, col_d, col_c, col_b, col_a. simpl.
  split_and!; eqp_subst; reflexivity.
Qed.

#[export] Instance zstep_proper : Proper (st_eqp ==> st_eqp) zstep.
Proof.
  intros [a b c d e] [a' b' c' d' e'] (Ha & Hb & Hc & Hd & He).
  simpl in *. unfold zstep, st_eqp. simpl. split_and!; eqp_subst; reflexivity.
Qed.

(** ** The operations against the linear algebra *)

Definition mat_core (m : mrg_transition_matrix) : core :=
  Core (m_s m) (m_t m) (m_u m) (m_v m) (m_w m).

Definition core_ok (k : core) : Prop :=
  reduced (c_s k) /\ reduced (c_t k) /\ reduced (c_u k) /\ reduced (c_v k) /\ reduced (c_w k).

(** Reduced entries, and a cache that is the first column. *)
Definition mat_ok (m : mrg_transition_matrix) : Prop :=
  core_ok (mat_core m) /\
  m_a m = col_a (mat_core m) mod P31 /\ m_b m = col_b (mat_core m) mod P31 /\
  m_c m = col_c (mat_core m) mod P31 /\ m_d m = col_d (mat_core m) mod P31.

(** [m] is the matrix of [n] steps. *)
Definition pow_of (m : mrg_transition_matrix) (n : nat) : Prop :=
  mat_ok m /\ core_eqp (mat_core m) (cpow n).

Lemma mat_ext m n : mat_ok m -> mat_ok n -> core_eqp (mat_core m) (mat_core n) -> m = n.
Proof.
  destruct m, n. intros [(? & ? & ? & ? & ?) (Ha & Hb & Hc & Hd)]
    [(? & ? & ? & ? & ?) (Ha' & Hb' & Hc' & Hd')] (Hs & Ht & Hu & Hv & Hw).
  unfold mat_core in *. simpl in *. apply (eqp_reduced _ _) in Hs; [|done..].
  apply (eqp_reduced _ _) in Ht; [|done..]. apply (eqp_reduced _ _) in Hu; [|done..].
  apply (eqp_reduced _ _) in Hv; [|done..]. apply (eqp_reduced _ _) in Hw; [|done..]. by subst.
Qed.

Lemma pow_of_unique m n k : pow_of m k -> pow_of n k -> m = n.
Proof.
  intros [? H1] [? H2]. apply mat_ext; [done..|]. rewrite H1. by symmetry.
Qed.

Section ops.
Context {MO : ModOps} {ML : ModLaws MO}.

#[local] Hint Resolve mod_reduced : core.

(** Evaluates one modular operation on reduced operands. *)
Ltac mod_ops :=
  repeat first
    [ rewrite mod_mul_x_ok by auto | rewrite mod_mul_y_ok by auto
    | rewrite mod_add_ok by auto | rewrite mod_mul_ok by auto
    | rewrite mod_mac_y_ok by auto | rewrite mod_mac_ok by auto
    | rewrite mod_mac2_ok by auto | rewrite mod_mac3_ok by auto
    | rewrite mod_mac4_ok by auto
    | progress simpl ].

Lemma reduced_0 : reduced 0.
Proof. by unfold reduced, P31. Qed.
#[local] Hint Resolve reduced_0 : core.

Lemma mrg_update_cache_spec p :
  core_ok (mat_core p) ->
  exists r, mrg_update_cache p = Ok r /\ mat_ok r /\ mat_core r = mat_core p.
Proof.
  destruct p as [s t u v w a b c d]. intros (Hs & Ht & Hu & Hv & Hw). simpl in *.
  unfold mrg_update_cache. mod_ops. eexists. split; [reflexivity|]. split; [|done].
  split; [done|]. unfold col_d, col_c, col_b, col_a. simpl.
  split_and!; apply (eqp_reduced _ _); auto; rewrite !eqp_mod; apply eqp_ring; ring.
Qed.

Lemma mrg_apply_spec m z :
  mat_ok m -> st_ok z ->
  exists z', mrg_apply_transition m z = Ok z' /\ st_ok z' /\ st_eqp z' (zapply (mat_core m) z).
Proof.
  destruct m as [s t u v w a b c d], z as [x1 x2 x3 x4 x5].
  intros ((Hs & Ht & Hu & Hv & Hw) & Ha & Hb & Hc & Hd) (H1 & H2 & H3 & H4 & H5). simpl in *.
  unfold mat_core in *. simpl in *.
  assert (reduced a /\ reduced b /\ reduced c /\ reduced d) as (? & ? & ? & ?)
    by (rewrite Ha, Hb, Hc, Hd; auto).
  mod_ops. eexists. split; [reflexivity|]. split.
  { unfold st_ok. simpl. split_and!; apply mod_reduced. }
  unfold st_eqp, zapply. simpl. rewrite Ha, Hb, Hc, Hd.
  split_and!; rewrite !eqp_mod; apply eqp_ring; ring.
Qed.

Lemma mrg_multiply_spec m n :
  mat_ok m -> mat_ok n ->
  exists r, mrg_multiply m n = Ok r /\ mat_ok r /\
    core_eqp (mat_core r) (zmul (mat_core m) (mat_core n)).
Proof.
  destruct m as [s t u v w ? ? ? ?], n as [s' t' u' v' w' a b c d].
  intros ((Hs & Ht & Hu & Hv & Hw) & _)
         ((Hs' & Ht' & Hu' & Hv' & Hw') & Ha & Hb & Hc & Hd).
  unfold mat_core in *. simpl in *.
  assert (reduced a /\ reduced b /\ reduced c /\ reduced d) as (? & ? & ? & ?)
    by (rewrite Ha, Hb, Hc, Hd; auto).
  unfold mrg_multiply. mod_ops.
  match goal with |- context [mrg_update_cache ?p] =>
    destruct (mrg_update_cache_spec p) as (r & -> & Hr & Hcore) end.
  { unfold core_ok. simpl. split_and!; apply mod_reduced. }
  exists r. split; [done|]. split; [done|]. unfold mat_core in Hcore. rewrite Hcore.
  unfold core_eqp, zmul. simpl. rewrite Ha, Hb, Hc, Hd.
  split_and!; rewrite !eqp_mod; apply eqp_ring; ring.
Qed.

Lemma mrg_multiply_pow m n i j :
  pow_of m i -> pow_of n j -> exists r, mrg_multiply m n = Ok r /\ pow_of r (i + j).
Proof.
  intros [Hm Hi] [Hn Hj]. destruct (mrg_multiply_spec m n Hm Hn) as (r & Hr & Hok & Hc).
  exists r. split; [done|]. split; [done|]. by rewrite Hc, Hi, Hj, cpow_add.
Qed.

Lemma mrg_make_identity_pow : exists r, mrg_make_identity = Ok r /\ pow_of r 0.
Proof.
  unfold mrg_make_identity.
  destruct (mrg_update_cache_spec (Mat 0 0 0 0 1 0 0 0 0)) as (r & -> & Hr & Hc).
  - by vm_compute.
  - exists r. split; [done|]. split; [done|]. rewrite Hc. reflexivity.
Qed.

Lemma mrg_make_A_pow : exists r, mrg_make_A = Ok r /\ pow_of r 1.
Proof.
  unfold mrg_make_A.
  destruct (mrg_update_cache_spec (Mat 0 0 0 1 0 0 0 0 0)) as (r & -> & Hr & Hc).
  - by vm_compute.
  - exists r. split; [done|]. split; [done|]. rewrite Hc. reflexivity.
Qed.

Lemma mrg_power_loop_spec fuel e m r i j :
  pow_of m i -> pow_of r j -> 0 <= e < 2 ^ Z.of_nat fuel ->
  exists r', mrg_power_loop fuel e m r = Ok r' /\ pow_of r' (i * Z.to_nat e + j).
Proof.
  induction fuel as [|fuel IH] in e, m, r, i, j |- *; intros Hm Hr He; simpl.
  - assert (e = 0) as -> by (simpl in He; lia). exists r. split; [done|].
    by replace (i * Z.to_nat 0 + j)%nat with j by lia.
  - destruct (Z.ltb_spec 0 e) as [Hpos|].
    2: { exists r. split; [done|]. by replace (i * Z.to_nat e + j)%nat with j by lia. }
    destruct (mrg_multiply_pow m m i i Hm Hm) as (m2 & Em2 & Hm2).
    assert (2 ^ Z.of_nat (S fuel) = 2 * 2 ^ Z.of_nat fuel) as Hpow
      by (rewrite Nat2Z.inj_succ, Z.pow_succ_r by lia; done).
    assert (0 <= e / 2 < 2 ^ Z.of_nat fuel) as He2 by dlia.
    destruct (Z.eqb_spec (e mod 2) 1) as [Hodd|Heven].
    + destruct (mrg_multiply_pow r m j i Hr Hm) as (r2 & -> & Hr2). simpl.
      rewrite Em2. simpl. destruct (IH (e / 2) m2 r2 _ _ Hm2 Hr2 He2) as (r' & -> & Hr').
      exists r'. split; [done|]. replace (i * Z.to_nat e + j)%nat
        with ((i + i) * Z.to_nat (e / 2) + (j + i))%nat; [done|].
      assert (Z.to_nat e = (2 * Z.to_nat (e / 2) + 1)%nat) as -> by dlia. lia.
    + simpl. rewrite Em2. simpl. destruct (IH (e / 2) m2 r _ _ Hm2 Hr He2) as (r' & -> & Hr').
      exists r'. split; [done|]. replace (i * Z.to_nat e + j)%nat
        with ((i + i) * Z.to_nat (e / 2) + j)%nat; [done|].
      assert (Z.to_nat e = (2 * Z.to_nat (e / 2))%nat) as -> by dlia. lia.
Qed.

Lemma mrg_power_spec m i e :
  pow_of m i -> 0 <= e < 2 ^ 32 ->
  exists r, mrg_power m e = Ok r /\ pow_of r (i * Z.to_nat e).
Proof.
  intros Hm He. unfold mrg_power.
  destruct mrg_make_identity_pow as (id & -> & Hid). cbn [mbind res_bind].
  destruct (mrg_power_loop_spec 32 e m id i 0 Hm Hid He) as (r & Hr & Hp).
  exists r. split; [done|]. by rewrite Nat.add_0_r in Hp.
Qed.

(** *** Steps *)

Lemma mrg_orig_step_spec z :
  st_ok z -> exists z', mrg_orig_step z = Ok z' /\ st_ok z' /\ st_eqp z' (zstep z).
Proof.
  destruct z as [x1 x2 x3 x4 x5]. intros (H1 & H2 & H3 & H4 & H5). simpl in *.
  unfold mrg_orig_step. mod_ops. eexists. split; [reflexivity|]. split.
  - unfold st_ok. simpl. split; [apply mod_reduced|]. done.
  - unfold st_eqp, zstep. simpl. split_and!; try reflexivity.
    rewrite !eqp_mod. apply eqp_ring. ring.
Qed.

(** [n] draws from the generator. *)
Fixpoint mrg_steps (n : nat) (z : mrg_state) : res mrg_state :=
  match n with O => Ok z | S n => mrg_steps n z ≫= mrg_orig_step end.

Lemma mrg_steps_spec n z :
  st_ok z ->
  exists z', mrg_steps n z = Ok z' /\ st_ok z' /\ st_eqp z' (zapply (cpow n) z).
Proof.
  intros Hz. rewrite zapply_cpow. induction n as [|n (z1 & E1 & Hz1 & He1)]; simpl.
  - exists z. split; [done|]. split; [done|reflexivity].
  - rewrite E1. simpl. destruct (mrg_orig_step_spec z1 Hz1) as (z2 & -> & Hz2 & He2).
    exists z2. split; [done|]. split; [done|]. by rewrite He2, He1.
Qed.

(** Applying the matrix of the n-th power is n steps. *)
Lemma mrg_apply_steps m n z :
  pow_of m n -> st_ok z -> mrg_apply_transition m z = mrg_steps n z.
Proof.
  intros [Hm Hc] Hz. destruct (mrg_apply_spec m z Hm Hz) as (z1 & -> & Hz1 & He1).
  destruct (mrg_steps_spec n z Hz) as (z2 & -> & Hz2 & He2).
  f_equal. apply st_eqp_reduced; [done..|]. rewrite He1, He2. by rewrite Hc.
Qed.

Lemma mrg_steps_ok n z : st_ok z -> exists z', mrg_steps n z = Ok z' /\ st_ok z'.
Proof. intros Hz. destruct (mrg_steps_spec n z Hz) as (z' & ? & ? & _). eauto. Qed.

Lemma mrg_steps_add a b z : mrg_steps (a + b) z = mrg_steps b z ≫= mrg_steps a.
Proof.
  induction a as [|a IH]; simpl.
  - by destruct (mrg_steps b z).
  - rewrite IH. by destruct (mrg_steps b z).
Qed.
End ops.
