(* ===== verification/MrgSkip.v ===== *)
(** Jumping ahead: the table of mrg_transitions.c holds the powers it should,
    it is the one [dump_mrg_powers] generates, and [mrg_skip] by a 192-bit
    exponent is that many single steps. *)
From S2P Require Import Prelude ModArith Mrg MrgProofs MrgTable.
From stdpp Require Import base numbers list.
From Stdlib Require Import ZArith Zdiv Lia.
Open Scope Z_scope.

(** ** A checker for tables of powers *)

Definition reducedb (x : Z) : bool := (0 <=? x) && (x <? P31).

Definition mat_okb (m : mrg_transition_matrix) : bool :=
  reducedb (m_s m) && reducedb (m_t m) && reducedb (m_u m) && reducedb (m_v m) &&
  reducedb (m_w m) &&
  (m_a m =? (MRG_X * m_s m + m_t m) mod P31) && (m_b m =? (MRG_X * m_a m + m_u m) mod P31) &&
  (m_c m =? (MRG_X * m_b m + m_v m) mod P31) && (m_d m =? (MRG_X * m_c m + m_w m) mod P31).

(** [r] is the product of [m] and [n]: the products are summed unreduced. *)
Definition mulb (m n r : mrg_transition_matrix) : bool :=
  let '(Mat s t u v w _ _ _ _) := m in
  let '(Mat s2 t2 u2 v2 w2 a2 b2 c2 d2) := n in
  (m_s r =? (s * d2 + t * c2 + u * b2 + v * a2 + w * s2) mod P31) &&
  (m_t r =? (MRG_Y * (s * s2) + t * w2 + u * v2 + v * u2 + w * t2) mod P31) &&
  (m_u r =? (MRG_Y * (s * a2 + t * s2) + u * w2 + v * v2 + w * u2) mod P31) &&
  (m_v r =? (MRG_Y * (s * b2 + t * a2 + u * s2) + v * w2 + w * v2) mod P31) &&
  (m_w r =? (MRG_Y * (s * c2 + t * b2 + u * a2 + v * s2) + w * w2) mod P31).

(** Every entry of [l] is the one before it times [base]. *)
Fixpoint chainb (base prev : mrg_transition_matrix) (l : list mrg_transition_matrix) : bool :=
  match l with
  | [] => true
  | m :: l => mat_okb m && mulb prev base m && chainb base m l
  end.

Definition mat_eqb (m n : mrg_transition_matrix) : bool :=
  (m_s m =? m_s n) && (m_t m =? m_t n) && (m_u m =? m_u n) && (m_v m =? m_v n) && (m_w m =? m_w n) &&
  (m_a m =? m_a n) && (m_b m =? m_b n) && (m_c m =? m_c n) && (m_d m =? m_d n).

Definition ID : mrg_transition_matrix := Mat 0 0 0 0 1 0 0 0 1.

(** A byte's row: the identity, then a chain of 255 from [base]. *)
Definition byteb (base : mrg_transition_matrix) (row : list mrg_transition_matrix) : bool :=
  match row with
  | i :: b :: l => mat_eqb i ID && mat_eqb b base && chainb base b l && Nat.eqb (length l) 254
  | _ => false
  end.

(** The base of the next byte is the last entry times the base of this one. *)
Fixpoint tableb (base : mrg_transition_matrix) (rows : list (list mrg_transition_matrix)) : bool :=
  match rows with
  | [] => true
  | row :: rows =>
      byteb base row &&
      match rows with
      | next :: _ =>
          let base' := nth 1 next ID in
          mat_okb base' && mulb (nth 255 row ID) base base' && tableb base' rows
      | [] => true
      end
  end.

Lemma reducedb_spec x : reducedb x = true <-> reduced x.
Proof. unfold reducedb, reduced. lia. Qed.

Lemma mat_okb_spec m : mat_okb m = true -> mat_ok m.
Proof.
  unfold mat_okb. rewrite !andb_true_iff, !reducedb_spec, !Z.eqb_eq.
  intros ((((((((? & ?) & ?) & ?) & ?) & Ha) & Hb) & Hc) & Hd).
  split; [done|]. unfold mat_core, col_d, col_c, col_b, col_a. simpl.
  split_and!; [done|..]; apply (eqp_reduced _ _);
    try (rewrite ?Ha, ?Hb, ?Hc, ?Hd; apply mod_reduced);
    rewrite ?Hd, ?Hc, ?Hb, ?Ha, !eqp_mod; reflexivity.
Qed.

Lemma mulb_spec m n r :
  mat_ok n -> mulb m n r = true -> core_eqp (mat_core r) (zmul (mat_core m) (mat_core n)).
Proof.
  destruct m as [s t u v w ? ? ? ?], n as [s' t' u' v' w' a b c d], r.
  intros (_ & Ha & Hb & Hc & Hd). unfold mat_core, mulb, core_eqp, zmul in *. simpl in *.
  rewrite !andb_true_iff, !Z.eqb_eq. intros ((((-> & ->) & ->) & ->) & ->).
  rewrite Ha, Hb, Hc, Hd. split_and!; rewrite !eqp_mod; reflexivity.
Qed.

Lemma mat_eqb_spec m n : mat_eqb m n = true -> m = n.
Proof.
  unfold mat_eqb. rewrite !andb_true_iff, !Z.eqb_eq.
  destruct m, n. simpl. intuition congruence.
Qed.

Lemma mulb_pow m n r i j :
  pow_of m i -> pow_of n j -> mat_okb r = true -> mulb m n r = true -> pow_of r (i + j).
Proof.
  intros [_ Hi] [Hn Hj] Hr Hm. split; [by apply mat_okb_spec|].
  by rewrite (mulb_spec _ _ _ Hn Hm), Hi, Hj, cpow_add.
Qed.

Lemma chainb_pow base n l prev k j m :
  pow_of base n -> pow_of prev k -> chainb base prev l = true -> l !! j = Some m ->
  pow_of m (k + (j + 1) * n).
Proof.
  intros Hb. induction l as [|x l IH] in prev, k, j |- *; intros Hp Hc Hj; [done|].
  simpl in Hc. rewrite !andb_true_iff in Hc. destruct Hc as [[Hx Hm] Hc].
  pose proof (mulb_pow _ _ _ _ _ Hp Hb Hx Hm) as Hpx.
  destruct j as [|j]; simpl in Hj.
  - injection Hj as <-. by replace (k + (0 + 1) * n)%nat with (k + n)%nat by lia.
  - pose proof (IH x _ j Hpx Hc Hj) as H.
    by replace (k + (S j + 1) * n)%nat with (k + n + (j + 1) * n)%nat by lia.
Qed.

Lemma ID_pow : pow_of ID 0.
Proof. split; [by apply mat_okb_spec|reflexivity]. Qed.

Lemma byteb_pow base n row j :
  pow_of base n -> byteb base row = true -> (j < 256)%nat ->
  exists m, row !! j = Some m /\ pow_of m (j * n).
Proof.
  intros Hb Hr Hj. destruct row as [|i [|b l]]; [done..|]. simpl in Hr.
  rewrite !andb_true_iff in Hr. destruct Hr as [[[Hi Hbb] Hc] Hl].
  apply mat_eqb_spec in Hi, Hbb. apply Nat.eqb_eq in Hl. subst i b.
  destruct j as [|[|j]]; simpl.
  - exists ID. split; [done|apply ID_pow].
  - exists base. split; [done|]. by rewrite Nat.add_0_r.
  - destruct (lookup_lt_is_Some_2 l j) as [m Hm]; [lia|].
    exists m. split; [done|]. pose proof (chainb_pow _ _ _ _ _ _ _ Hb Hb Hc Hm) as H.
    by replace (n + (n + j * n))%nat with (n + (j + 1) * n)%nat by lia.
Qed.

(** Every entry of [rows] is the power its position says, relative to [base]. *)
Definition powers_from (n : nat) (rows : list (list mrg_transition_matrix)) : Prop :=
  forall i row j, rows !! i = Some row -> (j < 256)%nat ->
    exists m, row !! j = Some m /\ pow_of m (j * 256 ^ i * n).

Lemma tableb_pow base n rows :
  pow_of base n -> tableb base rows = true -> powers_from n rows.
Proof.
  induction rows as [|row rows IH] in base, n |- *; intros Hb Ht i r j Hi Hj; [done|].
  cbn [tableb] in Ht. apply andb_true_iff in Ht as [Hr Ht].
  destruct i as [|i]; simpl in Hi.
  - injection Hi as <-. replace (j * 256 ^ 0 * n)%nat with (j * n)%nat by (simpl; lia).
    by apply (byteb_pow base).
  - destruct rows as [|next rows]; [done|].
    rewrite !andb_true_iff in Ht. destruct Ht as [[Ho Hm] Ht].
    destruct (byteb_pow base n row 255 Hb Hr) as (m & Hm255 & Hpm); [lia|].
    rewrite (nth_lookup_Some _ _ _ _ Hm255) in Hm.
    pose proof (mulb_pow _ _ _ _ _ Hpm Hb Ho Hm) as Hnext.
    destruct (IH _ _ Hnext Ht i r j Hi Hj) as (x & Hx & Hpx). exists x. split; [done|].
    replace (j * 256 ^ S i * n)%nat with (j * 256 ^ i * (255 * n + n))%nat; [done|].
    rewrite Nat.pow_succ_r'. lia.
Qed.

Definition MAT_A : mrg_transition_matrix := Mat 0 0 0 1 0 0 0 1 107374182.

Lemma MAT_A_pow : pow_of MAT_A 1.
Proof. split; [by apply mat_okb_spec|reflexivity]. Qed.

Lemma table_checked : tableb MAT_A mrg_skip_matrices = true.
Proof. vm_compute. reflexivity. Qed.

Lemma table_lengths : map length mrg_skip_matrices = replicate 24 256%nat.
Proof. vm_compute. reflexivity. Qed.

Lemma table_powers : powers_from 1 mrg_skip_matrices.
Proof. apply (tableb_pow MAT_A); [apply MAT_A_pow|apply table_checked]. Qed.

Lemma table_entry i j :
  0 <= i < 24 -> 0 <= j < 256 ->
  exists row m, aread mrg_skip_matrices i = Ok row /\ aread row j = Ok m /\
    pow_of m (Z.to_nat (j * 256 ^ i)).
Proof.
  intros Hi Hj.
  destruct (aread_in_bounds mrg_skip_matrices i) as (row & Hrow & Hl).
  { unfold zlen. rewrite <- (List.length_map length), table_lengths, length_replicate. lia. }
  destruct (table_powers (Z.to_nat i) row (Z.to_nat j) Hl) as (m & Hm & Hp); [lia|].
  exists row, m. split; [done|]. split; [apply aread_Ok; split; [lia|done]|].
  rewrite Nat.mul_1_r in Hp. rewrite Z2Nat.inj_mul, Z2Nat.inj_pow by lia. exact Hp.
Qed.

Section skip.
Context {MO : ModOps} {ML : ModLaws MO}.

Lemma mrg_skip_word_spec fuel k e z :
  st_ok z -> 0 <= k -> k + Z.of_nat fuel <= 24 -> 0 <= e < 256 ^ Z.of_nat fuel ->
  mrg_skip_word fuel mrg_skip_matrices k e z = mrg_steps (Z.to_nat (e * 256 ^ k)) z.
Proof.
  induction fuel as [|fuel IH] in k, e, z |- *; intros Hz Hk Hf He.
  { simpl in *. assert (e = 0) as -> by lia. done. }
  cbn [mrg_skip_word]. destruct (Z.eqb_spec e 0) as [->|Hne]; [done|].
  change 255 with (Z.ones 8). rewrite Z.land_ones, Z.shiftr_div_pow2 by lia.
  change (2 ^ 8) with 256.
  assert (256 ^ Z.of_nat (S fuel) = 256 * 256 ^ Z.of_nat fuel) as Hpow
    by (rewrite Nat2Z.inj_succ, Z.pow_succ_r by lia; done).
  assert (0 <= e / 256 < 256 ^ Z.of_nat fuel) as Hd by dlia.
  pose proof (Z.mod_pos_bound e 256 ltac:(lia)) as Hm.
  assert (0 < 256 ^ k) as Hpk by (apply Z.pow_pos_nonneg; lia).
  assert (Z.to_nat (e * 256 ^ k) =
          Z.to_nat (e / 256 * 256 ^ (k + 1)) + Z.to_nat (e mod 256 * 256 ^ k))%nat as ->.
  { rewrite <- Z2Nat.inj_add, Z.pow_add_r by (try lia; apply Z.mul_nonneg_nonneg; lia).
    f_equal. rewrite (Z.div_mod e 256) at 1 by lia. ring. }
  rewrite mrg_steps_add.
  destruct (mrg_steps_ok (Z.to_nat (e mod 256 * 256 ^ k)) z Hz) as (z' & Hz' & Hok').
  destruct (Z.eqb_spec (e mod 256) 0) as [H0|H0]; cbn [negb].
  - rewrite H0 in *. simpl in Hz'. injection Hz' as <-. simpl. apply IH; [done|lia..].
  - destruct (table_entry k (e mod 256)) as (row & m & -> & Hrow & Hp); [lia..|].
    cbn [mbind res_bind]. rewrite Hrow. cbn [mbind res_bind]. unfold mrg_step.
    rewrite (mrg_apply_steps _ _ _ Hp Hz), Hz'. cbn [mbind res_bind].
    apply IH; [done|lia..].
Qed.

Lemma mrg_skip_spec z h m l :
  st_ok z -> is_u64 h -> is_u64 m -> is_u64 l ->
  mrg_skip mrg_skip_matrices z h m l =
    mrg_steps (Z.to_nat (h * 2 ^ 128 + m * 2 ^ 64 + l)) z.
Proof.
  intros Hz Hh Hm Hl. unfold is_u64, mrg_skip in *.
  replace (h * 2 ^ 128 + m * 2 ^ 64 + l)
    with (h * 256 ^ 16 + (m * 256 ^ 8 + l * 256 ^ 0)) by ring.
  rewrite !Z2Nat.inj_add by lia. rewrite !mrg_steps_add.
  rewrite mrg_skip_word_spec by (done || lia).
  destruct (mrg_steps_ok (Z.to_nat (l * 256 ^ 0)) z Hz) as (z1 & -> & Hz1).
  cbn [mbind res_bind]. rewrite mrg_skip_word_spec by (done || lia).
  destruct (mrg_steps_ok (Z.to_nat (m * 256 ^ 8)) z1 Hz1) as (z2 & -> & Hz2).
  cbn [mbind res_bind]. by rewrite mrg_skip_word_spec by (done || lia).
Qed.

(** *** The generator of the table *)

Lemma dump_powers_spec k j b n :
  pow_of b n -> 0 <= j -> j + Z.of_nat k <= 2 ^ 32 ->
  exists l, dump_powers k j b = Ok l /\ length l = k /\
    forall i m, l !! i = Some m -> pow_of m ((Z.to_nat j + i) * n).
Proof.
  intros Hb. induction k as [|k IH] in j |- *; intros Hj Hk; cbn [dump_powers].
  - exists []. split; [done|]. split; [done|]. intros i m Hi. done.
  - destruct (mrg_power_spec b n j Hb) as (m & -> & Hm); [lia|]. cbn [mbind res_bind].
    destruct (IH (j + 1)) as (l & -> & Hl & Hp); [lia..|]. cbn [mbind res_bind].
    exists (m :: l). split; [done|]. split; [simpl; by rewrite Hl|].
    intros [|i] x Hx; simpl in Hx.
    + injection Hx as <-. by rewrite Nat.add_0_r, Nat.mul_comm.
    + apply Hp in Hx. by replace (Z.to_nat j + S i)%nat with (Z.to_nat (j + 1) + i)%nat by lia.
Qed.

Lemma dump_byte_spec b n :
  pow_of b n ->
  exists row, dump_byte b = Ok row /\ length row = 256%nat /\
    forall i m, row !! i = Some m -> pow_of m (i * n).
Proof.
  intros Hb. unfold dump_byte.
  destruct mrg_make_identity_pow as (id & -> & Hid). cbn [mbind res_bind].
  destruct (dump_powers_spec 254 2 b n Hb) as (l & -> & Hl & Hp); [lia..|]. cbn [mbind res_bind].
  exists (id :: b :: l). split; [done|]. split; [cbn [length]; by rewrite Hl|].
  intros [|[|i]] m Hm; simpl in Hm.
  - by injection Hm as <-.
  - injection Hm as <-. by rewrite Nat.mul_1_l.
  - by apply Hp in Hm.
Qed.

Lemma dump_bytes_spec k b n :
  pow_of b n ->
  exists rows, dump_bytes k b = Ok rows /\ length rows = k /\
    forall i row, rows !! i = Some row -> length row = 256%nat /\
      forall j m, row !! j = Some m -> pow_of m (j * 256 ^ i * n).
Proof.
  induction k as [|k IH] in b, n |- *; intros Hb; cbn [dump_bytes].
  { exists []. split; [done|]. split; [done|]. intros i row Hi. done. }
  destruct (dump_byte_spec b n Hb) as (row & -> & Hl & Hrow). cbn [mbind res_bind].
  assert (exists rows, match k with O => Ok [] | S _ => next ← mrg_power b 256; dump_bytes k next end
            = Ok rows /\ length rows = k /\
    forall i row, rows !! i = Some row -> length row = 256%nat /\
      forall j m, row !! j = Some m -> pow_of m (j * 256 ^ S i * n)) as (rows & -> & Hk & Hrows).
  { destruct k as [|k].
    { exists []. split; [done|]. split; [done|]. intros i r Hi. done. }
    destruct (mrg_power_spec b n 256 Hb) as (next & -> & Hnext); [lia|].
    cbn [mbind res_bind]. destruct (IH next _ Hnext) as (rows & Hrs & Hlen & Hrows).
    exists rows. split; [exact Hrs|]. split; [done|]. intros i r Hi.
    destruct (Hrows i r Hi) as [? Hj]. split; [done|]. intros j m Hm.
    replace (j * 256 ^ S i * n)%nat with (j * 256 ^ i * (n * Z.to_nat 256))%nat; [by apply Hj|].
    rewrite Nat.pow_succ_r'. replace (Z.to_nat 256) with 256%nat by lia. lia. }
  cbn [mbind res_bind]. exists (row :: rows). split; [done|]. split; [simpl; by rewrite Hk|].
  intros [|i] r Hi; simpl in Hi.
  - injection Hi as <-. split; [done|]. intros j m Hm. rewrite Nat.pow_0_r, Nat.mul_1_r. by apply Hrow.
  - by apply Hrows.
Qed.

Lemma powers_unique rows rows' :
  length rows = length rows' ->
  (forall i row, rows !! i = Some row -> length row = 256%nat /\
      forall j m, row !! j = Some m -> pow_of m (j * 256 ^ i * 1)) ->
  (forall i row, rows' !! i = Some row -> length row = 256%nat) -> powers_from 1 rows' ->
  rows = rows'.
Proof.
  intros Hlen H1 H2 H3. apply (list_eq_same_length _ _ (length rows')); [done..|].
  intros i x y Hi Hx Hy. destruct (H1 i x Hx) as [Hlx Hpx]. pose proof (H2 i y Hy) as Hly.
  apply (list_eq_same_length _ _ 256); [done..|]. intros j m m' Hj Hm Hm'.
  destruct (H3 i y j Hy Hj) as (m2 & Hm2 & Hp2). rewrite Hm' in Hm2. injection Hm2 as <-.
  eapply pow_of_unique; [|exact Hp2]. by apply Hpx.
Qed.

Lemma table_row_length i row : mrg_skip_matrices !! i = Some row -> length row = 256%nat.
Proof.
  intros Hi. assert (map length mrg_skip_matrices !! i = Some (length row)) as Hl
    by (change (map length mrg_skip_matrices) with (length <$> mrg_skip_matrices);
        by rewrite list_lookup_fmap, Hi).
  rewrite table_lengths in Hl. by apply lookup_replicate in Hl as [-> _].
Qed.

Lemma table_generated : dump_mrg_powers = Ok mrg_skip_matrices.
Proof.
  unfold dump_mrg_powers. destruct mrg_make_A_pow as (A & -> & HA). cbn [mbind res_bind].
  destruct (dump_bytes_spec 24 A 1 HA) as (rows & -> & Hlen & Hrows). f_equal.
  apply powers_unique; [|exact Hrows|apply table_row_length|apply table_powers].
  rewrite Hlen, <- (List.length_map length), table_lengths. done.
Qed.
End skip.
