(* ===== verification/Kronecker.v ===== *)
(** The Kronecker edge generator of Graph500 (generator/graph_generator.c,
    generator/graph_generator.h, generator/make_graph.c): the four-way choice of
    a quadrant by rejection sampling, the descent to one edge, the scrambling of
    vertex numbers, and the loops that fill an edge array. *)
From S2P Require Import Prelude ModArith Mrg.
From stdpp Require Import base numbers list.
From Stdlib Require Import ZArith Lia.
Open Scope Z_scope.

Definition INITIATOR_A_NUMERATOR : Z := 5700.
Definition INITIATOR_BC_NUMERATOR : Z := 1900.
Definition INITIATOR_DENOMINATOR : Z := 10000.

(** Shifting a 64-bit word by its width or more is undefined. *)
Definition shr64 (x n : Z) : res Z :=
  if decide (0 <= n < 64) then Ok (Z.shiftr x n) else Fault IntOverflow.

(** ** Edges: the plain and the packed layout *)

Module Plain.
Record packed_edge := Edge { v0 : Z; v1 : Z }.

Definition write_edge (v0 v1 : Z) : packed_edge := Edge v0 v1.
Definition get_v0_from_edge (p : packed_edge) : Z := v0 p.
Definition get_v1_from_edge (p : packed_edge) : Z := v1 p.
End Plain.

Module Packed.
(** 48 bits per vertex: [high] holds v1's high half above v0's. *)
Record packed_edge := Edge { v0_low : Z; v1_low : Z; high : Z }.

(** Conversion to [int16_t]. *)
Definition s16 (x : Z) : Z := (x + 2 ^ 15) mod 2 ^ 16 - 2 ^ 15.

Definition get_v0_from_edge (p : packed_edge) : Z :=
  Z.lor (v0_low p) (Z.shiftl (s16 (Z.land (high p) 65535)) 32).

Definition get_v1_from_edge (p : packed_edge) : Z :=
  Z.lor (v1_low p) (Z.shiftl (s16 (Z.shiftr (high p) 16)) 32).

Definition write_edge (v0 v1 : Z) : packed_edge :=
  Edge (u32 v0) (u32 v1)
    (u32 (Z.lor (Z.land (Z.shiftr v0 32) 65535)
                (Z.shiftl (Z.land (Z.shiftr v1 32) 65535) 16))).
End Packed.

(** ** Reversing the bits of a word *)

(** GCC's [__builtin_bswap64]: the bytes in reverse order. *)
Definition bswap64 (x : Z) : Z :=
  foldr (fun j acc => Z.lor (Z.shiftl (Z.land (Z.shiftr x (8 * j)) 255) (56 - 8 * j)) acc) 0
    [0; 1; 2; 3; 4; 5; 6; 7].

Definition bswap32 (x : Z) : Z :=
  foldr (fun j acc => Z.lor (Z.shiftl (Z.land (Z.shiftr x (8 * j)) 255) (24 - 8 * j)) acc) 0
    [0; 1; 2; 3].

(** [((x >> k) & mask) | ((x & mask) << k)] on 64-bit and on 32-bit words *)
Definition swap64 (k mask x : Z) : Z :=
  Z.lor (Z.land (Z.shiftr x k) mask) (u64 (Z.shiftl (Z.land x mask) k)).
Definition swap32 (k mask x : Z) : Z :=
  Z.lor (Z.land (Z.shiftr x k) mask) (u32 (Z.shiftl (Z.land x mask) k)).

(** The 64-bit code, with the byte swap of GCC 4.3 and later. *)
Definition bitreverse (x : Z) : Z :=
  let x := bswap64 x in
  let x := swap64 4 0x0F0F0F0F0F0F0F0F x in
  let x := swap64 2 0x3333333333333333 x in
  let x := swap64 1 0x5555555555555555 x in
  x.

(** The 64-bit code of other compilers. *)
Definition bitreverse_portable (x : Z) : Z :=
  let x := Z.lor (Z.shiftr x 32) (u64 (Z.shiftl x 32)) in
  let x := swap64 16 0x0000FFFF0000FFFF x in
  let x := swap64 8 0x00FF00FF00FF00FF x in
  let x := swap64 4 0x0F0F0F0F0F0F0F0F x in
  let x := swap64 2 0x3333333333333333 x in
  let x := swap64 1 0x5555555555555555 x in
  x.

(** The 32-bit code. *)
Definition bitreverse_32 (x : Z) : Z :=
  let h := u32 (Z.shiftr x 32) in
  let l := u32 (Z.land x 4294967295) in
  let h := bswap32 h in
  let l := bswap32 l in
  let h := swap32 4 0x0F0F0F0F h in
  let l := swap32 4 0x0F0F0F0F l in
  let h := swap32 2 0x33333333 h in
  let l := swap32 2 0x33333333 l in
  let h := swap32 1 0x55555555 h in
  let l := swap32 1 0x55555555 l in
  Z.lor (u64 (Z.shiftl l 32)) h.

Definition scramble (v0 lgN val0 val1 : Z) : res Z :=
  let v := u64 v0 in
  let v := u64 (v + u64 (val0 + val1)) in
  let v := u64 (v * Z.lor val0 0x4519840211493211) in
  v ← shr64 (bitreverse v) (64 - lgN);
  hi ← shr64 v lgN;
  _ ← check (hi =? 0) AssertFailed;
  let v := u64 (v * Z.lor val1 0x3050852102C843A5) in
  v ← shr64 (bitreverse v) (64 - lgN);
  hi ← shr64 v lgN;
  _ ← check (hi =? 0) AssertFailed;
  Ok v.

Section kronecker.
Context {MO : ModOps}.
(** [mrg_skip_matrices] *)
Context (table : list (list mrg_transition_matrix)).

(** [do val = mrg_get_uint_orig(st); while (val < limit)] *)
Fixpoint redraw (fuel : nat) (limit : Z) (st : mrg_state) : res (Z * mrg_state) :=
  match fuel with
  | O => Fault OutOfFuel
  | S fuel =>
      '(val, st) ← mrg_get_uint_orig st;
      let val := u32 val in
      if val <? limit then redraw fuel limit st else Ok (val, st)
  end.

(** The noise level is 0, so [level] and [nlevels] are unused.  A rejection
    sequence is at most nine draws long (KroneckerProofs), hence the fuel. *)
Definition generate_4way_bernoulli (st : mrg_state) (level nlevels : Z)
    : res (Z * mrg_state) :=
  let limit := 2147483647 mod INITIATOR_DENOMINATOR in
  '(val, st) ← mrg_get_uint_orig st;
  let val := u32 val in
  '(val, st) ← (if val <? limit then redraw 9 limit st else Ok (val, st));
  let spk_noise_factor := 0 in
  let adjusted_bc_numerator := u32 (INITIATOR_BC_NUMERATOR + spk_noise_factor) in
  let val := val mod INITIATOR_DENOMINATOR in
  if val <? adjusted_bc_numerator then Ok (1, st)
  else
    let val := u32 (val - adjusted_bc_numerator) in
    if val <? adjusted_bc_numerator then Ok (2, st)
    else
      let val := u32 (val - adjusted_bc_numerator) in
      if val <? INITIATOR_A_NUMERATOR then Ok (0, st) else Ok (3, st).

(** The descent [while (nverts > 1)]; returns the two base vertices. *)
Fixpoint make_one_edge_loop (fuel : nat) (nverts level lgN base_src base_tgt : Z)
    (st : mrg_state) : res (Z * Z * mrg_state) :=
  if 1 <? nverts then
    match fuel with
    | O => Fault OutOfFuel
    | S fuel =>
        '(square, st) ← generate_4way_bernoulli st level lgN;
        let src_offset := Z.quot square 2 in
        let tgt_offset := Z.rem square 2 in
        _ ← check (base_src <=? base_tgt) AssertFailed;
        let '(src_offset, tgt_offset) :=
          if (base_src =? base_tgt) && (tgt_offset <? src_offset)
          then (tgt_offset, src_offset) else (src_offset, tgt_offset) in
        let nverts := Z.quot nverts 2 in
        make_one_edge_loop fuel nverts (level + 1) lgN
          (base_src + nverts * src_offset) (base_tgt + nverts * tgt_offset) st
    end
  else Ok (base_src, base_tgt, st).

(** [nverts] is an [int64_t]: 63 halvings suffice. *)
Definition make_one_edge (nverts level lgN : Z) (st : mrg_state) (val0 val1 : Z)
    : res Plain.packed_edge :=
  '(base_src, base_tgt, _) ← make_one_edge_loop 63 nverts level lgN 0 0 st;
  s ← scramble base_src lgN val0 val1;
  t ← scramble base_tgt lgN val0 val1;
  Ok (Plain.write_edge s t).

(** The two values the scrambling is keyed by. *)
Definition scramble_values (state : mrg_state) : res (Z * Z) :=
  new_state ← mrg_skip table state 50 7 0;
  '(x, new_state) ← mrg_get_uint_orig new_state;
  let val0 := u64 (x * 4294967295) in
  '(x, new_state) ← mrg_get_uint_orig new_state;
  let val0 := u64 (val0 + x) in
  '(x, new_state) ← mrg_get_uint_orig new_state;
  let val1 := u64 (x * 4294967295) in
  '(x, _) ← mrg_get_uint_orig new_state;
  let val1 := u64 (val1 + x) in
  Ok (val0, val1).

(** Fills [edges[0 .. end_edge - start_edge)]. *)
Definition generate_kronecker_range (seed : list Z) (logN start_edge end_edge : Z)
    (edges : list Plain.packed_edge) : res (list Plain.packed_edge) :=
  let nverts := Z.shiftl 1 logN in
  state ← mrg_seed seed;
  '(val0, val1) ← scramble_values state;
  for_range start_edge end_edge (fun ei edges =>
    new_state ← mrg_skip table state 0 (u64 ei) 0;
    e ← make_one_edge nverts 0 logN new_state val0 val1;
    awrite edges (ei - start_edge) e) edges.

(** The array comes from [xmalloc]; its initial contents are unspecified. *)
Definition make_graph (log_numverts M userseed1 userseed2 : Z)
    (fresh : list Plain.packed_edge) : res (list Plain.packed_edge) :=
  let seed := make_mrg_seed userseed1 userseed2 in
  generate_kronecker_range seed log_numverts 0 M fresh.
End kronecker.

(** The share of the edges one MPI rank generates. *)
Definition compute_edge_range (rank size M : Z) : Z * Z :=
  let rankc := rank in
  let sizec := size in
  let q := Z.quot M sizec in
  let r := Z.rem M sizec in
  (rankc * q + (if rankc <? r then rankc else r),
   (rankc + 1) * q + (if rankc + 1 <? r then rankc + 1 else r)).
