(* ===== verification/KroneckerProofs.v ===== *)
(** Lemmas on the edge generator: nonzero states, the length of rejection
    sequences, the descent to an edge, bit reversal and scrambling. *)
From S2P Require Import Prelude ModArith Mrg MrgProofs MrgTable MrgSkip Kronecker.
From stdpp Require Import base numbers list.
From Stdlib Require Import ZArith Zdiv Lia.
Open Scope Z_scope.

(** ** Nonzero states *)

Definition st_zero (z : mrg_state) : Prop :=
  z1 z = 0 /\ z2 z = 0 /\ z3 z = 0 /\ z4 z = 0 /\ z5 z = 0.

(** Reduced and not all zero: what [mrg_seed] asks of a seed. *)
Definition st_good (z : mrg_state) : Prop := st_ok z /\ ~ st_zero z.

(** The multiplier y is invertible. *)
Lemma mul_y_zero z : reduced z -> (z * MRG_Y) mod P31 = 0 -> z = 0.
Proof.
  intros Hz H. apply (eqp_reduced z 0); [done|by unfold reduced, P31|].
  assert (eqp (z * MRG_Y) 0) as H0 by exact H.
  transitivity (z * MRG_Y * 1840344978).
  - transitivity (z * 1); [apply eqp_ring; ring|].
    rewrite <- Z.mul_assoc. apply Zmult_eqm; [reflexivity|]. vm_compute. reflexivity.
  - rewrite H0. reflexivity.
Qed.

Section ops.
Context {MO : ModOps} {ML : ModLaws MO}.

(** The value of one draw. *)
Definition draw (z : mrg_state) : Z := (z5 z * MRG_Y + (z1 z * MRG_X) mod P31) mod P31.

Definition shifted (z : mrg_state) : mrg_state :=
  MrgState (draw z) (z1 z) (z2 z) (z3 z) (z4 z).

Lemma mrg_orig_step_draw z : st_ok z -> mrg_orig_step z = Ok (shifted z).
Proof.
  intros (H1 & _ & _ & _ & H5). unfold mrg_orig_step.
  rewrite mod_mul_x_ok by done. cbn [mbind res_bind].
  rewrite mod_mac_y_ok by (try done; apply mod_reduced). done.
Qed.

Lemma shifted_good z : st_good z -> st_good (shifted z).
Proof.
  intros [(H1 & H2 & H3 & H4 & H5) Hz]. split.
  - unfold st_ok. simpl. split; [apply mod_reduced|done].
  - intros (E1 & E2 & E3 & E4 & E5). simpl in *. apply Hz.
    unfold st_zero. split_and!; try done.
    apply mul_y_zero; [done|]. unfold draw in E1. rewrite E2 in E1.
    change ((0 * MRG_X) mod P31) with 0 in E1. by rewrite Z.add_0_r in E1.
Qed.

Lemma mrg_get_uint_orig_draw z :
  st_good z -> mrg_get_uint_orig z = Ok (draw z, shifted z) /\ 0 <= draw z < P31.
Proof.
  intros [Hz _]. unfold mrg_get_uint_orig. rewrite mrg_orig_step_draw by done.
  split; [done|]. apply mod_reduced.
Qed.

Lemma mrg_steps_good n z : st_good z -> exists z', mrg_steps n z = Ok z' /\ st_good z'.
Proof.
  intros Hz. induction n as [|n (z' & E & Hz')]; simpl; [eauto|].
  rewrite E. simpl. rewrite mrg_orig_step_draw by apply Hz'.
  exists (shifted z'). split; [done|]. by apply shifted_good.
Qed.

Lemma mrg_skip_good z h m l :
  st_good z -> is_u64 h -> is_u64 m -> is_u64 l ->
  exists z', mrg_skip mrg_skip_matrices z h m l = Ok z' /\ st_good z'.
Proof.
  intros Hz Hh Hm Hl. rewrite mrg_skip_spec by (done || apply Hz). by apply mrg_steps_good.
Qed.
End ops.

(** ** Rejection *)

Definition LIMIT : Z := 3647.

(** Two small values five draws apart are followed by a small one only if both
    are zero: x is P31 / 20 but for a remainder of 7, so the product by x stays
    far from a multiple of P31 unless the product by y brings it back, and no
    multiple of y below LIMIT y does. *)
Lemma small_draw z :
  st_ok z -> z1 z < LIMIT -> z5 z < LIMIT -> draw z < LIMIT -> z1 z = 0 /\ z5 z = 0.
Proof.
  intros ([H1 _] & _ & _ & _ & [H5 _]) L1 L5 Ld. unfold LIMIT in *.
  unfold draw in Ld. rewrite Zplus_mod_idemp_r in Ld.
  set (a := z1 z) in *. set (b := z5 z) in *.
  pose proof (Z.mod_pos_bound (b * MRG_Y + a * MRG_X) P31 ltac:(done)) as Hn.
  pose proof (Z.div_mod (b * MRG_Y + a * MRG_X) P31 ltac:(done)) as Hdm.
  set (n := (b * MRG_Y + a * MRG_X) mod P31) in *.
  set (q := (b * MRG_Y + a * MRG_X) / P31) in *.
  unfold MRG_X, MRG_Y, P31 in *.
  pose proof (Z.div_mod a 20 ltac:(lia)) as Ha.
  pose proof (Z.mod_pos_bound a 20 ltac:(lia)) as Hr.
  set (k := a / 20) in *. set (r := a mod 20) in *.
  assert (b * 104480 + r * 107374182 - 7 * k = (q - k) * 2147483647 + n) as E by lia.
  assert (q - k = 0 \/ q - k = 1) as [Hq|Hq] by lia; rewrite Hq in E; [lia|].
  assert (r = 17 \/ r = 18 \/ r = 19) as [->|[->| ->]] by lia; lia.
Qed.

Definition shift_n (n : nat) (z : mrg_state) : mrg_state := Nat.iter n shifted z.

Lemma shift_n_good n z : st_good z -> st_good (shift_n n z).
Proof. intros. induction n as [|n IH]; simpl; [done|]. by apply shifted_good. Qed.

Lemma rejections_bounded z :
  st_good z -> exists k, (k < 9)%nat /\ LIMIT <= draw (shift_n k z).
Proof.
  intros Hz.
  destruct (decide (Exists (fun k => LIMIT <= draw (shift_n k z)) (seq 0 9))) as [Hex|Hno].
  { apply Exists_exists in Hex as (k & Hk%elem_of_seq & Hd). exists k. split; [lia|done]. }
  exfalso. apply not_Exists_Forall in Hno; [|apply _].
  assert (forall k, (k < 9)%nat -> draw (shift_n k z) < LIMIT) as Hs.
  { intros k Hk. rewrite Forall_forall in Hno. apply Z.nle_gt, Hno, elem_of_seq. lia. }
  assert (forall k, (k < 4)%nat -> draw (shift_n (k + 4) z) = 0 /\ draw (shift_n k z) = 0) as H0.
  { intros k Hk. pose proof (shift_n_good (k + 5) z Hz) as [Hok _].
    pose proof (small_draw (shift_n (k + 5) z) Hok) as H.
    replace (k + 5)%nat with (S (S (S (S (S k))))) in H by lia. simpl in H.
    replace (k + 4)%nat with (S (S (S (S k)))) by lia. apply H.
    - apply (Hs (S (S (S (S k))))). lia.
    - apply Hs. lia.
    - apply (Hs (S (S (S (S (S k)))))). lia. }
  destruct (shift_n_good 5 z Hz) as [_ Hnz]. apply Hnz.
  pose proof (H0 0%nat ltac:(lia)). pose proof (H0 1%nat ltac:(lia)).
  pose proof (H0 2%nat ltac:(lia)). pose proof (H0 3%nat ltac:(lia)).
  unfold st_zero. simpl in *. tauto.
Qed.

Section bernoulli.
Context {MO : ModOps} {ML : ModLaws MO}.

Lemma redraw_first fuel z k :
  st_good z -> (k < fuel)%nat -> LIMIT <= draw (shift_n k z) ->
  exists j, (j <= k)%nat /\ LIMIT <= draw (shift_n j z) /\
    (forall i, (i < j)%nat -> draw (shift_n i z) < LIMIT) /\
    redraw fuel LIMIT z = Ok (draw (shift_n j z), shift_n (S j) z).
Proof.
  induction fuel as [|fuel IH] in z, k |- *; intros Hz Hk Hd; [lia|].
  cbn [redraw]. destruct (mrg_get_uint_orig_draw z Hz) as [-> Hb]. cbn [mbind res_bind].
  unfold u32. rewrite wrap_small by (unfold P31 in *; lia).
  destruct (Z.ltb_spec (draw z) LIMIT) as [Hlt|Hge].
  - destruct k as [|k]; [simpl in Hd; lia|].
    assert (forall n, shift_n n (shifted z) = shift_n (S n) z) as Hsh
      by (intros n; unfold shift_n; by rewrite <- Nat.iter_succ_r).
    destruct (IH (shifted z) k (shifted_good z Hz)) as (j & Hj & Hjd & Hji & Hr); [lia| |].
    { by rewrite Hsh. }
    exists (S j). rewrite !Hsh in *. split; [lia|]. split; [done|]. split; [|done].
    intros [|i] Hi; [done|]. rewrite <- Hsh. apply Hji. lia.
  - exists 0%nat. split; [lia|]. split; [done|]. split; [intros; lia|done].
Qed.

Definition quadrant (val : Z) : Z :=
  let v := val mod 10000 in
  if v <? 1900 then 1 else if v <? 3800 then 2 else if v <? 9500 then 0 else 3.

(** The first draw at or above LIMIT, among the next nine, decides. *)
Lemma bernoulli_spec z level nlevels :
  st_good z ->
  exists j, (j < 9)%nat /\ LIMIT <= draw (shift_n j z) /\
    (forall i, (i < j)%nat -> draw (shift_n i z) < LIMIT) /\
    generate_4way_bernoulli z level nlevels =
      Ok (quadrant (draw (shift_n j z)), shift_n (S j) z).
Proof.
  intros Hz. destruct (rejections_bounded z Hz) as (k & Hk & Hd).
  destruct (redraw_first 9 z k Hz Hk Hd) as (j & Hj & Hjd & Hji & Hr).
  exists j. split; [lia|]. split; [done|]. split; [done|].
  unfold generate_4way_bernoulli. change (2147483647 mod INITIATOR_DENOMINATOR) with LIMIT.
  destruct (mrg_get_uint_orig_draw z Hz) as [Hg Hb]. rewrite Hg. cbn [mbind res_bind].
  assert (u32 (draw z) = draw z) as -> by (apply wrap_small; unfold P31 in *; lia).
  assert ((if draw z <? LIMIT then redraw 9 LIMIT (shifted z) else Ok (draw z, shifted z)) =
          Ok (draw (shift_n j z), shift_n (S j) z)) as ->.
  { destruct (Z.ltb_spec (draw z) LIMIT) as [Hlt|Hge].
    - destruct j as [|j]; [simpl in Hjd; lia|].
      assert (forall n, shift_n n (shifted z) = shift_n (S n) z) as Hsh
        by (intros n; unfold shift_n; by rewrite <- Nat.iter_succ_r).
      destruct (redraw_first 9 (shifted z) j (shifted_good z Hz)) as (j' & Hj' & Hjd' & Hji' & ->);
        [lia|by rewrite Hsh|]. rewrite !Hsh in *.
      assert (j' = j) as ->; [|done].
      destruct (decide (j' < j)%nat) as [Hlt'|]; [|lia].
      pose proof (Hji (S j') ltac:(lia)). lia.
    - destruct j as [|j]; [done|]. pose proof (Hji 0%nat ltac:(lia)) as H. simpl in H. lia. }
  cbn [mbind res_bind].
  pose proof (Z.mod_pos_bound (draw (shift_n j z)) 10000 ltac:(lia)) as Hm.
  unfold quadrant, INITIATOR_DENOMINATOR, INITIATOR_BC_NUMERATOR, INITIATOR_A_NUMERATOR.
  set (v := draw (shift_n j z) mod 10000) in *.
  change (u32 (1900 + 0)) with 1900. unfold u32.
  destruct (Z.ltb_spec v 1900); [done|]. rewrite (wrap_small _ (v - 1900)) by lia.
  destruct (Z.ltb_spec (v - 1900) 1900), (Z.ltb_spec v 3800); try lia; [done|].
  rewrite (wrap_small _ (v - 1900 - 1900)) by lia.
  destruct (Z.ltb_spec (v - 1900 - 1900) 5700), (Z.ltb_spec v 9500); try lia; done.
Qed.

Lemma quadrant_range v : 0 <= quadrant v <= 3.
Proof. unfold quadrant. repeat case_match; lia. Qed.

Lemma bernoulli_total z level nlevels :
  st_good z ->
  exists sq z', generate_4way_bernoulli z level nlevels = Ok (sq, z') /\ 0 <= sq <= 3 /\ st_good z'.
Proof.
  intros Hz. destruct (bernoulli_spec z level nlevels Hz) as (j & _ & _ & _ & ->).
  eexists _, _. split; [done|]. split; [apply quadrant_range|by apply shift_n_good].
Qed.
End bernoulli.

(** ** One edge *)

Section edge.
Context {MO : ModOps} {ML : ModLaws MO}.

(** From the square of side [2^k] with corner [(2^k a, 2^k b)], on or above
    the diagonal, the descent ends inside that square, on or above the diagonal. *)
Lemma make_one_edge_loop_spec k fuel level lgN a b z :
  st_good z -> (k <= fuel)%nat -> 0 <= a <= b ->
  exists s t z', make_one_edge_loop fuel (2 ^ Z.of_nat k) level lgN
      (2 ^ Z.of_nat k * a) (2 ^ Z.of_nat k * b) z = Ok (s, t, z') /\
    2 ^ Z.of_nat k * a <= s < 2 ^ Z.of_nat k * (a + 1) /\
    2 ^ Z.of_nat k * b <= t < 2 ^ Z.of_nat k * (b + 1) /\ s <= t /\ st_good z'.
Proof.
  induction k as [|k IH] in fuel, level, a, b, z |- *; intros Hz Hf Hab.
  { exists a, b, z. split.
    - change (2 ^ Z.of_nat 0) with 1. rewrite !Z.mul_1_l. by destruct fuel.
    - change (2 ^ Z.of_nat 0) with 1. split_and!; try lia; apply Hz. }
  destruct fuel as [|fuel]; [lia|].
  assert (2 ^ Z.of_nat (S k) = 2 * 2 ^ Z.of_nat k) as Hpow
    by (rewrite Nat2Z.inj_succ, Z.pow_succ_r by lia; done).
  assert (0 < 2 ^ Z.of_nat k) by (apply Z.pow_pos_nonneg; lia).
  cbn [make_one_edge_loop]. rewrite (proj2 (Z.ltb_lt 1 _)) by lia.
  destruct (bernoulli_total z level lgN Hz) as (sq & z' & -> & Hsq & Hz').
  cbn [mbind res_bind].
  rewrite (proj2 (Z.leb_le _ _)) by nia. cbn [check mbind res_bind].
  assert (Z.quot (2 ^ Z.of_nat (S k)) 2 = 2 ^ Z.of_nat k) as ->.
  { rewrite Hpow, Z.quot_div_nonneg, Z.mul_comm, Z.div_mul by lia. done. }
  assert (exists so to, (if (2 ^ Z.of_nat (S k) * a =? 2 ^ Z.of_nat (S k) * b) &&
      (Z.rem sq 2 <? Z.quot sq 2) then (Z.rem sq 2, Z.quot sq 2) else (Z.quot sq 2, Z.rem sq 2))
      = (so, to) /\ 0 <= so <= 1 /\ 0 <= to <= 1 /\ (a = b -> so <= to)) as (so & to & -> & Hso & Hto & Hd).
  { assert (0 <= Z.quot sq 2 <= 1 /\ 0 <= Z.rem sq 2 <= 1) as [Hq Hr] by dlia.
    destruct (Z.eqb_spec (2 ^ Z.of_nat (S k) * a) (2 ^ Z.of_nat (S k) * b)) as [Hd|Hd]; cbn [andb].
    - destruct (Z.ltb_spec (Z.rem sq 2) (Z.quot sq 2)); eexists _, _; split; try reflexivity; lia.
    - eexists _, _. split; [reflexivity|]. split; [lia|]. split; [lia|]. intros ->. by destruct Hd. }
  destruct (IH fuel (level + 1) (2 * a + so) (2 * b + to) z' Hz') as (s & t & z2 & Hl & Hs & Ht & Hst & Hz2);
    [lia|lia|].
  exists s, t, z2. split.
  - replace (2 ^ Z.of_nat (S k) * a + 2 ^ Z.of_nat k * so) with (2 ^ Z.of_nat k * (2 * a + so))
      by (rewrite Hpow; ring).
    replace (2 ^ Z.of_nat (S k) * b + 2 ^ Z.of_nat k * to) with (2 ^ Z.of_nat k * (2 * b + to))
      by (rewrite Hpow; ring). exact Hl.
  - rewrite Hpow. split_and!; try nia; apply Hz2.
Qed.
End edge.

(** ** Bit reversal *)

Definition below64 : list Z := seqZ 0 64.

Lemma below64_elem i : 0 <= i < 64 <-> i ∈ below64.
Proof. unfold below64. rewrite elem_of_seqZ. lia. Qed.

(** Two 64-bit words with the same bits are equal. *)
Lemma bits64_ext x y :
  is_u64 x -> is_u64 y -> (forall i, 0 <= i < 64 -> Z.testbit x i = Z.testbit y i) -> x = y.
Proof.
  intros Hx Hy H. apply Z.bits_inj'. intros i Hi.
  destruct (Z_lt_le_dec i 64); [apply H; lia|].
  assert (forall w, is_u64 w -> Z.testbit w i = false) as Hb.
  { intros w Hw. rewrite <- (u64_small w Hw). unfold u64, wrap. apply Z.mod_pow2_bits_high. lia. }
  by rewrite !Hb.
Qed.

Lemma u64_bit x i : 0 <= i < 64 -> Z.testbit (u64 x) i = Z.testbit x i.
Proof. intros. unfold u64, wrap. apply Z.mod_pow2_bits_low. lia. Qed.

Lemma u32_bit x i : 0 <= i -> Z.testbit (u32 x) i = (i <? 32) && Z.testbit x i.
Proof.
  intros. unfold u32, wrap. destruct (Z.ltb_spec i 32); simpl.
  - apply Z.mod_pow2_bits_low. lia.
  - apply Z.mod_pow2_bits_high. lia.
Qed.

(** The bit [swap64 k mask] puts at position [i] comes from position [i xor k]. *)
Definition swap_okb (width k mask : Z) : bool :=
  forallb (fun i => eqb (Z.testbit mask i) (negb (Z.testbit i (Z.log2 k))) &&
    eqb (if k <=? i then Z.testbit mask (i - k) else false) (Z.testbit i (Z.log2 k)) &&
    (Z.lxor i k =? (if Z.testbit i (Z.log2 k) then i - k else i + k)) &&
    (Z.lxor i k <? width) && (0 <=? Z.lxor i k))
    (seqZ 0 width).

Lemma swap_bit_gen width k mask x i :
  0 < k -> swap_okb width k mask = true -> 0 <= i < width ->
  Z.testbit (Z.lor (Z.land (Z.shiftr x k) mask) (Z.shiftl (Z.land x mask) k)) i =
    Z.testbit x (Z.lxor i k).
Proof.
  intros Hk Hok Hi. unfold swap_okb in Hok. rewrite forallb_forall in Hok.
  specialize (Hok i). rewrite <- list_elem_of_In, elem_of_seqZ in Hok. specialize (Hok ltac:(lia)).
  rewrite !andb_true_iff, !eqb_true_iff in Hok. destruct Hok as [[[[Hm Hm'] Hx] _] _].
  apply Z.eqb_eq in Hx. rewrite Hx, Z.lor_spec, Z.land_spec, Z.shiftr_spec, Z.shiftl_spec, Z.land_spec by lia.
  rewrite Hm. destruct (Z.testbit i (Z.log2 k)); simpl.
  - rewrite andb_false_r. simpl. destruct (k <=? i); [|done]. by rewrite Hm', andb_true_r.
  - rewrite andb_true_r. destruct (Z.leb_spec k i).
    + by rewrite Hm', andb_false_r, orb_false_r.
    + rewrite (Z.testbit_neg_r x (i - k)) by lia. simpl. by rewrite orb_false_r.
Qed.

Lemma swap64_bit k mask x i :
  0 < k -> swap_okb 64 k mask = true -> 0 <= i < 64 ->
  Z.testbit (swap64 k mask x) i = Z.testbit x (Z.lxor i k).
Proof.
  intros. unfold swap64. rewrite Z.lor_spec, u64_bit, <- Z.lor_spec by done.
  by apply (swap_bit_gen 64).
Qed.

Lemma swap32_bit k mask x i :
  0 < k -> swap_okb 32 k mask = true -> 0 <= i < 32 ->
  Z.testbit (swap32 k mask x) i = Z.testbit x (Z.lxor i k).
Proof.
  intros. unfold swap32. rewrite Z.lor_spec, u32_bit by lia.
  rewrite (proj2 (Z.ltb_lt i 32)) by lia. simpl. rewrite <- Z.lor_spec.
  by apply (swap_bit_gen 32).
Qed.

(** One byte moved from position [8 j] to [top - 8 j]. *)
Lemma byte_bit x j top i :
  0 <= i -> 0 <= j -> 0 <= top - 8 * j ->
  Z.testbit (Z.shiftl (Z.land (Z.shiftr x (8 * j)) 255) (top - 8 * j)) i =
    (top - 8 * j <=? i) && (i <? top - 8 * j + 8) && Z.testbit x (i - (top - 8 * j) + 8 * j).
Proof.
  intros. rewrite Z.shiftl_spec by lia. change 255 with (Z.ones 8).
  destruct (Z.leb_spec (top - 8 * j) i); simpl; [|by rewrite Z.testbit_neg_r by lia].
  rewrite Z.land_spec, Z.shiftr_spec, Z.testbit_ones_nonneg, andb_comm by lia. f_equal. lia.
Qed.

(** Case analysis on a position in a word. *)
Ltac bit_cases i Hi :=
  apply below64_elem in Hi; unfold below64 in Hi; simpl in Hi;
  repeat (apply elem_of_cons in Hi as [->|Hi]; [|]); [..|by apply elem_of_nil in Hi].

Lemma bswap64_bit x i :
  0 <= i < 64 -> Z.testbit (bswap64 x) i = Z.testbit x (Z.lxor i 56).
Proof.
  intros Hi. unfold bswap64. cbn [foldr].
  rewrite !Z.lor_spec, !byte_bit, Z.bits_0 by lia.
  bit_cases i Hi; vm_compute (Z.lxor _ _); cbn -[Z.testbit];
    rewrite ?orb_false_r, ?orb_false_l; reflexivity.
Qed.

Lemma bswap32_bit x i :
  0 <= i < 32 -> Z.testbit (bswap32 x) i = Z.testbit x (Z.lxor i 24).
Proof.
  intros Hi. assert (i < 32) as Hlt by lia. unfold bswap32. cbn [foldr].
  rewrite !Z.lor_spec, !byte_bit, Z.bits_0 by lia.
  assert (0 <= i < 64) as Hi' by lia. clear Hi.
  bit_cases i Hi'; try lia; vm_compute (Z.lxor _ _); cbn -[Z.testbit];
    rewrite ?orb_false_r, ?orb_false_l; reflexivity.
Qed.

Lemma lxor_lt64 i k : 0 <= i < 64 -> 0 <= k < 64 -> 0 <= Z.lxor i k < 64.
Proof.
  intros Hi Hk. split; [by apply Z.lxor_nonneg; lia|].
  destruct (Z.eq_dec (Z.lxor i k) 0) as [->|]; [lia|].
  apply (Z.log2_lt_cancel _ 64). change (Z.log2 64) with 6.
  assert (0 <= Z.lxor i k) by (apply Z.lxor_nonneg; lia).
  eapply Z.le_lt_trans; [apply Z.log2_lxor; lia|].
  apply Z.max_lub_lt; [destruct (Z.eq_dec i 0) as [->|]|destruct (Z.eq_dec k 0) as [->|]];
    try (simpl; lia); apply Z.log2_lt_pow2; lia.
Qed.

Lemma lxor_lt32 i k : 0 <= i < 32 -> 0 <= k < 32 -> 0 <= Z.lxor i k < 32.
Proof.
  intros Hi Hk. split; [by apply Z.lxor_nonneg; lia|].
  destruct (Z.eq_dec (Z.lxor i k) 0) as [->|]; [lia|].
  apply (Z.log2_lt_cancel _ 32). change (Z.log2 32) with 5.
  eapply Z.le_lt_trans; [apply Z.log2_lxor; lia|].
  apply Z.max_lub_lt; [destruct (Z.eq_dec i 0) as [->|]|destruct (Z.eq_dec k 0) as [->|]];
    try (simpl; lia); apply Z.log2_lt_pow2; lia.
Qed.

(** Follows a position back through a chain of swaps. *)
Ltac follow_swaps :=
  repeat first
    [ rewrite swap64_bit by (first [lia | by vm_compute | by repeat apply lxor_lt64])
    | rewrite bswap64_bit by (by repeat apply lxor_lt64) ].

Lemma lxor63 i : 0 <= i < 64 -> Z.lxor i 63 = 63 - i.
Proof. intros Hi. by bit_cases i Hi. Qed.

Lemma lxor31 i : 0 <= i < 32 -> Z.lxor i 31 = 31 - i.
Proof.
  intros Hi. assert (i < 32) by lia. assert (0 <= i < 64) as Hi' by lia. clear Hi.
  bit_cases i Hi'; try lia; done.
Qed.

Lemma bitreverse_bit x i :
  0 <= i < 64 -> Z.testbit (bitreverse x) i = Z.testbit x (63 - i).
Proof.
  intros Hi. unfold bitreverse. follow_swaps.
  rewrite !Z.lxor_assoc. change (Z.lxor 1 (Z.lxor 2 (Z.lxor 4 56))) with 63. by rewrite lxor63.
Qed.

Lemma bitreverse_portable_bit x i :
  is_u64 x -> 0 <= i < 64 -> Z.testbit (bitreverse_portable x) i = Z.testbit x (63 - i).
Proof.
  intros Hx Hi. unfold bitreverse_portable. follow_swaps.
  set (j := Z.lxor _ 16). assert (0 <= j < 64) as Hj by (by repeat apply lxor_lt64).
  assert (Z.testbit (Z.lor (Z.shiftr x 32) (u64 (Z.shiftl x 32))) j = Z.testbit x (Z.lxor j 32)) as ->.
  { rewrite Z.lor_spec, u64_bit, Z.shiftr_spec, Z.shiftl_spec by lia.
    assert (forall n, 64 <= n -> Z.testbit x n = false) as Hhi.
    { intros n Hn. rewrite <- (u64_small x Hx). unfold u64, wrap. apply Z.mod_pow2_bits_high. lia. }
    clearbody j. assert (j + 32 < 64 \/ 64 <= j + 32) as [H|H] by lia.
    - rewrite (Z.testbit_neg_r x (j - 32)), orb_false_r by lia. f_equal.
      clear -H Hj. bit_cases j Hj; try lia; done.
    - rewrite (Hhi (j + 32)) by lia. simpl. f_equal.
      clear -H Hj. bit_cases j Hj; try lia; done. }
  subst j. rewrite !Z.lxor_assoc.
  change (Z.lxor 1 (Z.lxor 2 (Z.lxor 4 (Z.lxor 8 (Z.lxor 16 32))))) with 63. by rewrite lxor63.
Qed.

Lemma half_bit h i :
  0 <= i < 32 ->
  Z.testbit (swap32 1 0x55555555 (swap32 2 0x33333333 (swap32 4 0x0F0F0F0F (bswap32 h)))) i =
    Z.testbit h (31 - i).
Proof.
  intros Hi.
  rewrite !swap32_bit by (first [lia | by vm_compute | by repeat apply lxor_lt32]).
  rewrite bswap32_bit by (by repeat apply lxor_lt32).
  rewrite !Z.lxor_assoc. change (Z.lxor 1 (Z.lxor 2 (Z.lxor 4 24))) with 31. by rewrite lxor31.
Qed.

Lemma lor_bound n x y : 0 <= n -> 0 <= x < 2 ^ n -> 0 <= y < 2 ^ n -> 0 <= Z.lor x y < 2 ^ n.
Proof.
  intros Hn Hx Hy. split; [apply Z.lor_nonneg; lia|].
  assert (forall w, 0 <= w < 2 ^ n -> w / 2 ^ n = 0) as Hd by (intros; by apply Z.div_small).
  assert (0 <= Z.lor x y) as H0 by (apply Z.lor_nonneg; lia).
  assert (Z.shiftr (Z.lor x y) n = 0) as Hs.
  { by rewrite Z.shiftr_lor, !Z.shiftr_div_pow2, !Hd by lia. }
  rewrite Z.shiftr_div_pow2 in Hs by lia. apply Z.div_small_iff in Hs; lia.
Qed.

Lemma land_bound n x m : 0 <= n -> 0 <= m < 2 ^ n -> 0 <= Z.land x m < 2 ^ n.
Proof.
  intros Hn Hm. split; [apply Z.land_nonneg; lia|].
  eapply Z.le_lt_trans; [|apply Hm].
  apply Z.ldiff_le; [lia|]. apply Z.bits_inj'. intros i Hi.
  rewrite Z.ldiff_spec, Z.land_spec, Z.bits_0. destruct (Z.testbit x i), (Z.testbit m i); done.
Qed.

Lemma swap64_u64 k mask x : is_u64 mask -> is_u64 (swap64 k mask x).
Proof.
  intros Hm. apply (lor_bound 64); [lia|by apply land_bound|apply u64_range].
Qed.

Lemma swap32_u32 k mask x : 0 <= mask < 2 ^ 32 -> 0 <= swap32 k mask x < 2 ^ 32.
Proof.
  intros Hm. apply lor_bound; [lia|by apply land_bound|]. by apply wrap_range.
Qed.

Lemma bitreverse_u64 x : is_u64 (bitreverse x).
Proof. by apply swap64_u64. Qed.

Lemma bitreverse_32_bit x i :
  is_u64 x -> 0 <= i < 64 -> Z.testbit (bitreverse_32 x) i = Z.testbit x (63 - i).
Proof.
  intros Hx Hi. unfold bitreverse_32. cbv zeta.
  set (l := swap32 1 _ (swap32 2 _ (swap32 4 _ (bswap32 (u32 (Z.land _ _)))))).
  set (h := swap32 1 _ (swap32 2 _ (swap32 4 _ (bswap32 (u32 (Z.shiftr _ _)))))).
  rewrite Z.lor_spec, u64_bit, Z.shiftl_spec by lia.
  destruct (Z_lt_le_dec i 32).
  - rewrite (Z.testbit_neg_r l) by lia. simpl. unfold h. rewrite half_bit by lia.
    rewrite u32_bit, Z.shiftr_spec by lia. rewrite (proj2 (Z.ltb_lt _ _)) by lia. simpl. f_equal. lia.
  - assert (Z.testbit h i = false) as ->.
    { assert (0 <= h < 2 ^ 32) as Hh by (by apply swap32_u32).
      rewrite <- (wrap_small 32 h) by done. unfold wrap. apply Z.mod_pow2_bits_high. lia. }
    rewrite orb_false_r. unfold l. rewrite half_bit by lia.
    rewrite u32_bit by lia. change 4294967295 with (Z.ones 32).
    rewrite Z.land_spec, Z.testbit_ones_nonneg by lia.
    rewrite !(proj2 (Z.ltb_lt _ _)) by lia. simpl. rewrite andb_true_r. f_equal. lia.
Qed.

(** ** Scrambling *)

(** The low [n] bits of [v], reversed. *)
Definition low_reverse (n v : Z) : Z := Z.shiftr (bitreverse v) (64 - n).

Lemma low_reverse_range n v : 0 <= n <= 64 -> 0 <= low_reverse n v < 2 ^ n.
Proof.
  intros Hn. unfold low_reverse. pose proof (bitreverse_u64 v) as [H0 H1].
  rewrite Z.shiftr_div_pow2 by lia.
  assert (0 < 2 ^ (64 - n)) by (apply Z.pow_pos_nonneg; lia). split.
  - apply Z.div_pos; lia.
  - apply Z.div_lt_upper_bound; [lia|]. rewrite <- Z.pow_add_r by lia.
    by replace (64 - n + n) with 64 by lia.
Qed.

Lemma low_reverse_bit n v i :
  0 <= n <= 64 -> 0 <= i < n -> Z.testbit (low_reverse n v) i = Z.testbit v (n - 1 - i).
Proof.
  intros Hn Hi. unfold low_reverse. rewrite Z.shiftr_spec, bitreverse_bit by lia. f_equal. lia.
Qed.

Lemma low_reverse_inj n v w :
  0 <= n <= 64 -> low_reverse n v = low_reverse n w -> v mod 2 ^ n = w mod 2 ^ n.
Proof.
  intros Hn H. apply Z.bits_inj'. intros i Hi.
  destruct (Z_lt_le_dec i n) as [Hlt|]; [|by rewrite !Z.mod_pow2_bits_high by lia].
  rewrite !Z.mod_pow2_bits_low by lia.
  replace i with (n - 1 - (n - 1 - i)) by lia.
  rewrite <- !low_reverse_bit by lia. by rewrite H.
Qed.

Lemma odd_mul_inj n k v w :
  0 <= n <= 64 -> Z.odd k = true ->
  u64 (v * k) mod 2 ^ n = u64 (w * k) mod 2 ^ n -> v mod 2 ^ n = w mod 2 ^ n.
Proof.
  intros Hn Hk H. assert (0 < 2 ^ n) by (apply Z.pow_pos_nonneg; lia).
  assert (forall x, u64 x mod 2 ^ n = x mod 2 ^ n) as Hu.
  { intros x. unfold u64, wrap. apply Z.mod_mod_divide. exists (2 ^ (64 - n)).
    rewrite <- Z.pow_add_r by lia. f_equal. lia. }
  rewrite !Hu in H. apply Z.cong_iff_0 in H.
  assert ((2 ^ n | (v - w) * k)) as Hd
    by (apply Z.mod_divide; [lia|]; by rewrite <- H; f_equal; ring).
  rewrite Z.mul_comm in Hd. apply Z.gauss in Hd.
  - apply Z.cong_iff_0. apply Z.mod_divide; [lia|done].
  - apply (Z.coprime_pow_l 2 k n); [lia|]. unfold Z.coprime.
    apply Z.odd_spec in Hk as [q ->].
    replace (2 * q + 1) with (1 + q * 2) by ring. by rewrite Z.gcd_add_mult_diag_r.
Qed.

Section scrambling.
Context (n val0 val1 : Z) (Hn : 1 <= n <= 63).

Definition scrambled (v0 : Z) : Z :=
  low_reverse n (u64 (low_reverse n (u64 (u64 (u64 v0 + u64 (val0 + val1)) *
    Z.lor val0 0x4519840211493211)) * Z.lor val1 0x3050852102C843A5)).

Lemma shr64_low x : 0 <= x < 2 ^ n -> shr64 x n = Ok 0.
Proof.
  intros Hx. unfold shr64. rewrite decide_True by lia.
  by rewrite Z.shiftr_div_pow2, Z.div_small by lia.
Qed.

Lemma shr64_reverse x : shr64 (bitreverse x) (64 - n) = Ok (low_reverse n x).
Proof. unfold shr64. by rewrite decide_True by lia. Qed.

Lemma scramble_Ok v0 : scramble v0 n val0 val1 = Ok (scrambled v0).
Proof.
  unfold scramble, scrambled. cbv zeta. rewrite shr64_reverse. cbn [mbind res_bind].
  rewrite shr64_low by (apply low_reverse_range; lia). cbn [mbind res_bind check Z.eqb].
  rewrite shr64_reverse. cbn [mbind res_bind].
  rewrite shr64_low by (apply low_reverse_range; lia). done.
Qed.

Lemma odd_lor_1 v k : Z.odd k = true -> Z.odd (Z.lor v k) = true.
Proof. intros Hk. rewrite <- Z.bit0_odd, Z.lor_spec, !Z.bit0_odd, Hk. apply orb_true_r. Qed.

Lemma u64_mod_pow2 x : u64 x mod 2 ^ n = x mod 2 ^ n.
Proof.
  unfold u64, wrap. apply Z.mod_mod_divide. exists (2 ^ (64 - n)).
  rewrite <- Z.pow_add_r by lia. f_equal. lia.
Qed.

Lemma scrambled_inj v w :
  0 <= v < 2 ^ n -> 0 <= w < 2 ^ n -> scrambled v = scrambled w -> v = w.
Proof.
  intros Hv Hw H. unfold scrambled in H.
  apply low_reverse_inj in H; [|lia]. apply odd_mul_inj in H; [|lia|by apply odd_lor_1].
  rewrite !Z.mod_small in H by (apply low_reverse_range; lia).
  apply low_reverse_inj in H; [|lia]. apply odd_mul_inj in H; [|lia|by apply odd_lor_1].
  rewrite !u64_mod_pow2 in H.
  assert (forall x c, (u64 x + c) mod 2 ^ n = (x + c) mod 2 ^ n) as Hu.
  { intros x c. by rewrite <- Zplus_mod_idemp_l, u64_mod_pow2, Zplus_mod_idemp_l. }
  rewrite !Hu in H. apply Z.cong_iff_0 in H.
  replace (v + u64 (val0 + val1) - (w + u64 (val0 + val1))) with (v - w) in H by ring.
  apply Z.cong_iff_0 in H. by rewrite !Z.mod_small in H.
Qed.

Lemma scrambled_range v : 0 <= scrambled v < 2 ^ n.
Proof. apply low_reverse_range. lia. Qed.
End scrambling.

(** An injection of an initial segment into itself permutes it. *)
Lemma inj_permutation (f : Z -> Z) (m : Z) :
  (forall x, 0 <= x < m -> 0 <= f x < m) ->
  (forall x y, 0 <= x < m -> 0 <= y < m -> f x = f y -> x = y) ->
  f <$> seqZ 0 m ≡ₚ seqZ 0 m.
Proof.
  intros Hr Hi. apply submseteq_length_Permutation.
  - apply NoDup_submseteq.
    + apply NoDup_fmap_2_strong; [|apply NoDup_seqZ].
      intros x y Hx%elem_of_seqZ Hy%elem_of_seqZ. apply Hi; lia.
    + intros y (x & -> & Hx%elem_of_seqZ)%list_elem_of_fmap. apply elem_of_seqZ.
      pose proof (Hr x). lia.
  - by rewrite length_fmap.
Qed.

(** ** Seeds *)

Lemma field30_bound x : 0 <= Z.land x 1073741823 < 2 ^ 30.
Proof. change 1073741823 with (Z.ones 30). rewrite Z.land_ones by lia. by apply Z.mod_pos_bound. Qed.

Lemma make_mrg_seed_good u1 u2 :
  is_u64 u1 -> is_u64 u2 ->
  exists z, mrg_seed (make_mrg_seed u1 u2) = Ok z /\ st_good z /\
    0 < z1 z /\ 0 < z2 z /\ 0 < z3 z /\ 0 < z4 z /\ 0 < z5 z.
Proof.
  intros H1 H2. eexists. split; [reflexivity|].
  set (f1 := Z.land u1 1073741823). set (f2 := Z.land (Z.shiftr u1 30) 1073741823).
  set (f3 := Z.land u2 1073741823). set (f4 := Z.land (Z.shiftr u2 30) 1073741823).
  assert (0 <= f1 < 2 ^ 30 /\ 0 <= f2 < 2 ^ 30 /\ 0 <= f3 < 2 ^ 30 /\ 0 <= f4 < 2 ^ 30)
    as (? & ? & ? & ?) by (split_and!; apply field30_bound).
  assert (0 <= Z.shiftr u2 60 < 16 /\ 0 <= Z.shiftr u1 60 < 16) as [? ?].
  { unfold is_u64 in *. rewrite !Z.shiftr_div_pow2 by lia. dlia. }
  unfold u32, u64. rewrite Z.shiftl_mul_pow2 by lia.
  repeat match goal with |- context [wrap ?w ?x] => rewrite (wrap_small w x) by lia end.
  assert (forall a b c d e, 0 < a < P31 -> 0 < b < P31 -> 0 < c < P31 -> 0 < d < P31 -> 0 < e < P31 ->
    let z := MrgState a b c d e in
    st_good z /\ 0 < z1 z /\ 0 < z2 z /\ 0 < z3 z /\ 0 < z4 z /\ 0 < z5 z) as Hgood.
  { intros. simpl. split; [|lia]. split.
    - unfold st_ok, reduced. simpl. lia.
    - unfold st_zero. simpl. lia. }
  apply Hgood; unfold P31; lia.
Qed.

(** ** Ranges of edges *)

Section range.
Context {MO : ModOps} {ML : ModLaws MO}.

Lemma make_one_edge_total lgN z val0 val1 :
  1 <= lgN <= 62 -> st_good z ->
  exists e, make_one_edge (Z.shiftl 1 lgN) 0 lgN z val0 val1 = Ok e /\
    0 <= Plain.v0 e < 2 ^ lgN /\ 0 <= Plain.v1 e < 2 ^ lgN.
Proof.
  intros Hn Hz. unfold make_one_edge. rewrite Z.shiftl_1_l.
  destruct (make_one_edge_loop_spec (Z.to_nat lgN) 63 0 lgN 0 0 z Hz)
    as (s & t & z' & Hl & _); [lia..|].
  rewrite !Z.mul_0_r, Z2Nat.id in Hl by lia. rewrite Hl. cbn [mbind res_bind].
  rewrite !scramble_Ok by lia. cbn [mbind res_bind].
  eexists. split; [reflexivity|]. simpl. split; apply scrambled_range; lia.
Qed.

Lemma scramble_values_total z :
  st_good z -> exists p, scramble_values mrg_skip_matrices z = Ok p.
Proof.
  intros Hz. unfold scramble_values.
  destruct (mrg_skip_good z 50 7 0 Hz) as (s0 & -> & H0); [unfold is_u64; lia..|].
  cbn [mbind res_bind]. rewrite (proj1 (mrg_get_uint_orig_draw s0 H0)). cbn [mbind res_bind].
  apply shifted_good in H0. rewrite (proj1 (mrg_get_uint_orig_draw _ H0)). cbn [mbind res_bind].
  apply shifted_good in H0. rewrite (proj1 (mrg_get_uint_orig_draw _ H0)). cbn [mbind res_bind].
  apply shifted_good in H0. rewrite (proj1 (mrg_get_uint_orig_draw _ H0)). cbn [mbind res_bind].
  eauto.
Qed.

(** A loop that writes [f i] at [i - lo] fills a prefix. *)
Lemma fill_prefix {A} (f : Z -> A) lo hi (a : list A) :
  lo <= hi -> hi - lo <= zlen a ->
  for_range lo hi (fun i a => awrite a (i - lo) (f i)) a =
    Ok ((f <$> seqZ lo (hi - lo)) ++ drop (Z.to_nat (hi - lo)) a).
Proof.
  intros Hle Hlen.
  destruct (for_range_inv (fun i b => b = (f <$> seqZ lo (i - lo)) ++ drop (Z.to_nat (i - lo)) a)
              lo hi (fun i a => awrite a (i - lo) (f i)) a Hle) as (b & Hb & ->); [| |exact Hb].
  - by rewrite Z.sub_diag.
  - intros i b Hi ->. unfold zlen in Hlen. eexists. split.
    + apply awrite_in_bounds. unfold zlen.
      rewrite length_app, length_fmap, length_seqZ, length_drop. lia.
    + replace (i + 1 - lo) with (i - lo + 1) by lia.
      rewrite (seqZ_app lo (i - lo) 1) by lia. rewrite fmap_app, <- app_assoc. simpl.
      rewrite insert_app_r_alt by (rewrite length_fmap, length_seqZ; lia).
      rewrite length_fmap, length_seqZ. f_equal.
      replace (Z.to_nat (i - lo) - Z.to_nat (i - lo))%nat with 0%nat by lia.
      destruct (lookup_lt_is_Some_2 a (Z.to_nat (i - lo))) as [x Hx]; [lia|].
      rewrite (drop_S _ _ _ Hx). simpl. f_equal; [|f_equal; lia].
      replace (lo + (i - lo)) with i by lia. done.
Qed.

Lemma for_range_ext {St} lo hi (f g : Z -> St -> res St) s :
  (forall i s, lo <= i < hi -> f i s = g i s) -> for_range lo hi f s = for_range lo hi g s.
Proof.
  unfold for_range. intros H.
  assert (forall n i s, lo <= i -> i + Z.of_nat n <= Z.max lo hi -> for_n n i f s = for_n n i g s) as Hn.
  { induction n as [|n IH]; intros i s' Hi Hb; simpl; [done|].
    rewrite H by lia. destruct (g i s') as [s''|]; simpl; [|done]. apply IH; lia. }
  apply Hn; lia.
Qed.

Lemma generate_range_spec seed z logN :
  mrg_seed seed = Ok z -> st_good z -> 1 <= logN <= 62 ->
  exists edge, (forall ei, 0 <= ei < 2 ^ 63 ->
      0 <= Plain.v0 (edge ei) < 2 ^ logN /\ 0 <= Plain.v1 (edge ei) < 2 ^ logN) /\
    forall lo hi a, 0 <= lo <= hi -> hi <= 2 ^ 63 -> hi - lo <= zlen a ->
      generate_kronecker_range mrg_skip_matrices seed logN lo hi a =
        Ok ((edge <$> seqZ lo (hi - lo)) ++ drop (Z.to_nat (hi - lo)) a).
Proof.
  intros Hseed Hz Hn. destruct (scramble_values_total z Hz) as ([val0 val1] & Hv).
  set (body := fun ei => s ← mrg_skip mrg_skip_matrices z 0 (u64 ei) 0;
                         make_one_edge (Z.shiftl 1 logN) 0 logN s val0 val1).
  assert (forall ei, exists e, body ei = Ok e /\
    0 <= Plain.v0 e < 2 ^ logN /\ 0 <= Plain.v1 e < 2 ^ logN) as Hbody.
  { intros ei. unfold body.
    destruct (mrg_skip_good z 0 (u64 ei) 0 Hz) as (s & -> & Hs);
      [unfold is_u64; lia|apply u64_range|unfold is_u64; lia|].
    cbn [mbind res_bind]. by apply make_one_edge_total. }
  exists (fun ei => match body ei with Ok e => e | Fault _ => Plain.Edge 0 0 end). split.
  - intros ei _. destruct (Hbody ei) as (e & -> & He). exact He.
  - intros lo hi a Hlo Hhi Hlen. unfold generate_kronecker_range.
    rewrite Hseed. cbn [mbind res_bind]. rewrite Hv. cbn [mbind res_bind].
    rewrite <- fill_prefix by lia. apply for_range_ext. intros i s Hi.
    destruct (Hbody i) as (e & He & _). rewrite He. unfold body in He.
    destruct (mrg_skip mrg_skip_matrices z 0 (u64 i) 0) as [st|]; [|done].
    cbn [mbind res_bind] in *. by rewrite He.
Qed.
End range.
