(* ===== verification/GeneratorProps.v ===== *)
(** Properties of the Graph500 generator: skipping is stepping, the table is the
    generated one, rejection sampling ends within nine draws, bit reversal,
    scrambling permutes the vertices, and edge ranges are total, in range and
    independent of how the work is divided. *)
From S2P Require Import Prelude ModArith Mrg MrgProofs MrgTable MrgSkip Kronecker KroneckerProofs.
From stdpp Require Import base numbers list.
From Stdlib Require Import ZArith Zdiv Lia.
Open Scope Z_scope.

Section generator.
Context {MO : ModOps} {ML : ModLaws MO}.

(** C25: skipping ahead by a 192-bit exponent, one table lookup per byte, leaves
    the generator in the state that many single steps would, whatever the
    exponent and for either header of the modular arithmetic: no assertion
    fires and no index leaves the table. *)
Theorem mrg_skip_is_steps z high middle low :
  st_ok z -> is_u64 high -> is_u64 middle -> is_u64 low ->
  exists z', mrg_skip mrg_skip_matrices z high middle low = Ok z' /\ st_ok z' /\
    mrg_steps (Z.to_nat (high * 2 ^ 128 + middle * 2 ^ 64 + low)) z = Ok z'.
Proof.
  intros Hz Hh Hm Hl. rewrite mrg_skip_spec by done.
  destruct (mrg_steps_ok (Z.to_nat (high * 2 ^ 128 + middle * 2 ^ 64 + low)) z Hz) as (z' & -> & ?).
  eauto.
Qed.

(** C30: the table of mrg_transitions.c is exactly what [dump_mrg_powers]
    generates, all 24 bytes of 256 matrices, the caches included. *)
Theorem mrg_table_is_generated : dump_mrg_powers = Ok mrg_skip_matrices.
Proof. apply table_generated. Qed.

(** a power of a transition matrix is the transition iterated: applying
    [mrg_power m e] is applying [m] (the matrix of [k] steps) [e] times over,
    for every [unsigned int] exponent. *)
Theorem mrg_power_is_iteration m k e z :
  pow_of m k -> 0 <= e < 2 ^ 32 -> st_ok z ->
  exists r, mrg_power m e = Ok r /\
    mrg_apply_transition r z = mrg_steps (k * Z.to_nat e) z.
Proof.
  intros Hm He Hz. destruct (mrg_power_spec m k e Hm He) as (r & Hr & Hp).
  exists r. split; [done|]. by apply mrg_apply_steps.
Qed.

(** C29: the rejection loop of the four-way choice ends: of any nine
    consecutive draws from a nonzero state one is at least the limit, the first
    such draw decides the quadrant, and the state stays reduced and nonzero. *)
Theorem bernoulli_terminates z level nlevels :
  st_good z ->
  exists j z', (j < 9)%nat /\ mrg_steps (S j) z = Ok z' /\ st_good z' /\
    LIMIT <= z1 z' /\
    (forall i, (0 < i <= j)%nat -> exists y, mrg_steps i z = Ok y /\ z1 y < LIMIT) /\
    generate_4way_bernoulli z level nlevels = Ok (quadrant (z1 z'), z').
Proof.
  intros Hz. destruct (bernoulli_spec z level nlevels Hz) as (j & Hj & Hd & Hi & Hb).
  assert (forall n, mrg_steps n z = Ok (shift_n n z)) as Hs.
  { induction n as [|n IH]; [done|]. cbn [mrg_steps]. rewrite IH. cbn [mbind res_bind].
    rewrite mrg_orig_step_draw by apply (shift_n_good n z Hz). done. }
  exists j, (shift_n (S j) z). split; [done|]. split; [apply Hs|].
  split; [by apply shift_n_good|]. split; [exact Hd|]. split; [|exact Hb].
  intros i Hij. exists (shift_n i z). split; [apply Hs|].
  destruct i as [|i]; [lia|]. apply Hi. lia.
Qed.
End generator.

(** The quadrant of every accepted value: between the limit and the modulus each
    residue modulo the denominator occurs equally often, so the choice has no
    modulo bias. *)

(** there is no modulo bias: for every residue modulo 10000 exactly the
    values [limit + ((r - limit) mod 10000) + 10000 k], [k < 214748], are accepted
    with it, the same number for each residue, and the quadrant depends on the
    residue alone. *)
Theorem bernoulli_unbiased r v :
  0 <= r < INITIATOR_DENOMINATOR ->
  (LIMIT <= v < P31 /\ v mod INITIATOR_DENOMINATOR = r <->
   exists k, 0 <= k < 214748 /\
     v = LIMIT + (r - LIMIT) mod INITIATOR_DENOMINATOR + INITIATOR_DENOMINATOR * k) /\
  quadrant v = quadrant (v mod INITIATOR_DENOMINATOR).
Proof.
  unfold INITIATOR_DENOMINATOR, LIMIT, P31. intros Hr. split.
  - split.
    + intros [Hv Hm]. exists ((v - 3647) / 10000). dlia.
    + intros (k & Hk & ->). dlia.
  - unfold quadrant. by rewrite Z.mod_mod by lia.
Qed.

(** the three implementations of [bitreverse] (GCC byte swap, portable
    64-bit, 32-bit halves) agree on every 64-bit word, put bit [63 - i] at
    position [i], and are involutions. *)
Theorem bitreverse_variants x :
  is_u64 x ->
  bitreverse x = bitreverse_portable x /\ bitreverse x = bitreverse_32 x /\
  is_u64 (bitreverse x) /\
  (forall i, 0 <= i < 64 -> Z.testbit (bitreverse x) i = Z.testbit x (63 - i)) /\
  bitreverse (bitreverse x) = x.
Proof.
  intros Hx.
  assert (is_u64 (bitreverse_portable x)) by (by apply swap64_u64).
  assert (is_u64 (bitreverse_32 x)).
  { apply (lor_bound 64); [lia|apply u64_range|].
    assert (forall m y, 0 <= m < 2 ^ 32 -> 0 <= swap32 1 m y < 2 ^ 64) as Hb.
    { intros m y Hm. pose proof (swap32_u32 1 m y Hm). lia. }
    by apply Hb. }
  split_and!; try apply bitreverse_u64.
  - apply bits64_ext; [apply bitreverse_u64|done|]. intros i Hi.
    by rewrite bitreverse_bit, bitreverse_portable_bit.
  - apply bits64_ext; [apply bitreverse_u64|done|]. intros i Hi.
    by rewrite bitreverse_bit, bitreverse_32_bit.
  - intros i Hi. by apply bitreverse_bit.
  - apply bits64_ext; [apply bitreverse_u64|done|]. intros i Hi.
    rewrite !bitreverse_bit by lia. f_equal. lia.
Qed.

(** scrambling permutes the vertices: for any two keys and any scale from 1
    to 63 it returns without an assertion firing, stays within the [2^lgN]
    vertices, and sends them to a permutation of themselves. *)
Theorem scramble_permutes lgN val0 val1 :
  1 <= lgN <= 63 ->
  exists f, (forall v0, scramble v0 lgN val0 val1 = Ok (f v0)) /\
    f <$> seqZ 0 (2 ^ lgN) ≡ₚ seqZ 0 (2 ^ lgN).
Proof.
  intros Hn. exists (scrambled lgN val0 val1). split.
  - intros v0. by apply scramble_Ok.
  - apply inj_permutation.
    + intros x _. by apply scrambled_range.
    + intros x y Hx Hy. by apply scrambled_inj.
Qed.

(** ** Edge ranges *)

Section ranges.
Context {MO : ModOps} {ML : ModLaws MO}.

(** C26: generating a graph is total, in range and independent of the division
    of the work.  For any user seeds and any scale from 1 to 62 there is one
    edge per index, both endpoints below [2^scale], and generating any range
    [lo, hi) writes exactly those edges in order at the front of the array and
    leaves the rest of it alone: every assertion holds and no access leaves
    the array.  [make_graph] is the range from 0. *)
Theorem kronecker_ranges u1 u2 scale :
  is_u64 u1 -> is_u64 u2 -> 1 <= scale <= 62 ->
  exists edge,
    (forall ei, 0 <= ei < 2 ^ 63 ->
      0 <= Plain.get_v0_from_edge (edge ei) < 2 ^ scale /\
      0 <= Plain.get_v1_from_edge (edge ei) < 2 ^ scale) /\
    (forall lo hi a, 0 <= lo <= hi -> hi <= 2 ^ 63 -> hi - lo <= zlen a ->
      generate_kronecker_range mrg_skip_matrices (make_mrg_seed u1 u2) scale lo hi a =
        Ok ((edge <$> seqZ lo (hi - lo)) ++ drop (Z.to_nat (hi - lo)) a)) /\
    (forall a, zlen a < 2 ^ 63 ->
      make_graph mrg_skip_matrices scale (zlen a) u1 u2 a = Ok (edge <$> seqZ 0 (zlen a))).
Proof.
  intros H1 H2 Hn. destruct (make_mrg_seed_good u1 u2 H1 H2) as (z & Hseed & Hz & _).
  destruct (generate_range_spec _ z scale Hseed Hz Hn) as (edge & He & Hg).
  exists edge. split; [exact He|]. split; [exact Hg|]. intros a Ha. unfold make_graph.
  pose proof (zlen_nonneg a). rewrite Hg by lia. rewrite Z.sub_0_r. unfold zlen.
  by rewrite drop_ge, app_nil_r by lia.
Qed.
End ranges.

(** the seeds made from two user numbers are what [mrg_seed] asks for: five
    nonzero values below 2^31 - 1. *)
Theorem make_mrg_seed_valid u1 u2 :
  is_u64 u1 -> is_u64 u2 ->
  exists z, mrg_seed (make_mrg_seed u1 u2) = Ok z /\
    Forall (fun x => 0 < x < P31) (make_mrg_seed u1 u2).
Proof.
  intros H1 H2. destruct (make_mrg_seed_good u1 u2 H1 H2) as (z & Hz & [Hok _] & Hpos).
  exists z. split; [done|]. destruct Hok as (? & ? & ? & ? & ?). unfold reduced in *.
  assert (make_mrg_seed u1 u2 = [z1 z; z2 z; z3 z; z4 z; z5 z]) as ->.
  { unfold mrg_seed in Hz. revert Hz. unfold make_mrg_seed. intros [= <-]. done. }
  repeat constructor; lia.
Qed.

(** the ranges of the MPI ranks partition the edges: rank 0 starts at 0, each
    rank starts where the one before ends, the last ends at M, and the shares
    differ by at most one. *)
Theorem compute_edge_range_partition size M :
  0 < size -> 0 <= M ->
  fst (compute_edge_range 0 size M) = 0 /\
  snd (compute_edge_range (size - 1) size M) = M /\
  (forall rank, 0 <= rank < size ->
     let '(s, e) := compute_edge_range rank size M in
     fst (compute_edge_range (rank + 1) size M) = e /\
     M / size <= e - s <= M / size + 1).
Proof.
  intros Hs HM. unfold compute_edge_range.
  rewrite Z.quot_div_nonneg, Z.rem_mod_nonneg by lia.
  pose proof (Z.div_mod M size ltac:(lia)) as Hdm.
  pose proof (Z.mod_pos_bound M size Hs) as Hm.
  set (q := M / size) in *. set (r := M mod size) in *. simpl. split_and!.
  - destruct (Z.ltb_spec 0 r); lia.
  - replace (size - 1 + 1) with size by lia. destruct (Z.ltb_spec size r); lia.
  - intros rank Hr. split; [done|].
    destruct (Z.ltb_spec rank r), (Z.ltb_spec (rank + 1) r); lia.
Qed.

(** ** Packed edges *)

Lemma lor_disjoint n a b : 0 <= n -> 0 <= a < 2 ^ n -> Z.lor a (b * 2 ^ n) = a + b * 2 ^ n.
Proof.
  intros Hn Ha.
  assert (Z.land a (b * 2 ^ n) = 0) as Hl.
  { apply Z.bits_inj'. intros i Hi. rewrite Z.land_spec, Z.bits_0.
    destruct (Z_lt_le_dec i n).
    - by rewrite Z.mul_pow2_bits_low, andb_false_r by lia.
    - rewrite <- (wrap_small n a) by done. unfold wrap. by rewrite Z.mod_pow2_bits_high by lia. }
  by rewrite <- Z.lxor_lor, <- Z.add_nocarry_lxor.
Qed.

Lemma packed_value x :
  - 2 ^ 47 <= x < 2 ^ 47 ->
  Z.lor (u32 x) (Z.shiftl (Packed.s16 (Z.land (Z.shiftr x 32) 65535)) 32) = x.
Proof.
  intros Hx. change 65535 with (Z.ones 16).
  rewrite Z.land_ones, Z.shiftr_div_pow2, Z.shiftl_mul_pow2 by lia.
  assert (Packed.s16 ((x / 2 ^ 32) mod 2 ^ 16) = x / 2 ^ 32) as -> by (unfold Packed.s16; dlia).
  rewrite lor_disjoint by (try lia; by apply wrap_range).
  unfold u32, wrap. pose proof (Z.div_mod x (2 ^ 32)). lia.
Qed.

(** the packed layout stores two 48-bit signed vertex numbers without loss:
    reading back what [write_edge] packed gives both numbers. *)
Theorem packed_edge_roundtrip x y :
  - 2 ^ 47 <= x < 2 ^ 47 -> - 2 ^ 47 <= y < 2 ^ 47 ->
  Packed.get_v0_from_edge (Packed.write_edge x y) = x /\
  Packed.get_v1_from_edge (Packed.write_edge x y) = y.
Proof.
  intros Hx Hy. unfold Packed.get_v0_from_edge, Packed.get_v1_from_edge, Packed.write_edge.
  cbn [Packed.v0_low Packed.v1_low Packed.high].
  assert (forall v, 0 <= Z.land (Z.shiftr v 32) 65535 < 2 ^ 16) as Hf
    by (intros; apply land_bound; lia).
  set (a := Z.land (Z.shiftr x 32) 65535). set (b := Z.land (Z.shiftr y 32) 65535).
  pose proof (Hf x : 0 <= a < _) as Ha. pose proof (Hf y : 0 <= b < _) as Hb.
  assert (u32 (Z.lor a (Z.shiftl b 16)) = a + b * 2 ^ 16) as ->.
  { rewrite Z.shiftl_mul_pow2 by lia.
    rewrite lor_disjoint by lia.
    apply wrap_small. lia. }
  assert (Z.land (a + b * 2 ^ 16) 65535 = a) as ->
    by (change 65535 with (Z.ones 16); rewrite Z.land_ones by lia; dlia).
  assert (Z.shiftr (a + b * 2 ^ 16) 16 = b) as -> by (rewrite Z.shiftr_div_pow2 by lia; dlia).
  split; by apply packed_value.
Qed.

(** ** Witnesses *)

#[local] Existing Instances Arith64.ops Arith64.laws.

Module Demo.
Definition state : mrg_state := MrgState 1 2 3 4 5.

Lemma state_ok : st_ok state.
Proof. unfold st_ok, reduced. simpl. unfold P31. lia. Qed.

Lemma state_good : st_good state.
Proof. split; [apply state_ok|]. unfold st_zero. simpl. lia. Qed.
End Demo.

Lemma mrg_skip_is_steps_witness :
  exists z', mrg_skip mrg_skip_matrices Demo.state 0 0 3 = Ok z' /\ mrg_steps 3 Demo.state = Ok z'.
Proof.
  destruct (mrg_skip_is_steps Demo.state 0 0 3 Demo.state_ok) as (z' & H1 & _ & H2);
    [unfold is_u64; lia..|].
  exists z'. split; [exact H1|exact H2].
Defined.

Lemma mrg_table_is_generated_witness : @dump_mrg_powers (Arith32.ops 32) = Ok mrg_skip_matrices.
Proof. apply (@mrg_table_is_generated (Arith32.ops 32)). apply Arith32.laws. lia. Defined.

Lemma mrg_power_is_iteration_witness :
  exists r, mrg_power MAT_A 5 = Ok r /\
    mrg_apply_transition r Demo.state = mrg_steps 5 Demo.state.
Proof.
  destruct (mrg_power_is_iteration MAT_A 1 5 Demo.state MAT_A_pow) as (r & H1 & H2);
    [lia|apply Demo.state_ok|]. exists r. split; [exact H1|exact H2].
Defined.

Lemma bernoulli_terminates_witness :
  is_ok (generate_4way_bernoulli Demo.state 0 4) = true.
Proof.
  destruct (bernoulli_terminates Demo.state 0 4 Demo.state_good) as (j & z' & _ & _ & _ & _ & _ & H).
  rewrite H. reflexivity.
Defined.

Lemma bernoulli_unbiased_witness :
  exists k, 0 <= k < 214748 /\ 23650 = LIMIT + (3650 - LIMIT) mod 10000 + 10000 * k.
Proof.
  apply (proj1 (proj1 (bernoulli_unbiased 3650 23650 ltac:(unfold INITIATOR_DENOMINATOR; lia)))).
  vm_compute. split; [split; discriminate || reflexivity|reflexivity].
Defined.

Lemma bitreverse_variants_witness : bitreverse (bitreverse 5) = 5.
Proof. apply bitreverse_variants. unfold is_u64. lia. Defined.

Lemma scramble_permutes_witness :
  exists f, (forall v0, scramble v0 3 11 13 = Ok (f v0)) /\ f <$> seqZ 0 8 ≡ₚ seqZ 0 8.
Proof. apply (scramble_permutes 3 11 13). lia. Defined.

Lemma kronecker_ranges_witness :
  exists edge, forall a, zlen a < 2 ^ 63 ->
    make_graph mrg_skip_matrices 4 (zlen a) 1 2 a = Ok (edge <$> seqZ 0 (zlen a)).
Proof.
  destruct (kronecker_ranges 1 2 4) as (edge & _ & _ & H); [unfold is_u64; lia..|lia|].
  exists edge. exact H.
Defined.

Lemma make_mrg_seed_valid_witness :
  exists z, mrg_seed (make_mrg_seed 0 (2 ^ 64 - 1)) = Ok z.
Proof.
  destruct (make_mrg_seed_valid 0 (2 ^ 64 - 1)) as (z & H & _); [unfold is_u64; lia..|].
  exists z. exact H.
Defined.

Lemma compute_edge_range_partition_witness : snd (compute_edge_range 2 3 10) = 10.
Proof. apply (compute_edge_range_partition 3 10); lia. Defined.

Lemma packed_edge_roundtrip_witness :
  Packed.get_v0_from_edge (Packed.write_edge (-5) 140737488355327) = -5.
Proof. apply (packed_edge_roundtrip (-5) 140737488355327); lia. Defined.
