(* ===== verification/BTree.v ===== *)
(** The B+ tree of src/workload/btree/btree1.c: nodes and records in slabs with
    free lists, search, insertion with splits, deletion with coalescing and
    redistribution, and printing.

    A [node *], [record *] or [void *] is an address, a [Z], 0 for NULL.  The
    two arrays of a node are owned by it and kept in its record; a freed array
    is the empty list, so that every later access is out of bounds.  The slots
    of a slab have consecutive addresses.  Output is the list of the items
    printed.  Whether [posix_memalign] finds memory is a parameter; so are the
    constants the program is compiled or started with. *)
From S2P Require Import Prelude.
From stdpp Require Import base numbers list gmap strings.
From Stdlib Require Import ZArith Lia.
Open Scope Z_scope.

Record record := Record {
  value : Z; r_next : Z; flags : Z; r_stats : Z }.

Record node := Node {
  pointers : list Z; keys : list Z; parent : Z; is_leaf : bool;
  num_keys : Z; n_stats : Z; n_next : Z }.

(** An item of output: a number, a pointer or a fixed text. *)
Inductive item := Num (z : Z) | Ptr (p : Z) | Text (s : string).

(** The global variables and the memory behind them; [brk] is the first address
    never handed out. *)
Record btree := BTree {
  nodes : gmap Z node;
  records : gmap Z record;
  brk : Z;
  free_nodes : Z;
  free_recs : Z;
  queue : Z;
  allocator_stat : Z;
  stdout : list item }.

Class BtConfig := {
  order : Z;
  verbose_output : bool;
  NODE_SLAB_GROW : Z;
  RECORD_SLAB_GROW : Z;
  (** is there a block with this alignment and size, after so many bytes? *)
  posix_memalign : Z -> Z -> Z -> bool }.

Definition CONFIG_LARGE_PAGE_SIZE : Z := 2 ^ 12.
Definition CONFIG_DEFAULT_ORDER : Z := 6.
Definition sizeof_node : Z := 56.
Definition sizeof_record : Z := 32.

(** The build of the repository, started without options. *)
Definition default_config (mem : Z -> Z -> Z -> bool) : BtConfig :=
  {| order := CONFIG_DEFAULT_ORDER; verbose_output := false;
     NODE_SLAB_GROW := 2 ^ 20; RECORD_SLAB_GROW := 2 ^ 20; posix_memalign := mem |}.

Definition zero_node : node := Node [] [] 0 false 0 0 0.
Definition zero_record : record := Record 0 0 0 0.
Definition empty_btree : btree := BTree ∅ ∅ 1 0 0 0 0 [].

(** ** Fields *)

Definition set_pointers v (n : node) := Node v (keys n) (parent n) (is_leaf n) (num_keys n) (n_stats n) (n_next n).
Definition set_keys v (n : node) := Node (pointers n) v (parent n) (is_leaf n) (num_keys n) (n_stats n) (n_next n).
Definition set_parent v (n : node) := Node (pointers n) (keys n) v (is_leaf n) (num_keys n) (n_stats n) (n_next n).
Definition set_is_leaf v (n : node) := Node (pointers n) (keys n) (parent n) v (num_keys n) (n_stats n) (n_next n).
Definition set_num_keys v (n : node) := Node (pointers n) (keys n) (parent n) (is_leaf n) v (n_stats n) (n_next n).
Definition set_n_next v (n : node) := Node (pointers n) (keys n) (parent n) (is_leaf n) (num_keys n) (n_stats n) v.
Definition set_value v (r : record) := Record v (r_next r) (flags r) (r_stats r).
Definition set_r_next v (r : record) := Record (value r) v (flags r) (r_stats r).
Definition set_r_stats v (r : record) := Record (value r) (r_next r) (flags r) v.

Definition wkey (i k : Z) (n : node) : res node :=
  ks ← awrite (keys n) i k; Ok (set_keys ks n).
Definition wptr (i p : Z) (n : node) : res node :=
  ps ← awrite (pointers n) i p; Ok (set_pointers ps n).

(** ** Computations on the memory *)

Definition B (A : Type) : Type := btree -> res (A * btree).

#[export] Instance B_ret : MRet B := fun A a s => Ok (a, s).
#[export] Instance B_bind : MBind B := fun A C k m s => '(a, s) ← m s; k a s.

Definition fail {A} (f : fault) : B A := fun _ => Fault f.
Definition lift {A} (r : res A) : B A := fun s => a ← r; Ok (a, s).
Definition gets {A} (g : btree -> A) : B A := fun s => Ok (g s, s).

Definition get_node (p : Z) : B node :=
  fun s => n ← of_option BadPointer (nodes s !! p); Ok (n, s).
Definition set_node (p : Z) (n : node) : B unit :=
  fun s => Ok (tt, BTree (<[p := n]> (nodes s)) (records s) (brk s) (free_nodes s)
                     (free_recs s) (queue s) (allocator_stat s) (stdout s)).
(** Statements that read and write one node only. *)
Definition on_node (p : Z) (f : node -> res node) : B unit :=
  n ← get_node p; n ← lift (f n); set_node p n.
Definition get_record (r : Z) : B record :=
  fun s => v ← of_option BadPointer (records s !! r); Ok (v, s).
Definition set_record (r : Z) (v : record) : B unit :=
  fun s => Ok (tt, BTree (nodes s) (<[r := v]> (records s)) (brk s) (free_nodes s)
                     (free_recs s) (queue s) (allocator_stat s) (stdout s)).
Definition set_free_nodes (p : Z) : B unit :=
  fun s => Ok (tt, BTree (nodes s) (records s) (brk s) p
                     (free_recs s) (queue s) (allocator_stat s) (stdout s)).
Definition set_free_recs (p : Z) : B unit :=
  fun s => Ok (tt, BTree (nodes s) (records s) (brk s) (free_nodes s)
                     p (queue s) (allocator_stat s) (stdout s)).
Definition set_queue (p : Z) : B unit :=
  fun s => Ok (tt, BTree (nodes s) (records s) (brk s) (free_nodes s)
                     (free_recs s) p (allocator_stat s) (stdout s)).
Definition emit (l : list item) : B unit :=
  fun s => Ok (tt, BTree (nodes s) (records s) (brk s) (free_nodes s)
                     (free_recs s) (queue s) (allocator_stat s) (stdout s ++ l)).

(** [for (i = lo; i < hi; i++) body] *)
Definition forB (lo hi : Z) (body : Z -> B unit) : B unit :=
  fun s => s ← for_range lo hi (fun i s => '(_, s) ← body i s; Ok s) s; Ok (tt, s).

Definition whenB (b : bool) (c : B unit) : B unit := if b then c else mret tt.

(** [while (cond(i)) i++] from [i = 0]; [n] bounds the indices [cond] can read. *)
Definition scan (n : nat) (cond : Z -> res bool) : res Z :=
  while_loop (S n) cond (fun i => Ok (i + 1)) 0.

Section btree.
Context `{BtConfig}.

(** ** Allocation *)

(** The block is zeroed; it is handed out as [cells] addresses. *)
Definition allocate (size alignment cells : Z) : B Z :=
  fun s =>
    if posix_memalign (allocator_stat s) alignment size
    then Ok (brk s, BTree (nodes s) (records s) (brk s + cells) (free_nodes s) (free_recs s)
                      (queue s) (u64 (allocator_stat s + size)) (stdout s))
    else Fault ExitFailure.

(** An array of 8-byte words. *)
Definition allocate_align64 (size : Z) : B (list Z) :=
  _ ← allocate size 64 0; mret (replicate (Z.to_nat (size / 8)) 0).

Definition cut (length : Z) : Z :=
  if length mod 2 =? 0 then length / 2 else length / 2 + 1.

Definition grow_nodes : B unit :=
  n ← allocate NODE_SLAB_GROW CONFIG_LARGE_PAGE_SIZE (NODE_SLAB_GROW / sizeof_node);
  forB 0 (NODE_SLAB_GROW / sizeof_node) (fun i =>
    free ← gets free_nodes;
    _ ← set_node (n + i) (set_n_next free zero_node);
    set_free_nodes (n + i)).

Definition alloc_node : B Z :=
  free ← gets free_nodes;
  _ ← whenB (free =? 0) grow_nodes;
  nd ← gets free_nodes;
  n ← get_node nd;
  _ ← set_free_nodes (n_next n);
  (* the memset clears as many bytes as a pointer has: the first field *)
  _ ← set_node nd (set_pointers [] n);
  mret nd.

Definition free_node (n : Z) : B unit :=
  free ← gets free_nodes;
  _ ← on_node n (fun v => Ok (set_n_next free v));
  set_free_nodes n.

Definition grow_records : B unit :=
  r ← allocate RECORD_SLAB_GROW CONFIG_LARGE_PAGE_SIZE (RECORD_SLAB_GROW / sizeof_record);
  forB 0 (RECORD_SLAB_GROW / sizeof_record) (fun i =>
    free ← gets free_recs;
    _ ← set_record (r + i) (set_r_next free zero_record);
    set_free_recs (r + i)).

Definition alloc_record : B Z :=
  free ← gets free_recs;
  _ ← whenB (free =? 0) grow_records;
  rec ← gets free_recs;
  r ← get_record rec;
  _ ← set_free_recs (r_next r);
  _ ← set_record rec zero_record;
  mret rec.

Definition free_record (r : Z) : B unit :=
  free ← gets free_recs;
  v ← get_record r;
  _ ← set_record r (set_r_next free v);
  set_free_recs r.

Definition make_record (v : Z) : B Z :=
  new_record ← alloc_record;
  r ← get_record new_record;
  _ ← set_record new_record (set_value v r);
  mret new_record.

Definition make_node : B Z :=
  new_node ← alloc_node;
  ks ← allocate_align64 (u64 (u64 (order - 1) * 8));
  _ ← on_node new_node (fun n => Ok (set_keys ks n));
  ps ← allocate_align64 (u64 (order * 8));
  _ ← on_node new_node (fun n =>
        Ok (set_n_next 0 (set_parent 0 (set_num_keys 0 (set_is_leaf false (set_pointers ps n))))));
  mret new_node.

Definition make_leaf : B Z :=
  leaf ← make_node;
  _ ← on_node leaf (fun n => Ok (set_is_leaf true n));
  mret leaf.

(** ** Search *)

(** The keys of a node, all but the last followed by a space. *)
Definition print_keys (n : node) : B unit :=
  '(i, out) ← lift (while_loop (S (S (length (keys n))))
      (fun '(i, _) => Ok (i <? u64 (num_keys n - 1)))
      (fun '(i, out) => k ← aread (keys n) i; Ok (i + 1, out ++ [Num k; Text " "]))
      (0, []));
  k ← lift (aread (keys n) i);
  emit (out ++ [Num k]).

(** The index of the child to descend into. *)
Definition child_index (n : node) (key : Z) : res Z :=
  scan (length (keys n)) (fun i =>
    if i <? num_keys n then k ← aread (keys n) i; Ok (k <=? key) else Ok false).

Fixpoint find_leaf_loop (fuel : nat) (c key : Z) (verbose : bool) : B Z :=
  match fuel with
  | O => fail OutOfFuel
  | S fuel =>
      n ← get_node c;
      if is_leaf n then
        _ ← whenB verbose (_ ← emit [Text "Leaf ["]; _ ← print_keys n; emit [Text "] ->\n"]);
        mret c
      else
        _ ← whenB verbose (_ ← emit [Text "["]; _ ← print_keys n; emit [Text "] "]);
        i ← lift (child_index n key);
        _ ← whenB verbose (emit [Num i; Text " ->\n"]);
        c ← lift (aread (pointers n) i);
        find_leaf_loop fuel c key verbose
  end.

(** Walks along the nodes are bounded by the number of addresses. *)
Definition walk_fuel (s : btree) : nat := Z.to_nat (brk s).

Definition find_leaf (root key : Z) (verbose : bool) : B Z :=
  if root =? 0 then _ ← whenB verbose (emit [Text "Empty tree.\n"]); mret root
  else fuel ← gets walk_fuel; find_leaf_loop fuel root key verbose.

(** The record and the leaf the search ended in. *)
Definition bt_find (root key : Z) (verbose : bool) : B (Z * Z) :=
  if root =? 0 then mret (0, 0) else
  leaf ← find_leaf root key verbose;
  n ← get_node leaf;
  i ← lift (scan (length (keys n)) (fun i =>
        if i <? num_keys n then k ← aread (keys n) i; Ok (negb (k =? key)) else Ok false));
  if i =? num_keys n then mret (0, leaf)
  else p ← lift (aread (pointers n) i); mret (p, leaf).

(** The walk along the leaves collects the entries up to [key_end] in the arrays
    of the caller; [i] is the index in the first leaf. *)
Fixpoint find_range_loop (fuel : nat) (n i key_end num_found : Z) (rk rp : list Z)
    : B (Z * list Z * list Z) :=
  if n =? 0 then mret (num_found, rk, rp) else
  match fuel with
  | O => fail OutOfFuel
  | S fuel =>
      nd ← get_node n;
      '(_, num_found, rk, rp) ← lift (while_loop (S (S (length (keys nd))))
          (fun '(i, _, _, _) => if i <? num_keys nd then k ← aread (keys nd) i; Ok (k <=? key_end) else Ok false)
          (fun '(i, num_found, rk, rp) =>
             k ← aread (keys nd) i; rk ← awrite rk num_found k;
             p ← aread (pointers nd) i; rp ← awrite rp num_found p;
             Ok (i + 1, num_found + 1, rk, rp))
          (i, num_found, rk, rp));
      next ← lift (aread (pointers nd) (u64 (order - 1)));
      find_range_loop fuel next 0 key_end num_found rk rp
  end.

Definition find_range (root key_start key_end : Z) (verbose : bool) (rk rp : list Z)
    : B (Z * list Z * list Z) :=
  n ← find_leaf root key_start verbose;
  if n =? 0 then mret (0, rk, rp) else
  nd ← get_node n;
  i ← lift (scan (length (keys nd)) (fun i =>
        if i <? num_keys nd then k ← aread (keys nd) i; Ok (k <? key_start) else Ok false));
  if i =? num_keys nd then mret (0, rk, rp) else
  fuel ← gets walk_fuel;
  find_range_loop fuel n i key_end 0 rk rp.

Definition find_and_print (root key : Z) (verbose : bool) : B unit :=
  '(r, _) ← bt_find root key verbose;
  if r =? 0 then emit [Text "Record not found under key "; Num key; Text ".\n"]
  else
    v ← get_record r;
    emit [Text "Record at "; Ptr r; Text " -- key "; Num key; Text ", value "; Num (value v); Text ".\n"].

Definition find_and_print_range (root key_start key_end : Z) (verbose : bool) : B unit :=
  let array_size := u64 (key_end - key_start + 1) in
  let arr := replicate (Z.to_nat array_size) 0 in
  '(num_found, rk, rp) ← find_range root key_start key_end verbose arr arr;
  if num_found =? 0 then emit [Text "None found.\n"]
  else
    forB 0 num_found (fun i =>
      k ← lift (aread rk i); p ← lift (aread rp i); v ← get_record p;
      emit [Text "Key: "; Num k; Text "   Location: "; Ptr p; Text "  Value: "; Num (value v); Text "\n"]).

(** ** Height and printing *)

Fixpoint height_loop (fuel : nat) (c h : Z) : B Z :=
  match fuel with
  | O => fail OutOfFuel
  | S fuel =>
      n ← get_node c;
      if is_leaf n then mret h
      else c ← lift (aread (pointers n) 0); height_loop fuel c (h + 1)
  end.

Definition height (root : Z) : B Z := fuel ← gets walk_fuel; height_loop fuel root 0.

Fixpoint path_to_root_loop (fuel : nat) (root c len : Z) : B Z :=
  if c =? root then mret len else
  match fuel with
  | O => fail OutOfFuel
  | S fuel => n ← get_node c; path_to_root_loop fuel root (parent n) (len + 1)
  end.

Definition path_to_root (root child : Z) : B Z :=
  fuel ← gets walk_fuel; path_to_root_loop fuel root child 0.

Fixpoint leftmost_leaf (fuel : nat) (c : Z) : B Z :=
  match fuel with
  | O => fail OutOfFuel
  | S fuel =>
      n ← get_node c;
      if is_leaf n then mret c else c ← lift (aread (pointers n) 0); leftmost_leaf fuel c
  end.

(** The entries of a node as they are printed. *)
Definition print_entries (n : node) : B unit :=
  forB 0 (num_keys n) (fun i =>
    _ ← whenB verbose_output (p ← lift (aread (pointers n) i); emit [Ptr p; Text " "]);
    k ← lift (aread (keys n) i);
    emit [Num k; Text " "]).

Fixpoint print_leaves_loop (fuel : nat) (c : Z) : B unit :=
  match fuel with
  | O => fail OutOfFuel
  | S fuel =>
      n ← get_node c;
      _ ← print_entries n;
      next ← lift (aread (pointers n) (u64 (order - 1)));
      _ ← whenB verbose_output (emit [Ptr next; Text " "]);
      if negb (next =? 0) then _ ← emit [Text " | "]; print_leaves_loop fuel next
      else emit [Text "\n"]
  end.

Definition print_leaves (root : Z) : B unit :=
  if root =? 0 then emit [Text "Empty tree.\n"] else
  fuel ← gets walk_fuel;
  c ← leftmost_leaf fuel root;
  print_leaves_loop fuel c.

(** The nodes waiting to be printed, linked by their [next] fields. *)
Fixpoint last_of_queue (fuel : nat) (c : Z) : B Z :=
  match fuel with
  | O => fail OutOfFuel
  | S fuel => n ← get_node c; if n_next n =? 0 then mret c else last_of_queue fuel (n_next n)
  end.

Definition enqueue (new_node : Z) : B unit :=
  q ← gets queue;
  if q =? 0 then
    _ ← set_queue new_node; on_node new_node (fun n => Ok (set_n_next 0 n))
  else
    fuel ← gets walk_fuel;
    c ← last_of_queue fuel q;
    _ ← on_node c (fun n => Ok (set_n_next new_node n));
    on_node new_node (fun n => Ok (set_n_next 0 n)).

Definition dequeue : B Z :=
  n ← gets queue;
  v ← get_node n;
  _ ← set_queue (n_next v);
  _ ← on_node n (fun n => Ok (set_n_next 0 n));
  mret n.

Fixpoint print_tree_loop (fuel : nat) (root rank : Z) : B unit :=
  q ← gets queue;
  if q =? 0 then emit [Text "\n"] else
  match fuel with
  | O => fail OutOfFuel
  | S fuel =>
      n ← dequeue;
      v ← get_node n;
      first ← (if parent v =? 0 then mret false else
                 p ← get_node (parent v); c ← lift (aread (pointers p) 0); mret (n =? c));
      rank ← (if first : bool then
                new_rank ← path_to_root root n;
                if negb (new_rank =? rank) then _ ← emit [Text "\n"]; mret new_rank else mret rank
              else mret rank);
      _ ← whenB verbose_output (emit [Text "("; Ptr n; Text ")"]);
      _ ← print_entries v;
      _ ← whenB (negb (is_leaf v)) (forB 0 (num_keys v + 1) (fun i =>
            c ← lift (aread (pointers v) i); enqueue c));
      _ ← whenB verbose_output (
            p ← lift (aread (pointers v) (if is_leaf v then u64 (order - 1) else num_keys v));
            emit [Ptr p; Text " "]);
      _ ← emit [Text "| "];
      print_tree_loop fuel root rank
  end.

Definition print_tree (root : Z) : B unit :=
  if root =? 0 then emit [Text "Empty tree.\n"] else
  _ ← set_queue 0;
  _ ← enqueue root;
  fuel ← gets walk_fuel;
  print_tree_loop fuel root 0.

(** ** Insertion *)

Definition get_left_index (par left : Z) : B Z :=
  p ← get_node par;
  lift (scan (length (pointers p)) (fun i =>
    if i <=? num_keys p then c ← aread (pointers p) i; Ok (negb (c =? left)) else Ok false)).

Definition insert_into_leaf (leaf key pointer : Z) : B Z :=
  _ ← on_node leaf (fun n =>
    insertion_point ← scan (length (keys n)) (fun i =>
      if i <? num_keys n then k ← aread (keys n) i; Ok (k <? key) else Ok false);
    n ← for_down (num_keys n) insertion_point (fun i n =>
      k ← aread (keys n) (i - 1); n ← wkey i k n;
      p ← aread (pointers n) (i - 1); wptr i p n) n;
    n ← wkey insertion_point key n;
    n ← wptr insertion_point pointer n;
    Ok (set_num_keys (u64 (num_keys n + 1)) n));
  mret leaf.

(** Copies [temp[i]] for [i] from [lo] below [hi] to the front of a node. *)
Definition fill_node (tp tk : list Z) (lo hi : Z) (n : node) : res node :=
  for_range lo hi (fun i n =>
    p ← aread tp i; n ← wptr (i - lo) p n;
    k ← aread tk i; n ← wkey (i - lo) k n;
    Ok (set_num_keys (u64 (num_keys n + 1)) n)) n.

(** Clears the pointers from [lo] below [hi]. *)
Definition clear_pointers (lo hi : Z) (n : node) : res node :=
  for_range lo hi (fun i n => wptr i 0 n) n.

(** Copies [src[i]], [i < n], leaving the slot [skip] of the destination free. *)
Definition copy_around (src : list Z) (n skip : Z) (dst : list Z) : res (list Z) :=
  '(dst, _) ← for_range 0 n (fun i '(dst, j) =>
     let j := if j =? skip then j + 1 else j in
     x ← aread src i; dst ← awrite dst j x; Ok (dst, j + 1)) (dst, 0);
  Ok dst.

(** Distributes the temporary arrays over a leaf and a new leaf to its right;
    returns the first key of the new leaf. *)
Definition split_leaf (temp_pointers temp_keys : list Z) (leaf new_leaf : Z) : B Z :=
  let split := cut (u64 (order - 1)) in
  _ ← on_node leaf (fun n => fill_node temp_pointers temp_keys 0 split (set_num_keys 0 n));
  _ ← on_node new_leaf (fill_node temp_pointers temp_keys split order);
  lf ← get_node leaf;
  next ← lift (aread (pointers lf) (u64 (order - 1)));
  _ ← on_node new_leaf (wptr (u64 (order - 1)) next);
  _ ← on_node leaf (wptr (u64 (order - 1)) new_leaf);
  _ ← on_node leaf (fun n => clear_pointers (num_keys n) (u64 (order - 1)) n);
  _ ← on_node new_leaf (fun n => clear_pointers (num_keys n) (u64 (order - 1)) n);
  lf ← get_node leaf;
  _ ← on_node new_leaf (fun n => Ok (set_parent (parent lf) n));
  nl ← get_node new_leaf;
  lift (aread (keys nl) 0).

Definition insert_into_leaf_after_splitting (insert_into_parent : Z -> Z -> Z -> Z -> B Z)
    (root leaf key pointer : Z) : B Z :=
  new_leaf ← make_leaf;
  temp_keys ← allocate_align64 (u64 ((order + 1) * 8));
  temp_pointers ← allocate_align64 (u64 ((order + 1) * 8));
  lf ← get_node leaf;
  insertion_index ← lift (scan (length (keys lf)) (fun i =>
    if i <? u64 (order - 1) then k ← aread (keys lf) i; Ok (k <? key) else Ok false));
  temp_keys ← lift (copy_around (keys lf) (num_keys lf) insertion_index temp_keys);
  temp_pointers ← lift (copy_around (pointers lf) (num_keys lf) insertion_index temp_pointers);
  temp_keys ← lift (awrite temp_keys insertion_index key);
  temp_pointers ← lift (awrite temp_pointers insertion_index pointer);
  new_key ← split_leaf temp_pointers temp_keys leaf new_leaf;
  insert_into_parent root leaf new_key new_leaf.

Definition insert_into_node (root n left_index key right : Z) : B Z :=
  _ ← on_node n (fun n =>
    n ← for_down (num_keys n) left_index (fun i n =>
      p ← aread (pointers n) i; n ← wptr (i + 1) p n;
      k ← aread (keys n) (i - 1); wkey i k n) n;
    n ← wptr (left_index + 1) right n;
    n ← wkey left_index key n;
    Ok (set_num_keys (u64 (num_keys n + 1)) n));
  mret root.

(** [child->parent = par] for the first [count] pointers of a node. *)
Definition adopt (n count par : Z) : B unit :=
  v ← get_node n;
  forB 0 count (fun i =>
    child ← lift (aread (pointers v) i);
    on_node child (fun c => Ok (set_parent par c))).

(** Distributes the temporary arrays over an inner node and a new node to its
    right, without the key between them, which is returned. *)
Definition split_inner (temp_pointers temp_keys : list Z) (old_node new_node : Z) : B Z :=
  let split := cut order in
  _ ← on_node old_node (fun n =>
        n ← fill_node temp_pointers temp_keys 0 (split - 1) (set_num_keys 0 n);
        p ← aread temp_pointers (split - 1); wptr (split - 1) p n);
  k_prime ← lift (aread temp_keys (split - 1));
  _ ← on_node new_node (fun n =>
        n ← fill_node temp_pointers temp_keys split order n;
        p ← aread temp_pointers order; wptr (order - split) p n);
  old ← get_node old_node;
  _ ← on_node new_node (fun n => Ok (set_parent (parent old) n));
  new ← get_node new_node;
  _ ← adopt new_node (num_keys new + 1) new_node;
  mret k_prime.

Definition insert_into_node_after_splitting (insert_into_parent : Z -> Z -> Z -> Z -> B Z)
    (root old_node left_index key right : Z) : B Z :=
  temp_pointers ← allocate_align64 (u64 ((order + 1) * 8));
  temp_keys ← allocate_align64 (u64 (order * 8));
  old ← get_node old_node;
  temp_pointers ← lift (copy_around (pointers old) (num_keys old + 1) (left_index + 1) temp_pointers);
  temp_keys ← lift (copy_around (keys old) (num_keys old) left_index temp_keys);
  temp_pointers ← lift (awrite temp_pointers (left_index + 1) right);
  temp_keys ← lift (awrite temp_keys left_index key);
  new_node ← make_node;
  k_prime ← split_inner temp_pointers temp_keys old_node new_node;
  insert_into_parent root old_node k_prime new_node.

Definition insert_into_new_root (left key right : Z) : B Z :=
  root ← make_node;
  _ ← on_node root (fun n =>
        n ← wkey 0 key n; n ← wptr 0 left n; n ← wptr 1 right n;
        Ok (set_parent 0 (set_num_keys (u64 (num_keys n + 1)) n)));
  _ ← on_node left (fun n => Ok (set_parent root n));
  _ ← on_node right (fun n => Ok (set_parent root n));
  mret root.

Fixpoint insert_into_parent (fuel : nat) (root left key right : Z) : B Z :=
  match fuel with
  | O => fail OutOfFuel
  | S fuel =>
      l ← get_node left;
      if parent l =? 0 then insert_into_new_root left key right else
      left_index ← get_left_index (parent l) left;
      p ← get_node (parent l);
      if num_keys p <? u64 (order - 1) then insert_into_node root (parent l) left_index key right
      else insert_into_node_after_splitting (insert_into_parent fuel) root (parent l) left_index key right
  end.

Definition start_new_tree (key pointer : Z) : B Z :=
  root ← make_leaf;
  _ ← on_node root (fun n =>
        n ← wkey 0 key n; n ← wptr 0 pointer n; n ← wptr (u64 (order - 1)) 0 n;
        Ok (set_num_keys (u64 (num_keys n + 1)) (set_parent 0 n)));
  mret root.

(** The cases of [insert] for a key that is not in the tree. *)
Definition insert_absent (root key record_pointer : Z) : B Z :=
  if root =? 0 then start_new_tree key record_pointer else
  leaf ← find_leaf root key false;
  lf ← get_node leaf;
  if num_keys lf <? u64 (order - 1) then
    _ ← insert_into_leaf leaf key record_pointer; mret root
  else
    fuel ← gets walk_fuel;
    insert_into_leaf_after_splitting (insert_into_parent fuel) root leaf key record_pointer.

Definition bt_insert (root key v : Z) : B Z :=
  '(record_pointer, _) ← bt_find root key false;
  if negb (record_pointer =? 0) then
    r ← get_record record_pointer;
    _ ← set_record record_pointer (set_value v r);
    mret root
  else
    record_pointer ← make_record v;
    insert_absent root key record_pointer.

(** ** Deletion *)

(** The index left of [n] in its parent, [2^64 - 1] when [n] is the first child. *)
Definition get_neighbor_index (n : Z) : B Z :=
  v ← get_node n;
  p ← get_node (parent v);
  i ← lift (scan (length (pointers p)) (fun i =>
        if i <=? num_keys p then c ← aread (pointers p) i; Ok (negb (c =? n)) else Ok false));
  if i <=? num_keys p then mret (u64 (i - 1)) else
  _ ← emit [Text "Search for nonexistent pointer to node in parent.\n"; Text "Node:  "; Num n; Text "\n"];
  fail ExitFailure.

Definition MINUS_ONE : Z := u64 (-1).

(** [a[i-1] = a[i]] for [i] from [lo] below [hi]. *)
Definition shift_down (lo hi : Z) (a : list Z) : res (list Z) :=
  for_range lo hi (fun i a => x ← aread a i; awrite a (i - 1) x) a.

Definition remove_entry_from_node (n key pointer : Z) : B Z :=
  _ ← on_node n (fun n =>
    i ← scan (length (keys n)) (fun i => k ← aread (keys n) i; Ok (negb (k =? key)));
    ks ← shift_down (i + 1) (num_keys n) (keys n);
    let n := set_keys ks n in
    let num_pointers := if is_leaf n then num_keys n else num_keys n + 1 in
    i ← scan (length (pointers n)) (fun i => p ← aread (pointers n) i; Ok (negb (p =? pointer)));
    ps ← shift_down (i + 1) num_pointers (pointers n);
    let n := set_num_keys (u64 (num_keys n - 1)) (set_pointers ps n) in
    if is_leaf n then clear_pointers (num_keys n) (u64 (order - 1)) n
    else clear_pointers (num_keys n + 1) order n);
  mret n.

Definition free_arrays (n : Z) : B unit :=
  _ ← on_node n (fun v => Ok (set_pointers [] (set_keys [] v)));
  free_node n.

Definition adjust_root (root : Z) : B Z :=
  r ← get_node root;
  if 0 <? num_keys r then mret root else
  new_root ← (if negb (is_leaf r) then
                new_root ← lift (aread (pointers r) 0);
                _ ← on_node new_root (fun n => Ok (set_parent 0 n));
                mret new_root
              else mret 0);
  _ ← free_arrays root;
  mret new_root.

(** Moves the entries of [n] behind those of [neighbor], the node to its left. *)
Definition merge_nodes (n neighbor k_prime : Z) : B unit :=
  nb ← get_node neighbor;
  let neighbor_insertion_index := num_keys nb in
  v ← get_node n;
  if negb (is_leaf v) then
    _ ← on_node neighbor (fun nb =>
          nb ← wkey neighbor_insertion_index k_prime nb;
          Ok (set_num_keys (u64 (num_keys nb + 1)) nb));
    v ← get_node n;
    let n_end := num_keys v in
    let i0 := neighbor_insertion_index + 1 in
    _ ← forB 0 n_end (fun j =>
          v ← get_node n;
          k ← lift (aread (keys v) j);
          p ← lift (aread (pointers v) j);
          _ ← on_node neighbor (fun nb =>
                nb ← wkey (i0 + j) k nb; nb ← wptr (i0 + j) p nb;
                Ok (set_num_keys (u64 (num_keys nb + 1)) nb));
          on_node n (fun v => Ok (set_num_keys (u64 (num_keys v - 1)) v)));
    v ← get_node n;
    p ← lift (aread (pointers v) n_end);
    _ ← on_node neighbor (wptr (i0 + n_end) p);
    nb ← get_node neighbor;
    adopt neighbor (num_keys nb + 1) neighbor
  else
    _ ← forB 0 (num_keys v) (fun j =>
          v ← get_node n;
          k ← lift (aread (keys v) j);
          p ← lift (aread (pointers v) j);
          on_node neighbor (fun nb =>
            nb ← wkey (neighbor_insertion_index + j) k nb;
            nb ← wptr (neighbor_insertion_index + j) p nb;
            Ok (set_num_keys (u64 (num_keys nb + 1)) nb)));
    v ← get_node n;
    p ← lift (aread (pointers v) (u64 (order - 1)));
    on_node neighbor (wptr (u64 (order - 1)) p).

Definition coalesce_nodes (delete_entry : Z -> Z -> Z -> Z -> B Z)
    (root n neighbor neighbor_index k_prime : Z) : B Z :=
  let '(n, neighbor) := if neighbor_index =? MINUS_ONE then (neighbor, n) else (n, neighbor) in
  _ ← merge_nodes n neighbor k_prime;
  v ← get_node n;
  root ← delete_entry root (parent v) k_prime n;
  _ ← free_arrays n;
  mret root.

(** The last entry of the left neighbour becomes the first of [n]. *)
Definition redistribute_left (n neighbor k_prime_index k_prime : Z) : B unit :=
  v ← get_node n;
  _ ← on_node n (fun v =>
        v ← (if negb (is_leaf v) then
               p ← aread (pointers v) (num_keys v); wptr (num_keys v + 1) p v
             else Ok v);
        for_down (num_keys v) 0 (fun i v =>
          k ← aread (keys v) (i - 1); v ← wkey i k v;
          p ← aread (pointers v) (i - 1); wptr i p v) v);
  nb ← get_node neighbor;
  if negb (is_leaf v) then
    p ← lift (aread (pointers nb) (num_keys nb));
    _ ← on_node n (wptr 0 p);
    _ ← on_node p (fun c => Ok (set_parent n c));
    _ ← on_node neighbor (fun nb => wptr (num_keys nb) 0 nb);
    _ ← on_node n (wkey 0 k_prime);
    nb ← get_node neighbor;
    k ← lift (aread (keys nb) (u64 (num_keys nb - 1)));
    on_node (parent v) (wkey k_prime_index k)
  else
    p ← lift (aread (pointers nb) (u64 (num_keys nb - 1)));
    _ ← on_node n (wptr 0 p);
    _ ← on_node neighbor (fun nb => wptr (u64 (num_keys nb - 1)) 0 nb);
    nb ← get_node neighbor;
    k ← lift (aread (keys nb) (u64 (num_keys nb - 1)));
    _ ← on_node n (wkey 0 k);
    on_node (parent v) (wkey k_prime_index k).

(** The first entry of the right neighbour becomes the last of [n]. *)
Definition redistribute_right (n neighbor k_prime_index k_prime : Z) : B unit :=
  v ← get_node n;
  nb ← get_node neighbor;
  _ ← (if is_leaf v then
         k ← lift (aread (keys nb) 0);
         p ← lift (aread (pointers nb) 0);
         _ ← on_node n (fun v => v ← wkey (num_keys v) k v; wptr (num_keys v) p v);
         k1 ← lift (aread (keys nb) 1);
         on_node (parent v) (wkey k_prime_index k1)
       else
         _ ← on_node n (fun v => wkey (num_keys v) k_prime v);
         p ← lift (aread (pointers nb) 0);
         _ ← on_node n (fun v => wptr (num_keys v + 1) p v);
         _ ← on_node p (fun c => Ok (set_parent n c));
         k ← lift (aread (keys nb) 0);
         on_node (parent v) (wkey k_prime_index k));
  on_node neighbor (fun nb =>
    let last := u64 (num_keys nb - 1) in
    nb ← for_range 0 last (fun i nb =>
      k ← aread (keys nb) (i + 1); nb ← wkey i k nb;
      p ← aread (pointers nb) (i + 1); wptr i p nb) nb;
    if negb (is_leaf v) then p ← aread (pointers nb) (last + 1); wptr last p nb
    else Ok nb).

Definition redistribute_nodes (root n neighbor neighbor_index k_prime_index k_prime : Z) : B Z :=
  _ ← (if negb (neighbor_index =? MINUS_ONE)
       then redistribute_left n neighbor k_prime_index k_prime
       else redistribute_right n neighbor k_prime_index k_prime);
  _ ← on_node n (fun v => Ok (set_num_keys (u64 (num_keys v + 1)) v));
  _ ← on_node neighbor (fun nb => Ok (set_num_keys (u64 (num_keys nb - 1)) nb));
  mret root.

Fixpoint delete_entry (fuel : nat) (root n key pointer : Z) : B Z :=
  match fuel with
  | O => fail OutOfFuel
  | S fuel =>
      n ← remove_entry_from_node n key pointer;
      if n =? root then adjust_root root else
      v ← get_node n;
      let min_keys := if is_leaf v then cut (u64 (order - 1)) else cut order - 1 in
      if min_keys <=? num_keys v then mret root else
      neighbor_index ← get_neighbor_index n;
      let k_prime_index := if neighbor_index =? MINUS_ONE then 0 else neighbor_index in
      p ← get_node (parent v);
      k_prime ← lift (aread (keys p) k_prime_index);
      neighbor ← lift (aread (pointers p)
                         (if neighbor_index =? MINUS_ONE then 1 else neighbor_index));
      let capacity := if is_leaf v then order else u64 (order - 1) in
      nb ← get_node neighbor;
      if u64 (num_keys nb + num_keys v) <? capacity
      then coalesce_nodes (delete_entry fuel) root n neighbor neighbor_index k_prime
      else redistribute_nodes root n neighbor neighbor_index k_prime_index k_prime
  end.

Definition bt_delete (root key : Z) : B Z :=
  '(key_record, key_leaf) ← bt_find root key false;
  if negb (key_record =? 0) && negb (key_leaf =? 0) then
    fuel ← gets walk_fuel;
    root ← delete_entry fuel root key_leaf key key_record;
    _ ← free_record key_record;
    mret root
  else mret root.
End btree.
