(* ===== verification/BTreeArrays.v ===== *)
(** Arrays and loops of the B+ tree: what each copying, shifting and searching
    loop of btree1.c does to an array, and the execution rules of the state
    monad of [BTree]. *)
From stdpp Require Import base numbers list gmap strings.
From Stdlib Require Import ZArith Lia.
From S2P Require Import Prelude BTree.
Open Scope Z_scope.

(** Lengths of lists built from others. *)
Ltac zl :=
  unfold zlen in *; rewrite ?length_app, ?length_fmap, ?length_replicate in *;
  cbn [length app fmap list_fmap] in *;
  rewrite ?length_app, ?length_fmap, ?length_replicate in *; cbn [length] in *; lia.

(** ** Reading and writing at a split point *)

Lemma aread_mid {A} (a b : list A) x i : i = zlen a -> aread (a ++ x :: b) i = Ok x.
Proof.
  intros ->. apply aread_Ok. unfold zlen. split; [lia|]. now rewrite Nat2Z.id, list_lookup_middle.
Qed.

Lemma awrite_mid {A} (a b : list A) x y i :
  i = zlen a -> awrite (a ++ x :: b) i y = Ok (a ++ y :: b).
Proof.
  intros ->. rewrite awrite_in_bounds by zl.
  unfold zlen. rewrite Nat2Z.id. f_equal.
  rewrite insert_app_r_alt by lia. now rewrite Nat.sub_diag.
Qed.

Lemma aread_0 {A} (b : list A) x : aread (x :: b) 0 = Ok x.
Proof. exact (aread_mid [] b x 0 eq_refl). Qed.

Lemma awrite_0 {A} (b : list A) x y : awrite (x :: b) 0 y = Ok (y :: b).
Proof. exact (awrite_mid [] b x y 0 eq_refl). Qed.

Lemma awrite_1 {A} (b : list A) a x y : awrite (a :: x :: b) 1 y = Ok (a :: y :: b).
Proof. exact (awrite_mid [a] b x y 1 eq_refl). Qed.

(** ** Loops on one array *)

(** [a[i] = a[i-1]] downwards moves a segment up by one. *)
Lemma shift_up (a b c : list Z) y hi lo :
  lo = zlen a -> hi = zlen (a ++ b) ->
  exists x, for_down hi lo (fun i l => x ← aread l (i - 1); awrite l i x) (a ++ b ++ y :: c)
            = Ok (a ++ x :: b ++ c).
Proof.
  intros -> ->.
  destruct (for_down_inv
    (fun i l => exists b1 b2 x, b = b1 ++ b2 /\ i = zlen (a ++ b1) /\ l = a ++ b1 ++ x :: b2 ++ c)
    (zlen (a ++ b)) (zlen a)
    (fun i l => x ← aread l (i - 1); awrite l i x) (a ++ b ++ y :: c)) as (l & -> & H).
  - zl.
  - exists b, [], y. now rewrite app_nil_r.
  - intros i l Hi (b1 & b2 & x & -> & -> & ->).
    destruct b1 as [|w b1' _] using rev_ind; [exfalso; zl|].
    exists (a ++ b1' ++ w :: w :: b2 ++ c). split.
    + rewrite <- app_assoc. cbn [app].
      rewrite app_assoc, aread_mid by zl. cbn [mbind res_bind].
      replace ((a ++ b1') ++ w :: x :: b2 ++ c) with ((a ++ b1' ++ [w]) ++ x :: b2 ++ c)
        by (now rewrite <- !app_assoc).
      rewrite awrite_mid by zl. f_equal. now rewrite <- !app_assoc.
    + exists b1', (w :: b2), w. rewrite <- app_assoc. split; [done|]. split; [zl|done].
  - destruct H as (b1 & b2 & x & -> & Hl & ->).
    destruct b1; [|exfalso; zl]. eauto.
Qed.

(** [a[i-1] = a[i]] upwards moves a segment down by one. *)
Lemma shift_down_spec (a b c : list Z) y lo hi :
  lo = zlen a + 1 -> hi = zlen (a ++ y :: b) ->
  exists x, shift_down lo hi (a ++ y :: b ++ c) = Ok (a ++ b ++ x :: c).
Proof.
  intros -> ->. unfold shift_down.
  destruct (for_range_inv
    (fun i l => exists b1 b2 x, b = b1 ++ b2 /\ i = zlen a + 1 + zlen b1 /\ l = a ++ b1 ++ x :: b2 ++ c)
    (zlen a + 1) (zlen (a ++ y :: b))
    (fun i l => x ← aread l i; awrite l (i - 1) x) (a ++ y :: b ++ c)) as (l & -> & H).
  - zl.
  - exists [], b, y. repeat split; zl.
  - intros i l Hi (b1 & b2 & x & -> & -> & ->).
    destruct b2 as [|w b2]; [exfalso; zl|].
    exists (a ++ b1 ++ w :: w :: b2 ++ c). split.
    + replace (a ++ b1 ++ x :: (w :: b2) ++ c) with ((a ++ b1 ++ [x]) ++ w :: b2 ++ c)
        by (now rewrite <- !app_assoc).
      rewrite aread_mid by zl. cbn [mbind res_bind].
      rewrite <- !app_assoc. cbn [app].
      rewrite app_assoc, awrite_mid by zl. now rewrite <- !app_assoc.
    + exists (b1 ++ [w]), b2, w. rewrite <- !app_assoc. split; [done|]. split; [zl|done].
  - destruct H as (b1 & b2 & x & -> & Hl & ->).
    destruct b2; [|exfalso; zl]. rewrite app_nil_r. eauto.
Qed.

(** [d[i - lo + off] = t[i]] copies a segment. *)
Lemma copy_segment (t0 t1 t2 d0 d1 d2 : list Z) (f : Z -> Z) lo hi :
  lo = zlen t0 -> hi = zlen (t0 ++ t1) -> length d1 = length t1 ->
  (forall i, lo <= i < hi -> f i = i - lo + zlen d0) ->
  for_range lo hi (fun i d => x ← aread (t0 ++ t1 ++ t2) i; awrite d (f i) x) (d0 ++ d1 ++ d2)
  = Ok (d0 ++ t1 ++ d2).
Proof.
  intros -> -> Hlen Hf.
  destruct (for_range_inv
    (fun i d => exists u1 u2 v, t1 = u1 ++ u2 /\ i = zlen (t0 ++ u1) /\ length v = length u2 /\
       d = d0 ++ u1 ++ v ++ d2)
    (zlen t0) (zlen (t0 ++ t1))
    (fun i d => x ← aread (t0 ++ t1 ++ t2) i; awrite d (f i) x) (d0 ++ d1 ++ d2)) as (d & -> & H).
  - zl.
  - exists [], t1, d1. repeat split; [zl|done].
  - intros i d Hi (u1 & u2 & v & -> & -> & Hv & ->).
    destruct u2 as [|x u2]; [exfalso; zl|]. destruct v as [|w v]; [discriminate|].
    exists (d0 ++ u1 ++ x :: v ++ d2). split.
    + replace (t0 ++ (u1 ++ x :: u2) ++ t2) with ((t0 ++ u1) ++ x :: u2 ++ t2)
        by (now rewrite <- !app_assoc).
      rewrite aread_mid by done. cbn [mbind res_bind app].
      rewrite app_assoc, awrite_mid; [now rewrite <- app_assoc|].
      rewrite Hf by done. zl.
    + exists (u1 ++ [x]), u2, v. rewrite <- !app_assoc. repeat split; [zl|zl].
  - destruct H as (u1 & u2 & v & -> & Hi & Hv & ->).
    destruct u2; [|exfalso; zl]. destruct v; [|discriminate]. now rewrite app_nil_r.
Qed.

(** [a[i] = 0] clears a segment. *)
Lemma clear_segment (a b c : list Z) lo hi :
  lo = zlen a -> hi = zlen (a ++ b) ->
  for_range lo hi (fun i l => awrite l i 0) (a ++ b ++ c) = Ok (a ++ replicate (length b) 0 ++ c).
Proof.
  intros -> ->.
  destruct (for_range_inv
    (fun i l => exists b1 b2, b = b1 ++ b2 /\ i = zlen (a ++ b1) /\
       l = a ++ replicate (length b1) 0 ++ b2 ++ c)
    (zlen a) (zlen (a ++ b)) (fun i l => awrite l i 0) (a ++ b ++ c)) as (d & -> & H).
  - zl.
  - exists [], b. repeat split; zl.
  - intros i l Hi (b1 & b2 & -> & -> & ->).
    destruct b2 as [|x b2]; [exfalso; zl|].
    exists (a ++ replicate (length b1) 0 ++ 0 :: b2 ++ c). split.
    + cbn [app]. rewrite app_assoc, awrite_mid by zl. now rewrite <- app_assoc.
    + exists (b1 ++ [x]), b2. rewrite <- !app_assoc, length_app, replicate_add, <- app_assoc.
      repeat split; zl.
  - destruct H as (b1 & b2 & -> & Hi & ->).
    destruct b2; [|exfalso; zl]. now rewrite app_nil_r.
Qed.

(** [copy_around] leaves one slot of the destination untouched. *)
Lemma copy_around_spec (s1 s2 s3 d1 d2 d3 : list Z) x n skip :
  n = zlen (s1 ++ s2) -> skip = zlen s1 -> length d1 = length s1 -> length d2 = length s2 ->
  copy_around (s1 ++ s2 ++ s3) n skip (d1 ++ x :: d2 ++ d3) = Ok (s1 ++ x :: s2 ++ d3).
Proof.
  intros -> -> Hd1 Hd2. unfold copy_around.
  match goal with |- context [for_range _ _ ?body _] =>
  destruct (for_range_inv
    (fun i '(d, j) => 
       (exists u1 u2 v, s1 = u1 ++ u2 /\ i = zlen u1 /\ j = i /\ length v = length u2 /\
          d = u1 ++ v ++ x :: d2 ++ d3) \/
       (exists u1 u2 v, s2 = u1 ++ u2 /\ i = zlen (s1 ++ u1) /\ j = i + 1 /\ u1 <> [] /\ length v = length u2 /\
          d = s1 ++ x :: u1 ++ v ++ d3))
    0 (zlen (s1 ++ s2)) body (d1 ++ x :: d2 ++ d3, 0)) as ([d j] & -> & H) end.
  - zl.
  - left. exists [], s1, d1. auto.
  - intros i [d j] Hi [(u1 & u2 & v & Hs & -> & -> & Hv & ->) | (u1 & u2 & v & Hs & -> & -> & Hne & Hv & ->)].
    + destruct u2 as [|y u2].
      * destruct v; [|discriminate]. rewrite app_nil_r in Hs. subst u1.
        rewrite Z.eqb_refl.
        destruct s2 as [|y s2]; [exfalso; zl|]. destruct d2 as [|z d2]; [discriminate|].
        exists (s1 ++ x :: y :: d2 ++ d3, zlen s1 + 1 + 1). split.
        -- cbn [app]. rewrite aread_mid by done. cbn [mbind res_bind].
           replace (s1 ++ x :: z :: d2 ++ d3) with ((s1 ++ [x]) ++ z :: d2 ++ d3) by (now rewrite <- app_assoc).
           rewrite awrite_mid by zl. cbn [mbind res_bind]. now rewrite <- app_assoc.
        -- right. exists [y], s2, d2. repeat split; [zl|done|]. injection Hd2; auto.
      * destruct v as [|w v]; [discriminate|]. subst s1.
        destruct (Z.eqb_spec (zlen u1) (zlen (u1 ++ y :: u2))) as [He|_]; [exfalso; zl|].
        exists (u1 ++ y :: v ++ x :: d2 ++ d3, zlen u1 + 1). split.
        -- rewrite <- !app_assoc. cbn [app]. rewrite aread_mid by done. cbn [mbind res_bind].
           now rewrite awrite_mid.
        -- left. exists (u1 ++ [y]), u2, v. rewrite <- !app_assoc. repeat split; zl.
    + destruct u2 as [|y u2]; [exfalso; subst; zl|]. destruct v as [|w v]; [discriminate|]. subst s2.
      destruct (Z.eqb_spec (zlen (s1 ++ u1) + 1) (zlen s1)) as [He|_]; [exfalso; zl|].
      exists (s1 ++ x :: u1 ++ y :: v ++ d3, zlen (s1 ++ u1) + 1 + 1). split.
      * rewrite <- !app_assoc. cbn [app].
        replace (s1 ++ u1 ++ y :: u2 ++ s3) with ((s1 ++ u1) ++ y :: u2 ++ s3) by (now rewrite <- app_assoc).
        rewrite aread_mid by done. cbn [mbind res_bind].
        replace (s1 ++ x :: u1 ++ w :: v ++ d3) with ((s1 ++ x :: u1) ++ w :: v ++ d3) by (now rewrite <- app_assoc).
        rewrite awrite_mid by zl. cbn [mbind res_bind]. now rewrite <- app_assoc.
      * right. exists (u1 ++ [y]), u2, v. rewrite <- !app_assoc.
        repeat split; [zl|destruct u1; discriminate|zl].
  - cbn [mbind res_bind]. destruct H as [(u1 & u2 & v & Hs & Hi & -> & Hv & ->) | (u1 & u2 & v & Hs & Hi & -> & Hne & Hv & ->)].
    + subst s1. destruct u2; [|exfalso; zl]. destruct v; [|discriminate].
      destruct s2; [|exfalso; zl]. destruct d2; [|discriminate]. now rewrite app_nil_r.
    + subst s2. destruct u2; [|exfalso; zl]. destruct v; [|discriminate]. now rewrite app_nil_r.
Qed.

(** ** Searches *)

Lemma while_scan cond (k fuel : nat) i m :
  i + Z.of_nat k = m -> (forall j, i <= j < m -> cond j = Ok true) -> cond m = Ok false ->
  (k < fuel)%nat -> while_loop fuel cond (fun i => Ok (i + 1)) i = Ok m.
Proof.
  revert fuel i. induction k as [|k IH]; intros fuel i Hi Ht Hf Hlt; destruct fuel as [|fuel]; try lia; simpl.
  - replace i with m by lia. now rewrite Hf.
  - rewrite Ht by lia. simpl. apply IH; auto with lia.
Qed.

Lemma scan_first n cond m :
  0 <= m <= Z.of_nat n -> (forall j, 0 <= j < m -> cond j = Ok true) -> cond m = Ok false ->
  scan n cond = Ok m.
Proof. intros Hm Ht Hf. apply (while_scan cond (Z.to_nat m)); auto with lia. Qed.

Lemma aread_prefix (l : list Z) j (P : Z -> Prop) (r : list Z) :
  Forall P l -> 0 <= j < zlen l -> exists k, aread (l ++ r) j = Ok k /\ P k.
Proof.
  intros Hl Hj. destruct (aread_in_bounds (l ++ r) j) as (k & Hk & Hl'); [zl|].
  exists k. split; [done|]. rewrite lookup_app_l in Hl' by zl.
  rewrite Forall_forall in Hl. apply Hl. eapply list_elem_of_lookup_2, Hl'.
Qed.

(** Up to the first entry [f] refuses among the first [num], or all of them. *)
Lemma scan_bounded (f : Z -> bool) (a b c : list Z) num :
  Forall (fun k => f k = true) a -> match b with [] => True | x :: _ => f x = false end ->
  num = zlen (a ++ b) ->
  scan (length (a ++ b ++ c)) (fun i => if i <? num then k ← aread (a ++ b ++ c) i; Ok (f k) else Ok false)
  = Ok (zlen a).
Proof.
  intros Ha Hb ->. apply scan_first; [zl| |].
  - intros j Hj. destruct (Z.ltb_spec j (zlen (a ++ b))); [|exfalso; zl].
    destruct (aread_prefix a j _ (b ++ c) Ha Hj) as (k & -> & Hk). simpl. now rewrite Hk.
  - destruct (Z.ltb_spec (zlen a) (zlen (a ++ b))); [|done].
    destruct b as [|x b]; [exfalso; zl|]. cbn [app]. rewrite aread_mid by done. simpl. now rewrite Hb.
Qed.

(** The first entry equal to [x]; [guard] is the bound of the loop, if any. *)
Lemma scan_find (guard : Z -> bool) (a c : list Z) x :
  x ∉ a -> (forall i, 0 <= i <= zlen a -> guard i = true) ->
  scan (length (a ++ x :: c)) (fun i => if guard i then k ← aread (a ++ x :: c) i; Ok (negb (k =? x)) else Ok false)
  = Ok (zlen a).
Proof.
  intros Ha Hg. apply scan_first; [zl| |].
  - intros j Hj. rewrite Hg by lia.
    destruct (aread_prefix a j (fun k => k <> x) (x :: c)) as (k & -> & Hk); [|done|].
    + rewrite Forall_forall. congruence.
    + simpl. apply Z.eqb_neq in Hk. now rewrite Hk.
  - rewrite Hg by (pose proof (zlen_nonneg a); lia).
    rewrite aread_mid by done. simpl. now rewrite Z.eqb_refl.
Qed.

(** ** Loops on a node

    A loop whose body treats the two arrays of a node independently is one loop
    per array. *)
Lemma for_n_node n lo (fk fp : Z -> list Z -> res (list Z)) (g : Z -> Z) (body : Z -> node -> res node) v ks ps :
  for_n n lo fk (keys v) = Ok ks -> for_n n lo fp (pointers v) = Ok ps ->
  (forall i v ks ps, fk i (keys v) = Ok ks -> fp i (pointers v) = Ok ps ->
     body i v = Ok (set_num_keys (g (num_keys v)) (set_keys ks (set_pointers ps v)))) ->
  for_n n lo body v = Ok (set_num_keys (Nat.iter n g (num_keys v)) (set_keys ks (set_pointers ps v))).
Proof.
  revert lo v. induction n as [|n IH]; intros lo v Hk Hp Hb.
  - injection Hk as <-. injection Hp as <-. now destruct v.
  - cbn [for_n] in *. ok_inv. rewrite (Hb lo v a0 a) by done. cbn [mbind res_bind].
    rewrite IH by (cbn; done). cbn. now rewrite <- Nat.iter_succ_r.
Qed.

Lemma iter_bump n x : 0 <= x -> x + Z.of_nat n < 2 ^ 64 -> Nat.iter n (fun x => u64 (x + 1)) x = x + Z.of_nat n.
Proof.
  intros Hx Hn. induction n as [|n IH]; simpl; [lia|].
  rewrite IH, u64_small by (unfold is_u64; lia). lia.
Qed.

Lemma iter_drop n x : x < 2 ^ 64 -> Z.of_nat n <= x -> Nat.iter n (fun x => u64 (x - 1)) x = x - Z.of_nat n.
Proof.
  intros Hx Hn. induction n as [|n IH]; simpl; [lia|].
  rewrite IH, u64_small by (unfold is_u64; lia). lia.
Qed.

Lemma iter_id n (x : Z) : Nat.iter n (fun x => x) x = x.
Proof. induction n; simpl; auto. Qed.

Lemma for_range_node lo hi fk fp g body v ks ps :
  for_range lo hi fk (keys v) = Ok ks -> for_range lo hi fp (pointers v) = Ok ps ->
  (forall i v ks ps, fk i (keys v) = Ok ks -> fp i (pointers v) = Ok ps ->
     body i v = Ok (set_num_keys (g (num_keys v)) (set_keys ks (set_pointers ps v)))) ->
  for_range lo hi body v =
    Ok (set_num_keys (Nat.iter (Z.to_nat (hi - lo)) g (num_keys v)) (set_keys ks (set_pointers ps v))).
Proof. apply for_n_node. Qed.

Lemma for_down_node hi lo fk fp body v ks ps :
  for_down hi lo fk (keys v) = Ok ks -> for_down hi lo fp (pointers v) = Ok ps ->
  (forall i v ks ps, fk i (keys v) = Ok ks -> fp i (pointers v) = Ok ps ->
     body i v = Ok (set_keys ks (set_pointers ps v))) ->
  for_down hi lo body v = Ok (set_keys ks (set_pointers ps v)).
Proof.
  intros Hk Hp Hb. unfold for_down in *.
  rewrite (for_n_node _ _ _ _ (fun x => x) _ _ ks ps Hk Hp); [now rewrite iter_id|].
  intros i w ks' ps' Hk' Hp'. rewrite (Hb _ _ ks' ps') by done. reflexivity.
Qed.

(** A loop on the pointers only. *)
Lemma for_range_pointers lo hi fp v ps :
  for_range lo hi fp (pointers v) = Ok ps ->
  for_range lo hi (fun i v => ps ← fp i (pointers v); Ok (set_pointers ps v)) v = Ok (set_pointers ps v).
Proof.
  unfold for_range. generalize (Z.to_nat (hi - lo)) as n. intros n. revert lo v.
  induction n as [|n IH]; intros lo v Hp; cbn [for_n] in *.
  - injection Hp as <-. now destruct v.
  - ok_inv. rewrite Ha. cbn [mbind res_bind]. now rewrite IH.
Qed.
