(* ===== verification/BTreeNode.v ===== *)
(** Single nodes of the B+ tree: what a node of the memory holds ([content]) and
    the effect of the operations that change one node or allocate and free
    nodes and records. *)
From stdpp Require Import base numbers list gmap strings.
From Stdlib Require Import ZArith Lia.
From S2P Require Import Prelude BTree BTreeArrays.
Open Scope Z_scope.

(** The configurations the theorems are about: at least three pointers per node
    (MIN_ORDER), arrays whose size in bytes is a machine word, slabs with room
    for an object, and an allocator that does not run out of memory. *)
Class BtOk `{BtConfig} : Prop := {
  order_ok : 3 <= order <= 2 ^ 60;
  node_slab_ok : sizeof_node <= NODE_SLAB_GROW;
  record_slab_ok : sizeof_record <= RECORD_SLAB_GROW;
  memory_ok : forall st al size, posix_memalign st al size = true }.

(** ** Execution *)

Definition upd (s : btree) (p : Z) (n : node) : btree :=
  BTree (<[p := n]> (nodes s)) (records s) (brk s) (free_nodes s)
    (free_recs s) (queue s) (allocator_stat s) (stdout s).

Lemma bindB {A C} (m : B A) (k : A -> B C) s a s' : m s = Ok (a, s') -> (m ≫= k) s = k a s'.
Proof. intros H. unfold mbind, B_bind. now rewrite H. Qed.

Lemma get_nodeB s p n : nodes s !! p = Some n -> get_node p s = Ok (n, s).
Proof. intros H. unfold get_node. now rewrite H. Qed.

Lemma liftB {A} (r : res A) s a : r = Ok a -> lift r s = Ok (a, s).
Proof. now intros ->. Qed.

Lemma on_nodeB s p n n' f :
  nodes s !! p = Some n -> f n = Ok n' -> on_node p f s = Ok (tt, upd s p n').
Proof.
  intros Hn Hf. unfold on_node. rewrite (bindB _ _ _ _ _ (get_nodeB _ _ _ Hn)).
  now rewrite (bindB _ _ _ _ _ (liftB _ _ _ Hf)).
Qed.

Lemma on_node_set s p n (g : node -> node) :
  nodes s !! p = Some n -> on_node p (fun n => Ok (g n)) s = Ok (tt, upd s p (g n)).
Proof. intros Hn. exact (on_nodeB s p n (g n) (fun n => Ok (g n)) Hn eq_refl). Qed.

Lemma whenB_false c s : whenB false c s = Ok (tt, s).
Proof. reflexivity. Qed.

Lemma getsB {A} (g : btree -> A) s : gets g s = Ok (g s, s).
Proof. reflexivity. Qed.

(** Runs the first statement of a block by an equation. *)
Ltac run H := rewrite (bindB _ _ _ _ _ H).
Ltac run_get H := rewrite (bindB _ _ _ _ _ (get_nodeB _ _ _ H)).
Ltac run_lift H := rewrite (bindB _ _ _ _ _ (liftB _ _ _ H)).
Ltac run_set H := rewrite (bindB _ _ _ _ _ (on_node_set _ _ _ _ H)).
Ltac run_on H H' := rewrite (bindB _ _ _ _ _ (on_nodeB _ _ _ _ _ H H')).

(** ** Contents *)

Record content := Content {
  c_leaf : bool; c_par : Z; c_keys : list Z; c_ptrs : list Z; c_next : Z }.

(** Reduces projections of updated nodes. *)
Ltac nf := cbn [pointers keys parent is_leaf num_keys n_stats n_next set_pointers set_keys set_parent
  set_is_leaf set_num_keys set_n_next c_leaf c_par c_keys c_ptrs c_next].
Ltac nf_in H := cbn [pointers keys parent is_leaf num_keys n_stats n_next set_pointers set_keys set_parent
  set_is_leaf set_num_keys set_n_next c_leaf c_par c_keys c_ptrs c_next] in H.


Section node.
Context {cfg : BtConfig} {cfg_ok : BtOk}.

Record node_ok (n : node) (c : content) : Prop := {
  ok_leaf : is_leaf n = c_leaf c;
  ok_parent : parent n = c_par c;
  ok_num : num_keys n = zlen (c_keys c);
  ok_keys : exists jk, keys n = c_keys c ++ jk;
  ok_ptrs : exists jp, pointers n = c_ptrs c ++ jp;
  ok_klen : zlen (keys n) = order - 1;
  ok_plen : zlen (pointers n) = order;
  ok_shape : zlen (c_ptrs c) = zlen (c_keys c) + (if c_leaf c then 0 else 1);
  ok_next : c_leaf c = true -> aread (pointers n) (order - 1) = Ok (c_next c) }.

Lemma order1 : u64 (order - 1) = order - 1.
Proof. pose proof order_ok. apply u64_small. unfold is_u64. lia. Qed.

Lemma cut_half n : 0 <= n -> 2 * cut n = n \/ 2 * cut n = n + 1.
Proof.
  intros Hn. unfold cut. destruct (Z.eqb_spec (n mod 2) 0); dlia.
Qed.

Lemma cut_bounds : 2 * cut (order - 1) <= order /\ order - 1 <= 2 * cut (order - 1) /\
  2 * cut order <= order + 1 /\ order <= 2 * cut order.
Proof. pose proof order_ok. pose proof (cut_half (order - 1)). pose proof (cut_half order). lia. Qed.

(** The arrays of a leaf: entries, unused slots and the next leaf. *)
Lemma leaf_arrays n c :
  node_ok n c -> c_leaf c = true ->
  exists jk jp, keys n = c_keys c ++ jk /\ pointers n = c_ptrs c ++ jp ++ [c_next c].
Proof.
  intros [_ _ _ [jk Hk] [jp Hp] Hkl Hpl Hs Hn] Hl. rewrite Hl in Hs. specialize (Hn Hl).
  exists jk. destruct jp as [|x jp' _] using rev_ind.
  { exfalso. rewrite Hk in Hkl. rewrite Hp in Hpl. zl. }
  exists jp'. split; [done|]. rewrite Hp. do 2 f_equal.
  rewrite Hp, app_assoc, aread_mid in Hn; [congruence|].
  rewrite Hp in Hpl. zl.
Qed.

Lemma node_ok_leaf n par ks ps nxt jk jp :
  is_leaf n = true -> parent n = par -> num_keys n = zlen ks ->
  keys n = ks ++ jk -> pointers n = ps ++ jp ++ [nxt] ->
  zlen (keys n) = order - 1 -> zlen (pointers n) = order -> zlen ps = zlen ks ->
  node_ok n (Content true par ks ps nxt).
Proof.
  intros Hl Hpar Hnum Hk Hp Hkl Hpl Hs. split; simpl; eauto; [lia|].
  intros _. rewrite Hp, app_assoc. apply aread_mid. rewrite Hp in Hpl. zl.
Qed.

(** ** Insertion into a leaf and into an inner node *)

Lemma insert_into_leaf_spec s p n par ka kb pa pb nxt key ptr :
  nodes s !! p = Some n -> node_ok n (Content true par (ka ++ kb) (pa ++ pb) nxt) ->
  length pa = length ka -> Forall (fun k => k < key) ka -> Forall (fun k => key <= k) kb ->
  zlen (ka ++ kb) < order - 1 ->
  exists n', insert_into_leaf p key ptr s = Ok (p, upd s p n') /\
    node_ok n' (Content true par (ka ++ key :: kb) (pa ++ ptr :: pb) nxt) /\ n_next n' = n_next n.
Proof.
  intros Hn Hok Hpa Hka Hkb Hroom. pose proof order_ok.
  destruct (leaf_arrays _ _ Hok eq_refl) as (jk & jp & Hk & Hp).
  destruct Hok as [Hl Hpar Hnum _ _ Hkl Hpl Hs _]. simpl in *.
  destruct jk as [|y jk]; [exfalso; rewrite Hk in Hkl; zl|].
  destruct jp as [|z jp]; [exfalso; rewrite Hp in Hpl; zl|].
  rewrite <- app_assoc in Hk, Hp. cbn [app] in Hk, Hp.
  destruct (shift_up ka kb jk y (zlen (ka ++ kb)) (zlen ka)) as [x1 H1]; [done..|].
  destruct (shift_up pa pb (jp ++ [nxt]) z (zlen (ka ++ kb)) (zlen ka)) as [x2 H2]; [zl..|].
  rewrite <- Hk in H1. rewrite <- Hp in H2.
  eexists. unfold insert_into_leaf. split; [|split].
  - erewrite bindB; [reflexivity|]. eapply on_nodeB; [done|].
    rewrite Hk, (scan_bounded (fun k => k <? key)).
    + cbn [mbind res_bind]. rewrite Hnum.
      erewrite (for_down_node _ _ _ _ _ n); [|exact H1|exact H2|].
      * unfold wkey, wptr. cbn. rewrite awrite_mid by done. cbn. rewrite awrite_mid by zl. reflexivity.
      * intros i v ks' ps' Hk' Hp'. unfold wkey, wptr.
        apply bind_Ok in Hk' as (x & Hx & Hk'). apply bind_Ok in Hp' as (y' & Hy & Hp').
        rewrite Hx. cbn. rewrite Hk'. cbn. rewrite Hy. cbn. now rewrite Hp'.
    + eapply Forall_impl; [exact Hka|]. simpl. intros. now apply Z.ltb_lt.
    + destruct kb as [|k kb]; [done|]. inversion Hkb; subst. now apply Z.ltb_ge.
    + done.
  - rewrite Hk in Hkl. rewrite Hp in Hpl.
    eapply (node_ok_leaf _ _ _ _ _ jk jp); cbn; try done.
    + rewrite u64_small; [zl|]. unfold is_u64. zl.
    + now rewrite <- app_assoc.
    + now rewrite <- app_assoc.
    + zl.
    + zl.
    + zl.
  - reflexivity.
Qed.

Lemma for_n_ext {St} n i (b1 b2 : Z -> St -> res St) s :
  (forall i s, b1 i s = b2 i s) -> for_n n i b1 s = for_n n i b2 s.
Proof.
  intros Hb. revert i s. induction n as [|n IH]; intros i s; cbn [for_n]; [done|].
  rewrite Hb. destruct (b2 i s); cbn [mbind res_bind]; auto.
Qed.

Lemma shift_up1 (a b c : list Z) y hi lo :
  lo + 1 = zlen a -> hi + 1 = zlen (a ++ b) ->
  exists x, for_down hi lo (fun i l => x ← aread l i; awrite l (i + 1) x) (a ++ b ++ y :: c)
            = Ok (a ++ x :: b ++ c).
Proof.
  intros Hlo Hhi. destruct (shift_up a b c y (hi + 1) (lo + 1)) as [x Hx]; [done..|].
  exists x. rewrite <- Hx. unfold for_down. replace (hi + 1 - (lo + 1)) with (hi - lo) by lia.
  apply for_n_ext. intros i l. replace (hi + 1 - i - 1) with (hi - i) by lia.
  now replace (hi + 1 - i) with (hi - i + 1) by lia.
Qed.

Lemma get_left_index_spec s p n par ks pa l pb nxt :
  nodes s !! p = Some n -> node_ok n (Content false par ks (pa ++ l :: pb) nxt) -> l ∉ pa ->
  get_left_index p l s = Ok (zlen pa, s).
Proof.
  intros Hn [_ _ Hnum _ [jp Hp] _ _ Hs _] Hl. simpl in *.
  unfold get_left_index. run_get Hn. apply liftB. rewrite Hp, <- app_assoc. cbn [app].
  apply (scan_find (fun i => i <=? num_keys n)); [done|].
  intros i Hi. apply Z.leb_le. rewrite Hnum. zl.
Qed.

Lemma insert_into_node_spec s root p n par ka kb pa l pb key right :
  nodes s !! p = Some n -> node_ok n (Content false par (ka ++ kb) (pa ++ l :: pb) 0) ->
  length pa = length ka -> zlen (ka ++ kb) < order - 1 ->
  exists n', insert_into_node root p (zlen ka) key right s = Ok (root, upd s p n') /\
    node_ok n' (Content false par (ka ++ key :: kb) (pa ++ l :: right :: pb) 0) /\ n_next n' = n_next n.
Proof.
  intros Hn [Hl Hpar Hnum [jk Hk] [jp Hp] Hkl Hpl Hs _] Hpa Hroom. pose proof order_ok. simpl in *.
  destruct jk as [|y jk]; [exfalso; rewrite Hk in Hkl; zl|].
  destruct jp as [|z jp]; [exfalso; rewrite Hp in Hpl; zl|].
  rewrite <- app_assoc in Hk, Hp. cbn [app] in Hk, Hp.
  replace (pa ++ l :: pb ++ z :: jp) with ((pa ++ [l]) ++ pb ++ z :: jp) in Hp by (now rewrite <- app_assoc).
  destruct (shift_up ka kb jk y (zlen (ka ++ kb)) (zlen ka)) as [x1 H1]; [done..|].
  destruct (shift_up1 (pa ++ [l]) pb jp z (zlen (ka ++ kb)) (zlen ka)) as [x2 H2]; [zl..|].
  rewrite <- Hk in H1. rewrite <- Hp in H2.
  eexists. unfold insert_into_node. split; [|split].
  - erewrite bindB; [reflexivity|]. eapply on_nodeB; [done|].
    rewrite Hnum. erewrite (for_down_node _ _ _ _ _ n); [|exact H1|exact H2|].
    + unfold wkey, wptr. cbn. rewrite awrite_mid by zl. cbn. rewrite awrite_mid by done. reflexivity.
    + intros i v ks' ps' Hk' Hp'. unfold wkey, wptr.
      apply bind_Ok in Hk' as (x & Hx & Hk'). apply bind_Ok in Hp' as (y' & Hy & Hp').
      rewrite Hy. cbn. rewrite Hp'. cbn. rewrite Hx. cbn. now rewrite Hk'.
  - rewrite Hk in Hkl. rewrite Hp in Hpl. split; cbn; try done.
    + rewrite u64_small; [zl|]. unfold is_u64. zl.
    + exists jk. now rewrite <- app_assoc.
    + exists jp. now rewrite <- !app_assoc.
    + zl.
    + zl.
    + zl.
  - reflexivity.
Qed.

(** ** Filling and clearing *)

Lemma fill_node_spec (t0 t1 t2 u0 u1 u2 d1 d2 e1 e2 : list Z) lo hi n :
  pointers n = d1 ++ d2 -> keys n = e1 ++ e2 ->
  lo = zlen t0 -> lo = zlen u0 -> hi = lo + zlen t1 ->
  length u1 = length t1 -> length d1 = length t1 -> length e1 = length t1 ->
  0 <= num_keys n -> num_keys n + zlen t1 < 2 ^ 64 ->
  fill_node (t0 ++ t1 ++ t2) (u0 ++ u1 ++ u2) lo hi n =
    Ok (set_num_keys (num_keys n + zlen t1) (set_keys (u1 ++ e2) (set_pointers (t1 ++ d2) n))).
Proof.
  intros Hp Hk Hlo Hlo' Hhi Hu Hd He Hn0 Hn1. unfold fill_node.
  pose proof (copy_segment t0 t1 t2 [] d1 d2 (fun i => i - lo) lo hi) as H1.
  pose proof (copy_segment u0 u1 u2 [] e1 e2 (fun i => i - lo) lo hi) as H2.
  cbn [app] in H1, H2. rewrite <- Hp in H1. rewrite <- Hk in H2.
  erewrite (for_range_node _ _ _ _ (fun x => u64 (x + 1)) _ n).
  - rewrite iter_bump by zl. do 2 f_equal. zl.
  - apply H2; zl.
  - apply H1; zl.
  - intros i v ks' ps' Hk' Hp'. unfold wkey, wptr.
    apply bind_Ok in Hk' as (x & Hx & Hk'). apply bind_Ok in Hp' as (y' & Hy & Hp').
    rewrite Hy. cbn. rewrite Hp'. cbn. rewrite Hx. cbn. now rewrite Hk'.
Qed.

Lemma clear_pointers_spec (a b c : list Z) lo hi n :
  pointers n = a ++ b ++ c -> lo = zlen a -> hi = zlen (a ++ b) ->
  clear_pointers lo hi n = Ok (set_pointers (a ++ replicate (length b) 0 ++ c) n).
Proof.
  intros Hp Hlo Hhi. apply (for_range_pointers lo hi (fun i l => awrite l i 0)).
  rewrite Hp. now apply clear_segment.
Qed.

(** The unused pointers of a node and what follows them: the next leaf, if any. *)
Lemma node_tail n c :
  node_ok n c ->
  exists jp tl, pointers n = c_ptrs c ++ jp ++ tl /\ tl = (if c_leaf c then [c_next c] else []) /\
    zlen (c_ptrs c ++ jp) = (if c_leaf c then order - 1 else order).
Proof.
  intros Hok. destruct (c_leaf c) eqn:Hl.
  - destruct (leaf_arrays _ _ Hok Hl) as (jk & jp & _ & Hp). exists jp, [c_next c].
    split_and!; [done|done|]. pose proof (ok_plen _ _ Hok) as Hpl. rewrite Hp in Hpl. zl.
  - destruct Hok as [_ _ _ _ [jp Hp] _ Hpl _ _]. exists jp, []. rewrite app_nil_r.
    split_and!; [done|done|]. now rewrite <- Hp.
Qed.

(** ** Removal of an entry *)

Lemma remove_entry_spec s p n lf par k1 k2 p1 p2 nxt key ptr :
  nodes s !! p = Some n -> node_ok n (Content lf par (k1 ++ key :: k2) (p1 ++ ptr :: p2) nxt) ->
  key ∉ k1 -> ptr ∉ p1 ->
  exists n', remove_entry_from_node p key ptr s = Ok (p, upd s p n') /\
    node_ok n' (Content lf par (k1 ++ k2) (p1 ++ p2) nxt) /\ n_next n' = n_next n.
Proof.
  intros Hn Hok Hkey Hptr. pose proof order_ok.
  destruct (node_tail _ _ Hok) as (jp & tl & Hp & Htl & Htlen).
  destruct Hok as [Hl Hpar Hnum [jk Hk] _ Hkl Hpl Hs _]. simpl in *.
  rewrite <- app_assoc in Hk, Hp. cbn [app] in Hk, Hp.
  destruct (shift_down_spec k1 k2 jk key (zlen k1 + 1) (num_keys n)) as [x1 H1]; [done..|].
  destruct (shift_down_spec p1 p2 (jp ++ tl) ptr (zlen p1 + 1) (zlen (p1 ++ ptr :: p2)))
    as [x2 H2]; [done..|].
  pose proof Hkl as Hkl'. rewrite Hk in Hkl'.
  assert (Hu : u64 (num_keys n - 1) = zlen (k1 ++ k2)) by (rewrite u64_small; [|unfold is_u64]; zl).
  eexists. unfold remove_entry_from_node. split; [|split].
  - erewrite bindB; [reflexivity|]. eapply on_nodeB; [done|].
    rewrite Hk, (scan_find (fun _ => true)) by done. cbn [mbind res_bind].
    rewrite H1. cbn [mbind res_bind]. cbn [pointers set_keys is_leaf num_keys].
    rewrite Hp, (scan_find (fun _ => true)) by done. cbn [mbind res_bind].
    replace (if is_leaf n then num_keys n else num_keys n + 1) with (zlen (p1 ++ ptr :: p2))
      by (rewrite Hl, Hnum; destruct lf; lia).
    rewrite H2. cbn [mbind res_bind]. cbn [set_num_keys set_pointers set_keys is_leaf num_keys keys pointers].
    rewrite Hu, Hl. instantiate (1 := set_num_keys _ (set_keys _ (set_pointers
      ((p1 ++ p2) ++ replicate (length (x2 :: jp)) 0 ++ tl) n))).
    destruct lf.
    + rewrite (clear_pointers_spec (p1 ++ p2) (x2 :: jp) tl) ; [reflexivity|..].
      * cbn. now rewrite <- app_assoc.
      * zl.
      * rewrite order1. zl.
    + rewrite (clear_pointers_spec (p1 ++ p2) (x2 :: jp) tl) ; [reflexivity|..].
      * cbn. now rewrite <- app_assoc.
      * zl.
      * zl.
  - rewrite Hp in Hpl.
    split; nf; try done.
    + exists (x1 :: jk). now rewrite <- app_assoc.
    + eauto.
    + zl.
    + rewrite <- Hpl. zl.
    + destruct lf; zl.
    + intros ->. subst tl. rewrite app_assoc. apply aread_mid. zl.
  - reflexivity.
Qed.
End node.
