(* ===== verification/BTreeAlloc.v ===== *)
(** The slabs of the B+ tree: the free lists of nodes and records as invariants
    of the memory, and the specifications of allocation and release. *)
From stdpp Require Import base numbers list gmap strings.
From Stdlib Require Import ZArith Lia.
From S2P Require Import Prelude BTree BTreeArrays BTreeNode.
Open Scope Z_scope.

(** A list linked through a field of the objects of a memory. *)
Fixpoint chain {N} (next : N -> Z) (m : gmap Z N) (p : Z) (l : list Z) : Prop :=
  match l with
  | [] => p = 0
  | q :: l => p = q /\ exists n, m !! q = Some n /\ chain next m (next n) l
  end.

(** The objects of one kind: [l] are the free ones, [live] those in use. *)
Record slab {N} (next : N -> Z) (m : gmap Z N) (free brk : Z) (l live : list Z) : Prop := {
  slab_chain : chain next m free l;
  slab_NoDup : NoDup l;
  slab_disjoint : forall p, p ∈ l -> p ∉ live;
  slab_live : forall p, p ∈ live -> is_Some (m !! p);
  slab_range : forall p, is_Some (m !! p) -> 0 < p < brk;
  slab_brk : 0 < brk }.

Definition node_mem (s : btree) (live : list Z) : Prop :=
  exists l, slab n_next (nodes s) (free_nodes s) (brk s) l live.
Definition record_mem (s : btree) (live : list Z) : Prop :=
  exists l, slab r_next (records s) (free_recs s) (brk s) l live.

(** Changes that leave the bookkeeping of the slabs and the records alone. *)
Record same_alloc (s s' : btree) : Prop := {
  same_brk : brk s' = brk s;
  same_free_nodes : free_nodes s' = free_nodes s;
  same_records : records s' = records s;
  same_free_recs : free_recs s' = free_recs s;
  same_next : forall p, n_next <$> nodes s' !! p = n_next <$> nodes s !! p }.

#[export] Instance same_alloc_preorder : PreOrder same_alloc.
Proof.
  split.
  - now intros s; split.
  - intros s1 s2 s3 [? ? ? ? H1] [? ? ? ? H2]. split; congruence.
Qed.

Lemma same_alloc_upd s p n n' :
  nodes s !! p = Some n -> n_next n' = n_next n -> same_alloc s (upd s p n').
Proof.
  intros Hn Hx. split; try reflexivity. intros q. unfold upd. simpl.
  destruct (decide (p = q)) as [->|].
  - rewrite lookup_insert_eq, Hn. simpl. now rewrite Hx.
  - now rewrite lookup_insert_ne.
Qed.

Lemma chain_mono {N} (next : N -> Z) (m m' : gmap Z N) p l :
  (forall q, q ∈ l -> next <$> m' !! q = next <$> m !! q) -> chain next m p l -> chain next m' p l.
Proof.
  revert p. induction l as [|q l IH]; intros p Hm; simpl; [done|].
  intros (-> & n & Hn & Hc). split; [done|].
  assert (Hq : next <$> m' !! q = next <$> m !! q) by (apply Hm; set_solver).
  rewrite Hn in Hq. destruct (m' !! q) as [n'|]; [|discriminate Hq].
  exists n'. split; [done|]. injection Hq as ->.
  apply IH; [|done]. intros q' Hq'. apply Hm. set_solver.
Qed.

Lemma node_mem_same s s' live : same_alloc s s' -> node_mem s live -> node_mem s' live.
Proof.
  intros [Hb Hf _ _ Hx] [l [Hc Hnd Hdj Hl Hr Hbrk]]. exists l.
  assert (Hsome : forall p, is_Some (nodes s' !! p) <-> is_Some (nodes s !! p)).
  { intros p. specialize (Hx p). destruct (nodes s' !! p), (nodes s !! p); simpl in Hx; try discriminate;
      split; intros [? ?]; eauto; discriminate. }
  rewrite Hb, Hf. split; auto.
  - eapply chain_mono, Hc. auto.
  - intros p Hp. apply Hsome. auto.
  - intros p Hp. apply Hr, Hsome, Hp.
Qed.

Lemma record_mem_same s s' live : same_alloc s s' -> record_mem s live -> record_mem s' live.
Proof. intros [Hb _ Hr Hf _]. unfold record_mem. now rewrite Hb, Hr, Hf. Qed.

Lemma slab_sub {N} (next : N -> Z) m f b l live live' :
  (forall p, p ∈ live' -> p ∈ live) -> slab next m f b l live -> slab next m f b l live'.
Proof. intros Hs [? ? ? ? ? ?]. split; auto. intros p Hp Hp'. set_solver. Qed.

Lemma node_mem_sub s live live' :
  (forall p, p ∈ live' -> p ∈ live) -> node_mem s live -> node_mem s live'.
Proof. intros Hs [l Hl]. exists l. eapply slab_sub; eauto. Qed.

Lemma record_mem_sub s live live' :
  (forall p, p ∈ live' -> p ∈ live) -> record_mem s live -> record_mem s live'.
Proof. intros Hs [l Hl]. exists l. eapply slab_sub; eauto. Qed.

(** Taking the first object of the free list, possibly changing it. *)
Lemma slab_pop {N} (next : N -> Z) m f b p l live n n' :
  slab next m f b (p :: l) live -> m !! p = Some n ->
  f = p /\ slab next (<[p := n']> m) (next n) b l (p :: live) /\ p ∉ live /\ p <> 0 /\
  forall q, q <> p -> <[p := n']> m !! q = m !! q.
Proof.
  intros [Hc Hnd Hdj Hl Hr Hbrk] Hp. simpl in Hc. destruct Hc as (-> & n0 & Hn0 & Hc).
  rewrite Hp in Hn0. injection Hn0 as <-. apply NoDup_cons in Hnd as [Hnp Hnd].
  split_and!; [done| |set_solver|specialize (Hr p (mk_is_Some _ _ Hp)); lia|].
  - split; auto.
    + eapply chain_mono, Hc. intros q Hq. rewrite lookup_insert_ne; [done|]. set_solver.
    + intros q Hq. apply not_elem_of_cons. split; [|apply Hdj]; set_solver.
    + intros q Hq. destruct (decide (q = p)) as [->|]; [rewrite lookup_insert_eq; eauto|].
      rewrite lookup_insert_ne by done. apply Hl. set_solver.
    + intros q Hq. destruct (decide (q = p)) as [->|]; [apply Hr; eauto|].
      rewrite lookup_insert_ne in Hq by done. auto.
  - intros q Hq. now apply lookup_insert_ne.
Qed.

(** Putting an object in use at the front of the free list. *)
Lemma slab_push {N} (next : N -> Z) m f b p l live live' n' :
  slab next m f b l live -> p ∈ live -> next n' = f ->
  (forall q, q ∈ live' -> q ∈ live /\ q <> p) ->
  slab next (<[p := n']> m) p b (p :: l) live'.
Proof.
  intros [Hc Hnd Hdj Hl Hr Hbrk] Hp Hx Hs.
  assert (Hpl : p ∉ l) by (intros Hq; exact (Hdj p Hq Hp)). split.
  - simpl. split; [done|]. exists n'. rewrite lookup_insert_eq. split; [done|]. rewrite Hx.
    eapply chain_mono, Hc. intros q Hq. rewrite lookup_insert_ne; [done|]. set_solver.
  - now apply NoDup_cons.
  - intros q Hq Hq'. apply Hs in Hq' as [Hq' Hne]. apply elem_of_cons in Hq as [->|Hq]; [done|].
    exact (Hdj q Hq Hq').
  - intros q Hq. destruct (decide (q = p)) as [->|]; [rewrite lookup_insert_eq; eauto|].
    rewrite lookup_insert_ne by done. apply Hl. now apply Hs.
  - intros q Hq. destruct (decide (q = p)) as [->|]; [apply Hr; auto|].
    rewrite lookup_insert_ne in Hq by done. auto.
  - done.
Qed.

(** A fresh object at the end of the memory becomes the first free one. *)
Lemma slab_extend {N} (next : N -> Z) m f b l live n' :
  slab next m f b l live -> next n' = f ->
  slab next (<[b := n']> m) b (b + 1) (b :: l) live /\ m !! b = None.
Proof.
  intros [Hc Hnd Hdj Hl Hr Hbrk] Hx.
  assert (Hnone : m !! b = None).
  { destruct (m !! b) eqn:E; [|done]. specialize (Hr b (mk_is_Some _ _ E)). lia. }
  assert (Hin : forall q l', chain next m l' l -> q ∈ l -> is_Some (m !! q)).
  { clear. induction l as [|r l IH]; intros q l' Hc Hq; [set_solver|]. destruct Hc as (_ & n & Hn & Hc).
    apply elem_of_cons in Hq as [->|Hq]; eauto. }
  assert (Hbl : b ∉ l). { intros Hq. apply (Hin b f Hc) in Hq as [? Hq]. congruence. }
  split; [|done]. split.
  - simpl. split; [done|]. exists n'. rewrite lookup_insert_eq. split; [done|]. rewrite Hx.
    eapply chain_mono, Hc. intros q Hq. rewrite lookup_insert_ne; [done|]. set_solver.
  - now apply NoDup_cons.
  - intros q Hq. apply elem_of_cons in Hq as [->|Hq]; [|auto]. intros Hb'. apply Hl in Hb' as [? ?]. congruence.
  - intros q Hq. rewrite lookup_insert_ne; [auto|]. intros <-. apply Hl in Hq as [? ?]. congruence.
  - intros q Hq. destruct (decide (q = b)) as [->|]; [lia|].
    rewrite lookup_insert_ne in Hq by done. specialize (Hr q Hq). lia.
  - lia.
Qed.

Lemma slab_grow {N} (next : N -> Z) m f b b' l live :
  b <= b' -> slab next m f b l live -> slab next m f b' l live.
Proof.
  intros Hb [? ? ? ? Hr ?]. split; auto; [|lia]. intros p Hp. specialize (Hr p Hp). lia.
Qed.

(** A loop of statements, from an invariant. *)
Lemma forB_inv (P : Z -> btree -> Prop) lo hi body s :
  lo <= hi -> P lo s ->
  (forall i s, lo <= i < hi -> P i s -> exists s', body i s = Ok (tt, s') /\ P (i + 1) s') ->
  exists s', forB lo hi body s = Ok (tt, s') /\ P hi s'.
Proof.
  intros Hle H0 Hb. unfold forB.
  destruct (for_range_inv P lo hi (fun i s => '(_, s) ← body i s; Ok s) s Hle H0) as (s' & -> & H').
  - intros i s1 Hi HP. destruct (Hb i s1 Hi HP) as (s2 & -> & H2). exists s2. now split.
  - exists s'. now split.
Qed.

Section alloc.
Context {cfg : BtConfig} {cfg_ok : BtOk}.

Lemma allocate_ok size al cells s :
  allocate size al cells s = Ok (brk s, BTree (nodes s) (records s) (brk s + cells) (free_nodes s)
    (free_recs s) (queue s) (u64 (allocator_stat s + size)) (stdout s)).
Proof. unfold allocate. now rewrite memory_ok. Qed.

(** The free list is empty: a slab of fresh nodes is linked into it. *)
Lemma grow_nodes_spec s live :
  slab n_next (nodes s) (free_nodes s) (brk s) [] live ->
  exists s' p l, grow_nodes s = Ok (tt, s') /\
    slab n_next (nodes s') (free_nodes s') (brk s') (p :: l) live /\
    (forall q, q ∈ live -> nodes s' !! q = nodes s !! q) /\
    records s' = records s /\ free_recs s' = free_recs s /\ brk s <= brk s'.
Proof.
  intros Hl. unfold grow_nodes. pose proof node_slab_ok. set (cnt := NODE_SLAB_GROW / sizeof_node).
  assert (Hcnt : 1 <= cnt) by (apply Z.div_le_lower_bound; unfold sizeof_node in *; lia).
  run (allocate_ok NODE_SLAB_GROW CONFIG_LARGE_PAGE_SIZE cnt s).
  match goal with |- context [forB 0 cnt ?body ?t0] => destruct (forB_inv (fun i t =>
    (exists l', slab n_next (nodes t) (free_nodes t) (brk s + i) l' live /\ (0 < i -> l' <> [])) /\
    brk t = brk s + cnt /\ records t = records s /\ free_recs t = free_recs s /\
    (forall q, q ∈ live -> nodes t !! q = nodes s !! q)) 0 cnt body t0) as (s1 & -> & HP) end.
  - lia.
  - simpl. split_and!; try done. exists []. rewrite Z.add_0_r. split; [done|lia].
  - intros i t Hi ((l' & Hl' & _) & Hb & Hr & Hfr & Hq). eexists. split; [reflexivity|]. simpl.
    destruct (slab_extend _ _ _ _ _ _ (set_n_next (free_nodes t) zero_node) Hl' eq_refl) as [He Hnone].
    split_and!; try done.
    + eexists. rewrite Z.add_assoc. split; [exact He|done].
    + intros q Hlive. rewrite lookup_insert_ne; [auto|]. intros <-.
      apply (slab_live _ _ _ _ _ _ Hl') in Hlive as [? ?]. congruence.
  - destruct HP as ((l' & Hl' & Hne) & Hb & Hr & Hfr & Hq).
    destruct l' as [|p l']; [exfalso; apply Hne; [lia|done]|].
    exists s1, p, l'. rewrite <- Hb in Hl'. split_and!; auto. lia.
Qed.

Lemma grow_records_spec s live :
  slab r_next (records s) (free_recs s) (brk s) [] live ->
  exists s' p l, grow_records s = Ok (tt, s') /\
    slab r_next (records s') (free_recs s') (brk s') (p :: l) live /\
    (forall q, q ∈ live -> records s' !! q = records s !! q) /\
    nodes s' = nodes s /\ free_nodes s' = free_nodes s /\ brk s <= brk s'.
Proof.
  intros Hl. unfold grow_records. pose proof record_slab_ok. set (cnt := RECORD_SLAB_GROW / sizeof_record).
  assert (Hcnt : 1 <= cnt) by (apply Z.div_le_lower_bound; unfold sizeof_record in *; lia).
  run (allocate_ok RECORD_SLAB_GROW CONFIG_LARGE_PAGE_SIZE cnt s).
  match goal with |- context [forB 0 cnt ?body ?t0] => destruct (forB_inv (fun i t =>
    (exists l', slab r_next (records t) (free_recs t) (brk s + i) l' live /\ (0 < i -> l' <> [])) /\
    brk t = brk s + cnt /\ nodes t = nodes s /\ free_nodes t = free_nodes s /\
    (forall q, q ∈ live -> records t !! q = records s !! q)) 0 cnt body t0) as (s1 & -> & HP) end.
  - lia.
  - simpl. split_and!; try done. exists []. rewrite Z.add_0_r. split; [done|lia].
  - intros i t Hi ((l' & Hl' & _) & Hb & Hr & Hfr & Hq). eexists. split; [reflexivity|]. simpl.
    destruct (slab_extend _ _ _ _ _ _ (set_r_next (free_recs t) zero_record) Hl' eq_refl) as [He Hnone].
    split_and!; try done.
    + eexists. rewrite Z.add_assoc. split; [exact He|done].
    + intros q Hlive. rewrite lookup_insert_ne; [auto|]. intros <-.
      apply (slab_live _ _ _ _ _ _ Hl') in Hlive as [? ?]. congruence.
  - destruct HP as ((l' & Hl' & Hne) & Hb & Hr & Hfr & Hq).
    destruct l' as [|p l']; [exfalso; apply Hne; [lia|done]|].
    exists s1, p, l'. rewrite <- Hb in Hl'. split_and!; auto. lia.
Qed.

Lemma slab_head {N} (next : N -> Z) m f b p l live :
  slab next m f b (p :: l) live -> f = p /\ f <> 0 /\ exists n, m !! p = Some n.
Proof.
  intros Hs. pose proof (slab_chain _ _ _ _ _ _ Hs) as (-> & n & Hn & _).
  pose proof (slab_range _ _ _ _ _ _ Hs p (mk_is_Some _ _ Hn)). split_and!; [done|lia|eauto].
Qed.

(** A node that was not in use, and only that, is taken into use. *)
Record fresh (s s' : btree) (live : list Z) (p : Z) : Prop := {
  fr_mem : node_mem s' (p :: live);
  fr_new : p ∉ live;
  fr_nz : p <> 0;
  fr_live : forall q, q ∈ live -> nodes s' !! q = nodes s !! q;
  fr_records : records s' = records s;
  fr_free_recs : free_recs s' = free_recs s;
  fr_brk : brk s <= brk s' }.

Lemma alloc_node_spec s live :
  node_mem s live ->
  exists p s' n, alloc_node s = Ok (p, s') /\ nodes s' !! p = Some n /\ fresh s s' live p.
Proof.
  intros [l Hl]. unfold alloc_node. run (getsB free_nodes s).
  assert (Hg : exists s1 p l, whenB (free_nodes s =? 0) grow_nodes s = Ok (tt, s1) /\
    slab n_next (nodes s1) (free_nodes s1) (brk s1) (p :: l) live /\
    (forall q, q ∈ live -> nodes s1 !! q = nodes s !! q) /\
    records s1 = records s /\ free_recs s1 = free_recs s /\ brk s <= brk s1).
  { destruct l as [|p l].
    - pose proof (slab_chain _ _ _ _ _ _ Hl) as Hf. simpl in Hf. rewrite Hf. now apply grow_nodes_spec.
    - destruct (slab_head _ _ _ _ _ _ _ Hl) as (_ & Hne & _). apply Z.eqb_neq in Hne. rewrite Hne.
      exists s, p, l. split_and!; try done. }
  destruct Hg as (s1 & p & l1 & Hrun & Hs & Hq1 & Hr & Hfr & Hb). run Hrun.
  destruct (slab_head _ _ _ _ _ _ _ Hs) as (Hf & _ & n & Hn).
  destruct (slab_pop _ _ _ _ _ _ _ n (set_pointers [] n) Hs Hn) as (_ & Hs' & Hnl & H0 & Hq).
  run (getsB free_nodes s1). rewrite Hf. run_get Hn.
  eexists _, _, (set_pointers [] n). split; [reflexivity|]. simpl.
  split; [apply lookup_insert_eq|]. split; try done; [by exists l1|].
  intros q Hlive. rewrite <- Hq1 by done. apply Hq. congruence.
Qed.

Lemma alloc_record_spec s live :
  record_mem s live ->
  exists p s', alloc_record s = Ok (p, s') /\ records s' !! p = Some zero_record /\
    record_mem s' (p :: live) /\
    p ∉ live /\ p <> 0 /\ (forall q, q ∈ live -> records s' !! q = records s !! q) /\
    nodes s' = nodes s /\ free_nodes s' = free_nodes s /\ brk s <= brk s'.
Proof.
  intros [l Hl]. unfold alloc_record. run (getsB free_recs s).
  assert (Hg : exists s1 p l, whenB (free_recs s =? 0) grow_records s = Ok (tt, s1) /\
    slab r_next (records s1) (free_recs s1) (brk s1) (p :: l) live /\
    (forall q, q ∈ live -> records s1 !! q = records s !! q) /\
    nodes s1 = nodes s /\ free_nodes s1 = free_nodes s /\ brk s <= brk s1).
  { destruct l as [|p l].
    - pose proof (slab_chain _ _ _ _ _ _ Hl) as Hf. simpl in Hf. rewrite Hf. now apply grow_records_spec.
    - destruct (slab_head _ _ _ _ _ _ _ Hl) as (_ & Hne & _). apply Z.eqb_neq in Hne. rewrite Hne.
      exists s, p, l. split_and!; try done. }
  destruct Hg as (s1 & p & l1 & Hrun & Hs & Hq1 & Hr & Hfr & Hb). run Hrun.
  destruct (slab_head _ _ _ _ _ _ _ Hs) as (Hf & _ & n & Hn).
  destruct (slab_pop _ _ _ _ _ _ _ n zero_record Hs Hn) as (_ & Hs' & Hnl & H0 & Hq).
  run (getsB free_recs s1). rewrite Hf.
  assert (Hget : get_record p s1 = Ok (n, s1)) by (unfold get_record; now rewrite Hn). run Hget.
  eexists _, _. split; [reflexivity|]. simpl.
  split_and!; try done; [apply lookup_insert_eq|by exists l1|].
  intros q Hlive. rewrite <- Hq1 by done. apply Hq. congruence.
Qed.

Lemma node_mem_upd s live p n : node_mem s live -> p ∈ live -> node_mem (upd s p n) live.
Proof.
  intros [l [Hc Hnd Hdj Hl Hr Hb]] Hp. exists l. split; simpl; auto.
  - eapply chain_mono, Hc. intros q Hq. rewrite lookup_insert_ne; [done|]. intros <-. exact (Hdj _ Hq Hp).
  - intros q Hq. destruct (decide (p = q)) as [->|].
    + rewrite lookup_insert_eq. eauto.
    + rewrite lookup_insert_ne by done. auto.
  - intros q Hq. destruct (decide (p = q)) as [->|]; [auto|]. rewrite lookup_insert_ne in Hq by done. auto.
Qed.

Lemma fresh_upd s s' live p n : fresh s s' live p -> fresh s (upd s' p n) live p.
Proof.
  intros [Hm Hn Hz Hl Hr Hf Hb]. split; try done.
  - apply node_mem_upd; [done|]. set_solver.
  - intros q Hq. unfold upd. simpl. rewrite lookup_insert_ne by congruence. auto.
Qed.

Definition bump_stat (s : btree) (size : Z) : btree :=
  BTree (nodes s) (records s) (brk s) (free_nodes s) (free_recs s) (queue s)
    (u64 (allocator_stat s + size)) (stdout s).

Lemma allocate_align64_ok size s :
  allocate_align64 size s = Ok (replicate (Z.to_nat (size / 8)) 0, bump_stat s size).
Proof. unfold allocate_align64. run (allocate_ok size 64 0 s). now rewrite Z.add_0_r. Qed.

Lemma words n : 0 <= n < 2 ^ 61 -> u64 (n * 8) / 8 = n.
Proof. intros Hn. rewrite u64_small by (unfold is_u64; lia). now rewrite Z.div_mul. Qed.

Lemma fresh_bump s s' live p size : fresh s s' live p -> fresh s (bump_stat s' size) live p.
Proof. intros [[l Hm] Hn Hz Hl Hr Hf Hb]. split; try done. now exists l. Qed.

(** A node as [make_node] and [make_leaf] return it. *)
Definition blank (leaf : bool) (n : node) : Prop :=
  is_leaf n = leaf /\ parent n = 0 /\ num_keys n = 0 /\
  keys n = replicate (Z.to_nat (order - 1)) 0 /\ pointers n = replicate (Z.to_nat order) 0.

Lemma make_node_spec s live :
  node_mem s live ->
  exists p s' n, make_node s = Ok (p, s') /\ nodes s' !! p = Some n /\ blank false n /\ fresh s s' live p.
Proof.
  intros Hm. destruct (alloc_node_spec s live Hm) as (p & s1 & n1 & H1 & Hn1 & Hf1).
  pose proof order_ok. unfold make_node. run H1. run (allocate_align64_ok (u64 (u64 (order - 1) * 8)) s1).
  rewrite order1, words by lia.
  run_set (Hn1 : nodes (bump_stat s1 (u64 ((order - 1) * 8))) !! p = Some n1).
  set (s2 := upd _ p _). run (allocate_align64_ok (u64 (order * 8)) s2). rewrite words by lia.
  assert (Hn2 : nodes (bump_stat s2 (u64 (order * 8))) !! p =
    Some (set_keys (replicate (Z.to_nat (order - 1)) 0) n1)) by apply lookup_insert_eq.
  run_set Hn2.
  eexists _, _, _. split; [reflexivity|]. split; [apply lookup_insert_eq|].
  split; [now repeat split|]. apply fresh_upd, fresh_bump, fresh_upd, fresh_bump, Hf1.
Qed.

Lemma make_leaf_spec s live :
  node_mem s live ->
  exists p s' n, make_leaf s = Ok (p, s') /\ nodes s' !! p = Some n /\ blank true n /\ fresh s s' live p.
Proof.
  intros Hm. destruct (make_node_spec s live Hm) as (p & s1 & n1 & H1 & Hn1 & Hb1 & Hf1).
  unfold make_leaf. run H1. run_set Hn1.
  eexists _, _, _. split; [reflexivity|]. split; [apply lookup_insert_eq|].
  split; [|apply fresh_upd, Hf1]. destruct Hb1 as (? & ? & ? & ? & ?). now repeat split.
Qed.

Lemma make_record_spec s live v :
  record_mem s live ->
  exists r s', make_record v s = Ok (r, s') /\ records s' !! r = Some (Record v 0 0 0) /\
    record_mem s' (r :: live) /\ r ∉ live /\ r <> 0 /\
    (forall q, q ∈ live -> records s' !! q = records s !! q) /\
    nodes s' = nodes s /\ free_nodes s' = free_nodes s /\ brk s <= brk s'.
Proof.
  intros Hm. destruct (alloc_record_spec s live Hm) as (r & s1 & H1 & Hr & Hm1 & Hnl & Hz & Hq & Hn & Hf & Hb).
  unfold make_record. run H1.
  assert (Hget : get_record r s1 = Ok (zero_record, s1)) by (unfold get_record; now rewrite Hr). run Hget.
  eexists _, _. split; [reflexivity|]. simpl. split_and!; try done; [apply lookup_insert_eq| |].
  - destruct Hm1 as [l [Hc Hnd Hdj Hl Hrg Hbk]]. exists l. split; simpl; auto.
    + eapply chain_mono, Hc. intros q Hq'. rewrite lookup_insert_ne; [done|]. intros <-. apply Hdj in Hq'. set_solver.
    + intros q Hq'. destruct (decide (r = q)) as [->|]; [rewrite lookup_insert_eq; eauto|].
      rewrite lookup_insert_ne by done. auto.
    + intros q Hq'. destruct (decide (r = q)) as [->|]; [apply Hrg; eauto|].
      rewrite lookup_insert_ne in Hq' by done. auto.
  - intros q Hq'. rewrite lookup_insert_ne by congruence. auto.
Qed.

(** A node in use is released. *)
Lemma free_arrays_spec s p n live live' :
  node_mem s live -> p ∈ live -> nodes s !! p = Some n ->
  (forall q, q ∈ live' -> q ∈ live /\ q <> p) ->
  exists s', free_arrays p s = Ok (tt, s') /\ node_mem s' live' /\
    (forall q, q <> p -> nodes s' !! q = nodes s !! q) /\
    records s' = records s /\ free_recs s' = free_recs s /\ brk s' = brk s.
Proof.
  intros Hm Hp Hn Hs. unfold free_arrays.
  run_set Hn.
  set (n1 := set_pointers [] (set_keys [] n)). set (s1 := upd s p n1).
  assert (Hn1 : nodes s1 !! p = Some n1) by apply lookup_insert_eq.
  unfold free_node. run (getsB free_nodes s1). run_set Hn1.
  eexists. split; [reflexivity|]. simpl. split_and!; try done.
  - apply (node_mem_upd s live p n1) in Hm as [l Hl]; [|done]. exists (p :: l).
    eapply slab_push; eauto.
  - intros q Hq. now rewrite !lookup_insert_ne.
Qed.

Lemma free_record_spec s r v live live' :
  record_mem s live -> r ∈ live -> records s !! r = Some v ->
  (forall q, q ∈ live' -> q ∈ live /\ q <> r) ->
  exists s', free_record r s = Ok (tt, s') /\ record_mem s' live' /\
    (forall q, q <> r -> records s' !! q = records s !! q) /\
    nodes s' = nodes s /\ free_nodes s' = free_nodes s /\ brk s' = brk s.
Proof.
  intros [l Hl] Hr Hv Hs. unfold free_record. run (getsB free_recs s).
  assert (Hget : get_record r s = Ok (v, s)) by (unfold get_record; now rewrite Hv). run Hget.
  eexists. split; [reflexivity|]. simpl. split_and!; try done.
  - exists (r :: l). eapply slab_push; eauto.
  - intros q Hq. now rewrite lookup_insert_ne.
Qed.
End alloc.
