(* ===== verification/BTreeTree.v ===== *)
(** The shape of a B+ tree: trees as a data type, the memory cells a tree stands
    for, well-formedness (order, occupancy, balance), and paths from a node up to
    the root, along which insertion and deletion proceed. *)
From stdpp Require Import base numbers list gmap strings sorting.
From Stdlib Require Import ZArith Lia.
From S2P Require Import Prelude BTree BTreeArrays BTreeNode BTreeAlloc.
Open Scope Z_scope.

(** A leaf has its entries (key and record), an inner node its keys and its
    children; both have the address of the node. *)
Inductive tree :=
  | Leaf (p : Z) (es : list (Z * Z))
  | Inner (p : Z) (ks : list Z) (ts : list tree).

Definition root_of (t : tree) : Z := match t with Leaf p _ => p | Inner p _ _ => p end.

(** The address of the first leaf, and that of the first leaf of some trees or
    else of what follows them. *)
Fixpoint fleaf (t : tree) : Z :=
  match t with
  | Leaf p _ => p
  | Inner _ _ ts => match ts with [] => 0 | t :: _ => fleaf t end
  end.
Definition hdf (ts : list tree) (nxt : Z) : Z := match ts with [] => nxt | t :: _ => fleaf t end.

(** The entries in order. *)
Fixpoint flat (t : tree) : list (Z * Z) :=
  match t with Leaf _ es => es | Inner _ _ ts => concat (map flat ts) end.
Definition flats (ts : list tree) : list (Z * Z) := concat (map flat ts).

(** The nodes of a tree whose parent is [par] and whose last leaf is followed by
    [nxt]. *)
Fixpoint cells (par nxt : Z) (t : tree) : list (Z * content) :=
  match t with
  | Leaf p es => [(p, Content true par es.*1 es.*2 nxt)]
  | Inner p ks ts =>
      (p, Content false par ks (map root_of ts) 0) ::
      (fix go ts := match ts with [] => [] | t :: ts => cells p (hdf ts nxt) t ++ go ts end) ts
  end.
Fixpoint cells_list (p nxt : Z) (ts : list tree) : list (Z * content) :=
  match ts with [] => [] | t :: ts => cells p (hdf ts nxt) t ++ cells_list p nxt ts end.

Fixpoint ids (t : tree) : list Z :=
  match t with Leaf p _ => [p] | Inner p _ ts => p :: concat (map ids ts) end.
Definition idss (ts : list tree) : list Z := concat (map ids ts).

Lemma cells_Inner par nxt p ks ts :
  cells par nxt (Inner p ks ts) = (p, Content false par ks (map root_of ts) 0) :: cells_list p nxt ts.
Proof. simpl. f_equal. induction ts; simpl; congruence. Qed.

Lemma tree_rect' (P : tree -> Prop) :
  (forall p es, P (Leaf p es)) -> (forall p ks ts, Forall P ts -> P (Inner p ks ts)) -> forall t, P t.
Proof.
  intros HL HI. fix IH 1. intros [p es|p ks ts]; [apply HL|]. apply HI.
  induction ts; constructor; auto.
Qed.

Lemma cells_list_app p nxt ts1 ts2 :
  cells_list p nxt (ts1 ++ ts2) = cells_list p (hdf ts2 nxt) ts1 ++ cells_list p nxt ts2.
Proof.
  induction ts1 as [|t ts1 IH]; simpl; [done|]. rewrite IH, app_assoc. f_equal. f_equal. f_equal.
  destruct ts1; reflexivity.
Qed.

Lemma hdf_app ts1 ts2 nxt : hdf (ts1 ++ ts2) nxt = hdf ts1 (hdf ts2 nxt).
Proof. now destruct ts1. Qed.

Lemma flats_app a b : flats (a ++ b) = flats a ++ flats b.
Proof. unfold flats. now rewrite map_app, concat_app. Qed.
Lemma idss_app a b : idss (a ++ b) = idss a ++ idss b.
Proof. unfold idss. now rewrite map_app, concat_app. Qed.
Lemma flats_cons t a : flats (t :: a) = flat t ++ flats a.
Proof. reflexivity. Qed.
Lemma idss_cons t a : idss (t :: a) = ids t ++ idss a.
Proof. reflexivity. Qed.

Lemma cells_ids par nxt t : (cells par nxt t).*1 = ids t.
Proof.
  revert par nxt. induction t as [p es|p ks ts IH] using tree_rect'; intros par nxt; [done|].
  rewrite cells_Inner. simpl. f_equal. induction IH as [|t ts Ht _ IHts]; simpl; [done|].
  rewrite fmap_app, Ht. now f_equal.
Qed.

Lemma cells_list_ids p nxt ts : (cells_list p nxt ts).*1 = idss ts.
Proof.
  induction ts as [|t ts IH]; simpl; [done|]. rewrite fmap_app, cells_ids, IH. reflexivity.
Qed.

Lemma root_in_ids t : root_of t ∈ ids t.
Proof. destruct t; simpl; set_solver. Qed.

Lemma roots_in_idss ts p : p ∈ map root_of ts -> p ∈ idss ts.
Proof.
  induction ts as [|t ts IH]; simpl; [done|]. rewrite idss_cons. pose proof (root_in_ids t).
  rewrite elem_of_cons, elem_of_app. intros [->|?]; auto.
Qed.

Lemma roots_NoDup ts : NoDup (idss ts) -> NoDup (map root_of ts).
Proof.
  induction ts as [|t ts IH]; simpl; [constructor|]. rewrite idss_cons, NoDup_app.
  intros (_ & Hd & Hn). constructor; [|auto]. intros Hin. apply (Hd (root_of t)); [apply root_in_ids|].
  now apply roots_in_idss.
Qed.

(** ** Well-formed trees *)

Section seps.
Variable P : Z -> Z -> tree -> Prop.

(** Children between separators: the bounds of each child are the keys next to
    it. *)
Fixpoint seps (lo hi : Z) (ks : list Z) (ts : list tree) : Prop :=
  match ks, ts with
  | [], [t] => lo < hi /\ P lo hi t
  | k :: ks, t :: ts => lo < k /\ P lo k t /\ seps k hi ks ts
  | _, _ => False
  end.

(** The children and keys left and right of a child with bounds [a] and [b]. *)
Fixpoint seps_l (lo : Z) (ks : list Z) (ts : list tree) (a : Z) : Prop :=
  match ks, ts with
  | [], [] => lo = a
  | k :: ks, t :: ts => lo < k /\ P lo k t /\ seps_l k ks ts a
  | _, _ => False
  end.
Definition seps_r (b : Z) (ks : list Z) (ts : list tree) (hi : Z) : Prop :=
  match ks with
  | [] => ts = [] /\ b = hi
  | k :: ks => b = k /\ seps k hi ks ts
  end.

Lemma seps_len lo hi ks ts : seps lo hi ks ts -> length ts = S (length ks).
Proof.
  revert lo ts. induction ks as [|k ks IH]; intros lo [|t ts]; simpl; try done.
  - destruct ts; [done|intros []].
  - intros (_ & _ & H). now rewrite (IH _ _ H).
Qed.

Lemma seps_lt lo hi ks ts : seps lo hi ks ts -> lo < hi /\ Forall (fun k => lo < k < hi) ks.
Proof.
  revert lo ts. induction ks as [|k ks IH]; intros lo [|t ts]; simpl; try done.
  - destruct ts; [|done]. intros [? _]. auto.
  - intros (H1 & _ & H2). apply IH in H2 as [H2 H3]. split; [lia|]. constructor; [lia|].
    eapply Forall_impl; [exact H3|]. simpl. lia.
Qed.

Lemma seps_l_len lo ks ts a : seps_l lo ks ts a -> length ts = length ks.
Proof.
  revert lo ts. induction ks as [|k ks IH]; intros lo [|t ts]; simpl; try done.
  intros (_ & _ & H). now rewrite (IH _ _ H).
Qed.

Lemma seps_r_len b ks ts hi : seps_r b ks ts hi -> length ts = length ks.
Proof. destruct ks; simpl; [now intros [-> _]|]. intros [_ H]. now apply seps_len in H. Qed.

Lemma seps_l_lt lo ks ts a : seps_l lo ks ts a -> lo <= a /\ Forall (fun k => lo < k <= a) ks.
Proof.
  revert lo ts. induction ks as [|k ks IH]; intros lo [|t ts]; simpl; try done.
  - intros ->. split; [lia|done].
  - intros (H1 & _ & H2). apply IH in H2 as [H2 H3]. split; [lia|]. constructor; [lia|].
    eapply Forall_impl; [exact H3|]. simpl. lia.
Qed.

Lemma seps_r_lt b ks ts hi : seps_r b ks ts hi -> b <= hi /\ Forall (fun k => b <= k < hi) ks.
Proof.
  destruct ks as [|k ks]; simpl.
  - intros [_ ->]. split; [lia|done].
  - intros [-> H]. apply seps_lt in H as [H1 H2]. split; [lia|]. constructor; [lia|].
    eapply Forall_impl; [exact H2|]. simpl. lia.
Qed.

(** A node around one of its children. *)
Lemma seps_focus lo hi lk rk lt t rt :
  length lt = length lk ->
  seps lo hi (lk ++ rk) (lt ++ t :: rt) <->
  exists a b, seps_l lo lk lt a /\ a < b /\ P a b t /\ seps_r b rk rt hi.
Proof.
  revert lo lt. induction lk as [|k lk IH]; intros lo [|t0 lt]; simpl; try done; intros Hl.
  - destruct rk as [|k rk]; simpl.
    + destruct rt; split.
      * intros [? ?]. exists lo, hi. auto.
      * intros (a & b & -> & ? & ? & _ & ->). auto.
      * intros [].
      * now intros (a & b & _ & _ & _ & [=] & _).
    + split.
      * intros (? & ? & ?). exists lo, k. auto.
      * intros (a & b & -> & ? & ? & -> & ?). auto.
  - rewrite IH by congruence. clear. firstorder.
Qed.

(** A node cut in two at a key. *)
Lemma seps_split lo hi k1 k k2 t1 t2 :
  length t1 = S (length k1) ->
  seps lo hi (k1 ++ k :: k2) (t1 ++ t2) <-> seps lo k k1 t1 /\ seps k hi k2 t2.
Proof.
  revert lo t1. induction k1 as [|k' k1 IH]; intros lo [|t t1]; simpl; try done; intros Hl.
  - destruct t1; [|discriminate]. simpl. tauto.
  - rewrite IH by congruence. tauto.
Qed.

Lemma seps_l_snoc lo ks ts k t :
  length ts = length ks ->
  seps_l lo (ks ++ [k]) (ts ++ [t]) k <-> exists a, seps_l lo ks ts a /\ a < k /\ P a k t.
Proof.
  revert lo ts. induction ks as [|k' ks IH]; intros lo [|t' ts]; simpl; try done; intros Hl.
  - split; [intros (? & ? & _); eauto|]. intros (a & -> & ? & ?). auto.
  - rewrite IH by congruence. clear. firstorder.
Qed.

(** The child whose bounds contain a key. *)
Lemma seps_find lo hi ks ts key :
  seps lo hi ks ts -> lo <= key < hi ->
  exists lk rk lt t rt a b, ks = lk ++ rk /\ ts = lt ++ t :: rt /\ length lt = length lk /\
    Forall (fun k => k <= key) lk /\ match rk with [] => True | k :: _ => key < k end /\
    seps_l lo lk lt a /\ a < b /\ P a b t /\ a <= key < b /\ seps_r b rk rt hi.
Proof.
  revert lo ts. induction ks as [|k ks IH]; intros lo [|t ts]; simpl; try done.
  - destruct ts; [|done]. intros [? ?] Hk. exists [], [], [], t, [], lo, hi. simpl. auto 15.
  - intros (Hlt & Ht & Hs) Hk. destruct (Z.lt_ge_cases key k).
    + exists [], (k :: ks), [], t, ts, lo, k. simpl. auto 15 with lia.
    + destruct (IH k ts Hs) as (lk & rk & lt & u & rt & a & b & -> & -> & Hl & Hle & Hr & Hsl & Hab & Hu & Hkab & Hsr); [lia|].
      exists (k :: lk), rk, (t :: lt), u, rt, a, b. simpl. split_and!; auto; lia.
Qed.
End seps.

Section wf.
Context {cfg : BtConfig} {cfg_ok : BtOk}.

(** The least number of keys of a node below the root, by its height. *)
Definition min_keys (h : nat) : Z :=
  match h with O => cut (order - 1) | S _ => cut order - 1 end.

(** A tree of height [h] with at least [m] keys in its root and all keys from
    [lo] up to and excluding [hi]. *)
Fixpoint wf (h : nat) (m lo hi : Z) (t : tree) : Prop :=
  match h, t with
  | O, Leaf _ es => StronglySorted Z.lt es.*1 /\ Forall (fun k => lo <= k < hi) es.*1 /\
                    m <= zlen es <= order - 1
  | S h, Inner _ ks ts => m <= zlen ks <= order - 1 /\ seps (wf h (min_keys h)) lo hi ks ts
  | _, _ => False
  end.

Abbreviation wfm h := (wf h (min_keys h)).

Lemma min_keys_pos h : 1 <= min_keys h.
Proof.
  pose proof order_ok. destruct h; simpl.
  - destruct (cut_half (order - 1)); lia.
  - destruct (cut_half order); lia.
Qed.

Lemma wf_weaken h m m' lo hi t : m' <= m -> wf h m lo hi t -> wf h m' lo hi t.
Proof.
  intros Hm. destruct h, t; simpl; try done.
  - intros (? & ? & ?). repeat split; auto; lia.
  - intros (? & ?). split; auto; lia.
Qed.

Lemma flats_seps h lo hi ks ts :
  (forall lo hi t, wfm h lo hi t -> StronglySorted Z.lt (flat t).*1 /\ Forall (fun k => lo <= k < hi) (flat t).*1) ->
  seps (wfm h) lo hi ks ts ->
  StronglySorted Z.lt (flats ts).*1 /\ Forall (fun k => lo <= k < hi) (flats ts).*1.
Proof.
  intros IH. revert lo ts. induction ks as [|k ks IHk]; intros lo [|t ts]; simpl; try done.
  - destruct ts; [|done]. intros [_ Ht]. unfold flats. simpl. rewrite app_nil_r. auto.
  - intros (Hlt & Ht & Hs). pose proof (seps_lt _ _ _ _ _ Hs) as [Hk _].
    apply IH in Ht as [Hs1 Hb1]. apply IHk in Hs as [Hs2 Hb2].
    rewrite flats_cons, fmap_app. split.
    + apply StronglySorted_app. split_and!; auto.
      intros x y Hx Hy. rewrite Forall_forall in Hb1, Hb2.
      specialize (Hb1 x Hx). specialize (Hb2 y Hy). lia.
    + apply Forall_app. split; (eapply Forall_impl; [eassumption|]); simpl; lia.
Qed.

(** The entries are sorted and within the bounds. *)
Lemma wf_flat h m lo hi t :
  wf h m lo hi t -> StronglySorted Z.lt (flat t).*1 /\ Forall (fun k => lo <= k < hi) (flat t).*1.
Proof.
  revert m lo hi t. induction h as [|h IH]; intros m lo hi [p es|p ks ts]; simpl; try done.
  - intros (? & ? & _). auto.
  - intros (_ & Hs). eapply flats_seps; eauto.
Qed.

(** ** Paths *)

(** An inner node without one of its children. *)
Record frame := Frame {
  f_p : Z; f_lk : list Z; f_lt : list tree; f_rk : list Z; f_rt : list tree }.

Definition plug (f : frame) (t : tree) : tree :=
  Inner (f_p f) (f_lk f ++ f_rk f) (f_lt f ++ t :: f_rt f).

(** The tree with [t] at the end of a path; the innermost frame is the first. *)
Definition fill (path : list frame) (t : tree) : tree := fold_left (fun t f => plug f t) path t.

Definition path_par (path : list frame) : Z := match path with [] => 0 | f :: _ => f_p f end.
Fixpoint path_nxt (path : list frame) : Z :=
  match path with [] => 0 | f :: path => hdf (f_rt f) (path_nxt path) end.
Fixpoint path_root (path : list frame) (r : Z) : Z :=
  match path with [] => r | f :: path => path_root path (f_p f) end.
Fixpoint path_cells (path : list frame) (r l : Z) : list (Z * content) :=
  match path with
  | [] => []
  | f :: path =>
      (f_p f, Content false (path_par path) (f_lk f ++ f_rk f)
                (map root_of (f_lt f) ++ r :: map root_of (f_rt f)) 0)
      :: cells_list (f_p f) l (f_lt f) ++ cells_list (f_p f) (path_nxt path) (f_rt f)
      ++ path_cells path (f_p f) (hdf (f_lt f) l)
  end.
Fixpoint path_ids (path : list frame) : list Z :=
  match path with [] => [] | f :: path => f_p f :: idss (f_lt f) ++ idss (f_rt f) ++ path_ids path end.
Fixpoint path_fl (path : list frame) : list (Z * Z) :=
  match path with [] => [] | f :: path => path_fl path ++ flats (f_lt f) end.
Fixpoint path_fr (path : list frame) : list (Z * Z) :=
  match path with [] => [] | f :: path => flats (f_rt f) ++ path_fr path end.

Lemma fleaf_plug f t : fleaf (plug f t) = hdf (f_lt f) (fleaf t).
Proof. simpl. now destruct (f_lt f). Qed.

Lemma cells_plug par nxt f t :
  cells par nxt (plug f t) ≡ₚ
  ((f_p f, Content false par (f_lk f ++ f_rk f) (map root_of (f_lt f) ++ root_of t :: map root_of (f_rt f)) 0)
    :: cells_list (f_p f) (fleaf t) (f_lt f) ++ cells_list (f_p f) nxt (f_rt f))
  ++ cells (f_p f) (hdf (f_rt f) nxt) t.
Proof.
  unfold plug. rewrite cells_Inner, map_app. simpl. f_equiv.
  rewrite cells_list_app. simpl. rewrite <- app_assoc. f_equiv.
  apply Permutation_app_comm.
Qed.

Lemma cells_fill path t :
  cells 0 0 (fill path t) ≡ₚ
  path_cells path (root_of t) (fleaf t) ++ cells (path_par path) (path_nxt path) t.
Proof.
  revert t. induction path as [|f path IH]; intros t; [done|].
  unfold fill in *. cbn [fold_left]. rewrite IH, cells_plug, fleaf_plug. simpl.
  rewrite <- Permutation_middle. f_equiv.
  rewrite <- !app_assoc, Permutation_app_comm, <- !app_assoc. do 2 f_equiv.
  apply Permutation_app_comm.
Qed.

Lemma path_cells_ids path r l : (path_cells path r l).*1 = path_ids path.
Proof.
  revert r l. induction path as [|f path IH]; intros r l; simpl; [done|].
  f_equal. now rewrite !fmap_app, !cells_list_ids, IH.
Qed.

Lemma ids_fill path t : ids (fill path t) ≡ₚ path_ids path ++ ids t.
Proof.
  rewrite <- (cells_ids 0 0), <- (cells_ids (path_par path) (path_nxt path) t),
    <- (path_cells_ids path (root_of t) (fleaf t)), <- fmap_app.
  now rewrite cells_fill.
Qed.

Lemma root_fill path t : root_of (fill path t) = path_root path (root_of t).
Proof. revert t. induction path as [|f path IH]; intros t; [done|]. apply (IH (plug f t)). Qed.

Lemma flat_fill path t : flat (fill path t) = path_fl path ++ flat t ++ path_fr path.
Proof.
  revert t. induction path as [|f path IH]; intros t; simpl; [now rewrite app_nil_r|].
  unfold fill in *. cbn [fold_left]. rewrite IH. unfold plug. cbn [flat].
  fold (flats (f_lt f ++ t :: f_rt f)). rewrite flats_app, flats_cons. now rewrite <- !app_assoc.
Qed.

(** The root may hold fewer keys than other nodes. *)
Definition min_at (path : list frame) (h : nat) : Z :=
  match path with [] => 1 | _ => min_keys h end.

(** A path to a place at height [h] with bounds [a] and [b]. *)
Fixpoint path_wf (h : nat) (path : list frame) (a b : Z) : Prop :=
  match path with
  | [] => a = 0 /\ b = 2 ^ 64
  | f :: path => exists lo hi,
      path_wf (S h) path lo hi /\
      seps_l (wfm h) lo (f_lk f) (f_lt f) a /\ seps_r (wfm h) b (f_rk f) (f_rt f) hi /\
      min_at path (S h) <= zlen (f_lk f ++ f_rk f) <= order - 1
  end.

Lemma fill_wf path h a b t :
  path_wf h path a b -> a < b -> wf h (min_at path h) a b t ->
  wf (length path + h) 1 0 (2 ^ 64) (fill path t).
Proof.
  revert h a b t. induction path as [|f path IH]; intros h a b t.
  - now intros [-> ->].
  - intros (lo & hi & Hp & Hl & Hr & Hn) Hab Ht.
    assert (Hs : seps (wfm h) lo hi (f_lk f ++ f_rk f) (f_lt f ++ t :: f_rt f)).
    { apply seps_focus; [eapply seps_l_len, Hl|]. exists a, b. auto. }
    replace (length (f :: path) + h)%nat with (length path + S h)%nat by (simpl; lia).
    apply (IH (S h) lo hi (plug f t)); auto.
    + now apply seps_lt in Hs.
    + simpl. auto.
Qed.
End wf.
Abbreviation wfm h := (wf h (min_keys h)).
