(* ===== verification/BTreeFind.v ===== *)
(** Search in a B+ tree: a tree in memory ([tree_rep]), the descent to a leaf and
    the record found there. *)
From stdpp Require Import base numbers list gmap strings sorting.
From Stdlib Require Import ZArith Lia.
From S2P Require Import Prelude BTree BTreeArrays BTreeNode BTreeAlloc BTreeTree.
Open Scope Z_scope.

Section find.
Context {cfg : BtConfig} {cfg_ok : BtOk}.

(** The memory holds these cells. *)
Definition holds (s : btree) (cs : list (Z * content)) : Prop :=
  Forall (fun '(p, c) => exists n, nodes s !! p = Some n /\ node_ok n c) cs.

#[global] Instance holds_perm s : Proper ((≡ₚ) ==> iff) (holds s).
Proof. intros c1 c2 Hc. unfold holds. now rewrite Hc. Qed.

Lemma holds_app s c1 c2 : holds s (c1 ++ c2) <-> holds s c1 /\ holds s c2.
Proof. apply Forall_app. Qed.

Lemma holds_cons s p c cs :
  holds s ((p, c) :: cs) <-> (exists n, nodes s !! p = Some n /\ node_ok n c) /\ holds s cs.
Proof. unfold holds. now rewrite Forall_cons. Qed.

Lemma holds_same s s' cs :
  (forall q, q ∈ cs.*1 -> nodes s' !! q = nodes s !! q) -> holds s cs -> holds s' cs.
Proof.
  unfold holds. rewrite !Forall_forall. intros Hq Hs [p c] Hpc.
  destruct (Hs _ Hpc) as (n & Hn & Hok). exists n. split; [|done].
  rewrite Hq; [done|]. apply list_elem_of_fmap. now exists (p, c).
Qed.

Lemma holds_upd s p n cs : p ∉ cs.*1 -> holds s cs -> holds (upd s p n) cs.
Proof.
  intros Hp. apply holds_same. intros q Hq. unfold upd. simpl.
  apply lookup_insert_ne. congruence.
Qed.

(** A well-formed tree in memory. *)
Record tree_rep (s : btree) (t : tree) : Prop := {
  rep_wf : exists h, wf h 1 0 (2 ^ 64) t;
  rep_cells : holds s (cells 0 0 t);
  rep_nodup : NoDup (ids t);
  rep_mem : node_mem s (ids t) }.

Lemma height_ids h m lo hi t : wf h m lo hi t -> (h < length (ids t))%nat.
Proof.
  revert m lo hi t. induction h as [|h IH]; intros m lo hi [p es|p ks ts]; simpl; try done; try lia.
  intros (_ & Hs). destruct ts as [|t ts]; [now apply seps_len in Hs|].
  change (concat (map ids (t :: ts))) with (ids t ++ idss ts). rewrite length_app.
  assert (Ht : exists lo hi, wfm h lo hi t) by (destruct ks, ts; simpl in Hs; naive_solver).
  destruct Ht as (lo' & hi' & Ht). apply IH in Ht. lia.
Qed.

(** The walks have enough fuel: distinct nodes have distinct addresses. *)
Lemma height_fuel h m lo hi t s live :
  wf h m lo hi t -> NoDup (ids t) -> node_mem s live -> (forall p, p ∈ ids t -> p ∈ live) ->
  (h < walk_fuel s)%nat.
Proof.
  intros Ht Hnd [l Hm] Hsub. apply height_ids in Ht. unfold walk_fuel.
  assert (Hle : (length (ids t) <= length (seqZ 1 (brk s - 1)))%nat).
  { apply submseteq_length, NoDup_submseteq; [done|]. intros p Hp. apply elem_of_seqZ.
    pose proof (slab_range _ _ _ _ _ _ Hm p (slab_live _ _ _ _ _ _ Hm p (Hsub p Hp))). lia. }
  rewrite length_seqZ in Hle. lia.
Qed.

Lemma root_nz s t : tree_rep s t -> root_of t <> 0 /\ root_of t =? 0 = false.
Proof.
  intros [_ _ _ [l Hm]]. assert (H0 : 0 < root_of t).
  { apply (slab_range _ _ _ _ _ _ Hm), (slab_live _ _ _ _ _ _ Hm), root_in_ids. }
  split; [lia|]. apply Z.eqb_neq. lia.
Qed.

(** The search in a leaf stops at the first entry with the key. *)
Lemma leaf_scan n par es nxt e1 e2 key :
  node_ok n (Content true par es.*1 es.*2 nxt) -> es = e1 ++ e2 -> key ∉ e1.*1 ->
  match e2 with [] => True | e :: _ => e.1 = key end ->
  scan (length (keys n)) (fun i => if i <? num_keys n then k ← aread (keys n) i; Ok (negb (k =? key)) else Ok false)
    = Ok (zlen e1).
Proof.
  intros [_ _ Hnum [jk Hk] _ _ _ _ _] -> H1 H2. simpl in *.
  rewrite fmap_app in Hk. rewrite Hk, <- app_assoc.
  rewrite (scan_bounded (fun k => negb (k =? key))); [f_equal; zl| | |].
  - apply Forall_forall. intros k Hin. apply negb_true_iff, Z.eqb_neq. congruence.
  - destruct e2 as [|[k r] e2]; simpl in *; [done|]. subst. now rewrite Z.eqb_refl.
  - now rewrite Hnum, fmap_app.
Qed.

Lemma child_index_spec n par lk rk ps key :
  node_ok n (Content false par (lk ++ rk) ps 0) ->
  Forall (fun k => k <= key) lk -> match rk with [] => True | k :: _ => key < k end ->
  child_index n key = Ok (zlen lk).
Proof.
  intros [_ _ Hnum [jk Hk] _ _ _ _ _] Hl Hr. simpl in *. unfold child_index.
  rewrite Hk, <- app_assoc. apply (scan_bounded (fun k => k <=? key)).
  - eapply Forall_impl; [exact Hl|]. intros k Hk'. now apply Z.leb_le.
  - destruct rk; [done|]. now apply Z.leb_gt.
  - done.
Qed.

(** The descent: the leaf reached is the one whose bounds contain the key. *)
Lemma find_leaf_loop_spec h lo hi t path par nxt fuel s key :
  wf h (min_at path h) lo hi t -> lo <= key < hi -> path_wf h path lo hi ->
  holds s (cells par nxt t) -> (h < fuel)%nat ->
  exists path' p es a b, fill path' (Leaf p es) = fill path t /\ path_wf 0 path' a b /\
    a < b /\ a <= key < b /\ wf 0 (min_at path' 0) a b (Leaf p es) /\
    find_leaf_loop fuel (root_of t) key false s = Ok (p, s).
Proof.
  revert lo hi t path par nxt fuel.
  induction h as [|h IH]; intros lo hi [p es|p ks ts] path par nxt fuel Hwf Hkey Hpath Hs Hfuel;
    try (exfalso; exact Hwf); (destruct fuel as [|fuel]; [lia|]); cbn [find_leaf_loop root_of].
  - apply holds_cons in Hs as [(n & Hn & Hok) _].
    exists path, p, es, lo, hi. refine (conj eq_refl (conj Hpath (conj _ (conj Hkey (conj Hwf _))))); [lia|].
    run_get Hn. rewrite (ok_leaf _ _ Hok). reflexivity.
  - destruct Hwf as [Hnum Hseps].
    destruct (seps_find _ _ _ _ _ _ Hseps Hkey) as
      (lk & rk & lt & u & rt & a & b & -> & -> & Hlen & Hl & Hr & Hsl & Hab & Hu & Hk & Hsr).
    rewrite cells_Inner, map_app in Hs. apply holds_cons in Hs as [(n & Hn & Hok) Hs].
    rewrite cells_list_app in Hs. apply holds_app in Hs as [_ Hs].
    cbn [cells_list] in Hs. apply holds_app in Hs as [Hs _].
    destruct (IH a b u (Frame p lk lt rk rt :: path) p (hdf rt nxt) fuel)
      as (path' & q & es & a' & b' & Hfill & Hrest); [done|done| |done|lia|].
    { exists lo, hi. auto. }
    exists path', q, es, a', b'. split; [exact Hfill|].
    destruct Hrest as (H1 & H2 & H3 & H4 & Hrun). refine (conj H1 (conj H2 (conj H3 (conj H4 _)))).
    run_get Hn. rewrite (ok_leaf _ _ Hok). cbn [c_leaf].
    run (whenB_false (_ ← emit [Text "["]; _ ← print_keys n; emit [Text "] "]) s).
    rewrite (bindB _ _ _ _ _ (liftB _ s _ (child_index_spec _ _ _ _ _ _ Hok Hl Hr))).
    run (whenB_false (emit [Num (zlen lk); Text " ->\n"]) s).
    destruct Hok as [_ _ _ _ [jp Hp] _ _ _ _]. simpl in Hp.
    rewrite <- app_assoc in Hp. cbn [app] in Hp.
    assert (Hrd : aread (pointers n) (zlen lk) = Ok (root_of u)) by (rewrite Hp; apply aread_mid; zl).
    run_lift Hrd. exact Hrun.
Qed.

(** [find]: the record of the key, or none when the leaf does not have the key. *)
Lemma bt_find_spec s t key :
  tree_rep s t -> 0 <= key < 2 ^ 64 ->
  exists path p es a b, t = fill path (Leaf p es) /\ path_wf 0 path a b /\
    a < b /\ a <= key < b /\ wf 0 (min_at path 0) a b (Leaf p es) /\
    find_leaf (root_of t) key false s = Ok (p, s) /\
    ((exists r e1 e2, es = e1 ++ (key, r) :: e2 /\ key ∉ e1.*1 /\
        bt_find (root_of t) key false s = Ok ((r, p), s)) \/
     (key ∉ es.*1 /\ bt_find (root_of t) key false s = Ok ((0, p), s))).
Proof.
  intros Hrep Hkey. pose proof (root_nz _ _ Hrep) as [_ Hnz].
  destruct Hrep as [[h Hwf] Hs Hnd Hm].
  pose proof (height_fuel _ _ _ _ _ _ _ Hwf Hnd Hm (fun p Hp => Hp)) as Hfuel.
  destruct (find_leaf_loop_spec h 0 (2 ^ 64) t [] 0 0 (walk_fuel s) s key) as
    (path & p & es & a & b & Hfill & Hp & Hab & Hk & Hl & Hrun); try done.
  exists path, p, es, a, b.
  assert (Hf : find_leaf (root_of t) key false s = Ok (p, s)).
  { unfold find_leaf. rewrite Hnz. run (getsB walk_fuel s). exact Hrun. }
  refine (conj (eq_sym Hfill) (conj Hp (conj Hab (conj Hk (conj Hl (conj Hf _)))))).
  change (fill [] t) with t in Hfill. rewrite <- Hfill in Hs. rewrite cells_fill in Hs.
  apply holds_app in Hs as [_ Hs]. apply holds_cons in Hs as [(n & Hn & Hok) _].
  pose proof (ok_num _ _ Hok) as Hnum. destruct (ok_ptrs _ _ Hok) as [jp Hptrs]. simpl in Hnum, Hptrs.
  destruct (decide (key ∈ es.*1)) as [Hin|Hout].
  - left. apply list_elem_of_fmap in Hin as ([k r] & -> & Hin). simpl in Hk.
    apply list_elem_of_split in Hin as (e1 & e2 & ->). exists r, e1, e2.
    destruct Hl as (Hss & _). apply sorted_NoDup in Hss.
    rewrite fmap_app in Hss. apply NoDup_app in Hss as (_ & Hd & _).
    assert (Hk1 : k ∉ e1.*1) by (intros Hin; apply (Hd k Hin); simpl; set_solver).
    split_and!; try done. unfold bt_find. rewrite Hnz. run Hf. run_get Hn.
    run_lift (leaf_scan _ _ _ _ e1 ((k, r) :: e2) _ Hok eq_refl Hk1 eq_refl).
    destruct (Z.eqb_spec (zlen e1) (num_keys n)) as [He|_]; [exfalso; zl|].
    assert (Hrd : aread (pointers n) (zlen e1) = Ok r).
    { rewrite Hptrs, fmap_app, <- app_assoc. apply aread_mid. zl. }
    now run_lift Hrd.
  - right. split; [done|]. unfold bt_find. rewrite Hnz. run Hf. run_get Hn.
    run_lift (leaf_scan _ _ _ _ es [] _ Hok (eq_sym (app_nil_r es)) Hout I).
    destruct (Z.eqb_spec (zlen es) (num_keys n)) as [_|He]; [done|exfalso; zl].
Qed.
End find.
