(* ===== verification/BTreeInsert.v ===== *)
(** Insertion into a B+ tree: the splits of leaves and inner nodes and the new
    root, each as a step from one tree in memory to the next, by induction on the
    path to the root. *)
From stdpp Require Import base numbers list gmap strings sorting.
From Stdlib Require Import ZArith Lia.
From S2P Require Import Prelude BTree BTreeArrays BTreeNode BTreeAlloc BTreeTree BTreeFind.
Open Scope Z_scope.

Section insert.
Context {cfg : BtConfig} {cfg_ok : BtOk}.

Lemma node_ok_parent n c par :
  node_ok n c -> node_ok (set_parent par n) (Content (c_leaf c) par (c_keys c) (c_ptrs c) (c_next c)).
Proof. intros []. split; nf; auto. Qed.

(** [child->parent = par] turns a tree below one node into a tree below another. *)
Lemma reparent s q nxt t par :
  holds s (cells q nxt t) -> NoDup (ids t) ->
  exists n, nodes s !! root_of t = Some n /\
    holds (upd s (root_of t) (set_parent par n)) (cells par nxt t).
Proof.
  intros Hs Hnd. rewrite <- (cells_ids q nxt) in Hnd.
  assert (Hc : exists c rest, cells q nxt t = (root_of t, c) :: rest /\
    cells par nxt t = (root_of t, Content (c_leaf c) par (c_keys c) (c_ptrs c) (c_next c)) :: rest).
  { destruct t as [p es|p ks ts]; [now eexists _, _|]. rewrite !cells_Inner. now eexists _, _. }
  destruct Hc as (c & rest & Hq & Hpar). rewrite Hq in Hs, Hnd. rewrite Hpar.
  apply holds_cons in Hs as [(n & Hn & Hok) Hs]. exists n. split; [done|].
  simpl in Hnd. apply NoDup_cons in Hnd as [Hnin _]. apply holds_cons. split.
  - eexists. split; [apply lookup_insert_eq|]. now apply node_ok_parent.
  - now apply holds_upd.
Qed.

(** Trees in a row in memory, below any parents. *)
Fixpoint kids (s : btree) (nxt : Z) (ts : list tree) : Prop :=
  match ts with [] => True | t :: ts => (exists q, holds s (cells q (hdf ts nxt) t)) /\ kids s nxt ts end.

Lemma kids_cells_list s q nxt ts : holds s (cells_list q nxt ts) -> kids s nxt ts.
Proof. induction ts as [|t ts IH]; simpl; [done|]. rewrite holds_app. intros [? ?]. eauto. Qed.

Lemma kids_app s nxt ts1 ts2 : kids s nxt (ts1 ++ ts2) <-> kids s (hdf ts2 nxt) ts1 /\ kids s nxt ts2.
Proof.
  induction ts1 as [|t ts1 IH]; simpl; [tauto|]. rewrite IH, hdf_app. tauto.
Qed.

Lemma kids_same s s' nxt ts :
  (forall q, q ∈ idss ts -> nodes s' !! q = nodes s !! q) -> kids s nxt ts -> kids s' nxt ts.
Proof.
  induction ts as [|t ts IH]; simpl; [done|]. intros Hq [[p Hp] Hk]. rewrite idss_cons in Hq. split.
  - exists p. eapply holds_same, Hp. intros q. rewrite cells_ids. intros Hin. apply Hq. set_solver.
  - apply IH; [|done]. intros q Hin. apply Hq. set_solver.
Qed.

Lemma adopt_spec s p v nxt ts jp par :
  nodes s !! p = Some v -> pointers v = map root_of ts ++ jp -> kids s nxt ts -> NoDup (idss ts) ->
  exists s', adopt p (zlen ts) par s = Ok (tt, s') /\ same_alloc s s' /\
    holds s' (cells_list par nxt ts) /\
    (forall r, r ∉ map root_of ts -> nodes s' !! r = nodes s !! r).
Proof.
  intros Hv Hp Hk Hnd. unfold adopt. run_get Hv.
  match goal with |- context [forB 0 _ ?body s] => destruct (forB_inv (fun i t =>
    exists u1 u2, ts = u1 ++ u2 /\ i = zlen u1 /\ holds t (cells_list par (hdf u2 nxt) u1) /\
      kids t nxt u2 /\ same_alloc s t /\ (forall r, r ∉ map root_of ts -> nodes t !! r = nodes s !! r))
    0 (zlen ts) body s) as (s' & Hrun & u1 & u2 & Hts & Hl & Hh & _ & Hsame & Hr) end.
  - zl.
  - exists [], ts. split_and!; try done. constructor.
  - intros i t Hi (u1 & u2 & -> & -> & Hh & Hku & Hsame & Hr).
    destruct u2 as [|u u2]; [exfalso; zl|]. simpl in Hku. destruct Hku as [[q Hq] Hku].
    rewrite idss_app, idss_cons in Hnd. apply NoDup_app in Hnd as (Hnd1 & Hd1 & Hnd2).
    apply NoDup_app in Hnd2 as (Hnd2 & Hd2 & Hnd3).
    destruct (reparent t q _ u par Hq Hnd2) as (n & Hn & Hh').
    exists (upd t (root_of u) (set_parent par n)). split.
    + assert (Hrd : aread (pointers v) (zlen u1) = Ok (root_of u)).
      { rewrite Hp, map_app, <- app_assoc. apply aread_mid. unfold zlen. now rewrite length_map. }
      run_lift Hrd. rewrite (on_node_set _ _ _ _ Hn). reflexivity.
    + pose proof (root_in_ids u) as Hru.
      exists (u1 ++ [u]), u2. rewrite <- app_assoc. split_and!; try done; [zl| | | |].
      * rewrite cells_list_app. simpl. rewrite app_nil_r. apply holds_app. split; [|exact Hh'].
        apply holds_upd; [|exact Hh]. rewrite cells_list_ids. intros Hin. apply (Hd1 _ Hin). set_solver.
      * eapply kids_same, Hku. intros r Hin. unfold upd. simpl. apply lookup_insert_ne.
        intros <-. exact (Hd2 _ Hru Hin).
      * etrans; [exact Hsame|]. eapply same_alloc_upd; [exact Hn|reflexivity].
      * intros r Hin. rewrite map_app in Hin. simpl in Hin. unfold upd. simpl.
        rewrite lookup_insert_ne by set_solver. apply Hr. now rewrite map_app.
  - exists s'. split; [exact Hrun|]. destruct u2; [|exfalso; subst; zl].
    rewrite app_nil_r in Hts. subst u1. auto.
Qed.

(** ** A new root *)

(** Steps that only add addresses for nodes. *)
Record keeps_records (s s' : btree) : Prop := {
  kr_records : records s' = records s;
  kr_free : free_recs s' = free_recs s;
  kr_brk : brk s <= brk s' }.

#[global] Instance keeps_records_preorder : PreOrder keeps_records.
Proof.
  split; [now intros s; split|]. intros s1 s2 s3 [? ? ?] [? ? ?]. split; [congruence|congruence|lia].
Qed.

Lemma same_keeps s s' : same_alloc s s' -> keeps_records s s'.
Proof. intros []. split; auto. lia. Qed.

Lemma fresh_keeps s s' live p : fresh s s' live p -> keeps_records s s'.
Proof. intros []. now split. Qed.

Lemma same_bump s size : same_alloc s (bump_stat s size).
Proof. now split. Qed.

Lemma insert_into_new_root_spec s h tl key tr :
  wfm h 0 key tl -> wfm h key (2 ^ 64) tr -> 0 < key < 2 ^ 64 ->
  holds s (cells 0 (fleaf tr) tl) -> holds s (cells 0 0 tr) ->
  NoDup (ids tl ++ ids tr) -> node_mem s (ids tl ++ ids tr) ->
  exists p s', insert_into_new_root (root_of tl) key (root_of tr) s = Ok (p, s') /\
    tree_rep s' (Inner p [key] [tl; tr]) /\ keeps_records s s'.
Proof.
  intros Hwl Hwr Hkey Hl Hr Hnd Hm. pose proof order_ok.
  destruct (make_node_spec _ _ Hm) as (p & s1 & n & Hrun & Hn & (Hlf & Hpar & Hnum & Hks & Hps) & Hfr).
  pose proof (fr_new _ _ _ _ Hfr) as Hnew. pose proof (fr_live _ _ _ _ Hfr) as Hlive.
  pose proof (root_in_ids tl) as Htl. pose proof (root_in_ids tr) as Htr.
  unfold insert_into_new_root. run Hrun.
  replace (Z.to_nat (order - 1)) with (S (Z.to_nat (order - 2))) in Hks by lia.
  replace (Z.to_nat order) with (S (S (Z.to_nat (order - 2)))) in Hps by lia.
  set (n1 := Node (root_of tl :: root_of tr :: replicate (Z.to_nat (order - 2)) 0)
               (key :: replicate (Z.to_nat (order - 2)) 0) 0 false 1 (n_stats n) (n_next n)).
  assert (Hw : (n ← wkey 0 key n; n ← wptr 0 (root_of tl) n; n ← wptr 1 (root_of tr) n;
        Ok (set_parent 0 (set_num_keys (u64 (num_keys n + 1)) n))) = Ok n1).
  { unfold wkey, wptr. rewrite Hks. cbn [replicate]. rewrite awrite_0.
    cbn [mbind res_bind]. nf. rewrite Hps. cbn [replicate]. rewrite awrite_0.
    cbn [mbind res_bind]. nf. rewrite awrite_1. cbn [mbind res_bind]. nf.
    rewrite Hnum. unfold set_parent, set_num_keys, set_pointers, set_keys. nf. now rewrite Hlf. }
  run_on Hn Hw.
  apply NoDup_app in Hnd as (Hnd1 & Hd & Hnd2).
  assert (Hl1 : holds (upd s1 p n1) (cells 0 (fleaf tr) tl)).
  { apply holds_upd; [rewrite cells_ids; set_solver|]. eapply holds_same, Hl.
    intros q. rewrite cells_ids. intros Hq. apply Hlive. set_solver. }
  destruct (reparent _ _ _ _ p Hl1 Hnd1) as (n2 & Hn2 & Hl2). run_set Hn2. set (s2 := upd (upd s1 p n1) _ _) in *.
  assert (Hr2 : holds s2 (cells 0 0 tr)).
  { apply holds_upd; [rewrite cells_ids; intros Hin; exact (Hd _ Htl Hin)|].
    apply holds_upd; [rewrite cells_ids; set_solver|]. eapply holds_same, Hr.
    intros q. rewrite cells_ids. intros Hq. apply Hlive. set_solver. }
  destruct (reparent _ _ _ _ p Hr2 Hnd2) as (n3 & Hn3 & Hr3). run_set Hn3. set (s3 := upd s2 _ _) in *.
  exists p, s3. split; [reflexivity|].
  assert (Hsame : same_alloc s1 s3).
  { etrans; [eapply (same_alloc_upd s1 p n n1 Hn eq_refl)|].
    etrans; [exact (same_alloc_upd _ _ _ (set_parent p n2) Hn2 eq_refl)|].
    exact (same_alloc_upd _ _ _ (set_parent p n3) Hn3 eq_refl). }
  split; [|etrans; [eapply fresh_keeps, Hfr|now apply same_keeps]].
  split.
  - exists (S h). simpl. split; [zl|]. split; [lia|]. split; [done|]. split; [lia|done].
  - rewrite cells_Inner. apply holds_cons. split; [|simpl; rewrite app_nil_r; apply holds_app; split].
    + exists n1. split.
      * unfold s3, s2, upd. simpl. rewrite !lookup_insert_ne by set_solver. apply lookup_insert_eq.
      * split; unfold n1; nf; try done; [now eexists|now eexists|zl|zl].
    + unfold s3. apply holds_upd; [|exact Hl2]. rewrite cells_ids. intros Hin. exact (Hd _ Hin Htr).
    + exact Hr3.
  - simpl. rewrite app_nil_r. constructor; [set_solver|]. apply NoDup_app. auto.
  - eapply node_mem_same; [exact Hsame|]. eapply node_mem_sub, Hfr. simpl. rewrite app_nil_r. auto.
Qed.

(** ** Splitting an inner node *)

(** The temporary array: the entries of a node with a new one in its place. *)
Lemma insert_copy (s1 s2 s3 : list Z) x n skip (size : nat) :
  n = zlen (s1 ++ s2) -> skip = zlen s1 -> n < Z.of_nat size ->
  exists d r, copy_around (s1 ++ s2 ++ s3) n skip (replicate size 0) = Ok d /\
    awrite d skip x = Ok (s1 ++ x :: s2 ++ r).
Proof.
  intros Hn Hskip Hsize.
  exists (s1 ++ 0 :: s2 ++ replicate (size - length (s1 ++ s2) - 1) 0), (replicate (size - length (s1 ++ s2) - 1) 0).
  split; [|now apply awrite_mid].
  replace (replicate size 0) with (replicate (length s1) 0 ++ 0 :: replicate (length s2) 0 ++
    replicate (size - length (s1 ++ s2) - 1) 0).
  - apply copy_around_spec; auto; now rewrite length_replicate.
  - change (0 :: replicate (length s2) 0 ++ replicate (size - length (s1 ++ s2) - 1) 0)
      with (replicate (S (length s2)) 0 ++ replicate (size - length (s1 ++ s2) - 1) 0).
    rewrite <- !replicate_add. f_equal. zl.
Qed.

Lemma split_at {A} (l : list A) (m : nat) :
  (m <= length l)%nat -> exists l1 l2, l = l1 ++ l2 /\ length l1 = m.
Proof. intros Hm. exists (take m l), (drop m l). now rewrite take_drop, length_take_le. Qed.

(** A node filled from the temporary arrays, with the pointer after the last key. *)
Lemma inner_fill (t0 t1 t2 u0 u1 u2 : list Z) x lo hi n :
  is_leaf n = false -> num_keys n = 0 -> zlen (keys n) = order - 1 -> zlen (pointers n) = order ->
  lo = zlen t0 -> lo = zlen u0 -> hi = lo + zlen t1 -> length u1 = length t1 -> zlen t1 <= order - 1 ->
  exists n', (n ← fill_node (t0 ++ t1 ++ x :: t2) (u0 ++ u1 ++ u2) lo hi n;
              p ← aread (t0 ++ t1 ++ x :: t2) hi; wptr (hi - lo) p n) = Ok n' /\
    node_ok n' (Content false (parent n) u1 (t1 ++ [x]) 0) /\ n_next n' = n_next n.
Proof.
  intros Hl Hnum Hkl Hpl Hlo Hlo' Hhi Hu Hle. pose proof order_ok.
  destruct (split_at (pointers n) (length t1)) as (d1 & d2 & Hp & Hd1); [zl|].
  destruct (split_at (keys n) (length t1)) as (e1 & e2 & Hk & He1); [zl|].
  destruct d2 as [|y d2]; [exfalso; rewrite Hp in Hpl; zl|].
  erewrite (fill_node_spec t0 t1 (x :: t2) u0 u1 u2 d1 (y :: d2) e1 e2); eauto; [|lia|zl].
  cbn [mbind res_bind]. rewrite app_assoc, aread_mid by zl. cbn [mbind res_bind].
  unfold wptr. nf. rewrite awrite_mid by zl. cbn [mbind res_bind].
  eexists. split; [reflexivity|]. split; [|reflexivity].
  rewrite Hp in Hpl. rewrite Hk in Hkl.
  split; nf; try done; [zl|now eexists|exists d2; now rewrite <- app_assoc|zl|zl|zl].
Qed.

Lemma map_snoc {A C} (f : A -> C) l x : map f (l ++ [x]) = map f l ++ [f x].
Proof. now rewrite map_app. Qed.

Lemma zlen_map {A C} (f : A -> C) l : zlen (map f l) = zlen l.
Proof. unfold zlen. now rewrite length_map. Qed.

Lemma split_last {A} (l : list A) : l <> [] -> exists l' x, l = l' ++ [x].
Proof. destruct l as [|x l _] using rev_ind; [done|]. eauto. Qed.

Lemma set_num_keys_id n : set_num_keys (num_keys n) n = n.
Proof. now destruct n. Qed.

Lemma split_inner_spec s p np q nq par ks ts r1 r2 nxt :
  nodes s !! p = Some np -> is_leaf np = false -> parent np = par ->
  zlen (keys np) = order - 1 -> zlen (pointers np) = order ->
  nodes s !! q = Some nq -> blank false nq ->
  zlen ks = order -> length ts = S (length ks) ->
  holds s (cells_list p nxt ts) -> NoDup (idss ts) -> p <> q -> p ∉ idss ts -> q ∉ idss ts ->
  exists s' k1 k' k2 t1 t2,
    split_inner (map root_of ts ++ r1) (ks ++ r2) p q s = Ok (k', s') /\
    ks = k1 ++ k' :: k2 /\ ts = t1 ++ t2 /\ zlen k1 = cut order - 1 /\ length t1 = S (length k1) /\
    holds s' (cells par (hdf t2 nxt) (Inner p k1 t1)) /\ holds s' (cells par nxt (Inner q k2 t2)) /\
    same_alloc s s' /\ (forall r, r <> p -> r <> q -> r ∉ idss ts -> nodes s' !! r = nodes s !! r).
Proof.
  intros Hp Hplf Hppar Hpk Hpp Hq (Hqlf & Hqpar & Hqnum & Hqk & Hqp) Hks Hts Hs Hnd Hpq Hpt Hqt.
  pose proof order_ok. pose proof (cut_half order).
  destruct (split_at ks (Z.to_nat (cut order - 1))) as (k1 & k2' & -> & Hk1); [zl|].
  destruct k2' as [|k' k2]; [exfalso; zl|].
  destruct (split_at ts (S (length k1))) as (t1 & t2 & -> & Ht1); [zl|].
  destruct (split_last t1) as (t1' & x & ->); [intros ->; discriminate|].
  destruct (split_last t2) as (t2' & y & ->); [intros ->; zl|].
  assert (Htp : map root_of ((t1' ++ [x]) ++ t2' ++ [y]) ++ r1
    = [] ++ map root_of t1' ++ root_of x :: map root_of t2' ++ root_of y :: r1).
  { rewrite !map_app. simpl. now rewrite <- !app_assoc. }
  assert (Htp' : [] ++ map root_of t1' ++ root_of x :: map root_of t2' ++ root_of y :: r1
    = map root_of (t1' ++ [x]) ++ map root_of t2' ++ root_of y :: r1).
  { rewrite map_app. simpl. now rewrite <- app_assoc. }
  assert (Htk : (k1 ++ k' :: k2) ++ r2 = (k1 ++ [k']) ++ k2 ++ r2) by (now rewrite <- !app_assoc).
  destruct (inner_fill [] (map root_of t1') (map root_of t2' ++ root_of y :: r1) [] k1 (k' :: k2 ++ r2) (root_of x)
    0 (cut order - 1) (set_num_keys 0 np)) as (np' & Hf1 & Hok1 & Hnx1);
    try done; try (rewrite ?length_map, ?zlen_map; zl).
  destruct (inner_fill (map root_of (t1' ++ [x])) (map root_of t2') r1 (k1 ++ [k']) k2 r2 (root_of y)
    (cut order) order nq) as (nq' & Hf2 & Hok2 & Hnx2);
    try done; try (rewrite ?length_map, ?zlen_map; zl); [rewrite Hqk; zl|rewrite Hqp; zl|].
  rewrite <- Htp' in Hf2. rewrite <- Htp in Hf1, Hf2. rewrite Z.sub_0_r in Hf1.
  rewrite <- Htk in Hf2. replace ([] ++ k1 ++ k' :: k2 ++ r2) with ((k1 ++ k' :: k2) ++ r2) in Hf1 by (now rewrite <- app_assoc).
  unfold split_inner. run_on Hp Hf1. set (s1 := upd s p np').
  assert (Hk' : aread ((k1 ++ k' :: k2) ++ r2) (cut order - 1) = Ok k').
  { rewrite <- app_assoc. apply aread_mid. zl. }
  run_lift Hk'.
  assert (Hq1 : nodes s1 !! q = Some nq) by (unfold s1, upd; simpl; now rewrite lookup_insert_ne).
  run_on Hq1 Hf2. set (s2 := upd s1 q nq').
  assert (Hp2 : nodes s2 !! p = Some np').
  { unfold s2, s1, upd; simpl. rewrite lookup_insert_ne by done. apply lookup_insert_eq. }
  run_get Hp2. assert (Hq2 : nodes s2 !! q = Some nq') by apply lookup_insert_eq.
  run_set Hq2. rewrite (ok_parent _ _ Hok1). cbn [c_par]. nf. rewrite Hppar.
  set (s3 := upd s2 q (set_parent par nq')).
  assert (Hq3 : nodes s3 !! q = Some (set_parent par nq')) by apply lookup_insert_eq.
  run_get Hq3. nf. rewrite (ok_num _ _ Hok2). nf.
  assert (Hs3 : forall r, r <> p -> r <> q -> nodes s3 !! r = nodes s !! r).
  { intros r Hrp Hrq. unfold s3, s2, s1, upd. simpl. now rewrite !lookup_insert_ne. }
  set (t1 := t1' ++ [x]) in *. set (t2 := t2' ++ [y]) in *.
  rewrite cells_list_app in Hs. apply holds_app in Hs as [Hc1 Hc2].
  rewrite idss_app in *. apply NoDup_app in Hnd as (Hnd1 & Hd & Hnd2).
  assert (Hkids : kids s3 nxt t2).
  { eapply kids_same, kids_cells_list, Hc2. intros r Hr. apply Hs3; intros ->; set_solver. }
  destruct (ok_ptrs _ _ Hok2) as [jp Hjp]. nf_in Hjp.
  destruct (adopt_spec s3 q (set_parent par nq') nxt t2 jp q) as (s4 & Hrun & Hsame & Hh & Hr); try done.
  { nf. rewrite Hjp. unfold t2. now rewrite map_app. }
  replace (zlen k2 + 1) with (zlen t2) by zl. run Hrun.
  assert (Hroots : forall r, r ∈ map root_of t2 -> r ∈ idss t2) by apply roots_in_idss.
  exists s4, k1, k', k2, t1, t2. split_and!; try done; [zl| | | |].
  - rewrite cells_Inner. apply holds_cons. split.
    + exists np'. split; [|].
      * rewrite Hr by set_solver. unfold s3, upd. simpl. rewrite lookup_insert_ne by done. exact Hp2.
      * nf_in Hok1. rewrite Hppar in Hok1. unfold t1. rewrite map_app. exact Hok1.
    + eapply holds_same, Hc1. intros r. rewrite cells_list_ids. intros Hin.
      rewrite Hr by (intros Hr'; apply Hroots in Hr'; exact (Hd _ Hin Hr')). apply Hs3; intros ->; set_solver.
  - rewrite cells_Inner. apply holds_cons. split; [|done].
    exists (set_parent par nq'). split; [rewrite Hr by set_solver; exact Hq3|].
    apply (node_ok_parent _ _ par) in Hok2. unfold t2. rewrite map_app. exact Hok2.
  - etrans; [|exact Hsame]. etrans; [exact (same_alloc_upd s p np np' Hp Hnx1)|].
    etrans; [exact (same_alloc_upd s1 q nq nq' Hq1 Hnx2)|]. exact (same_alloc_upd s2 q nq' (set_parent par nq') Hq2 eq_refl).
  - intros r Hrp Hrq Hin. rewrite Hr by set_solver. now apply Hs3.
Qed.

Lemma insert_into_node_after_splitting_spec k s root p par lk rk lt tl tr rt key nxt live :
  let ks := lk ++ key :: rk in let ts := lt ++ tl :: tr :: rt in
  holds s ((p, Content false par (lk ++ rk) (map root_of lt ++ root_of tl :: map root_of rt) 0)
           :: cells_list p nxt ts) ->
  length lt = length lk -> length rt = length rk -> zlen (lk ++ rk) = order - 1 ->
  NoDup (p :: idss ts) -> node_mem s live -> (forall q, q ∈ p :: idss ts -> q ∈ live) ->
  exists q s' k1 k' k2 t1 t2,
    insert_into_node_after_splitting k root p (zlen lk) key (root_of tr) s = k root p k' q s' /\
    ks = k1 ++ k' :: k2 /\ ts = t1 ++ t2 /\ zlen k1 = cut order - 1 /\ length t1 = S (length k1) /\
    holds s' (cells par (hdf t2 nxt) (Inner p k1 t1)) /\ holds s' (cells par nxt (Inner q k2 t2)) /\
    node_mem s' (q :: live) /\ q ∉ live /\ keeps_records s s' /\
    (forall r, r ∈ live -> r ∉ p :: idss ts -> nodes s' !! r = nodes s !! r).
Proof.
  intros ks ts Hs Hlt Hrt Hfull Hnd Hm Hsub. pose proof order_ok.
  apply holds_cons in Hs as [(n & Hn & Hok) Hs].
  destruct Hok as [Hlf Hpar Hnum [jk Hk] [jp Hp] Hkl Hpl _ _]. nf_in Hlf. nf_in Hpar. nf_in Hnum. nf_in Hk. nf_in Hp.
  rewrite <- app_assoc in Hk, Hp. cbn [app] in Hp.
  replace (map root_of lt ++ root_of tl :: map root_of rt ++ jp)
    with (map root_of (lt ++ [tl]) ++ map root_of rt ++ jp) in Hp by (rewrite map_app, <- app_assoc; reflexivity).
  destruct (insert_copy (map root_of (lt ++ [tl])) (map root_of rt) jp (root_of tr) (num_keys n + 1) (zlen lk + 1)
    (Z.to_nat (order + 1))) as (d1 & r1 & Hd1 & Hw1).
  { rewrite Hnum, <- map_app, zlen_map. zl. }
  { rewrite zlen_map. zl. }
  { lia. }
  destruct (insert_copy lk rk jk key (num_keys n) (zlen lk) (Z.to_nat order)) as (d2 & r2 & Hd2 & Hw2);
    [done|done|lia|].
  rewrite <- Hp in Hd1. rewrite <- Hk in Hd2.
  unfold insert_into_node_after_splitting.
  run (allocate_align64_ok (u64 ((order + 1) * 8)) s). set (s1 := bump_stat s _).
  run (allocate_align64_ok (u64 (order * 8)) s1). set (s2 := bump_stat s1 _).
  rewrite !words by lia.
  run_get (Hn : nodes s2 !! p = Some n). run_lift Hd1. run_lift Hd2. run_lift Hw1. run_lift Hw2.
  assert (Hs2 : same_alloc s s2) by (etrans; apply same_bump).
  destruct (make_node_spec s2 live) as (q & s3 & nq & Hrun & Hnq & Hblank & Hfr); [now eapply node_mem_same|].
  run Hrun. pose proof (fr_new _ _ _ _ Hfr) as Hnew.
  assert (Hlive : forall r, r ∈ live -> nodes s3 !! r = nodes s !! r) by apply (fr_live _ _ _ _ Hfr).
  apply NoDup_cons in Hnd as [Hpt Hnd].
  assert (Hpl' : p ∈ live) by (apply Hsub; set_solver).
  destruct (split_inner_spec s3 p n q nq par ks ts r1 r2 nxt)
    as (s4 & k1 & k' & k2 & t1 & t2 & Hsplit & Hks & Hts & Hk1 & Ht1 & Hc1 & Hc2 & Hsame & Hr); try done.
  { now rewrite Hlive. }
  { unfold ks. zl. }
  { unfold ks, ts. zl. }
  { eapply holds_same, Hs. intros r. rewrite cells_list_ids. intros Hr. apply Hlive, Hsub. set_solver. }
  { congruence. }
  { intros Hin. apply Hnew, Hsub. set_solver. }
  exists q, s4, k1, k', k2, t1, t2. split.
  { replace (map root_of (lt ++ [tl]) ++ root_of tr :: map root_of rt ++ r1) with (map root_of ts ++ r1)
      by (unfold ts; rewrite !map_app; simpl; now rewrite <- !app_assoc).
    replace (lk ++ key :: rk ++ r2) with (ks ++ r2) by (unfold ks; now rewrite <- app_assoc).
    now run Hsplit. }
  split_and!; try done.
  - eapply node_mem_same; [exact Hsame|]. apply Hfr.
  - etrans; [apply same_keeps, Hs2|]. etrans; [eapply fresh_keeps, Hfr|]. now apply same_keeps.
  - intros r Hrl Hrt'. rewrite Hr; [auto|set_solver|congruence|set_solver].
Qed.

(** ** The way up *)

(** A node with one key and child more. *)
Lemma seps_insert h lo hi lk rk lt tl key tr rt a b :
  seps_l (wfm h) lo lk lt a -> a < key < b -> wfm h a key tl -> wfm h key b tr ->
  seps_r (wfm h) b rk rt hi -> seps (wfm h) lo hi (lk ++ key :: rk) (lt ++ tl :: tr :: rt).
Proof.
  intros Hl Hk Htl Htr Hr. apply seps_focus; [eapply seps_l_len, Hl|].
  exists a, key. split_and!; try done; try lia. simpl. split; [done|].
  change (tr :: rt) with ([] ++ tr :: rt). change rk with ([] ++ rk). apply seps_focus; [done|].
  exists key, b. simpl. split_and!; try done; lia.
Qed.

(** The two sides of a split inner node. *)
Lemma split_wf h lo hi ks ts k1 k' k2 t1 t2 p q :
  seps (wfm h) lo hi ks ts -> ks = k1 ++ k' :: k2 -> ts = t1 ++ t2 ->
  zlen ks = order -> zlen k1 = cut order - 1 -> length t1 = S (length k1) ->
  lo < k' < hi /\ wfm (S h) lo k' (Inner p k1 t1) /\ wfm (S h) k' hi (Inner q k2 t2).
Proof.
  intros Hs -> -> Hlen Hk1 Ht1. pose proof order_ok. pose proof (cut_half order).
  apply seps_lt in Hs as Hlt. destruct Hlt as [_ Hlt]. apply Forall_app in Hlt as [_ Hlt].
  apply Forall_cons in Hlt as [Hlt _]. apply seps_split in Hs as [H1 H2]; [|done].
  split; [lia|]. simpl. split; (split; [zl|done]).
Qed.

(** The path and the two trees make up the children of the parent node. *)
Lemma cells_list_two p l nxt lt tl tr rt s :
  holds s (cells_list p l lt) -> l = fleaf tl -> holds s (cells p (fleaf tr) tl) ->
  holds s (cells p (hdf rt nxt) tr) -> holds s (cells_list p nxt rt) ->
  holds s (cells_list p nxt (lt ++ tl :: tr :: rt)).
Proof.
  intros Hlt -> Htl Htr Hrt. rewrite cells_list_app. simpl. rewrite !holds_app. auto.
Qed.

Lemma path_perm p lk lt rk rt path tl tr :
  path_ids (Frame p lk lt rk rt :: path) ++ ids tl ++ ids tr ≡ₚ
  path_ids path ++ p :: idss (lt ++ tl :: tr :: rt).
Proof. rewrite idss_app, !idss_cons. simpl. solve_Permutation. Qed.

Lemma node_parent s par nxt t :
  holds s (cells par nxt t) -> exists n, nodes s !! root_of t = Some n /\ parent n = par.
Proof.
  intros Hs. destruct t; [|rewrite cells_Inner in Hs]; apply holds_cons in Hs as [(n & Hn & Hok) _];
    exists n; split; auto; apply (ok_parent _ _ Hok).
Qed.

Lemma node_mem_nz s live p : node_mem s live -> p ∈ live -> p =? 0 = false.
Proof.
  intros [l Hl] Hp. apply Z.eqb_neq.
  pose proof (slab_range _ _ _ _ _ _ Hl p (slab_live _ _ _ _ _ _ Hl p Hp)). lia.
Qed.

#[global] Instance node_mem_perm s : Proper ((≡ₚ) ==> iff) (node_mem s).
Proof.
  intros l1 l2 Hl. split; apply node_mem_sub; intros p; now rewrite Hl.
Qed.

(** A tree at the end of a path, put together. *)
Lemma fill_rep s path h a b t :
  path_wf h path a b -> a < b -> wf h (min_at path h) a b t ->
  holds s (path_cells path (root_of t) (fleaf t)) -> holds s (cells (path_par path) (path_nxt path) t) ->
  NoDup (path_ids path ++ ids t) -> node_mem s (path_ids path ++ ids t) ->
  tree_rep s (fill path t).
Proof.
  intros Hp Hab Ht Hc1 Hc2 Hnd Hm. split.
  - eexists. eapply fill_wf; eauto.
  - rewrite cells_fill. now apply holds_app.
  - now rewrite ids_fill.
  - now rewrite ids_fill.
Qed.

(** [insert_into_parent]: the tree in which [tl], [key], [tr] take the place at the
    end of the path. *)
Lemma insert_into_parent_spec path : forall fuel h tl key tr a b s,
  path_wf h path a b -> a < key < b -> wfm h a key tl -> wfm h key b tr ->
  holds s (path_cells path (root_of tl) (fleaf tl)) ->
  holds s (cells (path_par path) (fleaf tr) tl) -> holds s (cells (path_par path) (path_nxt path) tr) ->
  NoDup (path_ids path ++ ids tl ++ ids tr) -> node_mem s (path_ids path ++ ids tl ++ ids tr) ->
  (length path < fuel)%nat ->
  exists t' s', insert_into_parent fuel (path_root path (root_of tl)) (root_of tl) key (root_of tr) s
      = Ok (root_of t', s') /\
    tree_rep s' t' /\ flat t' = path_fl path ++ flat tl ++ flat tr ++ path_fr path /\ keeps_records s s'.
Proof.
  induction path as [|f path IH]; intros fuel h tl key tr a b s Hpath Hkey Hwl Hwr Hpc Hcl Hcr Hnd Hm Hfuel;
    (destruct fuel as [|fuel]; [simpl in Hfuel; lia|]); cbn [insert_into_parent].
  - destruct Hpath as [-> ->]. simpl in Hcl, Hcr.
    destruct (node_parent _ _ _ _ Hcl) as (n & Hn & Hpar). run_get Hn. rewrite Hpar. cbn [Z.eqb].
    destruct (insert_into_new_root_spec s h tl key tr) as (p & s' & Hrun & Hrep & Hkr); try done.
    exists (Inner p [key] [tl; tr]), s'. split_and!; done.
  - destruct Hpath as (lo & hi & Hpath & Hsl & Hsr & Hnum). destruct f as [p lk lt rk rt].
    set (ts := lt ++ tl :: tr :: rt).
    rewrite path_perm in Hnd, Hm. cbn [f_p f_lk f_lt f_rk f_rt path_par path_nxt path_cells path_root path_fl path_fr length] in *.
    pose proof (seps_insert _ _ _ _ _ _ _ _ _ _ _ _ Hsl Hkey Hwl Hwr Hsr) as Hseps.
    pose proof (seps_l_len _ _ _ _ _ Hsl) as Hlt. pose proof (seps_r_len _ _ _ _ _ Hsr) as Hrt.
    apply NoDup_app in Hnd as Hnd'. destruct Hnd' as (_ & Hd & Hnd2). apply NoDup_cons in Hnd2 as Hnd3.
    destruct Hnd3 as [Hpt Hndt].
    apply holds_cons in Hpc as [(np & Hnp & Hokp) Hpc]. apply holds_app in Hpc as [Hclt Hpc].
    apply holds_app in Hpc as [Hcrt Hpc].
    assert (Hcts : holds s (cells_list p (path_nxt path) ts)) by (eapply cells_list_two; eauto).
    destruct (node_parent _ _ _ _ Hcl) as (n & Hn & Hpar). run_get Hn. rewrite Hpar.
    rewrite (node_mem_nz _ _ p Hm) by set_solver.
    assert (Hidx : root_of tl ∉ map root_of lt).
    { intros Hin. apply roots_in_idss in Hin. unfold ts in Hndt. rewrite idss_app, idss_cons in Hndt.
      apply NoDup_app in Hndt as (_ & Hdt & _). apply (Hdt _ Hin). pose proof (root_in_ids tl). set_solver. }
    run (get_left_index_spec _ _ _ _ _ _ _ _ _ Hnp Hokp Hidx). rewrite zlen_map. run_get Hnp.
    rewrite order1, (ok_num _ _ Hokp). cbn [c_keys].
    replace (zlen lt) with (zlen lk) by zl.
    assert (Hhd : fleaf (Inner p (lk ++ key :: rk) ts) = hdf lt (fleaf tl)) by (unfold ts; now destruct lt).
    destruct (Z.ltb_spec (zlen (lk ++ rk)) (order - 1)) as [Hroom|Hfull].
    + destruct (insert_into_node_spec s (path_root path p) p np (path_par path) lk rk (map root_of lt) (root_of tl)
        (map root_of rt) key (root_of tr) Hnp Hokp) as (np' & Hrun & Hokp' & Hnx); [now rewrite length_map|done|].
      exists (fill path (Inner p (lk ++ key :: rk) ts)), (upd s p np').
      rewrite root_fill. cbn [root_of]. split; [exact Hrun|]. split_and!.
      * eapply fill_rep; try done.
        -- eapply seps_lt, Hseps.
        -- simpl. split; [zl|done].
        -- apply holds_upd; [rewrite path_cells_ids; set_solver|]. rewrite Hhd. exact Hpc.
        -- rewrite cells_Inner. apply holds_cons. split.
           ++ exists np'. split; [apply lookup_insert_eq|]. unfold ts. rewrite map_app. exact Hokp'.
           ++ apply holds_upd; [now rewrite cells_list_ids|done].
        -- eapply node_mem_same, Hm. eapply same_alloc_upd; eauto.
      * rewrite flat_fill. cbn [flat]. fold (flats ts). unfold ts. rewrite flats_app, !flats_cons.
        now rewrite <- !app_assoc.
      * apply same_keeps. eapply same_alloc_upd; eauto.
    + destruct (insert_into_node_after_splitting_spec (insert_into_parent fuel) s (path_root path p) p (path_par path)
        lk rk lt tl tr rt key (path_nxt path) (path_ids path ++ p :: idss ts))
        as (q & s' & k1 & k' & k2 & t1 & t2 & Hrun & Hks & Hts & Hk1 & Ht1 & Hc1 & Hc2 & Hm' & Hq & Hkr & Hr);
        try done; [|zl|set_solver|].
      { apply holds_cons. eauto. }
      rewrite Hrun.
      destruct (split_wf _ _ _ _ _ _ _ _ _ _ p q Hseps Hks Hts) as (Hk' & Hw1 & Hw2); [zl|done|done|].
      assert (Hne : t1 <> [] /\ t2 <> []).
      { split; intros ->; [discriminate|]. destruct Hw2 as [_ Hw2]. now apply seps_len in Hw2. }
      assert (Hfl : fleaf (Inner p k1 t1) = hdf lt (fleaf tl)).
      { rewrite <- Hhd. simpl. unfold ts. rewrite Hts. destruct t1; [now destruct Hne|done]. }
      assert (Hfr : fleaf (Inner q k2 t2) = hdf t2 (path_nxt path)) by (destruct t2; [now destruct Hne|done]).
      assert (Hperm : path_ids path ++ ids (Inner p k1 t1) ++ ids (Inner q k2 t2) ≡ₚ q :: path_ids path ++ p :: idss ts).
      { unfold ts. rewrite Hts, idss_app. simpl. fold (idss t1) (idss t2). solve_Permutation. }
      destruct (IH fuel (S h) (Inner p k1 t1) k' (Inner q k2 t2) lo hi s') as (t' & s'' & Hrun' & Hrep & Hflat & Hkr');
        try done; [..|lia|].
      * eapply holds_same; [|exact (eq_ind_r (fun l => holds s (path_cells path p l)) Hpc Hfl)].
        intros r. rewrite path_cells_ids. intros Hin. apply Hr; set_solver.
      * now rewrite Hfr.
      * rewrite Hperm. now constructor.
      * now rewrite Hperm.
      * exists t', s''. split_and!; try done; [|etrans; eauto]. rewrite Hflat. cbn [flat].
        rewrite (app_assoc (concat _)). fold (flats t1). fold (flats t2). rewrite <- flats_app, <- Hts.
        rewrite flats_app, !flats_cons. now rewrite <- !app_assoc.
Qed.

(** ** Splitting a leaf *)

Lemma upd_eq s p n : nodes (upd s p n) !! p = Some n.
Proof. apply lookup_insert_eq. Qed.
Lemma upd_ne s p q n : p <> q -> nodes (upd s p n) !! q = nodes s !! q.
Proof. intros. now apply lookup_insert_ne. Qed.

(** A leaf filled from the temporary arrays, linked to the next one and cleared. *)
Lemma leaf_fill (t0 t1 t2 u0 u1 u2 : list Z) lo hi n x y :
  is_leaf n = true -> num_keys n = 0 -> zlen (keys n) = order - 1 -> zlen (pointers n) = order ->
  aread (pointers n) (order - 1) = Ok y ->
  lo = zlen t0 -> lo = zlen u0 -> hi = lo + zlen t1 -> length u1 = length t1 -> zlen t1 <= order - 1 ->
  exists n1 n2 n3, fill_node (t0 ++ t1 ++ t2) (u0 ++ u1 ++ u2) lo hi n = Ok n1 /\
    aread (pointers n1) (order - 1) = Ok y /\
    wptr (order - 1) x n1 = Ok n2 /\ clear_pointers (num_keys n2) (order - 1) n2 = Ok n3 /\
    node_ok n3 (Content true (parent n) u1 t1 x) /\
    n_next n1 = n_next n /\ n_next n2 = n_next n /\ n_next n3 = n_next n.
Proof.
  intros Hl Hnum Hkl Hpl Hy Hlo Hlo' Hhi Hu Hle. pose proof order_ok.
  destruct (split_at (pointers n) (length t1)) as (d1 & d2 & Hp & Hd1); [zl|].
  destruct (split_at (keys n) (length t1)) as (e1 & e2 & Hk & He1); [zl|].
  destruct (split_last d2) as (d2' & z & ->); [intros ->; rewrite Hp in Hpl; zl|].
  assert (z = y) as ->.
  { rewrite Hp, app_assoc, aread_mid in Hy; [congruence|]. rewrite Hp in Hpl. zl. }
  rewrite Hp in Hpl. rewrite Hk in Hkl.
  eexists _, _, _. split_and!.
  - rewrite (fill_node_spec t0 t1 t2 u0 u1 u2 d1 (d2' ++ [y]) e1 e2); eauto; [lia|zl].
  - nf. rewrite app_assoc. apply aread_mid. zl.
  - unfold wptr. nf. rewrite app_assoc, awrite_mid by zl. reflexivity.
  - nf. apply (clear_pointers_spec t1 d2' [x]); nf; [now rewrite <- app_assoc|lia|zl].
  - nf. eapply node_ok_leaf; nf; try done; zl.
  - reflexivity.
  - reflexivity.
  - reflexivity.
Qed.

Lemma split_leaf_spec s p np q nq par nxt es r1 r2 :
  nodes s !! p = Some np -> is_leaf np = true -> parent np = par ->
  zlen (keys np) = order - 1 -> zlen (pointers np) = order -> aread (pointers np) (order - 1) = Ok nxt ->
  nodes s !! q = Some nq -> blank true nq -> p <> q -> zlen es = order ->
  exists s' e1 k r e2, split_leaf (es.*2 ++ r1) (es.*1 ++ r2) p q s = Ok (k, s') /\
    es = e1 ++ (k, r) :: e2 /\ zlen e1 = cut (order - 1) /\
    holds s' (cells par q (Leaf p e1)) /\ holds s' (cells par nxt (Leaf q ((k, r) :: e2))) /\
    same_alloc s s' /\ (forall r, r <> p -> r <> q -> nodes s' !! r = nodes s !! r).
Proof.
  intros Hp Hplf Hppar Hpk Hpp Hpn Hq (Hqlf & Hqpar & Hqnum & Hqk & Hqp) Hpq Hes.
  pose proof order_ok. pose proof (cut_half (order - 1)).
  destruct (split_at es (Z.to_nat (cut (order - 1)))) as (e1 & e2' & -> & He1); [zl|].
  destruct e2' as [|[k r] e2]; [exfalso; zl|].
  assert (Hy : exists y, aread (pointers nq) (order - 1) = Ok y).
  { destruct (aread_in_bounds (pointers nq) (order - 1)) as (y & Hy & _); [rewrite Hqp; zl|eauto]. }
  destruct Hy as [y Hy].
  destruct (leaf_fill [] e1.*2 (((k, r) :: e2).*2 ++ r1) [] e1.*1 (((k, r) :: e2).*1 ++ r2)
    0 (cut (order - 1)) (set_num_keys 0 np) q nxt)
    as (p1 & p2 & p3 & Hp1 & Hp1n & Hp2 & Hp3 & Hokp & Hpx1 & Hpx2 & Hpx3); try done; try (zl).
  destruct (leaf_fill e1.*2 ((k, r) :: e2).*2 r1 e1.*1 ((k, r) :: e2).*1 r2
    (cut (order - 1)) order nq nxt y)
    as (q1 & q2 & q3 & Hq1 & Hq1n & Hq2 & Hq3 & Hokq & Hqx1 & Hqx2 & Hqx3); try done;
    try (rewrite ?Hqk, ?Hqp; zl).
  cbn [app] in Hp1. rewrite !app_assoc, <- !fmap_app in Hp1, Hq1.
  unfold split_leaf. rewrite order1.
  run_on Hp Hp1. set (s1 := upd s p p1).
  assert (Hs1 : nodes s1 !! q = Some nq) by (unfold s1; now rewrite upd_ne). run_on Hs1 Hq1. set (s2 := upd s1 q q1).
  assert (Hs2 : nodes s2 !! p = Some p1) by (unfold s2; rewrite upd_ne by done; apply upd_eq).
  run_get Hs2. run_lift Hp1n. run_on (upd_eq s1 q q1) Hq2. set (s3 := upd s2 q q2).
  assert (Hs3 : nodes s3 !! p = Some p1) by (unfold s3; now rewrite upd_ne). run_on Hs3 Hp2. set (s4 := upd s3 p p2).
  run (on_nodeB _ _ _ _ (fun n => clear_pointers (num_keys n) (order - 1) n) (upd_eq s3 p p2) Hp3). set (s5 := upd s4 p p3).
  assert (Hs5 : nodes s5 !! q = Some q2) by (unfold s5, s4; rewrite !upd_ne by done; apply upd_eq).
  run (on_nodeB _ _ _ _ (fun n => clear_pointers (num_keys n) (order - 1) n) Hs5 Hq3). set (s6 := upd s5 q q3).
  assert (Hs6 : nodes s6 !! p = Some p3) by (unfold s6; rewrite upd_ne by done; apply upd_eq).
  run_get Hs6. run_set (upd_eq s5 q q3). rewrite (ok_parent _ _ Hokp). nf. rewrite Hppar.
  set (s7 := upd s6 q (set_parent par q3)). run_get (upd_eq s6 q (set_parent par q3)). nf.
  apply (node_ok_parent _ _ par) in Hokq. nf_in Hokq. destruct (ok_keys _ _ Hokq) as [jk Hjk]. nf_in Hjk.
  exists s7, e1, k, r, e2. split_and!; try done.
  - apply liftB. rewrite Hjk. apply aread_0.
  - zl.
  - apply holds_cons. split; [|constructor]. exists p3. split; [unfold s7; now rewrite upd_ne|].
    nf_in Hokp. now rewrite Hppar in Hokp.
  - apply holds_cons. split; [|constructor]. exists (set_parent par q3). split; [apply upd_eq|done].
  - etrans; [exact (same_alloc_upd s p np p1 Hp Hpx1)|].
    etrans; [exact (same_alloc_upd s1 q nq q1 Hs1 Hqx1)|].
    etrans; [exact (same_alloc_upd s2 q q1 q2 (upd_eq s1 q q1) (eq_trans Hqx2 (eq_sym Hqx1)))|].
    etrans; [exact (same_alloc_upd s3 p p1 p2 Hs3 (eq_trans Hpx2 (eq_sym Hpx1)))|].
    etrans; [exact (same_alloc_upd s4 p p2 p3 (upd_eq s3 p p2) (eq_trans Hpx3 (eq_sym Hpx2)))|].
    etrans; [exact (same_alloc_upd s5 q q2 q3 Hs5 (eq_trans Hqx3 (eq_sym Hqx2)))|].
    exact (same_alloc_upd s6 q q3 (set_parent par q3) (upd_eq s5 q q3) eq_refl).
  - intros r0 Hr1 Hr2. unfold s7, s6, s5, s4, s3, s2, s1. now rewrite !upd_ne.
Qed.

(** ** Insertion into the leaf of a tree *)

Lemma fill_inv s path t :
  tree_rep s (fill path t) ->
  holds s (path_cells path (root_of t) (fleaf t)) /\ holds s (cells (path_par path) (path_nxt path) t) /\
  NoDup (path_ids path ++ ids t) /\ node_mem s (path_ids path ++ ids t).
Proof.
  intros [_ Hs Hnd Hm]. rewrite cells_fill in Hs. apply holds_app in Hs as [? ?].
  rewrite ids_fill in Hnd, Hm. auto.
Qed.

(** A sorted leaf with the new entry in its place. *)
Lemma leaf_insert_sorted m a b p e1 e2 key r :
  wf 0 m a b (Leaf p (e1 ++ e2)) -> a <= key < b ->
  Forall (fun k => k < key) e1.*1 -> Forall (fun k => key < k) e2.*1 ->
  StronglySorted Z.lt (e1 ++ (key, r) :: e2).*1 /\ Forall (fun k => a <= k < b) (e1 ++ (key, r) :: e2).*1.
Proof.
  intros (Hss & Hb & _) Hk H1 H2. rewrite fmap_app in *. rewrite Forall_app in Hb.
  apply StronglySorted_app in Hss as (Hx & Hs1 & Hs2). simpl. split.
  - apply StronglySorted_app. split_and!; [|done|now constructor].
    intros x y Hx1 Hx2. rewrite Forall_forall in H1. apply elem_of_cons in Hx2 as [->|Hx2]; auto.
  - apply Forall_app. split; [apply Hb|]. constructor; [done|apply Hb].
Qed.

Lemma insert_leaf_room s path a b p e1 e2 key r :
  tree_rep s (fill path (Leaf p (e1 ++ e2))) -> path_wf 0 path a b -> a <= key < b ->
  wf 0 (min_at path 0) a b (Leaf p (e1 ++ e2)) ->
  Forall (fun k => k < key) e1.*1 -> Forall (fun k => key < k) e2.*1 -> zlen (e1 ++ e2) < order - 1 ->
  exists s', insert_into_leaf p key r s = Ok (p, s') /\
    tree_rep s' (fill path (Leaf p (e1 ++ (key, r) :: e2))) /\ keeps_records s s'.
Proof.
  intros Hrep Hpath Hk Hwf H1 H2 Hroom. apply fill_inv in Hrep as (Hc1 & Hc2 & Hnd & Hm).
  apply holds_cons in Hc2 as [(n & Hn & Hok) _].
  pose proof (leaf_insert_sorted _ _ _ _ _ _ _ r Hwf Hk H1 H2) as [Hss Hb].
  rewrite !fmap_app in Hok.
  destruct (insert_into_leaf_spec s p n (path_par path) e1.*1 e2.*1 e1.*2 e2.*2 (path_nxt path) key r)
    as (n' & Hrun & Hok' & Hnx); try done; [zl| |zl|].
  { eapply Forall_impl; [exact H2|]. simpl. lia. }
  exists (upd s p n'). split; [done|].
  assert (Hsame : same_alloc s (upd s p n')) by (eapply same_alloc_upd; eauto).
  split; [|now apply same_keeps]. eapply fill_rep; eauto.
  - lia.
  - destruct Hwf as (_ & _ & Hlen). simpl. split_and!; try done; zl.
  - apply holds_upd; [|done]. rewrite path_cells_ids. apply NoDup_app in Hnd as (_ & Hd & _).
    intros Hin. apply (Hd _ Hin). simpl. set_solver.
  - apply holds_cons. split; [|constructor]. exists n'. split; [apply upd_eq|].
    rewrite !fmap_app. exact Hok'.
  - eapply node_mem_same; [exact Hsame|exact Hm].
Qed.

Lemma insert_leaf_split s path a b p e1 e2 key r fuel :
  tree_rep s (fill path (Leaf p (e1 ++ e2))) -> path_wf 0 path a b -> a <= key < b ->
  wf 0 (min_at path 0) a b (Leaf p (e1 ++ e2)) ->
  Forall (fun k => k < key) e1.*1 -> Forall (fun k => key < k) e2.*1 -> zlen (e1 ++ e2) = order - 1 ->
  (length path < fuel)%nat ->
  exists t' s', insert_into_leaf_after_splitting (insert_into_parent fuel) (path_root path p) p key r s
      = Ok (root_of t', s') /\
    tree_rep s' t' /\ flat t' = path_fl path ++ (e1 ++ (key, r) :: e2) ++ path_fr path /\ keeps_records s s'.
Proof.
  intros Hrep Hpath Hk Hwf H1 H2 Hfull Hfuel. pose proof order_ok. pose proof (cut_half (order - 1)) as Hcut.
  apply fill_inv in Hrep as (Hc1 & Hc2 & Hnd & Hm).
  apply holds_cons in Hc2 as [(n & Hn & Hok) _].
  pose proof (leaf_insert_sorted _ _ _ _ _ _ _ r Hwf Hk H1 H2) as [Hss Hb].
  rewrite !fmap_app in Hok. set (es := e1 ++ (key, r) :: e2) in *.
  destruct (make_leaf_spec _ _ Hm) as (q & s1 & nq & Hrun & Hnq & Hblank & Hfr).
  unfold insert_into_leaf_after_splitting. run Hrun.
  run (allocate_align64_ok (u64 ((order + 1) * 8)) s1). set (s2 := bump_stat s1 _).
  run (allocate_align64_ok (u64 ((order + 1) * 8)) s2). set (s3 := bump_stat s2 _). rewrite !words by lia.
  assert (Hs3 : same_alloc s1 s3) by (etrans; apply same_bump).
  assert (Hp3 : nodes s3 !! p = Some n).
  { change (nodes s1 !! p = Some n). rewrite (fr_live _ _ _ _ Hfr); [done|]. set_solver. }
  run_get Hp3. rewrite order1.
  destruct (leaf_arrays _ _ Hok eq_refl) as (jk & jp & Hkeys & Hptrs). nf_in Hkeys. nf_in Hptrs.
  rewrite <- app_assoc in Hkeys, Hptrs.
  assert (Hscan : scan (length (keys n)) (fun i =>
    if i <? order - 1 then k ← aread (keys n) i; Ok (k <? key) else Ok false) = Ok (zlen e1)).
  { rewrite Hkeys, (scan_bounded (fun k => k <? key)); [f_equal; zl| | |zl].
    - eapply Forall_impl; [exact H1|]. intros. now apply Z.ltb_lt.
    - destruct e2 as [|[k' r'] e2]; [done|]. apply Forall_cons in H2 as [H2 _]. apply Z.ltb_ge. lia. }
  run_lift Hscan. rewrite (ok_num _ _ Hok). nf.
  destruct (insert_copy e1.*1 e2.*1 jk key (zlen (e1.*1 ++ e2.*1)) (zlen e1) (Z.to_nat (order + 1)))
    as (d1 & r1 & Hd1 & Hw1); [done|zl|zl|].
  destruct (insert_copy e1.*2 e2.*2 (jp ++ [path_nxt path]) r (zlen (e1.*1 ++ e2.*1)) (zlen e1) (Z.to_nat (order + 1)))
    as (d2 & r2 & Hd2 & Hw2); [zl|zl|zl|].
  rewrite Hkeys, Hptrs. run_lift Hd1. run_lift Hd2. run_lift Hw1. run_lift Hw2.
  replace (e1.*1 ++ key :: e2.*1 ++ r1) with (es.*1 ++ r1) by (unfold es; rewrite fmap_app, <- app_assoc; done).
  replace (e1.*2 ++ r :: e2.*2 ++ r2) with (es.*2 ++ r2) by (unfold es; rewrite fmap_app, <- app_assoc; done).
  assert (Hpq : p <> q). { intros ->. apply (fr_new _ _ _ _ Hfr). set_solver. }
  destruct (split_leaf_spec s3 p n q nq (path_par path) (path_nxt path) es r2 r1)
    as (s4 & el & k & rk & er & Hsplit & Hes & Hel & Hcl & Hcr & Hsame & Hr); try done.
  { apply (ok_leaf _ _ Hok). }
  { apply (ok_parent _ _ Hok). }
  { apply (ok_klen _ _ Hok). }
  { apply (ok_plen _ _ Hok). }
  { apply (ok_next _ _ Hok eq_refl). }
  { unfold es. zl. }
  run Hsplit.
  rewrite Hes in Hss, Hb. rewrite fmap_app in Hss, Hb. apply StronglySorted_app in Hss as (Hlt & Hs1 & Hs2).
  apply Forall_app in Hb as [Hb1 Hb2].
  assert (Hlen : zlen el + zlen ((k, rk) :: er) = order) by (rewrite <- zlen_app, <- Hes; unfold es; zl).
  assert (Hak : a < k).
  { destruct el as [|[k0 r0] el]; [exfalso; zl|]. apply Forall_cons in Hb1 as [Hb1 _]. simpl in Hb1.
    specialize (Hlt k0 k). simpl in Hlt. set_solver by lia. }
  assert (Hkb : k < b) by (apply Forall_cons in Hb2 as [Hb2 _]; simpl in Hb2; lia).
  destruct (insert_into_parent_spec path fuel 0 (Leaf p el) k (Leaf q ((k, rk) :: er)) a b s4)
    as (t' & s' & Hrun' & Hrep' & Hflat & Hkr); try done.
  - simpl. split_and!; try done; try zl. apply Forall_forall. intros x Hx. rewrite Forall_forall in Hb1.
    specialize (Hb1 x Hx). specialize (Hlt x k Hx). simpl in Hlt. set_solver by lia.
  - simpl. split_and!; try done; try zl. apply Forall_forall. intros x Hx. rewrite Forall_forall in Hb2.
    specialize (Hb2 x Hx). apply StronglySorted_inv in Hs2 as [_ Hs2]. rewrite Forall_forall in Hs2.
    apply elem_of_cons in Hx as [->|Hx]; [simpl; lia|]. specialize (Hs2 x Hx). simpl in Hs2. lia.
  - eapply holds_same, Hc1. intros x. rewrite path_cells_ids. intros Hin.
    rewrite Hr; [change (nodes s1 !! x = nodes s !! x); apply (fr_live _ _ _ _ Hfr); set_solver|..].
    + intros ->. apply NoDup_app in Hnd as (_ & Hd & _). apply (Hd _ Hin). simpl. set_solver.
    + intros ->. apply (fr_new _ _ _ _ Hfr). set_solver.
  - simpl. rewrite (Permutation_app_comm [p] [q] : [p; q] ≡ₚ [q; p]), <- Permutation_middle.
    constructor; [apply Hfr|exact Hnd].
  - eapply node_mem_same; [exact Hsame|]. eapply node_mem_same; [exact Hs3|].
    eapply node_mem_sub, (fr_mem _ _ _ _ Hfr). simpl. set_solver.
  - exists t', s'. split_and!; try done.
    + rewrite Hflat. simpl. rewrite Hes. now rewrite <- !app_assoc.
    + etrans; [eapply fresh_keeps, Hfr|]. etrans; [apply same_keeps, Hs3|]. etrans; [apply same_keeps, Hsame|done].
Qed.
End insert.
