(* ===== verification/BTreeMap.v ===== *)
(** The B+ tree as a finite map: the abstraction from the memory to a map from
    keys to values, and what search and insertion do to it. *)
From stdpp Require Import base numbers list gmap strings sorting.
From Stdlib Require Import ZArith Lia.
From S2P Require Import Prelude BTree BTreeArrays BTreeNode BTreeAlloc BTreeTree BTreeFind BTreeInsert.
Open Scope Z_scope.

Section map.
Context {cfg : BtConfig} {cfg_ok : BtOk}.

(** The tree below [root], NULL for the empty tree, has these entries. *)
Definition shape (s : btree) (root : Z) (es : list (Z * Z)) : Prop :=
  (root = 0 /\ es = [] /\ node_mem s []) \/ exists t, root = root_of t /\ tree_rep s t /\ flat t = es.

Definition rec_value (s : btree) (r : Z) : Z :=
  match records s !! r with Some v => value v | None => 0 end.

Definition contents (s : btree) (es : list (Z * Z)) : gmap Z Z :=
  list_to_map ((fun e => (e.1, rec_value s e.2)) <$> es).

(** The memory represents a finite map. *)
Definition represents (s : btree) (root : Z) (m : gmap Z Z) : Prop :=
  exists es, shape s root es /\ record_mem s es.*2 /\ NoDup es.*2 /\ m = contents s es.

(** ** Entries and maps *)

Lemma shape_sorted s root es :
  shape s root es -> StronglySorted Z.lt es.*1 /\ Forall (fun k => 0 <= k < 2 ^ 64) es.*1.
Proof.
  intros [(_ & -> & _)|(t & _ & [[h Hwf] _ _ _] & <-)]; [split; constructor|]. eapply wf_flat, Hwf.
Qed.

Lemma shape_NoDup s root es : shape s root es -> NoDup es.*1.
Proof. intros Hs. apply shape_sorted in Hs as [Hs _]. now apply sorted_NoDup. Qed.

Lemma contents_perm s es1 es2 : NoDup es1.*1 -> es1 ≡ₚ es2 -> contents s es1 = contents s es2.
Proof.
  intros Hnd Hp. unfold contents. apply list_to_map_proper.
  - rewrite <- list_fmap_compose. exact Hnd.
  - now rewrite Hp.
Qed.

Lemma contents_entry s k r es : contents s ((k, r) :: es) = <[k := rec_value s r]> (contents s es).
Proof. reflexivity. Qed.

Lemma contents_records s s' es :
  (forall r, r ∈ es.*2 -> records s' !! r = records s !! r) -> contents s' es = contents s es.
Proof.
  intros Hr. unfold contents. f_equal. apply list_fmap_ext. intros i [k r] He. simpl. f_equal.
  unfold rec_value. rewrite Hr; [done|]. apply list_elem_of_fmap. exists (k, r). split; [done|].
  eapply list_elem_of_lookup_2, He.
Qed.

Lemma contents_none s es k : k ∉ es.*1 -> contents s es !! k = None.
Proof.
  intros Hk. apply not_elem_of_list_to_map_1. rewrite <- list_fmap_compose. exact Hk.
Qed.

(** An entry in the middle of a sequence with distinct keys. *)
Lemma contents_middle s a k r b :
  NoDup (a ++ (k, r) :: b).*1 -> contents s (a ++ (k, r) :: b) = <[k := rec_value s r]> (contents s (a ++ b)).
Proof.
  intros Hnd. rewrite <- contents_entry. apply contents_perm; [done|]. symmetry. apply Permutation_middle.
Qed.

Lemma sorted_place (l : list (Z * Z)) key :
  StronglySorted Z.lt l.*1 -> key ∉ l.*1 ->
  exists l1 l2, l = l1 ++ l2 /\ Forall (fun k => k < key) l1.*1 /\ Forall (fun k => key < k) l2.*1.
Proof.
  induction l as [|[k r] l IH]; intros Hs Hk; [exists [], []; auto|].
  apply StronglySorted_inv in Hs as [Hs Hf]. simpl in *. destruct (Z.lt_ge_cases k key) as [Hlt|Hge].
  - destruct IH as (l1 & l2 & -> & H1 & H2); [done|set_solver|].
    exists ((k, r) :: l1), l2. split_and!; auto. now constructor.
  - exists [], ((k, r) :: l). split_and!; [done|constructor|]. constructor; [simpl; set_solver by lia|].
    eapply Forall_impl; [exact Hf|]. simpl. lia.
Qed.

(** ** Search *)

Lemma seps_l_flats h lo ks ts a :
  seps_l (wfm h) lo ks ts a -> Forall (fun k => k < a) (flats ts).*1.
Proof.
  revert lo ts. induction ks as [|k ks IH]; intros lo [|t ts]; simpl; try done. intros (_ & Ht & Hs).
  rewrite flats_cons, fmap_app. apply Forall_app. split; [|eauto].
  apply seps_l_lt in Hs as [Hs _]. apply wf_flat in Ht as [_ Ht].
  eapply Forall_impl; [exact Ht|]. simpl. lia.
Qed.

Lemma seps_r_flats h b ks ts hi :
  seps_r (wfm h) b ks ts hi -> Forall (fun k => b <= k) (flats ts).*1.
Proof.
  destruct ks as [|k ks]; simpl; [now intros [-> _]|]. intros [-> Hs].
  apply flats_seps in Hs as [_ Hs]; [|intros; eapply wf_flat; eauto].
  eapply Forall_impl; [exact Hs|]. simpl. lia.
Qed.

(** What is left and right of a path is outside of its bounds. *)
Lemma path_bounds h path a b :
  path_wf h path a b -> Forall (fun k => k < a) (path_fl path).*1 /\ Forall (fun k => b <= k) (path_fr path).*1.
Proof.
  revert h a b. induction path as [|f path IH]; intros h a b; simpl; [split; constructor|].
  intros (lo & hi & Hp & Hl & Hr & _). apply IH in Hp as [H1 H2].
  pose proof (seps_l_lt _ _ _ _ _ Hl) as [Hla _]. pose proof (seps_r_lt _ _ _ _ _ Hr) as [Hrb _].
  rewrite !fmap_app, !Forall_app. split_and!.
  - eapply Forall_impl; [exact H1|]. simpl. lia.
  - eapply seps_l_flats, Hl.
  - eapply seps_r_flats, Hr.
  - eapply Forall_impl; [exact H2|]. simpl. lia.
Qed.

Lemma tree_rep_nodes s s' t :
  nodes s' = nodes s -> free_nodes s' = free_nodes s -> brk s <= brk s' -> tree_rep s t -> tree_rep s' t.
Proof.
  intros Hn Hf Hb [Hwf Hc Hnd [l Hm]]. split; auto.
  - eapply holds_same, Hc. intros. now rewrite Hn.
  - exists l. rewrite Hn, Hf. eapply slab_grow; eauto.
Qed.

Lemma node_mem_nodes s s' live :
  nodes s' = nodes s -> free_nodes s' = free_nodes s -> brk s <= brk s' -> node_mem s live -> node_mem s' live.
Proof. intros Hn Hf Hb [l Hm]. exists l. rewrite Hn, Hf. eapply slab_grow; eauto. Qed.

Lemma record_mem_keeps s s' live : keeps_records s s' -> record_mem s live -> record_mem s' live.
Proof. intros [Hr Hf Hb] [l Hm]. exists l. rewrite Hr, Hf. eapply slab_grow; eauto. Qed.

(** The search in a represented tree: where the key is, or where it would be. *)
Lemma find_cases s t key :
  tree_rep s t -> 0 <= key < 2 ^ 64 ->
  exists path p a b e1 e2, path_wf 0 path a b /\ a < b /\ a <= key < b /\
    Forall (fun k => k < key) e1.*1 /\
    ((exists r, t = fill path (Leaf p (e1 ++ (key, r) :: e2)) /\ wf 0 (min_at path 0) a b (Leaf p (e1 ++ (key, r) :: e2)) /\
        Forall (fun k => key < k) e2.*1 /\
        bt_find (root_of t) key false s = Ok ((r, p), s)) \/
     (t = fill path (Leaf p (e1 ++ e2)) /\ wf 0 (min_at path 0) a b (Leaf p (e1 ++ e2)) /\
        Forall (fun k => key < k) e2.*1 /\ key ∉ (flat t).*1 /\
        find_leaf (root_of t) key false s = Ok (p, s) /\
        bt_find (root_of t) key false s = Ok ((0, p), s))).
Proof.
  intros Hrep Hkey. destruct (bt_find_spec _ _ _ Hrep Hkey) as
    (path & p & es & a & b & Ht & Hp & Hab & Hk & Hwf & Hfl & [(r & e1 & e2 & -> & Hn & Hf)|[Hn Hf]]).
  - exists path, p, a, b, e1, e2. pose proof Hwf as (Hss & _).
    rewrite fmap_app in Hss. apply StronglySorted_app in Hss as (Hx & _ & Hs2).
    apply StronglySorted_inv in Hs2 as [_ Hs2].
    split_and!; try done; try lia.
    + apply Forall_forall. intros k Hin. apply Hx; [done|]. simpl. set_solver.
    + left. exists r. auto.
  - pose proof Hwf as (Hss & _). destruct (sorted_place es key Hss Hn) as (e1 & e2 & -> & H1 & H2).
    exists path, p, a, b, e1, e2. split_and!; try done; try lia. right. split_and!; try done.
    rewrite Ht, flat_fill, !fmap_app, !not_elem_of_app. cbn [flat]. rewrite fmap_app in Hn.
    destruct (path_bounds _ _ _ _ Hp) as [Hl Hr]. rewrite Forall_forall in Hl, Hr. split_and!.
    + intros Hin. specialize (Hl _ Hin). lia.
    + now rewrite fmap_app.
    + intros Hin. specialize (Hr _ Hin). lia.
Qed.

(** ** Insertion of a new entry *)

Lemma start_new_tree_spec s key r :
  node_mem s [] -> 0 <= key < 2 ^ 64 ->
  exists p s', start_new_tree key r s = Ok (p, s') /\ tree_rep s' (Leaf p [(key, r)]) /\ keeps_records s s'.
Proof.
  intros Hm Hk. pose proof order_ok.
  destruct (make_leaf_spec _ _ Hm) as (p & s1 & n & Hrun & Hn & (Hlf & Hpar & Hnum & Hks & Hps) & Hfr).
  unfold start_new_tree. run Hrun. rewrite order1.
  replace (Z.to_nat (order - 1)) with (S (Z.to_nat (order - 2))) in Hks by lia.
  replace (Z.to_nat order) with (S (Z.to_nat (order - 2) + 1)) in Hps by lia.
  cbn [replicate] in Hks, Hps. rewrite replicate_add in Hps.
  set (n1 := Node (r :: replicate (Z.to_nat (order - 2)) 0 ++ [0])
               (key :: replicate (Z.to_nat (order - 2)) 0) 0 true 1 (n_stats n) (n_next n)).
  assert (Hw : (n ← wkey 0 key n; n ← wptr 0 r n; n ← wptr (order - 1) 0 n;
        Ok (set_num_keys (u64 (num_keys n + 1)) (set_parent 0 n))) = Ok n1).
  { unfold wkey, wptr. rewrite Hks, awrite_0. cbn [mbind res_bind]. nf. rewrite Hps, awrite_0.
    cbn [mbind res_bind]. nf. rewrite app_comm_cons. cbn [replicate]. rewrite awrite_mid by zl.
    cbn [mbind res_bind]. nf. rewrite Hnum. unfold set_parent, set_num_keys, set_pointers, set_keys. nf.
    now rewrite Hlf. }
  run_on Hn Hw. exists p, (upd s1 p n1). split; [reflexivity|].
  assert (Hsame : same_alloc s1 (upd s1 p n1)) by exact (same_alloc_upd s1 p n n1 Hn eq_refl).
  split; [|etrans; [eapply fresh_keeps, Hfr|now apply same_keeps]]. split.
  - exists O. simpl. split_and!; [repeat constructor|repeat constructor; lia|zl|zl].
  - apply holds_cons. split; [|constructor]. exists n1. split; [apply upd_eq|].
    eapply (node_ok_leaf n1 0 [key] [r] 0 (replicate (Z.to_nat (order - 2)) 0) (replicate (Z.to_nat (order - 2)) 0));
      unfold n1; nf; try done; zl.
  - simpl. constructor; [set_solver|constructor].
  - eapply node_mem_same; [exact Hsame|]. apply Hfr.
Qed.

Lemma insert_absent_spec s root es key r :
  shape s root es -> 0 <= key < 2 ^ 64 -> key ∉ es.*1 ->
  exists root' s' e1 e2, insert_absent root key r s = Ok (root', s') /\
    shape s' root' (e1 ++ (key, r) :: e2) /\ es = e1 ++ e2 /\ keeps_records s s'.
Proof.
  intros [(-> & -> & Hm)|(t & -> & Hrep & <-)] Hk Hn; unfold insert_absent.
  - destruct (start_new_tree_spec s key r Hm Hk) as (p & s' & Hrun & Hrep & Hkr).
    exists p, s', [], []. split_and!; try done. right. exists (Leaf p [(key, r)]). auto.
  - destruct (find_cases s t key Hrep Hk) as (path & p & a & b & e1 & e2 & Hp & Hab & Hkab & H1 &
      [(r0 & -> & _)|(-> & Hwf & H2 & _ & Hfl & _)]).
    { exfalso. apply Hn. rewrite flat_fill. cbn [flat]. rewrite !fmap_app. simpl. set_solver. }
    pose proof (root_nz _ _ Hrep) as [_ Hnz]. rewrite Hnz. run Hfl.
    pose proof (fill_inv _ _ _ Hrep) as (_ & Hc & _ & _). apply holds_cons in Hc as [(n & Hnd & Hok) _].
    run_get Hnd. rewrite order1, (ok_num _ _ Hok). cbn [c_keys].
    replace (zlen (e1 ++ e2).*1) with (zlen (e1 ++ e2)) by zl.
    rewrite !flat_fill. cbn [flat].
    destruct (Z.ltb_spec (zlen (e1 ++ e2)) (order - 1)) as [Hroom|Hfull].
    + destruct (insert_leaf_room s path a b p e1 e2 key r) as (s' & Hrun & Hrep' & Hkr); try done.
      run Hrun. exists (root_of (fill path (Leaf p (e1 ++ e2)))), s', (path_fl path ++ e1), (e2 ++ path_fr path).
      split; [done|]. split_and!; [|now rewrite <- !app_assoc|done].
      right. eexists. split; [|split; [exact Hrep'|]].
      * now rewrite !root_fill.
      * rewrite flat_fill. simpl. now rewrite <- !app_assoc.
    + run (getsB walk_fuel s). rewrite root_fill.
      destruct (insert_leaf_split s path a b p e1 e2 key r (walk_fuel s))
        as (t' & s' & Hrun & Hrep' & Hflat & Hkr); try done.
      { destruct Hwf as (_ & _ & Hlen). lia. }
      { pose proof (fill_wf _ _ _ _ _ Hp Hab Hwf) as Hw. destruct Hrep as [_ _ Hndp Hm].
        pose proof (height_fuel _ _ _ _ _ _ _ Hw Hndp Hm (fun p Hp => Hp)). lia. }
      exists (root_of t'), s', (path_fl path ++ e1), (e2 ++ path_fr path).
      split; [exact Hrun|]. split_and!; [|now rewrite <- !app_assoc|done].
      right. exists t'. split_and!; try done. rewrite Hflat. simpl. now rewrite <- !app_assoc.
Qed.

(** ** The operations on the represented map *)

Lemma rec_mem_some s live r : record_mem s live -> r ∈ live -> r <> 0 /\ exists v, records s !! r = Some v.
Proof.
  intros [l Hl] Hr. pose proof (slab_live _ _ _ _ _ _ Hl r Hr) as Hs.
  pose proof (slab_range _ _ _ _ _ _ Hl r Hs). destruct Hs as [v Hv]. split; [lia|eauto].
Qed.

Lemma shape_records s s' root es :
  nodes s' = nodes s -> free_nodes s' = free_nodes s -> brk s <= brk s' -> shape s root es -> shape s' root es.
Proof.
  intros Hn Hf Hb [(-> & -> & Hm)|(t & -> & Hrep & Hfl)].
  - left. split_and!; try done. eapply node_mem_nodes; eauto.
  - right. exists t. split_and!; try done. eapply tree_rep_nodes; eauto.
Qed.

(** [find] in terms of the entries. *)
Lemma find_entries s root es key :
  shape s root es -> record_mem s es.*2 -> 0 <= key < 2 ^ 64 ->
  exists r leaf, bt_find root key false s = Ok ((r, leaf), s) /\
    ((exists e1 e2, es = e1 ++ (key, r) :: e2 /\ r <> 0 /\ leaf <> 0) \/ (r = 0 /\ key ∉ es.*1)).
Proof.
  intros [(-> & -> & Hm)|(t & -> & Hrep & <-)] Hrm Hk.
  - exists 0, 0. split; [done|]. right. split; [done|]. simpl. set_solver.
  - destruct (find_cases s t key Hrep Hk) as (path & p & a & b & e1 & e2 & Hp & Hab & Hkab & H1 &
      [(r & -> & Hwf & H2 & Hf)|(-> & Hwf & H2 & Hn & Hfl & Hf)]).
    + exists r, p. split; [done|]. left. rewrite flat_fill in *. cbn [flat] in *.
      exists (path_fl path ++ e1), (e2 ++ path_fr path). rewrite <- !app_assoc. split; [done|]. split.
      * eapply rec_mem_some; [exact Hrm|]. rewrite !fmap_app. simpl. set_solver.
      * pose proof (fill_inv _ _ _ Hrep) as (_ & _ & _ & Hm).
        pose proof (node_mem_nz _ _ p Hm) as Hz. apply Z.eqb_neq, Hz. simpl. set_solver.
    + exists 0, p. auto.
Qed.

Lemma find_correct s root m key :
  represents s root m -> 0 <= key < 2 ^ 64 ->
  exists r leaf, bt_find root key false s = Ok ((r, leaf), s) /\
    match m !! key with
    | Some v => exists rec, records s !! r = Some rec /\ value rec = v
    | None => r = 0
    end.
Proof.
  intros (es & Hs & Hr & Hnd & ->) Hk.
  destruct (find_entries s root es key Hs Hr Hk) as (r & leaf & Hf & [(e1 & e2 & -> & Hz & _)|[-> Hn]]);
    exists r || exists 0; exists leaf; (split; [done|]).
  - apply shape_NoDup in Hs. rewrite contents_middle, lookup_insert_eq by done. unfold rec_value.
    destruct (rec_mem_some s _ r Hr) as (_ & v & Hv); [rewrite !fmap_app; simpl; set_solver|].
    rewrite Hv. eauto.
  - now rewrite contents_none.
Qed.

Lemma insert_correct s root m key v :
  represents s root m -> 0 <= key < 2 ^ 64 ->
  exists root' s', bt_insert root key v s = Ok (root', s') /\ represents s' root' (<[key := v]> m).
Proof.
  intros (es & Hs & Hr & Hnd & ->) Hk. unfold bt_insert.
  destruct (find_entries s root es key Hs Hr Hk) as (r & leaf & Hf & [(e1 & e2 & -> & Hz & _)|[-> Hn]]); run Hf.
  - apply Z.eqb_neq in Hz. rewrite Hz. cbn [negb].
    assert (Hin : r ∈ (e1 ++ (key, r) :: e2).*2) by (rewrite !fmap_app; simpl; set_solver).
    destruct (rec_mem_some s _ r Hr Hin) as (_ & rv & Hv).
    assert (Hget : get_record r s = Ok (rv, s)) by (unfold get_record; now rewrite Hv). run Hget.
    eexists _, _. split; [reflexivity|]. exists (e1 ++ (key, r) :: e2). split_and!.
    + eapply shape_records; [..|exact Hs]; try reflexivity.
    + destruct Hr as [l [Hc Hndl Hdj Hl Hrg Hb]]. exists l. split; simpl; auto.
      * eapply chain_mono, Hc. intros q Hq. rewrite lookup_insert_ne; [done|]. intros <-. exact (Hdj _ Hq Hin).
      * intros q Hq. destruct (decide (r = q)) as [->|]; [rewrite lookup_insert_eq; eauto|].
        rewrite lookup_insert_ne by done. auto.
      * intros q Hq. destruct (decide (r = q)) as [->|]; [auto|].
        rewrite lookup_insert_ne in Hq by done. auto.
    + done.
    + apply shape_NoDup in Hs. rewrite !contents_middle, insert_insert_eq by done.
      unfold rec_value at 1. simpl. rewrite lookup_insert_eq. simpl. f_equal. symmetry.
      apply contents_records. intros q Hq. simpl. rewrite lookup_insert_ne; [done|]. intros <-.
      rewrite fmap_app in Hnd. simpl in Hnd. rewrite <- Permutation_middle in Hnd.
      apply NoDup_cons in Hnd as [Hnd _]. rewrite fmap_app in Hq. exact (Hnd Hq).
  - rewrite Z.eqb_refl. cbn [negb].
    destruct (make_record_spec s _ v Hr) as (r & s1 & H1 & Hrv & Hrm & Hnl & Hz & Hq & Hno & Hfr & Hb). run H1.
    pose proof (shape_records _ s1 _ _ Hno Hfr Hb Hs) as Hs1.
    destruct (insert_absent_spec s1 root es key r Hs1 Hk Hn) as (root' & s' & e1 & e2 & Hrun & Hs' & -> & Hkr).
    exists root', s'. split; [done|]. exists (e1 ++ (key, r) :: e2).
    assert (Hperm : (e1 ++ (key, r) :: e2).*2 ≡ₚ r :: (e1 ++ e2).*2).
    { rewrite !fmap_app. simpl. symmetry. apply Permutation_middle. }
    split_and!; [done| | |].
    + eapply record_mem_keeps; [exact Hkr|]. eapply record_mem_sub, Hrm. intros q. now rewrite Hperm.
    + rewrite Hperm. now constructor.
    + apply shape_NoDup in Hs'. rewrite contents_middle by done. destruct Hkr as [Hkr _ _].
      unfold rec_value at 1. rewrite Hkr, Hrv. simpl. f_equal.
      symmetry. apply contents_records. intros q Hin. rewrite Hkr. auto.
Qed.

(** Memory in which nothing was allocated yet. *)
Lemma empty_represents s :
  nodes s = ∅ -> records s = ∅ -> free_nodes s = 0 -> free_recs s = 0 -> 0 < brk s -> represents s 0 ∅.
Proof.
  intros Hn Hr Hfn Hfr Hb.
  assert (Hslab : forall N (next : N -> Z), slab next (∅ : gmap Z N) 0 (brk s) [] []).
  { intros N next. split; try done; [constructor|intros ? []%not_elem_of_nil..|].
    intros p [v Hv]. now rewrite lookup_empty in Hv. }
  exists []. split_and!; [left| |constructor|done].
  - split_and!; try done. exists []. rewrite Hn, Hfn. apply Hslab.
  - exists []. rewrite Hr, Hfr. apply Hslab.
Qed.
End map.
