(* ===== verification/BTreeMerge.v ===== *)
(** Deletion from a B+ tree, siblings: two neighbouring nodes are merged into the
    left one ([merge_nodes]). *)
From stdpp Require Import base numbers list gmap strings sorting.
From Stdlib Require Import ZArith Lia.
From S2P Require Import Prelude BTree BTreeArrays BTreeNode BTreeAlloc BTreeTree BTreeFind BTreeInsert.
Open Scope Z_scope.

Section merge.
Context {cfg : BtConfig} {cfg_ok : BtOk}.

Lemma upd_id s p n : nodes s !! p = Some n -> upd s p n = s.
Proof. intros Hn. destruct s. unfold upd. simpl in *. now rewrite insert_id. Qed.

(** Statements that touch the nodes [ps] only, and no link of the slabs. *)
Definition touches (s s' : btree) (ps : list Z) : Prop :=
  same_alloc s s' /\ forall r, r ∉ ps -> nodes s' !! r = nodes s !! r.

Lemma touches_refl s ps : touches s s ps.
Proof. split; [reflexivity|done]. Qed.

Lemma touches_trans s1 s2 s3 ps : touches s1 s2 ps -> touches s2 s3 ps -> touches s1 s3 ps.
Proof.
  intros [H1 H1'] [H2 H2']. split; [etrans; eassumption|]. intros r Hr. now rewrite H2', H1'.
Qed.

Lemma touches_upd s p n n' ps :
  nodes s !! p = Some n -> n_next n' = n_next n -> p ∈ ps -> touches s (upd s p n') ps.
Proof.
  intros Hn Hx Hp. split; [eapply same_alloc_upd; eauto|]. intros r Hr. apply upd_ne. congruence.
Qed.

Lemma touches_sub s s' ps qs : (forall p, p ∈ ps -> p ∈ qs) -> touches s s' ps -> touches s s' qs.
Proof. intros Hs [H1 H2]. split; [done|]. intros r Hr. apply H2. auto. Qed.

Lemma touches_holds s s' ps cs :
  touches s s' ps -> (forall p, p ∈ cs.*1 -> p ∉ ps) -> holds s cs -> holds s' cs.
Proof. intros [_ Ht] Hd. apply holds_same. auto. Qed.

(** The loop that appends the first [c] entries of one node to another; [g] is what
    each iteration does to the source. *)
Lemma append_loop (g : node -> node) p q nb v (K P u w jk1 jk2 jp1 jp2 ku kw : list Z) i0 c body s :
  p <> q -> nodes s !! p = Some nb -> nodes s !! q = Some v ->
  keys nb = K ++ jk1 ++ jk2 -> pointers nb = P ++ jp1 ++ jp2 -> keys v = u ++ ku -> pointers v = w ++ kw ->
  zlen K = i0 -> zlen P = i0 -> zlen u = c -> length w = length u -> length jk1 = length u -> length jp1 = length u ->
  0 <= num_keys nb -> num_keys nb + c < 2 ^ 64 ->
  (forall x, keys (g x) = keys x /\ pointers (g x) = pointers x /\ n_next (g x) = n_next x /\ parent (g x) = parent x) ->
  (forall j t v nb k x nb1 nb2, nodes t !! q = Some v -> nodes t !! p = Some nb ->
     aread (keys v) j = Ok k -> aread (pointers v) j = Ok x ->
     wkey (i0 + j) k nb = Ok nb1 -> wptr (i0 + j) x nb1 = Ok nb2 ->
     body j t = Ok (tt, upd (upd t p (set_num_keys (u64 (num_keys nb2 + 1)) nb2)) q (g v))) ->
  exists s' v', forB 0 c body s = Ok (tt, s') /\ touches s s' [p; q] /\
    nodes s' !! p = Some (set_num_keys (num_keys nb + c) (set_keys (K ++ u ++ jk2) (set_pointers (P ++ w ++ jp2) nb))) /\
    nodes s' !! q = Some v' /\ pointers v' = pointers v /\ parent v' = parent v.
Proof.
  intros Hpq Hp Hq Hkn Hpn Hkv Hpv HK HP Hc Hw Hjk Hjp Hn0 Hn1 Hg Hbody.
  destruct (forB_inv (fun j t => touches s t [p; q] /\
    exists u1 u2 w1 w2 a1 b1 v', u = u1 ++ u2 /\ w = w1 ++ w2 /\ j = zlen u1 /\ length w1 = length u1 /\
      length a1 = length u2 /\ length b1 = length u2 /\
      nodes t !! p = Some (set_num_keys (num_keys nb + j) (set_keys (K ++ u1 ++ a1 ++ jk2) (set_pointers (P ++ w1 ++ b1 ++ jp2) nb))) /\
      nodes t !! q = Some v' /\ keys v' = keys v /\ pointers v' = pointers v /\ parent v' = parent v) 0 c body s)
    as (s' & Hrun & Ht & u1 & u2 & w1 & w2 & a1 & b1 & v' & -> & -> & Hj & Hl1 & Ha & Hb & Hp' & Hq' & _ & Hpv' & Hpar).
  - zl.
  - split; [apply touches_refl|]. exists [], u, [], w, jk1, jp1, v. split_and!; try done.
    rewrite Hp. f_equal. cbn [app]. rewrite <- Hkn, <- Hpn, Z.add_0_r. now destruct nb.
  - intros j t Hj (Ht & u1 & u2 & w1 & w2 & a1 & b1 & v' & -> & -> & -> & Hl1 & Ha & Hb & Hp' & Hq' & Hkv' & Hpv' & Hpar).
    destruct u2 as [|ku' u2]; [exfalso; zl|]. destruct w2 as [|kw' w2]; [exfalso; zl|].
    destruct a1 as [|ka a1]; [discriminate|]. destruct b1 as [|kb b1]; [discriminate|].
    eexists. split.
    { eapply Hbody; eauto.
      - rewrite Hkv', Hkv, <- app_assoc. now apply aread_mid.
      - rewrite Hpv', Hpv, <- app_assoc. apply aread_mid. zl.
      - unfold wkey. nf. rewrite app_assoc. cbn [app]. rewrite awrite_mid by zl. reflexivity.
      - unfold wptr. nf. rewrite app_assoc. cbn [app]. rewrite awrite_mid by zl. reflexivity. }
    destruct (Hg v') as (Hg1 & Hg2 & Hg3 & Hg4). split.
    + eapply touches_trans; [exact Ht|].
      eapply touches_trans; [|eapply touches_upd; [rewrite upd_ne by done; exact Hq'|exact Hg3|set_solver]].
      eapply touches_upd; [exact Hp'|reflexivity|set_solver].
    + exists (u1 ++ [ku']), u2, (w1 ++ [kw']), w2, a1, b1, (g v').
      rewrite <- !app_assoc. split_and!; try done; try zl; try congruence.
      * rewrite upd_ne, upd_eq by done. f_equal.
        unfold set_num_keys, set_keys, set_pointers. nf. rewrite u64_small by (unfold is_u64; zl).
        f_equal. zl.
      * apply upd_eq.
  - exists s', v'. split; [done|]. split; [done|]. destruct u2; [|exfalso; zl].
    destruct a1; [|discriminate]. destruct b1; [|discriminate]. destruct w2; [|exfalso; zl].
    rewrite !app_nil_r in *. cbn [app] in Hp'. split_and!; try done.
Qed.

Lemma merge_leaf s par nl nxt p q e1 e2 k' :
  holds s (cells par nl (Leaf p e1)) -> holds s (cells par nxt (Leaf q e2)) -> p <> q ->
  zlen e1 + zlen e2 <= order - 1 ->
  exists s' v', merge_nodes q p k' s = Ok (tt, s') /\ touches s s' [p; q] /\
    holds s' (cells par nxt (Leaf p (e1 ++ e2))) /\ nodes s' !! q = Some v' /\ parent v' = par.
Proof.
  intros HL HR Hpq Hlen. pose proof order_ok.
  apply holds_cons in HL as [(nb & Hp & Hokp) _]. apply holds_cons in HR as [(v & Hq & Hokq) _].
  destruct (leaf_arrays _ _ Hokp eq_refl) as (jk & jp & Hkp & Hpp).
  destruct (leaf_arrays _ _ Hokq eq_refl) as (jkq & jpq & Hkq & Hpq').
  pose proof (ok_next _ _ Hokq eq_refl) as Hnext.
  destruct Hokp as [Hlp Hparp Hnump _ _ Hklp Hplp _ _]. destruct Hokq as [Hlq Hparq Hnumq _ _ Hklq Hplq _ _].
  cbn [c_leaf c_par c_keys c_ptrs c_next] in *.
  assert (Hkp' : zlen e1 + zlen jk = order - 1) by (rewrite Hkp in Hklp; zl).
  assert (Hpp' : zlen e1 + zlen jp = order - 1) by (rewrite Hpp in Hplp; zl).
  destruct (split_at jk (length e2)) as (jk1 & jk2 & -> & Hjk); [zl|].
  destruct (split_at jp (length e2)) as (jp1 & jp2 & -> & Hjp); [zl|].
  rewrite <- app_assoc in Hpp.
  unfold merge_nodes. run_get Hp. run_get Hq. rewrite Hlq. cbn [negb]. rewrite Hnump, Hnumq.
  match goal with |- context [forB 0 _ ?body] =>
    destruct (append_loop (fun x => x) p q nb v e1.*1 e1.*2 e2.*1 e2.*2 jk1 jk2 jp1 (jp2 ++ [nl]) jkq (jpq ++ [nxt])
      (zlen e1.*1) (zlen e2.*1) body s) as (s1 & v' & Hrun & Ht & Hp1 & Hq1 & Hpv & Hparv) end; auto; try zl.
  { intros j t w nb0 k x nb1 nb2 Hq0 Hp0 Hk Hx H1 H2. run_get Hq0. run_lift Hk. run_lift Hx.
    erewrite on_nodeB; [|exact Hp0|]; [|rewrite H1; cbn [mbind res_bind]; rewrite H2; reflexivity].
    rewrite (upd_id _ q w); [reflexivity|]. now rewrite upd_ne. }
  run Hrun. run_get Hq1. rewrite order1, Hpv. run_lift Hnext.
  set (nb1 := set_num_keys _ _) in Hp1.
  assert (Hw : wptr (order - 1) nxt nb1 = Ok (set_pointers (e1.*2 ++ e2.*2 ++ jp2 ++ [nxt]) nb1)).
  { unfold wptr, nb1. nf. rewrite !app_assoc, awrite_mid by zl. reflexivity. }
  eexists _, v'. split; [exact (on_nodeB _ _ _ _ _ Hp1 Hw)|]. split_and!.
  - eapply touches_trans; [exact Ht|]. eapply touches_upd; [exact Hp1|reflexivity|set_solver].
  - apply holds_cons. split; [|constructor]. eexists. split; [apply upd_eq|].
    eapply (node_ok_leaf _ _ _ _ _ jk2 jp2); unfold nb1; nf; try done; rewrite ?fmap_app, <- ?app_assoc; try done; zl.
  - rewrite upd_ne by done. exact Hq1.
  - congruence.
Qed.

Lemma merge_inner s par nl nxt p q ks1 ts1 ks2 ts2 k' :
  holds s (cells par nl (Inner p ks1 ts1)) -> holds s (cells par nxt (Inner q ks2 ts2)) -> nl = hdf ts2 nxt ->
  NoDup (ids (Inner p ks1 ts1) ++ ids (Inner q ks2 ts2)) ->
  zlen ks1 + zlen ks2 < order - 1 ->
  exists s' v', merge_nodes q p k' s = Ok (tt, s') /\
    touches s s' (ids (Inner p ks1 ts1) ++ ids (Inner q ks2 ts2)) /\
    holds s' (cells par nxt (Inner p (ks1 ++ k' :: ks2) (ts1 ++ ts2))) /\ nodes s' !! q = Some v' /\ parent v' = par.
Proof.
  intros HL HR -> Hnd Hlen. pose proof order_ok.
  assert (Hpq : p <> q). { intros ->. apply NoDup_app in Hnd as (_ & Hd & _). apply (Hd q); simpl; set_solver. }
  rewrite cells_Inner in HL, HR.
  apply holds_cons in HL as [(nb & Hp & Hokp) HcL]. apply holds_cons in HR as [(v & Hq & Hokq) HcR].
  destruct Hokp as [Hlp Hparp Hnump [jk Hkp] [jp Hpp] Hklp Hplp Hshp _].
  destruct Hokq as [Hlq Hparq Hnumq [jkq Hkq] [jpq Hpq'] Hklq Hplq Hshq _].
  cbn [c_leaf c_par c_keys c_ptrs c_next] in *. rewrite zlen_map in Hshp, Hshq.
  destruct (split_last ts2) as (ts2' & y & ->); [intros ->; zl|].
  rewrite map_app, <- app_assoc in Hpq'. cbn [app map] in Hpq'.
  assert (Hkp' : zlen ks1 + zlen jk = order - 1) by (rewrite Hkp in Hklp; zl).
  assert (Hpp' : zlen ts1 + zlen jp = order) by (rewrite Hpp in Hplp; unfold zlen in *; rewrite length_app, length_map in Hplp; lia).
  destruct jk as [|jk0 jk]; [exfalso; zl|].
  destruct (split_at jk (length ks2)) as (jk1 & jk2 & -> & Hjk); [zl|].
  destruct (split_at jp (length ks2)) as (jp1 & jp2' & -> & Hjp); [zl|].
  destruct jp2' as [|jp0 jp2]; [exfalso; zl|].
  unfold merge_nodes. run_get Hp. run_get Hq. rewrite Hlq. cbn [negb]. rewrite Hnump.
  set (nb0 := set_num_keys (zlen ks1 + 1) (set_keys (ks1 ++ k' :: jk1 ++ jk2) nb)).
  assert (Hw0 : (nb ← wkey (zlen ks1) k' nb; Ok (set_num_keys (u64 (num_keys nb + 1)) nb)) = Ok nb0).
  { unfold wkey. rewrite Hkp, awrite_mid by done. cbn [mbind res_bind]. nf. rewrite Hnump, u64_small; [done|].
    unfold is_u64. zl. }
  run (on_nodeB _ _ _ _ (fun nb => nb ← wkey (zlen ks1) k' nb; Ok (set_num_keys (u64 (num_keys nb + 1)) nb)) Hp Hw0).
  set (s0 := upd s p nb0).
  assert (Hq0 : nodes s0 !! q = Some v) by (unfold s0; now rewrite upd_ne). run_get Hq0. rewrite Hnumq.
  match goal with |- context [forB 0 _ ?body] =>
    destruct (append_loop (fun v => set_num_keys (u64 (num_keys v - 1)) v) p q nb0 v (ks1 ++ [k']) (map root_of ts1)
      ks2 (map root_of ts2') jk1 jk2 jp1 (jp0 :: jp2) jkq (root_of y :: jpq)
      (zlen ks1 + 1) (zlen ks2) body s0) as (s1 & v' & Hrun & Ht & Hp1 & Hq1 & Hpv & Hparv) end;
    auto; try (rewrite ?zlen_map, ?length_map; zl).
  { unfold s0. apply upd_eq. }
  { unfold nb0. nf. now rewrite <- app_assoc. }
  { unfold nb0. nf. pose proof (zlen_nonneg ks1). lia. }
  { unfold nb0. nf. lia. }
  { intros j t w nb1 k x nb2 nb3 Hq' Hp' Hk Hx H1 H2. run_get Hq'. run_lift Hk. run_lift Hx.
    erewrite bindB; [|eapply on_nodeB; [exact Hp'|]; rewrite H1; cbn [mbind res_bind]; rewrite H2; reflexivity].
    erewrite on_node_set; [reflexivity|]. now rewrite upd_ne. }
  run Hrun. run_get Hq1.
  assert (Hrd : aread (pointers v') (zlen ks2) = Ok (root_of y)).
  { rewrite Hpv, Hpq'. apply aread_mid. rewrite zlen_map. zl. }
  run_lift Hrd. set (nb1 := set_num_keys _ _) in Hp1.
  assert (Hw1 : wptr (zlen ks1 + 1 + zlen ks2) (root_of y) nb1 =
    Ok (set_pointers (map root_of (ts1 ++ ts2' ++ [y]) ++ jp2) nb1)).
  { unfold wptr, nb1. nf. rewrite (app_assoc (map root_of ts1)), awrite_mid.
    - cbn [mbind res_bind]. rewrite !map_app. cbn [map]. now rewrite <- !app_assoc.
    - unfold zlen in *. rewrite length_app, !length_map. zl. }
  run_on Hp1 Hw1. set (nb2 := set_pointers (map root_of (ts1 ++ ts2' ++ [y]) ++ jp2) nb1). set (s2 := upd s1 p nb2). run_get (upd_eq s1 p nb2).
  assert (Ht2 : touches s s2 [p; q]).
  { apply (touches_trans _ s0); [eapply touches_upd; [exact Hp|reflexivity|set_solver]|].
    eapply touches_trans; [exact Ht|]. eapply touches_upd; [exact Hp1|reflexivity|set_solver]. }
  set (ts := ts1 ++ ts2' ++ [y]) in *. set (ts2 := ts2' ++ [y]) in *.
  simpl in Hnd. fold (idss ts1) (idss ts2) in Hnd. rewrite NoDup_cons, NoDup_app in Hnd.
  destruct Hnd as (Hnp & Hnd1 & Hd & Hnd2). apply NoDup_cons in Hnd2 as [Hnq Hnd2].
  rewrite elem_of_app in Hnp.
  assert (Hndt : NoDup (idss ts)) by (unfold ts; rewrite idss_app; apply NoDup_app; set_solver).
  assert (Hkids : kids s2 nxt ts).
  { apply (kids_same s).
    - unfold ts. intros r. rewrite idss_app, elem_of_app. intros Hr. apply Ht2. set_solver.
    - apply kids_app. split; [eapply kids_cells_list, HcL|eapply kids_cells_list, HcR]. }
  replace (num_keys nb2 + 1) with (zlen ts)
    by (unfold nb2, nb1, nb0, ts, ts2 in *; nf; zl).
  destruct (adopt_spec s2 p nb2 nxt ts jp2 p (upd_eq s1 p nb2) eq_refl Hkids Hndt) as (s3 & Hrun3 & Hsame3 & Hh3 & Hr3).
  exists s3, v'. split; [exact Hrun3|].
  assert (Hroots : forall r, r ∈ map root_of ts -> r ∈ idss ts1 \/ r ∈ idss ts2).
  { intros r Hr. apply roots_in_idss in Hr. unfold ts in Hr. rewrite idss_app in Hr. set_solver. }
  split_and!.
  - split; [etrans; [apply Ht2|done]|]. intros r Hr. simpl in Hr. fold (idss ts1) (idss ts2) in Hr.
    rewrite Hr3 by (intros Hin; apply Hroots in Hin; set_solver). apply Ht2. set_solver.
  - rewrite cells_Inner. apply holds_cons. split; [|exact Hh3]. exists nb2. split.
    + rewrite Hr3; [apply upd_eq|]. intros Hin. apply Hroots in Hin. set_solver.
    + unfold nb2, nb1, nb0. split; nf; try done.
      * zl.
      * exists jk2. now rewrite <- !app_assoc.
      * now eexists.
      * zl.
      * unfold ts, ts2 in *. unfold zlen in *. rewrite length_app, length_map. zl.
      * unfold ts, ts2 in *. rewrite zlen_map. zl.
  - rewrite Hr3 by (intros Hin; apply Hroots in Hin; set_solver). unfold s2. rewrite upd_ne by done. exact Hq1.
  - congruence.
Qed.
End merge.
