(* ===== verification/BTreeShare.v ===== *)
(** Deletion from a B+ tree, siblings: one entry moves from a node to its
    neighbour; here from the left one ([redistribute_left]). *)
From stdpp Require Import base numbers list gmap strings sorting.
From Stdlib Require Import ZArith Lia.
From S2P Require Import Prelude BTree BTreeArrays BTreeNode BTreeAlloc BTreeTree BTreeFind BTreeInsert BTreeMerge.
Open Scope Z_scope.

(** The node at an address after updates of other nodes. *)
Ltac look := solve [repeat first [rewrite upd_eq; reflexivity | rewrite upd_ne by congruence]; first [eassumption | reflexivity]].
(** Runs a statement on one node; the rest computes its effect on the node. *)
Ltac touch := repeat first [apply touches_refl |
  eapply touches_trans; [|eapply touches_upd; [look | solve [reflexivity | assumption] | set_solver]]].
Ltac run_node := erewrite bindB; [|eapply on_nodeB; [look|]].

Section share.
Context {cfg : BtConfig} {cfg_ok : BtOk}.

Definition with_keys (c : content) (ks : list Z) : content :=
  Content (c_leaf c) (c_par c) ks (c_ptrs c) (c_next c).

(** The separator of the parent is replaced. *)
Lemma wkey_ok n c A x B y :
  node_ok n c -> c_keys c = A ++ x :: B ->
  exists n', wkey (zlen A) y n = Ok n' /\ node_ok n' (with_keys c (A ++ y :: B)) /\ n_next n' = n_next n.
Proof.
  intros [Hl Hpar Hnum [jk Hk] [jp Hp] Hkl Hpl Hs Hn] Hc. unfold wkey.
  rewrite Hc in *. rewrite <- app_assoc in Hk. cbn [app] in Hk. rewrite Hk, awrite_mid by done.
  cbn [mbind res_bind]. eexists. split; [reflexivity|]. split; [|reflexivity]. rewrite Hk in Hkl.
  split; nf; unfold with_keys; nf; eauto.
  - rewrite Hnum. zl.
  - exists jk. now rewrite <- app_assoc.
  - zl.
  - rewrite Hs. f_equal. zl.
Qed.

(** The shift of all entries of a node by one. *)
Lemma shift_node n (ks ps jk jp : list Z) y z :
  keys n = ks ++ y :: jk -> pointers n = ps ++ z :: jp -> length ps = length ks -> num_keys n = zlen ks ->
  exists x x', for_down (num_keys n) 0 (fun i v =>
      k ← aread (keys v) (i - 1); v ← wkey i k v;
      p ← aread (pointers v) (i - 1); wptr i p v) n
    = Ok (set_keys (x :: ks ++ jk) (set_pointers (x' :: ps ++ jp) n)).
Proof.
  intros Hk Hp Hlen Hnum.
  destruct (shift_up [] ks jk y (num_keys n) 0) as [x Hx]; [done|done|].
  destruct (shift_up [] ps jp z (num_keys n) 0) as [x' Hx']; [done|zl|]. cbn [app] in Hx, Hx'.
  rewrite <- Hk in Hx. rewrite <- Hp in Hx'. exists x, x'.
  apply (for_down_node _ _ _ _ _ n _ _ Hx Hx').
  intros i v ks' ps' Hk' Hp'. unfold wkey, wptr.
  apply bind_Ok in Hk' as (u & Hu & Hk'). apply bind_Ok in Hp' as (u' & Hu' & Hp').
  rewrite Hu. cbn. rewrite Hk'. cbn. rewrite Hu'. cbn. now rewrite Hp'.
Qed.

Lemma share_left_leaf s root p0 c0 A B' p q e1 kx rx e2 nxt k' ni :
  (exists n0, nodes s !! p0 = Some n0 /\ node_ok n0 c0) -> c_keys c0 = A ++ k' :: B' ->
  holds s (cells p0 q (Leaf p (e1 ++ [(kx, rx)]))) -> holds s (cells p0 nxt (Leaf q e2)) ->
  p <> q -> p <> p0 -> q <> p0 -> zlen e2 < order - 1 -> ni <> MINUS_ONE ->
  exists s', redistribute_nodes root q p ni (zlen A) k' s = Ok (root, s') /\ touches s s' [p; q; p0] /\
    (exists n0, nodes s' !! p0 = Some n0 /\ node_ok n0 (with_keys c0 (A ++ kx :: B'))) /\
    holds s' (cells p0 q (Leaf p e1)) /\ holds s' (cells p0 nxt (Leaf q ((kx, rx) :: e2))).
Proof.
  intros (n0 & H0 & Hok0) Hc0 HL HR Hpq Hpp0 Hqp0 Hroom Hni. pose proof order_ok.
  apply holds_cons in HL as [(nb & Hp & Hokp) _]. apply holds_cons in HR as [(v & Hq & Hokq) _].
  destruct (leaf_arrays _ _ Hokp eq_refl) as (jk & jp & Hkp & Hpp).
  destruct (leaf_arrays _ _ Hokq eq_refl) as (jkq & jpq & Hkq & Hpq').
  destruct Hokp as [Hlp Hparp Hnump _ _ Hklp Hplp _ _]. destruct Hokq as [Hlq Hparq Hnumq _ _ Hklq Hplq _ _].
  nf_in Hlp. nf_in Hparp. nf_in Hnump. nf_in Hkp. nf_in Hpp. nf_in Hlq. nf_in Hparq. nf_in Hnumq. nf_in Hkq. nf_in Hpq'.
  rewrite fmap_app, <- app_assoc in Hkp, Hpp. cbn [fmap list_fmap app fst snd] in Hkp, Hpp.
  destruct jkq as [|y jkq]; [exfalso; rewrite Hkq in Hklq; zl|].
  destruct jpq as [|z jpq]; [exfalso; rewrite Hpq' in Hplq; zl|]. cbn [app] in Hpq'.
  destruct (shift_node v e2.*1 e2.*2 jkq (jpq ++ [nxt]) y z) as (x & x' & Hshift); [done..|zl|done|].
  destruct (wkey_ok n0 c0 A k' B' kx Hok0 Hc0) as (n0' & Hw0 & Hok0' & Hnx0).
  assert (Hu : u64 (num_keys nb - 1) = zlen e1).
  { rewrite Hnump, u64_small; [zl|]. rewrite Hkp in Hklp. unfold is_u64. zl. }
  apply Z.eqb_neq in Hni. unfold redistribute_nodes. rewrite Hni. cbn [negb]. unfold redistribute_left.
  eexists. split.
  { erewrite bindB.
    2:{ run_get Hq. rewrite Hlq, Hparq. cbn [negb].
        run_node; [|rewrite Hlq; cbn [negb mbind res_bind]; exact Hshift].
        erewrite bindB; [|apply get_nodeB; look].
        erewrite bindB; [|apply liftB; rewrite Hu, Hpp; apply aread_mid; zl].
        run_node; [|unfold wptr; nf; rewrite awrite_0; reflexivity].
        run_node; [|unfold wptr; rewrite Hu, Hpp, awrite_mid by zl; reflexivity].
        erewrite bindB; [|apply get_nodeB; look]. nf.
        erewrite bindB; [|apply liftB; rewrite Hu, Hkp; apply aread_mid; zl].
        run_node; [|unfold wkey; nf; rewrite awrite_0; reflexivity].
        eapply on_nodeB; [look|exact Hw0]. }
    erewrite bindB; [|apply on_node_set; look]. erewrite bindB; [|apply on_node_set; look]. reflexivity. }
  nf. rewrite Hu. split_and!.
  - touch.
  - eexists. split; [look|exact Hok0'].
  - apply holds_cons. split; [|constructor]. eexists. split; [look|].
    rewrite Hpp in Hplp.
    eapply (node_ok_leaf _ _ _ _ _ (kx :: jk) (0 :: jp)); nf; try done; zl.
  - apply holds_cons. split; [|constructor]. eexists. split; [look|].
    rewrite Hkq in Hklq. rewrite Hpq' in Hplq.
    eapply (node_ok_leaf _ _ _ _ _ jkq jpq); nf; try done; try zl.
    rewrite Hnumq, u64_small; [zl|]. unfold is_u64. zl.
Qed.

Lemma distinct_nodes (p0 p q x : Z) (l1 lx l2 : list Z) :
  NoDup (p0 :: p :: (l1 ++ lx) ++ q :: l2) -> x ∈ lx ->
  (p0 <> p /\ p0 <> q /\ p <> q /\ x <> p0 /\ x <> p /\ x <> q) /\
  (forall r, r ∈ l1 \/ r ∈ l2 -> r ∉ [p; q; p0; x]) /\ (forall r, r ∈ lx -> r ∉ [p; q; p0]) /\ NoDup lx.
Proof.
  intros Hnd Hx. apply NoDup_cons in Hnd as [H0 Hnd]. apply NoDup_cons in Hnd as [Hp Hnd].
  apply NoDup_app in Hnd as (Hn1 & Hd & Hnd). apply NoDup_app in Hn1 as (_ & Hd1 & Hn1).
  apply NoDup_cons in Hnd as [Hq _].
  split; [split_and!; intros ->; set_solver|]. split; [|split; [set_solver|done]].
  intros r Hr Hin. rewrite !elem_of_cons in Hin. destruct Hin as [->|[->|[->|[->|Hin]]]]; set_solver.
Qed.

Lemma share_left_inner s root p0 c0 A B' p q ks1 kx ts1 tx ks2 ts2 nxt k' ni :
  (exists n0, nodes s !! p0 = Some n0 /\ node_ok n0 c0) -> c_keys c0 = A ++ k' :: B' ->
  holds s (cells p0 (hdf ts2 nxt) (Inner p (ks1 ++ [kx]) (ts1 ++ [tx]))) ->
  holds s (cells p0 nxt (Inner q ks2 ts2)) ->
  NoDup (p0 :: ids (Inner p (ks1 ++ [kx]) (ts1 ++ [tx])) ++ ids (Inner q ks2 ts2)) ->
  zlen ks2 < order - 1 -> ni <> MINUS_ONE ->
  exists s', redistribute_nodes root q p ni (zlen A) k' s = Ok (root, s') /\ touches s s' [p; q; p0; root_of tx] /\
    (exists n0, nodes s' !! p0 = Some n0 /\ node_ok n0 (with_keys c0 (A ++ kx :: B'))) /\
    holds s' (cells p0 (fleaf tx) (Inner p ks1 ts1)) /\
    holds s' (cells p0 nxt (Inner q (k' :: ks2) (tx :: ts2))).
Proof.
  intros (n0 & H0 & Hok0) Hc0 HL HR Hnd Hroom Hni. pose proof order_ok.
  rewrite cells_Inner in HL, HR. apply holds_cons in HL as [(nb & Hp & Hokp) HcL].
  apply holds_cons in HR as [(v & Hq & Hokq) HcR].
  rewrite cells_list_app in HcL. cbn [cells_list hdf] in HcL. rewrite app_nil_r in HcL.
  apply holds_app in HcL as [HcL Hctx].
  destruct Hokp as [Hlp Hparp Hnump [jk Hkp] [jp Hpp] Hklp Hplp Hshp _].
  destruct Hokq as [Hlq Hparq Hnumq [jkq Hkq] [jpq Hpq'] Hklq Hplq Hshq _].
  cbn [c_leaf c_par c_keys c_ptrs c_next] in Hlp, Hparp, Hnump, Hkp, Hpp, Hshp, Hlq, Hparq, Hnumq, Hkq, Hpq', Hshq.
  rewrite zlen_map in Hshp, Hshq.
  destruct (split_last ts2) as (ts2' & y & Hts2); [intros ->; zl|]. rewrite Hts2 in Hpq', Hshq.
  rewrite map_app, <- app_assoc in Hpp, Hpq'. cbn [map app] in Hpp, Hpq'. rewrite <- app_assoc in Hkp. cbn [app] in Hkp.
  destruct jkq as [|y0 jkq]; [exfalso; rewrite Hkq in Hklq; zl|].
  destruct jpq as [|z0 jpq].
  { exfalso. rewrite Hpq' in Hplq. unfold zlen in *. rewrite length_app, length_map in Hplq. simpl in Hplq. zl. }
  (* the nodes involved are distinct *)
  simpl in Hnd. fold (idss (ts1 ++ [tx])) (idss ts2) in Hnd. rewrite idss_app, idss_cons in Hnd.
  change (idss []) with (@nil Z) in Hnd. rewrite app_nil_r in Hnd.
  pose proof (root_in_ids tx) as Htx.
  destruct (distinct_nodes _ _ _ _ _ _ _ Hnd Htx) as ((Hp0p & Hp0q & Hpq & Hx0 & Hxp & Hxq) & Hd12 & Hdx & Hndx).
  destruct (reparent s p _ tx q Hctx Hndx) as (nt & Hnt & Hctx').
  (* the shift of [n] *)
  set (v1 := set_pointers (map root_of ts2' ++ root_of y :: root_of y :: jpq) v).
  destruct (shift_node v1 ks2 (map root_of ts2') jkq (root_of y :: jpq) y0 (root_of y)) as (x & x' & Hshift);
    [exact Hkq|reflexivity|rewrite length_map; zl|exact Hnumq|].
  assert (Hsh : (v ← (if negb (is_leaf v) then
               p ← aread (pointers v) (num_keys v); wptr (num_keys v + 1) p v else Ok v);
        for_down (num_keys v) 0 (fun i v =>
          k ← aread (keys v) (i - 1); v ← wkey i k v;
          p ← aread (pointers v) (i - 1); wptr i p v) v) =
    Ok (set_keys (x :: ks2 ++ jkq) (set_pointers (x' :: map root_of ts2' ++ root_of y :: jpq) v1))).
  { assert (Hw : wptr (num_keys v + 1) (root_of y) v = Ok v1).
    { unfold wptr. rewrite Hpq'.
      replace (map root_of ts2' ++ root_of y :: z0 :: jpq) with ((map root_of ts2' ++ [root_of y]) ++ z0 :: jpq)
        by (now rewrite <- app_assoc).
      rewrite awrite_mid by (unfold zlen in *; rewrite length_app, length_map; zl). unfold v1. cbn [mbind res_bind].
      now rewrite <- app_assoc. }
    rewrite Hlq. cbn [negb]. rewrite Hpq', aread_mid by (rewrite zlen_map; zl). cbn [mbind res_bind].
    rewrite Hw. exact Hshift. }
  destruct (wkey_ok n0 c0 A k' B' kx Hok0 Hc0) as (n0' & Hw0 & Hok0' & Hnx0).
  assert (Hu : u64 (num_keys nb - 1) = zlen ks1).
  { rewrite Hnump, u64_small; [zl|]. rewrite Hkp in Hklp. unfold is_u64. zl. }
  apply Z.eqb_neq in Hni. unfold redistribute_nodes. rewrite Hni. cbn [negb]. unfold redistribute_left.
  eexists. split.
  { erewrite bindB.
    2:{ run_get Hq. run_node; [|exact Hsh]. rewrite Hlq, Hparq. cbn [negb].
        erewrite bindB; [|apply get_nodeB; look].
        erewrite bindB; [|apply liftB; rewrite Hnump, Hpp; apply aread_mid; rewrite zlen_map; zl].
        run_node; [|unfold wptr; nf; rewrite awrite_0; reflexivity].
        erewrite bindB; [|apply on_node_set; look].
        run_node; [|unfold wptr; rewrite Hnump, Hpp, awrite_mid by (rewrite zlen_map; zl); reflexivity].
        run_node; [|unfold wkey; nf; rewrite awrite_0; reflexivity].
        erewrite bindB; [|apply get_nodeB; look]. nf.
        erewrite bindB; [|apply liftB; rewrite Hu, Hkp; apply aread_mid; zl].
        eapply on_nodeB; [look|exact Hw0]. }
    erewrite bindB; [|apply on_node_set; look]. erewrite bindB; [|apply on_node_set; look]. reflexivity. }
  nf. rewrite Hu. unfold v1. nf.
  split_and!.
  - touch.
  - eexists. split; [look|exact Hok0'].
  - rewrite cells_Inner. apply holds_cons. split.
    + eexists. split; [look|]. rewrite Hpp in Hplp. split; nf; try done.
      * now exists (kx :: jk).
      * now exists (0 :: jp).
      * unfold zlen in *. rewrite length_app, length_map in *. zl.
      * rewrite zlen_map. zl.
    + eapply touches_holds; [|intros r; rewrite cells_list_ids; intros Hr; apply (Hd12 r); auto|exact HcL]. touch.
  - rewrite cells_Inner. apply holds_cons. split.
    + eexists. split; [look|]. rewrite Hkq in Hklq. rewrite Hpq' in Hplq. split; nf; try done.
      * rewrite Hnumq, u64_small; [zl|]. unfold is_u64. zl.
      * now exists jkq.
      * exists jpq. cbn [map app]. rewrite Hts2, map_app, <- app_assoc. reflexivity.
      * zl.
      * unfold zlen in *. cbn [length] in *. rewrite length_app, length_map in *. zl.
      * rewrite zlen_map, Hts2. zl.
    + cbn [cells_list]. apply holds_app. split.
      * eapply holds_same; [|exact Hctx']. intros r. rewrite cells_ids. intros Hr. specialize (Hdx r Hr).
        destruct (decide (r = root_of tx)) as [->|Hne]; [rewrite upd_eq; look|].
        rewrite !upd_ne by set_solver. reflexivity.
      * eapply touches_holds; [|intros r; rewrite cells_list_ids; intros Hr; apply (Hd12 r); auto|exact HcR]. touch.
Qed.
End share.
