(* ===== verification/BTreeShareRight.v ===== *)
(** Deletion from a B+ tree, siblings: one entry moves from the right neighbour to
    the end of a node ([redistribute_right]). *)
From stdpp Require Import base numbers list gmap strings sorting.
From Stdlib Require Import ZArith Lia.
From S2P Require Import Prelude BTree BTreeArrays BTreeNode BTreeAlloc BTreeTree BTreeFind BTreeInsert BTreeMerge BTreeShare.
Open Scope Z_scope.

Section share_right.
Context {cfg : BtConfig} {cfg_ok : BtOk}.

Lemma for_n_shift {St} n i (b : Z -> St -> res St) s :
  for_n n i (fun i => b (i + 1)) s = for_n n (i + 1) b s.
Proof.
  revert i s. induction n as [|n IH]; intros i s; cbn [for_n]; [done|].
  destruct (b (i + 1) s); cbn [mbind res_bind]; auto.
Qed.

Lemma shift_down0 (b c : list Z) y last :
  last = zlen b ->
  exists x, for_range 0 last (fun i l => x ← aread l (i + 1); awrite l i x) (y :: b ++ c) = Ok (b ++ x :: c).
Proof.
  intros ->. destruct (shift_down_spec [] b c y 1 (zlen b + 1)) as [x Hx]; [done|zl|].
  cbn [app] in Hx. exists x. rewrite <- Hx. unfold shift_down, for_range. cbn [app].
  replace (zlen b + 1 - 1) with (zlen b - 0) by lia.
  rewrite <- (for_n_shift _ 0). apply for_n_ext. intros i l. now rewrite Z.add_simpl_r.
Qed.

(** The first entry of a node is dropped, the others move down. *)
Lemma shift_back n (ks ps jk jp : list Z) k0 r0 last :
  keys n = k0 :: ks ++ jk -> pointers n = r0 :: ps ++ jp -> length ps = length ks -> last = zlen ks ->
  exists x x', for_range 0 last (fun i nb =>
      k ← aread (keys nb) (i + 1); nb ← wkey i k nb;
      p ← aread (pointers nb) (i + 1); wptr i p nb) n
    = Ok (set_keys (ks ++ x :: jk) (set_pointers (ps ++ x' :: jp) n)).
Proof.
  intros Hk Hp Hlen ->.
  destruct (shift_down0 ks jk k0 (zlen ks) eq_refl) as [x Hx].
  destruct (shift_down0 ps jp r0 (zlen ks)) as [x' Hx']; [zl|].
  rewrite <- Hk in Hx. rewrite <- Hp in Hx'. exists x, x'.
  erewrite (for_range_node _ _ _ _ (fun x => x) _ n _ _ Hx Hx').
  - rewrite iter_id. now destruct n.
  - intros i v ks' ps' Hk' Hp'. unfold wkey, wptr.
    apply bind_Ok in Hk' as (u & Hu & Hk'). apply bind_Ok in Hp' as (u' & Hu' & Hp').
    rewrite Hu. cbn. rewrite Hk'. cbn. rewrite Hu'. cbn. rewrite Hp'. now destruct v.
Qed.

Lemma share_right_leaf s root p0 c0 A B' p q e1 kx rx ky ry e2 nxt k' :
  (exists n0, nodes s !! p0 = Some n0 /\ node_ok n0 c0) -> c_keys c0 = A ++ k' :: B' ->
  holds s (cells p0 q (Leaf p e1)) -> holds s (cells p0 nxt (Leaf q ((kx, rx) :: (ky, ry) :: e2))) ->
  p <> q -> p <> p0 -> q <> p0 -> zlen e1 < order - 1 ->
  exists s', redistribute_nodes root p q MINUS_ONE (zlen A) k' s = Ok (root, s') /\ touches s s' [p; q; p0] /\
    (exists n0, nodes s' !! p0 = Some n0 /\ node_ok n0 (with_keys c0 (A ++ ky :: B'))) /\
    holds s' (cells p0 q (Leaf p (e1 ++ [(kx, rx)]))) /\ holds s' (cells p0 nxt (Leaf q ((ky, ry) :: e2))).
Proof.
  intros (n0 & H0 & Hok0) Hc0 HL HR Hpq Hpp0 Hqp0 Hroom. pose proof order_ok.
  apply holds_cons in HL as [(v & Hp & Hokp) _]. apply holds_cons in HR as [(nb & Hq & Hokq) _].
  destruct (leaf_arrays _ _ Hokp eq_refl) as (jk & jp & Hkp & Hpp).
  destruct (leaf_arrays _ _ Hokq eq_refl) as (jkq & jpq & Hkq & Hpq').
  destruct Hokp as [Hlp Hparp Hnump _ _ Hklp Hplp _ _]. destruct Hokq as [Hlq Hparq Hnumq _ _ Hklq Hplq _ _].
  nf_in Hlp. nf_in Hparp. nf_in Hnump. nf_in Hkp. nf_in Hpp. nf_in Hlq. nf_in Hparq. nf_in Hnumq. nf_in Hkq. nf_in Hpq'.
  cbn [fmap list_fmap app fst snd] in Hkq, Hpq'.
  destruct jk as [|y jk]; [exfalso; rewrite Hkp in Hklp; zl|].
  destruct jp as [|z jp]; [exfalso; rewrite Hpp in Hplp; zl|]. cbn [app] in Hpp.
  assert (Hu : u64 (num_keys nb - 1) = zlen (ky :: e2.*1)).
  { rewrite Hnumq, u64_small; [zl|]. rewrite Hkq in Hklq. unfold is_u64. zl. }
  destruct (shift_back nb (ky :: e2.*1) (ry :: e2.*2) jkq (jpq ++ [nxt]) kx rx (zlen (ky :: e2.*1)))
    as (x & x' & Hshift); [done|done|zl|done|].
  destruct (wkey_ok n0 c0 A k' B' ky Hok0 Hc0) as (n0' & Hw0 & Hok0' & Hnx0).
  unfold redistribute_nodes. rewrite Z.eqb_refl. cbn [negb]. unfold redistribute_right.
  eexists. split.
  { erewrite bindB.
    2:{ run_get Hp. run_get Hq. rewrite Hlp, Hparp.
        erewrite bindB.
        2:{ erewrite bindB; [|apply liftB; rewrite Hkq; apply aread_0].
            erewrite bindB; [|apply liftB; rewrite Hpq'; apply aread_0].
            run_node; [|unfold wkey, wptr; rewrite Hnump, Hkp, awrite_mid by done; cbn [mbind res_bind]; nf;
                        rewrite Hnump, Hpp, awrite_mid by zl; reflexivity].
            erewrite bindB; [|apply liftB; rewrite Hkq; apply (aread_mid [kx] _ ky 1 eq_refl)].
            eapply on_nodeB; [look|exact Hw0]. }
        eapply on_nodeB; [look|]. cbn zeta. rewrite Hu, Hshift. reflexivity. }
    erewrite bindB; [|apply on_node_set; look]. erewrite bindB; [|apply on_node_set; look]. reflexivity. }
  nf. rewrite Hu. split_and!.
  - touch.
  - eexists. split; [look|exact Hok0'].
  - apply holds_cons. split; [|constructor]. eexists. split; [look|].
    rewrite Hkp in Hklp. rewrite Hpp in Hplp.
    eapply (node_ok_leaf _ _ _ _ _ jk jp); nf; try done; try zl; rewrite ?fmap_app, <- ?app_assoc; try done.
    rewrite Hnump, u64_small; [zl|]. unfold is_u64. zl.
  - apply holds_cons. split; [|constructor]. eexists. split; [look|].
    rewrite Hkq in Hklq. rewrite Hpq' in Hplq.
    eapply (node_ok_leaf _ _ _ _ _ (x :: jkq) (x' :: jpq)); nf; try done; zl.
Qed.

Lemma share_right_inner s root p0 c0 A B' p q ks1 ts1 kx ks2 tx ts2 nxt k' :
  (exists n0, nodes s !! p0 = Some n0 /\ node_ok n0 c0) -> c_keys c0 = A ++ k' :: B' ->
  holds s (cells p0 (fleaf tx) (Inner p ks1 ts1)) ->
  holds s (cells p0 nxt (Inner q (kx :: ks2) (tx :: ts2))) ->
  NoDup (p0 :: ids (Inner p ks1 ts1) ++ ids (Inner q (kx :: ks2) (tx :: ts2))) ->
  zlen ks1 < order - 1 ->
  exists s', redistribute_nodes root p q MINUS_ONE (zlen A) k' s = Ok (root, s') /\ touches s s' [q; p; p0; root_of tx] /\
    (exists n0, nodes s' !! p0 = Some n0 /\ node_ok n0 (with_keys c0 (A ++ kx :: B'))) /\
    holds s' (cells p0 (hdf ts2 nxt) (Inner p (ks1 ++ [k']) (ts1 ++ [tx]))) /\
    holds s' (cells p0 nxt (Inner q ks2 ts2)).
Proof.
  intros (n0 & H0 & Hok0) Hc0 HL HR Hnd Hroom. pose proof order_ok.
  rewrite cells_Inner in HL, HR. apply holds_cons in HL as [(v & Hp & Hokp) HcL].
  apply holds_cons in HR as [(nb & Hq & Hokq) HcR].
  cbn [cells_list] in HcR. apply holds_app in HcR as [Hctx HcR].
  destruct Hokp as [Hlp Hparp Hnump [jk Hkp] [jp Hpp] Hklp Hplp Hshp _].
  destruct Hokq as [Hlq Hparq Hnumq [jkq Hkq] [jpq Hpq'] Hklq Hplq Hshq _].
  cbn [c_leaf c_par c_keys c_ptrs c_next] in Hlp, Hparp, Hnump, Hkp, Hpp, Hshp, Hlq, Hparq, Hnumq, Hkq, Hpq', Hshq.
  rewrite zlen_map in Hshp, Hshq.
  destruct (split_last ts2) as (ts2' & y & Hts2); [intros ->; zl|]. rewrite Hts2 in Hpq', Hshq.
  cbn [map app] in Hpq', Hkq. rewrite map_app, <- app_assoc in Hpq'. cbn [map app] in Hpq'.
  destruct jk as [|y0 jk]; [exfalso; rewrite Hkp in Hklp; zl|].
  destruct jp as [|z0 jp].
  { exfalso. rewrite Hpp in Hplp. unfold zlen in *. rewrite length_app, length_map in Hplp. simpl in Hplp. zl. }
  simpl in Hnd. fold (idss ts1) (idss ts2) in Hnd.
  assert (Hnd' : NoDup (p0 :: q :: (idss ts2 ++ ids tx) ++ p :: idss ts1)).
  { assert (Hperm : p0 :: q :: (idss ts2 ++ ids tx) ++ p :: idss ts1 ≡ₚ p0 :: p :: idss ts1 ++ q :: ids tx ++ idss ts2)
      by solve_Permutation. now rewrite Hperm. }
  pose proof (root_in_ids tx) as Htx.
  destruct (distinct_nodes _ _ _ _ _ _ _ Hnd' Htx) as ((Hp0q & Hp0p & Hpq & Hx0 & Hxq & Hxp) & Hd12 & Hdx & Hndx).
  destruct (reparent s q _ tx p Hctx Hndx) as (nt & Hnt & Hctx').
  assert (Hu : u64 (num_keys nb - 1) = zlen ks2).
  { rewrite Hnumq, u64_small; [zl|]. rewrite Hkq in Hklq. unfold is_u64. zl. }
  destruct (shift_back nb ks2 (map root_of ts2') jkq (root_of y :: jpq) kx (root_of tx) (zlen ks2))
    as (x & x' & Hshift); [done|done|rewrite length_map; zl|done|].
  destruct (wkey_ok n0 c0 A k' B' kx Hok0 Hc0) as (n0' & Hw0 & Hok0' & Hnx0).
  unfold redistribute_nodes. rewrite Z.eqb_refl. cbn [negb]. unfold redistribute_right.
  eexists. split.
  { erewrite bindB.
    2:{ run_get Hp. run_get Hq. rewrite Hlp, Hparp.
        erewrite bindB.
        2:{ run_node; [|unfold wkey; rewrite Hnump, Hkp, awrite_mid by done; reflexivity].
            erewrite bindB; [|apply liftB; rewrite Hpq'; apply aread_0].
            run_node; [|unfold wptr; nf; rewrite Hnump, Hpp, awrite_mid by (rewrite zlen_map; zl); reflexivity].
            erewrite bindB; [|apply on_node_set; look].
            erewrite bindB; [|apply liftB; rewrite Hkq; apply aread_0].
            eapply on_nodeB; [look|exact Hw0]. }
        eapply on_nodeB; [look|]. cbn zeta. rewrite Hu, Hshift. cbn [mbind res_bind negb]. nf.
        replace (map root_of ts2' ++ x' :: root_of y :: jpq) with ((map root_of ts2' ++ [x']) ++ root_of y :: jpq)
          by (now rewrite <- app_assoc).
        rewrite aread_mid by (unfold zlen in *; rewrite length_app, length_map; zl). cbn [mbind res_bind].
        unfold wptr. nf. rewrite <- app_assoc. cbn [app].
        rewrite awrite_mid by (rewrite zlen_map; zl). reflexivity. }
    erewrite bindB; [|apply on_node_set; look]. erewrite bindB; [|apply on_node_set; look]. reflexivity. }
  nf. rewrite Hu. split_and!.
  - touch.
  - eexists. split; [look|exact Hok0'].
  - rewrite cells_Inner. apply holds_cons. split.
    + eexists. split; [look|]. rewrite Hkp in Hklp. rewrite Hpp in Hplp. split; nf; try done.
      * rewrite Hnump, u64_small; [zl|]. unfold is_u64. zl.
      * exists jk. now rewrite <- app_assoc.
      * exists jp. rewrite map_app, <- app_assoc. reflexivity.
      * zl.
      * unfold zlen in *. rewrite length_app, length_map in *. zl.
      * rewrite zlen_map. zl.
    + rewrite cells_list_app. cbn [cells_list hdf]. rewrite app_nil_r. apply holds_app. split.
      * eapply touches_holds; [|intros r; rewrite cells_list_ids; intros Hr; apply (Hd12 r); auto|exact HcL]. touch.
      * eapply holds_same; [|exact Hctx']. intros r. rewrite cells_ids. intros Hr. specialize (Hdx r Hr).
        destruct (decide (r = root_of tx)) as [->|Hne]; [rewrite upd_eq; look|].
        rewrite !upd_ne by set_solver. reflexivity.
  - rewrite cells_Inner. apply holds_cons. split.
    + eexists. split; [look|]. rewrite Hkq in Hklq. rewrite Hpq' in Hplq. split; nf; try done.
      * now exists (x :: jkq).
      * exists (root_of y :: jpq). rewrite Hts2, map_app, <- app_assoc. reflexivity.
      * zl.
      * unfold zlen in *. cbn [length] in *. rewrite length_app, length_map in *. zl.
      * rewrite zlen_map, Hts2. zl.
    + eapply touches_holds; [|intros r; rewrite cells_list_ids; intros Hr; apply (Hd12 r); auto|exact HcR]. touch.
Qed.
End share_right.
