(* ===== verification/BTreeDelete.v ===== *)
(** Deletion from a B+ tree: the repair of a node with too few keys on the level
    of trees, by induction on the path to the root. *)
From stdpp Require Import base numbers list gmap strings sorting.
From Stdlib Require Import ZArith Lia.
From S2P Require Import Prelude BTree BTreeArrays BTreeNode BTreeAlloc BTreeTree BTreeFind BTreeInsert BTreeMerge BTreeShare BTreeShareRight.
Open Scope Z_scope.

Section delete.
Context {cfg : BtConfig} {cfg_ok : BtOk}.

Definition nkeys (t : tree) : Z := match t with Leaf _ es => zlen es | Inner _ ks _ => zlen ks end.
Definition capacity (h : nat) : Z := match h with O => order | S _ => order - 1 end.

Lemma wf_nkeys h m lo hi t : wf h m lo hi t -> m <= nkeys t <= order - 1.
Proof. destruct h, t; simpl; tauto. Qed.

Lemma wf_strengthen h m m' lo hi t : wf h m lo hi t -> m' <= nkeys t -> wf h m' lo hi t.
Proof. destruct h, t; simpl; try tauto; intuition. Qed.

Lemma sorted_bounds_app (l1 l2 : list Z) a k b :
  StronglySorted Z.lt l1 -> Forall (fun x => a <= x < k) l1 ->
  StronglySorted Z.lt l2 -> Forall (fun x => k <= x < b) l2 -> a <= k <= b ->
  StronglySorted Z.lt (l1 ++ l2) /\ Forall (fun x => a <= x < b) (l1 ++ l2).
Proof.
  intros Hs1 Hb1 Hs2 Hb2 Hk. split.
  - apply StronglySorted_app. split_and!; auto. intros x y Hx Hy.
    rewrite Forall_forall in Hb1, Hb2. specialize (Hb1 x Hx). specialize (Hb2 y Hy). lia.
  - apply Forall_app. split; (eapply Forall_impl; [eassumption|]); simpl; lia.
Qed.

(** Two neighbours merged: the left node holds the entries of both. *)
Lemma merge_spec s h par nxt L R k' a b mL mR :
  holds s (cells par (fleaf R) L) -> holds s (cells par nxt R) -> NoDup (ids L ++ ids R) ->
  wf h mL a k' L -> wf h mR k' b R -> a < k' < b -> nkeys L + nkeys R < capacity h -> 0 <= mL -> 0 <= mR ->
  exists s' v M, merge_nodes (root_of R) (root_of L) k' s = Ok (tt, s') /\ touches s s' (ids L ++ ids R) /\
    holds s' (cells par nxt M) /\ nodes s' !! root_of R = Some v /\ parent v = par /\
    root_of M = root_of L /\ fleaf M = fleaf L /\ flat M = flat L ++ flat R /\
    ids L ++ ids R ≡ₚ root_of R :: ids M /\ wf h (Z.max mL mR) a b M.
Proof.
  intros HL HR Hnd HwL HwR Hk Hcap HmL HmR. pose proof order_ok.
  destruct h as [|h]; destruct L as [p e1|p ks1 ts1]; try (exfalso; exact HwL);
    destruct R as [q e2|q ks2 ts2]; try (exfalso; exact HwR); cbn [root_of fleaf nkeys capacity] in *.
  - destruct (merge_leaf s par q nxt p q e1 e2 k') as (s' & v & Hrun & Ht & Hc & Hv & Hpar); try done; [|lia|].
    { simpl in Hnd. intros ->. apply NoDup_cons in Hnd as [Hnd _]. set_solver. }
    exists s', v, (Leaf p (e1 ++ e2)). split_and!; try done.
    + simpl. constructor.
    + simpl in *. destruct HwL as (Hs1 & Hb1 & ?), HwR as (Hs2 & Hb2 & ?).
      destruct (sorted_bounds_app e1.*1 e2.*1 a k' b) as [Hs Hb]; auto; [lia|].
      rewrite fmap_app. split_and!; auto; zl.
  - assert (Hts2 : length ts2 = S (length ks2)) by (destruct HwR as [_ HwR]; now apply seps_len in HwR).
    assert (Hts1 : length ts1 = S (length ks1)) by (destruct HwL as [_ HwL]; now apply seps_len in HwL).
    destruct (merge_inner s par (hdf ts2 nxt) nxt p q ks1 ts1 ks2 ts2 k') as (s' & v & Hrun & Ht & Hc & Hv & Hpar); try done.
    { destruct ts2; [discriminate|]. exact HL. }
    exists s', v, (Inner p (ks1 ++ k' :: ks2) (ts1 ++ ts2)). split_and!; try done.
    + simpl. destruct ts1; [discriminate|done].
    + simpl. fold (flats (ts1 ++ ts2)) (flats ts1) (flats ts2). now rewrite flats_app.
    + simpl. fold (idss (ts1 ++ ts2)) (idss ts1) (idss ts2). rewrite idss_app. solve_Permutation.
    + simpl in *. destruct HwL as (? & Hs1), HwR as (? & Hs2). split; [zl|]. now apply seps_split.
Qed.

(** An entry moved between two neighbours: the same entries, both nodes with
    enough keys, and a new separator in the parent. *)
Definition shared (s : btree) (root : Z) (h : nat) (p0 : Z) (c0 : content) (A B' : list Z) (nxt : Z)
    (L R : tree) (a b : Z) (m : B Z) : Prop :=
  exists s' L' R' k, m s = Ok (root, s') /\ touches s s' (p0 :: ids L ++ ids R) /\
    (exists n0, nodes s' !! p0 = Some n0 /\ node_ok n0 (with_keys c0 (A ++ k :: B'))) /\
    holds s' (cells p0 (fleaf R') L') /\ holds s' (cells p0 nxt R') /\
    root_of L' = root_of L /\ root_of R' = root_of R /\ fleaf L' = fleaf L /\
    flat L' ++ flat R' = flat L ++ flat R /\ ids L' ++ ids R' ≡ₚ ids L ++ ids R /\
    a < k < b /\ wfm h a k L' /\ wfm h k b R'.

Lemma last_entry (es : list (Z * Z)) : 1 <= zlen es -> exists e1 k r, es = e1 ++ [(k, r)].
Proof.
  intros Hl. destruct (split_last es) as (e1 & [k r] & ->); [intros ->; zl|]. eauto.
Qed.

Lemma leaf_last a b m p e1 kx rx :
  wf 0 m a b (Leaf p (e1 ++ [(kx, rx)])) -> 2 <= zlen (e1 ++ [(kx, rx)]) ->
  a < kx < b /\ StronglySorted Z.lt e1.*1 /\ Forall (fun k => a <= k < kx) e1.*1.
Proof.
  intros (Hs & Hb & _) Hl. rewrite fmap_app in Hs, Hb. apply StronglySorted_app in Hs as (Hlt & Hs & _).
  apply Forall_app in Hb as [Hb Hx]. apply Forall_cons in Hx as [Hx _]. cbn [fst] in Hx.
  assert (Hlt' : forall x, x ∈ e1.*1 -> a <= x < kx).
  { intros x Hin. rewrite Forall_forall in Hb. specialize (Hb x Hin). specialize (Hlt x kx Hin). simpl in Hlt.
    set_solver by lia. }
  split_and!; try done; try lia; [|now apply Forall_forall].
  destruct e1 as [|[k1 r1] e1]; [exfalso; zl|]. specialize (Hlt' k1). simpl in Hlt'. set_solver by lia.
Qed.

Lemma share_left_leaf_spec s root p0 c0 A B' nxt p e q e2 k' a b ni :
  let L := Leaf p e in let R := Leaf q e2 in
  (exists n0, nodes s !! p0 = Some n0 /\ node_ok n0 c0) -> c_keys c0 = A ++ k' :: B' ->
  holds s (cells p0 (fleaf R) L) -> holds s (cells p0 nxt R) -> NoDup (p0 :: ids L ++ ids R) ->
  wfm 0 a k' L -> wf 0 (min_keys 0 - 1) k' b R -> nkeys R < min_keys 0 ->
  capacity 0 <= nkeys L + nkeys R -> a < k' < b -> ni <> MINUS_ONE ->
  shared s root 0 p0 c0 A B' nxt L R a b (redistribute_nodes root (root_of R) (root_of L) ni (zlen A) k').
Proof.
  intros L R H0 Hc0 HL HR Hnd HwL HwR Hdef Hcap Hk Hni. pose proof order_ok. pose proof cut_bounds.
  pose proof (wf_nkeys _ _ _ _ _ HwR) as HnR. pose proof (wf_nkeys _ _ _ _ _ HwL) as HnL.
  unfold L, R in *. cbn [nkeys capacity min_keys root_of fleaf] in *.
  destruct (last_entry e) as (e1 & kx & rx & ->); [lia|].
  destruct (leaf_last _ _ _ _ _ _ _ HwL) as (Hx & Hs1 & Hb1); [lia|]. destruct HwR as (Hs2 & Hb2 & Hl2).
  simpl in Hnd. rewrite !NoDup_cons in Hnd.
  destruct (share_left_leaf s root p0 c0 A B' p q e1 kx rx e2 nxt k' ni) as (s' & Hrun & Ht & Hp0 & HcL & HcR);
    try done; try lia; try (intros ->; set_solver).
  exists s', (Leaf p e1), (Leaf q ((kx, rx) :: e2)), kx.
  split_and!; try done; try lia.
  - eapply touches_sub, Ht. simpl. set_solver.
  - simpl. now rewrite <- app_assoc.
  - simpl. split_and!; try done; zl.
  - simpl. split_and!; try zl; (constructor; [done || lia|]; eapply Forall_impl; [exact Hb2|]; simpl; lia).
Qed.

Lemma share_left_inner_spec s root h p0 c0 A B' nxt p ks ts q ks2 ts2 k' a b ni :
  let L := Inner p ks ts in let R := Inner q ks2 ts2 in
  (exists n0, nodes s !! p0 = Some n0 /\ node_ok n0 c0) -> c_keys c0 = A ++ k' :: B' ->
  holds s (cells p0 (fleaf R) L) -> holds s (cells p0 nxt R) -> NoDup (p0 :: ids L ++ ids R) ->
  wfm (S h) a k' L -> wf (S h) (min_keys (S h) - 1) k' b R -> nkeys R < min_keys (S h) ->
  capacity (S h) <= nkeys L + nkeys R -> a < k' < b -> ni <> MINUS_ONE ->
  shared s root (S h) p0 c0 A B' nxt L R a b (redistribute_nodes root (root_of R) (root_of L) ni (zlen A) k').
Proof.
  intros L R H0 Hc0 HL HR Hnd HwL HwR Hdef Hcap Hk Hni. pose proof order_ok. pose proof cut_bounds.
  pose proof (wf_nkeys _ _ _ _ _ HwR) as HnR. pose proof (wf_nkeys _ _ _ _ _ HwL) as HnL. unfold L, R in *.
  cbn [nkeys capacity min_keys root_of] in *.
  destruct HwL as [_ HwL], HwR as [_ HwR]. pose proof (seps_len _ _ _ _ _ HwL) as Hts. pose proof (seps_len _ _ _ _ _ HwR) as Hts2.
  destruct (split_last ks) as (ks1 & kx & ->); [intros ->; zl|].
  destruct (split_last ts) as (ts1 & tx & ->); [intros ->; discriminate|].
  destruct (share_left_inner s root p0 c0 A B' p q ks1 kx ts1 tx ks2 ts2 nxt k' ni) as (s' & Hrun & Ht & Hp0 & HcL & HcR);
    try done; try lia.
  { destruct ts2; [discriminate|]. exact HL. }
  assert (Hts1 : length ts1 = S (length ks1)) by zl.
  pose proof (seps_lt _ _ _ _ _ HwL) as [_ Hx]. apply Forall_app in Hx as [_ Hx]. apply Forall_cons in Hx as [Hx _].
  apply seps_split in HwL as [Hs1 Hs2]; [|done].
  exists s', (Inner p ks1 ts1), (Inner q (k' :: ks2) (tx :: ts2)), kx.
  split_and!; try done; try lia.
  - eapply touches_sub, Ht. simpl. fold (idss (ts1 ++ [tx])). rewrite idss_app, idss_cons.
    pose proof (root_in_ids tx). set_solver.
  - simpl. destruct ts1; [discriminate|done].
  - simpl. fold (flats ts1) (flats (ts1 ++ [tx])) (flats ts2). rewrite flats_app, flats_cons.
    change (flats []) with (@nil (Z * Z)). now rewrite app_nil_r, <- app_assoc.
  - simpl. fold (idss ts1) (idss (ts1 ++ [tx])) (idss ts2). rewrite idss_app, idss_cons.
    change (idss []) with (@nil Z). solve_Permutation.
  - simpl. split; [zl|done].
  - simpl. split; [zl|]. simpl in Hs2. tauto.
Qed.

Lemma share_right_leaf_spec s root p0 c0 A B' nxt p e1 q e k' a b :
  let L := Leaf p e1 in let R := Leaf q e in
  (exists n0, nodes s !! p0 = Some n0 /\ node_ok n0 c0) -> c_keys c0 = A ++ k' :: B' ->
  holds s (cells p0 (fleaf R) L) -> holds s (cells p0 nxt R) -> NoDup (p0 :: ids L ++ ids R) ->
  wf 0 (min_keys 0 - 1) a k' L -> wfm 0 k' b R -> nkeys L < min_keys 0 ->
  capacity 0 <= nkeys L + nkeys R -> a < k' < b ->
  shared s root 0 p0 c0 A B' nxt L R a b (redistribute_nodes root (root_of L) (root_of R) MINUS_ONE (zlen A) k').
Proof.
  intros L R H0 Hc0 HL HR Hnd HwL HwR Hdef Hcap Hk. pose proof order_ok. pose proof cut_bounds.
  pose proof (wf_nkeys _ _ _ _ _ HwL) as HnL. unfold L, R in *. cbn [nkeys capacity min_keys root_of fleaf] in *.
  destruct e as [|[kx rx] e]; [exfalso; zl|]. destruct e as [|[ky ry] e2]; [exfalso; zl|].
  destruct HwL as (Hs1 & Hb1 & Hl1), HwR as (Hs2 & Hb2 & Hl2).
  simpl in Hs2, Hb2. apply StronglySorted_inv in Hs2 as [Hs2 Hfx]. apply Forall_cons in Hb2 as [Hbx Hb2].
  apply Forall_cons in Hfx as [Hxy Hfx]. apply Forall_cons in Hb2 as [Hby Hb2].
  simpl in Hnd. rewrite !NoDup_cons in Hnd.
  destruct (share_right_leaf s root p0 c0 A B' p q e1 kx rx ky ry e2 nxt k') as (s' & Hrun & Ht & Hp0 & HcL & HcR);
    try done; try lia; try (intros ->; set_solver).
  exists s', (Leaf p (e1 ++ [(kx, rx)])), (Leaf q ((ky, ry) :: e2)), ky.
  split_and!; try done; try lia.
  - eapply touches_sub, Ht. simpl. set_solver.
  - simpl. now rewrite <- app_assoc.
  - destruct (sorted_bounds_app e1.*1 [kx] a k' ky) as [Hs Hb]; try done; try lia.
    { repeat constructor. }
    { constructor; [lia|constructor]. }
    simpl. rewrite fmap_app. split_and!; try done; zl.
  - apply StronglySorted_inv in Hs2 as [Hs2 Hfy]. simpl. split_and!; try zl; [now constructor|].
    constructor; [lia|]. apply Forall_forall. intros x Hx. rewrite Forall_forall in Hfy, Hb2.
    specialize (Hfy x Hx). specialize (Hb2 x Hx). simpl in Hfy, Hb2. lia.
Qed.

Lemma share_right_inner_spec s root h p0 c0 A B' nxt p ks1 ts1 q ks ts k' a b :
  let L := Inner p ks1 ts1 in let R := Inner q ks ts in
  (exists n0, nodes s !! p0 = Some n0 /\ node_ok n0 c0) -> c_keys c0 = A ++ k' :: B' ->
  holds s (cells p0 (fleaf R) L) -> holds s (cells p0 nxt R) -> NoDup (p0 :: ids L ++ ids R) ->
  wf (S h) (min_keys (S h) - 1) a k' L -> wfm (S h) k' b R -> nkeys L < min_keys (S h) ->
  capacity (S h) <= nkeys L + nkeys R -> a < k' < b ->
  shared s root (S h) p0 c0 A B' nxt L R a b (redistribute_nodes root (root_of L) (root_of R) MINUS_ONE (zlen A) k').
Proof.
  intros L R H0 Hc0 HL HR Hnd HwL HwR Hdef Hcap Hk. pose proof order_ok. pose proof cut_bounds.
  pose proof (wf_nkeys _ _ _ _ _ HwR) as HnR. pose proof (wf_nkeys _ _ _ _ _ HwL) as HnL. unfold L, R in *.
  cbn [nkeys capacity min_keys root_of] in *.
  destruct HwL as [_ HwL], HwR as [_ HwR]. pose proof (seps_len _ _ _ _ _ HwL) as Hts1. pose proof (seps_len _ _ _ _ _ HwR) as Hts.
  destruct ks as [|kx ks2]; [exfalso; zl|]. destruct ts as [|tx ts2]; [discriminate|].
  destruct (share_right_inner s root p0 c0 A B' p q ks1 ts1 kx ks2 tx ts2 nxt k') as (s' & Hrun & Ht & Hp0 & HcL & HcR);
    try done; try lia.
  pose proof (seps_lt _ _ _ _ _ HwR) as [_ Hx]. apply Forall_cons in Hx as [Hx _].
  destruct HwR as (Hkx & Htx & HwR). pose proof (seps_len _ _ _ _ _ HwR) as Hts2.
  exists s', (Inner p (ks1 ++ [k']) (ts1 ++ [tx])), (Inner q ks2 ts2), kx.
  split_and!; try done; try lia.
  - eapply touches_sub, Ht. simpl. fold (idss ts1) (idss ts2). pose proof (root_in_ids tx). set_solver.
  - destruct ts2; [discriminate|]. exact HcL.
  - simpl. destruct ts1; [discriminate|done].
  - simpl. fold (flats ts1) (flats (ts1 ++ [tx])) (flats ts2). rewrite flats_app, flats_cons.
    change (flats []) with (@nil (Z * Z)). now rewrite app_nil_r, <- app_assoc.
  - simpl. fold (idss ts1) (idss (ts1 ++ [tx])) (idss ts2). rewrite idss_app, idss_cons.
    change (idss []) with (@nil Z). solve_Permutation.
  - simpl. split; [zl|]. apply seps_split; [done|]. simpl. auto.
  - simpl. split; [zl|done].
Qed.

Lemma share_left_spec s root h p0 c0 A B' nxt L R k' a b ni :
  (exists n0, nodes s !! p0 = Some n0 /\ node_ok n0 c0) -> c_keys c0 = A ++ k' :: B' ->
  holds s (cells p0 (fleaf R) L) -> holds s (cells p0 nxt R) -> NoDup (p0 :: ids L ++ ids R) ->
  wfm h a k' L -> wf h (min_keys h - 1) k' b R -> nkeys R < min_keys h ->
  capacity h <= nkeys L + nkeys R -> a < k' < b -> ni <> MINUS_ONE ->
  shared s root h p0 c0 A B' nxt L R a b (redistribute_nodes root (root_of R) (root_of L) ni (zlen A) k').
Proof.
  intros H0 Hc0 HL HR Hnd HwL HwR. destruct h as [|h], L, R; try (exfalso; assumption).
  - now apply share_left_leaf_spec.
  - now apply share_left_inner_spec.
Qed.

Lemma share_right_spec s root h p0 c0 A B' nxt L R k' a b :
  (exists n0, nodes s !! p0 = Some n0 /\ node_ok n0 c0) -> c_keys c0 = A ++ k' :: B' ->
  holds s (cells p0 (fleaf R) L) -> holds s (cells p0 nxt R) -> NoDup (p0 :: ids L ++ ids R) ->
  wf h (min_keys h - 1) a k' L -> wfm h k' b R -> nkeys L < min_keys h ->
  capacity h <= nkeys L + nkeys R -> a < k' < b ->
  shared s root h p0 c0 A B' nxt L R a b (redistribute_nodes root (root_of L) (root_of R) MINUS_ONE (zlen A) k').
Proof.
  intros H0 Hc0 HL HR Hnd HwL HwR. destruct h as [|h], L, R; try (exfalso; assumption).
  - now apply share_right_leaf_spec.
  - now apply share_right_inner_spec.
Qed.

(** ** Results of a deletion

    [extra] are nodes in use that are not part of the tree. *)

Definition result (s : btree) (root : Z) (es : list (Z * Z)) (extra : list Z) : Prop :=
  (root = 0 /\ es = [] /\ node_mem s extra) \/
  exists t h, root = root_of t /\ flat t = es /\ wf h 1 0 (2 ^ 64) t /\ holds s (cells 0 0 t) /\
    NoDup (ids t ++ extra) /\ node_mem s (ids t ++ extra).

Lemma fill_result s path h a b t extra :
  path_wf h path a b -> a < b -> wf h (min_at path h) a b t ->
  holds s (path_cells path (root_of t) (fleaf t)) -> holds s (cells (path_par path) (path_nxt path) t) ->
  NoDup (path_ids path ++ ids t ++ extra) -> node_mem s (path_ids path ++ ids t ++ extra) ->
  result s (path_root path (root_of t)) (path_fl path ++ flat t ++ path_fr path) extra.
Proof.
  intros Hp Hab Ht Hc1 Hc2 Hnd Hm. right. exists (fill path t), (length path + h)%nat.
  rewrite root_fill, flat_fill, cells_fill, ids_fill, <- !app_assoc. split_and!; try done.
  - eapply fill_wf; eauto.
  - now apply holds_app.
Qed.

(** The root after the removal of an entry. *)
Lemma adjust_root_spec s h t extra :
  wf h 0 0 (2 ^ 64) t -> holds s (cells 0 0 t) -> NoDup (ids t ++ extra) -> node_mem s (ids t ++ extra) ->
  exists root' s', adjust_root (root_of t) s = Ok (root', s') /\ result s' root' (flat t) extra /\
    keeps_records s s' /\ (forall q, q ∈ extra -> nodes s' !! q = nodes s !! q).
Proof.
  intros Hwf Hc Hnd Hm. unfold adjust_root. pose proof (root_in_ids t) as Hroot.
  assert (Hn : exists n, nodes s !! root_of t = Some n /\ num_keys n = nkeys t /\ is_leaf n = match t with Leaf _ _ => true | _ => false end).
  { destruct t; [|rewrite cells_Inner in Hc]; apply holds_cons in Hc as [(n & Hn & Hok) _]; exists n;
      (split; [done|]); rewrite (ok_num _ _ Hok), (ok_leaf _ _ Hok); simpl; split; auto. zl. }
  destruct Hn as (n & Hn & Hnum & Hlf). run_get Hn. rewrite Hnum.
  destruct (Z.ltb_spec 0 (nkeys t)) as [Hpos|Hzero].
  { exists (root_of t), s. split; [done|]. split; [|split; [reflexivity|done]].
    right. exists t, h. split_and!; try done. eapply wf_strengthen; [exact Hwf|lia]. }
  rewrite Hlf. destruct h as [|h]; destruct t as [p es|p ks ts]; try (exfalso; exact Hwf); cbn [negb root_of].
  - erewrite bindB; [|reflexivity].
    destruct (free_arrays_spec s p n (ids (Leaf p es) ++ extra) extra Hm) as (s' & Hrun & Hm' & Hq & Hr & Hf & Hb).
    { simpl. set_solver. }
    { done. }
    { simpl in Hnd. apply NoDup_cons in Hnd as [Hnd _]. simpl. set_solver. }
    run Hrun. exists 0, s'. split; [done|]. split_and!; [|split; [done|done|lia]|].
    + left. simpl in Hzero. destruct es; [done|exfalso; zl].
    + intros q Hin. apply Hq. intros ->. simpl in Hnd. apply NoDup_cons in Hnd as [Hnd _]. set_solver.
  - destruct Hwf as [_ Hs]. simpl in Hzero. destruct ks; [|exfalso; zl].
    pose proof (seps_len _ _ _ _ _ Hs) as Hts. destruct ts as [|u [|? ?]]; [discriminate| |discriminate].
    destruct Hs as [_ Hu]. rewrite cells_Inner in Hc. cbn [map cells_list hdf] in Hc. rewrite app_nil_r in Hc.
    apply holds_cons in Hc as [(n' & Hn' & Hok) Hc]. cbn [root_of] in Hn. rewrite Hn in Hn'. injection Hn' as <-.
    destruct (ok_ptrs _ _ Hok) as [jp Hjp]. cbn [c_ptrs app] in Hjp.
    simpl in Hnd, Hm. rewrite app_nil_r in Hnd, Hm. apply NoDup_cons in Hnd as [Hnp Hnd].
    destruct (reparent s p 0 u 0 Hc) as (nu & Hnu & Hcu); [now apply NoDup_app in Hnd as [Hnd _]|].
    assert (Hrd : aread (pointers n) 0 = Ok (root_of u)) by (rewrite Hjp; apply aread_0).
    assert (Hstep : (new_root ← lift (aread (pointers n) 0);
        _ ← on_node new_root (fun n => Ok (set_parent 0 n)); mret new_root) s
      = Ok (root_of u, upd s (root_of u) (set_parent 0 nu))).
    { run_lift Hrd. now run_set Hnu. }
    run Hstep. clear Hstep. set (s1 := upd s (root_of u) (set_parent 0 nu)) in *. pose proof (root_in_ids u) as Hru.
    assert (Hs1 : same_alloc s s1) by (eapply same_alloc_upd; [exact Hnu|reflexivity]).
    destruct (free_arrays_spec s1 p n (p :: ids u ++ extra) (ids u ++ extra)) as (s' & Hrun & Hm' & Hq & Hr & Hf & Hb).
    { eapply node_mem_same; eauto. }
    { set_solver. }
    { unfold s1. rewrite upd_ne; [done|]. intros <-. set_solver. }
    { set_solver. }
    run Hrun. exists (root_of u), s'. split; [done|]. split_and!; [|split; [done|done|rewrite Hb; apply Z.le_refl]|].
    + right. exists u, h. split_and!; try done; [simpl; now rewrite app_nil_r| |].
      * eapply wf_weaken; [|exact Hu]. apply min_keys_pos.
      * eapply holds_same; [|exact Hcu]. intros q. rewrite cells_ids. intros Hin. apply Hq. set_solver.
    + intros q Hin. rewrite Hq by set_solver. unfold s1. apply upd_ne. intros <-.
      apply NoDup_app in Hnd as (_ & Hd & _). exact (Hd _ Hru Hin).
Qed.
End delete.
