(* ===== verification/BTreeRebalance.v ===== *)
(** Deletion from a B+ tree: [delete_entry] on the way to the root. *)
From stdpp Require Import base numbers list gmap strings sorting.
From Stdlib Require Import ZArith Lia.
From S2P Require Import Prelude BTree BTreeArrays BTreeNode BTreeAlloc BTreeTree BTreeFind BTreeInsert BTreeMerge BTreeShare BTreeShareRight BTreeDelete.
Open Scope Z_scope.

Section rebalance.
Context {cfg : BtConfig} {cfg_ok : BtOk}.

(** [delete_entry] called at the end of a path, where removing the entry leaves the
    tree [t], perhaps with one key too few. *)
Definition delete_ok (path : list frame) (fuel : nat) : Prop :=
  forall h a b t s s1 key ptr extra,
  remove_entry_from_node (root_of t) key ptr s = Ok (root_of t, s1) ->
  path_wf h path a b -> a < b -> wf h (min_at path h - 1) a b t ->
  holds s1 (path_cells path (root_of t) (fleaf t)) -> holds s1 (cells (path_par path) (path_nxt path) t) ->
  NoDup (path_ids path ++ ids t ++ extra) -> node_mem s1 (path_ids path ++ ids t ++ extra) ->
  exists root' s', delete_entry fuel (path_root path (root_of t)) (root_of t) key ptr s = Ok (root', s') /\
    result s' root' (path_fl path ++ flat t ++ path_fr path) extra /\ keeps_records s1 s' /\
    (forall q, q ∈ extra -> nodes s' !! q = nodes s1 !! q).

(** The siblings [L] and [R] below the node [p0] at the end of a path; [k'] is the
    key between them. *)
Record family (s : btree) (path : list frame) (h : nat) (p0 : Z) (A : list Z) (C : list tree)
    (L : tree) (k' : Z) (R : tree) (B' : list Z) (D : list tree) (lo hi a b mL mR : Z) (extra : list Z) : Prop := {
  fam_path : path_wf (S h) path lo hi;
  fam_left : seps_l (wfm h) lo A C a;
  fam_right : seps_r (wfm h) b B' D hi;
  fam_key : a < k' < b;
  fam_L : wf h mL a k' L;
  fam_R : wf h mR k' b R;
  fam_num : min_at path (S h) <= zlen (A ++ k' :: B') <= order - 1;
  fam_path_cells : holds s (path_cells path p0 (hdf C (fleaf L)));
  fam_node : exists n0, nodes s !! p0 = Some n0 /\
    node_ok n0 (Content false (path_par path) (A ++ k' :: B') (map root_of (C ++ L :: R :: D)) 0);
  fam_cells : holds s (cells_list p0 (path_nxt path) (C ++ L :: R :: D));
  fam_nodup : NoDup (path_ids path ++ p0 :: idss (C ++ L :: R :: D) ++ extra);
  fam_mem : node_mem s (path_ids path ++ p0 :: idss (C ++ L :: R :: D) ++ extra) }.

Lemma fam_siblings s path h p0 A C L k' R B' D lo hi a b mL mR extra :
  family s path h p0 A C L k' R B' D lo hi a b mL mR extra ->
  holds s (cells_list p0 (fleaf L) C) /\ holds s (cells p0 (fleaf R) L) /\
  holds s (cells p0 (hdf D (path_nxt path)) R) /\ holds s (cells_list p0 (path_nxt path) D).
Proof.
  intros [_ _ _ _ _ _ _ _ _ Hc _ _]. rewrite cells_list_app in Hc. cbn [cells_list hdf] in Hc.
  rewrite !holds_app in Hc. tauto.
Qed.

(** The nodes of a family are distinct. *)
Lemma fam_distinct s path h p0 A C L k' R B' D lo hi a b mL mR extra :
  family s path h p0 A C L k' R B' D lo hi a b mL mR extra ->
  NoDup (p0 :: ids L ++ ids R) /\
  (forall q, q ∈ path_ids path \/ q ∈ idss C \/ q ∈ idss D \/ q ∈ extra -> q ∉ p0 :: ids L ++ ids R).
Proof.
  intros [_ _ _ _ _ _ _ _ _ _ Hnd _].
  assert (Hp : path_ids path ++ p0 :: idss (C ++ L :: R :: D) ++ extra ≡ₚ
    (p0 :: ids L ++ ids R) ++ (path_ids path ++ idss C ++ idss D ++ extra)).
  { rewrite idss_app, !idss_cons. solve_Permutation. }
  rewrite Hp in Hnd. apply NoDup_app in Hnd as (Hnd & Hd & _). split; [done|].
  intros q Hq Hin. apply (Hd q Hin). set_solver.
Qed.

(** The right sibling is not among the pointers before it. *)
Lemma fam_right_new s path h p0 A C L k' R B' D lo hi a b mL mR extra :
  family s path h p0 A C L k' R B' D lo hi a b mL mR extra -> root_of R ∉ map root_of C ++ [root_of L].
Proof.
  intros Hfam Hin. pose proof (fam_distinct _ _ _ _ _ _ _ _ _ _ _ _ _ _ _ _ _ _ Hfam) as [Hnd Hdis].
  pose proof (root_in_ids R) as HR. pose proof (root_in_ids L) as HL. apply elem_of_app in Hin as [Hin|Hin].
  - apply roots_in_idss in Hin. apply (Hdis (root_of R)); set_solver.
  - apply list_elem_of_singleton in Hin. apply NoDup_cons in Hnd as [_ Hnd]. apply NoDup_app in Hnd as (_ & Hd & _).
    rewrite Hin in HR. exact (Hd _ HL HR).
Qed.

Lemma not_in_sorted_left P lo ks ts a k' : seps_l P lo ks ts a -> a < k' -> k' ∉ ks.
Proof.
  intros Hs Hk Hin. apply seps_l_lt in Hs as [_ Hs]. rewrite Forall_forall in Hs. specialize (Hs k' Hin). lia.
Qed.

(** The node set aside by a merge is released. *)
Lemma free_result s root es p v extra :
  result s root es (p :: extra) -> nodes s !! p = Some v -> p ∉ extra ->
  exists s', free_arrays p s = Ok (tt, s') /\ result s' root es extra /\ keeps_records s s' /\
    (forall q, q <> p -> nodes s' !! q = nodes s !! q).
Proof.
  intros [(-> & -> & Hm)|(t & h & -> & <- & Hwf & Hc & Hnd & Hm)] Hv Hp.
  - destruct (free_arrays_spec s p v (p :: extra) extra Hm) as (s' & Hrun & Hm' & Hq & Hr & Hf & Hb);
      [set_solver|done|set_solver|].
    exists s'. split_and!; try done; [now left|]. split; [done|done|lia].
  - assert (Hpt : p ∉ ids t). { intros Hin. apply NoDup_app in Hnd as (_ & Hd & _). apply (Hd p Hin). set_solver. }
    destruct (free_arrays_spec s p v (ids t ++ p :: extra) (ids t ++ extra) Hm) as (s' & Hrun & Hm' & Hq & Hr & Hf & Hb);
      [set_solver|done|set_solver|].
    exists s'. split_and!; try done; [|split; [done|done|lia]].
    right. exists t, h. split_and!; try done.
    + eapply holds_same; [|exact Hc]. intros q. rewrite cells_ids. intros Hin. apply Hq. congruence.
    + rewrite <- Permutation_middle in Hnd. now apply NoDup_cons in Hnd as [_ Hnd].
Qed.

Lemma coalesce_spec s path fuel h p0 A C L k' R B' D lo hi a b mL mR extra n neighbor ni :
  delete_ok path fuel -> family s path h p0 A C L k' R B' D lo hi a b mL mR extra ->
  nkeys L + nkeys R < capacity h -> 0 <= mL -> 0 <= mR -> min_keys h <= Z.max mL mR ->
  (if ni =? MINUS_ONE then n = root_of L /\ neighbor = root_of R else n = root_of R /\ neighbor = root_of L) ->
  exists root' s', coalesce_nodes (delete_entry fuel) (path_root path p0) n neighbor ni k' s = Ok (root', s') /\
    result s' root' (path_fl path ++ flats (C ++ L :: R :: D) ++ path_fr path) extra /\ keeps_records s s' /\
    (forall q, q ∈ extra -> nodes s' !! q = nodes s !! q).
Proof.
  intros IH Hfam Hcap HmL HmR Hmin Hni. pose proof Hfam as Hfam0.
  pose proof (fam_siblings _ _ _ _ _ _ _ _ _ _ _ _ _ _ _ _ _ _ Hfam) as (HcC & HcL & HcR & HcD).
  pose proof (fam_distinct _ _ _ _ _ _ _ _ _ _ _ _ _ _ _ _ _ _ Hfam) as [Hnd3 Hdis].
  destruct Hfam as [Hpath Hsl Hsr Hk HwL HwR Hnum Hpc (n0 & Hn0 & Hok0) _ Hnd Hm].
  apply NoDup_cons in Hnd3 as [Hp0 HndLR].
  destruct (merge_spec s h p0 _ L R k' a b mL mR HcL HcR HndLR HwL HwR Hk Hcap HmL HmR) as
    (s1 & v & M & Hrun & Ht & HcM & Hv & Hpar & HrM & HfM & HflM & Hperm & HwM).
  assert (Hcoal : forall k, coalesce_nodes k (path_root path p0) n neighbor ni k' s =
    (root ← k (path_root path p0) p0 k' (root_of R); _ ← free_arrays (root_of R); mret root) s1).
  { intros k. unfold coalesce_nodes. destruct (ni =? MINUS_ONE), Hni as [-> ->]; run Hrun; run_get Hv; now rewrite Hpar. }
  rewrite Hcoal. clear Hcoal Hni n neighbor ni.
  (* the entry of the right node leaves the parent *)
  assert (Hn1 : nodes s1 !! p0 = Some n0) by (rewrite (proj2 Ht); auto).
  rewrite map_app in Hok0. cbn [map] in Hok0.
  change (map root_of C ++ root_of L :: root_of R :: map root_of D)
    with (map root_of C ++ [root_of L] ++ root_of R :: map root_of D) in Hok0. rewrite app_assoc in Hok0.
  pose proof (fam_right_new _ _ _ _ _ _ _ _ _ _ _ _ _ _ _ _ _ _ Hfam0) as HRnot.
  destruct (remove_entry_spec s1 p0 n0 _ _ _ _ _ _ _ k' (root_of R) Hn1 Hok0) as (n1 & Hrem & Hok1 & Hnx1);
    [eapply not_in_sorted_left; eauto; lia|done|].
  set (s2 := upd s1 p0 n1) in *.
  set (t := Inner p0 (A ++ B') (C ++ M :: D)).
  assert (Hsame2 : same_alloc s s2).
  { etrans; [apply Ht|]. eapply same_alloc_upd; eauto. }
  assert (Hq2 : forall q, q ∉ p0 :: ids L ++ ids R -> nodes s2 !! q = nodes s !! q).
  { intros q Hq. unfold s2. rewrite upd_ne by set_solver. apply Ht. set_solver. }
  assert (Hids : path_ids path ++ ids t ++ root_of R :: extra ≡ₚ path_ids path ++ p0 :: idss (C ++ L :: R :: D) ++ extra).
  { unfold t. simpl. fold (idss (C ++ M :: D)). rewrite !idss_app, !idss_cons.
    rewrite (app_assoc (ids L)), Hperm. simpl. solve_Permutation. }
  assert (HdM : forall q, q ∈ ids M -> q <> p0).
  { intros q Hq ->. apply Hp0. rewrite Hperm. set_solver. }
  assert (HcM2 : holds s2 (cells p0 (hdf D (path_nxt path)) M)).
  { unfold s2. apply holds_upd; [|done]. rewrite cells_ids. intros Hin. now apply HdM in Hin. }
  assert (Hct : holds s2 (cells (path_par path) (path_nxt path) t)).
  { unfold t. rewrite cells_Inner. apply holds_cons. split.
    - exists n1. split; [apply upd_eq|]. rewrite map_app. cbn [map]. rewrite HrM.
      rewrite <- app_assoc in Hok1. exact Hok1.
    - rewrite cells_list_app. cbn [cells_list hdf]. rewrite !holds_app, HfM. split_and!; try done.
      + eapply holds_same; [|exact HcC]. intros q. rewrite cells_list_ids. intros Hin. apply Hq2, Hdis. auto.
      + eapply holds_same; [|exact HcD]. intros q. rewrite cells_list_ids. intros Hin. apply Hq2, Hdis. auto. }
  destruct (IH (S h) lo hi t s1 s2 k' (root_of R) (root_of R :: extra)) as (root' & s3 & Hdel & Hres & Hkr & Hex).
  - exact Hrem.
  - done.
  - apply seps_l_lt in Hsl as [? _]. apply seps_r_lt in Hsr as [? _]. lia.
  - unfold t. simpl. split; [zl|]. apply seps_focus; [eapply seps_l_len, Hsl|].
    exists a, b. split_and!; try done; [lia|]. eapply wf_weaken; [|exact HwM]. done.
  - cbn [root_of t]. eapply holds_same; [intros q; rewrite path_cells_ids; auto|].
    replace (fleaf t) with (hdf C (fleaf L)); [exact Hpc|]. unfold t. cbn [fleaf]. rewrite <- HfM. now destruct C.
  - exact Hct.
  - now rewrite Hids.
  - rewrite Hids. eapply node_mem_same; eauto.
  - cbn [root_of t] in Hdel. run Hdel.
    assert (Hv3 : exists v3, nodes s3 !! root_of R = Some v3).
    { rewrite Hex by set_solver. unfold s2. rewrite upd_ne; [eauto|]. intros ->. apply Hp0.
      pose proof (root_in_ids R). set_solver. }
    destruct Hv3 as [v3 Hv3].
    assert (Hflat : path_fl path ++ flats (C ++ L :: R :: D) ++ path_fr path = path_fl path ++ flat t ++ path_fr path).
    { unfold t. cbn [flat]. fold (flats (C ++ M :: D)). rewrite !flats_app, !flats_cons, HflM. now rewrite <- !app_assoc. }
    rewrite Hflat.
    destruct (free_result s3 root' _ (root_of R) v3 extra Hres Hv3) as (s' & Hfree & Hres' & Hkr' & Hq').
    { intros Hin. apply (Hdis (root_of R)); [auto|]. pose proof (root_in_ids R). set_solver. }
    run Hfree. exists root', s'. split; [done|]. split; [done|]. split.
    + etrans; [apply same_keeps, Hsame2|]. etrans; eauto.
    + intros q Hin. assert (q <> root_of R).
      { intros ->. apply (Hdis (root_of R)); [auto|]. pose proof (root_in_ids R). set_solver. }
      rewrite Hq', Hex by (done || set_solver). apply Hq2, Hdis. auto.
Qed.

(** After an entry moved between siblings the tree is whole again. *)
Lemma share_result s path h p0 A C L k' R B' D lo hi a b mL mR extra m :
  family s path h p0 A C L k' R B' D lo hi a b mL mR extra ->
  shared s (path_root path p0) h p0
    (Content false (path_par path) (A ++ k' :: B') (map root_of (C ++ L :: R :: D)) 0) A B'
    (hdf D (path_nxt path)) L R a b m ->
  exists s', m s = Ok (path_root path p0, s') /\
    result s' (path_root path p0) (path_fl path ++ flats (C ++ L :: R :: D) ++ path_fr path) extra /\
    keeps_records s s' /\ (forall q, q ∈ extra -> nodes s' !! q = nodes s !! q).
Proof.
  intros Hfam (s' & L' & R' & k & Hrun & [Hsame Hq] & (n0 & Hn0 & Hok0) & HcL & HcR & HrL & HrR & HfL & Hflat & Hids & Hk & HwL & HwR).
  pose proof (fam_siblings _ _ _ _ _ _ _ _ _ _ _ _ _ _ _ _ _ _ Hfam) as (HcC & _ & _ & HcD).
  pose proof (fam_distinct _ _ _ _ _ _ _ _ _ _ _ _ _ _ _ _ _ _ Hfam) as [_ Hdis].
  destruct Hfam as [Hpath Hsl Hsr _ _ _ Hnum Hpc _ _ Hnd Hm].
  set (t := Inner p0 (A ++ k :: B') (C ++ L' :: R' :: D)).
  pose proof (seps_insert _ _ _ _ _ _ _ _ _ _ _ _ Hsl Hk HwL HwR Hsr) as Hs.
  assert (Hperm : ids t ≡ₚ p0 :: idss (C ++ L :: R :: D)).
  { unfold t. simpl. fold (idss (C ++ L' :: R' :: D)). rewrite !idss_app, !idss_cons, !(app_assoc (ids _)), Hids. done. }
  assert (Hfl : flats (C ++ L :: R :: D) = flat t).
  { unfold t. cbn [flat]. fold (flats (C ++ L' :: R' :: D)). rewrite !flats_app, !flats_cons, !(app_assoc (flat _)).
    now rewrite Hflat. }
  exists s'. split; [done|]. split; [|split; [now apply same_keeps|]].
  - rewrite Hfl. change p0 with (root_of t). eapply (fill_result s' path (S h) lo hi t).
    + done.
    + apply seps_lt in Hs. tauto.
    + simpl. split; [zl|done].
    + cbn [root_of t]. replace (fleaf t) with (hdf C (fleaf L)) by (unfold t; rewrite <- HfL; now destruct C).
      eapply holds_same; [|exact Hpc]. intros q. rewrite path_cells_ids. auto.
    + unfold t. rewrite cells_Inner. apply holds_cons. split.
      * exists n0. split; [done|]. unfold with_keys in Hok0. nf_in Hok0.
        rewrite map_app in Hok0 |- *. cbn [map] in Hok0 |- *. now rewrite HrL, HrR.
      * rewrite cells_list_app. cbn [cells_list hdf]. rewrite HfL. rewrite !holds_app. split_and!; try done.
        -- eapply holds_same; [|exact HcC]. intros q. rewrite cells_list_ids. intros Hin. apply Hq, Hdis. auto.
        -- eapply holds_same; [|exact HcD]. intros q. rewrite cells_list_ids. intros Hin. apply Hq, Hdis. auto.
    + rewrite Hperm. exact Hnd.
    + rewrite Hperm. eapply node_mem_same; eauto.
  - intros q Hin. apply Hq, Hdis. auto.
Qed.

(** The family of a node and its neighbour, to the left or else to the right. *)
Lemma family_left s path h p0 lk lt rk rt t a b extra :
  path_wf h (Frame p0 lk lt rk rt :: path) a b -> a < b -> wf h (min_keys h - 1) a b t -> lt <> [] ->
  holds s (path_cells (Frame p0 lk lt rk rt :: path) (root_of t) (fleaf t)) ->
  holds s (cells p0 (path_nxt (Frame p0 lk lt rk rt :: path)) t) ->
  NoDup (path_ids (Frame p0 lk lt rk rt :: path) ++ ids t ++ extra) ->
  node_mem s (path_ids (Frame p0 lk lt rk rt :: path) ++ ids t ++ extra) ->
  exists A C k' L lo hi c, lk = A ++ [k'] /\ lt = C ++ [L] /\ length C = length A /\
    family s path h p0 A C L k' t rk rt lo hi c b (min_keys h) (min_keys h - 1) extra.
Proof.
  intros (lo & hi & Hpath & Hsl & Hsr & Hnum) Hab Hwf Hne Hpc Hct Hnd Hm. cbn [f_p f_lk f_lt f_rk f_rt] in *.
  pose proof (seps_l_len _ _ _ _ _ Hsl) as Hlen.
  destruct (split_last lt) as (C & L & ->); [done|]. destruct (split_last lk) as (A & k' & ->).
  { intros ->. zl. }
  assert (Hlen' : length C = length A) by zl.
  assert (k' = a) as ->.
  { clear -Hsl Hlen'. revert lo C Hsl Hlen'. induction A as [|x A IH]; intros lo [|c C]; simpl; try done.
    - tauto.
    - intros (_ & _ & H) Hl. eapply IH; eauto. }
  apply seps_l_snoc in Hsl as (c & Hsl & Hca & HwL); [|done].
  exists A, C, a, L, lo, hi, c. split_and!; try done.
  cbn [path_cells f_p f_lk f_lt f_rk f_rt path_par path_nxt path_ids] in *. rewrite cells_list_app in Hpc. cbn [cells_list hdf app] in Hpc.
  rewrite !app_nil_r in Hpc. apply holds_cons in Hpc as [Hn0 Hpc]. rewrite !holds_app in Hpc.
  destruct Hpc as [[HcC HcL] [HcD Hpc]].
  assert (Hperm : p0 :: idss (C ++ [L]) ++ idss rt ++ path_ids path ++ ids t ++ extra ≡ₚ
    path_ids path ++ p0 :: idss (C ++ L :: t :: rt) ++ extra).
  { rewrite !idss_app, !idss_cons. change (idss []) with (@nil Z). solve_Permutation. }
  cbn [app] in Hnd, Hm. rewrite <- !app_assoc in Hnd, Hm. rewrite Hperm in Hnd, Hm.
  split; try done.
  - rewrite <- app_assoc in Hnum. exact Hnum.
  - rewrite hdf_app in Hpc. exact Hpc.
  - rewrite <- app_assoc in Hn0. rewrite map_app in Hn0 |- *. rewrite <- app_assoc in Hn0. exact Hn0.
  - rewrite cells_list_app. cbn [cells_list hdf]. rewrite !holds_app. auto.
Qed.

Lemma family_right s path h p0 lk rk rt t a b extra :
  path_wf h (Frame p0 lk [] rk rt :: path) a b -> a < b -> wf h (min_keys h - 1) a b t ->
  holds s (path_cells (Frame p0 lk [] rk rt :: path) (root_of t) (fleaf t)) ->
  holds s (cells p0 (path_nxt (Frame p0 lk [] rk rt :: path)) t) ->
  NoDup (path_ids (Frame p0 lk [] rk rt :: path) ++ ids t ++ extra) ->
  node_mem s (path_ids (Frame p0 lk [] rk rt :: path) ++ ids t ++ extra) ->
  exists k' B' R D lo hi c, lk = [] /\ rk = k' :: B' /\ rt = R :: D /\
    family s path h p0 [] [] t k' R B' D lo hi a c (min_keys h - 1) (min_keys h) extra.
Proof.
  intros (lo & hi & Hpath & Hsl & Hsr & Hnum) Hab Hwf Hpc Hct Hnd Hm. cbn [f_p f_lk f_lt f_rk f_rt] in *.
  pose proof (seps_l_len _ _ _ _ _ Hsl) as Hlen. destruct lk; [|discriminate]. simpl in Hsl. subst lo.
  assert (Hmin : 1 <= min_at path (S h)) by (destruct path; [simpl; lia|apply min_keys_pos]).
  pose proof (seps_r_len _ _ _ _ _ Hsr) as Hlenr.
  destruct rk as [|k' B']; [exfalso; zl|]. destruct rt as [|R D]; [discriminate|].
  destruct Hsr as [-> Hsr]. change (R :: D) with ([] ++ R :: D) in Hsr. change B' with ([] ++ B') in Hsr.
  apply seps_focus in Hsr as (a' & c & Ha' & Hac & HwR & Hsr); [|done]. simpl in Ha'. subst a'.
  exists k', B', R, D, a, hi, c. split_and!; try done.
  cbn [path_cells f_p f_lk f_lt f_rk f_rt path_par path_nxt path_ids cells_list hdf app] in *.
  apply holds_cons in Hpc as [Hn0 Hpc]. rewrite !holds_app in Hpc. destruct Hpc as [[HcR HcD] Hpc].
  assert (Hperm : p0 :: idss [] ++ idss (R :: D) ++ path_ids path ++ ids t ++ extra ≡ₚ
    path_ids path ++ p0 :: idss (t :: R :: D) ++ extra).
  { rewrite !idss_cons. change (idss []) with (@nil Z). solve_Permutation. }
  rewrite <- !app_assoc in Hnd, Hm. rewrite Hperm in Hnd, Hm.
  split; try done. cbn [cells_list hdf app]. rewrite !holds_app. auto.
Qed.

Lemma get_neighbor_index_spec s p0 n0 par ks ps1 n ps2 v :
  nodes s !! n = Some v -> parent v = p0 -> nodes s !! p0 = Some n0 ->
  node_ok n0 (Content false par ks (ps1 ++ n :: ps2) 0) -> n ∉ ps1 ->
  get_neighbor_index n s = Ok (u64 (zlen ps1 - 1), s).
Proof.
  intros Hv Hpar Hn0 [_ _ Hnum _ [jp Hp] _ _ Hs _] Hnin. cbn [c_leaf c_par c_keys c_ptrs c_next] in *.
  unfold get_neighbor_index. run_get Hv. rewrite Hpar. run_get Hn0.
  assert (Hle : zlen ps1 <= num_keys n0) by (rewrite Hnum; zl).
  assert (Hscan : scan (length (pointers n0)) (fun i =>
    if i <=? num_keys n0 then c ← aread (pointers n0) i; Ok (negb (c =? n)) else Ok false) = Ok (zlen ps1)).
  { rewrite Hp, <- app_assoc. cbn [app]. apply (scan_find (fun i => i <=? num_keys n0)); [done|].
    intros i Hi. apply Z.leb_le. lia. }
  run_lift Hscan. apply Z.leb_le in Hle. now rewrite Hle.
Qed.

Lemma path_root_in f path r : path_root (f :: path) r ∈ path_ids (f :: path).
Proof.
  revert f r. induction path as [|g path IH]; intros f r; simpl; [set_solver|].
  specialize (IH g (f_p f)). simpl in IH. set_solver.
Qed.

(** The node of a tree in memory. *)
Lemma root_node s h m a b par nxt t :
  holds s (cells par nxt t) -> wf h m a b t ->
  exists v, nodes s !! root_of t = Some v /\ parent v = par /\ num_keys v = nkeys t /\
    is_leaf v = match h with O => true | S _ => false end.
Proof.
  intros Hc Hwf. destruct h, t; try (exfalso; exact Hwf); [|rewrite cells_Inner in Hc];
    apply holds_cons in Hc as [(v & Hv & Hok) _]; exists v; (split; [done|]);
    rewrite (ok_num _ _ Hok), (ok_leaf _ _ Hok), (ok_parent _ _ Hok); simpl; split_and!; auto. zl.
Qed.

(** The steps of [delete_entry] up to the choice between the two repairs. *)
Lemma delete_entry_repair fuel root n key ptr s s1 v p0 n0 nb ni ki k' nbr h t :
  remove_entry_from_node n key ptr s = Ok (n, s1) -> n <> root ->
  nodes s1 !! n = Some v -> parent v = p0 -> num_keys v = nkeys t ->
  is_leaf v = match h with O => true | S _ => false end -> nkeys t < min_keys h ->
  get_neighbor_index n s1 = Ok (ni, s1) -> nodes s1 !! p0 = Some n0 ->
  ki = (if ni =? MINUS_ONE then 0 else ni) -> aread (keys n0) ki = Ok k' ->
  aread (pointers n0) (if ni =? MINUS_ONE then 1 else ni) = Ok nbr -> nodes s1 !! nbr = Some nb ->
  0 <= num_keys nb <= order -> 0 <= nkeys t ->
  delete_entry (S fuel) root n key ptr s =
    (if num_keys nb + nkeys t <? capacity h
     then coalesce_nodes (delete_entry fuel) root n nbr ni k'
     else redistribute_nodes root n nbr ni ki k') s1.
Proof.
  intros Hrem Hroot Hv Hpar Hnum Hleaf Hmin Hni Hn0 -> Hk Hnbr Hnb Hnb1 Ht0. pose proof order_ok. pose proof cut_bounds.
  assert (Hmk : min_keys h <= order) by (destruct h; simpl; lia).
  cbn [delete_entry]. run Hrem. apply Z.eqb_neq in Hroot. rewrite Hroot. run_get Hv.
  replace (if is_leaf v then cut (u64 (order - 1)) else cut order - 1) with (min_keys h)
    by (rewrite Hleaf, order1; now destruct h).
  rewrite Hnum. destruct (Z.leb_spec (min_keys h) (nkeys t)); [lia|].
  run Hni. rewrite Hpar. run_get Hn0. run_lift Hk. run_lift Hnbr. run_get Hnb.
  replace (if is_leaf v then order else u64 (order - 1)) with (capacity h)
    by (rewrite Hleaf, order1; now destruct h).
  rewrite u64_small by (unfold is_u64; lia). now destruct (_ <? _).
Qed.

Lemma fam_nb s path h p0 A C L k' R B' D lo hi a b mL mR extra :
  family s path h p0 A C L k' R B' D lo hi a b mL mR extra ->
  exists n0, nodes s !! p0 = Some n0 /\ aread (keys n0) (zlen A) = Ok k' /\
    aread (pointers n0) (zlen A) = Ok (root_of L) /\ aread (pointers n0) (zlen A + 1) = Ok (root_of R) /\
    (exists nL, nodes s !! root_of L = Some nL /\ num_keys nL = nkeys L) /\
    (exists nR, nodes s !! root_of R = Some nR /\ num_keys nR = nkeys R).
Proof.
  intros Hfam. pose proof (fam_siblings _ _ _ _ _ _ _ _ _ _ _ _ _ _ _ _ _ _ Hfam) as (_ & HcL & HcR & _).
  destruct Hfam as [_ Hsl _ _ HwL HwR _ _ (n0 & Hn0 & [_ _ _ [jk Hjk] [jp Hjp] _ _ _ _]) _ _ _].
  cbn [c_leaf c_par c_keys c_ptrs c_next] in *. apply seps_l_len in Hsl.
  rewrite map_app, <- app_assoc in Hjp. rewrite <- app_assoc in Hjk. cbn [map app] in Hjp, Hjk.
  exists n0. split_and!; try done.
  - rewrite Hjk. now apply aread_mid.
  - rewrite Hjp. apply aread_mid. rewrite zlen_map. zl.
  - rewrite Hjp. change (root_of L :: root_of R :: map root_of D ++ jp) with ([root_of L] ++ root_of R :: map root_of D ++ jp).
    rewrite app_assoc. apply aread_mid. rewrite zlen_app, zlen_map. zl.
  - destruct (root_node _ _ _ _ _ _ _ _ HcL HwL) as (v & ? & _ & ? & _). eauto.
  - destruct (root_node _ _ _ _ _ _ _ _ HcR HwR) as (v & ? & _ & ? & _). eauto.
Qed.

(** A node without a left neighbour borrows from or merges with the right one. *)
Lemma repair_right s path fuel h p0 t k' R B' D lo hi a b extra m :
  delete_ok path fuel ->
  family s path h p0 [] [] t k' R B' D lo hi a b (min_keys h - 1) (min_keys h) extra -> nkeys t < min_keys h ->
  m = (if nkeys R + nkeys t <? capacity h
       then coalesce_nodes (delete_entry fuel) (path_root path p0) (root_of t) (root_of R) MINUS_ONE k'
       else redistribute_nodes (path_root path p0) (root_of t) (root_of R) MINUS_ONE 0 k') ->
  exists root' s', m s = Ok (root', s') /\
    result s' root' (path_fl path ++ flats (t :: R :: D) ++ path_fr path) extra /\ keeps_records s s' /\
    (forall q, q ∈ extra -> nodes s' !! q = nodes s !! q).
Proof.
  intros IH Hfam Hdef ->. pose proof (min_keys_pos h) as Hmin.
  destruct (Z.ltb_spec (nkeys R + nkeys t) (capacity h)) as [Hc|Hc].
  - apply (coalesce_spec s path fuel h p0 [] [] t k' R B' D lo hi a b (min_keys h - 1) (min_keys h)); try done; lia.
  - destruct (share_result s path h p0 [] [] t k' R B' D lo hi a b (min_keys h - 1) (min_keys h) extra
      (redistribute_nodes (path_root path p0) (root_of t) (root_of R) MINUS_ONE 0 k') Hfam) as (s' & Hs').
    + pose proof (fam_siblings _ _ _ _ _ _ _ _ _ _ _ _ _ _ _ _ _ _ Hfam) as (_ & HcL & HcR & _).
      pose proof (fam_distinct _ _ _ _ _ _ _ _ _ _ _ _ _ _ _ _ _ _ Hfam) as [Hnd _].
      destruct Hfam as [_ _ _ Hk HwL HwR _ _ Hn0 _ _ _].
      apply (share_right_spec s (path_root path p0) h p0 _ [] B' _ t R k'); try done; lia.
    + exists (path_root path p0), s'. exact Hs'.
Qed.

Lemma repair_left s path fuel h p0 A C L k' t rk rt lo hi a b extra ni m :
  delete_ok path fuel ->
  family s path h p0 A C L k' t rk rt lo hi a b (min_keys h) (min_keys h - 1) extra -> nkeys t < min_keys h ->
  ni = zlen A -> ni <> MINUS_ONE ->
  m = (if nkeys L + nkeys t <? capacity h
       then coalesce_nodes (delete_entry fuel) (path_root path p0) (root_of t) (root_of L) ni k'
       else redistribute_nodes (path_root path p0) (root_of t) (root_of L) ni ni k') ->
  exists root' s', m s = Ok (root', s') /\
    result s' root' (path_fl path ++ flats (C ++ L :: t :: rt) ++ path_fr path) extra /\ keeps_records s s' /\
    (forall q, q ∈ extra -> nodes s' !! q = nodes s !! q).
Proof.
  intros IH Hfam Hdef Hni Hne ->. pose proof (min_keys_pos h) as Hmin.
  destruct (Z.ltb_spec (nkeys L + nkeys t) (capacity h)) as [Hc|Hc].
  - apply (coalesce_spec s path fuel h p0 A C L k' t rk rt lo hi a b (min_keys h) (min_keys h - 1)); try done; try lia.
    apply Z.eqb_neq in Hne. now rewrite Hne.
  - destruct (share_result s path h p0 A C L k' t rk rt lo hi a b (min_keys h) (min_keys h - 1) extra
      (redistribute_nodes (path_root path p0) (root_of t) (root_of L) ni ni k') Hfam) as (s' & Hs').
    + pose proof (fam_siblings _ _ _ _ _ _ _ _ _ _ _ _ _ _ _ _ _ _ Hfam) as (_ & HcL & HcR & _).
      pose proof (fam_distinct _ _ _ _ _ _ _ _ _ _ _ _ _ _ _ _ _ _ Hfam) as [Hnd _].
      destruct Hfam as [_ _ _ Hk HwL HwR _ _ Hn0 _ _ _]. rewrite Hni at 2.
      apply (share_left_spec s (path_root path p0) h p0 _ A rk _ L t k'); done.
    + exists (path_root path p0), s'. exact Hs'.
Qed.

(** A node short of a key, below a parent: the repair with its neighbour. *)
Lemma delete_entry_short f path fuel h a b t s s1 key ptr extra :
  delete_ok path fuel ->
  remove_entry_from_node (root_of t) key ptr s = Ok (root_of t, s1) ->
  path_wf h (f :: path) a b -> a < b -> wf h (min_keys h - 1) a b t -> nkeys t < min_keys h ->
  root_of t <> path_root (f :: path) (root_of t) ->
  holds s1 (path_cells (f :: path) (root_of t) (fleaf t)) ->
  holds s1 (cells (f_p f) (path_nxt (f :: path)) t) ->
  NoDup (path_ids (f :: path) ++ ids t ++ extra) -> node_mem s1 (path_ids (f :: path) ++ ids t ++ extra) ->
  exists root' s', delete_entry (S fuel) (path_root (f :: path) (root_of t)) (root_of t) key ptr s = Ok (root', s') /\
    result s' root' (path_fl (f :: path) ++ flat t ++ path_fr (f :: path)) extra /\ keeps_records s1 s' /\
    (forall q, q ∈ extra -> nodes s' !! q = nodes s1 !! q).
Proof.
  intros IH Hrem Hpath Hab Hwf Hdef Hroot Hpc Hct Hnd Hm. pose proof order_ok as Ho. pose proof (min_keys_pos h) as Hmin.
  destruct (root_node _ _ _ _ _ _ _ _ Hct Hwf) as (v & Hv & Hpar & Hnum & Hleaf). pose proof (wf_nkeys _ _ _ _ _ Hwf) as Hnt.
  destruct f as [p0 lk lt rk rt]. cbn [f_p path_root path_fl path_fr f_lt f_rt] in *.
  destruct lt as [|l0 lt0].
  - destruct (family_right _ _ _ _ _ _ _ _ _ _ _ Hpath Hab Hwf Hpc Hct Hnd Hm) as (k' & B' & R & D & lo & hi & c & -> & -> & -> & Hfam).
    destruct (fam_nb _ _ _ _ _ _ _ _ _ _ _ _ _ _ _ _ _ _ Hfam) as (n0 & Hn0 & Hk & _ & HpR & _ & nR & HnR & HkR).
    pose proof (wf_nkeys _ _ _ _ _ (fam_R _ _ _ _ _ _ _ _ _ _ _ _ _ _ _ _ _ _ Hfam)) as HbR.
    destruct (fam_node _ _ _ _ _ _ _ _ _ _ _ _ _ _ _ _ _ _ Hfam) as (n0' & Hn0' & Hok0).
    rewrite Hn0 in Hn0'. injection Hn0' as <-.
    pose proof (get_neighbor_index_spec s1 p0 n0 _ _ [] (root_of t) _ v Hv Hpar Hn0 Hok0 (not_elem_of_nil _)) as Hni.
    rewrite (delete_entry_repair fuel _ _ _ _ _ _ v p0 n0 nR MINUS_ONE 0 k' (root_of R) h t Hrem Hroot Hv Hpar Hnum Hleaf Hdef
      Hni Hn0 eq_refl Hk HpR HnR ltac:(lia) ltac:(lia)), HkR.
    destruct (repair_right s1 path fuel h p0 t k' R B' D lo hi a c extra _ IH Hfam Hdef eq_refl) as (root' & s' & Hrun & Hres & ?).
    exists root', s'. split; [exact Hrun|]. split; [|done].
    rewrite flats_cons, <- app_assoc in Hres. change (flats []) with (@nil (Z * Z)). now rewrite app_nil_r.
  - destruct (family_left _ _ _ _ _ _ _ _ _ _ _ _ Hpath Hab Hwf ltac:(done) Hpc Hct Hnd Hm)
      as (A & C & k' & L & lo & hi & c & -> & Hlt & HlenC & Hfam). rewrite Hlt in *. clear Hlt l0 lt0.
    destruct (fam_nb _ _ _ _ _ _ _ _ _ _ _ _ _ _ _ _ _ _ Hfam) as (n0 & Hn0 & Hk & HpL & _ & (nL & HnL & HkL) & _).
    pose proof (wf_nkeys _ _ _ _ _ (fam_L _ _ _ _ _ _ _ _ _ _ _ _ _ _ _ _ _ _ Hfam)) as HbL.
    pose proof (fam_distinct _ _ _ _ _ _ _ _ _ _ _ _ _ _ _ _ _ _ Hfam) as [HndLR Hdis].
    pose proof (fam_num _ _ _ _ _ _ _ _ _ _ _ _ _ _ _ _ _ _ Hfam) as Hnum0.
    destruct (fam_node _ _ _ _ _ _ _ _ _ _ _ _ _ _ _ _ _ _ Hfam) as (n0' & Hn0' & Hok0).
    rewrite Hn0 in Hn0'. injection Hn0' as <-.
    rewrite map_app in Hok0. cbn [map] in Hok0.
    change (map root_of C ++ root_of L :: root_of t :: map root_of rt)
      with (map root_of C ++ [root_of L] ++ root_of t :: map root_of rt) in Hok0. rewrite app_assoc in Hok0.
    pose proof (fam_right_new _ _ _ _ _ _ _ _ _ _ _ _ _ _ _ _ _ _ Hfam) as Htnot.
    pose proof (get_neighbor_index_spec s1 p0 n0 _ _ _ (root_of t) _ v Hv Hpar Hn0 Hok0 Htnot) as Hni.
    assert (HA : zlen A < order) by zl.
    assert (Hidx : u64 (zlen (map root_of C ++ [root_of L]) - 1) = zlen A).
    { rewrite zlen_app, zlen_map. rewrite u64_small; [zl|]. unfold is_u64. zl. }
    rewrite Hidx in Hni. assert (Hne : zlen A <> MINUS_ONE) by (change MINUS_ONE with (2 ^ 64 - 1); lia).
    pose proof (proj2 (Z.eqb_neq _ _) Hne) as Hnb.
    rewrite (delete_entry_repair fuel _ _ _ _ _ _ v p0 n0 nL (zlen A) (zlen A) k' (root_of L) h t Hrem Hroot Hv Hpar Hnum Hleaf Hdef
      Hni Hn0) by (rewrite ?Hnb; auto; lia). rewrite HkL.
    destruct (repair_left s1 path fuel h p0 A C L k' t rk rt lo hi c b extra (zlen A) _ IH Hfam Hdef eq_refl Hne eq_refl) as (root' & s' & Hrun & Hres & ?).
    exists root', s'. split; [exact Hrun|]. split; [|done].
    rewrite flats_app, !flats_cons in Hres. rewrite flats_app, flats_cons. change (flats []) with (@nil (Z * Z)).
    rewrite app_nil_r. rewrite <- !app_assoc in *. exact Hres.
Qed.

Lemma delete_entry_spec path : forall fuel, (length path < fuel)%nat -> delete_ok path fuel.
Proof.
  induction path as [|f path IH]; intros fuel Hfuel h a b t s s1 key ptr extra Hrem Hpath Hab Hwf Hpc Hct Hnd Hm;
    (destruct fuel as [|fuel]; [simpl in Hfuel; lia|]).
  - destruct Hpath as [-> ->]. cbn [path_root delete_entry]. run Hrem. rewrite Z.eqb_refl.
    cbn [path_fl path_fr app] in *. rewrite app_nil_r. eapply adjust_root_spec; eauto.
  - assert (Hroot : root_of t <> path_root (f :: path) (root_of t)).
    { pose proof (path_root_in f path (root_of t)) as Hin. pose proof (root_in_ids t) as Hin'.
      apply NoDup_app in Hnd as (_ & Hd & _). intros He. rewrite <- He in Hin. apply (Hd _ Hin). set_solver. }
    destruct (root_node _ _ _ _ _ _ _ _ Hct Hwf) as (v & Hv & Hpar & Hnum & Hleaf).
    destruct (Z.lt_ge_cases (nkeys t) (min_keys h)) as [Hdef|Hok].
    2:{ cbn [delete_entry]. run Hrem. apply Z.eqb_neq in Hroot. rewrite Hroot. run_get Hv.
        replace (if is_leaf v then cut (u64 (order - 1)) else cut order - 1) with (min_keys h)
          by (rewrite Hleaf, order1; now destruct h).
        rewrite Hnum. destruct (Z.leb_spec (min_keys h) (nkeys t)); [|lia].
        eexists _, s1. split; [reflexivity|]. split; [|split; [reflexivity|done]].
        eapply fill_result; eauto. eapply wf_strengthen; [exact Hwf|exact Hok]. }
    specialize (IH fuel ltac:(simpl in Hfuel; lia)).
    cbn [min_at path_par] in Hwf, Hct. eapply delete_entry_short; eauto.
Qed.
End rebalance.
