(* ===== verification/BTreeRemove.v ===== *)
(** Deletion from a B+ tree as deletion from the represented finite map. *)
From stdpp Require Import base numbers list gmap strings sorting.
From Stdlib Require Import ZArith Lia.
From S2P Require Import Prelude BTree BTreeArrays BTreeNode BTreeAlloc BTreeTree BTreeFind BTreeInsert BTreeMap BTreeDelete BTreeRebalance.
Open Scope Z_scope.

Section remove.
Context {cfg : BtConfig} {cfg_ok : BtOk}.

(** Taking an entry out of a sorted leaf. *)
Lemma leaf_remove m a b p e1 key r e2 :
  wf 0 m a b (Leaf p (e1 ++ (key, r) :: e2)) -> wf 0 (m - 1) a b (Leaf p (e1 ++ e2)).
Proof.
  simpl. rewrite !fmap_app. simpl. intros (Hs & Hb & Hl). split_and!.
  - apply StronglySorted_app in Hs as (Hx & H1 & H2). apply StronglySorted_inv in H2 as [H2 _].
    apply StronglySorted_app. split_and!; try done. intros x y Hin Hin'. apply Hx; [done|]. set_solver.
  - rewrite Forall_app in *. destruct Hb as [H1 H2]. apply Forall_cons in H2. tauto.
  - zl.
  - zl.
Qed.

(** [delete_entry] at the leaf which holds the key. *)
Lemma delete_leaf s path a b p e1 key r e2 :
  path_wf 0 path a b -> a < b -> wf 0 (min_at path 0) a b (Leaf p (e1 ++ (key, r) :: e2)) ->
  tree_rep s (fill path (Leaf p (e1 ++ (key, r) :: e2))) -> Forall (fun k => k < key) e1.*1 -> r ∉ e1.*2 ->
  exists root' s', delete_entry (walk_fuel s) (path_root path p) p key r s = Ok (root', s') /\
    result s' root' (path_fl path ++ (e1 ++ e2) ++ path_fr path) [] /\ keeps_records s s'.
Proof.
  intros Hp Hab Hwf Hrep H1 Hr. pose proof (fill_inv _ _ _ Hrep) as (Hpc & Hc & Hnd & Hm).
  apply holds_cons in Hc as [(n & Hn & Hok) _]. rewrite !fmap_app in Hok. cbn [fmap list_fmap fst snd] in Hok.
  destruct (remove_entry_spec s p n _ _ _ _ _ _ _ key r Hn Hok) as (n' & Hrem & Hok' & Hnx).
  { intros Hin. rewrite Forall_forall in H1. specialize (H1 _ Hin). lia. }
  { done. }
  assert (Hsame : same_alloc s (upd s p n')) by (eapply same_alloc_upd; eauto).
  destruct (delete_entry_spec path (walk_fuel s)) with (h := O) (a := a) (b := b) (t := Leaf p (e1 ++ e2))
    (s := s) (s1 := upd s p n') (key := key) (ptr := r) (extra := @nil Z) as (root' & s' & Hrun & Hres & Hkr & _); try done.
  - destruct Hrep as [_ _ Hndp Hmp]. pose proof (fill_wf _ _ _ _ _ Hp Hab Hwf) as Hw.
    pose proof (height_fuel _ _ _ _ _ _ _ Hw Hndp Hmp (fun p Hp => Hp)). lia.
  - eapply leaf_remove, Hwf.
  - apply holds_upd; [|exact Hpc]. rewrite path_cells_ids. intros Hin. apply NoDup_app in Hnd as (_ & Hd & _).
    apply (Hd p Hin). simpl. set_solver.
  - apply holds_cons. split; [|constructor]. exists n'. split; [apply upd_eq|]. now rewrite !fmap_app.
  - rewrite app_nil_r. eapply node_mem_same; [exact Hsame|exact Hm].
  - exists root', s'. split_and!; try done. etrans; [apply same_keeps, Hsame|done].
Qed.

Lemma result_shape s root es : result s root es [] -> shape s root es.
Proof.
  intros [(-> & -> & Hm)|(t & h & -> & <- & Hwf & Hc & Hnd & Hm)]; [now left|right].
  rewrite app_nil_r in Hnd, Hm. exists t. split_and!; try done. split; eauto.
Qed.

(** What a deletion does to the entries. *)
Lemma delete_entries s root es key :
  shape s root es -> record_mem s es.*2 -> NoDup es.*2 -> 0 <= key < 2 ^ 64 ->
  (exists e1 r e2 root' s', es = e1 ++ (key, r) :: e2 /\ bt_delete root key s = Ok (root', s') /\
    shape s' root' (e1 ++ e2) /\ record_mem s' (e1 ++ e2).*2 /\
    (forall q, q <> r -> records s' !! q = records s !! q)) \/
  (key ∉ es.*1 /\ bt_delete root key s = Ok (root, s)).
Proof.
  intros [(-> & -> & Hm)|(t & -> & Hrep & <-)] Hrm Hnd Hk.
  { right. split; [set_solver|done]. }
  destruct (find_cases s t key Hrep Hk) as (path & p & a & b & e1 & e2 & Hp & Hab & Hkab & H1 &
    [(r & -> & Hwf & H2 & Hf)|(-> & Hwf & H2 & Hn & Hfl & Hf)]); unfold bt_delete; run Hf.
  2:{ right. split; [done|]. now rewrite Z.eqb_refl. }
  left. rewrite flat_fill in *. cbn [flat] in *.
  replace (path_fl path ++ (e1 ++ (key, r) :: e2) ++ path_fr path)
    with ((path_fl path ++ e1) ++ (key, r) :: (e2 ++ path_fr path)) in * by now rewrite <- !app_assoc.
  assert (Hin : r ∈ ((path_fl path ++ e1) ++ (key, r) :: e2 ++ path_fr path).*2) by (rewrite fmap_app; simpl; set_solver).
  destruct (rec_mem_some _ _ _ Hrm Hin) as (Hz & rv & Hrv).
  assert (Hlz : p =? 0 = false).
  { pose proof (fill_inv _ _ _ Hrep) as (_ & _ & _ & Hm). apply (node_mem_nz _ _ p Hm). simpl. set_solver. }
  apply Z.eqb_neq in Hz. rewrite Hz, Hlz. cbn [negb andb].
  rewrite fmap_app in Hnd. cbn [fmap list_fmap snd] in Hnd. rewrite <- Permutation_middle in Hnd.
  apply NoDup_cons in Hnd as [Hr Hnd]. rewrite <- fmap_app in Hr, Hnd.
  destruct (delete_leaf s path a b p e1 key r e2) as (root' & s1 & Hrun & Hres & Hkr); try done.
  { rewrite !fmap_app in Hr. set_solver. }
  run (getsB walk_fuel s). rewrite root_fill. cbn [root_of]. run Hrun.
  destruct (free_record_spec s1 r rv _ ((path_fl path ++ e1) ++ e2 ++ path_fr path).*2
    (record_mem_keeps _ _ _ Hkr Hrm)) as (s' & Hfree & Hm' & Hq & Hno & Hfn & Hb); try done.
  { now rewrite (kr_records _ _ Hkr). }
  { intros q Hq. split; [|intros ->; done]. rewrite fmap_app in Hq |- *. simpl. set_solver. }
  run Hfree. exists (path_fl path ++ e1), r, (e2 ++ path_fr path), root', s'. split_and!; try done.
  - eapply shape_records; [exact Hno|exact Hfn|lia|]. apply result_shape. now rewrite <- !app_assoc in *.
  - intros q Hne. now rewrite Hq, (kr_records _ _ Hkr).
Qed.

Lemma delete_correct s root m key :
  represents s root m -> 0 <= key < 2 ^ 64 ->
  exists root' s', bt_delete root key s = Ok (root', s') /\ represents s' root' (delete key m).
Proof.
  intros (es & Hs & Hr & Hnd & ->) Hk.
  destruct (delete_entries s root es key Hs Hr Hnd Hk) as
    [(e1 & r & e2 & root' & s' & -> & Hrun & Hs' & Hr' & Hq)|[Hn Hrun]].
  - exists root', s'. split; [done|]. exists (e1 ++ e2).
    rewrite fmap_app in Hnd. cbn [fmap list_fmap snd] in Hnd. rewrite <- Permutation_middle in Hnd.
    apply NoDup_cons in Hnd as [Hrn Hnd]. rewrite <- fmap_app in Hrn, Hnd. split_and!; try done.
    apply shape_NoDup in Hs. rewrite contents_middle by done. rewrite delete_insert_eq.
    rewrite (contents_records s s') by (intros q Hin; apply Hq; set_solver).
    apply delete_id, contents_none. rewrite fmap_app in Hs |- *. cbn [fmap list_fmap fst] in Hs.
    rewrite <- Permutation_middle in Hs. now apply NoDup_cons in Hs as [Hs _].
  - exists root, s. split; [done|]. exists es. split_and!; try done. apply delete_id. now apply contents_none.
Qed.
End remove.
