(* ===== verification/BTreeMemory.v ===== *)
(** When memory runs out: the operations of the B+ tree with an allocator that may
    refuse do what they do with one that never refuses, or leave the program. *)
From stdpp Require Import base numbers list gmap strings.
From Stdlib Require Import ZArith Lia.
From S2P Require Import Prelude BTree BTreeNode.
Open Scope Z_scope.

(** [m] behaves as [m'] or exits. *)
Definition exits_or {A} (m m' : B A) : Prop := forall s, m s = Fault ExitFailure \/ m s = m' s.
Infix "⊑x" := exits_or (at level 70).

Create HintDb exits.

#[export] Instance exits_or_refl {A} : Reflexive (@exits_or A).
Proof. intros m s. now right. Qed.

Lemma exits_bind {A C} (m m' : B A) (k k' : A -> B C) :
  m ⊑x m' -> (forall a, k a ⊑x k' a) -> (m ≫= k) ⊑x (m' ≫= k').
Proof.
  intros Hm Hk s. unfold mbind, B_bind. destruct (Hm s) as [E|E]; rewrite E; [now left|].
  destruct (m' s) as [[a s']|f]; cbn [mbind res_bind]; [apply Hk|now right].
Qed.

Lemma exits_if {A} (b : bool) (m m' n n' : B A) :
  m ⊑x m' -> n ⊑x n' -> (if b then m else n) ⊑x (if b then m' else n').
Proof. now destruct b. Qed.

Lemma exits_when b m m' : m ⊑x m' -> whenB b m ⊑x whenB b m'.
Proof. now destruct b. Qed.

(** An operation which allocates, step by step. *)
Ltac exits :=
  repeat first
    [ apply exits_or_refl
    | solve [eauto with exits]
    | apply exits_bind; [|intros ?]
    | apply exits_when
    | apply exits_if
    | match goal with |- context [match ?x with (_, _) => _ end] => destruct x end ].

Section memory.
Context (cfg : BtConfig).

(** The same configuration with memory without end. *)
Definition unlimited : BtConfig :=
  {| order := order; verbose_output := verbose_output; NODE_SLAB_GROW := NODE_SLAB_GROW;
     RECORD_SLAB_GROW := RECORD_SLAB_GROW; posix_memalign := fun _ _ _ => true |}.

Lemma allocate_exits size al cells : @allocate cfg size al cells ⊑x @allocate unlimited size al cells.
Proof. intros s. unfold allocate. simpl. destruct (posix_memalign _ _ _); auto. Qed.
Hint Resolve allocate_exits : exits.

Lemma allocate_align64_exits size : @allocate_align64 cfg size ⊑x @allocate_align64 unlimited size.
Proof. unfold allocate_align64. exits. Qed.
Hint Resolve allocate_align64_exits : exits.

Lemma alloc_node_exits : @alloc_node cfg ⊑x @alloc_node unlimited.
Proof. unfold alloc_node, grow_nodes. exits. Qed.

Lemma alloc_record_exits : @alloc_record cfg ⊑x @alloc_record unlimited.
Proof. unfold alloc_record, grow_records. exits. Qed.
Hint Resolve alloc_node_exits alloc_record_exits : exits.

Lemma make_record_exits v : @make_record cfg v ⊑x @make_record unlimited v.
Proof. unfold make_record. exits. Qed.

Lemma make_node_exits : @make_node cfg ⊑x @make_node unlimited.
Proof. unfold make_node. exits. Qed.
Hint Resolve make_record_exits make_node_exits : exits.

Lemma make_leaf_exits : @make_leaf cfg ⊑x @make_leaf unlimited.
Proof. unfold make_leaf. exits. Qed.
Hint Resolve make_leaf_exits : exits.

Lemma insert_into_parent_exits fuel root left key right :
  @insert_into_parent cfg fuel root left key right ⊑x @insert_into_parent unlimited fuel root left key right.
Proof.
  revert root left key right. induction fuel as [|fuel IH]; intros; cbn [insert_into_parent]; [exits|].
  unfold insert_into_new_root, insert_into_node_after_splitting. exits.
Qed.
Hint Resolve insert_into_parent_exits : exits.

Lemma insert_absent_exits root key r : @insert_absent cfg root key r ⊑x @insert_absent unlimited root key r.
Proof. unfold insert_absent, start_new_tree, insert_into_leaf_after_splitting. exits. Qed.
Hint Resolve insert_absent_exits : exits.

Lemma bt_insert_exits root key v : @bt_insert cfg root key v ⊑x @bt_insert unlimited root key v.
Proof. unfold bt_insert. exits. Qed.

(** Search and deletion do not allocate. *)
Lemma bt_delete_unlimited root key : @bt_delete cfg root key = @bt_delete unlimited root key.
Proof. reflexivity. Qed.

End memory.
