(* ===== verification/BTreeWalk.v ===== *)
(** Walks over a B+ tree: the linked list of the leaves, along which ranges are
    read and leaves printed, and the height with its logarithmic bounds. *)
From stdpp Require Import base numbers list gmap strings sorting.
From Stdlib Require Import ZArith Lia.
From S2P Require Import Prelude BTree BTreeArrays BTreeNode BTreeAlloc BTreeTree BTreeFind BTreeInsert BTreeMap.
Open Scope Z_scope.

(** The leaves of a tree with their entries. *)
Fixpoint leaves (t : tree) : list (Z * list (Z * Z)) :=
  match t with Leaf p es => [(p, es)] | Inner _ _ ts => concat (map leaves ts) end.

Fixpoint path_ll (path : list frame) : list (Z * list (Z * Z)) :=
  match path with [] => [] | f :: path => path_ll path ++ concat (map leaves (f_lt f)) end.
Fixpoint path_lr (path : list frame) : list (Z * list (Z * Z)) :=
  match path with [] => [] | f :: path => concat (map leaves (f_rt f)) ++ path_lr path end.

Definition first_leaf (ls : list (Z * list (Z * Z))) (nxt : Z) : Z :=
  match ls with [] => nxt | (p, _) :: _ => p end.

Lemma leaves_fill path t : leaves (fill path t) = path_ll path ++ leaves t ++ path_lr path.
Proof.
  revert t. induction path as [|f path IH]; intros t; simpl; [now rewrite app_nil_r|].
  unfold fill in *. cbn [fold_left]. rewrite IH. unfold plug. cbn [leaves].
  rewrite map_app, concat_app. cbn [map concat]. now rewrite <- !app_assoc.
Qed.

Lemma leaves_flat t : concat (leaves t).*2 = flat t.
Proof.
  induction t as [p es|p ks ts IH] using tree_rect'; simpl; [apply app_nil_r|].
  induction IH as [|t ts Ht _ IHts]; simpl; [done|]. now rewrite fmap_app, concat_app, Ht, IHts.
Qed.

Lemma leaves_concat ts : concat (concat (map leaves ts)).*2 = flats ts.
Proof.
  induction ts as [|t ts IH]; simpl; [done|]. now rewrite fmap_app, concat_app, leaves_flat, IH, flats_cons.
Qed.

Lemma path_lr_flat path : concat (path_lr path).*2 = path_fr path.
Proof.
  induction path as [|f path IH]; simpl; [done|]. now rewrite fmap_app, concat_app, leaves_concat, IH.
Qed.

Lemma leaves_ids t : (length (leaves t) <= length (ids t))%nat.
Proof.
  induction t as [p es|p ks ts IH] using tree_rect'; simpl; [lia|].
  induction IH as [|t ts Ht _ IHts]; simpl; [lia|]. rewrite !length_app. lia.
Qed.

Lemma leaves_in_ids t p : p ∈ (leaves t).*1 -> p ∈ ids t.
Proof.
  induction t as [q es|q ks ts IH] using tree_rect'; simpl; [done|]. intros Hp. right.
  induction IH as [|t ts Ht _ IHts]; simpl in Hp |- *; [done|].
  rewrite fmap_app in Hp. apply elem_of_app in Hp as [Hp|Hp]; apply elem_of_app; auto.
Qed.

Section walk.
Context {cfg : BtConfig} {cfg_ok : BtOk}.

(** The leaves are linked by their last pointers. *)
Fixpoint linked (s : btree) (ls : list (Z * list (Z * Z))) (nxt : Z) : Prop :=
  match ls with
  | [] => True
  | (p, es) :: ls => (exists n par, nodes s !! p = Some n /\
      node_ok n (Content true par es.*1 es.*2 (first_leaf ls nxt))) /\ linked s ls nxt
  end.

Lemma first_leaf_app l1 l2 nxt : first_leaf (l1 ++ l2) nxt = first_leaf l1 (first_leaf l2 nxt).
Proof. destruct l1 as [|[p es] l1]; reflexivity. Qed.

Lemma linked_app s l1 l2 nxt : linked s (l1 ++ l2) nxt <-> linked s l1 (first_leaf l2 nxt) /\ linked s l2 nxt.
Proof.
  induction l1 as [|[p es] l1 IH]; simpl; [tauto|]. rewrite IH, first_leaf_app. tauto.
Qed.

(** The first leaf of a tree of some height. *)
Lemma first_leaf_fleaf h m lo hi t nxt : wf h m lo hi t -> first_leaf (leaves t) nxt = fleaf t.
Proof.
  revert m lo hi t nxt. induction h as [|h IH]; intros m lo hi [p es|p ks ts] nxt; simpl; try done.
  intros [_ Hs]. destruct ts as [|t ts]; [now apply seps_len in Hs|]. simpl. rewrite first_leaf_app.
  destruct ks as [|k ks], ts; simpl in Hs; try tauto; destruct Hs as (_ & Ht & ?) || destruct Hs as [_ Ht];
    eapply IH; eauto.
Qed.

Lemma seps_forall (P : Z -> Z -> tree -> Prop) lo hi ks ts :
  seps P lo hi ks ts -> Forall (fun t => exists a b, P a b t) ts.
Proof.
  revert lo ts. induction ks as [|k ks IH]; intros lo [|t ts]; simpl; try done.
  - destruct ts; [|done]. intros [_ H]. repeat constructor. eauto.
  - intros (_ & Ht & Hs). constructor; eauto.
Qed.

Lemma linked_leaves s h m lo hi t par nxt :
  wf h m lo hi t -> holds s (cells par nxt t) -> linked s (leaves t) nxt.
Proof.
  revert m lo hi t par nxt. induction h as [|h IH]; intros m lo hi [p es|p ks ts] par nxt Hwf Hs; try done.
  - apply holds_cons in Hs as [(n & Hn & Hok) _]. simpl. eauto.
  - rewrite cells_Inner in Hs. apply holds_cons in Hs as [_ Hs]. destruct Hwf as [_ Hsep].
    apply seps_forall in Hsep. simpl. clear ks m lo hi par.
    revert nxt Hs. induction Hsep as [|t ts (a & b & Ht) Hts IHts]; intros nxt; simpl; [done|].
    rewrite holds_app, linked_app. intros [H1 H2]. split; [|auto].
    assert (Hh : first_leaf (concat (map leaves ts)) nxt = hdf ts nxt).
    { destruct Hts as [|u ts (a' & b' & Hu) _]; simpl; [done|]. rewrite first_leaf_app.
      eapply first_leaf_fleaf, Hu. }
    rewrite Hh. eapply IH; eauto.
Qed.

(** There are fewer leaves than addresses. *)
Lemma ids_fuel s t : tree_rep s t -> (length (ids t) < walk_fuel s)%nat.
Proof.
  intros [[h Hwf] _ Hnd [l Hm]]. unfold walk_fuel.
  assert (Hle : (length (ids t) <= length (seqZ 1 (brk s - 1)))%nat).
  { apply submseteq_length, NoDup_submseteq; [done|]. intros p Hp. apply elem_of_seqZ.
    pose proof (slab_range _ _ _ _ _ _ Hm p (slab_live _ _ _ _ _ _ Hm p Hp)). lia. }
  pose proof (height_ids _ _ _ _ _ Hwf). rewrite length_seqZ in Hle. lia.
Qed.

Lemma linked_nz s t : tree_rep s t -> Forall (fun l => (l.1 =? 0) = false) (leaves t).
Proof.
  intros [_ _ _ Hm]. apply Forall_forall. intros l Hl. apply (node_mem_nz _ _ _ Hm).
  apply leaves_in_ids, list_elem_of_fmap. eauto.
Qed.

(** ** Height *)

Lemma first_child s h m lo hi p ks ts par nxt :
  wf (S h) m lo hi (Inner p ks ts) -> holds s (cells par nxt (Inner p ks ts)) ->
  exists n t a b nxt', nodes s !! p = Some n /\ is_leaf n = false /\ aread (pointers n) 0 = Ok (root_of t) /\
    wfm h a b t /\ holds s (cells p nxt' t) /\ fleaf t = fleaf (Inner p ks ts).
Proof.
  intros [_ Hs] Hc. rewrite cells_Inner in Hc. apply holds_cons in Hc as [(n & Hn & Hok) Hc].
  destruct ts as [|t ts]; [now apply seps_len in Hs|]. apply seps_forall, Forall_cons in Hs as [(a & b & Ht) _].
  cbn [cells_list] in Hc. apply holds_app in Hc as [Hc _].
  exists n, t, a, b, (hdf ts nxt). split_and!; try done; [apply Hok|].
  destruct (ok_ptrs _ _ Hok) as [jp ->]. apply (aread_mid []). reflexivity.
Qed.

Lemma height_loop_spec h m lo hi t par nxt fuel s acc :
  wf h m lo hi t -> holds s (cells par nxt t) -> (h < fuel)%nat ->
  height_loop fuel (root_of t) acc s = Ok (acc + Z.of_nat h, s).
Proof.
  revert m lo hi t par nxt fuel acc.
  induction h as [|h IH]; intros m lo hi [p es|p ks ts] par nxt fuel acc Hwf Hs Hfuel;
    try (exfalso; exact Hwf); (destruct fuel as [|fuel]; [lia|]); cbn [height_loop root_of].
  - apply holds_cons in Hs as [(n & Hn & Hok) _]. run_get Hn. rewrite (ok_leaf _ _ Hok). cbn [c_leaf].
    now rewrite Z.add_0_r.
  - destruct (first_child _ _ _ _ _ _ _ _ _ _ Hwf Hs) as (n & t & a & b & nxt' & Hn & Hl & Hp & Ht & Hc & _).
    run_get Hn. rewrite Hl. run_lift Hp. rewrite (IH _ _ _ _ _ _ _ _ Ht Hc) by lia. do 2 f_equal. lia.
Qed.

Lemma leftmost_leaf_spec h m lo hi t par nxt fuel s :
  wf h m lo hi t -> holds s (cells par nxt t) -> (h < fuel)%nat ->
  leftmost_leaf fuel (root_of t) s = Ok (fleaf t, s).
Proof.
  revert m lo hi t par nxt fuel.
  induction h as [|h IH]; intros m lo hi [p es|p ks ts] par nxt fuel Hwf Hs Hfuel;
    try (exfalso; exact Hwf); (destruct fuel as [|fuel]; [lia|]); cbn [leftmost_leaf root_of].
  - apply holds_cons in Hs as [(n & Hn & Hok) _]. run_get Hn. now rewrite (ok_leaf _ _ Hok).
  - destruct (first_child _ _ _ _ _ _ _ _ _ _ Hwf Hs) as (n & t & a & b & nxt' & Hn & Hl & Hp & Ht & Hc & <-).
    run_get Hn. rewrite Hl. run_lift Hp. now rewrite (IH _ _ _ _ _ _ _ Ht Hc) by lia.
Qed.

(** The entries of a tree of some height, not the root: every node is at least half
    full. *)
Definition least (h : nat) : Z := cut (order - 1) * cut order ^ Z.of_nat h.
Definition most (h : nat) : Z := (order - 1) * order ^ Z.of_nat h.

Lemma flats_count lo hi (P : Z -> Z -> tree -> Prop) ks ts a b :
  (forall lo hi t, P lo hi t -> a <= zlen (flat t) <= b) -> seps P lo hi ks ts ->
  (zlen ks + 1) * a <= zlen (flats ts) <= (zlen ks + 1) * b.
Proof.
  intros HP. revert lo ts. induction ks as [|k ks IH]; intros lo [|t ts]; simpl; try done.
  - destruct ts; [|done]. intros [_ Ht]. apply HP in Ht. rewrite flats_cons. change (flats []) with (@nil (Z * Z)).
    rewrite app_nil_r. change (zlen []) with 0. lia.
  - intros (_ & Ht & Hs). apply HP in Ht. apply IH in Hs. rewrite flats_cons, zlen_app.
    replace (zlen (k :: ks)) with (zlen ks + 1) by zl. lia.
Qed.

Lemma wf_count h lo hi t : wfm h lo hi t -> least h <= zlen (flat t) <= most h.
Proof.
  pose proof order_ok. pose proof cut_bounds.
  revert lo hi t. induction h as [|h IH]; intros lo hi [p es|p ks ts]; simpl; try done.
  - intros (_ & _ & Hl). unfold least, most. simpl. lia.
  - intros [Hn Hs]. apply (flats_count _ _ _ _ _ _ _ IH) in Hs. fold (flats ts).
    assert (0 <= least h /\ 0 <= most h) as [? ?].
    { unfold least, most. split; apply Z.mul_nonneg_nonneg; try lia; apply Z.pow_nonneg; lia. }
    unfold least, most in *. rewrite Nat2Z.inj_succ, !Z.pow_succ_r by lia. nia.
Qed.
End walk.
