(* ===== verification/BTreeRange.v ===== *)
(** Reading a range of a B+ tree and printing its leaves. *)
From stdpp Require Import base numbers list gmap strings sorting.
From Stdlib Require Import ZArith Lia.
From S2P Require Import Prelude BTree BTreeArrays BTreeNode BTreeAlloc BTreeTree BTreeFind BTreeInsert BTreeMap BTreeWalk.
Open Scope Z_scope.

(** The state after some output. *)
Definition out (s : btree) (l : list item) : btree :=
  BTree (nodes s) (records s) (brk s) (free_nodes s) (free_recs s) (queue s) (allocator_stat s) (stdout s ++ l).

Lemma out_out s l1 l2 : out (out s l1) l2 = out s (l1 ++ l2).
Proof. unfold out. simpl. now rewrite app_assoc. Qed.

Lemma out_nil s : out s [] = s.
Proof. unfold out. rewrite app_nil_r. now destruct s. Qed.

Lemma linked_out {cfg : BtConfig} s l ls nxt : linked s ls nxt -> linked (out s l) ls nxt.
Proof. induction ls as [|[p es] ls IH]; simpl; [done|]. intros [H1 H2]. auto. Qed.

Section range.
Context {cfg : BtConfig} {cfg_ok : BtOk}.

(** ** Printing the leaves *)

Definition entry_text (e : Z * Z) : list item :=
  (if verbose_output then [Ptr e.2; Text " "] else []) ++ [Num e.1; Text " "].

Fixpoint leaves_text (ls : list (Z * list (Z * Z))) : list item :=
  match ls with
  | [] => []
  | (_, es) :: ls =>
      concat (map entry_text es) ++ (if verbose_output then [Ptr (first_leaf ls 0); Text " "] else []) ++
      match ls with [] => [Text "\n"] | _ => Text " | " :: leaves_text ls end
  end.

Lemma whenB_emit b l s : whenB b (emit l) s = Ok (tt, out s (if b then l else [])).
Proof. destruct b; [reflexivity|]. now rewrite out_nil. Qed.

Lemma print_entries_spec n c es s :
  node_ok n c -> c_keys c = es.*1 -> c_ptrs c = es.*2 ->
  print_entries n s = Ok (tt, out s (concat (map entry_text es))).
Proof.
  intros [_ _ Hnum [jk Hk] [jp Hp] _ _ _ _] Ek Ep. rewrite Ek in *. rewrite Ep in *.
  unfold print_entries, forB.
  destruct (for_range_inv (fun i s' => s' = out s (concat (map entry_text (take (Z.to_nat i) es)))) 0 (num_keys n)
    (fun i s => '(_, s) ← (_ ← whenB verbose_output (p ← lift (aread (pointers n) i); emit [Ptr p; Text " "]);
      k ← lift (aread (keys n) i); emit [Num k; Text " "]) s; Ok s) s) as (s' & Hrun & Hs').
  - rewrite Hnum. zl.
  - now rewrite take_0, out_nil.
  - intros i s1 Hi ->. rewrite Hnum in Hi. destruct (lookup_lt_is_Some_2 es (Z.to_nat i)) as [[k r] He]; [zl|].
    pose proof (take_drop_middle _ _ _ He) as Hes.
    assert (Hrk : aread (keys n) i = Ok k).
    { rewrite Hk, <- Hes, fmap_app, <- app_assoc. apply aread_mid. unfold zlen. rewrite length_fmap, length_take. zl. }
    assert (Hrp : aread (pointers n) i = Ok r).
    { rewrite Hp, <- Hes, fmap_app, <- app_assoc. apply aread_mid. unfold zlen. rewrite length_fmap, length_take. zl. }
    eexists. split; [|reflexivity].
    replace (Z.to_nat (i + 1)) with (S (Z.to_nat i)) by lia. rewrite (take_S_r _ _ _ He), map_app, concat_app.
    unfold mbind, B_bind, lift. rewrite Hrk, Hrp.
    rewrite <- out_out. simpl. rewrite app_nil_r. unfold entry_text, whenB, emit.
    destruct verbose_output; simpl; cbn [mbind res_bind]; f_equal; unfold out; simpl; f_equal; now rewrite <- !app_assoc.
  - rewrite Hrun. cbn [mbind res_bind]. rewrite Hs', take_ge; [done|]. rewrite Hnum. zl.
Qed.

Lemma print_leaves_loop_spec ls p es fuel s :
  linked s ((p, es) :: ls) 0 -> Forall (fun l => (l.1 =? 0) = false) ls -> (length ls < fuel)%nat ->
  print_leaves_loop fuel p s = Ok (tt, out s (leaves_text ((p, es) :: ls))).
Proof.
  revert p es fuel s. induction ls as [|[q es'] ls IH]; intros p es fuel s [(n & par & Hn & Hok) Hl] Hz Hfuel;
    (destruct fuel as [|fuel]; [lia|]); cbn [print_leaves_loop]; run_get Hn;
    run (print_entries_spec _ _ es s Hok eq_refl eq_refl); rewrite order1; pose proof (ok_next _ _ Hok eq_refl) as Hx;
    cbn [c_next first_leaf] in Hx; run_lift Hx.
  - run (whenB_emit verbose_output [Ptr 0; Text " "] (out s (concat (map entry_text es)))).
    rewrite Z.eqb_refl. cbn [negb]. unfold emit. cbn [leaves_text first_leaf]. f_equal. f_equal.
    unfold out. simpl. f_equal. now rewrite <- !app_assoc.
  - run (whenB_emit verbose_output [Ptr q; Text " "] (out s (concat (map entry_text es)))).
    apply Forall_cons in Hz as [Hq Hz]. simpl in Hq. rewrite Hq. cbn [negb].
    rewrite out_out.
    assert (He : forall s, emit [Text " | "] s = Ok (tt, out s [Text " | "])) by reflexivity. run (He (out s (concat (map entry_text es) ++ (if verbose_output then [Ptr q; Text " "] else [])))).
    rewrite out_out, (IH q es' fuel) by (try apply linked_out; auto; simpl in *; lia).
    rewrite out_out. cbn [leaves_text first_leaf]. now rewrite <- !app_assoc.
Qed.

(** ** Reading a range *)

(** The loop over one leaf stores the entries [e1] up to [key_end]. *)
Lemma range_leaf nd par e0 e1 e2 nxt key_end dk jk dp jp fuel :
  node_ok nd (Content true par (e0 ++ e1 ++ e2).*1 (e0 ++ e1 ++ e2).*2 nxt) ->
  Forall (fun k => k <= key_end) e1.*1 -> match e2 with [] => True | e :: _ => key_end < e.1 end ->
  length dp = length dk -> length jk = length e1 -> length jp = length e1 -> (length e1 < fuel)%nat ->
  forall rk rp,
  while_loop fuel
    (fun '(i, _, _, _) => if i <? num_keys nd then k ← aread (keys nd) i; Ok (k <=? key_end) else Ok false)
    (fun '(i, num_found, rk, rp) =>
       k ← aread (keys nd) i; rk ← awrite rk num_found k;
       p ← aread (pointers nd) i; rp ← awrite rp num_found p;
       Ok (i + 1, num_found + 1, rk, rp))
    (zlen e0, zlen dk, dk ++ jk ++ rk, dp ++ jp ++ rp)
  = Ok (zlen (e0 ++ e1), zlen (dk ++ e1.*1), dk ++ e1.*1 ++ rk, dp ++ e1.*2 ++ rp).
Proof.
  intros Hok Hle He2 Hd Hk Hp Hf rk rp. destruct Hok as [_ _ Hnum [xk Hxk] [xp Hxp] _ _ _ _]. cbn [c_keys c_ptrs] in *.
  revert e0 dk jk dp jp fuel Hnum Hxk Hxp Hle Hd Hk Hp Hf.
  induction e1 as [|[k r] e1 IH]; intros e0 dk jk dp jp fuel Hnum Hxk Hxp Hle Hd Hk Hp Hf;
    (destruct fuel as [|fuel]; [simpl in Hf; lia|]); cbn [while_loop].
  - destruct jk, jp; try discriminate. simpl. rewrite !app_nil_r.
    destruct (Z.ltb_spec (zlen e0) (num_keys nd)) as [Hlt|Hge]; [|reflexivity].
    destruct e2 as [|[k r] e2]; [exfalso; zl|]. simpl in Hxk, He2.
    rewrite fmap_app, <- app_assoc in Hxk. rewrite Hxk. cbn [fmap list_fmap app fst].
    rewrite (aread_mid e0.*1) by zl. cbn [mbind res_bind]. now apply Z.leb_gt in He2 as ->.
  - destruct jk as [|jk0 jk], jp as [|jp0 jp]; try discriminate. simpl in Hle. apply Forall_cons in Hle as [Hk0 Hle].
    destruct (Z.ltb_spec (zlen e0) (num_keys nd)) as [Hlt|Hge]; [|exfalso; zl].
    assert (Hrk : aread (keys nd) (zlen e0) = Ok k).
    { rewrite Hxk, fmap_app, <- app_assoc. apply (aread_mid e0.*1). zl. }
    assert (Hrp : aread (pointers nd) (zlen e0) = Ok r).
    { rewrite Hxp, fmap_app, <- app_assoc. apply (aread_mid e0.*2). zl. }
    rewrite Hrk, Hrp. cbn [mbind res_bind]. apply Z.leb_le in Hk0 as ->.
    cbn [app]. rewrite !awrite_mid by zl. cbn [mbind res_bind].
    specialize (IH (e0 ++ [(k, r)]) (dk ++ [k]) jk (dp ++ [r]) jp fuel). rewrite <- !app_assoc in IH.
    replace (zlen (e0 ++ [(k, r)])) with (zlen e0 + 1) in IH by zl.
    replace (zlen (dk ++ [k])) with (zlen dk + 1) in IH by zl.
    cbn [fmap list_fmap app fst snd] in IH |- *. rewrite IH; auto; try (simpl in Hf |- *; zl).
Qed.

(** The entries with keys up to a bound, and those between two bounds. *)
Definition upto (key_end : Z) (es : list (Z * Z)) : list (Z * Z) := filter (fun e => e.1 <= key_end) es.
Definition between (key_start key_end : Z) (es : list (Z * Z)) : list (Z * Z) :=
  filter (fun e => key_start <= e.1 <= key_end) es.

Lemma filter_none {A} (P : A -> Prop) `{!forall x, Decision (P x)} (l : list A) :
  Forall (fun x => ~ P x) l -> filter P l = [].
Proof. induction 1; [done|]. now rewrite filter_cons, decide_False. Qed.

Lemma upto_split key_end es :
  StronglySorted Z.lt es.*1 ->
  exists e2, es = upto key_end es ++ e2 /\ Forall (fun k => k <= key_end) (upto key_end es).*1 /\
    match e2 with [] => True | e :: _ => key_end < e.1 end.
Proof.
  unfold upto. induction es as [|[k r] es IH]; simpl; intros Hs; [now exists []|].
  apply StronglySorted_inv in Hs as [Hs Hk]. destruct (IH Hs) as (e2 & He & H1 & H2).
  rewrite filter_cons. simpl. case_decide as Hd.
  - exists e2. split; [simpl; congruence|]. split; [|done]. now constructor.
  - exists ((k, r) :: es). rewrite filter_none.
    + split; [done|]. split; [constructor|]. simpl. lia.
    + apply Forall_forall. intros [k' r'] Hin. simpl. rewrite Forall_forall in Hk.
      assert (k < k') by (apply Hk, list_elem_of_fmap; now exists (k', r')). lia.
Qed.

Lemma sorted_app_l (l1 l2 : list (Z * Z)) :
  StronglySorted Z.lt (l1 ++ l2).*1 -> StronglySorted Z.lt l1.*1 /\ StronglySorted Z.lt l2.*1.
Proof. rewrite fmap_app, StronglySorted_app. tauto. Qed.

Lemma find_range_loop_spec s key_end ls : forall e0 es p fuel dk dp jk jp rk rp,
  linked s ((p, e0 ++ es) :: ls) 0 -> Forall (fun l => (l.1 =? 0) = false) ((p, e0 ++ es) :: ls) ->
  StronglySorted Z.lt (es ++ concat ls.*2).*1 -> length dp = length dk ->
  length jk = length (upto key_end (es ++ concat ls.*2)) -> length jp = length (upto key_end (es ++ concat ls.*2)) ->
  (length ls < fuel)%nat ->
  find_range_loop fuel p (zlen e0) key_end (zlen dk) (dk ++ jk ++ rk) (dp ++ jp ++ rp) s =
  Ok ((zlen dk + zlen (upto key_end (es ++ concat ls.*2)), dk ++ (upto key_end (es ++ concat ls.*2)).*1 ++ rk,
       dp ++ (upto key_end (es ++ concat ls.*2)).*2 ++ rp), s).
Proof.
  induction ls as [|[q es'] ls IH]; intros e0 es p fuel dk dp jk jp rk rp [(n & par & Hn & Hok) Hl] Hz Hs Hd Hjk Hjp Hf;
    (destruct fuel as [|fuel]; [lia|]); apply Forall_cons in Hz as [Hp Hz]; simpl in Hp; cbn [find_range_loop];
    rewrite Hp; run_get Hn; pose proof (ok_next _ _ Hok eq_refl) as Hx; cbn [c_next first_leaf] in Hx;
    destruct (sorted_app_l _ _ Hs) as [Hs1 Hs2]; destruct (upto_split key_end es Hs1) as (e2 & He & H1 & H2);
    unfold upto in *; rewrite filter_app in *; set (f := filter _ es) in *; rewrite He in Hok;
    (assert (Hlen : (length f < S (S (length (keys n))))%nat)
      by (destruct (ok_keys _ _ Hok) as [xk ->]; cbn [c_keys]; rewrite !length_app, !length_fmap, !length_app; lia)).
  - simpl in Hjk, Hjp |- *. rewrite app_nil_r in *.
    run_lift (range_leaf n par e0 f e2 0 key_end dk jk dp jp _ Hok H1 H2 Hd Hjk Hjp Hlen rk rp).
    rewrite order1. run_lift Hx. replace (zlen (dk ++ f.*1)) with (zlen dk + zlen f) by zl.
    now destruct fuel.
  - cbn [fmap list_fmap concat snd] in *. rewrite length_app in Hjk, Hjp.
    rewrite <- (take_drop (length f) jk), <- (take_drop (length f) jp), <- !(app_assoc (take _ _)).
    run_lift (range_leaf n par e0 f e2 q key_end dk (take (length f) jk) dp (take (length f) jp) _ Hok H1 H2 Hd
      ltac:(rewrite length_take; lia) ltac:(rewrite length_take; lia) Hlen (drop (length f) jk ++ rk) (drop (length f) jp ++ rp)).
    rewrite order1. run_lift Hx. rewrite !(app_assoc dk), !(app_assoc dp).
    rewrite (IH [] es' q fuel (dk ++ f.*1) (dp ++ f.*2) (drop (length f) jk) (drop (length f) jp) rk rp); try done.
    + replace (zlen (dk ++ f.*1)) with (zlen dk + zlen f) by zl.
      now rewrite !fmap_app, zlen_app, <- !app_assoc, Z.add_assoc.
    + zl.
    + rewrite length_drop. lia.
    + rewrite length_drop. lia.
    + simpl in Hf. lia.
Qed.

Lemma between_upto key_start key_end l r :
  Forall (fun k => k < key_start) l.*1 -> Forall (fun k => key_start <= k) r.*1 ->
  between key_start key_end (l ++ r) = upto key_end r.
Proof.
  intros Hl Hr. unfold between, upto. rewrite filter_app, filter_none, app_nil_l.
  - apply filter_same. rewrite Forall_fmap in Hr. eapply Forall_impl; [exact Hr|]. intros [k v]. simpl. lia.
  - rewrite Forall_fmap in Hl. eapply Forall_impl; [exact Hl|]. intros [k v]. simpl. lia.
Qed.

(** The entries of a tree around a key: those before it, and from it on those in the
    leaf of its search and those behind. *)
Lemma find_leaf_split s t key :
  tree_rep s t -> 0 <= key < 2 ^ 64 ->
  exists path p e1 e2 a b, t = fill path (Leaf p (e1 ++ e2)) /\ find_leaf (root_of t) key false s = Ok (p, s) /\
    path_wf 0 path a b /\ a <= key < b /\
    Forall (fun k => k < key) (path_fl path ++ e1).*1 /\ Forall (fun k => key <= k) (e2 ++ path_fr path).*1.
Proof.
  intros Hrep Hk. destruct (bt_find_spec s t key Hrep Hk) as (path & p & es & a & b & -> & Hp & Hab & Hkab & Hwf & Hfl & _).
  pose proof Hwf as (Hs & _). destruct (upto_split (key - 1) es Hs) as (e2 & He & H1 & H2).
  destruct (path_bounds _ _ _ _ Hp) as [Hl Hr].
  exists path, p, (upto (key - 1) es), e2, a, b. rewrite <- He. split_and!; try done; try lia.
  - rewrite fmap_app, Forall_app. split; eapply Forall_impl; [exact Hl| |exact H1|]; simpl; lia.
  - rewrite fmap_app, Forall_app. split; [|eapply Forall_impl; [exact Hr|]; simpl; lia].
    rewrite He, fmap_app, StronglySorted_app in Hs. destruct Hs as (_ & _ & Hs).
    destruct e2 as [|[k v] e2]; [constructor|]. simpl in *. apply StronglySorted_inv in Hs as [_ Hs].
    constructor; [lia|]. eapply Forall_impl; [exact Hs|]. simpl. lia.
Qed.

Lemma find_range_entries s root es key_start key_end rk rp :
  shape s root es -> 0 <= key_start < 2 ^ 64 ->
  let fs := between key_start key_end es in
  zlen fs <= zlen rk -> zlen fs <= zlen rp ->
  find_range root key_start key_end false rk rp s =
    Ok ((zlen fs, fs.*1 ++ drop (length fs) rk, fs.*2 ++ drop (length fs) rp), s) \/
  (key_start ∉ es.*1 /\ find_range root key_start key_end false rk rp s = Ok ((0, rk, rp), s)).
Proof.
  intros [(-> & -> & Hm)|(t & -> & Hrep & <-)] Hk fs Hrk Hrp.
  { right. split; [set_solver|done]. }
  pose proof (ids_fuel _ _ Hrep) as Hfuel. pose proof (leaves_ids t) as Hids. pose proof (linked_nz _ _ Hrep) as Hz.
  destruct (find_leaf_split s t key_start Hrep Hk) as (path & p & e1 & e2 & a & b & Ht & Hfl & Hp & Hab & H1 & H2).
  destruct Hrep as [[h Hwf] Hc _ _]. pose proof (linked_leaves _ _ _ _ _ _ _ _ Hwf Hc) as Hl.
  pose proof (proj1 (wf_flat _ _ _ _ _ Hwf)) as Hs. unfold fs in *. clear fs.
  rewrite Ht, leaves_fill in *. rewrite flat_fill in *. cbn [leaves flat app] in *.
  replace (path_fl path ++ (e1 ++ e2) ++ path_fr path) with ((path_fl path ++ e1) ++ (e2 ++ path_fr path)) in *
    by now rewrite <- !app_assoc.
  rewrite (between_upto _ _ _ _ H1 H2) in *. apply sorted_app_l in Hs as [_ Hs].
  apply linked_app in Hl as [_ Hl]. apply Forall_app in Hz as [_ Hz]. pose proof Hl as [(n & par & Hn & Hok) _].
  assert (Hscan : scan (length (keys n)) (fun i => if i <? num_keys n then k ← aread (keys n) i; Ok (k <? key_start) else Ok false)
    = Ok (zlen e1)).
  { pose proof (ok_num _ _ Hok) as Hnum. destruct (ok_keys _ _ Hok) as [jk ->]. cbn [c_keys] in *. rewrite fmap_app in *.
    rewrite <- app_assoc. rewrite (scan_bounded (fun k => k <? key_start)); try done; [f_equal; zl| |].
    - rewrite Forall_app in H1. eapply Forall_impl; [apply H1|]. intros k. simpl. apply Z.ltb_lt.
    - destruct e2 as [|[k v] e2]; [done|]. simpl in *. apply Forall_cons in H2 as [H2 _]. now apply Z.ltb_ge. }
  unfold find_range. run Hfl. pose proof Hz as Hz'. apply Forall_cons in Hz' as [Hz' _]. simpl in Hz'. rewrite Hz'.
  run_get Hn. run_lift Hscan. rewrite (ok_num _ _ Hok). cbn [c_keys].
  destruct (Z.eqb_spec (zlen e1) (zlen (e1 ++ e2).*1)) as [He|He].
  - right. split; [|done]. assert (e2 = []) as -> by (destruct e2; [done|exfalso; zl]).
    destruct (path_bounds _ _ _ _ Hp) as [_ Hr]. rewrite Forall_forall in H1, Hr.
    rewrite fmap_app. intros Hin. apply elem_of_app in Hin as [Hin|Hin]; [specialize (H1 _ Hin)|specialize (Hr _ Hin)]; lia.
  - left. run (getsB walk_fuel s). rewrite <- path_lr_flat in *.
    rewrite length_app in Hids. cbn [length] in Hids.
    pose proof (find_range_loop_spec s key_end (path_lr path) e1 e2 p (walk_fuel s) [] []) as Hrun.
    set (fs := upto key_end (e2 ++ concat (path_lr path).*2)) in *.
    specialize (Hrun (take (length fs) rk) (take (length fs) rp) (drop (length fs) rk) (drop (length fs) rp)).
    rewrite !app_nil_l, !take_drop in Hrun. apply Hrun; try done; try (rewrite length_take; zl). lia.
Qed.

Lemma print_leaves_entries s root es :
  shape s root es ->
  (root = 0 /\ print_leaves root s = Ok (tt, out s [Text "Empty tree.\n"])) \/
  exists ls, ls <> [] /\ concat ls.*2 = es /\ print_leaves root s = Ok (tt, out s (leaves_text ls)).
Proof.
  intros [(-> & -> & Hm)|(t & -> & Hrep & <-)]; [now left|right].
  pose proof (ids_fuel _ _ Hrep) as Hfuel. pose proof (leaves_ids t) as Hids. pose proof (linked_nz _ _ Hrep) as Hz.
  pose proof (root_nz _ _ Hrep) as [_ Hnz]. destruct Hrep as [[h Hwf] Hc _ _].
  pose proof (linked_leaves _ _ _ _ _ _ _ _ Hwf Hc) as Hl. pose proof (height_ids _ _ _ _ _ Hwf) as Hh.
  pose proof (first_leaf_fleaf _ _ _ _ _ 0 Hwf) as Hfst. exists (leaves t). unfold print_leaves. rewrite Hnz.
  run (getsB walk_fuel s). run (leftmost_leaf_spec _ _ _ _ _ _ _ (walk_fuel s) _ Hwf Hc ltac:(lia)).
  pose proof (leaves_flat t) as Hfl. destruct (leaves t) as [|[p es] ls] eqn:E.
  - exfalso. pose proof (first_leaf_fleaf _ _ _ _ _ 1 Hwf) as Hfst'. rewrite E in Hfst'. simpl in *. congruence.
  - simpl in Hfst. subst p. apply Forall_cons in Hz as [_ Hz]. split_and!; try done.
    apply print_leaves_loop_spec; try done. simpl in Hids. lia.
Qed.
End range.
