(* ===== verification/BTreeProps.v ===== *)
(** What the B+ tree of btree1.c promises: it is a finite map from 64-bit keys to
    values under any sequence of searches, insertions and deletions, it stays
    balanced, and walks over its leaves see the entries in order. *)
From stdpp Require Import base numbers list gmap strings sorting.
From Stdlib Require Import ZArith Lia.
From S2P Require Import Prelude BTree BTreeArrays BTreeNode BTreeAlloc BTreeTree BTreeFind BTreeInsert BTreeMap BTreeDelete BTreeRebalance BTreeRemove BTreeMemory BTreeWalk BTreeRange.
Open Scope Z_scope.

(** ** Programs on a tree and on a finite map *)

Inductive op := OpFind (key : Z) | OpInsert (key v : Z) | OpDelete (key : Z).

Definition op_key (o : op) : Z := match o with OpFind k | OpInsert k _ | OpDelete k => k end.

(** What a client of the tree does: it keeps the root and reads the value of the
    record a search returns. *)
Definition run_op {cfg : BtConfig} (o : op) (root : Z) : B (option Z * Z) :=
  match o with
  | OpFind k =>
      '(r, _) ← bt_find root k false;
      if r =? 0 then mret (None, root) else v ← get_record r; mret (Some (value v), root)
  | OpInsert k v => root ← bt_insert root k v; mret (None, root)
  | OpDelete k => root ← bt_delete root k; mret (None, root)
  end.

Fixpoint run_ops {cfg : BtConfig} (os : list op) (root : Z) : B (list (option Z) * Z) :=
  match os with
  | [] => mret ([], root)
  | o :: os => '(x, root) ← run_op o root; '(xs, root) ← run_ops os root; mret (x :: xs, root)
  end.

(** The same program on a finite map. *)
Definition spec_op (o : op) (m : gmap Z Z) : option Z * gmap Z Z :=
  match o with
  | OpFind k => (m !! k, m)
  | OpInsert k v => (None, <[k := v]> m)
  | OpDelete k => (None, delete k m)
  end.

Fixpoint spec_ops (os : list op) (m : gmap Z Z) : list (option Z) * gmap Z Z :=
  match os with
  | [] => ([], m)
  | o :: os => let '(x, m) := spec_op o m in let '(xs, m) := spec_ops os m in (x :: xs, m)
  end.

Definition keys_ok (os : list op) : Prop := Forall (fun o => is_u64 (op_key o)) os.

Lemma run_op_exits cfg o root : @run_op cfg o root ⊑x @run_op (unlimited cfg) o root.
Proof.
  destruct o; unfold run_op; [apply exits_or_refl| |rewrite bt_delete_unlimited; apply exits_or_refl].
  apply exits_bind; [apply bt_insert_exits|]. intros. apply exits_or_refl.
Qed.

Lemma run_ops_exits cfg os root : @run_ops cfg os root ⊑x @run_ops (unlimited cfg) os root.
Proof.
  revert root. induction os as [|o os IH]; intros root; cbn [run_ops]; [apply exits_or_refl|].
  apply exits_bind; [apply run_op_exits|]. intros [x root']. apply exits_bind; [apply IH|].
  intros [xs root'']. apply exits_or_refl.
Qed.

Section refinement.
Context {cfg : BtConfig} {cfg_ok : BtOk}.

Lemma start_represents : represents empty_btree 0 ∅.
Proof. now apply empty_represents. Qed.

(** One operation: the simulation step. *)
Lemma run_op_refines o s root m :
  represents s root m -> is_u64 (op_key o) ->
  exists root' s', run_op o root s = Ok (((spec_op o m).1, root'), s') /\ represents s' root' (spec_op o m).2.
Proof.
  intros Hr Hk. destruct o as [k|k v|k]; simpl in *.
  - destruct (find_correct s root m k Hr Hk) as (r & leaf & Hf & Hm). unfold run_op. run Hf.
    destruct (m !! k) as [v|] eqn:E.
    + destruct Hm as (rec & Hrec & <-). exists root, s. split; [|done].
      assert (Hz : r <> 0).
      { intros ->. destruct Hr as (es & _ & [l Hl] & _). 
        assert (is_Some (records s !! 0)) as Hs by eauto. apply (slab_range _ _ _ _ _ _ Hl) in Hs. lia. }
      apply Z.eqb_neq in Hz. rewrite Hz.
      assert (Hget : get_record r s = Ok (rec, s)) by (unfold get_record; now rewrite Hrec). now run Hget.
    + subst r. exists root, s. auto.
  - destruct (insert_correct s root m k v Hr Hk) as (root' & s' & Hrun & Hr'). unfold run_op. run Hrun. eauto.
  - destruct (delete_correct s root m k Hr Hk) as (root' & s' & Hrun & Hr'). unfold run_op. run Hrun. eauto.
Qed.

Lemma run_ops_refines os s root m :
  represents s root m -> keys_ok os ->
  exists root' s', run_ops os root s = Ok (((spec_ops os m).1, root'), s') /\ represents s' root' (spec_ops os m).2.
Proof.
  revert s root m. induction os as [|o os IH]; intros s root m Hr Hk; cbn [run_ops spec_ops]; [eauto|].
  apply Forall_cons in Hk as [Hk Hks]. destruct (run_op_refines o s root m Hr Hk) as (r1 & s1 & Hrun & Hr1). run Hrun.
  destruct (spec_op o m) as [x m1]. simpl in *.
  destruct (IH s1 r1 m1 Hr1 Hks) as (r2 & s2 & Hrun2 & Hr2). run Hrun2.
  destruct (spec_ops os m1) as [xs m2]. eauto.
Qed.
End refinement.

(** The representation does not depend on the allocator. *)
Lemma represents_unlimited cfg s root m : @represents (unlimited cfg) s root m -> @represents cfg s root m.
Proof.
  intros (es & Hs & Hm). exists es. split; [|exact Hm]. destruct Hs as [Hs|(t & -> & [Hwf Hc Hnd Hm'] & Hfl)]; [now left|].
  right. exists t. split_and!; try done. split; try done. eapply Forall_impl; [exact Hc|].
  intros [p c] (n & Hn & Hok). exists n. split; [exact Hn|]. destruct Hok. now split.
Qed.

(** ** States reached by programs *)

Section reached.
Context (cfg : BtConfig) {cfg_ok : @BtOk (unlimited cfg)}.

Lemma run_ops_reached os xs root s :
  keys_ok os -> @run_ops cfg os 0 empty_btree = Ok ((xs, root), s) ->
  xs = (spec_ops os ∅).1 /\ @represents (unlimited cfg) s root (spec_ops os ∅).2.
Proof.
  intros Hk Hrun. destruct (run_ops_refines (cfg := unlimited cfg) os empty_btree 0 ∅ start_represents Hk) as (root' & s' & H & Hr).
  destruct (run_ops_exits cfg os 0 empty_btree) as [E|E]; rewrite Hrun in E; [discriminate|].
  rewrite H in E. injection E as -> -> ->. auto.
Qed.
End reached.

(** ** Nodes *)

Section nodes.
Context {cfg : BtConfig} {cfg_ok : BtOk}.

(** The nodes reached from the root through the pointers in use, with their depth. *)
Inductive reaches (s : btree) (root : Z) : Z -> nat -> Prop :=
  | reach_root : reaches s root root 0
  | reach_child p d n i c :
      reaches s root p d -> nodes s !! p = Some n -> is_leaf n = false -> 0 <= i <= num_keys n ->
      aread (pointers n) i = Ok c -> reaches s root c (S d).

(** A node of the tree: arrays of the right size, between the least and the greatest
    number of keys, the keys in use ascending 64-bit numbers. *)
Record node_typed (s : btree) (p : Z) (leaf : bool) (least_keys : Z) (n : node) : Prop := {
  typed_leaf : is_leaf n = leaf;
  typed_keys : zlen (keys n) = order - 1;
  typed_ptrs : zlen (pointers n) = order;
  typed_num : least_keys <= num_keys n <= order - 1;
  typed_sorted : StronglySorted Z.lt (take (Z.to_nat (num_keys n)) (keys n));
  typed_u64 : Forall is_u64 (take (Z.to_nat (num_keys n)) (keys n));
  typed_children : leaf = false -> forall i, 0 <= i <= num_keys n ->
    exists c v, aread (pointers n) i = Ok c /\ nodes s !! c = Some v /\ parent v = p }.

Lemma seps_sorted (P : Z -> Z -> tree -> Prop) lo hi ks ts : seps P lo hi ks ts -> StronglySorted Z.lt ks.
Proof.
  revert lo ts. induction ks as [|k ks IH]; intros lo [|t ts]; simpl; try done; [constructor|].
  intros (_ & _ & Hs). constructor; [eauto|]. apply seps_lt in Hs as [_ Hs].
  eapply Forall_impl; [exact Hs|]. simpl. lia.
Qed.

Lemma cells_child s p nxt ts i t : holds s (cells_list p nxt ts) -> ts !! i = Some t -> exists nxt', holds s (cells p nxt' t).
Proof.
  revert i. induction ts as [|u ts IH]; intros [|i]; simpl; try done; rewrite holds_app; intros [H1 H2] Hi; [|eauto].
  injection Hi as ->. eauto.
Qed.

(** The children of an inner node. *)
Lemma inner_children s h m lo hi p ks ts par nxt n i :
  wf (S h) m lo hi (Inner p ks ts) -> holds s (cells par nxt (Inner p ks ts)) -> nodes s !! p = Some n ->
  0 <= i <= num_keys n ->
  exists t a b nxt', aread (pointers n) i = Ok (root_of t) /\ wfm h a b t /\ holds s (cells p nxt' t) /\
    lo <= a /\ b <= hi.
Proof.
  intros [_ Hs] Hc Hn Hi. rewrite cells_Inner in Hc. apply holds_cons in Hc as [(n' & Hn' & Hok) Hc].
  rewrite Hn in Hn'. injection Hn' as <-. pose proof (ok_num _ _ Hok) as Hnum. cbn [c_keys] in Hnum.
  pose proof (seps_len _ _ _ _ _ Hs) as Hlen.
  destruct (lookup_lt_is_Some_2 ts (Z.to_nat i)) as [t Ht]; [zl|].
  pose proof (take_drop_middle _ _ _ Ht) as Hsp.
  destruct (cells_child _ _ _ _ _ _ Hc Ht) as [nxt' Hct].
  rewrite <- Hsp, <- (take_drop (Z.to_nat i) ks) in Hs.
  apply seps_focus in Hs as (a & b & Hl & _ & Hwt & Hr); [|rewrite !length_take; zl].
  apply seps_l_lt in Hl as [Hl _]. apply seps_r_lt in Hr as [Hr _].
  exists t, a, b, nxt'. split_and!; try done. destruct (ok_ptrs _ _ Hok) as [jp ->]. cbn [c_ptrs].
  rewrite <- Hsp, map_app, <- app_assoc. apply aread_mid. unfold zlen. rewrite length_map, length_take. zl.
Qed.

(** A reached node is the root of a subtree. *)
Lemma reaches_subtree s h t p d :
  wf h 1 0 (2 ^ 64) t -> holds s (cells 0 0 t) -> reaches s (root_of t) p d ->
  exists u par nxt lo hi, p = root_of u /\ (d <= h)%nat /\ 0 <= lo /\ hi <= 2 ^ 64 /\
    wf (h - d) (match d with O => 1 | S _ => min_keys (h - d) end) lo hi u /\ holds s (cells par nxt u).
Proof.
  intros Hwf Hc. induction 1 as [|p d n i c _ (u & par & nxt & lo & hi & -> & Hd & Hlo & Hhi & Hu & Hcu) Hn Hl Hi Hrd].
  { exists t, 0, 0, 0, (2 ^ 64). rewrite Nat.sub_0_r. split_and!; try done; lia. }
  destruct (root_node _ _ _ _ _ _ _ _ Hcu Hu) as (v & Hv & _ & _ & Hleaf). rewrite Hn in Hv. injection Hv as <-.
  destruct (h - d)%nat as [|k] eqn:E; [congruence|]. destruct u as [|q ks ts]; [done|].
  destruct (inner_children _ _ _ _ _ _ _ _ _ _ _ _ Hu Hcu Hn Hi) as (w & a & b & nxt' & Hrd' & Hw & Hcw & Ha & Hb).
  cbn [root_of] in *. rewrite Hrd in Hrd'. injection Hrd' as ->.
  exists w, q, nxt', a, b. replace (h - S d)%nat with k by lia. split_and!; try done; lia.
Qed.

Lemma subtree_typed s h m lo hi t par nxt :
  wf h m lo hi t -> holds s (cells par nxt t) -> 0 <= lo -> hi <= 2 ^ 64 ->
  exists n, nodes s !! root_of t = Some n /\ parent n = par /\
    node_typed s (root_of t) (match h with O => true | S _ => false end) m n.
Proof.
  intros Hwf Hc Hlo Hhi. destruct (root_node _ _ _ _ _ _ _ _ Hc Hwf) as (n & Hn & Hpar & Hnum & Hleaf).
  exists n. split; [done|]. split; [done|]. pose proof (wf_nkeys _ _ _ _ _ Hwf) as Hk.
  assert (exists c, node_ok n c /\ StronglySorted Z.lt (c_keys c) /\ Forall is_u64 (c_keys c)) as (c & Hok & Hs & Hf).
  { destruct h, t as [q es|q ks ts]; try (exfalso; exact Hwf); [|rewrite cells_Inner in Hc];
      apply holds_cons in Hc as [(n' & Hn' & Hok) _]; simpl in Hn, Hn'; rewrite Hn in Hn'; injection Hn' as <-;
      eexists; (split; [exact Hok|]); simpl.
    - destruct Hwf as (Hs & Hf & _). split; [done|]. eapply Forall_impl; [exact Hf|]. unfold is_u64. simpl. lia.
    - destruct Hwf as [_ Hs]. split; [eapply seps_sorted, Hs|]. apply seps_lt in Hs as [_ Hs].
      eapply Forall_impl; [exact Hs|]. unfold is_u64. simpl. lia. }
  assert (Htake : take (Z.to_nat (num_keys n)) (keys n) = c_keys c).
  { destruct (ok_keys _ _ Hok) as [jk ->]. rewrite (ok_num _ _ Hok). unfold zlen. rewrite Nat2Z.id. apply take_app_length. }
  split; rewrite ?Htake; try done; try apply Hok; [lia|].
  destruct h as [|h]; [done|]. intros _ i Hi. destruct t as [|q ks ts]; [done|].
  destruct (inner_children _ _ _ _ _ _ _ _ _ _ _ _ Hwf Hc Hn Hi) as (u & a & b & nxt' & Hrd & Hu & Hcu & _).
  destruct (root_node _ _ _ _ _ _ _ _ Hcu Hu) as (v & Hv & Hp & _). eauto.
Qed.
End nodes.

Lemma node_typed_unlimited cfg s p leaf k n : @node_typed (unlimited cfg) s p leaf k n -> @node_typed cfg s p leaf k n.
Proof. intros []. now split. Qed.

(** ** The entries of a represented map *)

Section entries.
Context {cfg : BtConfig} {cfg_ok : BtOk}.

Lemma contents_lookup s es k r : NoDup es.*1 -> (k, r) ∈ es -> contents s es !! k = Some (rec_value s r).
Proof.
  intros Hnd Hin. apply list_elem_of_split in Hin as (e1 & e2 & ->). now rewrite contents_middle, lookup_insert_eq.
Qed.

Lemma contents_dom s es k : NoDup es.*1 -> is_Some (contents s es !! k) <-> k ∈ es.*1.
Proof.
  intros Hnd. split.
  - intros [v Hv]. destruct (decide (k ∈ es.*1)) as [|Hn]; [done|]. now rewrite contents_none in Hv.
  - intros Hin. apply list_elem_of_fmap in Hin as ([k' r] & -> & Hin). rewrite (contents_lookup _ _ _ r); eauto.
Qed.

Lemma contents_size s es : NoDup es.*1 -> Z.of_nat (size (contents s es)) = zlen es.
Proof.
  intros Hnd. unfold contents. rewrite map_size_list_to_map; [zl|]. now rewrite <- list_fmap_compose.
Qed.

Lemma between_sorted es a b : StronglySorted Z.lt es.*1 -> StronglySorted Z.lt (between a b es).*1.
Proof.
  unfold between. induction es as [|[k r] es IH]; simpl; intros Hs; [constructor|].
  apply StronglySorted_inv in Hs as [Hs Hk]. rewrite filter_cons. case_decide; [|now apply IH].
  simpl. constructor; [now apply IH|]. apply Forall_forall. intros x Hx. rewrite Forall_forall in Hk. apply Hk.
  apply list_elem_of_fmap in Hx as (e & -> & He). apply list_elem_of_filter in He as [_ He].
  apply list_elem_of_fmap. now exists e.
Qed.

Lemma between_keys es a b k : k ∈ (between a b es).*1 <-> a <= k <= b /\ k ∈ es.*1.
Proof.
  unfold between. rewrite !list_elem_of_fmap. split.
  - intros (e & -> & He). apply list_elem_of_filter in He as [Hb He]. split; [done|]. now exists e.
  - intros (Hb & e & -> & He). exists e. split; [done|]. now apply list_elem_of_filter.
Qed.

(** Ascending keys within an interval. *)
Lemma between_room es a b : StronglySorted Z.lt es.*1 -> zlen (between a b es) <= Z.max 0 (b - a + 1).
Proof.
  intros Hs.
  assert (Hsub : (between a b es).*1 ⊆+ seqZ a (b - a + 1)).
  { apply NoDup_submseteq.
    - now apply sorted_NoDup, between_sorted.
    - intros k Hk. apply between_keys in Hk as [Hk _]. apply elem_of_seqZ. lia. }
  apply submseteq_length in Hsub. rewrite length_seqZ in Hsub. zl.
Qed.
End entries.

(** A small tree: four pointers per node, slabs of five nodes and of three records,
    4000 bytes of memory. *)
Definition demo_config : BtConfig :=
  {| order := 4; verbose_output := false; NODE_SLAB_GROW := 280; RECORD_SLAB_GROW := 96;
     posix_memalign := fun used _ size => used + size <=? 4000 |}.

Definition demo_ops : list op :=
  [OpInsert 10 1; OpInsert 30 3; OpInsert 20 2; OpInsert 40 4; OpInsert 50 5; OpInsert 20 6;
   OpDelete 10; OpFind 20; OpFind 10].

Definition demo_result : list (option Z) * Z * btree :=
  Eval vm_compute in
  match @run_ops demo_config demo_ops 0 empty_btree with Ok r => r | Fault _ => ([], 0, empty_btree) end.

Lemma demo_ok : @BtOk (unlimited demo_config).
Proof. split; simpl; unfold sizeof_node, sizeof_record; lia || done. Qed.

Lemma demo_keys : keys_ok demo_ops.
Proof. unfold keys_ok, demo_ops. repeat (apply Forall_cons; split; [unfold is_u64; simpl; lia|]). constructor. Qed.

Lemma demo_runs : @run_ops demo_config demo_ops 0 empty_btree = Ok demo_result.
Proof. vm_compute. reflexivity. Qed.

Section claims.
Context (cfg : BtConfig) {cfg_ok : @BtOk (unlimited cfg)}.

(** C7: the B+ tree is a finite map. Any program of searches, insertions and
    deletions with 64-bit keys, started on the empty tree, ends; it returns exactly
    what the same program returns on a finite map, and the memory then represents
    that map. The one exception is memory: an allocator that refuses makes the
    program exit, with no other effect, and one that never refuses never does. *)
Theorem btree_refines_map os :
  keys_ok os ->
  (run_ops os 0 empty_btree = Fault ExitFailure \/
   exists root s, run_ops os 0 empty_btree = Ok (((spec_ops os ∅).1, root), s) /\
     represents s root (spec_ops os ∅).2) /\
  ((forall st al size, posix_memalign st al size = true) -> run_ops os 0 empty_btree <> Fault ExitFailure).
Proof.
  intros Hk. destruct (run_ops_refines (cfg := unlimited cfg) os empty_btree 0 ∅ start_represents Hk) as (root & s & H & Hr).
  split.
  - destruct (run_ops_exits cfg os 0 empty_btree) as [E|E]; [now left|]. right. exists root, s. split; [now rewrite E, H|].
    now apply represents_unlimited.
  - intros Hm. assert (Hok : @BtOk cfg) by (destruct cfg_ok; now split).
    destruct (run_ops_refines (cfg := cfg) os empty_btree 0 ∅ start_represents Hk) as (root' & s' & -> & _). done.
Qed.

(** C27: the nodes of a tree are well typed. In every state a program reaches with a
    tree that is not empty there is a height, which [height] returns, such that
    every node reached from the root has arrays of the right size, is a leaf exactly
    at that depth, has ascending 64-bit keys, at most [order - 1] and, but for the
    root, at least half as many, and is the parent its children name. *)
Theorem btree_nodes_typed os xs root s :
  keys_ok os -> run_ops os 0 empty_btree = Ok ((xs, root), s) -> root <> 0 ->
  exists h, height root s = Ok (Z.of_nat h, s) /\
    forall p d, reaches s root p d -> (d <= h)%nat /\ exists n, nodes s !! p = Some n /\
      node_typed s p (bool_decide (d = h))
        (match d with O => 1 | S _ => if bool_decide (d = h) then cut (order - 1) else cut order - 1 end) n.
Proof.
  intros Hk Hrun Hz. destruct (run_ops_reached cfg os xs root s Hk Hrun) as [_ (es & [[-> _]|(t & -> & Hrep & _)] & _)]; [done|].
  pose proof (ids_fuel _ _ Hrep) as Hf. destruct Hrep as [[h Hwf] Hc _ _]. exists h. split.
  - pose proof (height_ids _ _ _ _ _ Hwf). apply (height_loop_spec _ _ _ _ _ _ _ _ _ 0 Hwf Hc). unfold walk_fuel in *. lia.
  - intros p d Hr. destruct (reaches_subtree s h t p d Hwf Hc Hr) as (u & par & nxt & lo & hi & -> & Hd & Hlo & Hhi & Hu & Hcu).
    split; [done|]. destruct (subtree_typed _ _ _ _ _ _ _ _ Hu Hcu Hlo Hhi) as (n & Hn & _ & Ht). exists n. split; [done|].
    apply node_typed_unlimited.
    case_bool_decide as E; [subst h; rewrite Nat.sub_diag in Ht; now destruct d|].
    destruct (h - d)%nat eqn:E'; [lia|]. now destruct d.
Qed.

(** C28: the tree is balanced. [height] terminates, and the number of entries lies
    between the bounds a tree of that height allows: at least twice
    [cut(order-1) * cut(order)^(h-1)] for a tree with inner nodes, at most
    [(order-1) * order^h]; so searches descend a logarithmic number of levels. *)
Theorem btree_height_log os xs root s :
  keys_ok os -> run_ops os 0 empty_btree = Ok ((xs, root), s) -> root <> 0 ->
  exists h, height root s = Ok (Z.of_nat h, s) /\
    let n := Z.of_nat (size (spec_ops os ∅).2) in
    match h with O => 1 | S h => 2 * (cut (order - 1) * cut order ^ Z.of_nat h) end <= n
      <= (order - 1) * order ^ Z.of_nat h.
Proof.
  intros Hk Hrun Hz.
  destruct (run_ops_reached cfg os xs root s Hk Hrun) as [_ (es & Hs & _ & _ & ->)]. pose proof (shape_NoDup _ _ _ Hs) as Hnd.
  destruct Hs as [[-> _]|(t & -> & Hrep & <-)]; [done|].
  pose proof (ids_fuel _ _ Hrep) as Hf. destruct Hrep as [[h Hwf] Hc _ _]. exists h. split.
  - pose proof (height_ids _ _ _ _ _ Hwf). apply (height_loop_spec _ _ _ _ _ _ _ _ _ 0 Hwf Hc). unfold walk_fuel in *. lia.
  - cbv zeta. rewrite contents_size by done. pose proof (order_ok (BtOk := cfg_ok)) as Ho.
    pose proof (cut_bounds (cfg := unlimited cfg)) as Hcut. cbn [order unlimited] in Ho, Hcut.
    destruct h as [|h], t as [q es|q ks ts]; try (exfalso; exact Hwf).
    + destruct Hwf as (_ & _ & Hl). simpl in *. lia.
    + destruct Hwf as [Hl Hs]. apply (flats_count _ _ _ _ _ _ _ (wf_count h)) in Hs. unfold least, most in Hs.
      cbn [order unlimited flat] in *.
      fold (flats ts). rewrite Nat2Z.inj_succ, Z.pow_succ_r by lia.
      replace ((order - 1) * (order * order ^ Z.of_nat h)) with (order * ((order - 1) * order ^ Z.of_nat h)) by ring.
      assert (0 <= cut (order - 1) * cut order ^ Z.of_nat h /\ 0 <= (order - 1) * order ^ Z.of_nat h) as [Ha Hb].
      { split; apply Z.mul_nonneg_nonneg; try lia; apply Z.pow_nonneg; lia. }
      revert Ha Hb Hs. generalize (cut (order - 1) * cut order ^ Z.of_nat h), ((order - 1) * order ^ Z.of_nat h).
      intros a b Ha Hb Hs. split; nia.
Qed.

(** printing the leaves shows the map in order. In every reached state
    [print_leaves] terminates, changes nothing but the output, and prints the leaves
    from left to right, each with its keys (and in verbose mode its pointers); the
    keys printed are those of the map, in ascending order. *)
Theorem btree_print_leaves_sorted os xs root s :
  keys_ok os -> run_ops os 0 empty_btree = Ok ((xs, root), s) ->
  let m := (spec_ops os ∅).2 in
  (m = ∅ /\ print_leaves root s = Ok (tt, out s [Text "Empty tree.\n"])) \/
  exists ls, print_leaves root s = Ok (tt, out s (leaves_text ls)) /\
    StronglySorted Z.lt (concat ls.*2).*1 /\ (forall k, k ∈ (concat ls.*2).*1 <-> is_Some (m !! k)).
Proof.
  intros Hk Hrun m. destruct (run_ops_reached cfg os xs root s Hk Hrun) as [_ (es & Hs & _ & _ & Hm)].
  fold m in Hm. pose proof (shape_NoDup _ _ _ Hs) as Hnd. pose proof (shape_sorted _ _ _ Hs) as [Hsort _].
  destruct (print_leaves_entries _ _ _ Hs) as [[-> Hp]|(ls & _ & Hls & Hp)].
  - left. split; [|exact Hp]. destruct Hs as [(_ & -> & _)|(t & Ht & Hrep & _)]; [exact Hm|].
    now destruct (root_nz _ _ Hrep) as [[] _].
  - right. exists ls. rewrite Hls, Hm. split_and!; [exact Hp|done|]. intros k. symmetry. now apply contents_dom.
Qed.

(** C31: a range query is exact or finds nothing. With arrays for as many entries as
    the interval has numbers, [find_range] terminates within their bounds; when
    [key_start] itself is in the tree it stores exactly the keys of the map in the
    interval, ascending and each with its record, and leaves the rest of the arrays
    alone; when [key_start] is not in the tree it does so or reports none. *)
Theorem btree_find_range_exact os xs root s key_start key_end rk rp :
  keys_ok os -> run_ops os 0 empty_btree = Ok ((xs, root), s) ->
  is_u64 key_start -> key_end - key_start + 1 <= zlen rk -> zlen rp = zlen rk ->
  let m := (spec_ops os ∅).2 in
  (exists fs, find_range root key_start key_end false rk rp s =
      Ok ((zlen fs, fs.*1 ++ drop (length fs) rk, fs.*2 ++ drop (length fs) rp), s) /\
    StronglySorted Z.lt fs.*1 /\
    (forall k, k ∈ fs.*1 <-> key_start <= k <= key_end /\ is_Some (m !! k)) /\
    (forall k r, (k, r) ∈ fs -> exists v, records s !! r = Some v /\ m !! k = Some (value v))) \/
  (m !! key_start = None /\ find_range root key_start key_end false rk rp s = Ok ((0, rk, rp), s)).
Proof.
  intros Hk Hrun Hks Hrk Hrp m. destruct (run_ops_reached cfg os xs root s Hk Hrun) as [_ (es & Hs & Hr & _ & Hm)].
  fold m in Hm. pose proof (shape_NoDup _ _ _ Hs) as Hnd. pose proof (shape_sorted _ _ _ Hs) as [Hsort _].
  pose proof (between_room es key_start key_end Hsort) as Hroom. assert (0 <= zlen rk) by zl.
  destruct (find_range_entries s root es key_start key_end rk rp Hs Hks) as [Hf|[Hn Hf]]; try lia.
  - left. exists (between key_start key_end es). split; [exact Hf|]. split; [|split].
    + now apply between_sorted.
    + intros k. rewrite Hm, contents_dom by done. apply between_keys.
    + intros k r Hin. apply list_elem_of_filter in Hin as [_ Hin]. rewrite Hm, (contents_lookup _ _ _ r) by done.
      unfold rec_value. destruct (rec_mem_some s _ r Hr) as (_ & v & Hv); [apply list_elem_of_fmap; now exists (k, r)|].
      exists v. now rewrite Hv.
  - right. split; [|exact Hf]. rewrite Hm. now apply contents_none.
Qed.
End claims.

Lemma btree_refines_map_witness :
  exists root s, @run_ops demo_config demo_ops 0 empty_btree = Ok (((spec_ops demo_ops ∅).1, root), s) /\
    @represents demo_config s root (spec_ops demo_ops ∅).2.
Proof.
  destruct (@btree_refines_map demo_config demo_ok demo_ops demo_keys) as [[H|H] _]; [|exact H].
  exfalso. rewrite demo_runs in H. discriminate H.
Defined.

Lemma btree_nodes_typed_witness :
  exists h, @height (demo_result.1.2) demo_result.2 = Ok (Z.of_nat h, demo_result.2).
Proof.
  destruct (@btree_nodes_typed demo_config demo_ok demo_ops demo_result.1.1 demo_result.1.2 demo_result.2 demo_keys demo_runs)
    as (h & Hh & _); [discriminate|]. exists h. exact Hh.
Defined.

Lemma btree_height_log_witness :
  exists h, @height (demo_result.1.2) demo_result.2 = Ok (Z.of_nat h, demo_result.2) /\
    Z.of_nat (size (spec_ops demo_ops ∅).2) <= 3 * 4 ^ Z.of_nat h.
Proof.
  destruct (@btree_height_log demo_config demo_ok demo_ops demo_result.1.1 demo_result.1.2 demo_result.2 demo_keys demo_runs)
    as (h & Hh & _ & Hb); [discriminate|]. exists h. split; [exact Hh|exact Hb].
Defined.

Lemma btree_print_leaves_sorted_witness :
  exists ls, @print_leaves demo_config demo_result.1.2 demo_result.2 = Ok (tt, out demo_result.2 (@leaves_text demo_config ls)) /\
    StronglySorted Z.lt (concat ls.*2).*1.
Proof.
  destruct (@btree_print_leaves_sorted demo_config demo_ok demo_ops demo_result.1.1 demo_result.1.2 demo_result.2 demo_keys demo_runs)
    as [[H _]|(ls & Hp & Hs & _)].
  - exfalso. apply (f_equal (lookup 20)) in H. vm_compute in H. discriminate H.
  - exists ls. split; [exact Hp|exact Hs].
Defined.

Lemma btree_find_range_exact_witness :
  exists fs, @find_range demo_config demo_result.1.2 30 45 false (replicate 16 0) (replicate 16 0) demo_result.2 =
      Ok ((zlen fs, fs.*1 ++ drop (length fs) (replicate 16 0), fs.*2 ++ drop (length fs) (replicate 16 0)), demo_result.2) /\
    (forall k, k ∈ fs.*1 <-> 30 <= k <= 45 /\ is_Some ((spec_ops demo_ops ∅).2 !! k)).
Proof.
  destruct (@btree_find_range_exact demo_config demo_ok demo_ops demo_result.1.1 demo_result.1.2 demo_result.2 30 45
    (replicate 16 0) (replicate 16 0) demo_keys demo_runs) as [(fs & Hf & _ & Hk & _)|[H _]];
    [split; lia|vm_compute; discriminate|reflexivity| |].
  - exists fs. split; [exact Hf|exact Hk].
  - exfalso. vm_compute in H. discriminate H.
Defined.

(** a range query can miss entries. When every key of the leaf where the search
    for [key_start] ends is smaller, [find_range] reports none without looking at
    the next leaf: in the tree with the leaves 20, 30 and 40, 50 it finds nothing
    between 35 and 60. *)
Theorem btree_find_range_misses :
  exists root s, @run_ops demo_config demo_ops 0 empty_btree = Ok (((spec_ops demo_ops ∅).1, root), s) /\
    (spec_ops demo_ops ∅).2 !! 40 = Some 4 /\ (spec_ops demo_ops ∅).2 !! 50 = Some 5 /\
    @find_range demo_config root 35 60 false (replicate 26 0) (replicate 26 0) s =
      Ok ((0, replicate 26 0, replicate 26 0), s).
Proof. exists demo_result.1.2, demo_result.2. split; [rewrite demo_runs; reflexivity|]. vm_compute. auto. Qed.
