(* ===== verification/BTreeBench.v ===== *)
(** The benchmark around the B+ tree of btree1.c: its random number generator and
    the steps of [real_main].

    The generator multiplies 48-bit numbers by halves of 16 bits, in the manner of
    [lrand48]; [rand_is_lcg] relates it to the recurrence it computes.  The array
    of elements is one block with an address per element, after those of the tree.
    The options are arguments; timing, the two signal files and the final output
    are left out, and the loop of the lookups is the one of the build without
    OpenMP. *)
From stdpp Require Import base numbers list gmap strings sorting.
From Stdlib Require Import ZArith Lia.
From S2P Require Import Prelude BTree BTreeArrays BTreeNode BTreeAlloc BTreeMap.
Open Scope Z_scope.

(** ** Random numbers *)

Module BtRand.
Definition N : Z := 16.
Definition MASK : Z := 2 ^ (N - 1) + 2 ^ (N - 1) - 1.
Definition LOW (x : Z) : Z := Z.land (u32 x) MASK.
Definition HIGH (x : Z) : Z := LOW (Z.shiftr x N).
(** The two halves of a product. *)
Definition MUL (x y : Z) : Z * Z := let l := s32 (x * y) in (LOW l, HIGH l).
Definition CARRY (x y : Z) : Z := if MASK <? s32 x + y then 1 else 0.
(** The new value of [x] and the carry. *)
Definition ADDEQU (x y : Z) : Z * Z := (LOW (u64 (x + y)), CARRY x y).

Definition X0 : Z := 0x330E.
Definition X1 : Z := 0xABCD.
Definition X2 : Z := 0x1234.
Definition A0 : Z := 0xE66D.
Definition A1 : Z := 0xDEEC.
Definition A2 : Z := 0x5.
Definition C : Z := 0xB.

Record rng := Rng { x0 : Z; x1 : Z; x2 : Z; a0 : Z; a1 : Z; a2 : Z; c : Z }.

Definition initial_rng : rng := Rng X0 X1 X2 A0 A1 A2 C.
Definition SEED (y0 y1 y2 : Z) : rng := Rng y0 y1 y2 A0 A1 A2 C.
Definition myrandseed (seedval : Z) : rng := SEED X0 (LOW seedval) (HIGH seedval).

Definition next (g : rng) : rng :=
  let '(p0, p1) := MUL (a0 g) (x0 g) in
  let '(p0, carry0) := ADDEQU p0 (c g) in
  let '(p1, carry1) := ADDEQU p1 carry0 in
  let '(q0, q1) := MUL (a0 g) (x1 g) in
  let '(p1, carry0) := ADDEQU p1 q0 in
  let '(r0, r1) := MUL (a1 g) (x0 g) in
  Rng (LOW p0) (LOW (u64 (p1 + r0)))
    (LOW (u64 (carry0 + carry1 + CARRY p1 r0 + q1 + r1 + a0 g * x2 g + a1 g * x1 g + a2 g * x0 g)))
    (a0 g) (a1 g) (a2 g) (c g).

Definition myrand (g : rng) : Z * rng :=
  let g := next g in (u64 (u64 (Z.shiftl (x2 g) (N - 1)) + Z.shiftr (x1 g) 1), g).

(** The values of [n] calls. *)
Fixpoint draws (n : nat) (g : rng) : list Z :=
  match n with O => [] | S n => let '(v, g) := myrand g in v :: draws n g end.

(** The recurrence the generator stands for. *)
Definition lcg48 (x : Z) : Z := (0x5DEECE66D * x + 0xB) mod 2 ^ 48.
Fixpoint lrand48 (n : nat) (x : Z) : list Z :=
  match n with O => [] | S n => let x := lcg48 x in x / 2 ^ 17 :: lrand48 n x end.

Definition word48 (g : rng) : Z := x0 g + 2 ^ 16 * x1 g + 2 ^ 32 * x2 g.
Record rng_ok (g : rng) : Prop := {
  ok_x0 : 0 <= x0 g < 2 ^ 16; ok_x1 : 0 <= x1 g < 2 ^ 16; ok_x2 : 0 <= x2 g < 2 ^ 16;
  ok_a : a0 g = A0 /\ a1 g = A1 /\ a2 g = A2 /\ c g = C }.

Lemma LOW_mod v : LOW v = v mod 2 ^ 16.
Proof.
  unfold LOW. change MASK with (Z.ones 16). rewrite Z.land_ones by lia. unfold u32, wrap. dlia.
Qed.

Lemma LOW_u64 v : LOW (u64 v) = v mod 2 ^ 16.
Proof. rewrite LOW_mod. unfold u64, wrap. dlia. Qed.

Lemma MUL_spec x y : 0 <= x * y < 2 ^ 32 -> MUL x y = ((x * y) mod 2 ^ 16, (x * y) / 2 ^ 16).
Proof.
  intros H. unfold MUL, HIGH. rewrite !LOW_mod, Z.shiftr_div_pow2 by (unfold N; lia). unfold s32, N. f_equal; dlia.
Qed.

Lemma CARRY_spec x y : 0 <= x < 2 ^ 16 -> 0 <= y < 2 ^ 16 -> CARRY x y = (x + y) / 2 ^ 16.
Proof.
  intros Hx Hy. unfold CARRY. change MASK with 65535. replace (s32 x) with x by (unfold s32; dlia).
  destruct (Z.ltb_spec 65535 (x + y)); dlia.
Qed.

Lemma mul16 x y : 0 <= x < 2 ^ 16 -> 0 <= y < 2 ^ 16 -> 0 <= x * y < 2 ^ 32.
Proof. nia. Qed.

(** A chain of additions with carries, as [next] does them. *)
Lemma carries p q r k S :
  0 <= p -> 0 <= q -> 0 <= r -> 0 <= k ->
  let l := (p mod 2 ^ 16 + k) in
  let m := (p / 2 ^ 16 + l / 2 ^ 16) in
  let n := (m mod 2 ^ 16 + q mod 2 ^ 16) in
  let o := (n mod 2 ^ 16 + r mod 2 ^ 16) in
  l mod 2 ^ 16 + 2 ^ 16 * (o mod 2 ^ 16) +
    2 ^ 32 * ((n / 2 ^ 16 + m / 2 ^ 16 + o / 2 ^ 16 + q / 2 ^ 16 + r / 2 ^ 16 + S) mod 2 ^ 16)
  = (p + k + 2 ^ 16 * (q + r) + 2 ^ 32 * S) mod 2 ^ 48.
Proof.
  intros Hp Hq Hr Hk l m n o.
  set (T := n / 2 ^ 16 + m / 2 ^ 16 + o / 2 ^ 16 + q / 2 ^ 16 + r / 2 ^ 16 + S).
  apply (Z.mod_unique _ _ (T / 2 ^ 16)).
  - left. pose proof (Z.mod_pos_bound l (2 ^ 16)). pose proof (Z.mod_pos_bound o (2 ^ 16)).
    pose proof (Z.mod_pos_bound T (2 ^ 16)). lia.
  - assert (Hdm : forall v, v = 2 ^ 16 * (v / 2 ^ 16) + v mod 2 ^ 16) by (intros; apply Z.div_mod; lia).
    pose proof (Hdm T) as HT. pose proof (Hdm l) as Hl. pose proof (Hdm m) as Hm. pose proof (Hdm n) as Hn.
    pose proof (Hdm o) as Ho. pose proof (Hdm p). pose proof (Hdm q). pose proof (Hdm r).
    assert (T = n / 2 ^ 16 + m / 2 ^ 16 + o / 2 ^ 16 + q / 2 ^ 16 + r / 2 ^ 16 + S) by reflexivity.
    assert (l = p mod 2 ^ 16 + k) by reflexivity. assert (m = p / 2 ^ 16 + l / 2 ^ 16) by reflexivity.
    assert (n = m mod 2 ^ 16 + q mod 2 ^ 16) by reflexivity. assert (o = n mod 2 ^ 16 + r mod 2 ^ 16) by reflexivity.
    clearbody T l m n o. lia.
Qed.

(** One step of the generator is one step of the recurrence. *)
Lemma next_lcg g : rng_ok g -> rng_ok (next g) /\ word48 (next g) = lcg48 (word48 g).
Proof.
  intros [H0 H1 H2 (Ha0 & Ha1 & Ha2 & Hc)]. unfold next. rewrite Ha0, Ha1, Ha2, Hc.
  assert (HA : 0 <= A0 < 2 ^ 16 /\ 0 <= A1 < 2 ^ 16 /\ 0 <= C < 2 ^ 16) by (unfold A0, A1, C; lia).
  destruct HA as (HA0 & HA1 & HC).
  rewrite !MUL_spec by (apply mul16; assumption). unfold ADDEQU. rewrite !LOW_u64, !LOW_mod.
  set (p := A0 * x0 g). set (q := A0 * x1 g). set (r := A1 * x0 g).
  pose proof (mul16 _ _ HA0 H0) as Hp. pose proof (mul16 _ _ HA0 H1) as Hq. pose proof (mul16 _ _ HA1 H0) as Hr.
  fold p in Hp. fold q in Hq. fold r in Hr.
  assert (Hm : forall v, 0 <= v mod 2 ^ 16 < 2 ^ 16) by (intros; apply Z.mod_pos_bound; lia).
  assert (Hd : forall v, 0 <= v < 2 ^ 32 -> 0 <= v / 2 ^ 16 < 2 ^ 16) by (intros; dlia).
  rewrite (CARRY_spec (p mod 2 ^ 16) C) by auto. set (k0 := (p mod 2 ^ 16 + C) / 2 ^ 16).
  assert (Hk0 : 0 <= k0 < 2 ^ 16) by (unfold k0; specialize (Hm p); dlia).
  rewrite (CARRY_spec (p / 2 ^ 16) k0) by auto. rewrite !CARRY_spec by auto. rewrite !Z.mod_mod by lia.
  split; [split; simpl; auto|]. unfold word48, lcg48. cbn [x0 x1 x2].
  pose proof (carries p q r C (A0 * x2 g + A1 * x1 g + A2 * x0 g) ltac:(lia) ltac:(lia) ltac:(lia) ltac:(lia)) as Hca.
  cbv zeta in Hca. fold k0 in Hca. rewrite !Z.add_assoc in Hca. rewrite Hca.
  unfold p, q, r, A0, A1, A2, C.
  rewrite <- (Z.mod_add _ (0xDEEC * x2 g + 0x5 * x1 g + 2 ^ 16 * (0x5 * x2 g))) by lia. f_equal. lia.
Qed.

Lemma myrand_lcg g : rng_ok g -> (myrand g).1 = lcg48 (word48 g) / 2 ^ 17 /\ 0 <= (myrand g).1 < 2 ^ 31.
Proof.
  intros Hg. destruct (next_lcg g Hg) as [[H0 H1 H2 _] <-]. unfold myrand, word48. cbn [fst].
  rewrite Z.shiftl_mul_pow2, Z.shiftr_div_pow2 by (unfold N; lia). change (2 ^ (N - 1)) with (2 ^ 15). change (2 ^ 1) with 2.
  rewrite (u64_small (x2 (next g) * 2 ^ 15)) by (unfold is_u64; lia).
  rewrite u64_small by (unfold is_u64; dlia). split; dlia.
Qed.

Lemma myrand_next g : (myrand g).2 = next g.
Proof. reflexivity. Qed.

Lemma draws_lrand48 n g :
  rng_ok g -> draws n g = lrand48 n (word48 g) /\ Forall (fun v => 0 <= v < 2 ^ 31) (draws n g).
Proof.
  revert g. induction n as [|n IH]; intros g Hg; cbn [draws lrand48]; [auto|].
  destruct (myrand_lcg g Hg) as [Hv Hb]. destruct (next_lcg g Hg) as [Hg' Hw]. rewrite <- myrand_next in Hg', Hw.
  destruct (myrand g) as [v g']. cbn [fst snd] in *. destruct (IH g' Hg') as [IH1 IH2].
  rewrite <- Hv, <- Hw, <- IH1. auto.
Qed.

Lemma myrandseed_ok seedval :
  rng_ok (myrandseed seedval) /\ word48 (myrandseed seedval) = 2 ^ 16 * (seedval mod 2 ^ 32) + 0x330E.
Proof.
  unfold myrandseed, SEED, word48, HIGH. cbn [x0 x1 x2]. rewrite !LOW_mod, Z.shiftr_div_pow2 by (unfold N; lia).
  change (2 ^ N) with (2 ^ 16). split; [split; cbn [x0 x1 x2 a0 a1 a2 c]; auto; unfold X0; dlia|]. unfold X0. dlia.
Qed.
End BtRand.

(** the benchmark draws the numbers of [lrand48]. After [myrandseed], for any
    seed, the values of [myrand] are bits 17 to 47 of the linear congruential
    sequence [X' = (0x5DEECE66D X + 11) mod 2^48] from [2^16 seed + 0x330E]: the
    multiplication by 16-bit halves with its carries is exact, and every value is
    below [2^31]. *)
Theorem myrand_is_lrand48 seedval n :
  BtRand.draws n (BtRand.myrandseed seedval) = BtRand.lrand48 n (2 ^ 16 * (seedval mod 2 ^ 32) + 0x330E) /\
  Forall (fun v => 0 <= v < 2 ^ 31) (BtRand.draws n (BtRand.myrandseed seedval)).
Proof.
  destruct (BtRand.myrandseed_ok seedval) as [Hok Hw]. rewrite <- Hw. now apply BtRand.draws_lrand48.
Qed.

(** ** The benchmark *)

Definition CONFIG_CACHELINE_SIZE : Z := 64.
Definition CONFIG_DEFAULT_KEY_STRIDE : Z := 2.

Record element := Element { e_key : Z; e_stats : Z; e_value : Z }.
Definition set_e_key k (e : element) : element := Element k (e_stats e) (e_value e).

Section bench.
Context {cfg : BtConfig}.

(** The block of the elements, zeroed. *)
Definition allocate_elements (nelements : Z) : B (Z * list element) :=
  base ← allocate (u64 (nelements * CONFIG_CACHELINE_SIZE)) CONFIG_LARGE_PAGE_SIZE nelements;
  mret (base, replicate (Z.to_nat nelements) (Element 0 0 0)).

Definition setup_elements (nelements : Z) (elms : list element) : res (list element) :=
  for_range 0 nelements (fun i elms => awrite elms i (Element (2 * CONFIG_DEFAULT_KEY_STRIDE) 0 1)) elms.

Definition shuffle_elements (nelements : Z) (elms : list element) (g : BtRand.rng) : res (list element * BtRand.rng) :=
  for_down nelements 1 (fun i '(elms, g) =>
    let '(v, g) := BtRand.myrand g in
    let j := v mod (u64 (i + 1)) in
    ei ← aread elms i;
    let tmp := e_key ei in
    ej ← aread elms j;
    elms ← awrite elms i (set_e_key (e_key ej) ei);
    ej ← aread elms j;
    elms ← awrite elms j (set_e_key tmp ej);
    Ok (elms, g)) (elms, g).

(** The value stored with a key is the address of its element. *)
Definition insert_elements (base nelements : Z) (elms : list element) : B Z :=
  fun s => for_range 0 nelements (fun i '(root, s) =>
    e ← aread elms i; bt_insert root (e_key e) (base + i) s) (0, s).

(** One lookup: the sum of the values, the generator and the memory after it. *)
Definition lookup_step (root base nelements : Z) (elms : list element) (st : Z * BtRand.rng * btree)
    : res (Z * BtRand.rng * btree) :=
  let '(sum, g, s) := st in
  let '(v, g) := BtRand.myrand g in
  let d := u64 (nelements * 2) in
  rdn ← (if d =? 0 then Fault DivByZero else Ok (v mod d));
  '((r, _), s) ← bt_find root rdn false s;
  if r =? 0 then Ok (sum, g, s) else
  '(rec, s) ← get_record r s;
  '(_, s) ← set_record r (set_r_stats (u64 (r_stats rec + 1)) rec) s;
  if value rec =? 0 then Ok (sum, g, s) else
  e ← aread elms (value rec - base);
  Ok (u64 (sum + e_value e), g, s).

(** The sum of the values of the elements found. *)
Definition lookup_elements (root base nelements nlookup : Z) (elms : list element) (g : BtRand.rng) : B Z :=
  fun s => '(sum, _, s) ← for_range 0 nlookup (fun _ => lookup_step root base nelements elms) (0, g, s); Ok (sum, s).

Definition real_main (nelements nlookup : Z) : B Z :=
  let g := BtRand.myrandseed (s32 0xcafebabe) in
  '(base, elms) ← allocate_elements nelements;
  elms ← lift (setup_elements nelements elms);
  '(elms, g) ← lift (shuffle_elements nelements elms g);
  root ← insert_elements base nelements elms;
  lookup_elements root base nelements nlookup elms g.

Lemma setup_elements_length n elms :
  0 <= n -> zlen elms = n -> exists elms', setup_elements n elms = Ok elms' /\ zlen elms' = n.
Proof.
  intros Hn Hl. apply (for_range_inv (fun _ e => zlen e = n)); [done|done|].
  intros i e Hi He. rewrite awrite_in_bounds by lia. eexists. split; [done|]. unfold zlen in *. now rewrite length_insert.
Qed.

(** The shuffle starts one element behind the end of the array. *)
Lemma shuffle_out_of_bounds n elms g : 2 <= n -> zlen elms = n -> shuffle_elements n elms g = Fault OutOfBounds.
Proof.
  intros Hn Hl. unfold shuffle_elements, for_down. replace (Z.to_nat (n - 1)) with (S (Z.to_nat (n - 2))) by lia.
  cbn [for_n]. rewrite Z.sub_0_r. destruct (BtRand.myrand g) as [v g'].
  assert (Hrd : aread elms n = Fault OutOfBounds).
  { unfold aread. case_decide; [|done]. rewrite lookup_ge_None_2; [done|]. unfold zlen in Hl. lia. }
  now rewrite Hrd.
Qed.

(** With two elements or more the benchmark accesses the element behind the last one
    before it inserts anything, unless there is no memory for the array. *)
Theorem real_main_out_of_bounds nelements nlookup s :
  2 <= nelements ->
  real_main nelements nlookup s = Fault OutOfBounds \/ real_main nelements nlookup s = Fault ExitFailure.
Proof.
  intros Hn. unfold real_main, allocate_elements, allocate, mbind, B_bind.
  destruct (posix_memalign _ _ _); [left|right; done]. cbn [mbind res_bind mret B_ret].
  destruct (setup_elements_length nelements (replicate (Z.to_nat nelements) (Element 0 0 0))) as (elms & Hset & Hl);
    [lia|zl|]. unfold lift. rewrite Hset. cbn [mbind res_bind].
  rewrite shuffle_out_of_bounds by done. reflexivity.
Qed.

(** A key that is not in the tree. *)
Lemma lookup_step_miss {cfg_ok : BtOk} s root base m elms g :
  represents s root m -> (forall k, 0 <= k < 2 -> m !! k = None) ->
  lookup_step root base 1 elms (0, g, s) = Ok (0, (BtRand.myrand g).2, s).
Proof.
  intros Hr Hm. unfold lookup_step. destruct (BtRand.myrand g) as [v g1]. cbn zeta. change (u64 (1 * 2)) with 2.
  cbn [Z.eqb mbind res_bind]. assert (Hv : 0 <= v mod 2 < 2) by (apply Z.mod_pos_bound; lia).
  destruct (find_correct s root _ (v mod 2) Hr) as (r & leaf & Hf & Hk); [lia|].
  rewrite Hm in Hk by done. subst r. now rewrite Hf.
Qed.

(** With one element it runs, and no lookup matches: the one key is 4, and the
    numbers looked up are below 2. *)
Theorem real_main_one {cfg_ok : BtOk} nlookup :
  0 <= nlookup -> exists s', real_main 1 nlookup empty_btree = Ok (0, s').
Proof.
  intros Hn. unfold real_main, allocate_elements. pose proof (allocate_ok (u64 (1 * CONFIG_CACHELINE_SIZE)) CONFIG_LARGE_PAGE_SIZE 1
    empty_btree) as Ha. set (s1 := BTree _ _ _ _ _ _ _ _) in Ha.
  assert (Hal : (base ← allocate (u64 (1 * CONFIG_CACHELINE_SIZE)) CONFIG_LARGE_PAGE_SIZE 1;
    mret (base, replicate (Z.to_nat 1) (Element 0 0 0))) empty_btree = Ok ((1, [Element 0 0 0]), s1)) by now run Ha.
  run Hal. assert (Hset : setup_elements 1 [Element 0 0 0] = Ok [Element 4 0 1]) by reflexivity. run_lift Hset.
  generalize (BtRand.myrandseed (s32 0xcafebabe)). intros g.
  assert (Hsh : shuffle_elements 1 [Element 4 0 1] g = Ok ([Element 4 0 1], g)) by reflexivity. run_lift Hsh.
  destruct (insert_correct s1 0 ∅ 4 1) as (root & s2 & Hins & Hr); [apply empty_represents; simpl; lia || done|lia|].
  assert (Hi : insert_elements 1 1 [Element 4 0 1] s1 = Ok (root, s2)).
  { unfold insert_elements, for_range. change (Z.to_nat (1 - 0)) with 1%nat. cbn [for_n]. change (aread [Element 4 0 1] 0) with (Ok (Element 4 0 1)).
    cbn [mbind res_bind e_key]. change (1 + 0) with 1. now rewrite Hins. }
  run Hi. unfold lookup_elements.
  destruct (for_range_inv (fun _ '(sum, _, s) => sum = 0 /\ s = s2) 0 nlookup (fun _ => lookup_step root 1 1 [Element 4 0 1])
    (0, g, s2)) as ([[sum g'] s'] & Hrun & -> & ->); try done.
  - intros i [[sum g0] s] _ [-> ->]. eexists. split; [apply (lookup_step_miss _ _ _ _ _ _ Hr)|done].
    intros k Hk. now rewrite lookup_insert_ne, lookup_empty by lia.
  - exists s2. now rewrite Hrun.
Qed.
End bench.
