(* ===== verification/Balloon.v ===== *)
(** The balloon driver of Demeter (mm/demeter/balloon.c in the patch): two
    balloons, one per memory node, that give pages to the host and take them
    back, the work items that follow the host's targets, the statistics and the
    life of the device.

    A page is its frame number.  The page allocator, the virtqueues, the list of
    ballooned pages of the kernel and the feature bits are not part of the
    repository: they are the operations of [BalloonEnv].  The host uses every
    buffer it is given; waiting for a buffer when none is under way never ends
    ([Deadlock]).  Time stamps and messages are left out. *)
From stdpp Require Import base numbers list gmap.
From Stdlib Require Import ZArith Lia.
From S2P Require Import Prelude Kernel.
Open Scope Z_scope.

Definition VIRTIO_BALLOON_ARRAY_PFNS_MAX : Z := 256.
Definition VIRTIO_BALLOON_OOM_NR_PAGES : Z := 256.
Definition EBUSY : Z := 16.
Definition ENXIO : Z := 6.

Module Feature.
Definition F_TELL_HOST : Z := 0.
Definition F_STATS : Z := 1.
Definition F_OOM : Z := 2.
Definition F_REPORT : Z := 5.
Definition F_HETERO : Z := 6.
End Feature.
Import Feature.

Definition Q_INFLATE : Z := 0.
Definition Q_DEFLATE : Z := 1.
Definition Q_STATS : Z := 2.
Definition Q_REPORTING : Z := 3.
Definition Q_HETERO_INFLATE : Z := 4.
Definition Q_HETERO_DEFLATE : Z := 5.
Definition Q_MAX : Z := 6.

Definition I_NORMAL : Z := 0.
Definition I_HETERO : Z := 1.
Definition I_MAX : Z := 2.

Definition T_NORMAL_ACCESS : Z := 10.
Definition T_HETERO_ACCESS : Z := 13.
Definition T_MAX : Z := 16.

(** One of the two balloons: its size, its pages (the most recent first) and the
    array for the messages to the host. *)
Record inner := Inner { i_len : Z; tracking : list Z; pfns : list Z }.

(** The configuration space of the device. *)
Record vb_config := Config {
  num_pages : Z; actual : Z; num_hetero_pages : Z; actual_hetero : Z }.

Record virtio_balloon_stat_vec := StatVec { s_len : Z; s_items : list (Z * Z) }.

(** The driver and what it works on: the buffers the host was given, oldest first,
    the queues of the buffers under way, and the free pages of the guest. *)
Record virtio_balloon := Balloon {
  inners : list inner;
  config : vb_config;
  host : list (Z * list Z);
  under_way : list Z;
  free_pages : gset Z;
  queued : gset Z;
  work_func : list bool;
  should_exit : bool;
  stats : virtio_balloon_stat_vec }.

Class BalloonEnv := {
  virtio_has_feature : Z -> bool;
  first_node : Z;
  last_node : Z;
  num_memory_nodes : Z;
  node_present_pages : Z -> Z;
  (** a free page, if the allocator finds one; the node is preferred, but without
      __GFP_THISNODE the page may come from another *)
  alloc_pages_node : Z -> gset Z -> option Z;
  (** the result of adding a buffer to a queue, after those added before *)
  virtqueue_add_outbuf : Z -> list (Z * list Z) -> Z;
  (** the index of the page the kernel takes from a list of ballooned pages *)
  balloon_page_dequeue : list Z -> option nat;
  (** the value of a statistic *)
  vm_stat : Z -> Z;
  virtio_find_vqs : Z;
  register_oom_notifier : Z;
  config_get : bool }.

Class BalloonLaws (E : BalloonEnv) : Prop := {
  alloc_free nid f p : alloc_pages_node nid f = Some p -> p ∈ f;
  dequeue_in l i : balloon_page_dequeue l = Some i -> (i < length l)%nat }.

Definition set_inners v (b : virtio_balloon) := Balloon v (config b) (host b) (under_way b) (free_pages b) (queued b) (work_func b) (should_exit b) (stats b).
Definition set_config v (b : virtio_balloon) := Balloon (inners b) v (host b) (under_way b) (free_pages b) (queued b) (work_func b) (should_exit b) (stats b).
Definition set_free_pages v (b : virtio_balloon) := Balloon (inners b) (config b) (host b) (under_way b) v (queued b) (work_func b) (should_exit b) (stats b).
Definition set_queued v (b : virtio_balloon) := Balloon (inners b) (config b) (host b) (under_way b) (free_pages b) v (work_func b) (should_exit b) (stats b).
Definition set_stats v (b : virtio_balloon) := Balloon (inners b) (config b) (host b) (under_way b) (free_pages b) (queued b) (work_func b) (should_exit b) v.
Definition set_under_way h u (b : virtio_balloon) := Balloon (inners b) (config b) h u (free_pages b) (queued b) (work_func b) (should_exit b) (stats b).

(** The oldest buffer of a queue. *)
Fixpoint get_buf (q : Z) (l : list Z) : option (list Z) :=
  match l with
  | [] => None
  | x :: l => if x =? q then Some l else cons x <$> get_buf q l
  end.

Section balloon.
Context `{E : BalloonEnv}.

Definition vb_acked (feature : Z) : bool := virtio_has_feature feature.

Definition BUG_ON_idx (idx : Z) : res unit :=
  if negb (idx =? I_NORMAL) && negb (idx =? I_HETERO) then Fault BugOn else Ok tt.

Definition vb_config_read_target (vb : virtio_balloon) (idx : Z) : res Z :=
  if idx =? I_NORMAL then Ok (num_pages (config vb))
  else if idx =? I_HETERO then Ok (num_hetero_pages (config vb))
  else Fault BugOn.

Definition vb_config_write_actual (vb : virtio_balloon) (idx v : Z) : res virtio_balloon :=
  let c := config vb in
  if idx =? I_NORMAL then Ok (set_config (Config (num_pages c) v (num_hetero_pages c) (actual_hetero c)) vb)
  else if idx =? I_HETERO then Ok (set_config (Config (num_pages c) (actual c) (num_hetero_pages c) v) vb)
  else Fault BugOn.

(** The result and the queue with the buffer. *)
Definition vb_send_buf (vb : virtio_balloon) (qidx : Z) (buf : list Z) : Z * virtio_balloon :=
  let err := virtqueue_add_outbuf qidx (host vb) in
  if IS_ERR_VALUE err then (err, vb)
  else (0, set_under_way (host vb ++ [(qidx, buf)]) (under_way vb ++ [qidx]) vb).

(** [virtqueue_get_buf]: is there a used buffer? *)
Definition vb_recv_buf (vb : virtio_balloon) (qidx : Z) : bool * virtio_balloon :=
  match get_buf qidx (under_way vb) with
  | Some l => (true, set_under_way (host vb) l vb)
  | None => (false, vb)
  end.

(** [wait_event(vb->ack, vb_recv_buf(...))] *)
Definition wait_ack (vb : virtio_balloon) (qidx : Z) : res virtio_balloon :=
  let '(ok, vb) := vb_recv_buf vb qidx in if ok : bool then Ok vb else Fault Deadlock.

Definition vb_inner_diff_from_target (vb : virtio_balloon) (idx : Z) : res Z :=
  _ ← BUG_ON_idx idx;
  i ← aread (inners vb) idx;
  target ← vb_config_read_target vb idx;
  Ok (target - i_len i).

Definition inner_nid (idx : Z) : res Z :=
  if idx =? I_NORMAL then Ok first_node else if idx =? I_HETERO then Ok last_node else Fault BugOn.

Definition vb_inner_page_alloc (vb : virtio_balloon) (idx : Z) : res (option Z * virtio_balloon) :=
  nid ← inner_nid idx;
  match alloc_pages_node nid (free_pages vb) with
  | Some p => Ok (Some p, set_free_pages (free_pages vb ∖ {[p]}) vb)
  | None => Ok (None, vb)
  end.

(** [while (todo-- > 0)]: pages are added at the front. *)
Fixpoint inflate_alloc (todo : nat) (vb : virtio_balloon) (idx : Z) (pages : list Z) : res (list Z * virtio_balloon) :=
  match todo with
  | O => Ok (pages, vb)
  | S todo =>
      '(page, vb) ← vb_inner_page_alloc vb idx;
      match page with Some p => inflate_alloc todo vb idx (p :: pages) | None => Ok (pages, vb) end
  end.

(** The pages enter the list of the balloon and the message. *)
Fixpoint track_pages (pages : list Z) (i : inner) (done : Z) : res (inner * Z) :=
  match pages with
  | [] => Ok (i, done)
  | p :: pages =>
      a ← awrite (pfns i) done (u32 p);
      track_pages pages (Inner (i_len i) (p :: tracking i) a) (done + 1)
  end.

(** The message is sent and acknowledged, the new size published. *)
Definition vb_tell_host (vb : virtio_balloon) (idx qidx done newlen : Z) (i : inner) : res virtio_balloon :=
  l ← awrite (inners vb) idx i;
  let vb := set_inners l vb in
  let '(_, vb) := vb_send_buf vb qidx (take (Z.to_nat done) (pfns i)) in
  vb ← wait_ack vb qidx;
  l ← awrite (inners vb) idx (Inner newlen (tracking i) (pfns i));
  vb_config_write_actual (set_inners l vb) idx newlen.

(** The part of [vb_inner_inflate] under the lock. *)
Definition inflate_locked (vb : virtio_balloon) (idx : Z) (pages : list Z) : res (Z * virtio_balloon) :=
  let qidx := if idx =? I_NORMAL then Q_INFLATE else Q_HETERO_INFLATE in
  i ← aread (inners vb) idx;
  '(i, done) ← track_pages pages i 0;
  vb ← vb_tell_host vb idx qidx done (u32 (i_len i + done)) i;
  Ok (done, vb).

Definition vb_inner_inflate (vb : virtio_balloon) (idx todo : Z) : res (Z * virtio_balloon) :=
  _ ← BUG_ON_idx idx;
  let todo := Z.min todo VIRTIO_BALLOON_ARRAY_PFNS_MAX in
  '(pages, vb) ← inflate_alloc (Z.to_nat todo) vb idx [];
  inflate_locked vb idx pages.

(** [balloon_page_dequeue]: no page in the list is a bug, no page that can be taken
    is NULL. *)
Definition page_tracker_untrack (l : list Z) : res (option (Z * list Z)) :=
  if decide (l = []) then Fault BugOn else
  match balloon_page_dequeue l with
  | None => Ok None
  | Some n => p ← of_option OutOfBounds (l !! n); Ok (Some (p, delete n l))
  end.

Fixpoint untrack_pages (todo : nat) (i : inner) (done : Z) (pages : list Z) : res (inner * Z * list Z) :=
  match todo with
  | O => Ok (i, done, pages)
  | S todo =>
      r ← page_tracker_untrack (tracking i);
      match r with
      | None => Ok (i, done, pages)
      | Some (p, l) =>
          a ← awrite (pfns i) done (u32 p);
          untrack_pages todo (Inner (i_len i) l a) (done + 1) (p :: pages)
      end
  end.

(** The part of [vb_inner_deflate] under the lock. *)
Definition deflate_locked (vb : virtio_balloon) (idx todo : Z) : res (Z * virtio_balloon) :=
  let qidx := if idx =? I_NORMAL then Q_DEFLATE else Q_HETERO_DEFLATE in
  i ← aread (inners vb) idx;
  '(i, done, pages) ← untrack_pages (Z.to_nat todo) i 0 [];
  vb ← vb_tell_host vb idx qidx done (u32 (i_len i - done)) i;
  Ok (done, set_free_pages (list_to_set pages ∪ free_pages vb) vb).

(** The size is read before the lock is taken. *)
Definition deflate_todo (vb : virtio_balloon) (idx todo : Z) : res Z :=
  _ ← BUG_ON_idx idx;
  i ← aread (inners vb) idx;
  Ok (Z.min todo (i_len i)).

Definition vb_inner_deflate (vb : virtio_balloon) (idx todo : Z) : res (Z * virtio_balloon) :=
  todo ← deflate_todo vb idx todo;
  deflate_locked vb idx todo.

(** ** Statistics *)

Definition vb_stat_push (v : virtio_balloon_stat_vec) (tag val : Z) : Z * virtio_balloon_stat_vec :=
  if zlen (s_items v) <=? s_len v then (- EINVAL, v)
  else (0, StatVec (s_len v + 1) (<[Z.to_nat (s_len v) := (tag, val)]> (s_items v))).

Definition vb_stat_clear (v : virtio_balloon_stat_vec) : virtio_balloon_stat_vec := StatVec 0 (s_items v).

(** The values of the items; those of the accesses are not filled in. *)
Definition stat_item (tag : Z) : Z :=
  if (tag =? T_NORMAL_ACCESS) || (tag =? T_HETERO_ACCESS) then 0 else u64 (vm_stat tag).

Definition vb_stats (vb : virtio_balloon) : virtio_balloon :=
  let v := foldl (fun v tag => (vb_stat_push v tag (stat_item tag)).2) (vb_stat_clear (stats vb)) (seqZ 0 T_MAX) in
  (vb_send_buf (set_stats v vb) Q_STATS (concat ((fun '(t, x) => [t; x]) <$> s_items v))).2.

Definition vb_stats_initial (vb : virtio_balloon) : virtio_balloon :=
  if negb (vb_acked F_STATS) then vb else vb_stats vb.

(** ** Work items *)

Definition queue_work (vb : virtio_balloon) (q : Z) : virtio_balloon := set_queued ({[q]} ∪ queued vb) vb.

Definition vb_work_inflate (vb : virtio_balloon) (idx q : Z) : res virtio_balloon :=
  todo ← vb_inner_diff_from_target vb idx;
  if todo <=? 0 then Ok vb else
  '(done, vb) ← vb_inner_inflate vb idx (u32 todo);
  Ok (if done <? todo then queue_work vb q else vb).

Definition vb_work_deflate (vb : virtio_balloon) (idx q : Z) : res virtio_balloon :=
  diff ← vb_inner_diff_from_target vb idx;
  let todo := - diff in
  if todo <=? 0 then Ok vb else
  '(done, vb) ← vb_inner_deflate vb idx (u32 todo);
  Ok (if done <? todo then queue_work vb q else vb).

Definition vb_work_fn_inflate (vb : virtio_balloon) := vb_work_inflate vb I_NORMAL Q_INFLATE.
Definition vb_work_fn_deflate (vb : virtio_balloon) := vb_work_deflate vb I_NORMAL Q_DEFLATE.
Definition vb_work_fn_hetero_inflate (vb : virtio_balloon) := vb_work_inflate vb I_HETERO Q_HETERO_INFLATE.
Definition vb_work_fn_hetero_deflate (vb : virtio_balloon) := vb_work_deflate vb I_HETERO Q_HETERO_DEFLATE.
Definition vb_work_fn_stats (vb : virtio_balloon) : res virtio_balloon :=
  Ok (vb_stats (vb_recv_buf vb Q_STATS).2).
Definition vb_work_fn_reporting (vb : virtio_balloon) : res virtio_balloon := Ok vb.

(** The function of a work item. *)
Definition vb_work_fn (q : Z) (vb : virtio_balloon) : res virtio_balloon :=
  if q =? Q_INFLATE then vb_work_fn_inflate vb
  else if q =? Q_DEFLATE then vb_work_fn_deflate vb
  else if q =? Q_STATS then vb_work_fn_stats vb
  else if q =? Q_REPORTING then vb_work_fn_reporting vb
  else if q =? Q_HETERO_INFLATE then vb_work_fn_hetero_inflate vb
  else vb_work_fn_hetero_deflate vb.

(** Is there a work item for a queue? *)
Definition has_work (q : Z) : bool :=
  if (q =? Q_INFLATE) || (q =? Q_DEFLATE) then true
  else if q =? Q_STATS then vb_acked F_STATS
  else if q =? Q_REPORTING then vb_acked F_REPORT
  else vb_acked F_HETERO.

(** Those that follow the targets. *)
Definition follows_target (q : Z) : bool :=
  negb (q =? Q_STATS) && negb (q =? Q_REPORTING) && has_work q.

Definition has_func (vb : virtio_balloon) (q : Z) : bool := default false (work_func vb !! Z.to_nat q).

Definition vb_work_queue (vb : virtio_balloon) : virtio_balloon :=
  if should_exit vb then vb else
  foldl (fun vb q => if follows_target q && has_func vb q then queue_work vb q else vb) vb (seqZ 0 Q_MAX).

(** [cancel_work_sync] takes an item off the queue. *)
Definition vb_work_stop (vb : virtio_balloon) : virtio_balloon :=
  let vb := Balloon (inners vb) (config vb) (host vb) (under_way vb) (free_pages vb) (queued vb) (work_func vb) true (stats vb) in
  foldl (fun vb q => if has_func vb q then set_queued (queued vb ∖ {[q]}) vb else vb) vb (seqZ 0 Q_MAX).

Definition vb_work_init (vb : virtio_balloon) : virtio_balloon :=
  Balloon (inners vb) (config vb) (host vb) (under_way vb) (free_pages vb) (queued vb)
    (has_work <$> seqZ 0 Q_MAX) (should_exit vb) (stats vb).

Definition vb_callback_stats_request (vb : virtio_balloon) : virtio_balloon :=
  if should_exit vb then vb else queue_work vb Q_STATS.

Definition vb_oom (vb : virtio_balloon) : res virtio_balloon :=
  let idx := if vb_acked F_HETERO then I_HETERO else I_NORMAL in
  '(_, vb) ← vb_inner_deflate vb idx VIRTIO_BALLOON_OOM_NR_PAGES;
  Ok vb.

(** ** The device *)

Definition zeroed (c : vb_config) (free : gset Z) : virtio_balloon :=
  Balloon (replicate (Z.to_nat I_MAX) (Inner 0 [] (replicate (Z.to_nat VIRTIO_BALLOON_ARRAY_PFNS_MAX) 0)))
    c [] [] free ∅ (replicate (Z.to_nat Q_MAX) false) false (StatVec 0 (replicate (Z.to_nat T_MAX) (0, 0))).

(** The error, or 0 and the driver. *)
Definition vb_init (c : vb_config) (free : gset Z) : Z * virtio_balloon :=
  let vb := zeroed c free in
  if IS_ERR_VALUE virtio_find_vqs then (virtio_find_vqs, vb) else
  let vb := vb_work_init vb in
  if vb_acked F_OOM && negb (register_oom_notifier =? 0) then (register_oom_notifier, vb) else
  (0, vb_work_queue (vb_stats_initial vb)).

Definition vb_stop (vb : virtio_balloon) : res virtio_balloon :=
  for_range 0 I_MAX (fun idx vb =>
    i ← aread (inners vb) idx;
    '(_, vb) ← vb_inner_deflate vb idx (i_len i);
    Ok vb) (vb_work_stop vb).

Definition validate : Z :=
  if negb config_get then - EINVAL
  else if virtio_has_feature F_HETERO && (num_memory_nodes <? 2) then - EINVAL
  else 0.

(** The one instance, [__global_instance]. *)
Definition probe (g : option virtio_balloon) (vdev mem : bool) (c : vb_config) (free : gset Z) : Z * option virtio_balloon :=
  if negb vdev then (- EINVAL, g)
  else if g then (- EBUSY, g)
  else if negb mem then (- ENOMEM, g)
  else let '(err, vb) := vb_init c free in
       if IS_ERR_VALUE err then (err, g) else (0, Some vb).

Definition config_changed (vb : virtio_balloon) : virtio_balloon := vb_work_queue vb.

Definition vb_drop (vb : virtio_balloon) : res virtio_balloon := vb_stop vb.

(** The global instance is forgotten before the driver stops. *)
Definition vb_remove (vb : virtio_balloon) : res (option virtio_balloon * virtio_balloon) :=
  vb ← vb_drop vb; Ok (None, vb).

(** The balloon of a node. *)
Definition node_inner (vb : virtio_balloon) (nid : Z) : option (res inner) :=
  if nid =? first_node then Some (aread (inners vb) I_NORMAL)
  else if nid =? last_node then Some (aread (inners vb) I_HETERO)
  else None.

Definition node_avail_pages (g : option virtio_balloon) (nid : Z) : res Z :=
  match g with
  | None => Ok (node_present_pages nid)
  | Some vb =>
      match node_inner vb nid with
      | None => Ok (node_present_pages nid)
      | Some i => i ← i; Ok (u64 (node_present_pages nid - i_len i))
      end
  end.

Definition node_balloon_pages (g : option virtio_balloon) (nid : Z) : res Z :=
  match g with
  | None => Ok (u64 (- ENXIO))
  | Some vb =>
      match node_inner vb nid with
      | None => Ok (u64 (- EINVAL))
      | Some i => i ← i; Ok (i_len i)
      end
  end.
End balloon.
