(* ===== verification/BalloonProps.v ===== *)
(** What the balloon driver promises: its accounts agree with the pages it holds, the
    host and the allocator under every interleaving of its work items, and the
    targets of the host are reached; and where it fails. *)
From stdpp Require Import base numbers list gmap relations.
From Stdlib Require Import ZArith Lia.
From S2P Require Import Prelude Kernel Balloon.
Import Feature.
Open Scope Z_scope.

(** ** Steps *)

(** A work item or notifier between its two parts: pages allocated but not yet in the
    balloon, or a number of pages about to be taken out of it. *)
Inductive pending :=
  | PInflate (idx q todo : Z) (pages : list Z)
  | PDeflate (idx n : Z) (requeue : option (Z * Z)).

Section steps.
Context `{E : BalloonEnv}.

Definition inflate_start (vb : virtio_balloon) (idx q : Z) : res (virtio_balloon * list pending) :=
  todo ← vb_inner_diff_from_target vb idx;
  if todo <=? 0 then Ok (vb, []) else
  '(pages, vb) ← inflate_alloc (Z.to_nat (Z.min (u32 todo) VIRTIO_BALLOON_ARRAY_PFNS_MAX)) vb idx [];
  Ok (vb, [PInflate idx q todo pages]).

Definition deflate_start (vb : virtio_balloon) (idx q : Z) : res (virtio_balloon * list pending) :=
  diff ← vb_inner_diff_from_target vb idx;
  let todo := - diff in
  if todo <=? 0 then Ok (vb, []) else
  n ← deflate_todo vb idx (u32 todo);
  Ok (vb, [PDeflate idx n (Some (q, todo))]).

Definition oom_start (vb : virtio_balloon) : res (virtio_balloon * list pending) :=
  let idx := if vb_acked F_HETERO then I_HETERO else I_NORMAL in
  n ← deflate_todo vb idx VIRTIO_BALLOON_OOM_NR_PAGES;
  Ok (vb, [PDeflate idx n None]).

Definition finish (vb : virtio_balloon) (p : pending) : res virtio_balloon :=
  match p with
  | PInflate idx q todo pages =>
      '(done, vb) ← inflate_locked vb idx pages;
      Ok (if done <? todo then queue_work vb q else vb)
  | PDeflate idx n r =>
      '(done, vb) ← deflate_locked vb idx n;
      Ok (match r with Some (q, todo) => if done <? todo then queue_work vb q else vb | None => vb end)
  end.

Definition start (q : Z) (vb : virtio_balloon) : res (virtio_balloon * list pending) :=
  if q =? Q_INFLATE then inflate_start vb I_NORMAL Q_INFLATE
  else if q =? Q_DEFLATE then deflate_start vb I_NORMAL Q_DEFLATE
  else if q =? Q_HETERO_INFLATE then inflate_start vb I_HETERO Q_HETERO_INFLATE
  else if q =? Q_HETERO_DEFLATE then deflate_start vb I_HETERO Q_HETERO_DEFLATE
  else vb ← vb_work_fn q vb; Ok (vb, []).

(** Run one after the other the two parts are the whole work item. *)
Definition in_one_go (m : res (virtio_balloon * list pending)) : res virtio_balloon :=
  '(vb, ps) ← m; match ps with p :: _ => finish vb p | [] => Ok vb end.

Lemma work_inflate_phases vb idx q :
  idx = I_NORMAL \/ idx = I_HETERO -> vb_work_inflate vb idx q = in_one_go (inflate_start vb idx q).
Proof.
  intros Hidx. unfold vb_work_inflate, inflate_start, in_one_go, vb_inner_inflate.
  assert (Hb : BUG_ON_idx idx = Ok tt) by now destruct Hidx as [->| ->].
  destruct (vb_inner_diff_from_target vb idx) as [todo|f]; cbn [mbind res_bind]; [|done].
  destruct (todo <=? 0); [done|]. rewrite Hb. cbn [mbind res_bind].
  now destruct (inflate_alloc _ _ _ _) as [[pages vb']|f]; cbn [mbind res_bind].
Qed.

Lemma work_deflate_phases vb idx q : vb_work_deflate vb idx q = in_one_go (deflate_start vb idx q).
Proof.
  unfold vb_work_deflate, deflate_start, in_one_go, vb_inner_deflate.
  destruct (vb_inner_diff_from_target vb idx) as [d|f]; cbn [mbind res_bind]; [|done].
  destruct (- d <=? 0); [done|]. now destruct (deflate_todo _ _ _) as [n|f]; cbn [mbind res_bind].
Qed.

Lemma oom_phases vb : vb_oom vb = in_one_go (oom_start vb).
Proof.
  unfold vb_oom, oom_start, in_one_go, vb_inner_deflate.
  now destruct (deflate_todo _ _ _) as [n|f]; cbn [mbind res_bind].
Qed.

Lemma start_phases q vb :
  0 <= q < Q_MAX -> vb_work_fn q vb = in_one_go (start q vb).
Proof.
  intros Hq. unfold start, vb_work_fn, vb_work_fn_inflate, vb_work_fn_deflate, vb_work_fn_hetero_inflate, vb_work_fn_hetero_deflate.
  destruct (Z.eqb_spec q Q_INFLATE); [now apply work_inflate_phases; left|].
  destruct (Z.eqb_spec q Q_DEFLATE); [apply work_deflate_phases|].
  destruct (Z.eqb_spec q Q_STATS) as [->|]; [reflexivity|].
  destruct (Z.eqb_spec q Q_REPORTING) as [->|]; [reflexivity|].
  destruct (Z.eqb_spec q Q_HETERO_INFLATE); [now apply work_inflate_phases; right|].
  destruct (Z.eqb_spec q Q_HETERO_DEFLATE) as [->|]; [apply work_deflate_phases|].
  unfold Q_INFLATE, Q_DEFLATE, Q_STATS, Q_REPORTING, Q_HETERO_INFLATE, Q_HETERO_DEFLATE, Q_MAX in *. lia.
Qed.

(** The driver with what is under way: the work items of different queues and the
    out-of-memory notifier interleave between their parts; the host changes its
    targets and asks for statistics. *)
Inductive vb_step : virtio_balloon * list pending -> virtio_balloon * list pending -> Prop :=
  | step_config vb ps np nh :
      0 <= np < 2 ^ 32 -> 0 <= nh < 2 ^ 32 ->
      vb_step (vb, ps)
        (config_changed (set_config (Config np (actual (config vb)) nh (actual_hetero (config vb))) vb), ps)
  | step_stats_request vb ps : vb_step (vb, ps) (vb_callback_stats_request vb, ps)
  | step_start vb ps q vb' ps' :
      q ∈ queued vb -> 0 <= q < Q_MAX ->
      start q (set_queued (queued vb ∖ {[q]}) vb) = Ok (vb', ps') -> vb_step (vb, ps) (vb', ps' ++ ps)
  | step_oom vb ps vb' ps' : oom_start vb = Ok (vb', ps') -> vb_step (vb, ps) (vb', ps' ++ ps)
  | step_finish vb ps1 p ps2 vb' :
      finish vb p = Ok vb' -> vb_step (vb, ps1 ++ p :: ps2) (vb', ps1 ++ ps2).
End steps.

(** ** Operations *)

(** The frames the host has from a balloon, by the messages it was sent. *)
Definition host_step (inf def : Z) (f : gset Z) (m : Z * list Z) : gset Z :=
  if m.1 =? inf then list_to_set m.2 ∪ f else if m.1 =? def then f ∖ list_to_set m.2 else f.
Definition host_frames (inf def : Z) (log : list (Z * list Z)) : gset Z := foldl (host_step inf def) ∅ log.

Lemma host_frames_snoc inf def log m :
  host_frames inf def (log ++ [m]) = host_step inf def (host_frames inf def log) m.
Proof. unfold host_frames. now rewrite foldl_app. Qed.

Definition frame (p : Z) : Prop := 0 <= p < 2 ^ 32.

Lemma u32_frame p : frame p -> u32 p = p.
Proof. intros. unfold u32. now apply wrap_small. Qed.

Lemma u32_frames l : Forall frame l -> u32 <$> l = l.
Proof. induction 1 as [|p l Hp _ IH]; [done|]. now rewrite fmap_cons, u32_frame, IH. Qed.

Section ops.
Context `{E : BalloonEnv} {L : BalloonLaws E}.

Lemma inflate_alloc_spec nid n vb idx acc :
  inner_nid idx = Ok nid ->
  exists new, inflate_alloc n vb idx acc = Ok (new ++ acc, set_free_pages (free_pages vb ∖ list_to_set new) vb) /\
    NoDup new /\ Forall (fun p => p ∈ free_pages vb) new /\ (length new <= n)%nat /\
    ((length new < n)%nat -> alloc_pages_node nid (free_pages vb ∖ list_to_set new) = None).
Proof.
  intros Hn. revert vb acc. induction n as [|n IH]; intros vb acc; cbn [inflate_alloc].
  { exists []. simpl. rewrite difference_empty_L. split_and!; try done; [now destruct vb|constructor|lia]. }
  unfold vb_inner_page_alloc. rewrite Hn. cbn [mbind res_bind].
  destruct (alloc_pages_node nid (free_pages vb)) as [p|] eqn:Ep; cbn [mbind res_bind].
  - pose proof (alloc_free _ _ _ Ep) as Hp.
    destruct (IH (set_free_pages (free_pages vb ∖ {[p]}) vb) (p :: acc)) as (new & Hrun & Hnd & Hf & Hlen & Hlast).
    cbn [free_pages set_free_pages] in *.
    assert (Hset : free_pages vb ∖ {[p]} ∖ list_to_set new = free_pages vb ∖ list_to_set (new ++ [p]))
      by (rewrite list_to_set_app_L; set_solver).
    exists (new ++ [p]). rewrite <- app_assoc, length_app. simpl. rewrite Hrun, <- Hset. split_and!.
    + now rewrite Hset.
    + apply NoDup_app. split_and!; [done| |apply NoDup_singleton]. intros x Hx Hxp. apply list_elem_of_singleton in Hxp as ->.
      rewrite Forall_forall in Hf. apply Hf in Hx. set_solver.
    + apply Forall_app. split; [|now repeat constructor]. eapply Forall_impl; [exact Hf|]. simpl. set_solver.
    + lia.
    + intros. apply Hlast. lia.
  - exists []. simpl. rewrite difference_empty_L. split_and!; try done; [now destruct vb|constructor|lia].
Qed.

Lemma track_pages_spec pages i done :
  0 <= done -> done + zlen pages <= zlen (pfns i) ->
  exists a, track_pages pages i done = Ok (Inner (i_len i) (reverse pages ++ tracking i) a, done + zlen pages) /\
    zlen a = zlen (pfns i) /\
    take (Z.to_nat (done + zlen pages)) a = take (Z.to_nat done) (pfns i) ++ (u32 <$> pages).
Proof.
  revert i done. induction pages as [|p pages IH]; intros i done Hd Hl; cbn [track_pages].
  - exists (pfns i). rewrite Z.add_0_r. simpl. rewrite app_nil_r. now destruct i.
  - rewrite zlen_cons in *. pose proof (zlen_nonneg pages).
    rewrite awrite_in_bounds by lia. cbn [mbind res_bind].
    destruct (IH (Inner (i_len i) (p :: tracking i) (<[Z.to_nat done:=u32 p]> (pfns i))) (done + 1)) as (a & Hrun & Ha & Ht);
      simpl in *; [lia|unfold zlen in *; rewrite length_insert; lia|].
    exists a. rewrite Hrun. split_and!.
    + do 2 f_equal; [|lia]. now rewrite reverse_cons, <- app_assoc.
    + rewrite Ha. unfold zlen. now rewrite length_insert.
    + replace (done + (1 + zlen pages)) with (done + 1 + zlen pages) by lia. rewrite Ht.
      replace (Z.to_nat (done + 1)) with (S (Z.to_nat done)) by lia.
      rewrite (take_S_r _ _ (u32 p)) by (apply list_lookup_insert_eq; unfold zlen in *; lia).
      rewrite take_insert_ge by lia. now rewrite <- app_assoc.
Qed.

(** Taking pages out of the list: the pages removed, or a fault. *)
Lemma untrack_pages_spec n i done pages :
  0 <= done ->
  match untrack_pages n i done pages with
  | Ok (i', done', pages') => exists rem, pages' = reverse rem ++ pages /\ tracking i ≡ₚ rem ++ tracking i' /\
      i_len i' = i_len i /\ done' = done + zlen rem /\ (length rem <= n)%nat /\ zlen (pfns i') = zlen (pfns i) /\
      take (Z.to_nat done') (pfns i') = take (Z.to_nat done) (pfns i) ++ (u32 <$> rem)
  | Fault f => f = OutOfBounds \/ f = BugOn
  end.
Proof.
  revert i done pages. induction n as [|n IH]; intros i done pages Hd; cbn [untrack_pages].
  { exists []. simpl. rewrite app_nil_r, Z.add_0_r. split_and!; done || lia. }
  unfold page_tracker_untrack. destruct (decide (tracking i = [])) as [|Hne]; [now right|].
  destruct (balloon_page_dequeue (tracking i)) as [k|] eqn:Ek; cbn [mbind res_bind].
  2:{ exists []. simpl. rewrite app_nil_r, Z.add_0_r. split_and!; done || lia. }
  destruct (lookup_lt_is_Some_2 (tracking i) k) as [p Hp]; [now apply dequeue_in|]. rewrite Hp. cbn [of_option mbind res_bind].
  unfold awrite. case_decide as Hin; cbn [mbind res_bind]; [|now left].
  specialize (IH (Inner (i_len i) (delete k (tracking i)) (<[Z.to_nat done:=u32 p]> (pfns i))) (done + 1) (p :: pages) ltac:(lia)).
  destruct (untrack_pages _ _ _ _) as [[[i' done'] pages']|f]; [|done].
  destruct IH as (rem & -> & Hperm & Hl & -> & Hn & Hz & Ht). cbn [i_len tracking pfns] in *.
  exists (p :: rem). split_and!; try done.
  - now rewrite reverse_cons, <- app_assoc.
  - rewrite (delete_Permutation _ _ _ Hp). simpl. now rewrite Hperm.
  - rewrite zlen_cons. lia.
  - simpl. lia.
  - rewrite Hz. unfold zlen. now rewrite length_insert.
  - rewrite Ht. replace (Z.to_nat (done + 1)) with (S (Z.to_nat done)) by lia.
    rewrite (take_S_r _ _ (u32 p)) by (apply list_lookup_insert_eq; unfold zlen in *; lia).
    rewrite take_insert_ge by lia. now rewrite <- app_assoc.
Qed.
End ops.

(** ** The invariant *)

Definition valid_idx (idx : Z) : Prop := idx = I_NORMAL \/ idx = I_HETERO.
Definition inflate_q (idx : Z) : Z := if idx =? I_NORMAL then Q_INFLATE else Q_HETERO_INFLATE.
Definition deflate_q (idx : Z) : Z := if idx =? I_NORMAL then Q_DEFLATE else Q_HETERO_DEFLATE.
Definition actual_of (c : vb_config) (idx : Z) : Z := if idx =? I_NORMAL then actual c else actual_hetero c.
Definition target_of (c : vb_config) (idx : Z) : Z := if idx =? I_NORMAL then num_pages c else num_hetero_pages c.
Definition set_actual (c : vb_config) (idx v : Z) : vb_config :=
  if idx =? I_NORMAL then Config (num_pages c) v (num_hetero_pages c) (actual_hetero c)
  else Config (num_pages c) (actual c) (num_hetero_pages c) v.

Definition tracked (vb : virtio_balloon) : list Z := concat (tracking <$> inners vb).
Definition held (ps : list pending) : list Z :=
  concat ((fun p => match p with PInflate _ _ _ pages => pages | PDeflate _ _ _ => [] end) <$> ps).

Section invariant.
Context `{E : BalloonEnv} {L : BalloonLaws E}.

Definition idx_node (idx : Z) : Z := if idx =? I_NORMAL then first_node else last_node.

(** A balloon: its size is the number of its pages, the host was told that size and
    has exactly those pages. *)
Record inner_ok (idx : Z) (c : vb_config) (log : list (Z * list Z)) (i : inner) : Prop := {
  ok_len : i_len i = zlen (tracking i);
  ok_pfns : zlen (pfns i) = VIRTIO_BALLOON_ARRAY_PFNS_MAX;
  ok_actual : actual_of c idx = i_len i;
  ok_host : host_frames (inflate_q idx) (deflate_q idx) log = list_to_set (tracking i) }.

Definition pending_ok (p : pending) : Prop :=
  match p with
  | PInflate idx q todo pages => valid_idx idx /\ zlen pages <= VIRTIO_BALLOON_ARRAY_PFNS_MAX
  | PDeflate idx n r => valid_idx idx
  end.

(** Every page is free, in a balloon or on its way into one, and only once. *)
Record vb_inv (all : gset Z) (vb : virtio_balloon) (ps : list pending) : Prop := {
  inv_two : length (inners vb) = 2%nat;
  inv_inner : forall idx i, valid_idx idx -> inners vb !! Z.to_nat idx = Some i -> inner_ok idx (config vb) (host vb) i;
  inv_nodup : NoDup (tracked vb ++ held ps);
  inv_free : forall p, p ∈ free_pages vb -> p ∉ tracked vb ++ held ps;
  inv_all : forall p, p ∈ all <-> p ∈ free_pages vb \/ p ∈ tracked vb ++ held ps;
  inv_under_way : Forall (fun q => q = Q_STATS) (under_way vb);
  inv_pending : Forall pending_ok ps }.

Lemma held_app ps1 ps2 : held (ps1 ++ ps2) = held ps1 ++ held ps2.
Proof. unfold held. now rewrite fmap_app, concat_app. Qed.

Lemma tracked_grow (l : list inner) k i j x :
  l !! k = Some i -> tracking j ≡ₚ x ++ tracking i ->
  concat (tracking <$> <[k := j]> l) ≡ₚ x ++ concat (tracking <$> l).
Proof.
  intros Hk Hj. revert k Hk. induction l as [|a l IH]; intros [|k]; simpl; try done.
  - intros [= ->]. rewrite Hj. now rewrite app_assoc.
  - intros Hk. rewrite (IH k Hk). solve_Permutation.
Qed.

Lemma tracked_shrink (l : list inner) k i j x :
  l !! k = Some i -> tracking i ≡ₚ x ++ tracking j ->
  concat (tracking <$> l) ≡ₚ x ++ concat (tracking <$> <[k := j]> l).
Proof.
  intros Hk Hi. rewrite <- (tracked_grow (<[k := j]> l) k j i x); [|apply list_lookup_insert_eq; eapply lookup_lt_Some, Hk|done].
  now rewrite list_insert_insert_eq, list_insert_id.
Qed.

Lemma tracked_at vb k i : inners vb !! k = Some i -> exists l1 l2, tracked vb = l1 ++ tracking i ++ l2.
Proof.
  intros Hi. exists (concat (tracking <$> take k (inners vb))), (concat (tracking <$> drop (S k) (inners vb))).
  unfold tracked. rewrite <- (take_drop_middle _ _ _ Hi) at 1. now rewrite fmap_app, concat_app.
Qed.

Lemma get_buf_none q l : q ∉ l -> get_buf q l = None.
Proof.
  induction l as [|x l IH]; simpl; [done|]. intros Hq. destruct (Z.eqb_spec x q); [set_solver|].
  rewrite IH; [done|set_solver].
Qed.

Lemma get_buf_last q l : q ∉ l -> get_buf q (l ++ [q]) = Some l.
Proof.
  induction l as [|x l IH]; simpl; [now rewrite Z.eqb_refl|]. intros Hq. destruct (Z.eqb_spec x q); [set_solver|].
  rewrite IH; [done|set_solver].
Qed.

(** The balloon after a message was sent and acknowledged. *)
Definition told (vb : virtio_balloon) (idx qidx done newlen : Z) (i : inner) : virtio_balloon :=
  Balloon (<[Z.to_nat idx := Inner newlen (tracking i) (pfns i)]> (inners vb)) (set_actual (config vb) idx newlen)
    (host vb ++ [(qidx, take (Z.to_nat done) (pfns i))]) (under_way vb) (free_pages vb) (queued vb) (work_func vb)
    (should_exit vb) (stats vb).

Lemma tell_host_spec vb idx qidx done newlen i :
  valid_idx idx -> length (inners vb) = 2%nat -> qidx ∉ under_way vb ->
  vb_tell_host vb idx qidx done newlen i =
    if IS_ERR_VALUE (virtqueue_add_outbuf qidx (host vb)) then Fault Deadlock else Ok (told vb idx qidx done newlen i).
Proof.
  intros Hidx Hl Hq. unfold vb_tell_host. assert (Hb : 0 <= idx < zlen (inners vb)).
  { unfold zlen. rewrite Hl. destruct Hidx as [->| ->]; unfold I_NORMAL, I_HETERO; lia. }
  rewrite awrite_in_bounds by done. cbn [mbind res_bind]. unfold vb_send_buf. cbn [host set_inners].
  destruct (IS_ERR_VALUE _); unfold wait_ack, vb_recv_buf; cbn [under_way set_under_way set_inners].
  - now rewrite get_buf_none.
  - rewrite get_buf_last by done. cbn [mbind res_bind].
    rewrite awrite_in_bounds by (cbn [inners set_under_way set_inners]; unfold zlen in *; rewrite length_insert; lia).
    cbn [mbind res_bind inners set_under_way set_inners]. rewrite list_insert_insert_eq.
    unfold vb_config_write_actual, told, set_actual. now destruct Hidx as [->| ->].
Qed.

Lemma actual_set c idx idx' v :
  valid_idx idx -> valid_idx idx' -> actual_of (set_actual c idx v) idx' = if decide (idx = idx') then v else actual_of c idx'.
Proof. intros [->| ->] [->| ->]; reflexivity. Qed.

Lemma length_pages all vb ps : vb_inv all vb ps -> Z.of_nat (length (tracked vb ++ held ps)) <= Z.of_nat (size all).
Proof.
  intros [_ _ Hnd _ Hall _ _]. rewrite <- (size_list_to_set (C := gset Z)) by done. apply inj_le, subseteq_size.
  intros p. rewrite elem_of_list_to_set, Hall. auto.
Qed.

(** Messages about one balloon do not concern the other. *)
Lemma host_frames_other idx idx' log q buf :
  valid_idx idx -> valid_idx idx' -> idx <> idx' -> q = inflate_q idx \/ q = deflate_q idx ->
  host_frames (inflate_q idx') (deflate_q idx') (log ++ [(q, buf)]) = host_frames (inflate_q idx') (deflate_q idx') log.
Proof.
  intros [->| ->] [->| ->] Hne Hq; try done; rewrite host_frames_snoc; unfold host_step; destruct Hq as [->| ->]; reflexivity.
Qed.

Lemma told_inner vb idx q done newlen i' :
  (forall idx i, valid_idx idx -> inners vb !! Z.to_nat idx = Some i -> inner_ok idx (config vb) (host vb) i) ->
  length (inners vb) = 2%nat -> valid_idx idx -> q = inflate_q idx \/ q = deflate_q idx ->
  zlen (pfns i') = VIRTIO_BALLOON_ARRAY_PFNS_MAX -> newlen = zlen (tracking i') ->
  host_step (inflate_q idx) (deflate_q idx) (host_frames (inflate_q idx) (deflate_q idx) (host vb))
    (q, take (Z.to_nat done) (pfns i')) = list_to_set (tracking i') ->
  forall idx' i, valid_idx idx' -> inners (told vb idx q done newlen i') !! Z.to_nat idx' = Some i ->
    inner_ok idx' (config (told vb idx q done newlen i')) (host (told vb idx q done newlen i')) i.
Proof.
  intros Hin Hl Hidx Hq Hp Hn Hh idx' i Hidx' Hi. cbn [told inners config host] in *.
  destruct (decide (idx = idx')) as [<-|Hne].
  - rewrite list_lookup_insert_eq in Hi by (rewrite Hl; destruct Hidx as [->| ->]; unfold I_NORMAL, I_HETERO; lia).
    injection Hi as <-. split; cbn [i_len tracking pfns]; try done.
    + rewrite actual_set by done. now rewrite decide_True.
    + now rewrite host_frames_snoc.
  - rewrite list_lookup_insert_ne in Hi by (destruct Hidx as [->| ->], Hidx' as [->| ->]; unfold I_NORMAL, I_HETERO in *; lia).
    destruct (Hin idx' i Hidx' Hi) as [H1 H2 H3 H4]. split; try done.
    + rewrite actual_set by done. now rewrite decide_False.
    + now rewrite (host_frames_other idx).
Qed.

Lemma inner_at all vb ps idx : vb_inv all vb ps -> valid_idx idx ->
  exists i, aread (inners vb) idx = Ok i /\ inners vb !! Z.to_nat idx = Some i /\ inner_ok idx (config vb) (host vb) i.
Proof.
  intros Hinv Hidx. assert (Hb : 0 <= idx < zlen (inners vb)).
  { unfold zlen. rewrite (inv_two _ _ _ Hinv). destruct Hidx as [->| ->]; unfold I_NORMAL, I_HETERO; lia. }
  destruct (aread_in_bounds _ _ Hb) as (i & Hr & Hi). exists i. split_and!; try done. now apply (inv_inner _ _ _ Hinv).
Qed.

Lemma not_under_way all vb ps q : vb_inv all vb ps -> q <> Q_STATS -> q ∉ under_way vb.
Proof. intros Hinv Hq Hin. pose proof (inv_under_way _ _ _ Hinv) as Hf. rewrite Forall_forall in Hf. auto. Qed.

(** The pages of an inflation enter the balloon. *)
Lemma inflate_locked_inv all vb ps1 ps2 idx q todo pages :
  (forall p, p ∈ all -> frame p) -> Z.of_nat (size all) < 2 ^ 32 ->
  vb_inv all vb (ps1 ++ PInflate idx q todo pages :: ps2) ->
  match inflate_locked vb idx pages with
  | Ok (done, vb') => done = zlen pages /\ vb_inv all vb' (ps1 ++ ps2) /\ queued vb' = queued vb /\ free_pages vb' = free_pages vb /\
      IS_ERR_VALUE (virtqueue_add_outbuf (inflate_q idx) (host vb)) = false /\
      exists i i', inners vb !! Z.to_nat idx = Some i /\ inners vb' !! Z.to_nat idx = Some i' /\
        i_len i' = i_len i + zlen pages /\ target_of (config vb') idx = target_of (config vb) idx
  | Fault f => f = Deadlock /\ IS_ERR_VALUE (virtqueue_add_outbuf (inflate_q idx) (host vb)) = true
  end.
Proof.
  intros Hfr Hsz Hinv. pose proof (length_pages _ _ _ Hinv) as Hlen.
  pose proof (inv_pending _ _ _ Hinv) as Hp. apply Forall_app in Hp as [Hp1 Hp2]. apply Forall_cons in Hp2 as [(Hidx & Hpl) Hp2].
  destruct (inner_at _ _ _ idx Hinv Hidx) as (i & Hr & Hi & [H1 H2 H3 H4]).
  destruct (track_pages_spec pages i 0) as (a & Htr & Ha & Htk); [lia|rewrite H2; lia|]. rewrite Z.add_0_l in *. simpl in Htk.
  assert (Hheld : held (ps1 ++ PInflate idx q todo pages :: ps2) ≡ₚ pages ++ held (ps1 ++ ps2)).
  { rewrite !held_app. unfold held at 2. simpl. fold (held ps2). solve_Permutation. }
  assert (Hfrp : Forall frame pages).
  { apply Forall_forall. intros p Hin. apply Hfr, (inv_all _ _ _ Hinv). right. rewrite Hheld. set_solver. }
  rewrite u32_frames in Htk by done.
  set (i' := Inner (i_len i) (reverse pages ++ tracking i) a).
  pose proof (tracked_grow _ _ _ (Inner (i_len i + zlen pages) (reverse pages ++ tracking i) a) pages Hi) as Hup.
  cbn [tracking] in Hup. rewrite reverse_Permutation in Hup at 1. specialize (Hup (Permutation_refl _)).
  assert (Htot : zlen (tracking i) + zlen pages <= Z.of_nat (length (tracked vb ++ held (ps1 ++ PInflate idx q todo pages :: ps2)))).
  { rewrite Hheld. destruct (tracked_at _ _ _ Hi) as (l1 & l2 & ->). rewrite !length_app. unfold zlen. lia. }
  unfold inflate_locked. rewrite Hr. cbn [mbind res_bind]. rewrite Htr. cbn [mbind res_bind]. fold i'. fold (inflate_q idx).
  assert (Hq : inflate_q idx <> Q_STATS) by (destruct Hidx as [->| ->]; discriminate).
  rewrite (u32_frame (i_len i' + zlen pages)) by (unfold frame; cbn [i_len i']; rewrite H1; unfold zlen in *; lia).
  rewrite tell_host_spec; [|done|apply Hinv|eapply not_under_way; eauto].
  destruct (IS_ERR_VALUE _) eqn:Eerr; cbn [mbind res_bind]; [done|].
  set (vb' := told vb idx (inflate_q idx) (zlen pages) (i_len i' + zlen pages) i').
  assert (Hperm : tracked vb' ++ held (ps1 ++ ps2) ≡ₚ tracked vb ++ held (ps1 ++ PInflate idx q todo pages :: ps2)).
  { rewrite Hheld. unfold vb', told. unfold tracked at 1. cbn [inners tracking pfns i' i_len]. rewrite Hup. unfold tracked. solve_Permutation. }
  split; [done|]. split.
  - split.
    + unfold vb'. cbn [told inners]. rewrite length_insert. apply Hinv.
    + apply told_inner; [apply Hinv|apply Hinv|done|now left| | |].
      * cbn [pfns i']. lia.
      * cbn [i_len tracking i']. rewrite H1, zlen_app. unfold zlen. rewrite length_reverse. lia.
      * cbn [pfns i' tracking]. rewrite Htk. unfold host_step. cbn [fst snd]. rewrite Z.eqb_refl, H4, list_to_set_app_L.
        f_equal. apply set_eq. intros x. rewrite !elem_of_list_to_set. symmetry. apply elem_of_reverse.
    + rewrite Hperm. apply Hinv.
    + intros p Hpf. rewrite Hperm. now apply (inv_free _ _ _ Hinv).
    + intros p. rewrite Hperm. apply Hinv.
    + apply Hinv.
    + now apply Forall_app.
  - split_and!; try done. exists i, (Inner (i_len i + zlen pages) (reverse pages ++ tracking i) a). split_and!; try done.
    + unfold vb'. cbn [told inners]. rewrite list_lookup_insert_eq; [done|]. rewrite (inv_two _ _ _ Hinv).
      destruct Hidx as [->| ->]; unfold I_NORMAL, I_HETERO; lia.
    + unfold vb', target_of, set_actual. cbn [told config]. unfold set_actual. now destruct (idx =? I_NORMAL).
Qed.

(** The pages of a deflation leave the balloon and are free again. *)
Lemma deflate_locked_inv all vb ps1 ps2 idx n r :
  (forall p, p ∈ all -> frame p) -> Z.of_nat (size all) < 2 ^ 32 ->
  vb_inv all vb (ps1 ++ PDeflate idx n r :: ps2) ->
  match deflate_locked vb idx n with
  | Ok (done, vb') => 0 <= done <= Z.max 0 n /\ vb_inv all vb' (ps1 ++ ps2) /\ queued vb' = queued vb /\
      IS_ERR_VALUE (virtqueue_add_outbuf (deflate_q idx) (host vb)) = false /\
      exists i i', inners vb !! Z.to_nat idx = Some i /\ inners vb' !! Z.to_nat idx = Some i' /\
        i_len i' = i_len i - done /\ target_of (config vb') idx = target_of (config vb) idx
  | Fault f => f = Deadlock /\ IS_ERR_VALUE (virtqueue_add_outbuf (deflate_q idx) (host vb)) = true \/ f = OutOfBounds \/ f = BugOn
  end.
Proof.
  intros Hfr Hsz Hinv. pose proof (length_pages _ _ _ Hinv) as Hlen.
  pose proof (inv_pending _ _ _ Hinv) as Hp. apply Forall_app in Hp as [Hp1 Hp2]. apply Forall_cons in Hp2 as [Hidx Hp2].
  destruct (inner_at _ _ _ idx Hinv Hidx) as (i & Hr & Hi & [H1 H2 H3 H4]).
  assert (Hheld : held (ps1 ++ PDeflate idx n r :: ps2) = held (ps1 ++ ps2)) by now rewrite !held_app.
  unfold deflate_locked. rewrite Hr. cbn [mbind res_bind].
  pose proof (untrack_pages_spec (Z.to_nat n) i 0 [] ltac:(lia)) as Hun.
  destruct (untrack_pages _ _ _ _) as [[[i' done] pages]|f]; cbn [mbind res_bind]; [|tauto].
  destruct Hun as (rem & -> & Hperm & Hl & -> & Hn & Hz & Htk). rewrite Z.add_0_l, app_nil_r in *. simpl in Htk.
  destruct (tracked_at _ _ _ Hi) as (l1 & l2 & Htr).
  assert (Hin : forall p, p ∈ rem -> p ∈ tracked vb).
  { intros p Hpr. rewrite Htr, !elem_of_app. right. left. rewrite Hperm. set_solver. }
  rewrite u32_frames in Htk by (apply Forall_forall; intros p Hpr; apply Hfr, (inv_all _ _ _ Hinv); set_solver).
  assert (Hlr : zlen (tracking i) = zlen rem + zlen (tracking i')) by (unfold zlen; rewrite Hperm, length_app; lia).
  assert (Hub : zlen (tracking i) <= Z.of_nat (length (tracked vb ++ held (ps1 ++ PDeflate idx n r :: ps2))))
    by (rewrite Htr, !length_app; unfold zlen; lia).
  pose proof (tracked_shrink _ _ _ (Inner (i_len i' - zlen rem) (tracking i') (pfns i')) rem Hi Hperm) as Hup.
  fold (tracked vb) in Hup. fold (deflate_q idx).
  assert (Hq : deflate_q idx <> Q_STATS) by (destruct Hidx as [->| ->]; discriminate).
  rewrite (u32_frame (i_len i' - zlen rem)) by (unfold frame; rewrite Hl, H1; unfold zlen in *; lia).
  rewrite tell_host_spec; [|done|apply Hinv|eapply not_under_way; eauto].
  destruct (IS_ERR_VALUE _) eqn:Eerr; cbn [mbind res_bind]; [now left|].
  set (vb' := told vb idx (deflate_q idx) (zlen rem) (i_len i' - zlen rem) i').
  change (concat (tracking <$> _)) with (tracked vb') in Hup.
  pose proof (inv_nodup _ _ _ Hinv) as Hnd. rewrite Hheld, Hup, <- app_assoc in Hnd. apply NoDup_app in Hnd as (_ & Hdis & Hnd).
  split; [unfold zlen; lia|]. split.
  - split; cbn [set_free_pages inners config host free_pages under_way].
    + unfold vb'. cbn [told inners]. rewrite length_insert. apply Hinv.
    + apply told_inner; [apply Hinv|apply Hinv|done|now right|lia|lia|].
      * rewrite Htk, H4. unfold host_step. cbn [fst snd].
        assert (deflate_q idx =? inflate_q idx = false) as -> by (now destruct Hidx as [->| ->]).
        rewrite Z.eqb_refl. apply set_eq. intros p. rewrite elem_of_difference, !elem_of_list_to_set, Hperm, elem_of_app.
        split; [tauto|]. intros Hpi. split; [auto|]. intros Hpr. apply (Hdis p Hpr). apply elem_of_app. left.
        unfold tracked, vb'. cbn [told inners]. destruct (tracked_at vb' (Z.to_nat idx) (Inner (i_len i' - zlen rem) (tracking i') (pfns i')))
          as (m1 & m2 & Hm); [apply list_lookup_insert_eq; rewrite (inv_two _ _ _ Hinv); destruct Hidx as [->| ->]; unfold I_NORMAL, I_HETERO; lia|].
        unfold tracked, vb' in Hm. cbn [told inners tracking] in Hm. rewrite Hm. set_solver.
    + exact Hnd.
    + intros p Hpf Hpt. apply elem_of_union in Hpf as [Hpf|Hpf].
      * rewrite elem_of_list_to_set, elem_of_reverse in Hpf. exact (Hdis p Hpf Hpt).
      * apply (inv_free _ _ _ Hinv p Hpf). rewrite Hheld, Hup, <- app_assoc. set_solver.
    + intros p. rewrite (inv_all _ _ _ Hinv p), Hheld, Hup, elem_of_union, elem_of_list_to_set, elem_of_reverse, !elem_of_app.
      cbn [vb' told free_pages]. change (tracked (set_free_pages _ vb')) with (tracked vb'). tauto.
    + apply Hinv.
    + now apply Forall_app.
  - split_and!; try done. exists i, (Inner (i_len i' - zlen rem) (tracking i') (pfns i')). split_and!; try done.
    + cbn [set_free_pages inners vb' told]. rewrite list_lookup_insert_eq; [done|]. rewrite (inv_two _ _ _ Hinv).
      destruct Hidx as [->| ->]; unfold I_NORMAL, I_HETERO; lia.
    + cbn [i_len]. lia.
    + unfold vb', target_of, set_actual. cbn [told config set_free_pages]. unfold set_actual. now destruct (idx =? I_NORMAL).
Qed.

(** Only the queued work items differ. *)
Definition same_but_queued (vb vb' : virtio_balloon) : Prop := exists q, vb' = set_queued q vb.

Lemma same_but_queued_trans a b c : same_but_queued a b -> same_but_queued b c -> same_but_queued a c.
Proof. intros [q ->] [q' ->]. now exists q'. Qed.

Lemma fold_queued (f : virtio_balloon -> Z -> virtio_balloon) l vb :
  (forall vb q, same_but_queued vb (f vb q)) -> same_but_queued vb (foldl f vb l).
Proof.
  intros Hf. revert vb. induction l as [|q l IH]; intros vb; simpl; [exists (queued vb); now destruct vb|].
  eapply same_but_queued_trans; [apply Hf|apply IH].
Qed.

Lemma work_queue_queued vb : same_but_queued vb (vb_work_queue vb).
Proof.
  unfold vb_work_queue. destruct (should_exit vb); [exists (queued vb); now destruct vb|]. apply fold_queued.
  intros vb' q. destruct (_ && _); eexists; [reflexivity|]. instantiate (1 := queued vb'). now destruct vb'.
Qed.

Lemma vb_inv_same all vb vb' ps :
  vb_inv all vb ps -> inners vb' = inners vb -> free_pages vb' = free_pages vb ->
  (forall idx, valid_idx idx -> actual_of (config vb') idx = actual_of (config vb) idx /\
     host_frames (inflate_q idx) (deflate_q idx) (host vb') = host_frames (inflate_q idx) (deflate_q idx) (host vb)) ->
  Forall (fun q => q = Q_STATS) (under_way vb') -> vb_inv all vb' ps.
Proof.
  intros [H1 H2 H3 H4 H5 H6 H7] Hi Hf Hc Hu. unfold tracked in *. split; unfold tracked; rewrite ?Hi, ?Hf; try done.
  intros idx i Hidx Hl. destruct (Hc idx Hidx) as [Ha Hh]. destruct (H2 idx i Hidx Hl). split; congruence.
Qed.

Lemma vb_inv_queued all vb vb' ps : vb_inv all vb ps -> same_but_queued vb vb' -> vb_inv all vb' ps.
Proof. intros Hinv [q ->]. eapply vb_inv_same; try done. apply Hinv. Qed.

Lemma stats_frames idx log buf : valid_idx idx ->
  host_frames (inflate_q idx) (deflate_q idx) (log ++ [(Q_STATS, buf)]) = host_frames (inflate_q idx) (deflate_q idx) log.
Proof. intros [->| ->]; now rewrite host_frames_snoc. Qed.

Lemma get_buf_sub q l l' : get_buf q l = Some l' -> Forall (fun x => x = Q_STATS) l -> Forall (fun x => x = Q_STATS) l'.
Proof.
  revert l'. induction l as [|x l IH]; simpl; intros l' H Hf; [done|]. apply Forall_cons in Hf as [Hx Hf].
  destruct (x =? q); [now injection H as <-|]. destruct (get_buf q l) as [m|]; [|done]. injection H as <-. auto.
Qed.

Lemma vb_stats_inv all vb ps : vb_inv all vb ps -> vb_inv all (vb_stats vb) ps.
Proof.
  intros Hinv. unfold vb_stats, vb_send_buf. destruct (IS_ERR_VALUE _); cbn [snd].
  - eapply vb_inv_same; try done. apply Hinv.
  - eapply vb_inv_same; try done; cbn [set_under_way set_stats host under_way config].
    + intros idx Hidx. split; [done|]. now apply stats_frames.
    + apply Forall_app. split; [apply Hinv|now constructor].
Qed.

Lemma recv_stats_inv all vb ps q : vb_inv all vb ps -> vb_inv all (vb_recv_buf vb q).2 ps.
Proof.
  intros Hinv. unfold vb_recv_buf. destruct (get_buf q (under_way vb)) as [l|] eqn:El; [|done]. cbn [snd].
  eapply vb_inv_same; try done. eapply get_buf_sub; [exact El|apply Hinv].
Qed.

Lemma inner_nid_node idx : valid_idx idx -> inner_nid idx = Ok (idx_node idx).
Proof. now intros [->| ->]. Qed.

Lemma inflate_start_inv all vb ps idx q vb' ps' :
  vb_inv all vb ps -> valid_idx idx -> inflate_start vb idx q = Ok (vb', ps') -> vb_inv all vb' (ps' ++ ps).
Proof.
  intros Hinv Hidx. unfold inflate_start. destruct (vb_inner_diff_from_target vb idx) as [todo|]; cbn [mbind res_bind]; [|done].
  destruct (todo <=? 0); [now intros [= <- <-]|].
  destruct (inflate_alloc_spec (idx_node idx) (Z.to_nat (Z.min (u32 todo) VIRTIO_BALLOON_ARRAY_PFNS_MAX)) vb idx [] (inner_nid_node _ Hidx))
    as (new & -> & Hnd & Hf & Hlen & _). cbn [mbind res_bind]. rewrite app_nil_r. intros [= <- <-].
  assert (Hheld : tracked vb ++ held ([PInflate idx q todo new] ++ ps) ≡ₚ new ++ tracked vb ++ held ps).
  { unfold held. simpl. solve_Permutation. }
  assert (Hfree : forall p, p ∈ new -> p ∈ free_pages vb) by (rewrite Forall_forall in Hf; intros p Hp; now apply Hf).
  destruct Hinv as [H1 H2 H3 H4 H5 H6 H7]. split; try done; cbn [set_free_pages inners free_pages]; change (tracked (set_free_pages _ vb)) with (tracked vb).
  - rewrite Hheld. apply NoDup_app. split_and!; try done. intros p Hp. apply H4. auto.
  - intros p. rewrite Hheld, elem_of_difference, elem_of_list_to_set. intros [Hp Hn] [Hin|Hin]%elem_of_app; [done|]. now apply (H4 p).
  - intros p. rewrite Hheld, H5, elem_of_difference, elem_of_list_to_set, (elem_of_app new). destruct (decide (p ∈ new)); naive_solver.
  - constructor; [|done]. split; [done|]. unfold zlen, VIRTIO_BALLOON_ARRAY_PFNS_MAX in *. lia.
Qed.

Lemma deflate_pending_inv all vb ps idx n r :
  vb_inv all vb ps -> valid_idx idx -> vb_inv all vb ([PDeflate idx n r] ++ ps).
Proof. intros [H1 H2 H3 H4 H5 H6 H7] Hidx. split; try done. now constructor. Qed.

Lemma vb_step_inv all st st' :
  (forall p, p ∈ all -> frame p) -> Z.of_nat (size all) < 2 ^ 32 ->
  vb_step st st' -> vb_inv all st.1 st.2 -> vb_inv all st'.1 st'.2.
Proof.
  intros Hfr Hsz Hstep Hinv. destruct Hstep as [vb ps np nh _ _|vb ps|vb ps q vb' ps' _ Hq Hs|vb ps vb' ps' Hs|vb ps1 p ps2 vb' Hfin];
    cbn [fst snd] in *.
  - eapply vb_inv_queued; [|apply work_queue_queued]. eapply vb_inv_same; try done. apply Hinv.
  - unfold vb_callback_stats_request. destruct (should_exit vb); [done|]. eapply vb_inv_queued; [exact Hinv|]. now eexists.
  - assert (Hinv' : vb_inv all (set_queued (queued vb ∖ {[q]}) vb) ps) by (eapply vb_inv_queued; [exact Hinv|]; now eexists).
    revert Hs. unfold start. generalize dependent (set_queued (queued vb ∖ {[q]}) vb). clear vb Hinv. intros vb Hinv.
    assert (Hd : forall idx q0, valid_idx idx -> deflate_start vb idx q0 = Ok (vb', ps') -> vb_inv all vb' (ps' ++ ps)).
    { intros idx q0 Hidx. unfold deflate_start. destruct (vb_inner_diff_from_target vb idx) as [d|]; cbn [mbind res_bind]; [|done].
      destruct (- d <=? 0); [now intros [= <- <-]|]. destruct (deflate_todo _ _ _); cbn [mbind res_bind]; [|done].
      intros [= <- <-]. now apply deflate_pending_inv. }
    destruct (Z.eqb_spec q Q_INFLATE); [intros Hs; eapply inflate_start_inv; [exact Hinv| |exact Hs]; now left|].
    destruct (Z.eqb_spec q Q_DEFLATE); [apply Hd; now left|].
    destruct (Z.eqb_spec q Q_HETERO_INFLATE); [intros Hs; eapply inflate_start_inv; [exact Hinv| |exact Hs]; now right|].
    destruct (Z.eqb_spec q Q_HETERO_DEFLATE); [apply Hd; now right|].
    assert (Hq' : q = Q_STATS \/ q = Q_REPORTING) by (unfold Q_INFLATE, Q_DEFLATE, Q_STATS, Q_REPORTING, Q_HETERO_INFLATE, Q_HETERO_DEFLATE, Q_MAX in *; lia).
    destruct Hq' as [->| ->]; intros [= <- <-]; [|done].
    now apply vb_stats_inv, recv_stats_inv.
  - unfold oom_start in Hs. destruct (deflate_todo _ _ _); cbn [mbind res_bind] in Hs; [|done]. injection Hs as <- <-.
    apply deflate_pending_inv; [done|]. destruct (vb_acked F_HETERO); [now right|now left].
  - destruct p as [idx q todo pages|idx n r]; cbn [finish] in Hfin.
    + pose proof (inflate_locked_inv all vb ps1 ps2 idx q todo pages Hfr Hsz Hinv) as H.
      destruct (inflate_locked vb idx pages) as [[nd vb1]|]; cbn [mbind res_bind] in Hfin; [|done]. destruct H as (_ & H & _).
      injection Hfin as <-. destruct (nd <? todo); [|done]. eapply vb_inv_queued; [exact H|now eexists].
    + pose proof (deflate_locked_inv all vb ps1 ps2 idx n r Hfr Hsz Hinv) as H.
      destruct (deflate_locked vb idx n) as [[nd vb1]|]; cbn [mbind res_bind] in Hfin; [|done]. destruct H as (_ & H & _).
      injection Hfin as <-. destruct r as [[q todo]|]; [|done]. destruct (nd <? todo); [|done].
      eapply vb_inv_queued; [exact H|now eexists].
Qed.
End invariant.

(** ** Following the targets *)

(** The kernel hands out some page of a list that is not empty, and the queues accept
    every buffer. *)
Class BalloonCalm (E : BalloonEnv) : Prop := {
  dequeue_complete l : l <> [] -> is_Some (balloon_page_dequeue l);
  send_accepted q log : IS_ERR_VALUE (virtqueue_add_outbuf q log) = false }.

Section targets.
Context `{E : BalloonEnv} {L : BalloonLaws E} {K : BalloonCalm E}.

(** The allocator finds a page as long as more than [reserve] are free. *)
Definition alloc_above (reserve : Z) : Prop :=
  forall nid f, reserve < Z.of_nat (size f) -> is_Some (alloc_pages_node nid f).

(** The free pages above the reserve. *)
Definition spare (reserve : Z) (vb : virtio_balloon) : Z := Z.of_nat (size (free_pages vb)) - reserve.

(** The size of a balloon. *)
Definition size_of (vb : virtio_balloon) (idx : Z) : Z := default 0 (i_len <$> inners vb !! Z.to_nat idx).

Lemma size_of_at vb idx i : inners vb !! Z.to_nat idx = Some i -> size_of vb idx = i_len i.
Proof. intros Hi. unfold size_of. now rewrite Hi. Qed.

Lemma read_target vb idx : valid_idx idx -> vb_config_read_target vb idx = Ok (target_of (config vb) idx).
Proof. now intros [->| ->]. Qed.

Lemma diff_spec all vb ps idx :
  vb_inv all vb ps -> valid_idx idx ->
  vb_inner_diff_from_target vb idx = Ok (target_of (config vb) idx - size_of vb idx) /\ 0 <= size_of vb idx.
Proof.
  intros Hinv Hidx. destruct (inner_at _ _ _ _ Hinv Hidx) as (i & Hr & Hi & Hok). unfold vb_inner_diff_from_target.
  assert (Hb : BUG_ON_idx idx = Ok tt) by now destruct Hidx as [->| ->].
  rewrite Hb, Hr, read_target, (size_of_at _ _ _ Hi) by done. split; [done|]. rewrite (ok_len _ _ _ _ Hok). apply zlen_nonneg.
Qed.

(** Pages found by an inflation with enough free pages. *)
Lemma inflate_alloc_full reserve n vb idx :
  alloc_above reserve -> valid_idx idx -> Z.of_nat n <= spare reserve vb ->
  exists new, inflate_alloc n vb idx [] = Ok (new, set_free_pages (free_pages vb ∖ list_to_set new) vb) /\
    length new = n /\
    spare reserve (set_free_pages (free_pages vb ∖ list_to_set new) vb) = spare reserve vb - Z.of_nat n.
Proof.
  intros Hal Hidx Hf.
  destruct (inflate_alloc_spec _ n vb idx [] (inner_nid_node _ Hidx)) as (new & Hrun & Hnd & Hin & Hlen & Hlast).
  rewrite app_nil_r in Hrun. unfold spare in *. cbn [set_free_pages free_pages].
  assert (Hsub : list_to_set new ⊆ free_pages vb).
  { intros p. rewrite elem_of_list_to_set. rewrite Forall_forall in Hin. apply Hin. }
  pose proof (subseteq_size _ _ Hsub) as Hle. rewrite size_list_to_set in Hle by done.
  assert (Hsz : size (free_pages vb ∖ list_to_set new) = (size (free_pages vb) - length new)%nat).
  { rewrite size_difference by done. now rewrite size_list_to_set. }
  assert (Hfull : length new = n).
  { destruct (Nat.lt_ge_cases (length new) n) as [Hlt|]; [|lia]. specialize (Hlast Hlt).
    destruct (Hal (idx_node idx) (free_pages vb ∖ list_to_set new)) as [x Hx]; [lia|congruence]. }
  exists new. rewrite Hsz. split_and!; try done. lia.
Qed.

Lemma u32_small x : 0 <= x < 2 ^ 32 -> u32 x = x.
Proof. intros. unfold u32. now apply wrap_small. Qed.

(** One run of the work item of an inflation. *)
Lemma inflate_round reserve all vb idx q :
  alloc_above reserve ->
  (forall p, p ∈ all -> frame p) -> Z.of_nat (size all) < 2 ^ 32 -> vb_inv all vb [] -> valid_idx idx ->
  target_of (config vb) idx < 2 ^ 32 -> size_of vb idx < target_of (config vb) idx ->
  target_of (config vb) idx - size_of vb idx <= spare reserve vb ->
  let n := Z.min (target_of (config vb) idx - size_of vb idx) VIRTIO_BALLOON_ARRAY_PFNS_MAX in
  exists vb', vb_work_inflate vb idx q = Ok vb' /\ vb_inv all vb' [] /\ target_of (config vb') idx = target_of (config vb) idx /\
    size_of vb' idx = size_of vb idx + n /\
    spare reserve vb' = spare reserve vb - n /\
    queued vb' = (if n <? target_of (config vb) idx - size_of vb idx then {[q]} ∪ queued vb else queued vb).
Proof.
  intros Hal Hfr Hsz Hinv Hidx Htg Hlt Hfree n. destruct (diff_spec _ _ _ _ Hinv Hidx) as [Hdiff Hs0].
  set (todo := target_of (config vb) idx - size_of vb idx) in *.
  destruct (inflate_alloc_full reserve (Z.to_nat n) vb idx Hal Hidx) as (new & Hnew & Hlen & Hfree').
  { unfold n, VIRTIO_BALLOON_ARRAY_PFNS_MAX. lia. }
  set (vb1 := set_free_pages (free_pages vb ∖ list_to_set new) vb) in *.
  assert (Hstart : inflate_start vb idx q = Ok (vb1, [PInflate idx q todo new])).
  { unfold inflate_start. rewrite Hdiff. cbn [mbind res_bind]. fold todo. destruct (Z.leb_spec todo 0); [lia|].
    rewrite u32_small by lia. fold n. now rewrite Hnew. }
  pose proof (inflate_start_inv _ _ _ _ _ _ _ Hinv Hidx Hstart) as Hinv1.
  rewrite work_inflate_phases by done. unfold in_one_go. rewrite Hstart. cbn [mbind res_bind finish].
  pose proof (inflate_locked_inv all vb1 [] [] idx q todo new Hfr Hsz Hinv1) as Hlk.
  destruct (inflate_locked vb1 idx new) as [[d vb2]|f]; cbn [mbind res_bind].
  2:{ destruct Hlk as [_ Herr]. now rewrite send_accepted in Herr. }
  destruct Hlk as (-> & Hinv2 & Hq & Hf2 & _ & i & i' & Hi & Hi' & Hl & Ht).
  assert (Hzn : zlen new = n) by (unfold zlen, n, VIRTIO_BALLOON_ARRAY_PFNS_MAX in *; lia). rewrite Hzn in *.
  assert (Hsize : size_of vb2 idx = size_of vb idx + n) by (rewrite (size_of_at _ _ _ Hi'), (size_of_at vb _ _ Hi); exact Hl).
  assert (Hcnt : spare reserve vb2 = spare reserve vb - n)
    by (unfold spare in *; rewrite Hf2; unfold n, VIRTIO_BALLOON_ARRAY_PFNS_MAX in *; lia).
  destruct (n <? todo) eqn:En; eexists; (split; [reflexivity|]); split_and!; try done;
    cbn [queue_work set_queued queued config inners]; try (now rewrite Hq);
    try exact Hcnt.
  eapply vb_inv_queued; [exact Hinv2|now eexists].
Qed.

(** The work items of a queue, run while there are any. *)
Fixpoint drain (n : nat) (q : Z) (vb : virtio_balloon) : res virtio_balloon :=
  match n with
  | O => Ok vb
  | S n => if decide (q ∈ queued vb)
           then vb ← vb_work_fn q (set_queued (queued vb ∖ {[q]}) vb); drain n q vb
           else Ok vb
  end.

Lemma drain_idle n q vb : q ∉ queued vb -> drain n q vb = Ok vb.
Proof. intros Hq. destruct n; cbn [drain]; [done|]. now rewrite decide_False. Qed.

Lemma inflate_fn vb idx : valid_idx idx -> vb_work_fn (inflate_q idx) vb = vb_work_inflate vb idx (inflate_q idx).
Proof. now intros [->| ->]. Qed.

Lemma drain_inflate reserve n all vb idx :
  alloc_above reserve ->
  (forall p, p ∈ all -> frame p) -> Z.of_nat (size all) < 2 ^ 32 -> vb_inv all vb [] -> valid_idx idx ->
  target_of (config vb) idx < 2 ^ 32 -> size_of vb idx <= target_of (config vb) idx ->
  target_of (config vb) idx - size_of vb idx <= spare reserve vb ->
  (inflate_q idx ∉ queued vb -> size_of vb idx = target_of (config vb) idx) ->
  target_of (config vb) idx - size_of vb idx <= VIRTIO_BALLOON_ARRAY_PFNS_MAX * Z.of_nat n ->
  (inflate_q idx ∈ queued vb -> (0 < n)%nat) ->
  exists vb', drain n (inflate_q idx) vb = Ok vb' /\ vb_inv all vb' [] /\
    size_of vb' idx = target_of (config vb) idx /\ inflate_q idx ∉ queued vb' /\
    target_of (config vb') idx = target_of (config vb) idx.
Proof.
  intros Hal Hfr Hsz. revert vb. induction n as [|n IH]; intros vb Hinv Hidx Ht Hle Hfree Hq Hn Hn0; cbn [drain].
  { exists vb. split_and!; [done|done|lia| |done]. intros Hin. specialize (Hn0 Hin). lia. }
  destruct (decide (inflate_q idx ∈ queued vb)) as [Hin|Hout]; [|exists vb; split_and!; auto].
  rewrite inflate_fn by done. set (vb0 := set_queued (queued vb ∖ {[inflate_q idx]}) vb).
  assert (Hinv0 : vb_inv all vb0 []) by (eapply vb_inv_queued; [exact Hinv|now eexists]).
  destruct (Z.le_gt_cases (target_of (config vb) idx) (size_of vb idx)) as [Hdone|Hmore].
  - unfold vb_work_inflate. destruct (diff_spec _ _ _ _ Hinv0 Hidx) as [-> _]. cbn [mbind res_bind].
    change (config vb0) with (config vb). change (size_of vb0 idx) with (size_of vb idx).
    destruct (Z.leb_spec (target_of (config vb) idx - size_of vb idx) 0); [|lia]. cbn [mbind res_bind].
    assert (Hout : inflate_q idx ∉ queued vb0) by (cbn [vb0 set_queued queued]; set_solver).
    exists vb0. rewrite drain_idle by done. split_and!; try done. change (size_of vb0 idx) with (size_of vb idx). lia.
  - destruct (inflate_round reserve all vb0 idx (inflate_q idx) Hal Hfr Hsz Hinv0 Hidx) as (vb1 & Hrun & Hinv1 & Ht1 & Hs1 & Hf1 & Hq1);
      [exact Ht|exact Hmore|exact Hfree|]. rewrite Hrun. cbn [mbind res_bind].
    change (target_of (config vb0) idx) with (target_of (config vb) idx) in *. change (size_of vb0 idx) with (size_of vb idx) in *.
    change (spare reserve vb0) with (spare reserve vb) in *.
    unfold VIRTIO_BALLOON_ARRAY_PFNS_MAX in *. rewrite <- Ht1. apply IH; try done; try lia;
      intros Hnq; rewrite Hq1 in Hnq; destruct (Z.ltb_spec (Z.min (target_of (config vb) idx - size_of vb idx) 256)
      (target_of (config vb) idx - size_of vb idx)); try lia; set_solver.
Qed.

(** Taking out as many pages as there is room for in the message. *)
Lemma untrack_enough n i done pages :
  0 <= done -> done + Z.of_nat n <= zlen (pfns i) -> Z.of_nat n <= zlen (tracking i) ->
  exists i' pages', untrack_pages n i done pages = Ok (i', done + Z.of_nat n, pages').
Proof.
  revert i done pages. induction n as [|n IH]; intros i done pages Hd Hr Ht; cbn [untrack_pages].
  { exists i, pages. now rewrite Z.add_0_r. }
  unfold page_tracker_untrack. destruct (decide (tracking i = [])) as [E0|Hne]; [rewrite E0 in Ht; unfold zlen in Ht; simpl in Ht; lia|].
  destruct (dequeue_complete _ Hne) as [k Hk]. rewrite Hk. destruct (lookup_lt_is_Some_2 (tracking i) k) as [p Hp]; [now apply dequeue_in|].
  rewrite Hp. cbn [of_option mbind res_bind]. rewrite awrite_in_bounds by lia. cbn [mbind res_bind].
  replace (done + Z.of_nat (S n)) with (done + 1 + Z.of_nat n) by lia. apply IH; cbn [pfns tracking]; [lia| |];
    unfold zlen in *; rewrite ?length_insert; [lia|]. rewrite length_delete by eauto. lia.
Qed.

(** Taking out more pages than that writes past the end of the message. *)
Lemma untrack_overflow n i done pages :
  0 <= done <= zlen (pfns i) -> zlen (pfns i) < done + Z.of_nat n -> Z.of_nat n <= zlen (tracking i) ->
  untrack_pages n i done pages = Fault OutOfBounds.
Proof.
  revert i done pages. induction n as [|n IH]; intros i done pages Hd Hr Ht; cbn [untrack_pages]; [lia|].
  unfold page_tracker_untrack. destruct (decide (tracking i = [])) as [E0|Hne]; [rewrite E0 in Ht; unfold zlen in Ht; simpl in Ht; lia|].
  destruct (dequeue_complete _ Hne) as [k Hk]. rewrite Hk. destruct (lookup_lt_is_Some_2 (tracking i) k) as [p Hp]; [now apply dequeue_in|].
  rewrite Hp. cbn [of_option mbind res_bind]. unfold awrite. case_decide as Hin; [|done]. cbn [mbind res_bind].
  apply IH; cbn [pfns tracking]; unfold zlen in *; rewrite ?length_insert; [lia|lia|]. rewrite length_delete by eauto. lia.
Qed.

(** Taking pages out of an empty balloon is a kernel bug. *)
Lemma untrack_empty n i done pages : (0 < n)%nat -> tracking i = [] -> untrack_pages n i done pages = Fault BugOn.
Proof. intros Hn Ht. destruct n; [lia|]. cbn [untrack_pages]. unfold page_tracker_untrack. now rewrite decide_True. Qed.

Lemma deflate_exact all vb ps1 ps2 idx n r :
  (forall p, p ∈ all -> frame p) -> Z.of_nat (size all) < 2 ^ 32 ->
  vb_inv all vb (ps1 ++ PDeflate idx n r :: ps2) -> 0 <= n <= size_of vb idx -> n <= VIRTIO_BALLOON_ARRAY_PFNS_MAX ->
  exists vb', deflate_locked vb idx n = Ok (n, vb') /\ vb_inv all vb' (ps1 ++ ps2) /\ queued vb' = queued vb /\
    size_of vb' idx = size_of vb idx - n /\ target_of (config vb') idx = target_of (config vb) idx.
Proof.
  intros Hfr Hsz Hinv Hn Hmax. pose proof (inv_pending _ _ _ Hinv) as Hp. apply Forall_app in Hp as [_ Hp].
  apply Forall_cons in Hp as [Hidx _]. destruct (inner_at _ _ _ idx Hinv Hidx) as (i & Hr & Hi & Hok).
  rewrite (size_of_at _ _ _ Hi) in *. pose proof (deflate_locked_inv all vb ps1 ps2 idx n r Hfr Hsz Hinv) as H.
  destruct (untrack_enough (Z.to_nat n) i 0 []) as (i' & pages' & Hun);
    [lia|rewrite (ok_pfns _ _ _ _ Hok); lia|rewrite <- (ok_len _ _ _ _ Hok); lia|].
  assert (Hrun : exists vb', deflate_locked vb idx n = Ok (n, vb')).
  { unfold deflate_locked. rewrite Hr. cbn [mbind res_bind]. rewrite Hun. cbn [mbind res_bind].
    rewrite tell_host_spec; [|done|apply Hinv|eapply not_under_way; [exact Hinv|now destruct Hidx as [->| ->]]].
    rewrite send_accepted. cbn [mbind res_bind]. replace (0 + Z.of_nat (Z.to_nat n)) with n by lia. eauto. }
  destruct Hrun as [vb' Hrun]. rewrite Hrun in H. destruct H as (_ & Hinv' & Hq & _ & j & j' & Hj & Hj' & Hl & Ht).
  exists vb'. split_and!; try done. rewrite (size_of_at _ _ _ Hj'), Hl. congruence.
Qed.

Lemma deflate_fn vb idx : valid_idx idx -> vb_work_fn (deflate_q idx) vb = vb_work_deflate vb idx (deflate_q idx).
Proof. now intros [->| ->]. Qed.

Lemma deflate_todo_spec all vb ps idx todo :
  vb_inv all vb ps -> valid_idx idx -> deflate_todo vb idx todo = Ok (Z.min todo (size_of vb idx)).
Proof.
  intros Hinv Hidx. destruct (inner_at _ _ _ _ Hinv Hidx) as (i & Hr & Hi & _). unfold deflate_todo.
  assert (Hb : BUG_ON_idx idx = Ok tt) by now destruct Hidx as [->| ->]. rewrite Hb, Hr. cbn [mbind res_bind].
  now rewrite (size_of_at _ _ _ Hi).
Qed.

Lemma size_of_max all vb ps idx : Z.of_nat (size all) < 2 ^ 32 -> vb_inv all vb ps -> valid_idx idx -> 0 <= size_of vb idx < 2 ^ 32.
Proof.
  intros Hsz Hinv Hidx. destruct (inner_at _ _ _ _ Hinv Hidx) as (i & _ & Hi & Hok). rewrite (size_of_at _ _ _ Hi), (ok_len _ _ _ _ Hok).
  pose proof (length_pages _ _ _ Hinv) as Hl. destruct (tracked_at _ _ _ Hi) as (l1 & l2 & Ht). rewrite Ht, !length_app in Hl. unfold zlen. lia.
Qed.
End targets.

(** ** The life of the driver *)

Section life.
Context `{E : BalloonEnv} {L : BalloonLaws E}.

Lemma zeroed_inv c free : actual c = 0 -> actual_hetero c = 0 -> vb_inv free (vb_work_init (zeroed c free)) [].
Proof.
  intros Ha Hh. split; try done.
  - intros idx i Hidx Hi. assert (i = Inner 0 [] (replicate (Z.to_nat VIRTIO_BALLOON_ARRAY_PFNS_MAX) 0)) as ->
      by (destruct Hidx as [->| ->]; now injection Hi as <-).
    split; try done. now destruct Hidx as [->| ->].
  - constructor.
  - intros p _. apply not_elem_of_nil.
  - intros p. cbn. split; [now left|]. intros [Hp|Hp]; [exact Hp|]. now apply not_elem_of_nil in Hp.
Qed.

Lemma vb_init_inv c free vb : actual c = 0 -> actual_hetero c = 0 -> vb_init c free = (0, vb) -> vb_inv free vb [].
Proof.
  intros Ha Hh. unfold vb_init. pose proof (zeroed_inv c free Ha Hh) as H0.
  destruct (IS_ERR_VALUE virtio_find_vqs) eqn:E1; [intros [= E2 _]; now rewrite E2 in E1|].
  destruct (vb_acked F_OOM && _) eqn:E3; [intros [= E2 _]; rewrite E2 in E3; now destruct (vb_acked F_OOM)|].
  intros [= <-]. eapply vb_inv_queued; [|apply work_queue_queued]. unfold vb_stats_initial.
  destruct (negb (vb_acked F_STATS)); [exact H0|]. now apply vb_stats_inv.
Qed.

Lemma life_inv c free vb st :
  (forall p, p ∈ free -> frame p) -> Z.of_nat (size free) < 2 ^ 32 -> actual c = 0 -> actual_hetero c = 0 ->
  vb_init c free = (0, vb) -> rtc vb_step (vb, []) st -> vb_inv free st.1 st.2.
Proof.
  intros Hfr Hsz Ha Hh Hinit. pose proof (vb_init_inv _ _ _ Ha Hh Hinit) as H0.
  assert (H : vb_inv free (vb, @nil pending).1 (vb, @nil pending).2) by done. clear H0 Hinit.
  intros Hst. induction Hst as [|st1 st2 st3 Hstep _ IH]; [done|]. apply IH. eapply vb_step_inv; eauto.
Qed.

(** C12: From the start of the driver, with both sizes reported as 0, in every state
    reached without a fault under an interleaving of the halves of its work items and
    of the out-of-memory notifier, with the host changing its targets and asking for
    statistics whenever it likes, in a guest whose frames and number of pages fit in
    32 bits: every page of the guest is either free, in exactly one balloon, or on its
    way into one; a balloon's size is the number of its pages, is what the
    configuration space reports, and the host, by the messages it was sent, holds
    exactly those pages.  (A deflation can fault: it may overrun its message, or find
    the list empty.) *)
Theorem balloon_invariant c free vb st :
  (forall p, p ∈ free -> frame p) -> Z.of_nat (size free) < 2 ^ 32 -> actual c = 0 -> actual_hetero c = 0 ->
  vb_init c free = (0, vb) -> rtc vb_step (vb, []) st -> vb_inv free st.1 st.2.
Proof. apply life_inv. Qed.

(** What the driver says of a node is what its balloon holds. *)
Lemma node_pages_spec all vb ps idx :
  vb_inv all vb ps -> valid_idx idx -> first_node <> last_node ->
  exists i, inners vb !! Z.to_nat idx = Some i /\
    node_balloon_pages (Some vb) (idx_node idx) = Ok (zlen (tracking i)) /\
    node_avail_pages (Some vb) (idx_node idx) = Ok (u64 (node_present_pages (idx_node idx) - zlen (tracking i))).
Proof.
  intros Hinv Hidx Hn. destruct (inner_at _ _ _ _ Hinv Hidx) as (i & Hr & Hi & Hok). exists i. split; [done|].
  rewrite <- (ok_len _ _ _ _ Hok). unfold node_balloon_pages, node_avail_pages, node_inner.
  assert (Hsel : (if idx_node idx =? first_node then Some (aread (inners vb) I_NORMAL)
    else if idx_node idx =? last_node then Some (aread (inners vb) I_HETERO) else None) = Some (Ok i)).
  { destruct Hidx as [->| ->]; cbn in *; [now rewrite Z.eqb_refl, Hr|].
    destruct (Z.eqb_spec last_node first_node); [congruence|]. now rewrite Z.eqb_refl, Hr. }
  rewrite Hsel. cbn [mbind res_bind]. done.
Qed.
End life.

Section following.
Context `{E : BalloonEnv} {L : BalloonLaws E} {K : BalloonCalm E}.

Lemma deflate_round all vb idx :
  (forall p, p ∈ all -> frame p) -> Z.of_nat (size all) < 2 ^ 32 -> vb_inv all vb [] -> valid_idx idx ->
  0 <= target_of (config vb) idx ->
  0 < size_of vb idx - target_of (config vb) idx <= VIRTIO_BALLOON_ARRAY_PFNS_MAX ->
  exists vb', vb_work_deflate vb idx (deflate_q idx) = Ok vb' /\ vb_inv all vb' [] /\
    size_of vb' idx = target_of (config vb) idx /\ queued vb' = queued vb.
Proof.
  intros Hfr Hsz Hinv Hidx Ht0 Hd. destruct (diff_spec _ _ _ _ Hinv Hidx) as [Hdiff _].
  pose proof (size_of_max _ _ _ _ Hsz Hinv Hidx) as Hmax.
  set (todo := size_of vb idx - target_of (config vb) idx) in *.
  assert (Hinv1 : vb_inv all vb ([] ++ PDeflate idx todo (Some (deflate_q idx, todo)) :: [])) by now apply deflate_pending_inv.
  destruct (deflate_exact all vb [] [] idx todo _ Hfr Hsz Hinv1) as (vb' & Hrun & Hinv' & Hq & Hs & Ht); [lia|lia|].
  exists vb'. split_and!; [|done|lia|done]. rewrite work_deflate_phases. unfold in_one_go, deflate_start. rewrite Hdiff. cbn [mbind res_bind].
  replace (- (target_of (config vb) idx - size_of vb idx)) with todo by lia. destruct (Z.leb_spec todo 0); [lia|].
  rewrite u32_small, (deflate_todo_spec _ _ _ _ _ Hinv Hidx) by lia. cbn [mbind res_bind finish].
  rewrite Z.min_l by lia. rewrite Hrun. cbn [mbind res_bind]. now rewrite Z.ltb_irrefl.
Qed.

(** With nothing to do a work item changes nothing. *)
Lemma inflate_nothing all vb ps idx q :
  vb_inv all vb ps -> valid_idx idx -> target_of (config vb) idx <= size_of vb idx -> vb_work_inflate vb idx q = Ok vb.
Proof.
  intros Hinv Hidx Ht. unfold vb_work_inflate. destruct (diff_spec _ _ _ _ Hinv Hidx) as [-> _]. cbn [mbind res_bind].
  now destruct (Z.leb_spec (target_of (config vb) idx - size_of vb idx) 0); [|lia].
Qed.

Lemma deflate_nothing all vb ps idx q :
  vb_inv all vb ps -> valid_idx idx -> size_of vb idx <= target_of (config vb) idx -> vb_work_deflate vb idx q = Ok vb.
Proof.
  intros Hinv Hidx Ht. unfold vb_work_deflate. destruct (diff_spec _ _ _ _ Hinv Hidx) as [-> _]. cbn [mbind res_bind].
  now destruct (Z.leb_spec (- (target_of (config vb) idx - size_of vb idx)) 0); [|lia].
Qed.

Lemma drain_nothing n q vb :
  (0 < n)%nat -> q ∈ queued vb ->
  (forall vb0, vb0 = set_queued (queued vb ∖ {[q]}) vb -> vb_work_fn q vb0 = Ok vb0) ->
  drain n q vb = Ok (set_queued (queued vb ∖ {[q]}) vb).
Proof.
  intros Hn Hq Hfn. destruct n as [|n]; [lia|]. cbn [drain]. rewrite decide_True, Hfn by done. cbn [mbind res_bind].
  apply drain_idle. cbn [set_queued queued]. set_solver.
Qed.

Lemma queue_fold_in l vb q :
  q ∈ l -> follows_target q = true -> has_func vb q = true ->
  q ∈ queued (foldl (fun vb q => if follows_target q && has_func vb q then queue_work vb q else vb) vb l).
Proof.
  intros Hl Hf Hfn.
  assert (Hkeep : forall l vb x, x ∈ queued vb ->
    x ∈ queued (foldl (fun vb q => if follows_target q && has_func vb q then queue_work vb q else vb) vb l)).
  { clear. induction l as [|a l IH]; intros vb x Hx; [done|]. simpl. apply IH. destruct (_ && _); [|done]. cbn. set_solver. }
  revert vb Hfn. induction l as [|a l IH]; intros vb Hfn; [now apply not_elem_of_nil in Hl|]. simpl.
  destruct (decide (a = q)) as [->|Hne].
  - apply Hkeep. rewrite Hf, Hfn. cbn. set_solver.
  - apply IH; [set_solver|]. destruct (_ && _); done.
Qed.

Lemma config_changed_queues vb q :
  should_exit vb = false -> work_func vb = has_work <$> seqZ 0 Q_MAX -> follows_target q = true -> 0 <= q < Q_MAX ->
  q ∈ queued (config_changed vb).
Proof.
  intros He Hw Hf Hq. unfold config_changed, vb_work_queue. rewrite He. apply queue_fold_in; [now apply elem_of_seqZ|done|].
  unfold has_func. rewrite Hw. unfold follows_target in Hf. apply andb_true_iff in Hf as [_ Hf].
  rewrite list_lookup_fmap, lookup_seqZ_lt by lia. simpl. now replace (0 + Z.of_nat (Z.to_nat q)) with q by lia.
Qed.

(** The driver follows a target: the runs of the inflation, then one of the deflation. *)
Lemma follow_target reserve all vb idx n :
  alloc_above reserve ->
  (forall p, p ∈ all -> frame p) -> Z.of_nat (size all) < 2 ^ 32 -> vb_inv all vb [] -> valid_idx idx ->
  inflate_q idx ∈ queued vb -> deflate_q idx ∈ queued vb ->
  0 <= target_of (config vb) idx < 2 ^ 32 ->
  target_of (config vb) idx - size_of vb idx <= spare reserve vb ->
  size_of vb idx - target_of (config vb) idx <= VIRTIO_BALLOON_ARRAY_PFNS_MAX ->
  (0 < n)%nat -> target_of (config vb) idx - size_of vb idx <= VIRTIO_BALLOON_ARRAY_PFNS_MAX * Z.of_nat n ->
  exists vb', (vb ← drain n (inflate_q idx) vb; drain 1 (deflate_q idx) vb) = Ok vb' /\
    vb_inv all vb' [] /\ size_of vb' idx = target_of (config vb) idx /\ inflate_q idx ∉ queued vb' /\ deflate_q idx ∉ queued vb'.
Proof.
  intros Hal Hfr Hsz Hinv Hidx Hqi Hqd Ht Hfree Hmax Hn Hrounds. assert (Hne : inflate_q idx <> deflate_q idx) by now destruct Hidx as [->| ->].
  destruct (Z.le_gt_cases (size_of vb idx) (target_of (config vb) idx)) as [Hle|Hgt].
  - destruct (drain_inflate reserve n all vb idx) as (vb1 & Hrun & Hinv1 & Hs & Hq1 & Ht1); try done; [lia|].
    rewrite Hrun. cbn [mbind res_bind]. destruct (decide (deflate_q idx ∈ queued vb1)) as [Hd|Hd].
    + rewrite drain_nothing; [|lia|done|].
      * eexists. split; [reflexivity|]. split_and!; [|exact Hs|cbn [set_queued queued]; set_solver..].
        eapply vb_inv_queued; [exact Hinv1|now eexists].
      * intros vb0 ->. rewrite deflate_fn by done. apply deflate_nothing with (all := all) (ps := []); [|done|change (size_of vb1 idx <= target_of (config vb1) idx); lia].
        eapply vb_inv_queued; [exact Hinv1|now eexists].
    + rewrite drain_idle by done. exists vb1. auto.
  - set (vb0 := set_queued (queued vb ∖ {[inflate_q idx]}) vb).
    assert (Hinv0 : vb_inv all vb0 []) by (eapply vb_inv_queued; [exact Hinv|now eexists]).
    rewrite drain_nothing; [|done|done|].
    2:{ intros ? ->. rewrite inflate_fn by done. apply inflate_nothing with (all := all) (ps := []); [exact Hinv0|done|].
        change (target_of (config vb) idx <= size_of vb idx). lia. }
    fold vb0. cbn [mbind res_bind drain]. rewrite decide_True by (cbn [vb0 set_queued queued]; set_solver). rewrite deflate_fn by done.
    set (vb1 := set_queued (queued vb0 ∖ {[deflate_q idx]}) vb0).
    assert (Hinv1 : vb_inv all vb1 []) by (eapply vb_inv_queued; [exact Hinv0|now eexists]).
    destruct (deflate_round all vb1 idx Hfr Hsz Hinv1 Hidx) as (vb2 & Hrun & Hinv2 & Hs2 & Hq2);
      [apply Ht|change (size_of vb1 idx) with (size_of vb idx); change (config vb1) with (config vb); lia|].
    rewrite Hrun. exists vb2. split_and!; try done; rewrite Hq2; cbn [vb1 vb0 set_queued queued]; set_solver.
Qed.

Lemma config_changed_target reserve all vb idx n :
  alloc_above reserve ->
  (forall p, p ∈ all -> frame p) -> Z.of_nat (size all) < 2 ^ 32 -> vb_inv all vb [] -> valid_idx idx ->
  should_exit vb = false -> work_func vb = has_work <$> seqZ 0 Q_MAX -> (idx = I_HETERO -> vb_acked F_HETERO = true) ->
  0 <= target_of (config vb) idx < 2 ^ 32 ->
  target_of (config vb) idx - size_of vb idx <= spare reserve vb ->
  size_of vb idx - target_of (config vb) idx <= VIRTIO_BALLOON_ARRAY_PFNS_MAX ->
  (0 < n)%nat -> target_of (config vb) idx - size_of vb idx <= VIRTIO_BALLOON_ARRAY_PFNS_MAX * Z.of_nat n ->
  exists vb', (vb ← drain n (inflate_q idx) (config_changed vb); drain 1 (deflate_q idx) vb) = Ok vb' /\
    vb_inv all vb' [] /\ size_of vb' idx = target_of (config vb) idx /\ inflate_q idx ∉ queued vb' /\ deflate_q idx ∉ queued vb'.
Proof.
  intros Hal Hfr Hsz Hinv Hidx He Hw Hh Ht Hfree Hmax Hn Hr. destruct (work_queue_queued vb) as [qs Hqs].
  fold (config_changed vb) in Hqs.
  assert (Hf : follows_target (inflate_q idx) = true /\ follows_target (deflate_q idx) = true).
  { destruct Hidx as [->| ->]; [done|]. specialize (Hh eq_refl). unfold follows_target, has_work. cbn. now rewrite Hh. }
  assert (Hqi : inflate_q idx ∈ queued (config_changed vb))
    by (apply config_changed_queues; try apply Hf; try done; now destruct Hidx as [->| ->]).
  assert (Hqd : deflate_q idx ∈ queued (config_changed vb))
    by (apply config_changed_queues; try apply Hf; try done; now destruct Hidx as [->| ->]).
  assert (Hinv' : vb_inv all (config_changed vb) []) by (rewrite Hqs; eapply vb_inv_queued; [exact Hinv|now eexists]).
  assert (Hs : size_of (config_changed vb) idx = size_of vb idx) by now rewrite Hqs.
  assert (Hc : config (config_changed vb) = config vb) by now rewrite Hqs.
  assert (Hnf : spare reserve (config_changed vb) = spare reserve vb) by now rewrite Hqs.
  rewrite <- Hc in *. rewrite <- Hs, <- Hnf in *. now apply (follow_target reserve).
Qed.

(** C13: A balloon at rest whose target the host changes reaches it: with at most 256
    pages to give back, or with as many free pages as are missing above a reserve
    down to which the allocator finds pages (on whatever node), the runs of the
    inflation (one per 256 missing pages is enough) and one run of the deflation end
    without a fault with the balloon at exactly the target, reported as such in the
    configuration space, and no work item of the two queued.  This is for a calm
    kernel: the list of ballooned pages hands out a page while it has one and the
    virtqueues accept every buffer (their errors the driver ignores).  Frames and the
    number of pages fit in 32 bits, and the driver is initialised and not exiting, for
    the second balloon with the feature that has it. *)
Theorem balloon_reaches_target reserve all vb idx n :
  alloc_above reserve ->
  (forall p, p ∈ all -> frame p) -> Z.of_nat (size all) < 2 ^ 32 -> vb_inv all vb [] -> valid_idx idx ->
  should_exit vb = false -> work_func vb = has_work <$> seqZ 0 Q_MAX -> (idx = I_HETERO -> vb_acked F_HETERO = true) ->
  0 <= target_of (config vb) idx < 2 ^ 32 ->
  target_of (config vb) idx - size_of vb idx <= spare reserve vb ->
  size_of vb idx - target_of (config vb) idx <= VIRTIO_BALLOON_ARRAY_PFNS_MAX ->
  (0 < n)%nat -> target_of (config vb) idx - size_of vb idx <= VIRTIO_BALLOON_ARRAY_PFNS_MAX * Z.of_nat n ->
  exists vb', (vb ← drain n (inflate_q idx) (config_changed vb); drain 1 (deflate_q idx) vb) = Ok vb' /\
    vb_inv all vb' [] /\ size_of vb' idx = target_of (config vb) idx /\
    actual_of (config vb') idx = target_of (config vb) idx /\ inflate_q idx ∉ queued vb' /\ deflate_q idx ∉ queued vb'.
Proof.
  intros Hal Hfr Hsz Hinv Hidx He Hw Hh Ht Hfree Hmax Hn Hr.
  destruct (config_changed_target reserve all vb idx n) as (vb' & Hrun & Hinv' & Hs & Hq & Hq'); try done.
  exists vb'. split_and!; try done. destruct (inner_at _ _ _ _ Hinv' Hidx) as (i & _ & Hi & Hok).
  rewrite (ok_actual _ _ _ _ Hok), <- Hs. symmetry. now apply size_of_at.
Qed.

(** C33: A target more than 256 pages below the size of a balloon makes the work item
    of the deflation write past the end of the array of frame numbers: unlike the
    inflation it does not bound its work by the array. *)
Theorem balloon_deflate_overflow all vb idx :
  Z.of_nat (size all) < 2 ^ 32 -> vb_inv all vb [] -> valid_idx idx -> 0 <= target_of (config vb) idx ->
  VIRTIO_BALLOON_ARRAY_PFNS_MAX < size_of vb idx - target_of (config vb) idx ->
  vb_work_fn (deflate_q idx) vb = Fault OutOfBounds.
Proof.
  intros Hsz Hinv Hidx Ht Hd. rewrite deflate_fn by done. unfold vb_work_deflate, vb_inner_deflate.
  destruct (diff_spec _ _ _ _ Hinv Hidx) as [-> _]. pose proof (size_of_max _ _ _ _ Hsz Hinv Hidx) as Hmax. cbn [mbind res_bind].
  set (todo := size_of vb idx - target_of (config vb) idx) in *.
  replace (- (target_of (config vb) idx - size_of vb idx)) with todo by lia. unfold VIRTIO_BALLOON_ARRAY_PFNS_MAX in *.
  assert (Htodo : todo <= size_of vb idx) by lia. clearbody todo.
  destruct (Z.leb_spec todo 0); [lia|]. rewrite u32_small, (deflate_todo_spec _ _ _ _ _ Hinv Hidx), Z.min_l by lia. cbn [mbind res_bind].
  unfold deflate_locked. destruct (inner_at _ _ _ idx Hinv Hidx) as (i & -> & Hi & Hok). cbn [mbind res_bind].
  rewrite (size_of_at _ _ _ Hi), (ok_len _ _ _ _ Hok) in *.
  rewrite untrack_overflow; [done| | |]; rewrite ?(ok_pfns _ _ _ _ Hok); unfold VIRTIO_BALLOON_ARRAY_PFNS_MAX; lia.
Qed.

(** C34: The deflation reads the size of the balloon before it takes the lock.  When
    the out-of-memory notifier comes between, both count the same pages: the work
    item empties the balloon and the notifier, running next, hits the kernel's check
    for an empty list. *)
Theorem balloon_deflate_race all vb :
  let idx := if vb_acked F_HETERO then I_HETERO else I_NORMAL in
  (forall p, p ∈ all -> frame p) -> Z.of_nat (size all) < 2 ^ 32 -> vb_inv all vb [] ->
  target_of (config vb) idx = 0 -> 0 < size_of vb idx <= VIRTIO_BALLOON_ARRAY_PFNS_MAX ->
  exists p1 p2 vb1, deflate_start vb idx (deflate_q idx) = Ok (vb, [p1]) /\ oom_start vb = Ok (vb, [p2]) /\
    finish vb p1 = Ok vb1 /\ finish vb1 p2 = Fault BugOn.
Proof.
  intros idx Hfr Hsz Hinv Ht Hs. assert (Hidx : valid_idx idx) by (unfold idx; destruct (vb_acked F_HETERO); [now right|now left]).
  destruct (diff_spec _ _ _ _ Hinv Hidx) as [Hdiff _]. pose proof (size_of_max _ _ _ _ Hsz Hinv Hidx) as Hmax.
  set (n := size_of vb idx) in *. unfold deflate_start, oom_start. fold idx. rewrite Hdiff, Ht. cbn [mbind res_bind].
  replace (- (0 - n)) with n by lia. destruct (Z.leb_spec n 0); [lia|]. rewrite u32_small by lia.
  rewrite !(deflate_todo_spec _ _ _ _ _ Hinv Hidx). cbn [mbind res_bind]. fold n.
  unfold VIRTIO_BALLOON_OOM_NR_PAGES, VIRTIO_BALLOON_ARRAY_PFNS_MAX in *. rewrite Z.min_id, (Z.min_r 256) by lia.
  set (p1 := PDeflate idx n (Some (deflate_q idx, n))). set (p2 := PDeflate idx n None).
  assert (Hinv1 : vb_inv all vb ([] ++ p1 :: [p2])) by (do 2 (apply deflate_pending_inv; [|done]); done).
  destruct (deflate_exact _ _ _ _ _ _ _ Hfr Hsz Hinv1) as (vb1 & Hrun & Hinv2 & Hq & Hsz1 & _);
    [fold n; lia|unfold VIRTIO_BALLOON_ARRAY_PFNS_MAX; lia|]. fold n in Hsz1.
  exists p1, p2, vb1. split; [done|]. split; [done|]. split.
  { cbn [p1 finish]. rewrite Hrun. cbn [mbind res_bind]. now rewrite Z.ltb_irrefl. }
  cbn [p2 finish]. unfold deflate_locked. destruct (inner_at _ _ _ idx Hinv2 Hidx) as (i & -> & Hi & Hok). cbn [mbind res_bind].
  rewrite untrack_empty; [done|lia|]. rewrite (size_of_at _ _ _ Hi), (ok_len _ _ _ _ Hok) in Hsz1.
  apply length_zero_iff_nil. unfold zlen in Hsz1. lia.
Qed.
End following.

(** ** A concrete guest *)

Module Demo.
(** An allocator that takes the first page it finds and keeps one for itself; the
    kernel takes the newest of a list. *)
#[export] Instance env : BalloonEnv := {|
  virtio_has_feature f := f =? F_OOM;
  first_node := 0; last_node := 1; num_memory_nodes := 2; node_present_pages _ := 10000;
  alloc_pages_node _ f := match elements f with p :: _ :: _ => Some p | _ => None end;
  virtqueue_add_outbuf _ _ := 0;
  balloon_page_dequeue l := match l with [] => None | _ => Some 0%nat end;
  vm_stat tag := tag;
  virtio_find_vqs := 0; register_oom_notifier := 0; config_get := true |}.

#[export] Instance laws : BalloonLaws env.
Proof.
  split.
  - intros nid f p H. cbn in H. apply elem_of_elements. destruct (elements f) as [|x [|y l]]; [done|done|].
    injection H as ->. set_solver.
  - intros [|x l] i [= <-]; simpl; lia.
Qed.

#[export] Instance calm : BalloonCalm env.
Proof. split; [now intros [|x l]|done]. Qed.

Lemma above : alloc_above 1.
Proof.
  intros nid f Hf. unfold size, set_size in Hf. cbn in *. destruct (elements f) as [|x [|y l]]; simpl in Hf; try lia. eauto.
Qed.

(** [n] pages in the balloon of the first node, [m] free ones, and a target. *)
Definition guest (n m target : Z) : virtio_balloon :=
  Balloon [Inner n (seqZ 0 n) (replicate 256 0); Inner 0 [] (replicate 256 0)] (Config target n 0 0)
    [(Q_INFLATE, seqZ 0 n)] [] (list_to_set (seqZ n m)) ∅ (has_work <$> seqZ 0 Q_MAX) false (StatVec 0 (replicate 16 (0, 0))).

Definition pages (n m : Z) : gset Z := list_to_set (seqZ 0 (n + m)).

Lemma guest_inv n m target : 0 <= n -> 0 <= m -> n + m <= 10000 -> vb_inv (pages n m) (guest n m target) [].
Proof.
  intros Hn Hm Hmax.
  assert (Hz : zlen (seqZ 0 n) = n) by (unfold zlen; rewrite length_seqZ; lia).
  assert (Ht : tracked (guest n m target) ++ held [] = seqZ 0 n) by (cbn; now rewrite !app_nil_r).
  split; rewrite ?Ht; try done.
  - intros idx i [->| ->] [= <-]; split; try done; cbn -[seqZ].
    rewrite union_empty_r_L. done.
  - apply NoDup_seqZ.
  - intros p. cbn -[seqZ]. rewrite elem_of_list_to_set, !elem_of_seqZ. lia.
  - intros p. unfold pages. cbn -[seqZ]. rewrite !elem_of_list_to_set, !elem_of_seqZ. lia.
Qed.

Lemma pages_frames n m : n + m <= 10000 -> forall p, p ∈ pages n m -> frame p.
Proof. intros H p. unfold pages, frame. rewrite elem_of_list_to_set, elem_of_seqZ. lia. Qed.

Lemma pages_size n m : n + m <= 10000 -> Z.of_nat (size (pages n m)) < 2 ^ 32.
Proof. intros H. unfold pages. rewrite size_list_to_set by apply NoDup_seqZ. rewrite length_seqZ. lia. Qed.

(** The balloon inflates while the notifier runs. *)
Definition born : virtio_balloon := (vb_init (Config 2 0 0 0) (pages 0 4)).2.

Definition life : res (virtio_balloon * list pending) :=
  '(vb, ps) ← start Q_INFLATE (set_queued (queued born ∖ {[Q_INFLATE]}) born);
  '(vb, ps') ← oom_start vb;
  match ps with p :: _ => vb ← finish vb p; Ok (vb, ps') | [] => Ok (vb, ps) end.
End Demo.
Import Demo.

Lemma balloon_invariant_witness :
  exists st, Demo.life = Ok st /\ length (tracked st.1) = 2%nat /\ vb_inv (Demo.pages 0 4) st.1 st.2.
Proof.
  eexists. split; [vm_compute; reflexivity|]. split; [reflexivity|].
  apply (balloon_invariant (Config 2 0 0 0) (Demo.pages 0 4) Demo.born); try reflexivity.
  - apply Demo.pages_frames. lia.
  - eapply rtc_l; [apply (step_start _ _ Q_INFLATE); [vm_compute; reflexivity|done|vm_compute; reflexivity]|].
    eapply rtc_l; [apply step_oom; vm_compute; reflexivity|].
    eapply rtc_l; [apply (step_finish _ [_] _ []); vm_compute; reflexivity|].
    apply rtc_refl.
Defined.

Lemma balloon_reaches_target_witness :
  exists vb', (vb ← drain 1 Q_INFLATE (config_changed (Demo.guest 3 5 7)); drain 1 Q_DEFLATE vb) = Ok vb' /\
    vb_inv (Demo.pages 3 5) vb' [] /\ size_of vb' I_NORMAL = 7 /\ actual_of (config vb') I_NORMAL = 7 /\
    Q_INFLATE ∉ queued vb' /\ Q_DEFLATE ∉ queued vb'.
Proof.
  apply (balloon_reaches_target 1 (Demo.pages 3 5) (Demo.guest 3 5 7) I_NORMAL 1); try done; try lia.
  - apply Demo.above.
  - apply Demo.pages_frames. lia.
  - apply Demo.guest_inv; lia.
  - now left.
Defined.

Lemma balloon_deflate_overflow_witness : vb_work_fn Q_DEFLATE (Demo.guest 300 0 10) = Fault OutOfBounds.
Proof.
  apply (balloon_deflate_overflow (Demo.pages 300 0) _ I_NORMAL).
  - apply Demo.pages_size. lia.
  - apply Demo.guest_inv; lia.
  - now left.
  - done.
  - done.
Defined.

Lemma balloon_deflate_race_witness :
  exists p1 p2 vb1, deflate_start (Demo.guest 5 0 0) I_NORMAL Q_DEFLATE = Ok (Demo.guest 5 0 0, [p1]) /\
    oom_start (Demo.guest 5 0 0) = Ok (Demo.guest 5 0 0, [p2]) /\
    finish (Demo.guest 5 0 0) p1 = Ok vb1 /\ finish vb1 p2 = Fault BugOn.
Proof.
  exact (balloon_deflate_race (Demo.pages 5 0) (Demo.guest 5 0 0) (Demo.pages_frames 5 0 ltac:(lia)) (Demo.pages_size 5 0 ltac:(lia))
    (Demo.guest_inv 5 0 0 ltac:(lia) ltac:(lia) ltac:(lia)) eq_refl ltac:(done)).
Defined.
