(* ===== verification/Graph500.v ===== *)
(** The Graph500 benchmark around its generator (src/workload/graph500): the
    sequential kernels that build a graph and search it breadth first
    (seq-csr/seq-csr.c, seq-list/seq-list.c), the validation of a search tree
    (verify.c) and the driver (run_bfs of graph500.c).

    Edges have the plain layout.  OpenMP pragmas are read as comments, as they are
    without OpenMP.  [malloc] gives memory of unknown content; [free] is left out. *)
From stdpp Require Import base numbers list sorting.
From Stdlib Require Import ZArith Lia.
From S2P Require Import Prelude ModArith Mrg Kronecker.
Import Plain.
Open Scope Z_scope.

(** A signed 64-bit result. *)
Definition i64 (x : Z) : res Z := if decide (- 2 ^ 63 <= x < 2 ^ 63) then Ok x else Fault IntOverflow.

(** The bytes, the size of an element, and the elements. *)
Class Malloc := { malloc : Z -> Z -> option (list Z) }.
Class MallocLaws (M : Malloc) : Prop := {
  malloc_length sz n a : malloc sz n = Some a -> 0 < n -> zlen a = sz / n }.

Section xalloc.
Context `{M : Malloc}.
Definition xmalloc (sz n : Z) : res (list Z) := of_option ExitFailure (malloc sz n).
Definition xmalloc_large (sz n : Z) : res (list Z) := xmalloc sz n.
Definition xmalloc_large_ext (sz n : Z) : res (list Z) := xmalloc_large sz n.
End xalloc.

(** [n * sizeof (int64_t)], a [size_t] *)
Definition int64s (n : Z) : Z := u64 (n * 8).

(** [for (k = lo; k < hi; ++k) a[k] = x] *)
Definition fill (a : list Z) (lo hi x : Z) : res (list Z) := for_range lo hi (fun k a => awrite a k x) a.

(** [++a[i]] *)
Definition bump (a : list Z) (i : Z) : res (list Z) := x ← aread a i; awrite a i (x + 1).

(** The largest vertex number, or -1. *)
Definition find_maxvtx (IJ : list packed_edge) (nedge : Z) : res Z :=
  for_range 0 nedge (fun k maxvtx =>
    e ← aread IJ k;
    let maxvtx := if maxvtx <? get_v0_from_edge e then get_v0_from_edge e else maxvtx in
    Ok (if maxvtx <? get_v1_from_edge e then get_v1_from_edge e else maxvtx)) (-1).

(** What the driver asks of a kernel; [None] is an error result. *)
Class Kernel := {
  graph : Type;
  create_graph : list packed_edge -> Z -> res (option graph);
  bfs : graph -> list Z -> Z -> res (option (list Z * Z)) }.

(** ** seq-csr.c *)

Module SeqCsr.
Section seq_csr.
Context `{M : Malloc}.

Definition MINVECT_SIZE : Z := 2.

Record csr := Csr { maxvtx : Z; nv : Z; xoff : list Z; xadjstore : list Z }.

Definition find_nv (IJ : list packed_edge) (nedge : Z) : res (Z * Z) :=
  maxvtx ← find_maxvtx IJ nedge; Ok (maxvtx, 1 + maxvtx).

Definition alloc_graph (nv : Z) : res (list Z) :=
  n ← i64 (2 * nv + 2); xmalloc_large_ext (int64s n) 8.

Definition XOFF (k : Z) : Z := 2 * k.
Definition XENDOFF (k : Z) : Z := 1 + 2 * k.

(** [xadj = &xadjstore[MINVECT_SIZE]] *)
Definition xadj (k : Z) : Z := MINVECT_SIZE + k.

Definition setup_deg_off (IJ : list packed_edge) (nedge nv : Z) (xoff : list Z) : res (list Z * list Z) :=
  xoff ← fill xoff 0 (2 * nv + 2) 0;
  xoff ← for_range 0 nedge (fun k xoff =>
    e ← aread IJ k;
    let i := get_v0_from_edge e in
    let j := get_v1_from_edge e in
    if i =? j then Ok xoff else
    xoff ← if 0 <=? i then bump xoff (XOFF i) else Ok xoff;
    if 0 <=? j then bump xoff (XOFF j) else Ok xoff) xoff;
  '(xoff, accum) ← for_range 0 nv (fun k '(xoff, accum) =>
    tmp ← aread xoff (XOFF k);
    let tmp := if tmp <? MINVECT_SIZE then MINVECT_SIZE else tmp in
    xoff ← awrite xoff (XOFF k) accum;
    Ok (xoff, accum + tmp)) (xoff, 0);
  xoff ← awrite xoff (XOFF nv) accum;
  xoff ← for_range 0 nv (fun k xoff => x ← aread xoff (XOFF k); awrite xoff (XENDOFF k) x) xoff;
  n ← i64 (accum + MINVECT_SIZE);
  xadjstore ← xmalloc_large_ext (int64s n) 8;
  xadjstore ← fill xadjstore 0 (accum + MINVECT_SIZE) (-1);
  Ok (xoff, xadjstore).

Definition scatter_edge (i j : Z) (g : list Z * list Z) : res (list Z * list Z) :=
  let '(xoff, xadjstore) := g in
  wher ← aread xoff (XENDOFF i);
  xoff ← awrite xoff (XENDOFF i) (wher + 1);
  xadjstore ← awrite xadjstore (xadj wher) j;
  Ok (xoff, xadjstore).

Definition i64cmp (ia ib : Z) : Z := if ia <? ib then -1 else if ib <? ia then 1 else 0.

Definition i64le (x y : Z) : Prop := i64cmp x y <= 0.
#[global] Instance i64le_dec : RelDecision i64le := fun x y => decide (i64cmp x y <= 0).

(** The library's [qsort] on [n] elements from [base]. *)
Definition qsort (a : list Z) (base n : Z) : res (list Z) :=
  if decide (0 <= base /\ 0 <= n /\ base + n <= zlen a) then
    let b := Z.to_nat base in
    Ok (take b a ++ merge_sort i64le (take (Z.to_nat n) (drop b a)) ++ drop (b + Z.to_nat n) a)
  else Fault OutOfBounds.

Definition pack_vtx_edges (i : Z) (g : list Z * list Z) : res (list Z * list Z) :=
  let '(xoff, xadjstore) := g in
  xo ← aread xoff (XOFF i);
  xe ← aread xoff (XENDOFF i);
  if xe <=? xo + 1 then Ok g else
  xadjstore ← qsort xadjstore (xadj xo) (xe - xo);
  '(kcur, xadjstore) ← for_range (xo + 1) xe (fun k '(kcur, a) =>
    x ← aread a (xadj k);
    y ← aread a (xadj kcur);
    if x =? y then Ok (kcur, a) else
    a ← awrite a (xadj (kcur + 1)) x; Ok (kcur + 1, a)) (xo, xadjstore);
  let kcur := kcur + 1 in
  xadjstore ← for_range kcur xe (fun k a => awrite a (xadj k) (-1)) xadjstore;
  xoff ← awrite xoff (XENDOFF i) kcur;
  Ok (xoff, xadjstore).

Definition pack_edges (nv : Z) (g : list Z * list Z) : res (list Z * list Z) := for_range 0 nv pack_vtx_edges g.

Definition gather_edges (IJ : list packed_edge) (nedge nv : Z) (g : list Z * list Z) : res (list Z * list Z) :=
  g ← for_range 0 nedge (fun k g =>
    e ← aread IJ k;
    let i := get_v0_from_edge e in
    let j := get_v1_from_edge e in
    if (0 <=? i) && (0 <=? j) && negb (i =? j)
    then g ← scatter_edge i j g; scatter_edge j i g else Ok g) g;
  pack_edges nv g.

Definition create_graph_from_edgelist (IJ : list packed_edge) (nedge : Z) : res csr :=
  '(maxvtx, nv) ← find_nv IJ nedge;
  xoff ← alloc_graph nv;
  g ← setup_deg_off IJ nedge nv xoff;
  '(xoff, xadjstore) ← gather_edges IJ nedge nv g;
  Ok (Csr maxvtx nv xoff xadjstore).

(** A neighbour [j] of [v]: the tree, the list of vertices and its length. *)
Definition bfs_visit (v j : Z) (s : list Z * list Z * Z) : res (list Z * list Z * Z) :=
  let '(bfs_tree, vlist, k2) := s in
  t ← aread bfs_tree j;
  if t =? -1 then
    bfs_tree ← awrite bfs_tree j v;
    vlist ← awrite vlist k2 j;
    Ok (bfs_tree, vlist, k2 + 1)
  else Ok s.

Definition bfs_vertex (g : csr) (k : Z) (s : list Z * list Z * Z) : res (list Z * list Z * Z) :=
  let '(bfs_tree, vlist, k2) := s in
  v ← aread vlist k;
  veo ← aread (xoff g) (XENDOFF v);
  vo ← aread (xoff g) (XOFF v);
  for_range vo veo (fun vo s => j ← aread (xadjstore g) (xadj vo); bfs_visit v j s) s.

Definition make_bfs_tree (g : csr) (bfs_tree : list Z) (srcvtx : Z) : res (list Z * Z) :=
  vlist ← xmalloc_large (int64s (nv g)) 8;
  bfs_tree ← fill bfs_tree 0 (nv g) (-1);
  vlist ← awrite vlist 0 srcvtx;
  bfs_tree ← awrite bfs_tree srcvtx srcvtx;
  '(_, (bfs_tree, _, _)) ← while_loop (Z.to_nat (nv g) + 1)
    (fun '(k1, (_, _, k2)) => Ok (negb (k1 =? k2)))
    (fun '(k1, s) =>
       let '(_, _, oldk2) := s in
       s ← for_range k1 oldk2 (bfs_vertex g) s;
       Ok (oldk2, s)) (0, (bfs_tree, vlist, 1));
  Ok (bfs_tree, maxvtx g).
End seq_csr.
End SeqCsr.

Definition seq_csr `{Malloc} : Kernel := {|
  graph := SeqCsr.csr;
  create_graph IJ nedge := g ← SeqCsr.create_graph_from_edgelist IJ nedge; Ok (Some g);
  bfs g tree src := r ← SeqCsr.make_bfs_tree g tree src; Ok (Some r) |}.

(** ** seq-list.c *)

Module SeqList.
Section seq_list.
Context `{M : Malloc}.

(** One block holds [head], [deg] and [next]. *)
Record lists := Lists { maxvtx : Z; maxdeg : Z; IJ : list packed_edge; head : list Z }.

Definition deg (maxvtx k : Z) : Z := maxvtx + 1 + k.
Definition next (maxvtx k : Z) : Z := 2 * (maxvtx + 1) + k.

(** The end [t] of an edge enters the list of a vertex. *)
Definition link (maxvtx nIJ v t : Z) (a : list Z) : res (list Z) :=
  t_head ← aread a v;
  a ← awrite a v t;
  _ ← check (t_head <? 2 * nIJ) AssertFailed;
  a ← awrite a (next maxvtx t) t_head;
  bump a (deg maxvtx v).

(** [None]: the allocation failed, the result is -1. *)
Definition create_graph_from_edgelist (IJ : list packed_edge) (nedge : Z) : res (option lists) :=
  maxvtx ← find_maxvtx IJ nedge;
  n ← i64 (2 * (maxvtx + 1) + 2 * nedge);
  match malloc (int64s n) 8 with
  | None => Ok None
  | Some a =>
      a ← for_range 0 (maxvtx + 1) (fun k a => a ← awrite a k (-1); awrite a (deg maxvtx k) 0) a;
      a ← for_range 0 nedge (fun k a =>
        e ← aread IJ k;
        let i := get_v0_from_edge e in
        let j := get_v1_from_edge e in
        if (0 <=? i) && (0 <=? j) && negb (i =? j) then
          a ← awrite a (next maxvtx (2 * k)) (-1);
          a ← awrite a (next maxvtx (1 + 2 * k)) (-1);
          a ← link maxvtx nedge i (2 * k + 1) a;
          link maxvtx nedge j (2 * k) a
        else Ok a) a;
      maxdeg ← for_range 0 (maxvtx + 1) (fun k maxdeg =>
        d ← aread a (deg maxvtx k); Ok (if maxdeg <? d then d else maxdeg)) (-1);
      Ok (Some (Lists maxvtx maxdeg IJ a))
  end.

(** The other end of an edge of the list. *)
Definition other_end (IJ : list packed_edge) (p : Z) : res Z :=
  e ← aread IJ (p / 2);
  Ok (if negb (p mod 2 =? 0) then get_v1_from_edge e else get_v0_from_edge e).

Definition bfs_visit (parent newv : Z) (s : list Z * list Z * Z) : res (list Z * list Z * Z) :=
  let '(bfs_tree, vlist, newk2) := s in
  t ← aread bfs_tree newv;
  if t <? 0 then
    bfs_tree ← awrite bfs_tree newv parent;
    vlist ← awrite vlist newk2 newv;
    Ok (bfs_tree, vlist, newk2 + 1)
  else Ok s.

Definition bfs_vertex (g : lists) (k : Z) (s : list Z * list Z * Z) : res (list Z * list Z * Z) :=
  let '(bfs_tree, vlist, newk2) := s in
  parent ← aread vlist k;
  p ← aread (head g) parent;
  '(_, s) ← while_loop (length (head g) + 1) (fun '(p, _) => Ok (0 <=? p))
    (fun '(p, s) =>
       newv ← other_end (IJ g) p;
       s ← bfs_visit parent newv s;
       p ← aread (head g) (next (maxvtx g) p);
       Ok (p, s)) (p, s);
  Ok s.

Definition make_bfs_tree (g : lists) (bfs_tree : list Z) (srcvtx : Z) : res (option (list Z * Z)) :=
  let nv := maxvtx g + 1 in
  bfs_tree ← awrite bfs_tree srcvtx srcvtx;
  match malloc (int64s nv) 8 with
  | None => Ok None
  | Some vlist =>
      bfs_tree ← awrite bfs_tree srcvtx srcvtx;
      vlist ← awrite vlist 0 srcvtx;
      bfs_tree ← fill bfs_tree 0 srcvtx (-1);
      bfs_tree ← fill bfs_tree (srcvtx + 1) nv (-1);
      '(_, _, (bfs_tree, _)) ← while_loop 2
        (fun '(k1, k2, _) => Ok (negb (k1 =? k2)))
        (fun '(k1, k2, (bfs_tree, vlist)) =>
           '(_, k1, k2, (bfs_tree, vlist, _)) ← while_loop (Z.to_nat nv + 1)
             (fun '(k, _, k2, _) => Ok (k <? k2))
             (fun '(k, _, k2, s) =>
                s ← bfs_vertex g k s;
                let '(_, _, newk2) := s in
                Ok (k + 1, k2, newk2, s)) (k1, k1, k2, (bfs_tree, vlist, k2));
           Ok (k1, k2, (bfs_tree, vlist))) (0, 1, (bfs_tree, vlist));
      Ok (Some (bfs_tree, maxvtx g))
  end.
End seq_list.
End SeqList.

Definition seq_list `{Malloc} : Kernel := {|
  graph := SeqList.lists;
  create_graph := SeqList.create_graph_from_edgelist;
  bfs := SeqList.make_bfs_tree |}.

(** ** verify.c *)

Module Verify.
Section verify.
Context `{M : Malloc}.

(** Up the tree from [k] to a vertex that has a level: the vertex and the hops. *)
Definition run_up (nv : Z) (bfs_tree level : list Z) (k : Z) : res (Z * Z) :=
  while_loop (Z.to_nat nv + 1)
    (fun '(parent, nhop) =>
       if negb (0 <=? parent) then Ok false else
       l ← aread level parent;
       Ok ((l <? 0) && (nhop <? nv)))
    (fun '(parent, nhop) =>
       p ← aread bfs_tree parent;
       _ ← check (negb (parent =? p)) AssertFailed;
       Ok (p, nhop + 1)) (k, 0).

(** The levels of the vertices on the way. *)
Definition assign_levels (nv : Z) (bfs_tree level : list Z) (k nhop : Z) : res (list Z) :=
  '(level, parent, nhop) ← while_loop (Z.to_nat nv + 1)
    (fun '(level, parent, _) => l ← aread level parent; Ok (l <? 0))
    (fun '(level, parent, nhop) =>
       _ ← check (0 <? nhop) AssertFailed;
       level ← awrite level parent nhop;
       p ← aread bfs_tree parent;
       Ok (level, p, nhop - 1)) (level, k, nhop);
  l ← aread level parent;
  _ ← check (nhop =? l) AssertFailed;
  Ok level.

(** The internal check: levels go down by one. *)
Definition check_levels (nv : Z) (bfs_tree level : list Z) (k : Z) : res unit :=
  l ← aread level k;
  _ ← while_loop (Z.to_nat nv + 1)
    (fun '(parent, _) => l ← aread level parent; Ok (0 <? l))
    (fun '(parent, lastlvl) =>
       l ← aread level parent;
       _ ← check (lastlvl =? 1 + l) AssertFailed;
       p ← aread bfs_tree parent;
       Ok (p, l)) (k, l + 1);
  Ok tt.

(** One vertex: the levels and the error. *)
Definition level_vertex (nv : Z) (bfs_tree : list Z) (root k : Z) (s : list Z * Z) : res (list Z * Z) :=
  let '(level, err) := s in
  l ← aread level k;
  if 0 <=? l then Ok s else
  if negb (err =? 0) then Ok s else
  t ← aread bfs_tree k;
  if negb (0 <=? t) || (k =? root) then Ok s else
  '(parent, nhop) ← run_up nv bfs_tree level k;
  let terr := if nv <=? nhop then -1 else 0 in
  let terr := if parent <? 0 then -2 else terr in
  if negb (terr =? 0) then Ok (level, terr) else
  l ← aread level parent;
  level ← assign_levels nv bfs_tree level k (nhop + l);
  _ ← check_levels nv bfs_tree level k;
  Ok (level, 0).

Definition compute_levels (level : list Z) (nv : Z) (bfs_tree : list Z) (root : Z) : res (list Z * Z) :=
  level ← for_range 0 nv (fun k level => awrite level k (if k =? root then 0 else -1)) level;
  for_range 0 nv (level_vertex nv bfs_tree root) (level, 0).

(** One edge: the edges seen, their number, and the error. *)
Definition verify_edge (max_bfsvtx : Z) (bfs_tree level : list Z) (e : packed_edge) (s : list Z * Z * Z) : res (list Z * Z * Z) :=
  let '(seen_edge, nedge_traversed, err) := s in
  let i := get_v0_from_edge e in
  let j := get_v1_from_edge e in
  if (i <? 0) || (j <? 0) then Ok s else
  let terr := if (max_bfsvtx <? i) && (j <=? max_bfsvtx) then -10 else err in
  let terr := if (max_bfsvtx <? j) && (i <=? max_bfsvtx) then -11 else terr in
  if negb (terr =? 0) || (max_bfsvtx <? i) then Ok (seen_edge, nedge_traversed, terr) else
  ti ← aread bfs_tree i;
  tj ← aread bfs_tree j;
  let terr := if (0 <=? ti) && (tj <? 0) then -12 else terr in
  let terr := if (0 <=? tj) && (ti <? 0) then -13 else terr in
  if negb (terr =? 0) || (ti <? 0) then Ok (seen_edge, nedge_traversed, terr) else
  seen_edge ← if i =? j then Ok seen_edge else
    (seen_edge ← if ti =? j then awrite seen_edge i 1 else Ok seen_edge;
     if tj =? i then awrite seen_edge j 1 else Ok seen_edge);
  li ← aread level i;
  lj ← aread level j;
  let lvldiff := li - lj in
  Ok (seen_edge, nedge_traversed + 1, if (1 <? lvldiff) || (lvldiff <? -1) then -14 else terr).

(** Every edge of the tree was seen and there is one root. *)
Definition verify_vertex (bfs_tree seen_edge : list Z) (root k err : Z) : res Z :=
  if negb (err =? 0) || (k =? root) then Ok err else
  t ← aread bfs_tree k;
  seen ← if 0 <=? t then aread seen_edge k else Ok 1;
  let terr := if (0 <=? t) && (seen =? 0) then -15 else 0 in
  Ok (if t =? k then -16 else terr).

Definition verify_bfs_tree (bfs_tree : list Z) (max_bfsvtx root : Z) (IJ : list packed_edge) (nedge : Z) : res Z :=
  let nv := max_bfsvtx + 1 in
  if max_bfsvtx <? root then Ok (-999) else
  t ← aread bfs_tree root;
  if negb (t =? root) then Ok (-999) else
  n ← i64 (2 * nv);
  block ← xmalloc_large (int64s n) 8;
  let seen_edge := take (Z.to_nat nv) block in
  '(level, err) ← compute_levels (drop (Z.to_nat nv) block) nv bfs_tree root;
  if negb (err =? 0) then Ok err else
  seen_edge ← fill seen_edge 0 nv 0;
  '(seen_edge, nedge_traversed, err) ← for_range 0 nedge (fun k s =>
    e ← aread IJ k; verify_edge max_bfsvtx bfs_tree level e s) (seen_edge, 0, 0);
  err ← if negb (err =? 0) then Ok err else for_range 0 nv (verify_vertex bfs_tree seen_edge root) err;
  Ok (if negb (err =? 0) then err else nedge_traversed).
End verify.
End Verify.

(** ** run_bfs of graph500.c *)

Module Driver.
Definition NBFS_max : Z := 64.

Section driver.
Context `{M : Malloc} {K : Kernel}.

(** The choice at the connected vertex [k]: [(nvtx_connected - t) * R > NBFS - m] for the
    random [R] drawn there, as a function of the two sides' numbers. *)
Variable passes_over : Z -> Z -> Z -> bool.
Variables nvtx_scale NBFS : Z.

Definition find_adj (IJ : list packed_edge) (nedge : Z) : res (list Z) :=
  has_adj ← xmalloc_large (u64 (nvtx_scale * 4)) 4;
  has_adj ← fill has_adj 0 nvtx_scale 0;
  for_range 0 nedge (fun k a =>
    e ← aread IJ k;
    let i := get_v0_from_edge e in
    let j := get_v1_from_edge e in
    if i =? j then Ok a else
    a ← awrite a j 1; awrite a i 1) has_adj.

Definition count_adj (has_adj : list Z) : res Z :=
  for_range 0 nvtx_scale (fun k n => a ← aread has_adj k; Ok (if negb (a =? 0) then n + 1 else n)) 0.

(** [k], [m], [t] and the roots *)
Definition sample_step (has_adj : list Z) (nvtx_connected : Z) (s : Z * Z * Z * list Z) : res (Z * Z * Z * list Z) :=
  let '(k, m, t, bfs_root) := s in
  a ← aread has_adj k;
  if a =? 0 then Ok (k + 1, m, t, bfs_root)
  else if passes_over k (nvtx_connected - t) (NBFS - m) then Ok (k + 1, m, t + 1, bfs_root)
  else bfs_root ← awrite bfs_root m t; Ok (k + 1, m + 1, t + 1, bfs_root).

Definition sample_roots (has_adj : list Z) (nvtx_connected : Z) (bfs_root : list Z) : res (Z * Z * Z * list Z) :=
  while_loop (Z.to_nat nvtx_scale + 1)
    (fun '(k, m, t, _) => Ok ((k <? nvtx_scale) && (m <? NBFS) && (t <? nvtx_connected)))
    (sample_step has_adj nvtx_connected) (0, 0, 0, bfs_root).

(** The number of searches and their roots. *)
Definition find_roots (IJ : list packed_edge) (nedge : Z) : res (Z * list Z) :=
  has_adj ← find_adj IJ nedge;
  nvtx_connected ← count_adj has_adj;
  '(_, m, t, bfs_root) ← sample_roots has_adj nvtx_connected (replicate (Z.to_nat NBFS_max) 0);
  if (nvtx_connected <=? t) && (m <? NBFS) then
    if 0 <? m then Ok (m, bfs_root) else Fault ExitFailure
  else Ok (NBFS, bfs_root).

(** One search and its validation: the number of edges. *)
Definition search (g : graph) (IJ : list packed_edge) (nedge : Z) (bfs_root : list Z) (m : Z) (bfs_nedge : list Z) : res (list Z) :=
  bfs_tree ← xmalloc_large (int64s nvtx_scale) 8;
  root ← aread bfs_root m;
  _ ← check (root <? nvtx_scale) AssertFailed;
  r ← bfs g bfs_tree root;
  match r with
  | None => Fault ExitFailure
  | Some (bfs_tree, max_bfsvtx) =>
      n ← Verify.verify_bfs_tree bfs_tree max_bfsvtx root IJ nedge;
      bfs_nedge ← awrite bfs_nedge m n;
      if n <? 0 then Fault ExitFailure else Ok bfs_nedge
  end.

(** The edges of each search, and their number. *)
Definition run_bfs (IJ : list packed_edge) (nedge : Z) : res (Z * list Z * list Z) :=
  g ← create_graph IJ nedge;
  match g with
  | None => Fault ExitFailure
  | Some g =>
      '(NBFS, bfs_root) ← find_roots IJ nedge;
      bfs_nedge ← for_range 0 NBFS (search g IJ nedge bfs_root) (replicate (Z.to_nat NBFS_max) 0);
      Ok (NBFS, bfs_root, bfs_nedge)
  end.
End driver.

(** [main] with the generator and without a file of edges or of roots. *)
Section main.
Context {MO : ModOps} `{M : Malloc} {K : Kernel}.
Variable table : list (list mrg_transition_matrix).
Variable passes_over : Z -> Z -> Z -> bool.

Definition main (SCALE edgefactor NBFS userseed : Z) (fresh : list packed_edge) : res (Z * list Z * list Z) :=
  let nvtx_scale := Z.shiftl 1 SCALE in
  desired_nedge ← i64 (nvtx_scale * edgefactor);
  _ ← check (nvtx_scale <=? desired_nedge) AssertFailed;
  _ ← check (edgefactor <=? desired_nedge) AssertFailed;
  IJ ← make_graph table SCALE desired_nedge userseed userseed fresh;
  run_bfs passes_over nvtx_scale NBFS IJ desired_nedge.
End main.
End Driver.
