(* ===== verification/Graph.v ===== *)
(** Graphs, distances and breadth-first trees: what the Graph500 kernels compute and
    their validation checks, apart from any representation of the graph. *)
From stdpp Require Import base numbers list relations.
From Stdlib Require Import ZArith Lia.
From S2P Require Import Prelude Kronecker Graph500.
Import Plain.
Open Scope Z_scope.

(** The entry of an array, -1 outside. *)
Definition at_ (a : list Z) (i : Z) : Z := if decide (0 <= i) then default (-1) (a !! Z.to_nat i) else -1.

Lemma at_read a i : 0 <= i < zlen a -> aread a i = Ok (at_ a i).
Proof.
  intros Hi. destruct (aread_in_bounds a i Hi) as (x & Hr & Hx). rewrite Hr. unfold at_.
  rewrite decide_True by lia. now rewrite Hx.
Qed.

Lemma at_insert a i j x : 0 <= i < zlen a -> at_ (<[Z.to_nat i := x]> a) j = if decide (j = i) then x else at_ a j.
Proof.
  intros Hi. unfold at_. destruct (decide (j = i)) as [->|Hne].
  - rewrite decide_True, list_lookup_insert_eq by (unfold zlen in Hi; lia). done.
  - destruct (decide (0 <= j)); [|done]. now rewrite list_lookup_insert_ne by lia.
Qed.

Lemma at_Some a (n : nat) x : a !! n = Some x -> at_ a (Z.of_nat n) = x.
Proof. intros H. unfold at_. rewrite decide_True by lia. now rewrite Nat2Z.id, H. Qed.

Lemma at_lookup a i : 0 <= i < zlen a -> a !! Z.to_nat i = Some (at_ a i).
Proof. intros Hi. destruct (aread_in_bounds a i Hi) as (x & _ & Hx). unfold at_. rewrite decide_True by lia. now rewrite Hx. Qed.

Lemma zlen_insert {A} (a : list A) i x : zlen (<[i := x]> a) = zlen a.
Proof. unfold zlen. now rewrite length_insert. Qed.

(** [fill] sets a part of an array. *)
Lemma fill_spec a lo hi x :
  0 <= lo -> lo <= hi -> hi <= zlen a ->
  exists a', fill a lo hi x = Ok a' /\ zlen a' = zlen a /\
    forall i, at_ a' i = if decide (lo <= i < hi) then x else at_ a i.
Proof.
  intros H0 Hlo Hhi. unfold fill.
  destruct (for_range_inv (fun k a' => zlen a' = zlen a /\ forall i, at_ a' i = if decide (lo <= i < k) then x else at_ a i)
    lo hi (fun k a => awrite a k x) a) as (a' & Hrun & Hl & Ha); [done| | |now exists a'].
  - split; [done|]. intros i. destruct (decide (lo <= i < lo)); [lia|done].
  - intros k b Hk [Hl Hb]. rewrite awrite_in_bounds by lia. eexists. split; [done|]. rewrite zlen_insert. split; [done|].
    intros i. rewrite at_insert, Hb by lia. destruct (decide (i = k)), (decide (lo <= i < k)), (decide (lo <= i < k + 1)); try lia; done.
Qed.

(** The next loop of the goal, with an invariant. *)
Ltac for_inv P s' HP :=
  match goal with
  | |- context [for_range ?lo ?hi ?b ?s] =>
      let Hrun := fresh "Hrun" in
      destruct (for_range_inv P lo hi b s) as (s' & Hrun & HP); [ | | |rewrite Hrun; clear Hrun; cbn [mbind res_bind]]
  end.

Lemma bump_spec a i : 0 <= i < zlen a -> bump a i = Ok (<[Z.to_nat i := at_ a i + 1]> a).
Proof. intros Hi. unfold bump. rewrite at_read by done. cbn [mbind res_bind]. now apply awrite_in_bounds. Qed.

(** Distinct numbers below a bound are no more than the bound. *)
Lemma nodup_below (l : list Z) n : NoDup l -> (forall x, x ∈ l -> 0 <= x < n) -> zlen l <= Z.max 0 n.
Proof.
  intros Hnd Hin. assert (Hsub : l ⊆+ seqZ 0 n).
  { apply NoDup_submseteq; [done|]. intros x Hx. apply elem_of_seqZ. specialize (Hin x Hx). lia. }
  apply submseteq_length in Hsub. rewrite length_seqZ in Hsub. unfold zlen. lia.
Qed.

(** ** Loops over a list *)

Fixpoint mfold {A S} (f : A -> S -> res S) (l : list A) (s : S) : res S :=
  match l with [] => Ok s | a :: l => s ← f a s; mfold f l s end.

Lemma mfold_inv {A S} (P : list A -> S -> Prop) (f : A -> S -> res S) l s :
  P [] s ->
  (forall l1 a l2 s, l = l1 ++ a :: l2 -> P l1 s -> exists s', f a s = Ok s' /\ P (l1 ++ [a]) s') ->
  exists s', mfold f l s = Ok s' /\ P l s'.
Proof.
  intros H0 Hstep. cut (forall l1 l2 s, l = l1 ++ l2 -> P l1 s -> exists s', mfold f l2 s = Ok s' /\ P l s'); [intros H; now apply (H [])|].
  clear s H0. intros l1 l2. revert l1. induction l2 as [|a l2 IH]; intros l1 s Hl Hs; simpl.
  - rewrite app_nil_r in Hl. subst l1. now exists s.
  - destruct (Hstep l1 a l2 s Hl Hs) as (s1 & -> & H1). cbn [mbind res_bind]. apply (IH (l1 ++ [a])); [|done].
    now rewrite <- app_assoc.
Qed.

(** A loop over the indices of an array, or of a part of one. *)
Lemma for_segment {A S} (a l : list A) (at0 lo : Z) (f : A -> S -> res S) s :
  (forall t x, l !! t = Some x -> aread a (at0 + lo + Z.of_nat t) = Ok x) ->
  for_range lo (lo + zlen l) (fun k s => x ← aread a (at0 + k); f x s) s = mfold f l s.
Proof.
  intros Ha. unfold for_range. replace (Z.to_nat (lo + zlen l - lo)) with (length l) by (unfold zlen; lia).
  revert lo s Ha. induction l as [|x l IH]; intros lo s Ha; simpl; [done|].
  replace (at0 + lo) with (at0 + lo + Z.of_nat 0) by lia. rewrite (Ha 0%nat x eq_refl). cbn [mbind res_bind].
  destruct (f x s) as [s'|]; [|done]. cbn [mbind res_bind]. apply IH. intros t y Hy.
  replace (at0 + (lo + 1) + Z.of_nat t) with (at0 + lo + Z.of_nat (Datatypes.S t)) by lia. now apply Ha.
Qed.

Lemma for_list {A S} (l : list A) (f : A -> S -> res S) s :
  for_range 0 (zlen l) (fun k s => x ← aread l k; f x s) s = mfold f l s.
Proof. apply (for_segment l l 0 0 f s). intros t x Hx. apply aread_Ok. split; [lia|]. now rewrite Z.add_0_r, Z.add_0_l, Nat2Z.id. Qed.

(** Partial correctness: what holds if a loop returns. *)
Lemma while_loop_ok {S} (P : S -> Prop) fuel cond body (s s' : S) :
  P s -> (forall s s', P s -> cond s = Ok true -> body s = Ok s' -> P s') ->
  while_loop fuel cond body s = Ok s' -> P s' /\ cond s' = Ok false.
Proof.
  intros Hs Hstep. revert s Hs. induction fuel as [|fuel IH]; intros s Hs Hrun; [done|]. cbn [while_loop] in Hrun.
  destruct (cond s) as [[|]|] eqn:Ec; cbn [mbind res_bind] in Hrun; [|now injection Hrun as <-|done].
  destruct (body s) as [s1|] eqn:Eb; [|done]. cbn [mbind res_bind] in Hrun. eapply IH; [|exact Hrun]. eapply Hstep; eauto.
Qed.

Lemma for_range_ok {S} (P : Z -> S -> Prop) lo hi body (s s' : S) :
  lo <= hi -> P lo s -> (forall i s s', lo <= i < hi -> P i s -> body i s = Ok s' -> P (i + 1) s') ->
  for_range lo hi body s = Ok s' -> P hi s'.
Proof.
  intros Hle. unfold for_range. remember (Z.to_nat (hi - lo)) as n eqn:En. revert lo s Hle En.
  induction n as [|n IH]; intros lo s Hle En Hs Hstep Hrun; cbn [for_n] in Hrun.
  - injection Hrun as <-. now replace hi with lo by lia.
  - destruct (body lo s) as [s1|] eqn:Eb; [|done]. cbn [mbind res_bind] in Hrun. apply (IH (lo + 1) s1); [lia|lia| | |done].
    + eapply Hstep; [|exact Hs|exact Eb]. lia.
    + intros i s2 s3 Hi. apply Hstep. lia.
Qed.

(** ** Graphs *)

(** Two vertices joined by an edge of the list; loops and negative numbers do not count. *)
Definition adj (IJ : list packed_edge) (u v : Z) : Prop :=
  0 <= u /\ 0 <= v /\ u <> v /\ (Edge u v ∈ IJ \/ Edge v u ∈ IJ).

Lemma adj_sym IJ u v : adj IJ u v -> adj IJ v u.
Proof. unfold adj. intuition. Qed.

(** The largest vertex. *)
Definition maxv (IJ : list packed_edge) : Z := foldl (fun m e => Z.max (Z.max m (v0 e)) (v1 e)) (-1) IJ.

Lemma maxv_snoc IJ e : maxv (IJ ++ [e]) = Z.max (Z.max (maxv IJ) (v0 e)) (v1 e).
Proof. unfold maxv. now rewrite foldl_app. Qed.

Lemma find_maxvtx_spec IJ : find_maxvtx IJ (zlen IJ) = Ok (maxv IJ).
Proof.
  unfold find_maxvtx. rewrite (for_list IJ (fun e m => Ok (if (if m <? v0 e then v0 e else m) <? v1 e then v1 e else if m <? v0 e then v0 e else m))).
  destruct (mfold_inv (fun l m => m = maxv l) (fun e m => Ok (if (if m <? v0 e then v0 e else m) <? v1 e then v1 e else if m <? v0 e then v0 e else m))
    IJ (-1)) as (m & -> & ->); [done| |done].
  intros l1 e l2 m _ ->. eexists. split; [done|]. rewrite maxv_snoc.
  destruct (Z.ltb_spec (maxv l1) (v0 e)); [destruct (Z.ltb_spec (v0 e) (v1 e))|destruct (Z.ltb_spec (maxv l1) (v1 e))]; lia.
Qed.

Lemma maxv_min IJ : -1 <= maxv IJ.
Proof. induction IJ as [|e IJ IH] using rev_ind; [done|]. rewrite maxv_snoc. lia. Qed.

Lemma maxv_max IJ e : e ∈ IJ -> v0 e <= maxv IJ /\ v1 e <= maxv IJ.
Proof.
  induction IJ as [|e' IJ IH] using rev_ind; intros He; [now apply not_elem_of_nil in He|]. rewrite maxv_snoc.
  apply elem_of_app in He as [He| ->%list_elem_of_singleton]; [apply IH in He|]; lia.
Qed.

Lemma maxv_below IJ n : -1 < n -> (forall e, e ∈ IJ -> v0 e < n /\ v1 e < n) -> maxv IJ < n.
Proof.
  intros Hn. induction IJ as [|e IJ IH] using rev_ind; intros H; [done|]. rewrite maxv_snoc.
  destruct (H e) as [H0 H1]; [apply elem_of_app; right; now apply list_elem_of_singleton|].
  assert (maxv IJ < n) by (apply IH; intros e' He'; apply H, elem_of_app; now left). lia.
Qed.

Lemma adj_max IJ u v : adj IJ u v -> 0 <= u <= maxv IJ /\ 0 <= v <= maxv IJ.
Proof. intros (Hu & Hv & _ & [H|H]); apply maxv_max in H; simpl in H; lia. Qed.

(** The sizes of the arrays of a kernel are 64-bit numbers. *)
Definition fits (IJ : list packed_edge) : Prop := 2 * zlen IJ + 2 * (maxv IJ + 1) + 4 < 2 ^ 59.

Lemma fits_most IJ : fits IJ -> maxv IJ < 2 ^ 63.
Proof. unfold fits. pose proof (zlen_nonneg IJ). lia. Qed.

(** Memory suffices: the allocator gives every object that an address space can
    hold.  An assumption about the run, not a promise of malloc. *)
Class MallocNoOom (M : Malloc) : Prop := { malloc_some sz n : 0 <= sz < 2 ^ 63 -> is_Some (malloc sz n) }.

Lemma int64s_small n : 0 <= n < 2 ^ 60 -> int64s n = n * 8.
Proof. intros Hn. unfold int64s. apply u64_small. unfold is_u64. lia. Qed.

Lemma malloc_int64s `{M : Malloc, !MallocLaws M} {NO : MallocNoOom M} n :
  0 <= n < 2 ^ 60 -> exists a, malloc (int64s n) 8 = Some a /\ zlen a = n.
Proof.
  intros Hn. rewrite int64s_small by done. destruct (malloc_some (n * 8) 8) as [a Ha]; [lia|]. exists a. split; [done|].
  rewrite (malloc_length _ _ _ Ha) by lia. apply Z.div_mul. lia.
Qed.

Lemma xmalloc_int64s `{M : Malloc, !MallocLaws M} {NO : MallocNoOom M} n :
  0 <= n < 2 ^ 60 -> exists a, xmalloc (int64s n) 8 = Ok a /\ zlen a = n.
Proof. intros Hn. destruct (malloc_int64s n Hn) as (a & Ha & Hl). exists a. unfold xmalloc. now rewrite Ha. Qed.

Lemma i64_small x : 0 <= x < 2 ^ 60 -> i64 x = Ok x.
Proof. intros Hx. unfold i64. rewrite decide_True by lia. done. Qed.

(** A breadth-first tree with the depths of its vertices. *)
Record bfs_ok (R : Z -> Z -> Prop) (nv root : Z) (tree : list Z) (d : Z -> Z) : Prop := {
  bo_len : nv <= zlen tree;
  bo_root : 0 <= root < nv /\ at_ tree root = root /\ d root = 0;
  bo_parent v : 0 <= v < nv -> v <> root -> 0 <= at_ tree v ->
    at_ tree v < nv /\ 0 <= at_ tree (at_ tree v) /\ R (at_ tree v) v /\ d v = d (at_ tree v) + 1;
  bo_closed u v : R u v -> 0 <= u < nv -> 0 <= at_ tree u -> 0 <= v < nv /\ 0 <= at_ tree v /\ d v <= d u + 1;
  bo_pos v : 0 <= v < nv -> 0 <= at_ tree v -> 0 <= d v }.

Section bfs_ok.
Context (R : Z -> Z -> Prop) (nv root : Z) (tree : list Z) (d : Z -> Z) (H : bfs_ok R nv root tree d).

Lemma bfs_ok_walk v : 0 <= v < nv -> 0 <= at_ tree v -> nsteps R (Z.to_nat (d v)) root v.
Proof.
  intros Hv Ht. remember (Z.to_nat (d v)) as n eqn:En. revert v Hv Ht En. induction n as [|n IH]; intros v Hv Ht En;
    pose proof (bo_pos _ _ _ _ _ H v Hv Ht) as Hp; destruct (decide (v = root)) as [->|Hne].
  - constructor.
  - destruct (bo_parent _ _ _ _ _ H v Hv Hne Ht) as (Hlt & Hpt & _ & Hd).
    pose proof (bo_pos _ _ _ _ _ H (at_ tree v) ltac:(lia) Hpt). lia.
  - destruct (bo_root _ _ _ _ _ H) as (_ & _ & Hd). lia.
  - destruct (bo_parent _ _ _ _ _ H v Hv Hne Ht) as (Hlt & Hpt & Hr & Hd).
    eapply nsteps_r; [|exact Hr]. apply IH; lia.
Qed.

Lemma bfs_ok_bound n v : nsteps R n root v -> 0 <= v < nv /\ 0 <= at_ tree v /\ d v <= Z.of_nat n.
Proof.
  revert v. induction n as [|n IH]; intros v Hn.
  - inversion Hn; subst. destruct (bo_root _ _ _ _ _ H) as (Hr & Ht & Hd). lia.
  - apply nsteps_inv_r in Hn as (u & Hu & Hr). destruct (IH u Hu) as (Hur & Hut & Hd).
    destruct (bo_closed _ _ _ _ _ H u v Hr Hur Hut) as (Hv & Ht & Hdv). lia.
Qed.

(** The tree holds the component of the root. *)
Lemma bfs_ok_component v : 0 <= v < nv /\ 0 <= at_ tree v <-> rtc R root v.
Proof.
  split.
  - intros [Hv Ht]. eapply rtc_nsteps_2. now apply bfs_ok_walk.
  - intros [n Hn]%rtc_nsteps_1. destruct (bfs_ok_bound n v Hn) as (Hv & Ht & _). now split.
Qed.

(** Its depths are the distances from the root. *)
Lemma bfs_ok_distance v :
  0 <= v < nv -> 0 <= at_ tree v ->
  nsteps R (Z.to_nat (d v)) root v /\ forall n, nsteps R n root v -> (Z.to_nat (d v) <= n)%nat.
Proof.
  intros Hv Ht. split; [now apply bfs_ok_walk|]. intros n Hn. destruct (bfs_ok_bound n v Hn) as (_ & _ & Hd). lia.
Qed.
End bfs_ok.

(** Depths do not depend on the tree. *)
Lemma bfs_ok_unique R nv root tree1 tree2 d1 d2 v :
  bfs_ok R nv root tree1 d1 -> bfs_ok R nv root tree2 d2 -> 0 <= v < nv ->
  (0 <= at_ tree1 v <-> 0 <= at_ tree2 v) /\ (0 <= at_ tree1 v -> d1 v = d2 v).
Proof.
  intros H1 H2 Hv. assert (Hiff : 0 <= at_ tree1 v <-> 0 <= at_ tree2 v).
  { pose proof (bfs_ok_component _ _ _ _ _ H1 v). pose proof (bfs_ok_component _ _ _ _ _ H2 v). tauto. }
  split; [done|]. intros Ht. pose proof (bfs_ok_walk _ _ _ _ _ H1 v Hv Ht) as W1.
  pose proof (bfs_ok_walk _ _ _ _ _ H2 v Hv (proj1 Hiff Ht)) as W2.
  pose proof (bfs_ok_bound _ _ _ _ _ H1 _ _ W2) as B1. pose proof (bfs_ok_bound _ _ _ _ _ H2 _ _ W1) as B2.
  pose proof (bo_pos _ _ _ _ _ H1 v Hv Ht). pose proof (bo_pos _ _ _ _ _ H2 v Hv (proj1 Hiff Ht)). lia.
Qed.

Definition in_tree (nv : Z) (tree : list Z) (v : Z) : Prop := 0 <= v < nv /\ 0 <= at_ tree v.
#[export] Instance in_tree_dec nv tree v : Decision (in_tree nv tree v).
Proof. unfold in_tree. apply _. Defined.

(** The length of a shortest walk. *)
Definition distance (R : Z -> Z -> Prop) (u v : Z) (k : nat) : Prop :=
  nsteps R k u v /\ forall n, nsteps R n u v -> (k <= n)%nat.

(** What a breadth-first tree is: it holds the component of the root, and the parent of
    any other vertex is a neighbour one step nearer to the root. *)
Record bfs_tree_of (R : Z -> Z -> Prop) (nv root : Z) (tree : list Z) : Prop := {
  bt_root : at_ tree root = root;
  bt_component v : in_tree nv tree v <-> rtc R root v;
  bt_parent v : in_tree nv tree v -> v <> root ->
    R (at_ tree v) v /\ exists k, distance R root (at_ tree v) k /\ distance R root v (S k) }.

Lemma bfs_ok_tree R nv root tree d : bfs_ok R nv root tree d -> bfs_tree_of R nv root tree.
Proof.
  intros H. split; [apply H|intros v; now apply bfs_ok_component with (d := d)|].
  intros v [Hv Ht] Hne. destruct (bo_parent _ _ _ _ _ H v Hv Hne Ht) as (Hp & Hpt & Hr & Hd). split; [done|].
  exists (Z.to_nat (d (at_ tree v))). pose proof (bo_pos _ _ _ _ _ H _ (conj Ht Hp) Hpt).
  replace (S (Z.to_nat (d (at_ tree v)))) with (Z.to_nat (d v)) by lia.
  split; [exact (bfs_ok_distance _ _ _ _ _ H _ (conj Ht Hp) Hpt)|exact (bfs_ok_distance _ _ _ _ _ H v Hv Ht)].
Qed.

(** The edges with both ends in the tree. *)
Definition tree_edges (nv : Z) (tree : list Z) (IJ : list packed_edge) : Z :=
  zlen (filter (fun e => in_tree nv tree (v0 e) /\ in_tree nv tree (v1 e)) IJ).

(** ** Breadth-first search with a queue *)

Section queue.
Context (nv root : Z) (nb : Z -> list Z).

(** Vertex [k] of the queue is being visited, its neighbours in [part] have been. *)
Record binv (tree q : list Z) (k : nat) (part : list Z) (d : Z -> Z) : Prop := {
  b_len : nv <= zlen tree;
  b_nodup : NoDup q;
  b_range v : v ∈ q -> 0 <= v < nv;
  b_in v : v ∈ q -> 0 <= at_ tree v;
  b_out v : 0 <= v < nv -> v ∉ q -> at_ tree v = -1;
  b_root : q !! 0%nat = Some root /\ at_ tree root = root /\ d root = 0;
  b_parent v : v ∈ q -> v <> root -> at_ tree v ∈ q /\ v ∈ nb (at_ tree v) /\ d v = d (at_ tree v) + 1;
  b_mono i j u v : (i <= j)%nat -> q !! i = Some u -> q !! j = Some v -> d u <= d v;
  b_front i u v : q !! k = Some u -> q !! i = Some v -> d v <= d u + 1;
  b_done i u w : (i < k)%nat -> q !! i = Some u -> w ∈ nb u -> w ∈ q /\ d w <= d u + 1;
  b_part u w : q !! k = Some u -> w ∈ part -> w ∈ q /\ d w <= d u + 1 }.

Lemma binv_length tree q k part d : binv tree q k part d -> zlen q <= nv.
Proof.
  intros H. pose proof (nodup_below q nv (b_nodup _ _ _ _ _ H) (b_range _ _ _ _ _ H)).
  pose proof (b_range _ _ _ _ _ H root (list_elem_of_lookup_2 _ _ _ (proj1 (b_root _ _ _ _ _ H)))). lia.
Qed.

Lemma binv_init tree :
  nv <= zlen tree -> 0 <= root < nv -> (forall v, 0 <= v < nv -> at_ tree v = if decide (v = root) then root else -1) ->
  binv tree [root] 0 [] (fun _ => 0).
Proof.
  intros Hlen Hr Ht. split; try done.
  - apply NoDup_singleton.
  - intros v ->%list_elem_of_singleton. done.
  - intros v ->%list_elem_of_singleton. rewrite Ht, decide_True by done. lia.
  - intros v Hv Hn. rewrite Ht by done. rewrite decide_False; [done|]. intros ->. apply Hn. now apply list_elem_of_singleton.
  - rewrite Ht by done. now rewrite decide_True by done.
  - intros v ->%list_elem_of_singleton Hne. now destruct Hne.
  - intros i u w Hi. lia.
  - intros u w _ Hw. now apply not_elem_of_nil in Hw.
Qed.

(** A neighbour that is in the queue already. *)
Lemma binv_old tree q k part d u j :
  binv tree q k part d -> q !! k = Some u -> 0 <= j < nv -> at_ tree j <> -1 -> binv tree q k (j :: part) d.
Proof.
  intros H Hu Hj Ht. assert (Hin : j ∈ q) by (destruct (decide (j ∈ q)) as [|Hn]; [done|]; now apply (b_out _ _ _ _ _ H) in Hn).
  destruct H as [H1 H2 H3 H4 H5 H6 H7 H8 H9 H10 H11]. split; try done.
  intros u' w Hu' [->|Hw]%elem_of_cons; [|now apply H11]. split; [done|].
  apply list_elem_of_lookup_1 in Hin as [i Hi]. now apply (H9 i).
Qed.

(** A new one enters the queue. *)
Lemma binv_new tree q k part d u j :
  binv tree q k part d -> q !! k = Some u -> j ∈ nb u -> 0 <= j < nv -> at_ tree j = -1 ->
  binv (<[Z.to_nat j := u]> tree) (q ++ [j]) k (j :: part) (fun x => if decide (x = j) then d u + 1 else d x).
Proof.
  intros H Hu Hnb Hj Ht. assert (Hout : j ∉ q) by (intros Hin; apply (b_in _ _ _ _ _ H) in Hin; lia).
  assert (Hk : (k < length q)%nat) by (eapply lookup_lt_Some, Hu). pose proof (b_range _ _ _ _ _ H) as Hrg.
  destruct H as [H1 H2 H3 H4 H5 H6 H7 H8 H9 H10 H11].
  assert (Huq : u ∈ q) by (eapply list_elem_of_lookup_2, Hu).
  assert (Hat : forall v, at_ (<[Z.to_nat j := u]> tree) v = if decide (v = j) then u else at_ tree v) by (intros; apply at_insert; lia).
  assert (Hq : forall i v, q !! i = Some v -> (if decide (v = j) then d u + 1 else d v) = d v).
  { intros i v Hi. rewrite decide_False; [done|]. intros ->. apply Hout. eapply list_elem_of_lookup_2, Hi. }
  assert (Hq' : forall v, v ∈ q -> (if decide (v = j) then d u + 1 else d v) = d v) by (intros v [i Hi]%list_elem_of_lookup_1; eauto).
  assert (Hmem : forall v, v ∈ q ++ [j] -> v ∈ q \/ v = j) by (intros v; rewrite elem_of_app, list_elem_of_singleton; tauto).
  assert (Hlk : forall i v, (q ++ [j]) !! i = Some v -> q !! i = Some v \/ (i = length q /\ v = j)).
  { intros i v [Hi|[Hge Hi]]%lookup_app_Some; [now left|]. right. apply list_lookup_singleton_Some in Hi as [Hi ->]. lia. }
  assert (Hku : forall u', (q ++ [j]) !! k = Some u' -> u' = u) by (intros u'; rewrite lookup_app_l by lia; congruence).
  assert (Hju : forall v, v ∈ q -> v <> j) by (intros v Hv ->; done).
  split.
  - now rewrite zlen_insert.
  - apply NoDup_app. split_and!; [done| |apply NoDup_singleton]. intros x Hx Hxj%list_elem_of_singleton. now subst.
  - intros v [Hv| ->]%Hmem; auto.
  - intros v Hv. rewrite Hat. destruct (decide (v = j)) as [->|Hne]; [now apply Hrg|]. apply Hmem in Hv as [Hv|]; [now apply H4|done].
  - intros v Hv Hn. rewrite Hat. rewrite elem_of_app, list_elem_of_singleton in Hn. rewrite decide_False by tauto. apply H5; tauto.
  - destruct H6 as (Hr & Htr & Hdr). assert (root ∈ q) by (eapply list_elem_of_lookup_2, Hr).
    rewrite Hat, decide_False by auto. rewrite lookup_app_l by (eapply lookup_lt_Some, Hr). split_and!; try done. now rewrite Hq'.
  - intros v Hv Hne. rewrite Hat. destruct (decide (v = j)) as [->|Hnj].
    + rewrite decide_False by auto. split_and!; [apply elem_of_app; now left|done|done].
    + apply Hmem in Hv as [Hv|]; [|done]. destruct (H7 v Hv Hne) as (Hp & Hpn & Hd). split_and!; [apply elem_of_app; now left|done|].
      rewrite Hq' by done. done.
  - intros i i' a b Hle [Ha|[-> ->]]%Hlk [Hb|[-> ->]]%Hlk.
    + rewrite (Hq _ _ Ha), (Hq _ _ Hb). eauto.
    + rewrite (Hq _ _ Ha). rewrite decide_True by done. eauto.
    + apply lookup_lt_Some in Hb. lia.
    + lia.
  - intros i a b Ha%Hku Hb%Hlk. subst a. rewrite (Hq' _ Huq). destruct Hb as [Hb|[-> ->]]; [rewrite (Hq _ _ Hb); eauto|].
    rewrite decide_True by done. lia.
  - intros i a w Hi Ha Hw. rewrite lookup_app_l in Ha by lia. destruct (H10 i a w Hi Ha Hw) as [Hwq Hd].
    rewrite (Hq' _ Hwq), (Hq _ _ Ha). split; [apply elem_of_app; now left|done].
  - intros a w Ha%Hku [->|Hw]%elem_of_cons; subst a; rewrite (Hq' _ Huq).
    + split; [apply elem_of_app; right; now apply list_elem_of_singleton|]. rewrite decide_True by done. lia.
    + destruct (H11 u w Hu Hw) as [Hwq Hd]. rewrite (Hq' _ Hwq). split; [apply elem_of_app; now left|done].
Qed.

(** All neighbours of a vertex done, the next one. *)
Lemma binv_next tree q k part d u :
  binv tree q k part d -> q !! k = Some u -> (forall w, w ∈ nb u -> w ∈ part) -> binv tree q (S k) [] d.
Proof.
  intros [H1 H2 H3 H4 H5 H6 H7 H8 H9 H10 H11] Hu Hall. split; try done.
  - intros i a b Ha Hb. pose proof (H9 i u b Hu Hb). pose proof (H8 k (S k) u a ltac:(lia) Hu Ha). lia.
  - intros i a w Hi Ha Hw. destruct (decide (i = k)) as [->|]; [|apply (H10 i); [lia|done|done]].
    assert (a = u) as -> by congruence. apply H11; auto.
  - intros a w _ Hw. now apply not_elem_of_nil in Hw.
Qed.

(** The queue is exhausted. *)
Lemma binv_end (R : Z -> Z -> Prop) tree q k part d :
  (forall u v, 0 <= u < nv -> v ∈ nb u <-> R u v) ->
  binv tree q k part d -> k = length q -> bfs_ok R nv root tree d.
Proof.
  intros HR [H1 H2 H3 H4 H5 H6 H7 H8 H9 H10 H11] ->. destruct H6 as (Hr & Htr & Hdr).
  assert (Hrq : root ∈ q) by (eapply list_elem_of_lookup_2, Hr).
  assert (Hin : forall v, 0 <= v < nv -> 0 <= at_ tree v -> v ∈ q).
  { intros v Hv Ht. destruct (decide (v ∈ q)) as [|Hn]; [done|]. apply H5 in Hn; [lia|done]. }
  split; [done|split; [now apply H3|done]| | |].
  - intros v Hv Hne Ht. destruct (H7 v (Hin v Hv Ht) Hne) as (Hp & Hn & Hd). split_and!; try done; [now apply H3|now apply H4|].
    apply HR; [now apply H3|done].
  - intros u v Huv Hu Ht. pose proof (Hin u Hu Ht) as [i Hi]%list_elem_of_lookup_1.
    destruct (H10 i u v) as [Hv Hd]; [eapply lookup_lt_Some, Hi|done|now apply HR|]. split_and!; try done; try now apply H3. now apply H4.
  - intros v Hv Ht. pose proof (Hin v Hv Ht) as [i Hi]%list_elem_of_lookup_1. rewrite <- Hdr. apply (H8 0%nat i); [lia|done|done].
Qed.

(** ** The search of the kernels *)

(** The arrays of a kernel hold the tree and the queue. *)
Definition holds (s : list Z * list Z * Z) (tree q : list Z) : Prop :=
  let '(t, vlist, k2) := s in t = tree /\ zlen vlist = nv /\ take (length q) vlist = q /\ k2 = zlen q.

Lemma holds_read s tree q k u : holds s tree q -> q !! k = Some u -> aread s.1.2 (Z.of_nat k) = Ok u.
Proof.
  destruct s as [[t vlist] k2]. intros (-> & Hl & Hq & ->) Hk. simpl. apply aread_Ok. split; [lia|]. rewrite Nat2Z.id.
  rewrite <- Hq in Hk. now apply lookup_take_Some in Hk as [Hk _].
Qed.

Lemma visit_step s tree q k part d u j :
  binv tree q k part d -> holds s tree q -> q !! k = Some u -> j ∈ nb u -> 0 <= j < nv ->
  exists s' tree' q' d', SeqCsr.bfs_visit u j s = Ok s' /\ binv tree' q' k (j :: part) d' /\ holds s' tree' q' /\ q `prefix_of` q'.
Proof.
  intros Hb Hs Hu Hn Hj. destruct s as [[t vlist] k2]. destruct Hs as (-> & Hl & Hq & ->). unfold SeqCsr.bfs_visit.
  pose proof (b_len _ _ _ _ _ Hb) as Hlen. rewrite at_read by lia. cbn [mbind res_bind].
  destruct (Z.eqb_spec (at_ tree j) (-1)) as [Ht|Ht].
  - pose proof (binv_new _ _ _ _ _ _ _ Hb Hu Hn Hj Ht) as Hb'. pose proof (binv_length _ _ _ _ _ Hb') as Hq'.
    rewrite zlen_app in Hq'. change (zlen [j]) with 1 in Hq'. pose proof (zlen_nonneg q).
    rewrite awrite_in_bounds by lia. cbn [mbind res_bind]. rewrite awrite_in_bounds by lia. cbn [mbind res_bind].
    eexists _, _, (q ++ [j]), _. split; [done|]. split; [exact Hb'|]. split; [|now exists [j]].
    unfold holds. rewrite zlen_insert, zlen_app, length_app. split_and!; try done. simpl. rewrite Nat.add_1_r.
    replace (Z.to_nat (zlen q)) with (length q) by (unfold zlen; lia).
    rewrite (take_S_r _ _ j) by (apply list_lookup_insert_eq; unfold zlen in *; lia). rewrite take_insert_ge by lia. now rewrite Hq.
  - eexists _, _, q, _. split; [done|]. split; [eapply binv_old; eauto|]. now split.
Qed.

(** The two kernels test a neighbour in different ways. *)
Lemma visit_same s tree q k part d u j :
  binv tree q k part d -> holds s tree q -> 0 <= j < nv -> SeqList.bfs_visit u j s = SeqCsr.bfs_visit u j s.
Proof.
  intros Hb Hs Hj. destruct s as [[t vlist] k2]. destruct Hs as (-> & _). unfold SeqList.bfs_visit, SeqCsr.bfs_visit.
  pose proof (b_len _ _ _ _ _ Hb). rewrite at_read by lia. cbn [mbind res_bind].
  destruct (decide (j ∈ q)) as [Hin|Hout]; [apply (b_in _ _ _ _ _ Hb) in Hin|apply (b_out _ _ _ _ _ Hb) in Hout; [rewrite Hout|done]]; [|done].
  destruct (Z.ltb_spec (at_ tree j) 0), (Z.eqb_spec (at_ tree j) (-1)); done || lia.
Qed.

Section visit.
Context (visit : Z -> Z -> list Z * list Z * Z -> res (list Z * list Z * Z)).
Hypothesis visit_is : forall s tree q k part d u j,
  binv tree q k part d -> holds s tree q -> 0 <= j < nv -> visit u j s = SeqCsr.bfs_visit u j s.

Definition visit_all (u : Z) : list Z -> list Z * list Z * Z -> res (list Z * list Z * Z) := mfold (visit u).

Lemma visit_all_part l s tree q k part d u :
  binv tree q k part d -> holds s tree q -> q !! k = Some u -> (forall j, j ∈ l -> j ∈ nb u /\ 0 <= j < nv) ->
  exists s' tree' q' part' d', visit_all u l s = Ok s' /\ binv tree' q' k part' d' /\ holds s' tree' q' /\ q `prefix_of` q' /\
    (forall j, j ∈ l -> j ∈ part') /\ part ⊆ part'.
Proof.
  revert s tree q part d. induction l as [|j l IH]; intros s tree q part d Hb Hs Hu Hl; unfold visit_all; cbn [mfold].
  { exists s, tree, q, part, d. split_and!; try done. intros j Hj. now apply not_elem_of_nil in Hj. }
  destruct (Hl j) as [Hjn Hj]; [now left|].
  rewrite (visit_is _ _ _ _ _ _ _ _ Hb Hs Hj). destruct (visit_step _ _ _ _ _ _ _ _ Hb Hs Hu Hjn Hj) as (s1 & tree1 & q1 & d1 & -> & Hb1 & Hs1 & Hp1). cbn [mbind res_bind].
  destruct (IH s1 tree1 q1 (j :: part) d1) as (s2 & tree2 & q2 & part2 & d2 & Hrun & Hb2 & Hs2 & Hp2 & Hin & Hsub); try done.
  { eapply prefix_lookup_Some; eauto. }
  { intros x Hx. apply Hl. now right. }
  exists s2, tree2, q2, part2, d2. split_and!; try done.
  - now transitivity q1.
  - intros x [->|Hx]%elem_of_cons; [|now apply Hin]. apply Hsub. now left.
  - intros x Hx. apply Hsub. now right.
Qed.

(** A vertex of the queue, all its neighbours. *)
Lemma visit_vertex s tree q k d u :
  (forall v j, 0 <= v < nv -> j ∈ nb v -> 0 <= j < nv) ->
  binv tree q k [] d -> holds s tree q -> q !! k = Some u ->
  exists s' tree' q' d', visit_all u (nb u) s = Ok s' /\ binv tree' q' (S k) [] d' /\ holds s' tree' q' /\ q `prefix_of` q'.
Proof.
  intros Hnb Hb Hs Hu. destruct (visit_all_part (nb u) s tree q k [] d u Hb Hs Hu) as (s' & tree' & q' & part & d' & Hrun & Hb' & Hs' & Hp & Hin & _).
  { intros j Hj. split; [done|]. apply (Hnb u); [|done]. eapply b_range; [exact Hb|]. eapply list_elem_of_lookup_2, Hu. }
  exists s', tree', q', d'. split_and!; try done. eapply binv_next; [exact Hb'| |exact Hin]. eapply prefix_lookup_Some; eauto.
Qed.
End visit.
End queue.
