(* ===== verification/SeqCsrProofs.v ===== *)
(** The compressed rows of seq-csr.c hold, for every vertex, its neighbours sorted and
    without repetition, and the search over them is breadth first. *)
From stdpp Require Import base numbers list sorting relations.
From Stdlib Require Import ZArith Lia.
From S2P Require Import Prelude Kronecker Graph500 Graph.
Import Plain SeqCsr.
Open Scope Z_scope.

(** ** Parts of an array *)

Lemma aread_part {A} (pre r post : list A) k t : k = zlen pre + t -> 0 <= t < zlen r -> aread (pre ++ r ++ post) k = aread r t.
Proof.
  intros -> Ht. unfold zlen, aread in *. rewrite !decide_True by lia. f_equal.
  rewrite lookup_app_r by lia. rewrite lookup_app_l by lia. f_equal. lia.
Qed.

Lemma awrite_part {A} (pre r post : list A) k t x :
  k = zlen pre + t -> 0 <= t < zlen r -> awrite (pre ++ r ++ post) k x = Ok (pre ++ <[Z.to_nat t := x]> r ++ post).
Proof.
  intros -> Ht. unfold zlen in *. rewrite awrite_in_bounds by (unfold zlen; rewrite !length_app; lia). f_equal.
  rewrite insert_app_r_alt by lia. f_equal. rewrite insert_app_l by lia. f_equal. f_equal. lia.
Qed.

Lemma concat_row {A} (rows : list (list A)) i r r' :
  rows !! i = Some r -> concat (<[i := r']> rows) = concat (take i rows) ++ r' ++ concat (drop (S i) rows).
Proof. intros Hi. rewrite insert_take_drop by (eapply lookup_lt_Some, Hi). now rewrite concat_app. Qed.

(** ** Sorting *)

Lemma i64le_le x y : i64le x y <-> x <= y.
Proof. unfold i64le, i64cmp. destruct (Z.ltb_spec x y), (Z.ltb_spec y x); lia. Qed.

#[local] Instance i64le_total : Total i64le.
Proof. intros x y. rewrite !i64le_le. lia. Qed.
#[local] Instance i64le_trans : Transitive i64le.
Proof. intros x y z. rewrite !i64le_le. lia. Qed.

Lemma sorted_lookup (l : list Z) i j x y : StronglySorted i64le l -> (i <= j)%nat -> l !! i = Some x -> l !! j = Some y -> x <= y.
Proof.
  intros Hs. revert i j. induction Hs as [|a l Hs IH Ha]; intros i j Hij Hi Hj; [done|].
  destruct i as [|i], j as [|j]; simpl in *; [simplify_eq; lia| |lia|apply (IH i j); [lia|done|done]].
  injection Hi as <-. rewrite Forall_forall in Ha. apply i64le_le, Ha. eapply list_elem_of_lookup_2, Hj.
Qed.

Lemma sorted_snoc (l : list Z) x : StronglySorted Z.lt l -> (forall y, y ∈ l -> y < x) -> StronglySorted Z.lt (l ++ [x]).
Proof.
  induction 1 as [|a l Hs IH Ha]; intros Hx; simpl; [repeat constructor|]. constructor.
  - apply IH. intros y Hy. apply Hx. now right.
  - apply Forall_app. split; [done|]. repeat constructor. apply Hx. left.
Qed.

Lemma prefix_insert (l r : list Z) x : l `prefix_of` r -> zlen l < zlen r -> l ++ [x] `prefix_of` <[length l := x]> r.
Proof.
  intros [k ->] Hlt. rewrite zlen_app in Hlt. destruct k as [|y k]; [unfold zlen in Hlt; simpl in Hlt; lia|].
  exists k. rewrite insert_app_r_alt by lia. rewrite Nat.sub_diag. simpl. now rewrite <- app_assoc.
Qed.

(** Removing repetitions from a sorted part, in place. *)
Section compact.
Context (srt : list Z) (HS : StronglySorted i64le srt).

(** [t] elements are done, [D] holds the different ones. *)
Definition compacted (t : nat) (row D : list Z) : Prop :=
  D `prefix_of` row /\ (1 <= length D <= t)%nat /\ StronglySorted Z.lt D /\ (forall x, x ∈ D <-> x ∈ take t srt) /\
  (forall n, (t <= n < length srt)%nat -> row !! n = srt !! n) /\
  exists y, srt !! (t - 1)%nat = Some y /\ D !! (length D - 1)%nat = Some y /\ forall x, x ∈ D -> x <= y.

Lemma compacted_one rest x : srt !! 0%nat = Some x -> compacted 1 (srt ++ rest) [x].
Proof.
  intros Hx. assert (Ht : take 1 srt = [x]) by (now rewrite (take_S_r _ _ _ Hx)). split_and!; simpl; try lia.
  - destruct srt as [|y srt_tail]; [done|]. injection Hx as ->. now exists (srt_tail ++ rest).
  - repeat constructor.
  - intros y. now rewrite Ht.
  - intros n Hn. now rewrite lookup_app_l by lia.
  - exists x. split_and!; try done. now intros y ->%list_elem_of_singleton.
Qed.

Lemma compacted_step t row D x y :
  compacted t row D -> zlen srt <= zlen row -> srt !! t = Some x -> D !! (length D - 1)%nat = Some y ->
  if decide (x = y) then compacted (S t) row D else compacted (S t) (<[length D := x]> row) (D ++ [x]).
Proof.
  intros (Hp & Hlen & Hs & Hmem & Hrow & y' & Hy' & HD & Hmax) Hl Hx Hy. assert (y' = y) as -> by congruence.
  pose proof (lookup_lt_Some _ _ _ Hx) as Ht.
  assert (Hle : y <= x) by (eapply (sorted_lookup srt (t - 1) t); eauto; lia).
  assert (Htake : take (S t) srt = take t srt ++ [x]) by (now apply take_S_r).
  assert (Hlast : srt !! (S t - 1)%nat = Some x) by (now replace (S t - 1)%nat with t by lia).
  destruct (decide (x = y)) as [->|Hne].
  - split_and!; try done; try lia.
    + intros z. rewrite Htake, elem_of_app, list_elem_of_singleton, Hmem. split; [now left|]. intros [|Hz]; [done|]. subst z.
      apply Hmem. eapply list_elem_of_lookup_2, HD.
    + intros n Hn. apply Hrow. lia.
    + exists y. auto.
  - split_and!; rewrite ?length_app; simpl; try lia.
    + apply prefix_insert; [done|]. unfold zlen in *. apply prefix_length in Hp. lia.
    + apply sorted_snoc; [done|]. intros z Hz. apply Hmax in Hz. lia.
    + intros z. rewrite Htake, !elem_of_app, Hmem. done.
    + intros n Hn. rewrite list_lookup_insert_ne by lia. apply Hrow. lia.
    + exists x. split_and!; [done| |].
      * rewrite lookup_app_r by lia. now replace (length D + 1 - 1 - length D)%nat with 0%nat by lia.
      * intros z [Hz| ->%list_elem_of_singleton]%elem_of_app; [apply Hmax in Hz|]; lia.
Qed.
End compact.

Lemma qsort_mid pre l rest post b n :
  b = zlen pre -> n = zlen l ->
  qsort (pre ++ (l ++ rest) ++ post) b n = Ok (pre ++ (merge_sort i64le l ++ rest) ++ post).
Proof.
  intros -> ->. unfold qsort. rewrite decide_True by (rewrite !zlen_app; pose proof (zlen_nonneg pre); pose proof (zlen_nonneg l);
    pose proof (zlen_nonneg rest); pose proof (zlen_nonneg post); lia).
  unfold zlen. rewrite !Nat2Z.id, take_app_length, drop_app_length, <- app_assoc, take_app_length.
  rewrite <- drop_drop, !drop_app_length. now rewrite <- !app_assoc.
Qed.

(** ** Degrees and neighbours *)

(** How often an edge counts for a vertex. *)
Definition ends (e : packed_edge) (u : Z) : Z :=
  if decide (v0 e = v1 e) then 0
  else (if decide (v0 e = u) then 1 else 0) + (if decide (v1 e = u) then 1 else 0).

Fixpoint degree (l : list packed_edge) (u : Z) : Z :=
  match l with [] => 0 | e :: l => ends e u + degree l u end.

(** The vertices an edge adds to a row. *)
Definition nbr1 (u : Z) (e : packed_edge) : list Z :=
  if (0 <=? v0 e) && (0 <=? v1 e) && negb (v0 e =? v1 e)
  then (if decide (v0 e = u) then [v1 e] else []) ++ (if decide (v1 e = u) then [v0 e] else [])
  else [].
Definition nbrs (l : list packed_edge) (u : Z) : list Z := concat (nbr1 u <$> l).

Lemma degree_snoc l e u : degree (l ++ [e]) u = degree l u + ends e u.
Proof. induction l as [|e' l IH]; simpl; lia. Qed.

Lemma nbrs_snoc l e u : nbrs (l ++ [e]) u = nbrs l u ++ nbr1 u e.
Proof. unfold nbrs. rewrite fmap_app, concat_app. simpl. now rewrite app_nil_r. Qed.

Lemma ends_pos e u : 0 <= ends e u.
Proof. unfold ends. repeat case_decide; lia. Qed.

Lemma degree_pos l u : 0 <= degree l u.
Proof. induction l as [|e l IH]; simpl; [lia|]. pose proof (ends_pos e u). lia. Qed.

Lemma nbr1_length u e : zlen (nbr1 u e) <= ends e u.
Proof.
  unfold nbr1, ends. destruct (Z.eqb_spec (v0 e) (v1 e)) as [->|Hne]; simpl.
  - rewrite andb_false_r. rewrite decide_True by done. done.
  - rewrite (decide_False (P := v0 e = v1 e)) by done. destruct (_ && _ && _); repeat case_decide; unfold zlen; simpl; lia.
Qed.

Lemma nbrs_length l u : zlen (nbrs l u) <= degree l u.
Proof.
  induction l as [|e l IH]; [done|]. change (nbrs (e :: l) u) with (nbr1 u e ++ nbrs l u). cbn [degree]. rewrite zlen_app. pose proof (nbr1_length u e). lia.
Qed.

Lemma nbrs_prefix_length l1 l2 u : zlen (nbrs l1 u) <= zlen (nbrs (l1 ++ l2) u).
Proof. unfold nbrs. rewrite fmap_app, concat_app, zlen_app. pose proof (zlen_nonneg (concat (nbr1 u <$> l2))). lia. Qed.

Lemma elem_of_nbrs l u x : 0 <= u -> x ∈ nbrs l u <-> adj l u x.
Proof.
  intros Hu. unfold nbrs, adj. rewrite list_elem_of_In, in_concat. split.
  - intros (r & Hr & Hx). apply list_elem_of_In in Hr. apply list_elem_of_fmap in Hr as (e & -> & He). apply list_elem_of_In in Hx. unfold nbr1 in Hx.
    destruct (Z.leb_spec 0 (v0 e)), (Z.leb_spec 0 (v1 e)), (Z.eqb_spec (v0 e) (v1 e)); simpl in Hx;
      try (now apply not_elem_of_nil in Hx).
    destruct e as [a b]; simpl in *. apply elem_of_app in Hx as [Hx|Hx]; case_decide; simplify_eq;
      try (now apply not_elem_of_nil in Hx); apply list_elem_of_singleton in Hx as ->; auto.
  - intros (_ & Hx & Hne & He).
    assert (H : exists e, e ∈ l /\ x ∈ nbr1 u e).
    { destruct He as [He|He]; [exists (Edge u x)|exists (Edge x u)]; (split; [done|]); unfold nbr1; simpl.
      - destruct (Z.leb_spec 0 u), (Z.leb_spec 0 x), (Z.eqb_spec u x); try lia. simpl. rewrite decide_True by done. simpl. left.
      - destruct (Z.leb_spec 0 u), (Z.leb_spec 0 x), (Z.eqb_spec x u); try lia. simpl. rewrite (decide_True (P := u = u)) by done.
        apply elem_of_app. right. left. }
    destruct H as (e & He' & Hxe). exists (nbr1 u e). split; apply list_elem_of_In; [|done]. apply list_elem_of_fmap. eauto.
Qed.

(** ** Rows *)

Section csr.
Context (IJ : list packed_edge).
Notation nv := (maxv IJ + 1).

(** The room of a row and where it starts. *)
Definition cap (u : Z) : Z := Z.max (degree IJ u) MINVECT_SIZE.
Fixpoint off (n : nat) : Z := match n with O => 0 | S n => off n + cap (Z.of_nat n) end.

Fixpoint degrees (l : list packed_edge) (n : nat) : Z := match n with O => 0 | S n => degrees l n + degree l (Z.of_nat n) end.

Lemma degrees_cons e l n : degrees (e :: l) n = degrees [e] n + degrees l n.
Proof. induction n as [|n IH]; simpl in *; lia. Qed.

Lemma degrees_single e n : degrees [e] n <= (if decide (0 <= v0 e < Z.of_nat n) then 1 else 0) + (if decide (0 <= v1 e < Z.of_nat n) then 1 else 0).
Proof.
  induction n as [|n IH]; simpl.
  - repeat case_decide; lia.
  - unfold ends. repeat case_decide; lia.
Qed.

Lemma degrees_max l n : degrees l n <= 2 * zlen l.
Proof.
  induction l as [|e l IH].
  - induction n as [|n IH]; simpl in *; [done|]. unfold zlen in *. simpl in *. lia.
  - rewrite degrees_cons, zlen_cons. pose proof (degrees_single e n). repeat case_decide; lia.
Qed.

Lemma off_max n : 0 <= off n <= 2 * zlen IJ + 2 * Z.of_nat n.
Proof.
  assert (H : 0 <= off n <= degrees IJ n + 2 * Z.of_nat n).
  { induction n as [|n IH]; simpl; [lia|]. unfold cap, MINVECT_SIZE. pose proof (degree_pos IJ (Z.of_nat n)). lia. }
  pose proof (degrees_max IJ n). lia.
Qed.

Lemma cap_pos u : 0 < cap u.
Proof. unfold cap, MINVECT_SIZE. lia. Qed.

(** A list cut into rows. *)
Lemma cut_rows n (l : list Z) :
  zlen l = off n -> exists rows, l = concat rows /\ length rows = n /\ forall i r, rows !! i = Some r -> zlen r = cap (Z.of_nat i).
Proof.
  revert l. induction n as [|n IH]; intros l Hl; simpl in Hl.
  - exists []. split_and!; [apply nil_length_inv; unfold zlen in Hl; lia|done|done].
  - pose proof (off_max n). pose proof (cap_pos (Z.of_nat n)). set (k := Z.to_nat (off n)).
    destruct (IH (take k l)) as (rows & Hc & Hn & Hr); [unfold zlen in *; rewrite length_take; lia|].
    exists (rows ++ [drop k l]). split_and!.
    + rewrite concat_app, <- Hc. cbn [concat]. rewrite app_nil_r. symmetry. apply take_drop.
    + rewrite length_app. simpl. lia.
    + intros i r [Hi|[Hge Hi]]%lookup_app_Some; [now apply Hr|]. apply list_lookup_singleton_Some in Hi as [Hi <-].
      replace i with n by lia. unfold zlen in *. rewrite length_drop. lia.
Qed.

(** The arrays hold the rows [c]. *)
Definition rows_ok (rows : list (list Z)) (c : Z -> list Z) : Prop :=
  length rows = Z.to_nat nv /\ forall u r, rows !! u = Some r -> zlen r = cap (Z.of_nat u) /\ c (Z.of_nat u) `prefix_of` r.

Record crep (xo st : list Z) (c : Z -> list Z) : Prop := {
  cr_len : zlen xo = 2 * nv + 2;
  cr_off u : 0 <= u <= nv -> at_ xo (XOFF u) = off (Z.to_nat u);
  cr_end u : 0 <= u < nv -> at_ xo (XENDOFF u) = off (Z.to_nat u) + zlen (c u);
  cr_rows : exists a b rows, st = a :: b :: concat rows /\ rows_ok rows c }.

Definition upd (c : Z -> list Z) (i : Z) (r : list Z) (u : Z) : list Z := if decide (u = i) then r else c u.

Lemma off_rows rows c i : rows_ok rows c -> (i <= length rows)%nat -> zlen (concat (take i rows)) = off i.
Proof.
  intros [Hn Hr]. induction i as [|i IH]; intros Hi; simpl; [done|].
  destruct (lookup_lt_is_Some_2 rows i) as [r Hri]; [lia|]. rewrite (take_S_r _ _ _ Hri), concat_app, zlen_app, IH by lia. simpl.
  rewrite app_nil_r. now rewrite (proj1 (Hr i r Hri)).
Qed.

(** One row and the rest. *)
Lemma crep_focus xo st c i :
  crep xo st c -> 0 <= i < nv ->
  exists pre r post, st = pre ++ r ++ post /\ zlen pre = 2 + off (Z.to_nat i) /\ zlen r = cap i /\ c i `prefix_of` r /\
    forall r' ci, zlen r' = zlen r -> ci `prefix_of` r' ->
      crep (<[Z.to_nat (XENDOFF i) := off (Z.to_nat i) + zlen ci]> xo) (pre ++ r' ++ post) (upd c i ci).
Proof.
  intros [Hlen Hoff Hend (a & b & rows & -> & Hrows)] Hi. pose proof Hrows as [Hn Hr].
  destruct (lookup_lt_is_Some_2 rows (Z.to_nat i)) as [r Hri]; [lia|]. destruct (Hr _ _ Hri) as [Hcap Hpre]. rewrite Z2Nat.id in Hcap, Hpre by lia.
  exists (a :: b :: concat (take (Z.to_nat i) rows)), r, (concat (drop (S (Z.to_nat i)) rows)).
  assert (Hcat : forall r', a :: b :: concat (<[Z.to_nat i := r']> rows) =
    (a :: b :: concat (take (Z.to_nat i) rows)) ++ r' ++ concat (drop (S (Z.to_nat i)) rows)).
  { intros r'. rewrite (concat_row _ _ _ r' Hri). done. }
  split_and!; try done.
  - rewrite <- Hcat. now rewrite list_insert_id.
  - rewrite !zlen_cons, (off_rows _ _ _ Hrows) by lia. lia.
  - intros r' ci Hlr Hpi. split.
    + now rewrite zlen_insert.
    + intros u Hu. rewrite at_insert by (unfold XENDOFF in *; lia). unfold XOFF, XENDOFF in *. rewrite decide_False by lia. now apply Hoff.
    + intros u Hu. rewrite at_insert by (unfold XENDOFF in *; lia). unfold upd, XENDOFF in *. destruct (decide (u = i)) as [->|Hne].
      * rewrite decide_True by lia. done.
      * rewrite decide_False by lia. now apply Hend.
    + eexists a, b, (<[Z.to_nat i := r']> rows). split; [symmetry; apply Hcat|]. split; [now rewrite length_insert|].
      intros u x Hx. unfold upd. destruct (decide (u = Z.to_nat i)) as [->|Hne].
      * rewrite list_lookup_insert_eq in Hx by (eapply lookup_lt_Some, Hri). injection Hx as <-. rewrite Z2Nat.id by lia.
        rewrite decide_True by done. split; [lia|done].
      * rewrite list_lookup_insert_ne in Hx by done. rewrite decide_False by lia. now apply Hr.
Qed.

(** ** Construction *)

Lemma edge_range e : e ∈ IJ -> v0 e < nv /\ v1 e < nv.
Proof. intros He. pose proof (maxv_max IJ e He). lia. Qed.

Definition count_edge (e : packed_edge) (xo : list Z) : res (list Z) :=
  if v0 e =? v1 e then Ok xo else
  xo ← if 0 <=? v0 e then bump xo (XOFF (v0 e)) else Ok xo;
  if 0 <=? v1 e then bump xo (XOFF (v1 e)) else Ok xo.

(** An entry is counted for the end of an edge. *)
Lemma bump_end a w (g : Z -> Z) :
  zlen a = 2 * nv + 2 -> w < nv -> (forall u, 0 <= u < nv -> at_ a (XOFF u) = g u) ->
  exists a', (if 0 <=? w then bump a (XOFF w) else Ok a) = Ok a' /\ zlen a' = 2 * nv + 2 /\
    forall u, 0 <= u < nv -> at_ a' (XOFF u) = g u + (if decide (w = u) then 1 else 0).
Proof.
  intros Hl Hw Ha. unfold XOFF in *. destruct (Z.leb_spec 0 w) as [H0|H0].
  - rewrite bump_spec by lia. eexists. split; [done|]. rewrite zlen_insert. split; [done|]. intros u Hu. rewrite at_insert by lia.
    destruct (decide (w = u)) as [->|]; [rewrite decide_True by lia|rewrite decide_False by lia]; rewrite Ha by lia; lia.
  - exists a. split_and!; try done. intros u Hu. rewrite decide_False by lia. rewrite Ha by lia. lia.
Qed.

Lemma count_edges xo :
  zlen xo = 2 * nv + 2 -> (forall u, 0 <= u < nv -> at_ xo (XOFF u) = 0) ->
  exists xo', mfold count_edge IJ xo = Ok xo' /\ zlen xo' = 2 * nv + 2 /\ forall u, 0 <= u < nv -> at_ xo' (XOFF u) = degree IJ u.
Proof.
  intros Hl H0.
  destruct (mfold_inv (fun l a => zlen a = 2 * nv + 2 /\ forall u, 0 <= u < nv -> at_ a (XOFF u) = degree l u) count_edge IJ xo)
    as (xo' & Hrun & Hl' & Ha); [done| |now exists xo'].
  intros l1 e l2 a Hl12 [Hla Ha]. destruct (edge_range e) as [Hv0 Hv1]; [rewrite Hl12; apply elem_of_app; right; left|].
  unfold count_edge. destruct (Z.eqb_spec (v0 e) (v1 e)) as [Heq|Hne].
  - eexists. split_and!; try done. intros u Hu. rewrite degree_snoc, Ha by done. unfold ends. rewrite decide_True by done. lia.
  - destruct (bump_end a (v0 e) (degree l1) Hla Hv0 Ha) as (a1 & -> & Hl1 & Ha1). cbn [mbind res_bind].
    destruct (bump_end a1 (v1 e) _ Hl1 Hv1 Ha1) as (a2 & -> & Hl2 & Ha2). eexists. split_and!; try done.
    intros u Hu. rewrite Ha2, degree_snoc by done. unfold ends. rewrite (decide_False (P := v0 e = v1 e)) by done. lia.
Qed.

Lemma off_S k : 0 <= k -> off (Z.to_nat (k + 1)) = off (Z.to_nat k) + cap k.
Proof. intros Hk. replace (Z.to_nat (k + 1)) with (S (Z.to_nat k)) by lia. simpl. now rewrite Z2Nat.id. Qed.

Lemma nv_pos : 0 <= nv.
Proof. pose proof (maxv_min IJ). lia. Qed.

Context `{M : Malloc, !MallocLaws M} {NO : MallocNoOom M}.

(** Offsets and room for every row, nothing in them. *)
Lemma crep_empty xo st :
  zlen xo = 2 * nv + 2 -> (forall u, 0 <= u <= nv -> at_ xo (XOFF u) = off (Z.to_nat u)) ->
  (forall u, 0 <= u < nv -> at_ xo (XENDOFF u) = off (Z.to_nat u)) -> zlen st = off (Z.to_nat nv) + MINVECT_SIZE -> crep xo st (fun _ => []).
Proof.
  intros Hl Hev Hod Hs. pose proof (off_max (Z.to_nat nv)). split; [done|done|intros u Hu; rewrite Hod by done; unfold zlen; simpl; lia|].
  destruct st as [|a [|b st]]; [unfold zlen, MINVECT_SIZE in *; simpl in *; lia|unfold zlen, MINVECT_SIZE in *; simpl in *; lia|].
  rewrite !zlen_cons in Hs. destruct (cut_rows (Z.to_nat nv) st) as (rows & -> & Hn & Hr); [unfold MINVECT_SIZE in *; lia|].
  exists a, b, rows. split; [done|]. split; [done|]. intros u r Hu. split; [now apply Hr|apply prefix_nil].
Qed.

Lemma setup_spec xo0 :
  fits IJ -> zlen xo0 = 2 * nv + 2 -> exists xo st, setup_deg_off IJ (zlen IJ) nv xo0 = Ok (xo, st) /\ crep xo st (fun _ => []).
Proof.
  intros Hfits Hl0. pose proof nv_pos as Hnv. unfold setup_deg_off.
  destruct (fill_spec xo0 0 (2 * nv + 2) 0) as (xo & -> & Hl & Ha); [lia|lia|lia|]. cbn [mbind res_bind].
  change (for_range 0 (zlen IJ) _ xo) with (for_range 0 (zlen IJ) (fun k s => x ← aread IJ k; count_edge x s) xo). rewrite for_list.
  destruct (count_edges xo) as (xo1 & -> & Hl1 & Ha1); [lia|intros u Hu; rewrite Ha, decide_True by (unfold XOFF; lia); done|]. cbn [mbind res_bind].
  for_inv (fun k '(a, acc) => zlen a = 2 * nv + 2 /\ acc = off (Z.to_nat k) /\
    (forall u, 0 <= u < k -> at_ a (XOFF u) = off (Z.to_nat u)) /\
    forall u, k <= u < nv -> at_ a (XOFF u) = degree IJ u) s HP; [lia|split_and!; [done|done|intros; lia|done]| |].
  { intros k [a acc] Hk (Hla & -> & Hlt & Hge). unfold XOFF in *. rewrite at_read by lia. cbn [mbind res_bind]. rewrite awrite_in_bounds by lia.
    cbn [mbind res_bind]. eexists. split; [done|]. cbv beta match. rewrite zlen_insert. split_and!; [done| | |].
    - rewrite off_S, Hge by lia. unfold cap. destruct (Z.ltb_spec (degree IJ k) MINVECT_SIZE); lia.
    - intros u Hu. rewrite at_insert by lia. destruct (decide (u = k)) as [->|]; [now rewrite decide_True|].
      rewrite decide_False by lia. apply Hlt. lia.
    - intros u Hu. rewrite at_insert, decide_False by lia. apply Hge. lia. }
  destruct s as [xo2 acc]. destruct HP as (Hl2 & -> & Ha2 & _). rewrite awrite_in_bounds by (unfold XOFF; lia). cbn [mbind res_bind].
  for_inv (fun k a => zlen a = 2 * nv + 2 /\ (forall u, 0 <= u <= nv -> at_ a (XOFF u) = off (Z.to_nat u)) /\
    forall u, 0 <= u < k -> at_ a (XENDOFF u) = off (Z.to_nat u)) xo3 HP; [lia| | |].
  { rewrite zlen_insert. split_and!; [done| |intros; lia]. intros u Hu. unfold XOFF in *. rewrite at_insert by lia.
    destruct (decide (u = nv)) as [->|]; [now rewrite decide_True|]. rewrite decide_False by lia. apply Ha2. lia. }
  { intros k a Hk (Hla & Hev & Hod). unfold XOFF, XENDOFF in *. rewrite at_read by lia. cbn [mbind res_bind]. rewrite awrite_in_bounds by lia.
    eexists. split; [done|]. rewrite zlen_insert. split_and!; [done| |]; intros u Hu; rewrite at_insert by lia.
    - rewrite decide_False by lia. now apply Hev.
    - destruct (decide (u = k)) as [->|]; [rewrite decide_True by lia; apply Hev; lia|]. rewrite decide_False by lia. apply Hod. lia. }
  destruct HP as (Hl3 & Hev & Hod). pose proof (off_max (Z.to_nat nv)) as Hmax. unfold fits in Hfits. rewrite Z2Nat.id in Hmax by lia.
  rewrite i64_small by (unfold MINVECT_SIZE; lia). cbn [mbind res_bind]. unfold xmalloc_large_ext, xmalloc_large.
  destruct (xmalloc_int64s (off (Z.to_nat nv) + MINVECT_SIZE)) as (st0 & -> & Hs0); [unfold MINVECT_SIZE; lia|]. cbn [mbind res_bind].
  destruct (fill_spec st0 0 (off (Z.to_nat nv) + MINVECT_SIZE) (-1)) as (st & -> & Hs & _); [lia|unfold MINVECT_SIZE; lia|lia|].
  cbn [mbind res_bind]. exists xo3, st. split; [done|]. apply crep_empty; [done|done|done|lia].
Qed.

Lemma crep_ext xo st c c' : crep xo st c -> (forall u, c u = c' u) -> crep xo st c'.
Proof.
  intros [H1 H2 H3 (a & b & rows & -> & Hn & Hr)] Hc. split; try done.
  - intros u Hu. rewrite <- Hc. now apply H3.
  - exists a, b, rows. split; [done|]. split; [done|]. intros u r Hu. rewrite <- Hc. now apply Hr.
Qed.

Lemma scatter_spec xo st c i j :
  crep xo st c -> 0 <= i < nv -> zlen (c i) < cap i ->
  exists xo' st', scatter_edge i j (xo, st) = Ok (xo', st') /\ crep xo' st' (upd c i (c i ++ [j])).
Proof.
  intros Hc Hi Hroom. pose proof (cr_len _ _ _ Hc) as Hl. unfold scatter_edge.
  destruct (crep_focus _ _ _ _ Hc Hi) as (pre & r & post & -> & Hpre & Hr & Hpf & Hput).
  rewrite at_read by (unfold XENDOFF; lia). rewrite (cr_end _ _ _ Hc) by done. cbn [mbind res_bind].
  pose proof (zlen_nonneg (c i)). rewrite (awrite_in_bounds xo) by (unfold XENDOFF; lia). cbn [mbind res_bind].
  rewrite (awrite_part pre r post _ (zlen (c i))) by (unfold xadj, MINVECT_SIZE; lia). cbn [mbind res_bind].
  eexists _, _. split; [done|]. replace (off (Z.to_nat i) + zlen (c i) + 1) with (off (Z.to_nat i) + zlen (c i ++ [j])) by (rewrite zlen_app; unfold zlen; simpl; lia).
  apply Hput; [now rewrite zlen_insert|]. replace (Z.to_nat (zlen (c i))) with (length (c i)) by (unfold zlen; lia). apply prefix_insert; [done|lia].
Qed.

Definition gather_edge (e : packed_edge) (g : list Z * list Z) : res (list Z * list Z) :=
  if (0 <=? v0 e) && (0 <=? v1 e) && negb (v0 e =? v1 e)
  then g ← scatter_edge (v0 e) (v1 e) g; scatter_edge (v1 e) (v0 e) g else Ok g.

Lemma nbrs_room l1 l2 u : IJ = l1 ++ l2 -> zlen (nbrs l1 u) <= cap u.
Proof.
  intros Hl. pose proof (nbrs_prefix_length l1 l2 u) as H. rewrite <- Hl in H. pose proof (nbrs_length IJ u).
  unfold cap, MINVECT_SIZE. lia.
Qed.

Lemma gather_spec xo st :
  crep xo st (fun _ => []) -> exists xo' st', mfold gather_edge IJ (xo, st) = Ok (xo', st') /\ crep xo' st' (nbrs IJ).
Proof.
  intros H0. destruct (mfold_inv (fun l g => crep g.1 g.2 (nbrs l)) gather_edge IJ (xo, st)) as ([xo' st'] & Hrun & Hc); [done| |eauto].
  intros l1 e l2 [a b] Hl Hc. cbn [fst snd] in Hc. destruct (edge_range e) as [H1 H2]; [rewrite Hl; apply elem_of_app; right; left|].
  assert (Hroom : forall u, zlen (nbrs l1 u) + zlen (nbr1 u e) <= cap u).
  { intros u. rewrite <- zlen_app, <- nbrs_snoc. apply (nbrs_room (l1 ++ [e]) l2). now rewrite <- app_assoc. }
  unfold gather_edge. pose proof (Hroom (v0 e)) as R0. pose proof (Hroom (v1 e)) as R1. unfold nbr1 in R0, R1.
  destruct ((0 <=? v0 e) && (0 <=? v1 e) && negb (v0 e =? v1 e)) eqn:Econd.
  - apply andb_true_iff in Econd as [[E0 E1]%andb_true_iff Ene]. apply Z.leb_le in E0, E1. apply negb_true_iff, Z.eqb_neq in Ene.
    rewrite !(decide_True (P := v0 e = v0 e)), (decide_False (P := v1 e = v0 e)) in R0 by congruence.
    rewrite !(decide_True (P := v1 e = v1 e)), (decide_False (P := v0 e = v1 e)) in R1 by congruence. simpl in R0, R1.
    destruct (scatter_spec a b _ (v0 e) (v1 e) Hc) as (a1 & b1 & -> & Hc1); [lia|unfold zlen in *; simpl in *; lia|]. cbn [mbind res_bind].
    destruct (scatter_spec a1 b1 _ (v1 e) (v0 e) Hc1) as (a2 & b2 & -> & Hc2); [lia|unfold upd; rewrite decide_False by congruence; unfold zlen in *; simpl in *; lia|].
    eexists. split; [done|]. cbn [fst snd]. eapply crep_ext; [exact Hc2|]. intros u. rewrite nbrs_snoc. unfold upd, nbr1.
    assert (Etrue : (0 <=? v0 e) && (0 <=? v1 e) && negb (v0 e =? v1 e) = true).
    { apply andb_true_iff. split; [apply andb_true_iff; split; now apply Z.leb_le|]. now apply negb_true_iff, Z.eqb_neq. }
    rewrite Etrue. destruct (decide (u = v1 e)) as [->|Hu1].
    + rewrite !(decide_False (P := v1 e = v0 e)), !(decide_False (P := v0 e = v1 e)), !(decide_True (P := v1 e = v1 e)) by congruence. done.
    + rewrite (decide_False (P := v1 e = u)) by congruence. destruct (decide (u = v0 e)) as [->|Hu0].
      * rewrite (decide_True (P := v0 e = v0 e)) by done. done.
      * rewrite (decide_False (P := v0 e = u)) by congruence. simpl. now rewrite app_nil_r.
  - eexists. split; [done|]. cbn [fst snd]. eapply crep_ext; [exact Hc|]. intros u. rewrite nbrs_snoc. unfold nbr1. rewrite Econd. now rewrite app_nil_r.
Qed.

(** The loop that compacts a row. *)
Lemma compact_loop (srt pre rest post : list Z) (b : Z) :
  StronglySorted i64le srt -> zlen pre = 2 + b -> (1 < length srt)%nat ->
  exists row D, for_range (b + 1) (b + zlen srt) (fun k '(kcur, a) =>
      x ← aread a (xadj k); y ← aread a (xadj kcur);
      if x =? y then Ok (kcur, a) else a ← awrite a (xadj (kcur + 1)) x; Ok (kcur + 1, a)) (b, pre ++ (srt ++ rest) ++ post) =
    Ok (b + zlen D - 1, pre ++ row ++ post) /\ zlen row = zlen (srt ++ rest) /\ compacted srt (length srt) row D.
Proof.
  intros Hs Hpre Hlen. destruct (lookup_lt_is_Some_2 srt 0) as [x0 Hx0]; [lia|].
  for_inv (fun k '(kcur, a) => exists row D, a = pre ++ row ++ post /\ kcur = b + zlen D - 1 /\
    zlen row = zlen (srt ++ rest) /\ compacted srt (Z.to_nat (k - b)) row D) s HP.
  - unfold zlen. lia.
  - exists (srt ++ rest), [x0]. split_and!; try done; [unfold zlen; simpl; lia|]. replace (Z.to_nat (b + 1 - b)) with 1%nat by lia. now apply compacted_one.
  - intros k [kcur a] Hk (row & D & -> & -> & Hrow & Hcp). set (t := Z.to_nat (k - b)) in *. assert (Hkt : k = b + Z.of_nat t) by lia.
    destruct (lookup_lt_is_Some_2 srt t) as [x Hx]; [unfold zlen in Hk; lia|].
    pose proof Hcp as (Hp & Hl & _ & _ & Hsame & y & _ & HD & _). pose proof (prefix_length _ _ Hp) as HpL.
    rewrite zlen_app in Hrow. pose proof (zlen_nonneg rest). unfold xadj, MINVECT_SIZE. pose proof (lookup_lt_Some _ _ _ Hx) as Hxl.
    rewrite (aread_part pre row post (2 + k) (Z.of_nat t)) by (unfold zlen in *; lia).
    assert (Hrx : aread row (Z.of_nat t) = Ok x).
    { apply aread_Ok. split; [lia|]. rewrite Nat2Z.id, Hsame; [done|]. apply lookup_lt_Some in Hx. lia. }
    rewrite Hrx. cbn [mbind res_bind]. rewrite (aread_part pre row post _ (Z.of_nat (length D - 1))) by (unfold zlen in *; lia).
    assert (Hry : aread row (Z.of_nat (length D - 1)) = Ok y).
    { apply aread_Ok. split; [lia|]. rewrite Nat2Z.id. eapply prefix_lookup_Some; eauto. }
    rewrite Hry. cbn [mbind res_bind]. pose proof (compacted_step srt Hs t row D x y Hcp ltac:(unfold zlen in *; lia) Hx HD) as Hstep.
    replace (Z.to_nat (k + 1 - b)) with (S t) by lia. destruct (Z.eqb_spec x y) as [->|Hne].
    + rewrite decide_True in Hstep by done. eexists. split; [done|]. exists row, D. split_and!; try done. now rewrite zlen_app.
    + rewrite decide_False in Hstep by done. rewrite (awrite_part pre row post _ (Z.of_nat (length D))) by (unfold zlen in *; apply lookup_lt_Some in Hx; lia).
      cbn [mbind res_bind]. eexists. split; [done|]. exists (<[length D := x]> row), (D ++ [x]). rewrite Nat2Z.id.
      split_and!; try done; [rewrite zlen_app; unfold zlen; simpl; lia|rewrite zlen_insert, zlen_app; lia].
  - destruct s as [kcur a]. destruct HP as (row & D & -> & -> & Hrow & Hcp). exists row, D. split_and!; try done.
    now replace (Z.to_nat (b + zlen srt - b)) with (length srt) in Hcp by (unfold zlen; lia).
Qed.

(** The loop that clears the rest of a row. *)
Lemma clear_loop (pre row post D : list Z) (b hi : Z) :
  zlen pre = 2 + b -> D `prefix_of` row -> b + zlen D <= hi -> hi <= b + zlen row ->
  exists row', for_range (b + zlen D) hi (fun k a => awrite a (xadj k) (-1)) (pre ++ row ++ post) = Ok (pre ++ row' ++ post) /\
    zlen row' = zlen row /\ D `prefix_of` row'.
Proof.
  intros Hpre HD Hlo Hhi.
  for_inv (fun (k : Z) a => exists row', a = pre ++ row' ++ post /\ zlen row' = zlen row /\ D `prefix_of` row') s HP.
  - done.
  - now exists row.
  - intros k a Hk (row' & -> & Hl & Hp). unfold xadj, MINVECT_SIZE. pose proof (zlen_nonneg D).
    rewrite (awrite_part pre row' post _ (k - b)) by lia. eexists. split; [done|]. eexists. split; [done|]. rewrite zlen_insert. split; [done|].
    destruct Hp as [z ->]. rewrite insert_app_r_alt by (unfold zlen in *; lia). now eexists.
  - destruct HP as (row' & -> & Hl & Hp). now exists row'.
Qed.

Lemma pack_spec xo st c i :
  crep xo st c -> 0 <= i < nv ->
  exists xo' st' D, pack_vtx_edges i (xo, st) = Ok (xo', st') /\ crep xo' st' (upd c i D) /\
    StronglySorted Z.lt D /\ forall x, x ∈ D <-> x ∈ c i.
Proof.
  intros Hc Hi. pose proof (cr_len _ _ _ Hc) as Hl. unfold pack_vtx_edges.
  rewrite (at_read xo (XOFF i)) by (unfold XOFF; lia). rewrite (cr_off _ _ _ Hc) by lia. cbn [mbind res_bind].
  rewrite (at_read xo (XENDOFF i)) by (unfold XENDOFF; lia). rewrite (cr_end _ _ _ Hc) by done. cbn [mbind res_bind].
  set (b := off (Z.to_nat i)). destruct (Z.leb_spec (b + zlen (c i)) (b + 1)) as [Hsmall|Hbig].
  - exists xo, st, (c i). split_and!; try done.
    + eapply crep_ext; [exact Hc|]. intros u. unfold upd. now destruct (decide (u = i)) as [->|].
    + destruct (c i) as [|x [|y l]]; [constructor|repeat constructor|rewrite !zlen_cons in Hsmall; pose proof (zlen_nonneg l); lia].
  - destruct (crep_focus _ _ _ _ Hc Hi) as (pre & r & post & -> & Hpre & Hr & [rest ->] & Hput). fold b in Hpre, Hput.
    rewrite qsort_mid by (unfold xadj, MINVECT_SIZE; lia). cbn [mbind res_bind].
    pose proof (StronglySorted_merge_sort i64le (c i)) as Hs. pose proof (merge_sort_Permutation i64le (c i)) as Hperm.
    set (srt := merge_sort i64le (c i)) in *. assert (Hzs : zlen (c i) = zlen srt) by (unfold zlen; now rewrite Hperm). rewrite Hzs in *.
    destruct (compact_loop srt pre rest post b Hs Hpre) as (row & D & Hrun & Hrow & Hcp); [unfold zlen in *; lia|].
    rewrite Hrun. cbn [mbind res_bind]. replace (b + zlen D - 1 + 1) with (b + zlen D) by lia.
    destruct Hcp as (Hp & Hlen & Hsd & Hmem & _). rewrite zlen_app in Hrow. pose proof (zlen_nonneg rest).
    destruct (clear_loop pre row post D b (b + zlen srt) Hpre Hp) as (row' & -> & Hl' & Hp'); [unfold zlen in *; lia|lia|]. cbn [mbind res_bind].
    rewrite awrite_in_bounds by (unfold XENDOFF; lia). cbn [mbind res_bind]. eexists _, _, D. split; [done|]. split_and!.
    + apply Hput; [rewrite zlen_app; lia|done].
    + done.
    + intros x. rewrite Hmem, take_ge by done. now rewrite Hperm.
Qed.

(** The finished graph: sorted rows without repetition. *)
Definition csr_ok (xo st : list Z) (c : Z -> list Z) : Prop :=
  crep xo st c /\ forall u, 0 <= u < nv -> StronglySorted Z.lt (c u) /\ forall x, x ∈ c u <-> adj IJ u x.

Lemma pack_edges_spec xo st : crep xo st (nbrs IJ) -> exists xo' st' c, pack_edges nv (xo, st) = Ok (xo', st') /\ csr_ok xo' st' c.
Proof.
  intros Hc. pose proof nv_pos. unfold pack_edges.
  for_inv (fun k g => exists c, crep g.1 g.2 c /\ (forall u, 0 <= u < k -> StronglySorted Z.lt (c u)) /\
    forall u x, 0 <= u < nv -> x ∈ c u <-> adj IJ u x) g HP.
  - done.
  - exists (nbrs IJ). split_and!; [done|intros; lia|]. intros u x Hu. apply elem_of_nbrs. lia.
  - intros k [a b] Hk (c & Hcr & Hs & Hm). destruct (pack_spec a b c k Hcr Hk) as (a' & b' & D & -> & Hcr' & HsD & HmD).
    eexists. split; [done|]. exists (upd c k D). split_and!; [done| |]; unfold upd.
    + intros u Hu. destruct (decide (u = k)) as [->|]; [done|]. apply Hs. lia.
    + intros u x Hu. destruct (decide (u = k)) as [->|]; [rewrite HmD|]; now apply Hm.
  - destruct g as [xo' st']. destruct HP as (c & Hcr & Hs & Hm). exists xo', st', c. split; [done|]. split; [done|]. auto.
Qed.

Lemma csr_create_spec : fits IJ -> exists xo st c, create_graph_from_edgelist IJ (zlen IJ) = Ok (Csr (maxv IJ) nv xo st) /\ csr_ok xo st c.
Proof.
  intros Hfits. pose proof nv_pos. pose proof (zlen_nonneg IJ). unfold fits in Hfits. unfold create_graph_from_edgelist, find_nv. rewrite find_maxvtx_spec. cbn [mbind res_bind].
  replace (1 + maxv IJ) with nv by lia. unfold alloc_graph. rewrite i64_small by lia. cbn [mbind res_bind]. unfold xmalloc_large_ext, xmalloc_large.
  destruct (xmalloc_int64s (2 * nv + 2)) as (xo0 & -> & Hl0); [lia|]. cbn [mbind res_bind].
  destruct (setup_spec xo0 Hfits Hl0) as (xo & st & -> & Hc). cbn [mbind res_bind]. unfold gather_edges.
  change (for_range 0 (zlen IJ) _ (xo, st)) with (for_range 0 (zlen IJ) (fun k s => x ← aread IJ k; gather_edge x s) (xo, st)). rewrite for_list.
  destruct (gather_spec xo st Hc) as (xo1 & st1 & -> & Hc1). cbn [mbind res_bind].
  destruct (pack_edges_spec xo1 st1 Hc1) as (xo2 & st2 & c & -> & Hok). cbn [mbind res_bind]. now exists xo2, st2, c.
Qed.

(** ** Search *)

Section search.
Context (xo st : list Z) (c : Z -> list Z) (Hok : csr_ok xo st c).
Notation g := (Csr (maxv IJ) nv xo st).

Lemma csr_vertex_spec s k u :
  0 <= u < nv -> aread s.1.2 k = Ok u -> bfs_vertex g k s = visit_all bfs_visit u (c u) s.
Proof.
  intros Hu Hk. destruct s as [[tree vlist] k2]. cbn [fst snd] in Hk. destruct Hok as [Hc _]. unfold bfs_vertex. rewrite Hk. cbn [mbind res_bind xoff xadjstore].
  pose proof (cr_len _ _ _ Hc). rewrite (at_read xo (XENDOFF u)) by (unfold XENDOFF; lia). rewrite (cr_end _ _ _ Hc) by done. cbn [mbind res_bind].
  rewrite (at_read xo (XOFF u)) by (unfold XOFF; lia). rewrite (cr_off _ _ _ Hc) by lia. cbn [mbind res_bind]. unfold xadj, visit_all.
  destruct (crep_focus _ _ _ _ Hc Hu) as (pre & r & post & -> & Hpre & Hr & Hpf & _).
  apply for_segment. intros t x Hx. pose proof (prefix_lookup_Some _ _ _ _ Hx Hpf) as Hrx. pose proof (lookup_lt_Some _ _ _ Hrx).
  rewrite (aread_part pre r post _ (Z.of_nat t)) by (unfold MINVECT_SIZE, zlen in *; lia). apply aread_Ok. split; [lia|]. now rewrite Nat2Z.id.
Qed.

Lemma csr_nb v j : 0 <= v < nv -> j ∈ c v -> 0 <= j < nv.
Proof. intros Hv Hj. apply (proj2 Hok) in Hj; [|done]. apply adj_max in Hj. lia. Qed.

(** The levels of the search are one queue. *)
Lemma level_loop root tree q d s k :
  binv nv root c tree q k [] d -> holds nv s tree q -> (k < length q)%nat ->
  exists s' tree' q' d', for_range (Z.of_nat k) (zlen q) (bfs_vertex g) s = Ok s' /\
    binv nv root c tree' q' (length q) [] d' /\ holds nv s' tree' q' /\ q `prefix_of` q'.
Proof.
  intros Hb Hs Hk.
  for_inv (fun i s' => exists tree' q' d', binv nv root c tree' q' (Z.to_nat i) [] d' /\ holds nv s' tree' q' /\ q `prefix_of` q') s' HP.
  - unfold zlen. lia.
  - exists tree, q, d. now rewrite Nat2Z.id.
  - intros i s1 Hi (tree1 & q1 & d1 & Hb1 & Hs1 & Hp1). pose proof (prefix_length _ _ Hp1).
    destruct (lookup_lt_is_Some_2 q1 (Z.to_nat i)) as [u Hu]; [unfold zlen in Hi; lia|].
    pose proof (b_range _ _ _ _ _ _ _ _ Hb1 u (list_elem_of_lookup_2 _ _ _ Hu)) as Hur.
    rewrite (csr_vertex_spec _ _ u Hur).
    2:{ rewrite <- (holds_read _ _ _ _ _ _ Hs1 Hu). f_equal. lia. }
    destruct (visit_vertex nv root c bfs_visit ltac:(done) s1 tree1 q1 (Z.to_nat i) d1 u csr_nb Hb1 Hs1 Hu) as (s2 & tree2 & q2 & d2 & -> & Hb2 & Hs2 & Hp2).
    exists s2. split; [done|]. exists tree2, q2, d2. replace (Z.to_nat (i + 1)) with (S (Z.to_nat i)) by lia. split_and!; try done. now transitivity q1.
  - destruct HP as (tree' & q' & d' & Hb' & Hs' & Hp). exists s', tree', q', d'. split_and!; try done.
    now replace (Z.to_nat (zlen q)) with (length q) in Hb' by (unfold zlen; lia).
Qed.

Lemma csr_bfs_spec tree0 root :
  fits IJ -> 0 <= root < nv -> nv <= zlen tree0 ->
  exists tree d, make_bfs_tree g tree0 root = Ok (tree, maxv IJ) /\ bfs_ok (adj IJ) nv root tree d.
Proof.
  intros Hfits Hroot Hlen. unfold fits in Hfits. pose proof (zlen_nonneg IJ). unfold make_bfs_tree. cbn [SeqCsr.nv SeqCsr.maxvtx]. unfold xmalloc_large.
  destruct (xmalloc_int64s nv) as (vl & -> & Hvl); [lia|]. cbn [mbind res_bind].
  destruct (fill_spec tree0 0 nv (-1)) as (tree1 & -> & Hl1 & Ha1); [lia|lia|done|]. cbn [mbind res_bind].
  rewrite (awrite_in_bounds vl) by lia. cbn [mbind res_bind]. rewrite (awrite_in_bounds tree1) by lia. cbn [mbind res_bind].
  set (tree2 := <[Z.to_nat root := root]> tree1).
  assert (Hb : binv nv root c tree2 [root] 0 [] (fun _ => 0)).
  { apply binv_init; [unfold tree2; rewrite zlen_insert; lia|done|]. intros v Hv. unfold tree2. rewrite at_insert, Ha1 by lia. now rewrite (decide_True (P := 0 <= v < nv)). }
  assert (Hs : holds nv (tree2, <[Z.to_nat 0 := root]> vl, 1) tree2 [root]).
  { split_and!; try done; [now rewrite zlen_insert|]. destruct vl; [unfold zlen in Hvl; simpl in Hvl; lia|done]. }
  match goal with |- context [while_loop ?f ?co ?bo ?st0] =>
    destruct (while_loop_inv (fun '(k1, s) => exists tree q d, binv nv root c tree q (Z.to_nat k1) [] d /\ holds nv s tree q /\ 0 <= k1 <= zlen q)
      (fun '(k1, _) => Z.to_nat (nv - k1)) f co bo st0) as ([k1 [[tree vlist] k2]] & Hrun & (tree' & q & d & Hb' & (-> & _ & _ & ->) & Hk1) & Hend) end.
  - exists tree2, [root], (fun _ => 0). split_and!; try done. 
  - lia.
  - intros [k1 [[t vlist] k2]] (tree' & q & d & Hb' & Hs' & Hk1). pose proof Hs' as (_ & _ & _ & ->). eexists. split; [done|]. intros Hne%negb_true_iff%Z.eqb_neq.
    assert (Hk : (Z.to_nat k1 < length q)%nat) by (unfold zlen in *; lia).
    destruct (level_loop root tree' q d _ (Z.to_nat k1) Hb' Hs' Hk) as (s' & tree'' & q' & d' & Hrun & Hb'' & Hs'' & Hp).
    rewrite Z2Nat.id in Hrun by lia. rewrite Hrun. cbn [mbind res_bind]. eexists. split; [done|]. pose proof (prefix_length _ _ Hp).
    pose proof (binv_length _ _ _ _ _ _ _ _ Hb''). split; [|unfold zlen in *; lia]. exists tree'', q', d'.
    replace (Z.to_nat (zlen q)) with (length q) by (unfold zlen; lia). split_and!; try done; unfold zlen; lia.
  - rewrite Hrun. cbn [mbind res_bind]. exists tree', d. split; [done|]. injection Hend as Hend%negb_false_iff%Z.eqb_eq. subst k1.
    eapply binv_end; [|exact Hb'|unfold zlen; lia]. intros u v Hu. now apply (proj2 Hok).
Qed.
End search.
End csr.
