(* ===== verification/Omp.v ===== *)
(** Teams of threads, as the OpenMP regions of src/workload/graph500/omp-csr use them.

    A thread between two barriers is a sequence of atomic accesses to the shared state
    ([proc]); a team is run along a schedule that names the thread of each access
    ([par]).  Nothing is assumed about the schedule, nor about which iterations of a
    shared loop a thread gets: [Omp] is an argument of everything that runs in parallel.
    The second half of the file is a rely-guarantee logic for such runs. *)
From stdpp Require Import base numbers list sorting.
From Stdlib Require Import ZArith Lia.
From S2P Require Import Prelude Kronecker Graph500 Graph.
Open Scope Z_scope.

(** ** Threads *)

Inductive proc (S A : Type) : Type :=
  | Ret (a : A)
  | Act (B : Type) (f : S -> res (S * B)) (k : B -> proc S A).
Arguments Ret {S A} a.
Arguments Act {S A B} f k.

Fixpoint pbind {S A B} (k : A -> proc S B) (p : proc S A) : proc S B :=
  match p with
  | Ret a => k a
  | Act f k' => Act f (fun b => pbind k (k' b))
  end.
#[export] Instance proc_ret {S} : MRet (proc S) := fun A a => Ret a.
#[export] Instance proc_bind {S} : MBind (proc S) := fun A B k p => pbind k p.

(** One access. *)
Definition act {S A} (f : S -> res (S * A)) : proc S A := Act f Ret.
Definition load {S A} (f : S -> res A) : proc S A := act (fun s => a ← f s; Ok (s, a)).
Definition store {S} (f : S -> res S) : proc S unit := act (fun s => s ← f s; Ok (s, tt)).
Definition pure {S A} (r : res A) : proc S A := load (fun _ => r).

(** Reading what no thread of the team writes before the next barrier. *)
Definition read_only {S A B} (r : res A) (k : A -> proc S B) : proc S B :=
  match r with Ok a => k a | Fault f => pure (Fault f) end.

(** [for (a in l) body], with the private variables of the thread. *)
Fixpoint pfor {S A L} (l : list A) (body : A -> L -> proc S L) (x : L) : proc S L :=
  match l with [] => Ret x | a :: l => x ← body a x; pfor l body x end.

(** To its end, alone. *)
Fixpoint solo {S A} (p : proc S A) (s : S) : res (S * A) :=
  match p with
  | Ret a => Ok (s, a)
  | Act f k => '(s, b) ← f s; solo (k b) s
  end.

(** ** Teams *)

(** Thread [i] makes its next access; a thread at the barrier waits. *)
Definition poke {S A} (i : nat) (c : S * list (proc S A)) : res (S * list (proc S A)) :=
  let '(s, ps) := c in
  match ps !! i with
  | Some (Act f k) => '(s, b) ← f s; Ok (s, <[i := k b]> ps)
  | _ => Ok c
  end.

Fixpoint follow {S A} (sched : list nat) (c : S * list (proc S A)) : res (S * list (proc S A)) :=
  match sched with [] => Ok c | i :: sched => c ← poke i c; follow sched c end.

Fixpoint finish {S A} (ps : list (proc S A)) (s : S) : res (S * list A) :=
  match ps with
  | [] => Ok (s, [])
  | p :: ps => '(s, a) ← solo p s; '(s, l) ← finish ps s; Ok (s, a :: l)
  end.

(** All threads to the barrier: along the schedule, then what is left. *)
Definition par {S A} (sched : list nat) (ps : list (proc S A)) (s : S) : res (S * list A) :=
  '(s, ps) ← follow sched (s, ps); finish ps s.

(** The run-time system: the number of threads and, for each stretch between barriers,
    the schedule, the iterations of a shared loop each thread gets, and the thread that
    comes first to a [single] region.  Memory from [alloca] has unknown content. *)
Class Omp := {
  num_threads : nat;
  alloca : nat -> list Z;
  picks : nat -> list nat;
  chunks : nat -> list Z -> list (list Z);
  single : nat -> nat }.

Class OmpLaws (OM : Omp) : Prop := {
  num_threads_pos : (0 < num_threads)%nat;
  alloca_length n : length (alloca n) = n;
  chunks_length t l : length (chunks t l) = num_threads;
  chunks_perm t l : concat (chunks t l) ≡ₚ l;
  single_thread t : (single t < num_threads)%nat }.

(** No thread makes its second access after a barrier before every thread of the team has
    made its first. *)
Class OmpPrompt (OM : Omp) : Prop := {
  prompt t : exists l1 l2, picks t = l1 ++ l2 /\ (forall i, i ∈ l1 <-> (i < num_threads)%nat) /\ NoDup l1 }.

(** The code of a team counts the stretches. *)
Definition team (A : Type) : Type := nat -> res (A * nat).
#[export] Instance team_ret : MRet team := fun A a t => Ok (a, t).
#[export] Instance team_bind : MBind team := fun A B k m t => '(a, t) ← m t; k a t.

(** What one thread does while the others wait, or all do alike on private data. *)
Definition alone {A} (r : res A) : team A := fun t => a ← r; Ok (a, t).

Section team.
Context `{OM : Omp}.

(** The code between two barriers; it may ask which thread runs a [single] region. *)
Definition parallel {S A} (body : nat -> nat -> proc S A) (s : S) : team (S * list A) :=
  fun t => r ← par (picks t) (body (single t) <$> seq 0 num_threads) s; Ok (r, Datatypes.S t).

(** [#pragma omp for] over [lo <= k < hi] *)
Definition omp_for {S A} (lo hi : Z) (body : nat -> list Z -> proc S A) (s : S) : team (S * list A) :=
  fun t => r ← par (picks t) (imap body (chunks t (seqZ lo (hi - lo)))) s; Ok (r, Datatypes.S t).

(** The same, with a body that keeps nothing in the thread. *)
Definition omp_each {S} (lo hi : Z) (body : Z -> proc S unit) (s : S) : team S :=
  '(s, _) ← omp_for lo hi (fun _ ks => pfor ks (fun k _ => body k) tt) s; mret s.

(** A loop of the whole team. *)
Fixpoint team_while {S} (fuel : nat) (cond : S -> res bool) (body : S -> team S) (s : S) : team S :=
  match fuel with
  | O => alone (Fault OutOfFuel)
  | Datatypes.S fuel =>
      c ← alone (cond s);
      if (c : bool) then s ← body s; team_while fuel cond body s else mret s
  end.

(** The threads of a team test a private condition: they must agree. *)
Definition agree {A} `{!EqDecision A} (l : list A) : res A :=
  match l with
  | [] => Fault Diverged
  | a :: l => if decide (Forall (eq a) l) then Ok a else Fault Diverged
  end.
End team.

(** ** Rely and guarantee *)

(** Each access keeps the invariant [I] and is, for every other thread, a change that
    thread allows ([R]).  [G] is state of the proof only. *)
Section wp.
Context {S G : Type} (I : S -> G -> Prop) (R : nat -> S -> G -> S -> G -> Prop).

Fixpoint wp {A} (i : nat) (p : proc S A) (Q : A -> S -> G -> Prop) (s : S) (g : G) : Prop :=
  match p with
  | Ret a => Q a s g
  | Act f k => exists s' b g', f s = Ok (s', b) /\ I s' g' /\ (forall j, j <> i -> R j s g s' g') /\
      forall s2 g2, I s2 g2 -> R i s' g' s2 g2 -> wp i (k b) Q s2 g2
  end.

Lemma wp_mono {A} i (p : proc S A) (Q1 Q2 : A -> S -> G -> Prop) s g :
  (forall a s g, I s g -> Q1 a s g -> Q2 a s g) -> I s g -> wp i p Q1 s g -> wp i p Q2 s g.
Proof.
  intros HQ. revert s g. induction p as [a|B f k IH]; intros s g Hi; simpl; [now apply HQ|].
  intros (s' & b & g' & Hf & Hi' & Hj & Hk). exists s', b, g'. split_and!; try done. intros s2 g2 H2 HR. apply IH; auto.
Qed.

Lemma wp_bind {A B} i (p : proc S A) (k : A -> proc S B) Q s g :
  I s g -> wp i p (fun a => wp i (k a) Q) s g -> wp i (p ≫= k) Q s g.
Proof.
  unfold mbind, proc_bind. revert s g. induction p as [a|C f k' IH]; intros s g Hi; simpl; [done|].
  intros (s' & b & g' & Hf & Hi' & Hj & Hk). exists s', b, g'. split_and!; try done. intros s2 g2 H2 HR. apply IH; auto.
Qed.

(** A loop of a thread; its private variables are in [P]. *)
Lemma wp_pfor {A L} i (l : list A) (body : A -> L -> proc S L) (P : list A -> L -> S -> G -> Prop) x s g :
  I s g -> P [] x s g ->
  (forall l1 a l2 x s g, l = l1 ++ a :: l2 -> I s g -> P l1 x s g -> wp i (body a x) (P (l1 ++ [a])) s g) ->
  wp i (pfor l body x) (P l) s g.
Proof.
  intros Hi H0 Hstep. cut (forall l1 l2 x s g, l = l1 ++ l2 -> I s g -> P l1 x s g -> wp i (pfor l2 body x) (P l) s g); [intros H; now apply (H [])|].
  clear x s g Hi H0. intros l1 l2. revert l1. induction l2 as [|a l2 IH]; intros l1 x s g Hl Hi Hp; simpl.
  - rewrite app_nil_r in Hl. now subst l1.
  - apply wp_bind; [done|]. eapply wp_mono; [|done|eapply Hstep; eauto]. intros y s' g' Hi' Hp'. apply (IH (l1 ++ [a])); [|done|done].
    now rewrite <- app_assoc.
Qed.

Hypothesis R_refl : forall i s g, R i s g s g.
Hypothesis R_trans : forall i s1 g1 s2 g2 s3 g3, R i s1 g1 s2 g2 -> R i s2 g2 s3 g3 -> R i s1 g1 s3 g3.

(** A read whose value the thread may rely on. *)
Lemma wp_load {A} i (f : S -> res A) (Q : A -> S -> G -> Prop) a s g :
  I s g -> f s = Ok a -> (forall s2 g2, I s2 g2 -> R i s g s2 g2 -> Q a s2 g2) -> wp i (load f) Q s g.
Proof. intros Hi Hf HQ. simpl. rewrite Hf. cbn [mbind res_bind]. exists s, a, g. split_and!; auto. Qed.

Lemma wp_store i (f : S -> res S) (Q : unit -> S -> G -> Prop) s g s' g' :
  f s = Ok s' -> I s' g' -> (forall j, j <> i -> R j s g s' g') -> (forall s2 g2, I s2 g2 -> R i s' g' s2 g2 -> Q tt s2 g2) ->
  wp i (store f) Q s g.
Proof. intros Hf Hi HR HQ. simpl. rewrite Hf. cbn [mbind res_bind]. exists s', tt, g'. split_and!; auto. Qed.

Lemma wp_act {A} i (f : S -> res (S * A)) (Q : A -> S -> G -> Prop) s g s' a g' :
  f s = Ok (s', a) -> I s' g' -> (forall j, j <> i -> R j s g s' g') -> (forall s2 g2, I s2 g2 -> R i s' g' s2 g2 -> Q a s2 g2) ->
  wp i (act f) Q s g.
Proof. intros Hf Hi HR HQ. simpl. exists s', a, g'. split_and!; auto. Qed.

(** Whatever the others do first. *)
Definition swp {A} i (p : proc S A) Q s g : Prop := forall s2 g2, I s2 g2 -> R i s g s2 g2 -> wp i p Q s2 g2.

Section run.
Context {A : Type} (Q : nat -> A -> S -> G -> Prop).
Hypothesis Q_stable : forall i a s g s2 g2, I s2 g2 -> R i s g s2 g2 -> Q i a s g -> Q i a s2 g2.

(** All threads of a team are well. *)
Definition well (n : nat) (ps : list (proc S A)) s g : Prop :=
  I s g /\ forall i p, ps !! i = Some p -> swp (n + i) p (Q (n + i)) s g.

Lemma follow_wp sched ps s g : well 0 ps s g ->
  exists s' ps' g', follow sched (s, ps) = Ok (s', ps') /\ length ps' = length ps /\ well 0 ps' s' g'.
Proof.
  revert ps s g. induction sched as [|i sched IH]; intros ps s g Hp; cbn [follow]; [now exists s, ps, g|].
  assert (Hpoke : exists s' ps' g', poke i (s, ps) = Ok (s', ps') /\ length ps' = length ps /\ well 0 ps' s' g').
  { unfold poke. destruct (ps !! i) as [[a|B f k]|] eqn:Ei; [now exists s, ps, g| |now exists s, ps, g].
    destruct Hp as [Hi Hp]. pose proof (Hp i _ Ei s g Hi (R_refl _ _ _)) as (s' & b & g' & -> & Hi' & Hj & Hk). cbn [mbind res_bind].
    exists s', (<[i := k b]> ps), g'. rewrite length_insert. split; [done|]. split; [done|]. split; [done|]. intros j p Hjp. destruct (decide (j = i)) as [->|Hne].
    - rewrite list_lookup_insert_eq in Hjp by (eapply lookup_lt_Some, Ei). injection Hjp as <-. intros s2 g2. apply Hk.
    - rewrite list_lookup_insert_ne in Hjp by done. intros s2 g2 H2 HR. apply (Hp j _ Hjp); [done|]. eapply R_trans; [|exact HR]. apply Hj. lia. }
  destruct Hpoke as (s1 & ps1 & g1 & -> & Hl & Hp1). cbn [mbind res_bind]. destruct (IH _ _ _ Hp1) as (s' & ps' & g' & Hf & Hl' & Hp').
  exists s', ps', g'. split_and!; try done. congruence.
Qed.

Lemma solo_wp i (p : proc S A) s g : I s g -> wp i p (Q i) s g ->
  exists s' a g', solo p s = Ok (s', a) /\ I s' g' /\ Q i a s' g' /\ forall j, j <> i -> R j s g s' g'.
Proof.
  revert s g. induction p as [a|B f k IH]; intros s g Hi; simpl; [intros HQ; now exists s, a, g|].
  intros (s' & b & g' & -> & Hi' & Hj & Hk). cbn [mbind res_bind]. destruct (IH b s' g' Hi' (Hk s' g' Hi' (R_refl _ _ _))) as (s2 & a & g2 & -> & H2 & HQ & HR).
  exists s2, a, g2. split_and!; try done. intros j Hne. eapply R_trans; [now apply Hj|now apply HR].
Qed.

Lemma finish_wp n ps s g : well n ps s g ->
  exists s' l g', finish ps s = Ok (s', l) /\ I s' g' /\ length l = length ps /\ (forall i a, l !! i = Some a -> Q (n + i) a s' g') /\
    forall j, (j < n)%nat -> R j s g s' g'.
Proof.
  revert n s g. induction ps as [|p ps IH]; intros n s g [Hi Hp]; cbn [finish]; [now exists s, [], g|].
  destruct (solo_wp (n + 0) p s g Hi) as (s1 & a & g1 & -> & Hi1 & HQ1 & HR1).
  { now apply (Hp 0%nat p eq_refl). }
  cbn [mbind res_bind]. destruct (IH (Datatypes.S n) s1 g1) as (s' & l & g' & -> & Hi' & Hl & HQ & HR).
  { split; [done|]. intros i p' Hi' s2 g2 H2 HR2. replace (Datatypes.S n + i)%nat with (n + Datatypes.S i)%nat in * by lia.
    apply (Hp (Datatypes.S i) p' Hi'); [done|]. eapply R_trans; [|exact HR2]. apply HR1. lia. }
  cbn [mbind res_bind]. exists s', (a :: l), g'. split_and!; try done; [simpl; lia| |].
  - intros [|i] b Hb; [injection Hb as <-|].
    + eapply Q_stable; [done| |exact HQ1]. apply HR. lia.
    + replace (n + Datatypes.S i)%nat with (Datatypes.S n + i)%nat by lia. now apply HQ.
  - intros j Hj. eapply R_trans; [apply HR1; lia|apply HR; lia].
Qed.

(** The parallel rule. *)
Lemma par_wp sched ps s g :
  I s g -> (forall i p, ps !! i = Some p -> swp i p (Q i) s g) ->
  exists s' l g', par sched ps s = Ok (s', l) /\ I s' g' /\ length l = length ps /\ forall i a, l !! i = Some a -> Q i a s' g'.
Proof.
  intros Hi Hp. destruct (follow_wp sched ps s g) as (s1 & ps1 & g1 & Hf & Hl & H1); [now split|]. unfold par. rewrite Hf. cbn [mbind res_bind].
  destruct (finish_wp 0 ps1 s1 g1 H1) as (s' & l & g' & -> & Hi' & Hll & HQ & _). exists s', l, g'. split_and!; try done. congruence.
Qed.
End run.
End wp.

(** ** Threads without private variables *)

(** A thread that makes the accesses [f a] for the [a] of a list. *)
Section line.
Context {S A : Type} (f : A -> S -> res S).

Inductive line : proc S unit -> list A -> Prop :=
  | line_nil : line (Ret tt) []
  | line_cons a k l : line (k tt) l -> line (Act (fun s => s ← f a s; Ok (s, tt)) k) (a :: l).

Lemma line_store a : line (store (f a)) [a].
Proof. apply line_cons, line_nil. Qed.

Lemma line_bind p q l1 l2 : line p l1 -> line q l2 -> line (p ≫= fun _ => q) (l1 ++ l2).
Proof. intros Hp Hq. induction Hp as [|a k l Hk IH]; [done|]. apply line_cons, IH. Qed.

Lemma line_pfor {B} (l : list B) (body : B -> proc S unit) (ops : B -> list A) :
  (forall b, b ∈ l -> line (body b) (ops b)) -> line (pfor l (fun b _ => body b) tt) (concat (ops <$> l)).
Proof.
  induction l as [|b l IH]; intros Hb; [apply line_nil|]. cbn [pfor fmap list_fmap concat].
  assert (Hall : line (pfor l (fun b _ => body b) tt) (concat (ops <$> l))) by (apply IH; intros c Hc; apply Hb; now right).
  assert (Hone : line (body b) (ops b)) by (apply Hb; now left). revert Hone. generalize (body b) (ops b). clear -Hall. intros p l1 Hp.
  induction Hp as [|a k l1 Hk IH]; [done|]. apply line_cons, IH.
Qed.

Lemma line_solo p l s : line p l -> solo p s = (s ← mfold f l s; Ok (s, tt)).
Proof.
  intros H. revert s. induction H as [|a k l Hk IH]; intros s; [done|]. cbn [solo mfold]. destruct (f a s) as [s'|]; [|done]. apply IH.
Qed.

Lemma mfold_app l1 l2 s : mfold f (l1 ++ l2) s = (s ← mfold f l1 s; mfold f l2 s).
Proof. revert s. induction l1 as [|a l1 IH]; intros s; [done|]. cbn [app mfold]. destruct (f a s); [apply IH|done]. Qed.

Lemma line_finish ps ls s : Forall2 line ps ls ->
  finish ps s = (s ← mfold f (concat ls) s; Ok (s, replicate (length ps) tt)).
Proof.
  intros H. revert s. induction H as [|p l ps ls Hp H IH]; intros s; [done|]. cbn [finish concat length replicate].
  rewrite mfold_app, (line_solo p l) by done. destruct (mfold f l s) as [s1|]; [|done]. cbn [mbind res_bind]. rewrite IH.
  now destruct (mfold f (concat ls) s1).
Qed.

(** Such a team makes its accesses in some order. *)
Lemma line_par sched ps ls s : Forall2 line ps ls ->
  exists l, l ≡ₚ concat ls /\ par sched ps s = (s ← mfold f l s; Ok (s, replicate (length ps) tt)).
Proof.
  unfold par. revert ps ls s. induction sched as [|i sched IH]; intros ps ls s H; cbn [follow].
  { exists (concat ls). split; [done|]. cbn [mbind res_bind]. now apply line_finish. }
  unfold poke. destruct (ps !! i) as [p|] eqn:Ei; [|cbn [mbind res_bind]; now apply IH].
  destruct (Forall2_lookup_l _ _ _ _ _ H Ei) as (l & El & Hl). destruct Hl as [|a k l Hk]; [cbn [mbind res_bind]; now apply IH|].
  assert (Hperm : a :: concat (<[i := l]> ls) ≡ₚ concat ls).
  { rewrite <- (take_drop_middle _ _ _ El) at 2. rewrite insert_take_drop by (eapply lookup_lt_Some, El).
    rewrite !concat_app. cbn [concat app]. now rewrite Permutation_middle. }
  destruct (f a s) as [s1|] eqn:Ef; cbn [mbind res_bind].
  - destruct (IH (<[i := k tt]> ps) (<[i := l]> ls) s1) as (l' & Hl' & Hrun); [now apply Forall2_insert|].
    exists (a :: l'). split; [now rewrite Hl'|]. rewrite Hrun. cbn [mfold]. rewrite Ef. cbn [mbind res_bind]. now rewrite length_insert.
  - exists (a :: concat (<[i := l]> ls)). split; [done|]. cbn [mfold]. now rewrite Ef.
Qed.
End line.

(** ** Threads that read first *)

(** When every thread starts with a read and no thread is ahead of the others, all reads
    see the same state. *)
Section reads.
Context {S A B : Type} (f : nat -> S -> res B) (k : nat -> B -> proc S A) (s : S) (b : nat -> B) (n : nat).
Hypothesis reads : forall i, (i < n)%nat -> f i s = Ok (b i).

Definition has_read (l : list nat) (i : nat) : proc S A := if decide (i ∈ l) then k i (b i) else load (f i) ≫= k i.

Lemma follow_reads l1 l2 : NoDup (l1 ++ l2) -> (forall i, i ∈ l2 -> (i < n)%nat) ->
  follow l2 (s, has_read l1 <$> seq 0 n) = Ok (s, has_read (l1 ++ l2) <$> seq 0 n).
Proof.
  revert l1. induction l2 as [|i l2 IH]; intros l1 Hnd Hn; [now rewrite app_nil_r|]. cbn [follow poke].
  assert (Hi : (i < n)%nat) by (apply Hn; now left). rewrite list_lookup_fmap, lookup_seq_lt by done. cbn [fmap option_fmap option_map Nat.add].
  assert (Hout : i ∉ l1) by (apply NoDup_app in Hnd as (_ & Hd & _); intros Hin; apply (Hd i Hin); now left).
  unfold has_read at 1. rewrite decide_False by done. cbn [load act mbind proc_bind pbind]. rewrite reads by done. cbn [mbind res_bind].
  assert (Hins : <[i := k i (b i)]> (has_read l1 <$> seq 0 n) = has_read (l1 ++ [i]) <$> seq 0 n).
  { apply list_eq. intros j. rewrite list_lookup_fmap. destruct (decide (j = i)) as [->|Hne].
    - rewrite list_lookup_insert_eq by (rewrite length_fmap, length_seq; done). rewrite lookup_seq_lt by done. simpl. unfold has_read.
      rewrite decide_True; [done|]. apply elem_of_app. right. now apply list_elem_of_singleton.
    - rewrite list_lookup_insert_ne, list_lookup_fmap by done. destruct (seq 0 n !! j) as [j'|] eqn:Ej; [|done]. apply lookup_seq in Ej as [-> Ej]. simpl. unfold has_read. f_equal.
      destruct (decide (j ∈ l1)), (decide (j ∈ l1 ++ [i])) as [Hin|Hin]; try done; exfalso; [apply Hin, elem_of_app; now left|].
      apply elem_of_app in Hin as [| ->%list_elem_of_singleton]; done. }
  rewrite Hins, (cons_middle i l1 l2), app_assoc. apply IH; [now rewrite <- app_assoc|]. intros j Hj. apply Hn. now right.
Qed.
End reads.

Lemma follow_app {S A} l1 l2 (c : S * list (proc S A)) : follow (l1 ++ l2) c = (c ← follow l1 c; follow l2 c).
Proof. revert c. induction l1 as [|i l1 IH]; intros c; [done|]. cbn [app follow]. destruct (poke i c); [apply IH|done]. Qed.

Lemma par_reads {S A B} (f : nat -> S -> res B) (k : nat -> B -> proc S A) s b n l1 l2 :
  (forall i, (i < n)%nat -> f i s = Ok (b i)) -> (forall i, i ∈ l1 <-> (i < n)%nat) -> NoDup l1 ->
  par (l1 ++ l2) ((fun i => load (f i) ≫= k i) <$> seq 0 n) s = par l2 ((fun i => k i (b i)) <$> seq 0 n) s.
Proof.
  intros Hf Hl Hnd. unfold par. rewrite follow_app. pose proof (follow_reads f k s b n Hf [] l1 Hnd (fun i => proj1 (Hl i))) as Hrun. cbn [app] in Hrun.
  assert (H0 : has_read f k b [] <$> seq 0 n = (fun i => load (f i) ≫= k i) <$> seq 0 n) by (apply list_fmap_ext; intros i x _; unfold has_read; now rewrite decide_False by apply not_elem_of_nil).
  assert (H1 : has_read f k b l1 <$> seq 0 n = (fun i => k i (b i)) <$> seq 0 n).
  { apply list_fmap_ext. intros i x Hx. apply lookup_seq in Hx as [-> Hx]. unfold has_read. rewrite decide_True; [done|]. now apply Hl. }
  rewrite H0, H1 in Hrun. rewrite Hrun. done.
Qed.

(** ** Returning, whatever the schedule *)

(** [race]: the threads may take different ways. *)
Definition returns {A} (race : Prop) (Q : A -> Prop) (m : team A) : Prop :=
  forall t, (exists a t', m t = Ok (a, t') /\ Q a) \/ (race /\ m t = Fault Diverged).

Section returns.
Context (race : Prop).

Lemma returns_ret {A} (Q : A -> Prop) a : Q a -> returns race Q (mret a).
Proof. intros HQ t. left. now exists a, t. Qed.

Lemma returns_alone {A} (Q : A -> Prop) r a : r = Ok a -> Q a -> returns race Q (alone r).
Proof. intros -> HQ t. left. now exists a, t. Qed.

Lemma returns_bind {A B} (Q : A -> Prop) (P : B -> Prop) (m : team A) (k : A -> team B) :
  returns race Q m -> (forall a, Q a -> returns race P (k a)) -> returns race P (m ≫= k).
Proof.
  intros Hm Hk t. unfold mbind, team_bind. destruct (Hm t) as [(a & t' & -> & HQ)|[Hr ->]]; [|now right]. apply (Hk a HQ).
Qed.

Lemma returns_mono {A} (Q P : A -> Prop) m : (forall a, Q a -> P a) -> returns race Q m -> returns race P m.
Proof. intros H Hm t. destruct (Hm t) as [(a & t' & ? & ?)|]; [left; exists a, t'; auto|now right]. Qed.

Lemma agree_same {A} `{!EqDecision A} (l : list A) a : l <> [] -> (forall x, x ∈ l -> x = a) -> agree l = Ok a.
Proof.
  intros Hl Ha. destruct l as [|x l]; [done|]. cbn [agree]. assert (x = a) as -> by (apply Ha; now left). rewrite decide_True; [done|]. apply Forall_forall. intros y Hy. symmetry. apply Ha. now right.
Qed.

Lemma returns_agree {A} `{!EqDecision A} (l : list A) :
  l <> [] -> (race \/ exists a, forall x, x ∈ l -> x = a) -> returns race (fun _ => True) (alone (agree l)).
Proof.
  intros Hl [Hr|[a Ha]]; [|eapply returns_alone; [now apply (agree_same l a)|done]]. intros t. unfold alone, agree. destruct l as [|x l]; [done|].
  destruct (decide _); [left; now eexists _, _|right; done].
Qed.

Lemma returns_while {S} (P : S -> Prop) (m : S -> nat) fuel cond (body : S -> team S) s :
  P s -> (m s < fuel)%nat ->
  (forall s, P s -> (exists c, cond s = Ok c /\ (c = true -> returns race (fun s' => P s' /\ (m s' < m s)%nat) (body s))) \/
     (race /\ cond s = Fault Diverged)) ->
  returns race (fun s => P s /\ cond s = Ok false) (team_while fuel cond body s).
Proof.
  revert s. induction fuel as [|fuel IH]; intros s Hs Hm Hstep; [lia|]. cbn [team_while].
  destruct (Hstep s Hs) as [([|] & Hc & Hb)|[Hr Hc]].
  - eapply returns_bind; [now apply (returns_alone (fun c => c = true) _ true)|]. intros ? ->. cbv beta match.
    eapply returns_bind; [now apply Hb|]. intros s' [Hs' Hlt]. apply IH; [done|lia|done].
  - eapply returns_bind; [now apply (returns_alone (fun c => c = false) _ false)|]. intros ? ->. now apply returns_ret.
  - intros t. right. split; [done|]. unfold mbind, team_bind, alone. now rewrite Hc.
Qed.

Context `{OM : Omp, !OmpLaws OM}.

Section stretch.
Context {S G A : Type} (I : S -> G -> Prop) (R : nat -> S -> G -> S -> G -> Prop).
Hypothesis R_refl : forall i s g, R i s g s g.
Hypothesis R_trans : forall i s1 g1 s2 g2 s3 g3, R i s1 g1 s2 g2 -> R i s2 g2 s3 g3 -> R i s1 g1 s3 g3.
Context (Q : nat -> A -> S -> G -> Prop).
Hypothesis Q_stable : forall i a s g s2 g2, I s2 g2 -> R i s g s2 g2 -> Q i a s g -> Q i a s2 g2.

Definition joined (r : S * list A) : Prop :=
  exists g, I r.1 g /\ length r.2 = num_threads /\ forall i a, r.2 !! i = Some a -> Q i a r.1 g.

Lemma returns_parallel body s :
  (forall one, (one < num_threads)%nat -> exists g, I s g /\ forall i, (i < num_threads)%nat -> swp I R i (body one i) (Q i) s g) ->
  returns race joined (parallel body s).
Proof.
  intros Hp t. left. unfold parallel. destruct (Hp (single t) (single_thread t)) as (g & Hi & Hw).
  destruct (par_wp I R R_refl R_trans Q Q_stable (picks t) (body (single t) <$> seq 0 num_threads) s g Hi) as (s' & l & g' & -> & Hi' & Hl & HQ).
  { intros i p Hip. apply list_lookup_fmap_Some in Hip as (j & -> & Hj). apply lookup_seq in Hj as [-> Hj]. now apply Hw. }
  cbn [mbind res_bind]. eexists _, _. split; [done|]. exists g'. rewrite length_fmap, length_seq in Hl. now split_and!.
Qed.

(** A shared loop: [ls] are the iterations of the threads. *)
Lemma returns_for lo hi body s :
  (forall ls, length ls = num_threads -> concat ls ≡ₚ seqZ lo (hi - lo) ->
     exists g, I s g /\ forall i l, ls !! i = Some l -> swp I R i (body i l) (Q i) s g) ->
  returns race joined (omp_for lo hi body s).
Proof.
  intros Hp t. left. unfold omp_for. destruct (Hp (chunks t (seqZ lo (hi - lo))) (chunks_length _ _) (chunks_perm _ _)) as (g & Hi & Hw).
  destruct (par_wp I R R_refl R_trans Q Q_stable (picks t) (imap body (chunks t (seqZ lo (hi - lo)))) s g Hi) as (s' & l & g' & -> & Hi' & Hl & HQ).
  { intros i p Hip. rewrite list_lookup_imap in Hip. apply fmap_Some in Hip as (c & Hc & ->). now apply Hw. }
  cbn [mbind res_bind]. eexists _, _. split; [done|]. exists g'. rewrite length_imap, chunks_length in Hl. now split_and!.
Qed.
End stretch.

(** A shared loop whose iterations make the accesses [ops k]. *)
Lemma returns_each {S A} (f : A -> S -> res S) (ops : Z -> list A) (Q : S -> Prop) lo hi body s :
  (forall k, lo <= k < hi -> line f (body k) (ops k)) ->
  (forall l, l ≡ₚ concat (ops <$> seqZ lo (hi - lo)) -> exists s', mfold f l s = Ok s' /\ Q s') ->
  returns race Q (omp_each lo hi body s).
Proof.
  intros Hb HQ t. left. unfold omp_each, omp_for, mbind at 1, team_bind at 1.
  set (cs := chunks t (seqZ lo (hi - lo))). pose proof (chunks_perm t (seqZ lo (hi - lo))) as Hperm. fold cs in Hperm.
  assert (Hin : forall c k, c ∈ cs -> k ∈ c -> lo <= k < hi).
  { intros c k Hc Hk. assert (k ∈ seqZ lo (hi - lo)) as Hs%elem_of_seqZ; [|lia]. rewrite <- Hperm. apply list_elem_of_In, in_concat.
    exists c. now rewrite <- !list_elem_of_In. }
  destruct (line_par f (picks t) (imap (fun _ ks => pfor ks (fun k _ => body k) tt) cs) ((fun c => concat (ops <$> c)) <$> cs) s) as (l & Hl & Hrun).
  { apply Forall2_lookup. intros i. rewrite list_lookup_imap, list_lookup_fmap. destruct (cs !! i) as [c|] eqn:Ec; [|constructor]. constructor.
    apply line_pfor. intros k Hk. apply Hb. eapply Hin; [eapply list_elem_of_lookup_2, Ec|done]. }
  rewrite Hrun. destruct (HQ l) as (s' & -> & Hs').
  { rewrite Hl, <- Hperm.  clear. induction cs as [|c cs IH]; [done|]. cbn [fmap list_fmap concat]. rewrite fmap_app, concat_app. now apply Permutation_app. }
  cbn [mbind res_bind]. now eexists _, _.
Qed.
End returns.

(** ** Threads without accesses *)

(** A thread that makes no access ends at once or stops at its first step. *)
Definition settled {S A} (p : proc S A) (r : res A) : Prop :=
  match r with
  | Ok a => p = Ret a
  | Fault f => exists B (g : S -> res (S * B)) k, p = Act g k /\ forall s, g s = Fault f
  end.

Lemma par_settled {S A} sched (vs : list A) (s : S) : par sched (Ret <$> vs) s = Ok (s, vs).
Proof.
  unfold par. assert (follow sched (s, Ret <$> vs) = Ok (s, Ret <$> vs)) as ->.
  { induction sched as [|i sched IH]; [done|]. cbn [follow poke]. rewrite list_lookup_fmap. destruct (vs !! i); exact IH. }
  cbn [mbind res_bind]. induction vs as [|v vs IH]; [done|]. cbn [fmap list_fmap finish solo mbind res_bind]. change (list_fmap A (proc S A) Ret vs) with (Ret <$> vs). now rewrite IH.
Qed.

Lemma par_stops {S A} sched ps (rs : list (res A)) (s : S) f :
  Forall2 settled ps rs -> (forall r, r ∈ rs -> (exists v, r = Ok v) \/ r = Fault f) -> Fault f ∈ rs -> par sched ps s = Fault f.
Proof.
  intros Hps Hrs Hin. unfold par. assert (Hf : follow sched (s, ps) = Ok (s, ps) \/ follow sched (s, ps) = Fault f).
  { induction sched as [|i sched IH]; [now left|]. cbn [follow poke]. destruct (ps !! i) as [p|] eqn:Ep; [|exact IH].
    eapply Forall2_lookup_l in Hps as (r & Hr & Hs); [|exact Ep]. destruct (Hrs r (list_elem_of_lookup_2 _ _ _ Hr)) as [(v & ->)| ->]; cbn in Hs.
    - subst p. exact IH.
    - destruct Hs as (B & g & k & -> & Hg). right. cbn [mbind res_bind]. now rewrite Hg. }
  destruct Hf as [->| ->]; [|done]. cbn [mbind res_bind]. clear sched. induction Hps as [|p r ps rs Hp Hps IH]; [now apply not_elem_of_nil in Hin|]. cbn [finish].
  destruct (Hrs r ltac:(left)) as [(v & ->)| ->]; cbn in Hp.
  - subst p. cbn [solo mbind res_bind]. apply elem_of_cons in Hin as [Hin|Hin]; [done|]. rewrite IH; [done|intros; apply Hrs; now right|done].
  - destruct Hp as (B & g & k & -> & Hg). cbn [solo]. now rewrite Hg.
Qed.

(** ** A team of two *)

Module Pair.
Fixpoint deal (l : list Z) : list Z * list Z :=
  match l with [] => ([], []) | x :: l => let '(a, b) := deal l in (x :: b, a) end.

Lemma deal_perm l : (deal l).1 ++ (deal l).2 ≡ₚ l.
Proof.
  induction l as [|x l IH]; [done|]. cbn [deal]. destruct (deal l) as [a b]. cbn [fst snd] in *. rewrite <- IH. cbn [app]. constructor. apply Permutation_app_comm.
Qed.

(** Two threads that take iterations in turn, with a given schedule. *)
Definition team (sched : nat -> list nat) : Omp := {|
  num_threads := 2; alloca n := replicate n 5; picks := sched; chunks _ l := [(deal l).1; (deal l).2]; single _ := 0%nat |}.

#[export] Instance team_laws sched : OmpLaws (team sched).
Proof.
  split; cbn; [lia|intros; apply length_replicate|done| |lia]. intros _ l. rewrite app_nil_r. apply deal_perm.
Qed.

(** In turn, and one after the other. *)
Definition in_turn : nat -> list nat := fun _ => [0; 1; 0; 1; 1; 0; 0; 1; 1; 0; 0; 1; 1; 0]%nat.
Definition one_by_one : nat -> list nat := fun _ => [].

#[export] Instance in_turn_prompt : OmpPrompt (team in_turn).
Proof.
  split. intros t. exists [0; 1]%nat, [0; 1; 1; 0; 0; 1; 1; 0; 0; 1; 1; 0]%nat. split; [done|]. split.
  - intros i. cbn. rewrite !elem_of_cons, elem_of_nil. lia.
  - now apply (bool_decide_unpack _).
Qed.
End Pair.
