(* ===== verification/OmpBitmap.v ===== *)
(** The bitmaps of src/workload/graph500/omp-csr/bitmap.h: words of 64 bits, with the
    search for the next bit and the atomic setting of one. *)
From stdpp Require Import base numbers list.
From Stdlib Require Import ZArith Lia.
From S2P Require Import Prelude Kronecker Graph500 Graph Omp.
Open Scope Z_scope.

(** Atomic operations on a location: its new content and the result. *)
Definition int64_fetch_add (p incr : Z) : Z * Z := (p + incr, p).
Definition int64_casval (p oldval newval : Z) : Z * Z := (if p =? oldval then newval else p, p).
Definition int64_cas (p oldval newval : Z) : Z * bool := if p =? oldval then (newval, true) else (p, false).

Definition WORD_OFFSET (n : Z) : Z := Z.quot n 64.
Definition BIT_OFFSET (n : Z) : Z := Z.land n 0x3f.

(** [end_] is the number of words from [start] to [end]. *)
Record bitmap_t := Bitmap { start : list Z; end_ : Z }.

Definition bm_reset_word (it : Z) (bm : bitmap_t) : res bitmap_t :=
  a ← awrite (start bm) it 0; Ok (Bitmap a (end_ bm)).

(** Outside a parallel region one thread runs the whole loop. *)
Definition bm_reset (bm : bitmap_t) : res bitmap_t := for_range 0 (end_ bm) bm_reset_word bm.

(** [size] is an [int]; the result of [malloc] is not tested. *)
Definition bm_init `{M : Malloc} (size : Z) : res bitmap_t :=
  let size := s32 size in
  n ← i32 (size + 63);
  let num_longs := Z.quot n 64 in
  match malloc (u64 (8 * num_longs)) 8 with
  | None => if 0 <? num_longs then Fault BadPointer else Ok (Bitmap [] num_longs)
  | Some a => bm_reset (Bitmap a num_longs)
  end.

Definition bm_get_bit (bm : bitmap_t) (pos : Z) : res Z :=
  w ← aread (start bm) (WORD_OFFSET pos); Ok (Z.land w (Z.shiftl 1 (BIT_OFFSET pos))).

(** The next word that is not zero, and the position of its first bit. *)
Fixpoint bm_next_word (fuel : nat) (bm : bitmap_t) (it next : Z) : res (option (Z * Z)) :=
  match fuel with
  | O => Fault OutOfFuel
  | S fuel =>
      let it := it + 1 in
      if end_ bm <=? it then Ok None else
      temp ← aread (start bm) it;
      let next := next + 64 in
      if temp =? 0 then bm_next_word fuel bm it next else Ok (Some (temp, next))
  end.

(** The lowest bit of a word. *)
Fixpoint bm_low_bit (fuel : nat) (temp next : Z) : res Z :=
  match fuel with
  | O => Fault OutOfFuel
  | S fuel => if Z.land temp 1 =? 0 then bm_low_bit fuel (Z.shiftr temp 1) (next + 1) else Ok next
  end.

Definition bm_get_next_bit (bm : bitmap_t) (pos : Z) : res Z :=
  let bit_offset := BIT_OFFSET pos in
  let it := WORD_OFFSET pos in
  w ← aread (start bm) it;
  let temp := if negb (bit_offset =? 63) then Z.shiftr w (bit_offset + 1) else 0 in
  r ← (if temp =? 0 then bm_next_word (S (Z.to_nat (end_ bm))) bm it (Z.land pos 0xffffffc0)
       else Ok (Some (temp, pos + 1)));
  match r with
  | None => Ok (-1)
  | Some (temp, next) => bm_low_bit 64 temp next
  end.

Definition bm_set_bit (bm : bitmap_t) (pos : Z) : res bitmap_t :=
  w ← aread (start bm) (WORD_OFFSET pos);
  a ← awrite (start bm) (WORD_OFFSET pos) (Z.lor w (Z.shiftl 1 (BIT_OFFSET pos)));
  Ok (Bitmap a (end_ bm)).

(** One attempt: the word read before is replaced if it is still there. *)
Definition bm_cas_word (bm : bitmap_t) (pos old_val : Z) : res (bitmap_t * bool) :=
  let new_val := Z.lor old_val (Z.shiftl 1 (BIT_OFFSET pos)) in
  w ← aread (start bm) (WORD_OFFSET pos);
  let '(w, done) := int64_cas w old_val new_val in
  a ← awrite (start bm) (WORD_OFFSET pos) w;
  Ok (Bitmap a (end_ bm), done).

(** In a parallel region: [get] and [put] are the bitmap of the shared state.  An attempt
    fails when another thread has set a bit of the word, at most 64 times. *)
Fixpoint bm_set_bit_loop {S} (fuel : nat) (get : S -> bitmap_t) (put : bitmap_t -> S -> S) (pos : Z) : proc S unit :=
  match fuel with
  | O => pure (Fault OutOfFuel)
  | Datatypes.S fuel =>
      old_val ← load (fun s => aread (start (get s)) (WORD_OFFSET pos));
      done ← act (fun s => '(bm, done) ← bm_cas_word (get s) pos old_val; Ok (put bm s, done));
      if (done : bool) then mret tt else bm_set_bit_loop fuel get put pos
  end.
Definition bm_set_bit_atomic {S} (get : S -> bitmap_t) (put : bitmap_t -> S -> S) (pos : Z) : proc S unit :=
  bm_set_bit_loop 65 get put pos.

Definition bm_swap (a b : bitmap_t) : bitmap_t * bitmap_t := (b, a).
