(* ===== verification/OmpBitmapProofs.v ===== *)
(** A bitmap of bitmap.h is a set of positions: reading, searching and setting bits. *)
From stdpp Require Import base numbers list.
From Stdlib Require Import ZArith Lia.
From S2P Require Import Prelude Kronecker Graph500 Graph Omp OmpBitmap.
Open Scope Z_scope.

Definition is_set (bm : bitmap_t) (p : Z) : bool := Z.testbit (at_ (start bm) (p / 64)) (p mod 64).

(** A bitmap for [nv] positions. *)
Record bm_ok (nv : Z) (bm : bitmap_t) : Prop := {
  bm_end : end_ bm = zlen (start bm);
  bm_size : end_ bm = (nv + 63) / 64;
  bm_words k : 0 <= k < end_ bm -> 0 <= at_ (start bm) k < 2 ^ 64 }.

Lemma word_offset p : 0 <= p -> WORD_OFFSET p = p / 64.
Proof. intros Hp. unfold WORD_OFFSET. apply Z.quot_div_nonneg; lia. Qed.

Lemma bit_offset p : BIT_OFFSET p = p mod 64.
Proof. unfold BIT_OFFSET. change 0x3f with (Z.ones 6). now rewrite Z.land_ones by lia. Qed.

Lemma land_bit w k : 0 <= k -> Z.land w (Z.shiftl 1 k) = if Z.testbit w k then 2 ^ k else 0.
Proof.
  intros Hk. rewrite Z.shiftl_1_l. apply Z.bits_inj'. intros n Hn. rewrite Z.land_spec, Z.pow2_bits_eqb by done.
  destruct (Z.eqb_spec k n) as [->|Hne].
  - rewrite andb_true_r. destruct (Z.testbit w n); [now rewrite Z.pow2_bits_true|now rewrite Z.bits_0].
  - rewrite andb_false_r. destruct (Z.testbit w k); [|now rewrite Z.bits_0]. now rewrite Z.pow2_bits_false by done.
Qed.

Lemma high_bits w k : 0 <= w < 2 ^ 64 -> 64 <= k -> Z.testbit w k = false.
Proof. intros Hw Hk. rewrite <- (Z.mod_small w (2 ^ 64)) by done. apply Z.mod_pow2_bits_high. lia. Qed.

Section bitmap.
Context (nv : Z) (bm : bitmap_t) (Hbm : bm_ok nv bm).

Lemma word_in p : 0 <= p < nv -> 0 <= p / 64 < end_ bm.
Proof. intros Hp. rewrite (bm_size _ _ Hbm). dlia. Qed.

Lemma get_bit_spec p : 0 <= p < nv -> exists b, bm_get_bit bm p = Ok b /\ (b =? 0) = negb (is_set bm p).
Proof.
  intros Hp. pose proof (word_in p Hp). unfold bm_get_bit. rewrite word_offset, bit_offset by lia.
  rewrite at_read by (rewrite <- (bm_end _ _ Hbm); lia). cbn [mbind res_bind]. eexists. split; [done|].
  rewrite land_bit by dlia. unfold is_set. destruct (Z.testbit _ _); [|done]. simpl. apply Z.eqb_neq. pose proof (Z.pow_pos_nonneg 2 (p mod 64)). dlia.
Qed.

Lemma low_bit_spec fuel temp next :
  0 < temp < 2 ^ Z.of_nat fuel ->
  exists k, bm_low_bit fuel temp next = Ok (next + k) /\ 0 <= k < Z.of_nat fuel /\ Z.testbit temp k = true /\
    forall j, 0 <= j < k -> Z.testbit temp j = false.
Proof.
  revert temp next. induction fuel as [|fuel IH]; intros temp next Ht; [simpl in Ht; lia|]. cbn [bm_low_bit].
  change (Z.land temp 1) with (Z.land temp (Z.shiftl 1 0)). rewrite land_bit by lia. destruct (Z.testbit temp 0) eqn:E0; cbn [Z.eqb].
  - exists 0. rewrite Z.add_0_r. split_and!; try done; lia.
  - rewrite Nat2Z.inj_succ, Z.pow_succ_r in Ht by lia. assert (Hodd : temp mod 2 = 0).
    { rewrite Z.bit0_odd, Zodd_mod in E0. destruct (Z.eqb_spec (temp mod 2) 1); [done|]. dlia. }
    destruct (IH (Z.shiftr temp 1) (next + 1)) as (k & Hrun & Hk & Hbit & Hlow).
    { rewrite Z.shiftr_div_pow2 by lia. change (2 ^ 1) with 2. dlia. }
    exists (k + 1). rewrite Hrun, Nat2Z.inj_succ. rewrite Z.shiftr_spec in Hbit by lia. split_and!; try done; try lia; [f_equal; lia|].
    intros j Hj. destruct (decide (j = 0)) as [->|]; [done|]. specialize (Hlow (j - 1) ltac:(lia)). rewrite Z.shiftr_spec in Hlow by lia.
    now replace (j - 1 + 1) with j in Hlow by lia.
Qed.

Lemma next_word_spec fuel it next :
  0 <= it < end_ bm -> end_ bm - it <= Z.of_nat fuel ->
  exists r, bm_next_word fuel bm it next = Ok r /\
    match r with
    | None => forall k, it < k < end_ bm -> at_ (start bm) k = 0
    | Some (w, n) => exists k, it < k < end_ bm /\ w = at_ (start bm) k /\ w <> 0 /\ n = next + 64 * (k - it) /\
        forall j, it < j < k -> at_ (start bm) j = 0
    end.
Proof.
  revert it next. induction fuel as [|fuel IH]; intros it next Hit Hf; [lia|]. cbn [bm_next_word].
  destruct (Z.leb_spec (end_ bm) (it + 1)) as [Hend|Hend].
  - eexists. split; [done|]. intros k Hk. lia.
  - rewrite at_read by (rewrite <- (bm_end _ _ Hbm); lia). cbn [mbind res_bind]. destruct (Z.eqb_spec (at_ (start bm) (it + 1)) 0) as [H0|H0].
    + destruct (IH (it + 1) (next + 64)) as (r & -> & Hr); [lia|lia|]. eexists. split; [done|]. destruct r as [[w n]|].
      * destruct Hr as (k & Hk & Hw & Hw0 & -> & Hj). exists k. split_and!; try done; try lia. intros j Hj'.
        destruct (decide (j = it + 1)) as [->|]; [done|]. apply Hj. lia.
      * intros k Hk. destruct (decide (k = it + 1)) as [->|]; [done|]. apply Hr. lia.
    + eexists. split; [done|]. exists (it + 1). split_and!; try done; lia.
Qed.

(** The next position in the set, or -1. *)
Definition next_ok (p r : Z) : Prop :=
  (r = -1 /\ forall q, p < q < 64 * end_ bm -> is_set bm q = false) \/
  (p < r < 64 * end_ bm /\ is_set bm r = true /\ forall q, p < q < r -> is_set bm q = false).

Lemma is_set_word k b : 0 <= b < 64 -> is_set bm (64 * k + b) = Z.testbit (at_ (start bm) k) b.
Proof. intros Hb. unfold is_set. replace ((64 * k + b) / 64) with k by dlia. now replace ((64 * k + b) mod 64) with b by dlia. Qed.

Lemma zero_word k q : at_ (start bm) k = 0 -> 64 * k <= q < 64 * k + 64 -> is_set bm q = false.
Proof. intros H0 Hq. replace q with (64 * k + (q - 64 * k)) by lia. rewrite is_set_word, H0 by lia. apply Z.bits_0. Qed.

Lemma mask_word p : 0 <= p < 2 ^ 32 -> Z.land p 0xffffffc0 = 64 * (p / 64).
Proof.
  intros Hp. apply Z.bits_inj'. intros n Hn. rewrite Z.land_spec. change 64 with (2 ^ 6). rewrite Z.mul_comm.
  change 0xffffffc0 with (Z.ldiff (Z.ones 32) (Z.ones 6)). rewrite Z.ldiff_spec, !Z.testbit_ones_nonneg by lia.
  rewrite <- Z.shiftr_div_pow2, <- Z.shiftl_mul_pow2 by lia. destruct (Z.ltb_spec n 6).
  - rewrite Z.shiftl_spec_low by lia. simpl. now rewrite !andb_false_r.
  - rewrite Z.shiftl_spec_high, Z.shiftr_spec by lia. replace (n - 6 + 6) with n by lia. simpl. rewrite andb_true_r.
    destruct (Z.ltb_spec n 32); [apply andb_true_r|]. rewrite andb_false_r. symmetry. rewrite <- (Z.mod_small p (2 ^ 32)) by lia.
    apply Z.mod_pow2_bits_high. lia.
Qed.

(** What is left of the word of [p] after [p]. *)
Lemma rest_of_word p :
  0 <= p < nv ->
  let temp := if negb (p mod 64 =? 63) then Z.shiftr (at_ (start bm) (p / 64)) (p mod 64 + 1) else 0 in
  0 <= temp < 2 ^ 64 /\ forall j, 0 <= j -> is_set bm (p + 1 + j) = Z.testbit temp j \/ 64 * (p / 64 + 1) <= p + 1 + j.
Proof.
  intros Hp temp. pose proof (bm_words _ _ Hbm _ (word_in p Hp)) as Hw. set (w := at_ (start bm) (p / 64)) in *. split.
  - unfold temp. destruct (negb _); [|lia]. rewrite Z.shiftr_div_pow2 by dlia. assert (Hd : 0 < 2 ^ (p mod 64 + 1)) by (apply Z.pow_pos_nonneg; dlia).
    split; [apply Z.div_pos; lia|]. apply Z.div_lt_upper_bound; [done|]. set (d := 2 ^ (p mod 64 + 1)) in *. lia.
  - intros j Hj. destruct (decide (64 * (p / 64 + 1) <= p + 1 + j)) as [|Hlt]; [now right|left].
    replace (p + 1 + j) with (64 * (p / 64) + (p mod 64 + 1 + j)) by dlia. rewrite is_set_word by dlia. fold w. unfold temp.
    destruct (Z.eqb_spec (p mod 64) 63); [dlia|]. cbn [negb]. rewrite Z.shiftr_spec by lia. f_equal. lia.
Qed.

Lemma next_bit_spec p :
  nv <= 2 ^ 32 -> 0 <= p < nv -> exists r, bm_get_next_bit bm p = Ok r /\ next_ok p r.
Proof.
  intros Hnv Hp. pose proof (word_in p Hp) as Hit. unfold bm_get_next_bit. rewrite word_offset, bit_offset by lia.
  rewrite at_read by (rewrite <- (bm_end _ _ Hbm); lia). cbn [mbind res_bind]. destruct (rest_of_word p Hp) as [Ht Hrest].
  set (temp := if negb (p mod 64 =? 63) then _ else 0) in *. destruct (Z.eqb_spec temp 0) as [H0|H0].
  - rewrite H0 in Hrest. assert (Hhere : forall q, p < q < 64 * (p / 64 + 1) -> is_set bm q = false).
    { intros q Hq. destruct (Hrest (q - p - 1)) as [Hb|Hb]; [lia| |lia]. replace (p + 1 + (q - p - 1)) with q in Hb by lia. now rewrite Hb, Z.bits_0. }
    rewrite mask_word by lia. destruct (next_word_spec (S (Z.to_nat (end_ bm))) (p / 64) (64 * (p / 64))) as (r & -> & Hr); [lia|lia|].
    assert (Hzero : forall k q, (forall j, p / 64 < j < k -> at_ (start bm) j = 0) -> p < q < 64 * k -> is_set bm q = false).
    { intros k q Hz Hq. destruct (decide (q < 64 * (p / 64 + 1))); [apply Hhere; lia|]. apply (zero_word (q / 64)); [apply Hz; dlia|dlia]. }
    cbn [mbind res_bind]. destruct r as [[w n]|].
    + destruct Hr as (k & Hk & -> & Hw0 & -> & Hz). pose proof (bm_words _ _ Hbm k ltac:(lia)) as Hw.
      destruct (low_bit_spec 64 (at_ (start bm) k) (64 * (p / 64) + 64 * (k - p / 64))) as (b & -> & Hb & Hbit & Hlow); [simpl; lia|].
      replace (64 * (p / 64) + 64 * (k - p / 64) + b) with (64 * k + b) by lia. eexists. split; [done|]. right. simpl in Hb. split_and!; [dlia|lia|now rewrite is_set_word by lia|].
      intros q Hq. destruct (decide (q < 64 * k)); [apply (Hzero k); [done|lia]|]. replace q with (64 * k + (q - 64 * k)) by lia.
      rewrite is_set_word by lia. apply Hlow. lia.
    + eexists. split; [done|]. left. split; [done|]. intros q. apply Hzero. done.
  - cbn [mbind res_bind]. destruct (low_bit_spec 64 temp (p + 1)) as (b & -> & Hb & Hbit & Hlow); [simpl; lia|]. eexists. split; [done|]. right.
    assert (Hin : p + 1 + b < 64 * (p / 64 + 1)).
    { destruct (decide (p + 1 + b < 64 * (p / 64 + 1))) as [|Hn]; [done|]. exfalso. revert Hbit. unfold temp in *. destruct (Z.eqb_spec (p mod 64) 63); [done|]. cbn [negb].
      rewrite Z.shiftr_spec by lia. rewrite high_bits; [done|apply (bm_words _ _ Hbm); lia|dlia]. }
    split_and!; [lia|dlia| |].
    + destruct (Hrest b) as [->|]; [lia|done|lia].
    + intros q Hq. destruct (Hrest (q - p - 1)) as [Hb'|]; [lia| |lia]. replace (p + 1 + (q - p - 1)) with q in Hb' by lia. rewrite Hb'. apply Hlow. lia.
Qed.
End bitmap.

(** ** Setting a bit *)

Definition with_bit (bm : bitmap_t) (p : Z) : bitmap_t :=
  Bitmap (<[Z.to_nat (p / 64) := Z.lor (at_ (start bm) (p / 64)) (2 ^ (p mod 64))]> (start bm)) (end_ bm).

Lemma lor_bit w k : 0 <= w < 2 ^ 64 -> 0 <= k < 64 -> 0 <= Z.lor w (2 ^ k) < 2 ^ 64.
Proof.
  intros Hw Hk. pose proof (Z.pow_pos_nonneg 2 k). split; [apply Z.lor_nonneg; lia|].
  rewrite <- (Z.mod_small w (2 ^ 64)) by done. rewrite <- (Z.mod_small (2 ^ k) (2 ^ 64)).
  - rewrite <- !Z.land_ones, <- Z.land_lor_distr_l, Z.land_ones by lia. now apply Z.mod_pos_bound.
  - split; [lia|]. apply Z.pow_lt_mono_r; lia.
Qed.

Lemma with_bit_ok nv bm p : bm_ok nv bm -> 0 <= p < nv -> bm_ok nv (with_bit bm p).
Proof.
  intros Hbm Hp. pose proof (word_in _ _ Hbm p Hp). destruct Hbm as [He Hs Hw]. split; cbn [start end_ with_bit].
  - now rewrite zlen_insert.
  - done.
  - intros k Hk. rewrite at_insert by lia. destruct (decide (k = p / 64)) as [->|]; [apply lor_bit; [now apply Hw|dlia]|now apply Hw].
Qed.

Lemma with_bit_set nv bm p q : bm_ok nv bm -> 0 <= p < nv -> 0 <= q -> is_set (with_bit bm p) q = (q =? p) || is_set bm q.
Proof.
  intros Hbm Hp Hq. pose proof (word_in _ _ Hbm p Hp). unfold is_set, with_bit. cbn [start].
  rewrite at_insert by (rewrite <- (bm_end _ _ Hbm); lia). destruct (decide (q / 64 = p / 64)) as [Heq|Hne].
  - rewrite Z.lor_spec, Z.pow2_bits_eqb by dlia. rewrite Heq, orb_comm. f_equal. destruct (Z.eqb_spec q p), (Z.eqb_spec (p mod 64) (q mod 64)); try done; dlia.
  - destruct (Z.eqb_spec q p) as [->|]; [done|]. done.
Qed.

(** The bits of a word. *)
Definition bits (w : Z) : list Z := filter (fun k => Z.testbit w k = true) (seqZ 0 64).

Lemma elem_of_bits w k : k ∈ bits w <-> 0 <= k < 64 /\ Z.testbit w k = true.
Proof. unfold bits. rewrite list_elem_of_filter, elem_of_seqZ. split; intros []; split; try done; lia. Qed.

Lemma bits_length w : (length (bits w) <= 64)%nat.
Proof. unfold bits. etransitivity; [apply length_filter|]. now rewrite length_seqZ. Qed.

(** A word that gains bits has more of them. *)
Lemma bits_gain w w' :
  0 <= w < 2 ^ 64 -> 0 <= w' < 2 ^ 64 -> (forall k, Z.testbit w k = true -> Z.testbit w' k = true) -> w <> w' ->
  (length (bits w) < length (bits w'))%nat.
Proof.
  intros Hw Hw' Hsub Hne. assert (Hnd : forall x, NoDup (bits x)) by (intros x; apply NoDup_filter, NoDup_seqZ).
  assert (Hs : bits w ⊆+ bits w').
  { apply NoDup_submseteq; [apply Hnd|]. intros k. rewrite !elem_of_bits. naive_solver. }
  destruct (decide (length (bits w') <= length (bits w))%nat) as [Hle|]; [|lia]. exfalso. apply Hne, Z.bits_inj'. intros k Hk.
  pose proof (submseteq_length_Permutation _ _ Hs Hle) as Hperm. destruct (decide (k < 64)).
  - destruct (Z.testbit w' k) eqn:E'; [|destruct (Z.testbit w k) eqn:E; [apply Hsub in E; congruence|done]].
    assert (k ∈ bits w) as [_ ->]%elem_of_bits; [|done]. rewrite Hperm. apply elem_of_bits. split; [lia|done].
  - rewrite !high_bits by lia. done.
Qed.

Section set_bit.
Context {S G : Type} (I : S -> G -> Prop) (R : nat -> S -> G -> S -> G -> Prop).
Hypothesis R_refl : forall i s g, R i s g s g.
Context (nv : Z) (get : S -> bitmap_t) (put : bitmap_t -> S -> S).
Hypothesis get_put : forall bm s, get (put bm s) = bm.
Hypothesis put_get : forall s, put (get s) s = s.
Hypothesis ok : forall s g, I s g -> bm_ok nv (get s).
(** The others only set bits. *)
Hypothesis mono : forall i s g s2 g2, R i s g s2 g2 -> forall p, 0 <= p < 64 * end_ (get s) -> is_set (get s) p = true -> is_set (get s2) p = true.

Lemma cas_word_spec s g pos old :
  I s g -> 0 <= pos < nv ->
  let w := at_ (start (get s)) (pos / 64) in
  bm_cas_word (get s) pos old = Ok (if w =? old then (with_bit (get s) pos, true) else (get s, false)).
Proof.
  intros Hi Hp w. pose proof (ok _ _ Hi) as Hbm. pose proof (word_in _ _ Hbm pos Hp). pose proof (bm_end _ _ Hbm). unfold bm_cas_word.
  rewrite word_offset, bit_offset by lia. rewrite at_read by lia. cbn [mbind res_bind]. fold w. unfold int64_cas. destruct (Z.eqb_spec w old) as [<-|Hne].
  - rewrite awrite_in_bounds by lia. cbn [mbind res_bind]. unfold with_bit. now rewrite Z.shiftl_1_l.
  - rewrite awrite_in_bounds by lia. cbn [mbind res_bind]. unfold w. rewrite list_insert_id by (apply at_lookup; lia). now destruct (get s).
Qed.

Lemma wp_set_bit i pos (P : S -> G -> Prop) (Q : unit -> S -> G -> Prop) s g :
  0 <= pos < nv -> I s g -> P s g ->
  (forall s g s2 g2, I s2 g2 -> R i s g s2 g2 -> P s g -> P s2 g2) ->
  (forall s g, I s g -> P s g -> exists g', I (put (with_bit (get s) pos) s) g' /\
     (forall j, j <> i -> R j s g (put (with_bit (get s) pos) s) g') /\
     forall s2 g2, I s2 g2 -> R i (put (with_bit (get s) pos) s) g' s2 g2 -> Q tt s2 g2) ->
  wp I R i (bm_set_bit_atomic get put pos) Q s g.
Proof.
  intros Hp Hi HP Hstable Hstep. unfold bm_set_bit_atomic.
  assert (Hlen : forall s, (65 <= 65 + length (bits (at_ (start (get s)) (pos / 64))))%nat) by (intros; lia).
  specialize (Hlen s). revert Hlen. generalize 65%nat at 2 3 as fuel. intros fuel. revert s g Hi HP.
  induction fuel as [|fuel IH]; intros s g Hi HP Hf; [pose proof (bits_length (at_ (start (get s)) (pos / 64))); lia|]. cbn [bm_set_bit_loop].
  pose proof (ok _ _ Hi) as Hbm. pose proof (word_in _ _ Hbm pos Hp). pose proof (bm_end _ _ Hbm).
  apply wp_bind; [done|]. eapply (wp_load I R R_refl); [done|rewrite word_offset by lia; apply at_read; lia|]. intros s1 g1 Hi1 HR1.
  apply wp_bind; [done|]. pose proof (cas_word_spec s1 g1 pos (at_ (start (get s)) (pos / 64)) Hi1 Hp) as Hcas. cbv zeta in Hcas.
  pose proof (ok _ _ Hi1) as Hbm1. assert (He : end_ (get s) = end_ (get s1)) by (now rewrite (bm_size _ _ Hbm), (bm_size _ _ Hbm1)).
  assert (HP1 : P s1 g1) by eauto. destruct (Z.eqb_spec (at_ (start (get s1)) (pos / 64)) (at_ (start (get s)) (pos / 64))) as [Heq|Hne].
  - destruct (Hstep s1 g1 Hi1 HP1) as (g' & Hi' & HR' & HQ). eapply wp_act; [now rewrite Hcas|done|done|]. exact HQ.
  - eapply (wp_act I R); [rewrite Hcas; cbn [mbind res_bind]; now rewrite put_get|exact Hi1|intros; apply R_refl|]. intros s2 g2 Hi2 HR2. cbv beta match.
    apply IH; [done|eauto|]. pose proof (ok _ _ Hi2) as Hbm2.
    assert (Hgain : forall sa ga sb gb, I sa ga -> I sb gb -> R i sa ga sb gb -> forall k, Z.testbit (at_ (start (get sa)) (pos / 64)) k = true ->
      Z.testbit (at_ (start (get sb)) (pos / 64)) k = true).
    { intros sa ga sb gb Ha Hb HR k Hk. pose proof (word_in _ _ (ok _ _ Ha) pos Hp). pose proof (bm_words _ _ (ok _ _ Ha) (pos / 64)) as Hw.
      destruct (decide (0 <= k < 64)) as [Hk64|Hk64].
      - pose proof (mono i sa ga sb gb HR (64 * (pos / 64) + k)) as Hm. rewrite !is_set_word in Hm by lia. apply Hm; [lia|done].
      - destruct (decide (k < 0)); [rewrite Z.testbit_neg_r in Hk by lia; done|]. rewrite high_bits in Hk; [done|auto|lia]. }
    assert (Hlt : (length (bits (at_ (start (get s)) (pos / 64))) < length (bits (at_ (start (get s1)) (pos / 64))))%nat).
    { apply bits_gain; [apply (bm_words _ _ Hbm); lia|apply (bm_words _ _ Hbm1); lia|eapply Hgain; eauto|congruence]. }
    assert (Hle : (length (bits (at_ (start (get s1)) (pos / 64))) <= length (bits (at_ (start (get s2)) (pos / 64))))%nat).
    { apply submseteq_length, NoDup_submseteq; [apply NoDup_filter, NoDup_seqZ|]. intros k. rewrite !elem_of_bits. intros [? ?]. split; [done|]. eapply Hgain; eauto. }
    lia.
Qed.
End set_bit.

(** ** Fresh bitmaps *)

Lemma reset_word_spec nv bm it :
  bm_ok nv bm -> 0 <= it < end_ bm ->
  bm_reset_word it bm = Ok (Bitmap (<[Z.to_nat it := 0]> (start bm)) (end_ bm)) /\ bm_ok nv (Bitmap (<[Z.to_nat it := 0]> (start bm)) (end_ bm)).
Proof.
  intros [He Hs Hw] Hit. unfold bm_reset_word. rewrite awrite_in_bounds by lia. split; [done|]. split; cbn [start end_]; [now rewrite zlen_insert|done|].
  intros k Hk. rewrite at_insert by lia. destruct (decide (k = it)); [lia|now apply Hw].
Qed.

Lemma bm_init_spec `{M : Malloc, !MallocLaws M} {NO : MallocNoOom M} nv :
  0 < nv -> nv + 63 < 2 ^ 31 -> exists bm, bm_init nv = Ok bm /\ bm_ok nv bm /\ forall p, 0 <= p < 64 * end_ bm -> is_set bm p = false.
Proof.
  intros H0 Hnv. unfold bm_init. rewrite s32_small by lia. unfold i32. rewrite decide_True by lia. cbn [mbind res_bind].
  rewrite Z.quot_div_nonneg by lia. set (n := (nv + 63) / 64). assert (Hn : 0 < n < 2 ^ 31) by (unfold n; dlia).
  rewrite u64_small by (unfold is_u64; lia). destruct (malloc_some (8 * n) 8) as [a Ha]; [lia|]. rewrite Ha.
  pose proof (malloc_length _ _ _ Ha ltac:(lia)) as Hl. replace (8 * n / 8) with n in Hl by dlia. unfold bm_reset. cbn [end_].
  for_inv (fun k bm => end_ bm = n /\ zlen (start bm) = n /\ forall j, 0 <= j < k -> at_ (start bm) j = 0) bm HP.
  - lia.
  - split_and!; try done. intros j Hj. lia.
  - intros k bm Hk (He & Hz & Hj). unfold bm_reset_word. rewrite awrite_in_bounds by lia. eexists. split; [done|]. cbn [start end_].
    rewrite zlen_insert. split_and!; try done. intros j Hjk. rewrite at_insert by lia. destruct (decide (j = k)); [done|]. apply Hj. lia.
  - destruct HP as (He & Hz & Hj). exists bm. split; [done|]. split.
    + split; [lia|done|]. intros k Hk. rewrite Hj; lia.
    + intros p Hp. unfold is_set. rewrite Hj by dlia. apply Z.bits_0.
Qed.
