(* ===== verification/OmpCsr.v ===== *)
(** The OpenMP kernel of Graph500, src/workload/graph500/omp-csr/omp-csr.c: construction of
    compressed rows by a team of threads and a breadth-first search that changes its
    direction.

    The shared accesses of a thread are steps of their own wherever another thread can
    reach the location before the next barrier.  What a loop iteration alone can reach (a
    row that is sorted, a word that is cleared) is one step.  Freeing memory is left out. *)
From stdpp Require Import base numbers list.
From Stdlib Require Import ZArith Lia.
From S2P Require Import Prelude Kronecker Graph500 Graph Omp OmpBitmap.
Import Plain.
Open Scope Z_scope.

Module OmpCsr.
Section omp_csr.
Context `{M : Malloc} `{OM : Omp}.

Definition MINVECT_SIZE : Z := 2.
Definition THREAD_BUF_LEN : Z := 16384.
Definition ALPHA : Z := 14.
Definition BETA : Z := 24.

(** [maxvtx], [nv], [xoff] and [xadjstore] are those of seq-csr.c. *)
Notation csr := SeqCsr.csr.
Notation Csr := SeqCsr.Csr.

(** The private variable of thread [i]. *)
Definition private {A} (l : list A) (i : nat) : res A := of_option OutOfBounds (l !! i).

(** ** Construction *)

(** The largest vertex of the edges of a thread. *)
Definition thread_max (IJ : list packed_edge) (ks : list Z) : proc Z Z :=
  pfor ks (fun k tmaxvtx =>
    read_only (aread IJ k) (fun e =>
      let tmaxvtx := if tmaxvtx <? get_v0_from_edge e then get_v0_from_edge e else tmaxvtx in
      mret (if tmaxvtx <? get_v1_from_edge e then get_v1_from_edge e else tmaxvtx))) (-1).

(** An attempt fails when another thread has raised [maxvtx], at most once each. *)
Fixpoint raise_max (fuel : nat) (tmaxvtx gmaxvtx : Z) : proc Z unit :=
  if gmaxvtx <? tmaxvtx then
    match fuel with
    | O => pure (Fault OutOfFuel)
    | S fuel =>
        gmaxvtx ← act (fun maxvtx => Ok (int64_casval maxvtx gmaxvtx tmaxvtx));
        raise_max fuel tmaxvtx gmaxvtx
    end
  else mret tt.

Definition find_nv (IJ : list packed_edge) (nedge : Z) : team (Z * Z) :=
  '(maxvtx, ts) ← omp_for 0 nedge (fun _ ks => thread_max IJ ks) (-1);
  '(maxvtx, _) ← parallel (fun _ i =>
    read_only (private ts i) (fun tmaxvtx =>
      gmaxvtx ← load (fun maxvtx => Ok maxvtx);
      raise_max (num_threads + 1) tmaxvtx gmaxvtx)) maxvtx;
  mret (maxvtx, 1 + maxvtx).

Definition alloc_graph (nv : Z) : res (list Z) :=
  n ← i64 (2 * nv + 2); xmalloc_large_ext (int64s n) 8.

Definition XOFF (k : Z) : Z := 2 * k.
Definition XENDOFF (k : Z) : Z := 1 + 2 * k.
Definition xadj (k : Z) : Z := MINVECT_SIZE + k.

(** The vertices of a thread in [prefix_sum]. *)
Definition slice (nv nt tid : Z) : Z * Z :=
  let t1 := Z.quot nv nt in
  let t2 := Z.rem nv nt in
  (t1 * tid + (if tid <? t2 then tid else t2), t1 * (tid + 1) + (if tid + 1 <? t2 then tid + 1 else t2)).

(** [xoff] and [buf]; the last result is [buf[nt-1]]. *)
Definition prefix_sum (nv : Z) (s : list Z * list Z) : team (list Z * list Z * Z) :=
  let nt := Z.of_nat num_threads in
  '(s, _) ← parallel (fun _ i =>
    let tid := Z.of_nat i in
    let '(slice_begin, slice_end) := slice nv nt tid in
    _ ← store (fun '(xoff, buf) => buf ← awrite buf tid 0; Ok (xoff, buf));
    pfor (seqZ slice_begin (slice_end - slice_begin)) (fun k _ =>
      store (fun '(xoff, buf) =>
        x ← aread xoff (XOFF k); b ← aread buf tid; buf ← awrite buf tid (b + x); Ok (xoff, buf))) tt) s;
  s ← alone (for_range 1 nt (fun k '(xoff, buf) =>
    b ← aread buf k; c ← aread buf (k - 1); buf ← awrite buf k (b + c); Ok (xoff, buf)) s);
  '(s, _) ← parallel (fun _ i =>
    let tid := Z.of_nat i in
    let '(slice_begin, slice_end) := slice nv nt tid in
    t1 ← (if negb (tid =? 0) then load (fun '(_, buf) => aread buf (tid - 1)) else mret 0);
    pfor (seqZ slice_begin (slice_end - slice_begin)) (fun k t1 =>
      tmp ← load (fun '(xoff, _) => aread xoff (XOFF k));
      _ ← store (fun '(xoff, buf) => xoff ← awrite xoff (XOFF k) t1; Ok (xoff, buf));
      mret (t1 + tmp)) t1) s;
  accum ← alone (aread s.2 (nt - 1));
  mret (s, accum).

Definition setup_deg_off (IJ : list packed_edge) (nedge nv : Z) (xoff : list Z) : team (list Z * list Z) :=
  xoff ← omp_each 0 (2 * nv + 2) (fun k => store (fun xoff => awrite xoff k 0)) xoff;
  xoff ← omp_each 0 nedge (fun k =>
    read_only (aread IJ k) (fun e =>
      let i := get_v0_from_edge e in
      let j := get_v1_from_edge e in
      if negb (i =? j) then
        _ ← (if 0 <=? i then store (fun xoff => bump xoff (XOFF i)) else mret tt);
        if 0 <=? j then store (fun xoff => bump xoff (XOFF j)) else mret tt
      else mret tt)) xoff;
  let buf := alloca num_threads in
  xoff ← omp_each 0 nv (fun k => store (fun xoff =>
    x ← aread xoff (XOFF k);
    if x <? MINVECT_SIZE then awrite xoff (XOFF k) MINVECT_SIZE else Ok xoff)) xoff;
  '(xoff, _, accum) ← prefix_sum nv (xoff, buf);
  xoff ← omp_each 0 nv (fun k => store (fun xoff => x ← aread xoff (XOFF k); awrite xoff (XENDOFF k) x)) xoff;
  alone (
    xoff ← awrite xoff (XOFF nv) accum;
    n ← i64 (accum + MINVECT_SIZE);
    xadjstore ← xmalloc_large_ext (int64s n) 8;
    xadjstore ← fill xadjstore 0 (accum + MINVECT_SIZE) (-1);
    Ok (xoff, xadjstore)).

(** Two accesses: the slot is taken, then written. *)
Definition scatter_edge (i j : Z) : proc (list Z * list Z) unit :=
  wher ← act (fun '(xoff, xadjstore) =>
    x ← aread xoff (XENDOFF i);
    let '(x, wher) := int64_fetch_add x 1 in
    xoff ← awrite xoff (XENDOFF i) x;
    Ok ((xoff, xadjstore), wher));
  store (fun '(xoff, xadjstore) => xadjstore ← awrite xadjstore (xadj wher) j; Ok (xoff, xadjstore)).

(** As in seq-csr.c: only the row of [i] is touched. *)
Definition pack_vtx_edges (i : Z) (g : list Z * list Z) : res (list Z * list Z) := SeqCsr.pack_vtx_edges i g.

Definition pack_edges (nv : Z) (g : list Z * list Z) : team (list Z * list Z) :=
  omp_each 0 nv (fun v => store (pack_vtx_edges v)) g.

Definition gather_edges (IJ : list packed_edge) (nedge nv : Z) (g : list Z * list Z) : team (list Z * list Z) :=
  g ← omp_each 0 nedge (fun k =>
    read_only (aread IJ k) (fun e =>
      let i := get_v0_from_edge e in
      let j := get_v1_from_edge e in
      if (0 <=? i) && (0 <=? j) && negb (i =? j)
      then _ ← scatter_edge i j; scatter_edge j i else mret tt)) g;
  pack_edges nv g.

Definition create_graph_from_edgelist (IJ : list packed_edge) (nedge : Z) : team csr :=
  '(maxvtx, nv) ← find_nv IJ nedge;
  xoff ← alone (alloc_graph nv);
  g ← setup_deg_off IJ nedge nv xoff;
  '(xoff, xadjstore) ← gather_edges IJ nedge nv g;
  mret (Csr maxvtx nv xoff xadjstore).

(** ** Search *)

(** What the threads share: [k1] and [k2] delimit the frontier in [vlist]. *)
Record search := Search {
  bfs_tree : list Z; vlist : list Z; k1 : Z; k2 : Z; past : bitmap_t; next : bitmap_t; awake_count : Z; scout_count : Z }.

Definition set_tree (s : search) (x : list Z) : search :=
  Search x (vlist s) (k1 s) (k2 s) (past s) (next s) (awake_count s) (scout_count s).
Definition set_vlist (s : search) (x : list Z) : search :=
  Search (bfs_tree s) x (k1 s) (k2 s) (past s) (next s) (awake_count s) (scout_count s).
Definition set_k1 (s : search) (x : Z) : search :=
  Search (bfs_tree s) (vlist s) x (k2 s) (past s) (next s) (awake_count s) (scout_count s).
Definition set_k2 (s : search) (x : Z) : search :=
  Search (bfs_tree s) (vlist s) (k1 s) x (past s) (next s) (awake_count s) (scout_count s).
Definition set_past (s : search) (x : bitmap_t) : search :=
  Search (bfs_tree s) (vlist s) (k1 s) (k2 s) x (next s) (awake_count s) (scout_count s).
Definition set_next (x : bitmap_t) (s : search) : search :=
  Search (bfs_tree s) (vlist s) (k1 s) (k2 s) (past s) x (awake_count s) (scout_count s).
Definition set_awake (s : search) (x : Z) : search :=
  Search (bfs_tree s) (vlist s) (k1 s) (k2 s) (past s) (next s) x (scout_count s).
Definition set_scout (s : search) (x : Z) : search :=
  Search (bfs_tree s) (vlist s) (k1 s) (k2 s) (past s) (next s) (awake_count s) x.

Definition sum (l : list Z) : Z := foldr Z.add 0 l.

(** [local[local_index++] = j]: a buffer of a thread is the part in use. *)
Definition push (local : list Z) (j : Z) : res (list Z) :=
  if zlen local <? THREAD_BUF_LEN then Ok (local ++ [j]) else Fault OutOfBounds.

(** [for (vk = 0; vk < n; ++vk) vlist[voff + vk] = local[vk]] *)
Definition copy_out (local : list Z) (voff n : Z) : proc search unit :=
  pfor (seqZ 0 n) (fun vk _ =>
    read_only (aread local vk) (fun x => store (fun s => l ← awrite (vlist s) (voff + vk) x; Ok (set_vlist s l)))) tt.

Definition fetch_add_k2 (n : Z) : proc search Z :=
  act (fun s => let '(k, r) := int64_fetch_add (k2 s) n in Ok (set_k2 s k, r)).

Definition fill_bitmap_from_queue (s : search) : team search :=
  omp_each (k1 s) (k2 s) (fun q_index =>
    read_only (aread (vlist s) q_index) (fun v => bm_set_bit_atomic next set_next v)) s.

(** [int my_in = int64_fetch_add (in, n)] and the copy. *)
Definition flush_int (local : list Z) (n : Z) : proc search unit :=
  my_in ← fetch_add_k2 n; copy_out local (s32 my_in) n.

(** The bits [i], ..., [i_end - 1] of a bitmap go to the list of vertices. *)
Fixpoint queue_bits (fuel : nat) (bm : bitmap_t) (i i_end : Z) (local : list Z) : proc search (list Z) :=
  match fuel with
  | O => pure (Fault OutOfFuel)
  | S fuel =>
      if negb (i =? -1) && (i <? i_end) then
        read_only (push local i) (fun local =>
        read_only (bm_get_next_bit bm i) (fun i =>
          local ← (if zlen local =? THREAD_BUF_LEN then _ ← flush_int local THREAD_BUF_LEN; mret [] else mret local);
          queue_bits fuel bm i i_end local))
      else mret local
  end.

Definition queue_thread (nv : Z) (bm : bitmap_t) (tid : Z) : proc search unit :=
  let nt := Z.of_nat num_threads in
  let nodes_per_thread := Z.quot (nv + nt - 1) nt in
  let i := nodes_per_thread * tid in
  local ← (if i <? nv then
    let i_end := if nv <=? i + nodes_per_thread then nv else i + nodes_per_thread in
    read_only (bm_get_bit bm i) (fun b =>
    read_only (if negb (b =? 0) then push [] i else Ok []) (fun local =>
    read_only (bm_get_next_bit bm i) (fun i' => queue_bits (S (Z.to_nat nv)) bm i' i_end local)))
  else mret []);
  flush_int local (zlen local).

Definition fill_queue_from_bitmap (nv : Z) (s : search) : team search :=
  let s := set_k2 (set_k1 s 0) 0 in
  '(s, _) ← parallel (fun _ i => queue_thread nv (next s) (Z.of_nat i)) s;
  mret s.

(** The neighbours of an unvisited vertex, until one is in the frontier. *)
Fixpoint find_parent (g : csr) (i : Z) (vos : list Z) (awake : Z) : proc search Z :=
  match vos with
  | [] => mret awake
  | vo :: vos =>
      read_only (aread (SeqCsr.xadjstore g) (xadj vo)) (fun j =>
        b ← load (fun s => bm_get_bit (past s) j);
        if negb (b =? 0) then
          _ ← store (fun s => t ← awrite (bfs_tree s) i j; Ok (set_tree s t));
          _ ← bm_set_bit_atomic next set_next i;
          mret (awake + 1)
        else find_parent g i vos awake)
  end.

Definition bottom_up_vertex (g : csr) (i awake : Z) : proc search Z :=
  t ← load (fun s => aread (bfs_tree s) i);
  if t =? -1 then
    read_only (aread (SeqCsr.xoff g) (XOFF i)) (fun xo =>
    read_only (aread (SeqCsr.xoff g) (XENDOFF i)) (fun xe => find_parent g i (seqZ xo (xe - xo)) awake))
  else mret awake.

(** The threads add their counts to [awake_count] at the end of the loop. *)
Definition bfs_bottom_up_step (g : csr) (s : search) : team (search * Z) :=
  let '(p, n) := bm_swap (past s) (next s) in
  let s := set_next n (set_past s p) in
  s ← omp_each 0 (end_ (next s)) (fun it => store (fun s => n ← bm_reset_word it (next s); Ok (set_next n s))) s;
  let s := set_awake s 0 in
  '(s, counts) ← omp_for 0 (SeqCsr.nv g) (fun _ vs => pfor vs (bottom_up_vertex g) 0) s;
  let s := set_awake s (awake_count s + sum counts) in
  mret (s, awake_count s).

(** [local], of length [n], goes to the list of vertices. *)
Definition flush (nv : Z) (local : list Z) (n : Z) : proc search unit :=
  voff ← fetch_add_k2 n;
  _ ← pure (check (voff + n <=? nv) AssertFailed);
  copy_out local voff n.

Definition cas_tree (j v : Z) : proc search bool :=
  act (fun s =>
    t ← aread (bfs_tree s) j;
    let '(t, done) := int64_cas t (-1) v in
    a ← awrite (bfs_tree s) j t;
    Ok (set_tree s a, done)).

Definition top_down_edge (g : csr) (v vo : Z) (local : list Z) : proc search (list Z) :=
  read_only (aread (SeqCsr.xadjstore g) (xadj vo)) (fun j =>
    t ← load (fun s => aread (bfs_tree s) j);
    if t =? -1 then
      done ← cas_tree j v;
      if (done : bool) then
        if zlen local <? THREAD_BUF_LEN then read_only (push local j) mret
        else _ ← flush (SeqCsr.nv g) local THREAD_BUF_LEN; read_only (push [] j) mret
      else mret local
    else mret local).

Definition top_down_vertex (g : csr) (k : Z) (local : list Z) : proc search (list Z) :=
  v ← load (fun s => aread (vlist s) k);
  read_only (aread (SeqCsr.xoff g) (XENDOFF v)) (fun veo =>
  read_only (aread (SeqCsr.xoff g) (XOFF v)) (fun vo =>
    pfor (seqZ vo (veo - vo)) (top_down_edge g v) local)).

(** After the loop one thread moves [k1] while the others may still copy. *)
Definition bfs_top_down_step (g : csr) (s : search) : team search :=
  let oldk2 := k2 s in
  '(s, locals) ← omp_for (k1 s) oldk2 (fun _ ks => pfor ks (top_down_vertex g) []) s;
  '(s, _) ← parallel (fun one i =>
    read_only (private locals i) (fun local =>
      _ ← (if negb (zlen local =? 0) then flush (SeqCsr.nv g) local (zlen local) else mret tt);
      if (i =? one)%nat then store (fun s => Ok (set_k1 s oldk2)) else mret tt)) s;
  mret s.

(** The private variables [edges_to_check] and [awake_count] of the threads. *)
Notation privates := (list (Z * Z)).

(** [scout_count] is read by every thread after the last barrier of the step, and reset by
    the first thread that reaches the [single] region. *)
Definition after_top_down (ps : privates) (s : search) : team (search * privates) :=
  parallel (fun one i =>
    read_only (private ps i) (fun '(edges_to_check, _) =>
      '(scout, awake) ← load (fun s => Ok (scout_count s, k2 s - k1 s));
      _ ← (if (i =? one)%nat then store (fun s => Ok (set_scout s 0)) else mret tt);
      mret (edges_to_check - scout, awake))) s.

Definition bottom_up (g : csr) (down_cutoff : Z) (s : search) : team (search * Z) :=
  s ← fill_bitmap_from_queue s;
  r ← bfs_bottom_up_step g s;
  '(s, awake) ← team_while (S (Z.to_nat (SeqCsr.nv g)))
    (fun '(_, awake) => Ok (down_cutoff <? awake)) (fun '(s, _) => bfs_bottom_up_step g s) r;
  s ← fill_queue_from_bitmap (SeqCsr.nv g) s;
  mret (set_scout s 0, awake).

(** The edges that leave the frontier; the threads add theirs to [scout_count]. *)
Definition count_frontier (g : csr) (s : search) : team search :=
  '(s', counts) ← omp_for (k1 s) (k2 s) (fun _ vs => pfor vs (fun i count =>
    read_only (aread (vlist s) i) (fun v =>
    read_only (aread (SeqCsr.xoff g) (XENDOFF v)) (fun xe =>
    read_only (aread (SeqCsr.xoff g) (XOFF v)) (fun xo => mret (count + (xe - xo)))))) 0) s;
  mret (set_scout s' (scout_count s' + sum counts)).

(** The directions the threads take. *)
Definition directions (ps : privates) (s : search) : list bool :=
  (fun '(edges_to_check, _) => scout_count s <? Z.quot (edges_to_check - scout_count s) ALPHA) <$> ps.

Definition bfs_iteration (g : csr) (down_cutoff : Z) (c : search * privates) : team (search * privates) :=
  let '(s, ps) := c in
  down ← alone (agree (directions ps s));
  '(s, ps) ← (if (down : bool) then
      s ← bfs_top_down_step g s; after_top_down ps s
    else
      '(s, awake) ← bottom_up g down_cutoff s;
      mret (s, (fun '(edges_to_check, _) => (edges_to_check, awake)) <$> ps));
  s ← count_frontier g s;
  mret (s, ps).

Definition make_bfs_tree (g : csr) (bfs_tree_out : list Z) (srcvtx : Z) : team (list Z * Z) :=
  s ← alone (
    vlist ← xmalloc_large (int64s (SeqCsr.nv g)) 8;
    vlist ← awrite vlist 0 srcvtx;
    bfs_tree ← awrite bfs_tree_out srcvtx srcvtx;
    past ← bm_init (SeqCsr.nv g);
    next ← bm_init (SeqCsr.nv g);
    xe ← aread (SeqCsr.xoff g) (XENDOFF srcvtx);
    xo ← aread (SeqCsr.xoff g) (XOFF srcvtx);
    Ok (Search bfs_tree vlist 0 1 past next 0 (xe - xo)));
  let down_cutoff := Z.quot (SeqCsr.nv g) BETA in
  edges_to_check ← alone (aread (SeqCsr.xoff g) (XOFF (SeqCsr.nv g)));
  s ← omp_each 0 srcvtx (fun k => store (fun s => t ← awrite (bfs_tree s) k (-1); Ok (set_tree s t))) s;
  s ← omp_each (srcvtx + 1) (SeqCsr.nv g) (fun k => store (fun s => t ← awrite (bfs_tree s) k (-1); Ok (set_tree s t))) s;
  '(s, _) ← team_while (S (Z.to_nat (SeqCsr.nv g) + 1))
    (fun '(_, ps) => agree ((fun '(_, awake) => negb (awake =? 0)) <$> ps))
    (bfs_iteration g down_cutoff) (s, replicate num_threads (edges_to_check, 1));
  mret (bfs_tree s, SeqCsr.maxvtx g).
End omp_csr.
End OmpCsr.

(** The kernel as the driver calls it: [start] is the time the construction begins, and
    [clk root] the time the search from a root does (the driver searches from a root once). *)
Definition omp_csr `{Malloc} `{Omp} (start : nat) (clk : Z -> nat) : Kernel := {|
  graph := SeqCsr.csr;
  create_graph IJ nedge := '(g, _) ← OmpCsr.create_graph_from_edgelist IJ nedge start; Ok (Some g);
  bfs g tree src := '(r, _) ← OmpCsr.make_bfs_tree g tree src (clk src); Ok (Some r) |}.
