(* ===== verification/OmpCsrBuild.v ===== *)
(** The construction of omp-csr.c by a team: whatever the schedule, the rows are the ones
    of the sequential kernel. *)
From stdpp Require Import base numbers list gmap sorting.
From Stdlib Require Import ZArith Lia.
From S2P Require Import Prelude Kronecker Graph500 Graph SeqCsrProofs Omp OmpBitmap OmpCsr.
Import Plain OmpCsr.
Open Scope Z_scope.

(** ** Lists of indices *)

Lemma concat_singletons {A} (l : list A) : concat ((fun k => [k]) <$> l) = l.
Proof. induction l as [|x l IH]; [done|]. cbn [fmap list_fmap concat app]. now rewrite IH. Qed.

Lemma elem_of_concat {A} (ls : list (list A)) x : x ∈ concat ls <-> exists i l, ls !! i = Some l /\ x ∈ l.
Proof.
  rewrite list_elem_of_In, in_concat. split.
  - intros (l & Hl & Hx). apply list_elem_of_In in Hl, Hx. apply list_elem_of_lookup_1 in Hl as [i Hi]. eauto.
  - intros (i & l & Hi & Hx). exists l. rewrite <- !list_elem_of_In. split; [eapply list_elem_of_lookup_2, Hi|done].
Qed.

Lemma fmap_read {A B} (l : list A) (f : A -> B) (d : B) :
  (fun k => match aread l k with Ok e => f e | Fault _ => d end) <$> seqZ 0 (zlen l) = f <$> l.
Proof.
  apply list_eq. intros i. rewrite !list_lookup_fmap. destruct (l !! i) as [e|] eqn:Ei.
  - pose proof (lookup_lt_Some _ _ _ Ei). rewrite lookup_seqZ_lt by (unfold zlen; lia). simpl. f_equal.
    assert (aread l (0 + Z.of_nat i) = Ok e) as ->; [|done]. apply aread_Ok. split; [lia|]. now rewrite Z.add_0_l, Nat2Z.id.
  - apply lookup_ge_None in Ei. rewrite lookup_seqZ_ge by (unfold zlen; lia). done.
Qed.

(** The position of an element of a range. *)
Lemma seqZ_split lo n l1 k l2 : seqZ lo n = l1 ++ k :: l2 -> k = lo + zlen l1 /\ zlen l1 < n.
Proof.
  intros H. assert (Hk : seqZ lo n !! length l1 = Some k) by (rewrite H; now apply list_lookup_middle).
  apply lookup_seqZ in Hk as [-> Hk]. unfold zlen. lia.
Qed.

Lemma in_range lo hi k l : l ≡ₚ seqZ lo (hi - lo) -> k ∈ l <-> lo <= k < hi.
Proof. intros ->. rewrite elem_of_seqZ. lia. Qed.

(** ** Shared loops over an array *)

Section each.
Context (race : Prop) `{OM : Omp, !OmpLaws OM}.

(** Iterations [lo <= k < hi], one access each; [P] with the iterations that are done. *)
Lemma returns_each1 {S} (f : Z -> S -> res S) (P : list Z -> S -> Prop) lo hi (s : S) :
  P [] s ->
  (forall l k s, lo <= k < hi -> P l s -> exists s', f k s = Ok s' /\ P (l ++ [k]) s') ->
  returns race (fun s' => exists l, (forall k, k ∈ l <-> lo <= k < hi) /\ P l s') (omp_each lo hi (fun k => store (f k)) s).
Proof.
  intros H0 Hstep. apply (returns_each race f (fun k => [k])); [intros; apply line_store|]. rewrite concat_singletons. intros l Hl.
  destruct (mfold_inv P f l s H0) as (s' & Hrun & Hp).
  { intros l1 k l2 s1 Hl12 Hp. apply Hstep; [|done]. rewrite <- (in_range lo hi k l Hl), Hl12. apply elem_of_app. right. now left. }
  exists s'. split; [done|]. exists l. split; [|done]. intros k. now apply in_range.
Qed.
End each.

(** ** Writes under way *)

(** A thread that has taken a slot of an array and not yet written it: the array with all
    such writes done.  [pend] has the thread and the value of each. *)
Definition complete (pend : gmap Z (nat * Z)) (a : list Z) : list Z :=
  imap (fun p x => match pend !! Z.of_nat p with Some (_, y) => y | None => x end) a.

Lemma complete_length pend a : length (complete pend a) = length a.
Proof. apply length_imap. Qed.

Lemma complete_zlen pend a : zlen (complete pend a) = zlen a.
Proof. unfold zlen. now rewrite complete_length. Qed.

Lemma complete_empty a : complete ∅ a = a.
Proof. apply list_eq. intros i. unfold complete. rewrite list_lookup_imap. destruct (a !! i) as [x|]; [|done]. simpl. now rewrite lookup_empty. Qed.

Lemma complete_take pend a p t x :
  0 <= p < zlen a -> complete (<[p := (t, x)]> pend) a = <[Z.to_nat p := x]> (complete pend a).
Proof.
  intros Hp. apply list_eq. intros i. unfold complete. rewrite list_lookup_imap. destruct (decide (i = Z.to_nat p)) as [->|Hne].
  - rewrite list_lookup_insert_eq by (rewrite length_imap; unfold zlen in Hp; lia). rewrite Z2Nat.id by lia. rewrite lookup_insert_eq.
    destruct (lookup_lt_is_Some_2 a (Z.to_nat p)) as [y ->]; [unfold zlen in Hp; lia|]. done.
  - rewrite list_lookup_insert_ne by done. rewrite list_lookup_imap. destruct (a !! i); [|done]. simpl. now rewrite lookup_insert_ne by lia.
Qed.

Lemma complete_write pend a p t x :
  pend !! p = Some (t, x) -> 0 <= p < zlen a -> complete (delete p pend) (<[Z.to_nat p := x]> a) = complete pend a.
Proof.
  intros Hpend Hp. apply list_eq. intros i. unfold complete. rewrite !list_lookup_imap. destruct (decide (i = Z.to_nat p)) as [->|Hne].
  - rewrite list_lookup_insert_eq by (unfold zlen in Hp; lia). destruct (lookup_lt_is_Some_2 a (Z.to_nat p)) as [y ->]; [unfold zlen in Hp; lia|].
    simpl. rewrite Z2Nat.id by lia. now rewrite lookup_delete_eq, Hpend.
  - rewrite list_lookup_insert_ne by done. destruct (a !! i); [|done]. simpl. now rewrite lookup_delete_ne by lia.
Qed.

(** The writes of a thread. *)
Definition same_writes (t : nat) (pend pend' : gmap Z (nat * Z)) : Prop := forall p x, pend !! p = Some (t, x) <-> pend' !! p = Some (t, x).
Definition no_writes (t : nat) (pend : gmap Z (nat * Z)) : Prop := forall p x, pend !! p <> Some (t, x).

Lemma same_writes_take t j pend p x : j <> t -> pend !! p = None -> same_writes j pend (<[p := (t, x)]> pend).
Proof.
  intros Hj Hp q y. destruct (decide (q = p)) as [->|Hne]; [rewrite lookup_insert_eq, Hp|now rewrite lookup_insert_ne]. split; [done|]. intros [= <- _]. done.
Qed.

Lemma same_writes_write t j pend p x : j <> t -> pend !! p = Some (t, x) -> same_writes j pend (delete p pend).
Proof.
  intros Hj Hp q y. destruct (decide (q = p)) as [->|Hne]; [rewrite lookup_delete_eq, Hp|now rewrite lookup_delete_ne]. split; [intros [= <- _]; done|done].
Qed.

Lemma all_written n pend : (forall p t x, pend !! p = Some (t, x) -> (t < n)%nat) -> (forall t, (t < n)%nat -> no_writes t pend) -> pend = ∅.
Proof. intros Hn Hw. apply map_empty. intros p. destruct (pend !! p) as [[t x]|] eqn:E; [|done]. exfalso. eapply Hw; eauto. Qed.

Section build.
Context (race : Prop) `{OM : Omp, !OmpLaws OM} `{M : Malloc, !MallocLaws M} {NO : MallocNoOom M}.
Context (IJ : list packed_edge).
Notation nv := (maxv IJ + 1).

(** ** The largest vertex *)

(** [m] is the largest vertex of the edges [ks], or -1. *)
Definition max_of (ks : list Z) (m : Z) : Prop :=
  -1 <= m /\ (forall k e, k ∈ ks -> aread IJ k = Ok e -> v0 e <= m /\ v1 e <= m) /\
  (m = -1 \/ exists e, e ∈ IJ /\ (m = v0 e \/ m = v1 e)).

Lemma max_of_snoc ks k m e :
  max_of ks m -> aread IJ k = Ok e ->
  let m1 := if m <? v0 e then v0 e else m in max_of (ks ++ [k]) (if m1 <? v1 e then v1 e else m1).
Proof.
  intros (Hm & Hk & He) Hr m1. pose proof Hr as [_ Hin%list_elem_of_lookup_2]%aread_Ok.
  unfold m1. destruct (Z.ltb_spec m (v0 e)) as [H0|H0]; [destruct (Z.ltb_spec (v0 e) (v1 e)) as [H1|H1]|destruct (Z.ltb_spec m (v1 e)) as [H1|H1]]; (split; [lia|]; split;
    [intros k' e' [Hk'| ->%list_elem_of_singleton]%elem_of_app Hr'; [specialize (Hk _ _ Hk' Hr'); lia|assert (e' = e) as -> by congruence; lia]|eauto]).
Qed.

Lemma thread_max_spec I (R : nat -> Z -> list (list Z) -> Z -> list (list Z) -> Prop) i ks s g :
  (forall k, k ∈ ks -> 0 <= k < zlen IJ) -> I s g -> wp I R i (thread_max IJ ks) (fun m _ g' => g' = g /\ max_of ks m) s g.
Proof.
  intros Hks Hi. apply (wp_pfor I R i ks _ (fun l m _ g' => g' = g /\ max_of l m)); [done| |].
  - split; [done|]. split; [lia|]. split; [intros k e Hk; now apply not_elem_of_nil in Hk|now left].
  - intros l1 k l2 m s1 g1 Hl _ [-> Hm]. destruct (aread_in_bounds IJ k) as (e & He & _); [apply Hks; rewrite Hl; apply elem_of_app; right; now left|].
    rewrite He. cbn [read_only]. split; [done|]. now apply (max_of_snoc l1 k m e).
Qed.

(** How many of the threads have a larger vertex. *)
Definition above (ts : list Z) (x : Z) : nat := length (filter (fun t => x < t) ts).

Lemma above_mono ts x y : x <= y -> (above ts y <= above ts x)%nat.
Proof.
  intros Hxy. unfold above. induction ts as [|t ts IH]; [done|]. rewrite !filter_cons. destruct (decide (y < t)), (decide (x < t)); simpl; lia.
Qed.

Lemma above_lt ts x y : x < y -> y ∈ ts -> (above ts y < above ts x)%nat.
Proof.
  intros Hxy. induction ts as [|t ts IH]; intros Hy; [now apply not_elem_of_nil in Hy|]. apply elem_of_cons in Hy as [->|Hy].
  - pose proof (above_mono ts x t ltac:(lia)). unfold above in *. rewrite !filter_cons. rewrite decide_False, decide_True by lia. simpl. lia.
  - specialize (IH Hy). unfold above in *. rewrite !filter_cons. destruct (decide (y < t)), (decide (x < t)); simpl; lia.
Qed.

Section raise.
Context (ts : list Z) (Hts : forall t, t ∈ ts -> -1 <= t).
Let I (s : Z) (_ : unit) : Prop := s = -1 \/ s ∈ ts.
Let R (_ : nat) (s : Z) (_ : unit) (s' : Z) (_ : unit) : Prop := s <= s'.

Lemma raise_done i fuel t x s : (0 < fuel)%nat -> I s tt -> t <= s -> x < s -> wp I R i (raise_max fuel t x) (fun _ s _ => t <= s) s tt.
Proof.
  intros Hf Hi Ht Hx. destruct fuel as [|fuel]; [lia|]. cbn [raise_max]. destruct (Z.ltb_spec x t); [|done].
  apply wp_bind; [done|]. eapply wp_act with (g' := tt); [unfold int64_casval; now destruct (Z.eqb_spec s x); [lia|]|exact Hi|intros; unfold R; lia|].
  intros s2 [] Hi2 HR. unfold R in HR. destruct fuel; cbn [raise_max]; (destruct (Z.ltb_spec s t); [lia|]); simpl; lia.
Qed.

Lemma raise_spec i fuel t x s :
  t ∈ ts -> I s tt -> -1 <= x <= s -> (above ts x + 1 <= fuel)%nat -> wp I R i (raise_max fuel t x) (fun _ s _ => t <= s) s tt.
Proof.
  intros Ht. revert x s. induction fuel as [|fuel IH]; intros x s Hi Hx Hf; [lia|]. cbn [raise_max]. destruct (Z.ltb_spec x t) as [Hlt|Hge]; [|simpl; lia].
  apply wp_bind; [done|]. destruct (decide (s = x)) as [->|Hne].
  - eapply wp_act with (g' := tt); [unfold int64_casval; now rewrite Z.eqb_refl|now right|intros; unfold R; lia|]. intros s2 [] Hi2 HR. unfold R in HR.
    pose proof (above_lt ts x t Hlt Ht). apply raise_done; [lia|done|lia|lia].
  - eapply wp_act with (g' := tt); [unfold int64_casval; now destruct (Z.eqb_spec s x); [lia|]|exact Hi|intros; unfold R; lia|]. intros s2 [] Hi2 HR. unfold R in HR.
    destruct (decide (t <= s)) as [Hts'|Hts'].
    + destruct fuel; cbn [raise_max]; (destruct (Z.ltb_spec s t); [lia|]); simpl; lia.
    + destruct Hi as [->|Hin]; [lia|]. pose proof (above_lt ts x s ltac:(lia) Hin). apply IH; [done|lia|lia].
Qed.
End raise.

Lemma find_nv_returns : returns race (fun r => r = (maxv IJ, nv)) (find_nv IJ (zlen IJ)).
Proof.
  unfold find_nv. eapply returns_bind.
  { apply (returns_for race (fun s ls => s = -1 /\ length ls = num_threads /\ concat ls ≡ₚ seqZ 0 (zlen IJ - 0)) (fun _ _ ls _ ls' => ls = ls'))
      with (Q := fun i m _ ls => exists ks, ls !! i = Some ks /\ max_of ks m); [done|congruence|intros; naive_solver|].
    intros ls Hn Hp. exists ls. split; [done|]. intros i ks Hks s2 g2 Hi <-. eapply wp_mono; [|exact Hi|apply thread_max_spec; [|exact Hi]].
    - simpl. intros m s3 g3 _ [-> Hm]. eauto.
    - intros k Hk. assert (Hin : k ∈ concat ls) by (apply elem_of_concat; eauto).
      apply (in_range _ _ _ _ Hp) in Hin. lia. }
  intros [s ts] (ls & (Hs & Hls & Hp) & Hn & HQ). cbn [fst snd] in *. subst s.
  assert (Hts : forall t, t ∈ ts -> exists ks, max_of ks t) by (intros t [i Hi]%list_elem_of_lookup_1; destruct (HQ _ _ Hi) as (ks & _ & Hks); eauto).
  eapply returns_bind.
  { apply (returns_parallel race (fun s (_ : unit) => s = -1 \/ s ∈ ts) (fun _ s _ s' _ => s <= s'))
      with (Q := fun i (_ : unit) s _ => forall t, ts !! i = Some t -> t <= s); [intros; lia|intros; lia|intros i _ s [] s2 [] _ HR HQ' t Ht; specialize (HQ' t Ht); lia|].
    intros one _. exists tt. split; [now left|]. intros i Hi s2 [] Hi2 HR. destruct (lookup_lt_is_Some_2 ts i) as [t Ht]; [lia|]. unfold private. rewrite Ht. cbn [of_option read_only].
    assert (Hin : t ∈ ts) by (eapply list_elem_of_lookup_2, Ht).
    assert (Hlow : -1 <= s2) by (destruct Hi2 as [->|H2]; [lia|]; destruct (Hts _ H2) as (ks & Hks & _); lia). apply wp_bind; [done|]. eapply wp_load; [intros; lia|done|done|]. intros s3 [] Hi3 HR3.
    eapply wp_mono; [|exact Hi3|apply raise_spec; [done|done|lia|]].
    - intros _ s4 [] _ H4 t' Ht'. now simplify_eq.
    - unfold above. pose proof (length_filter (fun t => s2 < t) ts). lia. }
  intros [m us] ([] & Hm & Hlu & HQm). cbn [fst snd] in *. apply returns_ret.
  assert (m = maxv IJ) as ->; [|f_equal; lia]. assert (Hall : forall e, e ∈ IJ -> v0 e <= m /\ v1 e <= m).
  { intros e [k Hk]%list_elem_of_lookup_1. pose proof (lookup_lt_Some _ _ _ Hk). assert (Hin : Z.of_nat k ∈ concat ls) by (apply (in_range _ _ _ _ Hp); unfold zlen; lia).
    apply elem_of_concat in Hin as (i & ks & Hi & Hkin). pose proof (lookup_lt_Some _ _ _ Hi).
    destruct (lookup_lt_is_Some_2 ts i) as [t Ht]; [lia|]. destruct (HQ _ _ Ht) as (ks' & Hi' & _ & Hmax & _). simplify_eq.
    destruct (lookup_lt_is_Some_2 us i) as [u Hu]; [lia|]. pose proof (HQm _ _ Hu _ Ht). specialize (Hmax (Z.of_nat k) e Hkin).
    rewrite aread_Ok, Nat2Z.id in Hmax. specialize (Hmax ltac:(split; [lia|done])). lia. }
  assert (Hlow : -1 <= m) by (destruct Hm as [->|H2]; [lia|]; destruct (Hts _ H2) as (ks & Hks & _); lia).
  assert (maxv IJ < m + 1) by (apply maxv_below; [lia|]; intros e He; specialize (Hall e He); lia). pose proof (maxv_min IJ).
  destruct Hm as [->|H2]; [lia|]. destruct (Hts _ H2) as (ks & _ & _ & [->|(e & He & Hme)]); [lia|]. pose proof (maxv_max IJ e He). lia.
Qed.

(** ** Degrees and offsets *)

Lemma zero_returns xo :
  zlen xo = 2 * nv + 2 ->
  returns race (fun a => zlen a = 2 * nv + 2 /\ forall i, 0 <= i < 2 * nv + 2 -> at_ a i = 0)
    (omp_each 0 (2 * nv + 2) (fun k => store (fun xoff => awrite xoff k 0)) xo).
Proof.
  intros Hl. eapply returns_mono; [|apply (returns_each1 race (fun k xoff => awrite xoff k 0)
    (fun l a => zlen a = 2 * nv + 2 /\ forall i, i ∈ l -> 0 <= i < 2 * nv + 2 -> at_ a i = 0))].
  - intros a (l & Hin & Hla & Ha). split; [done|]. intros i Hi. apply Ha; [now apply Hin|done].
  - split; [done|]. intros i Hi. now apply not_elem_of_nil in Hi.
  - intros l k a Hk [Hla Ha]. rewrite awrite_in_bounds by lia. eexists. split; [done|]. rewrite zlen_insert. split; [done|].
    intros i Hi Hr. rewrite at_insert by lia. destruct (decide (i = k)); [done|]. apply Ha; [|done]. apply elem_of_app in Hi as [|Hi%list_elem_of_singleton]; done.
Qed.

(** The entries an edge increments. *)
Definition bumps (e : packed_edge) : list Z :=
  if v0 e =? v1 e then [] else (if 0 <=? v0 e then [XOFF (v0 e)] else []) ++ (if 0 <=? v1 e then [XOFF (v1 e)] else []).
Definition hits (l : list Z) (u : Z) : Z := zlen (filter (fun p => p = XOFF u) l).

Lemma hits_app l1 l2 u : hits (l1 ++ l2) u = hits l1 u + hits l2 u.
Proof. unfold hits. now rewrite filter_app, zlen_app. Qed.

Lemma hits_nil u : hits [] u = 0.
Proof. done. Qed.

Lemma hits_perm l1 l2 u : l1 ≡ₚ l2 -> hits l1 u = hits l2 u.
Proof. intros H. unfold hits, zlen. now rewrite H. Qed.

Lemma hits_one p u : hits [p] u = if decide (p = XOFF u) then 1 else 0.
Proof. unfold hits. rewrite filter_cons, filter_nil. now destruct (decide (p = XOFF u)). Qed.

Lemma hits_bumps l u : 0 <= u -> hits (concat (bumps <$> l)) u = degree l u.
Proof.
  intros Hu. induction l as [|e l IH]; [done|]. cbn [fmap list_fmap concat degree]. rewrite hits_app, IH. f_equal. unfold bumps, ends.
  destruct (Z.eqb_spec (v0 e) (v1 e)) as [He|He]; [now rewrite decide_True|]. rewrite (decide_False (P := v0 e = v1 e)) by done.
  rewrite hits_app. f_equal; [destruct (Z.leb_spec 0 (v0 e))|destruct (Z.leb_spec 0 (v1 e))];
    rewrite ?hits_one, ?hits_nil; unfold XOFF; repeat case_decide; lia.
Qed.

Lemma bumps_range p : p ∈ concat (bumps <$> IJ) -> 0 <= p < 2 * nv.
Proof.
  rewrite elem_of_concat. intros (i & l & Hl & Hp). rewrite list_lookup_fmap in Hl. apply fmap_Some in Hl as (e & He & ->).
  pose proof (edge_range IJ e (list_elem_of_lookup_2 _ _ _ He)). unfold bumps in Hp. destruct (v0 e =? v1 e); [now apply not_elem_of_nil in Hp|].
  apply elem_of_app in Hp as [Hp|Hp]; [destruct (Z.leb_spec 0 (v0 e))|destruct (Z.leb_spec 0 (v1 e))];
    try (now apply not_elem_of_nil in Hp); apply list_elem_of_singleton in Hp as ->; unfold XOFF; lia.
Qed.

Definition count_body (k : Z) : proc (list Z) unit :=
  read_only (aread IJ k) (fun e =>
    if negb (v0 e =? v1 e) then
      _ ← (if 0 <=? v0 e then store (fun xoff => bump xoff (XOFF (v0 e))) else mret tt);
      if 0 <=? v1 e then store (fun xoff => bump xoff (XOFF (v1 e))) else mret tt
    else mret tt).

Lemma count_line k : 0 <= k < zlen IJ ->
  line (fun p xoff => bump xoff p) (count_body k) (match aread IJ k with Ok e => bumps e | Fault _ => [] end).
Proof.
  intros Hk. unfold count_body. destruct (aread_in_bounds IJ k Hk) as (e & -> & _). cbn [read_only]. unfold bumps.
  destruct (v0 e =? v1 e); cbn [negb]; [apply line_nil|]. apply line_bind; [destruct (0 <=? v0 e)|destruct (0 <=? v1 e)];
    try apply line_nil; apply (line_store (fun p xoff => bump xoff p)).
Qed.

Lemma count_returns xo :
  zlen xo = 2 * nv + 2 -> (forall i, 0 <= i < 2 * nv + 2 -> at_ xo i = 0) ->
  returns race (fun a => zlen a = 2 * nv + 2 /\ forall u, 0 <= u < nv -> at_ a (XOFF u) = degree IJ u) (omp_each 0 (zlen IJ) count_body xo).
Proof.
  intros Hl H0. eapply (returns_each race (fun p xoff => bump xoff p)); [intros k Hk; now apply count_line|]. rewrite Z.sub_0_r, (fmap_read IJ bumps []).
  intros l Hperm. destruct (mfold_inv (fun l a => zlen a = 2 * nv + 2 /\ forall u, 0 <= u < nv -> at_ a (XOFF u) = hits l u) (fun p xoff => bump xoff p) l xo)
    as (a & Hrun & Hla & Ha).
  - split; [done|]. intros u Hu. unfold XOFF. rewrite H0 by lia. done.
  - intros l1 p l2 a Hl12 [Hla Ha]. assert (Hp : 0 <= p < 2 * nv) by (apply bumps_range; rewrite <- Hperm, Hl12; apply elem_of_app; right; now left).
    rewrite bump_spec by lia. eexists. split; [done|]. rewrite zlen_insert. split; [done|]. intros u Hu. rewrite at_insert by lia. rewrite hits_app, hits_one.
    destruct (decide (XOFF u = p)) as [<-|]; [rewrite decide_True by done; now rewrite Ha|rewrite decide_False by done; rewrite Ha by done; lia].
  - exists a. split; [done|]. split; [done|]. intros u Hu. rewrite Ha by done. rewrite (hits_perm _ _ u Hperm). apply hits_bumps. lia.
Qed.

Lemma clamp_returns xo :
  zlen xo = 2 * nv + 2 -> (forall u, 0 <= u < nv -> at_ xo (XOFF u) = degree IJ u) ->
  returns race (fun a => zlen a = 2 * nv + 2 /\ forall u, 0 <= u < nv -> at_ a (XOFF u) = cap IJ u)
    (omp_each 0 nv (fun k => store (fun xoff => x ← aread xoff (XOFF k); if x <? MINVECT_SIZE then awrite xoff (XOFF k) MINVECT_SIZE else Ok xoff)) xo).
Proof.
  intros Hl H0. eapply returns_mono; [|apply (returns_each1 race (fun k xoff => x ← aread xoff (XOFF k); if x <? MINVECT_SIZE then awrite xoff (XOFF k) MINVECT_SIZE else Ok xoff)
    (fun l a => zlen a = 2 * nv + 2 /\ forall u, 0 <= u < nv -> at_ a (XOFF u) = if decide (u ∈ l) then cap IJ u else degree IJ u))].
  - intros a (l & Hin & Hla & Ha). split; [done|]. intros u Hu. rewrite Ha by done. rewrite decide_True; [done|]. now apply Hin.
  - split; [done|]. intros u Hu. rewrite decide_False by apply not_elem_of_nil. now apply H0.
  - intros l k a Hk [Hla Ha]. rewrite at_read by (unfold XOFF; lia). cbn [mbind res_bind]. pose proof (Ha k ltac:(lia)) as Hak.
    assert (Hcap : forall x, x = cap IJ k \/ x = degree IJ k -> (if x <? MINVECT_SIZE then MINVECT_SIZE else x) = cap IJ k).
    { unfold cap, SeqCsr.MINVECT_SIZE, MINVECT_SIZE. intros x Hx. destruct (Z.ltb_spec x 2); lia. }
    assert (Hval : (if at_ a (XOFF k) <? MINVECT_SIZE then MINVECT_SIZE else at_ a (XOFF k)) = cap IJ k) by (apply Hcap; rewrite Hak; case_decide; auto).
    exists (<[Z.to_nat (XOFF k) := cap IJ k]> a). rewrite zlen_insert. split_and!; [|done|].
    + rewrite <- Hval. destruct (at_ a (XOFF k) <? MINVECT_SIZE); [rewrite awrite_in_bounds by (unfold XOFF; lia); done|].
      rewrite list_insert_id; [done|]. apply at_lookup. unfold XOFF. lia.
    + intros u Hu. rewrite at_insert by (unfold XOFF; lia). destruct (decide (u = k)) as [->|Hne].
      * rewrite !decide_True; [done| |done]. apply elem_of_app. right. now apply list_elem_of_singleton.
      * rewrite (decide_False (P := XOFF u = XOFF k)) by (unfold XOFF; lia). rewrite Ha by done.
        destruct (decide (u ∈ l)) as [Hin|Hout]; [rewrite decide_True; [done|apply elem_of_app; now left]|rewrite decide_False; [done|]].
        rewrite elem_of_app, list_elem_of_singleton. tauto.
Qed.

Lemma copy_returns xo :
  zlen xo = 2 * nv + 2 -> (forall u, 0 <= u < nv -> at_ xo (XOFF u) = off IJ (Z.to_nat u)) ->
  returns race (fun a => zlen a = 2 * nv + 2 /\ (forall u, 0 <= u < nv -> at_ a (XOFF u) = off IJ (Z.to_nat u)) /\
      forall u, 0 <= u < nv -> at_ a (XENDOFF u) = off IJ (Z.to_nat u))
    (omp_each 0 nv (fun k => store (fun xoff => x ← aread xoff (XOFF k); awrite xoff (XENDOFF k) x)) xo).
Proof.
  intros Hl H0. eapply returns_mono; [|apply (returns_each1 race (fun k xoff => x ← aread xoff (XOFF k); awrite xoff (XENDOFF k) x)
    (fun l a => zlen a = 2 * nv + 2 /\ (forall u, 0 <= u < nv -> at_ a (XOFF u) = off IJ (Z.to_nat u)) /\
      forall u, 0 <= u < nv -> u ∈ l -> at_ a (XENDOFF u) = off IJ (Z.to_nat u)))].
  - intros a (l & Hin & Hla & Ha & He). split_and!; [done|done|]. intros u Hu. apply He; [done|]. now apply Hin.
  - split_and!; [done|done|]. intros u _ Hu. now apply not_elem_of_nil in Hu.
  - intros l k a Hk (Hla & Ha & He). rewrite at_read by (unfold XOFF; lia). cbn [mbind res_bind]. rewrite awrite_in_bounds by (unfold XENDOFF; lia).
    eexists. split; [done|]. rewrite zlen_insert. unfold XOFF, XENDOFF in *. split_and!; [done| |]; intros u Hu; rewrite at_insert by lia.
    + rewrite decide_False by lia. now apply Ha.
    + intros [Hin| ->%list_elem_of_singleton]%elem_of_app; [|rewrite decide_True by done; now apply Ha].
      destruct (decide (1 + 2 * u = 1 + 2 * k)); [replace k with u by lia; now apply Ha|]. now apply He.
Qed.

(** ** Prefix sums *)

Notation nt := (Z.of_nat num_threads).

(** Where the slice of a thread begins; it ends where the next one begins. *)
Definition bound (i : Z) : Z := nv / nt * i + Z.min i (nv mod nt).

Lemma nt_pos : 0 < nt.
Proof. pose proof num_threads_pos. lia. Qed.

Lemma slice_bounds i : 0 <= i -> slice nv nt i = (bound i, bound (i + 1)).
Proof.
  intros Hi. pose proof nt_pos. pose proof (nv_pos IJ). unfold slice, bound. rewrite Z.quot_div_nonneg, Z.rem_mod_nonneg by lia. f_equal; f_equal.
  - destruct (Z.ltb_spec i (nv mod nt)); lia.
  - destruct (Z.ltb_spec (i + 1) (nv mod nt)); lia.
Qed.

Lemma bound_0 : bound 0 = 0.
Proof. unfold bound. pose proof nt_pos. pose proof (Z.mod_pos_bound nv nt). lia. Qed.

Lemma bound_end : bound nt = nv.
Proof. unfold bound. pose proof nt_pos. pose proof (Z.mod_pos_bound nv nt). pose proof (Z.div_mod nv nt). nia. Qed.

Lemma bound_mono i j : 0 <= i <= j -> bound i <= bound j.
Proof. intros Hij. unfold bound. pose proof nt_pos. pose proof (nv_pos IJ). pose proof (Z.div_pos nv nt). nia. Qed.

Lemma bound_range i : (i < num_threads)%nat -> 0 <= bound (Z.of_nat i) <= bound (Z.of_nat i + 1) /\ bound (Z.of_nat i + 1) <= nv.
Proof. intros Hi. pose proof (bound_mono 0 (Z.of_nat i)). pose proof (bound_mono (Z.of_nat i) (Z.of_nat i + 1)). pose proof (bound_mono (Z.of_nat i + 1) nt). rewrite bound_0, bound_end in *. lia. Qed.

(** Slices do not overlap, and every vertex is in one. *)
Lemma bound_disjoint i j k : 0 <= i -> 0 <= j -> bound i <= k < bound (i + 1) -> bound j <= k < bound (j + 1) -> i = j.
Proof.
  intros Hi Hj Hki Hkj. destruct (Z.lt_trichotomy i j) as [Hlt|[|Hlt]]; [|done|].
  - pose proof (bound_mono (i + 1) j). lia.
  - pose proof (bound_mono (j + 1) i). lia.
Qed.

Lemma bound_cover k : 0 <= k < nv -> exists i, (i < num_threads)%nat /\ bound (Z.of_nat i) <= k < bound (Z.of_nat i + 1).
Proof.
  intros Hk. assert (H : forall n, (n <= num_threads)%nat -> k < bound (Z.of_nat n) -> exists i, (i < n)%nat /\ bound (Z.of_nat i) <= k < bound (Z.of_nat i + 1)).
  { induction n as [|n IH]; intros Hn Hb; [change (Z.of_nat 0) with 0 in Hb; rewrite bound_0 in Hb; lia|]. destruct (decide (k < bound (Z.of_nat n))) as [Hlt|Hge].
    - destruct (IH ltac:(lia) Hlt) as (i & Hi & Hki). exists i. split; [lia|done].
    - exists n. split; [lia|]. replace (Z.of_nat n + 1) with (Z.of_nat (S n)) by lia. lia. }
  apply H; [lia|]. rewrite bound_end. lia.
Qed.

Notation offz k := (off IJ (Z.to_nat k)).

Definition slice_sum (i : nat) : proc (list Z * list Z) unit :=
  let '(slice_begin, slice_end) := slice nv nt (Z.of_nat i) in
  _ ← store (fun '(xoff, buf) => buf ← awrite buf (Z.of_nat i) 0; Ok (xoff, buf));
  pfor (seqZ slice_begin (slice_end - slice_begin)) (fun k _ =>
    store (fun '(xoff, buf) =>
      x ← aread xoff (XOFF k); b ← aread buf (Z.of_nat i); buf ← awrite buf (Z.of_nat i) (b + x); Ok (xoff, buf))) tt.

Definition slice_scan (i : nat) : proc (list Z * list Z) Z :=
  let '(slice_begin, slice_end) := slice nv nt (Z.of_nat i) in
  t1 ← (if negb (Z.of_nat i =? 0) then load (fun '(_, buf) => aread buf (Z.of_nat i - 1)) else mret 0);
  pfor (seqZ slice_begin (slice_end - slice_begin)) (fun k t1 =>
    tmp ← load (fun '(xoff, _) => aread xoff (XOFF k));
    _ ← store (fun '(xoff, buf) => xoff ← awrite xoff (XOFF k) t1; Ok (xoff, buf));
    mret (t1 + tmp)) t1.

Section prefix.
Context (xo0 buf0 : list Z) (Hxo : zlen xo0 = 2 * nv + 2) (Hbuf : zlen buf0 = nt).
Context (Hcap : forall u, 0 <= u < nv -> at_ xo0 (XOFF u) = cap IJ u).

Let I1 (s : list Z * list Z) (_ : unit) : Prop := s.1 = xo0 /\ zlen s.2 = nt.
Let R1 (i : nat) (s : list Z * list Z) (_ : unit) (s' : list Z * list Z) (_ : unit) : Prop := at_ s'.2 (Z.of_nat i) = at_ s.2 (Z.of_nat i).

Lemma slice_sum_spec i s :
  (i < num_threads)%nat -> I1 s tt ->
  wp I1 R1 i (slice_sum i) (fun _ s _ => at_ s.2 (Z.of_nat i) = offz (bound (Z.of_nat i + 1)) - offz (bound (Z.of_nat i))) s tt.
Proof.
  intros Hi Hs. pose proof (bound_range i Hi) as Hb. unfold slice_sum. rewrite slice_bounds by lia. set (b := bound (Z.of_nat i)) in *. set (e := bound (Z.of_nat i + 1)) in *.
  apply wp_bind; [done|]. destruct s as [xo buf]. destruct Hs as [Hx Hbl]. cbn [fst snd] in *. subst xo.
  eapply wp_store with (g' := tt); [rewrite awrite_in_bounds by lia; done|split; [done|now rewrite <- Hbl; apply zlen_insert]| |].
  { intros j Hj. unfold R1. cbn [snd]. rewrite at_insert by lia. rewrite decide_False by lia. done. }
  intros s2 [] Hi2 HR2. unfold R1 in HR2. cbn [snd] in HR2. rewrite at_insert, decide_True in HR2 by lia.
  eapply wp_mono; [|exact Hi2|apply (wp_pfor I1 R1 i (seqZ b (e - b)) _ (fun l _ s _ => at_ s.2 (Z.of_nat i) = offz (b + zlen l) - offz b)); [done|unfold zlen; simpl; rewrite Z.add_0_r; lia|]].
  - intros _ s3 [] _ ->. unfold zlen. rewrite length_seqZ. f_equal. f_equal. lia.
  - intros l1 k l2 _ [xo1 buf1] [] Hl [Hx Hbl'] Hsum. cbn [fst snd] in *. subst xo1. apply seqZ_split in Hl as [-> Hlt]. pose proof (zlen_nonneg l1).
    eapply wp_store with (g' := tt); [rewrite (at_read xo0) by (unfold XOFF; lia); cbn [mbind res_bind]; rewrite (at_read buf1) by lia; cbn [mbind res_bind]; rewrite awrite_in_bounds by lia; done|split; [done|now rewrite <- Hbl'; apply zlen_insert]| |].
    + intros j Hj. unfold R1. cbn [snd]. rewrite at_insert by lia. rewrite decide_False by lia. done.
    + intros s3 [] Hi3 HR3. unfold R1 in HR3. cbn [snd] in HR3. rewrite at_insert, decide_True in HR3 by lia. rewrite HR3, Hsum, Hcap by lia.
      rewrite zlen_app. change (zlen [b + zlen l1]) with 1. rewrite Z.add_assoc, off_S by lia. lia.
Qed.

Context (buf1 : list Z) (Hb1 : zlen buf1 = nt) (Hsum : forall i, 0 <= i < nt -> at_ buf1 i = offz (bound (i + 1))).

Let I2 (s : list Z * list Z) (_ : unit) : Prop := s.2 = buf1 /\ zlen s.1 = 2 * nv + 2.
Let R2 (i : nat) (s : list Z * list Z) (_ : unit) (s' : list Z * list Z) (_ : unit) : Prop :=
  forall k, bound (Z.of_nat i) <= k < bound (Z.of_nat i + 1) -> at_ s'.1 (XOFF k) = at_ s.1 (XOFF k).

(** The first [n] vertices of a slice have their offset. *)
Definition scanned (i : nat) (n : Z) (xo : list Z) : Prop :=
  forall k, bound (Z.of_nat i) <= k < bound (Z.of_nat i + 1) -> at_ xo (XOFF k) = if decide (k < bound (Z.of_nat i) + n) then offz k else cap IJ k.

Lemma scanned_stable i n s s' : R2 i s tt s' tt -> scanned i n s.1 -> scanned i n s'.1.
Proof. intros HR Hs k Hk. rewrite HR by done. now apply Hs. Qed.

Lemma slice_scan_spec i s :
  (i < num_threads)%nat -> I2 s tt -> scanned i 0 s.1 ->
  wp I2 R2 i (slice_scan i) (fun _ s _ => scanned i (bound (Z.of_nat i + 1) - bound (Z.of_nat i)) s.1) s tt.
Proof.
  intros Hi Hs H0. pose proof (bound_range i Hi) as Hb. unfold slice_scan. rewrite slice_bounds by lia. set (b := bound (Z.of_nat i)) in *. set (e := bound (Z.of_nat i + 1)) in *.
  apply wp_bind; [done|].
  assert (Hloop : forall s, I2 s tt -> scanned i 0 s.1 -> wp I2 R2 i (pfor (seqZ b (e - b)) (fun k t1 =>
    tmp ← load (fun '(xoff, _) => aread xoff (XOFF k));
    _ ← store (fun '(xoff, buf) => xoff ← awrite xoff (XOFF k) t1; Ok (xoff, buf));
    mret (t1 + tmp)) (offz b)) (fun _ s _ => scanned i (e - b) s.1) s tt).
  { clear s Hs H0. intros s Hs H0.
    eapply wp_mono; [|exact Hs|apply (wp_pfor I2 R2 i (seqZ b (e - b)) _ (fun l t1 s _ => t1 = offz (b + zlen l) /\ scanned i (zlen l) s.1)); [done|now rewrite Z.add_0_r|]].
    - intros _ s3 [] _ [_ Hsc]. unfold zlen in Hsc. rewrite length_seqZ in Hsc. now replace (Z.of_nat (Z.to_nat (e - b))) with (e - b) in Hsc by lia.
    - intros l1 k l2 t1 [xo buf] [] Hl Hi1 [-> Hsc]. apply seqZ_split in Hl as [-> Hlt]. pose proof (zlen_nonneg l1). pose proof Hi1 as [Hx Hbl]. cbn [fst snd] in *.
      apply wp_bind; [done|]. eapply wp_load; [unfold R2; done|exact Hi1|rewrite at_read by (unfold XOFF; lia); rewrite (Hsc (b + zlen l1)), decide_False by lia; done|].
      intros [xo2 buf2] [] Hi2 HR2. pose proof (scanned_stable i (zlen l1) _ _ HR2 Hsc) as Hsc2. pose proof Hi2 as [Hx2 Hbl2]. cbn [fst snd] in *.
      apply wp_bind; [done|]. eapply wp_store with (g' := tt); [rewrite awrite_in_bounds by (unfold XOFF; lia); done|split; [done|cbn [fst]; now rewrite zlen_insert]| |].
      + intros j Hj k Hk. cbn [fst]. rewrite at_insert by (unfold XOFF; lia). rewrite decide_False; [done|]. unfold XOFF. intros Heq.
        apply Hj. assert (Z.of_nat j = Z.of_nat i); [|lia]. apply (bound_disjoint _ _ k); [lia|lia|done|]. fold b e. lia.
      + intros [xo3 buf3] [] Hi3 HR3. rewrite zlen_app. change (zlen [b + zlen l1]) with 1. split; [rewrite Z.add_assoc, off_S by lia; lia|].
        eapply scanned_stable; [exact HR3|]. intros k Hk. cbn [fst]. rewrite at_insert by (unfold XOFF; lia). rewrite (Hsc2 k Hk). unfold XOFF. fold b in Hk |- *.
        destruct (decide (2 * k = 2 * (b + zlen l1))) as [Heq|Hne].
        * replace k with (b + zlen l1) by lia. now rewrite decide_True by lia.
        * destruct (decide (k < b + zlen l1)), (decide (k < b + (zlen l1 + 1))); try done; lia. }
  destruct (Z.eqb_spec (Z.of_nat i) 0) as [Hz|Hz]; cbn [negb].
  - assert (Hb0 : 0 = offz b) by (unfold b; now rewrite Hz, bound_0). simpl. rewrite Hb0. now apply Hloop.
  - eapply wp_load; [unfold R2; done|exact Hs| |].
    + destruct s as [xo buf]. destruct Hs as [Hx Hbl]. cbn [fst snd] in *. subst buf. rewrite at_read by lia. rewrite Hsum by lia.
      replace (Z.of_nat i - 1 + 1) with (Z.of_nat i) by lia. done.
    + intros s2 [] Hi2 HR2. apply Hloop; [done|]. eapply scanned_stable; eauto.
Qed.
End prefix.

Lemma prefix_sum_returns xo buf :
  zlen xo = 2 * nv + 2 -> zlen buf = nt -> (forall u, 0 <= u < nv -> at_ xo (XOFF u) = cap IJ u) ->
  returns race (fun '(xo', _, accum) => zlen xo' = 2 * nv + 2 /\ accum = offz nv /\ forall u, 0 <= u < nv -> at_ xo' (XOFF u) = offz u) (prefix_sum nv (xo, buf)).
Proof.
  intros Hxo Hbuf Hcap. pose proof nt_pos. unfold prefix_sum. eapply returns_bind.
  { apply (returns_parallel race (fun s (_ : unit) => s.1 = xo /\ zlen s.2 = nt) (fun i s _ s' _ => at_ s'.2 (Z.of_nat i) = at_ s.2 (Z.of_nat i)))
      with (Q := fun i (_ : unit) s _ => at_ s.2 (Z.of_nat i) = offz (bound (Z.of_nat i + 1)) - offz (bound (Z.of_nat i))).
    - done.
    - congruence.
    - congruence.
    - intros one _. exists tt. split; [done|]. intros i Hi s2 [] Hi2 _. now apply (slice_sum_spec xo). }
  intros [[xo1 buf1] us] ([] & [Hx1 Hb1] & Hlu & HQ). cbn [fst snd] in *. subst xo1.
  assert (Hparts : forall i, 0 <= i < nt -> at_ buf1 i = offz (bound (i + 1)) - offz (bound i)).
  { intros i Hi. destruct (lookup_lt_is_Some_2 us (Z.to_nat i)) as [u Hu]; [lia|]. specialize (HQ _ _ Hu). now rewrite Z2Nat.id in HQ by lia. }
  eapply returns_bind with (Q := fun s => s.1 = xo /\ zlen s.2 = nt /\ forall i, 0 <= i < nt -> at_ s.2 i = offz (bound (i + 1))).
  { destruct (for_range_inv (fun k s => s.1 = xo /\ zlen s.2 = nt /\ (forall i, 0 <= i < k -> at_ s.2 i = offz (bound (i + 1))) /\
      forall i, k <= i < nt -> at_ s.2 i = offz (bound (i + 1)) - offz (bound i)) 1 nt
      (fun k '(xoff, buf) => b ← aread buf k; c ← aread buf (k - 1); buf ← awrite buf k (b + c); Ok (xoff, buf)) (xo, buf1)) as (s & Hrun & Hx & Hl & Hlow & _).
    - lia.
    - split_and!; [done|done| |intros i Hi; apply Hparts; lia]. intros i Hi. replace i with 0 by lia. cbn [snd]. rewrite Hparts, bound_0 by lia. simpl. lia.
    - intros k [x buf2] Hk (Hx & Hl & Hlow & Hhigh). cbn [fst snd] in *. rewrite (at_read buf2 k) by lia. cbn [mbind res_bind]. rewrite (at_read buf2) by lia. cbn [mbind res_bind].
      rewrite awrite_in_bounds by lia. cbn [mbind res_bind]. eexists. split; [done|]. cbn [fst snd]. rewrite zlen_insert. split_and!; try done; intros i Hi; rewrite at_insert by lia.
      + destruct (decide (i = k)) as [->|]; [|apply Hlow; lia]. rewrite Hhigh, Hlow by lia. replace (k - 1 + 1) with k by lia. lia.
      + rewrite decide_False by lia. apply Hhigh. lia.
    - eapply returns_alone; [exact Hrun|]. done. }
  intros [xo1 buf2] (Hx1 & Hb2 & Hs2). cbn [fst snd] in *. subst xo1. eapply returns_bind.
  { apply (returns_parallel race (fun s (_ : unit) => s.2 = buf2 /\ zlen s.1 = 2 * nv + 2)
      (fun i s _ s' _ => forall k, bound (Z.of_nat i) <= k < bound (Z.of_nat i + 1) -> at_ s'.1 (XOFF k) = at_ s.1 (XOFF k)))
      with (Q := fun i (_ : Z) s _ => scanned i (bound (Z.of_nat i + 1) - bound (Z.of_nat i)) s.1).
    - done.
    - intros i s1 _ s3 _ s4 _ H1 H2 k Hk. now rewrite H2, H1.
    - intros i _ s1 [] s3 [] _ HR Hq. now apply (scanned_stable i _ s1 s3).
    - intros one _. exists tt. split; [done|]. intros i Hi s2 [] Hi2 HR. apply (slice_scan_spec buf2); [done|done|done|done|]. apply (scanned_stable i 0 (xo, buf2) s2 HR).
      intros k Hk. cbn [fst]. pose proof (bound_range i Hi). rewrite decide_False by lia. apply Hcap. lia. }
  intros [[xo1 buf3] ls] ([] & [Hb3 Hx1] & Hll & HQ2). cbn [fst snd] in *. subst buf3.
  eapply returns_bind; [apply (returns_alone race (fun a => a = offz nv) _ (offz nv)); [|done]|].
  { rewrite at_read by lia. rewrite Hs2 by lia. replace (nt - 1 + 1) with nt by lia. now rewrite bound_end. }
  intros accum ->. apply returns_ret. split_and!; try done. intros u Hu. destruct (bound_cover u Hu) as (i & Hi & Hui).
  destruct (lookup_lt_is_Some_2 ls i) as [z Hz]; [lia|]. rewrite (HQ2 _ _ Hz u Hui). now rewrite decide_True by lia.
Qed.

Lemma setup_returns xo0 :
  fits IJ -> zlen xo0 = 2 * nv + 2 -> returns race (fun '(xo, st) => crep IJ xo st (fun _ => [])) (setup_deg_off IJ (zlen IJ) nv xo0).
Proof.
  intros Hfits Hl0. pose proof (nv_pos IJ). unfold setup_deg_off. eapply returns_bind; [now apply zero_returns|]. intros xo1 [Hl1 H1].
  eapply returns_bind; [exact (count_returns xo1 Hl1 H1)|]. intros xo2 [Hl2 H2]. cbv zeta.
  eapply returns_bind; [now apply clamp_returns|]. intros xo3 [Hl3 H3].
  eapply returns_bind; [apply prefix_sum_returns; [done|unfold zlen; now rewrite alloca_length|done]|]. intros [[xo4 buf] accum] (Hl4 & -> & H4).
  eapply returns_bind; [now apply copy_returns|]. intros xo5 (Hl5 & H5 & H5e). pose proof (off_max IJ (Z.to_nat nv)) as Hmax. rewrite Z2Nat.id in Hmax by lia. unfold fits in Hfits.
  rewrite awrite_in_bounds by (unfold XOFF; lia). cbn [mbind res_bind]. rewrite i64_small by (unfold MINVECT_SIZE; lia). cbn [mbind res_bind].
  unfold xmalloc_large_ext, xmalloc_large. destruct (xmalloc_int64s (off IJ (Z.to_nat nv) + MINVECT_SIZE)) as (st0 & -> & Hs0); [unfold MINVECT_SIZE; lia|]. cbn [mbind res_bind].
  destruct (fill_spec st0 0 (off IJ (Z.to_nat nv) + MINVECT_SIZE) (-1)) as (st & -> & Hs & _); [lia|unfold MINVECT_SIZE; lia|lia|]. cbn [mbind res_bind].
  eapply returns_alone; [done|]. apply crep_empty.
  - now rewrite zlen_insert.
  - intros u Hu. change SeqCsr.XOFF with XOFF. rewrite at_insert by (unfold XOFF; lia). unfold XOFF in *. destruct (decide (u = nv)) as [->|]; [now rewrite decide_True|].
    rewrite decide_False by lia. apply H5. lia.
  - intros u Hu. change SeqCsr.XENDOFF with XENDOFF. rewrite at_insert by (unfold XOFF; lia). unfold XOFF, XENDOFF in *. rewrite decide_False by lia. now apply H5e.
  - unfold MINVECT_SIZE, SeqCsr.MINVECT_SIZE in *. lia.
Qed.

(** ** Rows *)

(** What an edge adds to the rows. *)
Definition scatters (e : packed_edge) : list (Z * Z) :=
  if (0 <=? v0 e) && (0 <=? v1 e) && negb (v0 e =? v1 e) then [(v0 e, v1 e); (v1 e, v0 e)] else [].
Definition row_of (l : list (Z * Z)) (u : Z) : list Z := (filter (fun p => p.1 = u) l).*2.

Lemma row_of_app l1 l2 u : row_of (l1 ++ l2) u = row_of l1 u ++ row_of l2 u.
Proof. unfold row_of. now rewrite filter_app, fmap_app. Qed.

Lemma row_of_snoc l i j u : row_of (l ++ [(i, j)]) u = upd (row_of l) i (row_of l i ++ [j]) u.
Proof.
  rewrite row_of_app. unfold upd, row_of at 2. rewrite filter_cons, filter_nil. cbn [fst]. destruct (decide (i = u)) as [->|Hne].
  - now rewrite decide_True.
  - rewrite decide_False by done. apply app_nil_r.
Qed.

Lemma row_of_perm l1 l2 u : l1 ≡ₚ l2 -> row_of l1 u ≡ₚ row_of l2 u.
Proof. intros H. unfold row_of. now rewrite H. Qed.

Lemma row_of_all l u : row_of (concat (scatters <$> l)) u = nbrs l u.
Proof.
  induction l as [|e l IH]; [done|]. cbn [fmap list_fmap concat]. rewrite row_of_app, IH. change (nbrs (e :: l) u) with (nbr1 u e ++ nbrs l u). f_equal.
  unfold scatters, nbr1, row_of. destruct (_ && _); [|done]. rewrite !filter_cons, filter_nil. cbn [fst].
  destruct (decide (v0 e = u)), (decide (v1 e = u)); done.
Qed.

Lemma scatters_range i j : (i, j) ∈ concat (scatters <$> IJ) -> 0 <= i < nv.
Proof.
  rewrite elem_of_concat. intros (n & l & Hl & Hp). rewrite list_lookup_fmap in Hl. apply fmap_Some in Hl as (e & He & ->).
  pose proof (edge_range IJ e (list_elem_of_lookup_2 _ _ _ He)). unfold scatters in Hp.
  destruct (Z.leb_spec 0 (v0 e)), (Z.leb_spec 0 (v1 e)), (v0 e =? v1 e); simpl in Hp; try (now apply not_elem_of_nil in Hp).
  apply elem_of_cons in Hp as [[= -> ->]|Hp%list_elem_of_singleton]; [lia|]. injection Hp as -> ->. lia.
Qed.

Lemma off_step u v : 0 <= u < v -> offz u + cap IJ u <= offz v.
Proof.
  intros Huv. assert (H : forall n m, (n < m)%nat -> off IJ n + cap IJ (Z.of_nat n) <= off IJ m).
  { intros n m. induction m as [|m IH]; intros Hnm; [lia|]. simpl. pose proof (cap_pos IJ (Z.of_nat m)). destruct (decide (n = m)) as [->|]; [lia|]. specialize (IH ltac:(lia)). lia. }
  specialize (H (Z.to_nat u) (Z.to_nat v) ltac:(lia)). rewrite Z2Nat.id in H by lia. lia.
Qed.

Lemma crep_cap xo st c u : crep IJ xo st c -> 0 <= u < nv -> zlen (c u) <= cap IJ u.
Proof.
  intros Hc Hu. destruct (crep_focus IJ _ _ _ _ Hc Hu) as (pre & r & post & _ & _ & Hr & Hp & _). apply prefix_length in Hp. unfold zlen in *. lia.
Qed.

(** The threads have [rem] left to do and have taken the slots of [pend]. *)
Section gather.
Notation all := (concat (scatters <$> IJ)).
Notation ghost := (list (list (Z * Z)) * gmap Z (nat * Z))%type.

Record ginv (s : list Z * list Z) (g : ghost) : Prop := {
  gi_threads : length g.1 = num_threads;
  gi_owner p t x : g.2 !! p = Some (t, x) -> (t < num_threads)%nat;
  gi_rows : exists l, l ++ concat g.1 ≡ₚ all /\ crep IJ s.1 (complete g.2 s.2) (row_of l) /\
    forall p t x, g.2 !! p = Some (t, x) -> exists u, 0 <= u < nv /\ 2 + offz u <= p < 2 + offz u + zlen (row_of l u) }.

Let R (t : nat) (_ : list Z * list Z) (g : ghost) (_ : list Z * list Z) (g' : ghost) : Prop :=
  g.1 !! t = g'.1 !! t /\ same_writes t g.2 g'.2.

(** Thread [t] has [r] left and no write under way. *)
Definition left_to_do (t : nat) (r : list (Z * Z)) (g : ghost) : Prop := g.1 !! t = Some r /\ no_writes t g.2.

Lemma R_refl_gather t s g : R t s g s g.
Proof. split; [done|]. intros p x. done. Qed.

Lemma R_trans_gather t s1 g1 s2 g2 s3 g3 : R t s1 g1 s2 g2 -> R t s2 g2 s3 g3 -> R t s1 g1 s3 g3.
Proof. intros [H1 H2] [H3 H4]. split; [congruence|]. intros p x. rewrite (H2 p x). apply H4. Qed.

Lemma left_stable t r s g s2 g2 : R t s g s2 g2 -> left_to_do t r g -> left_to_do t r g2.
Proof. intros [H1 H2] [H3 H4]. split; [congruence|]. intros p x Hp. apply (H4 p x). now apply H2. Qed.

(** Taking a slot: the row grows. *)
Lemma take_slot t i j r xo st rem pend :
  ginv (xo, st) (rem, pend) -> left_to_do t ((i, j) :: r) (rem, pend) ->
  exists w, aread xo (XENDOFF i) = Ok w /\ awrite xo (XENDOFF i) (w + 1) = Ok (<[Z.to_nat (XENDOFF i) := w + 1]> xo) /\
    0 <= xadj w < zlen st /\ pend !! xadj w = None /\
    ginv (<[Z.to_nat (XENDOFF i) := w + 1]> xo, st) (<[t := r]> rem, <[xadj w := (t, j)]> pend).
Proof.
  intros [Hn Ho (l & Hperm & Hc & Hslots)] [Hr Hw]. cbn [fst snd] in *.
  assert (Hrem : concat rem ≡ₚ (i, j) :: concat (<[t := r]> rem)).
  { rewrite <- (take_drop_middle _ _ _ Hr) at 1. rewrite insert_take_drop by (eapply lookup_lt_Some, Hr). rewrite !concat_app. cbn [concat app]. symmetry. apply Permutation_middle. }
  assert (Hperm' : (l ++ [(i, j)]) ++ concat (<[t := r]> rem) ≡ₚ all) by (rewrite <- Hperm, Hrem, <- app_assoc; done).
  assert (Hi : 0 <= i < nv) by (apply (scatters_range i j); rewrite <- Hperm', !elem_of_app; left; right; now apply list_elem_of_singleton).
  assert (Hroom : zlen (row_of l i) < cap IJ i).
  { pose proof (row_of_perm _ _ i Hperm') as Hrow. rewrite row_of_all, row_of_app, row_of_snoc in Hrow. unfold upd in Hrow. rewrite decide_True in Hrow by done.
    pose proof (nbrs_room IJ IJ [] i ltac:(now rewrite app_nil_r)) as Hcap. apply Permutation_length in Hrow. rewrite !length_app in Hrow. unfold zlen in *. simpl in Hrow. lia. }
  destruct (scatter_spec IJ xo (complete pend st) (row_of l) i j Hc Hi Hroom) as (xo' & st' & Hrun & Hc').
  pose proof (cr_len _ _ _ _ Hc) as Hxl. pose proof (cr_end _ _ _ _ Hc i Hi) as Hend. change SeqCsr.XENDOFF with XENDOFF in *.
  unfold SeqCsr.scatter_edge in Hrun. change SeqCsr.XENDOFF with XENDOFF in *. rewrite at_read in Hrun by (unfold XENDOFF; lia). rewrite Hend in Hrun. cbn [mbind res_bind] in Hrun.
  set (w := offz i + zlen (row_of l i)) in *. rewrite (awrite_in_bounds xo) in Hrun by (unfold XENDOFF; lia). cbn [mbind res_bind] in Hrun.
  apply bind_Ok in Hrun as (st1 & [Hwin ->]%awrite_Ok & [= <- <-]). rewrite complete_zlen in Hwin. exists w.
  change (SeqCsr.xadj w) with (xadj w) in *. rewrite <- (complete_take pend st (xadj w) t j Hwin) in Hc'. split_and!; try lia.
  - rewrite at_read by (unfold XENDOFF; lia). now rewrite Hend.
  - apply awrite_in_bounds. unfold XENDOFF. lia.
  - destruct (pend !! xadj w) as [[t' x]|] eqn:E; [|done]. exfalso. destruct (Hslots _ _ _ E) as (u & Hu & Hp). unfold xadj, MINVECT_SIZE, w in Hp.
    pose proof (crep_cap _ _ _ u Hc Hu). pose proof (zlen_nonneg (row_of l i)). destruct (Z.lt_trichotomy u i) as [Hlt|[->|Hlt]]; [|lia|]; [pose proof (off_step u i)|pose proof (off_step i u)]; lia.
  - split; cbn [fst snd].
    + now rewrite length_insert.
    + intros p t' x. destruct (decide (p = xadj w)) as [->|Hne]; [rewrite lookup_insert_eq|rewrite lookup_insert_ne by done; apply Ho].
      intros [= <- _]. rewrite <- Hn. eapply lookup_lt_Some, Hr.
    + exists (l ++ [(i, j)]). split; [done|]. split; [eapply crep_ext; [exact Hc'|]; intros u; now rewrite row_of_snoc|].
      intros p t' x Hp. destruct (decide (p = xadj w)) as [->|Hne].
      * exists i. split; [done|]. rewrite row_of_snoc. unfold upd. rewrite decide_True by done. rewrite zlen_app. change (zlen [j]) with 1.
        unfold xadj, MINVECT_SIZE, w. pose proof (zlen_nonneg (row_of l i)). lia.
      * rewrite lookup_insert_ne in Hp by done. destruct (Hslots _ _ _ Hp) as (u & Hu & Hpu). exists u. split; [done|]. rewrite row_of_app, zlen_app.
        pose proof (zlen_nonneg (row_of [(i, j)] u)). lia.
Qed.

Lemma scatter_wp t i j r s g :
  ginv s g -> left_to_do t ((i, j) :: r) g -> wp ginv R t (scatter_edge i j) (fun _ _ g => left_to_do t r g) s g.
Proof.
  intros Hi Hl. destruct s as [xo st], g as [rem pend]. destruct (take_slot t i j r xo st rem pend Hi Hl) as (w & Hr & Hwr & Hin & Hnone & Hi').
  unfold scatter_edge. apply wp_bind; [done|]. eapply wp_act; [rewrite Hr; cbn [mbind res_bind int64_fetch_add]; rewrite Hwr; done|exact Hi'| |].
  { intros k Hk. split; cbn [fst snd]; [now rewrite list_lookup_insert_ne|now apply same_writes_take]. }
  intros [xo2 st2] [rem2 pend2] Hi2 [HR1 HR2]. cbn [fst snd] in *. destruct Hl as [Hr0 Hnow]. cbn [fst snd] in *.
  rewrite list_lookup_insert_eq in HR1 by (eapply lookup_lt_Some, Hr0). assert (Hmine : pend2 !! xadj w = Some (t, j)) by (apply HR2; now rewrite lookup_insert_eq).
  assert (Hin2 : 0 <= xadj w < zlen st2).
  { destruct Hi' as [_ _ (l1 & _ & Hc1 & _)]. destruct Hi2 as [_ _ (l2 & _ & Hc2 & _)]. cbn [fst snd] in *.
    destruct (cr_rows _ _ _ _ Hc1) as (a1 & b1 & rows1 & E1 & Hk1). destruct (cr_rows _ _ _ _ Hc2) as (a2 & b2 & rows2 & E2 & Hk2).
    pose proof (off_rows IJ _ _ (length rows1) Hk1 ltac:(lia)) as L1. pose proof (off_rows IJ _ _ (length rows2) Hk2 ltac:(lia)) as L2. rewrite firstn_all in L1, L2.
    destruct Hk1 as [N1 _], Hk2 as [N2 _]. rewrite N1 in L1. rewrite N2 in L2.
    assert (Z1 : zlen (complete (<[xadj w:=(t, j)]> pend) st) = zlen (complete pend2 st2)) by (rewrite E1, E2, !zlen_cons, L1, L2; done). rewrite !complete_zlen in Z1. lia. }
  eapply wp_store with (g' := (rem2, delete (xadj w) pend2)); [rewrite awrite_in_bounds by done; done| | |].
  - destruct Hi2 as [H1 H2 (l & H3 & H4 & H5)]. cbn [fst snd] in *. split; cbn [fst snd]; [done| |].
    + intros p t' x Hp. apply lookup_delete_Some in Hp as [_ Hp]. eauto.
    + exists l. rewrite (complete_write _ _ _ _ _ Hmine) by done. split_and!; try done. intros p t' x Hp. apply lookup_delete_Some in Hp as [_ Hp]. eauto.
  - intros k Hk. split; [done|]. now apply (same_writes_write t k pend2 (xadj w) j).
  - intros s3 g3 Hi3 HR3. eapply left_stable; [exact HR3|]. split; [done|]. cbn [snd]. intros p x Hp. apply lookup_delete_Some in Hp as [Hne Hp].
    apply HR2 in Hp. rewrite lookup_insert_ne in Hp by done. now apply (Hnow p x).
Qed.

Definition gather_body (k : Z) : proc (list Z * list Z) unit :=
  read_only (aread IJ k) (fun e =>
    if (0 <=? v0 e) && (0 <=? v1 e) && negb (v0 e =? v1 e) then _ ← scatter_edge (v0 e) (v1 e); scatter_edge (v1 e) (v0 e) else mret tt).

Definition ops_of (k : Z) : list (Z * Z) := match aread IJ k with Ok e => scatters e | Fault _ => [] end.

Lemma gather_body_wp t k r s g :
  0 <= k < zlen IJ -> ginv s g -> left_to_do t (ops_of k ++ r) g -> wp ginv R t (gather_body k) (fun _ _ g => left_to_do t r g) s g.
Proof.
  intros Hk Hi. unfold ops_of, gather_body. destruct (aread_in_bounds IJ k Hk) as (e & -> & _). cbn [read_only]. unfold scatters.
  destruct (_ && _); [|done]. intros Hl. apply wp_bind; [done|]. eapply wp_mono; [|exact Hi|exact (scatter_wp t _ _ ((v1 e, v0 e) :: r) s g Hi Hl)].
  intros u s2 g2 Hi2 Hl2. now apply scatter_wp.
Qed.

Lemma gather_thread_wp t ks s g :
  (forall k, k ∈ ks -> 0 <= k < zlen IJ) -> ginv s g -> left_to_do t (concat (ops_of <$> ks)) g ->
  wp ginv R t (pfor ks (fun k _ => gather_body k) tt) (fun _ _ g => left_to_do t [] g) s g.
Proof.
  intros Hks Hi Hl. eapply wp_mono; [|exact Hi|apply (wp_pfor ginv R t ks _ (fun l _ _ g => left_to_do t (concat (ops_of <$> drop (length l) ks)) g)); [done|exact Hl|]].
  - intros u s2 g2 _. now rewrite drop_all.
  - intros l1 k l2 _ s2 g2 Hl12 Hi2 Hl2. rewrite Hl12 in Hl2 at 1. rewrite drop_app_length in Hl2. cbn [fmap list_fmap concat] in Hl2.
    eapply wp_mono; [|exact Hi2|apply (gather_body_wp t k); [apply Hks; rewrite Hl12; apply elem_of_app; right; now left|done|exact Hl2]].
    intros u s3 g3 _ Hl3. now rewrite Hl12, (cons_middle k l1 l2), app_assoc, drop_app_length.
Qed.

Lemma gather_returns s :
  crep IJ s.1 s.2 (fun _ => []) ->
  returns race (fun s => exists c, crep IJ s.1 s.2 c /\ forall u, 0 <= u -> c u ≡ₚ nbrs IJ u) (omp_each 0 (zlen IJ) gather_body s).
Proof.
  intros Hc. unfold omp_each. eapply returns_bind.
  { apply (returns_for race ginv R) with (Q := fun t (_ : unit) _ g => left_to_do t [] g).
    - apply R_refl_gather.
    - apply R_trans_gather.
    - intros t _ s1 g1 s2 g2 _ HR. eapply left_stable, HR.
    - intros ls Hn Hperm. exists ((fun ks => concat (ops_of <$> ks)) <$> ls, ∅). split.
      + split; cbn [fst snd]; [now rewrite length_fmap|intros p t x; now rewrite lookup_empty|]. exists []. split; [|split; [now rewrite complete_empty|intros p t x; now rewrite lookup_empty]].
        rewrite <- (fmap_read IJ scatters []). change (fun k => match aread IJ k with Ok e => scatters e | Fault _ => [] end) with ops_of.
        rewrite Z.sub_0_r in Hperm. rewrite <- Hperm. simpl. clear. induction ls as [|ks ls IH]; [done|]. cbn [fmap list_fmap concat]. rewrite fmap_app, concat_app. now apply Permutation_app.
      + intros t ks Hks s2 g2 Hi2 HR. apply gather_thread_wp; [|done|].
        * intros k Hk. assert (Hin : k ∈ concat ls) by (apply elem_of_concat; eauto). apply (in_range _ _ _ _ Hperm) in Hin. lia.
        * eapply left_stable; [exact HR|]. split; cbn [fst snd]; [now rewrite list_lookup_fmap, Hks|intros p x; now rewrite lookup_empty]. }
  intros [s' us] ([rem pend] & [Hn Ho (l & Hperm & Hcr & _)] & Hlu & HQ). cbn [fst snd] in *. apply returns_ret.
  assert (Hdone : forall t, (t < num_threads)%nat -> left_to_do t [] (rem, pend)) by (intros t Ht; destruct (lookup_lt_is_Some_2 us t) as [u Hu]; [lia|]; eauto).
  rewrite (all_written num_threads pend) in Hcr; [|intros p t x Hp; eauto|intros t Ht; now apply Hdone]. rewrite complete_empty in Hcr.
  exists (row_of l). split; [done|]. intros u Hu. assert (Hnil : concat rem = []).
  { apply concat_nil_Forall, Forall_forall. intros r [t Ht]%list_elem_of_lookup_1. destruct (Hdone t) as [Hr _]; [rewrite <- Hn; eapply lookup_lt_Some, Ht|]. cbn [fst] in Hr. congruence. }
  rewrite Hnil, app_nil_r in Hperm. rewrite <- (row_of_all IJ u). now apply row_of_perm.
Qed.
End gather.

Lemma pack_returns s c :
  crep IJ s.1 s.2 c -> (forall u, 0 <= u -> c u ≡ₚ nbrs IJ u) ->
  returns race (fun s => exists c, csr_ok IJ s.1 s.2 c) (pack_edges nv s).
Proof.
  intros Hc Hp. unfold pack_edges. eapply returns_mono; [|apply (returns_each1 race pack_vtx_edges
    (fun l s => exists c, crep IJ s.1 s.2 c /\ (forall u, u ∈ l -> 0 <= u < nv -> StronglySorted Z.lt (c u)) /\
      forall u x, 0 <= u < nv -> x ∈ c u <-> adj IJ u x))].
  - intros s' (l & Hin & c' & Hc' & Hs & Hm). exists c'. split; [done|]. intros u Hu. split; [apply Hs; [now apply Hin|done]|]. intros x. now apply Hm.
  - exists c. split_and!; [done|intros u Hu; now apply not_elem_of_nil in Hu|]. intros u x Hu. rewrite (Hp u) by lia. apply elem_of_nbrs. lia.
  - intros l k [a b] Hk (c' & Hc' & Hs & Hm). cbn [fst snd] in *. destruct (pack_spec IJ a b c' k Hc' Hk) as (a' & b' & D & Hrun & Hc2 & HsD & HmD).
    unfold pack_vtx_edges. rewrite Hrun. eexists. split; [done|]. exists (upd c' k D). split_and!; [done| |]; unfold upd.
    + intros u Hu Hur. destruct (decide (u = k)) as [->|]; [done|]. apply Hs; [|done]. apply elem_of_app in Hu as [|Hu%list_elem_of_singleton]; done.
    + intros u x Hu. destruct (decide (u = k)) as [->|]; [rewrite HmD|]; now apply Hm.
Qed.

Lemma create_returns :
  fits IJ -> returns race (fun g => exists xo st c, g = SeqCsr.Csr (maxv IJ) nv xo st /\ csr_ok IJ xo st c) (create_graph_from_edgelist IJ (zlen IJ)).
Proof.
  intros Hf. pose proof Hf as Hfits. pose proof (nv_pos IJ). pose proof (zlen_nonneg IJ). unfold fits in Hfits. unfold create_graph_from_edgelist.
  eapply returns_bind; [apply find_nv_returns|]. intros ? ->. cbv beta match. unfold alloc_graph. rewrite i64_small by lia. cbn [mbind res_bind].
  unfold xmalloc_large_ext, xmalloc_large. destruct (xmalloc_int64s (2 * nv + 2)) as (xo0 & Hx & Hl0); [lia|].
  eapply returns_bind; [apply (returns_alone race (fun x => x = xo0) _ xo0); done|]. intros ? ->.
  eapply returns_bind; [now apply setup_returns|]. intros [xo st] Hc. eapply returns_bind.
  - unfold gather_edges. eapply returns_bind; [exact (gather_returns (xo, st) Hc)|]. intros s (c & Hc' & Hp). exact (pack_returns s c Hc' Hp).
  - intros [xo' st'] (c & Hok). apply returns_ret. now exists xo', st', c.
Qed.
End build.
