(* ===== verification/OmpLevels.v ===== *)
(** Breadth-first search by levels: what one step of omp-csr.c, in either direction, has to
    do for the result to be a breadth-first tree, and the queue that several threads fill. *)
From stdpp Require Import base numbers list gmap sorting.
From Stdlib Require Import ZArith Lia.
From S2P Require Import Prelude Kronecker Graph500 Graph SeqCsrProofs Omp OmpBitmap OmpBitmapProofs OmpCsr OmpCsrBuild.
Import Plain OmpCsr.
Open Scope Z_scope.

(** ** Levels *)

Section levels.
Context (nv root : Z) (nb : Z -> list Z).
Hypothesis nb_range : forall u w, 0 <= u < nv -> w ∈ nb u -> 0 <= w < nv.

Definition visited (tree : list Z) (v : Z) : Prop := at_ tree v <> -1.

(** The vertices up to depth [L] are in the tree; [F] are those at depth [L]. *)
Record level (tree F : list Z) (L : Z) (d : Z -> Z) : Prop := {
  lv_len : nv <= zlen tree;
  lv_root : 0 <= root < nv /\ at_ tree root = root /\ d root = 0;
  lv_parents v : 0 <= v < nv -> visited tree v -> 0 <= at_ tree v;
  lv_front v : v ∈ F <-> 0 <= v < nv /\ visited tree v /\ d v = L;
  lv_depth v : 0 <= v < nv -> visited tree v -> 0 <= d v <= L;
  lv_edge v : 0 <= v < nv -> v <> root -> visited tree v ->
    at_ tree v < nv /\ visited tree (at_ tree v) /\ v ∈ nb (at_ tree v) /\ d v = d (at_ tree v) + 1;
  lv_closed u w : 0 <= u < nv -> visited tree u -> d u < L -> w ∈ nb u -> visited tree w /\ d w <= d u + 1 }.

(** A step: the vertices [N] enter the tree, next to the frontier [F], and none is left out. *)
Record stepped (tree F tree' N : list Z) : Prop := {
  sp_len : zlen tree' = zlen tree;
  sp_keep v : visited tree v -> at_ tree' v = at_ tree v;
  sp_new v : v ∈ N <-> 0 <= v < nv /\ at_ tree v = -1 /\ visited tree' v;
  sp_edge v : v ∈ N -> at_ tree' v ∈ F /\ v ∈ nb (at_ tree' v);
  sp_all u w : u ∈ F -> w ∈ nb u -> visited tree' w }.

Lemma level_ext tree F F' L d : level tree F L d -> (forall v, v ∈ F <-> v ∈ F') -> level tree F' L d.
Proof. intros [H1 H2 H3 H4 H5 H6 H7] HF. split; try done. intros v. rewrite <- HF. apply H4. Qed.

Lemma level_step tree F tree' N L d :
  level tree F L d -> stepped tree F tree' N -> level tree' N (L + 1) (fun v => if decide (v ∈ N) then L + 1 else d v).
Proof.
  intros [H1 (Hr & Hrt & Hrd) H3 H4 H5 H6 H7] [S1 S2 S3 S4 S5].
  assert (Hold : forall v, visited tree v -> v ∉ N) by (intros v Hv (_ & H & _)%S3; done).
  assert (Hkeep : forall v, visited tree v -> visited tree' v) by (intros v Hv; unfold visited; now rewrite S2).
  assert (Hcase : forall v, 0 <= v < nv -> visited tree' v -> v ∈ N \/ (v ∉ N /\ visited tree v)).
  { intros v Hv Hv'. destruct (decide (at_ tree v = -1)) as [He|He]; [left; now apply S3|right; split; [now apply Hold|done]]. }
  assert (HF : forall v, v ∈ F -> 0 <= v < nv /\ visited tree v /\ d v = L) by (intros v; apply H4).
  assert (Hroot : visited tree root) by (unfold visited; rewrite Hrt; lia).
  assert (HL : 0 <= L) by (pose proof (H5 root Hr Hroot); lia).
  split.
  - lia.
  - rewrite S2 by done. rewrite decide_False by auto. done.
  - intros v Hv [HvN|[HvN Hvt]]%Hcase; [|rewrite S2 by done; now apply H3|done]. apply S4 in HvN as [HvF _]. apply HF in HvF. lia.
  - intros v. split.
    + intros HvN. rewrite decide_True by done. apply S3 in HvN as (? & _ & ?). done.
    + intros (Hv & [HvN|[HvN Hvt]]%Hcase & Hd); [done| |done]. rewrite decide_False in Hd by done. pose proof (H5 v Hv Hvt). lia.
  - intros v Hv [HvN|[HvN Hvt]]%Hcase; [rewrite decide_True by done; lia|rewrite decide_False by done; pose proof (H5 v Hv Hvt); lia|done].
  - intros v Hv Hne [HvN|[HvN Hvt]]%Hcase; [|rewrite (decide_False (P := v ∈ N)) by done|done].
    + rewrite (decide_True (P := v ∈ N)) by done. destruct (S4 v HvN) as [HvF Hnb]. destruct (HF _ HvF) as (Hp & Hpv & Hpd).
      rewrite decide_False by auto. split_and!; try done; [lia|now apply Hkeep|lia].
    + rewrite S2 by done. destruct (H6 v Hv Hne Hvt) as (Hp & Hpv & Hnb & Hd). rewrite decide_False by auto. split_and!; try done. now apply Hkeep.
  - intros u w Hu [HuN|[HuN Hut]]%Hcase Hd Hw; [rewrite decide_True in Hd by done; lia| |done]. rewrite (decide_False (P := u ∈ N)) in Hd by done. rewrite (decide_False (P := u ∈ N)) by done.
    pose proof (nb_range u w Hu Hw) as Hwr. destruct (decide (d u = L)) as [HuL|HuL].
    + assert (HuF : u ∈ F) by (now apply H4). pose proof (S5 u w HuF Hw) as Hwv. split; [done|]. destruct (Hcase w Hwr Hwv) as [HwN|[HwN Hwt]]; [rewrite decide_True by done; lia|].
      rewrite decide_False by done. pose proof (H5 w Hwr Hwt). lia.
    + destruct (H7 u w Hu Hut ltac:(lia) Hw) as [Hwv Hwd]. split; [now apply Hkeep|]. now rewrite decide_False by auto.
Qed.

(** A vertex that is not in the tree has no neighbour above the frontier. *)
Lemma level_gap tree F L d u w :
  level tree F L d -> 0 <= u < nv -> visited tree u -> w ∈ nb u -> at_ tree w = -1 -> u ∈ F.
Proof.
  intros Hl Hu Hut Hw Hwt. apply (lv_front _ _ _ _ Hl). split; [done|]. split; [done|]. pose proof (lv_depth _ _ _ _ Hl u Hu Hut).
  destruct (decide (d u = L)) as [|Hne]; [done|]. destruct (lv_closed _ _ _ _ Hl u w Hu Hut ltac:(lia) Hw) as [Hv _]. done.
Qed.

Lemma level_end (R : Z -> Z -> Prop) tree L d :
  (forall u v, 0 <= u < nv -> v ∈ nb u <-> R u v) -> level tree [] L d -> bfs_ok R nv root tree d.
Proof.
  intros HR [H1 (Hr & Hrt & Hrd) H3 H4 H5 H6 H7].
  assert (Hv : forall v, 0 <= at_ tree v -> visited tree v) by (unfold visited; lia).
  split; [done|done| | |].
  - intros v Hvr Hne Ht. destruct (H6 v Hvr Hne (Hv v Ht)) as (Hp & Hpv & Hnb & Hd). split_and!; try done; [apply H3; [lia|done]|apply HR; [lia|done]].
  - intros u v Huv Hu Ht. apply HR in Huv; [|done]. assert (d u < L).
    { pose proof (H5 u Hu (Hv u Ht)). destruct (decide (d u = L)) as [He|]; [|lia]. assert (u ∈ []) as []%not_elem_of_nil. apply H4. auto. }
    destruct (H7 u v Hu (Hv u Ht) ltac:(done) Huv) as [Hvv Hd]. pose proof (nb_range u v Hu Huv). split_and!; try done; try lia. now apply H3.
  - intros v Hvr Ht. now apply H5, Hv.
Qed.

Lemma level_init tree :
  nv <= zlen tree -> 0 <= root < nv -> (forall v, 0 <= v < nv -> at_ tree v = if decide (v = root) then root else -1) ->
  level tree [root] 0 (fun _ => 0).
Proof.
  intros Hl Hr Ht. assert (Hv : forall v, 0 <= v < nv -> visited tree v -> v = root).
  { intros v Hv. unfold visited. rewrite Ht by done. now case_decide. }
  assert (Hroot : at_ tree root = root) by (rewrite Ht by done; now rewrite decide_True).
  split; [done|done| | | | |].
  - intros v Hvr ->%Hv; [|done]. lia.
  - intros v. rewrite list_elem_of_singleton. split; [intros ->; split_and!; [lia|lia|unfold visited; lia|done]|intros (Hvr & Hvv & _); now apply Hv].
  - done.
  - intros v Hvr Hne Hvv. now apply Hv in Hvv.
  - intros; lia.
Qed.

(** The vertices a search has still to find. *)
Definition missing (tree : list Z) : nat := length (filter (fun v => at_ tree v = -1) (seqZ 0 nv)).

Lemma missing_max tree : (missing tree <= Z.to_nat nv)%nat.
Proof. unfold missing. etransitivity; [apply length_filter|]. now rewrite length_seqZ. Qed.

Lemma missing_step tree F tree' N : stepped tree F tree' N -> (missing tree' + length (remove_dups N) <= missing tree)%nat.
Proof.
  intros [S1 S2 S3 S4 S5]. unfold missing. rewrite <- length_app. apply submseteq_length, NoDup_submseteq.
  - apply NoDup_app. split_and!; [apply NoDup_filter, NoDup_seqZ| |apply NoDup_remove_dups]. intros v (Hv & _)%list_elem_of_filter HvN.
    rewrite elem_of_remove_dups in HvN. now apply S3 in HvN as (_ & _ & HvN).
  - intros v. rewrite elem_of_app, elem_of_remove_dups, !list_elem_of_filter, !elem_of_seqZ. intros [[Hv Hr]|(Hr & Hv & _)%S3]; [|split; [done|lia]].
    split; [|done]. destruct (decide (at_ tree v = -1)) as [|Hne]; [done|]. now rewrite S2 in Hv.
Qed.

Lemma missing_less tree F tree' N : stepped tree F tree' N -> N <> [] -> (missing tree' < missing tree)%nat.
Proof.
  intros Hs Hne. pose proof (missing_step _ _ _ _ Hs). destruct N as [|v N]; [done|].
  assert (v ∈ remove_dups (v :: N)) as Hin by (apply elem_of_remove_dups; now left). destruct (remove_dups (v :: N)); [now apply not_elem_of_nil in Hin|]. simpl in *. lia.
Qed.

Lemma missing_le tree F tree' N : stepped tree F tree' N -> (missing tree' <= missing tree)%nat.
Proof. intros Hs. pose proof (missing_step _ _ _ _ Hs). lia. Qed.
End levels.
