(* ===== verification/OmpQueue.v ===== *)
(** The list of vertices of omp-csr.c, which the threads of a team fill at once: each takes
    slots with an atomic addition and then copies its buffer into them. *)
From stdpp Require Import base numbers list gmap.
From Stdlib Require Import ZArith Lia.
From S2P Require Import Prelude Kronecker Graph500 Graph Omp OmpBitmap OmpCsr OmpCsrBuild.
Import OmpCsr.
Open Scope Z_scope.

(** ** Slots taken together *)

Fixpoint take_all (t : nat) (voff : Z) (buf : list Z) (pend : gmap Z (nat * Z)) : gmap Z (nat * Z) :=
  match buf with [] => pend | x :: buf => take_all t (voff + 1) buf (<[voff := (t, x)]> pend) end.

Lemma take_all_lookup t voff buf pend p :
  take_all t voff buf pend !! p = if decide (voff <= p < voff + zlen buf) then (fun x => (t, x)) <$> buf !! Z.to_nat (p - voff) else pend !! p.
Proof.
  revert voff pend. induction buf as [|x buf IH]; intros voff pend; cbn [take_all].
  - rewrite decide_False by (unfold zlen; simpl; lia). done.
  - rewrite IH, zlen_cons. pose proof (zlen_nonneg buf). destruct (decide (p = voff)) as [->|Hne].
    + rewrite decide_False, decide_True by lia. rewrite lookup_insert_eq, Z.sub_diag. done.
    + rewrite lookup_insert_ne by done. destruct (decide (voff + 1 <= p < voff + 1 + zlen buf)).
      * rewrite decide_True by lia. replace (Z.to_nat (p - voff)) with (S (Z.to_nat (p - (voff + 1)))) by lia. done.
      * rewrite decide_False by lia. done.
Qed.

(** The thread has still to write the buffer from [m] on, to the slots from [voff + m]. *)
Definition writing (t : nat) (voff : Z) (buf : list Z) (m : Z) (pend : gmap Z (nat * Z)) : Prop :=
  forall p x, pend !! p = Some (t, x) <-> voff + m <= p < voff + zlen buf /\ buf !! Z.to_nat (p - voff) = Some x.

Lemma writing_end t voff buf pend : writing t voff buf (zlen buf) pend -> no_writes t pend.
Proof. intros Hw p x Hp. apply Hw in Hp as [Hp _]. lia. Qed.

Lemma take_all_writing t voff buf pend : no_writes t pend -> writing t voff buf 0 (take_all t voff buf pend).
Proof.
  intros Hno p x. rewrite take_all_lookup, Z.add_0_r. destruct (decide _) as [Hin|Hout].
  - destruct (buf !! Z.to_nat (p - voff)) as [y|]; simpl; split; try naive_solver.
  - split; [intros Hp; now apply Hno in Hp|intros [Hp _]; done].
Qed.

Lemma take_all_complete t voff buf pend a :
  0 <= voff -> voff + zlen buf <= zlen a ->
  take (Z.to_nat (voff + zlen buf)) (complete (take_all t voff buf pend) a) = take (Z.to_nat voff) (complete pend a) ++ buf.
Proof.
  intros H0 Hl. pose proof (zlen_nonneg buf). apply list_eq. intros i. assert (Hlen : length (take (Z.to_nat voff) (complete pend a)) = Z.to_nat voff).
  { rewrite length_take, complete_length. unfold zlen in *. lia. }
  destruct (decide (Z.of_nat i < voff + zlen buf)) as [Hi|Hi].
  - rewrite lookup_take_lt by lia. unfold complete at 1. rewrite list_lookup_imap. destruct (lookup_lt_is_Some_2 a i) as [y Hy]; [unfold zlen in *; lia|].
    rewrite Hy. cbn [fmap option_fmap option_map]. rewrite take_all_lookup. destruct (decide (voff <= Z.of_nat i < voff + zlen buf)).
    + rewrite lookup_app_r, Hlen by lia. replace (Z.to_nat (Z.of_nat i - voff)) with (i - Z.to_nat voff)%nat by lia.
      destruct (lookup_lt_is_Some_2 buf (i - Z.to_nat voff)) as [x ->]; [unfold zlen in *; lia|]. done.
    + rewrite lookup_app_l, lookup_take_lt by lia. unfold complete. rewrite list_lookup_imap, Hy. done.
  - rewrite lookup_take_ge by lia. symmetry. apply lookup_ge_None. rewrite length_app, Hlen. unfold zlen in *. lia.
Qed.

(** ** The queue *)

(** [rem]: what each thread has found and not yet queued; [its]: the iterations of each
    thread; [one]: the thread of the [single] region. *)
Record qghost := QGhost { rem : list (list Z); pend : gmap Z (nat * Z); found : list Z; its : list (list Z); one : nat }.

Section queue.
Context `{OM : Omp} (nv : Z) (q0 : list Z).
Notation base := (zlen q0).

(** [q0] was in the queue before; what is [found] follows, or is still with the threads. *)
Record qinv (s : search) (g : qghost) : Prop := {
  qi_threads : length (rem g) = num_threads;
  qi_owner p t x : pend g !! p = Some (t, x) -> (t < num_threads)%nat /\ base <= p < k2 s;
  qi_vlist : zlen (vlist s) = nv;
  qi_old : take (length q0) (vlist s) = q0;
  qi_queue : exists W, take (Z.to_nat (k2 s)) (complete (pend g) (vlist s)) = q0 ++ W /\ k2 s = base + zlen W /\ W ++ concat (rem g) ≡ₚ found g;
  qi_nodup : NoDup (q0 ++ found g);
  qi_range v : v ∈ q0 ++ found g -> 0 <= v < nv }.

Definition set_rem (g : qghost) (r : list (list Z)) (p : gmap Z (nat * Z)) : qghost := QGhost r p (found g) (its g) (one g).

Lemma qinv_room s g : qinv s g -> zlen (q0 ++ found g) <= nv.
Proof.
  intros H. pose proof (nodup_below _ nv (qi_nodup _ _ H) (qi_range _ _ H)). pose proof (zlen_nonneg (vlist s)). rewrite (qi_vlist _ _ H) in *. lia.
Qed.

Lemma rem_split (r : list (list Z)) t l l' : r !! t = Some (l ++ l') -> concat r ≡ₚ l ++ concat (<[t := l']> r).
Proof.
  intros Hr. rewrite <- (take_drop_middle _ _ _ Hr) at 1. rewrite insert_take_drop by (eapply lookup_lt_Some, Hr). rewrite !concat_app. cbn [concat].
  rewrite <- app_assoc. apply Permutation_app_swap_app.
Qed.

(** A thread takes slots for its buffer. *)
Lemma qinv_take s g t buf r :
  qinv s g -> rem g !! t = Some (buf ++ r) -> no_writes t (pend g) ->
  let g' := set_rem g (<[t := r]> (rem g)) (take_all t (k2 s) buf (pend g)) in
  0 <= k2 s /\ k2 s + zlen buf <= nv /\ qinv (set_k2 s (k2 s + zlen buf)) g' /\ writing t (k2 s) buf 0 (pend g') /\
  forall j, j <> t -> same_writes j (pend g) (pend g').
Proof.
  intros H Hr Hno g'. pose proof (qinv_room _ _ H) as Hroom. destruct H as [H1 H2 H3 H4 (W & Htake & Hk & Hperm) H6 H7].
  pose proof (zlen_nonneg q0). pose proof (zlen_nonneg W). pose proof (zlen_nonneg buf). pose proof (rem_split _ _ _ _ Hr) as Hrem.
  assert (Hsz : k2 s + zlen buf <= nv).
  { rewrite zlen_app in Hroom. assert (zlen (found g) = zlen (W ++ concat (rem g))) as E by (unfold zlen; now rewrite Hperm).
    rewrite zlen_app in E. assert (zlen (concat (rem g)) = zlen (buf ++ concat (<[t := r]> (rem g)))) as E2 by (unfold zlen; now rewrite Hrem).
    rewrite zlen_app in E2. pose proof (zlen_nonneg (concat (<[t := r]> (rem g)))). lia. }
  split; [lia|]. split; [done|]. split; [|split].
  - split; cbn [rem pend found its one g' set_rem set_k2 k2 vlist]; try done.
    + now rewrite length_insert.
    + intros p t' x. rewrite take_all_lookup. destruct (decide _) as [Hin|Hout]; [|intros Hp; destruct (H2 _ _ _ Hp); split; [done|lia]].
      intros (y & Hy & [= -> ->])%fmap_Some. split; [|lia]. rewrite <- H1. eapply lookup_lt_Some, Hr.
    + exists (W ++ buf). rewrite take_all_complete by lia. rewrite Htake, <- app_assoc. split; [done|]. rewrite zlen_app. split; [lia|].
      rewrite <- app_assoc, <- Hrem. done.
  - now apply take_all_writing.
  - intros j Hj p x. cbn [pend g' set_rem]. rewrite take_all_lookup. destruct (decide _) as [Hin|Hout]; [|done]. split.
    + intros Hp. destruct (H2 _ _ _ Hp). lia.
    + intros (y & Hy & [= -> _])%fmap_Some. done.
Qed.

(** It writes one of them. *)
Lemma qinv_write s g t p x :
  qinv s g -> pend g !! p = Some (t, x) ->
  awrite (vlist s) p x = Ok (<[Z.to_nat p := x]> (vlist s)) /\
  qinv (set_vlist s (<[Z.to_nat p := x]> (vlist s))) (set_rem g (rem g) (delete p (pend g))).
Proof.
  intros H Hp. pose proof (qinv_room _ _ H) as Hroom. destruct H as [H1 H2 H3 H4 (W & Htake & Hk & Hperm) H6 H7]. destruct (H2 _ _ _ Hp) as [Ht Hpr].
  pose proof (zlen_nonneg q0). assert (Hin : 0 <= p < zlen (vlist s)).
  { rewrite zlen_app in Hroom. assert (zlen (found g) = zlen (W ++ concat (rem g))) as E by (unfold zlen; now rewrite Hperm).
    rewrite zlen_app in E. pose proof (zlen_nonneg (concat (rem g))). lia. }
  split; [now apply awrite_in_bounds|]. split; cbn [rem pend found its one set_rem set_vlist k2 vlist]; try done.
  - intros q t' y Hq. apply lookup_delete_Some in Hq as [_ Hq]. eauto.
  - now rewrite zlen_insert.
  - rewrite take_insert_ge by (unfold zlen in *; lia). done.
  - exists W. rewrite (complete_write _ _ _ _ _ Hp) by done. done.
Qed.

(** When all threads are done. *)
Lemma qinv_end s g :
  qinv s g -> (forall t, (t < num_threads)%nat -> rem g !! t = Some [] /\ no_writes t (pend g)) ->
  exists W, take (Z.to_nat (k2 s)) (vlist s) = q0 ++ W /\ k2 s = base + zlen W /\ W ≡ₚ found g.
Proof.
  intros H Hdone. destruct H as [H1 H2 H3 H4 (W & Htake & Hk & Hperm) H6 H7].
  rewrite (all_written num_threads (pend g)) in Htake; [|intros p t x Hp; now destruct (H2 _ _ _ Hp)|intros t Ht; now apply Hdone]. rewrite complete_empty in Htake.
  exists W. split_and!; try done. rewrite <- Hperm. assert (concat (rem g) = []) as ->; [|now rewrite app_nil_r].
  apply concat_nil_Forall, Forall_forall. intros r [t Ht]%list_elem_of_lookup_1. destruct (Hdone t) as [Hr _]; [rewrite <- H1; eapply lookup_lt_Some, Ht|]. congruence.
Qed.

(** ** Copying a buffer *)

(** [J] is what else holds of the state, [Jr] what else a thread relies on; neither is about
    the queue. *)
Section flush.
Context (J : search -> qghost -> Prop) (Jr : nat -> search -> qghost -> search -> qghost -> Prop).
Hypothesis J_move : forall s g l k r p, J s g -> J (set_k2 (set_vlist s l) k) (set_rem g r p).
Hypothesis Jr_refl : forall t s g, Jr t s g s g.
Hypothesis Jr_move : forall t s g l k r p, Jr t s g (set_k2 (set_vlist s l) k) (set_rem g r p).

Definition qI (s : search) (g : qghost) : Prop := qinv s g /\ J s g.
Definition qR (t : nat) (s : search) (g : qghost) (s' : search) (g' : qghost) : Prop :=
  (rem g !! t = rem g' !! t /\ same_writes t (pend g) (pend g')) /\ (its g = its g' /\ one g = one g') /\ Jr t s g s' g'.

Lemma qR_refl t s g : qR t s g s g.
Proof. unfold qR, same_writes. split_and!; done || apply Jr_refl. Qed.

Hypothesis Jr_trans : forall t s1 g1 s2 g2 s3 g3, Jr t s1 g1 s2 g2 -> Jr t s2 g2 s3 g3 -> Jr t s1 g1 s3 g3.

Lemma qR_trans t s1 g1 s2 g2 s3 g3 : qR t s1 g1 s2 g2 -> qR t s2 g2 s3 g3 -> qR t s1 g1 s3 g3.
Proof.
  intros [[A1 A2] [[A3 A4] A5]] [[B1 B2] [[B3 B4] B5]]. split; [split; [congruence|]|split; [split; congruence|eauto]]. intros p x. rewrite (A2 p x). apply B2.
Qed.

(** The thread holds [r] and has no slot to write. *)
Definition holding (t : nat) (r : list Z) (g : qghost) : Prop := rem g !! t = Some r /\ no_writes t (pend g).

Lemma holding_stable t r s g s' g' : qR t s g s' g' -> holding t r g -> holding t r g'.
Proof. intros [[A1 A2] _] [H1 H2]. split; [congruence|]. intros p x Hp. apply (H2 p x). now apply A2. Qed.

Context (t : nat) (K : search -> qghost -> Prop).
Hypothesis K_stable : forall s g s' g', its g = its g' /\ one g = one g' -> Jr t s g s' g' -> K s g -> K s' g'.

Lemma K_rely s g s' g' : qR t s g s' g' -> K s g -> K s' g'.
Proof. intros [_ [Hio HJ]]. now apply K_stable. Qed.

Lemma wp_copy_out voff buf r s g :
  qI s g -> K s g -> rem g !! t = Some r -> writing t voff buf 0 (pend g) ->
  wp qI qR t (copy_out buf voff (zlen buf)) (fun _ s g => holding t r g /\ K s g) s g.
Proof.
  intros Hi HK Hr Hw. unfold copy_out.
  eapply wp_mono; [|exact Hi|apply (wp_pfor qI qR t (seqZ 0 (zlen buf)) _ (fun l _ s g => K s g /\ rem g !! t = Some r /\ writing t voff buf (zlen l) (pend g))); [done|done|]].
  { intros u s' g' _ (HK' & Hr' & Hw'). split; [|done]. split; [done|]. apply (writing_end t voff buf). unfold zlen in *. now rewrite length_seqZ, Z2Nat.id in Hw' by lia. }
  clear s g Hi HK Hr Hw. intros l1 k l2 u s g Hl [Hq HJ] (HK & Hr & Hw). apply seqZ_split in Hl as [-> Hlt]. rewrite Z.add_0_l in *. pose proof (zlen_nonneg l1).
  destruct (lookup_lt_is_Some_2 buf (Z.to_nat (zlen l1))) as [x Hx]; [unfold zlen in *; lia|].
  assert (Hread : aread buf (zlen l1) = Ok x) by (apply aread_Ok; split; [lia|done]). rewrite Hread. cbn [read_only].
  assert (Hmine : pend g !! (voff + zlen l1) = Some (t, x)) by (apply Hw; split; [lia|]; now replace (voff + zlen l1 - voff) with (zlen l1) by lia).
  destruct (qinv_write _ _ _ _ _ Hq Hmine) as [Hwr Hq']. set (g' := set_rem g (rem g) (delete (voff + zlen l1) (pend g))) in *.
  eapply wp_store with (g' := g'); [rewrite Hwr; done|split; [done|apply (J_move s g _ (k2 s)); done]| |].
  - intros j Hj. split; [split; [done|apply (same_writes_write t j _ _ x); done]|]. split; [done|]. apply (Jr_move j s g _ (k2 s)).
  - intros s2 g2 Hi2 HR. split; [|split].
    + eapply K_rely; [exact HR|]. eapply K_stable; [|apply (Jr_move t s g _ (k2 s))|exact HK]. done.
    + destruct HR as [[<- _] _]. done.
    + rewrite zlen_app. change (zlen [zlen l1]) with 1. intros p y. destruct HR as [[_ HRw] _]. rewrite <- (HRw p y). cbn [pend g' set_rem]. rewrite lookup_delete_Some, (Hw p y).
      split; [intros [Hne [Hp Hb]]; split; [lia|done]|intros [Hp Hb]; split; [lia|split; [lia|done]]].
Qed.

(** [k2] grows, then the copy: with an assertion in one place, with an [int] in another. *)
Lemma wp_fetch_add buf r (Q : Z -> search -> qghost -> Prop) s g :
  qI s g -> K s g -> holding t (buf ++ r) g ->
  (forall voff s g, qI s g -> K s g -> rem g !! t = Some r -> writing t voff buf 0 (pend g) -> 0 <= voff -> voff + zlen buf <= nv -> Q voff s g) ->
  wp qI qR t (fetch_add_k2 (zlen buf)) Q s g.
Proof.
  intros [Hq HJ] HK [Hr Hno] HQ. destruct (qinv_take _ _ _ _ _ Hq Hr Hno) as (Hk0 & Hsz & Hq' & Hw & Hothers). set (g' := set_rem g _ _) in *.
  unfold fetch_add_k2. eapply wp_act with (g' := g'); [done|split; [done|apply (J_move s g (vlist s)); done]| |].
  - intros j Hj. split; [split; [cbn [rem g' set_rem]; now rewrite list_lookup_insert_ne|now apply Hothers]|]. split; [done|]. apply (Jr_move j s g (vlist s)).
  - intros s2 g2 Hi2 HR. apply HQ; [done| | | |done|done].
    + eapply K_rely; [exact HR|]. eapply K_stable; [|apply (Jr_move t s g (vlist s))|exact HK]. done.
    + destruct HR as [[<- _] _]. cbn [rem g' set_rem]. apply list_lookup_insert_eq. eapply lookup_lt_Some, Hr.
    + intros p x. destruct HR as [[_ HRw] _]. rewrite <- (HRw p x). apply Hw.
Qed.

Lemma wp_flush buf r n s g :
  n = zlen buf -> qI s g -> K s g -> holding t (buf ++ r) g -> wp qI qR t (flush nv buf n) (fun _ s g => holding t r g /\ K s g) s g.
Proof.
  intros -> Hi HK Hh. unfold flush. apply wp_bind; [done|]. eapply wp_fetch_add; [done|done|exact Hh|]. intros voff s1 g1 Hi1 HK1 Hr1 Hw1 Hv0 Hv1.
  apply wp_bind; [done|]. eapply wp_load; [apply qR_refl|done|unfold check; destruct (Z.leb_spec (voff + zlen buf) nv); [done|lia]|]. intros s2 g2 Hi2 HR.
  apply wp_copy_out; [done|eapply K_rely; eauto|destruct HR as [[<- _] _]; done|]. intros p x. destruct HR as [[_ HRw] _]. rewrite <- (HRw p x). apply Hw1.
Qed.

Lemma wp_flush_int buf r n s g :
  nv < 2 ^ 31 -> n = zlen buf -> qI s g -> K s g -> holding t (buf ++ r) g -> wp qI qR t (flush_int buf n) (fun _ s g => holding t r g /\ K s g) s g.
Proof.
  intros Hnv -> Hi HK Hh. unfold flush_int. apply wp_bind; [done|]. eapply wp_fetch_add; [done|done|exact Hh|]. intros voff s1 g1 Hi1 HK1 Hr1 Hw1 Hv0 Hv1.
  pose proof (zlen_nonneg buf). rewrite s32_small by lia. now apply wp_copy_out.
Qed.
End flush.
End queue.
