(* ===== verification/OmpCsrSearch.v ===== *)
(** The steps of the search of omp-csr.c, top down and bottom up, by a team: each moves the
    search one level on, whatever the schedule. *)
From stdpp Require Import base numbers list gmap sorting.
From Stdlib Require Import ZArith Lia.
From S2P Require Import Prelude Kronecker Graph500 Graph SeqCsrProofs Omp OmpBitmap OmpBitmapProofs OmpCsr OmpCsrBuild OmpLevels OmpQueue.
Import Plain OmpCsr.
Open Scope Z_scope.

Section search.
Context (race : Prop) `{OM : Omp, !OmpLaws OM} (IJ : list packed_edge).
Notation nv := (maxv IJ + 1).
Context (xo st : list Z) (c : Z -> list Z) (Hok : csr_ok IJ xo st c) (root : Z).
Notation g := (SeqCsr.Csr (maxv IJ) nv xo st).
Notation offz k := (off IJ (Z.to_nat k)).
Notation level := (level nv root c).
Notation stepped := (stepped nv c).

Lemma c_range u w : 0 <= u < nv -> w ∈ c u -> 0 <= w < nv.
Proof. apply (csr_nb IJ xo st c Hok). Qed.

Lemma c_sym u w : 0 <= u < nv -> w ∈ c u -> u ∈ c w.
Proof. intros Hu Hw. pose proof (c_range u w Hu Hw). apply (proj2 Hok w); [done|]. apply adj_sym. now apply (proj2 Hok u). Qed.

(** ** Reading rows *)

Lemma read_xoff u : 0 <= u <= nv -> aread xo (XOFF u) = Ok (offz u).
Proof.
  intros Hu. pose proof (cr_len _ _ _ _ (proj1 Hok)). rewrite at_read by (unfold XOFF; lia). f_equal. now apply (cr_off _ _ _ _ (proj1 Hok)).
Qed.

Lemma read_xendoff u : 0 <= u < nv -> aread xo (XENDOFF u) = Ok (offz u + zlen (c u)).
Proof.
  intros Hu. pose proof (cr_len _ _ _ _ (proj1 Hok)). rewrite at_read by (unfold XENDOFF; lia). f_equal. now apply (cr_end _ _ _ _ (proj1 Hok)).
Qed.

Lemma read_row u t w : 0 <= u < nv -> c u !! t = Some w -> aread st (xadj (offz u + Z.of_nat t)) = Ok w.
Proof.
  intros Hu Hw. destruct (crep_focus IJ _ _ _ _ (proj1 Hok) Hu) as (pre & r & post & -> & Hpre & Hr & Hpf & _).
  pose proof (prefix_lookup_Some _ _ _ _ Hw Hpf) as Hrx. pose proof (lookup_lt_Some _ _ _ Hrx).
  rewrite (aread_part pre r post _ (Z.of_nat t)) by (unfold xadj, MINVECT_SIZE, zlen in *; lia). apply aread_Ok. split; [lia|]. now rewrite Nat2Z.id.
Qed.

(** ** The state between two steps *)

Definition queue (s : search) : list Z := take (Z.to_nat (k2 s)) (vlist s).
Definition frontier (s : search) : list Z := drop (Z.to_nat (k1 s)) (queue s).

Record sinv (s : search) : Prop := {
  si_vlist : zlen (vlist s) = nv;
  si_k : 0 <= k1 s <= k2 s;
  si_max : k2 s <= nv;
  si_nodup : NoDup (queue s);
  si_queue v : v ∈ queue s -> 0 <= v < nv /\ visited (bfs_tree s) v;
  si_past : bm_ok nv (past s);
  si_next : bm_ok nv (next s);
  si_bits v : 0 <= v < nv -> is_set (next s) v = true -> visited (bfs_tree s) v }.

Lemma queue_length s : sinv s -> zlen (queue s) = k2 s.
Proof. intros H. pose proof (si_vlist _ H). pose proof (si_k _ H). pose proof (si_max _ H). unfold queue, zlen in *. rewrite length_take. lia. Qed.

(** What a step top down leaves alone. *)
Definition framed (s s' : search) : Prop := past s' = past s /\ next s' = next s /\ scout_count s' = scout_count s.

(** ** Top down *)

Lemma cas_tree_run s j v :
  0 <= j < zlen (bfs_tree s) ->
  (t ← aread (bfs_tree s) j; let '(t, done) := int64_cas t (-1) v in a ← awrite (bfs_tree s) j t; Ok (set_tree s a, done)) =
  Ok (if at_ (bfs_tree s) j =? -1 then (set_tree s (<[Z.to_nat j := v]> (bfs_tree s)), true) else (s, false)).
Proof.
  intros Hj. rewrite at_read by done. cbn [mbind res_bind]. unfold int64_cas. destruct (Z.eqb_spec (at_ (bfs_tree s) j) (-1)).
  - now rewrite awrite_in_bounds.
  - rewrite awrite_in_bounds by done. cbn [mbind res_bind]. rewrite list_insert_id by (now apply at_lookup). now destruct s.
Qed.

Section top_down.
Context (s0 : search) (L : Z) (d : Z -> Z) (Hs0 : sinv s0) (Hlev : level (bfs_tree s0) (frontier s0) L d).
Notation tree0 := (bfs_tree s0).
Notation q0 := (queue s0).
Notation F := (frontier s0).

Lemma front_range u : u ∈ F -> 0 <= u < nv.
Proof. intros Hu. now apply (lv_front _ _ _ _ _ _ _ Hlev) in Hu. Qed.

(** The tree so far: what is found are its new vertices, each next to the frontier. *)
Record growing (s : search) (gh : qghost) : Prop := {
  gr_frame : framed s0 s;
  gr_k1 : k1 s = k1 s0;
  gr_len : zlen (bfs_tree s) = zlen tree0;
  gr_keep v : visited tree0 v -> at_ (bfs_tree s) v = at_ tree0 v;
  gr_found v : v ∈ found gh <-> 0 <= v < nv /\ at_ tree0 v = -1 /\ visited (bfs_tree s) v;
  gr_edge v : v ∈ found gh -> at_ (bfs_tree s) v ∈ F /\ v ∈ c (at_ (bfs_tree s) v);
  gr_its : length (its gh) = num_threads /\ concat (its gh) ≡ₚ seqZ (k1 s0) (k2 s0 - k1 s0) }.

Definition keeps (t : nat) (s : search) (gh : qghost) (s' : search) (gh' : qghost) : Prop :=
  forall v, visited (bfs_tree s) v -> at_ (bfs_tree s') v = at_ (bfs_tree s) v.

Lemma keeps_refl t s gh : keeps t s gh s gh.
Proof. intros v. done. Qed.

Lemma keeps_trans t s1 g1 s2 g2 s3 g3 : keeps t s1 g1 s2 g2 -> keeps t s2 g2 s3 g3 -> keeps t s1 g1 s3 g3.
Proof. intros H1 H2 v Hv. rewrite H2; [now apply H1|]. unfold visited. now rewrite H1. Qed.

Lemma growing_move s gh l k r p : growing s gh -> growing (set_k2 (set_vlist s l) k) (set_rem gh r p).
Proof. now intros [H1 H2 H3 H4 H5 H6 H7]. Qed.

Lemma keeps_move t s gh l k r p : keeps t s gh (set_k2 (set_vlist s l) k) (set_rem gh r p).
Proof. intros v. done. Qed.

Notation I := (qI nv q0 growing).
Notation R := (qR keeps).

(** The thread has the iterations [own], and all of [ws] is in the tree. *)
Definition reached (t : nat) (own ws : list Z) (s : search) (gh : qghost) : Prop :=
  its gh !! t = Some own /\ forall w, w ∈ ws -> visited (bfs_tree s) w.

Lemma reached_stable t own ws s gh s' gh' : its gh = its gh' /\ one gh = one gh' -> keeps t s gh s' gh' -> reached t own ws s gh -> reached t own ws s' gh'.
Proof. intros [Hits _] HK [Ho Hr]. split; [congruence|]. intros w Hw. unfold visited. rewrite HK; now apply Hr. Qed.

Lemma reached_rely t own ws s gh s' gh' : R t s gh s' gh' -> reached t own ws s gh -> reached t own ws s' gh'.
Proof. apply (K_rely keeps t (reached t own ws)). intros s1 g1 s2 g2. apply reached_stable. Qed.

(** A vertex is claimed: it is with the thread, not in the queue yet. *)
Lemma claim t u j local s gh :
  I s gh -> holding t local gh -> u ∈ F -> j ∈ c u -> at_ (bfs_tree s) j = -1 ->
  let gh' := QGhost (<[t := local ++ [j]]> (rem gh)) (pend gh) (found gh ++ [j]) (its gh) (one gh) in
  let s' := set_tree s (<[Z.to_nat j := u]> (bfs_tree s)) in
  I s' gh' /\ holding t (local ++ [j]) gh' /\ (forall k, k <> t -> R k s gh s' gh') /\ keeps t s gh s' gh'.
Proof.
  intros [Hq HJ] [Hr Hno] Hu Hj Hat gh' s'. pose proof (front_range u Hu) as Hur. pose proof (c_range u j Hur Hj) as Hjr. destruct HJ as [H1 H2 H3 H4 H5 H6 H7].
  pose proof (lv_len _ _ _ _ _ _ _ Hlev) as Hlen. assert (Hin : 0 <= j < zlen (bfs_tree s)) by lia.
  assert (Hat' : forall v, at_ (bfs_tree s') v = if decide (v = j) then u else at_ (bfs_tree s) v) by (intros v; cbn [s' set_tree bfs_tree]; now apply at_insert).
  assert (Hj0 : at_ tree0 j = -1) by (destruct (decide (at_ tree0 j = -1)) as [|Hne]; [done|]; now rewrite H4 in Hat).
  assert (Hkeep : keeps t s gh s' gh') by (intros v Hv; rewrite Hat'; rewrite decide_False; [done|]; intros ->; done).
  assert (Hvis : forall v, visited (bfs_tree s') v <-> v = j \/ visited (bfs_tree s) v).
  { intros v. unfold visited. rewrite Hat'. destruct (decide (v = j)); [split; [now left|lia]|split; [now right|intros [|]; done]]. }
  split; [split|split; [|split]].
  - destruct Hq as [Q1 Q2 Q3 Q4 (W & Q5 & Q6 & Q7) Q8 Q9]. split; cbn [rem pend found gh' set_tree vlist k2 s']; try done.
    + now rewrite length_insert.
    + exists W. split_and!; try done. assert (concat (<[t := local ++ [j]]> (rem gh)) ≡ₚ concat (rem gh) ++ [j]) as ->; [|rewrite app_assoc; now rewrite Q7].
      rewrite <- (take_drop_middle _ _ _ Hr) at 2. rewrite insert_take_drop by (eapply lookup_lt_Some, Hr). rewrite !concat_app. cbn [concat]. rewrite <- !app_assoc.
      do 2 apply Permutation_app_head. apply Permutation_app_comm.
    + rewrite app_assoc. apply NoDup_app. split_and!; [done| |apply NoDup_singleton]. intros v [Hv|Hv]%elem_of_app ->%list_elem_of_singleton.
      * apply (si_queue _ Hs0) in Hv as [_ Hv]. done.
      * apply H5 in Hv as (_ & _ & Hv). done.
    + intros v. rewrite app_assoc, elem_of_app, list_elem_of_singleton. intros [Hv| ->]; [now apply Q9|done].
  - split; cbn [found its gh']; try done.
    + cbn [s' set_tree bfs_tree]. now rewrite zlen_insert.
    + intros v Hv. rewrite Hat', decide_False; [now apply H4|]. intros ->. done.
    + intros v. rewrite elem_of_app, list_elem_of_singleton, Hvis, H5. split; [intros [(? & ? & ?)| ->]; auto|]. intros (Hv & Hv0 & [->|Hv1]); auto.
    + intros v. rewrite elem_of_app, list_elem_of_singleton, Hat'. destruct (decide (v = j)) as [->|Hne]; [done|]. intros [Hv| ->]; [now apply H6|done].
  - split; cbn [rem pend gh']; [|done]. apply list_lookup_insert_eq. eapply lookup_lt_Some, Hr.
  - intros k Hk. split; [split; cbn [rem pend gh']; [now rewrite list_lookup_insert_ne|done]|]. split; [done|]. intros v Hv. now apply Hkeep.
  - done.
Qed.

Definition edge_done (t : nat) (own ws : list Z) (local : list Z) (s : search) (gh : qghost) : Prop :=
  (holding t local gh /\ zlen local <= THREAD_BUF_LEN) /\ reached t own ws s gh.

Lemma top_down_edge_wp t own u n j ws local s gh :
  u ∈ F -> c u !! n = Some j -> I s gh -> edge_done t own ws local s gh ->
  wp I R t (top_down_edge g u (offz u + Z.of_nat n) local) (fun local s gh => edge_done t own (ws ++ [j]) local s gh) s gh.
Proof.
  intros Hu Hn Hi [[Hh Hl] Hw]. pose proof (front_range u Hu) as Hur. assert (Hj : j ∈ c u) by (eapply list_elem_of_lookup_2, Hn). pose proof (c_range u j Hur Hj) as Hjr.
  assert (Hlen : forall s gh, I s gh -> 0 <= j < zlen (bfs_tree s)) by (intros s1 g1 [_ HJ1]; rewrite (gr_len _ _ HJ1); pose proof (lv_len _ _ _ _ _ _ _ Hlev); lia).
  assert (Hadd : forall s gh, reached t own ws s gh -> visited (bfs_tree s) j -> reached t own (ws ++ [j]) s gh).
  { intros s1 g1 [Ho1 Hw1] Hv. split; [done|]. intros w [Hw'| ->%list_elem_of_singleton]%elem_of_app; [now apply Hw1|done]. }
  unfold top_down_edge. cbn [SeqCsr.xadjstore SeqCsr.nv]. rewrite (read_row u n j Hur Hn). cbn [read_only].
  apply wp_bind; [done|]. eapply wp_load; [apply qR_refl, keeps_refl|done|now apply at_read, (Hlen s gh)|]. intros s1 g1 Hi1 HR1.
  pose proof (holding_stable keeps t _ _ _ _ _ HR1 Hh) as Hh1. pose proof (reached_rely _ _ _ _ _ _ _ HR1 Hw) as Hw1.
  destruct (Z.eqb_spec (at_ (bfs_tree s) j) (-1)) as [Hunv|Hvis].
  - apply wp_bind; [done|]. unfold cas_tree. pose proof (cas_tree_run s1 j u (Hlen _ _ Hi1)) as Hrun. destruct (Z.eqb_spec (at_ (bfs_tree s1) j) (-1)) as [Hat|Hat].
    + destruct (claim t u j local s1 g1 Hi1 Hh1 Hu Hj Hat) as (Hi' & Hh' & HR' & Hk'). eapply wp_act; [exact Hrun|exact Hi'|exact HR'|]. intros s2 g2 Hi2 HR2. cbv beta match.
      pose proof (holding_stable keeps t _ _ _ _ _ HR2 Hh') as Hh2.
      assert (Hw2 : reached t own (ws ++ [j]) s2 g2).
      { eapply reached_rely; [exact HR2|]. apply Hadd; [eapply reached_stable; [|exact Hk'|exact Hw1]; done|]. unfold visited. cbn [set_tree bfs_tree].
        rewrite at_insert by (eapply Hlen, Hi1). rewrite decide_True by done. lia. }
      destruct (Z.ltb_spec (zlen local) THREAD_BUF_LEN) as [Hlt|Hge].
      * unfold push. destruct (Z.ltb_spec (zlen local) THREAD_BUF_LEN); [|lia]. cbn [read_only]. split; [|done]. split; [done|]. rewrite zlen_app. change (zlen [j]) with 1. lia.
      * apply wp_bind; [done|]. eapply wp_mono; [|exact Hi2|apply (wp_flush nv q0 growing keeps growing_move keeps_refl keeps_move t (reached t own (ws ++ [j]))) with (r := [j]); [intros s3 g3 s4 g4; apply reached_stable|lia|done|done|done]].
        intros x s3 g3 _ [Hh3 Hw3]. unfold push. change (zlen [] <? THREAD_BUF_LEN) with true. cbn [read_only]. split; [|done]. split; [done|]. unfold THREAD_BUF_LEN, zlen. simpl. lia.
    + eapply wp_act; [exact Hrun|exact Hi1|intros; apply qR_refl, keeps_refl|]. intros s2 g2 Hi2 HR2. cbv beta match.
      split; [split; [eapply holding_stable; [exact HR2|done]|done]|]. eapply reached_rely; [exact HR2|]. now apply Hadd.
  - split; [done|]. apply Hadd; [done|]. destruct HR1 as [_ [_ HK]]. unfold visited. now rewrite HK.
Qed.

Lemma top_down_vertex_wp t own k u ws local s gh :
  k1 s0 <= k < k2 s0 -> q0 !! Z.to_nat k = Some u -> I s gh -> edge_done t own ws local s gh ->
  wp I R t (top_down_vertex g k local) (fun local s gh => edge_done t own (ws ++ c u) local s gh) s gh.
Proof.
  intros Hk Hku Hi Hd. pose proof (si_k _ Hs0). assert (Hu : u ∈ F).
  { unfold frontier. apply list_elem_of_lookup. exists (Z.to_nat k - Z.to_nat (k1 s0))%nat. rewrite lookup_drop. now replace (Z.to_nat (k1 s0) + _)%nat with (Z.to_nat k) by lia. }
  pose proof (front_range u Hu) as Hur. unfold top_down_vertex. apply wp_bind; [done|].
  eapply wp_load; [apply qR_refl, keeps_refl|done| |].
  { apply aread_Ok. split; [lia|]. destruct Hi as [Hq _]. rewrite <- (qi_old _ _ _ _ Hq) in Hku. apply lookup_take_Some in Hku as [Hku _]. exact Hku. }
  intros s1 g1 Hi1 HR1. cbn [SeqCsr.xoff]. rewrite read_xendoff, read_xoff by lia. cbn [read_only]. replace (offz u + zlen (c u) - offz u) with (zlen (c u)) by lia.
  destruct Hd as [[Hh Hl] Hw]. eapply wp_mono; [|exact Hi1|apply (wp_pfor I R t (seqZ (offz u) (zlen (c u))) _ (fun l local s gh => edge_done t own (ws ++ take (length l) (c u)) local s gh)); [done| |]].
  - intros local' s2 g2 _. now rewrite length_seqZ, take_ge by (unfold zlen; lia).
  - rewrite app_nil_r. split; [split; [eapply holding_stable; eauto|done]|eapply reached_rely; eauto].
  - intros l1 vo l2 local' s2 g2 Hl12 Hi2 Hd2. apply seqZ_split in Hl12 as [-> Hlt]. destruct (lookup_lt_is_Some_2 (c u) (length l1)) as [j Hj]; [unfold zlen in *; lia|].
    unfold zlen at 1. eapply wp_mono; [|exact Hi2|apply (top_down_edge_wp t own u (length l1) j); [done|done|done|exact Hd2]].
    intros local3 s3 g3 _. rewrite length_app, Nat.add_1_r, (take_S_r _ _ _ Hj), app_assoc. done.
Qed.

(** The vertices next to those at the positions [ks]. *)
Definition around (ks : list Z) : list Z := concat ((fun k => match q0 !! Z.to_nat k with Some u => c u | None => [] end) <$> ks).

Lemma top_down_thread_wp t ks s gh :
  (forall k, k ∈ ks -> k1 s0 <= k < k2 s0) -> I s gh -> holding t [] gh -> its gh !! t = Some ks ->
  wp I R t (pfor ks (top_down_vertex g) []) (fun local s gh => edge_done t ks (around ks) local s gh) s gh.
Proof.
  intros Hks Hi Hh Hits. apply (wp_pfor I R t ks _ (fun l local s gh => edge_done t ks (around l) local s gh)); [done| |].
  - split; [split; [done|unfold THREAD_BUF_LEN, zlen; simpl; lia]|]. split; [done|]. intros w Hw. now apply not_elem_of_nil in Hw.
  - intros l1 k l2 local s1 g1 Hl Hi1 Hd. assert (Hk : k1 s0 <= k < k2 s0) by (apply Hks; rewrite Hl; apply elem_of_app; right; now left).
    pose proof (si_k _ Hs0). destruct (lookup_lt_is_Some_2 q0 (Z.to_nat k)) as [u Hu]; [pose proof (queue_length _ Hs0); unfold zlen in *; lia|].
    eapply wp_mono; [|exact Hi1|apply (top_down_vertex_wp t ks k u); [done|done|done|exact Hd]]. intros local' s2 g2 _.
    unfold around. rewrite fmap_app, concat_app. cbn [fmap list_fmap concat]. now rewrite Hu, app_nil_r.
Qed.

(** The state after the loop: the tree is complete, part of the vertices is queued. *)
Definition explored (s : search) (locals : list (list Z)) : Prop :=
  exists gh, qinv nv q0 s gh /\ (forall t local, locals !! t = Some local -> holding t local gh) /\ length locals = num_threads /\
    framed s0 s /\ k1 s = k1 s0 /\ stepped tree0 F (bfs_tree s) (found gh).

Lemma top_down_loop_returns :
  returns race (fun r => explored r.1 r.2) (omp_for (k1 s0) (k2 s0) (fun _ ks => pfor ks (top_down_vertex g) []) s0).
Proof.
  pose proof (si_k _ Hs0) as Hk. pose proof (queue_length _ Hs0) as Hql. eapply returns_mono; [|apply (returns_for race I R) with
    (Q := fun t local s gh => (holding t local gh /\ zlen local <= THREAD_BUF_LEN) /\ exists ks, reached t ks (around ks) s gh)].
  - intros [s locals] (gh & [Hq HJ] & Hn & HQ). cbn [fst snd] in *. exists gh. destruct HJ as [H1 H2 H3 H4 H5 H6 [H7 H8]].
    split; [done|]. split; [intros t local Ht; now apply HQ|]. split; [done|]. split; [done|]. split; [done|]. split; try done.
    intros u w Hu Hw. apply list_elem_of_lookup_1 in Hu as [i Hi]. unfold frontier in Hi. rewrite lookup_drop in Hi. set (k := (Z.to_nat (k1 s0) + i)%nat) in *.
    assert (Hin : Z.of_nat k ∈ concat (its gh)) by (rewrite H8; apply elem_of_seqZ; apply lookup_lt_Some in Hi; unfold zlen in *; lia).
    apply elem_of_concat in Hin as (t & ks & Ht & Hkin). destruct (lookup_lt_is_Some_2 locals t) as [local Hlt]; [apply lookup_lt_Some in Ht; lia|].
    destruct (HQ _ _ Hlt) as (_ & ks' & Ht' & Hr). assert (ks' = ks) as -> by congruence. apply Hr. unfold around. apply elem_of_concat.
    apply list_elem_of_lookup_1 in Hkin as [n Hn']. exists n. rewrite list_lookup_fmap, Hn'. simpl. rewrite Nat2Z.id, Hi. eauto.
  - intros t s gh. apply qR_refl, keeps_refl.
  - intros t s1 g1 s2 g2 s3 g3. apply qR_trans, keeps_trans.
  - intros t local s gh s2 g2 _ HR [[Hh Hl] (ks & Hr)]. split; [split; [eapply holding_stable; eauto|done]|]. exists ks. eapply reached_rely; eauto.
  - intros ls Hn Hperm. exists (QGhost (replicate num_threads []) ∅ [] ls 0). split; [split|].
    + split; cbn [rem pend found].
      * apply length_replicate.
      * intros p t x. now rewrite lookup_empty.
      * apply Hs0.
      * replace (length q0) with (Z.to_nat (k2 s0)) by (unfold zlen in *; lia). done.
      * exists []. rewrite complete_empty, app_nil_r. split; [done|]. split; [unfold zlen in *; simpl; lia|]. simpl. clear. induction num_threads as [|n IH]; [done|]. apply IH.
      * rewrite app_nil_r. apply Hs0.
      * rewrite app_nil_r. intros v Hv. now apply (si_queue _ Hs0).
    + split; cbn [found its]; try done. intros v. split; [intros Hv; now apply not_elem_of_nil in Hv|]. intros (_ & H1 & H2). done. intros v Hv. now apply not_elem_of_nil in Hv.
    + intros t ks Hks s2 g2 Hi2 HR. eapply wp_mono; [|exact Hi2|apply top_down_thread_wp].
      * intros local s3 g3 Hi3 [Hh Hr]. split; [done|]. now exists ks.
      * intros k Hkin. apply (in_range _ _ _ _ Hperm). apply elem_of_concat. eauto.
      * done.
      * eapply holding_stable; [exact HR|]. split; cbn [rem pend]; [|intros p x; now rewrite lookup_empty]. apply lookup_replicate. split; [done|]. apply lookup_lt_Some in Hks. lia.
      * destruct HR as [_ [[<- _] _]]. done.
Qed.

(** The rest of the buffers is queued, while one thread moves [k1]. *)
Section flush_rest.
Context (s1 : search) (X : list Z).

Definition flushing (s : search) (gh : qghost) : Prop :=
  framed s0 s /\ bfs_tree s = bfs_tree s1 /\ found gh = X /\ (one gh < num_threads)%nat.
Definition k1_moves (t : nat) (s : search) (_ : qghost) (s' : search) (_ : qghost) : Prop := k1 s = k2 s0 -> k1 s' = k2 s0.
Notation I2 := (qI nv q0 flushing).
Notation R2 := (qR k1_moves).

Lemma flushing_move s gh l k r p : flushing s gh -> flushing (set_k2 (set_vlist s l) k) (set_rem gh r p).
Proof. intros H. exact H. Qed.
Lemma k1_refl t s gh : k1_moves t s gh s gh.
Proof. intros H. exact H. Qed.
Lemma k1_move t s gh l k r p : k1_moves t s gh (set_k2 (set_vlist s l) k) (set_rem gh r p).
Proof. intros H. exact H. Qed.
Lemma k1_trans t s1' g1 s2 g2 s3 g3 : k1_moves t s1' g1 s2 g2 -> k1_moves t s2 g2 s3 g3 -> k1_moves t s1' g1 s3 g3.
Proof. unfold k1_moves. auto. Qed.

Definition flushed (t : nat) (_ : unit) (s : search) (gh : qghost) : Prop := holding t [] gh /\ (t = one gh -> k1 s = k2 s0).

Lemma flushed_stable t x s gh s2 g2 : R2 t s gh s2 g2 -> flushed t x s gh -> flushed t x s2 g2.
Proof.
  intros HR [Hh Hk]. split; [eapply holding_stable; eauto|]. destruct HR as [_ [[_ Ho] Hm]]. intros Ht. apply Hm, Hk. congruence.
Qed.

Lemma flush_rest_wp t tone local s gh :
  I2 s gh -> holding t local gh -> one gh = tone ->
  wp I2 R2 t (_ ← (if negb (zlen local =? 0) then flush nv local (zlen local) else mret tt);
      if (t =? tone)%nat then store (fun s => Ok (set_k1 s (k2 s0))) else mret tt) (flushed t) s gh.
Proof.
  intros Hi Hh Ho. apply wp_bind; [done|].
  assert (Hnext : forall s gh, I2 s gh -> holding t [] gh -> one gh = tone ->
    wp I2 R2 t (if (t =? tone)%nat then store (fun s => Ok (set_k1 s (k2 s0))) else mret tt) (flushed t) s gh).
  { clear s gh Hi Hh Ho. intros s gh Hi Hh Ho. destruct (Nat.eqb_spec t tone) as [->|Hne].
    - eapply wp_store with (g' := gh); [done| | |].
      + destruct Hi as [[Q1 Q2 Q3 Q4 Q5 Q6 Q7] Hf]. split; [split; done|done].
      + intros j Hj. split; [split; done|]. split; [split; done|]. intros _. done.
      + intros s2 g2 _ HR. eapply flushed_stable; [exact HR|]. split; [done|]. intros _. done.
    - split; [done|]. intros ->. congruence. }
  destruct (Z.eqb_spec (zlen local) 0) as [H0|H0]; cbn [negb].
  - assert (local = []) as -> by (apply nil_length_inv; unfold zlen in H0; lia). now apply Hnext.
  - eapply wp_mono; [|exact Hi|apply (wp_flush nv q0 flushing k1_moves flushing_move k1_refl k1_move t (fun _ gh => one gh = tone)) with (r := [])].
    + intros u s2 g2 Hi2 [Hh2 Ho2]. now apply Hnext.
    + intros s2 g2 s3 g3 [_ <-] _. done.
    + done.
    + done.
    + done.
    + now rewrite app_nil_r.
Qed.
End flush_rest.

Lemma stepped_visited tree1 N v : stepped tree0 F tree1 N -> visited tree0 v -> visited tree1 v.
Proof. intros Hs Hv. unfold visited. now rewrite (sp_keep _ _ _ _ _ _ Hs). Qed.

(** A step of the search: the tree grows by a level, which is the new frontier. *)
Definition one_level (s : search) : Prop :=
  sinv s /\ exists N, stepped tree0 F (bfs_tree s) N /\ forall v, v ∈ frontier s <-> v ∈ N.

Lemma explored_end s gh W :
  framed s0 s -> k1 s = k2 s0 -> zlen (vlist s) = nv -> stepped tree0 F (bfs_tree s) (found gh) -> NoDup (q0 ++ found gh) ->
  (forall v, v ∈ q0 ++ found gh -> 0 <= v < nv) -> queue s = q0 ++ W -> k2 s = zlen q0 + zlen W -> W ≡ₚ found gh -> one_level s.
Proof.
  intros (Hp & Hn & _) Hk1 Hvl Hst Hnd Hrg Hq Hk2 HW. pose proof (queue_length _ Hs0) as Hql. pose proof (si_k _ Hs0). pose proof (zlen_nonneg W).
  assert (Hqp : queue s ≡ₚ q0 ++ found gh) by (rewrite Hq; now apply Permutation_app_head). split.
  - split; [done|lia| | | |now rewrite Hp; apply Hs0|now rewrite Hn; apply Hs0|].
    + assert (zlen (q0 ++ found gh) <= Z.max 0 nv) by (now apply nodup_below). rewrite zlen_app in *. assert (zlen W = zlen (found gh)) by (unfold zlen; now rewrite HW). pose proof (nv_pos IJ). lia.
    + now rewrite Hqp.
    + intros v Hv. rewrite Hqp in Hv. split; [now apply Hrg|]. apply elem_of_app in Hv as [Hv|Hv]; [eapply stepped_visited; [exact Hst|]; now apply (si_queue _ Hs0)|].
      now apply (sp_new _ _ _ _ _ _ Hst) in Hv.
    + intros v Hv Hb. rewrite Hn in Hb. eapply stepped_visited; [exact Hst|]. now apply (si_bits _ Hs0).
  - exists (found gh). split; [done|]. intros v. unfold frontier. rewrite Hq, Hk1. replace (Z.to_nat (k2 s0)) with (length q0) by (unfold zlen in *; lia).
    rewrite drop_app_length. now rewrite HW.
Qed.

Lemma top_down_returns : returns race (fun s => one_level s /\ scout_count s = scout_count s0) (bfs_top_down_step g s0).
Proof.
  unfold bfs_top_down_step. eapply returns_bind; [apply top_down_loop_returns|]. intros [s1 locals] (gh & Hq & Hh & Hn & Hf & Hk & Hst). cbn [fst snd SeqCsr.nv] in *.
  eapply returns_bind.
  { apply (returns_parallel race (qI nv q0 (flushing s1 (found gh))) (qR k1_moves)) with (Q := flushed).
    - intros t s gh'. apply qR_refl, k1_refl.
    - intros t sa ga sb gb sc gc. apply qR_trans, k1_trans.
    - intros t x s gh' s2 g2 _. apply flushed_stable.
    - intros tone Hone. exists (QGhost (rem gh) (pend gh) (found gh) (its gh) tone). split; [split; [now destruct Hq|done]|].
      intros t Ht s2 g2 Hi2 HR. destruct (lookup_lt_is_Some_2 locals t) as [local Hl]; [lia|]. unfold private. rewrite Hl. cbn [of_option read_only].
      apply (flush_rest_wp s1 (found gh)); [done| |destruct HR as [_ [[_ <-] _]]; done]. eapply holding_stable; [exact HR|]. exact (Hh _ _ Hl). }
  intros [s us] (gh2 & [Hq2 (Hf2 & Ht2 & HX & Ho)] & Hnu & HQ). cbn [fst snd] in *. apply returns_ret.
  assert (Hdone : forall t, (t < num_threads)%nat -> flushed t tt s gh2) by (intros t Ht; destruct (lookup_lt_is_Some_2 us t) as [[] Hu]; [lia|]; eauto).
  destruct (qinv_end _ _ _ _ Hq2) as (W & HW & Hk2 & HWp); [intros t Ht; apply Hdone; done|]. split; [|apply Hf2].
  apply (explored_end s gh2 W); try done; [now apply (proj2 (Hdone _ Ho))|apply Hq2|now rewrite Ht2, HX|apply Hq2|apply Hq2].
Qed.
End top_down.
End search.
