(* ===== verification/OmpCsrBottom.v ===== *)
(** The bottom-up part of the search of omp-csr.c: the frontier as a bitmap, the step that
    looks for parents, and the way back to a list. *)
From stdpp Require Import base numbers list gmap sorting.
From Stdlib Require Import ZArith Lia.
From S2P Require Import Prelude Kronecker Graph500 Graph SeqCsrProofs Omp OmpBitmap OmpBitmapProofs OmpCsr OmpCsrBuild OmpLevels OmpQueue OmpCsrSearch.
Import Plain OmpCsr.
Open Scope Z_scope.

Lemma concat_disjoint {A} (ls : list (list A)) i j li lj x :
  NoDup (concat ls) -> ls !! i = Some li -> ls !! j = Some lj -> x ∈ li -> x ∈ lj -> i = j.
Proof.
  revert i j. induction ls as [|l ls IH]; intros i j Hnd Hi Hj Hxi Hxj; [done|]. cbn [concat] in Hnd. apply NoDup_app in Hnd as (_ & Hd & Hnd).
  destruct i as [|i], j as [|j]; simpl in *; simplify_eq; [done| | |].
  - exfalso. apply (Hd x Hxi), elem_of_concat. eauto.
  - exfalso. apply (Hd x Hxj), elem_of_concat. eauto.
  - f_equal. eauto.
Qed.

Lemma concat_nodup {A} (ls : list (list A)) i li : NoDup (concat ls) -> ls !! i = Some li -> NoDup li.
Proof.
  revert i. induction ls as [|l ls IH]; intros i Hnd Hi; [done|]. cbn [concat] in Hnd. apply NoDup_app in Hnd as (Hl & _ & Hnd). destruct i as [|i]; simpl in *; [congruence|eauto].
Qed.

Section bottom.
Context (race : Prop) `{OM : Omp, !OmpLaws OM} (IJ : list packed_edge).
Notation nv := (maxv IJ + 1).
Context (xo st : list Z) (c : Z -> list Z) (Hok : csr_ok IJ xo st c) (root : Z).
Notation g := (SeqCsr.Csr (maxv IJ) nv xo st).
Notation offz k := (off IJ (Z.to_nat k)).
Notation level := (level nv root c).
Notation stepped := (stepped nv c).
Notation sinv := (sinv IJ).

(** The iterations of a shared loop. *)
Definition shares (lo hi : Z) (ls : list (list Z)) : Prop := length ls = num_threads /\ concat ls ≡ₚ seqZ lo (hi - lo).

Lemma shares_in lo hi ls t ks k : shares lo hi ls -> ls !! t = Some ks -> k ∈ ks -> lo <= k < hi.
Proof. intros [_ Hp] Ht Hk. apply (in_range _ _ _ _ Hp). apply elem_of_concat. eauto. Qed.

Lemma shares_nodup lo hi ls : shares lo hi ls -> NoDup (concat ls).
Proof. intros [_ ->]. apply NoDup_seqZ. Qed.

Definition more_bits (bm bm' : bitmap_t) : Prop := forall p, 0 <= p -> is_set bm p = true -> is_set bm' p = true.

Lemma more_bits_with bm p : bm_ok nv bm -> 0 <= p < nv -> more_bits bm (with_bit bm p).
Proof. intros Hb Hp q Hq Hs. rewrite (with_bit_set nv) by (done || lia). rewrite Hs. apply orb_true_r. Qed.

(** ** The frontier as a bitmap *)

Section fill_bitmap.
Context (s0 : search) (Hs0 : sinv s0).

Definition fb_inv (s : search) (ls : list (list Z)) : Prop :=
  (exists bm, s = set_next bm s0) /\ bm_ok nv (next s) /\ (forall v, 0 <= v < nv -> is_set (next s) v = true -> visited (bfs_tree s0) v) /\ shares (k1 s0) (k2 s0) ls.
Definition fb_rely (_ : nat) (s : search) (ls : list (list Z)) (s' : search) (ls' : list (list Z)) : Prop :=
  ls = ls' /\ more_bits (next s) (next s').

(** The thread with iterations [own] has set the bits of [ks]. *)
Definition bits_of (t : nat) (own ks : list Z) (s : search) (ls : list (list Z)) : Prop :=
  ls !! t = Some own /\ forall k v, k ∈ ks -> aread (vlist s0) k = Ok v -> 0 <= v < nv -> is_set (next s) v = true.

Lemma bits_of_stable t own ks s ls s' ls' : fb_rely t s ls s' ls' -> bits_of t own ks s ls -> bits_of t own ks s' ls'.
Proof. intros [<- Hm] [Ho Hk]. split; [done|]. intros k v Hkk Hv Hr. apply Hm; [lia|]. eauto. Qed.

Lemma fb_refl t s ls : fb_rely t s ls s ls.
Proof. split; [done|]. intros p. done. Qed.

Lemma fb_trans t s1 l1 s2 l2 s3 l3 : fb_rely t s1 l1 s2 l2 -> fb_rely t s2 l2 s3 l3 -> fb_rely t s1 l1 s3 l3.
Proof. intros [-> A] [-> B]. split; [done|]. intros p Hp Hs. auto. Qed.

Lemma queue_read k : k1 s0 <= k < k2 s0 -> exists v, aread (vlist s0) k = Ok v /\ v ∈ frontier s0 /\ 0 <= v < nv /\ visited (bfs_tree s0) v.
Proof.
  intros Hk. pose proof (si_k _ _ Hs0). pose proof (queue_length _ _ Hs0) as Hl. destruct (lookup_lt_is_Some_2 (queue s0) (Z.to_nat k)) as [v Hv]; [unfold zlen in Hl; lia|].
  exists v. split_and!.
  - apply aread_Ok. split; [lia|]. unfold queue in Hv. now apply lookup_take_Some in Hv as [Hv _].
  - unfold frontier. apply list_elem_of_lookup. exists (Z.to_nat k - Z.to_nat (k1 s0))%nat. rewrite lookup_drop. now replace (Z.to_nat (k1 s0) + _)%nat with (Z.to_nat k) by lia.
  - apply (si_queue _ _ Hs0 v). eapply list_elem_of_lookup_2, Hv.
  - apply (si_queue _ _ Hs0 v). eapply list_elem_of_lookup_2, Hv.
  - apply (si_queue _ _ Hs0 v). eapply list_elem_of_lookup_2, Hv.
Qed.

Lemma fill_thread_wp t own s ls :
  fb_inv s ls -> ls !! t = Some own ->
  wp fb_inv fb_rely t (pfor own (fun q_index _ => read_only (aread (vlist s0) q_index) (fun v => bm_set_bit_atomic next set_next v)) tt)
    (fun _ s ls => bits_of t own own s ls) s ls.
Proof.
  intros Hi Ho. apply (wp_pfor fb_inv fb_rely t own _ (fun l _ s ls => bits_of t own l s ls)); [done|split; [done|intros k v Hk; now apply not_elem_of_nil in Hk]|].
  intros l1 k l2 u s1 ls1 Hl Hi1 Hb1. destruct (queue_read k) as (v & Hv & _ & Hvr & Hvv).
  { eapply shares_in; [apply Hi1|apply Hb1|]. rewrite Hl. apply elem_of_app. right. now left. }
  rewrite Hv. cbn [read_only]. apply (wp_set_bit fb_inv fb_rely fb_refl nv next set_next) with (P := fun s ls => bits_of t own l1 s ls); try done.
  - now intros [].
  - intros s2 l3 Hi2. apply Hi2.
  - intros i s2 l3 s3 l4 [_ Hm] p Hp. apply Hm. lia.
  - intros s2 l3 s3 l4 _. apply bits_of_stable.
  - intros s2 ls2 ([bm ->] & Hbm & Hsub & Hsh) Hb2. exists ls2. cbn [next set_next] in *. split; [|split].
    + split; [now exists (with_bit bm v)|]. cbn [next set_next]. split; [now apply with_bit_ok|]. split; [|done]. intros w Hw. rewrite (with_bit_set nv) by (done || lia).
      intros [->%Z.eqb_eq|Hs]%orb_true_iff; [done|now apply Hsub].
    + intros j Hj. split; [done|]. now apply more_bits_with.
    + intros s3 ls3 Hi3 HR. eapply bits_of_stable; [exact HR|]. split; [apply Hb2|]. cbn [next set_next]. intros k' w [Hk'| ->%list_elem_of_singleton]%elem_of_app Hw Hwr; rewrite (with_bit_set nv) by (done || lia).
      * destruct Hb2 as [_ Hb2]. cbn [next set_next] in Hb2. rewrite (Hb2 k' w) by done. apply orb_true_r.
      * assert (w = v) as -> by congruence. now rewrite Z.eqb_refl.
Qed.

Lemma fill_bitmap_returns :
  returns race (fun s => exists bm, s = set_next bm s0 /\ bm_ok nv bm /\ (forall v, v ∈ frontier s0 -> is_set bm v = true) /\
    forall v, 0 <= v < nv -> is_set bm v = true -> visited (bfs_tree s0) v) (fill_bitmap_from_queue s0).
Proof.
  unfold fill_bitmap_from_queue, omp_each. eapply returns_bind.
  { apply (returns_for race fb_inv fb_rely) with (Q := fun t (_ : unit) s ls => exists own, bits_of t own own s ls).
    - apply fb_refl.
    - apply fb_trans.
    - intros t x s ls s2 ls2 _ HR (own & Hb). exists own. eapply bits_of_stable; eauto.
    - intros ls Hn Hp. exists ls. split; [split; [exists (next s0); now destruct s0|split; [apply Hs0|split; [apply Hs0|done]]]|].
      intros t own Ho s2 ls2 Hi2 [<- _]. eapply wp_mono; [|exact Hi2|now apply fill_thread_wp]. intros u s3 ls3 _ Hb. now exists own. }
  intros [s us] (ls & Hi & Hnu & HQ). cbn [fst snd] in *. destruct Hi as ([bm ->] & Hbm & Hsub & [Hn Hp]). cbn [next set_next] in *. apply returns_ret. exists bm. split; [done|]. split; [done|]. split; [|done].
  intros v [i Hi]%list_elem_of_lookup_1. unfold frontier in Hi. rewrite lookup_drop in Hi. set (k := (Z.to_nat (k1 s0) + i)%nat) in *. pose proof (si_k _ _ Hs0).
  pose proof (queue_length _ _ Hs0) as Hl. pose proof (lookup_lt_Some _ _ _ Hi) as Hlt. assert (Hin : Z.of_nat k ∈ concat ls) by (rewrite Hp; apply elem_of_seqZ; unfold zlen in Hl; lia).
  apply elem_of_concat in Hin as (t & ks & Ht & Hk). destruct (lookup_lt_is_Some_2 us t) as [u Hu]; [apply lookup_lt_Some in Ht; lia|].
  destruct (HQ _ _ Hu) as (own & Ho & Hb). assert (own = ks) as -> by congruence. apply (Hb (Z.of_nat k)); [done| |].
  - apply aread_Ok. split; [lia|]. rewrite Nat2Z.id. unfold queue in Hi. now apply lookup_take_Some in Hi as [Hi _].
  - apply (si_queue _ _ Hs0 v). eapply list_elem_of_lookup_2, Hi.
Qed.
End fill_bitmap.

(** ** Clearing a bitmap *)

Lemma clear_returns s0 :
  bm_ok nv (next s0) ->
  returns race (fun s => exists bm, s = set_next bm s0 /\ bm_ok nv bm /\ forall v, 0 <= v < nv -> is_set bm v = false)
    (omp_each 0 (end_ (next s0)) (fun it => store (fun s => n ← bm_reset_word it (next s); Ok (set_next n s))) s0).
Proof.
  intros Hb. eapply returns_mono; [|apply (returns_each1 race (fun it s => n ← bm_reset_word it (next s); Ok (set_next n s))
    (fun l s => exists bm, s = set_next bm s0 /\ bm_ok nv bm /\ forall k, k ∈ l -> 0 <= k < end_ bm -> at_ (start bm) k = 0))].
  - intros s (l & Hin & bm & -> & Hbm & Hk). exists bm. split_and!; try done. intros v Hv. pose proof (word_in _ _ Hbm v Hv) as Hw. unfold is_set.
    rewrite Hk; [apply Z.bits_0| |done]. apply Hin. rewrite (bm_size _ _ Hb), <- (bm_size _ _ Hbm). done.
  - exists (next s0). split; [now destruct s0|]. split; [done|]. intros k Hk. now apply not_elem_of_nil in Hk.
  - intros l k s Hk (bm & -> & Hbm & Hz). cbn [next set_next]. assert (Hk' : 0 <= k < end_ bm) by (rewrite (bm_size _ _ Hbm), <- (bm_size _ _ Hb); done).
    destruct (reset_word_spec nv bm k Hbm Hk') as [-> Hbm']. cbn [mbind res_bind]. eexists. split; [done|]. eexists. split; [done|]. split; [done|]. cbn [start end_].
    intros j Hj Hjr. rewrite at_insert by (rewrite <- (bm_end _ _ Hbm); done). destruct (decide (j = k)); [done|]. apply Hz; [|done]. apply elem_of_app in Hj as [|Hj%list_elem_of_singleton]; done.
Qed.

(** ** Looking for parents *)

Section parents.
Context (s0 : search) (F : list Z) (L : Z) (d : Z -> Z).
Notation tree0 := (bfs_tree s0).
Context (Hlev : level tree0 F L d) (Hpast : bm_ok nv (past s0)).
(** The bitmap has the frontier; bits of earlier levels may be left in it. *)
Context (Hfront : forall v, v ∈ F -> is_set (past s0) v = true) (Hold : forall v, 0 <= v < nv -> is_set (past s0) v = true -> visited tree0 v).

Record bu_inv (s : search) (ls : list (list Z)) : Prop := {
  bu_frame : exists tr bm, s = set_next bm (set_tree s0 tr);
  bu_len : zlen (bfs_tree s) = zlen tree0;
  bu_keep v : visited tree0 v -> at_ (bfs_tree s) v = at_ tree0 v;
  bu_new v : 0 <= v < nv -> at_ tree0 v = -1 -> visited (bfs_tree s) v -> at_ (bfs_tree s) v ∈ F /\ v ∈ c (at_ (bfs_tree s) v);
  bu_next : bm_ok nv (next s);
  bu_bits v : 0 <= v < nv -> is_set (next s) v = true -> at_ tree0 v = -1 /\ visited (bfs_tree s) v;
  bu_its : shares 0 nv ls }.

Definition bu_rely (t : nat) (s : search) (ls : list (list Z)) (s' : search) (ls' : list (list Z)) : Prop :=
  ls = ls' /\ (forall own v, ls !! t = Some own -> v ∈ own -> at_ (bfs_tree s') v = at_ (bfs_tree s) v) /\ more_bits (next s) (next s').

Lemma bu_refl t s ls : bu_rely t s ls s ls.
Proof. split; [done|]. split; [done|]. intros p. done. Qed.

Lemma bu_trans t s1 l1 s2 l2 s3 l3 : bu_rely t s1 l1 s2 l2 -> bu_rely t s2 l2 s3 l3 -> bu_rely t s1 l1 s3 l3.
Proof. intros (-> & A1 & A2) (-> & B1 & B2). split; [done|]. split; [intros own v Ho Hv; rewrite (B1 own v Ho Hv); eauto|]. intros p Hp Hs. auto. Qed.

Definition new_in (tree : list Z) (v : Z) : Prop := at_ tree0 v = -1 /\ at_ tree v <> -1.
#[local] Instance new_in_dec tree v : Decision (new_in tree v).
Proof. unfold new_in. apply _. Defined.

(** A vertex that has been looked at. *)
Definition seen (s : search) (v : Z) : Prop :=
  at_ tree0 v = -1 -> (visited (bfs_tree s) v /\ is_set (next s) v = true) \/ (at_ (bfs_tree s) v = -1 /\ forall j, j ∈ c v -> j ∉ F).

(** The thread with vertices [own] has looked at [l]. *)
Record looking (t : nat) (own l : list Z) (awake : Z) (s : search) (ls : list (list Z)) : Prop := {
  lk_own : ls !! t = Some own;
  lk_sub v : v ∈ l -> v ∈ own;
  lk_awake : awake = zlen (filter (new_in (bfs_tree s)) l);
  lk_seen v : v ∈ l -> seen s v;
  lk_rest v : v ∈ own -> v ∉ l -> at_ (bfs_tree s) v = at_ tree0 v }.

Lemma new_same tree tree' (l : list Z) : (forall v, v ∈ l -> at_ tree' v = at_ tree v) -> filter (new_in tree) l = filter (new_in tree') l.
Proof. intros H. apply filter_same, Forall_forall. intros v Hv. unfold new_in. now rewrite H. Qed.

Lemma looking_stable t own l awake s ls s' ls' : bu_inv s ls -> bu_rely t s ls s' ls' -> looking t own l awake s ls -> looking t own l awake s' ls'.
Proof.
  intros Hi (<- & Hat & Hm) [H1 H2 H3 H4 H5]. assert (Hl : forall v, v ∈ l -> 0 <= v < nv) by (intros v Hv; eapply shares_in; [apply Hi|exact H1|auto]). split; try done.
  - rewrite H3. f_equal. apply new_same. intros v Hv. eapply Hat; eauto.
  - intros v Hv H0. unfold visited. rewrite (Hat own v) by auto. destruct (H4 v Hv H0) as [[Hvv Hs]|Hn]; [left|right; done]. split; [done|]. apply Hm; [specialize (Hl v Hv); lia|done].
  - intros v Hv Hn. rewrite (Hat own v) by done. now apply H5.
Qed.

(** A vertex with nothing to do, or without a parent in the frontier. *)
Lemma looking_skip t own l awake s ls i :
  i ∈ own -> i ∉ l -> looking t own l awake s ls -> (at_ tree0 i = -1 -> forall j, j ∈ c i -> j ∉ F) -> looking t own (l ++ [i]) awake s ls.
Proof.
  intros Hi Hn [H1 H2 H3 H4 H5] Hno. pose proof (H5 i Hi Hn) as Hat. split; try done.
  - intros v [Hv| ->%list_elem_of_singleton]%elem_of_app; auto.
  - rewrite filter_app, zlen_app, <- H3. rewrite filter_cons, filter_nil. rewrite decide_False; [unfold zlen; simpl; lia|]. unfold new_in. rewrite Hat. tauto.
  - intros v [Hv| ->%list_elem_of_singleton]%elem_of_app; [auto|]. intros H0. right. rewrite Hat. auto.
  - intros v Hv Hnv. apply H5; [done|]. intros Hl. apply Hnv, elem_of_app. now left.
Qed.

(** Its parent is entered, then its bit. *)
Lemma adopt_inv t own l awake s ls i j :
  bu_inv s ls -> looking t own l awake s ls -> i ∈ own -> i ∉ l -> at_ tree0 i = -1 -> j ∈ F -> i ∈ c j ->
  let s' := set_tree s (<[Z.to_nat i := j]> (bfs_tree s)) in
  0 <= i < zlen (bfs_tree s) /\ bu_inv s' ls /\ (forall k, k <> t -> bu_rely k s ls s' ls) /\
  (forall v, at_ (bfs_tree s') v = if decide (v = i) then j else at_ (bfs_tree s) v).
Proof.
  intros Hinv [H1 H2 H3 H4 H5] Hio Hil Hi0 Hj Hji s'. destruct Hinv as [(tr & bm & Hfr) B2 B3 B4 B5 B6 B7].
  assert (Hir : 0 <= i < nv) by (eapply shares_in; eauto). pose proof (lv_len _ _ _ _ _ _ _ Hlev). assert (Hin : 0 <= i < zlen (bfs_tree s)) by lia.
  assert (Hat : forall v, at_ (bfs_tree s') v = if decide (v = i) then j else at_ (bfs_tree s) v) by (intros v; now apply at_insert).
  pose proof (proj1 (lv_front _ _ _ _ _ _ _ Hlev j) Hj) as (Hjr & _ & _). split; [done|]. split; [split|split].
  - exists (<[Z.to_nat i := j]> (bfs_tree s)), (next s). unfold s'. rewrite Hfr. reflexivity.
  - cbn [s' set_tree bfs_tree]. now rewrite zlen_insert.
  - intros v Hv. rewrite Hat, decide_False; [now apply B3|]. intros ->. done.
  - intros v Hv H0 Hvv. unfold visited in Hvv. rewrite Hat in Hvv |- *. destruct (decide (v = i)) as [->|]; [done|]. now apply B4.
  - done.
  - intros v Hv Hb. destruct (B6 v Hv Hb) as [H0 Hvv]. split; [done|]. unfold visited. rewrite Hat. destruct (decide (v = i)); [lia|done].
  - done.
  - intros k Hk. split; [done|]. split; [|intros p; done]. intros own' v Ho' Hv. rewrite Hat, decide_False; [done|]. intros ->. apply Hk.
    symmetry. eapply (concat_disjoint ls); [eapply shares_nodup, B7|exact H1|exact Ho'|done|done].
  - done.
Qed.

(** The parent is in, the bit is not. *)
Record adopted (t : nat) (own l : list Z) (awake i : Z) (s : search) (ls : list (list Z)) : Prop := {
  ad_own : ls !! t = Some own /\ i ∈ own /\ i ∉ l /\ at_ tree0 i = -1;
  ad_sub v : v ∈ l -> v ∈ own;
  ad_awake : awake = zlen (filter (new_in (bfs_tree s)) l);
  ad_seen v : v ∈ l -> seen s v;
  ad_rest v : v ∈ own -> v ∉ l -> v <> i -> at_ (bfs_tree s) v = at_ tree0 v;
  ad_parent : visited (bfs_tree s) i }.

Lemma adopted_stable t own l awake i s ls s' ls' : bu_inv s ls -> bu_rely t s ls s' ls' -> adopted t own l awake i s ls -> adopted t own l awake i s' ls'.
Proof.
  intros Hi (<- & Hat & Hm) [(H1 & Hio & Hil & Hi0) H2 H3 H4 H5 H6].
  assert (Hl : forall v, v ∈ l -> 0 <= v < nv) by (intros v Hv; eapply shares_in; [apply Hi|exact H1|auto]). split; try done.
  - rewrite H3. f_equal. apply new_same. intros v Hv. eapply Hat; eauto.
  - intros v Hv H0. unfold visited. rewrite (Hat own v) by auto. destruct (H4 v Hv H0) as [[Hvv Hs]|Hn]; [left|right; done]. split; [done|]. apply Hm; [specialize (Hl v Hv); lia|done].
  - intros v Hv Hn Hne. rewrite (Hat own v) by done. now apply H5.
  - unfold visited. now rewrite (Hat own i).
Qed.

Lemma adopted_start t own l awake s ls i j :
  looking t own l awake s ls -> i ∈ own -> i ∉ l -> at_ tree0 i = -1 -> 0 <= j ->
  (forall v, at_ (<[Z.to_nat i := j]> (bfs_tree s)) v = if decide (v = i) then j else at_ (bfs_tree s) v) ->
  adopted t own l awake i (set_tree s (<[Z.to_nat i := j]> (bfs_tree s))) ls.
Proof.
  intros [H1 H2 H3 H4 H5] Hio Hil Hi0 Hj Hat. assert (Hl : forall v, v ∈ l -> at_ (<[Z.to_nat i := j]> (bfs_tree s)) v = at_ (bfs_tree s) v).
  { intros v Hv. rewrite Hat, decide_False; [done|]. now intros ->. }
  split; cbn [set_tree bfs_tree next]; try done.
  - rewrite H3. f_equal. now apply new_same.
  - intros v Hv H0. unfold visited. cbn [set_tree bfs_tree next]. rewrite Hl by done. now apply H4.
  - intros v Hv Hn Hne. rewrite Hat, decide_False by done. now apply H5.
  - unfold visited. rewrite Hat, decide_True by done. lia.
Qed.

Lemma adopted_end t own l awake i s ls :
  adopted t own l awake i s ls -> is_set (next s) i = true -> looking t own (l ++ [i]) (awake + 1) s ls.
Proof.
  intros [(H1 & Hio & Hil & Hi0) H2 H3 H4 H5 H6] Hs. split; try done.
  - intros v [Hv| ->%list_elem_of_singleton]%elem_of_app; auto.
  - rewrite filter_app, zlen_app, <- H3. rewrite filter_cons, filter_nil. rewrite decide_True by done. done.
  - intros v [Hv| ->%list_elem_of_singleton]%elem_of_app; [auto|]. intros _. now left.
  - intros v Hv Hn. rewrite elem_of_app, list_elem_of_singleton in Hn. apply H5; tauto.
Qed.

Lemma set_own_bit t own l awake i s ls :
  bu_inv s ls -> adopted t own l awake i s ls -> 0 <= i < nv ->
  wp bu_inv bu_rely t (_ ← bm_set_bit_atomic next set_next i; mret (awake + 1)) (fun a s ls => looking t own (l ++ [i]) a s ls) s ls.
Proof.
  intros Hi Ha Hir. apply wp_bind; [done|].
  apply (wp_set_bit bu_inv bu_rely bu_refl nv next set_next) with (P := fun s ls => bu_inv s ls /\ adopted t own l awake i s ls); try done.
  - now intros [].
  - intros s2 l3 Hi2. apply Hi2.
  - intros k s2 l3 s3 l4 (_ & _ & Hm) p Hp. apply Hm. lia.
  - intros s2 l3 s3 l4 H4 HR [H2 H3]. split; [done|]. eapply adopted_stable; eauto.
  - intros s2 ls2 Hi2 [_ Ha2]. exists ls2. pose proof (bu_next _ _ Hi2) as Hbm. assert (Hset : forall v, 0 <= v -> is_set (with_bit (next s2) i) v = (v =? i) || is_set (next s2) v) by (intros; now apply (with_bit_set nv)).
    assert (Hi2' : bu_inv (set_next (with_bit (next s2) i) s2) ls2).
    { destruct Hi2 as [(tr & bm & ->) B2 B3 B4 B5 B6 B7]. split; try done; cbn [next set_next bfs_tree] in *.
      - now eexists _, _.
      - now apply with_bit_ok.
      - intros v Hv. rewrite Hset by lia. intros [->%Z.eqb_eq|Hs]%orb_true_iff; [|now apply B6]. destruct Ha2 as [(_ & _ & _ & H0) _ _ _ _ Hp]. done. }
    split; [done|]. split.
    + intros j Hj. split; [done|]. split; [done|]. now apply more_bits_with.
    + intros s3 ls3 Hi3 HR. eapply looking_stable; [exact Hi2'|exact HR|]. apply adopted_end.
      * destruct Ha2 as [A1 A2 A3 A4 A5 A6]. split; try done. intros v Hv H0. destruct (A4 v Hv H0) as [[Hvv Hs]|Hn]; [left|right; done]. split; [done|]. cbn [next set_next].
        rewrite Hset; [rewrite Hs; apply orb_true_r|]. destruct A1 as (Ho & _). pose proof (shares_in _ _ _ _ _ v (bu_its _ _ Hi2) Ho (A2 v Hv)). lia.
      * cbn [next set_next]. rewrite Hset by lia. now rewrite Z.eqb_refl.
Qed.

Lemma find_parent_wp t own l awake i m n s ls :
  m = (length (c i) - n)%nat -> (n <= length (c i))%nat ->
  bu_inv s ls -> looking t own l awake s ls -> i ∈ own -> i ∉ l -> at_ tree0 i = -1 -> (forall j, j ∈ take n (c i) -> j ∉ F) ->
  wp bu_inv bu_rely t (find_parent g i (seqZ (offz i + Z.of_nat n) (Z.of_nat m)) awake) (fun a s ls => looking t own (l ++ [i]) a s ls) s ls.
Proof.
  revert n s ls. induction m as [|m IH]; intros n s ls Hm Hn Hi Hl Hio Hil Hi0 Hno.
  { apply looking_skip; try done. intros _ j Hj. apply Hno. now rewrite take_ge by lia. }
  assert (Hir : 0 <= i < nv) by (eapply shares_in; [apply Hi|apply Hl|done]).
  destruct (lookup_lt_is_Some_2 (c i) n) as [j Hj]; [lia|]. assert (Hjc : j ∈ c i) by (eapply list_elem_of_lookup_2, Hj).
  pose proof (c_range IJ xo st c Hok i j Hir Hjc) as Hjr. pose proof (c_sym IJ xo st c Hok i j Hir Hjc) as Hsym.
  rewrite seqZ_cons by lia. cbn [find_parent SeqCsr.xadjstore]. rewrite (read_row IJ xo st c Hok i n j Hir Hj). cbn [read_only]. apply wp_bind; [done|].
  assert (Hps : forall s ls, bu_inv s ls -> past s = past s0) by (intros s1 ls1 Hi1; destruct (bu_frame _ _ Hi1) as (tr & bm & ->); done).
  destruct (get_bit_spec nv (past s0) Hpast j Hjr) as (b & Hb & Hbit). eapply wp_load; [apply bu_refl|done|rewrite (Hps s ls Hi); exact Hb|]. intros s1 ls1 Hi1 HR1.
  pose proof (looking_stable _ _ _ _ _ _ _ _ Hi HR1 Hl) as Hl1. rewrite Hbit, negb_involutive. destruct (is_set (past s0) j) eqn:Es.
  - assert (HjF : j ∈ F) by (apply (level_gap nv root c tree0 F L d j i Hlev); auto).
    destruct (adopt_inv t own l awake s1 ls1 i j Hi1 Hl1 Hio Hil Hi0 HjF Hsym) as (Hin & Hi' & HR' & Hat). apply wp_bind; [done|].
    eapply wp_store; [rewrite awrite_in_bounds by done; done|exact Hi'|exact HR'|]. intros s2 ls2 Hi2 HR2. apply set_own_bit; [done| |done].
    eapply adopted_stable; [exact Hi'|exact HR2|]. apply adopted_start; try done. lia.
  - replace (Z.succ (offz i + Z.of_nat n)) with (offz i + Z.of_nat (S n)) by lia. replace (Z.pred (Z.of_nat (S m))) with (Z.of_nat m) by lia. apply IH; try done; try lia.
    intros j' Hj'. rewrite (take_S_r _ _ _ Hj) in Hj'. apply elem_of_app in Hj' as [Hj'| ->%list_elem_of_singleton]; [now apply Hno|]. intros HF. apply Hfront in HF. congruence.
Qed.

Lemma bottom_up_vertex_wp t own l awake i s ls :
  bu_inv s ls -> looking t own l awake s ls -> i ∈ own -> i ∉ l ->
  wp bu_inv bu_rely t (bottom_up_vertex g i awake) (fun a s ls => looking t own (l ++ [i]) a s ls) s ls.
Proof.
  intros Hi Hl Hio Hil. assert (Hir : 0 <= i < nv) by (eapply shares_in; [apply Hi|apply Hl|done]). pose proof (lv_len _ _ _ _ _ _ _ Hlev).
  unfold bottom_up_vertex. apply wp_bind; [done|]. eapply wp_load; [apply bu_refl|done|apply at_read; rewrite (bu_len _ _ Hi); lia|].
  rewrite (lk_rest _ _ _ _ _ _ Hl i Hio Hil). intros s1 ls1 Hi1 HR1. pose proof (looking_stable _ _ _ _ _ _ _ _ Hi HR1 Hl) as Hl1.
  destruct (Z.eqb_spec (at_ tree0 i) (-1)) as [H0|H0].
  - cbn [SeqCsr.xoff]. rewrite (read_xoff IJ xo st c Hok), (read_xendoff IJ xo st c Hok) by lia. cbn [read_only].
    replace (offz i) with (offz i + Z.of_nat 0) at 1 by lia. replace (offz i + zlen (c i) - offz i) with (Z.of_nat (length (c i) - 0)) by (unfold zlen; lia).
    apply find_parent_wp; try done; try lia. intros j Hj. now apply not_elem_of_nil in Hj.
  - apply looking_skip; try done.
Qed.

Lemma bottom_up_thread_wp t own s ls :
  bu_inv s ls -> ls !! t = Some own -> (forall v, v ∈ own -> at_ (bfs_tree s) v = at_ tree0 v) ->
  wp bu_inv bu_rely t (pfor own (bottom_up_vertex g) 0) (fun a s ls => looking t own own a s ls) s ls.
Proof.
  intros Hi Ho H0. apply (wp_pfor bu_inv bu_rely t own _ (fun l a s ls => looking t own l a s ls)); [done| |].
  - split; try done; intros v Hv; try (now apply not_elem_of_nil in Hv). auto.
  - intros l1 i l2 a s1 ls1 Hl Hi1 Hl1. apply bottom_up_vertex_wp; [done|done| |]; [rewrite Hl; apply elem_of_app; right; now left|].
    pose proof (concat_nodup _ _ _ (shares_nodup _ _ _ (bu_its _ _ Hi1)) (lk_own _ _ _ _ _ _ Hl1)) as Hnd. rewrite Hl in Hnd. apply NoDup_app in Hnd as (_ & Hd & _).
    intros Hin. apply (Hd i Hin). now left.
Qed.

Lemma sum_filter (P : Z -> Prop) `{!forall x, Decision (P x)} (ls : list (list Z)) (counts : list Z) :
  length counts = length ls -> (forall t a, counts !! t = Some a -> exists l, ls !! t = Some l /\ a = zlen (filter P l)) -> sum counts = zlen (filter P (concat ls)).
Proof.
  revert counts. induction ls as [|l ls IH]; intros [|a counts] Hlen HQ; try done. cbn [sum foldr concat]. rewrite filter_app, zlen_app. f_equal.
  - destruct (HQ 0%nat a eq_refl) as (l' & [= <-] & ->). done.
  - apply IH; [simpl in Hlen; lia|]. intros t b Hb. now apply (HQ (S t) b).
Qed.

(** The loop: exactly the vertices next to the frontier enter the tree and the bitmap. *)
Lemma bottom_up_loop_returns :
  bm_ok nv (next s0) -> (forall v, 0 <= v < nv -> is_set (next s0) v = false) ->
  returns race (fun r => exists tr bm N, r.1 = set_next bm (set_tree s0 tr) /\ stepped tree0 F tr N /\ NoDup N /\ sum r.2 = zlen N /\
    bm_ok nv bm /\ forall v, 0 <= v < nv -> is_set bm v = true <-> v ∈ N)
    (omp_for 0 nv (fun _ vs => pfor vs (bottom_up_vertex g) 0) s0).
Proof.
  intros Hb0 Hz0. eapply returns_mono; [|apply (returns_for race bu_inv bu_rely) with (Q := fun t a s ls => bu_inv s ls /\ exists own, looking t own own a s ls)].
  - intros [s counts] (ls & Hi & Hn & HQ). cbn [fst snd] in *. pose proof (bu_frame _ _ Hi) as (tr & bm & ->). exists tr, bm, (filter (new_in tr) (seqZ 0 nv)).
    destruct Hi as [_ B2 B3 B4 B5 B6 [B7 B8]]. cbn [bfs_tree next set_next set_tree] in *.
    assert (Hall : forall v, 0 <= v < nv -> seen (set_next bm (set_tree s0 tr)) v).
    { intros v Hv. assert (Hin : v ∈ concat ls) by (rewrite B8; apply elem_of_seqZ; lia). apply elem_of_concat in Hin as (t & own & Ht & Hvo).
      destruct (lookup_lt_is_Some_2 counts t) as [a Ha]; [apply lookup_lt_Some in Ht; lia|]. destruct (HQ _ _ Ha) as (_ & own' & Hl). assert (own' = own) as -> by (pose proof (lk_own _ _ _ _ _ _ Hl); congruence).
      now apply (lk_seen _ _ _ _ _ _ Hl). }
    assert (HN : forall v, v ∈ filter (new_in tr) (seqZ 0 nv) <-> 0 <= v < nv /\ at_ tree0 v = -1 /\ visited tr v).
    { intros v. rewrite list_elem_of_filter, elem_of_seqZ. unfold new_in, visited. rewrite Z.add_0_l. tauto. }
    split; [done|]. split; [split; try done|].
    + intros v Hv. rewrite HN in Hv. destruct Hv as (Hv & H0 & Hvv). now apply B4.
    + intros u w Hu Hw. pose proof (proj1 (lv_front _ _ _ _ _ _ _ Hlev u) Hu) as (Hur & _). pose proof (c_range IJ xo st c Hok u w Hur Hw) as Hwr. intros Hun.
      destruct (decide (at_ tree0 w = -1)) as [H0|H0]; [|rewrite B3 in Hun by done; done]. destruct (Hall w Hwr H0) as [[Hv _]|[_ Hno]]; cbn [bfs_tree set_next set_tree] in *; [done|].
      apply (Hno u); [now apply (c_sym IJ xo st c Hok u w)|done].
    + split; [apply NoDup_filter, NoDup_seqZ|]. split; [|split; [done|]].
      * rewrite (sum_filter (new_in tr) ls counts); [|lia|].
        -- unfold zlen. rewrite Z.sub_0_r in B8. now rewrite B8.
        -- intros t a Ha. destruct (HQ _ _ Ha) as (_ & own & Hl). exists own. split; [apply Hl|apply (lk_awake _ _ _ _ _ _ Hl)].
      * intros v Hv. rewrite HN. split; [intros Hs; split; [done|now apply B6]|]. intros (_ & H0 & Hvv). destruct (Hall v Hv H0) as [[_ Hs]|[Hun _]]; [done|]. cbn [bfs_tree set_next set_tree] in Hun. done.
  - apply bu_refl.
  - apply bu_trans.
  - intros t a s ls s2 ls2 Hi2 HR [Hi (own & Hl)]. split; [done|]. exists own. eapply looking_stable; eauto.
  - intros ls Hn Hp. exists ls. assert (Hi0 : bu_inv s0 ls).
    { split; try done; [exists tree0, (next s0); now destruct s0|intros v Hv Hs; now rewrite Hz0 in Hs]. }
    split; [done|]. intros t own Ho s2 ls2 Hi2 HR. pose proof HR as (<- & Hat & _). eapply wp_mono; [|exact Hi2|apply bottom_up_thread_wp; [done|exact Ho|]].
    + intros a s3 ls3 Hi3 Hl3. split; [done|]. now exists own.
    + intros v Hv. eapply Hat; eauto.
Qed.
End parents.

Lemma bottom_up_step_returns s F L d :
  level (bfs_tree s) F L d -> bm_ok nv (past s) -> bm_ok nv (next s) ->
  (forall v, v ∈ F -> is_set (next s) v = true) -> (forall v, 0 <= v < nv -> is_set (next s) v = true -> visited (bfs_tree s) v) ->
  returns race (fun '(s', awake) => vlist s' = vlist s /\ bm_ok nv (past s') /\ bm_ok nv (next s') /\
    exists N, stepped (bfs_tree s) F (bfs_tree s') N /\ NoDup N /\ awake = zlen N /\ forall v, 0 <= v < nv -> is_set (next s') v = true <-> v ∈ N)
    (bfs_bottom_up_step g s).
Proof.
  intros Hlev Hp Hn HF Hv. unfold bfs_bottom_up_step, bm_swap. cbv beta iota zeta. eapply returns_bind; [apply clear_returns; exact Hp|].
  intros s1 (bm & -> & Hbm & Hz). eapply returns_bind; [apply (bottom_up_loop_returns (set_awake (set_next bm (set_next (past s) (set_past s (next s)))) 0) F L d Hlev Hn HF Hv Hbm Hz)|].
  intros [s2 counts] (tr & bm2 & N & Hs2 & Hst & Hnd & Hsum & Hbm2 & Hbits). cbn [fst snd] in *. subst s2. apply returns_ret.
  split; [done|]. split; [done|]. split; [done|]. exists N. split; [done|]. split; [done|]. split; [exact Hsum|done].
Qed.

(** ** Back to a list *)

Section fill_queue.
Context (s0 : search) (Hbm : bm_ok nv (next s0)) (Hnv : nv < 2 ^ 31) (Hvl : zlen (vlist s0) = nv).
Notation bm := (next s0).
Notation nt := (Z.of_nat num_threads).

(** The positions of the set from [a] on, below [e]. *)
Definition bits_in (a e : Z) : list Z := filter (fun v => is_set bm v = true) (seqZ a (e - a)).

Lemma bits_in_nil a e : (forall v, a <= v < e -> is_set bm v = false) -> bits_in a e = [].
Proof.
  intros H. destruct (bits_in a e) as [|v l] eqn:E; [done|]. assert (Hv : v ∈ bits_in a e) by (rewrite E; now left).
  unfold bits_in in Hv. apply list_elem_of_filter in Hv as [Hs Hv%elem_of_seqZ]. rewrite H in Hs by lia. done.
Qed.

Lemma bits_in_app a b e : a <= b <= e -> bits_in a e = bits_in a b ++ bits_in b e.
Proof.
  intros Hab. unfold bits_in. rewrite <- filter_app. f_equal. replace (e - a) with ((b - a) + (e - b)) by lia. rewrite seqZ_app by lia. f_equal. f_equal. lia.
Qed.

Lemma bits_in_one a : bits_in a (a + 1) = if is_set bm a then [a] else [].
Proof.
  unfold bits_in. replace (a + 1 - a) with 1 by lia. rewrite seqZ_cons by lia. change (Z.pred 1) with 0. rewrite filter_cons. change (seqZ (Z.succ a) 0) with (@nil Z). rewrite filter_nil.
  destruct (is_set bm a); [now rewrite decide_True|now rewrite decide_False].
Qed.

(** What the loop has still to see, at the position [r] that the search gave. *)
Definition still (r e : Z) : list Z := if negb (r =? -1) && (r <? e) then r :: bits_in (r + 1) e else [].

Lemma bits_in_next p r e : next_ok bm p r -> 0 <= p -> e <= nv -> bits_in (p + 1) e = still r e.
Proof.
  intros Hr Hp He. assert (Hend : nv <= 64 * end_ bm) by (rewrite (bm_size _ _ Hbm); dlia). unfold still. destruct Hr as [[-> Hno]|(Hr & Hs & Hno)].
  - cbn [Z.eqb negb andb]. apply bits_in_nil. intros v Hv. apply Hno. lia.
  - destruct (Z.eqb_spec r (-1)); [lia|]. cbn [negb andb]. destruct (Z.ltb_spec r e).
    + rewrite (bits_in_app (p + 1) r e), (bits_in_app r (r + 1) e), bits_in_one, Hs by lia. rewrite bits_in_nil; [done|]. intros v Hv. apply Hno. lia.
    + apply bits_in_nil. intros v Hv. apply Hno. lia.
Qed.

Definition npt : Z := Z.quot (nv + nt - 1) nt.
Definition part (t : Z) : Z := Z.min nv (npt * t).

Lemma npt_spec : 0 <= npt /\ nv <= npt * nt.
Proof.
  pose proof (nt_pos). pose proof (nv_pos IJ). unfold npt. rewrite Z.quot_div_nonneg by lia. pose proof (Z.div_mod (nv + nt - 1) nt). pose proof (Z.mod_pos_bound (nv + nt - 1) nt).
  split; [apply Z.div_pos; lia|]. nia.
Qed.

Lemma parts_concat n : (n <= num_threads)%nat -> concat ((fun t => bits_in (part (Z.of_nat t)) (part (Z.of_nat t + 1))) <$> seq 0 n) = bits_in 0 (part (Z.of_nat n)).
Proof.
  destruct npt_spec as [Hn0 Hn1]. pose proof (nv_pos IJ). induction n as [|n IH]; intros Hn.
  - unfold part. rewrite bits_in_nil; [done|]. intros v Hv. lia.
  - rewrite seq_S, fmap_app, concat_app, IH by lia. cbn [fmap list_fmap concat Nat.add]. rewrite app_nil_r. replace (Z.of_nat (S n)) with (Z.of_nat n + 1) by lia.
    rewrite <- bits_in_app; [done|]. unfold part. nia.
Qed.

Lemma part_end : part nt = nv.
Proof. destruct npt_spec. unfold part. lia. Qed.

Notation all := (bits_in 0 nv).
Notation s1 := (set_k2 (set_k1 s0 0) 0).

Definition queueing (s : search) (gh : qghost) : Prop := (exists l k, s = set_k2 (set_vlist s1 l) k) /\ found gh = all.
Definition anything (_ : nat) (_ : search) (_ : qghost) (_ : search) (_ : qghost) : Prop := True.
Notation I := (qI nv [] queueing).
Notation R := (qR anything).

Lemma queueing_move s gh l k r p : queueing s gh -> queueing (set_k2 (set_vlist s l) k) (set_rem gh r p).
Proof. intros [(l' & k' & ->) Hf]. split; [now exists l, k|done]. Qed.

Lemma wp_flush_queue t buf r n s gh :
  n = zlen buf -> I s gh -> holding t (buf ++ r) gh -> wp I R t (flush_int buf n) (fun _ _ gh => holding t r gh) s gh.
Proof.
  intros Hn Hi Hh. eapply wp_mono; [|exact Hi|apply (wp_flush_int nv [] queueing anything queueing_move (fun _ _ _ _ _ _ _ => Logic.I) t (fun _ _ => True)) with (r := r); done].
  intros u s2 g2 _ [Hh2 _]. exact Hh2.
Qed.

Lemma queue_bits_wp t fuel i e local s gh :
  e <= nv -> (-1 <= i) -> (0 <= i < e -> e - i < Z.of_nat fuel) -> (0 < fuel)%nat -> zlen local < THREAD_BUF_LEN -> I s gh -> holding t (local ++ still i e) gh ->
  wp I R t (queue_bits fuel bm i e local) (fun local _ gh => holding t local gh) s gh.
Proof.
  intros He. revert i local s gh. induction fuel as [|fuel IH]; intros i local s gh Hi0 Hf Hf0 Hl Hi Hh; [lia|]. cbn [queue_bits]. unfold still in Hh.
  destruct (negb (i =? -1) && (i <? e)) eqn:Ec; [|now rewrite app_nil_r in Hh]. apply andb_true_iff in Ec as [Ei%negb_true_iff%Z.eqb_neq Ee%Z.ltb_lt].
  unfold push. destruct (Z.ltb_spec (zlen local) THREAD_BUF_LEN); [|lia]. cbn [read_only].
  destruct (next_bit_spec nv bm Hbm i) as (r & Hr & Hok'); [lia|lia|]. rewrite Hr. cbn [read_only]. rewrite (bits_in_next i r e Hok') in Hh by lia.
  rewrite (cons_middle i local (still r e)), app_assoc in Hh. assert (Hr1 : -1 <= r) by (destruct Hok' as [[-> _]|(? & _)]; lia).
  assert (Hfr : 0 <= r < e -> e - r < Z.of_nat fuel) by (destruct Hok' as [[-> _]|(? & _)]; lia).
  apply wp_bind; [done|]. destruct (Z.eqb_spec (zlen (local ++ [i])) THREAD_BUF_LEN) as [Hfull|Hroom].
  - apply wp_bind; [done|]. eapply wp_mono; [|exact Hi|apply wp_flush_queue; [done|done|exact Hh]]. intros u s2 g2 Hi2 Hh2. simpl. apply IH; [done|done|lia|done|done|exact Hh2].
  - simpl. rewrite zlen_app in Hroom. change (zlen [i]) with 1 in Hroom. apply IH; [done|done|lia|rewrite zlen_app; change (zlen [i]) with 1; lia|done|exact Hh].
Qed.

Lemma queue_thread_wp t s gh :
  (t < num_threads)%nat -> I s gh -> holding t (bits_in (part (Z.of_nat t)) (part (Z.of_nat t + 1))) gh ->
  wp I R t (queue_thread nv bm (Z.of_nat t)) (fun _ _ gh => holding t [] gh) s gh.
Proof.
  intros Ht Hi Hh. destruct npt_spec as [Hn0 Hn1]. pose proof (nv_pos IJ). unfold queue_thread. change (Z.quot (nv + nt - 1) nt) with npt. set (i := npt * Z.of_nat t) in *.
  apply wp_bind; [done|].
  assert (Hend : forall s gh, I s gh -> forall local, holding t local gh -> wp I R t (flush_int local (zlen local)) (fun _ _ gh => holding t [] gh) s gh).
  { intros s2 g2 Hi2 local Hh2. apply wp_flush_queue; [done|done|]. now rewrite app_nil_r. }
  assert (Hi0 : 0 <= i) by (unfold i; nia). destruct (Z.ltb_spec i nv) as [Hlt|Hge].
  - assert (Hlo : part (Z.of_nat t) = i) by (unfold part; fold i; lia). assert (Hhi : part (Z.of_nat t + 1) = if nv <=? i + npt then nv else i + npt).
    { unfold part. replace (npt * (Z.of_nat t + 1)) with (i + npt) by (unfold i; lia). destruct (Z.leb_spec nv (i + npt)); lia. }
    rewrite Hlo, Hhi in Hh. set (e := if nv <=? i + npt then nv else i + npt) in *.
    assert (He : i < e <= nv) by (unfold e; destruct (Z.leb_spec nv (i + npt)); [lia|]; assert (npt <> 0); [|lia]; intros Hz; rewrite Hz in Hn1; lia).
    destruct (get_bit_spec nv bm Hbm i) as (b & -> & Hb); [lia|]. cbn [read_only]. rewrite Hb, negb_involutive.
    destruct (next_bit_spec nv bm Hbm i) as (r & Hr & Hok'); [lia|lia|]. assert (Hr1 : -1 <= r) by (destruct Hok' as [[-> _]|(? & _)]; lia).
    rewrite (bits_in_app i (i + 1) e), bits_in_one, (bits_in_next i r e Hok') in Hh by lia.
    assert (Hgo : forall local, zlen local < THREAD_BUF_LEN -> holding t (local ++ still r e) gh ->
      wp I R t (read_only (bm_get_next_bit bm i) (fun i' => queue_bits (S (Z.to_nat nv)) bm i' e local)) (fun a => wp I R t (flush_int a (zlen a)) (fun _ _ gh => holding t [] gh)) s gh).
    { intros local Hl Hh'. rewrite Hr. cbn [read_only]. eapply wp_mono; [|exact Hi|apply (queue_bits_wp t _ r e local); [lia|done|lia|lia|done|done|exact Hh']]. intros a s2 g2 Hi2 Hh2. now apply Hend. }
    destruct (is_set bm i); [unfold push; change (zlen [] <? THREAD_BUF_LEN) with true|]; cbn [read_only app]; apply Hgo; done.
  - simpl. apply Hend; [done|]. assert (part (Z.of_nat t) = nv) as Hlo by (unfold part; fold i; lia). rewrite Hlo in Hh.
    rewrite bits_in_nil in Hh; [done|]. intros v Hv. unfold part in Hv. lia.
Qed.

Lemma fill_queue_returns :
  returns race (fun s => (exists l k, s = set_k2 (set_vlist s1 l) k) /\ zlen (vlist s) = nv /\ k2 s = zlen all /\ queue s ≡ₚ all) (fill_queue_from_bitmap nv s0).
Proof.
  unfold fill_queue_from_bitmap. eapply returns_bind.
  { apply (returns_parallel race I R) with (Q := fun t (_ : unit) _ gh => holding t [] gh).
    - intros t s gh. now apply qR_refl.
    - intros t sa ga sb gb sc gc. now apply qR_trans.
    - intros t x s gh s2 g2 _ HR. now apply (holding_stable anything t [] s gh s2 g2).
    - intros tone Hone. set (rem0 := (fun t => bits_in (part (Z.of_nat t)) (part (Z.of_nat t + 1))) <$> seq 0 num_threads).
      exists (QGhost rem0 ∅ all [] tone). split; [split|].
      + split; cbn [rem pend found].
        * unfold rem0. now rewrite length_fmap, length_seq.
        * intros p t x. now rewrite lookup_empty.
        * done.
        * done.
        * exists []. split; [done|]. split; [done|]. unfold rem0. rewrite parts_concat, part_end by lia. done.
        * apply NoDup_filter, NoDup_seqZ.
        * intros v. simpl. unfold bits_in. rewrite list_elem_of_filter, elem_of_seqZ. lia.
      + split; [|done]. exists (vlist s0), 0. done.
      + intros t Ht s2 g2 Hi2 HR. assert (Hnx : next s2 = bm) by (destruct Hi2 as [_ [(l & k & ->) _]]; done). apply queue_thread_wp; [done|done|].
        eapply holding_stable; [exact HR|]. split; cbn [rem pend]; [|intros p x; now rewrite lookup_empty]. unfold rem0. rewrite list_lookup_fmap, lookup_seq_lt by done. done. }
  intros [s us] (gh & [Hq [Hfr Hall]] & Hn & HQ). cbn [fst snd] in *. apply returns_ret.
  destruct (qinv_end nv [] s gh Hq) as (W & HW & Hk2 & HWp); [intros t Ht; destruct (lookup_lt_is_Some_2 us t) as [u Hu]; [lia|]; exact (HQ _ _ Hu)|].
  rewrite Hall in HWp. split; [done|]. split; [apply Hq|]. split.
  - rewrite Hk2. unfold zlen. rewrite HWp. simpl. lia.
  - unfold queue. rewrite HW. done.
Qed.
End fill_queue.
End bottom.
