(* ===== verification/OmpCsrProofs.v ===== *)
(** The search of omp-csr.c as a whole: either the threads of the team take different ways,
    because [scout_count] is reset while some have still to read it, or the result is a
    breadth-first tree. *)
From stdpp Require Import base numbers list gmap sorting.
From Stdlib Require Import ZArith Lia.
From S2P Require Import Prelude Kronecker Graph500 Graph SeqCsrProofs Omp OmpBitmap OmpBitmapProofs OmpCsr OmpCsrBuild OmpLevels OmpQueue OmpCsrSearch OmpCsrBottom.
Import Plain OmpCsr.
Open Scope Z_scope.

Section main.
Context (race : Prop) `{OM : Omp, !OmpLaws OM} (IJ : list packed_edge).
Notation nv := (maxv IJ + 1).
Context (xo st : list Z) (c : Z -> list Z) (Hok : csr_ok IJ xo st c) (root : Z).
Notation g := (SeqCsr.Csr (maxv IJ) nv xo st).
Notation offz k := (off IJ (Z.to_nat k)).
Notation level := (level nv root c).
Notation stepped := (stepped nv c).
Notation sinv := (sinv IJ).
Notation missing := (missing nv).

Lemma frontier_length s : sinv s -> zlen (frontier s) = k2 s - k1 s.
Proof.
  intros Hs. pose proof (queue_length _ _ Hs) as Hl. pose proof (si_k _ _ Hs). unfold frontier, zlen in *. rewrite length_drop. lia.
Qed.

Lemma frontier_nodup s : sinv s -> NoDup (frontier s).
Proof. intros Hs. unfold frontier. eapply sublist_NoDup; [apply Hs|apply sublist_drop]. Qed.

(** What is left to find, and whether anything was found last. *)
Definition flag (awake : Z) : nat := if awake =? 0 then 0%nat else 1%nat.
Definition weight (tree : list Z) (awake : Z) : nat := (missing tree + flag awake)%nat.

Lemma weight_step tree F tree' N awake :
  stepped tree F tree' N -> awake = zlen N -> (weight tree' awake < missing tree + 1)%nat.
Proof.
  intros Hs ->. unfold weight, flag. destruct N as [|v N]; [pose proof (missing_le _ _ _ _ _ _ Hs); simpl; lia|].
  pose proof (missing_less _ _ _ _ _ _ Hs ltac:(done)). rewrite zlen_cons. pose proof (zlen_nonneg N). destruct (Z.eqb_spec (1 + zlen N) 0); lia.
Qed.

(** ** Bottom up *)

(** Between two steps bottom up the frontier is in [next] only. *)
Definition lurking (s0 : search) (r : search * Z) : Prop :=
  let '(s, awake) := r in
  zlen (vlist s) = nv /\ bm_ok nv (past s) /\ bm_ok nv (next s) /\ (weight (bfs_tree s) awake < missing (bfs_tree s0) + 1)%nat /\
  exists N L d, level (bfs_tree s) N L d /\ NoDup N /\ awake = zlen N /\ forall v, 0 <= v < nv -> is_set (next s) v = true <-> v ∈ N.

Lemma lurking_step s0 s F L d :
  zlen (vlist s) = nv -> level (bfs_tree s) F L d -> bm_ok nv (past s) -> bm_ok nv (next s) ->
  (forall v, v ∈ F -> is_set (next s) v = true) -> (forall v, 0 <= v < nv -> is_set (next s) v = true -> visited (bfs_tree s) v) ->
  (missing (bfs_tree s) <= missing (bfs_tree s0))%nat ->
  returns race (fun r => lurking s0 r /\ (weight (bfs_tree r.1) r.2 < missing (bfs_tree s) + 1)%nat) (bfs_bottom_up_step g s).
Proof.
  intros Hvl Hlev Hp Hn HF Hv Hm. eapply returns_mono; [|exact (bottom_up_step_returns race IJ xo st c Hok root s F L d Hlev Hp Hn HF Hv)].
  intros [s' awake] (Hvl' & Hp' & Hn' & N & Hst & Hnd & Haw & Hbits). pose proof (weight_step _ _ _ _ _ Hst Haw). split; [|done].
  split; [now rewrite Hvl'|]. split; [done|]. split; [done|]. split; [lia|]. exists N, (L + 1), (fun v => if decide (v ∈ N) then L + 1 else d v). split_and!; try done.
  eapply level_step; [apply (c_range IJ xo st c Hok)|exact Hlev|exact Hst].
Qed.

(** After a way bottom up, as after a step top down. *)
Definition advanced (s0 s : search) (awake : Z) : Prop :=
  sinv s /\ (exists L d, level (bfs_tree s) (frontier s) L d) /\ awake = zlen (frontier s) /\ (weight (bfs_tree s) awake < missing (bfs_tree s0) + 1)%nat.

Lemma queued_advanced s0 s s' awake l k n :
  lurking s0 (s, awake) -> s' = set_scout (set_k2 (set_vlist (set_k2 (set_k1 s 0) 0) l) k) n -> zlen (vlist s') = nv -> k2 s' = zlen (bits_in s 0 nv) -> queue s' ≡ₚ bits_in s 0 nv ->
  advanced s0 s' awake.
Proof.
  intros (_ & Hp & Hn & Hw & N & L & d & Hlev & Hnd & Haw & Hbits) Hs' Hvl Hk Hq.
  assert (Hin : forall v, v ∈ bits_in s 0 nv <-> v ∈ N).
  { intros v. unfold bits_in. rewrite list_elem_of_filter, elem_of_seqZ. split; [intros [Hs Hv]; apply Hbits; [lia|done]|].
    intros HvN. pose proof (proj1 (lv_front _ _ _ _ _ _ _ Hlev v) HvN) as (Hv & _). split; [now apply Hbits|lia]. }
  assert (HN : bits_in s 0 nv ≡ₚ N) by (apply NoDup_Permutation; [apply NoDup_filter, NoDup_seqZ|done|done]).
  assert (Hfr : frontier s' = queue s') by (unfold frontier; rewrite Hs'; done). assert (Htree : bfs_tree s' = bfs_tree s) by (now rewrite Hs').
  assert (Hmem : forall v, v ∈ queue s' <-> v ∈ N) by (intros v; rewrite Hq; apply Hin).
  assert (Hvis : forall v, v ∈ N -> 0 <= v < nv /\ visited (bfs_tree s) v) by (intros v Hv; now apply (lv_front _ _ _ _ _ _ _ Hlev) in Hv).
  assert (Hk1 : k1 s' = 0) by (now rewrite Hs'). assert (Hpn : past s' = past s /\ next s' = next s) by (now rewrite Hs'). destruct Hpn as [Hpe Hne].
  split; [split|split; [|split]].
  - done.
  - rewrite Hk1, Hk. pose proof (zlen_nonneg (bits_in s 0 nv)). lia.
  - rewrite Hk. assert (zlen (bits_in s 0 nv) <= Z.max 0 nv) by (apply nodup_below; [apply NoDup_filter, NoDup_seqZ|intros v Hv; now apply Hvis, Hin]). pose proof (nv_pos IJ). lia.
  - rewrite Hq. apply NoDup_filter, NoDup_seqZ.
  - intros v Hv. rewrite Htree. now apply Hvis, Hmem.
  - now rewrite Hpe.
  - now rewrite Hne.
  - intros v Hv Hs. rewrite Htree. apply Hvis. apply Hbits; [done|]. now rewrite <- Hne.
  - exists L, d. rewrite Htree, Hfr. eapply level_ext; [exact Hlev|]. intros v. symmetry. apply Hmem.
  - rewrite Hfr, Haw. unfold zlen. now rewrite Hq, HN.
  - now rewrite Htree.
Qed.

Lemma bottom_up_returns s cutoff L d :
  nv < 2 ^ 31 -> 0 <= cutoff -> sinv s -> level (bfs_tree s) (frontier s) L d ->
  returns race (fun '(s', awake) => advanced s s' awake) (bottom_up g cutoff s).
Proof.
  intros Hnv Hcut Hs Hlev. unfold bottom_up. eapply returns_bind; [apply (fill_bitmap_returns race IJ s Hs)|]. intros s1 (bm & -> & Hbm & HF & Hv).
  eapply returns_bind; [apply (lurking_step s (set_next bm s) (frontier s) L d); [apply Hs|done|apply Hs|done|done|done|done]|]. intros r [Hr _].
  eapply returns_bind.
  - apply (returns_while race (lurking s) (fun '(s, awake) => weight (bfs_tree s) awake)); [done| |].
    + destruct r as [s2 awake]. destruct Hr as (_ & _ & _ & Hw & _). pose proof (missing_max nv (bfs_tree s)). cbn [SeqCsr.nv]. lia.
    + intros [s2 awake] Hr2. left. eexists. split; [done|]. intros Hgo%Z.ltb_lt. destruct Hr2 as (Hvl2 & Hp2 & Hn2 & Hw2 & N & L2 & d2 & Hlev2 & Hnd2 & Haw2 & Hb2).
      assert (Hflag : weight (bfs_tree s2) awake = (missing (bfs_tree s2) + 1)%nat) by (unfold weight, flag; destruct (Z.eqb_spec awake 0); [lia|done]).
      assert (HNr : forall v, v ∈ N -> 0 <= v < nv /\ visited (bfs_tree s2) v) by (intros v Hv2; now apply (lv_front _ _ _ _ _ _ _ Hlev2) in Hv2).
      eapply returns_mono; [|apply (lurking_step s s2 N L2 d2); try done].
      * intros [s3 a3] [Hl3 Hw3]. split; [done|]. rewrite Hflag. exact Hw3.
      * intros v HvN. apply Hb2; [now apply HNr|done].
      * intros v Hvr Hset. apply HNr. now apply Hb2.
      * lia.
  - intros [s2 awake] [Hr2 _]. eapply returns_bind; [exact (fill_queue_returns race IJ s2 (proj1 (proj2 (proj2 Hr2))) Hnv (proj1 Hr2))|].
    intros s3 ((l & k & ->) & Hvl3 & Hk3 & Hq3). apply returns_ret. eapply queued_advanced; [exact Hr2|done|exact Hvl3|exact Hk3|exact Hq3].
Qed.

(** ** Top down *)

Lemma top_down_advanced s L d :
  sinv s -> level (bfs_tree s) (frontier s) L d -> returns race (fun s' => advanced s s' (k2 s' - k1 s')) (bfs_top_down_step g s).
Proof.
  intros Hs Hlev. eapply returns_mono; [|exact (top_down_returns race IJ xo st c Hok root s L d Hs Hlev)]. intros s' [[Hs' (N & Hst & HN)] _].
  assert (HNp : frontier s' ≡ₚ remove_dups N) by (apply NoDup_Permutation; [now apply frontier_nodup|apply NoDup_remove_dups|intros v; rewrite elem_of_remove_dups; apply HN]).
  split; [done|]. split; [|split; [now rewrite frontier_length|]].
  - exists (L + 1), (fun v => if decide (v ∈ N) then L + 1 else d v). eapply level_ext; [eapply level_step; [apply (c_range IJ xo st c Hok)|exact Hlev|exact Hst]|]. intros v. symmetry. apply HN.
  - apply (weight_step _ (frontier s) _ (frontier s')); [|now rewrite frontier_length]. destruct Hst as [S1 S2 S3 S4 S5]. split; try done; [intros v; now rewrite HN|intros v; rewrite HN; apply S4].
Qed.

(** ** The end of a step *)

Section after.
Context (ps : list (Z * Z)) (s : search) (Hps : length ps = num_threads).

Definition after_body (one i : nat) (r : Z * Z) : proc search (Z * Z) :=
  let '(scout, awake) := r in
  _ ← (if (i =? one)%nat then store (fun s => Ok (set_scout s 0)) else mret tt);
  mret (default 0 (fst <$> ps !! i) - scout, awake).
Definition after_load (s : search) : res (Z * Z) := Ok (scout_count s, k2 s - k1 s).

Definition reset_inv (s' : search) (one : nat) : Prop := (s' = s \/ s' = set_scout s 0) /\ (one < num_threads)%nat.
Definition reset_rely (_ : nat) (s1 : search) (one : nat) (s2 : search) (one' : nat) : Prop := one = one' /\ (s1 = set_scout s 0 -> s2 = set_scout s 0).

Lemma after_body_wp (P : Z * Z -> Prop) one i r s1 :
  (forall scout awake, r = (scout, awake) -> P (default 0 (fst <$> ps !! i) - scout, awake)) -> reset_inv s1 one ->
  wp reset_inv reset_rely i (after_body one i r) (fun a s2 one' => P a /\ (i = one' -> s2 = set_scout s 0)) s1 one.
Proof.
  intros HP Hi. destruct r as [scout awake]. unfold after_body. specialize (HP scout awake eq_refl). apply wp_bind; [done|]. destruct (Nat.eqb_spec i one) as [->|Hne].
  - assert (Hset : set_scout s1 0 = set_scout s 0) by (destruct Hi as [[->| ->] _]; done). eapply wp_store with (g' := one); [done| | |].
    + split; [right; done|apply Hi].
    + intros j Hj. split; [done|]. intros _. done.
    + intros s2 g2 Hi2 [<- HR]. split; [done|]. intros _. now apply HR.
  - split; [done|]. intros ->. done.
Qed.

Definition scouted (r : search * list (Z * Z)) : Prop := r.1 = set_scout s 0 /\ length r.2 = num_threads /\ forall p, p ∈ r.2 -> p.2 = k2 s - k1 s.

Lemma after_join (P : nat -> Z * Z -> Prop) sched body one :
  (one < num_threads)%nat -> (forall i, (i < num_threads)%nat -> swp reset_inv reset_rely i (body i) (fun a s2 one' => P i a /\ (i = one' -> s2 = set_scout s 0)) s one) ->
  exists l, par sched (body <$> seq 0 num_threads) s = Ok (set_scout s 0, l) /\ length l = num_threads /\ forall i a, l !! i = Some a -> P i a.
Proof.
  intros Hone Hw. destruct (par_wp reset_inv reset_rely) with (Q := fun i a s2 one' => P i a /\ (i = one' -> s2 = set_scout s 0)) (sched := sched) (ps := body <$> seq 0 num_threads) (s := s) (g := one)
    as (s2 & l & one' & Hrun & [_ Ho] & Hl & HQ).
  - split; [done|auto].
  - intros i s1 g1 s2 g2 s3 g3 [-> A] [-> B]. split; auto.
  - intros i a s1 g1 s2 g2 _ [-> A] [HP B]. split; auto.
  - split; [now left|done].
  - intros i p Hip. apply list_lookup_fmap_Some in Hip as (j & -> & Hj). apply lookup_seq in Hj as [-> Hj]. now apply Hw.
  - rewrite length_fmap, length_seq in Hl. destruct (lookup_lt_is_Some_2 l one') as [a Ha]; [lia|]. rewrite (proj2 (HQ _ _ Ha) eq_refl) in Hrun.
    exists l. split_and!; [done|done|]. intros i b Hb. now apply HQ.
Qed.

Lemma after_bodies one : (fun i => read_only (private ps i) (fun '(edges_to_check, _) =>
      '(scout, awake) ← load (fun s => Ok (scout_count s, k2 s - k1 s));
      _ ← (if (i =? one)%nat then store (fun s => Ok (set_scout s 0)) else mret tt);
      mret (edges_to_check - scout, awake))) <$> seq 0 num_threads = (fun i => load after_load ≫= after_body one i) <$> seq 0 num_threads.
Proof.
  apply list_fmap_ext. intros i x Hx. apply lookup_seq in Hx as [-> Hx]. unfold private. destruct (lookup_lt_is_Some_2 ps i) as [[e a] Hp]; [lia|]. simpl. unfold after_body. rewrite Hp. done.
Qed.

(** Whatever the schedule. *)
Lemma after_top_down_returns : returns race scouted (after_top_down ps s).
Proof.
  intros t. left. unfold after_top_down, parallel. rewrite after_bodies.
  destruct (after_join (fun _ p => p.2 = k2 s - k1 s) (picks t) (fun i => load after_load ≫= after_body (single t) i) (single t) (single_thread t)) as (l & -> & Hl & HQ).
  - intros i Hi s2 one2 Hi2 HR. apply wp_bind; [done|]. eapply wp_load; [split; [done|auto]|done|done|]. intros s3 one3 Hi3 [Ho3 HR3].
    assert (one3 = single t) as -> by (destruct HR as [HR _]; congruence). apply after_body_wp; [|done]. intros scout awake [= <- <-]. cbn [snd]. destruct Hi2 as [[->| ->] _]; done.
  - cbn [mbind res_bind]. eexists _, _. split; [done|]. split; [done|]. split; [done|]. intros p [i Hi]%list_elem_of_lookup_1. eauto.
Qed.

(** When no thread is ahead of the others, all read the same count. *)
Lemma after_top_down_prompt `{!OmpPrompt OM} :
  returns race (fun r => scouted r /\ forall e, (forall p, p ∈ ps -> p.1 = e) -> forall p, p ∈ r.2 -> p.1 = e - scout_count s) (after_top_down ps s).
Proof.
  intros t. left. unfold after_top_down, parallel. rewrite after_bodies. destruct (prompt t) as (l1 & l2 & -> & Hin & Hnd).
  rewrite (par_reads (fun _ => after_load) (after_body (single t)) s (fun _ => (scout_count s, k2 s - k1 s)) num_threads l1 l2); [|done|done|done].
  destruct (after_join (fun i p => p = (default 0 (fst <$> ps !! i) - scout_count s, k2 s - k1 s)) l2 (fun i => after_body (single t) i (scout_count s, k2 s - k1 s)) (single t) (single_thread t)) as (l & -> & Hl & HQ).
  - intros i Hi s2 one2 Hi2 [<- HR]. apply after_body_wp; [|done]. intros scout awake [= <- <-]. done.
  - cbn [mbind res_bind]. eexists _, _. split; [done|]. split; [split; [done|split; [done|]]|].
    + intros p [i Hi]%list_elem_of_lookup_1. now rewrite (HQ _ _ Hi).
    + intros e He p [i Hi]%list_elem_of_lookup_1. rewrite (HQ _ _ Hi). cbn [fst]. f_equal. destruct (lookup_lt_is_Some_2 ps i) as [q Hq]; [apply lookup_lt_Some in Hi; simpl in Hi; lia|].
      rewrite Hq. simpl. apply He. eapply list_elem_of_lookup_2, Hq.
Qed.
End after.

Lemma count_frontier_returns s : sinv s -> returns race (fun s' => exists n, s' = set_scout s n) (count_frontier g s).
Proof.
  intros Hs. unfold count_frontier. eapply returns_bind.
  - apply (returns_for race (fun s' (_ : unit) => s' = s) (fun _ _ _ _ _ => True)) with (Q := fun _ _ _ _ => True); [done|done|done|].
    intros ls Hn Hp. exists tt. split; [done|]. intros t ks Hks s2 [] -> _. apply (wp_pfor _ _ t ks _ (fun _ _ _ _ => True)); [done|done|].
    intros l1 k l2 x s2 [] Hl _ _. destruct (queue_read IJ s Hs k) as (v & Hv & _ & Hvr & _).
    { apply (shares_in (k1 s) (k2 s) ls t ks); [done|done|]. rewrite Hl. apply elem_of_app. right. now left. }
    cbn [SeqCsr.xoff]. rewrite Hv. cbn [read_only]. rewrite (read_xendoff IJ xo st c Hok) by done. cbn [read_only]. rewrite (read_xoff IJ xo st c Hok) by lia. done.
  - intros [s' counts] ([] & Hs' & _). cbn [fst] in Hs'. subst s'. apply returns_ret. now eexists.
Qed.

(** ** The loop *)

(** The threads agree on [awake_count]; on [edges_to_check] they do if none was ahead. *)
Definition cinv (r : search * list (Z * Z)) : Prop :=
  let '(s, ps) := r in
  sinv s /\ (exists L d, level (bfs_tree s) (frontier s) L d) /\ length ps = num_threads /\ (forall p, p ∈ ps -> p.2 = zlen (frontier s)) /\
  (race \/ exists e, forall p, p ∈ ps -> p.1 = e).

Lemma sinv_scout s n : sinv s -> sinv (set_scout s n).
Proof. now intros [H1 H2 H3 H4 H5 H6 H7 H8]. Qed.

Lemma advanced_scout s0 s awake n : advanced s0 s awake -> advanced s0 (set_scout s n) awake.
Proof. intros (H1 & H2 & H3 & H4). split; [now apply sinv_scout|]. done. Qed.

Lemma iteration_returns s ps cutoff :
  (race \/ OmpPrompt OM) -> nv < 2 ^ 31 -> 0 <= cutoff -> cinv (s, ps) ->
  returns race (fun '(s', ps') => cinv (s', ps') /\ (weight (bfs_tree s') (zlen (frontier s')) < missing (bfs_tree s) + 1)%nat) (bfs_iteration g cutoff (s, ps)).
Proof.
  intros Hpr Hnv Hcut (Hs & (L & d & Hlev) & Hps & Haw & He). unfold bfs_iteration. pose proof num_threads_pos.
  assert (Hne : ps <> []) by (intros ->; simpl in Hps; lia). eapply returns_bind.
  { apply returns_agree; [unfold directions; destruct ps; done|]. destruct He as [|[e He]]; [now left|right]. exists (scout_count s <? Z.quot (e - scout_count s) ALPHA).
    intros b (p & -> & Hp)%list_elem_of_fmap. specialize (He p Hp). destruct p as [e' a]. cbn [fst] in He. now subst e'. }
  intros down _. eapply returns_bind with (Q := fun '(s', ps') => (exists awake, advanced s s' awake) /\ length ps' = num_threads /\ (forall p, p ∈ ps' -> p.2 = zlen (frontier s')) /\
    (race \/ exists e, forall p, p ∈ ps' -> p.1 = e)).
  - destruct down.
    + eapply returns_bind; [now apply (top_down_advanced s L d)|]. intros s1 Ha1. assert (Hfr : k2 s1 - k1 s1 = zlen (frontier s1)) by (destruct Ha1 as (Hs1 & _); now rewrite frontier_length).
      destruct Hpr as [Hr|Hpr].
      * eapply returns_mono; [|exact (after_top_down_returns ps s1 Hps)]. intros [s2 ps2] (Hs2 & Hl2 & Hp2). cbn [fst snd] in *. subst s2. split; [eexists; eapply advanced_scout; exact Ha1|].
        split; [done|]. split; [intros p Hp; rewrite Hp2 by done; exact Hfr|now left].
      * eapply returns_mono; [|exact (after_top_down_prompt ps s1 Hps)]. intros [s2 ps2] [(Hs2 & Hl2 & Hp2) Hsame]. cbn [fst snd] in *. subst s2. split; [eexists; eapply advanced_scout; exact Ha1|].
        split; [done|]. split; [intros p Hp; rewrite Hp2 by done; exact Hfr|]. destruct He as [|[e He]]; [now left|right]. exists (e - scout_count s1). now apply Hsame.
    + eapply returns_bind; [now apply (bottom_up_returns s cutoff L d)|]. intros [s1 awake] Ha1. apply returns_ret. pose proof Ha1 as (_ & _ & Haw1 & _).
      split; [now exists awake|]. split; [now rewrite length_fmap|]. split.
      * intros p ([e a] & -> & _)%list_elem_of_fmap. done.
      * destruct He as [|[e He]]; [now left|right]. exists e. intros p ([e' a] & -> & Hp)%list_elem_of_fmap. now apply He in Hp.
  - intros [s1 ps1] ((awake & Hs1 & Hlev1 & Haw1 & Hw1) & Hl1 & Hp1 & He1). eapply returns_bind; [now apply count_frontier_returns|]. intros s2 (n & ->). apply returns_ret. split.
    + split; [now apply sinv_scout|]. done.
    + rewrite Haw1 in Hw1. exact Hw1.
Qed.

Lemma cond_agrees s ps : cinv (s, ps) -> agree ((fun '(_, awake) => negb (awake =? 0)) <$> ps) = Ok (negb (zlen (frontier s) =? 0)).
Proof.
  intros (_ & _ & Hps & Haw & _). pose proof num_threads_pos. apply agree_same; [destruct ps; [simpl in Hps; lia|done]|].
  intros b ([e a] & -> & Hp)%list_elem_of_fmap. apply Haw in Hp. cbn [snd] in Hp. now subst a.
Qed.

Context `{M : Malloc, !MallocLaws M} {NO : MallocNoOom M}.

Lemma loop_returns s ps cutoff :
  (race \/ OmpPrompt OM) -> nv < 2 ^ 31 -> 0 <= cutoff -> cinv (s, ps) ->
  returns race (fun '(s', _) => exists d, bfs_ok (adj IJ) nv root (bfs_tree s') d)
    (team_while (S (Z.to_nat nv + 1)) (fun '(_, ps) => agree ((fun '(_, awake) => negb (awake =? 0)) <$> ps)) (bfs_iteration g cutoff) (s, ps)).
Proof.
  intros Hpr Hnv Hcut Hc. eapply returns_mono; [|apply (returns_while race cinv (fun '(s, _) => weight (bfs_tree s) (zlen (frontier s)))); [exact Hc| |]].
  - intros [s' ps'] [Hc' Hend]. rewrite (cond_agrees s' ps' Hc') in Hend. injection Hend as Hend%negb_false_iff%Z.eqb_eq. destruct Hc' as (_ & (L & d & Hlev) & _).
    exists d. eapply level_end; [apply (c_range IJ xo st c Hok)| |]; [intros u v Hu; now apply (proj2 Hok)|].
    assert (frontier s' = []) as Hnil by (apply nil_length_inv; unfold zlen in Hend; lia). rewrite Hnil in Hlev. exact Hlev.
  - pose proof (missing_max nv (bfs_tree s)). unfold weight, flag. destruct (_ =? 0); lia.
  - intros [s' ps'] Hc'. left. eexists. split; [exact (cond_agrees s' ps' Hc')|]. intros Hgo%negb_true_iff.
    assert (Hw : weight (bfs_tree s') (zlen (frontier s')) = (missing (bfs_tree s') + 1)%nat) by (unfold weight, flag; now rewrite Hgo).
    eapply returns_mono; [|now apply iteration_returns]. intros [s2 ps2] [Hc2 Hw2]. split; [done|]. now rewrite Hw.
Qed.

Lemma clear_tree_returns lo hi s :
  0 <= lo -> hi <= zlen (bfs_tree s) ->
  returns race (fun s' => exists tr, s' = set_tree s tr /\ zlen tr = zlen (bfs_tree s) /\ forall v, at_ tr v = if decide (lo <= v < hi) then -1 else at_ (bfs_tree s) v)
    (omp_each lo hi (fun k => store (fun s => t ← awrite (bfs_tree s) k (-1); Ok (set_tree s t))) s).
Proof.
  intros Hlo Hhi. eapply returns_mono; [|apply (returns_each1 race (fun k s => t ← awrite (bfs_tree s) k (-1); Ok (set_tree s t))
    (fun l s' => exists tr, s' = set_tree s tr /\ zlen tr = zlen (bfs_tree s) /\ forall v, at_ tr v = if decide (v ∈ l) then -1 else at_ (bfs_tree s) v))].
  - intros s' (l & Hin & tr & -> & Hl & Ha). exists tr. split_and!; try done. intros v. rewrite Ha. destruct (decide (v ∈ l)) as [Hv|Hv].
    + rewrite decide_True; [done|]. now apply Hin.
    + rewrite decide_False; [done|]. intros Hr. now apply Hv, Hin.
  - exists (bfs_tree s). split; [now destruct s|]. split; [done|]. intros v. now rewrite decide_False by apply not_elem_of_nil.
  - intros l k s' Hk (tr & -> & Hl & Ha). cbn [bfs_tree set_tree]. rewrite awrite_in_bounds by lia. cbn [mbind res_bind]. eexists. split; [done|]. eexists. split; [done|].
    rewrite zlen_insert. split; [done|]. intros v. rewrite at_insert, Ha by lia. destruct (decide (v = k)) as [->|Hne].
    + rewrite decide_True; [done|]. apply elem_of_app. right. now apply list_elem_of_singleton.
    + destruct (decide (v ∈ l)), (decide (v ∈ l ++ [k])) as [Hin|Hin]; try done; exfalso; rewrite elem_of_app, list_elem_of_singleton in Hin; tauto.
Qed.

Lemma search_returns tree0 :
  (race \/ OmpPrompt OM) -> nv + 63 < 2 ^ 31 -> 0 <= root < nv -> nv <= zlen tree0 ->
  returns race (fun '(tree, m) => m = maxv IJ /\ exists d, bfs_ok (adj IJ) nv root tree d) (make_bfs_tree g tree0 root).
Proof.
  intros Hpr Hnv Hroot Hlen. unfold make_bfs_tree. cbn [SeqCsr.nv SeqCsr.xoff SeqCsr.maxvtx]. unfold xmalloc_large.
  destruct (xmalloc_int64s nv) as (vl & -> & Hvl); [lia|]. cbn [mbind res_bind]. rewrite (awrite_in_bounds vl) by lia. cbn [mbind res_bind]. rewrite (awrite_in_bounds tree0) by lia. cbn [mbind res_bind].
  destruct (bm_init_spec nv) as (bm & Hbm & Hbok & Hz); [lia|lia|]. rewrite Hbm. cbn [mbind res_bind]. rewrite (read_xendoff IJ xo st c Hok), (read_xoff IJ xo st c Hok root) by lia. cbn [mbind res_bind].
  set (tree1 := <[Z.to_nat root := root]> tree0). set (vl1 := <[Z.to_nat 0 := root]> vl). set (n0 := offz root + zlen (c root) - offz root).
  eapply returns_bind; [apply (returns_alone race (fun s => s = Search tree1 vl1 0 1 bm bm 0 n0) _ (Search tree1 vl1 0 1 bm bm 0 n0)); done|]. intros s ->. cbv zeta.
  eapply returns_bind; [apply (returns_alone race (fun e => e = offz nv) _ (offz nv)); [apply (read_xoff IJ xo st c Hok); lia|done]|]. intros e ->.
  assert (Hl1 : zlen tree1 = zlen tree0) by (unfold tree1; now rewrite zlen_insert).
  eapply returns_bind; [apply clear_tree_returns; cbn [bfs_tree]; lia|]. intros s2 (tr2 & -> & Hl2 & Ha2). cbn [bfs_tree] in *.
  eapply returns_bind; [apply clear_tree_returns; cbn [bfs_tree set_tree]; lia|]. intros s3 (tr3 & -> & Hl3 & Ha3). cbn [bfs_tree set_tree] in *.
  assert (Hq : queue (set_tree (set_tree (Search tree1 vl1 0 1 bm bm 0 n0) tr2) tr3) = [root]).
  { unfold queue. cbn [vlist k2 set_tree]. unfold vl1. destruct vl; [unfold zlen in Hvl; simpl in Hvl; lia|done]. }
  assert (Hat : forall v, 0 <= v < nv -> at_ tr3 v = if decide (v = root) then root else -1).
  { intros v Hv. rewrite Ha3, Ha2. unfold tree1. rewrite at_insert by lia. destruct (decide (root + 1 <= v < nv)), (decide (0 <= v < root)), (decide (v = root)); try done; lia. }
  eapply returns_bind; [apply loop_returns; [done|lia|apply Z.quot_pos; unfold BETA; lia|]|intros [s4 ps4] (d & Hd); apply returns_ret; now split; [|exists d]].
  split; [split|].
  - cbn [vlist set_tree]. unfold vl1. now rewrite zlen_insert.
  - cbn [k1 k2 set_tree]. lia.
  - cbn [k2 set_tree]. lia.
  - rewrite Hq. apply NoDup_singleton.
  - rewrite Hq. intros v ->%list_elem_of_singleton. split; [done|]. unfold visited. cbn [bfs_tree set_tree]. rewrite Hat, decide_True by done. lia.
  - done.
  - done.
  - intros v Hv. cbn [next set_tree]. rewrite Hz; [done|]. rewrite (bm_size _ _ Hbok). dlia.
  - unfold frontier. rewrite Hq. cbn [k1 set_tree bfs_tree]. change (drop (Z.to_nat 0) [root]) with [root]. split; [|split; [|split]].
    + exists 0, (fun _ => 0). apply level_init; [lia|done|done].
    + apply length_replicate.
    + intros p Hp. apply elem_of_replicate in Hp as [-> _]. done.
    + right. exists (offz nv). intros p Hp. apply elem_of_replicate in Hp as [-> _]. done.
Qed.
End main.
