(* ===== verification/SeqListProofs.v ===== *)
(** The linked lists of seq-list.c hold the neighbours of every vertex, and the search
    over them is breadth first. *)
From stdpp Require Import base numbers list relations.
From Stdlib Require Import ZArith Lia.
From S2P Require Import Prelude Kronecker Graph500 Graph.
Import Plain SeqList.
Open Scope Z_scope.

(** ** Lists in the block *)

(** The list from [p]: the ends of edges it runs through. *)
Fixpoint chain (mv : Z) (a : list Z) (p : Z) (l : list Z) : Prop :=
  match l with
  | [] => p < 0
  | x :: l => x = p /\ 0 <= p /\ chain mv a (at_ a (next mv p)) l
  end.

Lemma chain_frame mv a a' p l :
  (forall x, x ∈ l -> at_ a' (next mv x) = at_ a (next mv x)) -> chain mv a p l -> chain mv a' p l.
Proof.
  revert p. induction l as [|x l IH]; intros p Hf; simpl; [done|]. intros (-> & Hp & Hl). split_and!; try done.
  rewrite Hf by left. apply IH; [|done]. intros y Hy. apply Hf. now right.
Qed.

Lemma chain_head mv a p l n : chain mv a p l -> 0 <= n -> (forall x, x ∈ l -> x < n) -> p < n.
Proof. destruct l as [|x l]; simpl; [lia|]. intros (-> & _ & _) Hn Hx. apply Hx. left. Qed.

(** The ends of an edge that enter the list of a vertex, the last one first. *)
Definition edge_valid (e : packed_edge) : bool := (0 <=? v0 e) && (0 <=? v1 e) && negb (v0 e =? v1 e).

Lemma edge_valid_true e : edge_valid e = true <-> 0 <= v0 e /\ 0 <= v1 e /\ v0 e <> v1 e.
Proof.
  unfold edge_valid. rewrite !andb_true_iff, !Z.leb_le, negb_true_iff, Z.eqb_neq. tauto.
Qed.

Definition ends1 (v : Z) (k : nat) (e : packed_edge) : list Z :=
  if edge_valid e then (if decide (v1 e = v) then [2 * Z.of_nat k] else []) ++ (if decide (v0 e = v) then [2 * Z.of_nat k + 1] else []) else [].
Definition plist (l : list packed_edge) (v : Z) : list Z := concat (reverse (imap (ends1 v) l)).

Lemma plist_snoc l e v : plist (l ++ [e]) v = ends1 v (length l) e ++ plist l v.
Proof. unfold plist. rewrite imap_app, reverse_app. simpl. now rewrite Nat.add_0_r. Qed.

Lemma elem_of_plist l v p : p ∈ plist l v <-> exists k e, l !! k = Some e /\ p ∈ ends1 v k e.
Proof.
  unfold plist. rewrite list_elem_of_In, in_concat. setoid_rewrite <- list_elem_of_In. split.
  - intros (r & Hr & Hp). apply elem_of_reverse, elem_of_lookup_imap_1 in Hr as (k & e & -> & He). eauto.
  - intros (k & e & He & Hp). exists (ends1 v k e). split; [|done]. apply elem_of_reverse. now apply elem_of_lookup_imap_2.
Qed.

Lemma ends1_range v k e p : p ∈ ends1 v k e -> 2 * Z.of_nat k <= p < 2 * Z.of_nat k + 2.
Proof.
  unfold ends1. destruct (edge_valid e); [|intros H; now apply not_elem_of_nil in H].
  intros [H|H]%elem_of_app; case_decide; (now apply not_elem_of_nil in H) || (apply list_elem_of_singleton in H as ->; lia).
Qed.

Lemma plist_range l v p : p ∈ plist l v -> 0 <= p < 2 * zlen l.
Proof.
  intros (k & e & Hk & Hp)%elem_of_plist. apply ends1_range in Hp. apply lookup_lt_Some in Hk. unfold zlen. lia.
Qed.

Lemma plist_length l v : (length (plist l v) <= 2 * length l)%nat.
Proof.
  induction l as [|e l IH] using rev_ind; [done|]. rewrite plist_snoc, !length_app. simpl.
  assert (length (ends1 v (length l) e) <= 2)%nat by (unfold ends1; destruct (edge_valid e); repeat case_decide; simpl; lia). lia.
Qed.

Section lists.
Context (IJ : list packed_edge).
Notation nv := (maxv IJ + 1).
Notation mv := (maxv IJ).

(** Every vertex has its list. *)
Definition lrep (a : list Z) (L : Z -> list Z) : Prop :=
  zlen a = 2 * nv + 2 * zlen IJ /\
  forall v, 0 <= v < nv -> chain mv a (at_ a v) (L v) /\ forall x, x ∈ L v -> 0 <= x < 2 * zlen IJ.

Definition upd (L : Z -> list Z) (i : Z) (l : list Z) (v : Z) : list Z := if decide (v = i) then l else L v.

Lemma link_spec a L i t :
  lrep a L -> 0 <= i < nv -> 0 <= t < 2 * zlen IJ -> (forall v, 0 <= v < nv -> t ∉ L v) ->
  exists a', link mv (zlen IJ) i t a = Ok a' /\ lrep a' (upd L i (t :: L i)).
Proof.
  intros [Hl Hc] Hi Ht Hfresh. unfold link. pose proof (zlen_nonneg IJ). rewrite at_read by lia. cbn [mbind res_bind].
  rewrite awrite_in_bounds by lia. cbn [mbind res_bind].
  destruct (Hc i Hi) as [Hci Hri]. assert (Hh : at_ a i < 2 * zlen IJ) by (eapply chain_head; [exact Hci|lia|intros x Hx; apply Hri in Hx; lia]).
  rewrite (proj2 (Z.ltb_lt _ _) Hh). cbn [check mbind res_bind]. unfold next, deg.
  rewrite awrite_in_bounds by (rewrite zlen_insert; lia). cbn [mbind res_bind]. rewrite bump_spec by (rewrite !zlen_insert; lia).
  eexists. split; [done|]. split; [now rewrite !zlen_insert|].
  match goal with |- context [at_ (<[Z.to_nat (mv + 1 + i) := ?z]> _) _] => set (cnt := z) end.
  assert (Hat : forall x, at_ (<[Z.to_nat (mv + 1 + i) := cnt]> (<[Z.to_nat (2 * (mv + 1) + t) := at_ a i]> (<[Z.to_nat i := t]> a))) x =
    if decide (x = mv + 1 + i) then cnt else if decide (x = 2 * (mv + 1) + t) then at_ a i else if decide (x = i) then t else at_ a x).
  { intros x. rewrite !at_insert by (rewrite ?zlen_insert; lia). done. }
  intros v Hv. rewrite Hat. rewrite (decide_False (P := v = mv + 1 + i)), (decide_False (P := v = 2 * (mv + 1) + t)) by lia.
  assert (Hframe : forall w, 0 <= w < nv -> chain mv (<[Z.to_nat (mv + 1 + i) := cnt]> (<[Z.to_nat (2 * (mv + 1) + t) := at_ a i]> (<[Z.to_nat i := t]> a)))
    (at_ a w) (L w)).
  { intros w Hw. destruct (Hc w Hw) as [Hcw Hrw]. eapply chain_frame; [|exact Hcw]. intros x Hx. unfold next. rewrite Hat.
    assert (x <> t) by (intros ->; now apply (Hfresh w)). apply Hrw in Hx. rewrite !decide_False by lia. done. }
  unfold upd. destruct (decide (v = i)) as [->|Hne].
  - simpl. split_and!; [done|lia| |].
    + unfold next at 1. rewrite Hat. rewrite (decide_False (P := 2 * (mv + 1) + t = mv + 1 + i)), decide_True by lia. now apply Hframe.
    + intros x [->|Hx]%elem_of_cons; [lia|now apply Hri].
  - split; [now apply Hframe|]. now apply Hc.
Qed.

Lemma lrep_ext a L L' : lrep a L -> (forall v, L v = L' v) -> lrep a L'.
Proof. intros [Hl Hc] He. split; [done|]. intros v Hv. rewrite <- He. now apply Hc. Qed.

(** Writing where no list runs. *)
Lemma lrep_next a L t x :
  lrep a L -> 0 <= t < 2 * zlen IJ -> (forall v, 0 <= v < nv -> t ∉ L v) ->
  exists a', awrite a (next mv t) x = Ok a' /\ lrep a' L.
Proof.
  intros [Hl Hc] Ht Hfresh. pose proof (maxv_min IJ). unfold next. rewrite awrite_in_bounds by lia. eexists. split; [done|]. split; [now rewrite zlen_insert|].
  intros v Hv. destruct (Hc v Hv) as [Hcv Hrv]. rewrite at_insert, decide_False by lia. split; [|done].
  eapply chain_frame; [|exact Hcv]. intros y Hy. unfold next. rewrite at_insert, decide_False by (assert (y <> t) by (intros ->; now apply (Hfresh v)); lia). done.
Qed.

(** ** Construction *)

Definition add_edge (k : Z) (a : list Z) : res (list Z) :=
  e ← aread IJ k;
  if (0 <=? v0 e) && (0 <=? v1 e) && negb (v0 e =? v1 e) then
    a ← awrite a (next mv (2 * k)) (-1);
    a ← awrite a (next mv (1 + 2 * k)) (-1);
    a ← link mv (zlen IJ) (v0 e) (2 * k + 1) a;
    link mv (zlen IJ) (v1 e) (2 * k) a
  else Ok a.

Lemma add_edge_spec k a :
  0 <= k < zlen IJ -> lrep a (plist (take (Z.to_nat k) IJ)) ->
  exists a', add_edge k a = Ok a' /\ lrep a' (plist (take (Z.to_nat (k + 1)) IJ)).
Proof.
  intros Hk Ha. unfold add_edge. destruct (aread_in_bounds IJ k Hk) as (e & -> & He). cbn [mbind res_bind].
  set (l := take (Z.to_nat k) IJ) in *. assert (Hll : length l = Z.to_nat k) by (unfold l, zlen in *; rewrite length_take; lia).
  replace (Z.to_nat (k + 1)) with (S (Z.to_nat k)) by lia. rewrite (take_S_r _ _ _ He). fold l.
  assert (Hfresh : forall t v, 2 * k <= t -> t ∉ plist l v) by (intros t v Ht Hin; apply plist_range in Hin; unfold zlen in Hin; lia).
  pose proof (maxv_max IJ e (list_elem_of_lookup_2 _ _ _ He)) as Hmax.
  fold (edge_valid e). destruct (edge_valid e) eqn:Ev.
  - destruct (proj1 (edge_valid_true e) Ev) as (H0 & H1 & Hne).
    destruct (lrep_next a _ (2 * k) (-1) Ha) as (a1 & -> & Ha1); [lia|intros; apply Hfresh; lia|]. cbn [mbind res_bind].
    destruct (lrep_next a1 _ (1 + 2 * k) (-1) Ha1) as (a2 & -> & Ha2); [lia|intros; apply Hfresh; lia|]. cbn [mbind res_bind].
    destruct (link_spec a2 _ (v0 e) (2 * k + 1) Ha2) as (a3 & -> & Ha3); [lia|lia|intros; apply Hfresh; lia|]. cbn [mbind res_bind].
    destruct (link_spec a3 _ (v1 e) (2 * k) Ha3) as (a4 & -> & Ha4); [lia|lia| |].
    { intros v Hv. unfold upd. case_decide; [|apply Hfresh; lia]. intros [Heq|Hin]%elem_of_cons; [lia|]. now apply Hfresh in Hin. }
    exists a4. split; [done|]. eapply lrep_ext; [exact Ha4|]. intros v. rewrite plist_snoc. unfold upd, ends1. rewrite Ev, Hll, Z2Nat.id by lia.
    destruct (decide (v = v1 e)) as [->|Hv1].
    + rewrite !(decide_False (P := v1 e = v0 e)), (decide_True (P := v1 e = v1 e)), (decide_False (P := v0 e = v1 e)) by congruence. done.
    + rewrite (decide_False (P := v1 e = v)) by congruence. destruct (decide (v = v0 e)) as [->|Hv0].
      * now rewrite (decide_True (P := v0 e = v0 e)).
      * now rewrite (decide_False (P := v0 e = v)) by congruence.
  - exists a. split; [done|]. eapply lrep_ext; [exact Ha|]. intros v. rewrite plist_snoc. unfold ends1. now rewrite Ev.
Qed.

Context `{M : Malloc, !MallocLaws M} {NO : MallocNoOom M}.

Lemma list_create_spec : fits IJ -> exists md a, create_graph_from_edgelist IJ (zlen IJ) = Ok (Some (Lists mv md IJ a)) /\ lrep a (plist IJ).
Proof.
  intros Hfits. unfold fits in Hfits. pose proof (zlen_nonneg IJ). pose proof (maxv_min IJ). unfold create_graph_from_edgelist.
  rewrite find_maxvtx_spec. cbn [mbind res_bind]. rewrite i64_small by lia. cbn [mbind res_bind].
  destruct (malloc_int64s (2 * nv + 2 * zlen IJ)) as (a0 & -> & Hl0); [lia|].
  for_inv (fun k a => zlen a = 2 * nv + 2 * zlen IJ /\ forall v, 0 <= v < k -> at_ a v = -1) a1 HP; [lia|split; [done|intros; lia]| |].
  { intros k a Hk [Hl Ha]. rewrite awrite_in_bounds by lia. cbn [mbind res_bind]. unfold deg. rewrite awrite_in_bounds by (rewrite zlen_insert; lia).
    eexists. split; [done|]. rewrite !zlen_insert. split; [done|]. intros v Hv. rewrite !at_insert by (rewrite ?zlen_insert; lia).
    rewrite (decide_False (P := v = mv + 1 + k)) by lia. case_decide; [done|]. apply Ha. lia. }
  destruct HP as [Hl1 Ha1].
  change (for_range 0 (zlen IJ) _ a1) with (for_range 0 (zlen IJ) add_edge a1).
  for_inv (fun k a => lrep a (plist (take (Z.to_nat k) IJ))) a2 Ha2; [done| |intros k a Hk Ha; now apply add_edge_spec|].
  { split; [done|]. intros v Hv. split; [rewrite Ha1 by done; done|]. intros x Hx. now apply not_elem_of_nil in Hx. }
  replace (take (Z.to_nat (zlen IJ)) IJ) with IJ in Ha2 by (rewrite take_ge; [done|unfold zlen; lia]).
  for_inv (fun (_ md : Z) => True) md HP; [lia|done| |now exists md, a2].
  intros k md Hk _. unfold deg. rewrite at_read by (destruct Ha2; lia). cbn [mbind res_bind]. now eexists.
Qed.

(** ** Search *)

(** The vertex at the other end. *)
Definition oe (p : Z) : Z :=
  match IJ !! Z.to_nat (p / 2) with Some e => if negb (p mod 2 =? 0) then v1 e else v0 e | None => 0 end.
Definition nb (v : Z) : list Z := oe <$> plist IJ v.

Lemma other_end_spec p : 0 <= p < 2 * zlen IJ -> other_end IJ p = Ok (oe p).
Proof.
  intros Hp. unfold other_end, oe. destruct (aread_in_bounds IJ (p / 2)) as (e & -> & He); [dlia|]. cbn [mbind res_bind]. now rewrite He.
Qed.

Lemma oe_even k e : IJ !! k = Some e -> oe (2 * Z.of_nat k) = v0 e.
Proof.
  intros He. unfold oe. replace (2 * Z.of_nat k / 2) with (Z.of_nat k) by dlia. rewrite Nat2Z.id, He.
  replace (2 * Z.of_nat k mod 2) with 0 by dlia. done.
Qed.

Lemma oe_odd k e : IJ !! k = Some e -> oe (2 * Z.of_nat k + 1) = v1 e.
Proof.
  intros He. unfold oe. replace ((2 * Z.of_nat k + 1) / 2) with (Z.of_nat k) by dlia. rewrite Nat2Z.id, He.
  replace ((2 * Z.of_nat k + 1) mod 2) with 1 by dlia. done.
Qed.

Lemma elem_of_nb v x : 0 <= v -> x ∈ nb v <-> adj IJ v x.
Proof.
  intros Hv. unfold nb. rewrite list_elem_of_fmap. setoid_rewrite elem_of_plist. unfold ends1, adj. split.
  - intros (p & -> & k & e & He & Hp). destruct (edge_valid e) eqn:Ev; [|now apply not_elem_of_nil in Hp].
    apply edge_valid_true in Ev as (H0 & H1 & Hne). pose proof (list_elem_of_lookup_2 _ _ _ He) as Hin.
    apply elem_of_app in Hp as [Hp|Hp]; case_decide as Hd; try (now apply not_elem_of_nil in Hp); apply list_elem_of_singleton in Hp as ->.
    + rewrite (oe_even _ _ He). destruct e as [a b]; simpl in *. subst b. auto.
    + rewrite (oe_odd _ _ He). destruct e as [a b]; simpl in *. subst a. auto.
  - intros (_ & Hx & Hne & [Hin|Hin]); apply list_elem_of_lookup_1 in Hin as [k He].
    + exists (2 * Z.of_nat k + 1). split; [now rewrite (oe_odd _ _ He)|]. exists k, (Edge v x). split; [done|].
      rewrite (proj2 (edge_valid_true _)) by (simpl; auto). simpl. rewrite (decide_True (P := v = v)) by done. apply elem_of_app. right. left.
    + exists (2 * Z.of_nat k). split; [now rewrite (oe_even _ _ He)|]. exists k, (Edge x v). split; [done|].
      rewrite (proj2 (edge_valid_true _)) by (simpl; auto). simpl. rewrite (decide_True (P := v = v)) by done. left.
Qed.

Section search.
Context (md : Z) (a : list Z) (Ha : lrep a (plist IJ)).
Notation g := (Lists mv md IJ a).

Lemma chain_loop u l p fuel s s' :
  chain mv a p l -> (forall x, x ∈ l -> 0 <= x < 2 * zlen IJ) -> (length l < fuel)%nat ->
  mfold (bfs_visit u) (oe <$> l) s = Ok s' ->
  exists p', while_loop fuel (fun '(p, _) => Ok (0 <=? p)) (fun '(p, s) =>
    newv ← other_end IJ p; s ← bfs_visit u newv s; p ← aread a (next mv p); Ok (p, s)) (p, s) = Ok (p', s').
Proof.
  revert p fuel s. induction l as [|x l IH]; intros p fuel s Hc Hr Hf Hrun; destruct fuel as [|fuel]; [simpl in Hf; lia| |simpl in Hf; lia|]; cbn [while_loop mbind res_bind].
  - simpl in Hc. destruct (Z.leb_spec 0 p); [lia|]. injection Hrun as <-. now eexists.
  - destruct Hc as (-> & Hp & Hc). destruct (Z.leb_spec 0 p); [|lia]. rewrite other_end_spec by (apply Hr; left). cbn [mbind res_bind].
    cbn [fmap list_fmap mfold] in Hrun. destruct (bfs_visit u (oe p) s) as [s1|]; [|done]. cbn [mbind res_bind] in Hrun |- *.
    pose proof (Hr p ltac:(left)) as Hpr. pose proof (maxv_min IJ). rewrite at_read by (unfold next; destruct Ha; lia). cbn [mbind res_bind].
    apply IH; [done|intros y Hy; apply Hr; now right|simpl in Hf; lia|done].
Qed.

Lemma list_vertex_spec s s' k u :
  0 <= u < nv -> aread s.1.2 k = Ok u -> visit_all bfs_visit u (nb u) s = Ok s' -> bfs_vertex g k s = Ok s'.
Proof.
  intros Hu Hk Hrun. destruct s as [[tree vlist] k2]. cbn [fst snd] in Hk. unfold bfs_vertex. rewrite Hk. cbn [mbind res_bind SeqList.head SeqList.IJ SeqList.maxvtx].
  pose proof Ha as [Hl Hc]. pose proof (zlen_nonneg IJ). rewrite (at_read a u) by lia. cbn [mbind res_bind]. destruct (Hc u Hu) as [Hcu Hru].
  destruct (chain_loop u (plist IJ u) (at_ a u) (length a + 1) (tree, vlist, k2) s' Hcu Hru) as (p' & ->); [|done|done].
  pose proof (plist_length IJ u). unfold zlen in *. lia.
Qed.

Lemma nb_range v j : 0 <= v < nv -> j ∈ nb v -> 0 <= j < nv.
Proof. intros Hv Hj. apply elem_of_nb in Hj; [|lia]. apply adj_max in Hj. lia. Qed.

(** One pass over the growing list of vertices is the whole search. *)
Lemma pass_spec root tree q d s :
  binv nv root nb tree q 0 [] d -> holds nv s tree q ->
  exists s' tree' q' d', while_loop (Z.to_nat nv + 1) (fun '(k, _, k2, _) => Ok (k <? k2))
      (fun '(k, _, k2, s) => s ← bfs_vertex g k s; let '(_, _, newk2) := s in Ok (k + 1, k2, newk2, s)) (0, 0, zlen q, s) =
    Ok (zlen q', zlen q', zlen q', s') /\ binv nv root nb tree' q' (length q') [] d' /\ holds nv s' tree' q'.
Proof.
  intros Hb Hs.
  match goal with |- context [while_loop ?f ?co ?bo ?st0] =>
    destruct (while_loop_inv (fun '(k, k1, k2, s) => exists tree q d, binv nv root nb tree q (Z.to_nat k) [] d /\ holds nv s tree q /\
        k2 = zlen q /\ 0 <= k <= k1 /\ k1 <= k2) (fun '(k, _, _, _) => Z.to_nat (nv - k)) f co bo st0)
      as ([[[k k1] k2] s'] & -> & (tree' & q' & d' & Hb' & Hs' & -> & Hk & Hk1) & Hend) end.
  - exists tree, q, d. pose proof (zlen_nonneg q). split_and!; try done; lia.
  - lia.
  - intros [[[k k1] k2] s1] (tree1 & q1 & d1 & Hb1 & Hs1 & -> & Hk & Hk1). eexists. split; [done|]. intros Hlt%Z.ltb_lt.
    destruct (lookup_lt_is_Some_2 q1 (Z.to_nat k)) as [u Hu]; [unfold zlen in Hlt; lia|].
    pose proof (b_range _ _ _ _ _ _ _ _ Hb1 u (list_elem_of_lookup_2 _ _ _ Hu)) as Hur.
    destruct (visit_vertex nv root nb bfs_visit (visit_same nv root nb) s1 tree1 q1 (Z.to_nat k) d1 u nb_range Hb1 Hs1 Hu)
      as (s2 & tree2 & q2 & d2 & Hrun & Hb2 & Hs2 & Hp2).
    rewrite (list_vertex_spec s1 s2 k u Hur); [|rewrite <- (holds_read _ _ _ _ _ _ Hs1 Hu); f_equal; lia|done]. cbn [mbind res_bind].
    destruct s2 as [[t2 vl2] nk2]. pose proof Hs2 as (_ & _ & _ & ->). eexists. split; [done|]. pose proof (prefix_length _ _ Hp2).
    pose proof (binv_length _ _ _ _ _ _ _ _ Hb1). split; [|lia]. exists tree2, q2, d2.
    replace (Z.to_nat (k + 1)) with (S (Z.to_nat k)) by lia. split_and!; try done; unfold zlen in *; lia.
  - injection Hend as Hend%Z.ltb_ge. assert (k = zlen q') as -> by lia. assert (k1 = zlen q') as -> by lia.
    replace (Z.to_nat (zlen q')) with (length q') in Hb' by (unfold zlen; lia). exists s', tree', q', d'. done.
Qed.

Lemma list_bfs_spec tree0 root :
  fits IJ -> 0 <= root < nv -> nv <= zlen tree0 ->
  exists tree d, make_bfs_tree g tree0 root = Ok (Some (tree, mv)) /\ bfs_ok (adj IJ) nv root tree d.
Proof.
  intros Hfits Hroot Hlen. unfold fits in Hfits. pose proof (zlen_nonneg IJ). unfold make_bfs_tree. cbn [SeqList.maxvtx].
  rewrite (awrite_in_bounds tree0) by lia. cbn [mbind res_bind]. destruct (malloc_int64s nv) as (vl & -> & Hvl); [lia|].
  rewrite (awrite_in_bounds (<[Z.to_nat root := root]> tree0)) by (rewrite zlen_insert; lia). cbn [mbind res_bind]. rewrite list_insert_insert_eq.
  rewrite (awrite_in_bounds vl) by lia. cbn [mbind res_bind].
  destruct (fill_spec (<[Z.to_nat root := root]> tree0) 0 root (-1)) as (tree1 & -> & Hl1 & Ha1); [lia|lia|rewrite zlen_insert; lia|]. cbn [mbind res_bind].
  destruct (fill_spec tree1 (root + 1) nv (-1)) as (tree2 & -> & Hl2 & Ha2); [lia|lia|rewrite Hl1, zlen_insert; lia|]. cbn [mbind res_bind].
  assert (Hb : binv nv root nb tree2 [root] 0 [] (fun _ => 0)).
  { apply binv_init; [rewrite Hl2, Hl1, zlen_insert; lia|done|]. intros v Hv. rewrite Ha2, Ha1, at_insert by lia.
    destruct (decide (v = root)), (decide (root + 1 <= v < nv)), (decide (0 <= v < root)); try lia; done. }
  assert (Hs : holds nv (tree2, <[Z.to_nat 0 := root]> vl, 1) tree2 [root]).
  { split_and!; try done; [now rewrite zlen_insert|]. destruct vl; [unfold zlen in Hvl; simpl in Hvl; lia|done]. }
  destruct (pass_spec root tree2 [root] _ _ Hb Hs) as ([[t vl'] k2'] & tree' & q & d & Hrun & Hb' & (-> & _ & _ & ->)).
  change (zlen [root]) with 1 in Hrun. cbn [while_loop mbind res_bind]. change (negb (0 =? 1)) with true. cbv beta iota. rewrite Hrun. cbn [mbind res_bind].
  rewrite Z.eqb_refl. cbn [negb mbind res_bind]. exists tree', d. split; [done|].
  eapply binv_end; [|exact Hb'|done]. intros u v Hu. apply elem_of_nb. lia.
Qed.
End search.
End lists.
