(* ===== verification/VerifyProofs.v ===== *)
(** The validation of verify.c: it accepts exactly the breadth-first trees and returns
    the number of edges of the component. *)
From stdpp Require Import base numbers list relations.
From Stdlib Require Import ZArith Lia.
From S2P Require Import Prelude Kronecker Graph500 Graph.
Import Plain Verify.
Open Scope Z_scope.

Section levels.
Context (nv root : Z) (tree : list Z).
Hypothesis Hroot : 0 <= root < nv.
Hypothesis Htree : nv <= zlen tree.

(** The vertices that have a level lie on a way to the root along which levels go down
    by one. *)
Definition leveled (level : list Z) : Prop :=
  zlen level = nv /\ at_ level root = 0 /\
  forall v, 0 <= v < nv -> v <> root -> 0 <= at_ level v ->
    0 <= at_ tree v < nv /\ 0 <= at_ level (at_ tree v) /\ at_ level v = at_ level (at_ tree v) + 1.

(** Levels are below the number of vertices: each smaller one occurs. *)
Lemma level_occurs level v n : leveled level -> 0 <= v < nv -> 0 <= n <= at_ level v -> exists w, 0 <= w < nv /\ at_ level w = n.
Proof.
  intros (Hl & H0 & Hlv) Hv Hn. remember (Z.to_nat (at_ level v - n)) as m eqn:Em. revert v Hv Hn Em.
  induction m as [|m IH]; intros v Hv Hn Em; [exists v; lia|].
  destruct (decide (v = root)) as [->|Hne]; [lia|]. destruct (Hlv v Hv Hne) as (Hp & Hpl & Heq); [lia|]. apply (IH (at_ tree v)); lia.
Qed.

Lemma level_below level v : leveled level -> 0 <= v < nv -> at_ level v < nv.
Proof.
  intros Hl Hv. destruct (Z.lt_ge_cases (at_ level v) 0); [lia|].
  assert (Hsub : seqZ 0 (at_ level v + 1) ⊆+ (at_ level <$> seqZ 0 nv)).
  { apply NoDup_submseteq; [apply NoDup_seqZ|]. intros n Hn%elem_of_seqZ. destruct (level_occurs level v n Hl Hv) as (w & Hw & Hwn); [lia|].
    apply list_elem_of_fmap. exists w. split; [done|]. apply elem_of_seqZ. lia. }
  apply submseteq_length in Hsub. rewrite length_fmap, !length_seqZ in Hsub. lia.
Qed.

(** ** One vertex *)

Section vertex.
Context (level : list Z) (k : Z).
Hypothesis Hlev : leveled level.
Hypothesis Hk : 0 <= k < nv.

(** The way up. *)
Fixpoint up (n : nat) : Z := match n with O => k | S n => at_ tree (up n) end.

Definition way (n : nat) : Prop := forall i, (i < n)%nat -> 0 <= up i < nv /\ at_ level (up i) < 0.

Lemma run_up_ok p n :
  run_up nv tree level k = Ok (p, n) -> 0 <= n /\ p = up (Z.to_nat n) /\ way (Z.to_nat n) /\ (0 <= p -> p < nv /\ (n < nv -> 0 <= at_ level p)).
Proof.
  intros Hrun. destruct Hlev as (Hll & _). unfold run_up in Hrun.
  eapply (while_loop_ok (fun '(p, n) => 0 <= n /\ p = up (Z.to_nat n) /\ way (Z.to_nat n))) in Hrun as [(Hn & Hp & Hw) Hend].
  - split_and!; try done. destruct (Z.leb_spec 0 p) as [H0|H0]; cbn [negb] in Hend; [|lia].
    intros _. unfold aread in Hend. rewrite decide_True in Hend by done. destruct (level !! Z.to_nat p) as [l|] eqn:El; [|done]. cbn [of_option mbind res_bind] in Hend.
    pose proof (lookup_lt_Some _ _ _ El). injection Hend as Hend. split; [unfold zlen in Hll; lia|]. intros Hlt.
    unfold at_. rewrite decide_True, El by done. simpl. apply andb_false_iff in Hend as [Hend%Z.ltb_ge|Hend%Z.ltb_ge]; lia.
  - split_and!; try done. intros i Hi. lia.
  - intros [p0 n0] [p1 n1] (Hn & -> & Hw) Hc Hb. set (m := Z.to_nat n0) in *.
    destruct (Z.leb_spec 0 (up m)) as [H0|]; cbn [negb] in Hc; [|done].
    unfold aread in Hc. rewrite decide_True in Hc by done. destruct (level !! Z.to_nat (up m)) as [l|] eqn:El; [|done]. cbn [of_option mbind res_bind] in Hc.
    injection Hc as [Hc%Z.ltb_lt _]%andb_true_iff. pose proof (lookup_lt_Some _ _ _ El). assert (Hm : 0 <= up m < nv) by (unfold zlen in Hll; lia).
    rewrite at_read in Hb by lia. cbn [mbind res_bind] in Hb. destruct (negb _); cbn [check mbind res_bind] in Hb; [|done]. injection Hb as <- <-.
    replace (Z.to_nat (n0 + 1)) with (S m) by lia. split_and!; [lia|done|]. intros i Hi. destruct (decide (i = m)) as [->|]; [|apply Hw; lia].
    split; [done|]. unfold at_. rewrite decide_True, El by done. done.
Qed.

(** Where the way meets a vertex with a level. *)
Context (n : nat).
Hypothesis Hway : way n.
Hypothesis Hmeet : 0 <= up n < nv /\ 0 <= at_ level (up n).

Lemma up_add i j m : up i = up j -> up (m + i) = up (m + j).
Proof. intros H. induction m as [|m IH]; simpl; [done|]. now rewrite IH. Qed.

Lemma way_distinct i j : (i < j)%nat -> (j <= n)%nat -> up i <> up j.
Proof.
  intros Hij Hj Heq. pose proof (up_add i j (n - j) Heq) as H. replace (n - j + j)%nat with n in H by lia.
  destruct (Hway (n - j + i)%nat) as [_ Hneg]; [lia|]. rewrite H in Hneg. lia.
Qed.

Lemma assign_spec :
  (Z.of_nat n < nv) ->
  exists level', assign_levels nv tree level k (Z.of_nat n + at_ level (up n)) = Ok level' /\ zlen level' = nv /\
    (forall i, (i < n)%nat -> at_ level' (up i) = Z.of_nat n + at_ level (up n) - Z.of_nat i) /\
    forall v, (forall i, (i < n)%nat -> v <> up i) -> at_ level' v = at_ level v.
Proof.
  intros Hn. destruct Hlev as (Hll & _). set (L := at_ level (up n)). unfold assign_levels.
  match goal with |- context [while_loop ?f ?co ?bo ?st0] =>
    destruct (while_loop_inv (fun '(lev, p, nh) => exists i, (i <= n)%nat /\ p = up i /\ nh = Z.of_nat n + L - Z.of_nat i /\ zlen lev = nv /\
        (forall m, (m < i)%nat -> at_ lev (up m) = Z.of_nat n + L - Z.of_nat m) /\
        forall v, (forall m, (m < i)%nat -> v <> up m) -> at_ lev v = at_ level v)
      (fun '(_, _, nh) => Z.to_nat (nh - L)) f co bo st0) as ([[lev p] nh] & Hrun & (i & Hi & -> & -> & Hl & Hset & Hrest) & Hend) end.
  - exists 0%nat. split_and!; [lia|done|lia|done|lia|done].
  - lia.
  - intros [[lev p] nh] (i & Hi & -> & -> & Hl & Hset & Hrest).
    assert (Hup : 0 <= up i < nv) by (destruct (decide (i = n)) as [->|]; [apply Hmeet|apply Hway; lia]).
    assert (Hat : at_ lev (up i) = at_ level (up i)) by (apply Hrest; intros m Hm Heq; symmetry in Heq; now apply way_distinct in Heq; [|lia|lia]).
    rewrite at_read by lia. cbn [mbind res_bind]. rewrite Hat. eexists. split; [done|]. intros Hneg%Z.ltb_lt.
    assert (Hin : (i < n)%nat) by (destruct (decide (i = n)) as [->|]; [lia|lia]). destruct (Z.ltb_spec 0 (Z.of_nat n + L - Z.of_nat i)); [|lia].
    cbn [check mbind res_bind]. rewrite awrite_in_bounds by lia. cbn [mbind res_bind]. rewrite at_read by lia. cbn [mbind res_bind].
    eexists. split; [done|]. split; [|lia]. exists (S i). rewrite zlen_insert. split_and!; [lia|done|lia|done| |].
    + intros m Hm. rewrite at_insert by lia. destruct (decide (m = i)) as [->|]; [now rewrite decide_True|].
      rewrite decide_False by (apply way_distinct; lia). apply Hset. lia.
    + intros v Hv. rewrite at_insert, decide_False by (lia || (apply Hv; lia)). apply Hrest. intros m Hm. apply Hv. lia.
  - rewrite Hrun. cbn [mbind res_bind].
    assert (Hup : 0 <= up i < nv) by (destruct (decide (i = n)) as [->|]; [apply Hmeet|apply Hway; lia]).
    assert (Hat : at_ lev (up i) = at_ level (up i)) by (apply Hrest; intros m Hm Heq; symmetry in Heq; now apply way_distinct in Heq; [|lia|lia]).
    rewrite at_read in Hend |- * by lia. cbn [mbind res_bind] in Hend |- *. rewrite Hat in *. injection Hend as Hend%Z.ltb_ge.
    assert (i = n) as -> by (destruct (decide (i = n)) as [|Hne]; [done|]; destruct (Hway i) as [_ ?]; lia).
    fold L. replace (Z.of_nat n + L - Z.of_nat n) with L by lia. rewrite Z.eqb_refl. cbn [check mbind res_bind]. now exists lev.
Qed.

Lemma assigned_leveled level' :
  zlen level' = nv ->
  (forall i, (i < n)%nat -> at_ level' (up i) = Z.of_nat n + at_ level (up n) - Z.of_nat i) ->
  (forall v, (forall i, (i < n)%nat -> v <> up i) -> at_ level' v = at_ level v) ->
  leveled level' /\ (forall v, 0 <= at_ level v -> at_ level' v = at_ level v) /\ 0 <= at_ level' k.
Proof.
  intros Hl' Hset Hrest. pose proof Hlev as (Hll & H0 & Hold).
  assert (Hkeep : forall v, 0 <= at_ level v -> at_ level' v = at_ level v).
  { intros v Hv. apply Hrest. intros i Hi ->. destruct (Hway i Hi). lia. }
  assert (Hval : forall i, (i <= n)%nat -> at_ level' (up i) = Z.of_nat n + at_ level (up n) - Z.of_nat i).
  { intros i Hi. destruct (decide (i = n)) as [->|]; [rewrite Hkeep by lia; lia|apply Hset; lia]. }
  split_and!; [|done|change k with (up 0); rewrite Hval by lia; lia].
  split_and!; [done|rewrite Hkeep; lia|]. intros v Hv Hne Hge.
  destruct (decide (v ∈ up <$> seq 0 n)) as [Hin|Hout].
  - apply list_elem_of_fmap in Hin as (i & -> & Hi%elem_of_seq). change (at_ tree (up i)) with (up (S i)). rewrite !Hval by lia.
    split; [|lia]. destruct (decide (S i = n)) as [<-|]; [apply Hmeet|apply Hway; lia].
  - assert (Hsame : at_ level' v = at_ level v).
    { apply Hrest. intros i Hi ->. apply Hout, list_elem_of_fmap. exists i. split; [done|]. apply elem_of_seq. lia. }
    rewrite Hsame in *.
    destruct (Hold v Hv Hne Hge) as (Hp & Hpl & Heq). split; [done|]. rewrite Hkeep by done. lia.
Qed.
End vertex.

Lemma check_levels_spec level k :
  leveled level -> 0 <= k < nv -> 0 <= at_ level k -> check_levels nv tree level k = Ok tt.
Proof.
  intros Hlev Hk H0. pose proof Hlev as (Hll & Hr & Hlv). unfold check_levels. rewrite at_read by lia. cbn [mbind res_bind].
  match goal with |- context [while_loop ?f ?co ?bo ?st0] =>
    destruct (while_loop_inv (fun '(p, last) => 0 <= p < nv /\ 0 <= at_ level p /\ last = 1 + at_ level p)
      (fun '(p, _) => Z.to_nat (at_ level p)) f co bo st0) as ([p last] & -> & _) end; [lia| | |done].
  - pose proof (level_below level k Hlev Hk). lia.
  - intros [p last] (Hp & Hl & ->). rewrite at_read by lia. cbn [mbind res_bind]. eexists. split; [done|]. intros Hpos%Z.ltb_lt.
    rewrite Z.eqb_refl. cbn [check mbind res_bind]. rewrite at_read by lia. cbn [mbind res_bind]. eexists. split; [done|].
    destruct (Hlv p Hp) as (Hq & Hql & Heq); [intros ->; lia|lia|]. lia.
Qed.

(** What a vertex that is done leaves behind. *)
Lemma level_vertex_ok level err k level' err' :
  leveled level -> err <= 0 -> 0 <= k < nv -> level_vertex nv tree root k (level, err) = Ok (level', err') ->
  leveled level' /\ err' <= 0 /\ (forall v, 0 <= at_ level v -> at_ level' v = at_ level v) /\
  (err' = 0 -> err = 0 /\ (0 <= at_ tree k -> 0 <= at_ level' k)).
Proof.
  intros Hlev Herr Hk. pose proof Hlev as (Hll & Hr0 & _). unfold level_vertex. rewrite (at_read level k) by lia. cbn [mbind res_bind].
  destruct (Z.leb_spec 0 (at_ level k)) as [Hdone|Hneg]; [cbv match; intros Heq; injection Heq as <- <-; now auto|].
  destruct (Z.eqb_spec err 0) as [->|Hne]; cbn [negb]; cbv match; [|intros Heq; injection Heq as <- <-; now auto].
  rewrite (at_read tree k) by lia. cbn [mbind res_bind].
  destruct (Z.leb_spec 0 (at_ tree k)) as [Hin|Hout]; cbn [negb orb]; [|intros [= <- <-]; split_and!; try done; intros; split; [done|lia]].
  destruct (Z.eqb_spec k root) as [->|Hkr]; [lia|].
  destruct (run_up nv tree level k) as [[p n]|] eqn:Erun; cbn [mbind res_bind]; [|done].
  destruct (run_up_ok level k Hlev p n Erun) as (Hn & -> & Hw & Hmeet).
  destruct (Z.ltb_spec (up k (Z.to_nat n)) 0) as [Hp|Hp]; cbn [negb Z.eqb]; [intros [= <- <-]; split_and!; done|].
  destruct (Z.leb_spec nv n) as [Hbig|Hsmall]; cbn [negb Z.eqb]; [intros [= <- <-]; split_and!; done|].
  destruct (Hmeet Hp) as [Hrange Hge]. specialize (Hge Hsmall). rewrite at_read by lia. cbn [mbind res_bind].
  destruct (assign_spec level k Hlev Hk (Z.to_nat n) Hw) as (lev & Hrun & Hl & Hset & Hrest); [lia|lia|].
  rewrite Z2Nat.id in Hrun by lia. rewrite Hrun. cbn [mbind res_bind].
  destruct (assigned_leveled level k Hlev (Z.to_nat n) Hw) with (level' := lev) as (Hlev' & Hkeep & Hk0); [lia|done|done|done|].
  rewrite (check_levels_spec lev k Hlev' Hk Hk0). cbn [mbind res_bind]. intros [= <- <-]. split_and!; try done.
Qed.

Lemma compute_levels_init level0 :
  zlen level0 = nv ->
  exists level, for_range 0 nv (fun k level => awrite level k (if k =? root then 0 else -1)) level0 = Ok level /\ leveled level /\
    forall v, 0 <= v < nv -> at_ level v = if decide (v = root) then 0 else -1.
Proof.
  intros Hl0. for_inv (fun k level => zlen level = nv /\ forall v, 0 <= v < k -> at_ level v = if decide (v = root) then 0 else -1) level HP.
  - lia.
  - split; [done|]. intros; lia.
  - intros k a Hk [Hl Ha]. rewrite awrite_in_bounds by lia. eexists. split; [done|]. rewrite zlen_insert. split; [done|].
    intros v Hv. rewrite at_insert by lia. destruct (decide (v = k)) as [->|]; [|apply Ha; lia].
    destruct (Z.eqb_spec k root), (decide (k = root)); done.
  - destruct HP as [Hl Ha]. exists level. split; [done|]. split; [|done]. split_and!; [done|rewrite Ha, decide_True by done; done|].
    intros v Hv Hne Hge. rewrite Ha, decide_False in Hge by done. lia.
Qed.

Lemma compute_levels_ok level0 level err :
  zlen level0 = nv -> compute_levels level0 nv tree root = Ok (level, err) ->
  leveled level /\ err <= 0 /\ (err = 0 -> forall v, 0 <= v < nv -> 0 <= at_ tree v -> 0 <= at_ level v).
Proof.
  intros Hl0. unfold compute_levels. destruct (compute_levels_init level0 Hl0) as (lv & -> & Hlv & _). cbn [mbind res_bind]. intros Hrun.
  apply (for_range_ok (fun k '(l, e) => leveled l /\ e <= 0 /\ (e = 0 -> forall v, 0 <= v < k -> 0 <= at_ tree v -> 0 <= at_ l v)))
    in Hrun; [done|lia|split_and!; [done|lia|intros; lia]|].
  intros k [l e] [l' e'] Hk (Hlev & He & Hall) Hstep. destruct (level_vertex_ok l e k l' e' Hlev He Hk Hstep) as (Hlev' & He' & Hkeep & H0).
  split_and!; [done|done|]. intros ->. destruct H0 as [-> H0]; [done|]. intros v Hv Ht.
  destruct (decide (v = k)) as [->|]; [auto|]. rewrite Hkeep; apply Hall; done || lia.
Qed.

(** ** A breadth-first tree has all its levels *)

Section complete.
Context (R : Z -> Z -> Prop) (d : Z -> Z).
Hypothesis Hbfs : bfs_ok R nv root tree d.

Lemma depth_occurs v n : 0 <= v < nv -> 0 <= at_ tree v -> 0 <= n <= d v -> exists w, 0 <= w < nv /\ d w = n.
Proof.
  intros Hv Ht Hn. remember (Z.to_nat (d v - n)) as m eqn:Em. revert v Hv Ht Hn Em.
  induction m as [|m IH]; intros v Hv Ht Hn Em; [exists v; lia|].
  destruct (decide (v = root)) as [->|Hne]; [destruct (bo_root _ _ _ _ _ Hbfs) as (_ & _ & ?); lia|].
  destruct (bo_parent _ _ _ _ _ Hbfs v Hv Hne Ht) as (Hp & Hpt & _ & Heq). apply (IH (at_ tree v)); lia.
Qed.

Lemma depth_below v : 0 <= v < nv -> 0 <= at_ tree v -> d v < nv.
Proof.
  intros Hv Ht. pose proof (bo_pos _ _ _ _ _ Hbfs v Hv Ht).
  assert (Hsub : seqZ 0 (d v + 1) ⊆+ (d <$> seqZ 0 nv)).
  { apply NoDup_submseteq; [apply NoDup_seqZ|]. intros n Hn%elem_of_seqZ. destruct (depth_occurs v n Hv Ht) as (w & Hw & Hwn); [lia|].
    apply list_elem_of_fmap. exists w. split; [done|]. apply elem_of_seqZ. lia. }
  apply submseteq_length in Hsub. rewrite length_fmap, !length_seqZ in Hsub. lia.
Qed.

Lemma run_up_total level k :
  leveled level -> 0 <= k < nv -> 0 <= at_ tree k -> exists p n, run_up nv tree level k = Ok (p, n) /\ 0 <= p /\ n < nv.
Proof.
  intros (Hll & Hr & _) Hk Ht. pose proof (depth_below k Hk Ht) as Hd. unfold run_up.
  match goal with |- context [while_loop ?f ?co ?bo ?st0] =>
    destruct (while_loop_inv (fun '(p, n) => 0 <= p < nv /\ 0 <= at_ tree p /\ n = d k - d p)
      (fun '(p, _) => Z.to_nat (d p)) f co bo st0) as ([p n] & -> & (Hp & Hpt & ->) & _) end; [lia|lia| |].
  - intros [p n] (Hp & Hpt & ->). destruct (Z.leb_spec 0 p); [|lia]. cbn [negb]. rewrite at_read by lia. cbn [mbind res_bind].
    eexists. split; [done|]. intros [Hneg%Z.ltb_lt _]%andb_true_iff. assert (Hne : p <> root) by (intros ->; lia).
    destruct (bo_parent _ _ _ _ _ Hbfs p Hp Hne Hpt) as (Hq & Hqt & _ & Heq). rewrite at_read by lia. cbn [mbind res_bind].
    destruct (Z.eqb_spec p (at_ tree p)) as [Hself|]; [rewrite <- Hself in Heq; lia|]. cbn [negb check mbind res_bind].
    eexists. split; [done|]. pose proof (bo_pos _ _ _ _ _ Hbfs _ (conj Hpt Hq) Hqt). cbv beta match. lia.
  - exists p, (d k - d p). pose proof (bo_pos _ _ _ _ _ Hbfs p Hp Hpt). split_and!; done || lia.
Qed.

Lemma level_vertex_total level k :
  leveled level -> 0 <= k < nv -> exists level', level_vertex nv tree root k (level, 0) = Ok (level', 0).
Proof.
  intros Hlev Hk. pose proof Hlev as (Hll & Hr0 & _). unfold level_vertex. rewrite (at_read level k) by lia. cbn [mbind res_bind].
  destruct (Z.leb_spec 0 (at_ level k)); [now eexists|]. cbn [Z.eqb negb]. rewrite (at_read tree k) by lia. cbn [mbind res_bind].
  destruct (Z.leb_spec 0 (at_ tree k)) as [Ht|]; cbn [negb orb]; [|now eexists]. destruct (Z.eqb_spec k root) as [|Hkr]; [now eexists|].
  destruct (run_up_total level k Hlev Hk Ht) as (p & n & Erun & Hp0 & Hnv). rewrite Erun. cbn [mbind res_bind].
  destruct (run_up_ok level k Hlev p n Erun) as (Hn & -> & Hw & Hmeet). destruct (Hmeet Hp0) as [Hrange Hge]. specialize (Hge Hnv).
  destruct (Z.ltb_spec (up k (Z.to_nat n)) 0); [lia|]. destruct (Z.leb_spec nv n); [lia|]. cbn [Z.eqb negb].
  rewrite at_read by lia. cbn [mbind res_bind].
  destruct (assign_spec level k Hlev Hk (Z.to_nat n) Hw) as (lev & Hrun & Hl & Hset & Hrest); [lia|lia|].
  rewrite Z2Nat.id in Hrun by lia. rewrite Hrun. cbn [mbind res_bind].
  destruct (assigned_leveled level k Hlev (Z.to_nat n) Hw) with (level' := lev) as (Hlev' & Hkeep & Hk0); [lia|done|done|done|].
  rewrite (check_levels_spec lev k Hlev' Hk Hk0). now eexists.
Qed.

Lemma compute_levels_total level0 : zlen level0 = nv -> exists level, compute_levels level0 nv tree root = Ok (level, 0).
Proof.
  intros Hl0. unfold compute_levels. destruct (compute_levels_init level0 Hl0) as (lv & -> & Hlv & _). cbn [mbind res_bind].
  destruct (for_range_inv (fun _ '(l, e) => leveled l /\ e = 0) 0 nv (level_vertex nv tree root) (lv, 0)) as ([l e] & Hrun & _ & ->); [lia|done| |now exists l].
  intros k [l e] Hk [Hl ->]. destruct (level_vertex_total l k Hl Hk) as (l' & Hrun). exists (l', 0). split; [done|]. split; [|done].
  eapply level_vertex_ok; [exact Hl| |exact Hk|exact Hrun]. lia.
Qed.

(** and they are its depths. *)
Lemma levels_are_depths level v :
  leveled level -> (forall v, 0 <= v < nv -> 0 <= at_ tree v -> 0 <= at_ level v) -> 0 <= v < nv -> 0 <= at_ tree v -> at_ level v = d v.
Proof.
  intros (Hll & Hr & Hlv) Hall Hv Ht. remember (Z.to_nat (d v)) as m eqn:Em. revert v Hv Ht Em. induction m as [|m IH]; intros v Hv Ht Em;
    pose proof (bo_pos _ _ _ _ _ Hbfs v Hv Ht); destruct (bo_root _ _ _ _ _ Hbfs) as (_ & _ & Hdr);
    (destruct (decide (v = root)) as [->|Hne]; [lia|]); destruct (bo_parent _ _ _ _ _ Hbfs v Hv Hne Ht) as (Hp & Hpt & _ & Heq).
  - pose proof (bo_pos _ _ _ _ _ Hbfs _ (conj Ht Hp) Hpt). lia.
  - destruct (Hlv v Hv Hne (Hall v Hv Ht)) as (_ & _ & ->). rewrite (IH (at_ tree v)); lia.
Qed.
End complete.
End levels.

(** ** Edges and vertices *)

Section edges.
Context (mb : Z) (tree level : list Z).
Notation nv := (mb + 1).
Hypothesis Hnv : 0 <= nv.
Hypothesis Htree : nv <= zlen tree.
Hypothesis Hlevel : zlen level = nv.

Definition edge_ok (e : packed_edge) : Prop :=
  0 <= v0 e -> 0 <= v1 e ->
  (v0 e < nv <-> v1 e < nv) /\
  (v0 e < nv -> v1 e < nv -> (0 <= at_ tree (v0 e) <-> 0 <= at_ tree (v1 e)) /\
    (0 <= at_ tree (v0 e) -> -1 <= at_ level (v0 e) - at_ level (v1 e) <= 1)).

Definition counted (e : packed_edge) : Prop := in_tree nv tree (v0 e) /\ in_tree nv tree (v1 e).

(** The edge is the tree edge of [v]. *)
Definition marks (e : packed_edge) (v : Z) : Prop :=
  v0 e <> v1 e /\ counted e /\ ((v0 e = v /\ at_ tree v = v1 e) \/ (v1 e = v /\ at_ tree v = v0 e)).

#[local] Instance counted_dec e : Decision (counted e).
Proof. unfold counted. apply _. Defined.
#[local] Instance marks_dec e v : Decision (marks e v).
Proof. unfold marks. apply _. Defined.

(** Marking an edge whose ends are in the tree. *)
Lemma mark_spec e seen :
  zlen seen = nv -> counted e ->
  exists seen', (if v0 e =? v1 e then Ok seen else
      (seen ← if at_ tree (v0 e) =? v1 e then awrite seen (v0 e) 1 else Ok seen;
       if at_ tree (v1 e) =? v0 e then awrite seen (v1 e) 1 else Ok seen)) = Ok seen' /\
    zlen seen' = nv /\ forall v, 0 <= v < nv -> at_ seen' v = if decide (marks e v) then 1 else at_ seen v.
Proof.
  intros Hl Hc. pose proof Hc as [[Hi Hti] [Hj Htj]]. unfold marks. destruct (Z.eqb_spec (v0 e) (v1 e)) as [Heq|Hne].
  { exists seen. split_and!; try done. intros v Hv. rewrite decide_False; [done|]. now intros (? & _). }
  assert (Hput : forall (w : Z) (x : bool) (a : list Z), zlen a = nv -> 0 <= w < nv -> exists a', (if x then awrite a w 1 else Ok a) = Ok a' /\ zlen a' = nv /\
    forall v, at_ a' v = if decide (x = true /\ w = v) then 1 else at_ a v).
  { intros w x a Ha Hw. destruct x.
    - rewrite awrite_in_bounds by lia. eexists. split; [done|]. rewrite zlen_insert. split; [done|]. intros v. rewrite at_insert by lia.
      destruct (decide (v = w)), (decide (true = true /\ w = v)); try done; intuition congruence.
    - exists a. split_and!; try done. }
  destruct (Hput (v0 e) (at_ tree (v0 e) =? v1 e) seen Hl Hi) as (s1 & -> & Hl1 & Ha1). cbn [mbind res_bind].
  destruct (Hput (v1 e) (at_ tree (v1 e) =? v0 e) s1 Hl1 Hj) as (s2 & -> & Hl2 & Ha2).
  exists s2. split_and!; try done. intros v Hv. rewrite Ha2, Ha1.
  assert (E1 : (at_ tree (v1 e) =? v0 e) = true /\ v1 e = v <-> v1 e = v /\ at_ tree v = v0 e) by (rewrite Z.eqb_eq; intuition congruence).
  assert (E0 : (at_ tree (v0 e) =? v1 e) = true /\ v0 e = v <-> v0 e = v /\ at_ tree v = v1 e) by (rewrite Z.eqb_eq; intuition congruence).
  repeat case_decide; try done; tauto.
Qed.

Lemma verify_edge_spec e seen n :
  zlen seen = nv ->
  exists seen' n' err, verify_edge mb tree level e (seen, n, 0) = Ok (seen', n', err) /\ zlen seen' = nv /\ err <= 0 /\
    (err = 0 <-> edge_ok e) /\
    (err = 0 -> n' = n + (if decide (counted e) then 1 else 0) /\ forall v, 0 <= v < nv -> at_ seen' v = if decide (marks e v) then 1 else at_ seen v).
Proof.
  intros Hl. unfold verify_edge, get_v0_from_edge, get_v1_from_edge, edge_ok.
  set (i := v0 e). set (j := v1 e).
  assert (Hno : ~ (in_tree nv tree i /\ in_tree nv tree j) -> forall v, ~ marks e v) by (intros Hc v (_ & Hc' & _); done).
  assert (Hskip : ~ counted e -> n = n + (if decide (counted e) then 1 else 0) /\
    forall v, 0 <= v < nv -> at_ seen v = if decide (marks e v) then 1 else at_ seen v).
  { intros Hc. rewrite decide_False by done. split; [lia|]. intros v Hv. rewrite decide_False; [done|]. now apply Hno. }
  unfold counted, in_tree in Hskip. fold i j in Hskip.
  destruct (Z.ltb_spec i 0), (Z.ltb_spec j 0); cbn [orb];
    try (eexists _, _, _; split; [done|]; split_and!; [done|done|split; [lia|done]|intros _; apply Hskip; unfold counted, in_tree; fold i j; lia]).
  destruct (Z.ltb_spec mb i), (Z.leb_spec j mb), (Z.ltb_spec mb j), (Z.leb_spec i mb); cbn [andb negb Z.eqb orb]; try lia;
    try (eexists _, _, _; split; [done|]; split_and!; [done|done|split; [done|lia]|done]).
  { eexists _, _, _; split; [done|]; split_and!; [done|done|split; [lia|done]|intros _; apply Hskip; unfold counted, in_tree; fold i j; lia]. }
  rewrite (at_read tree i), (at_read tree j) by lia. cbn [mbind res_bind].
  destruct (Z.leb_spec 0 (at_ tree i)), (Z.ltb_spec (at_ tree j) 0), (Z.leb_spec 0 (at_ tree j)), (Z.ltb_spec (at_ tree i) 0);
    cbn [andb negb Z.eqb orb]; try lia;
    try (eexists _, _, _; split; [done|]; split_and!; [done|done|split; [done|lia]|done]).
  - destruct (mark_spec e seen Hl) as (seen' & Hrun & Hl' & Hm); [unfold counted, in_tree; fold i j; lia|].
    fold i j in Hrun. rewrite Hrun. cbn [mbind res_bind]. rewrite (at_read level i), (at_read level j) by lia. cbn [mbind res_bind].
    eexists _, _, _. split; [done|].
    assert (Hcnt : counted e) by (unfold counted, in_tree; fold i j; lia).
    destruct (Z.ltb_spec 1 (at_ level i - at_ level j)), (Z.ltb_spec (at_ level i - at_ level j) (-1)); cbn [orb];
      split_and!; try done; try lia; rewrite decide_True by done; split; [lia|done].
  - eexists _, _, _; split; [done|]; split_and!; [done|done|split; [lia|done]|intros _; apply Hskip; unfold counted, in_tree; fold i j; lia].
Qed.

Lemma verify_edge_err e seen n err :
  err < 0 -> exists err', verify_edge mb tree level e (seen, n, err) = Ok (seen, n, err') /\ err' < 0.
Proof.
  intros Herr. unfold verify_edge. set (i := get_v0_from_edge e). set (j := get_v1_from_edge e).
  destruct (_ || _); [now eexists|].
  assert (H : exists t, (if (mb <? j) && (i <=? mb) then -11 else if (mb <? i) && (j <=? mb) then -10 else err) = t /\ t < 0)
    by (destruct ((mb <? j) && (i <=? mb)), ((mb <? i) && (j <=? mb)); eexists; split; done || lia).
  destruct H as (t & -> & Ht). destruct (Z.eqb_spec t 0); [lia|]. cbn [negb orb]. now eexists.
Qed.

Lemma verify_edges_spec IJ seen :
  zlen seen = nv -> (forall v, 0 <= v < nv -> at_ seen v = 0) ->
  exists seen' n err, mfold (verify_edge mb tree level) IJ (seen, 0, 0) = Ok (seen', n, err) /\ zlen seen' = nv /\ err <= 0 /\
    (err = 0 <-> forall e, e ∈ IJ -> edge_ok e) /\
    (err = 0 -> n = tree_edges nv tree IJ /\ forall v, 0 <= v < nv -> at_ seen' v <> 0 <-> exists e, e ∈ IJ /\ marks e v).
Proof.
  intros Hl H0.
  destruct (mfold_inv (fun l '(seen', n, err) => zlen seen' = nv /\ err <= 0 /\ (err = 0 <-> forall e, e ∈ l -> edge_ok e) /\
    (err = 0 -> n = tree_edges nv tree l /\ forall v, 0 <= v < nv -> at_ seen' v <> 0 <-> exists e, e ∈ l /\ marks e v))
    (verify_edge mb tree level) IJ (seen, 0, 0)) as ([[seen' n] err] & Hrun & HP); [| |now exists seen', n, err].
  - split_and!; try done; [split; [|done]; intros _ e He; now apply not_elem_of_nil in He|]. intros _. split; [done|].
    intros v Hv. rewrite H0 by done. split; [done|]. intros (e & He & _). now apply not_elem_of_nil in He.
  - intros l1 e l2 [[s n] err] _ (Hls & Herr & Hiff & Hok). destruct (decide (err = 0)) as [->|Hne].
    + destruct (verify_edge_spec e s n Hls) as (s' & n' & err' & -> & Hl' & Herr' & Hiff' & Hok'). eexists. split; [done|]. cbv beta match.
      destruct (Hok eq_refl) as [-> Hseen]. split_and!; [done|done| |].
      * rewrite Hiff'. setoid_rewrite elem_of_app. setoid_rewrite list_elem_of_singleton. destruct Hiff as [Hall _]. specialize (Hall eq_refl).
        split; [intros He x [Hx| ->]; auto|auto].
      * intros ->. destruct (Hok' eq_refl) as [-> Hs']. split.
        -- unfold tree_edges. rewrite filter_app, zlen_app. f_equal. rewrite filter_cons, filter_nil.
           destruct (decide (counted e)) as [Hc|Hc]; [now rewrite decide_True by exact Hc|now rewrite decide_False by exact Hc].
        -- intros v Hv. rewrite Hs' by done. setoid_rewrite elem_of_app. setoid_rewrite list_elem_of_singleton.
           destruct (decide (marks e v)) as [Hm|Hm]; [split; [|done]; intros _; exists e; auto|]. rewrite Hseen by done.
           split; [intros (x & Hx & Hmx); eauto|]. intros (x & [Hx| ->] & Hmx); [eauto|done].
    + destruct (verify_edge_err e s n err) as (err' & -> & Hneg); [lia|]. eexists. split; [done|]. split_and!; [done|lia| |lia].
      split; [lia|]. intros Hall. exfalso. apply Hne, Hiff. intros x Hx. apply Hall, elem_of_app. now left.
Qed.

Lemma verify_vertices_spec seen root :
  zlen seen = nv ->
  exists err, for_range 0 nv (verify_vertex tree seen root) 0 = Ok err /\ err <= 0 /\
    (err = 0 <-> forall v, 0 <= v < nv -> v <> root -> (0 <= at_ tree v -> at_ seen v <> 0) /\ at_ tree v <> v).
Proof.
  intros Hl. for_inv (fun k err => err <= 0 /\
    (err = 0 <-> forall v, 0 <= v < k -> v <> root -> (0 <= at_ tree v -> at_ seen v <> 0) /\ at_ tree v <> v)) err HP.
  - done.
  - split; [done|]. split; [intros _ v Hv; lia|done].
  - intros k err Hk [Herr Hiff]. unfold verify_vertex.
    destruct (Z.eqb_spec err 0) as [->|Hne]; cbn [negb orb].
    + assert (Hprev : forall v, 0 <= v < k -> v <> root -> (0 <= at_ tree v -> at_ seen v <> 0) /\ at_ tree v <> v) by now apply Hiff.
      assert (Hext : forall v, 0 <= v < k + 1 -> v = k \/ 0 <= v < k) by (intros; lia).
      destruct (Z.eqb_spec k root) as [->|Hkr].
      * eexists. split; [done|]. split; [done|]. split; [|done]. intros _ v Hv Hne. destruct (Hext v Hv) as [->|]; [done|auto].
      * rewrite (at_read tree k) by lia. cbn [mbind res_bind]. 
        assert (Hrd : exists x, (if 0 <=? at_ tree k then aread seen k else Ok 1) = Ok x /\ (0 <= at_ tree k -> x = at_ seen k)).
        { destruct (Z.leb_spec 0 (at_ tree k)); [rewrite at_read by lia; now eexists|]. eexists. split; [done|]. lia. }
        destruct Hrd as (x & -> & Hx). cbn [mbind res_bind]. eexists. split; [done|].
        assert (Hcase : forall b : Z, (b = 0 <-> (0 <= at_ tree k -> at_ seen k <> 0) /\ at_ tree k <> k) ->
          (b = 0 <-> forall v, 0 <= v < k + 1 -> v <> root -> (0 <= at_ tree v -> at_ seen v <> 0) /\ at_ tree v <> v)).
        { intros b Hb. rewrite Hb. split; [intros Hcur v Hv Hne; destruct (Hext v Hv) as [->|]; auto|]. intros Hall. apply Hall; [lia|done]. }
        destruct (Z.leb_spec 0 (at_ tree k)) as [Ht|Ht], (Z.eqb_spec x 0) as [Hx0|Hx0], (Z.eqb_spec (at_ tree k) k) as [Hs|Hs]; cbn [andb];
          (split; [lia|]); apply Hcase; try (specialize (Hx Ht)); split; try lia; try (intros _; split; lia); intros [Ha Hb]; lia.
    + eexists. split; [done|]. split; [done|]. split; [lia|]. intros Hall. exfalso. apply Hne, Hiff. intros v Hv. apply Hall. lia.
  - now exists err.
Qed.
End edges.

(** ** The validation *)

Section verify.
Context `{M : Malloc, !MallocLaws M}.
Context (tree : list Z) (mb root : Z) (IJ : list packed_edge).
Notation nv := (mb + 1).
Hypothesis Htree : nv <= zlen tree.
Hypothesis Hsize : nv < 2 ^ 58.

(** What remains after the levels are computed. *)
Lemma verify_rest level block :
  0 <= root < nv -> zlen level = nv -> zlen block = 2 * nv ->
  exists r, (seen_edge ← fill (take (Z.to_nat nv) block) 0 nv 0;
    '(seen_edge, nedge_traversed, err) ← for_range 0 (zlen IJ) (fun k s => e ← aread IJ k; verify_edge mb tree level e s) (seen_edge, 0, 0);
    err ← if negb (err =? 0) then Ok err else for_range 0 nv (verify_vertex tree seen_edge root) err;
    Ok (if negb (err =? 0) then err else nedge_traversed)) = Ok r /\
  let good := (forall e, e ∈ IJ -> edge_ok mb tree level e) /\
    forall v, 0 <= v < nv -> v <> root -> (0 <= at_ tree v -> exists e, e ∈ IJ /\ marks mb tree e v) /\ at_ tree v <> v in
  (0 <= r <-> good) /\ (good -> r = tree_edges nv tree IJ).
Proof.
  intros Hroot Hl Hb. assert (Hnn : 0 <= tree_edges nv tree IJ) by apply zlen_nonneg.
  destruct (fill_spec (take (Z.to_nat nv) block) 0 nv 0) as (seen & -> & Hls & Has); [lia|lia|unfold zlen in *; rewrite length_take; lia|].
  cbn [mbind res_bind]. rewrite for_list. assert (Hls' : zlen seen = nv) by (rewrite Hls; unfold zlen in *; rewrite length_take; lia).
  destruct (verify_edges_spec mb tree level Htree Hl IJ seen Hls') as (s' & n & err & -> & Hl' & Herr & Hiff & Hok).
  { intros v Hv. now rewrite Has, decide_True. }
  cbn [mbind res_bind]. destruct (Z.eqb_spec err 0) as [->|Hne]; cbn [negb].
  - destruct (Hok eq_refl) as [-> Hseen]. destruct (verify_vertices_spec mb tree ltac:(lia) Htree s' root Hl') as (err' & -> & Herr' & Hiff'). cbn [mbind res_bind].
    assert (Hgood : err' = 0 <-> forall v, 0 <= v < nv -> v <> root -> (0 <= at_ tree v -> exists e, e ∈ IJ /\ marks mb tree e v) /\ at_ tree v <> v).
    { rewrite Hiff'. split; intros H v Hv Hne; (split; [intros Ht; apply (Hseen v Hv)|]); now apply H. }
    eexists. split; [done|]. destruct (Z.eqb_spec err' 0) as [->|Hne']; cbn [negb].
    + split; [split; [intros _; split; [now apply Hiff|now apply Hgood]|done]|done].
    + split; [split; [lia|intros [_ H]; apply Hgood in H; lia]|]. intros [_ H]. apply Hgood in H. lia.
  - cbn [mbind res_bind]. destruct (Z.eqb_spec err 0); [lia|]. cbn [negb]. eexists. split; [done|].
    split; [split; [lia|intros [H _]; apply Hiff in H; lia]|]. intros [H _]. apply Hiff in H. lia.
Qed.

Lemma xmalloc_length n a : 0 <= n < 2 ^ 60 -> xmalloc (int64s n) 8 = Ok a -> zlen a = n.
Proof.
  intros Hn. unfold xmalloc. intros H%of_option_Ok. rewrite int64s_small in H by done. rewrite (malloc_length _ _ _ H) by lia. apply Z.div_mul. lia.
Qed.

Lemma verify_sound n :
  verify_bfs_tree tree mb root IJ (zlen IJ) = Ok n -> 0 <= n ->
  (exists d, bfs_ok (adj IJ) nv root tree d) /\ n = tree_edges nv tree IJ.
Proof.
  intros Hrun Hn. unfold verify_bfs_tree in Hrun. destruct (Z.ltb_spec mb root) as [|Hr]; [injection Hrun as <-; lia|].
  destruct (aread tree root) as [t|] eqn:Et; [|done]. apply aread_Ok in Et as [H0 Et]. cbn [mbind res_bind] in Hrun.
  destruct (Z.eqb_spec t root) as [->|]; cbn [negb] in Hrun; [|injection Hrun as <-; lia].
  assert (Hat : at_ tree root = root) by (unfold at_; now rewrite decide_True, Et by done).
  rewrite i64_small in Hrun by lia. cbn [mbind res_bind] in Hrun. unfold xmalloc_large in Hrun.
  destruct (xmalloc _ _) as [block|] eqn:Eb; [|done]. cbn [mbind res_bind] in Hrun. apply xmalloc_length in Eb; [|lia].
  destruct (compute_levels _ _ _ _) as [[level err]|] eqn:El; [|done]. cbn [mbind res_bind] in Hrun.
  assert (Hlb : zlen (drop (Z.to_nat nv) block) = nv) by (unfold zlen in *; rewrite length_drop; lia).
  destruct (compute_levels_ok nv root tree ltac:(lia) Htree _ _ _ Hlb El) as (Hlev & Herr & Hall).
  destruct (Z.eqb_spec err 0) as [->|]; cbn [negb] in Hrun; [|injection Hrun as <-; lia]. specialize (Hall eq_refl).
  pose proof Hlev as (Hll & Hl0 & Hlv). destruct (verify_rest level block ltac:(lia) Hll Eb) as (r & Hrest & Hiff & Hcount).
  rewrite Hrest in Hrun. injection Hrun as ->. pose proof (proj1 Hiff Hn) as [He Hv]. split; [|now apply Hcount].
  exists (at_ level). split; [done|split; [lia|done]| | |auto].
  - intros v Hvr Hne Ht. destruct (Hv v Hvr Hne) as [Hm _]. destruct (Hm Ht) as (e & Hin & Hdiff & [[H1 H2] [H3 H4]] & Hends).
    destruct (Hlv v Hvr Hne (Hall v Hvr Ht)) as (Hp & _ & Heq). destruct e as [a b]; simpl in *.
    split_and!; [lia|destruct Hends as [[-> ->]|[-> ->]]; done| |done].
    unfold adj. destruct Hends as [[<- Heq']|[<- Heq']]; rewrite Heq' in *; split_and!; try lia; auto.
  - intros u v (Hu0 & Hv0 & Hne & Hin) Hu Ht. destruct Hin as [Hin|Hin]; destruct (He _ Hin) as [Hside Hlevels]; simpl in *; try lia;
      destruct Hlevels as [Hin' Hd]; try lia; specialize (Hd ltac:(tauto)); split_and!; try lia; tauto.
Qed.

Context {NO : MallocNoOom M}.

Lemma verify_complete d :
  bfs_ok (adj IJ) nv root tree d -> (forall e, e ∈ IJ -> v0 e <= mb /\ v1 e <= mb) ->
  verify_bfs_tree tree mb root IJ (zlen IJ) = Ok (tree_edges nv tree IJ).
Proof.
  intros Hbfs Hmax. pose proof (bo_root _ _ _ _ _ Hbfs) as (Hr & Hat & Hd0). unfold verify_bfs_tree. destruct (Z.ltb_spec mb root); [lia|].
  rewrite (at_read tree root) by lia. cbn [mbind res_bind]. rewrite Hat, Z.eqb_refl. cbn [negb]. rewrite i64_small by lia. cbn [mbind res_bind].
  unfold xmalloc_large. destruct (xmalloc_int64s (2 * nv)) as (block & -> & Hb); [lia|]. cbn [mbind res_bind].
  assert (Hlb : zlen (drop (Z.to_nat nv) block) = nv) by (unfold zlen in *; rewrite length_drop; lia).
  destruct (compute_levels_total nv root tree Hr Htree (adj IJ) d Hbfs _ Hlb) as (level & El). rewrite El. cbn [mbind res_bind].
  destruct (compute_levels_ok nv root tree Hr Htree _ _ _ Hlb El) as (Hlev & _ & Hall). specialize (Hall eq_refl). cbn [Z.eqb negb].
  assert (Hdep : forall v, 0 <= v < nv -> 0 <= at_ tree v -> at_ level v = d v) by (intros v; now apply (levels_are_depths nv root tree (adj IJ))).
  destruct (verify_rest level block Hr (proj1 Hlev) Hb) as (r & -> & _ & Hcount). f_equal. apply Hcount. clear Hcount. split.
  - intros e He. destruct (Hmax e He) as [Hm0 Hm1]. destruct e as [a b]; unfold edge_ok; simpl in *. intros H0 H1. split; [lia|]. intros Ha Hb'.
    destruct (decide (a = b)) as [->|Hne]; [split; [done|lia]|].
    assert (Hab : adj IJ a b) by (split_and!; auto). pose proof (adj_sym _ _ _ Hab) as Hba.
    pose proof (fun H => bo_closed _ _ _ _ _ Hbfs a b Hab (conj H0 Ha) H) as C1. pose proof (fun H => bo_closed _ _ _ _ _ Hbfs b a Hba (conj H1 Hb') H) as C2.
    split; [split; intros H'; [now apply C1|now apply C2]|]. intros Hta. destruct (C1 Hta) as (_ & Htb & D1). destruct (C2 Htb) as (_ & _ & D2).
    rewrite !Hdep by lia. lia.
  - intros v Hv Hne. split.
    + intros Ht. destruct (bo_parent _ _ _ _ _ Hbfs v Hv Hne Ht) as (Hp & Hpt & (Hp0 & Hv0 & Hpv & Hin) & _).
      destruct Hin as [Hin|Hin]; eexists; (split; [exact Hin|]); unfold marks, counted, in_tree; simpl; split_and!; try lia; auto.
    + intros Hself. destruct (bo_parent _ _ _ _ _ Hbfs v Hv Hne ltac:(lia)) as (_ & _ & (_ & _ & Hpv & _) & _). congruence.
Qed.
End verify.
