(* ===== verification/DriverProofs.v ===== *)
(** The driver of Graph500: the roots it samples, and searches through any kernel that
    keeps its promise. *)
From stdpp Require Import base numbers list relations.
From Stdlib Require Import ZArith Lia.
From S2P Require Import Prelude Kronecker Graph500 Graph SeqCsrProofs Omp OmpBitmap OmpCsr OmpCsrBuild OmpCsrProofs SeqListProofs VerifyProofs.
Import Plain Driver.
Open Scope Z_scope.

(** What a kernel promises: it builds a graph from every list of edges, and a search
    from a vertex fills the array with a breadth-first tree of that graph, unless there are
    too many vertices for it. *)
Class KernelLaws (K : Kernel) := {
  represents : list packed_edge -> graph -> Prop;
  most_vertices : Z;
  kernel_create IJ : fits IJ -> exists g, create_graph IJ (zlen IJ) = Ok (Some g) /\ represents IJ g;
  kernel_bfs IJ g tree root :
    represents IJ g -> fits IJ -> maxv IJ < most_vertices -> 0 <= root < maxv IJ + 1 -> maxv IJ + 1 <= zlen tree ->
    exists tree' d, bfs g tree root = Ok (Some (tree', maxv IJ)) /\ bfs_ok (adj IJ) (maxv IJ + 1) root tree' d }.

Section kernels.
Context `{M : Malloc, !MallocLaws M} {NO : MallocNoOom M}.

Definition csr_of (IJ : list packed_edge) (g : SeqCsr.csr) : Prop :=
  exists xo st c, g = SeqCsr.Csr (maxv IJ) (maxv IJ + 1) xo st /\ csr_ok IJ xo st c.

Definition lists_of (IJ : list packed_edge) (g : SeqList.lists) : Prop :=
  exists md a, g = SeqList.Lists (maxv IJ) md IJ a /\ lrep IJ a (plist IJ).

#[refine, export] Instance seq_csr_laws : KernelLaws (@seq_csr M) := Build_KernelLaws (@seq_csr M) csr_of (2 ^ 63) _ _.
Proof.
  - intros IJ Hf. destruct (csr_create_spec IJ Hf) as (xo & st & c & Hrun & Hok). cbn [create_graph seq_csr]. rewrite Hrun.
    eexists. split; [done|]. now exists xo, st, c.
  - intros IJ g tree root (xo & st & c & -> & Hok) Hf _ Hr Hl.
    destruct (csr_bfs_spec IJ xo st c Hok tree root Hf Hr Hl) as (t & d & Hrun & Hb).
    cbn [bfs seq_csr]. rewrite Hrun. now exists t, d.
Defined.

#[refine, export] Instance seq_list_laws : KernelLaws (@seq_list M) := Build_KernelLaws (@seq_list M) lists_of (2 ^ 63) _ _.
Proof.
  - intros IJ Hf. destruct (list_create_spec IJ Hf) as (md & a & Hrun & Hok). cbn [create_graph seq_list]. rewrite Hrun.
    eexists. split; [done|]. now exists md, a.
  - intros IJ g tree root (md & a & -> & Hok) Hf _ Hr Hl.
    exact (list_bfs_spec IJ md a Hok tree root Hf Hr Hl).
Defined.

(** The OpenMP kernel, with threads that keep pace; its bitmaps count vertices as [int]. *)
#[refine, export] Instance omp_csr_laws `{OM : Omp, !OmpLaws OM, !OmpPrompt OM} start clk : KernelLaws (omp_csr start clk) :=
  Build_KernelLaws (omp_csr start clk) csr_of (2 ^ 31 - 64) _ _.
Proof.
  - intros IJ Hf. cbn [create_graph omp_csr]. destruct (create_returns False IJ Hf start) as [(g & t & -> & Hg)|[[] _]].
    eexists. now split.
  - intros IJ g tree root (xo & st & c & -> & Hok) Hf Hmost Hr Hl. cbn [bfs omp_csr].
    destruct (search_returns False IJ xo st c Hok root tree ltac:(now right) ltac:(lia) ltac:(lia) ltac:(lia) (clk root)) as [([t' m] & t2 & -> & -> & d & Hd)|[[] _]].
    now exists t', d.
Defined.
End kernels.

(** ** Connected vertices *)

(** Is there an edge at the vertex that is not a loop? *)
Definition touched (IJ : list packed_edge) (v : Z) : bool :=
  existsb (fun e => negb (v0 e =? v1 e) && ((v0 e =? v) || (v1 e =? v))) IJ.

Lemma touched_true IJ v : touched IJ v = true <-> exists e, e ∈ IJ /\ v0 e <> v1 e /\ (v0 e = v \/ v1 e = v).
Proof.
  unfold touched. rewrite existsb_exists. setoid_rewrite list_elem_of_In. setoid_rewrite andb_true_iff. setoid_rewrite negb_true_iff.
  setoid_rewrite orb_true_iff. setoid_rewrite Z.eqb_eq. setoid_rewrite Z.eqb_neq. done.
Qed.

Lemma touched_snoc IJ e v : touched (IJ ++ [e]) v = touched IJ v || (negb (v0 e =? v1 e) && ((v0 e =? v) || (v1 e =? v))).
Proof. unfold touched. rewrite existsb_app. simpl. now rewrite orb_false_r. Qed.

(** The connected vertices below a bound. *)
Definition connected (IJ : list packed_edge) (k : Z) : Z := zlen (filter (fun v => touched IJ v = true) (seqZ 0 k)).

Lemma connected_S IJ k : 0 <= k -> connected IJ (k + 1) = connected IJ k + (if touched IJ k then 1 else 0).
Proof.
  intros Hk. unfold connected. replace (seqZ 0 (k + 1)) with (seqZ 0 k ++ [k]).
  - rewrite filter_app, zlen_app, filter_cons, filter_nil. destruct (touched IJ k) eqn:Et.
    + now rewrite decide_True.
    + rewrite decide_False by congruence. done.
  - rewrite seqZ_app by lia. done.
Qed.

Lemma connected_mono IJ k n : 0 <= k <= n -> connected IJ k <= connected IJ n.
Proof.
  intros Hk. replace n with (k + (n - k)) by lia. unfold connected. rewrite seqZ_app by lia. rewrite filter_app, zlen_app.
  match goal with |- _ <= _ + zlen ?l => pose proof (zlen_nonneg l) end. lia.
Qed.

Lemma connected_max IJ n : connected IJ n <= maxv IJ + 1.
Proof.
  pose proof (maxv_min IJ). unfold connected.
  pose proof (nodup_below (filter (fun v => touched IJ v = true) (seqZ 0 n)) (maxv IJ + 1)) as H'. rewrite Z.max_r in H' by lia. apply H'.
  - apply NoDup_filter, NoDup_seqZ.
  - intros v [Ht Hv%elem_of_seqZ]%list_elem_of_filter. apply touched_true in Ht as (e & He & _ & Hev). apply maxv_max in He. lia.
Qed.

Section driver.
Context `{M : Malloc, !MallocLaws M} {NO : MallocNoOom M} (K : Kernel) {KL : KernelLaws K}.
Context (passes_over : Z -> Z -> Z -> bool) (nvtx_scale NBFS : Z) (IJ : list packed_edge).
Hypothesis Hscale : 0 < nvtx_scale < 2 ^ 57.
Hypothesis Hnbfs : 0 < NBFS <= NBFS_max.
Hypothesis Hedges : forall e, e ∈ IJ -> 0 <= v0 e < nvtx_scale /\ 0 <= v1 e < nvtx_scale.
(** No more vertices are left than are wanted: each is taken. *)
Hypothesis Hpasses : forall k n m, n <= m -> passes_over k n m = false.

Lemma find_adj_spec :
  exists a, find_adj nvtx_scale IJ (zlen IJ) = Ok a /\ zlen a = nvtx_scale /\
    forall v, 0 <= v < nvtx_scale -> at_ a v = if touched IJ v then 1 else 0.
Proof.
  unfold find_adj, xmalloc_large, xmalloc. rewrite u64_small by (unfold is_u64; lia).
  destruct (malloc_some (nvtx_scale * 4) 4) as [a0 Ha0]; [lia|]. pose proof (malloc_length _ _ _ Ha0 ltac:(lia)) as Hl0. rewrite Z.div_mul in Hl0 by lia.
  rewrite Ha0. cbn [of_option mbind res_bind]. destruct (fill_spec a0 0 nvtx_scale 0) as (a & -> & Hl & Ha); [lia|lia|lia|]. cbn [mbind res_bind].
  rewrite (for_list IJ (fun e a => if v0 e =? v1 e then Ok a else a ← awrite a (v1 e) 1; awrite a (v0 e) 1)).
  destruct (mfold_inv (fun l a => zlen a = nvtx_scale /\ forall v, 0 <= v < nvtx_scale -> at_ a v = if touched l v then 1 else 0)
    (fun e a => if v0 e =? v1 e then Ok a else a ← awrite a (v1 e) 1; awrite a (v0 e) 1) IJ a) as (a' & -> & Hl' & Ha'); [| |now exists a'].
  - split; [lia|]. intros v Hv. now rewrite Ha, decide_True.
  - intros l1 e l2 b Hl12 [Hlb Hb]. destruct (Hedges e) as [H0 H1]; [rewrite Hl12; apply elem_of_app; right; left|].
    destruct (Z.eqb_spec (v0 e) (v1 e)) as [Heq|Hne].
    + eexists. split_and!; try done. intros v Hv. rewrite touched_snoc, Hb by done. rewrite (proj2 (Z.eqb_eq _ _) Heq). simpl. now rewrite orb_false_r.
    + rewrite awrite_in_bounds by lia. cbn [mbind res_bind]. rewrite awrite_in_bounds by (rewrite zlen_insert; lia). eexists. split; [done|].
      rewrite !zlen_insert. split; [done|]. intros v Hv. rewrite !at_insert by (rewrite ?zlen_insert; lia). rewrite touched_snoc, (proj2 (Z.eqb_neq _ _) Hne).
      cbn [negb andb]. rewrite Hb by done. destruct (Z.eqb_spec (v0 e) v), (Z.eqb_spec (v1 e) v), (decide (v = v0 e)), (decide (v = v1 e)); try congruence;
        simpl; rewrite ?orb_true_r, ?orb_false_r; done.
Qed.

Lemma count_adj_spec a :
  zlen a = nvtx_scale -> (forall v, 0 <= v < nvtx_scale -> at_ a v = if touched IJ v then 1 else 0) ->
  count_adj nvtx_scale a = Ok (connected IJ nvtx_scale).
Proof.
  intros Hl Ha. unfold count_adj. for_inv (fun k n => n = connected IJ k) n HP; [lia|done| |now rewrite HP].
  intros k n Hk ->. rewrite at_read by lia. cbn [mbind res_bind]. eexists. split; [done|]. rewrite connected_S, Ha by lia.
  destruct (touched IJ k); simpl; lia.
Qed.

(** The roots so far: increasing numbers below the number of connected vertices met. *)
Definition roots_ok (m t : Z) (roots : list Z) : Prop :=
  zlen roots = NBFS_max /\ (forall i, 0 <= i < m -> 0 <= at_ roots i < t) /\ forall i j, 0 <= i -> i < j -> j < m -> at_ roots i < at_ roots j.

Lemma roots_ok_add m t roots : roots_ok m t roots -> 0 <= m < NBFS_max -> 0 <= t -> roots_ok (m + 1) (t + 1) (<[Z.to_nat m := t]> roots).
Proof.
  intros (Hl & Hr & Hi) Hm Ht. split_and!; [now rewrite zlen_insert| |].
  - intros i Hi'. rewrite at_insert by lia. case_decide; [lia|]. specialize (Hr i). lia.
  - intros i j H0 Hij Hj. rewrite !at_insert by lia. rewrite (decide_False (P := i = m)) by lia. case_decide; [specialize (Hr i); lia|]. apply Hi; lia.
Qed.

Lemma roots_ok_weaken m t t' roots : roots_ok m t roots -> t <= t' -> roots_ok m t' roots.
Proof. intros (Hl & Hr & Hi) Ht. split_and!; [done| |done]. intros i Hi'. specialize (Hr i Hi'). lia. Qed.

Lemma sample_roots_spec a :
  zlen a = nvtx_scale -> (forall v, 0 <= v < nvtx_scale -> at_ a v = if touched IJ v then 1 else 0) ->
  let n := connected IJ nvtx_scale in
  exists k t roots, sample_roots passes_over nvtx_scale NBFS a n (replicate (Z.to_nat NBFS_max) 0) = Ok (k, Z.min NBFS n, t, roots) /\
    (t <= n) /\ (n < NBFS -> t = n) /\ roots_ok (Z.min NBFS n) n roots.
Proof.
  intros Hl Ha n. unfold sample_roots.
  match goal with |- context [while_loop ?f ?co ?bo ?st0] =>
    destruct (while_loop_inv (fun '(k, m, t, roots) => 0 <= k <= nvtx_scale /\ t = connected IJ k /\ 0 <= m <= NBFS /\ roots_ok m t roots /\
        (n <= NBFS -> m = t) /\ (NBFS <= n -> NBFS - m <= n - t))
      (fun '(k, _, _, _) => Z.to_nat (nvtx_scale - k)) f co bo st0) as ([[[k m] t] roots] & Hrun & (Hk & Ht & Hm & Hr & Hfew & Hmany) & Hend) end.
  - split_and!; try done; [lia|lia| |lia]. split_and!; [done|intros; lia|intros; lia].
  - lia.
  - intros [[[k m] t] roots] (Hk & -> & Hm & Hr & Hfew & Hmany). eexists. split; [done|].
    intros [[Hks%Z.ltb_lt Hms%Z.ltb_lt]%andb_true_iff Hts%Z.ltb_lt]%andb_true_iff. unfold sample_step. rewrite (at_read a k) by lia. cbn [mbind res_bind].
    rewrite Ha by lia. pose proof (connected_S IJ k ltac:(lia)) as Hs. pose proof (zlen_nonneg (filter (fun v => touched IJ v = true) (seqZ 0 k))) as Hc0. fold (connected IJ k) in Hc0.
    destruct (touched IJ k); cbn [Z.eqb].
    + destruct (passes_over _ _ _) eqn:Ep.
      * eexists. split; [done|]. split; [|lia].
        assert (~ n - connected IJ k <= NBFS - m) by (intros Hle; now rewrite (Hpasses k _ _ Hle) in Ep).
        split_and!; try lia. eapply roots_ok_weaken; [exact Hr|lia].
      * rewrite awrite_in_bounds by (destruct Hr as (-> & _); lia). cbn [mbind res_bind]. eexists. split; [done|]. split; [|lia].
        split_and!; try lia. apply roots_ok_add; [done|lia|lia].
    + eexists. split; [done|]. split; [|lia]. split_and!; try lia. eapply roots_ok_weaken; [exact Hr|lia].
  - subst t. pose proof (connected_mono IJ k nvtx_scale ltac:(lia)) as Hmono. fold n in Hmono. injection Hend as Hend.
    assert (Hstop : k = nvtx_scale \/ m = NBFS \/ connected IJ k = n).
    { apply andb_false_iff in Hend as [Hend|Hend%Z.ltb_ge]; [apply andb_false_iff in Hend as [Hend%Z.ltb_ge|Hend%Z.ltb_ge]|]; lia. }
    assert (Hmin : m = Z.min NBFS n /\ (n < NBFS -> connected IJ k = n)).
    { destruct Hstop as [->|[->|Hc]]; fold n in Hfew, Hmany |- *; lia. }
    destruct Hmin as [-> Hall]. eexists _, _, _. split; [exact Hrun|]. split_and!; [lia|done|]. eapply roots_ok_weaken; [exact Hr|lia].
Qed.

Lemma find_roots_spec :
  let n := connected IJ nvtx_scale in
  (0 < n -> exists roots, find_roots passes_over nvtx_scale NBFS IJ (zlen IJ) = Ok (Z.min NBFS n, roots) /\ roots_ok (Z.min NBFS n) n roots) /\
  (n = 0 -> find_roots passes_over nvtx_scale NBFS IJ (zlen IJ) = Fault ExitFailure).
Proof.
  intros n. unfold find_roots. destruct find_adj_spec as (a & -> & Hl & Ha). cbn [mbind res_bind]. rewrite (count_adj_spec a Hl Ha). cbn [mbind res_bind].
  fold n. destruct (sample_roots_spec a Hl Ha) as (k & t & roots & Hrun & Ht & Hall & Hr). fold n in Hrun, Ht, Hall, Hr. rewrite Hrun. cbn [mbind res_bind]. split; intros Hn.
  - exists roots. destruct (Z.leb_spec n t), (Z.ltb_spec (Z.min NBFS n) NBFS); cbn [andb]; [|split; [f_equal; f_equal; lia|done]..].
    destruct (Z.ltb_spec 0 (Z.min NBFS n)); [done|lia].
  - rewrite Hall by lia. destruct (Z.leb_spec n n); [|lia]. destruct (Z.ltb_spec (Z.min NBFS n) NBFS); [|lia]. cbn [andb].
    destruct (Z.ltb_spec 0 (Z.min NBFS n)); [lia|done].
Qed.

(** The number of edges of the component of a vertex. *)
Definition edges_from (root n : Z) : Prop :=
  exists tree d, bfs_ok (adj IJ) (maxv IJ + 1) root tree d /\ n = tree_edges (maxv IJ + 1) tree IJ.

Lemma search_spec g roots m nedge :
  fits IJ -> maxv IJ < most_vertices -> represents IJ g -> zlen roots = NBFS_max -> zlen nedge = NBFS_max -> 0 <= m < NBFS_max -> 0 <= at_ roots m < maxv IJ + 1 ->
  exists n, search nvtx_scale g IJ (zlen IJ) roots m nedge = Ok (<[Z.to_nat m := n]> nedge) /\ edges_from (at_ roots m) n.
Proof.
  intros Hf Hmost Hg Hlr Hln Hm Hroot. assert (Hmax : maxv IJ < nvtx_scale) by (apply maxv_below; [lia|]; intros e He; apply Hedges in He; lia).
  unfold search, xmalloc_large. destruct (xmalloc_int64s nvtx_scale) as (tree & -> & Hlt); [lia|]. cbn [mbind res_bind].
  rewrite (at_read roots m) by lia. cbn [mbind res_bind]. destruct (Z.ltb_spec (at_ roots m) nvtx_scale); [|lia]. cbn [check mbind res_bind].
  destruct (kernel_bfs IJ g tree (at_ roots m) Hg Hf Hmost Hroot) as (tree' & d & -> & Hb); [lia|]. cbn [mbind res_bind].
  rewrite (verify_complete tree' (maxv IJ) (at_ roots m) IJ (bo_len _ _ _ _ _ Hb) ltac:(unfold fits in Hf; pose proof (zlen_nonneg IJ); lia) d Hb (maxv_max IJ)).
  cbn [mbind res_bind]. rewrite awrite_in_bounds by lia. cbn [mbind res_bind].
  destruct (Z.ltb_spec (tree_edges (maxv IJ + 1) tree' IJ) 0) as [Hneg|]; [pose proof (zlen_nonneg (filter (fun e => in_tree (maxv IJ + 1) tree' (v0 e) /\ in_tree (maxv IJ + 1) tree' (v1 e)) IJ)); unfold tree_edges in Hneg; lia|].
  eexists. split; [done|]. now exists tree', d.
Qed.

Lemma run_bfs_spec :
  fits IJ -> maxv IJ < most_vertices ->
  let n := connected IJ nvtx_scale in
  (0 < n -> exists roots nedge, run_bfs passes_over nvtx_scale NBFS IJ (zlen IJ) = Ok (Z.min NBFS n, roots, nedge) /\
    roots_ok (Z.min NBFS n) n roots /\ forall m, 0 <= m < Z.min NBFS n -> edges_from (at_ roots m) (at_ nedge m)) /\
  (n = 0 -> run_bfs passes_over nvtx_scale NBFS IJ (zlen IJ) = Fault ExitFailure).
Proof.
  intros Hf Hmost n. unfold run_bfs. destruct (kernel_create IJ Hf) as (g & -> & Hg). cbn [mbind res_bind].
  destruct find_roots_spec as [Hpos Hzero]. fold n in Hpos, Hzero. split; intros Hn; [|now rewrite Hzero].
  destruct (Hpos Hn) as (roots & -> & Hr). cbn [mbind res_bind]. pose proof Hr as (Hlr & Hrange & _). pose proof (connected_max IJ nvtx_scale) as Hcm. fold n in Hcm.
  for_inv (fun k nedge => zlen nedge = NBFS_max /\ forall m, 0 <= m < k -> edges_from (at_ roots m) (at_ nedge m)) nedge HP.
  - lia.
  - split; [done|]. intros; lia.
  - intros k nedge Hk [Hl Hm]. destruct (search_spec g roots k nedge Hf Hmost Hg Hlr Hl) as (x & -> & Hx); [lia|specialize (Hrange k); lia|].
    eexists. split; [done|]. rewrite zlen_insert. split; [done|]. intros m Hm'. rewrite at_insert by (unfold NBFS_max in *; lia).
    destruct (decide (m = k)) as [->|]; [done|]. apply Hm. lia.
  - destruct HP as [Hl Hm]. now exists roots, nedge.
Qed.
End driver.
