(* ===== verification/Graph500Props.v ===== *)
(** What the Graph500 kernels, the validation and the driver promise. *)
From stdpp Require Import base numbers list sorting relations.
From Stdlib Require Import ZArith Lia.
From S2P Require Import Prelude ModArith Mrg MrgProofs MrgTable Kronecker KroneckerProofs Graph500 Graph SeqCsrProofs Omp OmpCsr VerifyProofs DriverProofs.
Import Plain Driver.
Open Scope Z_scope.

Section kernels.
Context `{M : Malloc, !MallocLaws M} {NO : MallocNoOom M}.

(** Building the graph of seq-csr.c ends without a fault, and the row of every vertex
    is the strictly increasing list of its neighbours: duplicate edges, both
    directions of an edge and loops are reduced to exactly the neighbour relation of
    the list of edges. *)
Theorem csr_rows_exact IJ :
  fits IJ ->
  exists g, SeqCsr.create_graph_from_edgelist IJ (zlen IJ) = Ok g /\ SeqCsr.maxvtx g = maxv IJ /\
    forall u, 0 <= u <= maxv IJ -> exists first row,
      aread (SeqCsr.xoff g) (SeqCsr.XOFF u) = Ok first /\ aread (SeqCsr.xoff g) (SeqCsr.XENDOFF u) = Ok (first + zlen row) /\
      (forall t x, row !! t = Some x -> aread (SeqCsr.xadjstore g) (SeqCsr.xadj (first + Z.of_nat t)) = Ok x) /\
      StronglySorted Z.lt row /\ forall x, x ∈ row <-> adj IJ u x.
Proof.
  intros Hf. destruct (csr_create_spec IJ Hf) as (xo & st & c & -> & Hc & Hrow). eexists. split; [done|]. split; [done|].
  intros u Hu. exists (off IJ (Z.to_nat u)), (c u). cbn [SeqCsr.xoff SeqCsr.xadjstore]. pose proof (cr_len _ _ _ _ Hc).
  rewrite !at_read by (unfold SeqCsr.XOFF, SeqCsr.XENDOFF; lia). rewrite (cr_off _ _ _ _ Hc), (cr_end _ _ _ _ Hc) by lia.
  split_and!; try done; [|apply Hrow; lia|apply Hrow; lia].
  intros t x Hx. destruct (crep_focus _ _ _ _ u Hc) as (pre & r & post & -> & Hpre & Hr & Hpf & _); [lia|].
  pose proof (prefix_lookup_Some _ _ _ _ Hx Hpf) as Hrx. pose proof (lookup_lt_Some _ _ _ Hrx).
  rewrite (aread_part pre r post _ (Z.of_nat t)) by (unfold SeqCsr.xadj, SeqCsr.MINVECT_SIZE, zlen in *; lia).
  apply aread_Ok. split; [lia|]. now rewrite Nat2Z.id.
Qed.

(** The search of seq-csr.c ends without a fault and fills the array with a
    breadth-first tree: exactly the vertices reachable from the source have a parent,
    and the parent of each is a neighbour one step nearer to the source, by shortest
    walks in the graph of the edges. *)
Theorem seq_csr_breadth_first IJ tree src :
  fits IJ -> 0 <= src <= maxv IJ -> maxv IJ < zlen tree ->
  exists g tree', SeqCsr.create_graph_from_edgelist IJ (zlen IJ) = Ok g /\ SeqCsr.make_bfs_tree g tree src = Ok (tree', maxv IJ) /\
    bfs_tree_of (adj IJ) (maxv IJ + 1) src tree'.
Proof.
  intros Hf Hs Hl. destruct (csr_create_spec IJ Hf) as (xo & st & c & -> & Hok).
  destruct (csr_bfs_spec IJ xo st c Hok tree src Hf) as (tree' & d & Hrun & Hb); [lia|lia|].
  eexists _, tree'. split; [done|]. split; [done|]. eapply bfs_ok_tree, Hb.
Qed.

(** C17: The two sequential kernels agree: on the same edges and source, for a graph
    whose arrays have 64-bit sizes ([fits]) and as long as malloc succeeds, both end
    without a fault with breadth-first trees that hold the same vertices at the same depths,
    although the parents may differ.  (seq-list.c moves the end of the level forward
    inside the loop over the level; the search remains breadth first.) *)
Theorem kernels_agree IJ tree1 tree2 src :
  fits IJ -> 0 <= src <= maxv IJ -> maxv IJ < zlen tree1 -> maxv IJ < zlen tree2 ->
  exists g1 t1 g2 t2 d, create_graph (Kernel := seq_csr) IJ (zlen IJ) = Ok (Some g1) /\ bfs g1 tree1 src = Ok (Some (t1, maxv IJ)) /\
    create_graph (Kernel := seq_list) IJ (zlen IJ) = Ok (Some g2) /\ bfs g2 tree2 src = Ok (Some (t2, maxv IJ)) /\
    bfs_tree_of (adj IJ) (maxv IJ + 1) src t1 /\ bfs_tree_of (adj IJ) (maxv IJ + 1) src t2 /\
    forall v, (in_tree (maxv IJ + 1) t1 v <-> in_tree (maxv IJ + 1) t2 v) /\
      (in_tree (maxv IJ + 1) t1 v -> v <> src -> d v = d (at_ t1 v) + 1 /\ d v = d (at_ t2 v) + 1).
Proof.
  intros Hf Hs Hl1 Hl2. destruct (kernel_create (K := seq_csr) IJ Hf) as (g1 & Hc1 & Hg1). destruct (kernel_create (K := seq_list) IJ Hf) as (g2 & Hc2 & Hg2).
  destruct (kernel_bfs IJ g1 tree1 src Hg1 Hf) as (t1 & d1 & Hr1 & Hb1); [now apply fits_most|lia|lia|].
  destruct (kernel_bfs IJ g2 tree2 src Hg2 Hf) as (t2 & d2 & Hr2 & Hb2); [now apply fits_most|lia|lia|].
  exists g1, t1, g2, t2, d1. split_and!; try done; [eapply bfs_ok_tree, Hb1|eapply bfs_ok_tree, Hb2|]. intros v.
  assert (Hu : forall w, 0 <= w < maxv IJ + 1 -> (0 <= at_ t1 w <-> 0 <= at_ t2 w) /\ (0 <= at_ t1 w -> d1 w = d2 w)) by (intros w; eapply bfs_ok_unique; eauto).
  unfold in_tree. split; [split; intros [Hv Ht]; (split; [done|]); now apply (Hu v)|].
  intros [Hv Ht] Hne. pose proof (proj1 (proj1 (Hu v Hv)) Ht) as Ht2.
  destruct (bo_parent _ _ _ _ _ Hb1 v Hv Hne Ht) as (_ & _ & _ & D1). destruct (bo_parent _ _ _ _ _ Hb2 v Hv Hne Ht2) as (P2 & Q2 & _ & D2).
  split; [done|]. rewrite (proj2 (Hu v Hv) Ht), D2. f_equal. symmetry. apply Hu; [lia|]. apply Hu; [lia|done].
Qed.

(** C16: The validation of verify.c is sound: whatever array it is given, a result that
    is not negative means that the array is a breadth-first tree from the root of the
    graph of the edges (of fewer than 2^58 vertices), and the result is the number of edges with both ends in it. *)
Theorem verify_accepts_only_bfs_trees tree mb root IJ n :
  mb + 1 <= zlen tree -> mb + 1 < 2 ^ 58 -> Verify.verify_bfs_tree tree mb root IJ (zlen IJ) = Ok n -> 0 <= n ->
  bfs_tree_of (adj IJ) (mb + 1) root tree /\ n = tree_edges (mb + 1) tree IJ.
Proof.
  intros Hl Hsz Hrun Hn. destruct (verify_sound tree mb root IJ Hl Hsz n Hrun Hn) as [[d Hb] Hcount]. split; [|done]. eapply bfs_ok_tree, Hb.
Qed.

(** The validation is complete: every array that holds a breadth-first tree, with
    whatever depths, of a graph with no vertex above the given maximum is accepted,
    with the number of edges of the component; no assertion fires, the internal check
    of the levels included. *)
Theorem verify_accepts_all_bfs_trees tree mb root IJ d :
  mb + 1 <= zlen tree -> mb + 1 < 2 ^ 58 -> bfs_ok (adj IJ) (mb + 1) root tree d ->
  (forall e, e ∈ IJ -> v0 e <= mb /\ v1 e <= mb) ->
  Verify.verify_bfs_tree tree mb root IJ (zlen IJ) = Ok (tree_edges (mb + 1) tree IJ).
Proof. intros Hl Hsz Hb Hmax. now apply verify_complete with (d := d). Qed.
End kernels.

(** ** The benchmark *)

Section benchmark.
Context {MO : ModOps} {ML : ModLaws MO} `{M : Malloc, !MallocLaws M} {NO : MallocNoOom M} {K : Kernel} {KL : KernelLaws K}.

Lemma make_graph_edges u scale fresh :
  is_u64 u -> 1 <= scale <= 62 -> zlen fresh < 2 ^ 63 ->
  exists IJ, make_graph mrg_skip_matrices scale (zlen fresh) u u fresh = Ok IJ /\ zlen IJ = zlen fresh /\
    forall e, e ∈ IJ -> 0 <= v0 e < 2 ^ scale /\ 0 <= v1 e < 2 ^ scale.
Proof.
  intros Hu Hn Hl. destruct (make_mrg_seed_good u u Hu Hu) as (z & Hseed & Hz & _).
  destruct (generate_range_spec _ z scale Hseed Hz Hn) as (edge & He & Hg). pose proof (zlen_nonneg fresh).
  unfold make_graph. rewrite Hg by lia. eexists. split; [done|]. rewrite Z.sub_0_r. rewrite drop_ge, app_nil_r by (unfold zlen; lia).
  split; [unfold zlen; rewrite length_fmap, length_seqZ; lia|]. intros e (i & -> & Hi%elem_of_seqZ)%list_elem_of_fmap. apply He. lia.
Qed.

(** C15: The benchmark as a whole, built with one of the two sequential kernels (or any
    other that keeps the promise [KernelLaws] and has room for the vertices), for a
    graph of scale at most 50 with an edge factor of at most 64, at most 64 searches
    (the size of the arrays of roots) and as long as malloc succeeds: for a generated
    graph [main] either stops because no edge joins two vertices, or runs one search
    per sampled root, at most [NBFS], every tree is accepted by the validation, and
    the numbers it reports are the edges of the components of the roots.  The
    validation runs as one thread, as it does without OpenMP. *)
Theorem graph500_main_validates passes_over SCALE edgefactor NBFS seed fresh :
  is_u64 seed -> 1 <= SCALE <= 50 -> 2 ^ SCALE <= most_vertices -> 1 <= edgefactor <= 64 -> 0 < NBFS <= NBFS_max -> zlen fresh = 2 ^ SCALE * edgefactor ->
  (forall k n m, n <= m -> passes_over k n m = false) ->
  exists IJ, make_graph mrg_skip_matrices SCALE (2 ^ SCALE * edgefactor) seed seed fresh = Ok IJ /\
  let n := connected IJ (2 ^ SCALE) in
  (n = 0 -> main mrg_skip_matrices passes_over SCALE edgefactor NBFS seed fresh = Fault ExitFailure) /\
  (0 < n -> exists roots nedge, main mrg_skip_matrices passes_over SCALE edgefactor NBFS seed fresh = Ok (Z.min NBFS n, roots, nedge) /\
    forall m, 0 <= m < Z.min NBFS n -> exists tree d, bfs_ok (adj IJ) (maxv IJ + 1) (at_ roots m) tree d /\
      at_ nedge m = tree_edges (maxv IJ + 1) tree IJ).
Proof.
  intros Hseed Hs Hmost He Hn Hl Hp. assert (Hpow : 2 ^ 1 <= 2 ^ SCALE <= 2 ^ 50) by (split; apply Z.pow_le_mono_r; lia).
  assert (Hne : 2 ^ SCALE <= 2 ^ SCALE * edgefactor <= 2 ^ 56) by nia. unfold main. rewrite Z.shiftl_1_l.
  rewrite i64_small by lia. cbn [mbind res_bind]. destruct (Z.leb_spec (2 ^ SCALE) (2 ^ SCALE * edgefactor)); [|lia]. cbn [check mbind res_bind].
  destruct (Z.leb_spec edgefactor (2 ^ SCALE * edgefactor)); [|nia]. cbn [check mbind res_bind].
  destruct (make_graph_edges seed SCALE fresh Hseed) as (IJ & Hrun & HlI & Hr); [lia|lia|]. rewrite Hl in Hrun, HlI. rewrite Hrun. cbn [mbind res_bind].
  exists IJ. split; [done|]. assert (Hmax : maxv IJ < 2 ^ SCALE) by (apply maxv_below; [lia|]; intros e Hin; apply Hr in Hin; lia).
  pose proof (run_bfs_spec K passes_over (2 ^ SCALE) NBFS IJ ltac:(lia) Hn Hr Hp ltac:(unfold fits; lia) (Z.lt_le_trans _ _ _ Hmax Hmost)) as [Hpos Hzero]. rewrite HlI in Hpos, Hzero.
  split; [done|]. intros Hc. destruct (Hpos Hc) as (roots & nedge & Hmain & _ & Hedges). exists roots, nedge. split; [done|].
  intros m Hm. exact (Hedges m Hm).
Qed.

(** C37: The roots are not the vertices that were drawn: [run_bfs] stores the number of
    connected vertices passed so far instead of the vertex.  So, when no vertex below
    the number of connected vertices is itself connected, every search starts at a
    vertex without neighbours, against the comment that only vertices with an edge are
    sampled (for at most 64 searches, as long as malloc succeeds). *)
Theorem bfs_roots_isolated passes_over nvtx_scale NBFS IJ :
  0 < nvtx_scale < 2 ^ 57 -> 0 < NBFS <= NBFS_max -> (forall e, e ∈ IJ -> 0 <= v0 e < nvtx_scale /\ 0 <= v1 e < nvtx_scale) ->
  (forall k n m, n <= m -> passes_over k n m = false) -> 0 < connected IJ nvtx_scale ->
  (forall v, 0 <= v < connected IJ nvtx_scale -> touched IJ v = false) ->
  exists n roots, find_roots passes_over nvtx_scale NBFS IJ (zlen IJ) = Ok (n, roots) /\ 0 < n /\
    forall m u, 0 <= m < n -> ~ adj IJ (at_ roots m) u.
Proof.
  intros Hs Hn He Hp Hc Hlow. destruct (find_roots_spec passes_over nvtx_scale NBFS IJ Hs Hn He Hp) as [Hpos _].
  destruct (Hpos Hc) as (roots & Hrun & _ & Hr & _). eexists _, roots. split; [exact Hrun|]. split; [lia|].
  intros m u Hm (Hu & _ & Hne & Hin). specialize (Hr m Hm).
  assert (Ht : touched IJ (at_ roots m) = true).
  { apply touched_true. destruct Hin as [Hin|Hin]; eexists; (split; [exact Hin|]); simpl; auto. }
  rewrite Hlow in Ht; done.
Qed.
End benchmark.

(** ** A concrete heap *)

Module Heap.
(** Fresh memory holds 77s. *)
#[export] Instance heap : Malloc := {| malloc sz n := if decide (0 <= sz) then Some (replicate (Z.to_nat (sz / n)) 77) else None |}.

#[export] Instance heap_laws : MallocLaws heap.
Proof.
  split. intros sz n a Ha Hn. cbn in Ha. case_decide as H0; [|done]. injection Ha as <-. unfold zlen. rewrite length_replicate.
  pose proof (Z.div_pos sz n H0 Hn). lia.
Qed.

#[export] Instance heap_some : MallocNoOom heap.
Proof. split. intros sz n H0. cbn. rewrite decide_True by lia. now eexists. Qed.

(** A square with a chord in the other direction, a loop, and an edge apart. *)
Definition edges : list packed_edge := [Edge 0 1; Edge 1 2; Edge 2 3; Edge 3 0; Edge 2 0; Edge 2 2; Edge 5 6].

(** Two edges far from vertex 0. *)
Definition far : list packed_edge := [Edge 4 5; Edge 5 6].
End Heap.
Import Heap Pair.

Lemma csr_rows_exact_witness :
  exists g, SeqCsr.create_graph_from_edgelist edges 7 = Ok g /\ SeqCsr.maxvtx g = 6 /\
    forall u, 0 <= u <= 6 -> exists first row,
      aread (SeqCsr.xoff g) (SeqCsr.XOFF u) = Ok first /\ aread (SeqCsr.xoff g) (SeqCsr.XENDOFF u) = Ok (first + zlen row) /\
      (forall t x, row !! t = Some x -> aread (SeqCsr.xadjstore g) (SeqCsr.xadj (first + Z.of_nat t)) = Ok x) /\
      StronglySorted Z.lt row /\ forall x, x ∈ row <-> adj edges u x.
Proof. apply (csr_rows_exact edges). reflexivity. Defined.

Lemma seq_csr_breadth_first_witness :
  exists g tree', SeqCsr.create_graph_from_edgelist edges 7 = Ok g /\ SeqCsr.make_bfs_tree g (replicate 8 9) 1 = Ok (tree', 6) /\
    bfs_tree_of (adj edges) 7 1 tree'.
Proof. apply (seq_csr_breadth_first edges (replicate 8 9) 1); vm_compute; [reflexivity|split; discriminate|reflexivity]. Defined.

Lemma kernels_agree_witness :
  exists g1 t1 g2 t2, create_graph (Kernel := seq_csr) edges 7 = Ok (Some g1) /\ bfs g1 (replicate 8 9) 1 = Ok (Some (t1, 6)) /\
    create_graph (Kernel := seq_list) edges 7 = Ok (Some g2) /\ bfs g2 (replicate 7 3) 1 = Ok (Some (t2, 6)) /\
    forall v, in_tree 7 t1 v <-> in_tree 7 t2 v.
Proof.
  destruct (kernels_agree edges (replicate 8 9) (replicate 7 3) 1) as (g1 & t1 & g2 & t2 & d & H1 & H2 & H3 & H4 & _ & _ & H5);
    [reflexivity|vm_compute; split; discriminate|reflexivity|reflexivity|].
  exists g1, t1, g2, t2. split_and!; [exact H1|exact H2|exact H3|exact H4|]. intros v. exact (proj1 (H5 v)).
Defined.

Lemma verify_accepts_only_bfs_trees_witness :
  bfs_tree_of (adj edges) 7 1 [1; 1; 1; 0; -1; -1; -1] /\ 6 = tree_edges 7 [1; 1; 1; 0; -1; -1; -1] edges.
Proof.
  apply (verify_accepts_only_bfs_trees [1; 1; 1; 0; -1; -1; -1] 6 1 edges 6); [vm_compute; discriminate|reflexivity|vm_compute; reflexivity|lia].
Defined.

Lemma verify_accepts_all_bfs_trees_witness :
  Verify.verify_bfs_tree [0; 0; 1] 2 0 [Edge 0 1; Edge 2 1] 2 = Ok 2.
Proof.
  apply (verify_accepts_all_bfs_trees [0; 0; 1] 2 0 [Edge 0 1; Edge 2 1] (fun v => v)).
  - vm_compute. discriminate.
  - reflexivity.
  - assert (Hat : forall v, 0 <= v < 3 -> at_ [0; 0; 1] v = if decide (v = 2) then 1 else 0).
    { intros v Hv. assert (v = 0 \/ v = 1 \/ v = 2) as [->|[->| ->]] by lia; reflexivity. }
    split; simpl.
    + vm_compute. discriminate.
    + split; [lia|done].
    + intros v Hv Hne Ht. rewrite !Hat in * by (rewrite ?Hat by lia; repeat case_decide; lia). repeat case_decide; try lia; subst.
      * split_and!; try lia. repeat split; try lia. right. right. left.
      * assert (v = 1) as -> by lia. split_and!; try lia. repeat split; try lia. left. left.
    + intros u v (Hu & Hv & Hne & Hin) Hur _. assert (Hv' : v < 3 /\ v <= u + 1).
      { destruct Hin as [Hin|Hin]; apply elem_of_cons in Hin as [[= -> ->]|Hin]; try lia; apply list_elem_of_singleton in Hin as [= -> ->]; lia. }
      split_and!; try lia. rewrite Hat by lia. case_decide; lia.
    + lia.
  - intros e He. apply elem_of_cons in He as [->|He]; [simpl; lia|]. apply list_elem_of_singleton in He as ->. simpl. lia.
Defined.

Lemma bfs_roots_isolated_witness :
  exists n roots, find_roots (fun _ n m => m <? n) 8 3 far 2 = Ok (n, roots) /\ 0 < n /\ forall m u, 0 <= m < n -> ~ adj far (at_ roots m) u.
Proof.
  apply (bfs_roots_isolated (fun _ n m => m <? n) 8 3 far).
  - lia.
  - unfold NBFS_max. lia.
  - intros e He. apply elem_of_cons in He as [->|He]; [simpl; lia|]. apply list_elem_of_singleton in He as ->. simpl. lia.
  - intros k n m Hle. apply Z.ltb_ge. lia.
  - vm_compute. reflexivity.
  - intros v Hv. change (connected far 8) with 3 in Hv. assert (v = 0 \/ v = 1 \/ v = 2) as [->|[->| ->]] by lia; reflexivity.
Defined.

#[local] Existing Instances Arith64.ops Arith64.laws.

Lemma graph500_main_validates_witness :
  exists IJ, make_graph mrg_skip_matrices 3 8 1 1 (replicate 8 (Edge 0 0)) = Ok IJ /\
    (0 < connected IJ 8 -> exists roots nedge,
      main (K := seq_csr) mrg_skip_matrices (fun _ n m => m <? n) 3 1 2 1 (replicate 8 (Edge 0 0)) = Ok (Z.min 2 (connected IJ 8), roots, nedge)) /\
  exists IJ', make_graph mrg_skip_matrices 3 8 1 1 (replicate 8 (Edge 0 0)) = Ok IJ' /\
    (0 < connected IJ' 8 -> exists roots nedge,
      main (K := seq_list) mrg_skip_matrices (fun _ n m => m <? n) 3 1 2 1 (replicate 8 (Edge 0 0)) = Ok (Z.min 2 (connected IJ' 8), roots, nedge)).
Proof.
  destruct (graph500_main_validates (K := seq_csr) (fun _ n m => m <? n) 3 1 2 1 (replicate 8 (Edge 0 0))) as (IJ & Hrun & _ & Hpos);
    [unfold is_u64; lia|lia|vm_compute; discriminate|lia|unfold NBFS_max; lia|reflexivity|intros k n m Hle; apply Z.ltb_ge; lia|].
  destruct (graph500_main_validates (K := seq_list) (fun _ n m => m <? n) 3 1 2 1 (replicate 8 (Edge 0 0))) as (IJ' & Hrun' & _ & Hpos');
    [unfold is_u64; lia|lia|vm_compute; discriminate|lia|unfold NBFS_max; lia|reflexivity|intros k n m Hle; apply Z.ltb_ge; lia|].
  exists IJ. split; [exact Hrun|]. split.
  - intros Hc. destruct (Hpos Hc) as (roots & nedge & H & _). exists roots, nedge. exact H.
  - exists IJ'. split; [exact Hrun'|]. intros Hc. destruct (Hpos' Hc) as (roots & nedge & H & _). exists roots, nedge. exact H.
Defined.
