(* ===== verification/OmpCsrProps.v ===== *)
(** What the OpenMP kernel of Graph500 promises under every schedule, and where it fails. *)
From stdpp Require Import base numbers list sorting.
From Stdlib Require Import ZArith Lia.
From S2P Require Import Prelude Kronecker Graph500 Graph SeqCsrProofs Omp OmpBitmap OmpBitmapProofs OmpCsr OmpCsrBuild OmpLevels OmpQueue OmpCsrSearch OmpCsrProofs Graph500Props.
Import Plain Heap.
Open Scope Z_scope.

(** ** Rows *)

(** The row of a vertex in the arrays of a graph. *)
Definition holds_row (g : SeqCsr.csr) (u first : Z) (row : list Z) : Prop :=
  aread (SeqCsr.xoff g) (OmpCsr.XOFF u) = Ok first /\ aread (SeqCsr.xoff g) (OmpCsr.XENDOFF u) = Ok (first + zlen row) /\
  forall t x, row !! t = Some x -> aread (SeqCsr.xadjstore g) (OmpCsr.xadj (first + Z.of_nat t)) = Ok x.

Lemma csr_holds_row IJ xo st c u :
  csr_ok IJ xo st c -> 0 <= u <= maxv IJ -> holds_row (SeqCsr.Csr (maxv IJ) (maxv IJ + 1) xo st) u (off IJ (Z.to_nat u)) (c u).
Proof.
  intros Hok Hu. split; [apply (read_xoff IJ xo st c Hok); lia|]. split; [apply (read_xendoff IJ xo st c Hok); lia|].
  intros t x Hx. apply (read_row IJ xo st c Hok); [lia|done].
Qed.

Lemma increasing_unique (l1 l2 : list Z) :
  StronglySorted Z.lt l1 -> StronglySorted Z.lt l2 -> (forall x, x ∈ l1 <-> x ∈ l2) -> l1 = l2.
Proof.
  intros H1 H2 Hin. assert (AntiSymm (=) Z.lt) by (intros x y; lia). apply (StronglySorted_unique Z.lt); [done|done|].
  apply NoDup_Permutation; [now apply sorted_NoDup|now apply sorted_NoDup|done].
Qed.

Section omp.
Context `{OM : Omp, !OmpLaws OM} `{M : Malloc, !MallocLaws M} {NO : MallocNoOom M}.

Lemma omp_create_ok IJ t :
  fits IJ -> exists xo st c t', OmpCsr.create_graph_from_edgelist IJ (zlen IJ) t = Ok (SeqCsr.Csr (maxv IJ) (maxv IJ + 1) xo st, t') /\ csr_ok IJ xo st c.
Proof.
  intros Hf. destruct (create_returns False IJ Hf t) as [(g & t' & Hrun & xo & st & c & -> & Hok)|[[] _]]. now exists xo, st, c, t'.
Qed.

(** C19: Building the graph with a team of any number of threads, any division of the
    loops and any interleaving of the accesses, gives the rows of the sequential kernel:
    for a graph whose arrays have 64-bit sizes ([fits]), as long as malloc succeeds, both end without a fault, the row of every vertex starts at the same offset, and is
    the strictly increasing list of its neighbours. *)
Theorem omp_rows_sequential IJ t :
  fits IJ ->
  exists g t' gs, OmpCsr.create_graph_from_edgelist IJ (zlen IJ) t = Ok (g, t') /\ SeqCsr.create_graph_from_edgelist IJ (zlen IJ) = Ok gs /\
    SeqCsr.maxvtx g = SeqCsr.maxvtx gs /\ SeqCsr.nv g = SeqCsr.nv gs /\
    forall u, 0 <= u <= SeqCsr.maxvtx g -> exists first row, holds_row g u first row /\ holds_row gs u first row /\
      StronglySorted Z.lt row /\ forall x, x ∈ row <-> adj IJ u x.
Proof.
  intros Hf. destruct (omp_create_ok IJ t Hf) as (xo & st & c & t' & -> & Hok). destruct (csr_create_spec IJ Hf) as (xo' & st' & c' & -> & Hok').
  eexists _, t', _. split; [done|]. split; [done|]. split; [done|]. split; [done|]. cbn [SeqCsr.maxvtx]. intros u Hu.
  destruct (proj2 Hok u) as [Hs Hin]; [lia|]. destruct (proj2 Hok' u) as [Hs' Hin']; [lia|].
  assert (Heq : c u = c' u) by (apply increasing_unique; [done|done|]; intros x; now rewrite Hin, Hin').
  exists (off IJ (Z.to_nat u)), (c u). split; [now apply csr_holds_row|]. split; [rewrite Heq; now apply csr_holds_row|done].
Qed.

(** ** Search *)

(** C18: The parallel search is breadth first, for a graph whose arrays have 64-bit sizes
    ([fits]) and with fewer than 2^31 - 64 vertices (beyond, the bitmaps are too small),
    as long as malloc, which the bitmaps do not test, succeeds.  For every number of
    threads, division of the loops and interleaving of the accesses, building the graph and searching it never
    touches memory out of bounds, fails no assertion and retries each atomic update a
    bounded number of times; the search ends either with a breadth-first tree (exactly the
    vertices reachable from the source, each with a neighbour one step nearer as parent),
    whichever directions the levels were searched in, or because the threads took
    different ways.  It ends with the tree whenever no thread gets ahead of the others
    after a barrier. *)
Theorem omp_breadth_first IJ tree src t :
  fits IJ -> maxv IJ + 64 < 2 ^ 31 -> 0 <= src <= maxv IJ -> maxv IJ < zlen tree ->
  let searched r := exists tree' t2, r = Ok ((tree', maxv IJ), t2) /\ bfs_tree_of (adj IJ) (maxv IJ + 1) src tree' in
  exists g t1, OmpCsr.create_graph_from_edgelist IJ (zlen IJ) t = Ok (g, t1) /\
    (searched (OmpCsr.make_bfs_tree g tree src t1) \/ OmpCsr.make_bfs_tree g tree src t1 = Fault Diverged) /\
    (OmpPrompt OM -> searched (OmpCsr.make_bfs_tree g tree src t1)).
Proof.
  intros Hf Hnv Hs Hl searched. destruct (omp_create_ok IJ t Hf) as (xo & st & c & t1 & Hrun & Hok). eexists _, t1. split; [exact Hrun|].
  assert (Hsearch : forall race, race \/ OmpPrompt OM -> searched (OmpCsr.make_bfs_tree (SeqCsr.Csr (maxv IJ) (maxv IJ + 1) xo st) tree src t1) \/
    race /\ OmpCsr.make_bfs_tree (SeqCsr.Csr (maxv IJ) (maxv IJ + 1) xo st) tree src t1 = Fault Diverged).
  { intros race Hr. destruct (search_returns race IJ xo st c Hok src tree Hr ltac:(lia) ltac:(lia) ltac:(lia) t1) as [([tree' m] & t2 & -> & -> & d & Hd)|[HR ->]]; [left|now right].
    exists tree', t2. split; [done|]. eapply bfs_ok_tree, Hd. }
  split.
  - destruct (Hsearch True) as [|[_ ?]]; [now left|now left|now right].
  - intros Hpr. destruct (Hsearch False) as [|[[] _]]; [now right|done].
Qed.

(** ** Bitmaps *)

(** The bitmaps are too small for large graphs: [bm_init] takes the number of vertices
    as an [int].  For any multiple of [2^32] vertices it makes a bitmap of no words at all,
    without an error, and every access of the search to it is out of bounds. *)
Theorem bitmap_truncated k :
  exists bm, bm_init (2 ^ 32 * k) = Ok bm /\ end_ bm = 0 /\ forall pos, 0 <= pos -> bm_get_bit bm pos = Fault OutOfBounds.
Proof.
  unfold bm_init. assert (Hs : s32 (2 ^ 32 * k) = 0).
  { unfold s32. replace (2 ^ 32 * k + 2 ^ 31) with (2 ^ 31 + k * 2 ^ 32) by lia. rewrite Z.mod_add by lia. done. }
  rewrite Hs. cbn [i32 mbind res_bind]. change (Z.quot (0 + 63) 64) with 0. change (u64 (8 * 0)) with 0.
  destruct (malloc_some 0 8) as [a Ha]; [lia|]. unfold i32. rewrite decide_True by lia. cbn [mbind res_bind]. change (Z.quot (0 + 63) 64) with 0. change (u64 (8 * 0)) with 0. rewrite Ha.
  pose proof (malloc_length _ _ _ Ha ltac:(lia)) as Hl. eexists. split; [done|]. split; [done|]. intros pos Hp. unfold bm_get_bit, aread. cbn [start]. rewrite word_offset by lia.
  rewrite decide_True by dlia. rewrite lookup_ge_None_2; [done|]. unfold zlen in Hl. change (0 / 8) with 0 in Hl. lia.
Qed.
End omp.

(** ** Threads that take different ways *)

Import Pair.

(** A path of 22 vertices. *)
Definition path : list packed_edge := (fun k => Edge k (k + 1)) <$> seqZ 0 21.

(** C38: The threads can take different ways.  Each subtracts [scout_count] from its own
    [edges_to_check] after the last barrier of a step top down, while the first thread that
    gets to the following [single] region sets it to zero: on a path of 22 vertices, two
    threads that run one after the other between barriers disagree on the direction of the
    next level, although the same search with the threads in turn ends. *)
Theorem omp_search_can_diverge :
  let run sched := '(g, t) ← OmpCsr.create_graph_from_edgelist (OM := team sched) path 21 0%nat; OmpCsr.make_bfs_tree (OM := team sched) g (replicate 22 0) 0 t in
  OmpLaws (team one_by_one) /\ run one_by_one = Fault Diverged /\
  exists tree t, run in_turn = Ok (tree, 21, t) /\ bfs_tree_of (adj path) 22 0 tree.
Proof.
  intros run. split; [apply _|]. split; [vm_compute; reflexivity|].
  destruct (omp_create_ok (OM := team in_turn) path 0%nat) as (xo & st & c & t1 & Hrun & Hok); [vm_compute; reflexivity|].
  destruct (search_returns (OM := team in_turn) False path xo st c Hok 0 (replicate 22 0) (or_intror in_turn_prompt) ltac:(vm_compute; reflexivity) ltac:(vm_compute; split; [discriminate|reflexivity])
    ltac:(vm_compute; discriminate) t1) as [([tree m] & t2 & Hrun2 & -> & d & Hd)|[[] _]].
  exists tree, t2. unfold run. change (zlen path) with 21 in Hrun. rewrite Hrun. cbn [mbind res_bind]. split; [exact Hrun2|]. exact (bfs_ok_tree _ _ _ _ _ Hd).
Qed.

(** ** Witnesses *)

Lemma omp_rows_sequential_witness :
  exists g t' gs, OmpCsr.create_graph_from_edgelist (OM := team in_turn) edges 7 3%nat = Ok (g, t') /\ SeqCsr.create_graph_from_edgelist edges 7 = Ok gs /\
    forall u, 0 <= u <= SeqCsr.maxvtx g -> exists first row, holds_row g u first row /\ holds_row gs u first row.
Proof.
  destruct (omp_rows_sequential (OM := team in_turn) edges 3%nat) as (g & t' & gs & H1 & H2 & _ & _ & H3); [vm_compute; reflexivity|].
  exists g, t', gs. split; [exact H1|]. split; [exact H2|]. intros u Hu. destruct (H3 u Hu) as (first & row & Ha & Hb & _). exists first, row. split; assumption.
Defined.

Lemma omp_breadth_first_witness :
  exists g t1 tree' t2, OmpCsr.create_graph_from_edgelist (OM := team in_turn) edges 7 0%nat = Ok (g, t1) /\
    OmpCsr.make_bfs_tree (OM := team in_turn) g (replicate 8 9) 1 t1 = Ok ((tree', 6), t2) /\ bfs_tree_of (adj edges) 7 1 tree'.
Proof.
  destruct (omp_breadth_first (OM := team in_turn) edges (replicate 8 9) 1 0%nat) as (g & t1 & H1 & _ & H2);
    [vm_compute; reflexivity|vm_compute; reflexivity|vm_compute; split; discriminate|vm_compute; reflexivity|].
  destruct (H2 in_turn_prompt) as (tree' & t2 & H3 & H4). exists g, t1, tree', t2. split; [exact H1|]. split; [exact H3|exact H4].
Defined.

Lemma bitmap_truncated_witness : exists bm, bm_init (2 ^ 32) = Ok bm /\ end_ bm = 0 /\ bm_get_bit bm 70 = Fault OutOfBounds.
Proof. destruct (bitmap_truncated 1) as (bm & H1 & H2 & H3). exists bm. split; [exact H1|]. split; [exact H2|]. apply H3. lia. Defined.
