(* ===== verification/XsBench.v ===== *)
(** XSBench, src/workload/xsbench: random numbers, materials, energy grids and the lookups
    of Simulation.c by a team of threads, with the baseline kernel and the one that sorts.

    A [double] is a binary64 number of the Standard Library's [SpecFloat], with its
    rounding.  Progress messages and the replicas of AML are left out. *)
From stdpp Require Import base numbers list sorting.
From Stdlib Require Import ZArith Lia SpecFloat.
From S2P Require Import Prelude Graph500 Graph Omp.
Open Scope Z_scope.

(** ** Doubles *)

Notation double := spec_float.
Definition dadd : double -> double -> double := SFadd 53 1024.
Definition dsub : double -> double -> double := SFsub 53 1024.
Definition dmul : double -> double -> double := SFmul 53 1024.
Definition ddiv : double -> double -> double := SFdiv 53 1024.

(** [a < b] and [a <= b]; both are false for a NaN. *)
Definition dlt (a b : double) : bool := SFltb a b.
Definition dle (a b : double) : bool := SFleb a b.

(** Conversion from an integer, to the nearest. *)
Definition of_Z (z : Z) : double := binary_normalize 53 1024 z 0 false.

(** The literal [n/1000]. *)
Definition milli (n : Z) : double := ddiv (of_Z n) (of_Z 1000).

(** Conversion to [long], towards zero. *)
Definition to_long (x : double) : res Z :=
  match x with
  | S754_zero _ => Ok 0
  | S754_finite s m e => i64 ((if s then -1 else 1) * Z.quot (Zpos m * 2 ^ Z.max e 0) (2 ^ Z.max (- e) 0))
  | _ => Fault IntOverflow
  end.

(** The number with a given representation: fresh memory holds any. *)
Definition of_bits (w : Z) : double :=
  let s := Z.testbit w 63 in
  let e := Z.land (Z.shiftr w 52) 0x7ff in
  let m := Z.land w (2 ^ 52 - 1) in
  if e =? 0x7ff then (if m =? 0 then S754_infinity s else S754_nan)
  else if e =? 0 then (if m =? 0 then S754_zero s else S754_finite s (Z.to_pos m) (-1074))
  else S754_finite s (Z.to_pos (m + 2 ^ 52)) (e - 1075).

(** ** The library's sort: the order of equal elements is not specified. *)
Class Qsort := { qsort : forall {A}, (A -> A -> Z) -> list A -> list A }.
Class QsortLaws (Q : Qsort) : Prop := {
  qsort_perm {A} (cmp : A -> A -> Z) l : qsort cmp l ≡ₚ l;
  qsort_sorted {A} (cmp : A -> A -> Z) l :
    (forall x y, x ∈ l -> y ∈ l -> cmp x y <= 0 \/ cmp y x <= 0) ->
    (forall x y z, x ∈ l -> y ∈ l -> z ∈ l -> cmp x y <= 0 -> cmp y z <= 0 -> cmp x z <= 0) ->
    StronglySorted (fun x y => cmp x y <= 0) (qsort cmp l) }.

(** [qsort (&a[base], n, ...)] *)
Definition qsort_at `{Qsort} {A} (cmp : A -> A -> Z) (a : list A) (base n : Z) : res (list A) :=
  if decide (0 <= base /\ 0 <= n /\ base + n <= zlen a) then
    let b := Z.to_nat base in
    Ok (take b a ++ qsort cmp (take (Z.to_nat n) (drop b a)) ++ drop (b + Z.to_nat n) a)
  else Fault OutOfBounds.

(** ** Data *)

Definition UNIONIZED : Z := 0.
Definition NUCLIDE : Z := 1.
Definition HASH : Z := 2.
Definition HISTORY_BASED : Z := 1.
Definition EVENT_BASED : Z := 2.
Definition STARTING_SEED : Z := 1070.

Record NuclideGridPoint := Point {
  energy : double; total_xs : double; elastic_xs : double; absorbtion_xs : double; fission_xs : double; nu_fission_xs : double }.

(** The options; the number of threads is that of the team. *)
Record Inputs := Input {
  n_isotopes : Z; n_gridpoints : Z; lookups : Z; grid_type : Z; hash_bins : Z; particles : Z; simulation_method : Z; kernel_id : Z }.

Record SimulationData := Data {
  num_nucs : list Z; concs : list double; mats : list Z; unionized_energy_array : list double;
  index_grid : list Z; nuclide_grid : list NuclideGridPoint; max_num_nucs : Z }.

Definition double_compare (A B : double) : Z := if dlt B A then 1 else if dlt A B then -1 else 0.
Definition NGP_compare (A B : NuclideGridPoint) : Z :=
  if dlt (energy B) (energy A) then 1 else if dlt (energy A) (energy B) then -1 else 0.

(** ** Random numbers *)

Definition LCG_m : Z := 9223372036854775808.
Definition LCG_a : Z := 2806196910506780709.

Definition LCG_step (seed : Z) : Z := u64 (u64 (LCG_a * seed) + 1) mod LCG_m.

(** The number and the new seed. *)
Definition LCG_random_double (seed : Z) : double * Z :=
  let seed := LCG_step seed in (ddiv (of_Z seed) (of_Z LCG_m), seed).

(** [n], [a_new], [c_new], [a] and [c] *)
Definition fast_forward_step (s : Z * Z * Z * Z * Z) : Z * Z * Z * Z * Z :=
  let '(n, a_new, c_new, a, c) := s in
  let '(a_new, c_new) := if Z.land n 1 =? 0 then (a_new, c_new) else (u64 (a_new * a), u64 (u64 (c_new * a) + c)) in
  let c := u64 (c * u64 (a + 1)) in
  let a := u64 (a * a) in
  (Z.shiftr n 1, a_new, c_new, a, c).

Definition fast_forward_LCG (seed n : Z) : res Z :=
  let n := n mod LCG_m in
  '(_, a_new, c_new, _, _) ← while_loop 64 (fun '(n, _, _, _, _) => Ok (0 <? n)) (fun s => Ok (fast_forward_step s)) (n, 1, 0, LCG_a, 1);
  Ok (u64 (u64 (a_new * seed) + c_new) mod LCG_m).

Definition dist : list double := milli <$> [140; 52; 275; 134; 154; 64; 66; 55; 8; 15; 25; 13].

(** The first [i] whose share of the distribution the roll falls in. *)
Fixpoint pick_share (roll : double) (l : list Z) : res Z :=
  match l with
  | [] => Ok 0
  | i :: l =>
      running ← for_down i 0 (fun j running => d ← aread dist j; Ok (dadd running d)) (S754_zero false);
      if dlt roll running then Ok i else pick_share roll l
  end.

Definition pick_mat (seed : Z) : res (Z * Z) :=
  let '(roll, seed) := LCG_random_double seed in
  i ← pick_share roll (seqZ 0 12);
  Ok (i, seed).

(** ** Lookups *)

(** The search of both [grid_search] and [grid_search_nuclide]: [A] reads the energy at an
    index. *)
Definition search_step (quarry : double) (A : Z -> res double) (s : Z * Z) : res (Z * Z) :=
  let '(lowerLimit, upperLimit) := s in
  let examinationPoint := lowerLimit + Z.quot (upperLimit - lowerLimit) 2 in
  x ← A examinationPoint;
  if dlt quarry x then Ok (lowerLimit, examinationPoint) else Ok (examinationPoint, upperLimit).

Definition search_between (quarry : double) (A : Z -> res double) (low high : Z) : res Z :=
  '(lowerLimit, _) ← while_loop (S (Z.to_nat (high - low))) (fun '(l, u) => Ok (1 <? u - l)) (search_step quarry A) (low, high);
  Ok lowerLimit.

Definition grid_search (n : Z) (quarry : double) (A : list double) : res Z :=
  search_between quarry (aread A) 0 (n - 1).

(** [base] is the index of the grid of the nuclide. *)
Definition grid_search_nuclide (quarry : double) (grids : list NuclideGridPoint) (base low high : Z) : res Z :=
  search_between quarry (fun k => p ← aread grids (base + k); Ok (energy p)) low high.

(** The index of the point [low]. *)
Definition low_point (p_energy : double) (nuc n_isotopes n_gridpoints : Z) (index_data : list Z)
    (nuclide_grids : list NuclideGridPoint) (idx grid_type hash_bins : Z) : res Z :=
  let base := nuc * n_gridpoints in
  let cut (k : Z) := if k =? n_gridpoints - 1 then base + k - 1 else base + k in
  if grid_type =? NUCLIDE then
    idx ← grid_search_nuclide p_energy nuclide_grids base 0 (n_gridpoints - 1);
    Ok (cut idx)
  else if grid_type =? UNIONIZED then
    k ← aread index_data (idx * n_isotopes + nuc);
    Ok (cut k)
  else
    u_low ← aread index_data (idx * n_isotopes + nuc);
    u_high ← (if idx =? hash_bins - 1 then Ok (s32 (n_gridpoints - 1))
              else k ← aread index_data ((idx + 1) * n_isotopes + nuc); i32 (k + 1));
    e_low ← aread nuclide_grids (base + u_low);
    e_high ← aread nuclide_grids (base + u_high);
    lower ← (if dle p_energy (energy e_low) then Ok 0
             else if dle (energy e_high) p_energy then Ok (s32 (n_gridpoints - 1))
             else k ← grid_search_nuclide p_energy nuclide_grids base u_low u_high; Ok (s32 k));
    Ok (cut lower).

Definition interpolate (f high low : double) : double := dsub high (dmul f (dsub high low)).

Definition calculate_micro_xs (p_energy : double) (nuc n_isotopes n_gridpoints : Z) (index_data : list Z)
    (nuclide_grids : list NuclideGridPoint) (idx grid_type hash_bins : Z) : res (list double) :=
  k ← low_point p_energy nuc n_isotopes n_gridpoints index_data nuclide_grids idx grid_type hash_bins;
  low ← aread nuclide_grids k;
  high ← aread nuclide_grids (k + 1);
  let f := ddiv (dsub (energy high) p_energy) (dsub (energy high) (energy low)) in
  Ok [interpolate f (total_xs high) (total_xs low); interpolate f (elastic_xs high) (elastic_xs low);
      interpolate f (absorbtion_xs high) (absorbtion_xs low); interpolate f (fission_xs high) (fission_xs low);
      interpolate f (nu_fission_xs high) (nu_fission_xs low)].

Section lookup.
Variables (inp : Inputs) (SD : SimulationData).

(** The place in the acceleration structure, or -1. *)
Definition lookup_index (p_energy : double) : res Z :=
  if grid_type inp =? UNIONIZED then
    n ← i64 (n_isotopes inp * n_gridpoints inp); grid_search n p_energy (unionized_energy_array SD)
  else if grid_type inp =? HASH then
    to_long (ddiv p_energy (ddiv (of_Z 1) (of_Z (hash_bins inp))))
  else Ok (-1).

Definition add_nuclide (p_energy : double) (mat idx j : Z) (macro_xs_vector : list double) : res (list double) :=
  p_nuc ← aread (mats SD) (mat * max_num_nucs SD + j);
  conc ← aread (concs SD) (mat * max_num_nucs SD + j);
  xs_vector ← calculate_micro_xs p_energy p_nuc (n_isotopes inp) (n_gridpoints inp) (index_grid SD) (nuclide_grid SD) idx
    (grid_type inp) (hash_bins inp);
  for_range 0 5 (fun k v => x ← aread xs_vector k; m ← aread v k; awrite v k (dadd m (dmul x conc))) macro_xs_vector.

Definition calculate_macro_xs (p_energy : double) (mat : Z) : res (list double) :=
  idx ← lookup_index p_energy;
  n ← aread (num_nucs SD) mat;
  for_range 0 n (add_nuclide p_energy mat idx) (replicate 5 (S754_zero false)).

(** The index of the largest entry. *)
Definition max_index (macro_xs_vector : list double) : res Z :=
  '(_, max_idx) ← for_range 0 5 (fun j '(max, max_idx) =>
    x ← aread macro_xs_vector j; Ok (if dlt max x then (x, j) else (max, max_idx))) (of_Z (-1), 0);
  Ok max_idx.

(** The energy and the material of an event. *)
Definition event_sample (i : Z) : res (double * Z) :=
  n ← i32 (2 * i);
  seed ← fast_forward_LCG STARTING_SEED (u64 n);
  let '(p_energy, seed) := LCG_random_double seed in
  '(mat, _) ← pick_mat seed;
  Ok (p_energy, mat).

(** One lookup: what is added to [verification]. *)
Definition lookup_value (p_energy : double) (mat : Z) : res Z :=
  macro_xs_vector ← calculate_macro_xs p_energy mat;
  max_idx ← max_index macro_xs_vector;
  Ok (max_idx + 1).

Definition event_lookup (i : Z) : res Z :=
  '(p_energy, mat) ← event_sample i;
  lookup_value p_energy mat.

(** One lookup of a particle: its seed, energy and material and what was added so far. *)
Definition particle_step (s : Z * double * Z * Z) : res (Z * double * Z * Z) :=
  let '(seed, p_energy, mat, verification) := s in
  macro_xs_vector ← calculate_macro_xs p_energy mat;
  max_idx ← max_index macro_xs_vector;
  n_forward ← for_range 0 5 (fun j n => x ← aread macro_xs_vector j; Ok (if dlt (of_Z 1) x then n + 1 else n)) 0;
  seed ← (if 0 <? n_forward then fast_forward_LCG seed n_forward else Ok seed);
  let '(p_energy, seed) := LCG_random_double seed in
  '(mat, seed) ← pick_mat seed;
  Ok (seed, p_energy, mat, verification + (max_idx + 1)).

Definition particle_history (p : Z) : res Z :=
  n ← i32 (p * lookups inp);
  n ← i32 (n * 2);
  n ← i32 (n * 5);
  seed ← fast_forward_LCG STARTING_SEED (u64 n);
  let '(p_energy, seed) := LCG_random_double seed in
  '(mat, seed) ← pick_mat seed;
  '(_, _, _, verification) ← for_range 0 (lookups inp) (fun _ => particle_step) (seed, p_energy, mat, 0);
  Ok verification.

Context `{OM : Omp}.

(** [parallel for ... reduction(+:verification)] over a body without shared writes. *)
Definition reduction (lo hi : Z) (body : Z -> res Z) : team Z :=
  '(_, sums) ← omp_for lo hi (fun _ is_ => pfor is_ (fun i v => read_only (body i) (fun k => mret (u64 (v + k)))) 0) tt;
  mret (foldr (fun v acc => u64 (v + acc)) 0 sums).

Definition run_event_based_simulation : team Z := reduction 0 (lookups inp) event_lookup.
Definition run_history_based_simulation : team Z := reduction 0 (particles inp) particle_history.

(** ** The kernel that sorts *)

(** Keys and values are sorted together; [base] is the start of the part.  A call sorts
    a part with fewer than [cutoff] entries itself and divides a larger one into two
    tasks, which it returns. *)
Section quicksort.
Context {K W : Type} (lt : K -> K -> bool) (base cutoff : Z).

Definition scan_up (key : list K) (pivot : K) (i : Z) : res Z :=
  while_loop (S (length key)) (fun i => x ← aread key (base + i); Ok (lt x pivot)) (fun i => Ok (i + 1)) i.
Definition scan_down (key : list K) (pivot : K) (j : Z) : res Z :=
  while_loop (S (length key)) (fun j => x ← aread key (base + j); Ok (lt pivot x)) (fun j => Ok (j - 1)) j.

Definition swap {X} (a : list X) (i j : Z) : res (list X) :=
  x ← aread a (base + i); y ← aread a (base + j); a ← awrite a (base + i) y; awrite a (base + j) x.

Definition partition_step (pivot : K) (s : list K * list W * Z * Z) : res (list K * list W * Z * Z) :=
  let '(key, value, i, j) := s in
  i ← scan_up key pivot i;
  j ← scan_down key pivot j;
  if i <=? j then key ← swap key i j; value ← swap value i j; Ok (key, value, i + 1, j - 1)
  else Ok (key, value, i, j).

Fixpoint quickSort_internal (fuel : nat) (left right : Z) (kv : list K * list W) : res (list (Z * Z) * (list K * list W)) :=
  match fuel with
  | O => Fault OutOfFuel
  | S fuel =>
      m ← i32 (left + right);
      pivot ← aread kv.1 (base + Z.quot m 2);
      '(key, value, i, j) ← while_loop (S (S (Z.to_nat (right - left + 1)))) (fun '(_, _, i, j) => Ok (i <=? j)) (partition_step pivot)
        (kv.1, kv.2, left, right);
      if right - left <? cutoff then
        '(tasks1, kv) ← (if left <? j then quickSort_internal fuel left j (key, value) else Ok ([], (key, value)));
        '(tasks2, kv) ← (if i <? right then quickSort_internal fuel i right kv else Ok ([], kv));
        Ok (tasks1 ++ tasks2, kv)
      else Ok ([(left, j); (i, right)], (key, value))
  end.
End quicksort.

(** With [int] keys and with [double] keys. *)
Definition quickSort_parallel_internal_i_d (base cutoff : Z) (fuel : nat) (left right : Z) (kv : list Z * list double)
    : res (list (Z * Z) * (list Z * list double)) :=
  quickSort_internal Z.ltb base cutoff fuel left right kv.
Definition quickSort_parallel_internal_d_i (base cutoff : Z) (fuel : nat) (left right : Z) (kv : list double * list Z)
    : res (list (Z * Z) * (list double * list Z)) :=
  quickSort_internal dlt base cutoff fuel left right kv.

(** The task that runs next, among those created and not yet run. *)
Definition next_task (picks : list nat) (pool : list (Z * Z)) : nat :=
  let i := hd 0%nat picks in if decide (i < length pool)%nat then i else 0%nat.

(** The tasks of a parallel region, one at a time, in the order of [picks]. *)
Fixpoint run_tasks {S} (fuel : nat) (body : Z -> Z -> S -> res (list (Z * Z) * S)) (picks : list nat) (pool : list (Z * Z)) (s : S) : res S :=
  match fuel with
  | O => Fault OutOfFuel
  | Datatypes.S fuel =>
      match pool !! next_task picks pool with
      | None => Ok s
      | Some (l, r) =>
          '(tasks, s) ← body l r s;
          run_tasks fuel body (tail picks) (delete (next_task picks pool) pool ++ tasks) s
      end
  end.

(** A region whose first task sorts all [lenArray] entries. *)
Definition sort_region {S} (lenArray : Z) (body : nat -> Z -> Z -> S -> res (list (Z * Z) * S)) (s : S) : team S :=
  fun t =>
    s ← run_tasks (Datatypes.S (Datatypes.S (Z.to_nat (2 * lenArray)))) (body (Datatypes.S (Datatypes.S (Z.to_nat lenArray)))) (picks t)
          [(0, lenArray - 1)] s;
    Ok (s, Datatypes.S t).

Definition quickSort_parallel_i_d (base lenArray : Z) (kv : list Z * list double) : team (list Z * list double) :=
  sort_region lenArray (quickSort_parallel_internal_i_d base 10000) kv.
Definition quickSort_parallel_d_i (base lenArray : Z) (kv : list double * list Z) : team (list double * list Z) :=
  sort_region lenArray (quickSort_parallel_internal_d_i base 10000) kv.

(** Energies and materials; threads fill entries of their own. *)
Definition sample_events (s : list double * list Z) : team (list double * list Z) :=
  omp_each 0 (lookups inp) (fun i =>
    read_only (event_sample i) (fun '(p_energy, mat) =>
      store (fun '(p_energy_samples, mat_samples) =>
        p_energy_samples ← awrite p_energy_samples i p_energy; mat_samples ← awrite mat_samples i mat; Ok (p_energy_samples, mat_samples)))) s.

(** The samples of each material, and where they start. *)
Definition count_samples (mat_samples : list Z) : res (list Z * list Z) :=
  num_samples_per_mat ← for_range 0 (lookups inp) (fun l a => m ← aread mat_samples l; bump a m) (replicate 12 0);
  offsets ← for_range 1 12 (fun m offsets =>
    o ← aread offsets (m - 1); n ← aread num_samples_per_mat (m - 1); awrite offsets m (o + n)) (replicate 12 0);
  Ok (num_samples_per_mat, offsets).

(** Each of the materials [ms] by energy. *)
Fixpoint sort_materials (offsets num_samples_per_mat ms : list Z) (s : list double * list Z) : team (list double * list Z) :=
  match ms with
  | [] => mret s
  | m :: ms =>
      o ← alone (aread offsets m);
      n ← alone (aread num_samples_per_mat m);
      s ← quickSort_parallel_d_i o n s;
      sort_materials offsets num_samples_per_mat ms s
  end.

(** By material, then each material by energy. *)
Definition sort_samples (s : list double * list Z) : team (list double * list Z * list Z) :=
  '(mats, energies) ← quickSort_parallel_i_d 0 (lookups inp) (s.2, s.1);
  '(num_samples_per_mat, offsets) ← alone (count_samples mats);
  s ← sort_materials offsets num_samples_per_mat (seqZ 0 12) (energies, mats);
  mret (s, num_samples_per_mat).

(** The lookups of the materials [ms], the first of them at [offset]. *)
Fixpoint material_lookups (s : list double * list Z) (num_samples_per_mat ms : list Z) (offset verification : Z) : team Z :=
  match ms with
  | [] => mret verification
  | m :: ms =>
      n ← alone (aread num_samples_per_mat m);
      v ← reduction offset (offset + n) (fun i =>
        p_energy ← aread s.1 i; mat ← aread s.2 i; lookup_value p_energy mat);
      material_lookups s num_samples_per_mat ms (offset + n) (u64 (verification + v))
  end.

(** The arrays come from [malloc], which is not tested; [fresh] is its content. *)
Definition run_event_based_simulation_optimization_1 (fresh : list double * list Z) : team Z :=
  s ← sample_events fresh;
  '(s, num_samples_per_mat) ← sort_samples s;
  material_lookups s num_samples_per_mat (seqZ 0 12) 0 0.
End lookup.

(** ** Initialisation *)

Section init.
Context `{M : Malloc} `{Q : Qsort} `{OM : Omp}.

Definition calloc {A} (zero : A) (n size : Z) : res (list A) :=
  _ ← of_option AssertFailed (malloc (u64 n * size) size); Ok (replicate (Z.to_nat (u64 n)) zero).

(** The arrays of materials come from [malloc], which is not tested. *)
Definition malloc_unchecked (n size : Z) : res (list Z) := of_option BadPointer (malloc (u64 (n * size)) size).

Definition load_num_nucs (n_isotopes : Z) : res (list Z) :=
  a ← malloc_unchecked 12 4;
  let fuel := if n_isotopes =? 68 then 34 else 321 in
  mfold (fun '(i, x) a => awrite a i x) (imap (fun i x => (Z.of_nat i, x)) [fuel; 5; 4; 4; 27; 21; 21; 21; 21; 21; 9; 9]) a.

Definition mats0_Sml : list Z :=
  [58; 59; 60; 61; 40; 42; 43; 44; 45; 46; 1; 2; 3; 7; 8; 9; 10; 29; 57; 47; 48; 0; 62; 15; 33; 34; 52; 53; 54; 55; 56; 18; 23; 41].
Definition mats0_Lrg : list Z := mats0_Sml ++ ((fun i => 68 + i) <$> seqZ 0 (321 - 34)).
Definition water : list Z := [24; 41; 4; 5].
Definition reflector : list Z := water ++ [19; 20; 21; 22; 35; 36; 37; 38; 39; 25; 49; 50; 51; 11; 12; 13; 14].
Definition materials (n_isotopes : Z) : list (list Z) :=
  [if n_isotopes =? 68 then mats0_Sml else mats0_Lrg; [63; 64; 65; 66; 67]; water; water;
   [19; 20; 21; 22; 35; 36; 37; 38; 39; 25; 27; 28; 29; 30; 31; 32; 26; 49; 50; 51; 11; 12; 13; 14; 6; 16; 17];
   reflector; reflector; reflector; reflector; reflector; water ++ [63; 64; 65; 66; 67]; water ++ [63; 64; 65; 66; 67]].

(** [memcpy (dst + off, src, n * sizeof (int))] *)
Definition memcpy (dst : list Z) (off : Z) (src : list Z) (n : Z) : res (list Z) :=
  for_range 0 n (fun k dst => x ← aread src k; awrite dst (off + k) x) dst.

(** [mats] and [max_num_nucs] *)
Definition load_mats (num_nucs : list Z) (n_isotopes : Z) : res (list Z * Z) :=
  max ← for_range 0 12 (fun m max => n ← aread num_nucs m; Ok (if max <? n then n else max)) 0;
  mats ← malloc_unchecked (12 * max) 4;
  mats ← for_range 0 12 (fun m mats =>
    src ← aread (materials n_isotopes) m; n ← aread num_nucs m; memcpy mats (max * m) src n) mats;
  Ok (mats, max).

Definition load_concs (num_nucs : list Z) (max_num_nucs : Z) : res (list double) :=
  concs ← malloc_unchecked (12 * max_num_nucs) 8;
  '(concs, _) ← for_range 0 12 (fun i s =>
    n ← aread num_nucs i;
    for_range 0 n (fun j '(concs, seed) =>
      let '(x, seed) := LCG_random_double seed in
      concs ← awrite concs (i * max_num_nucs + j) x; Ok (concs, seed)) s) (of_bits <$> concs, STARTING_SEED * STARTING_SEED);
  Ok concs.

(** Six numbers, in the order of the fields. *)
Definition random_point (seed : Z) : NuclideGridPoint * Z :=
  let '(x1, seed) := LCG_random_double seed in
  let '(x2, seed) := LCG_random_double seed in
  let '(x3, seed) := LCG_random_double seed in
  let '(x4, seed) := LCG_random_double seed in
  let '(x5, seed) := LCG_random_double seed in
  let '(x6, seed) := LCG_random_double seed in
  (Point x1 x2 x3 x4 x5 x6, seed).

Definition zero_point : NuclideGridPoint :=
  Point (S754_zero false) (S754_zero false) (S754_zero false) (S754_zero false) (S754_zero false) (S754_zero false).

Definition init_nuclide_grid (inp : Inputs) (length_nuclide_grid : Z) : res (list NuclideGridPoint) :=
  grid ← calloc zero_point length_nuclide_grid 48;
  '(grid, _) ← for_range 0 length_nuclide_grid (fun i '(grid, seed) =>
    let '(p, seed) := random_point seed in grid ← awrite grid i p; Ok (grid, seed)) (grid, 42);
  for_range 0 (n_isotopes inp) (fun i grid => qsort_at NGP_compare grid (i * n_gridpoints inp) (n_gridpoints inp)) grid.

(** The energies of all nuclides in order. *)
Definition init_unionized (grid : list NuclideGridPoint) (len : Z) (array : list double) : res (list double) :=
  array ← for_range 0 len (fun i array => p ← aread grid i; awrite array i (energy p)) array;
  qsort_at double_compare array 0 len.

(** [index_grid], [idx_low] and [energy_high] at the energy [e] of the union, for nuclide [i]. *)
Definition index_step (inp : Inputs) (grid : list NuclideGridPoint) (unionized_energy : double) (e i : Z)
    (s : list Z * list Z * list double) : res (list Z * list Z * list double) :=
  let '(index_grid, idx_low, energy_high) := s in
  high ← aread energy_high i;
  low ← aread idx_low i;
  if dlt unionized_energy high then
    index_grid ← awrite index_grid (e * n_isotopes inp + i) low; Ok (index_grid, idx_low, energy_high)
  else if low =? n_gridpoints inp - 2 then
    index_grid ← awrite index_grid (e * n_isotopes inp + i) low; Ok (index_grid, idx_low, energy_high)
  else
    idx_low ← awrite idx_low i (low + 1);
    index_grid ← awrite index_grid (e * n_isotopes inp + i) (low + 1);
    p ← aread grid (i * n_gridpoints inp + (low + 1) + 1);
    energy_high ← awrite energy_high i (energy p);
    Ok (index_grid, idx_low, energy_high).

Definition init_index (inp : Inputs) (grid : list NuclideGridPoint) (union : list double) (len : Z) (index_grid : list Z) : res (list Z) :=
  idx_low ← calloc 0 (n_isotopes inp) 4;
  energy_high ← calloc (S754_zero false) (n_isotopes inp) 8;
  energy_high ← for_range 0 (n_isotopes inp) (fun i a =>
    p ← aread grid (i * n_gridpoints inp + 1); awrite a i (energy p)) energy_high;
  '(index_grid, _, _) ← for_range 0 len (fun e s =>
    u ← aread union e; for_range 0 (n_isotopes inp) (index_step inp grid u e) s) (index_grid, idx_low, energy_high);
  Ok index_grid.

(** The threads fill rows of their own. *)
Definition init_hash (inp : Inputs) (grid : list NuclideGridPoint) (index_grid : list Z) : team (list Z) :=
  let du := ddiv (of_Z 1) (of_Z (hash_bins inp)) in
  omp_each 0 (hash_bins inp) (fun e =>
    let energy := dmul (of_Z e) du in
    pfor (seqZ 0 (n_isotopes inp)) (fun i _ =>
      read_only (grid_search_nuclide energy grid (i * n_gridpoints inp) 0 (n_gridpoints inp - 1)) (fun k =>
        store (fun a => awrite a (e * n_isotopes inp + i) (s32 k)))) tt) index_grid.

(** The lengths are computed in the order of the fields; two of them are [int]s. *)
Definition grid_init_do_not_profile (inp : Inputs) : team SimulationData :=
  len ← alone (i64 (n_isotopes inp * n_gridpoints inp));
  let length_nuclide_grid := s32 len in
  let length_unionized_energy_array := if grid_type inp =? UNIONIZED then s32 len else 0 in
  length_index_grid ← alone (
    if grid_type inp =? UNIONIZED then i64 (length_unionized_energy_array * n_isotopes inp)
    else if grid_type inp =? HASH then i64 (hash_bins inp * n_isotopes inp) else Ok 0);
  index ← alone (if (grid_type inp =? UNIONIZED) || (grid_type inp =? HASH) then calloc 0 length_index_grid 4 else Ok []);
  union ← alone (if grid_type inp =? UNIONIZED then calloc (S754_zero false) length_unionized_energy_array 8 else Ok []);
  grid ← alone (init_nuclide_grid inp length_nuclide_grid);
  union ← alone (if grid_type inp =? UNIONIZED then init_unionized grid length_unionized_energy_array union else Ok union);
  index ← (if grid_type inp =? UNIONIZED then alone (init_index inp grid union length_unionized_energy_array index)
           else if grid_type inp =? HASH then init_hash inp grid index else mret index);
  alone (
    num_nucs ← load_num_nucs (n_isotopes inp);
    '(mats, max_num_nucs) ← load_mats num_nucs (n_isotopes inp);
    concs ← load_concs num_nucs max_num_nucs;
    Ok (Data num_nucs concs mats union index grid max_num_nucs)).

(** The arrays of the kernel that sorts. *)
Definition sample_arrays (inp : Inputs) : res (list double * list Z) :=
  e ← malloc_unchecked (lookups inp) 8; m ← malloc_unchecked (lookups inp) 4; Ok (of_bits <$> (e : list Z), m).

(** [main] without a file of data: the checksum it prints. *)
Definition xs_main (inp : Inputs) : team Z :=
  SD ← grid_init_do_not_profile inp;
  verification ← (if simulation_method inp =? EVENT_BASED then
      if kernel_id inp =? 0 then run_event_based_simulation inp SD
      else if kernel_id inp =? 1 then
        fresh ← alone (sample_arrays inp); run_event_based_simulation_optimization_1 inp SD fresh
      else alone (Fault ExitFailure)
    else run_history_based_simulation inp SD);
  mret (verification mod 999983).
End init.
