(* ===== verification/XsNumbers.v ===== *)
(** The numbers of XSBench: the order of doubles that are not negative, rounding, and the
    random numbers. *)
From stdpp Require Import base numbers list sorting.
From Stdlib Require Import ZArith Lia SpecFloat.
From S2P Require Import Prelude Graph500 XsBench.
Open Scope Z_scope.

(** ** Doubles that are not negative *)

Definition nonneg (x : double) : Prop :=
  match x with
  | S754_zero s | S754_infinity s | S754_finite s _ _ => s = false
  | S754_nan => False
  end.

#[export] Instance double_eq_dec : EqDecision double.
Proof. solve_decision. Defined.

(** Sign or infinity, exponent and mantissa, compared in this order. *)
Definition key (x : double) : Z * Z * Z :=
  match x with
  | S754_finite _ m e => (1, e, Zpos m)
  | S754_infinity _ => (2, 0, 0)
  | _ => (0, 0, 0)
  end.
Definition lex (a b : Z * Z * Z) : Prop :=
  a.1.1 < b.1.1 \/ a.1.1 = b.1.1 /\ (a.1.2 < b.1.2 \/ a.1.2 = b.1.2 /\ a.2 < b.2).

Lemma dlt_lex x y : nonneg x -> nonneg y -> dlt x y = true <-> lex (key x) (key y).
Proof.
  unfold dlt, SFltb, lex. destruct x as [s|s| |s m e], y as [s'|s'| |s' m' e']; simpl; intros H1 H2; try done; subst; simpl;
    try (split; [discriminate || lia|lia || done]).
  change (Pos.compare_cont Eq m m') with (Pos.compare m m').
  destruct (Z.compare_spec e e') as [He|He|He], (Pos.compare_spec m m') as [Hm|Hm|Hm]; split; intros; done || lia.
Qed.

Lemma dlt_false x y : nonneg x -> nonneg y -> dlt x y = false <-> ~ lex (key x) (key y).
Proof. intros Hx Hy. rewrite <- (dlt_lex x y Hx Hy). destruct (dlt x y); split; congruence. Qed.

Lemma key_inj x y : nonneg x -> nonneg y -> key x = key y -> x = y.
Proof. destruct x as [s|s| |s m e], y as [s'|s'| |s' m' e']; simpl; intros; subst; simplify_eq; done. Qed.

Lemma dlt_irrefl x : dlt x x = false.
Proof. unfold dlt, SFltb, SFcompare. destruct x as [s|[]| |[] m e]; try done; now rewrite Z.compare_refl, Pos.compare_cont_refl. Qed.

Ltac order := repeat match goal with
  | H : dlt ?x ?y = false |- _ => apply dlt_false in H; [|assumption..]
  | H : dlt ?x ?y = true |- _ => apply dlt_lex in H; [|assumption..]
  | |- dlt ?x ?y = false => apply dlt_false; [assumption..|]
  | |- dlt ?x ?y = true => apply dlt_lex; [assumption..|]
  end; unfold lex in *; lia.

Lemma nlt_trans x y z : nonneg x -> nonneg y -> nonneg z -> dlt y x = false -> dlt z y = false -> dlt z x = false.
Proof. intros. order. Qed.

Lemma nlt_antisym x y : nonneg x -> nonneg y -> dlt y x = false -> dlt x y = false -> x = y.
Proof.
  intros Hx Hy H1 H2. apply key_inj; [done|done|]. apply dlt_false in H1, H2; try done.
  destruct (key x) as [[a b] c], (key y) as [[a' b'] c']. unfold lex in *. simpl in *. f_equal; [f_equal|]; lia.
Qed.

(** ** Rounding *)

Lemma shr_1_nonneg r : 0 <= shr_m r -> 0 <= shr_m (shr_1 r).
Proof. destruct r as [m r s]. simpl. destruct m as [|[p|p|]|p]; simpl; lia. Qed.

Lemma iter_nonneg p r : 0 <= shr_m r -> 0 <= shr_m (iter_pos shr_1 p r).
Proof. revert r. induction p as [p IH|p IH|]; intros r Hr; simpl; auto using shr_1_nonneg. Qed.

Lemma shr_fexp_nonneg m e l : 0 <= m -> 0 <= shr_m (shr_fexp 53 1024 m e l).1.
Proof.
  intros Hm. unfold shr_fexp, shr. assert (Hr : 0 <= shr_m (shr_record_of_loc m l)) by (destruct l as [|[]]; done).
  destruct (fexp _ _ _ - _); simpl; auto using iter_nonneg.
Qed.

Lemma round_nonneg m e l : 0 <= m -> nonneg (binary_round_aux 53 1024 false m e l).
Proof.
  intros Hm. unfold binary_round_aux. pose proof (shr_fexp_nonneg m e l Hm) as H1. destruct (shr_fexp 53 1024 m e l) as [r1 e1].
  set (m2 := round_nearest_even _ _). assert (Hm2 : 0 <= m2) by (unfold m2, round_nearest_even; simpl in H1; destruct (loc_of_shr_record r1) as [|[]]; try destruct (Z.even _); lia).
  pose proof (shr_fexp_nonneg m2 e1 loc_Exact Hm2) as H2. destruct (shr_fexp 53 1024 m2 e1 loc_Exact) as [r2 e2]. simpl in H2.
  destruct (shr_m r2); [done| |lia]. destruct (e2 <=? _); done.
Qed.

Lemma of_Z_nonneg z : 0 <= z -> nonneg (of_Z z).
Proof.
  intros Hz. unfold of_Z, binary_normalize. destruct z as [|p|p]; [done| |lia]. unfold binary_round. destruct (shl_align _ _ _). now apply round_nonneg.
Qed.

Lemma ddiv_nonneg x m e : nonneg x -> nonneg (ddiv x (S754_finite false m e)).
Proof.
  intros Hx. unfold ddiv, SFdiv. destruct x as [s|s| |s mx ex]; simpl in Hx; subst; try done.
  unfold SFdiv_core_binary. match goal with |- context [Z.div_eucl ?a ?b] => assert (Ha : 0 <= a); [|pose proof (Z_div_mod a b ltac:(lia)) as Hd; destruct (Z.div_eucl a b) as [q r]] end.
  { destruct (_ - _ - _); [lia| |lia]. apply Z.shiftl_nonneg. lia. }
  apply round_nonneg. nia.
Qed.

(** ** Random numbers *)

Lemma LCG_step_range seed : 0 <= LCG_step seed < LCG_m.
Proof. apply Z.mod_pos_bound. reflexivity. Qed.

Lemma LCG_double_spec seed : nonneg (LCG_random_double seed).1 /\ (LCG_random_double seed).2 = LCG_step seed.
Proof.
  split; [|done]. unfold LCG_random_double. cbn [fst]. change (of_Z LCG_m) with (S754_finite false 4503599627370496 11).
  apply ddiv_nonneg, of_Z_nonneg, LCG_step_range.
Qed.

(** Affine maps modulo [LCG_m]. *)
Definition affine (a c : Z) (n : nat) : Prop := forall x, (a * x + c) mod LCG_m = Nat.iter n LCG_step x mod LCG_m.

Lemma u64_LCG x : u64 x mod LCG_m = x mod LCG_m.
Proof. unfold u64, wrap. apply Z.mod_mod_divide. now exists 2. Qed.

Lemma LCG_step_mod x : LCG_step x = (LCG_a * x + 1) mod LCG_m.
Proof. unfold LCG_step. rewrite u64_LCG, <- Z.add_mod_idemp_l, u64_LCG, Z.add_mod_idemp_l by done. done. Qed.

Lemma LCG_step_cong x y : x mod LCG_m = y mod LCG_m -> LCG_step x = LCG_step y.
Proof.
  intros H. rewrite !LCG_step_mod. rewrite <- (Z.add_mod_idemp_l _ 1), <- (Z.mul_mod_idemp_r LCG_a x) by done.
  rewrite H, Z.mul_mod_idemp_r, Z.add_mod_idemp_l by done. done.
Qed.

Lemma iter_cong n x y : x mod LCG_m = y mod LCG_m -> Nat.iter n LCG_step x mod LCG_m = Nat.iter n LCG_step y mod LCG_m.
Proof. intros H. induction n as [|n IH]; [done|]. change (LCG_step (Nat.iter n LCG_step x) mod LCG_m = LCG_step (Nat.iter n LCG_step y) mod LCG_m). now rewrite (LCG_step_cong _ _ IH). Qed.

Lemma affine_ext a c a' c' n : a mod LCG_m = a' mod LCG_m -> c mod LCG_m = c' mod LCG_m -> affine a c n -> affine a' c' n.
Proof.
  intros Ha Hc H x. rewrite <- H. rewrite Z.add_mod, (Z.add_mod (a * x)) by done. rewrite (Z.mul_mod a), (Z.mul_mod a') by done. now rewrite Ha, Hc.
Qed.

Lemma affine_comp a c n a' c' n' : affine a c n -> affine a' c' n' -> affine (a' * a) (c' * a + c) (n + n').
Proof.
  intros H H' x. replace (a' * a * x + (c' * a + c)) with (a * (a' * x + c') + c) by ring. rewrite H, Nat.iter_add. now apply iter_cong.
Qed.

Lemma mod_LCG_mul x y : (u64 x * y) mod LCG_m = (x * y) mod LCG_m.
Proof. rewrite Z.mul_mod, u64_LCG, <- Z.mul_mod by done. done. Qed.

(** The state of the loop for [N] steps: [r] are done, each bit of [n] stands for [p] more. *)
Definition forwarding (N : nat) (s : Z * Z * Z * Z * Z) : Prop :=
  let '(n, a_new, c_new, a, c) := s in
  exists p r, 0 <= n /\ N = (r + p * Z.to_nat n)%nat /\ affine a_new c_new r /\ affine a c p.

Lemma forwarding_step N s : forwarding N s -> forwarding N (fast_forward_step s).
Proof.
  destruct s as [[[[n an] cn] a] c]. intros (p & r & Hn & HN & Hr & Hp). unfold fast_forward_step.
  assert (Hsq : affine (u64 (a * a)) (u64 (c * u64 (a + 1))) (p + p)).
  { eapply affine_ext, (affine_comp _ _ _ _ _ _ Hp Hp); rewrite u64_LCG; [done|]. rewrite (Z.mul_comm c (u64 _)), mod_LCG_mul. f_equal. ring. }
  change 1 with (Z.ones 1) at 1. rewrite Z.land_ones, Z.shiftr_div_pow2 by lia. change (2 ^ 1) with 2.
  pose proof (Z.div_mod n 2 ltac:(lia)). pose proof (Z.mod_pos_bound n 2 ltac:(lia)). destruct (Z.eqb_spec (n mod 2) 0).
  - exists (p + p)%nat, r. split; [dlia|]. split; [|done]. rewrite HN. replace (Z.to_nat n) with (2 * Z.to_nat (n / 2))%nat by lia. lia.
  - exists (p + p)%nat, (r + p)%nat. split; [dlia|]. split; [|split; [|done]].
    + rewrite HN. replace (Z.to_nat n) with (2 * Z.to_nat (n / 2) + 1)%nat by lia. lia.
    + rewrite Nat.add_comm. eapply affine_ext, (affine_comp _ _ _ _ _ _ Hp Hr); rewrite u64_LCG; [done|].
      symmetry. rewrite <- Z.add_mod_idemp_l, u64_LCG, Z.add_mod_idemp_l by done. done.
Qed.

Lemma fast_forward_spec seed n :
  0 <= seed < LCG_m -> 0 <= n < LCG_m -> fast_forward_LCG seed n = Ok (Nat.iter (Z.to_nat n) LCG_step seed).
Proof.
  intros Hs Hn. unfold fast_forward_LCG. rewrite (Z.mod_small n) by done.
  destruct (while_loop_inv (fun s => forwarding (Z.to_nat n) s /\ s.1.1.1.1 < 2 ^ 63) (fun s => Z.to_nat (Z.log2 (2 * s.1.1.1.1))) 64
    (fun '(n, _, _, _, _) => Ok (0 <? n)) (fun s => Ok (fast_forward_step s)) (n, 1, 0, LCG_a, 1)) as ([[[[n' an] cn] a] c] & -> & [Hf _] & Hend).
  - split; [|cbn; unfold LCG_m in Hn; lia]. exists 1%nat, 0%nat. split; [lia|]. split; [lia|]. split; intros x; cbn [Nat.iter nat_rect]; [f_equal; lia|].
    rewrite LCG_step_mod, Z.mod_mod by done. done.
  - cbn [fst snd]. pose proof (Z.log2_le_mono (2 * n) (2 ^ 64 - 1) ltac:(unfold LCG_m in Hn; lia)) as Hl. change (Z.log2 (2 ^ 64 - 1)) with 63 in Hl. lia.
  - intros [[[[n' an] cn] a] c] [Hf Hb]. eexists. split; [done|]. intros Hpos%Z.ltb_lt. eexists. split; [done|]. split.
    + split; [now apply forwarding_step|]. cbn [fst snd] in Hb. unfold fast_forward_step. destruct (Z.land n' 1 =? 0); cbn [fst snd]; rewrite Z.shiftr_div_pow2 by lia; change (2 ^ 1) with 2; dlia.
    + cbn [fst snd]. unfold fast_forward_step. assert (Hlt : Z.log2 (2 * (Z.shiftr n' 1)) < Z.log2 (2 * n')).
      { rewrite (Z.log2_double n') by lia. rewrite Z.shiftr_div_pow2 by lia. change (2 ^ 1) with 2. pose proof (Z.log2_nonneg n').
        destruct (Z.eq_dec (n' / 2) 0) as [->|]; [change (Z.log2 (2 * 0)) with 0; lia|]. pose proof (Z.log2_le_mono (2 * (n' / 2)) n' ltac:(dlia)). lia. }
      pose proof (Z.log2_nonneg (2 * Z.shiftr n' 1)). destruct (Z.land n' 1 =? 0); cbn [fst snd]; lia.
  - cbn in Hend. injection Hend as Hend%Z.ltb_ge. destruct Hf as (p & r & H0 & HN & Hr & _). replace n' with 0 in HN by lia. rewrite Nat.mul_0_r, Nat.add_0_r in HN.
    cbn [mbind res_bind]. f_equal. rewrite u64_LCG, <- Z.add_mod_idemp_l, u64_LCG, Z.add_mod_idemp_l, Hr, HN by done. apply Z.mod_small.
    destruct r; [done|]. apply LCG_step_range.
Qed.
