(* ===== verification/XsGrid.v ===== *)
(** The energy grids of XSBench: searches, the union of the grids, and their
    initialisation. *)
From stdpp Require Import base numbers list sorting.
From Stdlib Require Import ZArith Lia SpecFloat.
From S2P Require Import Prelude Graph500 Graph XsBench XsNumbers.
Open Scope Z_scope.

(** ** Searches *)

Lemma search_between_spec q A low high (f : Z -> double) :
  low < high -> (forall k, low < k < high -> A k = Ok (f k)) ->
  exists k, search_between q A low high = Ok k /\ low <= k < high /\ (k = low \/ dlt q (f k) = false) /\ (k + 1 = high \/ dlt q (f (k + 1)) = true).
Proof.
  intros Hlh HA. unfold search_between.
  destruct (while_loop_inv (fun '(l, u) => low <= l < u /\ u <= high /\ (l = low \/ dlt q (f l) = false) /\ (u = high \/ dlt q (f u) = true))
    (fun '(l, u) => Z.to_nat (u - l)) (S (Z.to_nat (high - low))) (fun '(l, u) => Ok (1 <? u - l)) (search_step q A) (low, high)) as ([l u] & -> & (Hl & Hu & H1 & H2) & Hend).
  - split_and!; try lia; now left.
  - lia.
  - intros [l u] (Hl & Hu & H1 & H2). eexists. split; [done|]. intros Hgo%Z.ltb_lt. unfold search_step.
    assert (Hm : l < l + Z.quot (u - l) 2 < u) by dlia. rewrite HA by lia. cbn [mbind res_bind].
    destruct (dlt q (f (l + Z.quot (u - l) 2))) eqn:E; (eexists; split; [reflexivity|]); (split; [|lia]); split_and!; try lia; try assumption; right; exact E.
  - injection Hend as Hend%Z.ltb_ge. cbn [mbind res_bind]. exists l. replace (l + 1) with u by lia. split_and!; try done; lia.
Qed.

(** An ordered part of an ordered list is a sublist of it. *)
Lemma sorted_sublist (l r rest : list double) :
  StronglySorted (fun x y => dlt y x = false) l -> StronglySorted (fun x y => dlt y x = false) r -> l ≡ₚ r ++ rest ->
  (forall x, x ∈ l -> nonneg x) -> sublist r l.
Proof.
  intros Hl. revert r rest. induction Hl as [|x l Hl IH Hx]; intros r rest Hr Hp Hn.
  - apply Permutation_nil in Hp. apply app_eq_nil in Hp as [-> _]. constructor.
  - destruct r as [|y r]; [apply sublist_nil_l|]. inversion Hr as [|? ? Hr' Hy]; subst. rewrite Forall_forall in Hx, Hy.
    assert (Hyl : y ∈ x :: l) by (rewrite Hp; left). destruct (decide (x = y)) as [->|Hne].
    + apply sublist_skip, (IH r rest); [done| |intros; apply Hn; now right]. apply (Permutation_cons_inv (a := y)). now rewrite Hp.
    + assert (Hxr : x ∈ rest).
      { assert (Hin : x ∈ (y :: r) ++ rest) by (rewrite <- Hp; left). apply elem_of_app in Hin as [[->|Hin]%elem_of_cons|Hin]; [done| |done].
        exfalso. apply Hne, nlt_antisym; [apply Hn; left|apply Hn; done| |apply Hy; done]. apply elem_of_cons in Hyl as [->|Hyl]; [done|now apply Hx]. }
      apply elem_of_Permutation in Hxr as (rest' & Hrest). apply sublist_cons, (IH _ rest'); [done| |intros; apply Hn; now right].
      apply (Permutation_cons_inv (a := x)). rewrite Hp, Hrest. cbn. solve_Permutation.
Qed.

(** ** The grid of a nuclide *)

Definition pt (grid : list NuclideGridPoint) (k : Z) : NuclideGridPoint := default zero_point (grid !! Z.to_nat k).
Definition en (grid : list NuclideGridPoint) (k : Z) : double := energy (pt grid k).

Lemma read_pt grid k : 0 <= k < zlen grid -> aread grid k = Ok (pt grid k).
Proof. intros Hk. unfold pt. destruct (aread_in_bounds grid k Hk) as (x & -> & ->). done. Qed.

Section grids.
Context (I G : Z) (grid : list NuclideGridPoint).
Hypothesis HI : 0 < I.
Hypothesis HG : 2 <= G.

(** Rows of [G] points, each in the order of energies. *)
Record grid_ok : Prop := {
  g_len : zlen grid = I * G;
  g_pos k : nonneg (en grid k);
  g_sorted i j k : 0 <= i < I -> 0 <= j <= k -> k < G -> dlt (en grid (i * G + k)) (en grid (i * G + j)) = false }.
Hypothesis Hok : grid_ok.

Lemma in_grid i k : 0 <= i < I -> 0 <= k < G -> 0 <= i * G + k < zlen grid.
Proof. intros Hi Hk. rewrite (g_len Hok). nia. Qed.

(** The interval of nuclide [i] an energy falls in. *)
Definition bracket (i : Z) (q : double) (k : Z) : Prop :=
  0 <= k <= G - 2 /\ (k = 0 \/ dlt q (en grid (i * G + k)) = false) /\ (k = G - 2 \/ dlt q (en grid (i * G + k + 1)) = true).

Lemma bracket_unique i q k k' : 0 <= i < I -> nonneg q -> bracket i q k -> bracket i q k' -> k = k'.
Proof.
  intros Hi Hq. assert (Hlt : forall a b, bracket i q a -> bracket i q b -> a < b -> False).
  { intros a b (Ha & _ & [Ha2|Ha2]) (Hb & [Hb1|Hb1] & _) Hab; try lia.
    pose proof (g_sorted Hok i (a + 1) b Hi ltac:(lia) ltac:(lia)) as Hs. rewrite Z.add_assoc in Hs.
    pose proof (g_pos Hok (i * G + a + 1)). pose proof (g_pos Hok (i * G + b)). order. }
  intros H1 H2. destruct (Z.lt_trichotomy k k') as [Hk|[Hk|Hk]]; [exfalso; eauto|done|exfalso; eauto].
Qed.

Lemma nuclide_search i q : 0 <= i < I -> exists k, grid_search_nuclide q grid (i * G) 0 (G - 1) = Ok k /\ bracket i q k.
Proof.
  intros Hi. unfold grid_search_nuclide.
  destruct (search_between_spec q (fun k => p ← aread grid (i * G + k); Ok (energy p)) 0 (G - 1) (fun k => en grid (i * G + k))) as (k & -> & Hk & H1 & H2).
  - lia.
  - intros k Hk. rewrite read_pt by (apply in_grid; lia). done.
  - exists k. split; [done|]. split; [lia|]. split; [done|]. rewrite Z.add_assoc in H2. destruct H2; [left; lia|now right].
Qed.

(** ** The index of a nuclide along the union *)

Definition advance (i k : Z) (u : double) : Z :=
  if dlt u (en grid (i * G + k + 1)) then k else if k =? G - 2 then k else k + 1.
Definition reached (i : Z) (us : list double) : Z := fold_left (advance i) us 0.

Lemma reached_snoc i us u : reached i (us ++ [u]) = advance i (reached i us) u.
Proof. unfold reached. now rewrite fold_left_app. Qed.

Lemma reached_range i us : 0 <= reached i us <= G - 2.
Proof.
  induction us as [|u us IH] using rev_ind; [cbn; lia|]. rewrite reached_snoc. unfold advance. destruct (dlt _ _); [done|].
  destruct (Z.eqb_spec (reached i us) (G - 2)); lia.
Qed.

Lemma reached_below i us q :
  nonneg q -> Forall (fun u => nonneg u /\ dlt q u = false) us -> reached i us = 0 \/ dlt q (en grid (i * G + reached i us)) = false.
Proof.
  intros Hq. induction us as [|u us IH] using rev_ind; [now left|]. rewrite Forall_app, Forall_singleton. intros [Hus [Hu Huq]].
  specialize (IH Hus). rewrite reached_snoc. unfold advance. destruct (dlt u _) eqn:E; [done|]. destruct (_ =? _); [done|]. right.
  rewrite Z.add_assoc. pose proof (g_pos Hok (i * G + reached i us + 1)). order.
Qed.

(** The energies of a nuclide. *)
Definition row (i : Z) : list double := take (Z.to_nat G) (drop (Z.to_nat (i * G)) (energy <$> grid)).

Lemma row_lookup i k : 0 <= i < I -> 0 <= k < G -> row i !! Z.to_nat k = Some (en grid (i * G + k)).
Proof.
  intros Hi Hk. unfold row. rewrite lookup_take_lt, lookup_drop, list_lookup_fmap by lia.
  pose proof (in_grid i k Hi Hk) as Hin. unfold en, pt. replace (Z.to_nat (i * G) + Z.to_nat k)%nat with (Z.to_nat (i * G + k)) by nia.
  destruct (lookup_lt_is_Some_2 grid (Z.to_nat (i * G + k))) as [p ->]; [unfold zlen in Hin; lia|]. done.
Qed.

Lemma row_length i : 0 <= i < I -> length (row i) = Z.to_nat G.
Proof.
  intros Hi. unfold row. rewrite length_take, length_drop, length_fmap. pose proof (g_len Hok) as Hl. unfold zlen in Hl. nia.
Qed.

Lemma reached_above i es1 es2 j k :
  0 <= i < I -> 0 <= k <= G - 2 -> (Z.min (G - 1) (Z.of_nat j) <= k + 1) -> sublist (drop j (row i)) (es1 ++ es2) ->
  exists j', sublist (drop j' (row i)) es2 /\ Z.min (G - 1) (Z.of_nat j') <= fold_left (advance i) es1 k + 1.
Proof.
  intros Hi. revert j k. induction es1 as [|u es1 IH]; intros j k Hk Hj Hsub; [now exists j|]. cbn [fold_left app] in *.
  assert (Hk' : k <= advance i k u <= G - 2) by (unfold advance; destruct (dlt _ _); [lia|]; destruct (Z.eqb_spec k (G - 2)); lia).
  apply sublist_cons_r in Hsub as [Hsub|(l & Hl & Hsub)]; [apply (IH j); [lia|lia|done]|].
  assert (Hu : row i !! j = Some u) by (rewrite <- (Nat.add_0_r j), <- lookup_drop, Hl; done).
  assert (Hdrop : l = drop (S j) (row i)) by (rewrite <- Nat.add_1_r, <- drop_drop, Hl; done). subst l.
  apply (IH (S j)); [lia| |done]. destruct (Z.le_gt_cases (Z.min (G - 1) (Z.of_nat (S j))) (k + 1)); [lia|].
  assert (Hjk : Z.of_nat j = k + 1) by lia. rewrite <- (Nat2Z.id j), Hjk, row_lookup in Hu by lia. injection Hu as Hu. rewrite Z.add_assoc in Hu.
  unfold advance. rewrite Hu. rewrite dlt_irrefl.
  destruct (Z.eqb_spec k (G - 2)); lia.
Qed.

(** ** The union of the grids *)

Context (union : list double).
Hypothesis Hperm : union ≡ₚ energy <$> grid.
Hypothesis Hsort : StronglySorted (fun x y => dlt y x = false) union.

Lemma union_length : zlen union = I * G.
Proof. unfold zlen. rewrite Hperm, length_fmap. apply (g_len Hok). Qed.

Lemma union_pos u : u ∈ union -> nonneg u.
Proof.
  rewrite Hperm. intros (p & -> & Hp)%list_elem_of_fmap. apply list_elem_of_lookup_1 in Hp as (k & Hk).
  pose proof (g_pos Hok (Z.of_nat k)) as Hn. unfold en, pt in Hn. now rewrite Nat2Z.id, Hk in Hn.
Qed.

Lemma row_sublist i : 0 <= i < I -> sublist (row i) union.
Proof.
  intros Hi. eapply (sorted_sublist union (row i) (take (Z.to_nat (i * G)) (energy <$> grid) ++ drop (Z.to_nat G) (drop (Z.to_nat (i * G)) (energy <$> grid)))); [done| | |apply union_pos].
  - apply StronglySorted_lookup. intros a b x y Hab Ha Hb. pose proof (lookup_lt_Some _ _ _ Hb) as Hlen. rewrite row_length in Hlen by done.
    rewrite <- (Nat2Z.id a), row_lookup in Ha by lia. rewrite <- (Nat2Z.id b), row_lookup in Hb by lia. simplify_eq. apply (g_sorted Hok); lia.
  - rewrite Hperm. unfold row. rewrite Permutation_app_comm, <- app_assoc, (Permutation_app_comm (drop _ _)), take_drop, take_drop. done.
Qed.

(** The energies of a nuclide start with two different ones. *)
Hypothesis Hfirst : forall i, 0 <= i < I -> dlt (en grid (i * G)) (en grid (i * G + 1)) = true.

(** Where the search of the union ends, the index of each nuclide brackets the energy. *)
Lemma union_search q :
  nonneg q -> exists e, grid_search (I * G) q union = Ok e /\ 0 <= e < I * G /\
    forall i, 0 <= i < I -> bracket i q (reached i (take (Z.to_nat (e + 1)) union)).
Proof.
  intros Hq. unfold grid_search. set (f k := default (S754_zero false) (union !! Z.to_nat k)). pose proof union_length as Hlen.
  assert (Hf : forall k, 0 <= k < I * G -> union !! Z.to_nat k = Some (f k)).
  { intros k Hk. unfold f. destruct (lookup_lt_is_Some_2 union (Z.to_nat k)) as [x ->]; [unfold zlen in Hlen; lia|done]. }
  clearbody f. destruct (search_between_spec q (aread union) 0 (I * G - 1) f) as (e & -> & He & H1 & H2); [nia| |].
  { intros k Hk. apply aread_Ok. split; [lia|]. apply Hf. lia. }
  exists e. split; [done|]. split; [lia|]. intros i Hi. set (es1 := take _ union). pose proof (reached_range i es1) as Hr. split; [done|].
  assert (Hle : forall a b, 0 <= a <= b -> b < I * G -> dlt (f b) (f a) = false).
  { intros a b Hab Hb. destruct (decide (a = b)) as [->|].
    - pose proof (union_pos (f b) ltac:(eapply list_elem_of_lookup_2, Hf; lia)). order.
    - eapply (proj1 (StronglySorted_lookup _ _) Hsort (Z.to_nat a) (Z.to_nat b)); [lia|apply Hf; lia|apply Hf; lia]. }
  assert (Hin : forall k, 0 <= k < I * G -> nonneg (f k)) by (intros k Hk; eapply union_pos, list_elem_of_lookup_2, Hf; lia).
  split.
  - destruct H1 as [->|H1].
    + left. assert (es1 = [f 0]) as ->.
      { unfold es1. pose proof (Hf 0 ltac:(nia)) as H0. destruct union as [|u us]; [done|]. injection H0 as ->. done. }
      unfold reached, advance. cbn [fold_left]. rewrite Z.add_0_r. assert (dlt (f 0) (en grid (i * G + 1)) = true) as ->; [|done].
      pose proof (Hfirst i Hi) as H01. pose proof (g_pos Hok (i * G)). pose proof (g_pos Hok (i * G + 1)). pose proof (Hin 0 ltac:(nia)).
      assert (Hmem : en grid (i * G + 0) ∈ union) by (eapply elem_of_sublist; [eapply list_elem_of_lookup_2, row_lookup; lia|now apply row_sublist]).
      rewrite Z.add_0_r in Hmem. apply list_elem_of_lookup_1 in Hmem as (t & Ht). pose proof (lookup_lt_Some _ _ _ Ht) as Hlt. unfold zlen in Hlen.
      rewrite <- (Nat2Z.id t), Hf in Ht by lia. injection Ht as Ht. pose proof (Hle 0 (Z.of_nat t) ltac:(lia) ltac:(lia)) as Hs. rewrite Ht in Hs. order.
    + apply reached_below; [done|]. apply Forall_lookup. intros k u Hk. unfold es1 in Hk. apply lookup_take_Some in Hk as [Hk Hlt].
      rewrite <- (Nat2Z.id k), Hf in Hk by lia. injection Hk as <-. split; [apply Hin; lia|].
      pose proof (Hle (Z.of_nat k) e ltac:(lia) ltac:(lia)). pose proof (Hin (Z.of_nat k) ltac:(lia)). pose proof (Hin e ltac:(lia)). order.
  - destruct (reached_above i es1 (drop (Z.to_nat (e + 1)) union) 0 0) as (j & Hsub & Hj); [done|lia|lia|cbn; unfold es1; rewrite take_drop; now apply row_sublist|].
    change (fold_left (advance i) es1 0) with (reached i es1) in Hj. destruct (decide (reached i es1 = G - 2)) as [|Hne]; [now left|right].
    assert (Hjr : Z.of_nat j <= reached i es1 + 1) by lia.
    assert (Hmem : en grid (i * G + reached i es1 + 1) ∈ drop (Z.to_nat (e + 1)) union).
    { eapply elem_of_sublist; [|exact Hsub]. rewrite <- Z.add_assoc. apply (list_elem_of_lookup_2 _ (Z.to_nat (reached i es1 + 1) - j)). rewrite lookup_drop.
      replace (j + (Z.to_nat (reached i es1 + 1) - j))%nat with (Z.to_nat (reached i es1 + 1)) by lia. apply row_lookup; lia. }
    apply list_elem_of_lookup_1 in Hmem as (t & Ht). rewrite lookup_drop in Ht. pose proof (lookup_lt_Some _ _ _ Ht) as Hlt. unfold zlen in Hlen.
    destruct H2 as [H2|H2].
    + exfalso. apply sublist_length in Hsub. rewrite !length_drop, row_length in Hsub by done. nia.
    + pose proof (Hle (e + 1) (Z.of_nat (Z.to_nat (e + 1) + t)) ltac:(lia) ltac:(lia)) as Hs.
      replace (Z.to_nat (e + 1) + t)%nat with (Z.to_nat (Z.of_nat (Z.to_nat (e + 1) + t))) in Ht by lia. rewrite Hf in Ht by lia. injection Ht as <-.
      pose proof (Hin (e + 1) ltac:(lia)). pose proof (Hin (Z.of_nat (Z.to_nat (e + 1) + t)) ltac:(lia)). order.
Qed.
End grids.

(** ** Initialisation of the grids *)

Lemma compare_le x y : (if dlt y x then 1 else if dlt x y then -1 else 0) <= 0 <-> dlt y x = false.
Proof. destruct (dlt y x), (dlt x y); split; done || lia. Qed.

Section sort.
Context `{Q : Qsort, !QsortLaws Q}.

Lemma qsort_at_spec {A} (cmp : A -> A -> Z) a base n :
  0 <= base -> 0 <= n -> base + n <= zlen a ->
  exists a', qsort_at cmp a base n = Ok a' /\ a' ≡ₚ a /\
    (forall k, (k < Z.to_nat base \/ Z.to_nat (base + n) <= k)%nat -> a' !! k = a !! k) /\
    (forall k, (k < Z.to_nat n)%nat -> a' !! (Z.to_nat base + k)%nat = qsort cmp (take (Z.to_nat n) (drop (Z.to_nat base) a)) !! k).
Proof.
  intros Hb Hn Hl. unfold qsort_at. rewrite decide_True by done. unfold zlen in Hl. set (b := Z.to_nat base). set (m := Z.to_nat n).
  set (seg := take m (drop b a)). assert (Hp : qsort cmp seg ≡ₚ seg) by apply qsort_perm.
  assert (Hseg : length (qsort cmp seg) = m) by (rewrite Hp; unfold seg; rewrite length_take, length_drop; lia).
  assert (Hb' : length (take b a) = b) by (rewrite length_take; lia).
  eexists. split; [done|]. split; [|split].
  - rewrite Hp. unfold seg. rewrite <- (drop_drop a), take_drop, take_drop. done.
  - intros k [Hk|Hk]; [now rewrite lookup_app_l, lookup_take_lt by lia|]. replace (Z.to_nat (base + n)) with (b + m)%nat in Hk by lia.
    rewrite !lookup_app_r by lia. rewrite lookup_drop, Hb', Hseg. f_equal. lia.
  - intros k Hk. rewrite lookup_app_r by lia. rewrite lookup_app_l by lia. f_equal. lia.
Qed.

Context `{M : Malloc, !MallocLaws M} {NO : MallocNoOom M}.

Lemma calloc_spec {A} (zero : A) n size : 0 <= n -> 0 < size -> n * size < 2 ^ 63 -> calloc zero n size = Ok (replicate (Z.to_nat n) zero).
Proof.
  intros Hn Hs Hb. unfold calloc. rewrite u64_small by (split; nia). destruct (malloc_some (n * size) size) as [a ->]; [nia|]. done.
Qed.

Lemma zlen_replicate {A} (x : A) n : 0 <= n -> zlen (replicate (Z.to_nat n) x) = n.
Proof. intros. unfold zlen. rewrite length_replicate. lia. Qed.

Definition energies_ok (grid : list NuclideGridPoint) : Prop := Forall (fun p => nonneg (energy p)) grid.

Lemma energies_en grid k : energies_ok grid -> nonneg (en grid k).
Proof.
  intros H. unfold en, pt. destruct (grid !! Z.to_nat k) as [p|] eqn:E; [|done]. cbn. eapply Forall_lookup_1 in H; done.
Qed.

Lemma random_point_ok seed : nonneg (energy (random_point seed).1).
Proof.
  unfold random_point. destruct (LCG_double_spec seed) as [H _]. repeat match goal with |- context [LCG_random_double ?s] => destruct (LCG_random_double s) as [? ?] end. exact H.
Qed.

(** The points of a row are in order. *)
Definition row_sorted (G : Z) (grid : list NuclideGridPoint) (i : Z) : Prop :=
  forall j k, 0 <= j <= k -> k < G -> dlt (en grid (i * G + k)) (en grid (i * G + j)) = false.

Lemma sort_row I G grid i :
  0 <= i < I -> 0 < G -> zlen grid = I * G -> energies_ok grid -> (forall i', 0 <= i' < i -> row_sorted G grid i') ->
  exists grid', qsort_at NGP_compare grid (i * G) G = Ok grid' /\ zlen grid' = I * G /\ energies_ok grid' /\ forall i', 0 <= i' < i + 1 -> row_sorted G grid' i'.
Proof.
  intros Hi HG Hl He Hs. destruct (qsort_at_spec NGP_compare grid (i * G) G) as (grid' & Hrun & Hp & Hout & Hin); [nia|lia|nia|].
  exists grid'. split; [done|]. assert (He' : energies_ok grid') by (unfold energies_ok; rewrite Hp; exact He).
  split; [unfold zlen in *; now rewrite Hp|]. split; [done|]. intros i' Hi' j k Hj Hk. destruct (decide (i' = i)) as [->|Hne].
  - set (seg := take (Z.to_nat G) (drop (Z.to_nat (i * G)) grid)) in *.
    assert (Hseg : forall x, x ∈ seg -> nonneg (energy x)).
    { intros x Hx. unfold energies_ok in He. rewrite Forall_forall in He. apply He. eapply elem_of_sublist; [exact Hx|]. unfold seg. etrans; [apply sublist_take|apply sublist_drop]. }
    assert (Hlen : length (qsort NGP_compare seg) = Z.to_nat G) by (rewrite qsort_perm; unfold seg; rewrite length_take, length_drop; unfold zlen in Hl; nia).
    assert (Hen : forall k, 0 <= k < G -> exists p, qsort NGP_compare seg !! Z.to_nat k = Some p /\ energy p = en grid' (i * G + k) /\ nonneg (energy p)).
    { intros k' Hk'. destruct (lookup_lt_is_Some_2 (qsort NGP_compare seg) (Z.to_nat k')) as [p Hpk]; [lia|]. exists p. split; [done|]. split.
      - unfold en, pt. replace (Z.to_nat (i * G + k')) with (Z.to_nat (i * G) + Z.to_nat k')%nat by nia. rewrite Hin, Hpk by lia. done.
      - apply Hseg. rewrite <- (qsort_perm NGP_compare). eapply list_elem_of_lookup_2, Hpk. }
    assert (Hss : StronglySorted (fun x y => NGP_compare x y <= 0) (qsort NGP_compare seg)).
    { apply qsort_sorted; unfold NGP_compare; setoid_rewrite compare_le.
      - intros x y Hx%Hseg Hy%Hseg. destruct (dlt (energy y) (energy x)) eqn:E; [right; order|now left].
      - intros x y z Hx%Hseg Hy%Hseg Hz%Hseg H1 H2. order. }
    destruct (Hen j) as (p & Hpj & <- & Hnp); [lia|]. destruct (Hen k) as (p' & Hpk & <- & Hnp'); [lia|].
    destruct (decide (j = k)) as [<-|]; [simplify_eq; order|].
    pose proof (proj1 (StronglySorted_lookup _ _) Hss (Z.to_nat j) (Z.to_nat k) p p' ltac:(lia) Hpj Hpk) as Hle. unfold NGP_compare in Hle. now apply compare_le in Hle.
  - unfold en, pt. rewrite !Hout by nia. apply (Hs i'); lia.
Qed.

Lemma init_grid_spec inp I G :
  n_isotopes inp = I -> n_gridpoints inp = G ->
  0 < I -> 0 < G -> I * G < 2 ^ 31 -> exists grid, init_nuclide_grid inp (I * G) = Ok grid /\ grid_ok I G grid.
Proof.
  intros HIe HGe HI HG Hlt. unfold init_nuclide_grid. rewrite HIe, HGe, calloc_spec by nia. cbn [mbind res_bind].
  for_inv (fun (_ : Z) (s : list NuclideGridPoint * Z) => zlen s.1 = I * G /\ energies_ok s.1) s HP; [nia| | |].
  - split; [apply zlen_replicate; nia|]. apply Forall_replicate. done.
  - intros k [g seed] Hk [Hl He]. cbn [fst] in *. destruct (random_point seed) as [p seed'] eqn:Ep. rewrite awrite_in_bounds by lia. cbn [mbind res_bind].
    eexists. split; [done|]. cbn [fst]. unfold zlen in *. rewrite length_insert. split; [done|]. apply Forall_insert; [done|]. pose proof (random_point_ok seed) as Hn. now rewrite Ep in Hn.
  - destruct s as [g seed]. destruct HP as [Hl He].
    destruct (for_range_inv (fun i g => zlen g = I * G /\ energies_ok g /\ forall i', 0 <= i' < i -> row_sorted G g i') 0 I
      (fun i grid => qsort_at NGP_compare grid (i * G) G) g) as (g' & -> & Hl' & He' & Hs').
    + lia.
    + split_and!; try done. intros; lia.
    + intros i g' Hi (Hl' & He' & Hs'). destruct (sort_row I G g' i) as (g2 & -> & H2); try done. now exists g2.
    + exists g'. split; [done|]. split; [done|intros; now apply energies_en|]. intros i j k Hi Hj Hk. now apply Hs'.
Qed.

Lemma init_unionized_spec grid len array :
  zlen grid = len -> zlen array = len -> energies_ok grid ->
  exists u, init_unionized grid len array = Ok u /\ u ≡ₚ energy <$> grid /\ StronglySorted (fun x y => dlt y x = false) u.
Proof.
  intros Hg Ha He. pose proof (zlen_nonneg grid). unfold init_unionized.
  for_inv (fun i a => zlen a = len /\ forall k, 0 <= k < i -> a !! Z.to_nat k = Some (en grid k)) a HP; [lia| | |].
  - split; [done|]. intros; lia.
  - intros i a Hi [Hl Hin]. rewrite read_pt by lia. cbn [mbind res_bind]. rewrite awrite_in_bounds by lia. eexists. split; [done|]. unfold zlen in *. rewrite length_insert.
    split; [done|]. intros k Hk. destruct (decide (k = i)) as [->|]; [rewrite list_lookup_insert_eq by lia; done|].
    rewrite list_lookup_insert_ne by lia. apply Hin. lia.
  - destruct HP as [Hl Hin]. assert (Hae : a = energy <$> grid).
    { apply list_eq_same_length with (n := length grid); [now rewrite length_fmap|unfold zlen in *; lia|]. intros i x y Hi Hx Hy.
      rewrite <- (Nat2Z.id i), Hin in Hx by (unfold zlen in *; lia). unfold en, pt in Hx. rewrite Nat2Z.id in Hx. rewrite list_lookup_fmap in Hy.
      destruct (grid !! i); [|done]. simpl in *. congruence. }
    subst a. destruct (qsort_at_spec double_compare (energy <$> grid) 0 len) as (u & Hrun & Hp & _ & Hu); [lia|lia|unfold zlen in *; rewrite length_fmap; lia|].
    exists u. split; [done|]. split; [done|]. rewrite drop_0, take_ge in Hu by (rewrite length_fmap; unfold zlen in Hg; lia).
    assert (u = qsort double_compare (energy <$> grid)) as ->.
    { apply list_eq_same_length with (n := length grid); [now rewrite qsort_perm, length_fmap|now rewrite Hp, length_fmap|].
      intros i x y Hi Hx Hy. specialize (Hu i ltac:(unfold zlen in Hg; lia)). change (Z.to_nat 0 + i)%nat with i in Hu. rewrite Hx, Hy in Hu. now injection Hu. }
    assert (Hn : forall x, x ∈ energy <$> grid -> nonneg x) by (intros x (p & -> & Hp')%list_elem_of_fmap; unfold energies_ok in He; rewrite Forall_forall in He; auto).
    apply StronglySorted_lookup. intros a b x y Hab Hx Hy. apply compare_le. revert a b x y Hab Hx Hy.
    apply (proj1 (StronglySorted_lookup (fun x y => double_compare x y <= 0) _)), qsort_sorted; unfold double_compare; setoid_rewrite compare_le.
    + intros x y Hx%Hn Hy%Hn. destruct (dlt y x) eqn:E; [right; order|now left].
    + intros x y z Hx%Hn Hy%Hn Hz%Hn. apply nlt_trans; done.
Qed.
End sort.

Section index.
Context (inp : Inputs) (I G : Z) (grid : list NuclideGridPoint) (union : list double) (len : Z).
Hypothesis HIe : n_isotopes inp = I.
Hypothesis HGe : n_gridpoints inp = G.
Hypothesis HI : 0 < I.
Hypothesis HG : 2 <= G.
Hypothesis Hok : grid_ok I G grid.
Hypothesis Hlen : zlen union = len.

(** The index of nuclide [i] after [e] energies of the union. *)
Definition after (i e : Z) : Z := reached G grid i (take (Z.to_nat e) union).

Lemma after_step i e u : 0 <= e -> union !! Z.to_nat e = Some u -> after i (e + 1) = advance G grid i (after i e) u.
Proof.
  intros He Hu. unfold after. replace (Z.to_nat (e + 1)) with (S (Z.to_nat e)) by lia. rewrite (take_S_r _ _ u) by done. apply reached_snoc.
Qed.

(** Energies before [e] are done, and at [e] the nuclides before [i]. *)
Record index_inv (e i : Z) (s : list Z * list Z * list double) : Prop := {
  ix_grid : zlen s.1.1 = len * I;
  ix_low : zlen s.1.2 = I;
  ix_high : zlen s.2 = I;
  ix_at i' : 0 <= i' < I -> at_ s.1.2 i' = after i' (if decide (i' < i) then e + 1 else e);
  ix_next i' : 0 <= i' < I -> s.2 !! Z.to_nat i' = Some (en grid (i' * G + at_ s.1.2 i' + 1));
  ix_done e' i' : 0 <= e' -> 0 <= i' < I -> e' < e \/ e' = e /\ i' < i -> at_ s.1.1 (e' * I + i') = after i' (e' + 1) }.

Lemma flat_lt e i n : 0 <= e < n -> 0 <= i < I -> 0 <= e * I + i < n * I.
Proof. clear -HI. nia. Qed.

Lemma flat_inj e i e' i' : 0 <= i < I -> 0 <= i' < I -> e * I + i = e' * I + i' -> e = e' /\ i = i'.
Proof. clear -HI. intros Hi Hi' H. assert (e = e') by nia. subst. lia. Qed.

(** The entry of [(e, i)] is written with the new index. *)
Lemma index_inv_write e i ig il il' eh eh' k :
  0 <= e < len -> 0 <= i < I -> index_inv e i (ig, il, eh) -> k = after i (e + 1) ->
  zlen il' = I -> (forall i', 0 <= i' < I -> at_ il' i' = if decide (i' = i) then k else at_ il i') ->
  zlen eh' = I -> eh' !! Z.to_nat i = Some (en grid (i * G + k + 1)) -> (forall i', 0 <= i' < I -> i' <> i -> eh' !! Z.to_nat i' = eh !! Z.to_nat i') ->
  exists ig', awrite ig (e * I + i) k = Ok ig' /\ index_inv e (i + 1) (ig', il', eh').
Proof.
  intros He Hi [H1 H2 H3 H4 H5 H6] -> Hil Hat Heh Hk Hne. cbn [fst snd] in *. pose proof (flat_lt e i len He Hi). rewrite awrite_in_bounds by lia.
  eexists. split; [done|]. split; cbn [fst snd]; try done.
  - now rewrite zlen_insert.
  - intros i' Hi'. rewrite Hat by done. destruct (decide (i' = i)) as [->|]; [rewrite decide_True by lia; done|]. rewrite H4 by done.
    destruct (decide (i' < i)), (decide (i' < i + 1)); done || lia.
  - intros i' Hi'. rewrite Hat by done. destruct (decide (i' = i)) as [->|]; [done|]. rewrite Hne, H5 by done. done.
  - intros e' i' He' Hi' Hd. rewrite at_insert by lia. case_decide as Heq; [apply flat_inj in Heq as [-> ->]; done|]. apply H6; try done.
    destruct (decide (e' = e /\ i' = i)) as [[-> ->]|]; [done|]. lia.
Qed.

Lemma index_step_spec e i s u :
  0 <= e < len -> 0 <= i < I -> union !! Z.to_nat e = Some u -> index_inv e i s -> exists s', index_step inp grid u e i s = Ok s' /\ index_inv e (i + 1) s'.
Proof.
  intros He Hi Hu Hinv. destruct s as [[ig il] eh]. unfold index_step. rewrite HIe, HGe. pose proof Hinv as [H1 H2 H3 H4 H5 H6]. cbn [fst snd] in *.
  assert (Hr : aread eh i = Ok (en grid (i * G + at_ il i + 1))) by (apply aread_Ok; split; [lia|apply H5; lia]). rewrite Hr, at_read by lia. cbn [mbind res_bind].
  pose proof (H4 i Hi) as Hcur. rewrite decide_False in Hcur by lia. pose proof (after_step i e u ltac:(lia) Hu) as Hstep. rewrite <- Hcur in Hstep. unfold advance in Hstep.
  pose proof (reached_range G grid HG i (take (Z.to_nat e) union)) as Hrange. fold (after i e) in Hrange. rewrite <- Hcur in Hrange.
  destruct (dlt u _) eqn:E; [|destruct (Z.eqb_spec (at_ il i) (G - 2)) as [Heq|Hne]].
  - destruct (index_inv_write e i ig il il eh eh (at_ il i)) as (ig' & -> & Hinv'); try done; [|now apply H5|now eexists]. intros i' _. case_decide; congruence.
  - destruct (index_inv_write e i ig il il eh eh (at_ il i)) as (ig' & -> & Hinv'); try done; [|now apply H5|now eexists]. intros i' _. case_decide; congruence.
  - rewrite (awrite_in_bounds il) by lia. cbn [mbind res_bind].
    destruct (index_inv_write e i ig il (<[Z.to_nat i := at_ il i + 1]> il) eh (<[Z.to_nat i := en grid (i * G + (at_ il i + 1) + 1)]> eh) (at_ il i + 1)) as (ig' & -> & Hinv'); try done.
    + now rewrite zlen_insert.
    + intros i' Hi'. now rewrite at_insert by lia.
    + now rewrite zlen_insert.
    + apply list_lookup_insert_eq. unfold zlen in H3. lia.
    + intros i' Hi' Hn. apply list_lookup_insert_ne. lia.
    + cbn [mbind res_bind]. rewrite read_pt by (rewrite <- Z.add_assoc; apply (in_grid I G grid HG Hok); lia). cbn [mbind res_bind].
      rewrite awrite_in_bounds by lia. now eexists.
Qed.

Lemma init_index_spec `{M : Malloc, !MallocLaws M} {NO : MallocNoOom M} index :
  I < 2 ^ 31 -> zlen index = len * I -> exists index', init_index inp grid union len index = Ok index' /\
    forall e i, 0 <= e < len -> 0 <= i < I -> aread index' (e * I + i) = Ok (after i (e + 1)).
Proof.
  intros HI2 Hl. pose proof (zlen_nonneg union). unfold init_index. rewrite HIe, HGe, !calloc_spec by lia. cbn [mbind res_bind].
  for_inv (fun i (a : list double) => zlen a = I /\ forall i', 0 <= i' < i -> a !! Z.to_nat i' = Some (en grid (i' * G + 1))) eh HP; [lia| | |].
  - split; [apply zlen_replicate; lia|]. intros; lia.
  - intros i a Hi [Hla Ha]. rewrite read_pt by (apply (in_grid I G grid HG Hok); lia). cbn [mbind res_bind]. rewrite awrite_in_bounds by lia. eexists. split; [done|].
    rewrite zlen_insert. split; [done|]. intros i' Hi'. destruct (decide (i' = i)) as [->|]; [apply list_lookup_insert_eq; unfold zlen in Hla; lia|].
    rewrite list_lookup_insert_ne by lia. apply Ha. lia.
  - destruct HP as [Hleh Heh].
    assert (Hz : forall i', 0 <= i' < I -> at_ (replicate (Z.to_nat I) 0) i' = 0) by (intros i' Hi'; unfold at_; rewrite decide_True, lookup_replicate_2 by lia; done).
    for_inv (fun e s => index_inv e 0 s) s HP; [lia| | |].
    + split; cbn [fst snd]; try done; [apply zlen_replicate; lia| | |lia].
      * intros i' Hi'. rewrite decide_False by lia. now apply Hz.
      * intros i' Hi'. rewrite Hz, Z.add_0_r, Heh by done. done.
    + intros e s He Hinv. destruct (lookup_lt_is_Some_2 union (Z.to_nat e)) as [u Hu]; [unfold zlen in Hlen; lia|].
      assert (aread union e = Ok u) as -> by (apply aread_Ok; split; [lia|done]). cbn [mbind res_bind].
      destruct (for_range_inv (fun i s => index_inv e i s) 0 I (index_step inp grid u e) s) as (s' & -> & Hinv'); [lia|done| |].
      * intros i s' Hi Hs'. apply index_step_spec; try done; lia.
      * exists s'. split; [done|]. destruct Hinv' as [H1 H2 H3 H4 H5 H6]. split; try done.
        -- intros i' Hi'. rewrite H4 by done. rewrite decide_True, decide_False by lia. done.
        -- intros e' i' He' Hi' Hd. apply H6; [done|done|]. lia.
    + destruct s as [[ig il] eh']. cbn [mbind res_bind]. exists ig. split; [done|]. intros e i He Hi. pose proof (flat_lt e i len He Hi).
      destruct HP as [H1 _ _ _ _ H6]. cbn [fst snd] in *. rewrite at_read by lia. f_equal. apply H6; [lia|done|]. lia.
Qed.
End index.
