(* ===== verification/XsBenchProofs.v ===== *)
(** XSBench: the materials, lookups through both kinds of grids, reductions by a team, and
    the data of the whole program. *)
From stdpp Require Import base numbers list sorting.
From Stdlib Require Import ZArith Lia SpecFloat.
From S2P Require Import Prelude Graph500 Graph Omp XsBench XsNumbers XsGrid.
Open Scope Z_scope.

(** ** Materials *)

Section materials.
Context `{M : Malloc, !MallocLaws M} {NO : MallocNoOom M} (I : Z).
Hypothesis HI : I = 68 \/ 355 <= I < 2 ^ 31.

Definition nucs : list Z := [if I =? 68 then 34 else 321; 5; 4; 4; 27; 21; 21; 21; 21; 21; 9; 9].
Definition most_nucs : Z := if I =? 68 then 34 else 321.

Lemma malloc_unchecked_spec n size : 0 <= n -> 0 < size -> n * size < 2 ^ 63 -> exists a, malloc_unchecked n size = Ok a /\ zlen a = n.
Proof.
  intros Hn Hs Hb. unfold malloc_unchecked. rewrite u64_small by (split; [nia|lia]). destruct (malloc_some (n * size) size) as [a Ha]; [nia|]. rewrite Ha. exists a. split; [done|].
  rewrite (malloc_length _ _ _ Ha Hs). apply Z.div_mul. lia.
Qed.

Lemma load_num_nucs_spec : load_num_nucs I = Ok nucs.
Proof.
  unfold load_num_nucs. destruct (malloc_unchecked_spec 12 4) as (a & -> & Hl); [lia|lia|lia|]. unfold zlen in Hl. cbn [mbind res_bind].
  do 12 (destruct a as [|? a]; [cbn in Hl; lia|]). destruct a; [|cbn in Hl; lia]. unfold nucs. destruct (I =? 68); reflexivity.
Qed.

(** The list of a material has the length [num_nucs] gives, and names isotopes. *)
Lemma materials_ok m : 0 <= m < 12 -> exists l, aread (materials I) m = Ok l /\ at_ nucs m = zlen l /\ zlen l <= most_nucs /\ Forall (fun x => 0 <= x < I) l.
Proof.
  intros Hm. assert (Hb : exists b, I =? 68 = b /\ (if b then 68 else 355) <= I) by (destruct (Z.eqb_spec I 68); eexists; (split; [reflexivity|]); cbv iota; lia).
  destruct Hb as (b & Hb & Hle). unfold materials, nucs, most_nucs. rewrite Hb.
  assert (Hlow : forall l, Forall (fun x => 0 <= x < if b then 68 else 355) l -> Forall (fun x => 0 <= x < I) l) by (intros l Hl; eapply Forall_impl; [exact Hl|]; intros x; simpl; lia).
  assert (m = 0 \/ m = 1 \/ m = 2 \/ m = 3 \/ m = 4 \/ m = 5 \/ m = 6 \/ m = 7 \/ m = 8 \/ m = 9 \/ m = 10 \/ m = 11) as Hc by lia.
  destruct b; repeat destruct Hc as [->|Hc]; try subst m; (eexists; split; [reflexivity|]; split; [reflexivity|]; split; [vm_compute; discriminate|apply Hlow, (bool_decide_unpack _); vm_compute; exact Logic.I]).
Qed.

Lemma memcpy_spec dst off src n :
  0 <= off -> 0 <= n <= zlen src -> off + n <= zlen dst ->
  exists dst', memcpy dst off src n = Ok dst' /\ zlen dst' = zlen dst /\ forall k, at_ dst' k = if decide (off <= k < off + n) then at_ src (k - off) else at_ dst k.
Proof.
  intros Hoff Hn Hl. unfold memcpy. destruct (for_range_inv (fun i d => zlen d = zlen dst /\ forall k, at_ d k = if decide (off <= k < off + i) then at_ src (k - off) else at_ dst k)
    0 n (fun k dst => x ← aread src k; awrite dst (off + k) x) dst) as (d & -> & Hd); [lia| | |now exists d].
  - split; [done|]. intros k. now rewrite decide_False by lia.
  - intros i d Hi [Hld Hd]. rewrite at_read by lia. cbn [mbind res_bind]. rewrite awrite_in_bounds by lia. eexists. split; [done|]. rewrite zlen_insert. split; [done|].
    intros k. rewrite at_insert, Hd by lia. destruct (decide (k = off + i)) as [->|]; [rewrite decide_True by lia; f_equal; lia|].
    destruct (decide (off <= k < off + i)), (decide (off <= k < off + (i + 1))); done || lia.
Qed.

Lemma load_mats_spec :
  exists ms, load_mats nucs I = Ok (ms, most_nucs) /\ zlen ms = 12 * most_nucs /\
    forall m j, 0 <= m < 12 -> 0 <= j < at_ nucs m -> exists x, aread ms (m * most_nucs + j) = Ok x /\ 0 <= x < I.
Proof.
  assert (Hmax : for_range 0 12 (fun m max => n ← aread nucs m; Ok (if max <? n then n else max)) 0 = Ok most_nucs) by (unfold nucs, most_nucs; destruct (I =? 68); reflexivity).
  assert (Hpos : 34 <= most_nucs <= 321) by (unfold most_nucs; destruct (I =? 68); lia).
  unfold load_mats. rewrite Hmax. cbn [mbind res_bind]. destruct (malloc_unchecked_spec (12 * most_nucs) 4) as (a & -> & Hl); [lia|lia|lia|]. cbn [mbind res_bind].
  for_inv (fun m ms => zlen ms = 12 * most_nucs /\ forall m' j, 0 <= m' < m -> 0 <= j < at_ nucs m' -> 0 <= at_ ms (most_nucs * m' + j) < I) ms HP.
  - lia.
  - split; [done|]. intros; lia.
  - intros m ms Hm [Hlm Hms]. destruct (materials_ok m Hm) as (l & -> & Hn & Hle & Hall). cbn [mbind res_bind]. rewrite at_read by (change (zlen nucs) with 12; lia). cbn [mbind res_bind].
    pose proof (zlen_nonneg l). destruct (memcpy_spec ms (most_nucs * m) l (at_ nucs m)) as (ms' & -> & Hl' & Hat); [nia|lia|nia|]. eexists. split; [done|].
    split; [lia|]. intros m' j Hm' Hj. rewrite Hat. destruct (decide (m' = m)) as [->|Hne].
    + rewrite decide_True by lia. replace (most_nucs * m + j - most_nucs * m) with j by lia. rewrite Forall_forall in Hall. apply Hall.
      eapply list_elem_of_lookup_2, at_lookup. lia.
    + destruct (materials_ok m' ltac:(lia)) as (l' & _ & Hn' & Hle' & _). rewrite decide_False by nia. apply Hms; lia.
  - destruct HP as [Hlm Hms]. exists ms. split; [done|]. split; [done|]. intros m j Hm Hj. destruct (materials_ok m Hm) as (l & _ & Hn & Hle & _).
    exists (at_ ms (m * most_nucs + j)). split; [apply at_read; nia|]. rewrite (Z.mul_comm m). now apply Hms.
Qed.

Lemma load_concs_spec : exists cs, load_concs nucs most_nucs = Ok cs /\ zlen cs = 12 * most_nucs.
Proof.
  assert (Hpos : 34 <= most_nucs <= 321) by (unfold most_nucs; destruct (I =? 68); lia).
  unfold load_concs. destruct (malloc_unchecked_spec (12 * most_nucs) 8) as (a & -> & Hl); [lia|lia|lia|]. cbn [mbind res_bind].
  for_inv (fun (_ : Z) (s : list double * Z) => zlen s.1 = 12 * most_nucs) s HP; [lia|unfold zlen; cbn [fst]; rewrite length_fmap; exact Hl| |].
  - intros i s Hi Hs. destruct (materials_ok i Hi) as (l & _ & Hn & Hle & _). rewrite at_read by (change (zlen nucs) with 12; lia). cbn [mbind res_bind]. pose proof (zlen_nonneg l).
    apply (for_range_inv (fun (_ : Z) (s : list double * Z) => zlen s.1 = 12 * most_nucs)); [lia|done|].
    intros j [cs seed] Hj Hcs. cbn [fst] in *. destruct (LCG_random_double seed) as [x seed']. rewrite awrite_in_bounds by nia. eexists. split; [done|]. cbn [fst]. now rewrite zlen_insert.
  - destruct s as [cs seed]. now exists cs.
Qed.
End materials.

(** ** Lookups *)

Lemma pick_share_spec roll l : (forall i, i ∈ l -> 0 <= i < 12) -> exists i, pick_share roll l = Ok i /\ 0 <= i < 12.
Proof.
  induction l as [|i l IH]; intros Hl; [now exists 0|]. cbn [pick_share].
  assert (Hrun : exists r, for_down i 0 (fun j running => d ← aread dist j; Ok (dadd running d)) (S754_zero false) = Ok r).
  { unfold for_down. pose proof (Hl i ltac:(left)) as Hi. assert (Hb : forall j, 0 < j <= i -> exists d, aread dist j = Ok d).
    { intros j Hj. destruct (aread_in_bounds dist j) as (d & Hd & _); [change (zlen dist) with 12; lia|]. now exists d. }
    destruct (for_range_inv (fun (_ : Z) (_ : double) => True) 0 (i - 0) (fun k running => d ← aread dist (i - k); Ok (dadd running d)) (S754_zero false)) as (r & Hr & _); [lia|done| |].
    - intros k r Hk _. destruct (Hb (i - k) ltac:(lia)) as (d & ->). now eexists.
    - exists r. unfold for_range in Hr. rewrite !Z.sub_0_r in *. exact Hr. }
  destruct Hrun as (r & ->). cbn [mbind res_bind]. destruct (dlt roll r); [exists i; split; [done|apply Hl; left]|]. apply IH. intros j Hj. apply Hl. now right.
Qed.

Lemma pick_mat_spec seed : exists m, pick_mat seed = Ok (m, LCG_step seed) /\ 0 <= m < 12.
Proof.
  unfold pick_mat. destruct (LCG_double_spec seed) as [_ Hs]. destruct (LCG_random_double seed) as [roll s]. cbn [snd] in Hs. subst s.
  destruct (pick_share_spec roll (seqZ 0 12)) as (i & -> & Hi); [intros i Hi%elem_of_seqZ; lia|]. now exists i.
Qed.

Definition five (v : list double) : Prop := zlen v = 5.

Lemma max_index_spec v : five v -> exists k, max_index v = Ok k /\ 0 <= k < 5.
Proof.
  intros Hv. unfold max_index. for_inv (fun (_ : Z) (s : double * Z) => 0 <= s.2 < 5) s HP; [lia|cbn; lia| |].
  - intros j [mx k] Hj Hk. destruct (aread_in_bounds v j) as (x & -> & _); [unfold five in Hv; lia|]. cbn [mbind res_bind]. eexists. split; [done|]. destruct (dlt mx x); cbn in *; lia.
  - destruct s as [mx k]. exists k. split; [done|exact HP].
Qed.

Lemma event_sample_spec i : 0 <= i < 2 ^ 30 -> exists q mat, event_sample i = Ok (q, mat) /\ nonneg q /\ 0 <= mat < 12.
Proof.
  intros Hi. unfold event_sample, i32. rewrite decide_True by lia. cbn [mbind res_bind]. rewrite u64_small by (unfold is_u64; lia).
  rewrite fast_forward_spec by (unfold STARTING_SEED, LCG_m; lia). cbn [mbind res_bind]. set (seed := Nat.iter _ _ _).
  destruct (LCG_double_spec seed) as [Hq _]. destruct (LCG_random_double seed) as [q seed']. cbn [fst] in Hq.
  destruct (pick_mat_spec seed') as (mat & -> & Hmat). now exists q, mat.
Qed.

Section lookups.
Context (I G : Z) (SD : SimulationData).
Hypothesis HI : 0 < I.
Hypothesis HG : 2 <= G.

(** What the lookups use besides the acceleration structure. *)
Record data_ok : Prop := {
  d_grid : grid_ok I G (nuclide_grid SD);
  d_nucs : num_nucs SD = nucs I;
  d_most : max_num_nucs SD = most_nucs I;
  d_concs : zlen (concs SD) = 12 * most_nucs I;
  d_mats m j : 0 <= m < 12 -> 0 <= j < at_ (nucs I) m -> exists x, aread (mats SD) (m * most_nucs I + j) = Ok x /\ 0 <= x < I }.

(** The acceleration structure finds the interval of every nuclide. *)
Definition finds (inp : Inputs) (union : list double) (index : list Z) : Prop :=
  n_isotopes inp = I /\ n_gridpoints inp = G /\
  forall q, nonneg q -> exists idx, lookup_index inp (Data (num_nucs SD) (concs SD) (mats SD) union index (nuclide_grid SD) (max_num_nucs SD)) q = Ok idx /\
    forall i, 0 <= i < I -> exists k, low_point q i I G index (nuclide_grid SD) idx (grid_type inp) (hash_bins inp) = Ok (i * G + k) /\ bracket G (nuclide_grid SD) i q k.

Hypothesis Hok : data_ok.
Hypothesis HI12 : forall m, 0 <= m < 12 -> 0 <= at_ (nucs I) m <= most_nucs I.

Section agree.
Context (inp1 inp2 : Inputs) (union1 union2 : list double) (index1 index2 : list Z).
Hypothesis H1 : finds inp1 union1 index1.
Hypothesis H2 : finds inp2 union2 index2.
Let SD1 := Data (num_nucs SD) (concs SD) (mats SD) union1 index1 (nuclide_grid SD) (max_num_nucs SD).
Let SD2 := Data (num_nucs SD) (concs SD) (mats SD) union2 index2 (nuclide_grid SD) (max_num_nucs SD).

Lemma macro_agree q mat :
  nonneg q -> 0 <= mat < 12 -> exists v, calculate_macro_xs inp1 SD1 q mat = Ok v /\ calculate_macro_xs inp2 SD2 q mat = Ok v /\ five v.
Proof.
  intros Hq Hm. destruct H1 as (HI1 & HG1 & F1). destruct H2 as (HI2 & HG2 & F2). destruct (F1 q Hq) as (idx1 & Hidx1 & L1). destruct (F2 q Hq) as (idx2 & Hidx2 & L2).
  unfold calculate_macro_xs. fold SD1 in Hidx1. fold SD2 in Hidx2. rewrite Hidx1, Hidx2. cbn [mbind res_bind num_nucs SD1 SD2]. rewrite (d_nucs Hok).
  rewrite at_read by (change (zlen (nucs I)) with 12; lia). cbn [mbind res_bind]. apply for_range_both; [done|]. intros j acc Hj Hacc.
  unfold add_nuclide. cbn [mats concs max_num_nucs SD1 SD2 index_grid nuclide_grid]. rewrite (d_most Hok). destruct (d_mats Hok mat j Hm Hj) as (nuc & -> & Hnuc). cbn [mbind res_bind].
  pose proof (HI12 mat Hm) as Hle. destruct (aread_in_bounds (concs SD) (mat * most_nucs I + j)) as (conc & -> & _); [rewrite (d_concs Hok); nia|]. cbn [mbind res_bind].
  rewrite HI1, HG1, HI2, HG2. unfold calculate_micro_xs. destruct (L1 nuc Hnuc) as (k1 & -> & B1). destruct (L2 nuc Hnuc) as (k2 & -> & B2). cbn [mbind res_bind].
  rewrite (bracket_unique I G (nuclide_grid SD) (d_grid Hok) nuc q k2 k1 Hnuc Hq B2 B1). destruct B1 as [Hk _].
  rewrite (read_pt _ (nuc * G + k1)) by (apply (in_grid I G (nuclide_grid SD) HG (d_grid Hok)); lia). cbn [mbind res_bind].
  rewrite read_pt by (rewrite <- Z.add_assoc; apply (in_grid I G (nuclide_grid SD) HG (d_grid Hok)); lia). cbn [mbind res_bind].
  match goal with |- context [for_range 0 5 ?f acc] => destruct (for_range_inv (fun _ v => five v) 0 5 f acc) as (v & -> & Hv) end; [lia|done| |now exists v].
  intros k v Hk5 Hv. match goal with |- context [aread ?l k] => destruct (aread_in_bounds l k) as (x & -> & _); [change (zlen l) with 5; lia|] end. cbn [mbind res_bind].
  destruct (aread_in_bounds v k) as (y & -> & _); [unfold five in Hv; lia|]. cbn [mbind res_bind]. rewrite awrite_in_bounds by (unfold five in Hv; lia). eexists. split; [done|]. unfold five. now rewrite zlen_insert.
Qed.

Lemma lookup_agree q mat :
  nonneg q -> 0 <= mat < 12 -> exists k, lookup_value inp1 SD1 q mat = Ok k /\ lookup_value inp2 SD2 q mat = Ok k.
Proof.
  intros Hq Hm. unfold lookup_value. destruct (macro_agree q mat Hq Hm) as (v & -> & -> & Hv). cbn [mbind res_bind]. destruct (max_index_spec v Hv) as (k & -> & _). now eexists.
Qed.

Lemma event_agree i : 0 <= i < 2 ^ 30 -> exists k, event_lookup inp1 SD1 i = Ok k /\ event_lookup inp2 SD2 i = Ok k.
Proof.
  intros Hi. unfold event_lookup. destruct (event_sample_spec i Hi) as (q & mat & -> & Hq & Hmat). cbn [mbind res_bind]. now apply lookup_agree.
Qed.

(** The seed, energy and material of a particle. *)
Definition particle_ok (s : Z * double * Z * Z) : Prop := 0 <= s.1.1.1 < LCG_m /\ nonneg s.1.1.2 /\ 0 <= s.1.2 < 12.

Lemma particle_agree s : particle_ok s -> exists s', particle_step inp1 SD1 s = Ok s' /\ particle_step inp2 SD2 s = Ok s' /\ particle_ok s'.
Proof.
  destruct s as [[[seed q] mat] ver]. intros (Hs & Hq & Hm). cbn [fst snd] in *. unfold particle_step. destruct (macro_agree q mat Hq Hm) as (v & -> & -> & Hv). cbn [mbind res_bind].
  destruct (max_index_spec v Hv) as (k & -> & _). cbn [mbind res_bind].
  for_inv (fun j n => 0 <= n <= j) n HP; [lia|lia| |].
  - intros j n Hj Hn. destruct (aread_in_bounds v j) as (x & -> & _); [unfold five in Hv; lia|]. cbn [mbind res_bind]. eexists. split; [done|]. destruct (dlt _ _); lia.
  - assert (Hff : exists seed', (if 0 <? n then fast_forward_LCG seed n else Ok seed) = Ok seed') by (destruct (0 <? n); [rewrite fast_forward_spec by (unfold LCG_m in *; lia)|]; now eexists).
    destruct Hff as (seed' & ->). cbn [mbind res_bind]. destruct (LCG_double_spec seed') as [Hq' Hs']. destruct (LCG_random_double seed') as [q' seed2]. cbn [fst snd] in *. subst seed2.
    destruct (pick_mat_spec (LCG_step seed')) as (mat' & -> & Hm'). cbn [mbind res_bind]. eexists. split; [done|]. split; [done|]. split; [apply LCG_step_range|]. now split.
Qed.

Lemma history_agree p :
  lookups inp1 = lookups inp2 -> 0 <= p -> 0 <= lookups inp1 -> p * lookups inp1 * 2 * 5 < 2 ^ 31 ->
  exists k, particle_history inp1 SD1 p = Ok k /\ particle_history inp2 SD2 p = Ok k.
Proof.
  intros Hl Hp Hn Hlt. unfold particle_history. rewrite <- Hl. unfold i32. do 3 (rewrite decide_True by nia; cbn [mbind res_bind]). rewrite u64_small by (unfold is_u64; nia).
  rewrite fast_forward_spec by (unfold STARTING_SEED, LCG_m; nia). cbn [mbind res_bind]. set (seed := Nat.iter _ _ _).
  destruct (LCG_double_spec seed) as [Hq Hs]. destruct (LCG_random_double seed) as [q seed']. cbn [fst snd] in *. subst seed'.
  destruct (pick_mat_spec (LCG_step seed)) as (mat & -> & Hmat). cbn [mbind res_bind].
  destruct (for_range_both particle_ok 0 (lookups inp1) (fun _ => particle_step inp1 SD1) (fun _ => particle_step inp2 SD2) (LCG_step (LCG_step seed), q, mat, 0)) as ([[[s' q'] m'] v'] & -> & -> & _).
  - split; [apply LCG_step_range|]. now split.
  - intros _ s _. apply particle_agree.
  - now eexists.
Qed.
End agree.
End lookups.

(** ** Reductions *)

Definition total (b : Z -> Z) (l : list Z) : Z := foldr (fun i acc => b i + acc) 0 l.

Lemma total_app b l1 l2 : total b (l1 ++ l2) = total b l1 + total b l2.
Proof. induction l1 as [|x l1 IH]; [done|]. cbn [total foldr app]. change (foldr (fun i acc => b i + acc) 0 (l1 ++ l2)) with (total b (l1 ++ l2)). rewrite IH. unfold total. lia. Qed.

Lemma total_perm b l1 l2 : l1 ≡ₚ l2 -> total b l1 = total b l2.
Proof. unfold total. induction 1; cbn [foldr]; lia. Qed.

Section reduction.
Context (body : Z -> res Z).
Notation loop := (fun i v => read_only (body i) (fun k => mret (u64 (v + k)))).

Lemma loop_total (b : Z -> Z) l v :
  is_u64 v -> (forall i, i ∈ l -> body i = Ok (b i)) -> pfor l loop v = (Ret (u64 (v + total b l)) : proc unit Z).
Proof.
  revert v. induction l as [|i l IH]; intros v Hv Hb; cbn [pfor total foldr].
  - rewrite Z.add_0_r, u64_small by done. done.
  - rewrite (Hb i) by left. cbn [read_only]. change (pfor l loop (u64 (v + b i)) = (Ret (u64 (v + (b i + total b l))) : proc unit Z)).
    rewrite IH; [|apply u64_range|intros; apply Hb; now right]. f_equal. unfold u64, wrap. rewrite Z.add_mod_idemp_l by done. f_equal. lia.
Qed.

Lemma loop_settled f l v :
  (forall i, i ∈ l -> (exists k, body i = Ok k) \/ body i = Fault f) ->
  exists r, settled (pfor l loop v : proc unit Z) r /\ ((exists w, r = Ok w) \/ r = Fault f) /\ ((exists i, i ∈ l /\ body i = Fault f) -> r = Fault f).
Proof.
  revert v. induction l as [|i l IH]; intros v Hb.
  - exists (Ok v). split; [done|]. split; [eauto|]. intros (i & Hi & _). now apply not_elem_of_nil in Hi.
  - destruct (Hb i ltac:(left)) as [(k & Hk)|Hf]; cbn [pfor].
    + rewrite Hk. destruct (IH (u64 (v + k))) as (r & Hr & Hc & Hif); [intros; apply Hb; now right|]. exists r. split; [exact Hr|]. split; [done|].
      intros (i' & [->|Hi']%elem_of_cons & Hf); [congruence|eauto].
    + rewrite Hf. exists (Fault f). split; [|split; [now right|done]]. cbn. eexists _, _, _. split; [done|]. done.
Qed.

Context `{OM : Omp, !OmpLaws OM}.

Lemma reduction_total (b : Z -> Z) lo hi t :
  (forall i, lo <= i < hi -> body i = Ok (b i)) -> reduction lo hi body t = Ok (u64 (total b (seqZ lo (hi - lo))), S t).
Proof.
  intros Hb. unfold reduction, omp_for, mbind at 1, team_bind at 1. set (cs := chunks t (seqZ lo (hi - lo))). pose proof (chunks_perm t (seqZ lo (hi - lo))) as Hp. fold cs in Hp.
  assert (Heq : imap (fun (_ : nat) is_ => pfor is_ loop 0 : proc unit Z) cs = Ret <$> ((fun c => u64 (total b c)) <$> cs)).
  { rewrite <- list_fmap_compose, <- (imap_const (fun c => (Ret (u64 (total b c)) : proc unit Z))). apply imap_ext. intros i c Hc. cbn. rewrite (loop_total b); [done|split; [done|reflexivity]|].
    intros k Hk. apply Hb. assert (k ∈ seqZ lo (hi - lo)) as Hs%elem_of_seqZ; [|lia]. rewrite <- Hp. apply list_elem_of_In, in_concat. exists c. rewrite <- !list_elem_of_In. split; [eapply list_elem_of_lookup_2, Hc|done]. }
  rewrite Heq, par_settled. cbn [mbind res_bind]. unfold mret, team_ret. f_equal. f_equal. rewrite <- (total_perm b _ _ Hp). clear. induction cs as [|c cs IH]; [done|].
  cbn [fmap list_fmap foldr concat]. change (list_fmap (list Z) Z) with (fmap (M := list) (A := list Z) (B := Z)). rewrite IH, total_app. unfold u64, wrap. rewrite <- Z.add_mod by done. done.
Qed.

Lemma reduction_stops f lo hi t :
  (forall i, lo <= i < hi -> (exists k, body i = Ok k) \/ body i = Fault f) -> (exists i, lo <= i < hi /\ body i = Fault f) -> reduction lo hi body t = Fault f.
Proof.
  intros Hb (i & Hi & Hf). unfold reduction, omp_for, mbind at 1, team_bind at 1. set (cs := chunks t (seqZ lo (hi - lo))). pose proof (chunks_perm t (seqZ lo (hi - lo))) as Hp. fold cs in Hp.
  assert (Hin : forall c k, c ∈ cs -> k ∈ c -> lo <= k < hi).
  { intros c k Hc Hk. assert (k ∈ seqZ lo (hi - lo)) as Hs%elem_of_seqZ; [|lia]. rewrite <- Hp. apply list_elem_of_In, in_concat. exists c. now rewrite <- !list_elem_of_In. }
  assert (Hrs : exists rs, Forall2 settled (imap (fun (_ : nat) is_ => pfor is_ loop 0 : proc unit Z) cs) rs /\ (forall r, r ∈ rs -> (exists v, r = Ok v) \/ r = Fault f) /\ (i ∈ concat cs -> Fault f ∈ rs)).
  { assert (Himap : imap (fun (_ : nat) is_ => pfor is_ loop 0 : proc unit Z) cs = (fun is_ => pfor is_ loop 0) <$> cs) by apply (imap_const (fun is_ => pfor is_ loop 0 : proc unit Z)).
    rewrite Himap. clear Himap Hp. induction cs as [|c cs IH]; [exists []; split; [constructor|]; split; [intros r Hr; now apply not_elem_of_nil in Hr|intros Hr; now apply not_elem_of_nil in Hr]|].
    destruct IH as (rs & H1 & H2 & H3); [intros c' k Hc'; apply Hin; now right|]. destruct (loop_settled f c 0) as (r & Hr & Hc & Hif); [intros k Hk; apply Hb, (Hin c); [left|done]|].
    exists (r :: rs). split; [now constructor|]. split; [intros r' [->|Hr']%elem_of_cons; auto|]. cbn [concat]. intros [Hic|Hics]%elem_of_app; [rewrite (Hif (ex_intro _ i (conj Hic Hf))); left|right; auto]. }
  destruct Hrs as (rs & H1 & H2 & H3). rewrite (par_stops _ _ rs tt f H1 H2); [done|]. apply H3. rewrite Hp. apply elem_of_seqZ. lia.
Qed.
End reduction.

(** ** The program *)

Definition with_grid (inp : Inputs) (g : Z) : Inputs :=
  Input (n_isotopes inp) (n_gridpoints inp) (lookups inp) g (hash_bins inp) (particles inp) (simulation_method inp) (kernel_id inp).

Definition with_kernel (inp : Inputs) (k : Z) : Inputs :=
  Input (n_isotopes inp) (n_gridpoints inp) (lookups inp) (grid_type inp) (hash_bins inp) (particles inp) (simulation_method inp) k.

Section program.
Context `{M : Malloc, !MallocLaws M} {NO : MallocNoOom M} `{Q : Qsort, !QsortLaws Q} (inp : Inputs).
Notation I := (n_isotopes inp).
Notation G := (n_gridpoints inp).

(** The grid of every nuclide starts with two different energies. *)
Definition distinct_start : Prop :=
  forall grid i, init_nuclide_grid inp (I * G) = Ok grid -> 0 <= i < I ->
    exists a b, aread grid (i * G) = Ok a /\ aread grid (i * G + 1) = Ok b /\ dlt (energy a) (energy b) = true.

Hypothesis HI : I = 68 \/ 355 <= I.
Hypothesis HG : 2 <= G.
Hypothesis HIG : I * G < 2 ^ 31.

Lemma isotopes_range : I = 68 \/ 355 <= I < 2 ^ 31.
Proof. clear -HI HG HIG. nia. Qed.

Lemma materials_room m : 0 <= m < 12 -> 0 <= at_ (nucs I) m <= most_nucs I.
Proof. intros Hm. destruct (materials_ok I isotopes_range m Hm) as (l & _ & -> & Hle & _). pose proof (zlen_nonneg l). lia. Qed.

(** The data both kinds of lookups share. *)
Lemma shared_spec : exists SD, init_nuclide_grid inp (I * G) = Ok (nuclide_grid SD) /\ load_num_nucs I = Ok (num_nucs SD) /\
  load_mats (num_nucs SD) I = Ok (mats SD, max_num_nucs SD) /\ load_concs (num_nucs SD) (max_num_nucs SD) = Ok (concs SD) /\ data_ok I G SD.
Proof.
  pose proof isotopes_range as HI'. destruct (init_grid_spec inp I G eq_refl eq_refl) as (grid & Hg & Hok); [lia|lia|done|].
  destruct (load_mats_spec I HI') as (ms & Hms & _ & Hm). destruct (load_concs_spec I HI') as (cs & Hcs & Hl).
  exists (Data (nucs I) cs ms [] [] grid (most_nucs I)). split; [done|]. split; [apply load_num_nucs_spec|]. split; [done|]. split; [done|]. now split.
Qed.

Section shared.
Context (SD : SimulationData).
Hypothesis Hgrid : init_nuclide_grid inp (I * G) = Ok (nuclide_grid SD).
Hypothesis Hnucs : load_num_nucs I = Ok (num_nucs SD).
Hypothesis Hmats : load_mats (num_nucs SD) I = Ok (mats SD, max_num_nucs SD).
Hypothesis Hconcs : load_concs (num_nucs SD) (max_num_nucs SD) = Ok (concs SD).
Hypothesis Hok : data_ok I G SD.
Notation data union index := (Data (num_nucs SD) (concs SD) (mats SD) union index (nuclide_grid SD) (max_num_nucs SD)).

Lemma nuclide_finds : finds I G SD (with_grid inp NUCLIDE) [] [].
Proof.
  split; [done|]. split; [done|]. intros q Hq. exists (-1). split; [done|]. intros i Hi. unfold low_point. cbn [grid_type with_grid NUCLIDE Z.eqb].
  destruct (nuclide_search I G (nuclide_grid SD) HG (d_grid _ _ _ Hok) i q Hi) as (k & Hk & Hb). rewrite Hk. cbn [mbind res_bind]. exists k. split; [|done].
  destruct Hb as [Hb _]. destruct (Z.eqb_spec k (G - 1)); [lia|done].
Qed.

Lemma nuclide_init `{OM : Omp} t : grid_init_do_not_profile (with_grid inp NUCLIDE) t = Ok (data [] [], t).
Proof.
  unfold grid_init_do_not_profile. cbn [grid_type with_grid NUCLIDE UNIONIZED HASH Z.eqb Pos.eqb n_isotopes n_gridpoints orb]. pose proof isotopes_range as HI'. assert (HIG' : 0 < I * G) by nia.
  rewrite i64_small by lia. unfold mbind, team_bind, alone. cbn [mbind res_bind]. rewrite s32_small by lia.
  change (init_nuclide_grid (with_grid inp NUCLIDE)) with (init_nuclide_grid inp). rewrite Hgrid. cbn [mbind res_bind mret team_ret]. rewrite Hnucs. cbn [mbind res_bind]. rewrite Hmats. cbn [mbind res_bind]. now rewrite Hconcs.
Qed.

Lemma unionized_spec :
  distinct_start -> exists union index, finds I G SD (with_grid inp UNIONIZED) union index /\
    forall `{OM : Omp} t, grid_init_do_not_profile (with_grid inp UNIONIZED) t = Ok (data union index, t).
Proof.
  intros Hd. pose proof isotopes_range as HI'. pose proof (d_grid _ _ _ Hok) as Hg. assert (HIG' : 0 < I * G) by nia.
  assert (He : energies_ok (nuclide_grid SD)).
  { apply Forall_lookup. intros k p Hk. pose proof (g_pos _ _ _ Hg (Z.of_nat k)) as Hn. unfold en, pt in Hn. now rewrite Nat2Z.id, Hk in Hn. }
  destruct (init_unionized_spec (nuclide_grid SD) (I * G) (replicate (Z.to_nat (I * G)) (S754_zero false))) as (union & Hu & Hperm & Hsort); [apply (g_len _ _ _ Hg)|apply zlen_replicate; lia|done|].
  assert (Hlen : zlen union = I * G) by (unfold zlen; rewrite Hperm, length_fmap; apply (g_len _ _ _ Hg)).
  destruct (init_index_spec (with_grid inp UNIONIZED) I G (nuclide_grid SD) union (I * G) eq_refl eq_refl ltac:(lia) HG Hg Hlen (replicate (Z.to_nat (I * G * I)) 0)) as (index & Hi & Hidx); [nia|apply zlen_replicate; nia|].
  exists union, index. split.
  - split; [done|]. split; [done|]. intros q Hq. unfold lookup_index. cbn [grid_type with_grid UNIONIZED Z.eqb n_isotopes n_gridpoints unionized_energy_array]. rewrite i64_small by lia. cbn [mbind res_bind].
    destruct (union_search I G (nuclide_grid SD) ltac:(lia) HG Hg union Hperm Hsort) with (q := q) as (e & -> & Hrange & Hb); [|done|].
    { intros i Hi'. destruct (Hd _ i Hgrid Hi') as (a & b & Ha & Hb & Hlt). pose proof (in_grid I G _ HG Hg i 0 Hi' ltac:(lia)). pose proof (in_grid I G _ HG Hg i 1 Hi' ltac:(lia)).
      rewrite read_pt in Ha by lia. rewrite read_pt in Hb by lia. unfold en. congruence. }
    exists e. split; [done|]. intros i Hi'. exists (reached G (nuclide_grid SD) i (take (Z.to_nat (e + 1)) union)). split; [|now apply Hb].
    unfold low_point. cbn [UNIONIZED NUCLIDE Z.eqb]. rewrite Hidx by done. cbn [mbind res_bind]. unfold after. pose proof (reached_range G (nuclide_grid SD) HG i (take (Z.to_nat (e + 1)) union)).
    destruct (Z.eqb_spec (reached G (nuclide_grid SD) i (take (Z.to_nat (e + 1)) union)) (G - 1)); [lia|done].
  - intros OM t. unfold grid_init_do_not_profile. cbn [grid_type with_grid UNIONIZED Z.eqb n_isotopes n_gridpoints orb]. rewrite i64_small by lia.
    unfold mbind, team_bind, alone. cbn [mbind res_bind]. rewrite s32_small by lia. unfold i64. rewrite decide_True by nia. cbn [mbind res_bind]. rewrite !calloc_spec by nia. cbn [mbind res_bind].
    change (init_nuclide_grid (with_grid inp UNIONIZED)) with (init_nuclide_grid inp). rewrite Hgrid. cbn [mbind res_bind mret team_ret]. rewrite Hu. cbn [mbind res_bind]. rewrite Hi. cbn [mbind res_bind].
    rewrite Hnucs. cbn [mbind res_bind]. rewrite Hmats. cbn [mbind res_bind]. now rewrite Hconcs.
Qed.
End shared.
End program.

Lemma history_overflow inp SD p : 0 <= p -> 0 < lookups inp -> 2 ^ 31 <= p * lookups inp * 10 -> particle_history inp SD p = Fault IntOverflow.
Proof.
  intros Hp Hl Hov. unfold particle_history. assert (0 <= p * lookups inp) by nia. unfold i32. case_decide; [|done]. cbn [mbind res_bind]. case_decide; [|done]. cbn [mbind res_bind].
  rewrite decide_False by lia. done.
Qed.
