(* ===== verification/XsSort.v ===== *)
(** The kernel of XSBench that sorts its samples: quicksort permutes them in whatever
    order its tasks run, each within a part of its own, and the lookups of all materials
    together are those of the samples. *)
From stdpp Require Import base numbers list sorting.
From Stdlib Require Import ZArith Lia SpecFloat.
From S2P Require Import Prelude Graph500 Graph Omp OmpCsrBuild XsBench XsNumbers XsGrid XsBenchProofs.
Open Scope Z_scope.

(** ** Quicksort *)

Section quicksort.
Context {K W : Type} (lt : K -> K -> bool) (base cutoff : Z) (n : nat).
Hypothesis lt_irrefl : forall x, lt x x = false.
Hypothesis Hbase : 0 <= base.
Hypothesis Hcutoff : 0 < cutoff.

(** The keys from [left] to [right] exist. *)
Definition within (left right : Z) : Prop := 0 <= left /\ base + right < Z.of_nat n.

Lemma scan_up_spec key pivot i k x :
  length key = n -> 0 <= i <= k -> base + k < Z.of_nat n -> key !! Z.to_nat (base + k) = Some x -> lt x pivot = false ->
  exists i' y, scan_up lt base key pivot i = Ok i' /\ i <= i' <= k /\ key !! Z.to_nat (base + i') = Some y /\ lt y pivot = false.
Proof.
  intros Hn Hi Hk Hx Hlt. unfold scan_up.
  destruct (while_loop_inv (fun i' => i <= i' <= k) (fun i' => Z.to_nat (k - i')) (S (length key)) (fun i => x ← aread key (base + i); Ok (lt x pivot)) (fun i => Ok (i + 1)) i) as (i' & -> & Hi' & Hend).
  - lia.
  - lia.
  - intros i' Hi'. destruct (aread_in_bounds key (base + i')) as (y & Hy & Hyl); [unfold zlen; lia|]. rewrite Hy. cbn [mbind res_bind]. eexists. split; [done|]. intros Hgo.
    assert (i' <> k) by (intros ->; congruence). eexists. split; [done|]. lia.
  - destruct (aread_in_bounds key (base + i')) as (y & Hy & Hyl); [unfold zlen; lia|]. rewrite Hy in Hend. injection Hend as Hend. now exists i', y.
Qed.

Lemma scan_down_spec key pivot j k x :
  length key = n -> 0 <= k <= j -> base + j < Z.of_nat n -> key !! Z.to_nat (base + k) = Some x -> lt pivot x = false ->
  exists j' y, scan_down lt base key pivot j = Ok j' /\ k <= j' <= j /\ key !! Z.to_nat (base + j') = Some y /\ lt pivot y = false.
Proof.
  intros Hn Hk Hj Hx Hlt. unfold scan_down.
  destruct (while_loop_inv (fun j' => k <= j' <= j) (fun j' => Z.to_nat (j' - k)) (S (length key)) (fun j => x ← aread key (base + j); Ok (lt pivot x)) (fun j => Ok (j - 1)) j) as (j' & -> & Hj' & Hend).
  - lia.
  - lia.
  - intros j' Hj'. destruct (aread_in_bounds key (base + j')) as (y & Hy & Hyl); [unfold zlen; lia|]. rewrite Hy. cbn [mbind res_bind]. eexists. split; [done|]. intros Hgo.
    assert (j' <> k) by (intros ->; congruence). eexists. split; [done|]. lia.
  - destruct (aread_in_bounds key (base + j')) as (y & Hy & Hyl); [unfold zlen; lia|]. rewrite Hy in Hend. injection Hend as Hend. now exists j', y.
Qed.

Lemma swap_spec {X} (a : list X) i j x y :
  0 <= i -> 0 <= j -> a !! Z.to_nat (base + i) = Some x -> a !! Z.to_nat (base + j) = Some y ->
  swap base a i j = Ok (<[Z.to_nat (base + j) := x]> (<[Z.to_nat (base + i) := y]> a)).
Proof.
  intros Hi Hj Hx Hy. unfold swap. pose proof (lookup_lt_Some _ _ _ Hx). pose proof (lookup_lt_Some _ _ _ Hy).
  rewrite (proj2 (aread_Ok a (base + i) x)), (proj2 (aread_Ok a (base + j) y)) by (split; [lia|done]). cbn [mbind res_bind].
  rewrite awrite_in_bounds by (unfold zlen; lia). cbn [mbind res_bind]. now rewrite awrite_in_bounds by (rewrite zlen_insert; unfold zlen; lia).
Qed.

(** Pairs of keys and values are permuted. *)
Definition permuted (kv kv' : list K * list W) : Prop :=
  length kv'.1 = n /\ length kv'.2 = n /\ zip kv'.1 kv'.2 ≡ₚ zip kv.1 kv.2.

Lemma permuted_refl kv : length kv.1 = n -> length kv.2 = n -> permuted kv kv.
Proof. now split. Qed.
Lemma permuted_trans kv1 kv2 kv3 : permuted kv1 kv2 -> permuted kv2 kv3 -> permuted kv1 kv3.
Proof. intros (_ & _ & H1) (? & ? & H2). split_and!; try done. now rewrite H2. Qed.

(** Nothing outside the part from [left] to [right] is changed. *)
Definition unchanged (left right : Z) (kv kv' : list K * list W) : Prop :=
  forall k, Z.of_nat k < base + left \/ base + right < Z.of_nat k -> kv'.1 !! k = kv.1 !! k /\ kv'.2 !! k = kv.2 !! k.

Lemma unchanged_within left right l r kv1 kv2 kv3 :
  left <= l -> r <= right -> unchanged left right kv1 kv2 -> unchanged l r kv2 kv3 -> unchanged left right kv1 kv3.
Proof. intros Hl Hr H1 H2 k Hk. destruct (H1 k Hk) as [<- <-]. apply H2. lia. Qed.

(** Somewhere from [i] to [right] the search upwards stops, and downwards from [j] to [left]. *)
Definition sentinels (pivot : K) (left right : Z) (key : list K) (i j : Z) : Prop :=
  (exists k x, i <= k <= right /\ key !! Z.to_nat (base + k) = Some x /\ lt x pivot = false) /\
  (exists k x, left <= k <= j /\ key !! Z.to_nat (base + k) = Some x /\ lt pivot x = false).

(** The state of the partition of [kv]. *)
Definition dividing (pivot : K) (left right : Z) (kv : list K * list W) (s : list K * list W * Z * Z) : Prop :=
  let '(key, value, i, j) := s in
  (permuted kv (key, value) /\ unchanged left right kv (key, value)) /\ left <= i <= right + 1 /\ left - 1 <= j <= right /\ (i <= j -> sentinels pivot left right key i j).

Lemma partition_step_spec pivot left right kv key value i j :
  within left right -> i <= j -> dividing pivot left right kv (key, value, i, j) ->
  exists key' value' i' j', partition_step lt base pivot (key, value, i, j) = Ok (key', value', i', j') /\ dividing pivot left right kv (key', value', i', j') /\
    i <= i' /\ j' <= j /\ (i' <= j' -> i < i') /\
    forall k x, i <= k <= j -> key !! Z.to_nat (base + k) = Some x -> lt x pivot = false -> lt pivot x = false -> i < i' /\ j' < j.
Proof.
  intros [Hl Hr] Hij (((Hk & Hv & Hp) & Hun) & Hi & Hj & Hs). cbn [fst snd] in *. destruct (Hs Hij) as [(ku & xu & Hku & Hxu & Hlu) (kd & xd & Hkd & Hxd & Hld)]. unfold partition_step.
  destruct (scan_up_spec key pivot i ku xu) as (i' & x & Hup & Hi' & Hx & Hlx); try done; [lia|lia|]. rewrite Hup. cbn [mbind res_bind].
  destruct (scan_down_spec key pivot j kd xd) as (j' & y & Hdown & Hj' & Hy & Hly); try done; [lia|lia|]. rewrite Hdown. cbn [mbind res_bind].
  assert (Hboth : forall k z, i <= k <= j -> key !! Z.to_nat (base + k) = Some z -> lt z pivot = false -> lt pivot z = false -> i' <= k <= j').
  { intros k z Hkij Hz H1 H2. destruct (scan_up_spec key pivot i k z) as (i2 & _ & Hup2 & ? & _); try done; [lia|lia|].
    destruct (scan_down_spec key pivot j k z) as (j2 & _ & Hdown2 & ? & _); try done; [lia|lia|]. rewrite Hup in Hup2. rewrite Hdown in Hdown2. simplify_eq. lia. }
  destruct (Z.leb_spec i' j') as [Hle|Hgt].
  - destruct (lookup_lt_is_Some_2 value (Z.to_nat (base + i'))) as [a Ha]; [lia|]. destruct (lookup_lt_is_Some_2 value (Z.to_nat (base + j'))) as [b Hb]; [lia|].
    rewrite (swap_spec key i' j' x y), (swap_spec value i' j' a b) by (done || lia). cbn [mbind res_bind]. eexists _, _, _, _. split; [done|]. split; [|split_and!; try lia; intros k z Hkij Hz H1 H2; specialize (Hboth k z Hkij Hz H1 H2); lia].
    split; [|split; [lia|split; [lia|]]].
    + split; [|intros k Hout; destruct (Hun k Hout) as [<- <-]; cbn [fst snd]; split; now rewrite !list_lookup_insert_ne by lia].
      split; cbn [fst snd]; [now rewrite !length_insert|]. split; [now rewrite !length_insert|].
      rewrite <- !insert_zip_with. assert (Hzx : zip key value !! Z.to_nat (base + i') = Some (x, a)) by (rewrite lookup_zip_with, Hx; cbn; now rewrite Ha).
      assert (Hzy : zip key value !! Z.to_nat (base + j') = Some (y, b)) by (rewrite lookup_zip_with, Hy; cbn; now rewrite Hb).
      rewrite (Permutation_insert_swap _ _ _ _ _ Hzx Hzy). done.
    + intros Hgo. split.
      * exists j', x. split; [lia|]. split; [|done]. apply list_lookup_insert_eq. rewrite length_insert. lia.
      * exists i', y. split; [lia|]. split; [|done]. rewrite list_lookup_insert_ne by lia. apply list_lookup_insert_eq. lia.
  - eexists _, _, _, _. split; [done|]. split; [|split_and!; try lia; intros k z Hkij Hz H1 H2; specialize (Hboth k z Hkij Hz H1 H2); lia].
    split; [now split|]. split; [lia|]. split; [lia|]. intros; lia.
Qed.

Lemma quickSort_spec fuel left right kv :
  (Z.to_nat (right - left + 1) < fuel)%nat -> length kv.1 = n -> length kv.2 = n -> 0 <= left <= right + 1 -> base < Z.of_nat n -> base + right < Z.of_nat n -> right < 2 ^ 30 ->
  exists tasks kv', quickSort_internal lt base cutoff fuel left right kv = Ok (tasks, kv') /\ permuted kv kv' /\ unchanged left right kv kv' /\
    (tasks = [] \/ exists i j, tasks = [(left, j); (i, right)] /\ cutoff <= right - left /\ left - 1 <= j < right /\ left < i <= right + 1 /\ j < i).
Proof.
  revert left right kv. induction fuel as [|fuel IH]; intros left right kv Hf Hk Hv Hlr Hb Hr Hbig; [lia|]. cbn [quickSort_internal].
  unfold i32. rewrite decide_True by lia. cbn [mbind res_bind]. assert (Hmid : 0 <= base + Z.quot (left + right) 2 < zlen kv.1) by (unfold zlen; rewrite Hk; dlia).
  destruct (aread_in_bounds kv.1 _ Hmid) as (pivot & -> & Hpiv). cbn [mbind res_bind].
  destruct (while_loop_inv (fun s => dividing pivot left right kv s /\ (left <= right -> s = (kv.1, kv.2, left, right) \/ left < s.1.2 /\ s.2 < right))
    (fun s => Z.to_nat (s.2 - s.1.2 + 1)) (S (S (Z.to_nat (right - left + 1)))) (fun '(_, _, i, j) => Ok (i <=? j)) (partition_step lt base pivot) (kv.1, kv.2, left, right))
    as ([[[key value] i] j] & -> & [Hdiv Hless] & Hend).
  - split; [|now left]. split; [destruct kv; split; [now apply permuted_refl|now intros k _]|]. split; [lia|]. split; [lia|]. intros Hle. assert (Hm : left <= Z.quot (left + right) 2 <= right) by dlia.
    split; eexists _, pivot; (split; [exact Hm|]); split; [exact Hpiv|apply lt_irrefl|exact Hpiv|apply lt_irrefl].
  - cbn [fst snd]. lia.
  - intros [[[key value] i] j] [Hdiv Hless]. eexists. split; [done|]. intros Hgo%Z.leb_le. pose proof Hdiv as (_ & Hi & Hj & _).
    destruct (partition_step_spec pivot left right kv key value i j) as (key' & value' & i' & j' & Hrun & Hdiv' & Hi' & Hj' & Hlt & Hfirst); [split; lia|done|done|]. rewrite Hrun.
    eexists. split; [done|]. cbn [fst snd] in *. split; [split; [done|]|].
    + intros Hle. right. destruct (Hless Hle) as [Heq|Hd]; [|lia]. injection Heq as -> -> -> ->. apply (Hfirst (Z.quot (left + right) 2) pivot); try done; dlia.
    + destruct (Z.le_gt_cases i' j') as [Hle|]; [specialize (Hlt Hle)|]; lia.
  - injection Hend as Hend%Z.leb_gt. destruct Hdiv as ((Hperm & Hun) & Hi & Hj & _). cbn [mbind res_bind]. cbn [fst snd] in *.
    destruct (Z.ltb_spec (right - left) cutoff) as [Hsmall|Hlarge].
    2: { exists [(left, j); (i, right)], (key, value). split; [done|]. split; [done|]. split; [done|]. right. exists i, j.
         destruct (Hless ltac:(lia)) as [Heq|[Hi2 Hj2]]; [injection Heq as -> -> -> ->; lia|]. split_and!; done || lia. }
    assert (Hsort : forall l r kv1 (b : bool), permuted kv kv1 -> unchanged left right kv kv1 -> (b = true -> left <= l <= r + 1 /\ r <= right /\ r - l < right - left) ->
      exists kv2, (if b then quickSort_internal lt base cutoff fuel l r kv1 else Ok ([], kv1)) = Ok ([], kv2) /\ permuted kv kv2 /\ unchanged left right kv kv2).
    { intros l r kv1 [] Hp1 Hu1 Hb1; [|now exists kv1]. destruct (Hb1 eq_refl) as (Hl & Hr1 & Hsm).
      destruct (IH l r kv1) as (ts & kv2 & Hrun2 & Hp2 & Hu2 & Hts); try apply Hp1; try lia. exists kv2.
      assert (ts = []) as -> by (destruct Hts as [|(? & ? & _ & ? & _)]; [done|lia]). split; [done|].
      split; [now apply (permuted_trans _ kv1)|]. now apply (unchanged_within _ _ l r _ kv1). }
    assert (Hlim : left <= right -> left < i /\ j < right).
    { intros Hle. destruct (Hless Hle) as [Heq|]; [injection Heq as -> -> -> ->; lia|done]. }
    destruct (Hsort left j (key, value) (left <? j)) as (kv1 & -> & Hp1 & Hu1); [done|done|intros ?%Z.ltb_lt; lia|]. cbn [mbind res_bind].
    destruct (Hsort i right kv1 (i <? right)) as (kv2 & -> & Hp2 & Hu2); [done|done|intros ?%Z.ltb_lt; lia|]. cbn [mbind res_bind].
    exists [], kv2. split; [done|]. split; [done|]. split; [done|]. now left.
Qed.

(** *** Tasks *)

(** The entries of the parts of tasks, and how often they can be divided. *)
Definition parts (pool : list (Z * Z)) : list Z := pool ≫= (fun '(l, r) => seqZ l (r - l + 1)).
Definition weight (task : Z * Z) : Z := Z.max 1 (2 * (task.2 - task.1 + 1) - 1).
Definition weights (pool : list (Z * Z)) : Z := foldr (fun task w => weight task + w) 0 pool.

(** The tasks of a region work on parts of the array that do not overlap. *)
Record pool_ok (lenArray : Z) (pool : list (Z * Z)) : Prop := {
  po_range : forall l r, (l, r) ∈ pool -> 0 <= l <= r + 1 /\ r < lenArray;
  po_apart : NoDup (parts pool) }.

Lemma weights_perm pool pool' : pool ≡ₚ pool' -> weights pool = weights pool'.
Proof. intros Hp. unfold weights. apply (foldr_permutation (=)); [intros p a b ->; done|intros; lia|exact Hp]. Qed.

Lemma pool_ok_perm len pool pool' : pool ≡ₚ pool' -> pool_ok len pool -> pool_ok len pool'.
Proof.
  intros Hp [Hr Ha]. split; [intros l r Hin; apply Hr; now rewrite Hp|]. unfold parts. rewrite <- (bind_Permutation _ _ _ Hp). exact Ha.
Qed.

(** Dividing a task. *)
Lemma pool_ok_divide len left right i j pool :
  pool_ok len ((left, right) :: pool) -> left - 1 <= j < right -> left < i <= right + 1 -> j < i ->
  pool_ok len ((left, j) :: (i, right) :: pool).
Proof.
  intros [Hr Ha] Hj Hi Hij. destruct (Hr left right ltac:(left)) as [Hl Hlen]. split.
  - intros l r [[= -> ->]|[[= -> ->]|Hin]%elem_of_cons]%elem_of_cons; [lia|lia|]. apply Hr. now right.
  - unfold parts in *. rewrite !bind_cons in *. apply NoDup_app in Ha as (_ & Hsep & Hrest).
    rewrite app_assoc. apply NoDup_app. split_and!; [|intros x Hx; apply Hsep|done].
    + apply NoDup_app. split_and!; [apply NoDup_seqZ| |apply NoDup_seqZ]. intros x ?%elem_of_seqZ ?%elem_of_seqZ. lia.
    + apply elem_of_seqZ. apply elem_of_app in Hx as [Hx|Hx]; apply elem_of_seqZ in Hx; lia.
Qed.

Lemma next_task_in picks pool : pool <> [] -> exists task, pool !! next_task picks pool = Some task.
Proof.
  intros Hne. apply lookup_lt_is_Some_2. unfold next_task. case_decide; [done|]. destruct pool; [done|]. simpl. lia.
Qed.

Lemma weights_nonneg pool : Z.of_nat (length pool) <= weights pool.
Proof. induction pool as [|p pool IH]; [done|]. unfold weights in *. simpl. unfold weight at 1. lia. Qed.

(** In whatever order the tasks run, they all end, and only move pairs within the
    array. *)
Lemma run_tasks_spec lenArray depth fuel picks pool kv :
  length kv.1 = n -> length kv.2 = n -> lenArray <= 2 ^ 30 -> base < Z.of_nat n -> base + lenArray <= Z.of_nat n -> (Z.to_nat lenArray < depth)%nat ->
  pool_ok lenArray pool -> weights pool < Z.of_nat fuel ->
  exists kv', run_tasks fuel (quickSort_internal lt base cutoff depth) picks pool kv = Ok kv' /\ permuted kv kv' /\ unchanged 0 (lenArray - 1) kv kv'.
Proof.
  intros Hk Hv Hlen Hb Hbl Hd. revert picks pool kv Hk Hv. induction fuel as [|fuel IH]; intros picks pool kv Hk Hv Hok Hw; pose proof (weights_nonneg pool) as Hw0; [lia|].
  cbn [run_tasks]. destruct (decide (pool = [])) as [->|Hne].
  { exists kv. split; [done|]. split; [now apply permuted_refl|done]. }
  destruct (next_task_in picks pool Hne) as ([left right] & Ht). rewrite Ht. pose proof (delete_Permutation _ _ _ Ht) as Hp.
  set (rest := delete (next_task picks pool) pool) in *. apply (pool_ok_perm _ _ _ Hp) in Hok. rewrite (weights_perm _ _ Hp) in Hw.
  destruct (po_range _ _ Hok left right ltac:(left)) as [Hl Hr].
  destruct (quickSort_spec depth left right kv) as (ts & kv1 & -> & Hp1 & Hu1 & Hts); try lia. cbn [mbind res_bind].
  destruct (IH (tail picks) (rest ++ ts) kv1) as (kv2 & -> & Hp2 & Hu2); try apply Hp1.
  - apply (pool_ok_perm _ (ts ++ rest)); [solve_Permutation|]. destruct Hts as [->|(i & j & -> & _ & Hj & Hi & Hij)]; [|now apply (pool_ok_divide _ left right i j)].
    destruct Hok as [Hr' Ha]. split; [intros l r Hin; apply Hr'; now right|]. unfold parts in *. rewrite bind_cons in Ha. now apply NoDup_app in Ha as (_ & _ & Ha).
  - rewrite (weights_perm _ (ts ++ rest)) by solve_Permutation. unfold weights in *. cbn [foldr] in Hw. destruct Hts as [->|(i & j & -> & Hc & Hj & Hi & Hij)]; cbn [app foldr].
    + unfold weight at 1 in Hw. lia.
    + unfold weight in Hw at 1. unfold weight at 1 2. cbn [fst snd] in *. lia.
  - exists kv2. split; [done|]. split; [now apply (permuted_trans _ kv1)|]. apply (unchanged_within _ _ 0 (lenArray - 1) _ kv1); [lia|lia| |done].
    apply (unchanged_within _ _ left right _ kv); [lia|lia|now intros k _|done].
Qed.

Lemma sort_region_spec `{OM : Omp} lenArray kv t :
  length kv.1 = n -> length kv.2 = n -> 0 <= lenArray <= 2 ^ 30 -> base < Z.of_nat n -> base + lenArray <= Z.of_nat n ->
  exists kv', sort_region lenArray (quickSort_internal lt base cutoff) kv t = Ok (kv', S t) /\ permuted kv kv' /\ unchanged 0 (lenArray - 1) kv kv'.
Proof.
  intros Hk Hv Hlen Hb Hbl. unfold sort_region.
  destruct (run_tasks_spec lenArray (S (S (Z.to_nat lenArray))) (S (S (Z.to_nat (2 * lenArray)))) (picks t) [(0, lenArray - 1)] kv) as (kv' & -> & Hp & Hu); try done; try lia.
  - split; [intros l r [= -> ->]%list_elem_of_singleton; lia|]. unfold parts. cbn. rewrite app_nil_r. apply NoDup_seqZ.
  - cbn. unfold weight. cbn [fst snd]. lia.
  - now exists kv'.
Qed.
End quicksort.

(** ** Counting *)

Lemma total_nonneg f l : (forall k, k ∈ l -> 0 <= f k) -> 0 <= total f l.
Proof. induction l as [|x l IH]; intros Hf; [done|]. pose proof (Hf x ltac:(left)). specialize (IH ltac:(intros; apply Hf; now right)). unfold total in *. cbn [foldr]. lia. Qed.

Lemma total_ext f g l : (forall k, k ∈ l -> f k = g k) -> total f l = total g l.
Proof. induction l as [|x l IH]; intros Hf; [done|]. unfold total in *. cbn [foldr]. rewrite (Hf x ltac:(left)), IH; [done|]. intros; apply Hf. now right. Qed.

Lemma total_seqZ f a b c : 0 <= b -> 0 <= c -> total f (seqZ a (b + c)) = total f (seqZ a b) + total f (seqZ (a + b) c).
Proof. intros Hb Hc. now rewrite seqZ_app, total_app by lia. Qed.

Lemma total_one f a : total f (seqZ a 1) = f a.
Proof. rewrite seqZ_cons by lia. change (seqZ (Z.succ a) (Z.pred 1)) with (@nil Z). unfold total. cbn [foldr]. lia. Qed.

Lemma total_insert (a : list Z) l k :
  NoDup l -> k ∈ l -> 0 <= k < zlen a -> total (at_ (<[Z.to_nat k := at_ a k + 1]> a)) l = total (at_ a) l + 1.
Proof.
  intros Hnd Hk Hl. induction Hnd as [|x l Hx Hnd IH]; [now apply not_elem_of_nil in Hk|]. unfold total in *. cbn [foldr]. rewrite at_insert by done. apply elem_of_cons in Hk as [->|Hk].
  - rewrite decide_True by done. enough (foldr (fun i acc => at_ (<[Z.to_nat x := at_ a x + 1]> a) i + acc) 0 l = foldr (fun i acc => at_ a i + acc) 0 l) by lia.
    apply (total_ext (at_ (<[Z.to_nat x := at_ a x + 1]> a)) (at_ a)). intros y Hy. rewrite at_insert by done. rewrite decide_False; [done|]. now intros ->.
  - rewrite decide_False by (intros ->; done). rewrite (IH Hk). lia.
Qed.

Section counts.
Context (inp : Inputs) (ms : list Z).
Notation L := (lookups inp).
Hypothesis Hlen : zlen ms = L.
Hypothesis Hms : forall m, m ∈ ms -> 0 <= m < 12.

(** The counts add up to the samples, and the offsets to the counts before. *)
Lemma count_samples_spec :
  exists nums offs, count_samples inp ms = Ok (nums, offs) /\ zlen nums = 12 /\ (forall m, 0 <= m < 12 -> 0 <= at_ nums m) /\ total (at_ nums) (seqZ 0 12) = L /\
    (11 ∈ ms -> 0 < at_ nums 11) /\ forall m, 0 <= m < 12 -> aread offs m = Ok (total (at_ nums) (seqZ 0 m)).
Proof.
  pose proof (zlen_nonneg ms) as HL. unfold count_samples.
  for_inv (fun l (a : list Z) => zlen a = 12 /\ (forall m, 0 <= m < 12 -> 0 <= at_ a m) /\ total (at_ a) (seqZ 0 12) = l /\ (11 ∈ take (Z.to_nat l) ms -> 0 < at_ a 11)) nums HP; [lia| | |].
  - split; [done|]. split; [|split; [done|intros H; now apply not_elem_of_nil in H]]. intros m Hm. unfold at_. rewrite decide_True, lookup_replicate_2 by lia. done.
  - intros l a Hl (Hla & Hpos & Htot & H11). destruct (lookup_lt_is_Some_2 ms (Z.to_nat l)) as [m Hm]; [unfold zlen in Hlen; lia|]. rewrite (proj2 (aread_Ok ms l m)) by (split; [lia|done]). cbn [mbind res_bind].
    pose proof (Hms m ltac:(eapply list_elem_of_lookup_2, Hm)) as Hr. rewrite bump_spec by lia. eexists. split; [done|]. rewrite zlen_insert. split; [done|]. split; [|split].
    + intros m' Hm'. rewrite at_insert by lia. specialize (Hpos m' Hm'). destruct (decide (m' = m)) as [->|]; lia.
    + rewrite total_insert, Htot; [done|apply NoDup_seqZ|apply elem_of_seqZ; lia|lia].
    + replace (Z.to_nat (l + 1)) with (S (Z.to_nat l)) by lia. rewrite (take_S_r _ _ m Hm), elem_of_app, list_elem_of_singleton, at_insert by lia. pose proof (Hpos 11 ltac:(lia)). intros [Hin|<-].
      * specialize (H11 Hin). destruct (decide (11 = m)) as [<-|]; lia.
      * rewrite decide_True by done. lia.
  - destruct HP as (Hln & Hpos & Htot & H11). for_inv (fun m (offs : list Z) => zlen offs = 12 /\ forall m', 0 <= m' < m -> at_ offs m' = total (at_ nums) (seqZ 0 m')) offs HP; [lia| | |].
    + split; [done|]. intros m' Hm'. replace m' with 0 by lia. done.
    + intros m offs Hm [Hlo Ho]. rewrite (at_read offs), (at_read nums) by lia. cbn [mbind res_bind]. rewrite awrite_in_bounds by lia. eexists. split; [done|]. rewrite zlen_insert. split; [done|].
      intros m' Hm'. rewrite at_insert by lia. destruct (decide (m' = m)) as [->|]; [|apply Ho; lia]. rewrite Ho by lia. replace (seqZ 0 m) with (seqZ 0 (m - 1 + 1)) by (f_equal; lia).
      rewrite total_seqZ, total_one by lia. done.
    + destruct HP as [Hlo Ho]. exists nums, offs. split; [done|]. split; [done|]. split; [done|]. split; [done|]. split.
      * intros Hin. apply H11. rewrite take_ge; [done|]. unfold zlen in Hlen. lia.
      * intros m Hm. rewrite at_read by lia. now rewrite Ho.
Qed.
End counts.

(** ** Samples *)

Definition sampled (i : Z) : double * Z := match event_sample i with Ok p => p | Fault _ => (S754_zero false, 0) end.
Definition samples (n : Z) : list (double * Z) := sampled <$> seqZ 0 n.

Lemma sampled_spec i : 0 <= i < 2 ^ 30 -> event_sample i = Ok (sampled i) /\ nonneg (sampled i).1 /\ 0 <= (sampled i).2 < 12.
Proof. intros Hi. unfold sampled. destruct (event_sample_spec i Hi) as (q & m & -> & Hq & Hm). done. Qed.

Lemma samples_lookup n i : 0 <= i < n -> samples n !! Z.to_nat i = Some (sampled i).
Proof. intros Hi. unfold samples. rewrite list_lookup_fmap, lookup_seqZ_lt by lia. cbn. f_equal. f_equal. lia. Qed.

Lemma samples_length n : 0 <= n -> zlen (samples n) = n.
Proof. intros Hn. unfold zlen, samples. rewrite length_fmap, length_seqZ. lia. Qed.

Lemma zip_flip {A B} (l : list A) (k : list B) : prod_swap <$> zip l k = zip k l.
Proof. revert k. induction l as [|x l IH]; intros [|y k]; try done. cbn. f_equal. apply IH. Qed.

Section optimized.
Context (inp : Inputs) (SD : SimulationData).
Notation L := (lookups inp).
Hypothesis HL : 0 <= L <= 2 ^ 30.

Lemma sample_events_spec `{OM : Omp, !OmpLaws OM} fresh :
  zlen fresh.1 = L -> zlen fresh.2 = L -> returns False (fun s => zlen s.1 = L /\ zlen s.2 = L /\ zip s.1 s.2 = samples L) (sample_events inp fresh).
Proof.
  intros H1 H2. unfold sample_events.
  apply (returns_each False (fun i '(es, ms) => es ← awrite es i (sampled i).1; ms ← awrite ms i (sampled i).2; Ok (es, ms)) (fun i => [i])).
  - intros i Hi. destruct (sampled_spec i ltac:(lia)) as (-> & _). rewrite (surjective_pairing (sampled i)). cbn [read_only].
    apply (line_store (fun i '(es, ms) => es ← awrite es i (sampled i).1; ms ← awrite ms i (sampled i).2; Ok (es, ms))).
  - rewrite concat_singletons, Z.sub_0_r. intros l Hl.
    destruct (mfold_inv (fun l (s : list double * list Z) => zlen s.1 = L /\ zlen s.2 = L /\ forall i, i ∈ l -> s.1 !! Z.to_nat i = Some (sampled i).1 /\ s.2 !! Z.to_nat i = Some (sampled i).2)
      (fun i '(es, ms) => es ← awrite es i (sampled i).1; ms ← awrite ms i (sampled i).2; Ok (es, ms)) l fresh) as ([es ms] & -> & Hle & Hlm & Hat).
    + split; [done|]. split; [done|]. intros i Hi. now apply not_elem_of_nil in Hi.
    + intros l1 i l2 [es ms] Heq (Hle & Hlm & Hat). cbn [fst snd] in *. assert (0 <= i < L) as Hi by (assert (i ∈ seqZ 0 L) as Hs%elem_of_seqZ; [rewrite <- Hl, Heq; apply elem_of_app; right; left|lia]).
      rewrite !awrite_in_bounds by lia. cbn [mbind res_bind]. eexists. split; [done|]. cbn [fst snd]. rewrite !zlen_insert. split; [done|]. split; [done|].
      unfold zlen in Hle, Hlm. intros j [Hj| ->%list_elem_of_singleton]%elem_of_app; [|split; apply list_lookup_insert_eq; lia]. destruct (decide (j = i)) as [->|Hne]; [split; apply list_lookup_insert_eq; lia|].
      assert (0 <= j) by (assert (j ∈ seqZ 0 L) as Hs%elem_of_seqZ; [rewrite <- Hl, Heq; apply elem_of_app; now left|lia]). rewrite !list_lookup_insert_ne by lia. now apply Hat.
    + eexists. split; [done|]. split; [done|]. split; [done|]. cbn [fst snd] in *. unfold zlen in Hle, Hlm.
      apply list_eq_same_length with (n := Z.to_nat L); [pose proof (samples_length L ltac:(lia)) as Hs; unfold zlen in Hs; lia|rewrite length_zip_with; lia|].
      intros k x y Hk Hx Hy. rewrite <- (Nat2Z.id k), samples_lookup in Hy by lia. injection Hy as <-. destruct (Hat (Z.of_nat k)) as [Ha Hb]; [rewrite Hl; apply elem_of_seqZ; lia|]. rewrite Nat2Z.id in Ha, Hb.
      rewrite lookup_zip_with, Ha in Hx. cbn in Hx. rewrite Hb in Hx. cbn in Hx. injection Hx as <-. now destruct (sampled (Z.of_nat k)).
Qed.

(** Some event takes the last material. *)
Hypothesis Hlast : exists i, 0 <= i < L /\ (sampled i).2 = 11.

Lemma sort_materials_spec `{OM : Omp} offs nums ms s t :
  (forall m, m ∈ ms -> exists o k, aread offs m = Ok o /\ aread nums m = Ok k /\ 0 <= o < L /\ 0 <= k /\ o + k <= L) ->
  length s.1 = Z.to_nat L -> length s.2 = Z.to_nat L ->
  exists s' t', sort_materials offs nums ms s t = Ok (s', t') /\ permuted (Z.to_nat L) s s'.
Proof.
  revert s t. induction ms as [|m ms IH]; intros s t Hms H1 H2; cbn [sort_materials].
  { exists s, t. split; [done|now apply permuted_refl]. }
  destruct (Hms m ltac:(left)) as (o & k & Ho & Hk & Hor & Hk0 & Hok). unfold mbind, team_bind, alone. rewrite Ho. cbn [mbind res_bind]. rewrite Hk. cbn [mbind res_bind].
  destruct (sort_region_spec dlt o 10000 (Z.to_nat L) dlt_irrefl ltac:(lia) ltac:(lia) k s t) as (s1 & Hrun & Hp1 & _); try done; try lia.
  unfold quickSort_parallel_d_i. change (quickSort_parallel_internal_d_i o 10000) with (quickSort_internal (W := Z) dlt o 10000). rewrite Hrun. cbn [mbind res_bind].
  destruct (IH s1 (S t)) as (s2 & t2 & -> & Hp2); [intros; apply Hms; now right|apply Hp1|apply Hp1|]. exists s2, t2. split; [done|]. now apply (permuted_trans _ _ s1).
Qed.

Lemma sort_samples_spec `{OM : Omp} s t :
  zlen s.1 = L -> zlen s.2 = L -> zip s.1 s.2 = samples L ->
  exists s' nums t', sort_samples inp s t = Ok (s', nums, t') /\ zlen s'.1 = L /\ zlen s'.2 = L /\ zip s'.1 s'.2 ≡ₚ samples L /\
    zlen nums = 12 /\ (forall m, 0 <= m < 12 -> 0 <= at_ nums m) /\ total (at_ nums) (seqZ 0 12) = L.
Proof.
  intros H1 H2 Hz. unfold sort_samples, quickSort_parallel_i_d. assert (Hpos : 0 < L) by (destruct Hlast as (i & Hi & _); lia). unfold zlen in H1, H2.
  destruct (sort_region_spec Z.ltb 0 10000 (Z.to_nat L) Z.ltb_irrefl ltac:(lia) ltac:(lia) L (s.2, s.1) t) as ([ms es] & Hrun & (Hlms & Hles & Hp) & _); cbn [fst snd] in *; try lia.
  change (quickSort_parallel_internal_i_d 0 10000) with (quickSort_internal (W := double) Z.ltb 0 10000). unfold mbind, team_bind, alone. rewrite Hrun. cbn [mbind res_bind]. clear Hrun.
  assert (Hfst : ms ≡ₚ (samples L).*2).
  { rewrite <- (fst_zip ms es) by lia. rewrite Hp, fst_zip by lia. rewrite <- Hz, snd_zip by lia. done. }
  assert (Hrange : forall m, m ∈ ms -> 0 <= m < 12).
  { intros m Hin. rewrite Hfst in Hin. apply list_elem_of_fmap in Hin as (p & -> & Hin). apply list_elem_of_fmap in Hin as (i & -> & Hin%elem_of_seqZ). apply sampled_spec. lia. }
  cbn [mbind res_bind]. destruct (count_samples_spec inp ms) as (nums & offs & -> & Hln & Hnn & Htot & H11 & Hoff); [unfold zlen; lia|done|]. cbn [mbind res_bind].
  assert (Hn11 : 0 < at_ nums 11).
  { apply H11. rewrite Hfst. destruct Hlast as (i & Hi & Heq). rewrite <- Heq. apply list_elem_of_fmap. exists (sampled i). split; [done|]. eapply list_elem_of_lookup_2, samples_lookup. lia. }
  assert (Hsplit : forall m, 0 <= m < 12 -> 0 <= total (at_ nums) (seqZ 0 m) /\ total (at_ nums) (seqZ 0 m) + at_ nums m <= L /\ total (at_ nums) (seqZ 0 m) < L).
  { intros m Hm. pose proof (total_seqZ (at_ nums) 0 m (12 - m) ltac:(lia) ltac:(lia)) as H12. replace (m + (12 - m)) with 12 in H12 by lia. rewrite Z.add_0_l in H12.
    pose proof (total_seqZ (at_ nums) m 1 (11 - m) ltac:(lia) ltac:(lia)) as Hm1. replace (1 + (11 - m)) with (12 - m) in Hm1 by lia. rewrite total_one in Hm1.
    pose proof (total_seqZ (at_ nums) m (11 - m) 1 ltac:(lia) ltac:(lia)) as Hl1. replace (11 - m + 1) with (12 - m) in Hl1 by lia. replace (m + (11 - m)) with 11 in Hl1 by lia. rewrite total_one in Hl1.
    assert (Hge : forall a b, 0 <= a -> a + b <= 12 -> 0 <= total (at_ nums) (seqZ a b)) by (intros a b Ha Hb; apply total_nonneg; intros k Hk%elem_of_seqZ; apply Hnn; lia).
    pose proof (Hge 0 m ltac:(lia) ltac:(lia)). pose proof (Hge (m + 1) (11 - m) ltac:(lia) ltac:(lia)). pose proof (Hge m (11 - m) ltac:(lia) ltac:(lia)). pose proof (Hnn m Hm). lia. }
  destruct (sort_materials_spec offs nums (seqZ 0 12) (es, ms) (S t)) as (s' & t' & -> & Hs1 & Hs2 & Hs'); [|done|done|].
  { intros m Hm%elem_of_seqZ. destruct (Hsplit m ltac:(lia)) as (Ho & Hon & Hlt). eexists _, _. split; [apply Hoff; lia|]. split; [apply at_read; lia|]. pose proof (Hnn m ltac:(lia)). lia. }
  cbn [mbind res_bind fst snd] in *. exists s', nums, t'. split; [done|]. unfold zlen. split; [lia|]. split; [lia|]. split; [|done].
  rewrite Hs', <- (zip_flip ms es), Hp, zip_flip, Hz. done.
Qed.

(** What a lookup adds. *)
Definition value (p : double * Z) : Z := match lookup_value inp SD p.1 p.2 with Ok k => k | Fault _ => 0 end.
Definition entry (s : list double * list Z) (i : Z) : double * Z := default (S754_zero false, 0) (zip s.1 s.2 !! Z.to_nat i).

Hypothesis Hvalue : forall p, nonneg p.1 -> 0 <= p.2 < 12 -> lookup_value inp SD p.1 p.2 = Ok (value p).

Section lookups.
Context (s : list double * list Z).
Hypothesis Hs1 : zlen s.1 = L.
Hypothesis Hs2 : zlen s.2 = L.
Hypothesis Hperm : zip s.1 s.2 ≡ₚ samples L.

Lemma entry_lookup i : 0 <= i < L -> (p ← aread s.1 i; m ← aread s.2 i; lookup_value inp SD p m) = Ok (value (entry s i)).
Proof.
  intros Hi. destruct (aread_in_bounds s.1 i) as (p & -> & Hp); [lia|]. destruct (aread_in_bounds s.2 i) as (m & -> & Hm); [lia|]. cbn [mbind res_bind].
  assert (Hz : zip s.1 s.2 !! Z.to_nat i = Some (p, m)) by (rewrite lookup_zip_with, Hp; cbn; now rewrite Hm). unfold entry. rewrite Hz. cbn [default].
  assert (Hin : (p, m) ∈ samples L) by (rewrite <- Hperm; eapply list_elem_of_lookup_2, Hz). apply list_elem_of_fmap in Hin as (k & Hk & Hr%elem_of_seqZ). destruct (sampled_spec k) as (_ & Hq & Hmr); [lia|]. rewrite <- Hk in Hq, Hmr.
  now apply (Hvalue (p, m)).
Qed.

Lemma total_entries : total (fun i => value (entry s i)) (seqZ 0 L) = total (fun i => value (sampled i)) (seqZ 0 L).
Proof.
  assert (Hlist : forall l (d : Z -> double * Z), total (fun i => value (d i)) l = foldr (fun p acc => value p + acc) 0 (d <$> l)).
  { intros l d. induction l as [|x l IH]; [done|]. unfold total in *. cbn [foldr fmap list_fmap]. now rewrite IH. }
  rewrite !Hlist. assert (Hz : entry s <$> seqZ 0 L = zip s.1 s.2).
  { unfold zlen in Hs1, Hs2. apply list_eq_same_length with (n := Z.to_nat L); [rewrite length_zip_with; lia|rewrite length_fmap, length_seqZ; lia|]. intros i x y Hi Hx Hy.
    rewrite list_lookup_fmap, lookup_seqZ_lt in Hx by lia. cbn in Hx. injection Hx as <-. unfold entry. replace (Z.to_nat (0 + Z.of_nat i)) with i by lia. now rewrite Hy. }
  rewrite Hz. change (sampled <$> seqZ 0 L) with (samples L). apply (foldr_permutation (=)); [intros p a b ->; done|intros; lia|exact Hperm].
Qed.

Context `{OM : Omp, !OmpLaws OM} (nums : list Z).
Hypothesis Hln : zlen nums = 12.
Hypothesis Hnn : forall m, 0 <= m < 12 -> 0 <= at_ nums m.

Lemma material_lookups_spec ms offset ver t :
  (forall m, m ∈ ms -> 0 <= m < 12) -> 0 <= offset -> offset + total (at_ nums) ms <= L -> is_u64 ver ->
  exists t', material_lookups inp SD s nums ms offset ver t = Ok (u64 (ver + total (fun i => value (entry s i)) (seqZ offset (total (at_ nums) ms))), t').
Proof.
  revert offset ver t. induction ms as [|m ms IH]; intros offset ver t Hms Ho Hle Hv; cbn [material_lookups].
  - exists t. cbn. rewrite Z.add_0_r, u64_small by done. done.
  - pose proof (Hms m ltac:(left)) as Hm. pose proof (Hnn m Hm) as Hn. assert (Hrest : 0 <= total (at_ nums) ms) by (apply total_nonneg; intros k Hk; apply Hnn, Hms; now right).
    change (total (at_ nums) (m :: ms)) with (at_ nums m + total (at_ nums) ms) in *. unfold mbind, team_bind, alone. rewrite at_read by lia. cbn [mbind res_bind].
    rewrite (reduction_total _ (fun i => value (entry s i))) by (intros i Hi; apply entry_lookup; lia). cbn [mbind res_bind]. replace (offset + at_ nums m - offset) with (at_ nums m) by lia.
    destruct (IH (offset + at_ nums m) (u64 (ver + u64 (total (fun i => value (entry s i)) (seqZ offset (at_ nums m))))) (S t)) as (t' & ->); [intros; apply Hms; now right|lia|lia|apply u64_range|].
    exists t'. f_equal. f_equal. rewrite total_seqZ by lia. unfold u64, wrap. rewrite Z.add_mod_idemp_l by done.
    match goal with |- (_ + ?a mod ?m + ?b) mod _ = _ => replace (ver + a mod m + b) with (a mod m + (ver + b)) by lia end.
    rewrite Z.add_mod_idemp_l by done. f_equal. lia.
Qed.
End lookups.

Lemma optimized_spec `{OM : Omp, !OmpLaws OM} fresh t :
  zlen fresh.1 = L -> zlen fresh.2 = L ->
  exists t', run_event_based_simulation_optimization_1 inp SD fresh t = Ok (u64 (total (fun i => value (sampled i)) (seqZ 0 L)), t').
Proof.
  intros H1 H2. unfold run_event_based_simulation_optimization_1, mbind, team_bind. destruct (sample_events_spec fresh H1 H2 t) as [(s & t1 & -> & Hs1 & Hs2 & Hz)|[[] _]]. cbn [mbind res_bind].
  destruct (sort_samples_spec s t1 Hs1 Hs2 Hz) as (s' & nums & t2 & -> & Hs1' & Hs2' & Hp & Hln & Hnn & Htot). cbn [mbind res_bind].
  destruct (material_lookups_spec s' Hs1' Hs2' Hp nums Hln Hnn (seqZ 0 12) 0 0 t2) as (t' & ->).
  - intros m Hm%elem_of_seqZ. lia.
  - lia.
  - lia.
  - split; [lia|reflexivity].
  - exists t'. rewrite Htot, total_entries by done. now rewrite Z.add_0_l.
Qed.

Lemma baseline_spec `{OM : Omp, !OmpLaws OM} t : run_event_based_simulation inp SD t = Ok (u64 (total (fun i => value (sampled i)) (seqZ 0 L)), S t).
Proof.
  unfold run_event_based_simulation. rewrite (reduction_total _ (fun i => value (sampled i))); [now rewrite Z.sub_0_r|]. intros i Hi. unfold event_lookup.
  destruct (sampled_spec i) as (-> & Hq & Hm); [lia|]. cbn [mbind res_bind]. pose proof (Hvalue (sampled i) Hq Hm) as Hval. destruct (sampled i) as [q m]. exact Hval.
Qed.
End optimized.
