(* ===== verification/XsBenchProps.v ===== *)
(** What XSBench promises: its checksum does not depend on the kind of grid, the kernel, the
    number of threads or their schedule, and random numbers are skipped exactly; and two
    faults. *)
From stdpp Require Import base numbers list sorting.
From Stdlib Require Import ZArith Lia SpecFloat.
From S2P Require Import Prelude Graph500 Graph Omp XsBench XsNumbers XsGrid XsBenchProofs XsSort Graph500Props.
Open Scope Z_scope.

(** What an iteration adds, 0 where it stops. *)
Definition added (body : Z -> res Z) (i : Z) : Z := match body i with Ok k => k | Fault _ => 0 end.

Lemma reductions_agree {OM1 OM2 : Omp} `{!OmpLaws OM1, !OmpLaws OM2} body1 body2 n t1 t2 :
  (forall i, 0 <= i < n -> exists k, body1 i = Ok k /\ body2 i = Ok k) ->
  exists v, reduction (OM := OM1) 0 n body1 t1 = Ok (v, S t1) /\ reduction (OM := OM2) 0 n body2 t2 = Ok (v, S t2).
Proof.
  intros Hb. exists (u64 (total (added body1) (seqZ 0 (n - 0)))). split; [apply (reduction_total body1)|apply (reduction_total body2)]; try done;
    intros i Hi; destruct (Hb i Hi) as (k & H1 & H2); unfold added; rewrite H1; done.
Qed.

Section xs.
Context `{M : Malloc, !MallocLaws M} {NO : MallocNoOom M} `{Q : Qsort, !QsortLaws Q}.

(** C20: The unionized energy grid only makes lookups faster.  Both ways to look up a cross
    section, through the precomputed indices of the union of all energies and by a search
    in the grid of each nuclide, give the same checksum bit for bit, in event-based and in
    history-based runs of the baseline kernel, whatever the numbers of threads and the
    schedules of the two runs; neither reads outside an array.  This is for 68 or at least
    355 nuclides (the two sets of materials) with two grid points or more (with one the
    code reads past the grid), fewer than 2^31 in all, as long as malloc succeeds and the
    fields of the data are initialised in their order.  Energies of a nuclide may repeat,
    except the first; an event-based run has at most 2^30 lookups, and the random numbers
    a history-based run skips to must fit in an [int]. *)
Theorem xs_grids_agree {OM1 OM2 : Omp} `{!OmpLaws OM1, !OmpLaws OM2} inp t1 t2 :
  n_isotopes inp = 68 \/ 355 <= n_isotopes inp -> 2 <= n_gridpoints inp -> n_isotopes inp * n_gridpoints inp < 2 ^ 31 -> distinct_start inp ->
  kernel_id inp = 0 -> 0 <= lookups inp -> (if simulation_method inp =? EVENT_BASED then lookups inp <= 2 ^ 30 else (particles inp - 1) * lookups inp * 10 < 2 ^ 31) ->
  exists v, xs_main (OM := OM1) (with_grid inp UNIONIZED) t1 = Ok (v, S t1) /\ xs_main (OM := OM2) (with_grid inp NUCLIDE) t2 = Ok (v, S t2).
Proof.
  intros HI HG HIG Hd Hk Hl Hsize. destruct (shared_spec inp HI HG HIG) as (SD & Hg & Hn & Hm & Hc & Hok).
  destruct (unionized_spec inp HI HG HIG SD Hg Hn Hm Hc Hok Hd) as (union & index & HfU & HinitU).
  pose proof (nuclide_finds inp HG SD Hok) as HfN. pose proof (materials_room inp HI HG HIG) as Hroom.
  unfold xs_main, mbind, team_bind. rewrite (HinitU OM1), (nuclide_init inp HI HG HIG SD Hg Hn Hm Hc (OM := OM2)). cbn [mbind res_bind simulation_method with_grid].
  destruct (simulation_method inp =? EVENT_BASED).
  - cbn [kernel_id with_grid]. rewrite Hk. cbn [Z.eqb]. unfold run_event_based_simulation. cbn [lookups with_grid].
    edestruct (reductions_agree (OM1 := OM1) (OM2 := OM2)) as (v & -> & ->); [|now eexists]. intros i Hi. eapply (event_agree _ _ _ HG Hok Hroom); [exact HfU|exact HfN|lia].
  - unfold run_history_based_simulation. cbn [particles with_grid].
    edestruct (reductions_agree (OM1 := OM1) (OM2 := OM2)) as (v & -> & ->); [|now eexists]. intros p Hp.
    eapply (history_agree _ _ _ HG Hok Hroom); [exact HfU|exact HfN|done|lia|done|]. cbn [lookups with_grid]. nia.
Qed.

(** Both grids are built, and find the interval of every energy. *)
Lemma grid_ready inp SD g :
  n_isotopes inp = 68 \/ 355 <= n_isotopes inp -> 2 <= n_gridpoints inp -> n_isotopes inp * n_gridpoints inp < 2 ^ 31 -> distinct_start inp ->
  init_nuclide_grid inp (n_isotopes inp * n_gridpoints inp) = Ok (nuclide_grid SD) -> load_num_nucs (n_isotopes inp) = Ok (num_nucs SD) ->
  load_mats (num_nucs SD) (n_isotopes inp) = Ok (mats SD, max_num_nucs SD) -> load_concs (num_nucs SD) (max_num_nucs SD) = Ok (concs SD) ->
  data_ok (n_isotopes inp) (n_gridpoints inp) SD -> g = UNIONIZED \/ g = NUCLIDE ->
  exists union index, finds (n_isotopes inp) (n_gridpoints inp) SD (with_grid inp g) union index /\
    forall (OM : Omp) t, grid_init_do_not_profile (with_grid inp g) t =
      Ok (Data (num_nucs SD) (concs SD) (mats SD) union index (nuclide_grid SD) (max_num_nucs SD), t).
Proof.
  intros HI HG HIG Hd Hg Hn Hm Hc Hok [->| ->].
  - destruct (unionized_spec inp HI HG HIG SD Hg Hn Hm Hc Hok Hd) as (union & index & Hf & Hinit). exists union, index. now split.
  - exists [], []. split; [now apply nuclide_finds|]. intros OM t. now apply nuclide_init.
Qed.

(** C21: The kernel that sorts its samples by material and energy computes the checksum of
    the baseline kernel, each with the unionized or the nuclide grid, with any teams and
    schedules of the loops and any order of the sorting tasks (a task runs to its end
    before the next; the parts they work on do not overlap): quicksort permutes energies
    and materials together, in bounds and with a recursion that ends, and the parts of
    the materials cover the samples.  It sorts a part of every material, so some event
    must take the last one: the pivot of an empty part at the end would be read past it.
    The run is event based with at most 2^30 lookups, there are 68 or at least 355
    nuclides with two grid points or more, fewer than 2^31
    in all, the first two energies of a nuclide differ, malloc succeeds, and the fields of
    the data are initialised in their order. *)
Theorem xs_optimized_agrees {OM1 OM2 : Omp} `{!OmpLaws OM1, !OmpLaws OM2} inp g1 g2 t1 t2 :
  n_isotopes inp = 68 \/ 355 <= n_isotopes inp -> 2 <= n_gridpoints inp -> n_isotopes inp * n_gridpoints inp < 2 ^ 31 -> distinct_start inp ->
  g1 = UNIONIZED \/ g1 = NUCLIDE -> g2 = UNIONIZED \/ g2 = NUCLIDE ->
  simulation_method inp = EVENT_BASED -> 0 <= lookups inp <= 2 ^ 30 -> (exists i q, 0 <= i < lookups inp /\ event_sample i = Ok (q, 11)) ->
  exists v t1' t2', xs_main (OM := OM1) (with_kernel (with_grid inp g1) 1) t1 = Ok (v, t1') /\ xs_main (OM := OM2) (with_kernel (with_grid inp g2) 0) t2 = Ok (v, t2').
Proof.
  intros HI HG HIG Hd Hg1 Hg2 He Hl (i11 & q11 & Hi11 & Hs11). destruct (shared_spec inp HI HG HIG) as (SD & Hg & Hn & Hm & Hc & Hok). pose proof (materials_room inp HI HG HIG) as Hroom.
  destruct (grid_ready inp SD g1 HI HG HIG Hd Hg Hn Hm Hc Hok Hg1) as (u1 & ix1 & Hf1 & Hinit1). destruct (grid_ready inp SD g2 HI HG HIG Hd Hg Hn Hm Hc Hok Hg2) as (u2 & ix2 & Hf2 & Hinit2).
  set (SD1 := Data _ _ _ u1 ix1 _ _) in *. set (SD2 := Data _ _ _ u2 ix2 _ _) in *. set (inp1 := with_grid inp g1) in *. set (inp2 := with_grid inp g2) in *.
  assert (Hval : forall p, nonneg p.1 -> 0 <= p.2 < 12 -> lookup_value (with_kernel inp1 1) SD1 p.1 p.2 = Ok (value (with_kernel inp1 1) SD1 p) /\
    lookup_value (with_kernel inp2 0) SD2 p.1 p.2 = Ok (value (with_kernel inp2 0) SD2 p) /\ value (with_kernel inp1 1) SD1 p = value (with_kernel inp2 0) SD2 p).
  { intros p Hq Hp. unfold value. destruct (lookup_agree _ _ _ HG Hok Hroom _ _ _ _ _ _ Hf1 Hf2 p.1 p.2 Hq Hp) as (v & Hv1 & Hv2).
    change (lookup_value (with_kernel inp1 1) SD1) with (lookup_value inp1 SD1). change (lookup_value (with_kernel inp2 0) SD2) with (lookup_value inp2 SD2).
    fold SD1 in Hv1. fold SD2 in Hv2. now rewrite Hv1, Hv2. }
  assert (Hlast : exists i, 0 <= i < lookups inp /\ (sampled i).2 = 11) by (exists i11; split; [done|]; unfold sampled; now rewrite Hs11).
  unfold xs_main, mbind, team_bind. change (@grid_init_do_not_profile M Q OM1 (with_kernel inp1 1)) with (@grid_init_do_not_profile M Q OM1 inp1).
  change (@grid_init_do_not_profile M Q OM2 (with_kernel inp2 0)) with (@grid_init_do_not_profile M Q OM2 inp2). rewrite Hinit1, Hinit2. cbn [mbind res_bind simulation_method kernel_id with_kernel inp1 inp2 with_grid]. rewrite He.
  cbn [EVENT_BASED Z.eqb Pos.eqb]. unfold sample_arrays, alone. cbn [lookups with_kernel inp1 inp2 with_grid].
  destruct (malloc_unchecked_spec (lookups inp) 8) as (fe & -> & Hfe); [lia|lia|lia|]. destruct (malloc_unchecked_spec (lookups inp) 4) as (fm & -> & Hfm); [lia|lia|lia|]. cbn [mbind res_bind].
  destruct (optimized_spec (with_kernel inp1 1) SD1 Hl Hlast (fun p Hq Hp => proj1 (Hval p Hq Hp)) (OM := OM1) (of_bits <$> fe, fm) t1) as (t1' & Hopt); [unfold zlen in *; cbn [fst]; now rewrite length_fmap|done|].
  assert (Htot : total (fun i => value (with_kernel inp2 0) SD2 (sampled i)) (seqZ 0 (lookups (with_kernel inp2 0))) =
    total (fun i => value (with_kernel inp1 1) SD1 (sampled i)) (seqZ 0 (lookups (with_kernel inp1 1)))).
  { apply total_ext. intros i Hi%elem_of_seqZ. assert (i < lookups inp) by exact (proj2 Hi). destruct (sampled_spec i) as (_ & Hq & Hp); [lia|]. symmetry. now apply Hval. }
  fold inp1 inp2. rewrite Hopt, (baseline_spec (with_kernel inp2 0) SD2 Hl (fun p Hq Hp => proj1 (proj2 (Hval p Hq Hp))) (OM := OM2)), Htot. now eexists _, _, _.
Qed.

(** C39: A history-based run with more particles than an [int] can number breaks off: as
    soon as the first random number of the last particle, [p * lookups * 2 * 5], does not
    fit, the run has a signed overflow, for every team and schedule.  With the 34 lookups
    of the evaluation this is so from 6316130 particles on; it is run with ten million.
    This is with the unionized grid, as in the evaluation, two grid points or more per
    nuclide, and malloc succeeding. *)
Theorem xs_history_overflows `{OM : Omp, !OmpLaws OM} inp t :
  n_isotopes inp = 68 \/ 355 <= n_isotopes inp -> 2 <= n_gridpoints inp -> n_isotopes inp * n_gridpoints inp < 2 ^ 31 -> distinct_start inp ->
  0 < lookups inp -> 0 < particles inp -> simulation_method inp = HISTORY_BASED -> 2 ^ 31 <= (particles inp - 1) * lookups inp * 10 ->
  xs_main (with_grid inp UNIONIZED) t = Fault IntOverflow.
Proof.
  intros HI HG HIG Hd Hl Hp Hh Hbig. destruct (shared_spec inp HI HG HIG) as (SD & Hg & Hn & Hm & Hc & Hok).
  destruct (unionized_spec inp HI HG HIG SD Hg Hn Hm Hc Hok Hd) as (union & index & Hf & Hinit). pose proof (materials_room inp HI HG HIG) as Hroom.
  unfold xs_main, mbind, team_bind. rewrite (Hinit OM). cbn [mbind res_bind simulation_method with_grid]. rewrite Hh. cbn [HISTORY_BASED EVENT_BASED Z.eqb Pos.eqb].
  unfold run_history_based_simulation. cbn [particles with_grid]. rewrite (reduction_stops _ IntOverflow); [done| |].
  - intros p Hpr. destruct (Z.le_gt_cases (2 ^ 31) (p * lookups inp * 10)) as [Hov|Hfit]; [right; apply history_overflow; cbn; lia|left].
    destruct (history_agree _ _ _ HG Hok Hroom _ _ _ _ _ _ Hf Hf p eq_refl) as (k & Hk & _); [lia|cbn; lia|cbn; lia|now exists k].
  - exists (particles inp - 1). split; [lia|]. apply history_overflow; cbn; lia.
Qed.
End xs.

(** C22: Skipping ahead is exact: [fast_forward_LCG] returns the seed that [n] steps of the
    generator reach, for every seed below [2^63] and every such [n], with at most 63
    iterations. *)
Theorem xs_fast_forward_exact seed n :
  0 <= seed < LCG_m -> 0 <= n < LCG_m -> fast_forward_LCG seed n = Ok (Nat.iter (Z.to_nat n) (fun seed => (LCG_random_double seed).2) seed).
Proof. intros Hs Hn. now rewrite fast_forward_spec. Qed.

(** The hash grid is left by the largest energy.  Conversion to [double] rounds the
    largest seeds up, so that the generator returns exactly 1; the bin of that energy is
    [hash_bins], one more than there are, and the index read for it is past the end. *)
Theorem xs_hash_past_end :
  exists seed, 0 <= seed < LCG_m /\ (LCG_random_double seed).1 = of_Z 1 /\
    forall inp SD nuc, grid_type inp = HASH -> hash_bins inp = 10000 -> zlen (index_grid SD) = 10000 * n_isotopes inp -> 0 <= nuc -> 0 < n_isotopes inp ->
      lookup_index inp SD (of_Z 1) = Ok 10000 /\
      calculate_micro_xs (of_Z 1) nuc (n_isotopes inp) (n_gridpoints inp) (index_grid SD) (nuclide_grid SD) 10000 HASH 10000 = Fault OutOfBounds.
Proof.
  exists 5527465283667400870. split; [vm_compute; split; [discriminate|reflexivity]|]. split; [vm_compute; reflexivity|]. intros inp SD nuc Hg Hb Hl Hn HI. split.
  - unfold lookup_index. rewrite Hg, Hb. vm_compute. reflexivity.
  - unfold calculate_micro_xs, low_point. cbn [HASH NUCLIDE UNIONIZED Z.eqb Pos.eqb]. assert (aread (index_grid SD) (10000 * n_isotopes inp + nuc) = Fault OutOfBounds) as ->; [|done].
    unfold aread. rewrite decide_True by lia. rewrite lookup_ge_None_2; [done|]. unfold zlen in Hl. lia.
Qed.

(** ** Witnesses *)

Import Heap Pair.

Module Insertion.
Section insertion.
Context {A : Type} (cmp : A -> A -> Z).

Fixpoint insert (x : A) (l : list A) : list A :=
  match l with [] => [x] | y :: l' => if cmp x y <=? 0 then x :: l else y :: insert x l' end.
Definition sort (l : list A) : list A := foldr insert [] l.

Lemma ins_perm x l : insert x l ≡ₚ x :: l.
Proof. induction l as [|y l IH]; [done|]. cbn [insert]. destruct (_ <=? 0); [done|]. rewrite IH. apply Permutation_swap. Qed.

Lemma ins_sort_perm l : sort l ≡ₚ l.
Proof. induction l as [|x l IH]; [done|]. cbn [sort foldr]. rewrite ins_perm. now f_equiv. Qed.

Lemma ins_sorted (P : A -> Prop) x l :
  (forall x y, P x -> P y -> cmp x y <= 0 \/ cmp y x <= 0) -> (forall x y z, P x -> P y -> P z -> cmp x y <= 0 -> cmp y z <= 0 -> cmp x z <= 0) ->
  P x -> Forall P l -> StronglySorted (fun x y => cmp x y <= 0) l -> StronglySorted (fun x y => cmp x y <= 0) (insert x l).
Proof.
  intros Htot Htr Hx Hl. induction 1 as [|y l Hs IH Hy]; cbn [insert]; [repeat constructor|]. inversion Hl as [|? ? Hpy Hpl]; subst. destruct (Z.leb_spec (cmp x y) 0) as [Hle|Hgt].
  - constructor; [now constructor|]. constructor; [done|]. rewrite Forall_forall in *. intros z Hz. apply (Htr x y z); auto.
  - constructor; [auto|]. rewrite ins_perm. constructor; [|done]. destruct (Htot x y Hx Hpy); [lia|done].
Qed.
End insertion.

#[export] Instance qsort_insertion : Qsort := {| qsort A cmp l := sort cmp l |}.

#[export] Instance qsort_insertion_laws : QsortLaws qsort_insertion.
Proof.
  split; [intros; apply ins_sort_perm|]. intros A cmp l Htot Htr. cbn [qsort qsort_insertion].
  assert (Hsub : forall l', (forall x, x ∈ l' -> x ∈ l) -> StronglySorted (fun x y => cmp x y <= 0) (sort cmp l')); [|auto].
  induction l' as [|x l' IH]; intros Hin; [constructor|]. apply (ins_sorted cmp (fun x => x ∈ l)); try done.
  - apply Hin. left.
  - apply Forall_forall. intros y Hy. assert (Hy' : y ∈ sort cmp l') by exact Hy. rewrite ins_sort_perm in Hy'. apply Hin. now right.
  - apply IH. intros y Hy. apply Hin. now right.
Qed.
End Insertion.
Import Insertion.

(** [distinct_start] decided on the generated grid. *)
Definition distinct_startb (inp : Inputs) : bool :=
  match init_nuclide_grid inp (n_isotopes inp * n_gridpoints inp) with
  | Ok grid => forallb (fun i => match aread grid (i * n_gridpoints inp), aread grid (i * n_gridpoints inp + 1) with
      | Ok a, Ok b => dlt (energy a) (energy b) | _, _ => false end) (seqZ 0 (n_isotopes inp))
  | Fault _ => false
  end.

Lemma distinct_startb_ok inp : distinct_startb inp = true -> distinct_start inp.
Proof.
  unfold distinct_startb. intros H grid i Hg Hi. rewrite Hg in H. rewrite forallb_forall in H. specialize (H i ltac:(apply list_elem_of_In, elem_of_seqZ; lia)).
  destruct (aread grid (i * _)) as [a|]; [|done]. destruct (aread grid _) as [b|]; [|done]. now exists a, b.
Qed.

Lemma xs_grids_agree_witness :
  exists v, xs_main (OM := team in_turn) (with_grid (Input 68 2 3 0 100 4 EVENT_BASED 0) UNIONIZED) 0%nat = Ok (v, 1%nat) /\
    xs_main (OM := team one_by_one) (with_grid (Input 68 2 3 0 100 4 EVENT_BASED 0) NUCLIDE) 7%nat = Ok (v, 8%nat).
Proof.
  apply (xs_grids_agree (OM1 := team in_turn) (OM2 := team one_by_one) (Input 68 2 3 0 100 4 EVENT_BASED 0) 0%nat 7%nat); cbn; [lia|lia|lia| |reflexivity|lia|lia].
  apply distinct_startb_ok. vm_compute. reflexivity.
Defined.

Lemma xs_optimized_agrees_witness :
  exists v t1' t2', xs_main (OM := team in_turn) (with_kernel (with_grid (Input 68 2 80 0 100 0 EVENT_BASED 1) UNIONIZED) 1) 0%nat = Ok (v, t1') /\
    xs_main (OM := team one_by_one) (with_kernel (with_grid (Input 68 2 80 0 100 0 EVENT_BASED 1) NUCLIDE) 0) 0%nat = Ok (v, t2').
Proof.
  apply (xs_optimized_agrees (OM1 := team in_turn) (OM2 := team one_by_one) (Input 68 2 80 0 100 0 EVENT_BASED 1)); cbn; [lia|lia|lia| |now left|now right|reflexivity|lia|].
  - apply distinct_startb_ok. vm_compute. reflexivity.
  - exists 75. eexists. split; [lia|]. vm_compute. reflexivity.
Defined.

Lemma xs_history_overflows_witness : xs_main (OM := team in_turn) (with_grid (Input 68 2 34 0 100 10000000 HISTORY_BASED 0) UNIONIZED) 0%nat = Fault IntOverflow.
Proof.
  apply (xs_history_overflows (OM := team in_turn) (Input 68 2 34 0 100 10000000 HISTORY_BASED 0)); cbn; [lia|lia|lia| |lia|lia|reflexivity|lia].
  apply distinct_startb_ok. vm_compute. reflexivity.
Defined.

Lemma xs_fast_forward_exact_witness : fast_forward_LCG 1070 1000000 = Ok (Nat.iter (Z.to_nat 1000000) (fun seed => (LCG_random_double seed).2) 1070).
Proof. apply (xs_fast_forward_exact 1070 1000000); unfold LCG_m; lia. Defined.
