(* ===== verification/Target.v ===== *)
(** The life of a target (mm/demeter/core.c in the patch): creating it with its
    channels, worker threads and perf events, stopping it, and the throttling
    thread that switches its events on and off meanwhile.

    A channel, thread or event is named after the target and the position it is
    created for; addresses of targets are not used again.  What the kernel
    answers (memory, threads, events, tasks) and how far the throttling thread
    runs between two calls are the operations of [TargetEnv], functions of the
    state.  Threads, task references and perf events behave as the kernel
    documents: [kthread_stop] waits for a thread that must still exist, an event
    runs its handler while it is enabled and stays until it is released.  Handlers of enabled events may run at any time: [irq] stands where
    they can, and fails if one would use freed memory.  Clock statistics and log
    messages are left out. *)
From stdpp Require Import base numbers list gmap.
From Stdlib Require Import ZArith Lia.
From S2P Require Import Prelude Kernel.
Open Scope Z_scope.

Definition ESRCH : Z := 3.
Definition ECHILD : Z := 10.

Definition WORKER_MAIN : Z := 0.
Definition WORKER_THROTTLE : Z := 1.
Definition WORKER_POLICY : Z := 2.
Definition WORKER_MIGRATION : Z := 3.
Definition MAX_WORKERS : Z := 4.

Definition CHAN_SAMPLE : Z := 0.
Definition MAX_CHANS : Z := 4.

Definition MAX_EVENTS : Z := 2.
Definition MAX_STATS : Z := 6.

Definition THROTTLE_PULSE_WIDTH_MS : Z := 0.
Definition THROTTLE_PULSE_PERIOD_MS : Z := 5000.

(** The name of a channel, a thread or an event. *)
Notation obj := (Z * Z)%type.

Record target := Target {
  victim : option Z;
  chans : list (option obj);
  workers : list (option obj);
  events : list (option obj);
  stats : list Z;
  start_time : Z }.

(** Where a thread is; only the throttling thread gets further than its start:
    at the head of its loop, sleeping for the width of the pulse, sleeping for
    the rest of the period. *)
Inductive pc := Start | Head | Pulse | Gap.

#[export] Instance pc_eq_dec : EqDecision pc.
Proof. solve_decision. Defined.

(** The targets, the tasks they hold a reference to, the ring buffers, the
    threads, and the perf events with whether they are enabled. *)
Record kernel := Kern {
  now : Z;
  next : Z;
  targets : gmap Z target;
  task_refs : gmap Z Z;
  buffers : gset obj;
  threads : gmap obj pc;
  perf : gmap obj bool }.

Definition set_targets v (k : kernel) := Kern (now k) (next k) v (task_refs k) (buffers k) (threads k) (perf k).
Definition set_task_refs v (k : kernel) := Kern (now k) (next k) (targets k) v (buffers k) (threads k) (perf k).
Definition set_buffers v (k : kernel) := Kern (now k) (next k) (targets k) (task_refs k) v (threads k) (perf k).
Definition set_threads v (k : kernel) := Kern (now k) (next k) (targets k) (task_refs k) (buffers k) v (perf k).
Definition set_perf v (k : kernel) := Kern (now k) (next k) (targets k) (task_refs k) (buffers k) (threads k) v.
Definition set_next v (k : kernel) := Kern (now k) v (targets k) (task_refs k) (buffers k) (threads k) (perf k).
Definition set_now v (k : kernel) := Kern v (next k) (targets k) (task_refs k) (buffers k) (threads k) (perf k).

Class TargetEnv := {
  kzalloc_ok : kernel -> bool;
  (** the process of a process number, NULL if there is none *)
  find_get_task_by_vpid : kernel -> Z -> option Z;
  ring_buffer_alloc_ok : kernel -> bool;
  kthread_run_ok : kernel -> Z -> bool;
  (** 0 or an error *)
  perf_event_create_kernel_counter : kernel -> Z -> Z;
  (** steps the throttling thread takes before the next call *)
  throttle_steps : kernel -> nat;
  (** module parameters, in jiffies *)
  throttle_period : Z;
  throttle_width : Z }.

(** Processes have positive numbers, [perf_event_create_kernel_counter] returns an
    event or an error, and the parameters describe a pulse. *)
Class TargetLaws (E : TargetEnv) : Prop := {
  find_task_pos k pid v : find_get_task_by_vpid k pid = Some v -> 0 < v;
  perf_create_err k i : perf_event_create_kernel_counter k i <= 0;
  throttle_pulse : 0 <= throttle_width < throttle_period }.

Section target.
Context `{E : TargetEnv}.

Definition get_target (t : Z) (k : kernel) : res target := of_option BadPointer (targets k !! t).

(** ** Events *)

(** The handler sends a sample on the channel of its target. *)
Definition target_events_overflow (e : obj) (k : kernel) : res unit :=
  self ← get_target e.1 k;
  ch ← aread (chans self) CHAN_SAMPLE;
  ch ← of_option BadPointer ch;
  check (bool_decide (ch ∈ buffers k)) BadPointer.

Definition handlers_ok (k : kernel) : Prop :=
  map_Forall (fun e (on : bool) => on = true -> is_ok (target_events_overflow e k) = true) (perf k).

#[export] Instance handlers_ok_dec k : Decision (handlers_ok k).
Proof. unfold handlers_ok. apply _. Defined.

Definition irq (k : kernel) : res kernel := if decide (handlers_ok k) then Ok k else Fault BadPointer.

(** [perf_event_enable] and [perf_event_disable] *)
Definition perf_event_set (e : obj) (on : bool) (k : kernel) : res kernel :=
  match perf k !! e with
  | Some _ => Ok (set_perf (<[e := on]> (perf k)) k)
  | None => Fault BadPointer
  end.

Definition target_events_enable (self : Z) (enable : bool) (k : kernel) : res kernel :=
  t ← get_target self k;
  for_range 0 MAX_EVENTS (fun i k =>
    e ← aread (events t) i;
    match e with Some e => perf_event_set e enable k | None => Ok k end) k.

(** [event_attrs[i].disabled], which is not set: an event starts enabled. *)
Definition event_attrs_disabled (i : Z) : bool := false.

(** ** Threads *)

Definition set_pc (t : Z) (p : pc) (k : kernel) : kernel :=
  set_threads (<[(t, WORKER_THROTTLE) := p]> (threads k)) k.

(** The throttling thread from one sleep to the next. *)
Definition worker_throttle (t : Z) (k : kernel) : res kernel :=
  match threads k !! (t, WORKER_THROTTLE) with
  | None => Ok k
  | Some Start =>
      if (throttle_period =? 0) || (throttle_period <=? throttle_width) then Fault BugOn
      else Ok (set_pc t Head k)
  | Some Head =>
      if throttle_width =? 0 then Ok k
      else k ← target_events_enable t true k; Ok (set_pc t Pulse k)
  | Some Pulse => k ← target_events_enable t false k; Ok (set_pc t Gap k)
  | Some Gap => Ok (set_pc t Head k)
  end.

Fixpoint throttle_run (n : nat) (t : Z) (k : kernel) : res kernel :=
  match n with O => Ok k | S n => worker_throttle t k ≫= throttle_run n t end.

(** What the throttling thread still does once it is told to stop: the loop ends
    at its head, so a pulse is finished first. *)
Definition throttle_finish (t : Z) (k : kernel) : res kernel :=
  if decide (threads k !! (t, WORKER_THROTTLE) = Some Pulse) then target_events_enable t false k else Ok k.

(** [kthread_stop] waits for the thread; a thread that has left by itself is gone. *)
Definition kthread_stop (w : obj) (k : kernel) : res kernel :=
  _ ← of_option BadPointer (threads k !! w);
  k ← (if w.2 =? WORKER_THROTTLE then throttle_finish w.1 k else Ok k);
  Ok (set_threads (delete w (threads k)) k).

(** [worker_policy] returns early when the array of ranges cannot be allocated. *)
Definition worker_policy_enter (t : Z) (mrs : Z) (k : kernel) : Z * kernel :=
  match TRY true mrs with
  | inl e => (e, set_threads (delete (t, WORKER_POLICY) (threads k)) k)
  | inr _ => (0, k)
  end.

(** ** Channels *)

Definition mpsc_drop (ch : obj) (k : kernel) : res kernel :=
  if decide (ch ∈ buffers k) then Ok (set_buffers (buffers k ∖ {[ch]}) k) else Fault BadPointer.

(** ** The target *)

Definition target_pid (self : Z) (k : kernel) : res Z :=
  t ← get_target self k; of_option BadPointer (victim t).

Definition put_task_struct (self : Z) (k : kernel) : res kernel :=
  match task_refs k !! self with
  | Some _ => Ok (set_task_refs (delete self (task_refs k)) k)
  | None => Fault BadPointer
  end.

Definition kfree_target (self : Z) (k : kernel) : res kernel :=
  _ ← get_target self k; Ok (set_targets (delete self (targets k)) k).

(** The shares of the run time, for the log. *)
Definition permyriad (t : target) (k : kernel) : res (list Z) :=
  let total_elapsed := u64 (now k - start_time t + 1) in
  _ ← check (negb (total_elapsed =? 0)) DivByZero;
  Ok ((fun val => u64 (val * 10000) / total_elapsed) <$> stats t).

Definition drop_worker (self : Z) (w : option obj) (k : kernel) : res kernel :=
  match w with
  | None => Ok k
  | Some w => k ← throttle_run (throttle_steps k) self k; k ← kthread_stop w k; irq k
  end.

Definition drop_chan (ch : option obj) (k : kernel) : res kernel :=
  match ch with
  | None => Ok k
  | Some ch => k ← mpsc_drop ch k; irq k
  end.

Definition target_drop (self : option Z) (k : kernel) : res kernel :=
  match self with
  | None => Ok k
  | Some self =>
      t ← get_target self k;
      _ ← permyriad t k;
      k ← target_events_enable self false k;
      k ← irq k;
      k ← for_range 0 MAX_WORKERS (fun i k => w ← aread (workers t) i; drop_worker self w k) k;
      k ← for_range 0 MAX_CHANS (fun i k => ch ← aread (chans t) i; drop_chan ch k) k;
      k ← match victim t with Some _ => put_task_struct self k | None => Ok k end;
      k ← kfree_target self k;
      irq k
  end.

Definition upd_target (self : Z) (f : target -> target) (k : kernel) : kernel :=
  set_targets (alter f self (targets k)) k.

Definition set_chan (i : Z) (c : obj) (t : target) : target :=
  Target (victim t) (<[Z.to_nat i := Some c]> (chans t)) (workers t) (events t) (stats t) (start_time t).
Definition set_worker (i : Z) (w : obj) (t : target) : target :=
  Target (victim t) (chans t) (<[Z.to_nat i := Some w]> (workers t)) (events t) (stats t) (start_time t).
Definition set_event (i : Z) (e : obj) (t : target) : target :=
  Target (victim t) (chans t) (workers t) (<[Z.to_nat i := Some e]> (events t)) (stats t) (start_time t).
Definition set_victim (v : Z) (t : target) : target :=
  Target (Some v) (chans t) (workers t) (events t) (stats t) (start_time t).
Definition set_start (x : Z) (t : target) : target :=
  Target (victim t) (chans t) (workers t) (events t) (stats t) x.

Definition zeroed_target : target :=
  Target None (replicate (Z.to_nat MAX_CHANS) None) (replicate (Z.to_nat MAX_WORKERS) None)
    (replicate (Z.to_nat MAX_EVENTS) None) (replicate (Z.to_nat MAX_STATS) 0) 0.

(** The loops of [target_new]; a number is the error it returns early with. *)
Fixpoint new_chans (idxs : list Z) (self : Z) (k : kernel) : res (option Z * kernel) :=
  match idxs with
  | [] => Ok (None, k)
  | i :: idxs =>
      if ring_buffer_alloc_ok k then
        new_chans idxs self (upd_target self (set_chan i (self, i)) (set_buffers ({[(self, i)]} ∪ buffers k) k))
      else k ← target_drop (Some self) k; Ok (Some (- ENOMEM), k)
  end.

Fixpoint new_workers (idxs : list Z) (self : Z) (k : kernel) : res (option Z * kernel) :=
  match idxs with
  | [] => Ok (None, k)
  | i :: idxs =>
      if kthread_run_ok k i then
        new_workers idxs self (upd_target self (set_worker i (self, i)) (set_threads (<[(self, i) := Start]> (threads k)) k))
      else k ← target_drop (Some self) k; Ok (Some (- ECHILD), k)
  end.

Fixpoint new_events (idxs : list Z) (self : Z) (k : kernel) : res (option Z * kernel) :=
  match idxs with
  | [] => Ok (None, k)
  | i :: idxs =>
      k ← throttle_run (throttle_steps k) self k;
      let e := perf_event_create_kernel_counter k i in
      if e =? 0 then
        let k := set_perf (<[(self, i) := negb (event_attrs_disabled i)]> (perf k)) k in
        k ← irq k;
        new_events idxs self (upd_target self (set_event i (self, i)) k)
      else k ← target_drop (Some self) k; Ok (Some e, k)
  end.

(** [inl e]: the error; [inr t]: the target. *)
Definition target_new (pid : Z) (k : kernel) : res ((Z + Z) * kernel) :=
  if negb (kzalloc_ok k) then Ok (inl (- ENOMEM), k) else
  let self := next k in
  let k := set_next (self + 1) (set_targets (<[self := zeroed_target]> (targets k)) k) in
  match find_get_task_by_vpid k pid with
  | None => k ← target_drop (Some self) k; Ok (inl (- ESRCH), k)
  | Some v =>
      let k := upd_target self (set_victim v) (set_task_refs (<[self := v]> (task_refs k)) k) in
      '(e, k) ← new_chans (seqZ 0 MAX_CHANS) self k;
      match e with Some e => Ok (inl e, k) | None =>
      '(e, k) ← new_workers (seqZ 0 MAX_WORKERS) self k;
      match e with Some e => Ok (inl e, k) | None =>
      '(e, k) ← new_events (seqZ 0 MAX_EVENTS) self k;
      match e with Some e => Ok (inl e, k) | None =>
      Ok (inr self, upd_target self (set_start (now k)) k)
      end end end
  end.
End target.
