(* ===== verification/Sysfs.v ===== *)
(** The directories through which targets are controlled (mm/demeter/sysfs.c and
    the life of the module in mm/demeter/module.c of the patch).

    A directory is a kobject with its reference count.  Kobjects behave as the
    kernel documents: the release function of the type runs when the count reaches
    zero, and a directory holds a reference to its parent while it is there.
    Writing to [pid] takes the lock for a long time and is not atomic: it is
    modelled in the pieces between which other accesses can happen, the state
    saying which write is under way and how far.  [kstrtoint] is applied before:
    a write is given its number, or nothing.  Memory and the addition of a
    directory can fail as [SysfsEnv] says. *)
From stdpp Require Import base numbers list gmap.
From Stdlib Require Import ZArith Lia.
From S2P Require Import Prelude Kernel Target.
Open Scope Z_scope.

Definition EBUSY : Z := 16.

(** What a directory is for: [mm/demeter], [targets] with its array and number of
    targets, or one of the targets. *)
Inductive kobj_data :=
  | RootDir
  | TargetsDir (arr : option Z) (nr : Z)
  | TargetDir (target : option Z).

Record kobject := Kobj { kref : Z; parent : option Z; data : kobj_data }.

(** How far a write to [pid] is: the old target is stopped, or it sleeps before
    creating the new one. *)
Inductive store :=
  | Dropped (t pid : Z)
  | Sleeping (t pid : Z).

Record sysfs := Sysfs {
  kern : kernel;
  addr : Z;
  kobjs : gmap Z kobject;
  arrays : gmap Z (list (option Z));
  list_head_cache : bool;
  demeter_sysfs_root : option Z;
  demeter_sysfs_targets : option Z;
  demeter_sysfs_lock : option store }.

Definition set_kern v s := Sysfs v (addr s) (kobjs s) (arrays s) (list_head_cache s) (demeter_sysfs_root s) (demeter_sysfs_targets s) (demeter_sysfs_lock s).
Definition set_kobjs v s := Sysfs (kern s) (addr s) v (arrays s) (list_head_cache s) (demeter_sysfs_root s) (demeter_sysfs_targets s) (demeter_sysfs_lock s).
Definition set_arrays v s := Sysfs (kern s) (addr s) (kobjs s) v (list_head_cache s) (demeter_sysfs_root s) (demeter_sysfs_targets s) (demeter_sysfs_lock s).
Definition set_addr v s := Sysfs (kern s) v (kobjs s) (arrays s) (list_head_cache s) (demeter_sysfs_root s) (demeter_sysfs_targets s) (demeter_sysfs_lock s).
Definition set_cache v s := Sysfs (kern s) (addr s) (kobjs s) (arrays s) v (demeter_sysfs_root s) (demeter_sysfs_targets s) (demeter_sysfs_lock s).
Definition set_root v s := Sysfs (kern s) (addr s) (kobjs s) (arrays s) (list_head_cache s) v (demeter_sysfs_targets s) (demeter_sysfs_lock s).
Definition set_tdir v s := Sysfs (kern s) (addr s) (kobjs s) (arrays s) (list_head_cache s) (demeter_sysfs_root s) v (demeter_sysfs_lock s).
Definition set_lock v s := Sysfs (kern s) (addr s) (kobjs s) (arrays s) (list_head_cache s) (demeter_sysfs_root s) (demeter_sysfs_targets s) v.

Class SysfsEnv := {
  kmalloc_ok : sysfs -> bool;
  (** 0 or an error *)
  kobject_add : sysfs -> Z }.

Section sysfs.
Context {TE : TargetEnv} {SE : SysfsEnv}.

Definition get_kobj (a : Z) (s : sysfs) : res kobject := of_option BadPointer (kobjs s !! a).
Definition put_kobj (a : Z) (o : kobject) (s : sysfs) : sysfs := set_kobjs (<[a := o]> (kobjs s)) s.
Definition free_kobj (a : Z) (s : sysfs) : sysfs := set_kobjs (delete a (kobjs s)) s.

(** ** Kobjects *)

Definition demeter_sysfs_target_release (a : Z) (t : option Z) (s : sysfs) : res sysfs :=
  k ← match t with Some t => target_drop (Some t) (kern s) | None => Ok (kern s) end;
  Ok (free_kobj a (set_kern k s)).

Definition demeter_sysfs_targets_release (a : Z) (s : sysfs) : res sysfs := Ok (free_kobj a s).

Definition release (a : Z) (d : kobj_data) (s : sysfs) : res sysfs :=
  match d with
  | RootDir => Ok (free_kobj a s)
  | TargetsDir _ _ => demeter_sysfs_targets_release a s
  | TargetDir t => demeter_sysfs_target_release a t s
  end.

(** [kobject_put]: the last reference releases the directory, then the one to its
    parent is put. *)
Fixpoint kobject_put_levels (levels : nat) (a : Z) (s : sysfs) : res sysfs :=
  match levels with
  | O => Fault OutOfFuel
  | S levels =>
      o ← get_kobj a s;
      if 1 <? kref o then Ok (put_kobj a (Kobj (kref o - 1) (parent o) (data o)) s)
      else
        s ← release a (data o) s;
        match parent o with None => Ok s | Some p => kobject_put_levels levels p s end
  end.

(** Directories are nested three deep. *)
Definition kobject_put (a : Z) (s : sysfs) : res sysfs := kobject_put_levels 3 a s.

(** [kzalloc] *)
Definition alloc (s : sysfs) : option Z * sysfs :=
  if kmalloc_ok s then (Some (addr s), set_addr (addr s + 1) s) else (None, s).

(** [kobject_init_and_add]: a directory that could not be added has one reference
    and no parent. *)
Definition kobject_init_and_add (a : Z) (d : kobj_data) (p : Z) (s : sysfs) : res (Z * sysfs) :=
  let err := kobject_add s in
  if err =? 0 then
    o ← get_kobj p s;
    Ok (0, put_kobj a (Kobj 1 (Some p) d) (put_kobj p (Kobj (kref o + 1) (parent o) (data o)) s))
  else Ok (err, put_kobj a (Kobj 1 None d) s).

(** ** The directory of a target *)

Definition get_target_dir (a : Z) (s : sysfs) : res (option Z) :=
  o ← get_kobj a s;
  match data o with TargetDir t => Ok t | _ => Fault BadPointer end.

Definition set_target_dir (a : Z) (t : option Z) (s : sysfs) : res sysfs :=
  o ← get_kobj a s; Ok (put_kobj a (Kobj (kref o) (parent o) (TargetDir t)) s).

Definition demeter_sysfs_target_alloc (s : sysfs) : option Z * sysfs := alloc s.

Definition demeter_sysfs_target_running (a : Z) (s : sysfs) : res bool :=
  t ← get_target_dir a s;
  match t with
  | None => Ok false
  | Some t => pid ← target_pid t (kern s); Ok (negb (pid =? 0))
  end.

Definition demeter_sysfs_target_add_dirs (a : Z) : Z := 0.

Definition pid_show (a : Z) (s : sysfs) : res Z :=
  t ← get_target_dir a s;
  match t with None => Ok (-1) | Some t => target_pid t (kern s) end.

(** [pid_store] up to the end of [target_drop]: an error, or the lock is held. *)
Definition pid_store_drop (a : Z) (buf : option Z) (s : sysfs) : res (option Z * sysfs) :=
  match buf with
  | None => Ok (Some (- EINVAL), s)
  | Some pid =>
      if pid <? -1 then Ok (Some (- EINVAL), s)
      else match demeter_sysfs_lock s with
      | Some _ => Ok (Some (- EBUSY), s)
      | None =>
          t ← get_target_dir a s;
          k ← target_drop t (kern s);
          Ok (None, set_lock (Some (Dropped a pid)) (set_kern k s))
      end
  end.

(** The pointer is cleared; -1 is all then, otherwise the write sleeps. *)
Definition pid_store_clear (count a pid : Z) (s : sysfs) : res (option Z * sysfs) :=
  s ← set_target_dir a None s;
  if pid =? -1 then Ok (Some count, set_lock None s)
  else Ok (None, set_lock (Some (Sleeping a pid)) s).

(** The new target. *)
Definition pid_store_new (count a pid : Z) (s : sysfs) : res (Z * sysfs) :=
  '(t, k) ← target_new pid (kern s);
  let s := set_kern k s in
  match t with
  | inl e => Ok (e, set_lock None s)
  | inr t => s ← set_target_dir a (Some t) s; Ok (count, set_lock None s)
  end.

(** The pieces one after the other. *)
Definition pid_store (count a : Z) (buf : option Z) (s : sysfs) : res (Z * sysfs) :=
  '(r, s) ← pid_store_drop a buf s;
  match r, buf with
  | None, Some pid =>
      '(r, s) ← pid_store_clear count a pid s;
      match r with Some r => Ok (r, s) | None => pid_store_new count a pid s end
  | Some r, _ => Ok (r, s)
  | None, None => Fault BugOn
  end.

(** ** The directory of all targets *)

Definition get_targets_dir (d : Z) (s : sysfs) : res (option Z * Z) :=
  o ← get_kobj d s;
  match data o with TargetsDir arr nr => Ok (arr, nr) | _ => Fault BadPointer end.

Definition set_targets_dir (d : Z) (arr : option Z) (nr : Z) (s : sysfs) : res sysfs :=
  o ← get_kobj d s; Ok (put_kobj d (Kobj (kref o) (parent o) (TargetsDir arr nr)) s).

(** [targets[i]] *)
Definition get_slot (arr : option Z) (i : Z) (s : sysfs) : res Z :=
  p ← of_option BadPointer arr;
  l ← of_option BadPointer (arrays s !! p);
  o ← aread l i;
  of_option BadPointer o.

Definition set_slot (arr i a : Z) (s : sysfs) : res sysfs :=
  l ← of_option BadPointer (arrays s !! arr);
  l ← awrite l i (Some a);
  Ok (set_arrays (<[arr := l]> (arrays s)) s).

Fixpoint targets_busy (idxs : list Z) (arr : option Z) (s : sysfs) : res bool :=
  match idxs with
  | [] => Ok false
  | i :: idxs =>
      a ← get_slot arr i s;
      b ← demeter_sysfs_target_running a s;
      if (b : bool) then Ok true else targets_busy idxs arr s
  end.

Definition demeter_sysfs_targets_busy (arr : option Z) (nr : Z) (s : sysfs) : res bool :=
  targets_busy (seqZ 0 nr) arr s.

Definition demeter_sysfs_targets_rm_dirs (d : Z) (s : sysfs) : res sysfs :=
  '(arr, nr) ← get_targets_dir d s;
  s ← for_range 0 nr (fun i s => a ← get_slot arr i s; kobject_put a s) s;
  let s := match arr with Some p => set_arrays (delete p (arrays s)) s | None => s end in
  set_targets_dir d None 0 s.

(** The loop of [demeter_sysfs_targets_add_dirs]. *)
Fixpoint add_dirs (idxs : list Z) (d arr : Z) (s : sysfs) : res (Z * sysfs) :=
  match idxs with
  | [] => Ok (0, s)
  | i :: idxs =>
      let '(t, s) := demeter_sysfs_target_alloc s in
      match t with
      | None => s ← demeter_sysfs_targets_rm_dirs d s; Ok (- ENOMEM, s)
      | Some t =>
          '(err, s) ← kobject_init_and_add t (TargetDir None) d s;
          let err := if err =? 0 then demeter_sysfs_target_add_dirs t else err in
          if err =? 0 then
            s ← set_slot arr i t s;
            s ← set_targets_dir d (Some arr) (i + 1) s;
            add_dirs idxs d arr s
          else
            s ← demeter_sysfs_targets_rm_dirs d s;
            s ← kobject_put t s;
            Ok (err, s)
      end
  end.

(** A new array and its directories. *)
Definition new_dirs (d nr_targets : Z) (s : sysfs) : res (Z * sysfs) :=
  if nr_targets =? 0 then Ok (0, s)
  else
    let '(p, s) := alloc s in
    match p with
    | None => Ok (- ENOMEM, s)
    | Some p =>
        let s := set_arrays (<[p := replicate (Z.to_nat nr_targets) None]> (arrays s)) s in
        s ← set_targets_dir d (Some p) 0 s;
        add_dirs (seqZ 0 nr_targets) d p s
    end.

Definition demeter_sysfs_targets_add_dirs (d nr_targets : Z) (s : sysfs) : res (Z * sysfs) :=
  '(arr, nr) ← get_targets_dir d s;
  busy ← demeter_sysfs_targets_busy arr nr s;
  if (busy : bool) then Ok (- EBUSY, s)
  else s ← demeter_sysfs_targets_rm_dirs d s; new_dirs d nr_targets s.

Definition nr_targets_show (d : Z) (s : sysfs) : res Z := '(_, nr) ← get_targets_dir d s; Ok nr.

Definition nr_targets_store (count d : Z) (buf : option Z) (s : sysfs) : res (Z * sysfs) :=
  match buf with
  | None => Ok (- EINVAL, s)
  | Some nr =>
      if nr <? 0 then Ok (- EINVAL, s)
      else match demeter_sysfs_lock s with
      | Some _ => Ok (- EBUSY, s)
      | None =>
          '(err, s) ← demeter_sysfs_targets_add_dirs d nr s;
          Ok (if err =? 0 then count else err, s)
      end
  end.

(** ** The module *)

(** [kobject_create_and_add] under [mm_kobj]. *)
Definition kobject_create_and_add (s : sysfs) : option Z * sysfs :=
  let '(r, s) := alloc s in
  match r with
  | Some r => if kobject_add s =? 0 then (Some r, put_kobj r (Kobj 1 None RootDir) s) else (None, s)
  | None => (None, s)
  end.

Definition demeter_sysfs_init (s : sysfs) : res (Z * sysfs) :=
  let '(r, s) := kobject_create_and_add s in
  let s := set_root r s in
  match r with
  | None => Ok (- ENOMEM, s)
  | Some r =>
      let '(d, s) := alloc s in
      let s := set_tdir d s in
      d ← of_option BadPointer d;
      '(err, s) ← kobject_init_and_add d (TargetsDir None 0) r s;
      if err =? 0 then Ok (0, s)
      else
        s ← kobject_put d s;
        s ← kobject_put r s;
        Ok (err, s)
  end.

Definition demeter_sysfs_exit (s : sysfs) : res sysfs :=
  match demeter_sysfs_root s with
  | None => Ok s
  | Some r =>
      match demeter_sysfs_targets s with
      | None => kobject_put r s
      | Some d =>
          s ← demeter_sysfs_targets_rm_dirs d s;
          s ← kobject_put d s;
          kobject_put r s
      end
  end.

(** [init] and [exit] of the module; the parameters of the events do not matter
    here. *)
Definition init (s : sysfs) : res (Z * sysfs) :=
  if negb (kmalloc_ok s) then Ok (- ENOMEM, s)
  else demeter_sysfs_init (set_cache true s).

Definition exit (s : sysfs) : res sysfs :=
  s ← demeter_sysfs_exit s; Ok (set_cache false s).

(** ** What can happen while the module is loaded

    Writes and reads of the files, the throttling threads, and time.  A directory
    is removed only when no access to its files is under way. *)
Inductive sysfs_step : sysfs -> sysfs -> Prop :=
  | step_pid_store a t buf r s s' :
      get_target_dir a s = Ok t -> pid_store_drop a buf s = Ok (r, s') -> sysfs_step s s'
  | step_pid_clear count a pid r s s' :
      demeter_sysfs_lock s = Some (Dropped a pid) -> pid_store_clear count a pid s = Ok (r, s') -> sysfs_step s s'
  | step_pid_new count a pid r s s' :
      demeter_sysfs_lock s = Some (Sleeping a pid) -> pid_store_new count a pid s = Ok (r, s') -> sysfs_step s s'
  | step_nr_targets count d buf r s s' :
      demeter_sysfs_targets s = Some d -> nr_targets_store count d buf s = Ok (r, s') -> sysfs_step s s'
  | step_throttle t k s :
      worker_throttle t (kern s) = Ok k -> sysfs_step s (set_kern k s)
  | step_time d s :
      0 <= d -> now (kern s) + d < 2 ^ 64 - 1 -> sysfs_step s (set_kern (set_now (now (kern s) + d) (kern s)) s).
End sysfs.
