(* ===== verification/TargetProofs.v ===== *)
(** Lemmas on the life of a target: the throttling thread leaves the events of
    its target off whenever it is not in a pulse, stopping a target gives back
    all it holds, and creating one either succeeds or leaves only events
    behind. *)
From stdpp Require Import base numbers list gmap.
From Stdlib Require Import ZArith Lia.
From S2P Require Import Prelude Kernel Target.
Open Scope Z_scope.

(** ** Loops over the fields of a target *)

Section loops.
Context {A St : Type}.

Fixpoint foldM (f : A -> St -> res St) (l : list A) (s : St) : res St :=
  match l with [] => Ok s | x :: l => f x s ≫= foldM f l end.

Lemma for_n_fold (f : A -> St -> res St) pre l s :
  for_n (length l) (zlen pre) (fun i s => aread (pre ++ l) i ≫= fun x => f x s) s = foldM f l s.
Proof.
  revert pre s. induction l as [|x l IH]; intros pre s; [done|]. cbn [length for_n foldM].
  replace (aread (pre ++ x :: l) (zlen pre)) with (Ok x).
  - cbn [mbind res_bind]. destruct (f x s) as [s'|]; [|done]. cbn [mbind res_bind].
    specialize (IH (pre ++ [x]) s'). rewrite <- app_assoc, zlen_app in IH. exact IH.
  - symmetry. apply aread_Ok. split; [apply zlen_nonneg|]. unfold zlen.
    now rewrite Nat2Z.id, list_lookup_middle.
Qed.

Lemma foldM_ext (f g : A -> St -> res St) l s :
  (forall x s, f x s = g x s) -> foldM f l s = foldM g l s.
Proof.
  intros Hfg. revert s. induction l as [|x l IH]; intros s; [done|]. cbn. rewrite Hfg.
  destruct (g x s); [apply IH | done].
Qed.

(** A loop over the indices of an array is a loop over its elements. *)
Lemma for_fields (f : A -> St -> res St) N l s :
  N = zlen l -> for_range 0 N (fun i s => aread l i ≫= fun x => f x s) s = foldM f l s.
Proof.
  intros ->. unfold for_range, zlen. rewrite Z.sub_0_r, Nat2Z.id. exact (for_n_fold f [] l s).
Qed.
End loops.

(** The fields of a target of which the first [n] of [N] are filled in. *)
Definition upto (t n N : Z) : list (option obj) :=
  (fun i => if i <? n then Some (t, i) else None) <$> seqZ 0 N.

Definition named (t n : Z) : list obj := (fun i => (t, i)) <$> seqZ 0 n.

Lemma upto_len t n N : 0 <= N -> zlen (upto t n N) = N.
Proof. intros. unfold zlen, upto. rewrite length_fmap, length_seqZ. lia. Qed.

(** Only the fields that are filled in matter to a loop that skips the others. *)
Lemma fold_upto {St} (f : obj -> St -> res St) t n N s :
  0 <= n <= N ->
  foldM (fun o s => match o with Some x => f x s | None => Ok s end) (upto t n N) s = foldM f (named t n) s.
Proof.
  intros Hn. unfold upto, named.
  replace N with (n + (N - n)) by lia. rewrite seqZ_app, fmap_app by lia.
  replace ((fun i => if i <? n then Some (t, i) else None) <$> seqZ 0 n) with (Some <$> ((fun i => (t, i)) <$> seqZ 0 n)).
  2: { rewrite <- list_fmap_compose. apply list_fmap_ext. intros i x Hx. apply lookup_seqZ in Hx. cbn.
       destruct (Z.ltb_spec x n); [done|lia]. }
  generalize ((fun i => (t, i)) <$> seqZ 0 n) as l. intros l. revert s.
  induction l as [|x l IH]; intros s; cbn [fmap list_fmap app foldM].
  - set (m := seqZ (0 + n) (N - n)). assert (Hm : forall i, i ∈ m -> n <= i).
    { intros i Hi. apply elem_of_seqZ in Hi. lia. }
    clearbody m. induction m as [|i m IHm]; [done|]. cbn [fmap list_fmap foldM].
    destruct (Z.ltb_spec i n) as [Hi|_]; [specialize (Hm i ltac:(set_solver)); lia|].
    cbn [mbind res_bind]. apply IHm. set_solver.
  - destruct (f x s); [apply IH | done].
Qed.

(** A property of the state after [i] names carries over to the next. *)
Lemma fold_named {St} (f : obj -> St -> res St) (P : Z -> St -> Prop) t n s :
  0 <= n -> P 0 s ->
  (forall i s, 0 <= i < n -> P i s -> exists s', f (t, i) s = Ok s' /\ P (i + 1) s') ->
  exists s', foldM f (named t n) s = Ok s' /\ P n s'.
Proof.
  intros Hn H0 Hstep. unfold named.
  assert (Haux : forall m a s, (Z.of_nat m + a = n) -> 0 <= a -> P a s ->
    exists s', foldM f ((fun i => (t, i)) <$> seqZ a (Z.of_nat m)) s = Ok s' /\ P n s').
  { intros m. induction m as [|m IH]; intros a s' Ha Ha0 HP.
    - exists s'. replace n with a by lia. auto.
    - rewrite seqZ_cons by lia. cbn [fmap list_fmap foldM].
      destruct (Hstep a s') as (s1 & -> & H1); [lia|done|]. cbn [mbind res_bind].
      replace (Z.pred (Z.of_nat (S m))) with (Z.of_nat m) by lia.
      apply IH; [lia|lia|]. exact H1. }
  destruct (Haux (Z.to_nat n) 0 s) as (s' & Hs & HP); [lia|lia|done|].
  exists s'. rewrite Z2Nat.id in Hs by lia. auto.
Qed.

(** ** Targets in the making *)

(** A target with [c] channels, [w] threads and [e] events. *)
Definition made (t : Z) (v : option Z) (c w e st : Z) : target :=
  Target v (upto t c MAX_CHANS) (upto t w MAX_WORKERS) (upto t e MAX_EVENTS)
    (replicate (Z.to_nat MAX_STATS) 0) st.

Ltac small n := let H := fresh in
  assert (H : n = 0 \/ n = 1 \/ n = 2 \/ n = 3) by (unfold MAX_CHANS, MAX_WORKERS, MAX_EVENTS in *; lia);
  destruct H as [->|[->|[->| ->]]].

Lemma upto_next t n N : 0 <= n < N -> <[Z.to_nat n := Some (t, n)]> (upto t n N) = upto t (n + 1) N.
Proof.
  intros Hn. apply list_eq. intros j. unfold upto.
  destruct (decide (j = Z.to_nat n)) as [->|Hj].
  - rewrite list_lookup_insert_eq by (rewrite length_fmap, length_seqZ; lia).
    rewrite list_lookup_fmap, lookup_seqZ_lt by lia. cbn [fmap option_fmap option_map]. rewrite Z2Nat.id, Z.add_0_l by lia.
    destruct (Z.ltb_spec n (n + 1)); [done|lia].
  - rewrite list_lookup_insert_ne, !list_lookup_fmap by done.
    destruct (seqZ 0 N !! j) as [x|] eqn:Hx; [|done]. apply lookup_seqZ in Hx as [-> Hx]. cbn [fmap option_fmap option_map].
    destruct (Z.ltb_spec (0 + Z.of_nat j) n), (Z.ltb_spec (0 + Z.of_nat j) (n + 1)); try done; lia.
Qed.

Lemma made_zeroed t : zeroed_target = made t None 0 0 0 0.
Proof. reflexivity. Qed.

Lemma set_chan_made t v c w e st : 0 <= c < MAX_CHANS -> set_chan c (t, c) (made t v c w e st) = made t v (c + 1) w e st.
Proof. intros. unfold made, set_chan; cbn -[upto]. now rewrite upto_next. Qed.
Lemma set_worker_made t v c w e st : 0 <= w < MAX_WORKERS -> set_worker w (t, w) (made t v c w e st) = made t v c (w + 1) e st.
Proof. intros. unfold made, set_worker; cbn -[upto]. now rewrite upto_next. Qed.
Lemma set_event_made t v c w e st : 0 <= e < MAX_EVENTS -> set_event e (t, e) (made t v c w e st) = made t v c w (e + 1) st.
Proof. intros. unfold made, set_event; cbn -[upto]. now rewrite upto_next. Qed.

(** All the events of a target on or off. *)
Definition switch (t : Z) (on : bool) (p : gmap obj bool) : gmap obj bool :=
  map_imap (fun x b => Some (if decide (x.1 = t) then on else b)) p.

Lemma lookup_switch t on p x :
  switch t on p !! x = (fun b => if decide (x.1 = t) then on else b) <$> p !! x.
Proof. unfold switch. rewrite map_lookup_imap. by destruct (p !! x). Qed.

Lemma lookup_switch_own t on p i : switch t on p !! (t, i) = (fun _ => on) <$> p !! (t, i).
Proof. rewrite lookup_switch. apply option_fmap_ext. intros b. cbn [fst]. by rewrite decide_True. Qed.

Lemma lookup_switch_other t on p x : x.1 <> t -> switch t on p !! x = p !! x.
Proof.
  intros Hx. rewrite lookup_switch. transitivity (id <$> p !! x); [|by rewrite option_fmap_id].
  apply option_fmap_ext. intros b. by rewrite decide_False.
Qed.

(** An enabled event has a target with a channel for its samples. *)
Definition armed_ok (k : kernel) : Prop :=
  forall x, perf k !! x = Some true ->
    exists t, targets k !! x.1 = Some t /\ chans t !! 0%nat = Some (Some (x.1, 0)) /\ (x.1, 0) ∈ buffers k.

Lemma armed_handlers k : armed_ok k -> handlers_ok k.
Proof.
  intros Hk x [] Hx Ht; [|done]. destruct (Hk x Hx) as (t & H1 & H2 & H3).
  unfold target_events_overflow, get_target. rewrite H1. cbn [of_option mbind res_bind].
  replace (aread (chans t) CHAN_SAMPLE) with (Ok (Some (x.1, 0))) by (symmetry; apply aread_Ok; split; [done|exact H2]).
  cbn [of_option mbind res_bind]. now rewrite bool_decide_true.
Qed.

Lemma armed_irq k : armed_ok k -> irq k = Ok k.
Proof. intros ?%armed_handlers. unfold irq. by rewrite decide_True. Qed.

(** What the kernel holds for a target in the making. *)
Record has (t : Z) (v : option Z) (c w e st : Z) (k : kernel) : Prop := Has {
  has_target : targets k !! t = Some (made t v c w e st);
  has_ref : task_refs k !! t = v;
  has_buffers i : (t, i) ∈ buffers k <-> 0 <= i < c;
  has_perf i : is_Some (perf k !! (t, i)) <-> 0 <= i < e;
  has_chans : 0 <= c <= MAX_CHANS;
  has_workers : 0 <= w <= MAX_WORKERS;
  has_events : 0 <= e <= MAX_EVENTS;
  has_sampled : 0 < e -> 0 < c;
  has_armed : armed_ok k;
  has_time : 0 <= st <= now k /\ now k < 2 ^ 64 - 1 }.

Arguments has_target {t v c w e st k}.
Arguments has_ref {t v c w e st k}.
Arguments has_buffers {t v c w e st k}.
Arguments has_perf {t v c w e st k}.
Arguments has_chans {t v c w e st k}.
Arguments has_workers {t v c w e st k}.
Arguments has_events {t v c w e st k}.
Arguments has_sampled {t v c w e st k}.
Arguments has_armed {t v c w e st k}.
Arguments has_time {t v c w e st k}.

(** Two states that differ in what belongs to a target only, where its
    structure and channels are the same too. *)
Record beside (t : Z) (k k' : kernel) : Prop := Beside {
  be_now : now k' = now k;
  be_next : next k' = next k;
  be_targets : targets k' = targets k;
  be_refs : task_refs k' = task_refs k;
  be_buffers : buffers k' = buffers k;
  be_threads x : x.1 <> t -> threads k' !! x = threads k !! x;
  be_perf x : x.1 <> t -> perf k' !! x = perf k !! x }.

#[export] Instance beside_preorder t : PreOrder (beside t).
Proof.
  split.
  - intros k. split; reflexivity.
  - intros k1 k2 k3 H1 H2. split; intros; (etransitivity; [by apply H2 | by apply H1]).
Qed.

Lemma set_perf_perf k : set_perf (perf k) k = k.
Proof. by destruct k. Qed.

Lemma kernel_eq k k' :
  now k = now k' -> next k = next k' -> targets k = targets k' -> task_refs k = task_refs k' ->
  buffers k = buffers k' -> threads k = threads k' -> perf k = perf k' -> k = k'.
Proof. destruct k, k'; cbn; intros; by subst. Qed.

Section proofs.
Context `{E : TargetEnv} {L : TargetLaws E}.

(** Switching the events of a target. *)
Lemma events_enable_eq t v c w e st k on :
  has t v c w e st k -> target_events_enable t on k = Ok (set_perf (switch t on (perf k)) k).
Proof.
  intros H. unfold target_events_enable, get_target. rewrite (has_target H).
  cbn [of_option mbind res_bind].
  rewrite (for_fields (fun o k => match o with Some x => perf_event_set x on k | None => Ok k end)).
  2: { cbn [events made]. now rewrite upto_len. }
  cbn [events made]. rewrite fold_upto by apply (has_events H).
  destruct (fold_named (fun x k => perf_event_set x on k)
    (fun i k' => k' = set_perf (map_imap (fun x b => Some (if decide (x.1 = t /\ x.2 < i) then on else b)) (perf k)) k) t e k)
    as (k' & -> & ->).
  - apply (has_events H).
  - rewrite <- set_perf_perf at 1. f_equal. apply map_eq. intros x. rewrite map_lookup_imap.
    destruct (perf k !! x) as [b|] eqn:Hx; [|done]. cbn. destruct x as [t' i].
    case_decide as Hd; [|done]. cbn in Hd. destruct Hd as [? Hd]. subst t'.
    assert (Hi : is_Some (perf k !! (t, i))) by eauto. apply (has_perf H i) in Hi. lia.
  - intros i k' Hi ->. unfold perf_event_set. cbn [perf set_perf]. rewrite map_lookup_imap.
    destruct (proj2 (has_perf H i) Hi) as [b Hb]. rewrite Hb. cbn.
    eexists. split; [done|]. unfold set_perf; cbn. f_equal. apply map_eq. intros x.
    destruct (decide (x = (t, i))) as [->|Hx].
    + rewrite lookup_insert_eq, map_lookup_imap, Hb. cbn. rewrite decide_True; [done|lia].
    + rewrite lookup_insert_ne, !map_lookup_imap by done. destruct (perf k !! x); [|done]. cbn. f_equal.
      destruct x as [t' j]; cbn in *. repeat case_decide; try done; exfalso; naive_solver (f_equal; lia).
  - do 2 f_equal. apply map_eq. intros x. rewrite map_lookup_imap, lookup_switch.
    destruct (perf k !! x) as [b|] eqn:Hx; [|done]. cbn. f_equal. destruct x as [t' i]. cbn.
    case_decide as Hd; case_decide; try done; [naive_solver|]. destruct Hd. subst t'. split; [done|].
    apply (has_perf H i). by eauto.
Qed.

Lemma made_sample t v c w e st : 0 < c -> chans (made t v c w e st) !! 0%nat = Some (Some (t, 0)).
Proof. intros Hc. cbn. destruct c; [lia| |lia]. done. Qed.

(** The samples of a target in the making have a channel. *)
Lemma has_armed_own t v c w e st k p :
  has t v c w e st k ->
  (forall x, p !! x = Some true -> x.1 = t /\ is_Some (perf k !! x) \/ x.1 <> t /\ perf k !! x = Some true) ->
  armed_ok (set_perf p k).
Proof.
  intros H Hp x Hx. cbn in *. destruct (Hp x Hx) as [[Ht Hs]|[_ Hs]].
  - destruct x as [t' i]. cbn in *. subst t'. apply (has_perf H) in Hs.
    assert (Hc : 0 < c) by (apply (has_sampled H); lia).
    eexists. split; [exact (has_target H)|]. split; [by apply made_sample|]. apply (has_buffers H). lia.
  - by apply (has_armed H).
Qed.

(** Off, unless the throttling thread is in a pulse. *)
Definition quiet (t : Z) (k : kernel) : Prop :=
  threads k !! (t, WORKER_THROTTLE) <> Some Pulse -> forall i b, perf k !! (t, i) = Some b -> b = false.

Lemma beside_switch t on k : beside t k (set_perf (switch t on (perf k)) k).
Proof.
  split; try done. intros x Hx. by apply lookup_switch_other.
Qed.

Lemma beside_set_pc t p k : beside t k (set_pc t p k).
Proof. split; try done. intros x Hx. cbn. apply lookup_insert_ne. intros <-. done. Qed.

Lemma has_switch t v c w e st k on : has t v c w e st k -> has t v c w e st (set_perf (switch t on (perf k)) k).
Proof.
  intros H. split; try apply H.
  - intros i. cbn. rewrite lookup_switch, fmap_is_Some. apply (has_perf H).
  - apply (has_armed_own t v c w e st k); [done|]. intros x Hx. rewrite lookup_switch in Hx.
    destruct (perf k !! x) as [b|] eqn:Hb; [|done]. cbn in Hx. case_decide; [left; eauto | right; naive_solver].
Qed.

Lemma has_set_pc t v c w e st k p :
  has t v c w e st k -> has t v c w e st (set_pc t p k).
Proof. intros H. split; apply H. Qed.

Lemma dom_set_pc t p k :
  is_Some (threads k !! (t, WORKER_THROTTLE)) -> dom (threads (set_pc t p k)) = dom (threads k).
Proof. intros Hp. cbn. rewrite dom_insert_L. apply elem_of_dom in Hp. set_solver. Qed.

Lemma quiet_off t k p : quiet t (set_pc t p (set_perf (switch t false (perf k)) k)).
Proof.
  intros _ i b Hb. cbn in Hb. rewrite lookup_switch_own in Hb. destruct (perf k !! (t, i)); [|done]. by injection Hb.
Qed.

(** One step of the throttling thread. *)
Lemma worker_throttle_spec t v c w e st k :
  has t v c w e st k ->
  exists k', worker_throttle t k = Ok k' /\ beside t k k' /\ dom (threads k') = dom (threads k) /\
    has t v c w e st k' /\ (quiet t k -> quiet t k').
Proof.
  intros H. unfold worker_throttle.
  destruct (threads k !! (t, WORKER_THROTTLE)) as [p|] eqn:Hp; [|by exists k].
  assert (Hs : is_Some (threads k !! (t, WORKER_THROTTLE))) by eauto. destruct p.
  - pose proof throttle_pulse as Hw. destruct (Z.eqb_spec throttle_period 0), (Z.leb_spec throttle_period throttle_width); try lia.
    eexists. split; [done|]. split; [apply beside_set_pc|]. split; [by apply dom_set_pc|]. split; [by apply has_set_pc|].
    intros Hq _. apply Hq. rewrite Hp. done.
  - destruct (throttle_width =? 0); [by exists k|]. rewrite (events_enable_eq t v c w e st) by done.
    eexists. split; [done|]. split; [etransitivity; [apply beside_switch|apply beside_set_pc]|].
    split; [by apply (dom_set_pc t _ (set_perf _ k))|]. split; [by apply has_set_pc, has_switch|].
    intros _ Hq. cbn in Hq. rewrite lookup_insert_eq in Hq. done.
  - rewrite (events_enable_eq t v c w e st) by done.
    eexists. split; [done|]. split; [etransitivity; [apply beside_switch|apply beside_set_pc]|].
    split; [by apply (dom_set_pc t _ (set_perf _ k))|]. split; [by apply has_set_pc, has_switch|]. intros _. apply quiet_off.
  - eexists. split; [done|]. split; [apply beside_set_pc|]. split; [by apply dom_set_pc|]. split; [by apply has_set_pc|].
    intros Hq _. apply Hq. rewrite Hp. done.
Qed.

Lemma throttle_run_spec n t v c w e st k :
  has t v c w e st k ->
  exists k', throttle_run n t k = Ok k' /\ beside t k k' /\ dom (threads k') = dom (threads k) /\
    has t v c w e st k' /\ (quiet t k -> quiet t k').
Proof.
  revert k. induction n as [|n IH]; intros k H; [by exists k|]. cbn [throttle_run].
  destruct (worker_throttle_spec t v c w e st k H) as (k1 & -> & Hb1 & Hd1 & H1 & Hq1). cbn [mbind res_bind].
  destruct (IH k1 H1) as (k2 & -> & Hb2 & Hd2 & H2 & Hq2). exists k2. split; [done|]. split; [by etransitivity|]. split; [congruence|]. auto.
Qed.
(** ** Stopping a target *)

(** The state without what belongs to a target; its events stay, disabled. *)
Definition released (t : Z) (k : kernel) : kernel :=
  Kern (now k) (next k) (delete t (targets k)) (delete t (task_refs k))
    (filter (fun x => x.1 <> t) (buffers k)) (filter (fun p => p.1.1 <> t) (threads k)) (switch t false (perf k)).

(** The threads of the target from [j] on are there. *)
Definition alive (t j w : Z) (k : kernel) : Prop :=
  forall i, is_Some (threads k !! (t, i)) <-> j <= i < w.

Lemma alive_dom t j w k k' : dom (threads k') = dom (threads k) -> alive t j w k -> alive t j w k'.
Proof. intros Hd Ha i. rewrite <- elem_of_dom, Hd, elem_of_dom. apply Ha. Qed.

Lemma throttle_finish_spec t v c w e st k :
  has t v c w e st k ->
  exists k', throttle_finish t k = Ok k' /\ beside t k k' /\ threads k' = threads k /\ has t v c w e st k' /\
    (quiet t k -> forall i b, perf k' !! (t, i) = Some b -> b = false).
Proof.
  intros H. unfold throttle_finish. case_decide as Hp.
  - rewrite (events_enable_eq t v c w e st) by done. eexists. split; [done|]. split; [apply beside_switch|].
    split; [done|]. split; [by apply has_switch|]. intros _ i b Hb. cbn in Hb. rewrite lookup_switch_own in Hb.
    destruct (perf k !! (t, i)); [|done]. by injection Hb.
  - exists k. split; [done|]. split; [reflexivity|]. split; [done|]. split; [done|]. intros Hq. by apply Hq.
Qed.

Lemma drop_worker_spec t v c w e st j k :
  has t v c w e st k -> is_Some (threads k !! (t, j)) -> quiet t k ->
  exists k', drop_worker t (Some (t, j)) k = Ok k' /\ beside t k k' /\ has t v c w e st k' /\
    dom (threads k') = dom (threads k) ∖ {[(t, j)]} /\ quiet t k'.
Proof.
  intros H Hs Hq. cbn [drop_worker].
  destruct (throttle_run_spec (throttle_steps k) t v c w e st k H) as (k1 & -> & Hb1 & Hd1 & H1 & Hq1).
  cbn [mbind res_bind]. specialize (Hq1 Hq). rewrite <- elem_of_dom, <- Hd1, elem_of_dom in Hs. unfold kthread_stop.
  destruct Hs as [p Hp]. rewrite Hp. cbn [of_option mbind res_bind fst snd].
  assert (exists k2, (if j =? WORKER_THROTTLE then throttle_finish t k1 else Ok k1) = Ok k2 /\ beside t k1 k2 /\
    threads k2 = threads k1 /\ has t v c w e st k2 /\ quiet t (set_threads (delete (t, j) (threads k2)) k2))
    as (k2 & -> & Hb2 & Ht2 & H2 & Hq2).
  { destruct (Z.eqb_spec j WORKER_THROTTLE) as [->|Hne].
    - destruct (throttle_finish_spec t v c w e st k1 H1) as (k2 & -> & Hb2 & Ht2 & H2 & Hq2).
      exists k2. split; [done|]. split; [done|]. split; [done|]. split; [done|]. intros _. by apply Hq2.
    - exists k1. split; [done|]. split; [reflexivity|]. split; [done|]. split; [done|]. intros Hn. apply Hq1.
      cbn in Hn. rewrite lookup_delete_ne in Hn by congruence. done. }
  cbn [mbind res_bind]. eexists. split; [apply armed_irq, H2|]. split; [|split; [split; apply H2|split; [|done]]].
  - transitivity k1; [done|]. transitivity k2; [done|]. split; try done.
    intros x Hx. cbn. rewrite lookup_delete_ne; [done|]. intros <-. done.
  - cbn. by rewrite dom_delete_L, Ht2, Hd1.
Qed.

Lemma alive_next t j w k k' :
  alive t j w k -> dom (threads k') = dom (threads k) ∖ {[(t, j)]} -> alive t (j + 1) w k'.
Proof.
  intros Ha Hd i. rewrite <- elem_of_dom, Hd, elem_of_difference, elem_of_singleton, elem_of_dom, (Ha i).
  split; [intros [? Hn]; assert (i <> j) by congruence; lia|intros ?; split; [lia|intros [=]; lia]].
Qed.

(** Stopping fails on a thread that has already left. *)
Lemma drop_worker_gone t v c w e st j k :
  has t v c w e st k -> threads k !! (t, j) = None -> drop_worker t (Some (t, j)) k = Fault BadPointer.
Proof.
  intros H Hn. cbn [drop_worker].
  destruct (throttle_run_spec (throttle_steps k) t v c w e st k H) as (k1 & -> & _ & Hd1 & _). cbn [mbind res_bind].
  unfold kthread_stop. replace (threads k1 !! (t, j)) with (@None pc); [done|]. symmetry. apply not_elem_of_dom.
  by rewrite Hd1, not_elem_of_dom.
Qed.

Lemma drop_chans_spec t v c w e st k :
  has t v c w e st k -> (forall i b, perf k !! (t, i) = Some b -> b = false) ->
  foldM (fun ch k => mpsc_drop ch k ≫= irq) (named t c) k = Ok (set_buffers (filter (fun x => x.1 <> t) (buffers k)) k).
Proof.
  intros H Hoff.
  destruct (fold_named (fun ch k => mpsc_drop ch k ≫= irq)
    (fun j k' => exists B, k' = set_buffers B k /\ forall x, x ∈ B <-> x ∈ buffers k /\ ~ (x.1 = t /\ x.2 < j)) t c k)
    as (k' & -> & B & -> & HB).
  - apply (has_chans H).
  - exists (buffers k). split; [by destruct k|]. intros [t' i]. cbn. split; [|by intros []]. intros Hx. split; [done|].
    intros [-> Hi]. apply (has_buffers H) in Hx. lia.
  - intros j k' Hj (B & -> & HB). unfold mpsc_drop. cbn [buffers set_buffers].
    rewrite decide_True. 2: { apply HB. cbn. split; [by apply (has_buffers H)|lia]. }
    cbn [mbind res_bind]. eexists. split.
    + apply armed_irq. intros x Hx. cbn in *. destruct (has_armed H x Hx) as (u & H1 & H2 & H3).
      exists u. split; [done|]. split; [done|]. assert (x.1 <> t).
      { intros <-. destruct x as [a b]. specialize (Hoff b true Hx). done. }
      apply elem_of_difference. split; [|set_solver]. apply HB. cbn. naive_solver.
    + eexists. split; [done|]. intros [a b]. rewrite elem_of_difference, HB, elem_of_singleton. cbn.
      split; [|naive_solver lia]. intros [[Hin Hn] Hne]. split; [done|]. intros [-> Hb]. apply Hne. f_equal. lia.
  - do 2 f_equal. apply set_eq. intros [a b]. rewrite HB, elem_of_filter. cbn. split; [|naive_solver].
    intros [Hin Hn]. split; [|done]. intros ->. apply Hn. split; [done|]. by apply (has_buffers H) in Hin as [].
Qed.

(** The threads stop in the order of their numbers. *)
Lemma stop_workers_spec t v c w e st k :
  has t v c w e st k -> alive t 0 w k -> quiet t k ->
  exists k', for_range 0 MAX_WORKERS (fun i k => o ← aread (workers (made t v c w e st)) i; drop_worker t o k) k = Ok k' /\
    beside t k k' /\ has t v c w e st k' /\ (forall i, threads k' !! (t, i) = None) /\
    (forall i b, perf k' !! (t, i) = Some b -> b = false).
Proof.
  intros H Ha Hq. rewrite (for_fields (drop_worker t)) by (cbn [workers made]; now rewrite upto_len).
  cbn [workers made].
  rewrite (foldM_ext _ (fun o k => match o with Some x => drop_worker t (Some x) k | None => Ok k end)) by by intros [].
  rewrite (fold_upto (fun x => drop_worker t (Some x))) by apply (has_workers H).
  destruct (fold_named (fun x => drop_worker t (Some x))
    (fun j k' => beside t k k' /\ has t v c w e st k' /\ alive t j w k' /\ quiet t k') t w k)
    as (k1 & -> & Hb1 & H1 & Ha1 & Hq1).
  - apply (has_workers H).
  - split; [reflexivity|]. auto.
  - intros j k' Hj (Hb' & H' & Ha' & Hq').
    destruct (drop_worker_spec t v c w e st j k') as (k2 & -> & Hb2 & H2 & Hd2 & Hq2); [done|apply Ha'; lia|done|].
    exists k2. split; [done|]. split; [by etransitivity|]. split; [done|]. split; [by apply (alive_next _ _ _ k')|done].
  - assert (Hgone : forall i, threads k1 !! (t, i) = None).
    { intros i. apply eq_None_not_Some. rewrite (Ha1 i). lia. }
    exists k1. split; [done|]. split; [done|]. split; [done|]. split; [done|]. apply Hq1. by rewrite Hgone.
Qed.

Lemma quiet_switch t k : quiet t (set_perf (switch t false (perf k)) k).
Proof.
  intros _ i b Hb. cbn in Hb. rewrite lookup_switch_own in Hb. destruct (perf k !! (t, i)); [|done]. by injection Hb.
Qed.

(** What is left of the state once the threads are gone. *)
Lemma released_eq t v c w e st k k1 :
  has t v c w e st k -> has t v c w e st k1 -> beside t k k1 ->
  (forall i, threads k1 !! (t, i) = None) -> (forall i b, perf k1 !! (t, i) = Some b -> b = false) ->
  released t k = Kern (now k1) (next k1) (delete t (targets k1)) (delete t (task_refs k1))
    (filter (fun x => x.1 <> t) (buffers k1)) (threads k1) (perf k1).
Proof.
  intros H H1 Hb Hgone Hoff. apply kernel_eq; cbn; try (by rewrite (be_now _ _ _ Hb)); try (by rewrite (be_next _ _ _ Hb));
    try (by rewrite (be_targets _ _ _ Hb)); try (by rewrite (be_refs _ _ _ Hb)); try (by rewrite (be_buffers _ _ _ Hb)).
  - apply map_eq. intros x. destruct (decide (x.1 = t)) as [<-|Hx].
    + destruct x as [a b]. cbn in *. rewrite Hgone. apply map_lookup_filter_None. right. cbn. naive_solver.
    + rewrite (be_threads _ _ _ Hb) by done. rewrite map_lookup_filter. destruct (threads k !! x); [|done].
      cbn. by rewrite option_guard_True.
  - apply map_eq. intros [a b]. destruct (decide (a = t)) as [->|Hx].
    + rewrite lookup_switch_own. destruct (perf k1 !! (t, b)) as [o|] eqn:Ho.
      * rewrite (Hoff b o Ho). assert (Hs : is_Some (perf k1 !! (t, b))) by eauto.
        by apply (has_perf H1), (has_perf H) in Hs as [y ->].
      * destruct (perf k !! (t, b)) as [y|] eqn:Hy; [|done]. assert (Hs : is_Some (perf k !! (t, b))) by eauto.
        apply (has_perf H), (has_perf H1) in Hs as [z Hz]. congruence.
    + by rewrite lookup_switch_other, (be_perf _ _ _ Hb).
Qed.

Lemma armed_released t v c w e st k : has t v c w e st k -> armed_ok (released t k).
Proof.
  intros H x Hx. cbn in *. rewrite lookup_switch in Hx. destruct (perf k !! x) as [b|] eqn:Hb; [|done].
  cbn in Hx. case_decide as Ht; [done|]. injection Hx as ->. destruct (has_armed H x Hb) as (u & H1 & H2 & H3).
  exists u. rewrite lookup_delete_ne by done. split; [done|]. split; [done|]. by apply elem_of_filter.
Qed.

(** Stopping a target that holds the first of its channels, threads and events
    gives back exactly those, wherever the throttling thread is. *)
Lemma target_drop_eq t v c w e st k :
  has t v c w e st k -> alive t 0 w k -> target_drop (Some t) k = Ok (released t k).
Proof.
  intros H Ha. cbn [target_drop]. unfold get_target. rewrite (has_target H). cbn [of_option mbind res_bind].
  unfold permyriad. cbn [start_time made stats].
  assert (Hel : (u64 (now k - st + 1) =? 0) = false).
  { destruct (has_time H). apply Z.eqb_neq. rewrite u64_small; unfold is_u64; lia. }
  rewrite Hel. cbn [negb check mbind res_bind]. rewrite (events_enable_eq t v c w e st) by done.
  cbn [mbind res_bind]. set (k0 := set_perf _ _). assert (H0 : has t v c w e st k0) by by apply has_switch.
  rewrite armed_irq by apply (has_armed H0). cbn [mbind res_bind].
  destruct (stop_workers_spec t v c w e st k0) as (k1 & -> & Hb1 & H1 & Hgone & Hoff); [done|done|apply quiet_switch|].
  cbn [mbind res_bind]. assert (Hb : beside t k k1) by (transitivity k0; [apply beside_switch|done]).
  rewrite (for_fields drop_chan) by (cbn [chans made]; now rewrite upto_len). cbn [chans made].
  rewrite (foldM_ext _ (fun o k => match o with Some x => mpsc_drop x k ≫= irq | None => Ok k end)) by by intros [].
  rewrite (fold_upto (fun ch k => mpsc_drop ch k ≫= irq)) by apply (has_chans H).
  rewrite (drop_chans_spec t v c w e st) by done. cbn [mbind res_bind victim made].
  assert (Hput : (match v with Some _ => put_task_struct t (set_buffers (filter (fun x => x.1 <> t) (buffers k1)) k1)
     | None => Ok (set_buffers (filter (fun x => x.1 <> t) (buffers k1)) k1) end)
     = Ok (set_task_refs (delete t (task_refs k1)) (set_buffers (filter (fun x => x.1 <> t) (buffers k1)) k1))).
  { pose proof (has_ref H1) as Hr. unfold put_task_struct. cbn [task_refs set_buffers]. destruct v; rewrite ?Hr; [done|].
    rewrite delete_id by done. by destruct k1. }
  rewrite Hput. cbn [mbind res_bind]. unfold kfree_target, get_target. cbn [targets set_task_refs set_buffers].
  rewrite (has_target H1). cbn [of_option mbind res_bind]. rewrite armed_irq.
  - f_equal. symmetry. by apply (released_eq t v c w e st k k1).
  - pose proof (armed_released t v c w e st k H) as Har. by rewrite (released_eq t v c w e st k k1) in Har.
Qed.
(** A target whose policy thread has left cannot be stopped. *)
Lemma target_drop_gone t v c w e st k :
  has t v c w e st k -> w = MAX_WORKERS -> is_Some (threads k !! (t, WORKER_MAIN)) ->
  is_Some (threads k !! (t, WORKER_THROTTLE)) -> threads k !! (t, WORKER_POLICY) = None ->
  target_drop (Some t) k = Fault BadPointer.
Proof.
  intros H -> Hm Ht Hp. cbn [target_drop]. unfold get_target. rewrite (has_target H). cbn [of_option mbind res_bind].
  unfold permyriad. cbn [start_time made stats].
  assert (Hel : (u64 (now k - st + 1) =? 0) = false).
  { destruct (has_time H). apply Z.eqb_neq. rewrite u64_small; unfold is_u64; lia. }
  rewrite Hel. cbn [negb check mbind res_bind]. rewrite (events_enable_eq t v c MAX_WORKERS e st) by done.
  cbn [mbind res_bind]. set (k0 := set_perf _ _). assert (H0 : has t v c MAX_WORKERS e st k0) by by apply has_switch.
  rewrite armed_irq by apply (has_armed H0). cbn [mbind res_bind].
  rewrite (for_fields (drop_worker t)) by (cbn [workers made]; now rewrite upto_len). cbn [workers made].
  change (upto t MAX_WORKERS MAX_WORKERS) with [Some (t, 0); Some (t, 1); Some (t, 2); Some (t, 3)]. cbn [foldM].
  destruct (drop_worker_spec t v c MAX_WORKERS e st 0 k0) as (k1 & -> & Hb1 & H1 & Hd1 & Hq1); [done|done|apply quiet_switch|].
  cbn [mbind res_bind]. destruct (drop_worker_spec t v c MAX_WORKERS e st 1 k1) as (k2 & -> & Hb2 & H2 & Hd2 & Hq2); [done| |done|].
  { apply elem_of_dom. rewrite Hd1. apply elem_of_dom in Ht. apply elem_of_difference. split; [done|]. set_solver. }
  cbn [mbind res_bind]. rewrite (drop_worker_gone t v c MAX_WORKERS e st 2 k2); [done|done|].
  apply not_elem_of_dom. rewrite Hd2, Hd1. apply not_elem_of_dom in Hp. set_solver.
Qed.

(** ** Creating a target *)

(** Nothing is named after a target that is not there yet. *)
Definition fresh (k : kernel) : Prop :=
  forall t, next k <= t -> targets k !! t = None /\ task_refs k !! t = None /\
    forall i, (t, i) ∉ buffers k /\ threads k !! (t, i) = None /\ perf k !! (t, i) = None.

(** A state in which something was added for the target [t] only. *)
Record grown (t : Z) (k k' : kernel) : Prop := Grown {
  gr_now : now k' = now k;
  gr_next : next k' = t + 1;
  gr_targets a : a <> t -> targets k' !! a = targets k !! a;
  gr_refs a : a <> t -> task_refs k' !! a = task_refs k !! a;
  gr_buffers x : x.1 <> t -> x ∈ buffers k' <-> x ∈ buffers k;
  gr_threads x : x.1 <> t -> threads k' !! x = threads k !! x;
  gr_perf x : x.1 <> t -> perf k' !! x = perf k !! x }.

Lemma grown_beside t k k1 k2 : grown t k k1 -> beside t k1 k2 -> grown t k k2.
Proof.
  intros Hg Hb. split; intros; rewrite ?(be_now _ _ _ Hb), ?(be_next _ _ _ Hb), ?(be_targets _ _ _ Hb),
    ?(be_refs _ _ _ Hb), ?(be_buffers _ _ _ Hb), ?(be_threads _ _ _ Hb), ?(be_perf _ _ _ Hb) by done; by apply Hg.
Qed.

(** Events left behind, disabled. *)
Definition leak (t e : Z) (p : gmap obj bool) : gmap obj bool := foldr (fun x => insert x false) p (named t e).

Lemma lookup_leak t e p x :
  leak t e p !! x = if decide (x ∈ named t e) then Some false else p !! x.
Proof.
  unfold leak. induction (named t e) as [|y l IH]; cbn.
  - rewrite decide_False by set_solver. done.
  - destruct (decide (x = y)) as [->|Hx]; [rewrite lookup_insert_eq, decide_True by set_solver; done|].
    rewrite lookup_insert_ne, IH by done. repeat case_decide; set_solver.
Qed.

Lemma elem_named t n x : x ∈ named t n <-> x.1 = t /\ 0 <= x.2 < n.
Proof.
  unfold named. rewrite list_elem_of_fmap. destruct x as [a b]. cbn. split.
  - intros (i & [= -> ->] & Hi). apply elem_of_seqZ in Hi. lia.
  - intros [-> Hb]. exists b. rewrite elem_of_seqZ. split; [done|lia].
Qed.

Definition leaked (e : Z) (k : kernel) : kernel :=
  Kern (now k) (next k + 1) (targets k) (task_refs k) (buffers k) (threads k) (leak (next k) e (perf k)).

(** What was added for a target is taken away again. *)
Lemma released_leaked v c w e st k k' :
  fresh k -> grown (next k) k k' -> has (next k) v c w e st k' -> released (next k) k' = leaked e k.
Proof.
  intros Hf Hg H. destruct (Hf (next k)) as (Hft & Hfr & Hfi); [lia|].
  apply kernel_eq; cbn; [by apply Hg..| | | | |].
  - apply map_eq. intros a. destruct (decide (a = next k)) as [->|Ha].
    + by rewrite lookup_delete_eq.
    + rewrite lookup_delete_ne by done. by apply Hg.
  - apply map_eq. intros a. destruct (decide (a = next k)) as [->|Ha].
    + by rewrite lookup_delete_eq.
    + rewrite lookup_delete_ne by done. by apply Hg.
  - apply set_eq. intros x. rewrite elem_of_filter. destruct (decide (x.1 = next k)) as [Hx|Hx].
    + destruct x as [a b]. cbn in Hx. subst a. split; [by intros []|]. by intros ?%(proj1 (Hfi b)).
    + rewrite (gr_buffers _ _ _ Hg) by done. naive_solver.
  - apply map_eq. intros x. destruct (decide (x.1 = next k)) as [Hx|Hx].
    + destruct x as [a b]. cbn in Hx. subst a. destruct (Hfi b) as (_ & -> & _). apply map_lookup_filter_None. right.
      cbn. naive_solver.
    + rewrite <- (gr_threads _ _ _ Hg) by done. rewrite map_lookup_filter. destruct (threads k' !! x); [|done].
      cbn. by rewrite option_guard_True.
  - apply map_eq. intros x. rewrite lookup_leak. destruct (decide (x.1 = next k)) as [Hx|Hx].
    + destruct x as [a b]. cbn in Hx. subst a. destruct (Hfi b) as (_ & _ & ->). rewrite lookup_switch_own.
      pose proof (has_perf H b) as Hp. case_decide as Hd; rewrite elem_named in Hd; cbn in Hd.
      * destruct Hd as [_ Hd]. apply Hp in Hd as [y ->]. done.
      * destruct (perf k' !! (next k, b)) as [y|] eqn:Hy; [|done]. exfalso. apply Hd. split; [done|]. apply Hp. eauto.
    + rewrite lookup_switch_other, (gr_perf _ _ _ Hg), decide_False by (rewrite ?elem_named; naive_solver). done.
Qed.
(** A target in the making, on top of a state [k]. *)
Definition building (k : kernel) (v : option Z) (c w e : Z) (k' : kernel) : Prop :=
  has (next k) v c w e 0 k' /\ alive (next k) 0 w k' /\ grown (next k) k k'.

Lemma building_drop k v c w e k' :
  fresh k -> building k v c w e k' -> target_drop (Some (next k)) k' = Ok (leaked e k).
Proof.
  intros Hf (H & Ha & Hg). rewrite (target_drop_eq _ v c w e 0) by done. f_equal. by apply (released_leaked v c w e 0).
Qed.

(** Changing a target that has no event yet. *)
Lemma armed_grow t k1 k2 :
  armed_ok k1 -> perf k2 = perf k1 -> (forall i, perf k1 !! (t, i) = None) ->
  (forall a, a <> t -> targets k2 !! a = targets k1 !! a) -> (forall x, x.1 <> t -> x ∈ buffers k1 -> x ∈ buffers k2) ->
  armed_ok k2.
Proof.
  intros Hk Hp Hn Ht Hb x Hx. rewrite Hp in Hx. destruct (Hk x Hx) as (u & H1 & H2 & H3). exists u.
  assert (x.1 <> t) by (destruct x as [a b]; cbn; intros ->; rewrite Hn in Hx; done).
  rewrite Ht by done. auto.
Qed.

Lemma no_events t v c w st k : has t v c w 0 st k -> forall i, perf k !! (t, i) = None.
Proof. intros H i. apply eq_None_not_Some. rewrite (has_perf H i). lia. Qed.

Lemma building_chan k v c k' :
  0 <= c < MAX_CHANS -> building k v c 0 0 k' ->
  building k v (c + 1) 0 0 (upd_target (next k) (set_chan c (next k, c)) (set_buffers ({[(next k, c)]} ∪ buffers k') k')).
Proof.
  intros Hc (H & Ha & Hg). split; [|split; [done|]]; split; try apply H; try apply Hg; cbn; try lia.
  - rewrite lookup_alter_eq, (has_target H). cbn [fmap option_fmap option_map]. by rewrite set_chan_made.
  - intros i. rewrite elem_of_union, elem_of_singleton, (has_buffers H i). split.
    + intros [[= ->]|?]; lia.
    + intros Hi. destruct (decide (i = c)) as [->|]; [auto|right; lia].
  - apply (armed_grow (next k) k'); cbn; [apply H|done|by apply (no_events _ v c 0 0)|by intros; rewrite lookup_alter_ne|set_solver].
  - intros a Hne. rewrite lookup_alter_ne by done. by apply Hg.
  - intros x Hx. rewrite <- (gr_buffers _ _ _ Hg x Hx). destruct x. set_solver.
Qed.

Lemma building_worker k v w k' :
  0 <= w < MAX_WORKERS -> building k v MAX_CHANS w 0 k' ->
  building k v MAX_CHANS (w + 1) 0
    (upd_target (next k) (set_worker w (next k, w)) (set_threads (<[(next k, w) := Start]> (threads k')) k')).
Proof.
  intros Hw (H & Ha & Hg). split; [|split]; [split|intros i|split]; try apply H; try apply Hg; cbn; try lia.
  - rewrite lookup_alter_eq, (has_target H). cbn [fmap option_fmap option_map]. by rewrite set_worker_made.
  - apply (armed_grow (next k) k'); cbn; [apply H|done|by apply (no_events _ v MAX_CHANS w 0)|by intros; rewrite lookup_alter_ne|done].
  - destruct (decide (i = w)) as [->|Hi].
    + rewrite lookup_insert_eq. split; [lia|by eauto].
    + rewrite lookup_insert_ne by congruence. rewrite (Ha i). lia.
  - intros a Hne. rewrite lookup_alter_ne by done. by apply Hg.
  - intros x Hx. rewrite lookup_insert_ne by (intros <-; done). by apply Hg.
Qed.

Lemma new_chans_spec k v k' :
  fresh k -> building k v 0 0 0 k' ->
  exists r k'', new_chans (seqZ 0 MAX_CHANS) (next k) k' = Ok (r, k'') /\
    match r with Some x => x = - ENOMEM /\ k'' = leaked 0 k | None => building k v MAX_CHANS 0 0 k'' end.
Proof.
  intros Hf. assert (Haux : forall m c k', Z.of_nat m + c = MAX_CHANS -> 0 <= c -> building k v c 0 0 k' ->
    exists r k'', new_chans (seqZ c (Z.of_nat m)) (next k) k' = Ok (r, k'') /\
    match r with Some x => x = - ENOMEM /\ k'' = leaked 0 k | None => building k v MAX_CHANS 0 0 k'' end).
  { intros m. induction m as [|m IH]; intros c k1 Hm Hc Hb.
    - eexists None, _. split; [done|]. by replace MAX_CHANS with c by lia.
    - rewrite seqZ_cons by lia. cbn [new_chans]. destruct (ring_buffer_alloc_ok k1).
      + replace (Z.pred (Z.of_nat (S m))) with (Z.of_nat m) by lia. apply IH; [lia|lia|].
        apply building_chan; [lia|done].
      + rewrite (building_drop k v c 0 0) by done. eexists (Some _), _. auto. }
  intros Hb. by apply (Haux 4%nat 0).
Qed.

Lemma new_workers_spec k v k' :
  fresh k -> building k v MAX_CHANS 0 0 k' ->
  exists r k'', new_workers (seqZ 0 MAX_WORKERS) (next k) k' = Ok (r, k'') /\
    match r with Some x => x = - ECHILD /\ k'' = leaked 0 k | None => building k v MAX_CHANS MAX_WORKERS 0 k'' end.
Proof.
  intros Hf. assert (Haux : forall m w k', Z.of_nat m + w = MAX_WORKERS -> 0 <= w -> building k v MAX_CHANS w 0 k' ->
    exists r k'', new_workers (seqZ w (Z.of_nat m)) (next k) k' = Ok (r, k'') /\
    match r with Some x => x = - ECHILD /\ k'' = leaked 0 k | None => building k v MAX_CHANS MAX_WORKERS 0 k'' end).
  { intros m. induction m as [|m IH]; intros w k1 Hm Hw Hb.
    - eexists None, _. split; [done|]. by replace MAX_WORKERS with w by lia.
    - rewrite seqZ_cons by lia. cbn [new_workers]. destruct (kthread_run_ok k1 w).
      + replace (Z.pred (Z.of_nat (S m))) with (Z.of_nat m) by lia. apply IH; [lia|lia|].
        apply building_worker; [lia|done].
      + rewrite (building_drop k v MAX_CHANS w 0) by done. eexists (Some _), _. auto. }
  intros Hb. by apply (Haux 4%nat 0).
Qed.
Lemma building_throttle n k v c w e k' :
  building k v c w e k' -> exists k'', throttle_run n (next k) k' = Ok k'' /\ building k v c w e k''.
Proof.
  intros (H & Ha & Hg). destruct (throttle_run_spec n _ _ _ _ _ _ _ H) as (k2 & -> & Hb & Hd & H2 & _).
  exists k2. split; [done|]. split; [done|]. split; [by apply (alive_dom _ _ _ k')|by apply (grown_beside _ _ k')].
Qed.

Lemma building_event k v e k' :
  0 <= e < MAX_EVENTS -> building k v MAX_CHANS MAX_WORKERS e k' ->
  let k2 := set_perf (<[(next k, e) := true]> (perf k')) k' in
  armed_ok k2 /\ building k v MAX_CHANS MAX_WORKERS (e + 1) (upd_target (next k) (set_event e (next k, e)) k2).
Proof.
  intros He (H & Ha & Hg) k2. assert (Hsample : (next k, 0) ∈ buffers k') by (apply (has_buffers H); done).
  assert (Harm : forall T, (forall a, a <> next k -> T !! a = targets k' !! a) ->
    (exists u, T !! next k = Some u /\ chans u !! 0%nat = Some (Some (next k, 0))) -> armed_ok (set_targets T k2)).
  { intros T HT (u & Hu & Hc) x Hx. cbn in *. destruct (decide (x.1 = next k)) as [Hx1|Hx1].
    - rewrite Hx1. eauto.
    - rewrite lookup_insert_ne in Hx by (intros <-; done). rewrite HT by done. by apply (has_armed H). }
  split; [|split; [split|split; [done|split]]]; try apply H; try apply Hg; cbn; try (unfold MAX_CHANS; lia).
  - replace k2 with (set_targets (targets k') k2) by done. apply Harm; [done|]. eexists. split; [apply H|]. by apply made_sample.
  - rewrite lookup_alter_eq, (has_target H). cbn [fmap option_fmap option_map]. by rewrite set_event_made.
  - intros i. destruct (decide (i = e)) as [->|Hi].
    + rewrite lookup_insert_eq. split; [lia|by eauto].
    + rewrite lookup_insert_ne by congruence. rewrite (has_perf H i). lia.
  - apply Harm; [by intros; rewrite lookup_alter_ne|]. cbn. rewrite lookup_alter_eq, (has_target H).
    eexists. split; [done|]. by apply (made_sample (next k) v MAX_CHANS MAX_WORKERS e 0).
  - intros a Hne. rewrite lookup_alter_ne by done. by apply Hg.
  - intros x Hx. rewrite lookup_insert_ne by (intros <-; done). by apply Hg.
Qed.

Lemma new_events_spec k v k' :
  fresh k -> building k v MAX_CHANS MAX_WORKERS 0 k' ->
  exists r k'', new_events (seqZ 0 MAX_EVENTS) (next k) k' = Ok (r, k'') /\
    match r with
    | Some x => x < 0 /\ exists e, 0 <= e < MAX_EVENTS /\ k'' = leaked e k
    | None => building k v MAX_CHANS MAX_WORKERS MAX_EVENTS k''
    end.
Proof.
  intros Hf. assert (Haux : forall m e k', Z.of_nat m + e = MAX_EVENTS -> 0 <= e -> building k v MAX_CHANS MAX_WORKERS e k' ->
    exists r k'', new_events (seqZ e (Z.of_nat m)) (next k) k' = Ok (r, k'') /\
    match r with
    | Some x => x < 0 /\ exists e, 0 <= e < MAX_EVENTS /\ k'' = leaked e k
    | None => building k v MAX_CHANS MAX_WORKERS MAX_EVENTS k''
    end).
  { intros m. induction m as [|m IH]; intros e k1 Hm He Hb.
    - eexists None, _. split; [done|]. by replace MAX_EVENTS with e by lia.
    - rewrite seqZ_cons by lia. cbn [new_events].
      destruct (building_throttle (throttle_steps k1) k v _ _ e k1 Hb) as (k2 & -> & Hb2). cbn [mbind res_bind].
      pose proof (perf_create_err k2 e) as Hle.
      destruct (Z.eqb_spec (perf_event_create_kernel_counter k2 e) 0) as [_|Hne].
      + destruct (building_event k v e k2) as [Har Hb3]; [lia|done|]. cbn [negb event_attrs_disabled].
        rewrite armed_irq by done. cbn [mbind res_bind].
        replace (Z.pred (Z.of_nat (S m))) with (Z.of_nat m) by lia. apply IH; [lia|lia|done].
      + rewrite (building_drop k v MAX_CHANS MAX_WORKERS e) by done. eexists (Some _), _. split; [done|].
        split; [lia|]. exists e. split; [lia|done]. }
  intros Hb. by apply (Haux 2%nat 0).
Qed.

Lemma building_start k :
  fresh k -> armed_ok k -> 0 <= now k < 2 ^ 64 - 1 ->
  building k None 0 0 0 (set_next (next k + 1) (set_targets (<[next k := zeroed_target]> (targets k)) k)).
Proof.
  intros Hf Hk Ht. destruct (Hf (next k)) as (Hft & Hfr & Hfi); [lia|].
  split; [|split]; [split|intros i|split]; cbn; try done; try lia.
  - by rewrite lookup_insert_eq, (made_zeroed (next k)).
  - intros i. split; [|lia]. by intros ?%(proj1 (Hfi i)).
  - intros i. destruct (Hfi i) as (_ & _ & ->). split; [by intros []|lia].
  - apply (armed_grow (next k) k); cbn; try done; [by intros i; apply Hfi|]. intros a Ha. by rewrite lookup_insert_ne.
  - destruct (Hfi i) as (_ & -> & _). split; [by intros []|lia].
  - intros a Ha. by rewrite lookup_insert_ne.
Qed.

Lemma building_victim k v k' :
  building k None 0 0 0 k' ->
  building k (Some v) 0 0 0 (upd_target (next k) (set_victim v) (set_task_refs (<[next k := v]> (task_refs k')) k')).
Proof.
  intros (H & Ha & Hg). split; [|split; [done|]]; split; try apply H; try apply Hg; cbn; try lia.
  - rewrite lookup_alter_eq, (has_target H). done.
  - by rewrite lookup_insert_eq.
  - apply (armed_grow (next k) k'); cbn; [apply H|done|by apply (no_events _ None 0 0 0)|by intros; rewrite lookup_alter_ne|done].
  - intros a Hne. rewrite lookup_alter_ne by done. by apply Hg.
  - intros a Hne. rewrite lookup_insert_ne by done. by apply Hg.
Qed.

(** A complete target. *)
Definition complete (t v st : Z) (k : kernel) : Prop :=
  0 < v /\ has t (Some v) MAX_CHANS MAX_WORKERS MAX_EVENTS st k /\ alive t 0 MAX_WORKERS k.

Lemma building_finish k v k' :
  0 < v -> building k (Some v) MAX_CHANS MAX_WORKERS MAX_EVENTS k' -> 0 <= now k < 2 ^ 64 - 1 ->
  let k2 := upd_target (next k) (set_start (now k')) k' in complete (next k) v (now k) k2 /\ grown (next k) k k2.
Proof.
  intros Hv (H & Ha & Hg) Ht. pose proof (gr_now _ _ _ Hg) as Hn. rewrite Hn. cbn zeta.
  split; [split; [done|split; [|done]]|]; split; try apply H; try apply Hg; cbn; try lia.
  - rewrite lookup_alter_eq, (has_target H). done.
  - intros x Hx. cbn in *. destruct (has_armed H x Hx) as (u & H1 & H2 & H3).
    destruct (decide (x.1 = next k)) as [Hx1|Hx1].
    + rewrite Hx1, lookup_alter_eq, <- Hx1, H1. cbn [fmap option_fmap option_map]. eexists. eauto.
    + rewrite lookup_alter_ne by done. eauto.
  - intros a Hne. rewrite lookup_alter_ne by done. by apply Hg.
Qed.

(** The results of creating a target: an error with at most a disabled event left
    behind, or a complete target. *)
Lemma target_new_spec pid k :
  fresh k -> armed_ok k -> 0 <= now k < 2 ^ 64 - 1 ->
  exists r k', target_new pid k = Ok (r, k') /\
    match r with
    | inl x => x < 0 /\ (k' = k \/ exists e, 0 <= e < MAX_EVENTS /\ k' = leaked e k)
    | inr t => t = next k /\ grown t k k' /\ exists v, complete t v (now k) k'
    end.
Proof.
  intros Hf Hk Ht. unfold target_new. destruct (kzalloc_ok k); [|eexists (inl _), _; split; [done|]; split; [done|auto]].
  cbn [negb]. pose proof (building_start k Hf Hk Ht) as Hb. set (k1 := set_next _ _) in *.
  destruct (find_get_task_by_vpid k1 pid) as [v|] eqn:Hv.
  2: { rewrite (building_drop k None 0 0 0) by done. eexists (inl _), _. split; [done|]. split; [done|].
       right. exists 0. split; [done|done]. }
  apply find_task_pos in Hv. apply (building_victim k v) in Hb. set (k2 := upd_target _ _ _) in *.
  destruct (new_chans_spec k (Some v) k2 Hf Hb) as (r1 & k3 & -> & Hr1). cbn [mbind res_bind].
  destruct r1 as [x|]; [destruct Hr1 as [-> ->]; eexists (inl _), _; split; [done|]; split; [done|right; by exists 0]|].
  destruct (new_workers_spec k (Some v) k3 Hf Hr1) as (r2 & k4 & -> & Hr2). cbn [mbind res_bind].
  destruct r2 as [x|]; [destruct Hr2 as [-> ->]; eexists (inl _), _; split; [done|]; split; [done|right; by exists 0]|].
  destruct (new_events_spec k (Some v) k4 Hf Hr2) as (r3 & k5 & -> & Hr3). cbn [mbind res_bind].
  destruct r3 as [x|]; [destruct Hr3 as [? ?]; eexists (inl _), _; split; [done|]; auto|].
  destruct (building_finish k v k5 Hv Hr3 Ht) as [Hc Hg]. eexists (inr _), _. split; [done|]. split; [done|]. eauto.
Qed.
End proofs.
