(* ===== verification/SysfsProofs.v ===== *)
(** Lemmas on the control of targets: what the kernel holds between two
    operations, and the directories with the targets they own. *)
From stdpp Require Import base numbers list gmap relations.
From Stdlib Require Import ZArith Lia.
From S2P Require Import Prelude Kernel Target Sysfs TargetProofs.
Open Scope Z_scope.

(** ** The kernel between operations *)

(** Every target is complete, and nothing but disabled events is left of others. *)
Record kinv (k : kernel) : Prop := Kinv {
  ki_fresh : fresh k;
  ki_armed : armed_ok k;
  ki_time : (0 <= now k < 2 ^ 64 - 1);
  ki_live t : is_Some (targets k !! t) -> exists v st, complete t v st k;
  ki_dead t : targets k !! t = None -> task_refs k !! t = None /\
    forall i, (t, i) ∉ buffers k /\ threads k !! (t, i) = None }.

Section kinv.
Context `{E : TargetEnv} {L : TargetLaws E}.

(** A target is not affected by changes elsewhere. *)
Lemma complete_frame t v st k k' :
  complete t v st k -> armed_ok k' -> now k <= now k' < 2 ^ 64 - 1 ->
  targets k' !! t = targets k !! t -> task_refs k' !! t = task_refs k !! t ->
  (forall i, (t, i) ∈ buffers k' <-> (t, i) ∈ buffers k) ->
  (forall i, threads k' !! (t, i) = threads k !! (t, i)) -> (forall i, perf k' !! (t, i) = perf k !! (t, i)) ->
  complete t v st k'.
Proof.
  intros (Hv & H & Ha) Har Hn Ht Hr Hb Hth Hp. split; [done|]. split.
  - destruct (has_time H). split; try apply H; rewrite ?Ht, ?Hr; try apply H; try done; try lia.
    + intros i. rewrite Hb. apply H.
    + intros i. rewrite Hp. apply H.
  - intros i. rewrite Hth. apply Ha.
Qed.

Lemma kinv_grown t v k k' :
  kinv k -> t = next k -> grown t k k' -> complete t v (now k) k' -> kinv k'.
Proof.
  intros Hk -> Hg Hc. destruct Hc as (Hv & H & Ha). pose proof (ki_time _ Hk). pose proof (gr_now _ _ _ Hg) as Hn.
  pose proof (gr_next _ _ _ Hg) as Hx.
  split; [|apply H|lia| |].
  - intros a Hna. rewrite Hx in Hna. destruct (ki_fresh _ Hk a ltac:(lia)) as (F1 & F2 & F3).
    rewrite (gr_targets _ _ _ Hg), (gr_refs _ _ _ Hg) by lia. split; [done|]. split; [done|]. intros i.
    rewrite (gr_buffers _ _ _ Hg), (gr_threads _ _ _ Hg), (gr_perf _ _ _ Hg) by (cbn; lia). apply F3.
  - intros a Hs. destruct (decide (a = next k)) as [->|Hne]; [exists v, (now k); by split|].
    rewrite (gr_targets _ _ _ Hg) in Hs by done. destruct (ki_live _ Hk a Hs) as (va & sa & Hca). exists va, sa.
    apply (complete_frame a va sa k); try done; [apply H|lia|by apply Hg|by apply Hg| | |].
    + intros i. by apply (gr_buffers _ _ _ Hg (a, i)).
    + intros i. by apply (gr_threads _ _ _ Hg (a, i)).
    + intros i. by apply (gr_perf _ _ _ Hg (a, i)).
  - intros a Hs. assert (a <> next k) by (intros ->; rewrite (has_target H) in Hs; done).
    rewrite (gr_targets _ _ _ Hg) in Hs by done. destruct (ki_dead _ Hk a Hs) as [F1 F2].
    rewrite (gr_refs _ _ _ Hg) by done. split; [done|]. intros i.
    rewrite (gr_buffers _ _ _ Hg), (gr_threads _ _ _ Hg) by done. apply F2.
Qed.

Lemma kinv_leaked e k : kinv k -> 0 <= e <= MAX_EVENTS -> kinv (leaked e k).
Proof.
  intros Hk He. assert (Hother : forall a i, a <> next k -> perf (leaked e k) !! (a, i) = perf k !! (a, i)).
  { intros a i Ha. cbn. rewrite lookup_leak, decide_False; [done|]. rewrite elem_named. naive_solver. }
  assert (Har : armed_ok (leaked e k)).
  { intros x Hx. cbn [perf leaked] in Hx. rewrite lookup_leak in Hx. case_decide; [done|]. by apply (ki_armed _ Hk). }
  split; [|done|apply Hk| |apply Hk].
  - intros a Ha. cbn in Ha. destruct (ki_fresh _ Hk a ltac:(lia)) as (F1 & F2 & F3). split; [done|]. split; [done|].
    intros i. rewrite Hother by lia. apply F3.
  - intros a Hs. destruct (ki_live _ Hk a Hs) as (va & sa & Hca). exists va, sa.
    apply (complete_frame a va sa k); try done; [pose proof (ki_time _ Hk); cbn; lia|]. intros i. apply Hother.
    intros ->. destruct (ki_fresh _ Hk (next k) ltac:(lia)) as (F1 & _). cbn in Hs. rewrite F1 in Hs. by destruct Hs.
Qed.

Lemma kinv_released t k : kinv k -> is_Some (targets k !! t) -> kinv (released t k).
Proof.
  intros Hk (u & Hu). destruct (ki_live _ Hk t ltac:(eauto)) as (v & st & Hv & H & Ha).
  pose proof (armed_released _ _ _ _ _ _ _ H) as Har. split; [|done|apply Hk| |].
  - intros a Hn. destruct (ki_fresh _ Hk a Hn) as (F1 & F2 & F3).
    assert (a <> t) by (intros ->; congruence). cbn. rewrite !lookup_delete_ne by done. split; [done|]. split; [done|].
    intros i. destruct (F3 i) as (G1 & G2 & G3). rewrite elem_of_filter, map_lookup_filter, G2, lookup_switch_other, G3 by done.
    split; [naive_solver|done].
  - intros a Hs. cbn in Hs. apply lookup_delete_is_Some in Hs as [Hne Hs].
    destruct (ki_live _ Hk a Hs) as (va & sa & Hca). exists va, sa.
    apply (complete_frame a va sa k); try done; [pose proof (ki_time _ Hk); cbn; lia|..]; cbn.
    + by rewrite lookup_delete_ne.
    + by rewrite lookup_delete_ne.
    + intros i. rewrite elem_of_filter. cbn. naive_solver.
    + intros i. rewrite map_lookup_filter. destruct (threads k !! (a, i)); [|done]. cbn. by rewrite option_guard_True.
    + intros i. by apply lookup_switch_other.
  - intros a Hs. cbn in *. destruct (decide (a = t)) as [->|Hne].
    + rewrite lookup_delete_eq. split; [done|]. intros i. rewrite elem_of_filter, map_lookup_filter. split; [naive_solver|].
      destruct (threads k !! (t, i)); [|done]. cbn. by rewrite option_guard_False by naive_solver.
    + rewrite lookup_delete_ne in Hs by done. rewrite lookup_delete_ne by done. destruct (ki_dead _ Hk a Hs) as [F1 F2]. split; [done|]. intros i.
      destruct (F2 i) as [G1 G2]. rewrite elem_of_filter, map_lookup_filter, G2. split; [naive_solver|done].
Qed.

Lemma kinv_drop t k :
  kinv k -> is_Some (targets k !! t) -> target_drop (Some t) k = Ok (released t k).
Proof.
  intros Hk Hs. destruct (ki_live _ Hk t Hs) as (v & st & Hv & H & Ha). by apply (target_drop_eq t (Some v) MAX_CHANS MAX_WORKERS MAX_EVENTS st).
Qed.

Lemma kinv_new pid k :
  kinv k -> exists r k', target_new pid k = Ok (r, k') /\ kinv k' /\
    match r with
    | inl e => e < 0 /\ targets k' = targets k
    | inr t => targets k !! t = None /\ forall a, is_Some (targets k' !! a) <-> a = t \/ is_Some (targets k !! a)
    end.
Proof.
  intros Hk. destruct (target_new_spec pid k (ki_fresh _ Hk) (ki_armed _ Hk) (ki_time _ Hk)) as (r & k' & -> & Hr).
  exists r, k'. split; [done|]. destruct r as [x|t].
  - destruct Hr as [Hx [->|(e & He & ->)]]; [done|]. split; [|done]. apply kinv_leaked; [done|lia].
  - destruct Hr as (-> & Hg & v & Hc). split; [by apply (kinv_grown (next k) v k)|].
    destruct (ki_fresh _ Hk (next k) ltac:(lia)) as (F1 & _). split; [done|]. intros a.
    destruct Hc as (_ & H & _). destruct (decide (a = next k)) as [->|Hne].
    + rewrite (has_target H). split; [auto|by eauto].
    + rewrite (gr_targets _ _ _ Hg) by done. naive_solver.
Qed.

Lemma kinv_beside t k k' :
  kinv k -> is_Some (targets k !! t) -> beside t k k' -> (exists v st, complete t v st k') -> kinv k'.
Proof.
  intros Hk Hs Hb (v & st & Hc). pose proof (ki_time _ Hk) as Ht. destruct Hc as (Hv & H & Ha).
  assert (Hnow := be_now _ _ _ Hb). split; [|apply H|lia| |].
  - intros a Hn. rewrite (be_next _ _ _ Hb) in Hn. destruct (ki_fresh _ Hk a Hn) as (F1 & F2 & F3).
    assert (a <> t) by (intros ->; rewrite F1 in Hs; by destruct Hs).
    rewrite (be_targets _ _ _ Hb), (be_refs _ _ _ Hb), (be_buffers _ _ _ Hb). split; [done|]. split; [done|]. intros i.
    rewrite (be_threads _ _ _ Hb), (be_perf _ _ _ Hb) by done. apply F3.
  - intros a Hs'. destruct (decide (a = t)) as [->|Hne]; [exists v, st; by split|].
    rewrite (be_targets _ _ _ Hb) in Hs'. destruct (ki_live _ Hk a Hs') as (va & sa & Hca). exists va, sa.
    apply (complete_frame a va sa k); try done; [apply H|lia|by rewrite (be_targets _ _ _ Hb)|by rewrite (be_refs _ _ _ Hb)| | |].
    + intros i. by rewrite (be_buffers _ _ _ Hb).
    + intros i. by apply (be_threads _ _ _ Hb (a, i)).
    + intros i. by apply (be_perf _ _ _ Hb (a, i)).
  - intros a Hn. rewrite (be_targets _ _ _ Hb) in Hn. assert (a <> t) by (intros ->; rewrite Hn in Hs; by destruct Hs).
    destruct (ki_dead _ Hk a Hn) as [F1 F2]. rewrite (be_refs _ _ _ Hb), (be_buffers _ _ _ Hb). split; [done|].
    intros i. rewrite (be_threads _ _ _ Hb) by done. apply F2.
Qed.

Lemma kinv_throttle t k :
  kinv k -> exists k', worker_throttle t k = Ok k' /\ kinv k' /\ targets k' = targets k.
Proof.
  intros Hk. destruct (targets k !! t) as [u|] eqn:Ht.
  - destruct (ki_live _ Hk t ltac:(eauto)) as (v & st & Hv & H & Ha).
    destruct (worker_throttle_spec _ _ _ _ _ _ _ H) as (k' & -> & Hb & Hd & H' & _). exists k'. split; [done|].
    split; [|by apply Hb]. apply (kinv_beside t k); [done|by eauto|done|]. exists v, st. split; [done|]. split; [done|].
    by apply (alive_dom _ _ _ k).
  - exists k. unfold worker_throttle. destruct (ki_dead _ Hk t Ht) as [_ F]. destruct (F WORKER_THROTTLE) as [_ ->]. done.
Qed.

Lemma kinv_time k d : kinv k -> 0 <= d -> now k + d < 2 ^ 64 - 1 -> kinv (set_now (now k + d) k).
Proof.
  intros Hk Hd Hn. pose proof (ki_time _ Hk). split; try apply Hk; cbn; [lia|].
  intros a Hs. destruct (ki_live _ Hk a Hs) as (va & sa & Hca). exists va, sa.
  apply (complete_frame a va sa k); try done; [apply Hk|cbn; lia].
Qed.
End kinv.

(** ** Directories *)

(** The directories [r] and [d], one for each of the [slots] with the target it
    owns, and those of [xs], which could not be added. *)
Record dirs (r d : Z) (arr : option Z) (nr : Z) (slots : list (Z * option Z)) (xs : list Z) (s : sysfs) : Prop := Dirs {
  d_root : kobjs s !! r = Some (Kobj 2 None RootDir);
  d_tdir : kobjs s !! d = Some (Kobj (1 + zlen slots) (Some r) (TargetsDir arr nr));
  d_slot a t : (a, t) ∈ slots -> exists p, kobjs s !! a = Some (Kobj 1 (Some d) (TargetDir p)) /\
    ((exists pid, demeter_sysfs_lock s = Some (Dropped a pid)) -> t = None) /\
    ((forall pid, demeter_sysfs_lock s <> Some (Dropped a pid)) -> p = t);
  d_extra a : a ∈ xs -> kobjs s !! a = Some (Kobj 1 None (TargetDir None));
  d_only a : is_Some (kobjs s !! a) -> a = r \/ a = d \/ a ∈ slots.*1 \/ a ∈ xs;
  d_nodup : NoDup (r :: d :: slots.*1 ++ xs);
  d_addr a : is_Some (kobjs s !! a) -> a < addr s }.

Arguments d_root {r d arr nr slots xs s}.
Arguments d_tdir {r d arr nr slots xs s}.
Arguments d_slot {r d arr nr slots xs s}.
Arguments d_extra {r d arr nr slots xs s}.
Arguments d_only {r d arr nr slots xs s}.
Arguments d_nodup {r d arr nr slots xs s}.
Arguments d_addr {r d arr nr slots xs s}.

(** The targets of the kernel are those of the slots, each in one. *)
Definition owned (slots : list (Z * option Z)) (k : kernel) : Prop :=
  kinv k /\ (forall t, is_Some (targets k !! t) <-> Some t ∈ slots.*2) /\ NoDup (omap snd slots).

(** The array holds the slots at its start, and there is no other. *)
Definition arr_ok (arr : option Z) (slots : list (Z * option Z)) (s : sysfs) : Prop :=
  match arr with
  | None => slots = [] /\ arrays s = ∅
  | Some p => p < addr s /\ exists l, arrays s = {[p := (Some <$> slots.*1) ++ l]}
  end.

(** The rest of the state is the same. *)
Definition apart (s s' : sysfs) : Prop :=
  addr s' = addr s /\ list_head_cache s' = list_head_cache s /\ demeter_sysfs_root s' = demeter_sysfs_root s /\
  demeter_sysfs_targets s' = demeter_sysfs_targets s /\ demeter_sysfs_lock s' = demeter_sysfs_lock s.

#[export] Instance apart_preorder : PreOrder apart.
Proof.
  split; [by intros s|]. intros s1 s2 s3 (?&?&?&?&?) (?&?&?&?&?). repeat split; congruence.
Qed.

(** The same without the addresses handed out. *)
Definition stays (s s' : sysfs) : Prop :=
  list_head_cache s' = list_head_cache s /\ demeter_sysfs_root s' = demeter_sysfs_root s /\
  demeter_sysfs_targets s' = demeter_sysfs_targets s /\ demeter_sysfs_lock s' = demeter_sysfs_lock s.

#[export] Instance stays_preorder : PreOrder stays.
Proof.
  split; [by intros s|]. intros s1 s2 s3 (?&?&?&?) (?&?&?&?). repeat split; congruence.
Qed.

Lemma apart_stays s s' : apart s s' -> stays s s'.
Proof. by intros (_ & ?). Qed.

(** 0 or an error. *)
Class SysfsLaws (SE : SysfsEnv) : Prop := { kobject_add_err s : kobject_add s <= 0 }.

Section dirs.
Context {TE : TargetEnv} {TL : TargetLaws TE} {SE : SysfsEnv}.

(** Giving up the target of the first slot. *)
Lemma owned_drop a t slots k :
  owned ((a, t) :: slots) k ->
  exists k', target_drop t k = Ok k' /\ owned slots k' /\ owned ((a, None) :: slots) k'.
Proof.
  intros (Hk & Ht & Hn). destruct t as [t|]; cbn in Hn.
  - apply NoDup_cons in Hn as [Hnin Hn]. assert (Hs : is_Some (targets k !! t)) by (apply Ht; set_solver).
    assert (Hnin' : Some t ∉ slots.*2).
    { intros (x & Hx & Hin)%list_elem_of_fmap. apply Hnin. apply list_elem_of_omap. exists x. auto. }
    rewrite kinv_drop by done. eexists. split; [done|]. pose proof (kinv_released t k Hk Hs) as Hr.
    assert (Hiff : forall b, is_Some (targets (released t k) !! b) <-> Some b ∈ slots.*2).
    { intros b. cbn [targets released]. rewrite lookup_delete_is_Some, Ht. cbn. split.
      - intros [Hne Hin]. apply elem_of_cons in Hin as [[= ->]|?]; done.
      - intros Hin. split; [by intros ->|]. set_solver. }
    split; (split; [done|]); (split; [|done]); [done|]. intros b. rewrite Hiff. cbn. set_solver.
  - exists k. split; [done|]. split; (split; [done|]); (split; [|done]); [|done]. intros b. rewrite Ht. cbn. set_solver.
Qed.

(** Putting the directory of the first slot stops its target. *)
Lemma slot_put r d arr nr a t slots xs s :
  dirs r d arr nr ((a, t) :: slots) xs s -> owned ((a, t) :: slots) (kern s) -> demeter_sysfs_lock s = None ->
  exists s', kobject_put a s = Ok s' /\ dirs r d arr nr slots xs s' /\ owned slots (kern s') /\ apart s s' /\ arrays s' = arrays s.
Proof.
  intros H Ho Hl. destruct (d_slot H a t) as (p & Ha & _ & Hp); [set_solver|]. rewrite Hl in Hp. rewrite Hp in Ha by done.
  pose proof (d_nodup H) as Hnd. cbn in Hnd.
  assert (Hne : a <> r /\ a <> d /\ r <> d /\ (forall x, x ∈ slots.*1 \/ x ∈ xs -> x <> a /\ x <> r /\ x <> d)).
  { apply NoDup_cons in Hnd as [N1 Hnd]. apply NoDup_cons in Hnd as [N2 Hnd]. apply NoDup_cons in Hnd as [N3 _].
    set_solver. }
  destruct Hne as (Har & Had & Hrd & Hother).
  unfold kobject_put. cbn [kobject_put_levels]. unfold get_kobj. rewrite Ha. cbn -[kobject_put_levels target_drop].
  destruct (owned_drop a t slots (kern s) Ho) as (k' & Hk' & Ho' & _).
  assert (Hrel : release a (TargetDir t) s = Ok (free_kobj a (set_kern k' s))).
  { cbn. unfold demeter_sysfs_target_release. destruct t; [by rewrite Hk'|]. cbn in Hk'. by injection Hk' as <-. }
  cbn [release] in Hrel. rewrite Hrel. cbn [mbind res_bind parent kobject_put_levels]. unfold get_kobj, free_kobj, put_kobj.
  cbn [kobjs set_kobjs set_kern]. rewrite lookup_delete_ne, (d_tdir H) by done. cbn [of_option mbind res_bind kref].
  rewrite zlen_cons. pose proof (zlen_nonneg slots). destruct (Z.ltb_spec 1 (1 + (1 + zlen slots))); [|lia].
  eexists. split; [done|]. cbn. split; [|by split; [done|]; split].
  split; cbn.
  - rewrite lookup_insert_ne, lookup_delete_ne by done. apply H.
  - rewrite lookup_insert_eq. do 2 f_equal. lia.
  - intros b u Hb. destruct (Hother b) as (N1 & N2 & N3); [left; apply list_elem_of_fmap; by exists (b, u)|].
    rewrite lookup_insert_ne, lookup_delete_ne by done. apply (d_slot H). set_solver.
  - intros b Hb. destruct (Hother b) as (N1 & N2 & N3); [by right|].
    rewrite lookup_insert_ne, lookup_delete_ne by done. by apply (d_extra H).
  - intros b Hb. destruct (decide (b = d)) as [->|Hbd]; [auto|]. rewrite lookup_insert_ne in Hb by done.
    apply lookup_delete_is_Some in Hb as [N1 Hb]. apply (d_only H) in Hb. cbn in Hb. set_solver.
  - apply NoDup_cons in Hnd as [N1 Hnd]. apply NoDup_cons in Hnd as [N2 Hnd]. apply NoDup_cons in Hnd as [N3 Hnd].
    repeat (apply NoDup_cons; split); [set_solver..|done].
  - intros b Hb. apply (d_addr H). destruct (decide (b = d)) as [->|Hbd]; [rewrite (d_tdir H); eauto|].
    rewrite lookup_insert_ne in Hb by done. by apply lookup_delete_is_Some in Hb as [_ ?].
Qed.
(** The directories do not depend on the kernel and the arrays. *)
Lemma dirs_ext r d arr nr slots xs s s' :
  dirs r d arr nr slots xs s -> kobjs s' = kobjs s -> addr s <= addr s' -> demeter_sysfs_lock s' = demeter_sysfs_lock s ->
  dirs r d arr nr slots xs s'.
Proof.
  intros H Hk Ha Hl. split; rewrite ?Hk, ?Hl; try apply H. intros a Hs. apply (d_addr H) in Hs. lia.
Qed.

Lemma dirs_root_ne r d arr nr slots xs s : dirs r d arr nr slots xs s -> r <> d.
Proof. intros H. pose proof (d_nodup H) as Hnd. apply NoDup_cons in Hnd as [N1 _]. set_solver. Qed.

Lemma dirs_ne r d arr nr slots xs s a : dirs r d arr nr slots xs s -> a ∈ slots.*1 \/ a ∈ xs -> a <> r /\ a <> d.
Proof.
  intros H Ha. pose proof (d_nodup H) as Hnd. apply NoDup_cons in Hnd as [N1 Hnd]. apply NoDup_cons in Hnd as [N2 _].
  set_solver.
Qed.

Lemma set_targets_dir_spec r d arr nr slots xs s arr' nr' :
  dirs r d arr nr slots xs s ->
  exists s', set_targets_dir d arr' nr' s = Ok s' /\ dirs r d arr' nr' slots xs s' /\ kern s' = kern s /\ apart s s' /\
    arrays s' = arrays s.
Proof.
  intros H. pose proof (dirs_root_ne _ _ _ _ _ _ _ H) as Hrd. unfold set_targets_dir, get_kobj. rewrite (d_tdir H).
  cbn [of_option mbind res_bind]. eexists. split; [done|]. split; [|by split; [|split]].
  split; cbn; try apply H.
  - rewrite lookup_insert_ne by done. apply H.
  - by rewrite lookup_insert_eq.
  - intros a t Ha. destruct (dirs_ne _ _ _ _ _ _ _ a H) as [? ?]; [left; apply list_elem_of_fmap; by exists (a, t)|].
    rewrite lookup_insert_ne by done. by apply (d_slot H).
  - intros a Ha. destruct (dirs_ne _ _ _ _ _ _ _ a H) as [? ?]; [auto|]. rewrite lookup_insert_ne by done. by apply (d_extra H).
  - intros a Hs. destruct (decide (a = d)) as [->|]; [auto|]. rewrite lookup_insert_ne in Hs by done. by apply (d_only H).
  - intros a Hs. apply (d_addr H). destruct (decide (a = d)) as [->|]; [rewrite (d_tdir H); eauto|].
    by rewrite lookup_insert_ne in Hs.
Qed.

Lemma get_slot_spec arr slots s i x :
  arr_ok arr slots s -> 0 <= i -> slots !! Z.to_nat i = Some x -> get_slot arr i s = Ok x.1.
Proof.
  intros Ha Hi Hx. destruct arr as [p|]; [|destruct Ha as [-> _]; done]. destruct Ha as (_ & l & Hl).
  unfold get_slot. rewrite Hl. cbn [of_option mbind res_bind]. rewrite lookup_singleton_eq. cbn [of_option mbind res_bind].
  replace (aread _ i) with (Ok (Some x.1)); [done|]. symmetry. apply aread_Ok. split; [done|].
  apply lookup_app_l_Some. by rewrite !list_lookup_fmap, Hx.
Qed.

(** Removing all directories stops all targets. *)
Lemma rm_dirs_spec r d arr slots xs s :
  dirs r d arr (zlen slots) slots xs s -> arr_ok arr slots s -> owned slots (kern s) -> demeter_sysfs_lock s = None ->
  exists s', demeter_sysfs_targets_rm_dirs d s = Ok s' /\ dirs r d None 0 [] xs s' /\ owned [] (kern s') /\ apart s s' /\
    arrays s' = ∅.
Proof.
  intros H Har Ho Hl. unfold demeter_sysfs_targets_rm_dirs, get_targets_dir, get_kobj. rewrite (d_tdir H).
  cbn [of_option mbind res_bind data].
  destruct (for_range_inv (fun i s' => dirs r d arr (zlen slots) (drop (Z.to_nat i) slots) xs s' /\
    owned (drop (Z.to_nat i) slots) (kern s') /\ apart s s' /\ arrays s' = arrays s) 0 (zlen slots)
    (fun i s => a ← get_slot arr i s; kobject_put a s) s) as (s1 & -> & H1 & Ho1 & Hap1 & Har1).
  - apply zlen_nonneg.
  - by split; [|split].
  - intros i s' Hi (H' & Ho' & Hap' & Har'). unfold zlen in Hi.
    destruct (lookup_lt_is_Some_2 slots (Z.to_nat i)) as [[a t] Hx]; [lia|].
    rewrite (drop_S slots (a, t)) in H', Ho' by done.
    assert (Harr' : arr_ok arr slots s') by (destruct Hap' as (Ea & _); unfold arr_ok in *; by rewrite Har', Ea).
    rewrite (get_slot_spec arr slots s' i (a, t)) by (done || lia). cbn [mbind res_bind fst].
    destruct (slot_put _ _ _ _ _ _ _ _ _ H' Ho') as (s2 & -> & H2 & Ho2 & Hap2 & Har2).
    { destruct Hap' as (_ & _ & _ & _ & ->). done. }
    replace (Z.to_nat (i + 1)) with (S (Z.to_nat i)) by lia. exists s2. split; [done|]. split; [done|]. split; [done|].
    split; [by transitivity s'|congruence].
  - cbn [mbind res_bind].
    replace (drop (Z.to_nat (zlen slots)) slots) with (@nil (Z * option Z)) in H1, Ho1.
    2: { unfold zlen. by rewrite Nat2Z.id, drop_all. }
    set (s2 := match arr with Some p => _ | None => _ end).
    assert (Hs2 : kern s2 = kern s1 /\ kobjs s2 = kobjs s1 /\ apart s1 s2 /\ arrays s2 = ∅) by
      (subst s2; destruct arr as [p|]; destruct Har as [? Hl']; [destruct Hl' as [l Hl']|]; cbn;
       repeat split; rewrite ?Har1, ?Hl'; [apply delete_singleton_eq|done]).
    clearbody s2. destruct Hs2 as (Hk2 & Ho2 & Hap2 & Har2).
    destruct (set_targets_dir_spec r d arr (zlen slots) [] xs s2 None 0) as (s3 & -> & H3 & Hk3 & Hap3 & Har3).
    { destruct Hap2 as (Ea & _ & _ & _ & El). apply (dirs_ext _ _ _ _ _ _ s1); [done|done|lia|done]. }
    exists s3. split; [done|]. split; [done|]. split; [by rewrite Hk3, Hk2|]. split; [|congruence].
    transitivity s1; [done|]. by transitivity s2.
Qed.
(** A new directory of a target. *)
Lemma dirs_add r d arr nr slots s t :
  dirs r d arr nr slots [] s -> kobjs s !! t = None -> t < addr s -> demeter_sysfs_lock s = None ->
  exists e s', kobject_init_and_add t (TargetDir None) d s = Ok (e, s') /\ e = kobject_add s /\
    dirs r d arr nr (if e =? 0 then slots ++ [(t, None)] else slots) (if e =? 0 then [] else [t]) s' /\
    kern s' = kern s /\ apart s s' /\ arrays s' = arrays s.
Proof.
  intros H Ht Hta Hl. pose proof (dirs_root_ne _ _ _ _ _ _ _ H) as Hrd.
  assert (Htr : t <> r) by (intros ->; rewrite (d_root H) in Ht; done).
  assert (Htd : t <> d) by (intros ->; rewrite (d_tdir H) in Ht; done).
  assert (Hts : t ∉ slots.*1).
  { intros ([a u] & Hau & Hin)%list_elem_of_fmap. cbn in Hau. subst a. destruct (d_slot H t u Hin) as (q & Hq & _). congruence. }
  pose proof (d_nodup H) as Hnd. rewrite app_nil_r in Hnd.
  unfold kobject_init_and_add, get_kobj. rewrite (d_tdir H). destruct (Z.eqb_spec (kobject_add s) 0) as [He|He].
  - cbn [of_option mbind res_bind]. eexists 0, _. split; [done|]. split; [done|]. split; [|by split; [|split]].
    cbn [Z.eqb]. split; cbn.
    + rewrite !lookup_insert_ne by done. apply H.
    + rewrite lookup_insert_ne, lookup_insert_eq by done. rewrite zlen_app, zlen_cons, zlen_nil. do 2 f_equal. lia.
    + intros a u [Hin|Hin]%elem_of_app.
      * destruct (dirs_ne _ _ _ _ _ _ _ a H) as [? ?]; [left; apply list_elem_of_fmap; by exists (a, u)|].
        rewrite !lookup_insert_ne by (try done; intros <-; apply Hts, list_elem_of_fmap; by exists (t, u)). by apply (d_slot H).
      * apply list_elem_of_singleton in Hin as [= -> ->]. rewrite lookup_insert_eq. exists None. done.
    + by intros a ?%elem_of_nil.
    + intros a Hs. rewrite fmap_app. cbn. destruct (decide (a = t)) as [->|]; [set_solver|].
      destruct (decide (a = d)) as [->|]; [auto|]. rewrite !lookup_insert_ne in Hs by done. apply (d_only H) in Hs. set_solver.
    + rewrite fmap_app, app_nil_r. cbn. rewrite !app_comm_cons. apply NoDup_app. split; [done|].
      split; [set_solver|]. apply NoDup_singleton.
    + intros a Hs. destruct (decide (a = t)) as [->|]; [done|]. apply (d_addr H).
      destruct (decide (a = d)) as [->|]; [rewrite (d_tdir H); eauto|]. by rewrite !lookup_insert_ne in Hs.
  - eexists _, _. split; [done|]. split; [done|]. split; [|by split; [|split]]. apply Z.eqb_neq in He. rewrite He. split; cbn.
    + rewrite !lookup_insert_ne by done. apply H.
    + rewrite lookup_insert_ne by done. apply H.
    + intros a u Hin. rewrite lookup_insert_ne by (intros <-; apply Hts, list_elem_of_fmap; by exists (t, u)). by apply (d_slot H).
    + intros a ->%list_elem_of_singleton. by rewrite lookup_insert_eq.
    + intros a Hs. destruct (decide (a = t)) as [->|]; [set_solver|]. rewrite lookup_insert_ne in Hs by done.
      apply (d_only H) in Hs. set_solver.
    + rewrite !app_comm_cons. apply NoDup_app. split; [done|]. split; [set_solver|]. apply NoDup_singleton.
    + intros a Hs. destruct (decide (a = t)) as [->|]; [done|]. apply (d_addr H). by rewrite lookup_insert_ne in Hs.
Qed.

(** Putting a directory that could not be added. *)
Lemma extra_put r d arr nr t s :
  dirs r d arr nr [] [t] s ->
  exists s', kobject_put t s = Ok s' /\ dirs r d arr nr [] [] s' /\ kern s' = kern s /\ apart s s' /\ arrays s' = arrays s.
Proof.
  intros H. destruct (dirs_ne _ _ _ _ _ _ _ t H) as [Htr Htd]; [set_solver|].
  unfold kobject_put. cbn [kobject_put_levels]. unfold get_kobj. rewrite (d_extra H t) by set_solver. cbn.
  eexists. split; [done|]. split; [|by destruct s]. split; cbn.
  - rewrite lookup_delete_ne by done. apply H.
  - rewrite lookup_delete_ne by done. apply H.
  - by intros a u ?%elem_of_nil.
  - by intros a ?%elem_of_nil.
  - intros a Hs. apply lookup_delete_is_Some in Hs as [Hne Hs]. apply (d_only H) in Hs. set_solver.
  - pose proof (d_nodup H) as Hnd. cbn in Hnd. apply NoDup_cons in Hnd as [N1 Hnd]. repeat (apply NoDup_cons; split); try set_solver.
    constructor.
  - intros a Hs. apply lookup_delete_is_Some in Hs as [_ Hs]. by apply (d_addr H).
Qed.
Context {SL : SysfsLaws SE}.

(** The directories with their array and targets. *)
Definition tree (r d : Z) (slots : list (Z * option Z)) (s : sysfs) : Prop :=
  exists arr, dirs r d arr (zlen slots) slots [] s /\ arr_ok arr slots s /\ owned slots (kern s).

Lemma alloc_spec s :
  exists s', alloc s = (if kmalloc_ok s then Some (addr s) else None, s') /\ kern s' = kern s /\ kobjs s' = kobjs s /\
    arrays s' = arrays s /\ stays s s' /\ addr s <= addr s' /\ (kmalloc_ok s = true -> addr s < addr s').
Proof. unfold alloc. destruct (kmalloc_ok s); eexists; (split; [done|]); cbn; repeat split; lia. Qed.

(** No slot has a target. *)
Definition vacant (slots : list (Z * option Z)) : Prop := Forall (fun x => x.2 = None) slots.

(** The array while directories are added: [m] entries are still empty. *)
Definition filling (r d p : Z) (m : nat) (slots : list (Z * option Z)) (s : sysfs) : Prop :=
  dirs r d (Some p) (zlen slots) slots [] s /\ p < addr s /\
  arrays s = {[p := (Some <$> slots.*1) ++ replicate m None]} /\ owned slots (kern s) /\ demeter_sysfs_lock s = None.

Lemma filling_arr r d p m slots s : filling r d p m slots s -> arr_ok (Some p) slots s.
Proof. intros (_ & Hp & Ha & _). split; [done|]. by exists (replicate m None). Qed.

Lemma owned_nil_app slots t k : owned slots k -> owned (slots ++ [(t, None)]) k.
Proof.
  intros (Hk & Ht & Hn). split; [done|]. split.
  - intros a. rewrite Ht, fmap_app. cbn. set_solver.
  - rewrite omap_app. cbn. by rewrite app_nil_r.
Qed.

(** One turn of the loop. *)
Lemma filling_next r d p m slots s t s1 :
  filling r d p (S m) slots s -> dirs r d (Some p) (zlen slots) (slots ++ [(t, None)]) [] s1 ->
  kern s1 = kern s -> apart s s1 -> arrays s1 = arrays s ->
  exists s2 s3, set_slot p (zlen slots) t s1 = Ok s2 /\ set_targets_dir d (Some p) (zlen slots + 1) s2 = Ok s3 /\
    filling r d p m (slots ++ [(t, None)]) s3 /\ stays s s3.
Proof.
  intros (_ & Hp & Ha & Ho & Hl) H1 Hk1 Hap1 Ha1. unfold set_slot. rewrite Ha1, Ha, lookup_singleton_eq.
  cbn [of_option mbind res_bind]. rewrite awrite_in_bounds.
  2: { pose proof (zlen_nonneg slots). unfold zlen. rewrite length_app, !length_fmap, length_replicate. lia. }
  cbn [mbind res_bind]. set (s2 := set_arrays _ _).
  destruct (set_targets_dir_spec r d (Some p) (zlen slots) (slots ++ [(t, None)]) [] s2 (Some p) (zlen slots + 1))
    as (s3 & Hs3 & H3 & Hk3 & Hap3 & Ha3).
  { apply (dirs_ext _ _ _ _ _ _ s1); done. }
  exists s2, s3. split; [done|]. split; [done|]. destruct Hap1 as (E1 & E2 & E3 & E4 & E5), Hap3 as (F1 & F2 & F3 & F4 & F5).
  split; [|by repeat split; etransitivity; eauto].
  split; [by rewrite zlen_app, zlen_cons, zlen_nil, Z.add_0_r|]. split; [rewrite F1; cbn; lia|].
  split; [|split; [rewrite Hk3; cbn; rewrite Hk1; by apply owned_nil_app|rewrite F5; cbn; congruence]].
  rewrite Ha3. cbn. rewrite insert_singleton_eq. f_equal.
  unfold zlen. rewrite Nat2Z.id, <- (Nat.add_0_r (length slots)).
  replace (length slots) with (length (Some <$> slots.*1)) at 1 by by rewrite !length_fmap.
  rewrite insert_app_r. cbn. by rewrite !fmap_app, <- app_assoc.
Qed.

Lemma add_dirs_spec r d p m slots s :
  filling r d p m slots s ->
  exists e s' slots', add_dirs (seqZ (zlen slots) (Z.of_nat m)) d p s = Ok (e, s') /\ tree r d slots' s' /\ stays s s' /\
    e <= 0 /\ (e = 0 -> zlen slots' = zlen slots + Z.of_nat m) /\ (vacant slots -> vacant slots').
Proof.
  revert slots s. induction m as [|m IH]; intros slots s Hf.
  - exists 0, s, slots. split; [done|]. split; [exists (Some p); split; [apply Hf|split; [by eapply filling_arr|apply Hf]]|].
    split; [done|]. split; [done|]. split; [lia|auto].
  - rewrite seqZ_cons by lia. cbn [add_dirs]. unfold demeter_sysfs_target_alloc.
    destruct (alloc_spec s) as (s0 & -> & Hk0 & Ho0 & Ha0 & Hst0 & Had0 & Hlt0).
    destruct Hf as (H & Hp & Ha & Ho & Hl). assert (Hl0 : demeter_sysfs_lock s0 = None) by (destruct Hst0 as (_&_&_&->); done).
    assert (Hf0 : filling r d p (S m) slots s0).
    { split; [apply (dirs_ext _ _ _ _ _ _ s); try done; congruence|]. split; [lia|]. rewrite Ha0, Hk0. auto. }
    destruct (kmalloc_ok s).
    2: { destruct (rm_dirs_spec r d (Some p) slots [] s0) as (s1 & -> & H1 & Ho1 & Hap1 & Ha1);
         [apply Hf0|by eapply filling_arr|by rewrite Hk0|done|]. cbn [mbind res_bind].
         exists (- ENOMEM), s1, []. split; [done|]. split; [by exists None|].
         split; [transitivity s0; [done|by apply apart_stays]|]. split; [done|]. split; [done|by constructor]. }
    assert (Hnone : kobjs s0 !! addr s = None).
    { rewrite Ho0. apply eq_None_not_Some. intros Hs. apply (d_addr H) in Hs. lia. }
    destruct (dirs_add r d (Some p) (zlen slots) slots s0 (addr s)) as (e & s1 & -> & He & H1 & Hk1 & Hap1 & Ha1);
      [apply Hf0|done|by apply Hlt0|done|]. cbn [mbind res_bind]. unfold demeter_sysfs_target_add_dirs.
    pose proof (kobject_add_err s0) as Hle. destruct (Z.eqb_spec e 0) as [->|Hne].
    + cbn [Z.eqb]. destruct (filling_next r d p m slots s0 (addr s) s1) as (s2 & s3 & -> & Hs3 & Hf3 & Hst3); [done..|].
      cbn [mbind res_bind]. rewrite Hs3. cbn [mbind res_bind].
      destruct (IH _ _ Hf3) as (e & s4 & sl & Heq & Ht & Hst & Hr). rewrite zlen_app, zlen_cons, zlen_nil, Z.add_0_r in Heq, Hr.
      replace (Z.pred (Z.of_nat (S m))) with (Z.of_nat m) by lia. replace (Z.succ (zlen slots)) with (zlen slots + 1) by lia.
      exists e, s4, sl. split; [done|]. split; [done|]. split; [transitivity s0; [done|by transitivity s3]|].
      destruct Hr as (R1 & R2 & R3). split; [done|]. split; [lia|]. intros Hv. apply R3, Forall_app. by split; [|repeat constructor].
    + apply Z.eqb_neq in Hne. rewrite ?Hne. destruct (rm_dirs_spec r d (Some p) slots [addr s] s1) as (s2 & -> & H2 & Ho2 & Hap2 & Ha2);
        [done|destruct Hap1 as (E1 & _); unfold arr_ok; rewrite Ha1, E1; by eapply filling_arr|by rewrite Hk1, Hk0|by destruct Hap1 as (_&_&_&_&->)|].
      cbn [mbind res_bind]. destruct (extra_put _ _ _ _ _ _ H2) as (s3 & -> & H3 & Hk3 & Hap3 & Ha3). cbn [mbind res_bind].
      exists e, s3, []. split; [done|]. split; [exists None; split; [done|]; split; [split; [done|congruence]|by rewrite Hk3]|].
      apply Z.eqb_neq in Hne. split; [|by split; [lia|]; split; [|constructor]].
      transitivity s0; [done|]. transitivity s1; [by apply apart_stays|]. transitivity s2; by apply apart_stays.
Qed.
(** ** Writing the number of targets *)

Lemma running_spec r d arr nr slots xs s a t :
  dirs r d arr nr slots xs s -> owned slots (kern s) -> demeter_sysfs_lock s = None -> (a, t) ∈ slots ->
  demeter_sysfs_target_running a s = Ok (bool_decide (is_Some t)).
Proof.
  intros H (Hk & Ht & _) Hl Hin. destruct (d_slot H a t Hin) as (p & Ha & _ & Hp). rewrite Hl in Hp. rewrite Hp in Ha by done.
  unfold demeter_sysfs_target_running, get_target_dir, get_kobj. rewrite Ha. cbn [of_option mbind res_bind data].
  destruct t as [t|]; [|done]. assert (Hs : is_Some (targets (kern s) !! t)).
  { apply Ht. apply list_elem_of_fmap. by exists (a, Some t). }
  destruct (ki_live _ Hk t Hs) as (v & st & Hv & Hh & _). unfold target_pid, get_target. rewrite (has_target Hh).
  cbn. destruct (Z.eqb_spec v 0); [lia|done].
Qed.

Lemma busy_spec r d arr slots s :
  dirs r d arr (zlen slots) slots [] s -> arr_ok arr slots s -> owned slots (kern s) -> demeter_sysfs_lock s = None ->
  demeter_sysfs_targets_busy arr (zlen slots) s = Ok (existsb (fun x => bool_decide (is_Some x.2)) slots).
Proof.
  intros H Har Ho Hl. unfold demeter_sysfs_targets_busy.
  assert (Haux : forall l pre, pre ++ l = slots ->
    targets_busy (seqZ (zlen pre) (zlen l)) arr s = Ok (existsb (fun x => bool_decide (is_Some x.2)) l)).
  { intros l. induction l as [|[a t] l IH]; intros pre Hpre; [done|].
    rewrite zlen_cons, seqZ_cons by (pose proof (zlen_nonneg l); lia). cbn [targets_busy].
    rewrite (get_slot_spec arr slots s (zlen pre) (a, t)); [|done|apply zlen_nonneg|].
    2: { rewrite <- Hpre. unfold zlen. by rewrite Nat2Z.id, list_lookup_middle. }
    cbn [mbind res_bind fst].
    rewrite (running_spec r d arr (zlen slots) slots [] s a t) by (done || (rewrite <- Hpre; set_solver)).
    cbn [mbind res_bind existsb snd]. destruct (bool_decide (is_Some t)); [done|]. cbn [orb].
    replace (Z.pred (1 + zlen l)) with (zlen l) by lia. specialize (IH (pre ++ [(a, t)])).
    rewrite zlen_app, zlen_cons, zlen_nil, <- app_assoc in IH. replace (Z.succ (zlen pre)) with (zlen pre + (1 + 0)) by lia.
    by apply IH. }
  by apply (Haux slots []).
Qed.

Lemma new_dirs_spec r d s n :
  dirs r d None 0 [] [] s -> owned [] (kern s) -> arrays s = ∅ -> demeter_sysfs_lock s = None -> 0 <= n ->
  exists e s' slots, new_dirs d n s = Ok (e, s') /\ tree r d slots s' /\ stays s s' /\ e <= 0 /\ vacant slots /\
    (e = 0 -> zlen slots = n).
Proof.
  intros H Ho Ha Hl Hn. unfold new_dirs. destruct (Z.eqb_spec n 0) as [->|Hn0].
  { exists 0, s, []. split; [done|]. split; [by exists None|]. split; [done|]. split; [done|]. split; [constructor|done]. }
  destruct (alloc_spec s) as (s2 & -> & Hk2 & Ho2 & Ha2 & Hst2 & Had2 & Hlt2).
  assert (Hl2 : demeter_sysfs_lock s2 = None) by by destruct Hst2 as (_&_&_&->).
  assert (H2 : dirs r d None 0 [] [] s2) by (apply (dirs_ext _ _ _ _ _ _ s); congruence).
  destruct (kmalloc_ok s).
  2: { exists (- ENOMEM), s2, []. split; [done|]. split; [exists None; split; [done|]; split; [split; [done|congruence]|by rewrite Hk2]|].
       split; [done|]. split; [done|]. split; [constructor|done]. }
  set (s3 := set_arrays _ _). destruct (set_targets_dir_spec r d None 0 [] [] s3 (Some (addr s)) 0)
    as (s4 & -> & H4 & Hk4 & Hap4 & Ha4). { by apply (dirs_ext _ _ _ _ _ _ s2). }
  cbn [mbind res_bind]. destruct (add_dirs_spec r d (addr s) (Z.to_nat n) [] s4) as (e & s5 & sl & Heq & Ht5 & Hst5 & He & He0 & Hv).
  { destruct Hap4 as (E1 & E2 & E3 & E4 & E5). split; [done|]. split; [rewrite E1; cbn; by apply Hlt2|].
    split; [rewrite Ha4; cbn; by rewrite Ha2, Ha|]. split; [rewrite Hk4; cbn; by rewrite Hk2|]. rewrite E5. done. }
  rewrite zlen_nil, Z2Nat.id in Heq by lia. exists e, s5, sl. rewrite Heq.
  split; [done|]. split; [done|]. split; [transitivity s2; [done|]; transitivity s4; [|done]; by apply (apart_stays s3)|].
  split; [done|]. split; [apply Hv; constructor|]. intros Hz. rewrite (He0 Hz), zlen_nil. lia.
Qed.

(** All slots are given up and new ones made, unless one is in use. *)
Lemma targets_add_dirs_spec r d slots s n :
  tree r d slots s -> demeter_sysfs_lock s = None -> 0 <= n ->
  exists e s' slots', demeter_sysfs_targets_add_dirs d n s = Ok (e, s') /\ tree r d slots' s' /\ stays s s' /\ e <= 0 /\
    ((exists t, Some t ∈ slots.*2) /\ e = - EBUSY /\ s' = s \/ vacant slots /\ vacant slots' /\ (e = 0 -> zlen slots' = n)).
Proof.
  intros (arr & H & Har & Ho) Hl Hn. unfold demeter_sysfs_targets_add_dirs, get_targets_dir, get_kobj. rewrite (d_tdir H).
  cbn [of_option mbind res_bind data]. rewrite (busy_spec r d) by done. cbn [mbind res_bind].
  destruct (existsb _ slots) eqn:Hb.
  - exists (- EBUSY), s, slots. split; [done|]. split; [by exists arr|]. split; [done|]. split; [done|]. left. split; [|done].
    apply existsb_exists in Hb as ([a u] & Hin & Hu). apply bool_decide_eq_true in Hu as [t Ht]. cbn in Ht. subst u.
    exists t. apply list_elem_of_fmap. exists (a, Some t). split; [done|]. by apply list_elem_of_In.
  - assert (Hv : vacant slots).
    { apply Forall_forall. intros [a u] Hin. apply eq_None_not_Some. intros Hu. apply Bool.not_true_iff_false in Hb. apply Hb.
      apply existsb_exists. exists (a, u). split; [by apply list_elem_of_In|]. by rewrite bool_decide_true. }
    destruct (rm_dirs_spec r d arr slots [] s) as (s1 & -> & H1 & Ho1 & Hap1 & Ha1); [done..|]. cbn [mbind res_bind].
    destruct (new_dirs_spec r d s1 n) as (e & s2 & sl & -> & Ht2 & Hst2 & He & Hv2 & He0); try done.
    { by destruct Hap1 as (_&_&_&_&->). }
    exists e, s2, sl. split; [done|]. split; [done|]. split; [transitivity s1; [by apply apart_stays|done]|]. auto.
Qed.

(** ** Writing a process number *)

Lemma owned_perm l l' k : l ≡ₚ l' -> owned l k -> owned l' k.
Proof. intros Hp (Hk & Ht & Hn). split; [done|]. split; [intros t; by rewrite Ht, Hp|by rewrite <- Hp]. Qed.

(** Is the pointer in the directory no longer valid? *)
Definition stale (a : Z) (o : option store) : Prop := exists pid, o = Some (Dropped a pid).

(** Changing one slot and the lock. *)
Lemma dirs_set r d arr nr l1 a t l2 s s' p' t' :
  dirs r d arr nr (l1 ++ (a, t) :: l2) [] s ->
  kobjs s' = <[a := Kobj 1 (Some d) (TargetDir p')]> (kobjs s) -> addr s' = addr s ->
  (stale a (demeter_sysfs_lock s') -> t' = None) -> (~ stale a (demeter_sysfs_lock s') -> p' = t') ->
  (forall b, b <> a -> ~ stale b (demeter_sysfs_lock s) /\ ~ stale b (demeter_sysfs_lock s')) ->
  dirs r d arr nr (l1 ++ (a, t') :: l2) [] s'.
Proof.
  intros H Hk Hadd Hst Hns Hoth. pose proof (d_nodup H) as Hnd.
  assert (Hfst : (l1 ++ (a, t') :: l2).*1 = (l1 ++ (a, t) :: l2).*1) by by rewrite !fmap_app.
  assert (Hain : (a, t) ∈ l1 ++ (a, t) :: l2) by set_solver.
  destruct (dirs_ne _ _ _ _ _ _ _ a H) as [Hra Hda]; [left; apply list_elem_of_fmap; by exists (a, t)|].
  destruct (d_slot H a t Hain) as (p & Hap & _).
  split; rewrite ?Hk, ?Hfst; try apply H.
  - rewrite lookup_insert_ne by done. apply H.
  - rewrite lookup_insert_ne by done. rewrite (d_tdir H). unfold zlen. by rewrite !length_app.
  - intros b u Hin. destruct (decide (b = a)) as [->|Hba].
    + rewrite lookup_insert_eq. exists p'. split; [done|]. assert (u = t') as ->.
      { apply NoDup_cons in Hnd as [_ Hnd]. apply NoDup_cons in Hnd as [_ Hnd].
        rewrite app_nil_r, fmap_app in Hnd. cbn in Hnd. apply NoDup_app in Hnd as (_ & N1 & N2). apply NoDup_cons in N2 as [N2 _].
        apply elem_of_app in Hin as [Hin|[Hin|Hin]%elem_of_cons].
        - destruct (N1 a); [apply list_elem_of_fmap; by exists (a, u)|set_solver].
        - congruence.
        - destruct N2. apply list_elem_of_fmap. by exists (a, u). }
      split; [exact Hst|]. intros Hn. apply Hns. intros [pid Hp]. by apply (Hn pid).
    + rewrite lookup_insert_ne by done. destruct (d_slot H b u) as (q & Hq & _ & Hqn).
      { apply elem_of_app in Hin as [?|[[= -> ->]|?]%elem_of_cons]; set_solver. }
      destruct (Hoth b Hba) as [O1 O2]. exists q. split; [done|]. split.
      * intros Hs. by destruct O2.
      * intros _. apply Hqn. intros pid Hpid. apply O1. by exists pid.
  - intros b Hb. by apply elem_of_nil in Hb.
  - intros b Hs. apply (d_only H). destruct (decide (b = a)) as [->|]; [rewrite Hap; eauto|]. by rewrite lookup_insert_ne in Hs.
  - intros b Hs. rewrite Hadd. apply (d_addr H). destruct (decide (b = a)) as [->|]; [rewrite Hap; eauto|].
    by rewrite lookup_insert_ne in Hs.
Qed.
(** ** The module loaded *)

(** A write under way is to a directory whose target it has stopped. *)
Definition lock_ok (slots : list (Z * option Z)) (s : sysfs) : Prop :=
  match demeter_sysfs_lock s with
  | None => True
  | Some (Dropped a pid) | Some (Sleeping a pid) => (a, None) ∈ slots /\ -1 <= pid
  end.

Definition loaded (s : sysfs) : Prop :=
  list_head_cache s = true /\ exists r d slots, demeter_sysfs_root s = Some r /\ demeter_sysfs_targets s = Some d /\
    tree r d slots s /\ lock_ok slots s.

Lemma loaded_free r d slots s s' :
  loaded s -> demeter_sysfs_root s = Some r -> demeter_sysfs_targets s = Some d ->
  stays s s' -> demeter_sysfs_lock s = None -> tree r d slots s' -> loaded s'.
Proof.
  intros (Hc & _) Hr Hd (E1 & E2 & E3 & E4) Hl Ht. split; [congruence|]. exists r, d, slots. unfold lock_ok.
  rewrite E2, E3, E4, Hl. auto.
Qed.

Lemma nr_targets_loaded count d buf s :
  loaded s -> demeter_sysfs_targets s = Some d -> exists r s', nr_targets_store count d buf s = Ok (r, s') /\ loaded s'.
Proof.
  intros Hs Hd. unfold nr_targets_store. destruct buf as [n|]; [|by eauto]. destruct (Z.ltb_spec n 0); [by eauto|].
  destruct (demeter_sysfs_lock s) eqn:Hl; [by eauto|].
  destruct Hs as (Hc & r & d' & slots & Hr & Hd' & Ht & Hlk). assert (d' = d) as -> by congruence.
  destruct (targets_add_dirs_spec r d slots s n Ht Hl) as (e & s' & sl & -> & Ht' & Hst & _); [done|].
  cbn [mbind res_bind]. eexists _, _. split; [done|]. apply (loaded_free r d sl s); try done. split; [done|]. by exists r, d, slots.
Qed.

Lemma get_target_dir_slot r d arr nr slots s a t :
  dirs r d arr nr slots [] s -> get_target_dir a s = Ok t -> exists u l1 l2, slots = l1 ++ (a, u) :: l2 /\
    kobjs s !! a = Some (Kobj 1 (Some d) (TargetDir t)) /\ (demeter_sysfs_lock s = None -> t = u).
Proof.
  intros H. unfold get_target_dir, get_kobj. destruct (kobjs s !! a) as [o|] eqn:Ho; [|done].
  cbn [of_option mbind res_bind]. intros Hd. assert (Hs : is_Some (kobjs s !! a)) by eauto.
  apply (d_only H) in Hs as [->|[->|[Hin|Hin]]].
  - rewrite (d_root H) in Ho. injection Ho as <-. done.
  - rewrite (d_tdir H) in Ho. injection Ho as <-. done.
  - apply list_elem_of_fmap in Hin as ([b u] & -> & Hin). cbn in *.
    destruct (d_slot H b u Hin) as (p & Hp & _ & Hn). rewrite Hp in Ho. injection Ho as <-. cbn in Hd. injection Hd as ->.
    apply list_elem_of_split in Hin as (l1 & l2 & ->). exists u, l1, l2. split; [done|]. split; [done|].
    intros Hl. rewrite Hl in Hn. by apply Hn.
  - by apply elem_of_nil in Hin.
Qed.

Lemma arr_ok_ext arr slots slots' s s' :
  arr_ok arr slots s -> slots'.*1 = slots.*1 -> arrays s' = arrays s -> addr s' = addr s -> arr_ok arr slots' s'.
Proof.
  unfold arr_ok. intros Ha Hf Hr Hd. destruct arr; rewrite ?Hf, ?Hr, ?Hd; [done|]. destruct Ha as [-> ?]. by destruct slots'.
Qed.

Lemma pid_store_drop_loaded a t buf s :
  loaded s -> get_target_dir a s = Ok t -> exists r s', pid_store_drop a buf s = Ok (r, s') /\ loaded s' /\
    (r = None -> exists pid, buf = Some pid /\ demeter_sysfs_lock s' = Some (Dropped a pid) /\
       forall u, t = Some u -> targets (kern s') !! u = None /\ get_target_dir a s' = Ok (Some u)).
Proof.
  intros Hs Ha. unfold pid_store_drop.
  destruct buf as [pid|]; [|eexists (Some _), s; by split; [|split]].
  destruct (Z.ltb_spec pid (-1)) as [?|Hpid]; [eexists (Some _), s; by split; [|split]|].
  destruct (demeter_sysfs_lock s) eqn:Hl; [eexists (Some _), s; by split; [|split]|]. rewrite Ha. cbn [mbind res_bind].
  destruct Hs as (Hc & r & d & slots & Hr & Hd & (arr & H & Har & Ho) & Hlk).
  destruct (get_target_dir_slot _ _ _ _ _ _ _ _ H Ha) as (u & l1 & l2 & -> & Hk & Hu).
  specialize (Hu Hl). subst u.
  destruct (owned_drop a t (l1 ++ l2) (kern s)) as (k' & Hdrop & Ho1 & Ho2).
  { apply (owned_perm (l1 ++ (a, t) :: l2)); [by rewrite Permutation_middle|done]. }
  rewrite Hdrop. cbn [mbind res_bind]. eexists _, _. split; [done|]. split.
  - split; [done|]. exists r, d, (l1 ++ (a, None) :: l2). split; [done|]. split; [done|].
    split; [|split; [cbn; set_solver|lia]]. exists arr. replace (zlen (l1 ++ (a, None) :: l2)) with (zlen (l1 ++ (a, t) :: l2))
      by (unfold zlen; by rewrite !length_app). split; [|split].
    + apply (dirs_set _ _ _ _ _ _ t _ s _ t); try done; cbn; [by rewrite insert_id|intros []; by eexists|].
      intros b Hb. rewrite Hl. split; intros [? ?]; congruence.
    + apply (arr_ok_ext _ (l1 ++ (a, t) :: l2) _ s); try done. by rewrite !fmap_app.
    + cbn. apply (owned_perm ((a, None) :: l1 ++ l2)); [by rewrite Permutation_middle|done].
  - intros _. exists pid. split; [done|]. split; [done|]. intros w ->. split; [|by unfold get_target_dir, get_kobj; cbn; rewrite Hk].
    cbn. destruct Ho1 as (_ & Ht1 & _). apply eq_None_not_Some. rewrite Ht1. destruct Ho as (_ & _ & Hn).
    rewrite omap_app in Hn. cbn in Hn. rewrite <- Permutation_middle, <- omap_app in Hn. apply NoDup_cons in Hn as [Hn _].
    intros ([b q] & Hq & Hin)%list_elem_of_fmap. cbn in Hq. subst q. apply Hn, list_elem_of_omap. by exists (b, Some w).
Qed.
(** The pointer of a slot whose target the write under way has stopped. *)
Lemma set_target_dir_spec r d arr nr slots s a t :
  dirs r d arr nr slots [] s -> (a, None) ∈ slots ->
  exists l1 l2 s', slots = l1 ++ (a, None) :: l2 /\ set_target_dir a t s = Ok s' /\
    kobjs s' = <[a := Kobj 1 (Some d) (TargetDir t)]> (kobjs s) /\ apart s s' /\ kern s' = kern s /\ arrays s' = arrays s.
Proof.
  intros H Hin. destruct (d_slot H a None Hin) as (p & Hp & _). apply list_elem_of_split in Hin as (l1 & l2 & ->).
  unfold set_target_dir, get_kobj. rewrite Hp. cbn [of_option mbind res_bind]. eexists l1, l2, _. by repeat split.
Qed.

Lemma pid_store_clear_loaded count a pid s :
  loaded s -> demeter_sysfs_lock s = Some (Dropped a pid) ->
  exists r s', pid_store_clear count a pid s = Ok (r, s') /\ loaded s' /\ get_target_dir a s' = Ok None /\
    demeter_sysfs_lock s' = (if pid =? -1 then None else Some (Sleeping a pid)).
Proof.
  intros (Hc & r & d & slots & Hr & Hd & (arr & H & Har & Ho) & Hlk) Hl. unfold lock_ok in Hlk. rewrite Hl in Hlk.
  destruct Hlk as [Hin Hpid]. unfold pid_store_clear.
  destruct (set_target_dir_spec r d arr (zlen slots) slots s a None H Hin) as (l1 & l2 & s1 & -> & -> & Hk1 & Hap1 & Hke1 & Ha1).
  cbn [mbind res_bind]. destruct Hap1 as (E1 & E2 & E3 & E4 & E5).
  assert (Hgen : forall o, (forall b, ~ stale b o) ->
    dirs r d arr (zlen (l1 ++ (a, None) :: l2)) (l1 ++ (a, None) :: l2) [] (set_lock o s1)).
  { intros o Hns. apply (dirs_set _ _ _ _ _ _ None _ s _ None); try done. intros b Hb. split; [|apply Hns].
    rewrite Hl. intros [? ?]. congruence. }
  assert (Hload : forall o, (forall b, ~ stale b o) -> match o with None => True | Some (Dropped b q) | Some (Sleeping b q) => b = a /\ q = pid end ->
    loaded (set_lock o s1)).
  { intros o Hns Ho'. split; [cbn; congruence|]. exists r, d, (l1 ++ (a, None) :: l2). cbn. split; [congruence|]. split; [congruence|]. split.
    - exists arr. split; [by apply Hgen|]. split; [apply (arr_ok_ext _ (l1 ++ (a, None) :: l2) _ s); try done|]. cbn. by rewrite Hke1.
    - unfold lock_ok. cbn. destruct o as [[b q|b q]|]; [destruct Ho' as [-> ->]; auto..|done]. }
  assert (Hget : forall o, get_target_dir a (set_lock o s1) = Ok None).
  { intros o. unfold get_target_dir, get_kobj. cbn. by rewrite Hk1, lookup_insert_eq. }
  destruct (pid =? -1); eexists _, _; (split; [done|]); (split; [|done]); apply Hload; try done; intros b [q Hq]; done.
Qed.

Lemma pid_store_new_loaded count a pid s :
  loaded s -> demeter_sysfs_lock s = Some (Sleeping a pid) ->
  exists r s', pid_store_new count a pid s = Ok (r, s') /\ loaded s' /\ demeter_sysfs_lock s' = None /\
    ((r < 0 /\ targets (kern s') = targets (kern s)) \/
     (r = count /\ exists t, get_target_dir a s' = Ok (Some t) /\ is_Some (targets (kern s') !! t))).
Proof.
  intros (Hc & r & d & slots & Hr & Hd & (arr & H & Har & Ho) & Hlk) Hl. unfold lock_ok in Hlk. rewrite Hl in Hlk.
  destruct Hlk as [Hin Hpid]. unfold pid_store_new. destruct Ho as (Hk & Ht & Hn).
  destruct (kinv_new pid (kern s) Hk) as (x & k' & -> & Hk' & Hx). cbn [mbind res_bind].
  assert (Hns : forall b, ~ stale b (demeter_sysfs_lock s)) by (rewrite Hl; by intros b [q Hq]).
  destruct (set_target_dir_spec r d arr (zlen slots) slots (set_kern k' s) a
    (match x with inr t => Some t | inl _ => None end)) as (l1 & l2 & s1 & -> & Hs1 & Hk1 & Hap1 & Hke1 & Ha1);
    [by apply (dirs_ext _ _ _ _ _ _ s)|done|]. destruct Hap1 as (E1 & E2 & E3 & E4 & E5). cbn in E1, E2, E3, E4, E5.
  destruct x as [e|t].
  - destruct Hx as [He Htg]. eexists _, _. split; [done|]. split; [|split; [done|auto]]. split; [done|].
    exists r, d, (l1 ++ (a, None) :: l2). split; [done|]. split; [done|]. split; [|done]. exists arr. split; [|split; [done|]].
    + destruct (d_slot H a None Hin) as (p & Hp & _ & Hpn). apply (dirs_set _ _ _ _ _ _ None _ s _ p); try done; cbn.
      * by rewrite insert_id.
      * intros _. apply Hpn. intros q Hq. by apply (Hns a); exists q.
      * intros b _. split; [apply Hns|by intros [? ?]].
    + split; [done|]. cbn. rewrite Htg. auto.
  - destruct Hx as [Hnone Htg]. rewrite Hs1. cbn [mbind res_bind]. eexists _, _. split; [done|].
    assert (Hget : get_target_dir a (set_lock None s1) = Ok (Some t)).
    { unfold get_target_dir, get_kobj. cbn. by rewrite Hk1, lookup_insert_eq. }
    split; [|split; [done|]; right; split; [done|]; exists t; split; [done|]; cbn; rewrite Hke1; apply Htg; by left].
    split; [cbn; congruence|]. exists r, d, (l1 ++ (a, Some t) :: l2). split; [cbn; congruence|]. split; [cbn; congruence|]. split; [|done].
    exists arr. replace (zlen (l1 ++ (a, Some t) :: l2)) with (zlen (l1 ++ (a, None) :: l2)) by (unfold zlen; by rewrite !length_app).
    split; [|split].
    + apply (dirs_set _ _ _ _ _ _ None _ s _ (Some t)); try done; cbn; [by intros [? ?]|]. intros b _. split; [apply Hns|by intros [? ?]].
    + apply (arr_ok_ext _ (l1 ++ (a, None) :: l2) _ s); try done. by rewrite !fmap_app.
    + cbn. rewrite Hke1. assert (Hnin : Some t ∉ (l1 ++ (a, None) :: l2).*2) by (rewrite <- Ht, Hnone; by intros []).
      split; [done|]. split.
      * intros b. rewrite (Htg b), Ht, !fmap_app. cbn. set_solver.
      * rewrite omap_app in Hn |- *. cbn in *. rewrite <- Permutation_middle. apply NoDup_cons. split; [|done].
        rewrite <- omap_app, list_elem_of_omap. intros ([b q] & Hb & Hq). cbn in Hq. subst q. apply Hnin, list_elem_of_fmap.
        exists (b, Some t). split; [done|]. set_solver.
Qed.

Lemma loaded_kern s k : loaded s -> kinv k -> (forall t, is_Some (targets k !! t) <-> is_Some (targets (kern s) !! t)) -> loaded (set_kern k s).
Proof.
  intros (Hc & r & d & slots & Hr & Hd & (arr & H & Har & Ho) & Hlk) Hk Ht. split; [done|]. exists r, d, slots.
  split; [done|]. split; [done|]. split; [|done]. exists arr. split; [by apply (dirs_ext _ _ _ _ _ _ s)|]. split; [done|].
  destruct Ho as (_ & Hs & Hn). split; [done|]. split; [|done]. intros t. by rewrite Ht.
Qed.

(** Every step keeps the invariant. *)
Lemma step_loaded s s' : loaded s -> sysfs_step s s' -> loaded s'.
Proof.
  intros Hs Hstep. assert (Hk : kinv (kern s)) by (by destruct Hs as (_ & r & d & sl & _ & _ & (arr & _ & _ & Ho & _) & _)).
  destruct Hstep.
  - destruct (pid_store_drop_loaded a t buf s Hs) as (r' & s2 & Heq & Hl & _); [done|]. by assert (s' = s2) as -> by congruence.
  - destruct (pid_store_clear_loaded count a pid s Hs) as (r' & s2 & Heq & Hl & _); [done|]. by assert (s' = s2) as -> by congruence.
  - destruct (pid_store_new_loaded count a pid s Hs) as (r' & s2 & Heq & Hl & _); [done|]. by assert (s' = s2) as -> by congruence.
  - destruct (nr_targets_loaded count d buf s Hs) as (r' & s2 & Heq & Hl); [done|]. by assert (s' = s2) as -> by congruence.
  - destruct (kinv_throttle t (kern s) Hk) as (k' & Heq & Hk' & Ht). assert (k = k') as -> by congruence.
    apply loaded_kern; [done|done|]. by rewrite Ht.
  - apply loaded_kern; [done|by apply kinv_time|done].
Qed.

Lemma steps_loaded s s' : loaded s -> rtc sysfs_step s s' -> loaded s'.
Proof. intros Hl Hst. revert Hl. induction Hst; eauto using step_loaded. Qed.

(** Unloading gives everything back but the events, which stay disabled. *)
Definition unloaded (s : sysfs) : Prop :=
  kobjs s = ∅ /\ arrays s = ∅ /\ list_head_cache s = false /\ targets (kern s) = ∅ /\ task_refs (kern s) = ∅ /\
  buffers (kern s) = ∅ /\ threads (kern s) = ∅ /\ (forall x b, perf (kern s) !! x = Some b -> b = false).

Lemma owned_nil_empty k :
  owned [] k -> targets k = ∅ /\ task_refs k = ∅ /\ buffers k = ∅ /\ threads k = ∅ /\
    (forall x b, perf k !! x = Some b -> b = false).
Proof.
  intros (Hk & Ht & _). assert (He : forall t, targets k !! t = None).
  { intros t. apply eq_None_not_Some. rewrite Ht. cbn. set_solver. }
  split; [by apply map_empty|]. split; [apply map_empty; intros t; by apply (ki_dead _ Hk)|].
  split; [apply elem_of_equiv_empty_L; intros [t i]; by apply (ki_dead _ Hk)|].
  split; [apply map_empty; intros [t i]; by apply (ki_dead _ Hk)|].
  intros x [] Hx; [|done]. destruct (ki_armed _ Hk x Hx) as (u & Hu & _). rewrite He in Hu. done.
Qed.

Lemma exit_unloaded s :
  loaded s -> demeter_sysfs_lock s = None -> exists s', exit s = Ok s' /\ unloaded s'.
Proof.
  intros (Hc & r & d & slots & Hr & Hd & (arr & H & Har & Ho) & _) Hl. unfold exit, demeter_sysfs_exit. rewrite Hr, Hd.
  destruct (rm_dirs_spec r d arr slots [] s) as (s1 & -> & H1 & Ho1 & Hap1 & Ha1); [done..|]. cbn [mbind res_bind].
  pose proof (dirs_root_ne _ _ _ _ _ _ _ H1) as Hrd.
  set (s2 := put_kobj r (Kobj 1 None RootDir) (free_kobj d s1)).
  assert (Hp1 : kobject_put d s1 = Ok s2).
  { unfold kobject_put. cbn [kobject_put_levels]. unfold get_kobj. rewrite (d_tdir H1). cbn.
    by rewrite lookup_delete_ne, (d_root H1). }
  assert (Hp2 : kobject_put r s2 = Ok (free_kobj r s2)).
  { unfold kobject_put. cbn [kobject_put_levels]. unfold get_kobj. cbn. by rewrite lookup_insert_eq. }
  rewrite Hp1. cbn [mbind res_bind]. rewrite Hp2. cbn [mbind res_bind].
  eexists. split; [done|]. split; [|split; [done|split; [done|by apply owned_nil_empty]]].
  cbn. apply map_empty. intros a. destruct (decide (a = r)) as [->|Har']; [by rewrite lookup_delete_eq|].
  rewrite lookup_delete_ne, lookup_insert_ne by done. apply eq_None_not_Some. intros [Hne Hs]%lookup_delete_is_Some.
  apply (d_only H1) in Hs. set_solver.
Qed.
(** Before the module is loaded. *)
Definition clean (s : sysfs) : Prop :=
  kinv (kern s) /\ targets (kern s) = ∅ /\ kobjs s = ∅ /\ arrays s = ∅ /\ demeter_sysfs_lock s = None.

Lemma clean_owned s : clean s -> owned [] (kern s).
Proof.
  intros (Hk & Ht & _). split; [done|]. split; [|constructor]. intros t. rewrite Ht. cbn. split; [by intros []|set_solver].
Qed.

(** The two directories of an empty tree. *)
Lemma dirs_start r d s :
  r <> d -> kobjs s = <[d := Kobj 1 (Some r) (TargetsDir None 0)]> {[r := Kobj 2 None RootDir]} -> r < addr s -> d < addr s ->
  dirs r d None 0 [] [] s.
Proof.
  intros Hrd Hk Hr Hd. assert (Hin : forall a, is_Some (kobjs s !! a) -> a = r \/ a = d).
  { intros a. rewrite Hk, lookup_insert_is_Some, lookup_singleton_is_Some. naive_solver. }
  split; rewrite ?Hk.
  - by rewrite lookup_insert_ne, lookup_singleton_eq.
  - by rewrite lookup_insert_eq.
  - by intros a t ?%elem_of_nil.
  - by intros a ?%elem_of_nil.
  - rewrite <- Hk. naive_solver.
  - repeat (apply NoDup_cons; split); [set_solver..|constructor].
  - rewrite <- Hk. naive_solver.
Qed.

(** Undoing a failed initialisation. *)
Lemma init_undo r d s :
  r <> d -> kobjs s = <[d := Kobj 1 None (TargetsDir None 0)]> {[r := Kobj 1 None RootDir]} ->
  exists s1 s2, kobject_put d s = Ok s1 /\ kobject_put r s1 = Ok s2 /\ kobjs s2 = ∅ /\ kern s2 = kern s /\ arrays s2 = arrays s.
Proof.
  intros Hrd Hk. exists (free_kobj d s), (free_kobj r (free_kobj d s)).
  assert (Hs1 : kobjs (free_kobj d s) = {[r := Kobj 1 None RootDir]}).
  { cbn. rewrite Hk, delete_insert_id; [done|]. by rewrite lookup_singleton_ne. }
  split; [|split; [|split; [|done]]].
  - unfold kobject_put. cbn [kobject_put_levels]. unfold get_kobj. by rewrite Hk, lookup_insert_eq.
  - unfold kobject_put. cbn [kobject_put_levels]. unfold get_kobj. by rewrite Hs1, lookup_singleton_eq.
  - unfold free_kobj at 1. cbn [kobjs set_kobjs]. by rewrite Hs1, delete_singleton_eq.
Qed.

(** Loading the module: a fault when there is no memory for the directory of the
    targets, an error that leaves no directory, or success. *)
Lemma init_spec s :
  clean s -> init s = Fault BadPointer \/
  exists e s', init s = Ok (e, s') /\ kern s' = kern s /\ (e = 0 /\ loaded s' /\ demeter_sysfs_lock s' = None \/
    e < 0 /\ kobjs s' = ∅ /\ arrays s' = ∅).
Proof.
  intros Hcl. pose proof (clean_owned s Hcl) as Ho. destruct Hcl as (_ & _ & Hk & Ha & Hl).
  unfold init. destruct (kmalloc_ok s); cbn [negb]; [|right; eexists _, _; split; [done|]; split; [done|]; by right].
  unfold demeter_sysfs_init, kobject_create_and_add. destruct (alloc_spec (set_cache true s)) as (s1 & -> & Hk1 & Ho1 & Ha1 & Hst1 & Had1 & Hlt1).
  cbn in Hk1, Ho1, Ha1. rewrite Hk in Ho1.
  destruct (kmalloc_ok (set_cache true s)); [|right; eexists _, _; split; [done|]; split; [done|]; right; cbn; split; [done|]; split; congruence].
  destruct (Z.eqb_spec (kobject_add s1) 0); [|right; eexists _, _; split; [done|]; split; [done|]; right; cbn; split; [done|]; split; congruence].
  set (r := addr (set_cache true s)) in *. set (s2 := set_root _ _).
  destruct (alloc_spec s2) as (s3 & -> & Hk3 & Ho3 & Ha3 & Hst3 & Had3 & Hlt3).
  destruct (kmalloc_ok s2); [|by left]. right. cbn [of_option mbind res_bind]. set (d := addr s2) in *.
  assert (Hrd : r < d) by (by apply Hlt1). specialize (Hlt3 eq_refl). unfold kobject_init_and_add, get_kobj.
  change (kern s3 = kern s1) in Hk3. change (arrays s3 = arrays s1) in Ha3.
  change (kobjs s3 = <[r := Kobj 1 None RootDir]> (kobjs s1)) in Ho3. rewrite Ho1, insert_empty in Ho3.
  cbn [kobjs set_tdir]. pose proof (kobject_add_err (set_tdir (Some d) s3)) as Hadd3. rewrite Ho3, lookup_singleton_eq.
  destruct (Z.eqb_spec (kobject_add (set_tdir (Some d) s3)) 0) as [He|He]; cbn [of_option mbind res_bind].
  - eexists 0, _. split; [done|]. split; [cbn; congruence|]. left. split; [done|].
    destruct Hst1 as (C1 & C2 & C3 & C4), Hst3 as (D1 & D2 & D3 & D4). cbn in C1, C2, C3, C4, D1, D2, D3, D4.
    split; [|cbn; congruence]. split; [cbn; congruence|]. exists r, d, []. split; [done|]. split; [done|].
    split; [|unfold lock_ok; cbn; by rewrite D4, C4, Hl]. exists None. split; [|split; [split; [done|cbn; congruence]|]].
    + assert (r < addr s3) by lia. apply dirs_start; [lia| |done|done]. cbn. by rewrite Ho3, insert_singleton_eq.
    + cbn. by rewrite Hk3, Hk1.
  - apply Z.eqb_neq in He. rewrite He. apply Z.eqb_neq in He.
    destruct (init_undo r d (put_kobj d (Kobj 1 None (TargetsDir None 0)) (set_tdir (Some d) s3)))
      as (s4 & s5 & -> & Hp & U1 & U2 & U3); [lia|cbn; by rewrite Ho3|].
    cbn [mbind res_bind]. rewrite Hp. cbn [mbind res_bind]. eexists _, _. split; [done|]. cbn in U2, U3.
    split; [congruence|]. right. split; [lia|]. split; [done|congruence].
Qed.
End dirs.
