(* ===== verification/TargetProps.v ===== *)
(** Properties of the life and the control of targets (mm/demeter/core.c, sysfs.c
    and module.c in the patch): what creating and stopping a target leaves
    behind, that the directories own the targets under every sequence of
    accesses, and two faults of the code. *)
From stdpp Require Import base numbers list gmap relations.
From Stdlib Require Import ZArith Lia.
From S2P Require Import Prelude Kernel Target Sysfs TargetProofs SysfsProofs.
Open Scope Z_scope.

Section props.
Context {TE : TargetEnv} {TL : TargetLaws TE} {SE : SysfsEnv} {SL : SysfsLaws SE}.

(** C10: Creating a target never faults, whichever of its steps fails and
    whatever the throttling thread does meanwhile (the module parameters being
    those of a pulse, its width below its period): it returns a complete target
    at a fresh address and changes nothing else, or an error, and then every
    task reference, channel, thread and structure is given back and only
    disabled events, fewer than a target has, are left behind. *)
Theorem target_new_outcomes pid k :
  fresh k -> armed_ok k -> 0 <= now k < 2 ^ 64 - 1 ->
  exists r k', target_new pid k = Ok (r, k') /\
    match r with
    | inl e => e < 0 /\ (k' = k \/ exists n, 0 <= n < MAX_EVENTS /\ k' = leaked n k)
    | inr t => t = next k /\ grown t k k' /\ exists v, complete t v (now k) k'
    end.
Proof. apply target_new_spec. Qed.

(** C9: Creating a target, letting its throttling thread run for any number of
    steps and stopping the target restores the state: nothing is left but the two
    perf events, which are disabled (they are never released). *)
Theorem target_roundtrip n pid t k k1 k2 :
  fresh k -> armed_ok k -> 0 <= now k < 2 ^ 64 - 1 ->
  target_new pid k = Ok (inr t, k1) -> throttle_run n t k1 = Ok k2 ->
  target_drop (Some t) k2 = Ok (leaked MAX_EVENTS k).
Proof.
  intros Hf Ha Ht Hnew Hrun. destruct (target_new_spec pid k Hf Ha Ht) as (r & k' & Heq & Hr).
  rewrite Hnew in Heq. injection Heq as <- <-. destruct Hr as (-> & Hg & v & Hv & H & Hal).
  destruct (throttle_run_spec n _ _ _ _ _ _ _ H) as (k3 & Heq & Hb & Hd & H3 & _).
  assert (k3 = k2) as -> by congruence.
  rewrite (target_drop_eq _ _ _ _ _ _ _ H3) by by apply (alive_dom _ _ _ k1).
  f_equal. apply (released_leaked (Some v) MAX_CHANS MAX_WORKERS MAX_EVENTS (now k) k k2 Hf); [by apply (grown_beside _ _ k1)|exact H3].
Qed.

(** C8: Once the module is loaded, every sequence of writes to the files, in the
    pieces of which time and the throttling threads can come between, keeps the
    invariant that the directories own the targets: each target of the kernel is
    complete and in exactly one directory, and nothing else is held.  In every
    state reached no piece of a write faults, neither the one that can begin now
    nor the one the write under way goes on with (clearing the pointer after the
    old target is dropped, creating the new one), nor does a throttling thread;
    and, with no write under way, unloading the module stops all targets and gives
    everything back but disabled events.  This is as long as no policy thread
    returns early because it cannot allocate its array, and with module parameters
    that describe a pulse (width below period, which the thread checks with
    BUG_ON); reads of the files, which take no lock, are left out. *)
Theorem control_invariant s s0 s1 :
  clean s -> init s = Ok (0, s0) -> rtc sysfs_step s0 s1 ->
  loaded s1 /\
  (forall count d buf, demeter_sysfs_targets s1 = Some d -> is_ok (nr_targets_store count d buf s1) = true) /\
  (forall a t buf, get_target_dir a s1 = Ok t -> is_ok (pid_store_drop a buf s1) = true) /\
  (forall count a pid, demeter_sysfs_lock s1 = Some (Dropped a pid) -> is_ok (pid_store_clear count a pid s1) = true) /\
  (forall count a pid, demeter_sysfs_lock s1 = Some (Sleeping a pid) -> is_ok (pid_store_new count a pid s1) = true) /\
  (forall t, is_ok (worker_throttle t (kern s1)) = true) /\
  (demeter_sysfs_lock s1 = None -> exists s', exit s1 = Ok s' /\ unloaded s').
Proof.
  intros Hc Hi Hsteps. assert (Hl : loaded s0).
  { destruct (init_spec s Hc) as [Hf|(e & s' & Heq & _ & Hr)]; [congruence|]. rewrite Hi in Heq. injection Heq as <- <-.
    destruct Hr as [(_ & Hl & _)|[? _]]; [done|lia]. }
  pose proof (steps_loaded s0 s1 Hl Hsteps) as Hl1.
  split; [done|]. split; [|split; [|split; [|split; [|split]]]].
  - intros count d buf Hd. by destruct (nr_targets_loaded count d buf s1 Hl1 Hd) as (r & s' & -> & _).
  - intros a t buf Ha. by destruct (pid_store_drop_loaded a t buf s1 Hl1 Ha) as (r & s' & -> & _).
  - intros count a pid Ha. by destruct (pid_store_clear_loaded count a pid s1 Hl1 Ha) as (r & s' & -> & _).
  - intros count a pid Ha. by destruct (pid_store_new_loaded count a pid s1 Hl1 Ha) as (r & s' & -> & _).
  - intros t. destruct Hl1 as (_ & r & d & sl & _ & _ & (arr & _ & _ & Hk & _) & _).
    by destruct (kinv_throttle t (kern s1) Hk) as (k & -> & _).
  - intros Hn. by apply exit_unloaded.
Qed.

(** Writing the number of targets is all or nothing with respect to targets
    in use: if one is attached the write is refused with EBUSY and changes
    nothing; otherwise all directories are replaced, and on success there are as
    many as asked for, without targets. *)
Theorem nr_targets_respects_busy r d slots n s :
  tree r d slots s -> demeter_sysfs_lock s = None -> 0 <= n ->
  exists e s' slots', demeter_sysfs_targets_add_dirs d n s = Ok (e, s') /\ tree r d slots' s' /\ e <= 0 /\
    ((exists t, Some t ∈ slots.*2) /\ e = - EBUSY /\ s' = s \/
     vacant slots /\ vacant slots' /\ (e = 0 -> zlen slots' = n)).
Proof.
  intros Ht Hl Hn. destruct (targets_add_dirs_spec r d slots s n Ht Hl Hn) as (e & s' & sl & H1 & H2 & _ & H3 & H4).
  exists e, s', sl. auto.
Qed.

(** C35: Reading the file [pid] takes no lock: between the end of [target_drop] in
    a write and the clearing of the pointer, a read of the same file follows the
    pointer to the freed target. *)
Theorem pid_show_race a t pid s :
  loaded s -> demeter_sysfs_lock s = None -> get_target_dir a s = Ok (Some t) -> -1 <= pid ->
  exists s', sysfs_step s s' /\ pid_store_drop a (Some pid) s = Ok (None, s') /\ pid_show a s' = Fault BadPointer.
Proof.
  intros Hs Hl Ha Hp. destruct (pid_store_drop_loaded a (Some t) (Some pid) s Hs Ha) as (r & s' & Heq & _ & Hr).
  assert (r = None) as ->.
  { unfold pid_store_drop in Heq. destruct (Z.ltb_spec pid (-1)); [lia|]. rewrite Hl, Ha in Heq. cbn [mbind res_bind] in Heq.
    destruct (target_drop (Some t) (kern s)); [|done]. by injection Heq. }
  destruct (Hr eq_refl) as (q & _ & _ & Hq). destruct (Hq t eq_refl) as [Hgone Hget].
  exists s'. split; [by eapply step_pid_store|]. split; [done|]. unfold pid_show. rewrite Hget. cbn [mbind res_bind].
  unfold target_pid, get_target. by rewrite Hgone.
Qed.

(** C36: A policy thread that cannot allocate its array of ranges returns at once;
    stopping its target afterwards uses the thread that is gone. *)
Theorem policy_exit_unstoppable t v st k :
  complete t v st k ->
  exists k', worker_policy_enter t 0 k = (- EFAULT, k') /\ target_drop (Some t) k' = Fault BadPointer.
Proof.
  intros (Hv & H & Ha). eexists. split; [reflexivity|].
  assert (Halive : forall i, 0 <= i < MAX_WORKERS -> i <> WORKER_POLICY ->
    is_Some (threads (set_threads (delete (t, WORKER_POLICY) (threads k)) k) !! (t, i))).
  { intros i Hi Hne. cbn. rewrite lookup_delete_ne by congruence. by apply Ha. }
  apply (target_drop_gone t (Some v) MAX_CHANS MAX_WORKERS MAX_EVENTS st); [|done|by apply Halive..|].
  - split; apply H.
  - cbn. apply lookup_delete_eq.
Qed.
End props.

(** ** Runs on a small machine *)

Module Demo.
(** Processes 1, 2, ...; nothing fails, except the creation of event [bad]. *)
Definition env (bad : Z) : TargetEnv := {|
  kzalloc_ok _ := true;
  find_get_task_by_vpid _ pid := if 0 <? pid then Some pid else None;
  ring_buffer_alloc_ok _ := true;
  kthread_run_ok _ _ := true;
  perf_event_create_kernel_counter _ i := if i =? bad then - EINVAL else 0;
  throttle_steps _ := 2%nat;
  throttle_period := THROTTLE_PULSE_PERIOD_MS;
  throttle_width := 1 |}.

Definition senv : SysfsEnv := {| kmalloc_ok _ := true; kobject_add _ := 0 |}.

(** No memory for the directory of the targets. *)
Definition senv_full : SysfsEnv := {| kmalloc_ok s := addr s <? 2; kobject_add _ := 0 |}.

#[export] Instance env_laws bad : TargetLaws (env bad).
Proof.
  split; cbn.
  - intros _ pid v. destruct (Z.ltb_spec 0 pid); [intros [= <-]; lia|done].
  - intros _ i. unfold EINVAL. case_match; lia.
  - unfold THROTTLE_PULSE_PERIOD_MS. lia.
Qed.

#[export] Instance senv_laws : SysfsLaws senv.
Proof. split. cbn. lia. Qed.

Definition e9 : TargetEnv := env 9.
#[local] Existing Instance e9.
#[local] Existing Instance senv.
#[local] Instance e9_laws : TargetLaws e9 := env_laws 9.

Definition k0 : kernel := Kern 0 1 ∅ ∅ ∅ ∅ ∅.
Definition start : sysfs := Sysfs k0 1 ∅ ∅ false None None None.

Lemma k0_fresh : fresh k0.
Proof. by intros t _. Qed.
Lemma k0_armed : armed_ok k0.
Proof. by intros x. Qed.
Lemma start_clean : clean start.
Proof.
  split; [|done]. split; [apply k0_fresh|apply k0_armed|done|by intros t []|done].
Qed.

Definition ok_state {A B} (d : B) (m : res (A * B)) : B := match m with Ok (_, s) => s | Fault _ => d end.

(** A target of process 7; the module loaded, with one directory, after a write of
    7 to its file. *)
Definition k1 : kernel := ok_state k0 (target_new 7 k0).
Definition k2 : kernel := match throttle_run 4 1 k1 with Ok k => k | Fault _ => k1 end.
Definition s0 : sysfs := ok_state start (init start).
Definition s1 : sysfs := ok_state s0 (nr_targets_store 1 2 (Some 1) s0).
Definition s2 : sysfs := ok_state s1 (pid_store_drop 4 (Some 7) s1).
Definition s3 : sysfs := ok_state s2 (pid_store_clear 1 4 7 s2).
Definition s4 : sysfs := ok_state s3 (pid_store_new 1 4 7 s3).

Lemma steps : rtc sysfs_step s0 s4.
Proof.
  apply (rtc_l _ _ s1); [eapply (step_nr_targets 1 2 (Some 1)); vm_compute; reflexivity|].
  apply (rtc_l _ _ s2); [eapply (step_pid_store 4 None (Some 7)); vm_compute; reflexivity|].
  apply (rtc_l _ _ s3); [eapply (step_pid_clear 1 4 7); vm_compute; reflexivity|].
  apply (rtc_l _ _ s4); [eapply (step_pid_new 1 4 7); vm_compute; reflexivity|]. done.
Qed.

Lemma s0_loaded : loaded s0.
Proof.
  destruct (init_spec start start_clean) as [H|(e & s & H & _ & Hr)]; [by vm_compute in H|].
  assert (Hs : init start = Ok (0, s0)) by by vm_compute. rewrite Hs in H. injection H as <- <-.
  destruct Hr as [(_ & Hl & _)|[? _]]; [done|lia].
Qed.

Lemma s4_loaded : loaded s4.
Proof.
  exact (steps_loaded s0 s4 s0_loaded steps).
Qed.

Lemma s0_tree : tree 1 2 [] s0.
Proof.
  destruct s0_loaded as (_ & r & d & slots & Hr & Hd & Ht & _). vm_compute in Hr, Hd. injection Hr as <-. injection Hd as <-.
  assert (slots = []) as ->; [|done]. destruct Ht as (arr & H & _). pose proof (d_tdir H) as Hn. vm_compute in Hn.
  injection Hn as Hz. destruct slots; [done|]. exfalso. cbn in Hz. lia.
Qed.

Lemma k1_complete : exists v, complete 1 v 0 k1.
Proof.
  destruct (target_new_spec 7 k0 k0_fresh k0_armed) as (r & k & H & Hr); [done|].
  assert (Hk : target_new 7 k0 = Ok (inr 1, k1)) by by vm_compute. rewrite Hk in H. injection H as <- <-.
  by destruct Hr as (_ & _ & Hv).
Qed.

(** A machine whose second event cannot be created: the first stays behind. *)
Lemma target_new_outcomes_witness :
  @target_new (env 1) 7 k0 = Ok (inl (- EINVAL), leaked 1 k0) /\
  exists r k', @target_new (env 1) 7 k0 = Ok (r, k') /\
    match r with
    | inl e => e < 0 /\ (k' = k0 \/ exists n, 0 <= n < MAX_EVENTS /\ k' = leaked n k0)
    | inr t => t = next k0 /\ grown t k0 k' /\ exists v, complete t v (now k0) k'
    end.
Proof.
  split; [vm_compute; reflexivity|].
  exact (target_new_outcomes (TE := env 1) 7 k0 k0_fresh k0_armed ltac:(cbn; lia)).
Defined.

Lemma target_roundtrip_witness : target_drop (Some 1) k2 = Ok (leaked MAX_EVENTS k0).
Proof.
  apply (target_roundtrip 4 7 1 k0 k1 k2 k0_fresh k0_armed); [cbn; lia|vm_compute; reflexivity..].
Defined.

Lemma control_invariant_witness :
  demeter_sysfs_lock s4 = None /\ get_target_dir 4 s4 = Ok (Some 1) /\ exists s', exit s4 = Ok s' /\ unloaded s'.
Proof.
  split; [vm_compute; reflexivity|]. split; [vm_compute; reflexivity|].
  apply (control_invariant start s0 s4 start_clean); [vm_compute; reflexivity|exact steps|vm_compute; reflexivity].
Defined.

Lemma nr_targets_respects_busy_witness :
  exists e s' slots', demeter_sysfs_targets_add_dirs 2 3 s0 = Ok (e, s') /\ tree 1 2 slots' s' /\ e <= 0 /\
    ((exists t, Some t ∈ (@nil (Z * option Z)).*2) /\ e = - EBUSY /\ s' = s0 \/
     vacant [] /\ vacant slots' /\ (e = 0 -> zlen slots' = 3)).
Proof.
  apply (nr_targets_respects_busy 1 2 [] 3 s0 s0_tree); [vm_compute; reflexivity|lia].
Defined.

Lemma pid_show_race_witness :
  exists s', sysfs_step s4 s' /\ pid_store_drop 4 (Some (-1)) s4 = Ok (None, s') /\ pid_show 4 s' = Fault BadPointer.
Proof.
  apply (pid_show_race 4 1 (-1) s4 s4_loaded); [vm_compute; reflexivity..|lia].
Defined.

Lemma policy_exit_unstoppable_witness :
  exists k', worker_policy_enter 1 0 k1 = (- EFAULT, k') /\ target_drop (Some 1) k' = Fault BadPointer.
Proof.
  destruct k1_complete as [v Hv]. exact (policy_exit_unstoppable 1 v 0 k1 Hv).
Defined.

(** Loading the module without memory for the directory of the targets. *)
Example init_no_memory : @init e9 senv_full start = Fault BadPointer.
Proof. vm_compute. reflexivity. Qed.

(** Detaching through the whole of [pid_store]. *)
Example detach : exists s, pid_store 3 4 (Some (-1)) s4 = Ok (3, s) /\ pid_show 4 s = Ok (-1) /\ targets (kern s) = ∅.
Proof. eexists. vm_compute. auto. Qed.
End Demo.
