(* ===== verification/Wait.v ===== *)
(** Waiting on several channels (kernel/trace/ring_buffer.c in the patch, used
    through mm/demeter/mpsc.h): [select2] and [select3] return the first channel
    with a message, or sleep until one gets a message or a signal arrives.

    Time advances by one with every step of the waiting thread; what arrives when
    is a parameter.  An arrival wakes the threads in the wait queue of its
    channel, a signal wakes any thread that sleeps interruptibly, and a thread
    with a pending signal does not fall asleep: this is the contract of wait
    queues, which are not part of the repository.  A message stays until it is
    consumed, which the waiting thread itself does later. *)
From stdpp Require Import base numbers list.
From Stdlib Require Import ZArith Lia.
From S2P Require Import Prelude Kernel.
Open Scope Z_scope.

Definition ERESTARTSYS : Z := 512.

(** [running]: TASK_RUNNING rather than TASK_INTERRUPTIBLE; [queues]: the wait
    queues the thread is in. *)
Record waiter := Waiter { time : nat; running : bool; queues : list nat }.

Section select.
Context (arrive : nat -> nat -> bool) (signal : nat -> bool).

(** [rb_wait_cond]: has a message arrived on the channel? *)
Definition ready (n i : nat) : bool := existsb (fun m => arrive m i) (seq 0 n).

Definition signal_pending (n : nat) : bool := existsb signal (seq 0 n).

(** One step: what arrives now wakes the thread. *)
Definition tick (w : waiter) : waiter :=
  Waiter (S (time w)) (running w || existsb (arrive (time w)) (queues w) || signal (time w)) (queues w).

(** The conditions in order: the number of the first that holds. *)
Fixpoint check_all (chans : list nat) (idx : Z) (w : waiter) : option Z * waiter :=
  match chans with
  | [] => (None, w)
  | i :: chans => if ready (time w) i then (Some idx, tick w) else check_all chans (idx + 1) (tick w)
  end.

(** [__make_wqe] for each channel. *)
Fixpoint add_wait_queues (chans : list nat) (w : waiter) : waiter :=
  match chans with
  | [] => w
  | i :: chans => add_wait_queues chans (tick (Waiter (time w) (running w) (i :: queues w)))
  end.

(** [schedule]: sleeps until it is woken. *)
Fixpoint schedule (fuel : nat) (w : waiter) : res waiter :=
  if running w || signal_pending (time w) then Ok (Waiter (time w) true (queues w))
  else match fuel with O => Fault OutOfFuel | S fuel => schedule fuel (tick w) end.

(** The loop, up to the result. *)
Fixpoint select_loop (fuel : nat) (chans : list nat) (w : waiter) : res (Z * waiter) :=
  match fuel with
  | O => Fault OutOfFuel
  | S fuel' =>
      let w := tick (Waiter (time w) false (queues w)) in
      let '(r, w) := check_all chans 0 w in
      match r with
      | Some r => Ok (r, w)
      | None =>
          w ← schedule fuel w;
          if signal_pending (time w) then Ok (- ERESTARTSYS, w) else select_loop fuel' chans w
      end
  end.

(** The destructors of the entries and [__set_current_state]. *)
Definition leave (w : waiter) : waiter := Waiter (time w) true [].

Definition select (fuel : nat) (chans : list nat) (w : waiter) : res (Z * waiter) :=
  let '(r, w) := check_all chans 0 w in
  match r with
  | Some r => Ok (r, w)
  | None =>
      '(r, w) ← select_loop fuel chans (add_wait_queues chans w);
      Ok (r, leave w)
  end.

(** [ring_buffer_select2] and [ring_buffer_select3]; the conditions given by
    mm/demeter/mpsc.h never hold by themselves. *)
Definition ring_buffer_select2 (fuel : nat) (b0 b1 : nat) (w : waiter) : res (Z * waiter) := select fuel [b0; b1] w.
Definition ring_buffer_select3 (fuel : nat) (b0 b1 b2 : nat) (w : waiter) : res (Z * waiter) := select fuel [b0; b1; b2] w.

Definition mpsc_select2 (fuel : nat) (ch0 ch1 : nat) (w : waiter) : res (Z * waiter) := ring_buffer_select2 fuel ch0 ch1 w.
Definition mpsc_select3 (fuel : nat) (ch0 ch1 ch2 : nat) (w : waiter) : res (Z * waiter) := ring_buffer_select3 fuel ch0 ch1 ch2 w.

(** ** Lemmas *)

Lemma ready_spec n i : ready n i = true <-> exists m, (m < n)%nat /\ arrive m i = true.
Proof.
  unfold ready. rewrite existsb_exists. split.
  - intros (m & Hm & Ha). apply in_seq in Hm. exists m. split; [lia|done].
  - intros (m & Hm & Ha). exists m. split; [apply in_seq; lia|done].
Qed.

Lemma pending_spec n : signal_pending n = true <-> exists m, (m < n)%nat /\ signal m = true.
Proof.
  unfold signal_pending. rewrite existsb_exists. split.
  - intros (m & Hm & Ha). apply in_seq in Hm. exists m. split; [lia|done].
  - intros (m & Hm & Ha). exists m. split; [apply in_seq; lia|done].
Qed.

Lemma ready_mono n n' i : (n <= n')%nat -> ready n i = true -> ready n' i = true.
Proof. rewrite !ready_spec. intros Hle (m & Hm & Ha). exists m. split; [lia|done]. Qed.

(** The checks find the first channel with a message, or none at any of them. *)
Lemma check_all_spec chans idx w :
  let '(r, w') := check_all chans idx w in
  queues w' = queues w /\ (time w <= time w' <= time w + length chans)%nat /\
  match r with
  | Some x => exists k i, chans !! k = Some i /\ x = idx + Z.of_nat k /\ ready (time w') i = true /\
      forall j i', (j < k)%nat -> chans !! j = Some i' -> ready (time w) i' = false
  | None => (forall i, i ∈ chans -> ready (time w) i = false)
  end.
Proof.
  revert idx w. induction chans as [|i chans IH]; intros idx w; cbn [check_all].
  - cbn. split; [done|]. split; [lia|]. by intros i ?%elem_of_nil.
  - destruct (ready (time w) i) eqn:Hr.
    + cbn -[ready]. split; [done|]. split; [lia|]. exists 0%nat, i. split; [done|]. split; [lia|].
      split; [by apply (ready_mono (time w)); [lia|]|lia].
    + specialize (IH (idx + 1) (tick w)). destruct (check_all chans (idx + 1) (tick w)) as [r w'].
      destruct IH as (Hq & Ht & IH). cbn in Hq, Ht. split; [done|]. cbn [length]. split; [lia|].
      assert (Hback : forall i', ready (time (tick w)) i' = false -> ready (time w) i' = false).
      { intros i' Hi'. apply Bool.not_true_iff_false. intros H. apply (ready_mono _ (time (tick w))) in H; [congruence|cbn; lia]. }
      destruct r as [x|].
      * destruct IH as (k & i0 & Hk & -> & Hi0 & Hlow). exists (S k), i0. split; [done|]. split; [lia|]. split; [done|].
        intros [|j] i' Hj Hi'; [cbn in Hi'; congruence|]. apply Hback. apply (Hlow j); [lia|done].
      * intros i' [->|Hi']%elem_of_cons; [done|]. by apply Hback, IH.
Qed.
(** What wakes a thread in the queues [q] at time [m]. *)
Definition wakes (q : list nat) (m : nat) : Prop := existsb (arrive m) q = true \/ signal m = true.

(** A thread that runs after it went to sleep has a reason. *)
Definition justified (w : waiter) : Prop :=
  running w = true -> signal_pending (time w) = true \/ exists i, i ∈ queues w /\ ready (time w) i = true.

(** A thread in its queues since [n] has not missed what arrived. *)
Definition attentive (n : nat) (w : waiter) : Prop :=
  forall m, (n <= m < time w)%nat -> wakes (queues w) m -> running w = true.

Lemma tick_justified w : justified w -> justified (tick w).
Proof.
  intros Hj. unfold justified. cbn -[ready signal_pending]. intros [[Hr|Ha]%orb_prop|Hs]%orb_prop.
  - destruct (Hj Hr) as [Hp|(i & Hi & Hp)].
    + left. apply pending_spec. apply pending_spec in Hp as (m & Hm & Hp). exists m. split; [lia|done].
    + right. exists i. split; [done|]. by apply (ready_mono (time w)); [lia|].
  - right. apply existsb_exists in Ha as (i & Hi & Ha). exists i. split; [by apply list_elem_of_In|]. apply ready_spec.
    exists (time w). split; [lia|done].
  - left. apply pending_spec. exists (time w). split; [lia|done].
Qed.

Lemma tick_attentive n w : attentive n w -> attentive n (tick w).
Proof.
  intros Ha m Hm Hw. cbn in *. destruct (decide (m = time w)) as [->|Hne].
  - destruct Hw as [-> | ->]; [by rewrite orb_true_r|by rewrite orb_true_r].
  - rewrite (Ha m) by (done || lia). done.
Qed.

Lemma check_all_ind (P : waiter -> Prop) chans idx w :
  (forall w, P w -> P (tick w)) -> P w -> P (check_all chans idx w).2.
Proof.
  intros Hstep. revert idx w. induction chans as [|i chans IH]; intros idx w Hw; cbn [check_all]; [done|].
  destruct (ready (time w) i); cbn; auto.
Qed.

Lemma add_wait_queues_spec chans w :
  let w' := add_wait_queues chans w in (forall i, i ∈ queues w' <-> i ∈ chans \/ i ∈ queues w) /\ (time w <= time w')%nat.
Proof.
  revert w. induction chans as [|j chans IH]; intros w; cbn -[tick].
  - split; [|lia]. intros i. split; [auto|]. by intros [?%elem_of_nil|?].
  - destruct (IH (tick (Waiter (time w) (running w) (j :: queues w)))) as [H1 H2]. cbn in H1, H2. split; [|lia].
    intros i. rewrite H1, !elem_of_cons. tauto.
Qed.

Lemma schedule_spec fuel w :
  justified w ->
  match schedule fuel w with
  | Ok w' => queues w' = queues w /\ (time w <= time w')%nat /\ justified w' /\ running w' = true
  | Fault f => f = OutOfFuel /\ forall m, (m < time w + fuel)%nat -> ((time w <= m)%nat -> ~ wakes (queues w) m) /\ signal m = false
  end.
Proof.
  revert w. induction fuel as [|fuel IH]; intros w Hj; cbn [schedule]; destruct (running w || signal_pending (time w)) eqn:Hr.
  - cbn. split; [done|]. split; [lia|]. split; [|done]. intros _. cbn. apply orb_prop in Hr as [Hr|Hr]; [by apply Hj|auto].
  - split; [done|]. apply orb_false_elim in Hr as [_ Hp]. intros m Hm. split; [lia|].
    apply Bool.not_true_iff_false. intros Hs. apply Bool.not_true_iff_false in Hp. apply Hp, pending_spec. exists m. split; [lia|done].
  - cbn. split; [done|]. split; [lia|]. split; [|done]. intros _. cbn. apply orb_prop in Hr as [Hr|Hr]; [by apply Hj|auto].
  - specialize (IH (tick w) (tick_justified w Hj)). destruct (schedule fuel (tick w)) as [w'|f] eqn:Hsch.
    + destruct IH as (Hq & Ht & IH). cbn in Hq, Ht. split; [done|]. split; [lia|done].
    + destruct IH as (-> & IH). cbn in IH. split; [done|]. intros m Hm. destruct (IH m) as [H1 H2]; [lia|]. split; [|done].
      intros Hle. destruct (decide (m = time w)) as [->|]; [|apply H1; lia]. intros [Hw|Hw]; [|congruence].
      assert (Hrun : running (tick w) = true) by (cbn; rewrite Hw; by rewrite orb_true_r).
      destruct fuel; cbn [schedule] in Hsch; rewrite Hrun in Hsch; done.
Qed.
(** The meaning of a result. *)
Definition answers (chans : list nat) (r : Z) (n : nat) : Prop :=
  (exists k i, chans !! k = Some i /\ r = Z.of_nat k /\ ready n i = true) \/ (r = - ERESTARTSYS /\ signal_pending n = true).

(** One turn of the loop: a channel with a message, or a sleep that ended for a
    reason; it ends if anything arrives. *)
Lemma select_turn fuel chans w :
  (forall i, i ∈ queues w <-> i ∈ chans) ->
  let '(r, w1) := check_all chans 0 (tick (Waiter (time w) false (queues w))) in
  queues w1 = queues w /\ (time w <= time w1)%nat /\
  match r with
  | Some r => answers chans r (time w1)
  | None =>
      match schedule fuel w1 with
      | Ok w2 => queues w2 = queues w /\ (signal_pending (time w2) = true \/ exists i, i ∈ chans /\ ready (time w2) i = true)
      | Fault f => f = OutOfFuel /\ forall m, (m < fuel)%nat -> signal m = false /\ forall i, i ∈ chans -> arrive m i = false
      end
  end.
Proof.
  intros Hq. set (w0 := tick (Waiter (time w) false (queues w))).
  assert (Hj0 : justified w0) by by apply tick_justified.
  assert (Ha0 : attentive (time w) w0) by (apply tick_attentive; intros m Hm; cbn in Hm; lia).
  pose proof (check_all_spec chans 0 w0) as Hspec.
  pose proof (check_all_ind justified chans 0 w0 tick_justified Hj0) as Hj1.
  pose proof (check_all_ind (attentive (time w)) chans 0 w0 (tick_attentive (time w)) Ha0) as Ha1.
  destruct (check_all chans 0 w0) as [r w1]. cbn [snd] in Hj1, Ha1. destruct Hspec as (Hq1 & Ht1 & Hr).
  assert (Hw0 : time w0 = S (time w)) by done. cbn in Hq1. split; [done|]. split; [lia|]. destruct r as [x|].
  { destruct Hr as (k & i & Hk & -> & Hi & _). left. by exists k, i. }
  pose proof (schedule_spec fuel w1 Hj1) as Hs. destruct (schedule fuel w1) as [w2|f] eqn:Hsch.
  - destruct Hs as (Hq2 & Ht2 & Hj2 & Hr2). split; [congruence|]. destruct (Hj2 Hr2) as [?|(i & Hi & Hri)]; [auto|].
    right. exists i. split; [|done]. apply Hq. congruence.
  - destruct Hs as [-> Hs]. split; [done|]. assert (Hnr : running w1 = false).
    { destruct (running w1) eqn:E; [|done]. destruct fuel; cbn [schedule] in Hsch; by rewrite E in Hsch. }
    intros m Hm. split; [apply (Hs m); lia|]. intros i Hi. apply Bool.not_true_iff_false. intros Harr.
    assert (Hwk : wakes (queues w1) m).
    { left. apply existsb_exists. exists i. split; [|done]. apply list_elem_of_In. rewrite Hq1. by apply Hq. }
    destruct (decide (time w1 <= m)%nat) as [Hle|Hgt]; [by destruct (proj1 (Hs m ltac:(lia)) Hle)|].
    destruct (decide (time w <= m)%nat) as [Hle|Hlt]; [rewrite (Ha1 m) in Hnr; [done|lia|done]|].
    assert (Hrdy : ready (time w0) i = true) by (apply ready_spec; exists m; split; [lia|done]). rewrite (Hr i Hi) in Hrdy. done.
Qed.

Lemma select_loop_sound fuel chans w r w' :
  (forall i, i ∈ queues w <-> i ∈ chans) -> select_loop fuel chans w = Ok (r, w') -> answers chans r (time w').
Proof.
  revert w. induction fuel as [|fuel IH]; intros w Hq Heq; [done|]. cbn [select_loop] in Heq.
  pose proof (select_turn (S fuel) chans w Hq) as Ht. destruct (check_all _ _ _) as [[x|] w1].
  - injection Heq as <- <-. apply Ht.
  - destruct Ht as (_ & _ & Ht). destruct (schedule (S fuel) w1) as [w2|f]; [|done]. cbn [mbind res_bind] in Heq.
    destruct Ht as [Hq2 _]. destruct (signal_pending (time w2)) eqn:Hp.
    + injection Heq as <- <-. by right.
    + apply (IH w2); [|done]. by rewrite Hq2.
Qed.

(** With a message at hand the next turn ends the loop. *)
Lemma select_loop_ready fuel chans w i :
  i ∈ chans -> ready (time w) i = true -> exists r w', select_loop (S fuel) chans w = Ok (r, w').
Proof.
  intros Hi Hr. cbn [select_loop]. set (w0 := tick _). pose proof (check_all_spec chans 0 w0) as Hs.
  destruct (check_all chans 0 w0) as [[x|] w1]; [by eauto|]. destruct Hs as (_ & _ & Hs). specialize (Hs i Hi).
  apply (ready_mono _ (time w0)) in Hr; [congruence|cbn; lia].
Qed.

Lemma select_loop_returns fuel chans w m :
  (forall i, i ∈ queues w <-> i ∈ chans) -> signal m = true \/ (exists i, i ∈ chans /\ arrive m i = true) -> (m + 1 < fuel)%nat ->
  exists r w', select_loop fuel chans w = Ok (r, w').
Proof.
  intros Hq Hm Hf. destruct fuel as [|[|fuel]]; [lia..|]. cbn [select_loop].
  pose proof (select_turn (S (S fuel)) chans w Hq) as Ht. destruct (check_all _ _ _) as [[x|] w1]; [by eauto|].
  destruct Ht as (_ & _ & Ht). destruct (schedule (S (S fuel)) w1) as [w2|f].
  - cbn [mbind res_bind]. destruct Ht as [_ [->|(i & Hi & Hr)]]; [by eauto|]. destruct (signal_pending (time w2)); [by eauto|].
    destruct (select_loop_ready fuel chans w2 i Hi Hr) as (r & w' & Heq). eauto.
  - destruct Ht as [_ Ht]. destruct (Ht m) as [H1 H2]; [lia|]. destruct Hm as [?|(i & Hi & ?)]; [congruence|].
    rewrite H2 in *; done.
Qed.

Lemma tick_running w : running w = true -> running (tick w) = true.
Proof. intros Hr. cbn. by rewrite Hr. Qed.

(** No wake-up is lost: if a message or a signal ever arrives, the call returns,
    out of all queues and running, with a channel that has a message or because
    of a signal. *)
Lemma select_spec fuel chans w m :
  queues w = [] -> running w = true ->
  signal m = true \/ (exists i, i ∈ chans /\ arrive m i = true) -> (m + 1 < fuel)%nat ->
  exists r w', select fuel chans w = Ok (r, w') /\ queues w' = [] /\ running w' = true /\ answers chans r (time w').
Proof.
  intros Hq Hrun Hm Hf. unfold select. pose proof (check_all_spec chans 0 w) as Hs.
  pose proof (check_all_ind (fun w => running w = true) chans 0 w tick_running Hrun) as Hr1.
  destruct (check_all chans 0 w) as [[x|] w1]; destruct Hs as (Hq1 & _ & Hs).
  - exists x, w1. split; [done|]. split; [congruence|]. split; [done|]. destruct Hs as (k & i & Hk & -> & Hi & _). left. by exists k, i.
  - destruct (add_wait_queues_spec chans w1) as [Hq2 _]. set (w2 := add_wait_queues chans w1) in *.
    assert (Hq3 : forall i, i ∈ queues w2 <-> i ∈ chans).
    { intros i. rewrite Hq2, Hq1, Hq. split; [by intros [?|?%elem_of_nil]|auto]. }
    destruct (select_loop_returns fuel chans w2 m Hq3 Hm Hf) as (r & w' & Heq). rewrite Heq. cbn [mbind res_bind].
    exists r, (leave w'). split; [done|]. split; [done|]. split; [done|]. exact (select_loop_sound fuel chans w2 r w' Hq3 Heq).
Qed.
End select.

(** C11: No wake-up is lost while the policy thread waits for a response, a split
    request or a sample: if a message on one of the channels or a signal ever
    arrives, at any moment relative to the checks and the sleep, the call returns;
    the thread is then out of all wait queues and running, and the result is a
    channel that has a message, or -ERESTARTSYS with a signal pending. *)
Theorem mpsc_select3_no_lost_wakeup arrive signal fuel ch0 ch1 ch2 w m :
  queues w = [] -> running w = true ->
  signal m = true \/ (exists i, i ∈ [ch0; ch1; ch2] /\ arrive m i = true) -> (m + 1 < fuel)%nat ->
  exists r w', mpsc_select3 arrive signal fuel ch0 ch1 ch2 w = Ok (r, w') /\ queues w' = [] /\ running w' = true /\
    answers arrive signal [ch0; ch1; ch2] r (time w').
Proof. apply select_spec. Qed.

(** A message on the second channel just after the thread has looked at it. *)
Definition demo_arrive (m i : nat) : bool := bool_decide (m = 9%nat /\ i = 1%nat).

Lemma mpsc_select3_no_lost_wakeup_witness :
  exists r w', mpsc_select3 demo_arrive (fun _ => false) 12 0 1 2 (Waiter 0 true []) = Ok (r, w') /\ queues w' = [] /\ running w' = true /\
    answers demo_arrive (fun _ => false) [0; 1; 2]%nat r (time w').
Proof.
  apply (mpsc_select3_no_lost_wakeup demo_arrive (fun _ => false) 12 0 1 2 (Waiter 0 true []) 9); [reflexivity|reflexivity| |lia].
  right. exists 1%nat. split; [repeat constructor|reflexivity].
Defined.
